(* ===== verification/_CoqProject ===== *)
-Q . S2P
Prelude.v
Layout.v
Segments.v
Memory.v
CString.v
Printfmt.v
Console.v
Monitor.v
Kernel.v
PageAlloc.v
PageTable.v
EntryPgdir.v
Env.v
EnvFree.v
MemInit.v
Kdebug.v
Backtrace.v
Sched.v
Syscall.v
Keeps.v
Trap.v
Spinlock.v
Upcall.v
Ulib.v
Cow.v
Fork.v
Load.v
Isolation.v
Spaces.v
Reachable.v
Boot.v
MpConfig.v
Lapic.v
Smp.v
Init.v
