(* ===== verification/Prelude.v ===== *)
(** * A verification of JOS

    JOS is a small exokernel-style operating system for 32-bit x86 PCs: a boot
    loader (src/boot/), a kernel (src/kern/), a user library (src/lib/, shared in
    part with the kernel) and test programs (src/user/).  This library models the C
    code of the first three and proves what makes it correct.  Definitions carry the
    names of the source; each file opens with the sources it follows.

    ** How the parts interact

    The boot loader reads the kernel's ELF image from the disk and enters it on the
    page tables of entrypgdir.c.  i386_init sets up the console, memory (pmap.c),
    environments (env.c), traps (trap.c) and the other processors (mpconfig.c,
    lapic.c, init.c) and calls the scheduler (sched.c), which enters an environment.
    From then on the kernel runs only in trap(): an interrupt, fault or system call
    (syscall.c) takes the kernel lock (spinlock.c), is handled, and ends in user mode
    again, in the same environment or another.  User programs reach the kernel through
    the stubs of lib/syscall.c; fork with copy-on-write (lib/fork.c) is built on page
    faults that the kernel reflects to user space (lib/pgfault.c, pfentry.S).

    ** Files

    - Prelude: truth values, machine integers as [Z] with their wrap-around ([u8],
      [u32], [s32], ...), bit fields, tactics ([zlia], [bcomp], [case_if]) and the
      record setters.
    - Layout: inc/types.h, inc/mmu.h, inc/memlayout.h: rounding, the fields of a linear
      address, flags, the address space.
    - Memory: bytes, words and blocks as a finite map from addresses to bytes.
    - CString: lib/string.c.  Printfmt: lib/printfmt.c, generic in the output callback.
    - Console: kern/console.c, kern/printf.c, kern/picirq.c: the input ring, the keyboard,
      serial port, printer and display; cprintf.  Monitor: lib/readline.c, kern/monitor.c.
    - Kernel: the kernel's globals as the record [kstate], its structs, and the monad [K]
      that the kernel's functions are written in.
    - Segments: descriptors, the GDT and the gates of the IDT.
    - PageAlloc, PageTable, MemInit: kern/pmap.c: the page allocator, the page tables with
      the processor's translation, mem_init with its self-checks.  EntryPgdir:
      kern/entrypgdir.c.
    - Env, EnvFree: kern/env.c.  Sched: kern/sched.c.  Syscall: kern/syscall.c.  Keeps:
      what a system call that returns leaves alone.  Trap: kern/trap.c.  Upcall: the user page fault path of kern/trap.c and lib/pfentry.S.
    - Kdebug: kern/kdebug.c.  Backtrace: get_caller_pcs and mon_backtrace.  Spinlock: kern/spinlock.c at the grain of memory accesses.
    - Ulib: the user library.  Cow: lib/fork.c's page fault handler on the kernel.
      Fork: duppage and fork as a whole, on the memories of parent and child.
    - Load: env_create and load_icode, through the page tables of the new environment.
    - Isolation, Spaces, Reachable: all address spaces together: the invariant [kmem] of
      the kernel's memory, the operations that keep it, and the states that the steps of
      kernel and user code reach.
    - Boot: boot/main.c.  MpConfig: kern/mpconfig.c.  Lapic: kern/lapic.c.  Init:
      kern/init.c, in sequence.  Smp: the start of the processors for any interleaving.

    ** State and effects

    [kstate] has a field for each global variable and register that the code uses.
    Physical memory is one map; a kernel pointer is an integer and is dereferenced at
    its offset from KERNBASE, so the page directories, the page tables and the contents
    of pages are bytes that can alias, while the arrays pages, envs and cpus are maps
    from indices to records (a pointer into one is an index, null is [None]).  A run of
    [K A] ends in [Ok], a return; [Leave], an exit of C code that does not return (to user
    mode, into the monitor by a panic, a halt); or [Undef], where C leaves the behaviour
    undefined.  Port and APIC writes, TLB flushes and messages are the list [log].  Code
    outside the kernel's state has a model of its own: string and printing routines are
    functions on a memory, the console drivers and the boot loader thread a hardware state
    through parameters or classes ([Ports], [Ide], [Terminal], [LocalApic]), the user
    library runs against the class [SystemCalls], which the kernel implements: [kernel_gate]
    is the dispatcher of the source, and [gate] the same with the cases of its switch as a
    parameter.

    Loops over an index bound are [kfor] or recursion on the number of turns left.  Loops
    that run until a condition holds take fuel and a theorem says how much is enough: the
    length of a string (CString), twice the region (Kdebug, stab_binsearch), the length of
    the searched block (MpConfig), the polls a device needs (Boot, Lapic), NENV calls of
    the scheduler (Sched, sched_fair).  Of the formatting engine, whose loops end with the
    format and with the argument strings, it is shown that some amount is enough
    ([settles], Printfmt and Console).  Smp has no fuel: a failed poll is a step, schedules
    are infinite and fair, and at most 8 * ncpu + 3 steps are not failed polls.

    ** What is proved

    - Strings and printing: memmove and memset move exactly their bytes for any overlap
      and alignment; vsnprintf stays in its buffer; strtol inverts printnum; cprintf shows
      what an abstract terminal shows.
    - Memory: the allocator refines a stack of free pages and never hands a page out
      twice; page_insert, page_remove and boot_map_region change exactly one page or
      region, keep every reference count and the invariant [pgdir_wf]; mem_init builds
      the documented address space; user_mem_check answers exactly; the entry page tables
      are the two windows they should be.
    - Environments: envid2env accepts exactly the caller's live environments; env_alloc
      gives fresh ids and address spaces; env_free returns every page an environment
      holds; the scheduler is round-robin and starves no one.
    - Isolation: from env_init on, whatever environments are created and whatever they
      call, store, send, fork or destroy, within the limits stated below, user code writes
      only to allocated pages that
      hold no page table, no page is free while it is mapped, no tables are shared, and
      the calls return ([Reachable.spaces_isolated]).
    - Loading: env_create puts an ELF image where it belongs, with zeroes behind it, in
      fresh pages, and leaves the rest of memory alone.
    - System calls: sys_page_alloc, sys_page_map, sys_ipc_try_send and sys_ipc_recv on every
      branch; the dispatcher.
    - Traps: which gates user code may use; trap() always leaves the kernel consistent;
      timer interrupts and system calls resume the right registers (of a system call,
      exactly those of the trap but for eax); a user page fault
      and the return from its handler restore all registers; the copy-on-write handler
      gives a private copy and touches no other page, on a dispatcher with the cases that
      it needs.
    - fork, on a dispatcher that has the cases the source's lacks (on the source's own it
      panics, which is proved too): the child reads in every page below USTACKTOP what the parent read, from the
      same frame; afterwards neither side can write it unless it is marked shared; the child gets
      an exception stack and the handler of its own.
    - Concurrency: the spin lock excludes in every interleaving; the start of the
      processors is safe in every interleaving, and boot_aps ends under every fair
      schedule, however sched_yield ends for each processor (user mode, the halt, or the
      monitor with the lock held).
    - Boot: bootmain loads a well-formed image and enters it; mp_init accepts only valid
      tables; boot_aps brings up every processor they name; the monitor's line editor and command parser.

    Where the code does not do what it says, a theorem states what it does; so it is for
    the dispatcher (Syscall.syscall_drops, Ulib.library_on_kernel), permission bits that
    reach the page directory (Syscall.sys_page_alloc_table_escape), permissions outside
    PTE_SYSCALL that three calls accept (Syscall.sys_page_alloc_maps and the two after
    it), a search that can pass over an exact match (Kdebug.stab_binsearch_finds), ranges that wrap around
    (PageTable.user_mem_check_wraps) and the boot processor behind the end of cpus
    (MpConfig.mp_init_registers).

    ** Not modelled

    Assembly: boot.S, entry.S, mpentry.S and the register pushing of trapentry.S (trap()
    is given the frame it builds); of x86.h only what the C code relies on.  The inline
    assembly that switches stacks or halts is an exit.  The call stack that a spin
    lock records for debugging is computed (Backtrace) but not kept in the lock.  The test programs under src/user/ and
    src/fs/test.c: they exercise the system and are no part of it.  Caches and the TLB:
    translation reads the tables; flushes are recorded, and that page_remove makes the one
    it owes is proved.  Except in Spinlock and Smp the kernel runs one processor at a time,
    which is what the kernel lock is for.

    The limits of the theorems.  [Reachable.spaces_isolated] takes permissions within
    the twelve flag bits (a larger one reaches the page table, which is
    Syscall.sys_page_alloc_table_escape), reference counts below 65535 (they have
    sixteen bits and are not checked), no message that offers an unmapped page (the code
    reads an uninitialised pointer), and a processor that enters the kernel with an
    environment that still exists (env_destroy and sys_env_set_status can break that
    when two processors are involved); its steps are the handlers of kern/syscall.c,
    of which the dispatcher routes only sys_env_destroy.  The kernel's own writes to the user
    exception stack and the console calls are not among its steps; Upcall has theorems
    about the former.  Smp follows each processor up to the first time it leaves
    sched_yield; the traps that come later are Trap's.  Of fork, the child's own instructions after the return of
    sys_exofork are not run, only the state it starts in is described. *)

From Stdlib Require Export ZArith Lia.
From stdpp Require Export base numbers list gmap strings option.

#[export] Set Default Goal Selector "!".
#[export] Set Warnings "-clear-no-such-hyp".
Global Open Scope Z_scope.

(** ** Automation *)

Create HintDb jos discriminated.
Create Rewrite HintDb jos.
Create Rewrite HintDb jos_addr.
#[export] Hint Constants Opaque : jos.

(** Linear arithmetic with division and remainder by constants. *)
Ltac zlia := Z.to_euclidean_division_equations; lia.

(** Reduce the boolean comparisons of [Z] in the goal and the context. *)
Ltac bcomp :=
  repeat match goal with
  | H : (_ <? _) = true |- _ => apply Z.ltb_lt in H
  | H : (_ <? _) = false |- _ => apply Z.ltb_ge in H
  | H : (_ <=? _) = true |- _ => apply Z.leb_le in H
  | H : (_ <=? _) = false |- _ => apply Z.leb_gt in H
  | H : (_ =? _) = true |- _ => apply Z.eqb_eq in H
  | H : (_ =? _) = false |- _ => apply Z.eqb_neq in H
  | H : (_ && _) = true |- _ => apply andb_prop in H; destruct H
  | H : (_ || _) = false |- _ => apply orb_false_elim in H; destruct H
  | H : negb _ = true |- _ => apply negb_true_iff in H
  | H : negb _ = false |- _ => apply negb_false_iff in H
  end.

(** Case on the first [if] of the goal and clean the condition up. *)
Ltac case_if :=
  match goal with
  | |- context [if ?b then _ else _] =>
      lazymatch type of b with
      | bool => let E := fresh "Eb" in destruct b eqn:E; bcomp
      end
  end.

(** [mk_setter eta f]: the function that replaces field [f] of a record whose
    eta expansion is [eta]. *)
Ltac mk_setter eta f :=
  lazymatch type of f with
  | ?R -> ?E =>
      exact (fun (v : E) (r : R) =>
        ltac:(let t := eval cbv beta delta [eta] in (eta r) in
              lazymatch eval pattern (f r) in t with
              | ?h _ => let t' := eval cbv beta in (h v) in exact t'
              end))
  end.

(** ** C truth values *)

(** The C conversion of an integer to a condition. *)
Definition ctrue (x : Z) : bool := negb (x =? 0).

Lemma ctrue_true x : ctrue x = true <-> x <> 0.
Proof. unfold ctrue. rewrite negb_true_iff, Z.eqb_neq. done. Qed.

Lemma ctrue_false x : ctrue x = false <-> x = 0.
Proof. unfold ctrue. rewrite negb_false_iff, Z.eqb_eq. done. Qed.

(** ** Machine words

    A [w]-bit unsigned value is an integer in [0, 2^w); arithmetic that may
    leave the range is wrapped explicitly. *)

Definition u8 (x : Z) : Z := x mod 0x100.
Definition u16 (x : Z) : Z := x mod 0x10000.
Definition u32 (x : Z) : Z := x mod 0x100000000.
Definition u64 (x : Z) : Z := x mod 0x10000000000000000.

(** Two's complement reading of the low 32 bits ([int], [long] on i386). *)
Definition s32 (x : Z) : Z :=
  if u32 x <? 0x80000000 then u32 x else u32 x - 0x100000000.

(** Two's complement reading of the low 64 bits ([long long]). *)
Definition s64 (x : Z) : Z :=
  if u64 x <? 0x8000000000000000 then u64 x else u64 x - 0x10000000000000000.

(** Two's complement reading of the low 8 bits ([char] on i386). *)
Definition s8 (x : Z) : Z := if u8 x <? 0x80 then u8 x else u8 x - 0x100.

Lemma u8_range x : 0 <= u8 x < 0x100.
Proof. unfold u8. zlia. Qed.
Lemma u16_range x : 0 <= u16 x < 0x10000.
Proof. unfold u16. zlia. Qed.
Lemma u32_range x : 0 <= u32 x < 0x100000000.
Proof. unfold u32. zlia. Qed.
Lemma u64_range x : 0 <= u64 x < 0x10000000000000000.
Proof. unfold u64. zlia. Qed.
Lemma u8_small x : 0 <= x < 0x100 -> u8 x = x.
Proof. apply Z.mod_small. Qed.
Lemma u16_small x : 0 <= x < 0x10000 -> u16 x = x.
Proof. apply Z.mod_small. Qed.
Lemma u32_small x : 0 <= x < 0x100000000 -> u32 x = x.
Proof. apply Z.mod_small. Qed.
Lemma u32_carry x :
  0x100000000 <= x < 0x200000000 -> u32 x = x - 0x100000000.
Proof. intros. unfold u32. zlia. Qed.
Lemma u64_small x : 0 <= x < 0x10000000000000000 -> u64 x = x.
Proof. apply Z.mod_small. Qed.
Lemma u32_idem x : u32 (u32 x) = u32 x.
Proof. apply u32_small, u32_range. Qed.
Lemma u8_idem x : u8 (u8 x) = u8 x.
Proof. apply u8_small, u8_range. Qed.
Lemma s32_range x : - 0x80000000 <= s32 x < 0x80000000.
Proof. unfold s32. pose proof (u32_range x). case_if; lia. Qed.
Lemma s32_small x : - 0x80000000 <= x < 0x80000000 -> s32 x = x.
Proof. intros. unfold s32, u32. case_if; zlia. Qed.
Lemma u32_s32 x : u32 (s32 x) = u32 x.
Proof. unfold s32, u32. case_if; zlia. Qed.

#[export] Hint Rewrite u8_idem u32_idem u32_s32 : jos.

(** ** Bit fields *)

(** Setting bits below an aligned value is an addition. *)
Lemma lor_low a b n :
  0 <= n -> a mod 2 ^ n = 0 -> 0 <= b < 2 ^ n -> Z.lor a b = a + b.
Proof.
  intros Hn Ha Hb. symmetry. apply Z.add_nocarry_lor.
  apply Z.bits_inj'. intros i Hi. rewrite Z.land_spec, Z.bits_0.
  destruct (Z.lt_ge_cases i n) as [H|H].
  - replace a with (a / 2 ^ n * 2 ^ n).
    { rewrite Z.mul_pow2_bits_low by lia. done. }
    rewrite (Z.div_mod a (2 ^ n)) at 2 by (apply Z.pow_nonzero; lia).
    rewrite Ha. lia.
  - assert (Z.testbit b i = false) as ->; [|apply andb_false_r].
    destruct (decide (b = 0)) as [->|]; [apply Z.bits_0|].
    apply Z.bits_above_log2; [lia|].
    apply Z.lt_le_trans with n; [|done]. apply Z.log2_lt_pow2; lia.
Qed.

(** Masking with all ones below bit [n]. *)
Lemma land_low x n : 0 <= n -> Z.land x (Z.ones n) = x mod 2 ^ n.
Proof. apply Z.land_ones. Qed.

(** Clearing the low [n] bits. *)
Lemma land_high x n : 0 <= n -> Z.land x (Z.lnot (Z.ones n)) = x / 2 ^ n * 2 ^ n.
Proof.
  intros Hn. apply Z.bits_inj'. intros i Hi.
  rewrite Z.land_spec, Z.lnot_spec by done.
  destruct (Z.lt_ge_cases i n).
  - rewrite Z.ones_spec_low, Z.mul_pow2_bits_low by lia. by rewrite andb_false_r.
  - rewrite Z.ones_spec_high by lia. simpl. rewrite andb_true_r.
    rewrite Z.mul_pow2_bits by lia. rewrite Z.div_pow2_bits by lia.
    f_equal. lia.
Qed.

Lemma lor_range a b n :
  0 <= n -> 0 <= a < 2 ^ n -> 0 <= b < 2 ^ n -> 0 <= Z.lor a b < 2 ^ n.
Proof.
  intros Hn Ha Hb. split; [apply Z.lor_nonneg; lia|].
  destruct (decide (Z.lor a b = 0)) as [->|]; [lia|].
  assert (0 <= Z.lor a b) by (apply Z.lor_nonneg; lia).
  apply Z.log2_lt_pow2; [lia|]. rewrite Z.log2_lor by lia.
  apply Z.max_lub_lt.
  - destruct (decide (a = 0)) as [->|]; [|apply Z.log2_lt_pow2; lia].
    change (Z.log2 0) with 0. destruct (decide (n = 0)) as [->|]; [|lia].
    assert (b = 0) by lia. subst. done.
  - destruct (decide (b = 0)) as [->|]; [|apply Z.log2_lt_pow2; lia].
    change (Z.log2 0) with 0. destruct (decide (n = 0)) as [->|]; [|lia].
    assert (a = 0) by lia. subst. done.
Qed.

Lemma land_range a b n :
  0 <= n -> 0 <= b < 2 ^ n -> 0 <= Z.land a b < 2 ^ n.
Proof.
  intros Hn Hb.
  rewrite <- (Z.mod_small b (2 ^ n)), <- Z.land_ones, Z.land_assoc, Z.land_ones by done.
  apply Z.mod_pos_bound. lia.
Qed.

(** ** Lists and options *)

(** Every value below a bound, checked by evaluation. *)
Definition forallb_below (n : nat) (p : Z -> bool) : bool :=
  forallb p (seqZ 0 (Z.of_nat n)).

Lemma forallb_below_spec n p :
  forallb_below n p = true -> forall x, 0 <= x < Z.of_nat n -> p x = true.
Proof.
  unfold forallb_below. rewrite forallb_forall. intros H x Hx. apply H.
  apply list_elem_of_In, elem_of_seqZ. lia.
Qed.
