(* ===== verification/Layout.v ===== *)
(** * Layout: address arithmetic and the memory map

    [inc/types.h] (rounding), [inc/mmu.h] part 1 (linear addresses, page table
    entry flags) and [inc/memlayout.h] (the virtual memory map).  Addresses are
    32-bit values held in [Z]; every macro that can leave the range wraps. *)

From S2P Require Import Prelude.

(** ** inc/types.h: extrema and rounding *)

Definition MIN (a b : Z) : Z := if a <=? b then a else b.
Definition MAX (a b : Z) : Z := if a >=? b then a else b.
Definition ROUNDDOWN (a n : Z) : Z := u32 a - u32 a mod n.
Definition ROUNDUP (a n : Z) : Z :=
  ROUNDDOWN (u32 (u32 a + u32 n - 1)) (u32 n).

(** ** inc/mmu.h: paging constants *)

Definition PGSIZE : Z := 4096.
Definition PGSHIFT : Z := 12.
Definition PTSHIFT : Z := 22.
Definition PTXSHIFT : Z := 12.
Definition PDXSHIFT : Z := 22.
Definition NPDENTRIES : Z := 1024.
Definition NPTENTRIES : Z := 1024.
Definition PTSIZE : Z := PGSIZE * NPTENTRIES.

Definition PTE_P : Z := 0x001.
Definition PTE_W : Z := 0x002.
Definition PTE_U : Z := 0x004.
Definition PTE_PWT : Z := 0x008.
Definition PTE_PCD : Z := 0x010.
Definition PTE_A : Z := 0x020.
Definition PTE_D : Z := 0x040.
Definition PTE_PS : Z := 0x080.
Definition PTE_G : Z := 0x100.
Definition PTE_AVAIL : Z := 0xE00.
Definition PTE_SYSCALL : Z := Z.lor (Z.lor (Z.lor PTE_AVAIL PTE_P) PTE_W) PTE_U.

Definition CR0_PE : Z := 0x00000001.
Definition CR0_MP : Z := 0x00000002.
Definition CR0_EM : Z := 0x00000004.
Definition CR0_TS : Z := 0x00000008.
Definition CR0_ET : Z := 0x00000010.
Definition CR0_NE : Z := 0x00000020.
Definition CR0_WP : Z := 0x00010000.
Definition CR0_AM : Z := 0x00040000.
Definition CR0_NW : Z := 0x20000000.
Definition CR0_CD : Z := 0x40000000.
Definition CR0_PG : Z := 0x80000000.

Definition CR4_PCE : Z := 0x00000100.
Definition CR4_MCE : Z := 0x00000040.
Definition CR4_PSE : Z := 0x00000010.
Definition CR4_DE : Z := 0x00000008.
Definition CR4_TSD : Z := 0x00000004.
Definition CR4_PVI : Z := 0x00000002.
Definition CR4_VME : Z := 0x00000001.

Definition FL_CF : Z := 0x00000001.
Definition FL_PF : Z := 0x00000004.
Definition FL_AF : Z := 0x00000010.
Definition FL_ZF : Z := 0x00000040.
Definition FL_SF : Z := 0x00000080.
Definition FL_TF : Z := 0x00000100.
Definition FL_IF : Z := 0x00000200.
Definition FL_DF : Z := 0x00000400.
Definition FL_OF : Z := 0x00000800.
Definition FL_IOPL_MASK : Z := 0x00003000.
Definition FL_IOPL_0 : Z := 0x00000000.
Definition FL_IOPL_1 : Z := 0x00001000.
Definition FL_IOPL_2 : Z := 0x00002000.
Definition FL_IOPL_3 : Z := 0x00003000.
Definition FL_NT : Z := 0x00004000.
Definition FL_RF : Z := 0x00010000.
Definition FL_VM : Z := 0x00020000.
Definition FL_AC : Z := 0x00040000.
Definition FL_VIF : Z := 0x00080000.
Definition FL_VIP : Z := 0x00100000.
Definition FL_ID : Z := 0x00200000.

Definition FEC_PR : Z := 0x1.
Definition FEC_WR : Z := 0x2.
Definition FEC_U : Z := 0x4.

(** ** inc/mmu.h: linear addresses *)

Definition PGNUM (la : Z) : Z := Z.shiftr (u32 la) PTXSHIFT.
Definition PDX (la : Z) : Z := Z.land (Z.shiftr (u32 la) PDXSHIFT) 0x3FF.
Definition PTX (la : Z) : Z := Z.land (Z.shiftr (u32 la) PTXSHIFT) 0x3FF.
Definition PGOFF (la : Z) : Z := Z.land (u32 la) 0xFFF.
Definition PGADDR (d t o : Z) : Z :=
  u32 (Z.lor (Z.lor (Z.shiftl d PDXSHIFT) (Z.shiftl t PTXSHIFT)) o).
Definition PTE_ADDR (pte : Z) : Z := Z.land (u32 pte) (Z.lnot 0xFFF).

(** ** inc/memlayout.h: the virtual memory map *)

Definition GD_KT : Z := 0x08.
Definition GD_KD : Z := 0x10.
Definition GD_UT : Z := 0x18.
Definition GD_UD : Z := 0x20.
Definition GD_TSS0 : Z := 0x28.

Definition KERNBASE : Z := 0xF0000000.
Definition IOPHYSMEM : Z := 0x0A0000.
Definition EXTPHYSMEM : Z := 0x100000.
Definition KSTACKTOP : Z := KERNBASE.
Definition KSTKSIZE : Z := 8 * PGSIZE.
Definition KSTKGAP : Z := 8 * PGSIZE.
Definition MMIOLIM : Z := KSTACKTOP - PTSIZE.
Definition MMIOBASE : Z := MMIOLIM - PTSIZE.
Definition ULIM : Z := MMIOBASE.
Definition UVPT : Z := ULIM - PTSIZE.
Definition UPAGES : Z := UVPT - PTSIZE.
Definition UENVS : Z := UPAGES - PTSIZE.
Definition UTOP : Z := UENVS.
Definition UXSTACKTOP : Z := UTOP.
Definition USTACKTOP : Z := UTOP - 2 * PGSIZE.
Definition UTEXT : Z := 2 * PTSIZE.
Definition UTEMP : Z := PTSIZE.
Definition PFTEMP : Z := UTEMP + PTSIZE - PGSIZE.
Definition USTABDATA : Z := PTSIZE / 2.
Definition MPENTRY_PADDR : Z := 0x7000.

(** [uvpt] and [uvpd], the user's read-only view of its page tables; the
    symbols are placed at UVPT and UVPT + (UVPT >> 12) * 4. *)
Definition uvpt (pn : Z) : Z := UVPT + 4 * pn.
Definition uvpd (d : Z) : Z := UVPT + Z.shiftr UVPT PGSHIFT * 4 + 4 * d.

(** ** Rounding *)

Lemma ROUNDDOWN_mul a n : 0 < n -> ROUNDDOWN a n = u32 a / n * n.
Proof. intros Hn. unfold ROUNDDOWN. rewrite Z.mod_eq by lia. ring. Qed.

Lemma ROUNDDOWN_spec a n :
  0 < n ->
  ROUNDDOWN a n mod n = 0 /\ ROUNDDOWN a n <= u32 a < ROUNDDOWN a n + n /\
  0 <= ROUNDDOWN a n.
Proof.
  intros Hn. pose proof (u32_range a). pose proof (Z.mod_pos_bound (u32 a) n Hn).
  split; [rewrite ROUNDDOWN_mul by done; apply Z.mod_mul; lia|].
  split; [unfold ROUNDDOWN; lia|]. rewrite ROUNDDOWN_mul by done.
  assert (0 <= u32 a / n) by (apply Z.div_pos; lia). nia.
Qed.

(** Rounding up is exact unless it would pass 2^32. *)
Lemma ROUNDUP_spec a n :
  0 < n < 0x100000000 -> u32 a + n - 1 < 0x100000000 ->
  ROUNDUP a n mod n = 0 /\ u32 a <= ROUNDUP a n < u32 a + n.
Proof.
  intros Hn Ha. unfold ROUNDUP. pose proof (u32_range a).
  rewrite (u32_small n) by lia. rewrite (u32_small (u32 a + n - 1)) by lia.
  pose proof (ROUNDDOWN_spec (u32 a + n - 1) n ltac:(lia)) as (Hm & Hb & _).
  rewrite (u32_small (u32 a + n - 1)) in Hb by lia. split; [done|lia].
Qed.

Lemma ROUNDUP_mul a n :
  0 < n < 0x100000000 -> ROUNDUP a n = u32 (u32 a + n - 1) / n * n.
Proof.
  intros Hn. unfold ROUNDUP. rewrite (u32_small n) by lia.
  rewrite ROUNDDOWN_mul by lia. by rewrite u32_idem.
Qed.

(** The last partial unit below 2^32 rounds up to 0. *)
Lemma ROUNDUP_wraps a n :
  0 < n < 0x100000000 -> 0x100000000 < u32 a + n -> ROUNDUP a n = 0.
Proof.
  intros Hn Ha. unfold ROUNDUP. pose proof (u32_range a).
  rewrite (u32_small n) by lia.
  replace (u32 (u32 a + n - 1)) with (u32 a + n - 1 - 0x100000000)
    by (symmetry; apply u32_carry; lia).
  unfold ROUNDDOWN. rewrite u32_small by lia. rewrite Z.mod_small by lia. lia.
Qed.

(** ** Decomposition of linear addresses *)

Lemma PGNUM_div la : PGNUM la = u32 la / 4096.
Proof. unfold PGNUM, PTXSHIFT. by rewrite Z.shiftr_div_pow2. Qed.

Lemma PDX_div la : PDX la = u32 la / 4194304.
Proof.
  unfold PDX, PDXSHIFT. rewrite Z.shiftr_div_pow2 by lia.
  change 0x3FF with (Z.ones 10). rewrite land_low by lia.
  pose proof (u32_range la). apply Z.mod_small. zlia.
Qed.

Lemma PTX_div la : PTX la = (u32 la / 4096) mod 1024.
Proof.
  unfold PTX, PTXSHIFT. rewrite Z.shiftr_div_pow2 by lia.
  change 0x3FF with (Z.ones 10). by rewrite land_low.
Qed.

Lemma PGOFF_mod la : PGOFF la = u32 la mod 4096.
Proof. unfold PGOFF. change 0xFFF with (Z.ones 12). by rewrite land_low. Qed.

Lemma PTE_ADDR_div pte : PTE_ADDR pte = u32 pte / 4096 * 4096.
Proof. unfold PTE_ADDR. change 0xFFF with (Z.ones 12). by rewrite land_high. Qed.

Lemma PGADDR_add d t o :
  0 <= d < 1024 -> 0 <= t < 1024 -> 0 <= o < 4096 ->
  PGADDR d t o = d * 4194304 + t * 4096 + o.
Proof.
  intros Hd Ht Ho. unfold PGADDR, PDXSHIFT, PTXSHIFT.
  rewrite !Z.shiftl_mul_pow2 by lia.
  rewrite (lor_low (d * 2 ^ 22) (t * 2 ^ 12) 22); [|lia|zlia|lia].
  rewrite (lor_low _ o 12); [|lia|zlia|lia].
  rewrite u32_small; lia.
Qed.

Lemma PGNUM_range la : 0 <= PGNUM la < 1048576.
Proof. rewrite PGNUM_div. pose proof (u32_range la). zlia. Qed.
Lemma PDX_range la : 0 <= PDX la < 1024.
Proof. rewrite PDX_div. pose proof (u32_range la). zlia. Qed.
Lemma PTX_range la : 0 <= PTX la < 1024.
Proof. rewrite PTX_div. zlia. Qed.
Lemma PGOFF_range la : 0 <= PGOFF la < 4096.
Proof. rewrite PGOFF_mod. zlia. Qed.
Lemma PTE_ADDR_range pte : 0 <= PTE_ADDR pte <= 0xFFFFF000.
Proof. rewrite PTE_ADDR_div. pose proof (u32_range pte). zlia. Qed.
Lemma PTE_ADDR_aligned pte : PTE_ADDR pte mod 4096 = 0.
Proof. rewrite PTE_ADDR_div. zlia. Qed.
Lemma PGADDR_range d t o : 0 <= PGADDR d t o < 0x100000000.
Proof. apply u32_range. Qed.

(** An entry made of a page frame and flag bits gives both back. *)
Lemma PTE_ADDR_lor pa f :
  0 <= pa < 0x100000000 -> pa mod 4096 = 0 -> 0 <= f < 4096 ->
  PTE_ADDR (Z.lor pa f) = pa.
Proof.
  intros Hpa Ha Hf. rewrite (lor_low pa f 12) by (done || lia).
  rewrite PTE_ADDR_div, u32_small; zlia.
Qed.

Lemma land_flags_lor pa f m :
  0 <= pa -> pa mod 4096 = 0 -> 0 <= m < 4096 -> Z.land (Z.lor pa f) m = Z.land f m.
Proof.
  intros Hp Ha Hm. rewrite Z.land_lor_distr_l.
  replace (Z.land pa m) with 0; [done|].
  rewrite <- (Z.mod_small m (2 ^ 12)), <- Z.land_ones by lia.
  rewrite (Z.land_comm m), Z.land_assoc, Z.land_ones by lia.
  change (2 ^ 12) with 4096. by rewrite Ha.
Qed.

Lemma PGNUM_page pn : 0 <= pn < 1048576 -> PGNUM (pn * 4096) = pn.
Proof. intros. rewrite PGNUM_div, u32_small; zlia. Qed.

(** Two addresses of one page have the same indexes. *)
Lemma same_page_indexes va va' :
  PGNUM va = PGNUM va' <-> PDX va = PDX va' /\ PTX va = PTX va'.
Proof. rewrite !PGNUM_div, !PDX_div, !PTX_div. zlia. Qed.

(** The macros of inc/mmu.h split a linear address into its page directory
    index, page table index and offset without loss, and PGADDR puts them
    together again: PGADDR(PDX(la), PTX(la), PGOFF(la)) is la, and the three
    fields of PGADDR(d, t, o) are d, t and o whenever each is within its width. *)
Theorem pgaddr_roundtrip :
  (forall la, 0 <= la < 0x100000000 -> PGADDR (PDX la) (PTX la) (PGOFF la) = la) /\
  (forall d t o, 0 <= d < NPDENTRIES -> 0 <= t < NPTENTRIES -> 0 <= o < PGSIZE ->
     PDX (PGADDR d t o) = d /\ PTX (PGADDR d t o) = t /\ PGOFF (PGADDR d t o) = o).
Proof.
  split.
  - intros la Hla.
    rewrite (PGADDR_add _ _ _ (PDX_range la) (PTX_range la) (PGOFF_range la)).
    rewrite PDX_div, PTX_div, PGOFF_mod, u32_small by done. zlia.
  - unfold NPDENTRIES, NPTENTRIES, PGSIZE. intros d t o Hd Ht Ho.
    rewrite PGADDR_add, PDX_div, PTX_div, PGOFF_mod, u32_small by lia.
    split; [|split]; zlia.
Qed.

Lemma pgaddr_roundtrip_witness :
  PGADDR (PDX 0xeebfd123) (PTX 0xeebfd123) (PGOFF 0xeebfd123) = 0xeebfd123 /\
  PDX (PGADDR 954 1021 0x123) = 954.
Proof.
  split.
  - apply (proj1 pgaddr_roundtrip). lia.
  - apply (proj2 pgaddr_roundtrip 954 1021 0x123); vm_compute; split; congruence.
Defined.

#[export] Hint Resolve PGNUM_range PDX_range PTX_range PGOFF_range
  PTE_ADDR_range PTE_ADDR_aligned PGADDR_range : jos.

(** The address macros are used through their arithmetic equations. *)
Global Opaque PDX PTX PGOFF PGNUM PGADDR PTE_ADDR ROUNDDOWN ROUNDUP.

#[export] Hint Rewrite PGNUM_div PDX_div PTX_div PGOFF_mod PTE_ADDR_div : jos_addr.
