(* ===== verification/Segments.v ===== *)
(** * Segments: descriptors of inc/mmu.h, the GDT of kern/env.c and the IDT of kern/trap.c

    Segment and gate descriptors with their bit fields, the macros that build them,
    and what the processor reads back from them. *)

From S2P Require Import Prelude Layout.

(** ** Segment descriptors *)

Definition STA_X : Z := 8.
Definition STA_W : Z := 2.
Definition STA_R : Z := 2.
Definition STA_E : Z := 0x4.
Definition STA_C : Z := 0x4.
Definition STA_A : Z := 0x1.
Definition STS_T16A : Z := 0x1.
Definition STS_LDT : Z := 0x2.
Definition STS_T16B : Z := 0x3.
Definition STS_CG16 : Z := 0x4.
Definition STS_TG : Z := 0x5.
Definition STS_IG16 : Z := 0x6.
Definition STS_TG16 : Z := 0x7.
Definition STS_T32B : Z := 0xB.
Definition STS_CG32 : Z := 0xC.
Definition STS_T32A : Z := 9.
Definition STS_IG32 : Z := 0xE.
Definition STS_TG32 : Z := 0xF.

Record Segdesc := mkSegdesc {
  sd_lim_15_0 : Z;
  sd_base_15_0 : Z;
  sd_base_23_16 : Z;
  sd_type : Z;
  sd_s : Z;
  sd_dpl : Z;
  sd_p : Z;
  sd_lim_19_16 : Z;
  sd_avl : Z;
  sd_rsv1 : Z;
  sd_db : Z;
  sd_g : Z;
  sd_base_31_24 : Z;
}.
Definition eta_Segdesc (d : Segdesc) : Segdesc :=
  mkSegdesc (sd_lim_15_0 d) (sd_base_15_0 d) (sd_base_23_16 d) (sd_type d) (sd_s d) (sd_dpl d)
    (sd_p d) (sd_lim_19_16 d) (sd_avl d) (sd_rsv1 d) (sd_db d) (sd_g d) (sd_base_31_24 d).
Definition set_sd_s : Z -> Segdesc -> Segdesc := ltac:(mk_setter eta_Segdesc sd_s).

(** A value stored in a bit field of width [w]. *)
Definition field (w v : Z) : Z := Z.land v (Z.ones w).

Definition SEG_NULL : Segdesc := mkSegdesc 0 0 0 0 0 0 0 0 0 0 0 0 0.
Definition SEG_FAULT : Segdesc := mkSegdesc 0 0 0 0 1 0 1 0 0 0 1 0 0.
Definition SEG (type base lim dpl : Z) : Segdesc :=
  mkSegdesc (Z.land (Z.shiftr lim 12) 0xffff) (Z.land base 0xffff)
    (Z.land (Z.shiftr base 16) 0xff) (field 4 type) 1 (field 2 dpl) 1
    (field 4 (Z.shiftr lim 28)) 0 0 1 1 (field 8 (Z.shiftr base 24)).
Definition SEG16 (type base lim dpl : Z) : Segdesc :=
  mkSegdesc (Z.land lim 0xffff) (Z.land base 0xffff)
    (Z.land (Z.shiftr base 16) 0xff) (field 4 type) 1 (field 2 dpl) 1
    (field 4 (Z.shiftr lim 16)) 0 0 1 0 (field 8 (Z.shiftr base 24)).

(** The base and the last offset of a segment, as the processor reads them. *)
Definition seg_base (d : Segdesc) : Z :=
  sd_base_15_0 d + 0x10000 * sd_base_23_16 d + 0x1000000 * sd_base_31_24 d.
Definition seg_limit (d : Segdesc) : Z :=
  let l := sd_lim_15_0 d + 0x10000 * sd_lim_19_16 d in
  if sd_g d =? 1 then l * 4096 + 4095 else l.

(** ** Gate descriptors *)

Record Gatedesc := mkGatedesc {
  gd_off_15_0 : Z;
  gd_sel : Z;
  gd_args : Z;
  gd_rsv1 : Z;
  gd_type : Z;
  gd_s : Z;
  gd_dpl : Z;
  gd_p : Z;
  gd_off_31_16 : Z;
}.
Definition gate0 : Gatedesc := mkGatedesc 0 0 0 0 0 0 0 0 0.

Definition SETGATE (istrap : bool) (sel off dpl : Z) : Gatedesc :=
  mkGatedesc (Z.land off 0xffff) (field 16 sel) 0 0 (if istrap then STS_TG32 else STS_IG32) 0
    (field 2 dpl) 1 (Z.shiftr off 16).

Definition SETCALLGATE (sel off dpl : Z) : Gatedesc :=
  mkGatedesc (Z.land off 0xffff) (field 16 sel) 0 0 STS_CG32 0 (field 2 dpl) 1 (Z.shiftr off 16).

Definition gate_offset (g : Gatedesc) : Z := gd_off_15_0 g + 0x10000 * gd_off_31_16 g.

(** ** The global descriptor table: five segments, then a TSS descriptor per CPU *)

Definition gdt0 : list Segdesc :=
  [SEG_NULL; SEG (Z.lor STA_X STA_R) 0 0xffffffff 0; SEG STA_W 0 0xffffffff 0;
   SEG (Z.lor STA_X STA_R) 0 0xffffffff 3; SEG STA_W 0 0xffffffff 3] ++ replicate 8 SEG_NULL.

(** ** inc/trap.h: trap numbers *)

Definition T_DIVIDE : Z := 0.
Definition T_DEBUG : Z := 1.
Definition T_NMI : Z := 2.
Definition T_BRKPT : Z := 3.
Definition T_OFLOW : Z := 4.
Definition T_BOUND : Z := 5.
Definition T_ILLOP : Z := 6.
Definition T_DEVICE : Z := 7.
Definition T_DBLFLT : Z := 8.
Definition T_TSS : Z := 10.
Definition T_SEGNP : Z := 11.
Definition T_STACK : Z := 12.
Definition T_GPFLT : Z := 13.
Definition T_PGFLT : Z := 14.
Definition T_FPERR : Z := 16.
Definition T_ALIGN : Z := 17.
Definition T_MCHK : Z := 18.
Definition T_SIMDERR : Z := 19.
Definition T_SYSCALL : Z := 48.
Definition T_DEFAULT : Z := 500.
Definition IRQ_OFFSET : Z := 32.
Definition IRQ_TIMER : Z := 0.
Definition IRQ_KBD : Z := 1.
Definition IRQ_SERIAL : Z := 4.
Definition IRQ_SPURIOUS : Z := 7.
Definition IRQ_IDE : Z := 14.
Definition IRQ_ERROR : Z := 19.

(** ** The interrupt descriptor table *)

Definition idt0 : list Gatedesc := replicate 256 gate0.

(** The vectors that trap_init sets, in its order, with their privilege levels. *)
Definition trap_vectors : list (Z * Z) :=
  [(0, 0); (1, 0); (3, 3); (4, 0); (5, 0); (6, 0); (7, 0); (8, 0); (9, 0); (10, 0); (11, 0);
   (12, 0); (13, 0); (14, 0); (16, 0);
   (IRQ_OFFSET, 0); (IRQ_OFFSET + 1, 0); (IRQ_OFFSET + 2, 0); (IRQ_OFFSET + 3, 0);
   (IRQ_OFFSET + 4, 0); (IRQ_OFFSET + 5, 0); (IRQ_OFFSET + 6, 0); (IRQ_OFFSET + 7, 0);
   (IRQ_OFFSET + 8, 0); (IRQ_OFFSET + 9, 0); (IRQ_OFFSET + 10, 0); (IRQ_OFFSET + 11, 0);
   (IRQ_OFFSET + 12, 0); (IRQ_OFFSET + 13, 0); (IRQ_OFFSET + 14, 0); (IRQ_OFFSET + 15, 0);
   (T_SYSCALL, 3)].

(** The table after those assignments; [th n] is the address of the entry code for
    vector [n] (th0, ..., th47, th_syscall). *)
Definition set_gates (th : Z -> Z) (idt : list Gatedesc) : list Gatedesc :=
  foldl (fun idt '(n, dpl) => <[Z.to_nat n := SETGATE false GD_KT (th n) dpl]> idt)
    idt trap_vectors.

(** ** Properties *)

Lemma SEG_base type base lim dpl :
  0 <= base < 0x100000000 ->
  seg_base (SEG type base lim dpl) = base /\ seg_base (SEG16 type base lim dpl) = base.
Proof.
  intros Hb.
  assert (Z.land base 0xffff + 0x10000 * Z.land (Z.shiftr base 16) 0xff
    + 0x1000000 * field 8 (Z.shiftr base 24) = base) as E.
  { unfold field. change 0xffff with (Z.ones 16). change 0xff with (Z.ones 8).
    rewrite !land_low, !Z.shiftr_div_pow2 by lia. zlia. }
  by split.
Qed.

Lemma SEG_limit type base lim dpl :
  0 <= lim < 0x100000000 ->
  seg_limit (SEG type base lim dpl) = lim / 4096 * 4096 + 4095 /\
  (lim < 0x100000 -> seg_limit (SEG16 type base lim dpl) = lim).
Proof.
  intros Hl. unfold seg_limit. cbn [SEG SEG16 sd_lim_15_0 sd_lim_19_16 sd_g].
  change (1 =? 1) with true. change (0 =? 1) with false. cbv iota. unfold field.
  change 0xffff with (Z.ones 16). rewrite !land_low, !Z.shiftr_div_pow2 by lia. zlia.
Qed.

Lemma SETGATE_offset istrap sel off dpl :
  0 <= off < 0x100000000 -> gate_offset (SETGATE istrap sel off dpl) = off.
Proof.
  intros Ho. unfold gate_offset. cbn [SETGATE gd_off_15_0 gd_off_31_16].
  change 0xffff with (Z.ones 16). rewrite land_low, Z.shiftr_div_pow2 by lia. zlia.
Qed.

(** The descriptors hold what the macros are given: the processor reads back
    the base of SEG and SEG16, the limit of SEG rounded to 4 KB granularity, the
    limit of SEG16 below 1 MB, and the offset of SETGATE. *)
Theorem descriptor_roundtrip type base lim dpl istrap sel off :
  0 <= base < 0x100000000 -> 0 <= lim < 0x100000000 -> 0 <= off < 0x100000000 ->
  seg_base (SEG type base lim dpl) = base /\
  seg_limit (SEG type base lim dpl) = lim / 4096 * 4096 + 4095 /\
  seg_base (SEG16 type base lim dpl) = base /\
  (lim < 0x100000 -> seg_limit (SEG16 type base lim dpl) = lim) /\
  gate_offset (SETGATE istrap sel off dpl) = off.
Proof.
  intros Hb Hl Ho. destruct (SEG_base type base lim dpl Hb) as [H1 H2].
  destruct (SEG_limit type base lim dpl Hl) as [H3 H4].
  split; [done|]. split; [done|]. split; [done|]. split; [done|]. by apply SETGATE_offset.
Qed.

Lemma descriptor_roundtrip_witness :
  seg_base (SEG16 STS_T32A 0xf0254abc 104 0) = 0xf0254abc /\
  gate_offset (SETGATE false GD_KT 0xf0104242 3) = 0xf0104242.
Proof.
  destruct (descriptor_roundtrip STS_T32A 0xf0254abc 104 0 false GD_KT 0xf0104242
    ltac:(lia) ltac:(lia) ltac:(lia)) as (_ & _ & H1 & _ & H2).
  split; [exact H1|]. rewrite <- H2. reflexivity.
Defined.

(** The gate of vector [n] after trap_init. *)
Lemma set_gates_lookup th n :
  (n < 256)%nat ->
  set_gates th idt0 !! n =
    Some match list_to_map (M := gmap Z Z) trap_vectors !! Z.of_nat n with
         | Some dpl => SETGATE false GD_KT (th (Z.of_nat n)) dpl
         | None => gate0
         end.
Proof.
  intros Hn. do 256 (destruct n as [|n]; [reflexivity|]). lia.
Qed.

Definition vector_dpl (n : Z) : option Z := list_to_map (M := gmap Z Z) trap_vectors !! n.

Definition vector_check (n : Z) : bool :=
  eqb (bool_decide (vector_dpl n = Some 3)) ((n =? 3) || (n =? 48)) &&
  eqb (bool_decide (is_Some (vector_dpl n)))
    (((n <=? 16) && negb (n =? 2) && negb (n =? 15)) || ((32 <=? n) && (n <=? 48))) &&
  bool_decide (vector_dpl n = Some 3 \/ vector_dpl n = Some 0 \/ vector_dpl n = None).

Lemma vector_dpl_spec n :
  0 <= n < 256 ->
  (bool_decide (vector_dpl n = Some 3) = (n =? 3) || (n =? 48)) /\
  (bool_decide (is_Some (vector_dpl n)) =
     ((n <=? 16) && negb (n =? 2) && negb (n =? 15)) || ((32 <=? n) && (n <=? 48))) /\
  (bool_decide (vector_dpl n = Some 3 \/ vector_dpl n = Some 0 \/ vector_dpl n = None) = true).
Proof.
  intros Hn.
  pose proof (forallb_below_spec 256 vector_check ltac:(vm_compute; reflexivity) n ltac:(lia)) as H.
  unfold vector_check in H. rewrite !andb_true_iff, !eqb_true_iff in H. tauto.
Qed.

(** C27: The IDT that trap_init builds lets user code raise only the breakpoint and
    the system call.  Of the 256 vectors exactly 0, 1, 3 to 14, 16 and 32 to 48 are
    present; each of them is an interrupt gate (so the handler starts with
    interrupts off) into the kernel's code segment at the entry code of its own
    vector; and a program at privilege level 3 may raise by an int instruction
    exactly the vectors 3 and 48. *)
Theorem idt_gates th n :
  (forall k, 0 <= th k < 0x100000000) -> 0 <= n < 256 ->
  exists g, set_gates th idt0 !! Z.to_nat n = Some g /\
    (gd_p g = 1 <-> (n <= 16 /\ n <> 2 /\ n <> 15) \/ 32 <= n <= 48) /\
    (gd_p g = 1 -> gate_offset g = th n /\ gd_sel g = GD_KT /\ gd_type g = STS_IG32 /\ gd_s g = 0) /\
    (gd_p g = 1 /\ 3 <= gd_dpl g <-> n = 3 \/ n = 48).
Proof.
  intros Hth Hn. rewrite set_gates_lookup by lia. rewrite Z2Nat.id by lia.
  fold (vector_dpl n). destruct (vector_dpl_spec n Hn) as (H1 & H2 & H3).
  eexists. split; [done|].
  destruct (vector_dpl n) as [dpl|] eqn:E; cbn [SETGATE gate0 gd_p gd_dpl gd_sel gd_type gd_s].
  - rewrite (bool_decide_eq_true_2 (is_Some (Some dpl))) in H2 by (by eexists).
    symmetry in H2. rewrite orb_true_iff, !andb_true_iff, !negb_true_iff in H2. bcomp.
    apply bool_decide_eq_true_1 in H3.
    split; [lia|]. split; [intros _; by rewrite SETGATE_offset|].
    assert (dpl = 3 \/ dpl = 0) as [->| ->] by (destruct H3 as [H3|[H3|H3]]; simplify_eq; auto).
    + rewrite bool_decide_eq_true_2 in H1 by done. change (field 2 3) with 3.
      symmetry in H1. rewrite orb_true_iff in H1. lia.
    + rewrite bool_decide_eq_false_2 in H1 by done. change (field 2 0) with 0.
      symmetry in H1. rewrite orb_false_iff in H1. lia.
  - rewrite bool_decide_eq_false_2 in H1, H2 by (done || intros [? ?]; done).
    symmetry in H1, H2. rewrite orb_false_iff, !andb_false_iff, !negb_false_iff in H2.
    rewrite orb_false_iff in H1. split; [lia|]. split; [lia|lia].
Qed.

Lemma idt_gates_witness :
  exists g, set_gates (fun n => 0xf0104000 + 8 * (n mod 64)) idt0 !! 48%nat = Some g /\
    gd_p g = 1 /\ gate_offset g = 0xf0104180.
Proof.
  destruct (idt_gates (fun n => 0xf0104000 + 8 * (n mod 64)) 48) as (g & E & Hp & Ho & _).
  - intros k. zlia.
  - lia.
  - assert (gd_p g = 1) as H by (apply Hp; lia).
    exists g. split; [exact E|]. split; [exact H|]. rewrite (proj1 (Ho H)). reflexivity.
Defined.
