(* ===== verification/Memory.v ===== *)
(** * Memory: byte-addressed storage

    The C programs read and write bytes, 32-bit little-endian words and blocks.
    A memory is a finite map from addresses to bytes; an address that was never
    written reads as 0 (the content of unwritten RAM is never relied on).  A cell
    holds a byte: what is stored is cut to 8 bits. *)

From S2P Require Import Prelude.

Abbreviation memory := (gmap Z Z).

Definition load8 (m : memory) (a : Z) : Z := u8 (default 0 (m !! a)).
Definition store8 (m : memory) (a v : Z) : memory := <[a := u8 v]> m.

Definition load32 (m : memory) (a : Z) : Z :=
  load8 m a + 0x100 * load8 m (a + 1) + 0x10000 * load8 m (a + 2)
  + 0x1000000 * load8 m (a + 3).
Definition store32 (m : memory) (a v : Z) : memory :=
  store8 (store8 (store8 (store8 m a v) (a + 1) (v / 0x100)) (a + 2) (v / 0x10000))
         (a + 3) (v / 0x1000000).

Definition load16 (m : memory) (a : Z) : Z := load8 m a + 0x100 * load8 m (a + 1).
Definition store16 (m : memory) (a v : Z) : memory :=
  store8 (store8 m a v) (a + 1) (v / 0x100).

(** The [n] bytes from address [a] on. *)
Definition load_bytes (m : memory) (a : Z) (n : nat) : list Z :=
  (fun i => load8 m (a + i)) <$> seqZ 0 (Z.of_nat n).

Fixpoint store_bytes (m : memory) (a : Z) (bs : list Z) : memory :=
  match bs with
  | [] => m
  | b :: bs' => store_bytes (store8 m a b) (a + 1) bs'
  end.

(** ** Single bytes *)

Lemma load8_range m a : 0 <= load8 m a < 0x100.
Proof. apply u8_range. Qed.

Lemma load8_store8 m a v x :
  load8 (store8 m a v) x = if decide (a = x) then u8 v else load8 m x.
Proof.
  unfold load8, store8. rewrite lookup_insert. case_decide; simpl; [|done].
  apply u8_idem.
Qed.

Lemma load8_store8_eq m a v : load8 (store8 m a v) a = u8 v.
Proof. rewrite load8_store8. by rewrite decide_True. Qed.

Lemma load8_store8_ne m a v x : a <> x -> load8 (store8 m a v) x = load8 m x.
Proof. intros. rewrite load8_store8. by rewrite decide_False. Qed.

(** A memory is finite: it reads as 0 from some address on. *)
Lemma memory_ends m : exists L, forall x, L <= x -> load8 m x = 0.
Proof.
  induction m as [|a v m Hn [L IH]] using map_ind.
  - exists 0. intros x _. unfold load8. by rewrite lookup_empty.
  - exists (Z.max L (a + 1)). intros x Hx. unfold load8. rewrite lookup_insert_ne by lia. apply IH. lia.
Qed.

(** ** Words *)

Lemma load32_range m a : 0 <= load32 m a < 0x100000000.
Proof.
  unfold load32. pose proof (load8_range m a). pose proof (load8_range m (a + 1)).
  pose proof (load8_range m (a + 2)). pose proof (load8_range m (a + 3)). lia.
Qed.

Lemma u32_load32 m a : u32 (load32 m a) = load32 m a.
Proof. apply u32_small, load32_range. Qed.

Lemma load8_store32 m a v x :
  load8 (store32 m a v) x =
    if decide (x = a) then u8 v
    else if decide (x = a + 1) then u8 (v / 0x100)
    else if decide (x = a + 2) then u8 (v / 0x10000)
    else if decide (x = a + 3) then u8 (v / 0x1000000)
    else load8 m x.
Proof.
  unfold store32. rewrite !load8_store8. repeat case_decide; (done || lia).
Qed.

Lemma load32_store32_eq m a v : load32 (store32 m a v) a = u32 v.
Proof.
  unfold load32. rewrite !load8_store32.
  repeat ((rewrite decide_True by lia) || (rewrite decide_False by lia)).
  unfold u8, u32. change 0x10000 with (0x100 * 0x100).
  change 0x1000000 with (0x100 * 0x100 * 0x100).
  change 0x100000000 with (0x100 * 0x100 * 0x100 * 0x100).
  rewrite !Z.mod_eq, <- !Z.div_div by lia. lia.
Qed.

(** A word store changes no word that does not overlap it. *)
Lemma load32_store32_ne m a v x :
  x + 4 <= a \/ a + 4 <= x -> load32 (store32 m a v) x = load32 m x.
Proof.
  intros H. unfold load32. rewrite !load8_store32.
  rewrite !decide_False by lia. done.
Qed.

Lemma load32_store32_aligned m a v x :
  a mod 4 = 0 -> x mod 4 = 0 -> a <> x -> load32 (store32 m a v) x = load32 m x.
Proof. intros. apply load32_store32_ne. zlia. Qed.

(** The four bytes of a word. *)
Lemma store32_bytes m a v :
  store32 m a v = store8 (store8 (store8 (store8 m a v) (a + 1) (v / 0x100)) (a + 2) (v / 0x10000))
                    (a + 3) (v / 0x1000000).
Proof. done. Qed.

Lemma load32_bytes m a :
  load32 m a = load8 m a + 0x100 * load8 m (a + 1) + 0x10000 * load8 m (a + 2)
    + 0x1000000 * load8 m (a + 3).
Proof. done. Qed.

(** Copying a word copies its four bytes. *)
Lemma load8_copy32 m d s x :
  load8 (store32 m d (load32 m s)) x =
    if decide (d <= x < d + 4) then load8 m (s + (x - d)) else load8 m x.
Proof.
  pose proof (load8_range m s). pose proof (load8_range m (s + 1)).
  pose proof (load8_range m (s + 2)). pose proof (load8_range m (s + 3)).
  rewrite load8_store32. unfold load32, u8. repeat case_decide; subst; try lia.
  - replace (s + (d - d)) with s by lia. zlia.
  - replace (s + (d + 1 - d)) with (s + 1) by lia. zlia.
  - replace (s + (d + 2 - d)) with (s + 2) by lia. zlia.
  - replace (s + (d + 3 - d)) with (s + 3) by lia. zlia.
Qed.

(** A word is determined by its bytes. *)
Lemma load32_ext m m' a :
  (forall x, a <= x < a + 4 -> load8 m' x = load8 m x) -> load32 m' a = load32 m a.
Proof. intros H. unfold load32. rewrite !H by lia. done. Qed.

(** Words at two addresses with the same bytes. *)
Lemma load32_bytes_eq m m' a b :
  (forall k, 0 <= k < 4 -> load8 m' (a + k) = load8 m (b + k)) -> load32 m' a = load32 m b.
Proof.
  intros H. unfold load32. pose proof (H 0 ltac:(lia)) as H0. rewrite !Z.add_0_r in H0.
  by rewrite H0, !H by lia.
Qed.

(** ** Blocks *)

Lemma load8_store_bytes m a bs x :
  load8 (store_bytes m a bs) x =
    if decide (a <= x < a + Z.of_nat (length bs))
    then u8 (default 0 (bs !! Z.to_nat (x - a))) else load8 m x.
Proof.
  revert m a. induction bs as [|b bs IH]; intros m a; simpl.
  { rewrite decide_False by lia. done. }
  rewrite IH. destruct (decide (x = a)) as [->|Hne].
  - rewrite decide_False by lia. rewrite load8_store8_eq, decide_True by lia.
    by rewrite Z.sub_diag.
  - rewrite load8_store8_ne by done. repeat case_decide; try lia.
    replace (Z.to_nat (x - a)) with (S (Z.to_nat (x - (a + 1)))) by lia. done.
Qed.

Lemma length_load_bytes m a n : length (load_bytes m a n) = n.
Proof. unfold load_bytes. rewrite length_fmap, length_seqZ. lia. Qed.

Lemma lookup_load_bytes m a n i :
  (i < n)%nat -> load_bytes m a n !! i = Some (load8 m (a + Z.of_nat i)).
Proof.
  intros H. unfold load_bytes. rewrite list_lookup_fmap.
  rewrite lookup_seqZ_lt by lia. simpl. do 2 f_equal; lia.
Qed.

(** Storing a block and loading it back. *)
Lemma load_store_bytes m a bs :
  Forall (fun b => 0 <= b < 0x100) bs ->
  load_bytes (store_bytes m a bs) a (length bs) = bs.
Proof.
  intros Hb. apply list_eq. intros i.
  destruct (decide (i < length bs)%nat) as [Hi|Hi].
  - rewrite lookup_load_bytes by done. rewrite load8_store_bytes, decide_True by lia.
    replace (Z.to_nat (a + Z.of_nat i - a)) with i by lia.
    destruct (lookup_lt_is_Some_2 bs i Hi) as [b Hbi]. rewrite Hbi. simpl.
    rewrite u8_small; [done|]. by apply (Forall_lookup_1 _ _ _ _ Hb Hbi).
  - rewrite !lookup_ge_None_2; [done|lia|]. rewrite length_load_bytes. lia.
Qed.

(** A block of [n] equal bytes. *)
Definition fill_bytes (m : memory) (a c : Z) (n : nat) : memory :=
  store_bytes m a (replicate n c).

Lemma load8_fill_bytes m a c n x :
  load8 (fill_bytes m a c n) x =
    if decide (a <= x < a + Z.of_nat n) then u8 c else load8 m x.
Proof.
  unfold fill_bytes. rewrite load8_store_bytes, length_replicate.
  case_decide; [|done]. rewrite lookup_replicate_2 by lia. done.
Qed.

Lemma load32_fill_zero m a n x :
  a <= x -> x + 4 <= a + Z.of_nat n -> load32 (fill_bytes m a 0 n) x = 0.
Proof.
  intros. unfold load32. rewrite !load8_fill_bytes.
  rewrite !decide_True by lia. done.
Qed.

Lemma load32_fill_ne m a c n x :
  x + 4 <= a \/ a + Z.of_nat n <= x -> load32 (fill_bytes m a c n) x = load32 m x.
Proof.
  intros. apply load32_ext. intros y Hy. rewrite load8_fill_bytes.
  rewrite decide_False by lia. done.
Qed.

#[export] Hint Resolve load8_range load32_range : jos.
#[export] Hint Rewrite u32_load32 load32_store32_eq load8_store8_eq : jos.

Global Opaque load8 store8 load32 store32 fill_bytes.
