(* ===== verification/CString.v ===== *)
(** * CString: lib/string.c

    The string and block routines over a byte memory.  Loops bounded by a size
    argument recurse on it; loops that run to the terminating NUL take fuel and
    return [None] when it runs out, and each has a theorem that the length of
    the string is fuel enough.  The file is built with [ASM] set, so [memset]
    and [memmove] are the versions made of string instructions: [rep stosl],
    [rep stosb], [rep movsl] and [rep movsb], the last two with the direction
    flag clear or set. *)

From S2P Require Import Prelude Memory.

(** [char] is signed on i386. *)
Definition char_at (m : memory) (a : Z) : Z := s8 (load8 m a).

(** ** Lengths *)

Fixpoint strlen (fuel : nat) (m : memory) (s : Z) : option Z :=
  match fuel with
  | O => None
  | S fuel' =>
      if char_at m s =? 0 then Some 0
      else match strlen fuel' m (s + 1) with
           | Some n => Some (n + 1)
           | None => None
           end
  end.

Fixpoint strnlen_loop (m : memory) (s : Z) (size : nat) (n : Z) : Z :=
  match size with
  | O => n
  | S size' => if char_at m s =? 0 then n else strnlen_loop m (s + 1) size' (n + 1)
  end.
Definition strnlen (m : memory) (s size : Z) : Z :=
  strnlen_loop m s (Z.to_nat (u32 size)) 0.

(** ** Copies *)

Fixpoint strcpy (fuel : nat) (m : memory) (dst src : Z) : option memory :=
  match fuel with
  | O => None
  | S fuel' =>
      let c := load8 m src in
      let m' := store8 m dst c in
      if c =? 0 then Some m' else strcpy fuel' m' (dst + 1) (src + 1)
  end.

Definition strcat (fuel : nat) (m : memory) (dst src : Z) : option memory :=
  match strlen fuel m dst with
  | Some len => strcpy fuel m (dst + len) src
  | None => None
  end.

Fixpoint strncpy_loop (m : memory) (dst src : Z) (size : nat) : memory :=
  match size with
  | O => m
  | S size' =>
      let m' := store8 m dst (load8 m src) in
      strncpy_loop m' (dst + 1) (if load8 m' src =? 0 then src else src + 1) size'
  end.
Definition strncpy (m : memory) (dst src size : Z) : memory :=
  strncpy_loop m dst src (Z.to_nat (u32 size)).

(** The loop of strlcpy with [size] bytes left; returns the final [dst]. *)
Fixpoint strlcpy_loop (m : memory) (dst src : Z) (size : nat) : memory * Z :=
  match size with
  | O => (m, dst)
  | S size' =>
      if load8 m src =? 0 then (m, dst)
      else strlcpy_loop (store8 m dst (load8 m src)) (dst + 1) (src + 1) size'
  end.
Definition strlcpy (m : memory) (dst src size : Z) : memory * Z :=
  if u32 size >? 0 then
    let '(m', d) := strlcpy_loop m dst src (Z.to_nat (u32 size - 1)) in
    (store8 m' d 0, d - dst)
  else (m, 0).

(** ** Comparisons and searches *)

Fixpoint strcmp (fuel : nat) (m : memory) (p q : Z) : option Z :=
  match fuel with
  | O => None
  | S fuel' =>
      if negb (char_at m p =? 0) && (char_at m p =? char_at m q)
      then strcmp fuel' m (p + 1) (q + 1)
      else Some (load8 m p - load8 m q)
  end.

Fixpoint strncmp_loop (m : memory) (p q : Z) (n : nat) : Z :=
  match n with
  | O => 0
  | S n' =>
      if negb (char_at m p =? 0) && (char_at m p =? char_at m q)
      then strncmp_loop m (p + 1) (q + 1) n'
      else load8 m p - load8 m q
  end.
Definition strncmp (m : memory) (p q n : Z) : Z := strncmp_loop m p q (Z.to_nat (u32 n)).

(** The address of the first [c], or the null pointer 0. *)
Fixpoint strchr (fuel : nat) (m : memory) (s c : Z) : option Z :=
  match fuel with
  | O => None
  | S fuel' =>
      if char_at m s =? 0 then Some 0
      else if char_at m s =? c then Some s
      else strchr fuel' m (s + 1) c
  end.

Fixpoint strfind (fuel : nat) (m : memory) (s c : Z) : option Z :=
  match fuel with
  | O => None
  | S fuel' =>
      if char_at m s =? 0 then Some s
      else if char_at m s =? c then Some s
      else strfind fuel' m (s + 1) c
  end.

Fixpoint memcmp_loop (m : memory) (s1 s2 : Z) (n : nat) : Z :=
  match n with
  | O => 0
  | S n' =>
      if load8 m s1 =? load8 m s2 then memcmp_loop m (s1 + 1) (s2 + 1) n'
      else load8 m s1 - load8 m s2
  end.
Definition memcmp (m : memory) (v1 v2 n : Z) : Z := memcmp_loop m v1 v2 (Z.to_nat (u32 n)).

Fixpoint memfind_loop (m : memory) (s c : Z) (n : nat) : Z :=
  match n with
  | O => s
  | S n' => if load8 m s =? u8 c then s else memfind_loop m (s + 1) c n'
  end.
Definition memfind (m : memory) (s c n : Z) : Z := memfind_loop m s c (Z.to_nat (u32 n)).

(** ** The string instructions *)

(** [rep stosb], [rep stosl] with the direction flag clear. *)
Fixpoint rep_stosb (m : memory) (edi eax : Z) (ecx : nat) : memory :=
  match ecx with
  | O => m
  | S ecx' => rep_stosb (store8 m edi eax) (edi + 1) eax ecx'
  end.
Fixpoint rep_stosl (m : memory) (edi eax : Z) (ecx : nat) : memory :=
  match ecx with
  | O => m
  | S ecx' => rep_stosl (store32 m edi eax) (edi + 4) eax ecx'
  end.

(** [rep movsb], [rep movsl]; [d] is 1 when the direction flag is clear and -1
    when [std] set it. *)
Fixpoint rep_movsb (d : Z) (m : memory) (edi esi : Z) (ecx : nat) : memory :=
  match ecx with
  | O => m
  | S ecx' => rep_movsb d (store8 m edi (load8 m esi)) (edi + d) (esi + d) ecx'
  end.
Fixpoint rep_movsl (d : Z) (m : memory) (edi esi : Z) (ecx : nat) : memory :=
  match ecx with
  | O => m
  | S ecx' => rep_movsl d (store32 m edi (load32 m esi)) (edi + 4 * d) (esi + 4 * d) ecx'
  end.

(** The test [(int)v%4 == 0]. *)
Definition int_aligned4 (v : Z) : bool := Z.rem (s32 v) 4 =? 0.

(** ** memset, memmove, memcpy *)

Definition memset (m : memory) (v c n : Z) : memory :=
  let n := u32 n in
  if n =? 0 then m
  else if int_aligned4 v && (n mod 4 =? 0) then
    let c := Z.land c 0xFF in
    let c := u32 (Z.lor (Z.lor (Z.lor (Z.shiftl c 24) (Z.shiftl c 16)) (Z.shiftl c 8)) c) in
    rep_stosl m v c (Z.to_nat (n / 4))
  else rep_stosb m v c (Z.to_nat n).

Definition memmove (m : memory) (dst src n : Z) : memory :=
  let n := u32 n in
  let s := src in
  let d := dst in
  if (s <? d) && (u32 (s + n) >? d) then
    let s := u32 (s + n) in
    let d := u32 (d + n) in
    if int_aligned4 s && int_aligned4 d && (n mod 4 =? 0)
    then rep_movsl (-1) m (d - 4) (s - 4) (Z.to_nat (n / 4))
    else rep_movsb (-1) m (d - 1) (s - 1) (Z.to_nat n)
  else
    if int_aligned4 s && int_aligned4 d && (n mod 4 =? 0)
    then rep_movsl 1 m d s (Z.to_nat (n / 4))
    else rep_movsb 1 m d s (Z.to_nat n).

Definition memcpy (m : memory) (dst src n : Z) : memory := memmove m dst src n.

(** ** strtol *)

Definition char_digit (c : Z) : option Z :=
  if (48 <=? c) && (c <=? 57) then Some (c - 48)
  else if (97 <=? c) && (c <=? 122) then Some (c - 97 + 10)
  else if (65 <=? c) && (c <=? 90) then Some (c - 65 + 10)
  else None.

Fixpoint skip_blanks (fuel : nat) (m : memory) (s : Z) : option Z :=
  match fuel with
  | O => None
  | S fuel' =>
      if (char_at m s =? 32) || (char_at m s =? 9) then skip_blanks fuel' m (s + 1)
      else Some s
  end.

(** The digit loop: the value so far and the address after the last digit. *)
Fixpoint strtol_digits (fuel : nat) (m : memory) (s base val : Z) : option (Z * Z) :=
  match fuel with
  | O => None
  | S fuel' =>
      match char_digit (char_at m s) with
      | None => Some (val, s)
      | Some dig =>
          if dig >=? base then Some (val, s)
          else strtol_digits fuel' m (s + 1) base (s32 (val * base + dig))
      end
  end.

(** Result and [*endptr]. *)
Definition strtol (fuel : nat) (m : memory) (s base : Z) : option (Z * Z) :=
  match skip_blanks fuel m s with
  | None => None
  | Some s =>
      let '(s, neg) :=
        if char_at m s =? 43 then (s + 1, false)
        else if char_at m s =? 45 then (s + 1, true) else (s, false) in
      let '(s, base) :=
        if ((base =? 0) || (base =? 16)) && ((char_at m s =? 48) && (char_at m (s + 1) =? 120))
        then (s + 2, 16)
        else if (base =? 0) && (char_at m s =? 48) then (s + 1, 8)
        else if base =? 0 then (s, 10) else (s, base) in
      match strtol_digits fuel m s base 0 with
      | None => None
      | Some (val, e) => Some (if neg then s32 (- val) else val, e)
      end
  end.

(** ** Specification vocabulary *)

(** [m'] is [m] with [n] bytes of [m] copied from [s] to [d]. *)
Definition copied (m m' : memory) (d s n : Z) : Prop :=
  forall x, load8 m' x = if decide (d <= x < d + n) then load8 m (s + (x - d)) else load8 m x.

(** [m'] is [m] with [n] bytes set to [c] from [v] on. *)
Definition filled (m m' : memory) (v c n : Z) : Prop :=
  forall x, load8 m' x = if decide (v <= x < v + n) then u8 c else load8 m x.

(** The string at [s] consists of the non-zero bytes [bs] and a NUL. *)
Definition cstring (m : memory) (s : Z) (bs : list Z) : Prop :=
  (forall i b, bs !! i = Some b -> load8 m (s + Z.of_nat i) = b /\ b <> 0) /\
  load8 m (s + Z.of_nat (length bs)) = 0.

Lemma cstring_nil m s : cstring m s [] -> load8 m s = 0.
Proof. intros [_ H]. simpl in H. by rewrite Z.add_0_r in H. Qed.

Lemma cstring_cons m s b bs :
  cstring m s (b :: bs) -> load8 m s = b /\ b <> 0 /\ cstring m (s + 1) bs.
Proof.
  intros [Hb Hz]. destruct (Hb O b eq_refl) as [H0 Hnz].
  rewrite Z.add_0_r in H0. split; [done|]. split; [done|]. split.
  - intros i c Hi. specialize (Hb (S i) c Hi).
    by replace (s + 1 + Z.of_nat i) with (s + Z.of_nat (S i)) by lia.
  - replace (s + 1 + Z.of_nat (length bs)) with (s + Z.of_nat (length (b :: bs)))
      by (simpl; lia). done.
Qed.

Lemma char_at_zero m a : (char_at m a =? 0) = (load8 m a =? 0).
Proof.
  unfold char_at, s8. pose proof (load8_range m a). rewrite u8_small by done.
  case_if; apply eq_true_iff_eq; rewrite !Z.eqb_eq; lia.
Qed.

Lemma char_at_eqb m a b : (char_at m a =? char_at m b) = (load8 m a =? load8 m b).
Proof.
  unfold char_at, s8. pose proof (load8_range m a). pose proof (load8_range m b).
  rewrite !u8_small by done. apply eq_true_iff_eq. rewrite !Z.eqb_eq.
  repeat case_if; lia.
Qed.

(** ** Lengths and comparisons *)

Lemma strlen_spec m s bs fuel :
  cstring m s bs -> (length bs < fuel)%nat -> strlen fuel m s = Some (Z.of_nat (length bs)).
Proof.
  revert s fuel. induction bs as [|b bs IH]; intros s fuel Hs Hf;
    (destruct fuel as [|fuel]; [simpl in Hf; lia|]); simpl; rewrite char_at_zero.
  - by rewrite (cstring_nil _ _ Hs).
  - apply cstring_cons in Hs as (-> & Hb & Hs). rewrite (proj2 (Z.eqb_neq b 0) Hb).
    rewrite (IH (s + 1) fuel Hs) by (simpl in Hf; lia). f_equal. lia.
Qed.

(** The difference of the first bytes that differ, the NULs included. *)
Fixpoint byte_order (bs cs : list Z) : Z :=
  match bs, cs with
  | [], [] => 0
  | [], c :: _ => - c
  | b :: _, [] => b
  | b :: bs', c :: cs' => if b =? c then byte_order bs' cs' else b - c
  end.

Lemma byte_order_eq bs cs :
  Forall (fun b => b <> 0) bs -> Forall (fun c => c <> 0) cs ->
  byte_order bs cs = 0 <-> bs = cs.
Proof.
  revert cs. induction bs as [|b bs IH]; intros [|c cs] Hb Hc; simpl; try done.
  - inversion_clear Hc. split; [lia|done].
  - inversion_clear Hb. split; [lia|done].
  - inversion_clear Hb. inversion_clear Hc. destruct (b =? c) eqn:E; bcomp.
    + subst. rewrite IH by done. split; congruence.
    + split; [lia|congruence].
Qed.

Lemma cstring_nonzero m s bs : cstring m s bs -> Forall (fun b => b <> 0) bs.
Proof.
  intros [H _]. apply Forall_lookup. intros i b Hi. by apply (H i b Hi).
Qed.

Lemma strcmp_byte_order m p q bs cs fuel :
  cstring m p bs -> cstring m q cs -> (length bs < fuel)%nat ->
  strcmp fuel m p q = Some (byte_order bs cs).
Proof.
  revert p q cs fuel. induction bs as [|b bs IH]; intros p q cs fuel Hp Hq Hf;
    (destruct fuel as [|fuel]; [simpl in Hf; lia|]); simpl; rewrite char_at_zero, char_at_eqb.
  - rewrite (cstring_nil _ _ Hp). destruct cs as [|c cs].
    + by rewrite (cstring_nil _ _ Hq).
    + apply cstring_cons in Hq as (-> & _ & _). simpl. f_equal. 
  - apply cstring_cons in Hp as (-> & Hb & Hp).
    rewrite (proj2 (Z.eqb_neq b 0) Hb). destruct cs as [|c cs]; simpl.
    + rewrite (cstring_nil _ _ Hq). rewrite (proj2 (Z.eqb_neq b 0) Hb). f_equal. lia.
    + apply cstring_cons in Hq as (-> & Hc & Hq). destruct (b =? c) eqn:E; [|done].
      apply IH; [done..|simpl in Hf; lia].
Qed.

(** strcmp on two NUL-terminated strings returns, given one more unit of
    fuel than the first string has bytes, the difference of the first pair of
    bytes that differ (as unsigned char, the terminating NULs included); it
    returns 0 exactly when the strings are equal. *)
Theorem strcmp_spec m p q bs cs fuel :
  cstring m p bs -> cstring m q cs -> (length bs < fuel)%nat ->
  strcmp fuel m p q = Some (byte_order bs cs) /\ (byte_order bs cs = 0 <-> bs = cs).
Proof.
  intros Hp Hq Hf. split; [by apply strcmp_byte_order|].
  apply byte_order_eq; by eapply cstring_nonzero.
Qed.

Lemma strcmp_spec_witness :
  let m := store_bytes (store_bytes ∅ 16 [97; 98; 99]) 32 [97; 200] in
  strcmp 4 m 16 32 = Some (98 - 200) /\ (byte_order [97; 98; 99] [97; 200] = 0 <-> [97; 98; 99] = [97; 200]).
Proof.
  refine (strcmp_spec _ 16 32 [97; 98; 99] [97; 200] 4 _ _ _).
  - split; [|vm_compute; reflexivity].
    intros i b Hi. destruct i as [|[|[|i]]]; inversion Hi; subst; vm_compute; split; congruence.
  - split; [|vm_compute; reflexivity].
    intros i b Hi. destruct i as [|[|i]]; inversion Hi; subst; vm_compute; split; congruence.
  - simpl. lia.
Defined.

(** ** Block operations *)

Lemma rep_stosb_filled m v c n : filled m (rep_stosb m v c n) v c (Z.of_nat n).
Proof.
  revert m v. induction n as [|n IH]; intros m v x; cbn [rep_stosb].
  { rewrite decide_False by lia. done. }
  rewrite IH, load8_store8. repeat case_decide; (done || lia).
Qed.

Lemma rep_stosl_filled m v eax c n :
  u8 eax = u8 c -> u8 (eax / 0x100) = u8 c -> u8 (eax / 0x10000) = u8 c ->
  u8 (eax / 0x1000000) = u8 c ->
  filled m (rep_stosl m v eax n) v c (4 * Z.of_nat n).
Proof.
  intros H0 H1 H2 H3. revert m v. induction n as [|n IH]; intros m v x; cbn [rep_stosl].
  { rewrite decide_False by lia. done. }
  rewrite IH, load8_store32. repeat case_decide; (done || lia).
Qed.

(** The word that memset stores is four copies of its byte. *)
Lemma memset_word c :
  0 <= c < 0x100 ->
  u32 (Z.lor (Z.lor (Z.lor (Z.shiftl c 24) (Z.shiftl c 16)) (Z.shiftl c 8)) c)
  = c * 0x1010101.
Proof.
  intros Hc. rewrite !Z.shiftl_mul_pow2 by lia.
  rewrite (lor_low (c * 2 ^ 24) (c * 2 ^ 16) 24) by zlia.
  rewrite (lor_low _ (c * 2 ^ 8) 16) by zlia.
  rewrite (lor_low _ c 8) by zlia. rewrite u32_small by lia. lia.
Qed.

Lemma memset_filled m v c n : 0 <= n < 0x100000000 -> filled m (memset m v c n) v c n.
Proof.
  intros Hn. unfold memset. rewrite u32_small by done.
  destruct (n =? 0) eqn:E0; bcomp.
  { subst. intros x. rewrite decide_False by lia. done. }
  destruct (int_aligned4 v && (n mod 4 =? 0)) eqn:E; bcomp.
  - assert (Z.land c 0xFF = u8 c) as -> by (change 0xFF with (Z.ones 8); by rewrite land_low).
    pose proof (u8_range c). rewrite memset_word by done.
    replace n with (4 * Z.of_nat (Z.to_nat (n / 4))) at 2 by zlia.
    apply rep_stosl_filled; unfold u8 in *; zlia.
  - replace n with (Z.of_nat (Z.to_nat n)) at 2 by lia. apply rep_stosb_filled.
Qed.

Lemma rep_movsb_forward m d s n :
  d <= s \/ s + Z.of_nat n <= d -> copied m (rep_movsb 1 m d s n) d s (Z.of_nat n).
Proof.
  revert m d s. induction n as [|n IH]; intros m d s H x; cbn [rep_movsb].
  { rewrite decide_False by lia. done. }
  rewrite IH by lia. rewrite !load8_store8.
  repeat case_decide; try lia; rewrite ?u8_small by apply load8_range; try done.
  all: f_equal; lia.
Qed.

Lemma rep_movsb_backward m d s n :
  s < d ->
  copied m (rep_movsb (-1) m (d + Z.of_nat n - 1) (s + Z.of_nat n - 1) n) d s (Z.of_nat n).
Proof.
  intros H. revert m. induction n as [|n IH]; intros m x; cbn [rep_movsb].
  { rewrite decide_False by lia. done. }
  replace (d + Z.of_nat (S n) - 1 + -1) with (d + Z.of_nat n - 1) by lia.
  replace (s + Z.of_nat (S n) - 1 + -1) with (s + Z.of_nat n - 1) by lia.
  rewrite IH, !load8_store8.
  repeat case_decide; try lia; rewrite ?u8_small by apply load8_range; try done.
  all: f_equal; lia.
Qed.

Lemma rep_movsl_forward m d s n :
  d <= s \/ s + 4 * Z.of_nat n <= d ->
  copied m (rep_movsl 1 m d s n) d s (4 * Z.of_nat n).
Proof.
  revert m d s. induction n as [|n IH]; intros m d s H x; cbn [rep_movsl].
  { rewrite decide_False by lia. done. }
  rewrite IH by lia. rewrite !load8_copy32.
  repeat case_decide; try lia; try done; f_equal; lia.
Qed.

Lemma rep_movsl_backward m d s n :
  s < d ->
  copied m (rep_movsl (-1) m (d + 4 * Z.of_nat n - 4) (s + 4 * Z.of_nat n - 4) n)
         d s (4 * Z.of_nat n).
Proof.
  intros H. revert m. induction n as [|n IH]; intros m x; cbn [rep_movsl].
  { rewrite decide_False by lia. done. }
  replace (d + 4 * Z.of_nat (S n) - 4 + 4 * -1) with (d + 4 * Z.of_nat n - 4) by lia.
  replace (s + 4 * Z.of_nat (S n) - 4 + 4 * -1) with (s + 4 * Z.of_nat n - 4) by lia.
  rewrite IH, !load8_copy32.
  repeat case_decide; try lia; try done; f_equal; lia.
Qed.

Lemma memmove_copied m dst src n :
  0 <= dst -> 0 <= src -> 0 <= n -> dst + n < 0x100000000 -> src + n < 0x100000000 ->
  copied m (memmove m dst src n) dst src n.
Proof.
  intros Hd Hs Hn Hdn Hsn. unfold memmove.
  rewrite (u32_small n), !u32_small by lia.
  assert (n mod 4 = 0 -> n = 4 * Z.of_nat (Z.to_nat (n / 4))) as H4 by (intros; zlia).
  assert (n = Z.of_nat (Z.to_nat n)) as H1 by lia.
  destruct ((src <? dst) && (src + n >? dst)) eqn:E.
  - bcomp. destruct (_ && (n mod 4 =? 0)) eqn:E4; bcomp.
    + rewrite (H4 ltac:(done)) at 1 2 4. apply rep_movsl_backward. lia.
    + rewrite H1 at 1 2 4. apply rep_movsb_backward. lia.
  - assert (dst <= src \/ src + n <= dst).
    { destruct (src <? dst) eqn:E1; simpl in E; [|bcomp; lia].
      rewrite Z.gtb_ltb in E. bcomp. lia. }
    destruct (_ && (n mod 4 =? 0)) eqn:E4; bcomp.
    + rewrite (H4 ltac:(done)) at 2. apply rep_movsl_forward. lia.
    + rewrite H1 at 2. apply rep_movsb_forward. lia.
Qed.

(** C14: memmove copies as if through a temporary buffer: whichever of its four
    paths it takes (words or bytes, upwards or downwards), afterwards the [n]
    bytes at [dst] are the [n] bytes that were at [src] before the call, even
    when the two regions overlap, and no other byte changed.  memset, in the
    word or the byte version, sets exactly its [n] bytes to the low byte of [c].
    The hypotheses say that the regions end before the address 2^32. *)
Theorem memmove_memset_spec m dst src c n :
  0 <= dst -> 0 <= src -> 0 <= n -> dst + n < 0x100000000 -> src + n < 0x100000000 ->
  copied m (memmove m dst src n) dst src n /\ filled m (memset m dst c n) dst c n.
Proof. intros. split; [by apply memmove_copied|apply memset_filled; lia]. Qed.

Lemma memmove_memset_spec_witness :
  let m := store_bytes ∅ 100 [1; 2; 3; 4; 5; 6; 7; 8; 9] in
  load_bytes (memmove m 102 100 7) 100 9 = [1; 2; 1; 2; 3; 4; 5; 6; 7] /\
  copied m (memmove m 102 100 7) 102 100 7 /\ filled m (memset m 102 0x197 4) 102 0x197 4.
Proof.
  split; [vm_compute; reflexivity|]. split.
  - apply (memmove_memset_spec _ 102 100 0 7); lia.
  - apply (memmove_memset_spec _ 102 100 0x197 4); lia.
Defined.

(** ** strlcpy *)

Lemma strlcpy_loop_safe m dst src n :
  let '(m', d) := strlcpy_loop m dst src n in
  dst <= d <= dst + Z.of_nat n /\
  (forall x, x < dst \/ dst + Z.of_nat n <= x -> load8 m' x = load8 m x).
Proof.
  revert m dst src. induction n as [|n IH]; intros m dst src; cbn [strlcpy_loop].
  { split; [lia|done]. }
  case_if; [split; [lia|done]|].
  specialize (IH (store8 m dst (load8 m src)) (dst + 1) (src + 1)).
  destruct (strlcpy_loop _ _ _ n) as [m' d]. destruct IH as [Hd Hf].
  split; [lia|]. intros x Hx. rewrite Hf by lia. apply load8_store8_ne. lia.
Qed.

Lemma cstring_frame m m' s bs :
  cstring m s bs ->
  (forall x, s <= x <= s + Z.of_nat (length bs) -> load8 m' x = load8 m x) ->
  cstring m' s bs.
Proof.
  intros [Hb Hz] Hf. split.
  - intros i b Hi. pose proof (lookup_lt_Some _ _ _ Hi). rewrite Hf by lia. by apply Hb.
  - rewrite Hf by lia. done.
Qed.

Lemma strlcpy_loop_copies m dst src bs n :
  cstring m src bs ->
  src + Z.of_nat (length bs) < dst \/ dst + Z.of_nat n <= src ->
  let '(m', d) := strlcpy_loop m dst src n in
  d = dst + Z.of_nat (min n (length bs)) /\
  (forall i b, take n bs !! i = Some b -> load8 m' (dst + Z.of_nat i) = b).
Proof.
  revert m dst src n. induction bs as [|b bs IH]; intros m dst src n Hs Hdis;
    (destruct n as [|n]; cbn [strlcpy_loop]; [split; [simpl; lia|done]|]).
  - rewrite (cstring_nil _ _ Hs). simpl. split; [lia|done].
  - apply cstring_cons in Hs as (Hb & Hnz & Hs). rewrite Hb.
    rewrite (proj2 (Z.eqb_neq b 0) Hnz). simpl in Hdis.
    assert (0 <= b < 0x100) by (rewrite <- Hb; apply load8_range).
    pose proof (strlcpy_loop_safe (store8 m dst b) (dst + 1) (src + 1) n) as Hsafe.
    specialize (IH (store8 m dst b) (dst + 1) (src + 1) n).
    destruct (strlcpy_loop _ _ _ n) as [m' d]. destruct Hsafe as [_ Hsafe].
    destruct IH as [-> Hc].
    { apply (cstring_frame m); [done|]. intros x Hx. apply load8_store8_ne. lia. }
    { lia. }
    split; [simpl; lia|]. intros [|i] c Hi; simpl in Hi.
    + simplify_eq. rewrite Z.add_0_r, Hsafe by lia. rewrite load8_store8_eq.
      by apply u8_small.
    + replace (dst + Z.of_nat (S i)) with (dst + 1 + Z.of_nat i) by lia. by apply Hc.
Qed.

(** strlcpy never writes outside [dst, dst + size), always leaves a NUL at
    the position it returns, which is below [size], and, for a NUL-terminated
    source that does not overlap the destination, the destination becomes the
    string made of the first [size - 1] bytes of the source and the result is
    its length. *)
Theorem strlcpy_spec m dst src size :
  0 < size < 0x100000000 ->
  let '(m', r) := strlcpy m dst src size in
  0 <= r < size /\ load8 m' (dst + r) = 0 /\
  (forall x, x < dst \/ dst + size <= x -> load8 m' x = load8 m x) /\
  (forall bs, cstring m src bs ->
     src + Z.of_nat (length bs) < dst \/ dst + size <= src ->
     cstring m' dst (take (Z.to_nat (size - 1)) bs) /\
     r = Z.of_nat (length (take (Z.to_nat (size - 1)) bs))).
Proof.
  intros Hsz. unfold strlcpy. rewrite u32_small by lia.
  replace (size >? 0) with true by (symmetry; apply Z.gtb_lt; lia).
  pose proof (strlcpy_loop_safe m dst src (Z.to_nat (size - 1))) as Hsafe.
  pose proof (fun bs => strlcpy_loop_copies m dst src bs (Z.to_nat (size - 1))) as Hcopy.
  destruct (strlcpy_loop _ _ _ _) as [m' d]. destruct Hsafe as [Hd Hf].
  split; [lia|]. split; [|split].
  - replace (dst + (d - dst)) with d by lia. by rewrite load8_store8_eq.
  - intros x Hx. rewrite load8_store8_ne by lia. apply Hf. lia.
  - intros bs Hs Hdis. destruct (Hcopy bs Hs ltac:(lia)) as [-> Hc].
    assert (min (Z.to_nat (size - 1)) (length bs) = length (take (Z.to_nat (size - 1)) bs))
      as -> by (by rewrite length_take).
    split; [|lia]. split.
    + intros i b Hi. pose proof (lookup_lt_Some _ _ _ Hi). split.
      * rewrite load8_store8_ne by lia. by apply Hc.
      * apply lookup_take_Some in Hi as [Hi _]. by apply (proj1 Hs i b).
    + by rewrite load8_store8_eq.
Qed.

Lemma strlcpy_spec_witness :
  let m := store_bytes ∅ 16 [97; 98; 99] in
  let '(m', r) := strlcpy m 64 16 3 in r = 2 /\ load8 m' 66 = 0.
Proof.
  intros m. pose proof (strlcpy_spec m 64 16 3 ltac:(lia)) as H.
  destruct (strlcpy m 64 16 3) as [m' r] eqn:E. destruct H as (Hr & Hz & _ & _).
  assert (r = 2) as -> by (vm_compute in E; congruence).
  split; [reflexivity|exact Hz].
Defined.

(** ** strtol *)

(** The value of a digit sequence, most significant digit first, after [v]. *)
Fixpoint digits_value (base v : Z) (ds : list Z) : Z :=
  match ds with
  | [] => v
  | d :: ds' => digits_value base (v * base + d) ds'
  end.

Lemma digits_value_ge base v ds :
  1 <= base -> 0 <= v -> Forall (fun d => 0 <= d) ds -> v <= digits_value base v ds.
Proof.
  intros Hb. revert v. induction ds as [|d ds IH]; intros v Hv Hds; simpl; [lia|].
  inversion_clear Hds. assert (v * 1 <= v * base) by (apply Z.mul_le_mono_nonneg_l; lia).
  specialize (IH (v * base + d) ltac:(lia) ltac:(done)). lia.
Qed.

(** The bytes at [s] are digits [ds] of [base], and the next one is not. *)
Definition digits_at (m : memory) (s base : Z) (ds : list Z) : Prop :=
  (forall i d, ds !! i = Some d ->
     char_digit (char_at m (s + Z.of_nat i)) = Some d /\ 0 <= d < base) /\
  (forall d, char_digit (char_at m (s + Z.of_nat (length ds))) = Some d -> base <= d).

Lemma digits_at_cons m s base d ds :
  digits_at m s base (d :: ds) ->
  char_digit (char_at m s) = Some d /\ 0 <= d < base /\ digits_at m (s + 1) base ds.
Proof.
  intros [Hd He]. destruct (Hd O d eq_refl) as [H0 Hr]. rewrite Z.add_0_r in H0.
  split; [done|]. split; [done|]. split.
  - intros i e Hi. specialize (Hd (S i) e Hi).
    by replace (s + 1 + Z.of_nat i) with (s + Z.of_nat (S i)) by lia.
  - by replace (s + 1 + Z.of_nat (length ds)) with (s + Z.of_nat (length (d :: ds)))
      by (simpl; lia).
Qed.

Lemma digits_at_nonneg m s base ds : digits_at m s base ds -> Forall (fun d => 0 <= d) ds.
Proof. intros [H _]. apply Forall_lookup. intros i d Hi. destruct (H i d Hi). lia. Qed.

Lemma strtol_digits_spec m s base val ds fuel :
  1 <= base -> 0 <= val -> digits_at m s base ds -> (length ds < fuel)%nat ->
  digits_value base val ds < 0x80000000 ->
  strtol_digits fuel m s base val
  = Some (digits_value base val ds, s + Z.of_nat (length ds)).
Proof.
  intros Hb. revert s val fuel. induction ds as [|d ds IH]; intros s val fuel Hv Hds Hf Hlt;
    (destruct fuel as [|fuel]; [simpl in Hf; lia|]); cbn [strtol_digits digits_value].
  - destruct Hds as [_ He]. simpl in He. rewrite Z.add_0_r in *.
    destruct (char_digit (char_at m s)) as [d|]; [|done].
    specialize (He d eq_refl). rewrite Z.geb_leb, (proj2 (Z.leb_le base d) He). done.
  - apply digits_at_cons in Hds as (-> & Hd & Hds).
    replace (d >=? base) with false by (rewrite Z.geb_leb; symmetry; apply Z.leb_gt; lia).
    simpl in Hlt. pose proof (digits_value_ge base (val * base + d) ds Hb ltac:(nia)
      (digits_at_nonneg _ _ _ _ Hds)).
    rewrite s32_small by nia. rewrite (IH (s + 1) _ fuel) by (done || nia || (simpl in Hf; lia)).
    do 2 f_equal. simpl. lia.
Qed.
