(* ===== verification/Printfmt.v ===== *)
(** * Printfmt: lib/printfmt.c

    The formatted printing engine shared by the kernel and user programs.  The
    C code is generic in a callback [putch] and its [putdat]; here it is generic
    in a state type [St], a step [putch : Z -> St -> St] and a way to read a
    byte of memory in the current state, so that a callback that writes memory
    (snprintf) and a string argument that lies in the memory it writes are
    modelled as they behave.  A format is the list of its bytes, the end of the
    list standing for the NUL.  The argument list holds the 32-bit words of the
    caller's frame; a pointer to a string literal is kept as its bytes. *)

From S2P Require Import Prelude Memory CString.

(** ** inc/error.h *)

Definition E_UNSPECIFIED : Z := 1.
Definition E_BAD_ENV : Z := 2.
Definition E_INVAL : Z := 3.
Definition E_NO_MEM : Z := 4.
Definition E_NO_FREE_ENV : Z := 5.
Definition E_FAULT : Z := 6.
Definition E_IPC_NOT_RECV : Z := 7.
Definition E_EOF : Z := 8.
Definition MAXERROR : Z := 9.

(** Bytes of an ASCII literal. *)
Definition bytes_of (s : string) : list Z :=
  (fun c => Z.of_N (Ascii.N_of_ascii c)) <$> String.list_ascii_of_string s.

Definition error_string (err : Z) : option (list Z) :=
  if err =? E_UNSPECIFIED then Some (bytes_of "unspecified error")
  else if err =? E_BAD_ENV then Some (bytes_of "bad environment")
  else if err =? E_INVAL then Some (bytes_of "invalid parameter")
  else if err =? E_NO_MEM then Some (bytes_of "out of memory")
  else if err =? E_NO_FREE_ENV then Some (bytes_of "out of environments")
  else if err =? E_FAULT then Some (bytes_of "segmentation fault")
  else if err =? E_IPC_NOT_RECV then Some (bytes_of "env is not recving")
  else if err =? E_EOF then Some (bytes_of "unexpected end of file")
  else None.

(** ** Arguments *)

Inductive varg :=
| Word (w : Z)              (* a 32-bit word: an integer or an address *)
| Lit (bs : list Z).        (* a pointer to a string literal *)

Definition va_list := list varg.

(** [va_arg] of a 32-bit and of a 64-bit type (low word first). *)
Definition va_arg32 (ap : va_list) : option (Z * va_list) :=
  match ap with
  | Word w :: ap' => Some (u32 w, ap')
  | _ => None
  end.
Definition va_arg64 (ap : va_list) : option (Z * va_list) :=
  match ap with
  | Word lo :: Word hi :: ap' => Some (u32 lo + 0x100000000 * u32 hi, ap')
  | _ => None
  end.

Definition getuint (ap : va_list) (lflag : Z) : option (Z * va_list) :=
  if lflag >=? 2 then va_arg64 ap else va_arg32 ap.

Definition getint (ap : va_list) (lflag : Z) : option (Z * va_list) :=
  if lflag >=? 2 then
    match va_arg64 ap with Some (v, ap') => Some (s64 v, ap') | None => None end
  else
    match va_arg32 ap with Some (v, ap') => Some (s32 v, ap') | None => None end.

(** ** Results

    [Done] is a normal return.  [NoArg] marks behaviour that C leaves undefined:
    an argument that is missing or of another kind, or an index outside
    [error_string].  [NoFuel] means that the model's fuel ran out. *)
Inductive fmt_result (St : Type) :=
| Done (st : St)
| NoArg
| NoFuel.
Arguments Done {St} st.
Arguments NoArg {St}.
Arguments NoFuel {St}.

(** The local variables set by the flags of a conversion. *)
Record spec := mkSpec {
  padc : Z;
  width : Z;
  precision : Z;
  lflag : Z;
  altflag : bool;
}.
Definition eta_spec (r : spec) : spec :=
  mkSpec (padc r) (width r) (precision r) (lflag r) (altflag r).
Definition set_padc : Z -> spec -> spec := ltac:(mk_setter eta_spec padc).
Definition set_width : Z -> spec -> spec := ltac:(mk_setter eta_spec width).
Definition set_precision : Z -> spec -> spec := ltac:(mk_setter eta_spec precision).
Definition set_lflag : Z -> spec -> spec := ltac:(mk_setter eta_spec lflag).
Definition set_altflag : bool -> spec -> spec := ltac:(mk_setter eta_spec altflag).

Definition spec0 : spec := mkSpec 32 (-1) (-1) 0 false.

(** [process_precision]: a number is the width unless there is one already. *)
Definition process_precision (sp : spec) : spec :=
  if width sp <? 0 then set_precision (-1) (set_width (precision sp) sp) else sp.

(** The width digits: [precision = precision * 10 + ch - '0'] while the next
    character is a digit. *)
Fixpoint read_number (precision ch : Z) (fmt : list Z) : Z * list Z :=
  let precision := s32 (precision * 10 + ch - 48) in
  match fmt with
  | ch' :: fmt' =>
      if (ch' <? 48) || (ch' >? 57) then (precision, fmt)
      else read_number precision ch' fmt'
  | [] => (precision, [])
  end.

(** The next format character and what follows it; past the end it is NUL. *)
Definition next_char (fmt : list Z) : Z * list Z :=
  match fmt with [] => (0, []) | ch :: fmt' => (ch, fmt') end.

(** The flag characters of the [reswitch] loop: the conversion character, the
    rest of the format, the flags and the remaining arguments. *)
Fixpoint reswitch (fuel : nat) (sp : spec) (fmt : list Z) (ap : va_list)
    : fmt_result (Z * list Z * spec * va_list) :=
  match fuel with
  | O => NoFuel
  | S fuel' =>
      let '(ch, fmt') := next_char fmt in
      if ch =? 45 (* - *) then reswitch fuel' (set_padc 45 sp) fmt' ap
      else if ch =? 48 (* 0 *) then reswitch fuel' (set_padc 48 sp) fmt' ap
      else if (49 <=? ch) && (ch <=? 57) then
        let '(p, fmt'') := read_number 0 ch fmt' in
        reswitch fuel' (process_precision (set_precision p sp)) fmt'' ap
      else if ch =? 42 (* * *) then
        match va_arg32 ap with
        | None => NoArg
        | Some (p, ap') =>
            reswitch fuel' (process_precision (set_precision (s32 p) sp)) fmt' ap'
        end
      else if ch =? 46 (* . *) then
        reswitch fuel' (if width sp <? 0 then set_width 0 sp else sp) fmt' ap
      else if ch =? 35 (* # *) then reswitch fuel' (set_altflag true sp) fmt' ap
      else if ch =? 108 (* l *) then reswitch fuel' (set_lflag (lflag sp + 1) sp) fmt' ap
      else Done (ch, fmt', sp, ap)
  end.

(** A digit of [0123456789abcdef]. *)
Definition hex_digit (d : Z) : Z := if d <? 10 then 48 + d else 97 + (d - 10).

Section Engine.
Context {St : Type} (putch : Z -> St -> St) (getb : St -> Z -> Z).

(** [n] calls of putch with the same character. *)
Definition pad (c n : Z) (st : St) : St := Nat.iter (Z.to_nat n) (putch c) st.

(** printnum; 64 levels of recursion are enough for a 64-bit [num] in any base
    from 2 up ([printnum_output]). *)
Fixpoint printnum_rec (fuel : nat) (num base width padc : Z) (st : St) : St :=
  let st :=
    if num >=? base then
      match fuel with
      | O => st
      | S fuel' => printnum_rec fuel' (num / base) base (width - 1) padc st
      end
    else pad padc (width - 1) st in
  putch (hex_digit (num mod base)) st.
Definition printnum (num base width padc : Z) (st : St) : St :=
  printnum_rec 64 num base width padc st.

(** Byte [i] of a string argument. *)
Definition str_byte (st : St) (p : varg) (i : Z) : Z :=
  match p with
  | Word a => getb st (a + i)
  | Lit bs => default 0 (bs !! Z.to_nat i)
  end.

(** [strnlen(p, precision)]: the size argument is the precision as size_t. *)
Fixpoint str_nlen (fuel : nat) (st : St) (p : varg) (i size : Z) : option Z :=
  match fuel with
  | O => None
  | S fuel' =>
      if (size >? 0) && negb (str_byte st p i =? 0)
      then str_nlen fuel' st p (i + 1) (size - 1)
      else Some i
  end.

(** The character loop of %s; returns the remaining width. *)
Fixpoint str_chars (fuel : nat) (p : varg) (i : Z) (sp : spec) (st : St)
    : option (Z * St) :=
  match fuel with
  | O => None
  | S fuel' =>
      let ch := s8 (str_byte st p i) in
      if (ch =? 0) then Some (width sp, st)
      else
        let '(ok, sp') :=
          if precision sp <? 0 then (true, sp)
          else (precision sp - 1 >=? 0, set_precision (precision sp - 1) sp) in
        if ok then
          let st' :=
            if altflag sp && ((ch <? 32) || (ch >? 126)) then putch 63 st
            else putch ch st in
          str_chars fuel' p (i + 1) (set_width (width sp' - 1) sp') st'
        else Some (width sp', st)
  end.

Definition print_str (fuel : nat) (p : varg) (sp : spec) (st : St) : fmt_result St :=
  let p := match p with Word 0 => Lit (bytes_of "(null)") | _ => p end in
  let sp_st :=
    if (width sp >? 0) && negb (padc sp =? 45) then
      match str_nlen fuel st p 0 (u32 (precision sp)) with
      | None => None
      | Some len =>
          let w := width sp - len in
          Some (set_width (Z.min w 0) sp, pad (padc sp) w st)
      end
    else Some (sp, st) in
  match sp_st with
  | None => NoFuel
  | Some (sp, st) =>
      match str_chars fuel p 0 sp st with
      | None => NoFuel
      | Some (w, st) => Done (pad 32 w st)
      end
  end.

Definition print_unsigned (ap : va_list) (base : Z) (sp : spec) (st : St)
    : fmt_result (St * va_list) :=
  match getuint ap (lflag sp) with
  | None => NoArg
  | Some (num, ap') => Done (printnum num base (width sp) (padc sp) st, ap')
  end.

Definition print_signed (ap : va_list) (sp : spec) (st : St) : fmt_result (St * va_list) :=
  match getint ap (lflag sp) with
  | None => NoArg
  | Some (v, ap') =>
      let '(num, st) :=
        if v <? 0 then (u64 (- v), putch 45 st) else (u64 v, st) in
      Done (printnum num 10 (width sp) (padc sp) st, ap')
  end.

(** vprintfmt.  One unit of fuel per character printed or conversion handled,
    and for the string loops one per character of a string argument. *)
Fixpoint vprintfmt (fuel : nat) (fmt : list Z) (ap : va_list) (st : St) : fmt_result St :=
  match fuel with
  | O => NoFuel
  | S fuel' =>
      let '(ch, fmt) := next_char fmt in
      if negb (ch =? 37) then
        if ch =? 0 then Done st else vprintfmt fuel' fmt ap (putch ch st)
      else
      match reswitch fuel' spec0 fmt ap with
      | NoFuel => NoFuel
      | NoArg => NoArg
      | Done (ch, rest, sp, ap) =>
          if ch =? 99 (* c *) then
            match va_arg32 ap with
            | None => NoArg
            | Some (v, ap) => vprintfmt fuel' rest ap (putch (s32 v) st)
            end
          else if ch =? 101 (* e *) then
            match va_arg32 ap with
            | None => NoArg
            | Some (v, ap) =>
                let err := s32 v in
                let err := if err <? 0 then s32 (- err) else err in
                if err <? 0 then NoArg
                else
                  let r :=
                    match (if err >=? MAXERROR then None else error_string err) with
                    | None => vprintfmt fuel' (bytes_of "error %d") [Word err] st
                    | Some p => vprintfmt fuel' (bytes_of "%s") [Lit p] st
                    end in
                  match r with
                  | Done st => vprintfmt fuel' rest ap st
                  | NoArg => NoArg
                  | NoFuel => NoFuel
                  end
            end
          else if ch =? 115 (* s *) then
            match ap with
            | [] => NoArg
            | p :: ap =>
                match print_str fuel' p sp st with
                | Done st => vprintfmt fuel' rest ap st
                | NoArg => NoArg
                | NoFuel => NoFuel
                end
            end
          else if ch =? 100 (* d *) then
            match print_signed ap sp st with
            | Done (st, ap) => vprintfmt fuel' rest ap st
            | NoArg => NoArg
            | NoFuel => NoFuel
            end
          else if (ch =? 117) || (ch =? 111) || (ch =? 120) (* u, o, x *) then
            let base := if ch =? 117 then 10 else if ch =? 111 then 8 else 16 in
            match print_unsigned ap base sp st with
            | Done (st, ap) => vprintfmt fuel' rest ap st
            | NoArg => NoArg
            | NoFuel => NoFuel
            end
          else if ch =? 112 (* p *) then
            let st := putch 120 (putch 48 st) in
            match va_arg32 ap with
            | None => NoArg
            | Some (num, ap) =>
                vprintfmt fuel' rest ap (printnum num 16 (width sp) (padc sp) st)
            end
          else if ch =? 37 (* % *) then vprintfmt fuel' rest ap (putch ch st)
          else
            (* unrecognized: print '%' and go on right after it *)
            vprintfmt fuel' fmt ap (putch 37 st)
      end
  end.

(** The variadic form: the arguments after [fmt] are the list. *)
Definition printfmt (fuel : nat) (fmt : list Z) (args : va_list) (st : St) : fmt_result St :=
  vprintfmt fuel fmt args st.
End Engine.

(** ** snprintf *)

(** [struct sprintbuf], with the memory it points into. *)
Record sprintbuf := mkSprintbuf {
  sb_mem : memory;
  sb_buf : Z;
  sb_ebuf : Z;
  sb_cnt : Z;
}.

Definition sprintputch (ch : Z) (b : sprintbuf) : sprintbuf :=
  let cnt := sb_cnt b + 1 in
  if sb_buf b <? sb_ebuf b
  then mkSprintbuf (store8 (sb_mem b) (sb_buf b) ch) (sb_buf b + 1) (sb_ebuf b) cnt
  else mkSprintbuf (sb_mem b) (sb_buf b) (sb_ebuf b) cnt.

Definition sb_getb (b : sprintbuf) (a : Z) : Z := load8 (sb_mem b) a.

(** The result and the memory afterwards. *)
Definition vsnprintf (fuel : nat) (m : memory) (buf n : Z) (fmt : list Z) (ap : va_list)
    : fmt_result (Z * memory) :=
  let b := mkSprintbuf m buf (buf + n - 1) 0 in
  if (buf =? 0) || (n <? 1) then Done (- E_INVAL, m)
  else
    match vprintfmt sprintputch sb_getb fuel fmt ap b with
    | Done b => Done (sb_cnt b, store8 (sb_mem b) (sb_buf b) 0)
    | NoArg => NoArg
    | NoFuel => NoFuel
    end.

Definition snprintf (fuel : nat) (m : memory) (buf n : Z) (fmt : list Z) (args : va_list)
    : fmt_result (Z * memory) :=
  vsnprintf fuel m buf n fmt args.

(** ** The output of the engine

    [emit l] is the effect of putting the characters of [l] in order. *)

Definition emit {St} (putch : Z -> St -> St) (l : list Z) (st : St) : St :=
  fold_left (fun st c => putch c st) l st.

Lemma emit_app {St} (putch : Z -> St -> St) l1 l2 st :
  emit putch (l1 ++ l2) st = emit putch l2 (emit putch l1 st).
Proof. apply fold_left_app. Qed.

(** Collecting the characters in a list. *)
Definition collect (c : Z) (l : list Z) : list Z := l ++ [c].

Lemma emit_collect l l0 : emit collect l l0 = l0 ++ l.
Proof.
  unfold emit, collect. revert l0. induction l as [|c l IH]; intros l0; simpl.
  - by rewrite app_nil_r.
  - rewrite IH. by rewrite <- app_assoc.
Qed.

Lemma pad_emit {St} (putch : Z -> St -> St) c n st :
  pad putch c n st = emit putch (replicate (Z.to_nat n) c) st.
Proof.
  unfold pad. generalize (Z.to_nat n). clear n. intros n. revert st.
  induction n as [|n IH]; intros st; [done|].
  change (replicate (S n) c) with ([c] ++ replicate n c). rewrite emit_app, <- IH.
  rewrite Nat.iter_succ_r. done.
Qed.

(** The digits of [num], most significant first. *)
Fixpoint to_digits (fuel : nat) (num base : Z) : list Z :=
  (if num >=? base then
     match fuel with O => [] | S fuel' => to_digits fuel' (num / base) base end
   else []) ++ [num mod base].

Lemma printnum_rec_emit {St} (putch : Z -> St -> St) fuel num base w c st :
  2 <= base -> 0 <= num < base ^ Z.of_nat (S fuel) ->
  printnum_rec putch fuel num base w c st =
    emit putch (replicate (Z.to_nat (w - Z.of_nat (length (to_digits fuel num base)))) c
                ++ (hex_digit <$> to_digits fuel num base)) st.
Proof.
  intros Hb. revert num w st.
  induction fuel as [|fuel IH]; intros num w st Hn; cbn [printnum_rec to_digits];
    destruct (num >=? base) eqn:E; rewrite Z.geb_leb in E; bcomp.
  - change (Z.of_nat 1) with 1 in Hn. lia.
  - simpl. rewrite pad_emit, emit_app. done.
  - rewrite IH.
    + rewrite fmap_app, length_app, app_assoc, (emit_app _ (_ ++ _) (hex_digit <$> [_])).
      change (emit putch (hex_digit <$> [num mod base]) ?s)
        with (putch (hex_digit (num mod base)) s).
      do 3 f_equal. f_equal. f_equal. simpl. lia.
    + rewrite Nat2Z.inj_succ, Z.pow_succ_r in Hn by lia.
      split; [apply Z.div_pos; lia|]. apply Z.div_lt_upper_bound; lia.
  - simpl. rewrite pad_emit, emit_app. done.
Qed.

Lemma digits_value_app base v l1 l2 :
  digits_value base v (l1 ++ l2) = digits_value base (digits_value base v l1) l2.
Proof. revert v. induction l1 as [|d l1 IH]; intros v; simpl; [done|apply IH]. Qed.

Lemma to_digits_value fuel num base :
  2 <= base -> 0 <= num < base ^ Z.of_nat (S fuel) ->
  digits_value base 0 (to_digits fuel num base) = num.
Proof.
  intros Hb. revert num. induction fuel as [|fuel IH]; intros num Hn; cbn [to_digits];
    destruct (num >=? base) eqn:E; rewrite Z.geb_leb in E; bcomp; simpl.
  - change (Z.of_nat 1) with 1 in Hn. lia.
  - apply Z.mod_small. lia.
  - rewrite digits_value_app, IH.
    + simpl. rewrite (Z.div_mod num base) at 3 by lia. lia.
    + rewrite Nat2Z.inj_succ, Z.pow_succ_r in Hn by lia.
      split; [apply Z.div_pos; lia|]. apply Z.div_lt_upper_bound; lia.
  - apply Z.mod_small. lia.
Qed.

Lemma to_digits_range fuel num base :
  2 <= base -> Forall (fun d => 0 <= d < base) (to_digits fuel num base).
Proof.
  intros Hb. revert num. induction fuel as [|fuel IH]; intros num; cbn [to_digits];
    apply Forall_app; (split; [|apply Forall_singleton, Z.mod_pos_bound; lia]).
  - by destruct (num >=? base).
  - destruct (num >=? base); [apply IH|done].
Qed.

(** No leading zero, except for the number 0 itself. *)
Lemma to_digits_head fuel num base :
  2 <= base -> 0 <= num < base ^ Z.of_nat (S fuel) ->
  exists d ds, to_digits fuel num base = d :: ds /\ (d = 0 -> ds = [] /\ num = 0).
Proof.
  intros Hb. revert num. induction fuel as [|fuel IH]; intros num Hn; cbn [to_digits];
    destruct (num >=? base) eqn:E; rewrite Z.geb_leb in E; bcomp; simpl.
  - change (Z.of_nat 1) with 1 in Hn. lia.
  - exists (num mod base), []. rewrite Z.mod_small by lia. auto.
  - destruct (IH (num / base)) as (d & ds & -> & Hd).
    { rewrite Nat2Z.inj_succ, Z.pow_succ_r in Hn by lia.
      split; [apply Z.div_pos; lia|]. apply Z.div_lt_upper_bound; lia. }
    exists d, (ds ++ [num mod base]). split; [done|]. intros ->.
    destruct (Hd eq_refl) as [_ H0]. apply Z.div_small_iff in H0; lia.
  - exists (num mod base), []. rewrite Z.mod_small by lia. auto.
Qed.

Lemma u64_pow base num : 2 <= base -> 0 <= num < 0x10000000000000000 ->
  0 <= num < base ^ Z.of_nat 65.
Proof.
  intros Hb Hn. split; [lia|]. apply Z.lt_le_trans with (2 ^ Z.of_nat 65); [lia|].
  apply Z.pow_le_mono_l. lia.
Qed.

(** printnum prints a 64-bit number in full in every base from 2 to 16: it
    emits [width - length] padding characters (none when that is not positive)
    and then the number's digits, most significant first, without a leading
    zero unless the number is 0, and the digits denote the number.  64 levels
    of recursion are therefore always enough. *)
Theorem printnum_output {St} (putch : Z -> St -> St) num base w c st :
  2 <= base <= 16 -> 0 <= num < 0x10000000000000000 ->
  exists d ds,
    printnum putch num base w c st =
      emit putch (replicate (Z.to_nat (w - Z.of_nat (length (d :: ds)))) c
                  ++ (hex_digit <$> (d :: ds))) st /\
    Forall (fun x => 0 <= x < base) (d :: ds) /\
    digits_value base 0 (d :: ds) = num /\
    (d = 0 -> ds = [] /\ num = 0).
Proof.
  intros Hb Hn. pose proof (u64_pow base num ltac:(lia) Hn) as Hp.
  destruct (to_digits_head 64 num base ltac:(lia) Hp) as (d & ds & E & Hd).
  exists d, ds. rewrite <- E. unfold printnum.
  split; [by apply printnum_rec_emit; [lia|]|].
  split; [apply to_digits_range; lia|]. split; [|done]. apply to_digits_value; [lia|done].
Qed.

Lemma printnum_output_witness :
  printnum collect 48879 16 6 48 [] = bytes_of "00beef" /\
  exists d ds, digits_value 16 0 (d :: ds) = 48879.
Proof.
  split; [vm_compute; reflexivity|].
  destruct (printnum_output collect 48879 16 6 48 []) as (d & ds & H);
    [lia|lia|].
  exists d, ds. apply H.
Defined.

(** ** Printing and strtol *)

Lemma hex_digit_char d : 0 <= d < 16 ->
  48 <= hex_digit d <= 102 /\ char_digit (s8 (hex_digit d)) = Some d /\ hex_digit d <> 120.
Proof.
  intros Hd.
  assert (forallb_below 16 (fun d => (48 <=? hex_digit d) && (hex_digit d <=? 102) &&
    bool_decide (char_digit (s8 (hex_digit d)) = Some d) && negb (hex_digit d =? 120)) = true)
    as H by (vm_compute; reflexivity).
  apply (forallb_below_spec 16 _ H) in Hd. bcomp.
  split; [lia|]. split; [|done].
  match goal with E : bool_decide _ = true |- _ => by apply bool_decide_eq_true_1 in E end.
Qed.

Lemma cstring_digits m s base ds :
  base <= 16 -> Forall (fun d => 0 <= d < base) ds ->
  cstring m s (hex_digit <$> ds) -> digits_at m s base ds.
Proof.
  intros Hb Hds [Hc Hz]. split.
  - intros i d Hi. pose proof (Forall_lookup_1 _ _ _ _ Hds Hi) as Hd. simpl in Hd.
    destruct (Hc i (hex_digit d)) as [Hl _]; [by rewrite list_lookup_fmap, Hi|].
    unfold char_at. rewrite Hl. split; [|done]. apply hex_digit_char. lia.
  - intros d. rewrite length_fmap in Hz. unfold char_at. rewrite Hz. done.
Qed.

Lemma char_at_byte m a b : load8 m a = b -> b < 128 -> char_at m a = b.
Proof.
  intros H Hb. unfold char_at. rewrite H. pose proof (load8_range m a).
  unfold s8. rewrite u8_small by lia. case_if; lia.
Qed.

(** C15: strtol reads back what printnum printed: for a number below 2^31 and a
    base from 2 to 16, the digits that printnum emits, stored as a string,
    parse with the same base to the same number, and endptr is the address of
    the terminating NUL. *)
Theorem strtol_printnum m s num base fuel :
  2 <= base <= 16 -> 0 <= num < 0x80000000 ->
  cstring m s (printnum collect num base (-1) 32 []) ->
  (length (printnum collect num base (-1) 32 []) < fuel)%nat ->
  strtol fuel m s base =
    Some (num, s + Z.of_nat (length (printnum collect num base (-1) 32 []))).
Proof.
  intros Hb Hn. pose proof (u64_pow base num ltac:(lia) ltac:(lia)) as Hp.
  assert (printnum collect num base (-1) 32 []
          = hex_digit <$> to_digits 64 num base) as ->.
  { unfold printnum. rewrite printnum_rec_emit by (done || lia).
    replace (Z.to_nat _) with O by lia. by rewrite emit_collect. }
  pose proof (to_digits_range 64 num base ltac:(lia)) as Hr.
  pose proof (to_digits_value 64 num base ltac:(lia) Hp) as Hv.
  destruct (to_digits_head 64 num base ltac:(lia) Hp) as (d & ds & E & Hd).
  rewrite E in *. clear E. intros Hc Hf. rewrite length_fmap in *.
  pose proof (cstring_digits m s base _ ltac:(lia) Hr Hc) as Hda.
  destruct fuel as [|fuel]; [lia|]. unfold strtol.
  destruct (hex_digit_char d) as (Hd1 & _); [inversion Hr; lia|].
  destruct Hc as [Hc Hz].
  assert (char_at m s = hex_digit d) as Hs.
  { destruct (Hc O (hex_digit d) eq_refl) as [H0 _]. rewrite Z.add_0_r in H0.
    by apply char_at_byte; [|lia]. }
  cbn [skip_blanks]. rewrite Hs. rewrite (proj2 (Z.eqb_neq _ 32)), (proj2 (Z.eqb_neq _ 9)) by lia.
  cbn [orb]. rewrite Hs. rewrite (proj2 (Z.eqb_neq _ 43)), (proj2 (Z.eqb_neq _ 45)) by lia.
  rewrite Hs, (proj2 (Z.eqb_neq base 0)) by lia. cbn [orb andb].
  assert ((base =? 16) && ((hex_digit d =? 48) && (char_at m (s + 1) =? 120)) = false) as ->.
  { destruct (hex_digit d =? 48) eqn:E48; [|by rewrite andb_false_r]. bcomp.
    assert (d = 0) as H0.
    { assert (0 <= d < 16) as H16 by (inversion Hr; lia).
      assert (forallb_below 16 (fun d => negb (hex_digit d =? 48) || (d =? 0)) = true)
        as H by (vm_compute; reflexivity).
      apply (forallb_below_spec 16 _ H) in H16. rewrite E48 in H16. simpl in H16.
      by bcomp. }
    destruct (Hd H0) as [-> _]. simpl in Hz.
    rewrite (char_at_byte m (s + 1) 0) by (done || lia). by rewrite andb_false_r. }
  by rewrite (strtol_digits_spec m s base 0 (d :: ds)), Hv by (done || lia).
Qed.

Lemma strtol_printnum_witness :
  strtol 5 (store_bytes ∅ 16 (bytes_of "1a2f")) 16 16 = Some (0x1a2f, 16 + 4).
Proof.
  refine (strtol_printnum (store_bytes ∅ 16 (bytes_of "1a2f")) 16 0x1a2f 16 5 _ _ _ _);
    [lia|lia| |vm_compute; lia].
  split; [|vm_compute; reflexivity].
  intros i b Hi.
  assert (printnum collect 0x1a2f 16 (-1) 32 [] = [49; 97; 50; 102]) as E
    by (vm_compute; reflexivity).
  rewrite E in Hi.
  destruct i as [|[|[|[|i]]]]; inversion Hi; subst; vm_compute; split; congruence.
Defined.

(** ** Running the engine with two callbacks

    Two callbacks that keep a relation between their states, and agree on the
    bytes of memory in related states, make the engine do the same thing. *)

Definition result_rel {A B} (R : A -> B -> Prop) (r1 : fmt_result A) (r2 : fmt_result B) : Prop :=
  match r1, r2 with
  | Done a, Done b => R a b
  | NoArg, NoArg => True
  | NoFuel, NoFuel => True
  | _, _ => False
  end.

Section Simulation.
Context {St1 St2 : Type} (putch1 : Z -> St1 -> St1) (getb1 : St1 -> Z -> Z)
        (putch2 : Z -> St2 -> St2) (getb2 : St2 -> Z -> Z) (R : St1 -> St2 -> Prop).
Hypothesis Hput : forall c s1 s2, R s1 s2 -> R (putch1 c s1) (putch2 c s2).
Hypothesis Hget : forall a s1 s2, R s1 s2 -> getb1 s1 a = getb2 s2 a.

Lemma str_byte_sim p i s1 s2 :
  R s1 s2 -> str_byte getb1 s1 p i = str_byte getb2 s2 p i.
Proof. intros H. destruct p; simpl; [by apply Hget|done]. Qed.

Lemma pad_sim c n s1 s2 : R s1 s2 -> R (pad putch1 c n s1) (pad putch2 c n s2).
Proof. intros H. unfold pad. induction (Z.to_nat n); simpl; auto. Qed.

Lemma printnum_rec_sim fuel num base w c s1 s2 :
  R s1 s2 -> R (printnum_rec putch1 fuel num base w c s1)
               (printnum_rec putch2 fuel num base w c s2).
Proof.
  revert num w. induction fuel as [|fuel IH]; intros num w H; cbn [printnum_rec];
    apply Hput; destruct (num >=? base); auto using pad_sim.
Qed.

Lemma str_nlen_sim fuel p i size s1 s2 :
  R s1 s2 -> str_nlen getb1 fuel s1 p i size = str_nlen getb2 fuel s2 p i size.
Proof.
  intros H. revert i size. induction fuel as [|fuel IH]; intros i size; cbn [str_nlen]; [done|].
  rewrite (str_byte_sim p i s1 s2 H), IH. done.
Qed.

Lemma str_chars_sim fuel p i sp s1 s2 :
  R s1 s2 ->
  match str_chars putch1 getb1 fuel p i sp s1, str_chars putch2 getb2 fuel p i sp s2 with
  | Some (w1, t1), Some (w2, t2) => w1 = w2 /\ R t1 t2
  | None, None => True
  | _, _ => False
  end.
Proof.
  revert i sp s1 s2. induction fuel as [|fuel IH]; intros i sp s1 s2 H; cbn [str_chars]; [done|].
  rewrite (str_byte_sim p i s1 s2 H). case_if; [done|].
  destruct (if precision sp <? 0 then _ else _) as [ok sp']. destruct ok; [|done].
  apply IH. case_if; auto.
Qed.

Lemma print_str_sim fuel p sp s1 s2 :
  R s1 s2 ->
  result_rel R (print_str putch1 getb1 fuel p sp s1) (print_str putch2 getb2 fuel p sp s2).
Proof.
  intros H. unfold print_str.
  generalize (match p with Word 0 => Lit (bytes_of "(null)") | _ => p end). clear p. intros p.
  rewrite (str_nlen_sim fuel p 0 _ s1 s2 H).
  assert (forall sp s1 s2, R s1 s2 ->
    result_rel R (match str_chars putch1 getb1 fuel p 0 sp s1 with
                  | None => NoFuel | Some (w, st) => Done (pad putch1 32 w st) end)
                 (match str_chars putch2 getb2 fuel p 0 sp s2 with
                  | None => NoFuel | Some (w, st) => Done (pad putch2 32 w st) end)) as Hc.
  { intros sp0 t1 t2 Ht. pose proof (str_chars_sim fuel p 0 sp0 t1 t2 Ht) as Hs.
    destruct (str_chars putch1 _ _ _ _ _ _) as [[w1 u1]|],
             (str_chars putch2 _ _ _ _ _ _) as [[w2 u2]|]; try done.
    destruct Hs as [-> Hs]. by apply pad_sim. }
  case_if; [|by apply Hc].
  destruct (str_nlen _ _ _ _ _ _) as [len|]; [|done]. apply Hc. by apply pad_sim.
Qed.

Lemma print_unsigned_sim ap base sp s1 s2 :
  R s1 s2 ->
  result_rel (fun a b => R a.1 b.1 /\ a.2 = b.2)
    (print_unsigned putch1 ap base sp s1) (print_unsigned putch2 ap base sp s2).
Proof.
  intros H. unfold print_unsigned. destruct (getuint _ _) as [[num ap']|]; [|done].
  split; [|done]. by apply printnum_rec_sim.
Qed.

Lemma print_signed_sim ap sp s1 s2 :
  R s1 s2 ->
  result_rel (fun a b => R a.1 b.1 /\ a.2 = b.2)
    (print_signed putch1 ap sp s1) (print_signed putch2 ap sp s2).
Proof.
  intros H. unfold print_signed. destruct (getint _ _) as [[v ap']|]; [|done].
  destruct (v <? 0); (split; [|done]); apply printnum_rec_sim; auto.
Qed.

(** The rest of the format after a conversion that printed something. *)
Lemma bind_sim {A B} (Q : A -> B -> Prop) r1 r2
    (k1 : A -> fmt_result St1) (k2 : B -> fmt_result St2) :
  result_rel Q r1 r2 ->
  (forall a b, Q a b -> result_rel R (k1 a) (k2 b)) ->
  result_rel R (match r1 with Done a => k1 a | NoArg => NoArg | NoFuel => NoFuel end)
               (match r2 with Done b => k2 b | NoArg => NoArg | NoFuel => NoFuel end).
Proof. intros Hr Hk. destruct r1, r2; try done. by apply Hk. Qed.

Lemma vprintfmt_sim fuel fmt ap s1 s2 :
  R s1 s2 ->
  result_rel R (vprintfmt putch1 getb1 fuel fmt ap s1)
               (vprintfmt putch2 getb2 fuel fmt ap s2).
Proof.
  revert fmt ap s1 s2. induction fuel as [|fuel IH]; intros fmt ap s1 s2 H;
    cbn [vprintfmt]; [done|].
  destruct (next_char fmt) as [ch fmt'].
  case_if; [case_if; [done|apply IH; auto]|].
  destruct (reswitch fuel spec0 fmt' ap) as [[[[c rest] sp] ap']| |]; [|done|done].
  case_if. { destruct (va_arg32 ap') as [[v ap'']|]; [apply IH; auto|done]. }
  case_if.
  { destruct (va_arg32 ap') as [[v ap'']|]; [|done]. cbv zeta. case_if; [done|].
    apply (bind_sim R); [|intros; apply IH; done].
    destruct (if _ >=? MAXERROR then None else _); apply IH; done. }
  case_if.
  { destruct ap' as [|p ap']; [done|].
    apply (bind_sim R); [by apply print_str_sim|intros; by apply IH]. }
  case_if.
  { apply (bind_sim (fun a b => R a.1 b.1 /\ a.2 = b.2)); [by apply print_signed_sim|].
    intros [t1 a1] [t2 a2] [Ht Ha]. simpl in *. subst. by apply IH. }
  case_if.
  { apply (bind_sim (fun a b => R a.1 b.1 /\ a.2 = b.2)); [by apply print_unsigned_sim|].
    intros [t1 a1] [t2 a2] [Ht Ha]. simpl in *. subst. by apply IH. }
  case_if.
  { cbv zeta. destruct (va_arg32 ap') as [[v ap'']|]; [|done].
    apply IH, printnum_rec_sim. auto. }
  case_if; apply IH; auto.
Qed.
End Simulation.

(** A callback that also records every character in a list. *)
Definition traced {St} (putch : Z -> St -> St) (c : Z) (s : St * list Z) : St * list Z :=
  (putch c s.1, s.2 ++ [c]).
Definition traced_getb {St} (getb : St -> Z -> Z) (s : St * list Z) (a : Z) : Z := getb s.1 a.

(** The characters put during a run: a run with the trace is the same run, and its
    final state is the initial one with these characters put in order. *)
Lemma vprintfmt_untraced {St} (putch : Z -> St -> St) getb fuel fmt ap st :
  match vprintfmt (traced putch) (traced_getb getb) fuel fmt ap (st, []) with
  | Done (st', out) => vprintfmt putch getb fuel fmt ap st = Done st' /\ st' = emit putch out st
  | NoArg => vprintfmt putch getb fuel fmt ap st = NoArg
  | NoFuel => vprintfmt putch getb fuel fmt ap st = NoFuel
  end.
Proof.
  pose proof (vprintfmt_sim putch getb (traced putch) (traced_getb getb)
    (fun s p => p.1 = s /\ s = emit putch p.2 st)) as Hsim.
  assert (forall c s1 (s2 : St * list Z), s2.1 = s1 /\ s1 = emit putch s2.2 st ->
    (traced putch c s2).1 = putch c s1 /\ putch c s1 = emit putch (traced putch c s2).2 st) as Hp.
  { intros c s1 [s2 l] [E1 E2]. simpl in *. rewrite emit_app, <- E2, E1. done. }
  assert (forall a s1 (s2 : St * list Z), s2.1 = s1 /\ s1 = emit putch s2.2 st ->
    getb s1 a = traced_getb getb s2 a) as Hg.
  { intros a s1 [s2 l] [E1 _]. unfold traced_getb. simpl in *. by rewrite E1. }
  specialize (Hsim Hp Hg fuel fmt ap st (st, []) (conj eq_refl eq_refl)).
  destruct (vprintfmt (traced putch) _ _ _ _ _) as [[s l]| |],
    (vprintfmt putch getb fuel fmt ap st) as [s0| |]; try done.
  destruct Hsim as [Hs He]. simpl in *. by subst.
Qed.

(** ** Termination

    [settles f r]: with enough fuel, [f] gives [r].  [halts f]: it settles on a
    result that is not the lack of fuel. *)

Definition settles {A} (f : nat -> A) (r : A) : Prop :=
  exists N, forall fuel, (N <= fuel)%nat -> f fuel = r.
Definition halts {A} (f : nat -> fmt_result A) : Prop := exists r, r <> NoFuel /\ settles f r.

Lemma settles_const {A} (r : A) : settles (fun _ => r) r.
Proof. by exists O. Qed.

(** One unit of fuel taken off. *)
Lemma settles_step {A} (f g : nat -> A) r :
  (forall n, f (S n) = g n) -> settles g r -> settles f r.
Proof.
  intros Hs [N HN]. exists (S N). intros [|fuel] Hf; [lia|]. rewrite Hs. apply HN. lia.
Qed.

Lemma halts_step {A} (f g : nat -> fmt_result A) : (forall n, f (S n) = g n) -> halts g -> halts f.
Proof. intros Hs (r & Hr & Hg). exists r. split; [done|]. by apply (settles_step f g). Qed.

Lemma halts_ret {A} (r : fmt_result A) : r <> NoFuel -> halts (fun _ => r).
Proof. intros H. exists r. split; [done|apply settles_const]. Qed.

Lemma halts_ext {A} (f g : nat -> fmt_result A) : (forall n, f n = g n) -> halts g -> halts f.
Proof. intros He (r & Hr & N & HN). exists r. split; [done|]. exists N. intros fuel Hf. rewrite He. by apply HN. Qed.

(** A computation that goes on with the result of another. *)
Lemma halts_bind {A B} (f : nat -> fmt_result A) (k : nat -> A -> fmt_result B) r :
  r <> NoFuel -> settles f r -> (forall a, r = Done a -> halts (fun n => k n a)) ->
  halts (fun n => match f n with Done a => k n a | NoArg => NoArg | NoFuel => NoFuel end).
Proof.
  intros Hr [N HN] Hk. destruct r as [a| |]; [|exists NoArg; split; [done|]|done].
  - destruct (Hk a eq_refl) as (r & Hr' & M & HM). exists r. split; [done|].
    exists (Nat.max N M). intros fuel Hf. rewrite HN by lia. apply HM. lia.
  - exists N. intros fuel Hf. by rewrite HN.
Qed.

Lemma settles_unique {A} (f : nat -> A) r r' : settles f r -> settles f r' -> r = r'.
Proof.
  intros [N HN] [M HM]. rewrite <- (HN (Nat.max N M)), <- (HM (Nat.max N M)) by lia. done.
Qed.

Lemma read_number_shorter p ch fmt : (length (read_number p ch fmt).2 <= length fmt)%nat.
Proof.
  revert p ch. induction fmt as [|c fmt IH]; intros p ch; cbn [read_number]; [done|].
  case_if; [done|]. cbn [length]. etrans; [apply IH|lia].
Qed.

(** The arguments that are left are some of those there were. *)
Lemma va_arg32_sub P ap v ap' : Forall P ap -> va_arg32 ap = Some (v, ap') -> Forall P ap'.
Proof. unfold va_arg32. intros H. destruct H as [|[] ap _ H]; intros [= _ <-]; done. Qed.
Lemma va_arg64_sub P ap v ap' : Forall P ap -> va_arg64 ap = Some (v, ap') -> Forall P ap'.
Proof.
  unfold va_arg64. intros H. destruct H as [|[] ap _ H]; try done. destruct H as [|[] ap _ H]; intros [= _ <-]; done.
Qed.
Lemma getuint_sub P ap l v ap' : Forall P ap -> getuint ap l = Some (v, ap') -> Forall P ap'.
Proof. unfold getuint. intros H. case_if; [by apply va_arg64_sub|by apply va_arg32_sub]. Qed.
Lemma getint_sub P ap l v ap' : Forall P ap -> getint ap l = Some (v, ap') -> Forall P ap'.
Proof.
  unfold getint. intros H. case_if; [destruct (va_arg64 ap) as [[x y]|] eqn:E|destruct (va_arg32 ap) as [[x y]|] eqn:E];
    intros [= _ <-]; [by apply (va_arg64_sub P ap x)|by apply (va_arg32_sub P ap x)].
Qed.

(** The flags end with the format. *)
Lemma reswitch_halts P sp fmt ap :
  Forall P ap ->
  exists r, r <> NoFuel /\ settles (fun fuel => reswitch fuel sp fmt ap) r /\
    forall ch rest sp' ap', r = Done (ch, rest, sp', ap') ->
      (length rest <= length fmt)%nat /\ Forall P ap'.
Proof.
  remember (length fmt) as n eqn:En. assert (length fmt <= n)%nat as Hn by lia. clear En.
  revert sp fmt ap Hn. induction n as [|n IH]; intros sp fmt ap Hn Hap.
  { destruct fmt; [|cbn in Hn; lia]. eexists. split; [|split].
    2: { apply (settles_step _ (fun _ => Done (0, [], sp, ap))); [done|apply settles_const]. }
    - done.
    - intros ? ? ? ? [= <- <- <- <-]. done. }
  destruct fmt as [|c fmt].
  { eexists. split; [|split].
    2: { apply (settles_step _ (fun _ => Done (0, [], sp, ap))); [done|apply settles_const]. }
    - done.
    - intros ? ? ? ? [= <- <- <- <-]. split; [cbn; lia|done]. }
  cbn [length] in Hn.
  assert (forall sp' fmt' ap', (length fmt' <= length fmt)%nat -> Forall P ap' ->
    (forall k, reswitch (S k) sp (c :: fmt) ap = reswitch k sp' fmt' ap') ->
    exists r, r <> NoFuel /\ settles (fun fuel => reswitch fuel sp (c :: fmt) ap) r /\
      forall ch rest sp'' ap'', r = Done (ch, rest, sp'', ap'') ->
        (length rest <= S n)%nat /\ Forall P ap'') as Hgo.
  { intros sp' fmt' ap' Hl Hap' Hk. destruct (IH sp' fmt' ap' ltac:(lia) Hap') as (r & Hr & Hs & Hd).
    exists r. split; [done|]. split; [by apply (settles_step _ _ _ Hk)|].
    intros ch rest sp'' ap'' E. destruct (Hd _ _ _ _ E) as [H1 H2]. split; [lia|done]. }
  assert (forall r, r <> NoFuel -> (forall k, reswitch (S k) sp (c :: fmt) ap = r) ->
    (forall ch rest sp'' ap'', r = Done (ch, rest, sp'', ap'') -> rest = fmt /\ ap'' = ap) ->
    exists r, r <> NoFuel /\ settles (fun fuel => reswitch fuel sp (c :: fmt) ap) r /\
      forall ch rest sp'' ap'', r = Done (ch, rest, sp'', ap'') ->
        (length rest <= S n)%nat /\ Forall P ap'') as Hstop.
  { intros r Hr Hk Hd. exists r. split; [done|]. split; [apply (settles_step _ (fun _ => r)); [done|apply settles_const]|].
    intros ch rest sp'' ap'' E. destruct (Hd _ _ _ _ E) as [-> ->]. split; [lia|done]. }
  destruct (c =? 45) eqn:E1; [apply (Hgo (set_padc 45 sp) fmt ap); [done..|intros k; cbn; by rewrite E1]|].
  destruct (c =? 48) eqn:E2; [apply (Hgo (set_padc 48 sp) fmt ap); [done..|intros k; cbn; by rewrite E1, E2]|].
  destruct ((49 <=? c) && (c <=? 57)) eqn:E3.
  { pose proof (read_number_shorter 0 c fmt) as Hl. destruct (read_number 0 c fmt) as [p fmt2] eqn:Er.
    apply (Hgo (process_precision (set_precision p sp)) fmt2 ap); [done..|].
    intros k. cbn [reswitch next_char]. by rewrite E1, E2, E3, Er. }
  destruct (c =? 42) eqn:E4.
  { destruct (va_arg32 ap) as [[p ap']|] eqn:Ev.
    - apply (Hgo (process_precision (set_precision (s32 p) sp)) fmt ap'); [done|by apply (va_arg32_sub P ap p)|].
      intros k. cbn [reswitch next_char]. by rewrite E1, E2, E3, E4, Ev.
    - apply (Hstop NoArg); [done| |done]. intros k. cbn [reswitch next_char]. by rewrite E1, E2, E3, E4, Ev. }
  destruct (c =? 46) eqn:E5.
  { apply (Hgo (if width sp <? 0 then set_width 0 sp else sp) fmt ap); [done..|].
    intros k. cbn [reswitch next_char]. by rewrite E1, E2, E3, E4, E5. }
  destruct (c =? 35) eqn:E6.
  { apply (Hgo (set_altflag true sp) fmt ap); [done..|].
    intros k. cbn [reswitch next_char]. by rewrite E1, E2, E3, E4, E5, E6. }
  destruct (c =? 108) eqn:E7.
  { apply (Hgo (set_lflag (lflag sp + 1) sp) fmt ap); [done..|].
    intros k. cbn [reswitch next_char]. by rewrite E1, E2, E3, E4, E5, E6, E7. }
  apply (Hstop (Done (c, fmt, sp, ap))); [done| |by intros ? ? ? ? [= _ -> _ ->]].
  intros k. cbn [reswitch next_char]. by rewrite E1, E2, E3, E4, E5, E6, E7.
Qed.

Section Halts.
Context {St : Type} (putch : Z -> St -> St) (getb : St -> Z -> Z) (Inv : St -> Prop).
Hypothesis Hput : forall c st, Inv st -> Inv (putch c st).

(** A string argument ends at the same place in all states. *)
Definition str_ends (p : varg) : Prop :=
  exists k : nat, forall st, Inv st -> str_byte getb st p (Z.of_nat k) = 0.

Lemma lit_ends bs : str_ends (Lit bs).
Proof. exists (length bs). intros st _. cbn. by rewrite lookup_ge_None_2 by lia. Qed.

(** What the engine calls keeps [Inv]. *)
#[local] Abbreviation same := (fun a b : St => a = b /\ Inv a).
Lemma same_put c a b : same a b -> same (putch c a) (putch c b).
Proof using Hput. intros [<- H]. by split; [|apply Hput]. Qed.
Lemma same_get (x : Z) a b : same a b -> getb a x = getb b x.
Proof. by intros [<- _]. Qed.

Lemma str_nlen_settles p k st i size :
  Inv st -> (forall st, Inv st -> str_byte getb st p (Z.of_nat k) = 0) -> 0 <= i <= Z.of_nat k ->
  exists len, settles (fun fuel => str_nlen getb fuel st p i size) (Some len).
Proof using Type.
  intros Hst Hk. remember (k - Z.to_nat i)%nat as d eqn:Ed. revert i size Ed.
  induction d as [|d IH]; intros i size Ed Hi.
  - assert (i = Z.of_nat k) as -> by lia. exists (Z.of_nat k).
    apply (settles_step _ (fun _ => Some (Z.of_nat k))); [|apply settles_const].
    intros n. cbn [str_nlen]. rewrite Hk by done. cbn [Z.eqb negb]. by rewrite andb_false_r.
  - destruct ((size >? 0) && negb (str_byte getb st p i =? 0)) eqn:E.
    + destruct (IH (i + 1) (size - 1) ltac:(lia) ltac:(lia)) as [len Hl]. exists len.
      eapply settles_step; [|exact Hl]. intros n. cbn [str_nlen]. by rewrite E.
    + exists i. apply (settles_step _ (fun _ => Some i)); [|apply settles_const].
      intros n. cbn [str_nlen]. by rewrite E.
Qed.

Lemma str_chars_settles p k i sp st :
  Inv st -> (forall st, Inv st -> str_byte getb st p (Z.of_nat k) = 0) -> 0 <= i <= Z.of_nat k ->
  exists w st', settles (fun fuel => str_chars putch getb fuel p i sp st) (Some (w, st')).
Proof using Hput.
  intros Hst Hk. remember (k - Z.to_nat i)%nat as d eqn:Ed. revert i sp st Hst Ed.
  induction d as [|d IH]; intros i sp st Hst Ed Hi.
  - assert (i = Z.of_nat k) as -> by lia. exists (width sp), st.
    apply (settles_step _ (fun _ => Some (width sp, st))); [|apply settles_const].
    intros n. cbn [str_chars]. by rewrite Hk.
  - destruct (s8 (str_byte getb st p i) =? 0) eqn:E0.
    { exists (width sp), st. apply (settles_step _ (fun _ => Some (width sp, st))); [|apply settles_const].
      intros n. cbn [str_chars]. by rewrite E0. }
    destruct (if precision sp <? 0 then (true, sp)
      else (precision sp - 1 >=? 0, set_precision (precision sp - 1) sp)) as [ok sp'] eqn:Es.
    set (ch := s8 (str_byte getb st p i)) in *.
    set (st1 := if altflag sp && ((ch <? 32) || (ch >? 126)) then putch 63 st else putch ch st).
    destruct ok.
    + destruct (IH (i + 1) (set_width (width sp' - 1) sp') st1) as (w & st' & Hs);
        [by unfold st1; case_if; apply Hput|lia|lia|].
      exists w, st'. eapply settles_step; [|exact Hs].
      intros n. cbn [str_chars]. fold ch. by rewrite E0, Es.
    + exists (width sp'), st. apply (settles_step _ (fun _ => Some (width sp', st))); [|apply settles_const].
      intros n. cbn [str_chars]. fold ch. by rewrite E0, Es.
Qed.

Lemma pad_inv c n st : Inv st -> Inv (pad putch c n st).
Proof using Hput. intros H. by apply (pad_sim putch putch same same_put c n st st). Qed.

Lemma print_str_halts p sp st :
  Inv st -> str_ends p ->
  exists st', Inv st' /\ settles (fun fuel => print_str putch getb fuel p sp st) (Done st').
Proof using Hput.
  intros Hst Hp. unfold print_str.
  assert (str_ends (match p with Word 0 => Lit (bytes_of "(null)") | _ => p end)) as Hq
    by (destruct p as [[]|]; [apply lit_ends|done..]).
  revert Hq. generalize (match p with Word 0 => Lit (bytes_of "(null)") | _ => p end). clear Hp p.
  intros p [k Hk].
  assert (forall sp st, Inv st -> exists st', Inv st' /\ settles (fun fuel =>
    match str_chars putch getb fuel p 0 sp st with
    | None => NoFuel | Some (w, st) => Done (pad putch 32 w st) end) (Done st')) as Hc.
  { intros sp1 st1 H1. destruct (str_chars_settles p k 0 sp1 st1 H1 Hk ltac:(lia)) as (w & st2 & N & HN).
    exists (pad putch 32 w st2). split.
    - apply pad_inv. pose proof (str_chars_sim putch getb putch getb same same_put same_get N p 0 sp1 st1 st1
        (conj eq_refl H1)) as Hs. rewrite HN in Hs by done. apply Hs.
    - exists N. intros fuel Hf. by rewrite HN. }
  destruct ((width sp >? 0) && negb (padc sp =? 45)); [|by apply Hc].
  destruct (str_nlen_settles p k st 0 (u32 (precision sp)) Hst Hk ltac:(lia)) as (len & N & HN).
  destruct (Hc (set_width (Z.min (width sp - len) 0) sp) (pad putch (padc sp) (width sp - len) st))
    as (st' & Hi & M & HM); [by apply pad_inv|].
  exists st'. split; [done|]. exists (Nat.max N M). intros fuel Hf. rewrite HN by lia. apply HM. lia.
Qed.

(** The formats that %e uses. *)
Lemma vprintfmt_str_settles bs st :
  Inv st -> exists st', Inv st' /\
    settles (fun fuel => vprintfmt putch getb fuel (bytes_of "%s") [Lit bs] st) (Done st').
Proof using Hput.
  intros Hst. destruct (print_str_halts (Lit bs) spec0 st Hst (lit_ends bs)) as (st' & Hi & N & HN).
  exists st'. split; [done|]. exists (S (S (S N))). intros [|[|fuel]] Hf; [lia|lia|].
  change (bytes_of "%s") with [37; 115]. cbn -[print_str spec0]. rewrite HN by lia. reflexivity.
Qed.
Lemma vprintfmt_error_settles v st :
  Inv st -> exists st', Inv st' /\
    settles (fun fuel => vprintfmt putch getb fuel (bytes_of "error %d") [Word v] st) (Done st').
Proof using Hput.
  intros Hst.
  assert (exists st', forall n, vprintfmt putch getb (10 + n) (bytes_of "error %d") [Word v] st = Done st')
    as [st' E].
  { change (bytes_of "error %d") with [101; 114; 114; 111; 114; 32; 37; 100].
    destruct (s32 (u32 v) <? 0) eqn:E; eexists; intros n; cbn -[printnum];
      unfold print_signed; cbn -[printnum]; rewrite E; reflexivity. }
  exists st'. split.
  - pose proof (vprintfmt_sim putch getb putch getb same same_put same_get (10 + 0) (bytes_of "error %d")
      [Word v] st st (conj eq_refl Hst)) as Hs. rewrite E in Hs. apply Hs.
  - exists 10%nat. intros fuel Hf. replace fuel with (10 + (fuel - 10))%nat by lia. apply E.
Qed.

Lemma print_signed_inv ap sp st st' ap' :
  Inv st -> Forall str_ends ap -> print_signed putch ap sp st = Done (st', ap') -> Inv st' /\ Forall str_ends ap'.
Proof using Hput.
  intros Hst Hap E. pose proof (print_signed_sim putch putch same same_put ap sp st st (conj eq_refl Hst)) as Hs.
  rewrite E in Hs. split; [apply Hs|]. revert E. unfold print_signed.
  destruct (getint ap (lflag sp)) as [[v a]|] eqn:Eg; [|done]. case_if; intros [= _ <-]; by apply (getint_sub _ _ _ _ _ Hap Eg).
Qed.
Lemma print_unsigned_inv ap base sp st st' ap' :
  Inv st -> Forall str_ends ap -> print_unsigned putch ap base sp st = Done (st', ap') -> Inv st' /\ Forall str_ends ap'.
Proof using Hput.
  intros Hst Hap E. pose proof (print_unsigned_sim putch putch same same_put ap base sp st st (conj eq_refl Hst)) as Hs.
  rewrite E in Hs. split; [apply Hs|]. revert E. unfold print_unsigned.
  destruct (getuint ap (lflag sp)) as [[v a]|] eqn:Eg; [|done]. intros [= _ <-]; by apply (getuint_sub _ _ _ _ _ Hap Eg).
Qed.

Lemma printnum_inv num base w c st : Inv st -> Inv (printnum putch num base w c st).
Proof using Hput.
  intros H. by apply (printnum_rec_sim putch putch same same_put 64 num base w c st st).
Qed.

(** vprintfmt returns. *)
Lemma vprintfmt_halts fmt ap st :
  Inv st -> Forall str_ends ap -> halts (fun fuel => vprintfmt putch getb fuel fmt ap st).
Proof using Hput.
  remember (length fmt) as n eqn:En. assert (length fmt <= n)%nat as Hn by lia. clear En.
  revert fmt ap st Hn. induction n as [|n IH]; intros fmt ap st Hn Hst Hap.
  { destruct fmt; [|cbn in Hn; lia]. apply (halts_step _ (fun _ => Done st)); [done|by apply halts_ret]. }
  destruct fmt as [|c fmt].
  { apply (halts_step _ (fun _ => Done st)); [done|by apply halts_ret]. }
  cbn [length] in Hn. eapply halts_step; [intros k; cbn [vprintfmt next_char]; reflexivity|].
  destruct (negb (c =? 37)).
  { destruct (c =? 0); [by apply halts_ret|]. apply IH; [lia|by apply Hput|done]. }
  destruct (reswitch_halts str_ends spec0 fmt ap Hap) as (r & Hr & Hs & Hd).
  apply (halts_bind _ (fun fuel' '(ch, rest, sp, ap) => _) r Hr Hs).
  intros [[[ch rest] sp] ap'] ->. destruct (Hd _ _ _ _ eq_refl) as [Hl Hap']. clear Hd Hr Hs.
  assert (forall ap'' st', Inv st' -> Forall str_ends ap'' ->
    halts (fun fuel' => vprintfmt putch getb fuel' rest ap'' st')) as Hgo by (intros; apply IH; [lia|done|done]).
  destruct (ch =? 99).
  { destruct (va_arg32 ap') as [[v a]|] eqn:Ev; [|by apply halts_ret].
    apply Hgo; [by apply Hput|by apply (va_arg32_sub _ _ _ _ Hap' Ev)]. }
  destruct (ch =? 101).
  { destruct (va_arg32 ap') as [[v a]|] eqn:Ev; [|by apply halts_ret]. cbv zeta.
    pose proof (va_arg32_sub _ _ _ _ Hap' Ev) as Ha.
    set (err := if s32 v <? 0 then _ else _). destruct (err <? 0); [by apply halts_ret|].
    destruct (if err >=? MAXERROR then None else error_string err) as [q|].
    - destruct (vprintfmt_str_settles q st Hst) as (st' & Hi & Hs').
      apply (halts_bind _ (fun fuel' st => vprintfmt putch getb fuel' rest a st) (Done st')); [done|done|].
      intros ? [= <-]. by apply Hgo.
    - destruct (vprintfmt_error_settles err st Hst) as (st' & Hi & Hs').
      apply (halts_bind _ (fun fuel' st => vprintfmt putch getb fuel' rest a st) (Done st')); [done|done|].
      intros ? [= <-]. by apply Hgo. }
  destruct (ch =? 115).
  { destruct ap' as [|q a]; [by apply halts_ret|]. apply Forall_cons_1 in Hap' as [Hq Ha].
    destruct (print_str_halts q sp st Hst Hq) as (st' & Hi & Hs').
    apply (halts_bind _ (fun fuel' st => vprintfmt putch getb fuel' rest a st) (Done st')); [done|done|].
    intros ? [= <-]. by apply Hgo. }
  destruct (ch =? 100).
  { destruct (print_signed putch ap' sp st) as [[st' a]| |] eqn:Ep; [|by apply halts_ret|].
    - destruct (print_signed_inv _ _ _ _ _ Hst Hap' Ep). by apply Hgo.
    - exfalso. revert Ep. unfold print_signed. destruct (getint _ _) as [[? ?]|]; [case_if|]; done. }
  destruct ((ch =? 117) || (ch =? 111) || (ch =? 120)).
  { cbv zeta. destruct (print_unsigned putch ap' _ sp st) as [[st' a]| |] eqn:Ep; [|by apply halts_ret|].
    - destruct (print_unsigned_inv _ _ _ _ _ _ Hst Hap' Ep). by apply Hgo.
    - exfalso. revert Ep. unfold print_unsigned. destruct (getuint _ _) as [[? ?]|]; done. }
  destruct (ch =? 112).
  { cbv zeta. destruct (va_arg32 ap') as [[v a]|] eqn:Ev; [|by apply halts_ret].
    apply Hgo; [|by apply (va_arg32_sub _ _ _ _ Hap' Ev)].
    apply printnum_inv. by do 2 apply Hput. }
  destruct (ch =? 37); [apply Hgo; [by apply Hput|done]|].
  apply IH; [lia|by apply Hput|done].
Qed.
End Halts.

(** ** vsnprintf *)

Lemma sprintputch_emit out b :
  sb_buf b <= sb_ebuf b ->
  let b' := emit sprintputch out b in
  let k := Z.min (Z.of_nat (length out)) (sb_ebuf b - sb_buf b) in
  sb_cnt b' = sb_cnt b + Z.of_nat (length out) /\
  sb_buf b' = sb_buf b + k /\
  (forall x, x < sb_buf b \/ sb_ebuf b <= x -> load8 (sb_mem b') x = load8 (sb_mem b) x) /\
  (forall i c, Z.of_nat i < k -> out !! i = Some c ->
     load8 (sb_mem b') (sb_buf b + Z.of_nat i) = u8 c).
Proof.
  cbv zeta. revert b. induction out as [|c out IH]; intros b Hb.
  { simpl. split; [lia|]. split; [lia|]. split; [done|]. intros i c Hi. lia. }
  change (emit sprintputch (c :: out) b) with (emit sprintputch out (sprintputch c b)).
  cbn [length].
  destruct (sb_buf b <? sb_ebuf b) eqn:E; bcomp.
  - assert (sprintputch c b = mkSprintbuf (store8 (sb_mem b) (sb_buf b) c) (sb_buf b + 1)
              (sb_ebuf b) (sb_cnt b + 1)) as ->.
    { unfold sprintputch. by rewrite (proj2 (Z.ltb_lt _ _) E). }
    specialize (IH (mkSprintbuf (store8 (sb_mem b) (sb_buf b) c) (sb_buf b + 1)
              (sb_ebuf b) (sb_cnt b + 1)) ltac:(simpl; lia)). cbn [sb_mem sb_buf sb_ebuf sb_cnt] in IH.
    destruct IH as (-> & -> & Hf & Hc). split; [lia|]. split; [lia|]. split.
    + intros x Hx. rewrite Hf by lia. apply load8_store8_ne. lia.
    + intros [|i] d Hi Hd; simpl in Hd.
      * simplify_eq. rewrite Z.add_0_r, Hf by lia. apply load8_store8_eq.
      * replace (sb_buf b + Z.of_nat (S i)) with (sb_buf b + 1 + Z.of_nat i) by lia.
        apply Hc; [lia|done].
  - assert (sprintputch c b = mkSprintbuf (sb_mem b) (sb_buf b) (sb_ebuf b) (sb_cnt b + 1)) as ->.
    { unfold sprintputch. by rewrite (proj2 (Z.ltb_ge _ _) E). }
    specialize (IH (mkSprintbuf (sb_mem b) (sb_buf b) (sb_ebuf b) (sb_cnt b + 1))
      ltac:(simpl; lia)). cbn [sb_mem sb_buf sb_ebuf sb_cnt] in IH.
    destruct IH as (-> & -> & Hf & Hc). split; [lia|]. split; [lia|]. split; [done|].
    intros i d Hi. lia.
Qed.

(** Memory is finite, so every string in it ends, and the bytes that sprintputch
    writes are below the end of its buffer: the engine returns. *)
Lemma vsnprintf_engine_halts m buf n fmt ap :
  halts (fun fuel => vprintfmt (traced sprintputch) (traced_getb sb_getb) fuel fmt ap
    (mkSprintbuf m buf (buf + n - 1) 0, [])).
Proof.
  destruct (memory_ends m) as [L HL].
  apply (vprintfmt_halts (traced sprintputch) (traced_getb sb_getb) (fun b => sb_ebuf b.1 = buf + n - 1 /\
    forall x, Z.max L (buf + n) <= x -> load8 (sb_mem b.1) x = 0)).
  - intros c [b l] [He Hb]. unfold traced, sprintputch. cbn in He, Hb |- *.
    case_if; cbn; (split; [done|]); [|done].
    intros x Hx. bcomp. rewrite load8_store8_ne by lia. by apply Hb.
  - cbn. split; [done|]. intros x Hx. apply HL. lia.
  - apply Forall_true. intros [a|bs]; [|apply lit_ends].
    exists (Z.to_nat (Z.max L (buf + n) - a)). intros b [_ Hb]. cbn. unfold traced_getb, sb_getb. apply Hb. lia.
Qed.

(** C13: vsnprintf returns, and writes only inside its buffer.  Whatever format,
    arguments and memory, there is an amount of fuel from which on the result is the
    same, and it is not the lack of fuel.  A null buffer or [n < 1] gives -E_INVAL
    and writes nothing.  For a buffer of [n >= 1] bytes, unless an argument is
    missing or of the wrong kind, the run is one of the engine that puts a sequence
    [out] of characters; the result is the number of characters of [out] even when
    they do not fit, the buffer holds as much of [out] as fits in [n - 1] bytes
    followed by a NUL, and no byte outside the buffer changes. *)
Theorem vsnprintf_spec m buf n fmt ap :
  exists res, settles (fun fuel => vsnprintf fuel m buf n fmt ap) res /\
  (buf = 0 \/ n < 1 -> res = Done (- E_INVAL, m)) /\
  (buf <> 0 -> 1 <= n ->
   match res with
   | Done (r, m') => exists b out,
       settles (fun fuel => vprintfmt (traced sprintputch) (traced_getb sb_getb) fuel fmt ap
         (mkSprintbuf m buf (buf + n - 1) 0, [])) (Done (b, out)) /\
       let k := Z.min (Z.of_nat (length out)) (n - 1) in
       r = Z.of_nat (length out) /\
       (forall i c, Z.of_nat i < k -> out !! i = Some c -> load8 m' (buf + Z.of_nat i) = u8 c) /\
       load8 m' (buf + k) = 0 /\
       (forall x, x < buf \/ buf + n <= x -> load8 m' x = load8 m x)
   | NoArg => settles (fun fuel => vprintfmt sprintputch sb_getb fuel fmt ap
         (mkSprintbuf m buf (buf + n - 1) 0)) NoArg
   | NoFuel => False
   end).
Proof.
  set (b0 := mkSprintbuf m buf (buf + n - 1) 0). unfold vsnprintf. fold b0.
  destruct ((buf =? 0) || (n <? 1)) eqn:E.
  { exists (Done (- E_INVAL, m)). split; [apply settles_const|]. split; [done|].
    intros. apply orb_true_iff in E as [E|E]; bcomp; lia. }
  destruct (vsnprintf_engine_halts m buf n fmt ap) as (r & Hr & N & HN). fold b0 in HN.
  pose proof (fun fuel => vprintfmt_untraced sprintputch sb_getb fuel fmt ap b0) as Hu.
  exists (match r with Done (b, _) => Done (sb_cnt b, store8 (sb_mem b) (sb_buf b) 0)
          | NoArg => NoArg | NoFuel => NoFuel end).
  split.
  { exists N. intros fuel Hf. specialize (Hu fuel). rewrite HN in Hu by done.
    destruct r as [[b out]| |]; [by destruct Hu as [-> _]|by rewrite Hu..]. }
  bcomp. split; [lia|]. intros _ _. destruct r as [[b out]| |]; [| |done].
  2: { exists N. intros fuel Hf. specialize (Hu fuel). by rewrite HN in Hu by done. }
  specialize (Hu N). rewrite HN in Hu by done. destruct Hu as [_ He].
  exists b, out. split; [by exists N|].
  pose proof (sprintputch_emit out b0 ltac:(simpl; lia)) as Hs.
  cbv zeta in Hs. rewrite <- He in Hs. simpl in Hs. destruct Hs as (Hcnt & Hbuf & Hf & Hc).
  cbv zeta. split; [lia|]. split; [|split].
  - intros i c Hi Hl. rewrite load8_store8_ne by lia. apply Hc; [lia|done].
  - rewrite Hbuf. replace (buf + n - 1 - buf) with (n - 1) by lia. by rewrite load8_store8_eq.
  - intros x Hx. rewrite load8_store8_ne by lia. apply Hf. lia.
Qed.

(** The run of the example settles at 20 units of fuel. *)
Definition snprintf_demo (fuel : nat) : fmt_result (Z * memory) :=
  vsnprintf fuel ∅ 64 4 (bytes_of "%d!") [Word 4242].
Definition snprintf_demo_mem : memory :=
  match snprintf_demo 20 with Done (_, m) => m | _ => ∅ end.

Lemma vsnprintf_spec_witness :
  settles snprintf_demo (Done (5, snprintf_demo_mem)) /\ load8 snprintf_demo_mem 67 = 0.
Proof.
  destruct (vsnprintf_spec ∅ 64 4 (bytes_of "%d!") [Word 4242]) as (res & [N HN] & _ & H).
  assert (res = Done (5, snprintf_demo_mem)) as ->
    by (rewrite <- (HN (20 + N)%nat) by lia; vm_compute; reflexivity).
  destruct (H ltac:(lia) ltac:(lia)) as (b & out & _ & Hn & _ & Hz & _).
  split; [exists N; exact HN|]. rewrite <- Hn in Hz. exact Hz.
Defined.
