(* ===== verification/Console.v ===== *)
(** * Console: kern/console.c, kern/picirq.c and kern/printf.c

    The drivers of the serial port, the parallel port, the display and the keyboard,
    the ring buffer that holds input, the interrupt controllers' mask, and the
    kernel's cprintf on top of them.  The devices are not in the source: port
    accesses and the display's 16-bit cells are the functions [inb], [outb], [vread]
    and [vwrite] of an arbitrary hardware state.  The variables of the drivers are
    the record [drv] and the input buffer the record [ring]. *)

From S2P Require Import Prelude Layout Segments Memory CString Printfmt.

(** ** inc/kbdreg.h and kern/console.h *)

Definition KEY_HOME : Z := 0xE0.
Definition KEY_END : Z := 0xE1.
Definition KEY_UP : Z := 0xE2.
Definition KEY_DN : Z := 0xE3.
Definition KEY_LF : Z := 0xE4.
Definition KEY_RT : Z := 0xE5.
Definition KEY_PGUP : Z := 0xE6.
Definition KEY_PGDN : Z := 0xE7.
Definition KEY_INS : Z := 0xE8.
Definition KEY_DEL : Z := 0xE9.

Definition KBSTATP : Z := 0x64.
Definition KBS_DIB : Z := 0x01.
Definition KBS_TERR : Z := 0x20.
Definition KBDATAP : Z := 0x60.

Definition MONO_BASE : Z := 0x3B4.
Definition MONO_BUF : Z := 0xB0000.
Definition CGA_BASE : Z := 0x3D4.
Definition CGA_BUF : Z := 0xB8000.
Definition CRT_ROWS : Z := 25.
Definition CRT_COLS : Z := 80.
Definition CRT_SIZE : Z := CRT_ROWS * CRT_COLS.

(** ** Keyboard tables *)

Definition NO : Z := 0.
Definition SHIFT : Z := Z.shiftl 1 0.
Definition CTL : Z := Z.shiftl 1 1.
Definition ALT : Z := Z.shiftl 1 2.
Definition CAPSLOCK : Z := Z.shiftl 1 3.
Definition NUMLOCK : Z := Z.shiftl 1 4.
Definition SCROLLLOCK : Z := Z.shiftl 1 5.
Definition E0ESC : Z := Z.shiftl 1 6.

(** [uint8_t t[256]] with its first elements and some designated ones; the others
    are 0. *)
Definition table256 (l : list Z) (designated : list (Z * Z)) : list Z :=
  fold_left (fun t p => <[Z.to_nat p.1 := u8 p.2]> t) designated (l ++ replicate (256 - length l) 0).
Definition tab (t : list Z) (i : Z) : Z := default 0 (t !! Z.to_nat i).

Definition shiftcode : list Z := table256 []
  [(0x1D, CTL); (0x2A, SHIFT); (0x36, SHIFT); (0x38, ALT); (0x9D, CTL); (0xB8, ALT)].

Definition togglecode : list Z := table256 []
  [(0x3A, CAPSLOCK); (0x45, NUMLOCK); (0x46, SCROLLLOCK)].

(** [C(x)], as a uint8_t. *)
Definition ctl (x : Z) : Z := u8 (x - 64).

Definition normalmap : list Z := table256
  [NO; 0x1B; 49; 50; 51; 52; 53; 54;
   55; 56; 57; 48; 45; 61; 8; 9;
   113; 119; 101; 114; 116; 121; 117; 105;
   111; 112; 91; 93; 10; NO; 97; 115;
   100; 102; 103; 104; 106; 107; 108; 59;
   39; 96; NO; 92; 122; 120; 99; 118;
   98; 110; 109; 44; 46; 47; NO; 42;
   NO; 32; NO; NO; NO; NO; NO; NO;
   NO; NO; NO; NO; NO; NO; NO; 55;
   56; 57; 45; 52; 53; 54; 43; 49;
   50; 51; 48; 46; NO; NO; NO; NO]
  [(0xC7, KEY_HOME); (0x9C, 10); (0xB5, 47); (0xC8, KEY_UP);
   (0xC9, KEY_PGUP); (0xCB, KEY_LF); (0xCD, KEY_RT); (0xCF, KEY_END);
   (0xD0, KEY_DN); (0xD1, KEY_PGDN); (0xD2, KEY_INS); (0xD3, KEY_DEL)].

Definition shiftmap : list Z := table256
  [NO; 27; 33; 64; 35; 36; 37; 94;
   38; 42; 40; 41; 95; 43; 8; 9;
   81; 87; 69; 82; 84; 89; 85; 73;
   79; 80; 123; 125; 10; NO; 65; 83;
   68; 70; 71; 72; 74; 75; 76; 58;
   34; 126; NO; 124; 90; 88; 67; 86;
   66; 78; 77; 60; 62; 63; NO; 42;
   NO; 32; NO; NO; NO; NO; NO; NO;
   NO; NO; NO; NO; NO; NO; NO; 55;
   56; 57; 45; 52; 53; 54; 43; 49;
   50; 51; 48; 46; NO; NO; NO; NO]
  [(0xC7, KEY_HOME); (0x9C, 10); (0xB5, 47); (0xC8, KEY_UP);
   (0xC9, KEY_PGUP); (0xCB, KEY_LF); (0xCD, KEY_RT); (0xCF, KEY_END);
   (0xD0, KEY_DN); (0xD1, KEY_PGDN); (0xD2, KEY_INS); (0xD3, KEY_DEL)].

Definition ctlmap : list Z := table256
  [NO; NO; NO; NO; NO; NO; NO; NO;
   NO; NO; NO; NO; NO; NO; NO; NO;
   ctl 81; ctl 87; ctl 69; ctl 82; ctl 84; ctl 89; ctl 85; ctl 73;
   ctl 79; ctl 80; NO; NO; 13; NO; ctl 65; ctl 83;
   ctl 68; ctl 70; ctl 71; ctl 72; ctl 74; ctl 75; ctl 76; NO;
   NO; NO; NO; ctl 92; ctl 90; ctl 88; ctl 67; ctl 86;
   ctl 66; ctl 78; ctl 77; NO; NO; ctl 47; NO; NO]
  [(0x97, KEY_HOME); (0xB5, ctl 47); (0xC8, KEY_UP);
   (0xC9, KEY_PGUP); (0xCB, KEY_LF); (0xCD, KEY_RT); (0xCF, KEY_END);
   (0xD0, KEY_DN); (0xD1, KEY_PGDN); (0xD2, KEY_INS); (0xD3, KEY_DEL)].


Definition charcode (i : Z) : list Z :=
  if i =? 0 then normalmap else if i =? 1 then shiftmap else ctlmap.

(** ** The keyboard's decoder

    kbd_proc_data from the read of the data port on: the new [shift], the character
    it returns, and whether it reboots. *)
Definition caps (shift c : Z) : Z :=
  if ctrue (Z.land shift CAPSLOCK) then
    if (97 <=? c) && (c <=? 122) then c + (65 - 97)
    else if (65 <=? c) && (c <=? 90) then c + (97 - 65)
    else c
  else c.

Definition kbd_decode (shift data : Z) : Z * Z * bool :=
  if data =? 0xE0 then (Z.lor shift E0ESC, 0, false)
  else if ctrue (Z.land data 0x80) then
    let data := if ctrue (Z.land shift E0ESC) then data else Z.land data 0x7F in
    (Z.land shift (Z.lnot (Z.lor (tab shiftcode data) E0ESC)), 0, false)
  else
    let '(data, shift) :=
      if ctrue (Z.land shift E0ESC)
      then (Z.lor data 0x80, Z.land shift (Z.lnot E0ESC)) else (data, shift) in
    let shift := Z.lor shift (tab shiftcode data) in
    let shift := Z.lxor shift (tab togglecode data) in
    let c := caps shift (tab (charcode (Z.land shift (Z.lor CTL SHIFT))) data) in
    (shift, c, (Z.land (Z.lnot shift) (Z.lor CTL ALT) =? 0) && (c =? KEY_DEL)).

(** ** The input buffer *)

Definition CONSBUFSIZE : Z := 512.

Record ring := mkRing {
  buf : list Z;
  rpos : Z;
  wpos : Z;
}.
Definition ring0 : ring := mkRing (replicate 512 0) 0 0.

(** The body of cons_intr's loop, for a character that is not 0. *)
Definition cons_put (c : Z) (r : ring) : ring :=
  let w := wpos r + 1 in
  mkRing (<[Z.to_nat (wpos r) := u8 c]> (buf r)) (rpos r) (if w =? CONSBUFSIZE then 0 else w).

(** The end of cons_getc. *)
Definition cons_take (r : ring) : Z * ring :=
  if negb (rpos r =? wpos r) then
    let p := rpos r + 1 in
    (tab (buf r) (rpos r), mkRing (buf r) (if p =? CONSBUFSIZE then 0 else p) (wpos r))
  else (0, r).

(** ** The drivers *)

Record drv (hw : Type) := mkDrv {
  dev : hw;
  serial_exists : bool;
  addr_6845 : Z;
  crt_buf : Z;
  crt_pos : Z;             (* uint16_t *)
  shift : Z;
  irq_mask_8259A : Z;      (* uint16_t *)
  didinit : bool;
}.
Arguments mkDrv {hw}.
Arguments dev {hw}.
Arguments serial_exists {hw}.
Arguments addr_6845 {hw}.
Arguments crt_buf {hw}.
Arguments crt_pos {hw}.
Arguments shift {hw}.
Arguments irq_mask_8259A {hw}.
Arguments didinit {hw}.

Section Drivers.
Context {hw : Type}.
Context (inb : Z -> hw -> Z * hw) (outb : Z -> Z -> hw -> hw).
Context (vread : Z -> hw -> Z) (vwrite : Z -> Z -> hw -> hw).

Definition eta_drv (d : drv hw) : drv hw :=
  mkDrv (dev d) (serial_exists d) (addr_6845 d) (crt_buf d) (crt_pos d) (shift d)
    (irq_mask_8259A d) (didinit d).
Definition set_dev : hw -> drv hw -> drv hw := ltac:(mk_setter eta_drv (@dev hw)).
Definition set_serial_exists : bool -> drv hw -> drv hw := ltac:(mk_setter eta_drv (@serial_exists hw)).
Definition set_addr_6845 : Z -> drv hw -> drv hw := ltac:(mk_setter eta_drv (@addr_6845 hw)).
Definition set_crt_buf : Z -> drv hw -> drv hw := ltac:(mk_setter eta_drv (@crt_buf hw)).
Definition set_crt_pos : Z -> drv hw -> drv hw := ltac:(mk_setter eta_drv (@crt_pos hw)).
Definition set_shift : Z -> drv hw -> drv hw := ltac:(mk_setter eta_drv (@shift hw)).
Definition set_irq_mask : Z -> drv hw -> drv hw := ltac:(mk_setter eta_drv (@irq_mask_8259A hw)).
Definition set_didinit : bool -> drv hw -> drv hw := ltac:(mk_setter eta_drv (@didinit hw)).

Definition inp (port : Z) (d : drv hw) : Z * drv hw :=
  let '(v, h) := inb port (dev d) in (u8 v, set_dev h d).
Definition out (port v : Z) (d : drv hw) : drv hw := set_dev (outb port (u8 v) (dev d)) d.
Definition cell (a : Z) (d : drv hw) : Z := u16 (vread a (dev d)).
Definition set_cell (a v : Z) (d : drv hw) : drv hw := set_dev (vwrite a (u16 v) (dev d)) d.

Definition delay (d : drv hw) : drv hw := Nat.iter 4 (fun d => (inp 0x84 d).2) d.

(** *** Serial port *)

Definition COM1 : Z := 0x3F8.
Definition COM_RX : Z := 0.
Definition COM_TX : Z := 0.
Definition COM_DLL : Z := 0.
Definition COM_DLM : Z := 1.
Definition COM_IER : Z := 1.
Definition COM_IER_RDI : Z := 0x01.
Definition COM_IIR : Z := 2.
Definition COM_FCR : Z := 2.
Definition COM_LCR : Z := 3.
Definition COM_LCR_DLAB : Z := 0x80.
Definition COM_LCR_WLEN8 : Z := 0x03.
Definition COM_MCR : Z := 4.
Definition COM_LSR : Z := 5.
Definition COM_LSR_DATA : Z := 0x01.
Definition COM_LSR_TXRDY : Z := 0x20.

Definition serial_proc_data (d : drv hw) : Z * drv hw :=
  let '(lsr, d) := inp (COM1 + COM_LSR) d in
  if negb (ctrue (Z.land lsr COM_LSR_DATA)) then (-1, d) else inp (COM1 + COM_RX) d.

(** Poll a status port until a bit is set, with a delay each time; at most [n] turns. *)
Fixpoint wait_bit (n : nat) (port mask : Z) (d : drv hw) : drv hw :=
  let '(v, d) := inp port d in
  match n with
  | O => d
  | S n' => if ctrue (Z.land v mask) then d else wait_bit n' port mask (delay d)
  end.

Definition serial_putc (c : Z) (d : drv hw) : drv hw :=
  let d := wait_bit (Z.to_nat 12800) (COM1 + COM_LSR) COM_LSR_TXRDY d in
  out (COM1 + COM_TX) c d.

Definition serial_init (d : drv hw) : drv hw :=
  let d := out (COM1 + COM_FCR) 0 d in
  let d := out (COM1 + COM_LCR) COM_LCR_DLAB d in
  let d := out (COM1 + COM_DLL) (115200 / 9600) d in
  let d := out (COM1 + COM_DLM) 0 d in
  let d := out (COM1 + COM_LCR) (Z.land COM_LCR_WLEN8 (Z.lnot COM_LCR_DLAB)) d in
  let d := out (COM1 + COM_MCR) 0 d in
  let d := out (COM1 + COM_IER) COM_IER_RDI d in
  let '(lsr, d) := inp (COM1 + COM_LSR) d in
  let d := set_serial_exists (negb (lsr =? 0xFF)) d in
  let '(_, d) := inp (COM1 + COM_IIR) d in
  let '(_, d) := inp (COM1 + COM_RX) d in
  d.

(** *** Parallel port *)

Definition lpt_putc (c : Z) (d : drv hw) : drv hw :=
  let d := wait_bit (Z.to_nat 12800) (0x378 + 1) 0x80 d in
  let d := out (0x378 + 0) c d in
  let d := out (0x378 + 2) (Z.lor (Z.lor 0x08 0x04) 0x01) d in
  out (0x378 + 2) 0x08 d.

(** *** Display *)

Definition cga_init (d : drv hw) : drv hw :=
  let cp := Layout.KERNBASE + CGA_BUF in
  let was := cell cp d in
  let d := set_cell cp 0xA55A d in
  let '(cp, d) :=
    if negb (cell cp d =? 0xA55A)
    then (Layout.KERNBASE + MONO_BUF, set_addr_6845 MONO_BASE d)
    else (cp, set_addr_6845 CGA_BASE (set_cell cp was d)) in
  let d := out (addr_6845 d) 14 d in
  let '(hi, d) := inp (addr_6845 d + 1) d in
  let d := out (addr_6845 d) 15 d in
  let '(lo, d) := inp (addr_6845 d + 1) d in
  set_crt_pos (u16 (Z.lor (Z.shiftl hi 8) lo)) (set_crt_buf cp d).

(** [crt_buf[i] = v] and [crt_buf[i]]. *)
Definition put_cell (i v : Z) (d : drv hw) : drv hw := set_cell (crt_buf d + 2 * i) v d.
Definition get_cell (i : Z) (d : drv hw) : Z := cell (crt_buf d + 2 * i) d.

(** memmove of the cells from [i + CRT_COLS] on to [i] on, and the new last line. *)
Fixpoint move_cells (n : nat) (i : Z) (d : drv hw) : drv hw :=
  match n with
  | O => d
  | S n' => move_cells n' (i + 1) (put_cell i (get_cell (i + CRT_COLS) d) d)
  end.
Fixpoint blank_cells (n : nat) (i : Z) (d : drv hw) : drv hw :=
  match n with
  | O => d
  | S n' => blank_cells n' (i + 1) (put_cell i (Z.lor 0x0700 32) d)
  end.

Definition cga_scroll (d : drv hw) : drv hw :=
  if crt_pos d >=? CRT_SIZE then
    let d := move_cells (Z.to_nat (CRT_SIZE - CRT_COLS)) 0 d in
    let d := blank_cells (Z.to_nat CRT_COLS) (CRT_SIZE - CRT_COLS) d in
    set_crt_pos (u16 (crt_pos d - CRT_COLS)) d
  else d.

Definition cga_cursor (d : drv hw) : drv hw :=
  let d := out (addr_6845 d) 14 d in
  let d := out (addr_6845 d + 1) (Z.shiftr (crt_pos d) 8) d in
  let d := out (addr_6845 d) 15 d in
  out (addr_6845 d + 1) (crt_pos d) d.

(** cga_putc; [space] is [cons_putc(' ')], which a tab calls five times. *)
Definition cga_putc_with (space : drv hw -> drv hw) (c : Z) (d : drv hw) : drv hw :=
  let c := if negb (ctrue (Z.land c (Z.lnot 0xFF))) then Z.lor c 0x0700 else c in
  let ch := Z.land c 0xff in
  let d :=
    if ch =? 8 (* \b *) then
      if crt_pos d >? 0 then
        let d := set_crt_pos (crt_pos d - 1) d in
        put_cell (crt_pos d) (Z.lor (Z.land c (Z.lnot 0xff)) 32) d
      else d
    else if (ch =? 10) (* \n *) || (ch =? 13) (* \r *) then
      let d := if ch =? 10 then set_crt_pos (u16 (crt_pos d + CRT_COLS)) d else d in
      set_crt_pos (crt_pos d - crt_pos d mod CRT_COLS) d
    else if ch =? 9 (* \t *) then Nat.iter 5 space d
    else
      let d' := put_cell (crt_pos d) c d in
      set_crt_pos (u16 (crt_pos d + 1)) d' in
  cga_cursor (cga_scroll d).

(** cons_putc and cga_putc call each other, but not further than this: a space is
    not a tab ([cons_space_eq]). *)
Definition cons_putc_with (space : drv hw -> drv hw) (c : Z) (d : drv hw) : drv hw :=
  cga_putc_with space c (lpt_putc c (serial_putc c d)).
Definition cons_space : drv hw -> drv hw := cons_putc_with (fun d => d) 32.
Definition cga_putc : Z -> drv hw -> drv hw := cga_putc_with cons_space.
Definition cons_putc : Z -> drv hw -> drv hw := cons_putc_with cons_space.

Definition cputchar (c : Z) (d : drv hw) : drv hw := cons_putc c d.

(** *** kern/printf.c *)

(** [*cnt++] increments the pointer, not the count. *)
Definition putch (ch : Z) (st : drv hw * Z) : drv hw * Z := (cputchar ch st.1, st.2).

(** [getb] reads the memory that string arguments point to. *)
Definition vcprintf (getb : Z -> Z) (fuel : nat) (fmt : list Z) (ap : va_list) (d : drv hw) :
    fmt_result (Z * drv hw) :=
  match vprintfmt putch (fun _ => getb) fuel fmt ap (d, 0) with
  | Done (d, cnt) => Done (cnt, d)
  | NoArg => NoArg
  | NoFuel => NoFuel
  end.
Definition cprintf : (Z -> Z) -> nat -> list Z -> va_list -> drv hw -> fmt_result (Z * drv hw) := vcprintf.

(** cprintf of a constant without conversions ([cprintf_plain]). *)
Definition puts (s : list Z) (d : drv hw) : drv hw := emit cputchar s d.

(** *** Keyboard *)

Definition kbd_proc_data (d : drv hw) : Z * drv hw :=
  let '(stat, d) := inp KBSTATP d in
  if Z.land stat KBS_DIB =? 0 then (-1, d)
  else if ctrue (Z.land stat KBS_TERR) then (-1, d)
  else
    let '(data, d) := inp KBDATAP d in
    let '(shift', c, reboot) := kbd_decode (shift d) data in
    let d := set_shift shift' d in
    if reboot : bool then (c, out 0x92 0x3 (puts (bytes_of "Rebooting!" ++ [10]) d)) else (c, d).

(** *** Input *)

(** cons_intr: one unit of fuel per character the device has. *)
Fixpoint cons_intr (fuel : nat) (proc : drv hw -> Z * drv hw) (st : drv hw * ring) :
    option (drv hw * ring) :=
  match fuel with
  | O => None
  | S fuel' =>
      let '(c, d) := proc st.1 in
      if c =? -1 then Some (d, st.2)
      else if c =? 0 then cons_intr fuel' proc (d, st.2)
      else cons_intr fuel' proc (d, cons_put c st.2)
  end.

Definition serial_intr (fuel : nat) (st : drv hw * ring) : option (drv hw * ring) :=
  if serial_exists st.1 then cons_intr fuel serial_proc_data st else Some st.
Definition kbd_intr (fuel : nat) (st : drv hw * ring) : option (drv hw * ring) :=
  cons_intr fuel kbd_proc_data st.

Definition cons_getc (fuel : nat) (st : drv hw * ring) : option (Z * (drv hw * ring)) :=
  st ← serial_intr fuel st;
  st ← kbd_intr fuel st;
  let '(c, r) := cons_take st.2 in Some (c, (st.1, r)).

(** getchar polls until there is a character. *)
Fixpoint getchar (polls fuel : nat) (st : drv hw * ring) : option (Z * (drv hw * ring)) :=
  match polls with
  | O => None
  | S n =>
      '(c, st) ← cons_getc fuel st;
      if c =? 0 then getchar n fuel st else Some (c, st)
  end.

Definition iscons (fdnum : Z) : Z := 1.

(** *** kern/picirq.c *)

Definition IO_PIC1 : Z := 0x20.
Definition IO_PIC2 : Z := 0xA0.
Definition IRQ_SLAVE : Z := 2.

(** The list of enabled interrupts that irq_setmask_8259A prints. *)
Definition print_irqs (mask : Z) (d : drv hw) : drv hw :=
  fold_left (fun d i =>
      if ctrue (Z.land (Z.lnot mask) (Z.shiftl 1 i))
      then printnum cputchar i 10 (-1) 32 (puts (bytes_of " ") d) else d)
    (seqZ 0 16) d.

Definition irq_setmask_8259A (mask : Z) (d : drv hw) : drv hw :=
  let d := set_irq_mask mask d in
  if negb (didinit d) then d
  else
    let d := out (IO_PIC1 + 1) mask d in
    let d := out (IO_PIC2 + 1) (Z.shiftr mask 8) d in
    let d := puts (bytes_of "enabled interrupts:") d in
    puts [10] (print_irqs mask d).

Definition pic_init (d : drv hw) : drv hw :=
  let d := set_didinit true d in
  let d := out (IO_PIC1 + 1) 0xFF d in
  let d := out (IO_PIC2 + 1) 0xFF d in
  let d := out IO_PIC1 0x11 d in
  let d := out (IO_PIC1 + 1) IRQ_OFFSET d in
  let d := out (IO_PIC1 + 1) (Z.shiftl 1 IRQ_SLAVE) d in
  let d := out (IO_PIC1 + 1) 0x3 d in
  let d := out IO_PIC2 0x11 d in
  let d := out (IO_PIC2 + 1) (IRQ_OFFSET + 8) d in
  let d := out (IO_PIC2 + 1) IRQ_SLAVE d in
  let d := out (IO_PIC2 + 1) 0x01 d in
  let d := out IO_PIC1 0x68 d in
  let d := out IO_PIC1 0x0a d in
  let d := out IO_PIC2 0x68 d in
  let d := out IO_PIC2 0x0a d in
  if negb (irq_mask_8259A d =? 0xFFFF) then irq_setmask_8259A (irq_mask_8259A d) d else d.

(** *** Initialisation *)

Definition kbd_init (fuel : nat) (st : drv hw * ring) : option (drv hw * ring) :=
  st ← kbd_intr fuel st;
  let mask := Z.land (irq_mask_8259A st.1) (Z.lnot (Z.shiftl 1 IRQ_KBD)) in
  Some (irq_setmask_8259A (u16 mask) st.1, st.2).

Definition cons_init (fuel : nat) (st : drv hw * ring) : option (drv hw * ring) :=
  st ← kbd_init fuel (cga_init st.1, st.2);
  let d := serial_init st.1 in
  Some (if negb (serial_exists d) then puts (bytes_of "Serial port does not exist!" ++ [10]) d else d, st.2).

End Drivers.

(** ** The input buffer is a bounded queue *)

(** The characters that wait, oldest first. *)
Definition pending (r : ring) : list Z :=
  (fun i => tab (buf r) ((rpos r + i) mod CONSBUFSIZE)) <$> seqZ 0 ((wpos r - rpos r) mod CONSBUFSIZE).

Record ring_ok (r : ring) : Prop := {
  ro_len : Z.of_nat (length (buf r)) = CONSBUFSIZE;
  ro_rpos : 0 <= rpos r < CONSBUFSIZE;
  ro_wpos : 0 <= wpos r < CONSBUFSIZE;
}.

(** The specification: a queue of at most 511 characters, which empties when one
    more arrives. *)
Definition qput (q : list Z) (c : Z) : list Z :=
  if Z.of_nat (length q) <? CONSBUFSIZE - 1 then q ++ [u8 c] else [].
Definition qtake (q : list Z) : Z * list Z := match q with [] => (0, []) | x :: q' => (x, q') end.
Definition arrivals (cs q : list Z) : list Z := fold_left qput (filter (fun c => c <> 0) cs) q.

Lemma tab_insert l i j v :
  0 <= i < Z.of_nat (length l) -> 0 <= j -> tab (<[Z.to_nat i := v]> l) j = if j =? i then v else tab l j.
Proof.
  intros Hi Hj. unfold tab. rewrite list_lookup_insert.
  destruct (Z.eqb_spec j i) as [->|].
  - by rewrite decide_True by lia.
  - by rewrite decide_False by lia.
Qed.

Lemma pending_length r : Z.of_nat (length (pending r)) = (wpos r - rpos r) mod CONSBUFSIZE.
Proof. unfold pending. rewrite length_fmap, length_seqZ. unfold CONSBUFSIZE. zlia. Qed.

Lemma cons_put_ok c r : ring_ok r -> ring_ok (cons_put c r).
Proof.
  intros [Hl Hr Hw]. split; unfold cons_put, CONSBUFSIZE in *; cbn [buf rpos wpos]; [|done|].
  - by rewrite length_insert.
  - case_if; lia.
Qed.

Lemma cons_put_pending c r : ring_ok r -> pending (cons_put c r) = qput (pending r) c.
Proof.
  intros [Hl Hr Hw]. unfold qput. rewrite pending_length. unfold pending, cons_put, CONSBUFSIZE in *.
  cbn [buf rpos wpos]. set (n := (wpos r - rpos r) mod 512).
  assert (((if wpos r + 1 =? 512 then 0 else wpos r + 1) - rpos r) mod 512 = if n <? 511 then n + 1 else 0) as ->.
  { unfold n. repeat case_if; zlia. }
  destruct (n <? 512 - 1) eqn:En; bcomp; [|by rewrite (proj2 (Z.ltb_ge n 511)) by lia].
  rewrite (proj2 (Z.ltb_lt n 511)) by lia.
  assert (0 <= n) by (unfold n; zlia). rewrite seqZ_app by lia. rewrite fmap_app. f_equal.
  - apply list_fmap_ext. intros i x Hx. apply lookup_seqZ in Hx as [-> Hi].
    rewrite tab_insert by zlia. rewrite (proj2 (Z.eqb_neq _ _)); [done|]. unfold n in *. zlia.
  - rewrite (seqZ_cons (0 + n) 1), seqZ_nil by lia. cbn [fmap list_fmap].
    f_equal. rewrite tab_insert by zlia. rewrite (proj2 (Z.eqb_eq _ _)); [done|]. unfold n. zlia.
Qed.

Lemma cons_take_ok r : ring_ok r -> ring_ok (cons_take r).2.
Proof.
  intros [Hl Hr Hw]. unfold cons_take. destruct (negb _); [|done].
  split; unfold CONSBUFSIZE in *; cbn [buf rpos wpos snd]; [done| |done]. case_if; lia.
Qed.

Lemma cons_take_pending r :
  ring_ok r -> ((cons_take r).1, pending (cons_take r).2) = qtake (pending r).
Proof.
  intros [Hl Hr Hw]. unfold cons_take, pending, CONSBUFSIZE in *.
  destruct (rpos r =? wpos r) eqn:E; bcomp; cbn [negb fst snd buf rpos wpos].
  - rewrite E. by replace ((wpos r - wpos r) mod 512) with 0 by zlia.
  - set (n := (wpos r - rpos r) mod 512). assert (0 < n) by (unfold n; zlia).
    replace ((wpos r - (if rpos r + 1 =? 512 then 0 else rpos r + 1)) mod 512) with (n - 1)
      by (unfold n; case_if; zlia).
    rewrite (seqZ_cons 0 n) by lia. cbn [fmap list_fmap qtake]. f_equal.
    + f_equal. zlia.
    + change (Z.succ 0) with (0 + 1). rewrite <- (fmap_add_seqZ 1 0), <- list_fmap_compose.
      replace (Z.pred n) with (n - 1) by lia. apply list_fmap_ext. intros i x Hx.
      apply lookup_seqZ in Hx as [-> Hi]. cbn. f_equal. case_if; zlia.
Qed.

(** What a device delivers before it has no more. *)
Fixpoint drain {A : Type} (fuel : nat) (proc : A -> Z * A) (d : A) : option (list Z * A) :=
  match fuel with
  | O => None
  | S fuel' =>
      let '(c, d) := proc d in
      if c =? -1 then Some ([], d) else '(cs, d) ← drain fuel' proc d; Some (c :: cs, d)
  end.

Lemma cons_intr_drain {hw} fuel (proc : drv hw -> Z * drv hw) d r cs d' :
  drain fuel proc d = Some (cs, d') -> ring_ok r ->
  exists r', cons_intr fuel proc (d, r) = Some (d', r') /\ ring_ok r' /\
    pending r' = arrivals cs (pending r).
Proof.
  revert d r cs. induction fuel as [|fuel IH]; intros d r cs; [done|]. cbn [drain cons_intr fst snd].
  destruct (proc d) as [c d1]. destruct (c =? -1) eqn:Ec; [intros [= <- <-] Hr; by exists r|].
  destruct (drain fuel proc d1) as [[cs1 d2]|] eqn:Ed; [|done]. cbn. intros [= <- <-] Hr.
  unfold arrivals. rewrite filter_cons.
  destruct (c =? 0) eqn:E0; bcomp.
  - rewrite decide_False by lia. by apply IH.
  - rewrite decide_True by done. cbn [fold_left]. rewrite <- (cons_put_pending c r Hr).
    apply IH; [done|]. by apply cons_put_ok.
Qed.

(** C32: Console input is a queue.  When the serial port (if there is one) and the
    keyboard run out of data, having delivered [cs1] and [cs2], cons_getc returns the
    oldest character of the waiting ones followed by these, zeros left out, and
    leaves the rest waiting in order; 0 means that nothing waits.  The queue holds
    511 characters: the next one that arrives empties it. *)
Theorem cons_getc_queue {hw : Type} inb outb vread vwrite fuel (d d1 d2 : drv hw) r cs1 cs2 :
  ring_ok r ->
  (if serial_exists d then drain fuel (serial_proc_data inb) d = Some (cs1, d1) else d1 = d /\ cs1 = []) ->
  drain fuel (kbd_proc_data inb outb vread vwrite) d1 = Some (cs2, d2) ->
  exists c r', cons_getc inb outb vread vwrite fuel (d, r) = Some (c, (d2, r')) /\ ring_ok r' /\
    (c, pending r') = qtake (arrivals cs2 (arrivals cs1 (pending r))).
Proof.
  intros Hr Hs Hk.
  assert (exists r1, serial_intr inb fuel (d, r) = Some (d1, r1) /\ ring_ok r1 /\
    pending r1 = arrivals cs1 (pending r)) as (r1 & Es & Hr1 & <-).
  { unfold serial_intr. cbn [fst]. destruct (serial_exists d); [by apply cons_intr_drain|].
    destruct Hs as [-> ->]. by exists r. }
  destruct (cons_intr_drain _ _ _ r1 _ _ Hk Hr1) as (r2 & Ek & Hr2 & <-).
  exists (cons_take r2).1, (cons_take r2).2. unfold cons_getc. rewrite Es. cbn.
  unfold kbd_intr. rewrite Ek. cbn. destruct (cons_take r2) as [c r'] eqn:Et.
  split; [done|]. replace r' with (cons_take r2).2 by (by rewrite Et).
  replace c with (cons_take r2).1 by (by rewrite Et).
  split; [by apply cons_take_ok|by apply cons_take_pending].
Qed.

(** ** The display is a terminal *)

(** The specification: a page of 2000 cells and the position of the cursor. *)
Record term := mkTerm {
  t_cells : list Z;
  t_pos : Z;
}.
Definition BLANK : Z := 0x0720.

(** Lines move up when the cursor has left the page. *)
Definition term_scroll (t : term) : term :=
  if t_pos t >=? 2000
  then mkTerm (drop 80 (t_cells t) ++ replicate 80 BLANK) (t_pos t - 80) else t.
Definition term_write (v : Z) (t : term) : term :=
  term_scroll (mkTerm (<[Z.to_nat (t_pos t) := v]> (t_cells t)) (t_pos t + 1)).
(** The character with its attribute, black on white unless given. *)
Definition with_attr (c : Z) : Z := if Z.land c (Z.lnot 0xFF) =? 0 then Z.lor c 0x0700 else c.
Definition term_putc (c : Z) (t : term) : term :=
  let c := with_attr c in
  let ch := Z.land c 0xff in
  if ch =? 8 then
    if t_pos t >? 0
    then mkTerm (<[Z.to_nat (t_pos t - 1) := u16 (Z.lor (Z.land c (Z.lnot 0xff)) 32)]> (t_cells t)) (t_pos t - 1)
    else t
  else if ch =? 10 then term_scroll (mkTerm (t_cells t) (t_pos t / 80 * 80 + 80))
  else if ch =? 13 then mkTerm (t_cells t) (t_pos t / 80 * 80)
  else if ch =? 9 then Nat.iter 5 (term_write BLANK) t
  else term_write (u16 c) t.

Section Screen.
Context {hw : Type}.
Context (inb : Z -> hw -> Z * hw) (outb : Z -> Z -> hw -> hw).
Context (vread : Z -> hw -> Z) (vwrite : Z -> Z -> hw -> hw) (base : Z).

(** What the drivers rely on: the 2000 cells from [base] on are memory, which port
    accesses do not change. *)
Record display : Prop := {
  dp_vwrite : forall h i j v, 0 <= i < 2000 -> 0 <= j < 2000 -> 0 <= v < 0x10000 ->
    vread (base + 2 * i) (vwrite (base + 2 * j) v h) = if i =? j then v else vread (base + 2 * i) h;
  dp_inb : forall h i p, 0 <= i < 2000 -> vread (base + 2 * i) (inb p h).2 = vread (base + 2 * i) h;
  dp_outb : forall h i p v, 0 <= i < 2000 -> vread (base + 2 * i) (outb p v h) = vread (base + 2 * i) h;
}.
Context (D : display).

Abbreviation gcell := (get_cell vread).
Abbreviation pcell := (put_cell vwrite).

(** [d'] shows what [d] shows. *)
Definition same_screen (d d' : drv hw) : Prop :=
  crt_buf d' = crt_buf d /\ crt_pos d' = crt_pos d /\
  forall i, 0 <= i < 2000 -> gcell i d' = gcell i d.

Lemma same_screen_refl d : same_screen d d.
Proof using. split; [done|]. split; done. Qed.
Lemma same_screen_trans d1 d2 d3 : same_screen d1 d2 -> same_screen d2 d3 -> same_screen d1 d3.
Proof using.
  intros (A1 & B1 & C1) (A2 & B2 & C2). split; [congruence|]. split; [congruence|].
  intros i Hi. rewrite C2, C1; done.
Qed.

Lemma same_screen_inp p d : crt_buf d = base -> same_screen d (inp inb p d).2.
Proof using D.
  intros Hb. unfold inp. destruct (inb p (dev d)) as [v h] eqn:E.
  split; [done|]. split; [done|]. intros i Hi. unfold Console.get_cell, cell. cbn.
  rewrite Hb. pose proof (dp_inb D (dev d) i p Hi) as Hin. rewrite E in Hin. by rewrite <- Hin.
Qed.
Lemma same_screen_out p v d : crt_buf d = base -> same_screen d (out outb p v d).
Proof using D.
  intros Hb. split; [done|]. split; [done|]. intros i Hi. unfold Console.get_cell, cell, out. cbn.
  by rewrite Hb, (dp_outb D).
Qed.

(** Chain the steps of a driver. *)
Lemma same_screen_step d d1 d2 :
  crt_buf d = base -> same_screen d d1 -> (crt_buf d1 = base -> same_screen d1 d2) -> same_screen d d2.
Proof using. intros Hb H1 H2. eapply same_screen_trans; [exact H1|]. apply H2. destruct H1. congruence. Qed.

Lemma same_screen_delay d : crt_buf d = base -> same_screen d (delay inb d).
Proof using D.
  intros Hb. unfold delay. do 3 (eapply same_screen_step; [done| |intros; by apply same_screen_inp]; cbn [Nat.iter]).
  by apply same_screen_inp.
Qed.

Lemma same_screen_wait n p m d : crt_buf d = base -> same_screen d (wait_bit inb n p m d).
Proof using D.
  revert d. induction n as [|n IH]; intros d Hb; cbn [wait_bit];
    pose proof (same_screen_inp p d Hb) as H; destruct (inp inb p d) as [v d1]; cbn [snd] in H; [done|].
  destruct (ctrue _); [done|]. eapply same_screen_step; [done|exact H|]. intros Hb1.
  eapply same_screen_step; [done|by apply same_screen_delay|]. apply IH.
Qed.

Lemma same_screen_serial c d : crt_buf d = base -> same_screen d (serial_putc inb outb c d).
Proof using D.
  intros Hb. unfold serial_putc. eapply same_screen_step; [done|by apply same_screen_wait|].
  apply same_screen_out.
Qed.

Lemma same_screen_lpt c d : crt_buf d = base -> same_screen d (lpt_putc inb outb c d).
Proof using D.
  intros Hb. unfold lpt_putc. cbv zeta.
  eapply same_screen_step; [done|by apply same_screen_wait|]. intros H1.
  eapply same_screen_step; [done|by apply same_screen_out|]. intros H2.
  eapply same_screen_step; [done|by apply same_screen_out|]. apply same_screen_out.
Qed.

Lemma same_screen_cursor d : crt_buf d = base -> same_screen d (cga_cursor outb d).
Proof using D.
  intros Hb. unfold cga_cursor. cbv zeta.
  eapply same_screen_step; [done|by apply same_screen_out|]. intros H1.
  eapply same_screen_step; [done|by apply same_screen_out|]. intros H2.
  eapply same_screen_step; [done|by apply same_screen_out|]. apply same_screen_out.
Qed.

(** The page that is shown. *)
Definition screen (d : drv hw) : list Z := (fun i => gcell i d) <$> seqZ 0 2000.

Lemma get_put_cell i j v d :
  crt_buf d = base -> 0 <= i < 2000 -> 0 <= j < 2000 ->
  gcell i (pcell j v d) = if i =? j then u16 v else gcell i d.
Proof using D.
  intros Hb Hi Hj. unfold Console.get_cell, Console.put_cell, cell, set_cell. cbn. rewrite Hb.
  rewrite (dp_vwrite D) by (done || apply u16_range). destruct (i =? j); [|done].
  apply u16_small, u16_range.
Qed.

Lemma lookup_screen d (i : nat) :
  screen d !! i = if decide (i < 2000)%nat then Some (gcell (Z.of_nat i) d) else None.
Proof using.
  unfold screen. rewrite list_lookup_fmap. case_decide.
  - by rewrite lookup_seqZ_lt by lia.
  - by rewrite lookup_seqZ_ge by lia.
Qed.

Lemma screen_put j v d :
  crt_buf d = base -> 0 <= j < 2000 -> screen (pcell j v d) = <[Z.to_nat j := u16 v]> (screen d).
Proof using D.
  intros Hb Hj. apply list_eq. intros i. rewrite list_lookup_insert, !lookup_screen.
  assert (length (screen d) = 2000%nat) as -> by (unfold screen; by rewrite length_fmap, length_seqZ).
  destruct (decide (i < 2000)%nat).
  - rewrite get_put_cell by (done || lia). destruct (Z.eqb_spec (Z.of_nat i) j).
    + by rewrite decide_True by lia.
    + by rewrite decide_False by lia.
  - by rewrite decide_False by lia.
Qed.

Lemma same_screen_screen d d' : same_screen d d' -> screen d' = screen d.
Proof using.
  intros (_ & _ & H). unfold screen. apply list_fmap_ext. intros i x Hx.
  apply lookup_seqZ in Hx as [-> Hi]. apply H. lia.
Qed.

Lemma move_cells_get n i d j :
  crt_buf d = base -> 0 <= i -> i + Z.of_nat n <= 1920 -> 0 <= j < 2000 ->
  gcell j (move_cells vread vwrite n i d) =
    if (i <=? j) && (j <? i + Z.of_nat n) then gcell (j + 80) d else gcell j d.
Proof using D.
  revert i d. induction n as [|n IH]; intros i d Hb Hi Hn Hj; cbn [move_cells].
  { destruct (i <=? j) eqn:E1, (j <? i + Z.of_nat 0) eqn:E2; bcomp; cbn [andb]; done || lia. }
  unfold CRT_COLS. rewrite IH by (done || lia).
  destruct (Z.leb_spec i j), (Z.leb_spec (i + 1) j), (Z.ltb_spec j (i + 1 + Z.of_nat n)),
    (Z.ltb_spec j (i + Z.of_nat (S n))); cbn [andb]; try lia; rewrite get_put_cell by (done || lia).
  all: try (rewrite (proj2 (Z.eqb_neq _ _)) by lia; done).
  rewrite (proj2 (Z.eqb_eq j i)) by lia. replace j with i by lia.
  unfold Console.get_cell, cell. apply u16_small, u16_range.
Qed.

Lemma move_cells_frame n i d :
  crt_buf (move_cells vread vwrite n i d) = crt_buf d /\ crt_pos (move_cells vread vwrite n i d) = crt_pos d.
Proof using. revert i d. induction n as [|n IH]; intros i d; cbn [move_cells]; [done|]. by rewrite !(proj1 (IH _ _)), !(proj2 (IH _ _)). Qed.

Lemma blank_cells_get n i d j :
  crt_buf d = base -> 0 <= i -> i + Z.of_nat n <= 2000 -> 0 <= j < 2000 ->
  gcell j (blank_cells vwrite n i d) =
    if (i <=? j) && (j <? i + Z.of_nat n) then BLANK else gcell j d.
Proof using D.
  revert i d. induction n as [|n IH]; intros i d Hb Hi Hn Hj; cbn [blank_cells].
  { destruct (i <=? j) eqn:E1, (j <? i + Z.of_nat 0) eqn:E2; bcomp; cbn [andb]; done || lia. }
  rewrite IH by (done || lia).
  destruct (Z.leb_spec i j), (Z.leb_spec (i + 1) j), (Z.ltb_spec j (i + 1 + Z.of_nat n)),
    (Z.ltb_spec j (i + Z.of_nat (S n))); cbn [andb]; try lia; try done; rewrite get_put_cell by (done || lia).
  all: try (rewrite (proj2 (Z.eqb_neq _ _)) by lia; done).
  by rewrite (proj2 (Z.eqb_eq j i)) by lia.
Qed.

Lemma blank_cells_frame n i d :
  crt_buf (blank_cells vwrite n i d) = crt_buf d /\ crt_pos (blank_cells vwrite n i d) = crt_pos d.
Proof using. revert i d. induction n as [|n IH]; intros i d; cbn [blank_cells]; [done|]. by rewrite !(proj1 (IH _ _)), !(proj2 (IH _ _)). Qed.

Definition view (d : drv hw) : term := mkTerm (screen d) (crt_pos d).
Record shown (d : drv hw) : Prop := {
  sh_buf : crt_buf d = base;
  sh_pos : 0 <= crt_pos d < 2000;
}.

Lemma same_view d d' : shown d -> same_screen d d' -> view d' = view d /\ shown d'.
Proof using.
  intros [Hb Hp] H. pose proof (same_screen_screen _ _ H) as Es. destruct H as (E1 & E2 & _).
  split; [unfold view; congruence|]. split; [congruence|by rewrite E2].
Qed.

Lemma cga_scroll_view d :
  crt_buf d = base -> 0 <= crt_pos d < 2080 ->
  view (cga_scroll vread vwrite d) = term_scroll (view d) /\ shown (cga_scroll vread vwrite d).
Proof using D.
  intros Hb Hp. unfold cga_scroll, term_scroll, CRT_SIZE, CRT_ROWS, CRT_COLS.
  change (t_pos (view d)) with (crt_pos d). change (25 * 80) with 2000. rewrite Z.geb_leb.
  destruct (2000 <=? crt_pos d) eqn:E; bcomp; [|split; [done|split; [done|lia]]].
  set (d1 := move_cells _ _ _ _ _). set (d2 := blank_cells _ _ _ _).
  destruct (move_cells_frame (Z.to_nat (2000 - 80)) 0 d) as [B1 P1]. fold d1 in B1, P1.
  destruct (blank_cells_frame (Z.to_nat 80) (2000 - 80) d1) as [B2 P2]. fold d2 in B2, P2.
  rewrite P2, P1. split.
  - unfold view. cbn [crt_pos set_crt_pos t_cells]. f_equal; [|apply u16_small; lia].
    change (screen (set_crt_pos _ d2)) with (screen d2). apply list_eq. intros i.
    assert (length (drop 80 (screen d)) = 1920%nat) as Hl
      by (rewrite length_drop; unfold screen; by rewrite length_fmap, length_seqZ).
    rewrite lookup_screen. case_decide as Hi.
    + unfold d2. rewrite blank_cells_get by (lia || congruence). unfold d1.
      destruct (Z.leb_spec 1920 (Z.of_nat i)).
      * rewrite (proj2 (Z.leb_le _ _)), (proj2 (Z.ltb_lt _ _)) by lia. cbn [andb].
        rewrite lookup_app_r, lookup_replicate_2 by lia. done.
      * rewrite (proj2 (Z.leb_gt _ _)) by lia. cbn [andb]. rewrite move_cells_get by (lia || done).
        rewrite (proj2 (Z.leb_le _ _)), (proj2 (Z.ltb_lt _ _)) by lia. cbn [andb].
        rewrite lookup_app_l, lookup_drop, lookup_screen, decide_True by lia. do 2 f_equal. lia.
    + symmetry. apply lookup_ge_None_2. rewrite length_app, Hl, length_replicate. lia.
  - split; cbn [crt_buf crt_pos set_crt_pos]; [congruence|]. rewrite u16_small; lia.
Qed.

(** The spaces of a tab. *)
Definition space_ok (space : drv hw -> drv hw) : Prop :=
  forall d, shown d -> view (space d) = term_write BLANK (view d) /\ shown (space d).

Lemma iter_space n space d :
  space_ok space -> shown d ->
  view (Nat.iter n space d) = Nat.iter n (term_write BLANK) (view d) /\ shown (Nat.iter n space d).
Proof using.
  intros Hs Hd. induction n as [|n [IH1 IH2]]; [done|]. rewrite !Nat.iter_succ.
  destruct (Hs _ IH2) as [-> H]. by rewrite IH1.
Qed.

(** The end of cga_putc. *)
Lemma cga_finish d :
  crt_buf d = base -> 0 <= crt_pos d < 2080 ->
  view (cga_cursor outb (cga_scroll vread vwrite d)) = term_scroll (view d) /\
  shown (cga_cursor outb (cga_scroll vread vwrite d)).
Proof using D.
  intros Hb Hp. destruct (cga_scroll_view d Hb Hp) as [<- Hs].
  by apply same_view, same_screen_cursor, Hs.
Qed.

Lemma term_scroll_id t : t_pos t < 2000 -> term_scroll t = t.
Proof using. intros H. unfold term_scroll. rewrite Z.geb_leb. by rewrite (proj2 (Z.leb_gt _ _)) by lia. Qed.

Lemma cga_putc_view space c d :
  shown d -> (Z.land (with_attr c) 0xff = 9 -> space_ok space) ->
  view (cga_putc_with outb vread vwrite space c d) = term_putc c (view d) /\
  shown (cga_putc_with outb vread vwrite space c d).
Proof using D.
  intros Hd Hspace. pose proof Hd as [Hb Hp]. unfold cga_putc_with, term_putc. cbv zeta.
  replace (if negb (ctrue _) then _ else c) with (with_attr c)
    by (unfold with_attr, ctrue; by rewrite negb_involutive).
  set (c' := with_attr c) in *. set (ch := Z.land c' 0xff) in *.
  destruct (ch =? 8) eqn:E8; [|destruct (ch =? 10) eqn:E10; [|destruct (ch =? 13) eqn:E13;
    [|destruct (ch =? 9) eqn:E9]]]; cbn [orb].
  - change (t_pos (view d)) with (crt_pos d). rewrite Z.gtb_ltb.
    destruct (0 <? crt_pos d) eqn:E; bcomp.
    + set (d1 := set_crt_pos (crt_pos d - 1) d).
      destruct (cga_finish (pcell (crt_pos d1) (Z.lor (Z.land c' (Z.lnot 0xff)) 32) d1)) as [Hv Hs];
        [done|cbn; lia|]. split; [|done]. rewrite Hv, term_scroll_id by (cbn; lia).
      unfold view. f_equal. rewrite screen_put by (done || cbn; lia). done.
    + destruct (cga_finish d) as [-> Hs]; [done|lia|]. by rewrite term_scroll_id by (cbn; lia).
  - set (d1 := set_crt_pos _ d). cbn [t_pos t_cells view].
    replace (crt_pos d / 80 * 80 + 80) with (crt_pos d1 - crt_pos d1 mod CRT_COLS)
      by (cbn [crt_pos d1 set_crt_pos]; unfold CRT_COLS; rewrite u16_small; zlia).
    set (p := crt_pos d1 - _). change (mkTerm (screen d) p) with (view (set_crt_pos p d1)).
    apply cga_finish; [done|]. unfold p. cbn [crt_pos d1 set_crt_pos]. unfold CRT_COLS. rewrite u16_small; zlia.
  - cbn [t_pos t_cells view].
    replace (crt_pos d / 80 * 80) with (crt_pos d - crt_pos d mod CRT_COLS) by (unfold CRT_COLS; zlia).
    set (d1 := set_crt_pos _ d).
    destruct (cga_finish d1) as [-> Hs]; [done|unfold CRT_COLS in *; cbn; zlia|].
    split; [|done]. apply term_scroll_id. unfold CRT_COLS in *. cbn. zlia.
  - apply Z.eqb_eq in E9. destruct (iter_space 5 space d (Hspace E9) Hd) as [<- Hs].
    destruct (cga_finish (Nat.iter 5 space d)) as [-> Hs']; [apply Hs|destruct Hs; lia|].
    split; [|done]. apply term_scroll_id. apply Hs.
  - unfold term_write. cbn [t_pos t_cells view]. rewrite <- screen_put by (done || lia).
    set (d1 := pcell _ _ _). rewrite (u16_small (crt_pos d + 1)) by lia.
    apply (cga_finish (set_crt_pos (crt_pos d + 1) d1)); [done|]. cbn. lia.
Qed.

(** A character sent to all devices, on the display. *)
Lemma cons_putc_with_view space c d :
  shown d -> (Z.land (with_attr c) 0xff = 9 -> space_ok space) ->
  view (cons_putc_with inb outb vread vwrite space c d) = term_putc c (view d) /\
  shown (cons_putc_with inb outb vread vwrite space c d).
Proof using D.
  intros Hd Hs. unfold cons_putc_with.
  destruct (same_view d (serial_putc inb outb c d)) as [E1 H1]; [done|by apply same_screen_serial, Hd|].
  destruct (same_view (serial_putc inb outb c d) (lpt_putc inb outb c (serial_putc inb outb c d)))
    as [E2 H2]; [exact H1|by apply same_screen_lpt, H1|].
  rewrite <- E1, <- E2. by apply cga_putc_view.
Qed.

Lemma cons_space_ok : space_ok (cons_space inb outb vread vwrite).
Proof using D. intros d Hd. by apply cons_putc_with_view. Qed.

Lemma cons_putc_view c d :
  shown d ->
  view (cons_putc inb outb vread vwrite c d) = term_putc c (view d) /\
  shown (cons_putc inb outb vread vwrite c d).
Proof using D. intros Hd. apply cons_putc_with_view; [done|]. intros _. apply cons_space_ok. Qed.

Lemma puts_view l d :
  shown d ->
  view (puts inb outb vread vwrite l d) = fold_left (fun t c => term_putc c t) l (view d) /\
  shown (puts inb outb vread vwrite l d).
Proof using D.
  unfold puts, emit. revert d. induction l as [|c l IH]; intros d Hd; [done|]. cbn [fold_left].
  destruct (cons_putc_view c d Hd) as [<- H]. by apply IH.
Qed.

End Screen.

(** The space that a tab prints is the one cons_putc prints. *)
Lemma cons_space_eq {hw} inb outb vread vwrite (d : drv hw) :
  cons_putc inb outb vread vwrite 32 d = cons_space inb outb vread vwrite d.
Proof.
  unfold cons_putc, cons_space, cons_putc_with. generalize (lpt_putc inb outb 32 (serial_putc inb outb 32 d)).
  intros d1. unfold cga_putc_with. cbv zeta.
  change (negb (ctrue (Z.land 32 (Z.lnot 0xFF)))) with true. cbv iota.
  change (Z.land (Z.lor 32 0x0700) 0xff) with 32. reflexivity.
Qed.

(** cprintf puts what the engine produces, and returns 0. *)
Lemma vcprintf_puts {hw} inb outb vread vwrite getb fuel fmt ap (d : drv hw) :
  vcprintf inb outb vread vwrite getb fuel fmt ap d =
    match vprintfmt collect (fun _ => getb) fuel fmt ap [] with
    | Done l => Done (0, puts inb outb vread vwrite l d)
    | NoArg => NoArg
    | NoFuel => NoFuel
    end.
Proof.
  unfold vcprintf. set (pc := putch inb outb vread vwrite). set (ps := puts inb outb vread vwrite).
  pose proof (vprintfmt_sim pc (fun _ => getb) collect (fun _ => getb)
    (fun s l => s = (ps l d, 0))) as Hsim.
  assert (forall c s l, s = (ps l d, 0) -> pc c s = (ps (collect c l) d, 0)) as Hp.
  { intros c s l ->. unfold pc, putch, collect, ps, puts. by rewrite emit_app. }
  specialize (Hsim Hp (fun _ _ _ _ => eq_refl) fuel fmt ap (d, 0) [] eq_refl).
  destruct (vprintfmt pc _ _ _ _ _) as [[d1 n]| |], (vprintfmt collect _ _ _ _ _); try done.
  cbn in Hsim. by injection Hsim as -> ->.
Qed.

(** C33: The kernel's cprintf returns, and is a terminal.  For arguments whose strings
    end, with enough fuel the result is always the same and not the lack of fuel.
    When the display's 2000 cells behave as memory and the cursor is on the page,
    then, unless an argument is missing or of the wrong kind, cprintf changes the
    display as printing the formatted characters one by one on a page does: a
    character is written at the cursor, with the default attribute when it has none;
    a backspace blanks the previous cell, a newline and a return move the cursor to
    the beginning of the next and of the same line, a tab prints five spaces, and
    past the last cell all lines move up and a blank one appears.  The cursor stays
    on the page, and the characters are those the formatting engine produces for any
    output.  The count returned is 0, whatever was printed. *)
Theorem cprintf_terminal {hw : Type} inb outb vread vwrite base getb fmt ap (d : drv hw) :
  (forall a, Word a ∈ ap -> exists k : nat, getb (a + Z.of_nat k) = 0) ->
  display inb outb vread vwrite base -> shown base d ->
  exists res, settles (fun fuel => cprintf inb outb vread vwrite getb fuel fmt ap d) res /\
  match res with
  | Done (cnt, d') => exists l,
      settles (fun fuel => vprintfmt collect (fun _ => getb) fuel fmt ap []) (Done l) /\
      view vread d' = fold_left (fun t c => term_putc c t) l (view vread d) /\
      shown base d' /\ cnt = 0
  | NoArg => settles (fun fuel => vprintfmt collect (fun _ => getb) fuel fmt ap []) NoArg
  | NoFuel => False
  end.
Proof.
  intros Hends D Hd.
  assert (halts (fun fuel => vprintfmt collect (fun _ => getb) fuel fmt ap [])) as (r & Hr & N & HN).
  { apply (vprintfmt_halts collect (fun _ => getb) (fun _ => True)); [done..|].
    apply Forall_forall. intros [a|bs] Hin; [|apply lit_ends].
    destruct (Hends a (proj2 (list_elem_of_In _ _) Hin)) as [k Hk]. by exists k. }
  unfold cprintf.
  exists (match r with Done l => Done (0, puts inb outb vread vwrite l d) | NoArg => NoArg | NoFuel => NoFuel end).
  split; [exists N; intros fuel Hf; rewrite vcprintf_puts, HN by done; by destruct r|].
  destruct r as [l| |]; [|by exists N|done].
  exists l. split; [by exists N|].
  destruct (puts_view inb outb vread vwrite base D l d Hd) as [Ev Hs]. by split; [|split].
Qed.

(** ** The keyboard *)

Definition swapcase (c : Z) : Z :=
  if (97 <=? c) && (c <=? 122) then c - 32 else if (65 <=? c) && (c <=? 90) then c + 32 else c.

(** The modifiers after key [k] (0x80 more for an extended one) went down and up. *)
Definition after_key (s k : Z) : Z := Z.land (Z.lxor s (tab togglecode k)) (Z.lnot (tab shiftcode k)).

(** The checks that [kbd_decode_keys] states, as a function. *)
Definition in_range (lo hi x : Z) : bool := (lo <=? x) && (x <? hi).
Definition check_range (s data : Z) : bool :=
  let '(s', c, _) := kbd_decode s data in in_range 0 128 s' && in_range 0 256 c.
Definition check_key (s k : Z) : bool :=
  let s1 := (kbd_decode s k).1.1 in
  let '(s2, c2, _) := kbd_decode s1 (k + 0x80) in
  (s2 =? after_key s k) && (c2 =? 0).
Definition check_ext (s k : Z) : bool :=
  let s1 := (kbd_decode (kbd_decode s 0xE0).1.1 k).1.1 in
  let '(s2, c2, _) := kbd_decode (kbd_decode s1 0xE0).1.1 (k + 0x80) in
  (s2 =? after_key s (k + 0x80)) && (c2 =? 0).
Definition check_caps (s k : Z) : bool :=
  (kbd_decode (Z.lor s CAPSLOCK) k).1.2 =? swapcase (kbd_decode (Z.land s (Z.lnot CAPSLOCK)) k).1.2.

Lemma range_checked s k : 0 <= s < 128 -> 0 <= k < 256 -> check_range s k = true.
Proof.
  intros Hs Hk. apply (forallb_below_spec 256 (check_range s)); [|exact Hk].
  apply (forallb_below_spec 128 (fun s => forallb_below 256 (check_range s))); [|exact Hs].
  vm_compute. reflexivity.
Qed.

Definition check_both (s k : Z) : bool :=
  ((k =? 0x60) || (check_key s k && check_ext s k)) && ((k =? 0x3A) || check_caps s k).
Lemma keys_checked s k : 0 <= s < 64 -> 0 <= k < 128 -> check_both s k = true.
Proof.
  intros Hs Hk. apply (forallb_below_spec 128 (check_both s)); [|exact Hk].
  apply (forallb_below_spec 64 (fun s => forallb_below 128 (check_both s))); [|exact Hs].
  vm_compute. reflexivity.
Qed.

(** C34: The keyboard decoder.  From any state of the modifiers and any byte the new
    state fits its seven bits and the result is 0 or a character.  Pressing and
    releasing a key, plain or extended by E0, leaves the modifiers as they were but
    for its own: a lock key toggles its lock, a held one ends released, and the
    release yields no character.  Caps lock exchanges upper and lower case letters
    and changes no other key. *)
Theorem kbd_decode_keys s k :
  0 <= s < 128 -> 0 <= k < 256 ->
  (let '(s', c, _) := kbd_decode s k in 0 <= s' < 128 /\ 0 <= c < 256) /\
  (s < 64 -> k < 128 -> k <> 0x60 ->
     (let '(s2, c2, _) := kbd_decode (kbd_decode s k).1.1 (k + 0x80) in
      s2 = after_key s k /\ c2 = 0) /\
     (let s1 := (kbd_decode (kbd_decode s 0xE0).1.1 k).1.1 in
      let '(s2, c2, _) := kbd_decode (kbd_decode s1 0xE0).1.1 (k + 0x80) in
      s2 = after_key s (k + 0x80) /\ c2 = 0)) /\
  (s < 64 -> k < 128 -> k <> 0x3A ->
     (kbd_decode (Z.lor s CAPSLOCK) k).1.2 = swapcase (kbd_decode (Z.land s (Z.lnot CAPSLOCK)) k).1.2).
Proof.
  intros Hs Hk. split; [|split].
  - pose proof (range_checked s k Hs Hk) as R. unfold check_range, in_range in R.
    destruct (kbd_decode s k) as [[s' c] b].
    apply andb_prop in R as [A B]. apply andb_prop in A as [A1 A2]. apply andb_prop in B as [B1 B2].
    apply Z.leb_le in A1, B1. apply Z.ltb_lt in A2, B2. exact (conj (conj A1 A2) (conj B1 B2)).
  - intros Hs' Hk' Hne. assert (check_both s k = true) as Q by (apply keys_checked; lia).
    unfold check_both in Q. rewrite (proj2 (Z.eqb_neq k 0x60) Hne) in Q. cbn [orb] in Q.
    apply andb_prop in Q as [Q _]. apply andb_prop in Q as [A B].
    unfold check_key, check_ext in A, B. cbv zeta in A, B |- *. split.
    + destruct (kbd_decode (kbd_decode s k).1.1 (k + 0x80)) as [[s2 c2] b].
      apply andb_prop in A as [A C]. split; apply Z.eqb_eq; assumption.
    + destruct (kbd_decode (kbd_decode _ 0xE0).1.1 (k + 0x80)) as [[s2 c2] b].
      apply andb_prop in B as [B C]. split; apply Z.eqb_eq; assumption.
  - intros Hs' Hk' Hne. assert (check_both s k = true) as Q by (apply keys_checked; lia).
    unfold check_both in Q. rewrite (proj2 (Z.eqb_neq k 0x3A) Hne) in Q. cbn [orb] in Q.
    apply andb_prop in Q as [_ Q]. apply Z.eqb_eq. exact Q.
Qed.

(** Shift and the key of the letter a. *)
Lemma kbd_decode_keys_witness :
  0 <= 1 < 128 /\ 0 <= 0x1E < 256 /\
  (let '(s', c, _) := kbd_decode 1 0x1E in 0 <= s' < 128 /\ 0 <= c < 256).
Proof. split; [lia|]. split; [lia|]. apply (kbd_decode_keys 1 0x1E); lia. Defined.

(** ** Examples: a machine with a display of memory cells and a serial port *)

Definition demo_hw : Type := gmap Z Z * list Z.
Definition demo_inb (port : Z) (h : demo_hw) : Z * demo_hw :=
  if port =? KBSTATP then (0, h)
  else if port =? COM1 + COM_LSR then (match h.2 with [] => COM_LSR_TXRDY | _ => Z.lor COM_LSR_TXRDY COM_LSR_DATA end, h)
  else if port =? COM1 + COM_RX then (match h.2 with [] => (0, h) | c :: l => (c, (h.1, l)) end)
  else (0xFF, h).
Definition demo_outb (port v : Z) (h : demo_hw) : demo_hw := h.
Definition demo_vread (a : Z) (h : demo_hw) : Z := default 0 (h.1 !! a).
Definition demo_vwrite (a v : Z) (h : demo_hw) : demo_hw := (<[a := v]> h.1, h.2).
Definition demo_drv (l : list Z) : drv demo_hw := mkDrv (∅, l) true CGA_BASE 0xF00B8000 0 0 0xFFFB false.

Lemma demo_display : display demo_inb demo_outb demo_vread demo_vwrite 0xF00B8000.
Proof.
  split; [|intros [m l] i p _|done].
  - intros [m l] i j v Hi Hj Hv. unfold demo_vread, demo_vwrite. cbn [fst].
    rewrite lookup_insert. destruct (Z.eqb_spec i j).
    + by rewrite decide_True by lia.
    + by rewrite decide_False by lia.
  - unfold demo_inb. repeat case_if; try done. by destruct l.
Qed.

Lemma cprintf_terminal_witness :
  exists d', settles (fun fuel => cprintf demo_inb demo_outb demo_vread demo_vwrite (fun _ => 0) fuel
      (bytes_of "hi%d") [Word 42] (demo_drv [])) (Done (0, d')) /\ t_pos (view demo_vread d') = 4.
Proof.
  destruct (cprintf_terminal demo_inb demo_outb demo_vread demo_vwrite 0xF00B8000 (fun _ => 0)
    (bytes_of "hi%d") [Word 42] (demo_drv [])) as (res & Hs & H).
  - intros a _. exists O. reflexivity.
  - exact demo_display.
  - split; [reflexivity|cbn; lia].
  - destruct res as [[cnt d']| |].
    + destruct H as (l & [N HN] & Ev & _ & ->). exists d'. split; [exact Hs|]. rewrite Ev.
      specialize (HN (20 + N)%nat ltac:(lia)). vm_compute in HN. injection HN as <-. vm_compute. reflexivity.
    + destruct H as [N HN]. specialize (HN (20 + N)%nat ltac:(lia)). vm_compute in HN. discriminate HN.
    + destruct H.
Defined.

Lemma ring0_ok : ring_ok ring0.
Proof. split; cbn; [reflexivity|unfold CONSBUFSIZE; lia..]. Qed.

Lemma cons_getc_queue_witness :
  exists r', cons_getc demo_inb demo_outb demo_vread demo_vwrite 5 (demo_drv [97; 98], ring0) =
    Some (97, (demo_drv [], r')) /\ pending r' = [98].
Proof.
  destruct (cons_getc_queue demo_inb demo_outb demo_vread demo_vwrite 5 (demo_drv [97; 98]) (demo_drv [])
    (demo_drv []) ring0 [97; 98] [] ring0_ok eq_refl eq_refl) as (c & r' & E & _ & H).
  change (pending ring0) with (@nil Z) in H. cbn in H. injection H as -> H. by exists r'.
Defined.

(** The list of interrupts is what [cprintf(" %d", i)] prints. *)
Lemma print_irqs_cprintf {hw} inb outb vread vwrite i (d : drv hw) :
  0 <= i < 16 ->
  cprintf inb outb vread vwrite (fun _ => 0) 10 (bytes_of " %d") [Word i] d =
    Done (0, printnum (cputchar inb outb vread vwrite) i 10 (-1) 32 (puts inb outb vread vwrite (bytes_of " ") d)).
Proof.
  intros Hi. unfold cprintf. rewrite vcprintf_puts. unfold puts.
  generalize (cputchar inb outb vread vwrite). intros pc.
  assert (i ∈ seqZ 0 16) as Hin by (apply elem_of_seqZ; lia).
  cbn in Hin. repeat (apply elem_of_cons in Hin as [->|Hin]; [vm_compute; reflexivity|]).
  by apply not_elem_of_nil in Hin.
Qed.
