(* ===== verification/Monitor.v ===== *)
(** * Monitor: line input and the kernel monitor, lib/readline.c and kern/monitor.c

    Both work on a terminal, the class [Terminal]: a source of characters and a
    place to put them.  readline edits a line in its static buffer; runcmd cuts it
    into arguments in place and runs a command. *)

From S2P Require Import Prelude Layout Memory CString Printfmt Console.

(** ** The terminal *)

(** getchar (None when it never returns) and cputchar. *)
Class Terminal (St : Type) := {
  t_getchar : St -> option (Z * St);
  t_cputchar : Z -> St -> St;
}.

(** What a terminal promises: characters come in the order of [t_input], and what is
    put is appended to [t_output]; neither disturbs the other. *)
Class TerminalLaws (St : Type) `{Terminal St} := {
  t_input : St -> list Z;
  t_output : St -> list Z;
  t_get_next : forall st c r, t_input st = c :: r ->
    exists st', t_getchar st = Some (c, st') /\ t_input st' = r /\ t_output st' = t_output st;
  t_put_input : forall c st, t_input (t_cputchar c st) = t_input st;
  t_put_output : forall c st, t_output (t_cputchar c st) = t_output st ++ [c];
}.

(** The kernel's console. *)
#[export] Instance console_terminal {hw : Type} inb outb vread vwrite (polls fuel : nat) :
    Terminal (drv hw * ring) := {
  t_getchar := getchar inb outb vread vwrite polls fuel;
  t_cputchar c st := (cputchar inb outb vread vwrite c st.1, st.2);
}.

(** Two lists: what will be typed, what has been printed. *)
#[export] Instance list_terminal : Terminal (list Z * list Z) := {
  t_getchar st := match st.1 with [] => None | c :: r => Some (c, (r, st.2)) end;
  t_cputchar c st := (st.1, st.2 ++ [c]);
}.
#[export] Instance list_terminal_laws : TerminalLaws (list Z * list Z).
Proof.
  refine {| t_input := fst; t_output := snd |}.
  - intros [i o] c r E. cbn in *. subst i. exists (r, o). done.
  - done.
  - done.
Defined.

(** ** lib/readline.c *)

Definition BUFLEN : Z := 1024.

Section Readline.
Context {St : Type} `{Terminal St}.
(** The address of the static buffer; whether input is echoed. *)
Context (buf : Z) (echoing : bool).

Definition echo (c : Z) (st : St) : St := if echoing then t_cputchar c st else st.

(** A format without conversions, or with one string; [None] when the engine's
    fuel ran out. *)
Definition t_cprintf (fuel : nat) (m : memory) (fmt : list Z) (ap : va_list) (st : St) : option St :=
  match vprintfmt t_cputchar (fun _ => load8 m) fuel fmt ap st with Done st => Some st | _ => None end.

(** The loop: the result is the pointer returned (null after a read error). *)
Fixpoint readline_loop (fuel : nat) (i : Z) (m : memory) (st : St) : option (Z * memory * St) :=
  match fuel with
  | O => None
  | S fuel' =>
      '(c, st) ← t_getchar st;
      if c <? 0 then
        st ← t_cprintf (S fuel') m (bytes_of "read error: %e" ++ [10]) [Word (u32 c)] st;
        Some (0, m, st)
      else if ((c =? 8) || (c =? 0x7f)) && (i >? 0) then
        readline_loop fuel' (i - 1) m (echo 8 st)
      else if (c >=? 32) && (i <? BUFLEN - 1) then
        readline_loop fuel' (i + 1) (store8 m (buf + i) c) (echo c st)
      else if (c =? 10) || (c =? 13) then
        Some (buf, store8 m (buf + i) 0, echo 10 st)
      else readline_loop fuel' i m st
  end.

(** [prompt] is a string in memory, or null. *)
Definition readline (fuel : nat) (prompt : Z) (m : memory) (st : St) : option (Z * memory * St) :=
  st ← (if prompt =? 0 then Some st else t_cprintf fuel m (bytes_of "%s") [Word prompt] st);
  readline_loop fuel 0 m st.
End Readline.

(** ** kern/monitor.c *)

Definition CMDBUF_SIZE : Z := 80.
Definition WHITESPACE : list Z := [9; 13; 10; 32].
Definition MAXARGS : Z := 16.

(** [strchr(WHITESPACE, c)] for a character that is not NUL. *)
Definition is_space (c : Z) : bool := existsb (Z.eqb c) WHITESPACE.

(** [while ( *buf && strchr(WHITESPACE, *buf)) *buf++ = 0]. *)
Fixpoint gobble (fuel : nat) (m : memory) (p : Z) : option (memory * Z) :=
  match fuel with
  | O => None
  | S fuel' =>
      let c := load8 m p in
      if negb (c =? 0) && is_space c then gobble fuel' (store8 m p 0) (p + 1) else Some (m, p)
  end.
(** [while ( *buf && !strchr(WHITESPACE, *buf)) buf++]. *)
Fixpoint scan_arg (fuel : nat) (m : memory) (p : Z) : option Z :=
  match fuel with
  | O => None
  | S fuel' =>
      let c := load8 m p in
      if negb (c =? 0) && negb (is_space c) then scan_arg fuel' m (p + 1) else Some p
  end.

Inductive parsed :=
| TooMany (m : memory)
| Argv (m : memory) (argv : list Z).

Fixpoint parse_args (fuel : nat) (m : memory) (p : Z) (argv : list Z) : option parsed :=
  match fuel with
  | O => None
  | S fuel' =>
      '(m, p) ← gobble fuel m p;
      if load8 m p =? 0 then Some (Argv m argv)
      else if Z.of_nat (length argv) =? MAXARGS - 1 then Some (TooMany m)
      else
        q ← scan_arg fuel m p;
        parse_args fuel' m q (argv ++ [p])
  end.

Section Commands.
Context {St : Type} `{Terminal St}.
(** The linker's addresses: _start, entry, etext, edata, end; and of the strings of
    the table of commands, a name and a description each. *)
Context (_start entry etext edata end_ : Z) (help_name help_desc info_name info_desc : Z).

Definition commands : list (Z * Z) := [(help_name, help_desc); (info_name, info_desc)].

Definition line (x : string) : list Z := bytes_of x ++ [10].

Definition mon_help (fuel : nat) (m : memory) (st : St) : option (Z * St) :=
  st ← t_cprintf fuel m (line "%s - %s") [Word help_name; Word help_desc] st;
  st ← t_cprintf fuel m (line "%s - %s") [Word info_name; Word info_desc] st;
  Some (0, st).

Definition mon_kerninfo (fuel : nat) (m : memory) (st : St) : option (Z * St) :=
  st ← t_cprintf fuel m (line "Special kernel symbols:") [] st;
  st ← t_cprintf fuel m (line "  _start                  %08x (phys)") [Word _start] st;
  st ← t_cprintf fuel m (line "  entry  %08x (virt)  %08x (phys)") [Word entry; Word (u32 (entry - KERNBASE))] st;
  st ← t_cprintf fuel m (line "  etext  %08x (virt)  %08x (phys)") [Word etext; Word (u32 (etext - KERNBASE))] st;
  st ← t_cprintf fuel m (line "  edata  %08x (virt)  %08x (phys)") [Word edata; Word (u32 (edata - KERNBASE))] st;
  st ← t_cprintf fuel m (line "  end    %08x (virt)  %08x (phys)") [Word end_; Word (u32 (end_ - KERNBASE))] st;
  st ← t_cprintf fuel m (line "Kernel executable memory footprint: %dKB")
         [Word (u32 (ROUNDUP (u32 (end_ - entry)) 1024 / 1024))] st;
  Some (0, st).

(** The result, and the memory and terminal afterwards. *)
Definition runcmd (fuel : nat) (buf : Z) (m : memory) (st : St) : option (Z * memory * St) :=
  r ← parse_args fuel m buf [];
  match r with
  | TooMany m =>
      st ← t_cprintf fuel m (line "Too many arguments (max %d)") [Word MAXARGS] st;
      Some (0, m, st)
  | Argv m [] => Some (0, m, st)
  | Argv m (arg0 :: _) =>
      c ← strcmp fuel m arg0 help_name;
      if c =? 0 then '(r, st) ← mon_help fuel m st; Some (r, m, st)
      else
        c ← strcmp fuel m arg0 info_name;
        if c =? 0 then '(r, st) ← mon_kerninfo fuel m st; Some (r, m, st)
        else
          st ← t_cprintf fuel m (line "Unknown command '%s'") [Word arg0] st;
          Some (0, m, st)
  end.

(** The loop of monitor, for at most [turns] commands; [true] when it was left. *)
Fixpoint monitor_loop (turns fuel : nat) (buf prompt : Z) (echoing : bool) (m : memory) (st : St) :
    option (bool * memory * St) :=
  match turns with
  | O => Some (false, m, st)
  | S turns' =>
      '(p, m, st) ← readline buf echoing fuel prompt m st;
      if negb (p =? 0) then
        '(r, m, st) ← runcmd fuel p m st;
        if r <? 0 then Some (true, m, st)
        else monitor_loop turns' fuel buf prompt echoing m st
      else monitor_loop turns' fuel buf prompt echoing m st
  end.
End Commands.

(** ** readline *)

(** The line [l] after the character [c] was typed: backspace and delete remove the
    last character, other characters are appended while there is room. *)
Definition edit (l : list Z) (c : Z) : list Z :=
  if ((c =? 8) || (c =? 0x7f)) && bool_decide (l <> []) then take (length l - 1) l
  else if (32 <=? c) && (Z.of_nat (length l) <? BUFLEN - 1) then l ++ [c]
  else l.
(** What is echoed for it. *)
Definition edit_echo (l : list Z) (c : Z) : list Z :=
  if ((c =? 8) || (c =? 0x7f)) && bool_decide (l <> []) then [8]
  else if (32 <=? c) && (Z.of_nat (length l) <? BUFLEN - 1) then [c]
  else [].
Fixpoint echoes (l cs : list Z) : list Z :=
  match cs with [] => [] | c :: cs' => edit_echo l c ++ echoes (edit l c) cs' end.

Definition typed (c : Z) : Prop := 0 <= c < 256 /\ c <> 10 /\ c <> 13.

Lemma edit_length l c : Z.of_nat (length l) <= BUFLEN - 1 -> Z.of_nat (length (edit l c)) <= BUFLEN - 1.
Proof.
  unfold edit, BUFLEN. intros Hl. case_if; [rewrite length_take; lia|].
  destruct ((32 <=? c) && _) eqn:E; [|done]. rewrite length_app. cbn.
  apply andb_true_iff in E as [_ E]. apply Z.ltb_lt in E. lia.
Qed.

(** The buffer at [buf] holds the line [l]. *)
Definition holds (m : memory) (buf : Z) (l : list Z) : Prop :=
  forall i b, l !! i = Some b -> load8 m (buf + Z.of_nat i) = b /\ b <> 0.

Section ReadlineSpec.
Context {St : Type} `{Terminal St} {HL : TerminalLaws St} (buf : Z) (echoing : bool).

Lemma echo_laws c st :
  t_input (echo echoing c st) = t_input st /\
  t_output (echo echoing c st) = t_output st ++ (if echoing then [c] else []).
Proof using All.
  unfold echo. destruct echoing; [split; [apply t_put_input|apply t_put_output]|].
  by rewrite app_nil_r.
Qed.

(** One character that does not end the line. *)
Lemma readline_step fuel l m st c r :
  typed c -> t_input st = c :: r -> holds m buf l -> Z.of_nat (length l) <= BUFLEN - 1 ->
  exists m' st',
    readline_loop buf echoing (S fuel) (Z.of_nat (length l)) m st =
      readline_loop buf echoing fuel (Z.of_nat (length (edit l c))) m' st' /\
    holds m' buf (edit l c) /\ t_input st' = r /\
    t_output st' = t_output st ++ (if echoing then edit_echo l c else []) /\
    (forall x, x < buf \/ buf + BUFLEN <= x -> load8 m' x = load8 m x).
Proof using All.
  intros (Hc & Hn1 & Hn2) Hi Hm Hl. destruct (t_get_next st c r Hi) as (st1 & E & Hi1 & Ho1).
  cbn [readline_loop]. rewrite E. cbn [mbind option_bind].
  rewrite (proj2 (Z.ltb_ge c 0)) by lia. unfold edit, edit_echo.
  replace (Z.of_nat (length l) >? 0) with (bool_decide (l <> [])) by (by destruct l).
  rewrite Z.geb_leb. rewrite <- Ho1. destruct (((c =? 8) || (c =? 127)) && bool_decide (l <> [])) eqn:E1.
  { apply andb_true_iff in E1 as [_ E1]. apply bool_decide_eq_true_1 in E1.
    destruct (echo_laws 8 st1) as [Ei Eo]. exists m, (echo echoing 8 st1).
    split; [|split; [|split; [by rewrite Ei|split; [by rewrite Eo|done]]]].
    - rewrite length_take. f_equal. destruct l; [done|]. cbn [length]. lia.
    - intros i b Hb. apply lookup_take_Some in Hb as [Hb _]. by apply Hm. }
  destruct ((32 <=? c) && (Z.of_nat (length l) <? BUFLEN - 1)) eqn:E2.
  { apply andb_true_iff in E2 as [E2 E3]. apply Z.leb_le in E2. apply Z.ltb_lt in E3.
    destruct (echo_laws c st1) as [Ei Eo].
    exists (store8 m (buf + Z.of_nat (length l)) c), (echo echoing c st1).
    split; [|split; [|split; [by rewrite Ei|split; [by rewrite Eo|]]]].
    - rewrite length_app. cbn [length]. f_equal. lia.
    - intros i b Hb. rewrite load8_store8. apply lookup_app_Some in Hb as [Hb|[Hge Hb]].
      + rewrite decide_False; [by apply Hm|]. apply lookup_lt_Some in Hb. lia.
      + apply list_lookup_singleton_Some in Hb as [Hb <-]. rewrite decide_True by lia.
        rewrite u8_small by lia. lia.
    - intros x Hx. apply load8_store8_ne. unfold BUFLEN in *. lia. }
  rewrite (proj2 (Z.eqb_neq c 10)), (proj2 (Z.eqb_neq c 13)) by done. cbn [orb].
  exists m, st1. split; [done|]. split; [done|]. split; [done|]. split; [|done].
  destruct echoing; by rewrite app_nil_r.
Qed.

Lemma readline_run cs fuel l m st nl rest :
  Forall typed cs -> nl = 10 \/ nl = 13 -> t_input st = cs ++ nl :: rest ->
  holds m buf l -> Z.of_nat (length l) <= BUFLEN - 1 -> (length cs < fuel)%nat ->
  exists m' st', readline_loop buf echoing fuel (Z.of_nat (length l)) m st = Some (buf, m', st') /\
    cstring m' buf (fold_left edit cs l) /\ Z.of_nat (length (fold_left edit cs l)) <= BUFLEN - 1 /\
    (forall x, x < buf \/ buf + BUFLEN <= x -> load8 m' x = load8 m x) /\
    t_input st' = rest /\
    t_output st' = t_output st ++ (if echoing then echoes l cs ++ [10] else []).
Proof using All.
  revert fuel l m st. induction cs as [|c cs IH]; intros fuel l m st Hcs Hnl Hi Hm Hl Hf;
    (destruct fuel as [|fuel]; [cbn in Hf; lia|]).
  - destruct (t_get_next st nl rest Hi) as (st1 & E & Hi1 & Ho1).
    cbn [readline_loop]. rewrite E. cbn [mbind option_bind].
    destruct (echo_laws 10 st1) as [Ei Eo].
    exists (store8 m (buf + Z.of_nat (length l)) 0), (echo echoing 10 st1). split.
    { destruct Hnl as [->| ->]; done. }
    cbn [fold_left echoes app]. split; [|split; [done|split; [|split; [by rewrite Ei|by rewrite Eo, Ho1]]]].
    + split.
      * intros i b Hb. rewrite load8_store8_ne; [by apply Hm|]. apply lookup_lt_Some in Hb. lia.
      * apply load8_store8_eq.
    + intros x Hx. apply load8_store8_ne. unfold BUFLEN in *. lia.
  - inversion_clear Hcs as [|? ? Hc Hcs0]. rename Hcs0 into Hcs.
    destruct (readline_step fuel l m st c (cs ++ nl :: rest) Hc Hi Hm Hl)
      as (m1 & st1 & E & Hm1 & Hi1 & Ho1 & Hx1).
    destruct (IH fuel (edit l c) m1 st1 Hcs Hnl Hi1 Hm1 (edit_length l c Hl) ltac:(cbn in Hf; lia))
      as (m2 & st2 & E2 & Hs2 & Hl2 & Hx2 & Hi2 & Ho2).
    exists m2, st2. rewrite E. split; [done|]. split; [done|]. split; [done|].
    split; [intros x Hx; by rewrite Hx2, Hx1|]. split; [done|].
    rewrite Ho2, Ho1. cbn [echoes]. destruct echoing; by rewrite ?app_nil_r, <- ?app_assoc.
Qed.
End ReadlineSpec.

(** ** Printing a string *)

Lemma str_chars_string {St} (putch : Z -> St -> St) m p bs fuel i sp st :
  cstring m (p + i) bs -> Forall (fun b => 0 <= b < 128) bs -> (length bs < fuel)%nat ->
  precision sp = -1 -> altflag sp = false ->
  str_chars putch (fun _ => load8 m) fuel (Word p) i sp st =
    Some (width sp - Z.of_nat (length bs), emit putch bs st).
Proof.
  revert fuel i sp st. induction bs as [|b bs IH]; intros fuel i sp st Hs Hb Hf Hp Ha;
    (destruct fuel as [|fuel]; [cbn in Hf; lia|]); cbn [str_chars str_byte].
  - rewrite (cstring_nil _ _ Hs). cbn. f_equal. f_equal. lia.
  - inversion_clear Hb as [|? ? Hb1 Hb2]. apply cstring_cons in Hs as (-> & Hnz & Hs).
    assert (s8 b = b) as -> by (unfold s8; rewrite u8_small by lia; case_if; lia).
    rewrite (proj2 (Z.eqb_neq b 0) Hnz), Hp, Ha. cbn [Z.ltb Z.compare andb].
    rewrite IH; [|by rewrite Z.add_assoc|done|cbn in Hf; lia|done|done].
    cbn [set_width width length]. f_equal. f_equal. lia.
Qed.

Lemma vprintfmt_string {St} (putch : Z -> St -> St) m p bs fuel st :
  cstring m p bs -> Forall (fun b => 0 <= b < 128) bs -> p <> 0 -> (length bs + 2 < fuel)%nat ->
  vprintfmt putch (fun _ => load8 m) fuel (bytes_of "%s") [Word p] st = Done (emit putch bs st).
Proof.
  intros Hs Hb Hp Hf. do 2 (destruct fuel as [|fuel]; [lia|]).
  change (bytes_of "%s") with [37; 115]. cbn -[str_chars].
  unfold print_str. destruct p as [|p|p]; [done|..];
    (cbn [width spec0 Z.gtb Z.compare andb]; 
     erewrite str_chars_string; [|by rewrite Z.add_0_r|done|lia|done|done];
     cbn [width spec0]; unfold pad; replace (Z.to_nat (-1 - Z.of_nat (length bs))) with O by lia; done).
Qed.

(** C35: readline is a line editor.  When the characters [cs] and then a newline or a
    return are typed, readline prints its prompt, returns its buffer, and the buffer
    holds, as a string, the line that editing gives: backspace and delete remove the
    last character, if there is one, every other character from the space up is
    appended while fewer than 1023 are there, and the rest is ignored.  The string
    never leaves the buffer and no other byte changes; with echo, each change shows
    on the terminal; and what is typed after the newline stays in the input. *)
Theorem readline_edits {St} `{Terminal St} {HL : TerminalLaws St} buf echoing fuel prompt ps cs m st nl rest :
  prompt <> 0 -> cstring m prompt ps -> Forall (fun b => 0 <= b < 128) ps ->
  Forall typed cs -> nl = 10 \/ nl = 13 -> t_input st = cs ++ nl :: rest ->
  (length cs < fuel)%nat -> (length ps + 2 < fuel)%nat ->
  let l := fold_left edit cs [] in
  exists m' st', readline buf echoing fuel prompt m st = Some (buf, m', st') /\
    cstring m' buf l /\ Z.of_nat (length l) <= BUFLEN - 1 /\
    (forall x, x < buf \/ buf + BUFLEN <= x -> load8 m' x = load8 m x) /\
    t_input st' = rest /\
    t_output st' = t_output st ++ ps ++ (if echoing then echoes [] cs ++ [10] else []).
Proof.
  intros Hp Hs Hb Hcs Hnl Hi Hf Hf'. cbv zeta. unfold readline, t_cprintf.
  rewrite (proj2 (Z.eqb_neq prompt 0) Hp), (vprintfmt_string _ _ _ ps) by done.
  cbn [mbind option_bind].
  assert (forall l st, t_input (emit t_cputchar l st) = t_input st /\
    t_output (emit t_cputchar l st) = t_output st ++ l) as He.
  { unfold emit. intros l. induction l as [|c l IH]; intros s0; cbn; [by rewrite app_nil_r|].
    destruct (IH (t_cputchar c s0)) as [-> ->]. rewrite t_put_input, t_put_output.
    by rewrite <- app_assoc. }
  destruct (He ps st) as [Ei Eo].
  destruct (readline_run (HL := HL) buf echoing cs fuel [] m (emit t_cputchar ps st) nl rest Hcs Hnl)
    as (m' & st' & E & Hs' & Hl & Hx & Hi' & Ho'); [by rewrite Ei|done|done|done|].
  exists m', st'. split; [exact E|]. split; [done|]. split; [done|]. split; [done|]. split; [done|].
  by rewrite Ho', Eo, <- app_assoc.
Qed.

(** ** runcmd *)

#[local] Arguments is_space : simpl never.

(** The words of a line: its longest runs of characters that are not blank. *)
Fixpoint words (l : list Z) : list (list Z) :=
  match l with
  | [] => []
  | c :: r =>
      if is_space c then words r
      else match r with
           | [] => [[c]]
           | c' :: _ =>
               if is_space c' then [c] :: words r
               else match words r with w :: ws => (c :: w) :: ws | [] => [[c]] end
           end
  end.

(** The line is at a blank or at its end. *)
Definition at_blank (l : list Z) : Prop := match l with [] => True | c :: _ => is_space c = true end.

Lemma words_word w l :
  w <> [] -> Forall (fun c => is_space c = false) w -> at_blank l -> words (w ++ l) = w :: words l.
Proof.
  induction w as [|c w IH]; intros Hw Hs Hl; [done|]. inversion_clear Hs as [|? ? Hc Hs'].
  cbn [app words]. rewrite Hc. destruct w as [|c2 w].
  - cbn [app]. destruct l as [|c' l]; [done|]. cbn in Hl. by rewrite Hl.
  - rewrite IH by done. inversion_clear Hs' as [|? ? Hc2 _]. cbn [app]. by rewrite Hc2.
Qed.

Lemma words_blank w l : Forall (fun c => is_space c = true) w -> words (w ++ l) = words l.
Proof. induction 1 as [|c w Hc _ IH]; [done|]. cbn [app words]. by rewrite Hc. Qed.

Lemma gobble_run fuel m p l :
  cstring m p l -> (length l < fuel)%nat ->
  exists m' l1 l2, l = l1 ++ l2 /\ Forall (fun c => is_space c = true) l1 /\
    (at_blank l2 -> l2 = []) /\ gobble fuel m p = Some (m', p + Z.of_nat (length l1)) /\
    cstring m' (p + Z.of_nat (length l1)) l2 /\
    forall x, load8 m' x = if decide (p <= x < p + Z.of_nat (length l1)) then 0 else load8 m x.
Proof.
  revert fuel m p. induction l as [|c l IH]; intros fuel m p Hs Hf;
    (destruct fuel as [|fuel]; [cbn in Hf; lia|]); cbn [gobble].
  - rewrite (cstring_nil _ _ Hs). exists m, [], []. cbn. rewrite Z.add_0_r.
    repeat split; try done; [apply Hs..|]. intros x. by rewrite decide_False by lia.
  - pose proof Hs as Hs0. apply cstring_cons in Hs as (-> & Hc & Hs).
    rewrite (proj2 (Z.eqb_neq c 0) Hc). cbn [negb andb]. destruct (is_space c) eqn:Ec.
    + destruct (IH fuel (store8 m p 0) (p + 1)) as (m' & l1 & l2 & -> & H1 & H2 & E & H3 & Hx).
      { destruct Hs as [Hs Hz]. split; [intros i b Hb; rewrite load8_store8_ne by lia; by apply Hs|].
        by rewrite load8_store8_ne by lia. }
      { cbn in Hf. lia. }
      exists m', (c :: l1), l2. cbn [length].
      replace (p + Z.of_nat (S (length l1))) with (p + 1 + Z.of_nat (length l1)) by lia.
      split; [done|]. split; [by constructor|]. split; [done|]. split; [done|]. split; [done|].
      intros x. rewrite Hx, load8_store8. repeat case_decide; try lia; done.
    + exists m, [], (c :: l). cbn. rewrite Z.add_0_r.
      split; [done|]. split; [done|]. split; [congruence|]. split; [done|]. split; [done|].
      intros x. by rewrite decide_False by lia.
Qed.

Lemma scan_arg_run fuel m p l :
  cstring m p l -> (length l < fuel)%nat ->
  exists w l3, l = w ++ l3 /\ Forall (fun c => is_space c = false) w /\ at_blank l3 /\
    scan_arg fuel m p = Some (p + Z.of_nat (length w)) /\ cstring m (p + Z.of_nat (length w)) l3.
Proof.
  revert fuel p. induction l as [|c l IH]; intros fuel p Hs Hf;
    (destruct fuel as [|fuel]; [cbn in Hf; lia|]); cbn [scan_arg].
  - rewrite (cstring_nil _ _ Hs). exists [], []. cbn. rewrite Z.add_0_r. done.
  - pose proof Hs as Hs0. apply cstring_cons in Hs as (-> & Hc & Hs).
    rewrite (proj2 (Z.eqb_neq c 0) Hc). cbn [negb andb]. destruct (is_space c) eqn:Ec; cbn [negb].
    + exists [], (c :: l). cbn. rewrite Z.add_0_r. done.
    + destruct (IH fuel (p + 1) Hs ltac:(cbn in Hf; lia)) as (w & l3 & -> & H1 & H2 & E & H3).
      exists (c :: w), l3. cbn [length].
      replace (p + Z.of_nat (S (length w))) with (p + 1 + Z.of_nat (length w)) by lia.
      split; [done|]. split; [by constructor|]. done.
Qed.

(** The arguments found from [p] on, when the line from there is [l]. *)
Record parsed_ok (m : memory) (p : Z) (l : list Z) (m' : memory) (args : list Z) : Prop := {
  pa_args : Forall2 (cstring m') args (words l);
  pa_mem : forall x, x < p \/ p + Z.of_nat (length l) <= x -> load8 m' x = load8 m x;
  pa_blank : at_blank l -> load8 m' p = 0;
}.

(** An argument [w] at [p], after the arguments behind it have been cut out. *)
Lemma parsed_cons m p w l m' args :
  cstring m p (w ++ l) -> w <> [] -> Forall (fun c => is_space c = false) w -> at_blank l ->
  parsed_ok m (p + Z.of_nat (length w)) l m' args -> parsed_ok m p (w ++ l) m' (p :: args).
Proof.
  intros [Hs _] Hw Hsp Hl [Ha Hm Hb]. split.
  - rewrite words_word by done. constructor; [|done]. split; [|by apply Hb].
    intros i b Hi. pose proof (lookup_lt_Some _ _ _ Hi). rewrite Hm by lia. apply Hs.
    by rewrite lookup_app_l.
  - intros x Hx. rewrite length_app in Hx. apply Hm. lia.
  - destruct w as [|c w]; [done|]. inversion_clear Hsp as [|? ? Hc _]. cbn. congruence.
Qed.

Lemma parse_args_run fuel m p l argv :
  cstring m p l -> (length l < fuel)%nat -> Z.of_nat (length argv) <= MAXARGS - 1 ->
  if Z.of_nat (length argv + length (words l)) <=? MAXARGS - 1
  then exists m' args, parse_args fuel m p argv = Some (Argv m' (argv ++ args)) /\
         parsed_ok m p l m' args
  else exists m', parse_args fuel m p argv = Some (TooMany m').
Proof.
  revert m p l argv. induction fuel as [|fuel IH]; intros m p l argv Hs Hf Hn; [lia|].
  cbn [parse_args]. destruct (gobble_run (S fuel) m p l Hs Hf) as (m1 & l1 & l2 & -> & Hl1 & Hl2 & E & Hs2 & Hx).
  rewrite E. cbn [mbind option_bind]. set (p1 := p + Z.of_nat (length l1)) in *.
  rewrite words_blank by done. rewrite length_app in Hf.
  assert (forall m' args, parsed_ok m1 p1 l2 m' args -> parsed_ok m p (l1 ++ l2) m' args) as Hlift.
  { intros m' args [Ha Hm Hb]. split.
    - by rewrite words_blank.
    - intros x Hxr. rewrite length_app in Hxr. rewrite Hm, Hx by lia. by rewrite decide_False by lia.
    - intros Hbl. destruct l1 as [|c l1]; [|rewrite Hm, Hx by (cbn in *; lia);
        by rewrite decide_True by (cbn in *; lia)].
      cbn in p1, Hbl. subst p1. rewrite Z.add_0_r in Hb. by apply Hb. }
  destruct l2 as [|c l2].
  { rewrite (cstring_nil _ _ Hs2). cbn [words length]. rewrite Nat.add_0_r.
    rewrite (proj2 (Z.leb_le _ _) Hn). exists m1, []. rewrite app_nil_r. split; [done|].
    apply Hlift. split; [constructor|done|]. intros _. apply (cstring_nil _ _ Hs2). }
  pose proof Hs2 as Hs2'. apply cstring_cons in Hs2' as (-> & Hc & _).
  rewrite (proj2 (Z.eqb_neq c 0) Hc).
  destruct (scan_arg_run (S fuel) m1 p1 (c :: l2) Hs2 ltac:(lia)) as (w & l3 & El & Hw & Hl3 & Eq & Hs3).
  assert (w <> []) as Hwn.
  { intros ->. cbn in El. subst l3. by specialize (Hl2 Hl3). }
  rewrite El, words_word in * by done. cbn [length].
  destruct (Z.eqb_spec (Z.of_nat (length argv)) (MAXARGS - 1)) as [Hmax|Hmax].
  { rewrite (proj2 (Z.leb_gt _ _)) by lia. eauto. }
  rewrite Eq. cbn [mbind option_bind].
  assert (length l3 < fuel)%nat as Hf3.
  { apply (f_equal length) in El. rewrite length_app in El, Hf. destruct w; [done|]. cbn in *. lia. }
  specialize (IH m1 (p1 + Z.of_nat (length w)) l3 (argv ++ [p1]) Hs3 Hf3
    ltac:(rewrite length_app; cbn; lia)).
  rewrite length_app in IH. cbn [length] in IH.
  replace (length argv + S (length (words l3)))%nat with (length argv + 1 + length (words l3))%nat by lia.
  destruct (_ <=? _); [|done]. destruct IH as (m' & args & Ep & Hok). exists m', (p1 :: args).
  split; [by rewrite Ep, <- app_assoc|]. by apply Hlift, parsed_cons.
Qed.

Lemma words_length l : Forall (fun w => (length w <= length l)%nat) (words l).
Proof.
  assert (forall c r (ws : list (list Z)), Forall (fun w => (length w <= length r)%nat) ws ->
    Forall (fun w => (length w <= length (c :: r : list Z))%nat) ws) as Hmon
    by (intros c r ws Hw; eapply Forall_impl; [|exact Hw]; cbn; intros; lia).
  induction l as [|c r IH]; [constructor|]. cbn [words]. destruct (is_space c); [by apply Hmon|].
  destruct r as [|c' r]; [repeat constructor|]. destruct (is_space c').
  - constructor; [cbn; lia|]. by apply Hmon.
  - destruct (words (c' :: r)) as [|w ws]; [constructor; [cbn; lia|constructor]|].
    inversion_clear IH. constructor; [cbn in *; lia|]. by apply (Hmon c (c' :: r)).
Qed.

Lemma strcmp_cmd fuel m p q bs cs :
  cstring m p bs -> cstring m q cs -> (length bs < fuel)%nat ->
  exists r, strcmp fuel m p q = Some r /\ (r =? 0) = bool_decide (bs = cs).
Proof.
  intros Hp Hq Hf. exists (byte_order bs cs). split; [by apply strcmp_byte_order|].
  apply eq_true_iff_eq. rewrite Z.eqb_eq, bool_decide_eq_true.
  apply byte_order_eq; by eapply cstring_nonzero.
Qed.

Section RuncmdSpec.
Context {St : Type} `{Terminal St}.
Context (_start entry etext edata end_ help_name help_desc info_name info_desc : Z).
Local Abbreviation cmd :=
  (runcmd _start entry etext edata end_ help_name help_desc info_name info_desc).

(** The commands return 0. *)
Lemma mon_help_zero fuel m (st : St) r st' :
  mon_help help_name help_desc info_name info_desc fuel m st = Some (r, st') -> r = 0.
Proof. unfold mon_help. intros Hr. repeat (apply bind_Some in Hr as (? & _ & Hr)). congruence. Qed.
Lemma mon_kerninfo_zero fuel m (st : St) r st' :
  mon_kerninfo _start entry etext edata end_ fuel m st = Some (r, st') -> r = 0.
Proof. unfold mon_kerninfo. intros Hr. repeat (apply bind_Some in Hr as (? & _ & Hr)). congruence. Qed.

Lemma runcmd_zero fuel buf m (st : St) r m' st' : cmd fuel buf m st = Some (r, m', st') -> r = 0.
Proof.
  unfold Monitor.runcmd. intros Hr. apply bind_Some in Hr as ([m1|m1 [|a args]] & _ & Hr).
  - apply bind_Some in Hr as (? & _ & Hr). congruence.
  - congruence.
  - apply bind_Some in Hr as (c & _ & Hr). destruct (c =? 0).
    { apply bind_Some in Hr as ([r1 st1] & Hh & Hr). apply mon_help_zero in Hh. congruence. }
    apply bind_Some in Hr as (c' & _ & Hr). destruct (c' =? 0).
    { apply bind_Some in Hr as ([r1 st1] & Hh & Hr). apply mon_kerninfo_zero in Hh. congruence. }
    apply bind_Some in Hr as (? & _ & Hr). congruence.
Qed.

Lemma monitor_stays turns fuel buf prompt ec m (st : St) b m' st' :
  monitor_loop _start entry etext edata end_ help_name help_desc info_name info_desc turns fuel buf
    prompt ec m st = Some (b, m', st') -> b = false.
Proof.
  revert m st. induction turns as [|turns IH]; intros m st; cbn [monitor_loop]; [congruence|].
  intros Hm. apply bind_Some in Hm as ([[p m1] st1] & _ & Hm).
  destruct (negb (p =? 0)); [|by apply IH in Hm].
  apply bind_Some in Hm as ([[r m2] st2] & Hr & Hm). apply runcmd_zero in Hr. subst r.
  by apply IH in Hm.
Qed.

(** C36: The monitor runs the command that was typed, and never ends.  For a line in its
    buffer, runcmd cuts the line in place into its words, so that each argument is a
    string holding one word, in order, and no byte outside the line changes; with
    more than 15 words it complains and does nothing.  An empty line does nothing,
    "help" and "kerninfo" as first word run their commands, and any other word is
    reported as unknown.  The result is never negative, so the loop of monitor is
    never left, however many commands are given. *)
Theorem monitor_runs_words fuel buf m l (st : St) :
  cstring m buf l -> (length l < fuel)%nat ->
  cstring m help_name (bytes_of "help") -> cstring m info_name (bytes_of "kerninfo") ->
  (forall x, help_name <= x < help_name + 5 \/ info_name <= x < info_name + 9 ->
     x < buf \/ buf + Z.of_nat (length l) <= x) ->
  (if Z.of_nat (length (words l)) <=? MAXARGS - 1
   then exists m' args, Forall2 (cstring m') args (words l) /\
     (forall x, x < buf \/ buf + Z.of_nat (length l) <= x -> load8 m' x = load8 m x) /\
     cmd fuel buf m st =
       match words l, args with
       | w :: _, a :: _ =>
           if bool_decide (w = bytes_of "help") then
             '(r, st) ← mon_help help_name help_desc info_name info_desc fuel m' st; Some (r, m', st)
           else if bool_decide (w = bytes_of "kerninfo") then
             '(r, st) ← mon_kerninfo _start entry etext edata end_ fuel m' st; Some (r, m', st)
           else st ← t_cprintf fuel m' (line "Unknown command '%s'") [Word a] st; Some (0, m', st)
       | _, _ => Some (0, m', st)
       end
   else exists m', cmd fuel buf m st =
     (st ← t_cprintf fuel m' (line "Too many arguments (max %d)") [Word MAXARGS] st; Some (0, m', st))) /\
  (forall r m' st', cmd fuel buf m st = Some (r, m', st') -> r = 0) /\
  (forall turns prompt ec b m' st',
     monitor_loop _start entry etext edata end_ help_name help_desc info_name info_desc turns fuel buf
       prompt ec m st = Some (b, m', st') -> b = false).
Proof.
  intros Hs Hf Hhelp Hinfo Hout.
  split; [|split; [intros; by eapply runcmd_zero|intros; by eapply monitor_stays]].
  pose proof (parse_args_run fuel m buf l [] Hs Hf ltac:(done)) as Hp. cbn [length app] in Hp.
  change (0 + length (words l))%nat with (length (words l)) in Hp.
  unfold Monitor.runcmd. destruct (_ <=? _).
  2: { destruct Hp as (m' & E). exists m'. by rewrite E. }
  destruct Hp as (m' & args & E & [Ha Hm _]). exists m', args. rewrite E. cbn [mbind option_bind].
  split; [done|]. split; [done|]. pose proof (words_length l) as Hwl.
  destruct Ha as [|a w args ws Ha Has]; [done|]. inversion_clear Hwl as [|? ? Hw _].
  assert (forall p bs, cstring m p bs -> (forall x, p <= x < p + Z.of_nat (S (length bs)) ->
    x < buf \/ buf + Z.of_nat (length l) <= x) -> cstring m' p bs) as Hlit.
  { intros p bs [Hb Hz] Hx. split.
    - intros i b Hi. rewrite Hm; [by apply Hb|]. apply Hx. apply lookup_lt_Some in Hi. lia.
    - rewrite Hm; [done|]. apply Hx. lia. }
  destruct (strcmp_cmd fuel m' a help_name w (bytes_of "help") Ha) as (r1 & -> & Er1);
    [by apply Hlit; [|intros x Hx; apply Hout; left; cbn in Hx; lia]|lia|].
  cbn [mbind option_bind]. rewrite Er1. case_bool_decide; [done|].
  destruct (strcmp_cmd fuel m' a info_name w (bytes_of "kerninfo") Ha) as (r2 & -> & Er2);
    [by apply Hlit; [|intros x Hx; apply Hout; right; cbn in Hx; lia]|lia|].
  cbn [mbind option_bind]. rewrite Er2. by case_bool_decide.
Qed.
End RuncmdSpec.

(** ** Examples *)

Ltac cstring_eval :=
  split; [intros i b Hi;
    repeat (destruct i as [|i]; [injection Hi as <-; vm_compute; split; congruence|]); discriminate Hi
  | vm_compute; reflexivity].

Definition demo_strings : memory :=
  store_bytes (store_bytes (store_bytes (store_bytes ∅ 0x100 (bytes_of "K> " ++ [0]))
    0x200 (bytes_of "help" ++ [0])) 0x300 (bytes_of "kerninfo" ++ [0])) 0x2000 (bytes_of "  go now" ++ [0]).

(** "hi", a backspace, "o" and a newline. *)
Lemma readline_edits_witness :
  exists m' st', readline 0x2000 true 20 0x100 demo_strings ([104; 105; 8; 111; 10; 120], []) =
    Some (0x2000, m', st') /\
    cstring m' 0x2000 (bytes_of "ho") /\ st' = ([120], bytes_of "K> hi" ++ [8; 111; 10]).
Proof.
  destruct (readline_edits 0x2000 true 20 0x100 (bytes_of "K> ") [104; 105; 8; 111] demo_strings
    ([104; 105; 8; 111; 10; 120], []) 10 [120]) as (m' & st' & E & Hs & _ & _ & Hi & Ho).
  - discriminate.
  - cstring_eval.
  - repeat constructor; discriminate.
  - repeat constructor; discriminate.
  - by left.
  - reflexivity.
  - cbn. lia.
  - cbn. lia.
  - exists m', st'. split; [exact E|]. split; [exact Hs|]. destruct st' as [i o].
    cbn in Hi, Ho. rewrite Hi, Ho. reflexivity.
Defined.

Lemma monitor_runs_words_witness :
  exists m' a args, Forall2 (cstring m') (a :: args) [bytes_of "go"; bytes_of "now"] /\
    runcmd 0 0 0 0 0 0x200 0x400 0x300 0x500 40 0x2000 demo_strings ([], []) =
      (st ← t_cprintf 40 m' (line "Unknown command '%s'") [Word a] ([], []); Some (0, m', st)).
Proof.
  destruct (monitor_runs_words (St := list Z * list Z) 0 0 0 0 0 0x200 0x400 0x300 0x500 40 0x2000
    demo_strings (bytes_of "  go now") ([], [])) as [H _].
  - cstring_eval.
  - cbn. lia.
  - cstring_eval.
  - cstring_eval.
  - intros x Hx. lia.
  - change (words (bytes_of "  go now")) with [bytes_of "go"; bytes_of "now"] in H.
    change (Z.of_nat (length [bytes_of "go"; bytes_of "now"]) <=? MAXARGS - 1) with true in H.
    cbv iota in H. destruct H as (m' & args & Ha & _ & E).
    destruct args as [|a args]; [exfalso; inversion Ha|]. exists m', a, args. split; [exact Ha|].
    rewrite E. reflexivity.
Defined.
