(* ===== verification/Kernel.v ===== *)
(** * Kernel: the kernel's state and the monad its functions run in

    The data of inc/trap.h, inc/env.h, inc/memlayout.h (struct PageInfo),
    kern/cpu.h and kern/spinlock.h, the kernel's global variables as one record
    [kstate], and a small monad [K] for code that reads and writes them, panics
    or leaves the kernel.

    Physical memory is a byte map indexed by physical address.  The kernel
    reaches it at KERNBASE + pa, so a pointer at or above KERNBASE is an access
    at [va - KERNBASE]; [MemInit] shows that the page directory the kernel builds
    maps this range that way.  The arrays [pages] and [envs] are kept as maps of
    records indexed by position: a [struct PageInfo *] or [struct Env *] is its
    index, and a null pointer is [None]. *)

From S2P Require Import Prelude Layout Segments Memory CString.

(** ** inc/trap.h *)

Record PushRegs := mkPushRegs {
  reg_edi : Z;
  reg_esi : Z;
  reg_ebp : Z;
  reg_oesp : Z;
  reg_ebx : Z;
  reg_edx : Z;
  reg_ecx : Z;
  reg_eax : Z;
}.
Definition eta_PushRegs (r : PushRegs) : PushRegs :=
  mkPushRegs (reg_edi r) (reg_esi r) (reg_ebp r) (reg_oesp r)
             (reg_ebx r) (reg_edx r) (reg_ecx r) (reg_eax r).
Definition set_reg_eax : Z -> PushRegs -> PushRegs := ltac:(mk_setter eta_PushRegs reg_eax).

Record Trapframe := mkTrapframe {
  tf_regs : PushRegs;
  tf_es : Z;
  tf_padding1 : Z;
  tf_ds : Z;
  tf_padding2 : Z;
  tf_trapno : Z;
  tf_err : Z;
  tf_eip : Z;
  tf_cs : Z;
  tf_padding3 : Z;
  tf_eflags : Z;
  tf_esp : Z;
  tf_ss : Z;
  tf_padding4 : Z;
}.
Definition eta_Trapframe (t : Trapframe) : Trapframe :=
  mkTrapframe (tf_regs t) (tf_es t) (tf_padding1 t) (tf_ds t) (tf_padding2 t) (tf_trapno t)
    (tf_err t) (tf_eip t) (tf_cs t) (tf_padding3 t) (tf_eflags t) (tf_esp t) (tf_ss t)
    (tf_padding4 t).
Definition set_tf_regs : PushRegs -> Trapframe -> Trapframe := ltac:(mk_setter eta_Trapframe tf_regs).
Definition set_tf_es : Z -> Trapframe -> Trapframe := ltac:(mk_setter eta_Trapframe tf_es).
Definition set_tf_ds : Z -> Trapframe -> Trapframe := ltac:(mk_setter eta_Trapframe tf_ds).
Definition set_tf_eip : Z -> Trapframe -> Trapframe := ltac:(mk_setter eta_Trapframe tf_eip).
Definition set_tf_cs : Z -> Trapframe -> Trapframe := ltac:(mk_setter eta_Trapframe tf_cs).
Definition set_tf_eflags : Z -> Trapframe -> Trapframe := ltac:(mk_setter eta_Trapframe tf_eflags).
Definition set_tf_esp : Z -> Trapframe -> Trapframe := ltac:(mk_setter eta_Trapframe tf_esp).
Definition set_tf_ss : Z -> Trapframe -> Trapframe := ltac:(mk_setter eta_Trapframe tf_ss).

Definition regs0 : PushRegs := mkPushRegs 0 0 0 0 0 0 0 0.
Definition tf0 : Trapframe := mkTrapframe regs0 0 0 0 0 0 0 0 0 0 0 0 0 0.

(** ** inc/env.h *)

Definition LOG2NENV : Z := 10.
Definition NENV : Z := Z.shiftl 1 LOG2NENV.
Definition ENVX (envid : Z) : Z := Z.land envid (NENV - 1).

Inductive EnvStatus :=
| ENV_FREE
| ENV_DYING
| ENV_RUNNABLE
| ENV_RUNNING
| ENV_NOT_RUNNABLE.
#[export] Instance EnvStatus_eq_dec : EqDecision EnvStatus.
Proof. solve_decision. Defined.

(** The enumeration's values, in declaration order. *)
Definition env_status_of (n : Z) : option EnvStatus :=
  if n =? 0 then Some ENV_FREE
  else if n =? 1 then Some ENV_DYING
  else if n =? 2 then Some ENV_RUNNABLE
  else if n =? 3 then Some ENV_RUNNING
  else if n =? 4 then Some ENV_NOT_RUNNABLE
  else None.

Inductive EnvType :=
| ENV_TYPE_USER.

Record Env := mkEnv {
  env_tf : Trapframe;
  env_link : option Z;
  env_id : Z;
  env_parent_id : Z;
  env_type : EnvType;
  env_status : EnvStatus;
  env_runs : Z;
  env_cpunum : Z;
  env_pgdir : Z;
  env_pgfault_upcall : Z;
  env_ipc_recving : bool;
  env_ipc_dstva : Z;
  env_ipc_value : Z;
  env_ipc_from : Z;
  env_ipc_perm : Z;
}.
Definition eta_Env (e : Env) : Env :=
  mkEnv (env_tf e) (env_link e) (env_id e) (env_parent_id e) (env_type e) (env_status e)
    (env_runs e) (env_cpunum e) (env_pgdir e) (env_pgfault_upcall e) (env_ipc_recving e)
    (env_ipc_dstva e) (env_ipc_value e) (env_ipc_from e) (env_ipc_perm e).
Definition set_env_tf : Trapframe -> Env -> Env := ltac:(mk_setter eta_Env env_tf).
Definition set_env_link : option Z -> Env -> Env := ltac:(mk_setter eta_Env env_link).
Definition set_env_id : Z -> Env -> Env := ltac:(mk_setter eta_Env env_id).
Definition set_env_parent_id : Z -> Env -> Env := ltac:(mk_setter eta_Env env_parent_id).
Definition set_env_type : EnvType -> Env -> Env := ltac:(mk_setter eta_Env env_type).
Definition set_env_status : EnvStatus -> Env -> Env := ltac:(mk_setter eta_Env env_status).
Definition set_env_runs : Z -> Env -> Env := ltac:(mk_setter eta_Env env_runs).
Definition set_env_cpunum : Z -> Env -> Env := ltac:(mk_setter eta_Env env_cpunum).
Definition set_env_pgdir : Z -> Env -> Env := ltac:(mk_setter eta_Env env_pgdir).
Definition set_env_pgfault_upcall : Z -> Env -> Env := ltac:(mk_setter eta_Env env_pgfault_upcall).
Definition set_env_ipc_recving : bool -> Env -> Env := ltac:(mk_setter eta_Env env_ipc_recving).
Definition set_env_ipc_dstva : Z -> Env -> Env := ltac:(mk_setter eta_Env env_ipc_dstva).
Definition set_env_ipc_value : Z -> Env -> Env := ltac:(mk_setter eta_Env env_ipc_value).
Definition set_env_ipc_from : Z -> Env -> Env := ltac:(mk_setter eta_Env env_ipc_from).
Definition set_env_ipc_perm : Z -> Env -> Env := ltac:(mk_setter eta_Env env_ipc_perm).

(** An entry of the zeroed array that mem_init allocates. *)
Definition env0 : Env :=
  mkEnv tf0 None 0 0 ENV_TYPE_USER ENV_FREE 0 0 0 0 false 0 0 0 0.

Definition sizeof_Env : Z := 124.

(** ** struct PageInfo *)

Record PageInfo := mkPageInfo {
  pp_link : option Z;
  pp_ref : Z;      (* uint16_t *)
}.
Definition sizeof_PageInfo : Z := 8.

(** ** kern/cpu.h *)

Definition NCPU : Z := 8.

Inductive CpuStatus :=
| CPU_UNUSED
| CPU_STARTED
| CPU_HALTED.
#[export] Instance CpuStatus_eq_dec : EqDecision CpuStatus.
Proof. solve_decision. Defined.

Record CpuInfo := mkCpuInfo {
  cpu_id : Z;
  cpu_status : CpuStatus;
  cpu_env : option Z;
  ts_esp0 : Z;       (* cpu_ts, the fields the kernel sets *)
  ts_ss0 : Z;
}.
Definition eta_CpuInfo (c : CpuInfo) : CpuInfo :=
  mkCpuInfo (cpu_id c) (cpu_status c) (cpu_env c) (ts_esp0 c) (ts_ss0 c).
Definition set_cpu_id : Z -> CpuInfo -> CpuInfo := ltac:(mk_setter eta_CpuInfo cpu_id).
Definition set_cpu_status : CpuStatus -> CpuInfo -> CpuInfo := ltac:(mk_setter eta_CpuInfo cpu_status).
Definition set_cpu_env : option Z -> CpuInfo -> CpuInfo := ltac:(mk_setter eta_CpuInfo cpu_env).
Definition set_ts_esp0 : Z -> CpuInfo -> CpuInfo := ltac:(mk_setter eta_CpuInfo ts_esp0).
Definition set_ts_ss0 : Z -> CpuInfo -> CpuInfo := ltac:(mk_setter eta_CpuInfo ts_ss0).

(** ** kern/spinlock.h, without the call stack recorded for debugging *)

Record spinlock := mkSpinlock {
  locked : Z;
  lk_cpu : option Z;
}.

(** ** Effects outside the state *)

Inductive event :=
| Cprintf (fmt : string) (args : list Z)
| Cprints (fmt : string) (args : list Z) (strs : list string)   (* with %s arguments *)
| Invlpg (va : Z)
| Lapic_eoi
| Lgdt                                (* lgdt and the segment registers *)
| Ltr (sel : Z)
| Lidt
| Outb (port v : Z)                   (* an I/O port *)
| Lapicw (index v : Z)                (* a register of the local APIC *)
| Lapicr (index : Z)                  (* a read of one *)
| Cputs (va len : Z) (bs : list Z).

(** How control leaves the C code, of the kernel or of a user program, for good. *)
Inductive exit :=
| Panicked (msg : string)             (* _panic: the monitor, forever *)
| InMonitor                           (* monitor() without a panic *)
| ToUser (e : Z) (tf : Trapframe)     (* env_pop_tf: iret to environment [e] *)
| CpuHalt                             (* hlt *)
| KernelFault (va : Z)                (* a page fault in the kernel itself *)
| Spinning                            (* spin_lock waits for another CPU *)
| UserFault (va : Z)                  (* an access of user code that traps *)
| UserPanic (msg : string)            (* the user library's _panic: int3, forever *)
| NoFuel.                             (* the model's fuel ran out *)

(** ** The global variables *)

Record kstate := mkKstate {
  mem : memory;                   (* physical memory *)
  npages : Z;
  npages_basemem : Z;
  kern_pgdir : Z;
  pages_kva : Z;                  (* the value of the pointer [pages] *)
  pages : gmap Z PageInfo;
  page_free_list : option Z;
  nextfree : Z;                   (* boot_alloc's static variable *)
  mmio_base : Z;                  (* mmio_map_region's static variable *)
  user_mem_check_addr : Z;
  envs_kva : Z;
  envs : gmap Z Env;
  env_free_list : option Z;
  cpunum : Z;                     (* the CPU that executes *)
  cpus : gmap Z CpuInfo;
  bootcpu : Z;                    (* the index in [cpus] *)
  ismp : Z;
  ncpu : Z;
  lapicaddr : Z;
  lapic : Z;                      (* a pointer, 0 when null *)
  mpentry_kstack : Z;             (* a pointer *)
  cr0 : Z;                        (* of the CPU that executes *)
  cr2 : Z;
  cr3 : Z;
  gdt : list Segdesc;
  idt : list Gatedesc;
  kernel_lock : spinlock;
  panicstr : option string;
  input : list Z;                 (* characters waiting in the console *)
  log : list event;               (* most recent first *)
}.
Definition eta_kstate (s : kstate) : kstate :=
  mkKstate (mem s) (npages s) (npages_basemem s) (kern_pgdir s) (pages_kva s) (pages s)
    (page_free_list s) (nextfree s) (mmio_base s) (user_mem_check_addr s) (envs_kva s)
    (envs s) (env_free_list s) (cpunum s) (cpus s) (bootcpu s) (ismp s) (ncpu s)
    (lapicaddr s) (lapic s) (mpentry_kstack s) (cr0 s) (cr2 s) (cr3 s)
    (gdt s) (idt s) (kernel_lock s) (panicstr s) (input s) (log s).
Definition set_mem : memory -> kstate -> kstate := ltac:(mk_setter eta_kstate mem).
Definition set_npages : Z -> kstate -> kstate := ltac:(mk_setter eta_kstate npages).
Definition set_npages_basemem : Z -> kstate -> kstate := ltac:(mk_setter eta_kstate npages_basemem).
Definition set_kern_pgdir : Z -> kstate -> kstate := ltac:(mk_setter eta_kstate kern_pgdir).
Definition set_pages_kva : Z -> kstate -> kstate := ltac:(mk_setter eta_kstate pages_kva).
Definition set_pages : gmap Z PageInfo -> kstate -> kstate := ltac:(mk_setter eta_kstate pages).
Definition set_page_free_list : option Z -> kstate -> kstate := ltac:(mk_setter eta_kstate page_free_list).
Definition set_nextfree : Z -> kstate -> kstate := ltac:(mk_setter eta_kstate nextfree).
Definition set_mmio_base : Z -> kstate -> kstate := ltac:(mk_setter eta_kstate mmio_base).
Definition set_user_mem_check_addr : Z -> kstate -> kstate := ltac:(mk_setter eta_kstate user_mem_check_addr).
Definition set_envs_kva : Z -> kstate -> kstate := ltac:(mk_setter eta_kstate envs_kva).
Definition set_envs : gmap Z Env -> kstate -> kstate := ltac:(mk_setter eta_kstate envs).
Definition set_env_free_list : option Z -> kstate -> kstate := ltac:(mk_setter eta_kstate env_free_list).
Definition set_cpunum : Z -> kstate -> kstate := ltac:(mk_setter eta_kstate cpunum).
Definition set_cpus : gmap Z CpuInfo -> kstate -> kstate := ltac:(mk_setter eta_kstate cpus).
Definition set_bootcpu : Z -> kstate -> kstate := ltac:(mk_setter eta_kstate bootcpu).
Definition set_ismp : Z -> kstate -> kstate := ltac:(mk_setter eta_kstate ismp).
Definition set_ncpu : Z -> kstate -> kstate := ltac:(mk_setter eta_kstate ncpu).
Definition set_lapicaddr : Z -> kstate -> kstate := ltac:(mk_setter eta_kstate lapicaddr).
Definition set_lapic : Z -> kstate -> kstate := ltac:(mk_setter eta_kstate lapic).
Definition set_mpentry_kstack : Z -> kstate -> kstate := ltac:(mk_setter eta_kstate mpentry_kstack).
Definition set_cr0 : Z -> kstate -> kstate := ltac:(mk_setter eta_kstate cr0).
Definition set_cr3 : Z -> kstate -> kstate := ltac:(mk_setter eta_kstate cr3).
Definition set_cr2 : Z -> kstate -> kstate := ltac:(mk_setter eta_kstate cr2).
Definition set_gdt : list Segdesc -> kstate -> kstate := ltac:(mk_setter eta_kstate gdt).
Definition set_idt : list Gatedesc -> kstate -> kstate := ltac:(mk_setter eta_kstate idt).
Definition set_kernel_lock : spinlock -> kstate -> kstate := ltac:(mk_setter eta_kstate kernel_lock).
Definition set_panicstr : option string -> kstate -> kstate := ltac:(mk_setter eta_kstate panicstr).
Definition set_input : list Z -> kstate -> kstate := ltac:(mk_setter eta_kstate input).
Definition set_log : list event -> kstate -> kstate := ltac:(mk_setter eta_kstate log).

(** The zero-initialised globals of the kernel on its first CPU. *)
Definition kstate0 : kstate :=
  mkKstate ∅ 0 0 0 0 ∅ None 0 MMIOBASE 0 0 ∅ None 0 {[ 0 := mkCpuInfo 0 CPU_STARTED None 0 0 ]}
    0 0 0 0 0 0 0 0 0 gdt0 idt0 (mkSpinlock 0 None) None [] [].

(** ** The monad *)

(** [Ok] is a return to the caller, [Leave] the end of the C code on this path,
    [Undef] behaviour that C leaves undefined (a null or wild pointer). *)
Inductive outcome (A : Type) :=
| Ok (a : A) (s : kstate)
| Leave (e : exit) (s : kstate)
| Undef.
Arguments Ok {A} a s.
Arguments Leave {A} e s.
Arguments Undef {A}.

Definition K (A : Type) : Type := kstate -> outcome A.

#[export] Instance K_ret : MRet K := fun A a s => Ok a s.
#[export] Instance K_bind : MBind K := fun A B f m s =>
  match m s with
  | Ok a s' => f a s'
  | Leave e s' => Leave e s'
  | Undef => Undef
  end.

Definition get {A} (f : kstate -> A) : K A := fun s => Ok (f s) s.
Definition modify (f : kstate -> kstate) : K unit := fun s => Ok tt (f s).
Definition leave {A} (e : exit) : K A := fun s => Leave e s.
Definition undefined {A} : K A := fun _ => Undef.
Definition tell (ev : event) : K unit := modify (fun s => set_log (ev :: log s) s).
(** The trailing newline of a format is left out. *)
Definition cprintf (fmt : string) (args : list Z) : K unit := tell (Cprintf fmt args).

(** [if (b) m]. *)
Definition kwhen (b : bool) (m : K unit) : K unit := if b then m else mret tt.

(** [for (i = i0; i < i0 + n; i++) body(i)]. *)
Fixpoint kfor (n : nat) (i : Z) (body : Z -> K unit) : K unit :=
  match n with
  | O => mret tt
  | S n' => _ ← body i; kfor n' (i + 1) body
  end.

(** _panic: record the message and enter the monitor, which never returns; a
    second panic goes straight there. *)
Definition panic {A} (msg : string) : K A := fun s =>
  match panicstr s with
  | Some _ => Leave (Panicked msg) s
  | None => Leave (Panicked msg)
              (set_log (Cprintf msg [cpunum s] :: log s) (set_panicstr (Some msg) s))
  end.
Definition kassert (b : bool) (msg : string) : K unit := if b then mret tt else panic msg.

(** ** Access to the arrays *)

Definition get_page (pp : Z) : K PageInfo := fun s =>
  match pages s !! pp with Some p => Ok p s | None => Undef end.
Definition put_page (pp : Z) (p : PageInfo) : K unit :=
  modify (fun s => set_pages (<[pp := p]> (pages s)) s).
Definition set_link (pp : Z) (l : option Z) : K unit :=
  p ← get_page pp; put_page pp (mkPageInfo l (pp_ref p)).
Definition set_ref (pp : Z) (r : Z) : K unit :=
  p ← get_page pp; put_page pp (mkPageInfo (pp_link p) (u16 r)).

Definition get_env (e : Z) : K Env := fun s =>
  match envs s !! e with Some v => Ok v s | None => Undef end.
Definition put_env (e : Z) (v : Env) : K unit :=
  modify (fun s => set_envs (<[e := v]> (envs s)) s).
Definition upd_env (e : Z) (f : Env -> Env) : K unit := v ← get_env e; put_env e (f v).

Definition thiscpu : K CpuInfo := fun s =>
  match cpus s !! cpunum s with Some c => Ok c s | None => Undef end.
Definition upd_cpu (f : CpuInfo -> CpuInfo) : K unit :=
  c ← thiscpu; modify (fun s => set_cpus (<[cpunum s := f c]> (cpus s)) s).

(** [cpus[i]]. *)
Definition upd_cpus (i : Z) (f : CpuInfo -> CpuInfo) : K unit := fun s =>
  match cpus s !! i with
  | Some c => Ok tt (set_cpus (<[i := f c]> (cpus s)) s)
  | None => Undef
  end.

(** curenv is thiscpu->cpu_env. *)
Definition curenv : K (option Z) := c ← thiscpu; mret (cpu_env c).
Definition set_curenv (e : option Z) : K unit := upd_cpu (set_cpu_env e).
(** [curenv->...]: a null curenv is dereferenced. *)
Definition curenv_ptr : K Z :=
  c ← curenv; match c with Some e => mret e | None => undefined end.

(** ** Memory at kernel addresses *)

Definition kload8 (va : Z) : K Z := fun s =>
  if va <? KERNBASE then Undef else Ok (load8 (mem s) (va - KERNBASE)) s.
Definition kload16 (va : Z) : K Z := fun s =>
  if va <? KERNBASE then Undef else Ok (load16 (mem s) (va - KERNBASE)) s.
Definition kload32 (va : Z) : K Z := fun s =>
  if va <? KERNBASE then Undef else Ok (load32 (mem s) (va - KERNBASE)) s.
Definition kstore32 (va v : Z) : K unit := fun s =>
  if va <? KERNBASE then Undef else Ok tt (set_mem (store32 (mem s) (va - KERNBASE) v) s).
Definition kstore16 (va v : Z) : K unit := fun s =>
  if va <? KERNBASE then Undef else Ok tt (set_mem (store16 (mem s) (va - KERNBASE) v) s).
Definition kmemset (va c n : Z) : K unit := fun s =>
  if va <? KERNBASE then Undef else Ok tt (set_mem (memset (mem s) (va - KERNBASE) c n) s).
Definition kmemcpy (dst src n : Z) : K unit := fun s =>
  if (dst <? KERNBASE) || (src <? KERNBASE) then Undef
  else Ok tt (set_mem (memcpy (mem s) (dst - KERNBASE) (src - KERNBASE) n) s).

(** ** kern/pmap.h *)

Definition PADDR (kva : Z) : K Z :=
  if kva <? KERNBASE then panic "PADDR called with invalid kva" else mret (kva - KERNBASE).
Definition KADDR (pa : Z) : K Z :=
  n ← get npages;
  if PGNUM pa >=? n then panic "KADDR called with invalid pa" else mret (u32 (pa + KERNBASE)).
Definition page2pa (pp : Z) : Z := u32 (Z.shiftl pp PGSHIFT).
Definition pa2page (pa : Z) : K Z :=
  n ← get npages;
  if PGNUM pa >=? n then panic "pa2page called with invalid pa" else mret (PGNUM pa).
Definition page2kva (pp : Z) : K Z := KADDR (page2pa pp).
Definition ALLOC_ZERO : Z := Z.shiftl 1 0.

(** ** Weakest preconditions

    [wp m Q L s]: running [m] from [s] is defined, a return satisfies [Q] and an
    exit from the C code satisfies [L]. *)
Definition wp {A} (m : K A) (Q : A -> kstate -> Prop) (L : exit -> kstate -> Prop)
    (s : kstate) : Prop :=
  match m s with
  | Ok a s' => Q a s'
  | Leave e s' => L e s'
  | Undef => False
  end.

(** No exit. *)
Definition no_exit : exit -> kstate -> Prop := fun _ _ => False.

Lemma wp_bind {A B} (m : K A) (f : A -> K B) Q L s :
  wp m (fun a s' => wp (f a) Q L s') L s -> wp (m ≫= f) Q L s.
Proof. unfold wp, mbind, K_bind. by destruct (m s). Qed.

Lemma wp_mono {A} (m : K A) (Q Q' : A -> kstate -> Prop) (L L' : exit -> kstate -> Prop) s :
  wp m Q L s -> (forall a s', Q a s' -> Q' a s') -> (forall e s', L e s' -> L' e s') ->
  wp m Q' L' s.
Proof. unfold wp. intros H HQ HL. destruct (m s); auto. Qed.

Lemma wp_ret {A} (a : A) Q L s : Q a s -> wp (mret a) Q L s.
Proof. done. Qed.

Lemma wp_kfor (I : Z -> kstate -> Prop) L body n i s :
  I i s ->
  (forall j t, i <= j < i + Z.of_nat n -> I j t -> wp (body j) (fun _ t' => I (j + 1) t') L t) ->
  wp (kfor n i body) (fun _ t => I (i + Z.of_nat n) t) L s.
Proof.
  revert i s. induction n as [|n IH]; intros i s Hi Hb.
  - replace (i + Z.of_nat 0) with i by lia. done.
  - apply wp_bind. eapply wp_mono; [apply Hb; [lia|done]| |auto].
    intros [] t Ht. eapply wp_mono; [apply (IH (i + 1)); [done|]| |auto].
    + intros j t' Hj. apply Hb. lia.
    + intros [] t' Ht'. by replace (i + Z.of_nat (S n)) with (i + 1 + Z.of_nat n) by lia.
Qed.

(** A run that returned, in terms of [wp]. *)
Lemma wp_ok {A} (m : K A) Q L s a s' : wp m Q L s -> m s = Ok a s' -> Q a s'.
Proof. unfold wp. intros H E. by rewrite E in H. Qed.

(** Evaluate one bind whose first step is known. *)
Lemma bind_ok {A B} (m : K A) (f : A -> K B) s a s' :
  m s = Ok a s' -> (m ≫= f) s = f a s'.
Proof. intros E. unfold mbind, K_bind. by rewrite E. Qed.

Lemma bind_get {A B} (f : kstate -> A) (k : A -> K B) s : (get f ≫= k) s = k (f s) s.
Proof. done. Qed.
Lemma bind_modify {B} f (k : unit -> K B) s : (modify f ≫= k) s = k tt (f s).
Proof. done. Qed.
Lemma bind_ret {A B} (a : A) (k : A -> K B) s : ((mret a : K A) ≫= k) s = k a s.
Proof. done. Qed.
Lemma bind_assoc {A B C} (m : K A) (f : A -> K B) (g : B -> K C) s :
  ((m ≫= f) ≫= g) s = (m ≫= (fun a => f a ≫= g)) s.
Proof. unfold mbind, K_bind. by destruct (m s). Qed.
Lemma bind_tell {B} ev (k : unit -> K B) s :
  (tell ev ≫= k) s = k tt (set_log (ev :: log s) s).
Proof. done. Qed.
Lemma bind_put_page {B} p v (k : unit -> K B) s :
  (put_page p v ≫= k) s = k tt (set_pages (<[p := v]> (pages s)) s).
Proof. done. Qed.
Lemma bind_put_env {B} e v (k : unit -> K B) s :
  (put_env e v ≫= k) s = k tt (set_envs (<[e := v]> (envs s)) s).
Proof. done. Qed.

(** ** Exits

    [exits P m]: whenever [m] leaves the C code, [P] holds. *)
Definition exits {A} (P : exit -> kstate -> Prop) (m : K A) : Prop :=
  forall s, match m s with Leave e s' => P e s' | _ => True end.

Lemma exits_bind {A B} P (m : K A) (f : A -> K B) :
  exits P m -> (forall a, exits P (f a)) -> exits P (m ≫= f).
Proof.
  intros Hm Hf s. unfold mbind, K_bind. specialize (Hm s). destruct (m s); [apply Hf|done..].
Qed.
Lemma exits_ret {A} P (a : A) : exits P (mret a).
Proof. done. Qed.
Lemma exits_get {A} P (f : kstate -> A) : exits P (get f).
Proof. done. Qed.
Lemma exits_modify P f : exits P (modify f).
Proof. done. Qed.
Lemma exits_undefined {A} P : exits P (undefined : K A).
Proof. done. Qed.
Lemma exits_kwhen P b m : exits P m -> exits P (kwhen b m).
Proof. intros H s. destruct b; [apply H|done]. Qed.
Lemma exits_kfor P n i body : (forall j, exits P (body j)) -> exits P (kfor n i body).
Proof.
  intros H. revert i. induction n as [|n IH]; intros i; [apply exits_ret|].
  apply exits_bind; [apply H|]. intros _. apply IH.
Qed.
(** An operation that never leaves. *)
Lemma exits_total {A} P (m : K A) :
  (forall s, match m s with Leave _ _ => False | _ => True end) -> exits P m.
Proof. intros H s. specialize (H s). by destruct (m s). Qed.

Create HintDb exits.
#[export] Hint Resolve exits_ret exits_get exits_modify exits_undefined : exits.

(** Break an operation into its steps. *)
Ltac exits_step :=
  match goal with
  | |- exits _ (_ ≫= _) => apply exits_bind; [|intros]
  | |- exits _ (kwhen _ _) => apply exits_kwhen
  | |- exits _ (kfor _ _ _) => apply exits_kfor; intros
  | |- exits _ (if ?b then _ else _) => destruct b
  | |- exits _ (match ?x with _ => _ end) => destruct x
  | |- exits _ (let '_ := ?x in _) => destruct x
  | |- exits _ _ => solve [eauto with exits]
  | |- exits _ _ => progress cbv zeta
  end.
Ltac exits_tac := repeat exits_step.

(** ** Physical pages *)

(** [page2pa] below 256 MB, and its inverse. *)
Lemma page2pa_mul pp : 0 <= pp < 0x100000 -> page2pa pp = pp * 4096.
Proof.
  intros H. unfold page2pa, PGSHIFT. rewrite Z.shiftl_mul_pow2 by lia.
  apply u32_small. lia.
Qed.

(** The machines the kernel supports: at most 256 MB, which fits above KERNBASE. *)
Definition MAXPAGES : Z := 0x10000.

Lemma KADDR_page s pp :
  0 <= pp < npages s -> npages s <= MAXPAGES ->
  KADDR (page2pa pp) s = Ok (KERNBASE + pp * 4096) s.
Proof.
  unfold MAXPAGES. intros Hp Hn. rewrite page2pa_mul by lia.
  unfold KADDR, get, mbind, K_bind. rewrite PGNUM_page by lia.
  case_if; [rewrite Z.geb_leb in Eb; bcomp; lia|].
  unfold mret, K_ret. f_equal. unfold KERNBASE. rewrite u32_small; lia.
Qed.

(** Step through a bind with known first result. *)
Ltac kstep E := rewrite (bind_ok _ _ _ _ _ E).

(** Run the leading steps that cannot fail. *)
Ltac ksteps :=
  repeat first [ rewrite bind_get | rewrite bind_modify | rewrite bind_ret
               | rewrite bind_tell | rewrite bind_put_page | rewrite bind_put_env
               | rewrite bind_assoc ]; cbn beta.
