(* ===== verification/PageAlloc.v ===== *)
(** * PageAlloc: the physical page allocator of kern/pmap.c

    Memory detection, boot_alloc, page_init, page_alloc, page_free and
    page_decref, and the boot-time checks of the allocator.  The invariant
    [pages_wf s l] says that the free list is the list [l] of distinct pages; the
    operations refine pushing and popping [l]. *)

From S2P Require Import Prelude Layout Memory CString Kernel.

(** ** Memory detection *)

Definition NVRAM_BASELO : Z := 0x0e + 7.
Definition NVRAM_EXTLO : Z := 0x0e + 9.
Definition NVRAM_EXT16LO : Z := 0x0e + 38.

Section Detect.
(** The contents of the CMOS memory, by register; a register is a byte. *)
Context (cmos : Z -> Z).

Definition mc146818_read (reg : Z) : Z := u8 (cmos reg).

Definition nvram_read (r : Z) : Z :=
  Z.lor (mc146818_read r) (Z.shiftl (mc146818_read (r + 1)) 8).

Definition i386_detect_memory : K unit :=
  let basemem := u32 (nvram_read NVRAM_BASELO) in
  let extmem := u32 (nvram_read NVRAM_EXTLO) in
  let ext16mem := u32 (nvram_read NVRAM_EXT16LO * 64) in
  let totalmem :=
    if ctrue ext16mem then u32 (16 * 1024 + ext16mem)
    else if ctrue extmem then u32 (1 * 1024 + extmem)
    else basemem in
  _ ← modify (set_npages (totalmem / (PGSIZE / 1024)));
  _ ← modify (set_npages_basemem (basemem / (PGSIZE / 1024)));
  cprintf "Physical memory: %uK available, base = %uK, extended = %uK"
    [totalmem; basemem; u32 (totalmem - basemem)].
End Detect.

(** ** boot_alloc *)

Section Boot.
(** The linker's symbol for the end of the kernel image. *)
Context (end_ : Z).

Definition boot_alloc (n : Z) : K Z :=
  nf ← get nextfree;
  _ ← kwhen (nf =? 0) (modify (set_nextfree (ROUNDUP end_ PGSIZE)));
  result ← get nextfree;
  _ ← modify (set_nextfree (ROUNDUP (result + n) PGSIZE));
  mret result.

(** ** page_init *)

(** The body of page_init's loop. *)
Definition page_init_body (io_hole_start_page kernel_end_page : Z) (i : Z) : K unit :=
  if i =? 0 then put_page i (mkPageInfo None 1)
  else if (i >=? io_hole_start_page) && (i <? kernel_end_page)
  then put_page i (mkPageInfo None 1)
  else if i =? MPENTRY_PADDR / PGSIZE then put_page i (mkPageInfo None 1)
  else
    hd ← get page_free_list;
    _ ← put_page i (mkPageInfo hd 0);
    modify (set_page_free_list (Some i)).

Definition page_init : K unit :=
  let io_hole_start_page := IOPHYSMEM / PGSIZE in
  kva ← boot_alloc 0;
  pa ← PADDR kva;
  let kernel_end_page := pa / PGSIZE in
  n ← get npages;
  kfor (Z.to_nat n) 0 (page_init_body io_hole_start_page kernel_end_page).
End Boot.

(** ** page_alloc, page_free, page_decref *)

Definition page_alloc (alloc_flags : Z) : K (option Z) :=
  ret ← get page_free_list;
  match ret with
  | None =>
      _ ← cprintf "page_alloc() failed, out of mempry!" [];
      mret None
  | Some pp =>
      p ← get_page pp;
      _ ← modify (set_page_free_list (pp_link p));
      _ ← set_link pp None;
      _ ← kwhen (ctrue (Z.land alloc_flags ALLOC_ZERO))
            (kva ← page2kva pp; kmemset kva 0 PGSIZE);
      mret (Some pp)
  end.

Definition page_free (pp : Z) : K unit :=
  p ← get_page pp;
  if negb (pp_ref p =? 0) || bool_decide (pp_link p <> None)
  then panic "page_free can't free page which pp_ref is nonzero or pp_link is not NULL"
  else
    hd ← get page_free_list;
    _ ← set_link pp hd;
    modify (set_page_free_list (Some pp)).

Definition page_decref (pp : Z) : K unit :=
  p ← get_page pp;
  let r := u16 (pp_ref p - 1) in
  _ ← set_ref pp r;
  kwhen (r =? 0) (page_free pp).

(** [pp->pp_ref++]. *)
Definition page_incref (pp : Z) : K unit :=
  p ← get_page pp; set_ref pp (pp_ref p + 1).

(** ** Loops over the free list *)

(** [for (pp = hd; pp; pp = pp->pp_link) body]: the link is read after the body. *)
Fixpoint kfor_list {A} (fuel : nat) (hd : option Z) (acc : A) (body : Z -> A -> K A) : K A :=
  match hd with
  | None => mret acc
  | Some pp =>
      match fuel with
      | O => leave NoFuel
      | S fuel' =>
          acc' ← body pp acc;
          p ← get_page pp;
          kfor_list fuel' (pp_link p) acc' body
      end
  end.

(** Over the current free list; a list of distinct pages has at most [npages]. *)
Definition kfor_free {A} (acc : A) (body : Z -> A -> K A) : K A :=
  n ← get npages;
  hd ← get page_free_list;
  kfor_list (Z.to_nat n) hd acc body.

(** ** check_page_free_list *)

(** [*tp[t] = v]: a tail pointer is the local variable ([None]) or the link of a page.
    The two locals pp1 and pp2 are the pair. *)
Definition store_tp (tp : option Z) (t : bool) (v : option Z) (pp12 : option Z * option Z)
    : K (option Z * option Z) :=
  match tp with
  | Some p => _ ← set_link p v; mret pp12
  | None => mret (if t then (pp12.1, v) else (v, pp12.2))
  end.

(** Low pages first: the state of the loop is tp[0], tp[1] and (pp1, pp2). *)
Definition sort_free_list (pdx_limit : Z) : K unit :=
  r ← kfor_free (None, None, (None, None))
    (fun pp '(tp0, tp1, pp12) =>
       let pagetype := PDX (page2pa pp) >=? pdx_limit in
       pp12 ← store_tp (if pagetype then tp1 else tp0) pagetype (Some pp) pp12;
       mret (if pagetype then (tp0, Some pp, pp12) else (Some pp, tp1, pp12)));
  let '(tp0, tp1, pp12) := r in
  pp12 ← store_tp tp1 true None pp12;
  pp12 ← store_tp tp0 false pp12.2 pp12;
  modify (set_page_free_list pp12.1).

Section CheckFreeList.
Context (end_ : Z).

(** The assertions made of every page of the list. *)
Definition check_free_page (first_free_page pp : Z) : K unit :=
  n ← get npages;
  _ ← kassert (pp >=? 0) "assertion failed: pp >= pages";
  _ ← kassert (pp <? n) "assertion failed: pp < pages + npages";
  _ ← kassert ((pp * sizeof_PageInfo) mod sizeof_PageInfo =? 0)
        "assertion failed: ((char *)pp - (char *)pages) % sizeof(*pp) == 0";
  _ ← kassert (negb (page2pa pp =? 0)) "assertion failed: page2pa(pp) != 0";
  _ ← kassert (negb (page2pa pp =? IOPHYSMEM)) "assertion failed: page2pa(pp) != IOPHYSMEM";
  _ ← kassert (negb (page2pa pp =? EXTPHYSMEM - PGSIZE))
        "assertion failed: page2pa(pp) != EXTPHYSMEM - PGSIZE";
  _ ← kassert (negb (page2pa pp =? EXTPHYSMEM)) "assertion failed: page2pa(pp) != EXTPHYSMEM";
  _ ← (if page2pa pp <? EXTPHYSMEM then mret tt
       else kva ← page2kva pp;
            kassert (kva >=? first_free_page)
              "assertion failed: page2pa(pp) < EXTPHYSMEM || (char *)page2kva(pp) >= first_free_page");
  kassert (negb (page2pa pp =? MPENTRY_PADDR)) "assertion failed: page2pa(pp) != MPENTRY_PADDR".

Definition check_page_free_list (only_low_memory : bool) : K unit :=
  let pdx_limit := if only_low_memory then 1 else NPDENTRIES in
  hd ← get page_free_list;
  _ ← (match hd with
       | None => panic "'page_free_list' is a null pointer!"
       | Some _ => mret tt
       end);
  _ ← kwhen only_low_memory (sort_free_list pdx_limit);
  _ ← kfor_free tt (fun pp _ =>
        kwhen (PDX (page2pa pp) <? pdx_limit) (kva ← page2kva pp; kmemset kva 0x97 128));
  first_free_page ← boot_alloc end_ 0;
  r ← kfor_free (0, 0) (fun pp '(nfree_basemem, nfree_extmem) =>
        _ ← check_free_page first_free_page pp;
        mret (if page2pa pp <? EXTPHYSMEM
              then (nfree_basemem + 1, nfree_extmem) else (nfree_basemem, nfree_extmem + 1)));
  _ ← kassert (r.1 >? 0) "assertion failed: nfree_basemem > 0";
  _ ← kassert (r.2 >? 0) "assertion failed: nfree_extmem > 0";
  cprintf "check_page_free_list() succeeded!" [].
End CheckFreeList.

(** ** check_page_alloc *)

(** [assert((pp = page_alloc(0)))]. *)
Definition must_alloc (flags : Z) : K Z :=
  pp ← page_alloc flags;
  match pp with
  | Some p => mret p
  | None => panic "assertion failed: (pp = page_alloc(0))"
  end.
(** [assert(!page_alloc(0))]. *)
Definition must_not_alloc : K unit :=
  pp ← page_alloc 0;
  kassert (bool_decide (pp = None)) "assertion failed: !page_alloc(0)".

(** [assert(pp0); assert(pp1 && pp1 != pp0); assert(pp2 && pp2 != pp1 && pp2 != pp0)]. *)
Definition check_distinct (pp0 pp1 pp2 : Z) : K unit :=
  _ ← kassert (negb (pp1 =? pp0)) "assertion failed: pp1 && pp1 != pp0";
  kassert (negb (pp2 =? pp1) && negb (pp2 =? pp0))
    "assertion failed: pp2 && pp2 != pp1 && pp2 != pp0".

Definition check_page_alloc : K unit :=
  pk ← get pages_kva;
  _ ← (if pk =? 0 then panic "'pages' is a null pointer!" else mret tt);
  nfree ← kfor_free 0 (fun _ n => mret (n + 1));
  pp0 ← must_alloc 0;
  pp1 ← must_alloc 0;
  pp2 ← must_alloc 0;
  _ ← check_distinct pp0 pp1 pp2;
  n ← get npages;
  _ ← kassert (page2pa pp0 <? u32 (n * PGSIZE)) "assertion failed: page2pa(pp0) < npages * PGSIZE";
  _ ← kassert (page2pa pp1 <? u32 (n * PGSIZE)) "assertion failed: page2pa(pp1) < npages * PGSIZE";
  _ ← kassert (page2pa pp2 <? u32 (n * PGSIZE)) "assertion failed: page2pa(pp2) < npages * PGSIZE";
  fl ← get page_free_list;
  _ ← modify (set_page_free_list None);
  _ ← must_not_alloc;
  _ ← page_free pp0;
  _ ← page_free pp1;
  _ ← page_free pp2;
  pp0 ← must_alloc 0;
  pp1 ← must_alloc 0;
  pp2 ← must_alloc 0;
  _ ← check_distinct pp0 pp1 pp2;
  _ ← must_not_alloc;
  kva ← page2kva pp0;
  _ ← kmemset kva 1 PGSIZE;
  _ ← page_free pp0;
  pp ← must_alloc ALLOC_ZERO;
  _ ← kassert (pp0 =? pp) "assertion failed: pp && pp0 == pp";
  c ← page2kva pp;
  m ← get mem;
  _ ← kfor (Z.to_nat PGSIZE) 0 (fun i =>
        kassert (load8 m (c - KERNBASE + i) =? 0) "assertion failed: c[i] == 0");
  _ ← modify (set_page_free_list fl);
  _ ← page_free pp0;
  _ ← page_free pp1;
  _ ← page_free pp2;
  nfree ← kfor_free nfree (fun _ n => mret (n - 1));
  _ ← kassert (nfree =? 0) "assertion failed: nfree == 0";
  cprintf "check_page_alloc() succeeded!" [].

(** ** The invariant *)

(** The free list is [l]: its pages are linked in order, are distinct and have no
    references; every other page has a null link. *)
Record pages_wf (s : kstate) (l : list Z) : Prop := {
  wf_npages : 0 <= npages s <= MAXPAGES;
  wf_dom : forall p, is_Some (pages s !! p) <-> 0 <= p < npages s;
  wf_head : page_free_list s = l !! O;
  wf_chain : forall i p, l !! i = Some p -> pages s !! p = Some (mkPageInfo (l !! S i) 0);
  wf_nodup : NoDup l;
  wf_links : forall p pi, pages s !! p = Some pi -> p ∉ l -> pp_link pi = None;
}.

(** The reference count of a page, 0 outside the array. *)
Definition ref_of (s : kstate) (p : Z) : Z :=
  match pages s !! p with Some pi => pp_ref pi | None => 0 end.

Lemma pages_wf_range s l p : pages_wf s l -> p ∈ l -> 0 <= p < npages s.
Proof.
  intros Hwf Hp. apply list_elem_of_lookup in Hp as [i Hi].
  apply (wf_dom _ _ Hwf). rewrite (wf_chain _ _ Hwf _ _ Hi). eauto.
Qed.

(** The invariant looks at four fields only. *)
Lemma pages_wf_ext s s' l :
  pages_wf s l -> npages s' = npages s -> pages s' = pages s ->
  page_free_list s' = page_free_list s -> pages_wf s' l.
Proof. intros [] En Ep Eh. split; rewrite ?En, ?Ep, ?Eh; done. Qed.

(** ** page_alloc *)

(** The state after popping [p] with [l] left, without the zeroing. *)
Definition popped (p : Z) (l : list Z) (s : kstate) : kstate :=
  set_pages (<[p := mkPageInfo None 0]> (pages s)) (set_page_free_list (l !! O) s).

Lemma page_alloc_cons flags s p l :
  pages_wf s (p :: l) ->
  page_alloc flags s =
    Ok (Some p)
       (if ctrue (Z.land flags ALLOC_ZERO)
        then set_mem (memset (mem s) (p * 4096) 0 PGSIZE) (popped p l s)
        else popped p l s).
Proof.
  intros Hwf. unfold page_alloc. ksteps. rewrite (wf_head _ _ Hwf). cbn [lookup list_lookup].
  assert (get_page p s = Ok (mkPageInfo (l !! O) 0) s) as E.
  { unfold get_page. by rewrite (wf_chain _ _ Hwf O p eq_refl). }
  kstep E. clear E. ksteps. cbn [pp_link].
  assert (set_link p None (set_page_free_list (l !! O) s) = Ok tt (popped p l s)) as E.
  { unfold set_link, get_page, put_page, modify, mbind, K_bind. simpl.
    by rewrite (wf_chain _ _ Hwf O p eq_refl). }
  kstep E. clear E. unfold kwhen.
  pose proof (pages_wf_range _ _ p Hwf ltac:(apply list_elem_of_here)) as Hr.
  pose proof (wf_npages _ _ Hwf) as Hn.
  destruct (ctrue _); [|done].
  assert (page2kva p (popped p l s) = Ok (KERNBASE + p * 4096) (popped p l s)) as E.
  { apply KADDR_page; simpl; lia. }
  ksteps. kstep E. unfold kmemset.
  rewrite (proj2 (Z.ltb_ge _ _)) by (unfold KERNBASE; lia).
  replace (KERNBASE + p * 4096 - KERNBASE) with (p * 4096) by lia. done.
Qed.

Lemma page_alloc_nil flags s :
  pages_wf s [] ->
  page_alloc flags s =
    Ok None (set_log (Cprintf "page_alloc() failed, out of mempry!" [] :: log s) s).
Proof. intros Hwf. unfold page_alloc, get, mbind, K_bind. by rewrite (wf_head _ _ Hwf). Qed.

Lemma popped_wf s p l : pages_wf s (p :: l) -> pages_wf (popped p l s) l.
Proof.
  intros Hwf. pose proof (wf_nodup _ _ Hwf) as Hnd.
  apply list.NoDup_cons in Hnd as [Hp Hnd].
  pose proof (pages_wf_range _ _ p Hwf ltac:(apply list_elem_of_here)) as Hr.
  split; simpl.
  - apply (wf_npages _ _ Hwf).
  - intros q. rewrite lookup_insert_is_Some, (wf_dom _ _ Hwf).
    destruct (decide (p = q)) as [->|?]; [split; [lia|by left]|].
    split; [intros [?|[? ?]]; done|by right].
  - done.
  - intros i q Hq. rewrite lookup_insert_ne.
    + apply (wf_chain _ _ Hwf (S i) q Hq).
    + intros ->. apply Hp. by eapply list_elem_of_lookup_2.
  - done.
  - intros q qi. rewrite lookup_insert. case_decide; [intros; by simplify_eq|].
    intros Hq Hl. apply (wf_links _ _ Hwf q qi Hq). rewrite not_elem_of_cons. auto.
Qed.

(** ** page_free *)

(** The state after pushing [p] on [l]. *)
Definition pushed (p : Z) (l : list Z) (s : kstate) : kstate :=
  set_page_free_list (Some p) (set_pages (<[p := mkPageInfo (l !! O) 0]> (pages s)) s).

Lemma page_free_run s l p pi :
  pages_wf s l -> pages s !! p = Some pi ->
  page_free p s =
    if negb (pp_ref pi =? 0) || bool_decide (pp_link pi <> None)
    then panic "page_free can't free page which pp_ref is nonzero or pp_link is not NULL" s
    else Ok tt (pushed p l s).
Proof.
  intros Hwf Hp. unfold page_free.
  assert (get_page p s = Ok pi s) as E by (unfold get_page; by rewrite Hp).
  kstep E. case_match eqn:Hc; [done|].
  ksteps. rewrite (wf_head _ _ Hwf). unfold set_link. ksteps. kstep E. ksteps.
  apply orb_false_iff in Hc as [Hr _]. bcomp. unfold modify, pushed. by rewrite Hr.
Qed.

Lemma pushed_wf s l p :
  pages_wf s l -> 0 <= p < npages s -> p ∉ l -> pages_wf (pushed p l s) (p :: l).
Proof.
  intros Hwf Hp Hl. split; simpl.
  - apply (wf_npages _ _ Hwf).
  - intros q. rewrite lookup_insert_is_Some, (wf_dom _ _ Hwf).
    destruct (decide (p = q)) as [->|?]; [split; [lia|by left]|].
    split; [intros [?|[? ?]]; done|by right].
  - done.
  - intros [|i] q Hq; simpl in Hq.
    + simplify_eq. by rewrite lookup_insert_eq.
    + rewrite lookup_insert_ne; [by apply (wf_chain _ _ Hwf)|].
      intros ->. apply Hl. by eapply list_elem_of_lookup_2.
  - apply list.NoDup_cons. split; [done|apply (wf_nodup _ _ Hwf)].
  - intros q qi. rewrite lookup_insert. case_decide.
    + intros ? Hq. subst. by rewrite elem_of_cons in Hq; tauto.
    + intros Hq Hn. apply (wf_links _ _ Hwf q qi Hq). rewrite elem_of_cons in Hn. tauto.
Qed.

(** A page outside the free list is freed exactly when it has no references. *)
Lemma page_free_ok s l p pi :
  pages_wf s l -> pages s !! p = Some pi -> p ∉ l -> pp_ref pi = 0 ->
  page_free p s = Ok tt (pushed p l s) /\ pages_wf (pushed p l s) (p :: l).
Proof.
  intros Hwf Hp Hl Hr. split.
  - rewrite (page_free_run s l p pi Hwf Hp), Hr, (wf_links _ _ Hwf p pi Hp Hl). done.
  - apply pushed_wf; [done| |done]. apply (wf_dom _ _ Hwf). rewrite Hp. eauto.
Qed.

(** ** page_decref *)

Definition with_ref (p r : Z) (s : kstate) : kstate :=
  set_pages (alter (fun pi => mkPageInfo (pp_link pi) r) p (pages s)) s.

Lemma with_ref_wf s l p r :
  pages_wf s l -> p ∉ l -> pages_wf (with_ref p r s) l.
Proof.
  intros Hwf Hl. split; simpl.
  - apply (wf_npages _ _ Hwf).
  - intros q. rewrite lookup_alter_is_Some. apply (wf_dom _ _ Hwf).
  - apply (wf_head _ _ Hwf).
  - intros i q Hq. rewrite lookup_alter_ne; [by apply (wf_chain _ _ Hwf)|].
    intros ->. apply Hl. by eapply list_elem_of_lookup_2.
  - apply (wf_nodup _ _ Hwf).
  - intros q qi. rewrite lookup_alter. case_decide; [|apply (wf_links _ _ Hwf)].
    intros Hq Hn. subst. destruct (pages s !! q) as [qi'|] eqn:E; simplify_eq/=.
    by apply (wf_links _ _ Hwf q qi' E).
Qed.

Lemma set_ref_run s p pi r :
  pages s !! p = Some pi -> set_ref p r s = Ok tt (with_ref p (u16 r) s).
Proof.
  intros Hp. unfold set_ref.
  assert (get_page p s = Ok pi s) as E by (unfold get_page; by rewrite Hp).
  kstep E. unfold put_page, modify, with_ref. do 2 f_equal.
  apply map_eq. intros q. destruct (decide (p = q)) as [->|Hne].
  - by rewrite lookup_insert_eq, lookup_alter_eq, Hp.
  - by rewrite lookup_insert_ne, lookup_alter_ne.
Qed.

Lemma with_ref_lookup s p pi r :
  pages s !! p = Some pi -> pages (with_ref p r s) !! p = Some (mkPageInfo (pp_link pi) r).
Proof. intros Hp. simpl. by rewrite lookup_alter_eq, Hp. Qed.

(** The state and the free list after dropping a reference. *)
Definition decref_state (p r : Z) (l : list Z) (s : kstate) : kstate :=
  let s' := with_ref p (u16 (r - 1)) s in
  if u16 (r - 1) =? 0 then pushed p l s' else s'.
Definition decref_list (p r : Z) (l : list Z) : list Z :=
  if u16 (r - 1) =? 0 then p :: l else l.

Lemma page_decref_run s l p pi :
  pages_wf s l -> pages s !! p = Some pi -> p ∉ l ->
  page_decref p s = Ok tt (decref_state p (pp_ref pi) l s) /\
  pages_wf (decref_state p (pp_ref pi) l s) (decref_list p (pp_ref pi) l).
Proof.
  intros Hwf Hp Hl. unfold page_decref, decref_state, decref_list.
  assert (get_page p s = Ok pi s) as E by (unfold get_page; by rewrite Hp).
  kstep E. cbv zeta. kstep (set_ref_run s p pi (u16 (pp_ref pi - 1)) Hp).
  replace (u16 (u16 (pp_ref pi - 1))) with (u16 (pp_ref pi - 1))
    by (symmetry; apply u16_small, u16_range).
  pose proof (with_ref_wf s l p (u16 (pp_ref pi - 1)) Hwf Hl) as Hwf'.
  unfold kwhen. case_if; [|done].
  eapply page_free_ok; [done|by apply with_ref_lookup|done|done].
Qed.

Lemma page_incref_run s p pi :
  pages s !! p = Some pi ->
  page_incref p s = Ok tt (with_ref p (u16 (pp_ref pi + 1)) s).
Proof.
  intros Hp. unfold page_incref.
  assert (get_page p s = Ok pi s) as E by (unfold get_page; by rewrite Hp).
  kstep E. by apply set_ref_run with pi.
Qed.

(** ** The allocator refines a stack of pages *)

Lemma page_alloc_pops s l flags :
  pages_wf s l ->
  match l with
  | [] => exists s', page_alloc flags s = Ok None s' /\ pages_wf s' [] /\
            mem s' = mem s /\ pages s' = pages s
  | q :: l' => exists s', page_alloc flags s = Ok (Some q) s' /\ pages_wf s' l' /\
            pages s' = <[q := mkPageInfo None 0]> (pages s) /\
            (forall x, load8 (mem s') x =
               if ctrue (Z.land flags ALLOC_ZERO) && (q * 4096 <=? x) && (x <? q * 4096 + 4096)
               then 0 else load8 (mem s) x)
  end.
Proof.
  intros Hwf.
  destruct l as [|q l].
  + rewrite page_alloc_nil by done. eexists. split; [done|].
    split; [by eapply pages_wf_ext|]. done.
  + rewrite (page_alloc_cons flags s q l Hwf). eexists. split; [done|].
    split; [|split].
    * case_if; [|by apply popped_wf].
      eapply (pages_wf_ext (popped q l s)); [by apply popped_wf|done..].
    * by case_if.
    * intros x. destruct (ctrue _); simpl; [|done].
      pose proof (memset_filled (mem s) (q * 4096) 0 PGSIZE ltac:(unfold PGSIZE; lia)) as Hm.
      rewrite Hm. unfold PGSIZE. destruct (q * 4096 <=? x) eqn:E1, (x <? q * 4096 + 4096) eqn:E2;
        bcomp; simpl; (rewrite decide_True by lia; done) || (rewrite decide_False by lia; done).
Qed.

Lemma page_free_pushes s l p :
  pages_wf s l -> 0 <= p < npages s -> p ∉ l ->
  if ref_of s p =? 0
  then exists s', page_free p s = Ok tt s' /\ pages_wf s' (p :: l) /\ mem s' = mem s /\
         (forall q, q <> p -> pages s' !! q = pages s !! q)
  else exists msg s', page_free p s = Leave (Panicked msg) s'.
Proof.
  intros Hwf Hp Hl. destruct (proj2 (wf_dom _ _ Hwf p) Hp) as [pi Hpi].
  unfold ref_of. rewrite Hpi. destruct (pp_ref pi =? 0) eqn:Er; bcomp.
  + destruct (page_free_ok s l p pi Hwf Hpi Hl Er) as [E Hwf'].
    rewrite E. eexists. split; [done|]. split; [done|]. split; [done|].
    intros q Hq. simpl. by rewrite lookup_insert_ne by done.
  + rewrite (page_free_run s l p pi Hwf Hpi), (proj2 (Z.eqb_neq _ _) Er). simpl.
    unfold panic. destruct (panicstr s); eauto.
Qed.

(** C16: page_alloc and page_free implement a stack of free pages.  With the free
    list [l], page_alloc returns NULL exactly when [l] is empty, changing only the
    log; otherwise it pops the head [p], whose record then has no link and no
    references, clears the page's 4096 bytes exactly when ALLOC_ZERO is set, and
    changes no other byte and no other record.  page_free of a page that is not
    free pushes it when its reference count is 0 and panics otherwise.  Every
    outcome keeps the allocator's invariant. *)
Theorem page_alloc_refines_stack s l flags p :
  pages_wf s l ->
  match l with
  | [] => exists s', page_alloc flags s = Ok None s' /\ pages_wf s' [] /\
            mem s' = mem s /\ pages s' = pages s
  | q :: l' => exists s', page_alloc flags s = Ok (Some q) s' /\ pages_wf s' l' /\
            pages s' = <[q := mkPageInfo None 0]> (pages s) /\
            (forall x, load8 (mem s') x =
               if ctrue (Z.land flags ALLOC_ZERO) && (q * 4096 <=? x) && (x <? q * 4096 + 4096)
               then 0 else load8 (mem s) x)
  end /\
  (0 <= p < npages s -> p ∉ l ->
   if ref_of s p =? 0
   then exists s', page_free p s = Ok tt s' /\ pages_wf s' (p :: l) /\ mem s' = mem s /\
          (forall q, q <> p -> pages s' !! q = pages s !! q)
   else exists msg s', page_free p s = Leave (Panicked msg) s').
Proof.
  intros Hwf. split; [by apply page_alloc_pops|by apply page_free_pushes].
Qed.

(** ** boot_alloc and page_init *)

Lemma boot_alloc_run end_ n s :
  nextfree s <> 0 ->
  boot_alloc end_ n s = Ok (nextfree s) (set_nextfree (ROUNDUP (nextfree s + n) PGSIZE) s).
Proof.
  intros H. unfold boot_alloc. ksteps. unfold kwhen. rewrite (proj2 (Z.eqb_neq _ _) H).
  by ksteps.
Qed.

(** Rounding an aligned address with room above it. *)
Lemma ROUNDUP_page a n :
  0 <= a -> a mod 4096 = 0 -> 0 <= n -> a + n + 4095 < 0x100000000 ->
  a + n <= ROUNDUP (a + n) PGSIZE < a + n + 4096 /\ ROUNDUP (a + n) PGSIZE mod 4096 = 0.
Proof.
  intros Ha Hm Hn Hb. unfold PGSIZE.
  pose proof (ROUNDUP_spec (a + n) 4096 ltac:(lia)) as H.
  rewrite u32_small in H by lia. destruct (H ltac:(lia)) as [H1 H2]. split; [lia|done].
Qed.

Lemma ROUNDUP_aligned a :
  0 <= a -> a mod 4096 = 0 -> a + 4095 < 0x100000000 -> ROUNDUP a PGSIZE = a.
Proof.
  intros Ha Hm Hb. pose proof (ROUNDUP_page a 0 Ha Hm ltac:(lia) ltac:(lia)) as H.
  rewrite Z.add_0_r in H. zlia.
Qed.

(** boot_alloc hands out page-aligned, disjoint and increasing regions.  Two
    calls in a row, the first for [n1] and the second for [n2] bytes, return
    addresses [a1] and [a2] that are multiples of PGSIZE with [a1 + n1 <= a2],
    and a call for 0 bytes returns the next free address without allocating;
    the first call ever starts at the end of the kernel image, rounded up. *)
Theorem boot_alloc_disjoint end_ s n1 n2 :
  (nextfree s = 0 -> 0 < end_ /\ end_ + n1 + 8191 < 0x100000000) ->
  (nextfree s <> 0 -> 0 < nextfree s /\ nextfree s mod PGSIZE = 0 /\
     nextfree s + n1 + 4095 < 0x100000000) ->
  0 <= n1 ->
  exists a1 a2 s1 s2,
    boot_alloc end_ n1 s = Ok a1 s1 /\ boot_alloc end_ n2 s1 = Ok a2 s2 /\
    a1 = (if nextfree s =? 0 then ROUNDUP end_ PGSIZE else nextfree s) /\
    a1 mod PGSIZE = 0 /\ a2 mod PGSIZE = 0 /\ a1 + n1 <= a2 < a1 + n1 + PGSIZE /\
    (n1 = 0 -> a2 = a1) /\ mem s2 = mem s /\ nextfree s1 = a2.
Proof.
  intros Hz Hnz Hn1. set (a1 := if nextfree s =? 0 then ROUNDUP end_ PGSIZE else nextfree s).
  assert (0 < a1 /\ a1 mod 4096 = 0 /\ a1 + n1 + 4095 < 0x100000000) as (Ha & Hm & Hb).
  { unfold a1. destruct (nextfree s =? 0) eqn:E; bcomp; [|apply Hnz in E; unfold PGSIZE in E; lia].
    destruct (Hz E) as [He1 He2]. unfold PGSIZE.
    pose proof (ROUNDUP_spec end_ 4096 ltac:(lia)) as H. rewrite u32_small in H by lia.
    destruct (H ltac:(lia)) as [? ?]. split; [lia|]. split; [done|lia]. }
  set (a2 := ROUNDUP (a1 + n1) PGSIZE).
  pose proof (ROUNDUP_page a1 n1 ltac:(lia) Hm Hn1 Hb) as [Hr1 Hr2]. fold a2 in Hr1, Hr2.
  assert (exists s1, boot_alloc end_ n1 s = Ok a1 s1 /\ nextfree s1 = a2 /\ mem s1 = mem s)
    as (s1 & E1 & Hn & Hmem).
  { unfold boot_alloc, a2, a1, kwhen. ksteps. destruct (nextfree s =? 0); ksteps;
      (eexists; split; [reflexivity|by split]). }
  exists a1, a2, s1, (set_nextfree (ROUNDUP (a2 + n2) PGSIZE) s1). split; [done|].
  split; [rewrite boot_alloc_run by (rewrite Hn; lia); by rewrite Hn|].
  unfold PGSIZE in *. repeat (split; [done || lia|]). split; [|done].
  intros ->. unfold a2. rewrite Z.add_0_r. apply ROUNDUP_aligned; lia.
Qed.

Lemma boot_alloc_disjoint_witness :
  exists s a1 a2 s1 s2, boot_alloc 0xf0117abc 5000 s = Ok a1 s1 /\
    boot_alloc 0xf0117abc 8 s1 = Ok a2 s2 /\ a1 = 0xf0118000 /\ a1 + 5000 <= a2.
Proof.
  exists kstate0.
  destruct (boot_alloc_disjoint 0xf0117abc kstate0 5000 8) as (a1 & a2 & s1 & s2 & H);
    [simpl; lia|simpl; lia|lia|].
  destruct H as (E1 & E2 & Ha & _ & _ & Hd & _).
  exists a1, a2, s1, s2. split; [exact E1|]. split; [exact E2|]. split; [exact Ha|lia].
Defined.

(** The pages page_init makes available when the kernel ends at page [kend]. *)
Definition page_usable (kend i : Z) : bool :=
  negb (i =? 0) && negb ((160 <=? i) && (i <? kend)) && negb (i =? 7).

(** The free list it builds: the usable pages, highest first. *)
Definition usable_list (kend n : Z) : list Z :=
  reverse (filter (fun i => page_usable kend i = true) (seqZ 0 n)).

Lemma usable_list_succ kend n :
  0 <= n ->
  usable_list kend (n + 1) = if page_usable kend n then n :: usable_list kend n
                             else usable_list kend n.
Proof.
  intros Hn. unfold usable_list. rewrite seqZ_app by lia. rewrite list.filter_app, Z.add_0_l.
  change (seqZ n 1) with [n]. rewrite list.filter_cons, list.filter_nil.
  rewrite reverse_app. case_decide as E.
  - by rewrite E.
  - destruct (page_usable kend n); [done|]. done.
Qed.

Lemma elem_of_usable_list kend n i :
  i ∈ usable_list kend n <-> page_usable kend i = true /\ 0 <= i < n.
Proof.
  unfold usable_list. rewrite elem_of_reverse, list_elem_of_filter, elem_of_seqZ.
  split; intros [? ?]; (split; [done|lia]).
Qed.

Lemma NoDup_usable_list kend n : NoDup (usable_list kend n).
Proof. unfold usable_list. rewrite reverse_Permutation. apply list.NoDup_filter, NoDup_seqZ. Qed.

(** The state of page_init's loop before page [i], from state [s]. *)
Record init_inv (kend : Z) (s : kstate) (i : Z) (t : kstate) : Prop := {
  ii_npages : npages t = npages s;
  ii_mem : mem t = mem s;
  ii_head : page_free_list t = usable_list kend i !! O;
  ii_chain : forall j p, usable_list kend i !! j = Some p ->
    pages t !! p = Some (mkPageInfo (usable_list kend i !! S j) 0);
  ii_used : forall p, 0 <= p < i -> page_usable kend p = false ->
    pages t !! p = Some (mkPageInfo None 1);
  ii_rest : forall p, ~ (0 <= p < i) -> pages t !! p = pages s !! p;
}.

Lemma page_init_body_run kend i t :
  0 <= i ->
  page_init_body 160 kend i t =
    if page_usable kend i
    then Ok tt (set_page_free_list (Some i)
                  (set_pages (<[i := mkPageInfo (page_free_list t) 0]> (pages t)) t))
    else Ok tt (set_pages (<[i := mkPageInfo None 1]> (pages t)) t).
Proof.
  intros Hi. unfold page_init_body, page_usable. rewrite Z.geb_leb.
  change (MPENTRY_PADDR / PGSIZE) with 7.
  destruct (i =? 0); [done|]. destruct ((160 <=? i) && (i <? kend)); [done|].
  destruct (i =? 7); [done|]. by ksteps.
Qed.

Lemma page_init_step kend s i t :
  0 <= i -> init_inv kend s i t ->
  wp (page_init_body 160 kend i) (fun _ => init_inv kend s (i + 1)) no_exit t.
Proof.
  intros Hi [Hn Hm Hh Hc Hu Hr]. unfold wp. rewrite page_init_body_run by done.
  assert (forall p, p ∈ usable_list kend i -> p <> i) as Hne.
  { intros p Hp ->. apply elem_of_usable_list in Hp. lia. }
  destruct (page_usable kend i) eqn:Eu; split; simpl; rewrite ?usable_list_succ, ?Eu by lia;
    try done.
  - intros [|j] p Hp; simpl in Hp.
    + simplify_eq. by rewrite lookup_insert_eq, Hh.
    + rewrite lookup_insert_ne; [by apply Hc|].
      intros ->. by apply (Hne p); [eapply list_elem_of_lookup_2|].
  - intros p Hp Hpu. rewrite lookup_insert_ne by congruence. apply Hu; [|done].
    assert (p <> i) by congruence. lia.
  - intros p Hp. rewrite lookup_insert_ne by lia. apply Hr. lia.
  - intros j p Hp. rewrite lookup_insert_ne; [by apply Hc|].
    intros ->. by apply (Hne p); [eapply list_elem_of_lookup_2|].
  - intros p Hp Hpu. destruct (decide (i = p)) as [->|]; [by rewrite lookup_insert_eq|].
    rewrite lookup_insert_ne by done. apply Hu; [lia|done].
  - intros p Hp. rewrite lookup_insert_ne by lia. apply Hr. lia.
Qed.

(** The array [pages] as mem_init leaves it before page_init: one zeroed record
    per page. *)
Definition pages_zeroed (s : kstate) : Prop :=
  forall p, pages s !! p = if decide (0 <= p < npages s) then Some (mkPageInfo None 0) else None.

Lemma init_inv_wf kend s t :
  0 <= npages s <= MAXPAGES -> pages_zeroed s -> init_inv kend s (npages s) t ->
  pages_wf t (usable_list kend (npages s)).
Proof.
  intros Hn Hz [En Em Hh Hc Hu Hr]. split; rewrite ?En; try done.
  - intros p. destruct (decide (0 <= p < npages s)) as [Hp|Hp].
    + split; [done|]. intros _. destruct (page_usable kend p) eqn:E.
      * assert (p ∈ usable_list kend (npages s)) as Hin by by apply elem_of_usable_list.
        apply list_elem_of_lookup in Hin as [j Hj]. rewrite (Hc j p Hj). eauto.
      * rewrite Hu by done. eauto.
    + rewrite Hr, Hz, decide_False by done. split; [intros [? ?]; done|done].
  - apply NoDup_usable_list.
  - intros p pi Hp Hl. destruct (decide (0 <= p < npages s)) as [Hr'|Hr'].
    + rewrite Hu in Hp; [by simplify_eq|done|].
      apply not_true_iff_false. intros E. apply Hl. by apply elem_of_usable_list.
    + rewrite Hr, Hz, decide_False in Hp by done. done.
Qed.

Lemma page_init_run end_ s :
  0 <= npages s <= MAXPAGES -> pages_zeroed s -> page_free_list s = None ->
  KERNBASE <= nextfree s < 0xFFFFF000 -> nextfree s mod PGSIZE = 0 ->
  exists s', page_init end_ s = Ok tt s' /\
    let kend := (nextfree s - KERNBASE) / PGSIZE in
    pages_wf s' (usable_list kend (npages s)) /\
    (forall p, p ∈ usable_list kend (npages s) <->
       (0 <= p < npages s) /\ p <> 0 /\ p <> MPENTRY_PADDR / PGSIZE /\
       ~ (IOPHYSMEM / PGSIZE <= p < kend)) /\
    (forall p, 0 <= p < npages s -> p ∉ usable_list kend (npages s) ->
       pages s' !! p = Some (mkPageInfo None 1)) /\
    mem s' = mem s.
Proof.
  intros Hn Hz Hfl Hnf Hal. unfold page_init. unfold KERNBASE, PGSIZE in Hnf, Hal.
  set (kend := (nextfree s - KERNBASE) / PGSIZE).
  kstep (boot_alloc_run end_ 0 s ltac:(lia)).
  rewrite Z.add_0_r, ROUNDUP_aligned by lia.
  set (s0 := set_nextfree _ s).
  assert (PADDR (nextfree s) s0 = Ok (nextfree s - KERNBASE) s0) as E.
  { unfold PADDR. rewrite (proj2 (Z.ltb_ge _ _)) by (unfold KERNBASE; lia). done. }
  kstep E. clear E. cbv zeta. ksteps. change (IOPHYSMEM / PGSIZE) with 160.
  change (npages s0) with (npages s). fold kend.
  assert (init_inv kend s 0 s0) as H0.
  { split; try done; intros; lia. }
  pose proof (wp_kfor (init_inv kend s) no_exit (page_init_body 160 kend)
    (Z.to_nat (npages s)) 0 s0 H0
    ltac:(intros j t Hj; apply page_init_step; lia)) as Hw.
  unfold wp in Hw. destruct (kfor _ _ _ s0) as [[] s'|e s'|]; [|done..].
  replace (0 + Z.of_nat (Z.to_nat (npages s))) with (npages s) in Hw by lia.
  exists s'. split; [done|]. cbv zeta. split; [by eapply init_inv_wf|].
  assert (forall p, p ∈ usable_list kend (npages s) <->
       (0 <= p < npages s) /\ p <> 0 /\ p <> MPENTRY_PADDR / PGSIZE /\
       ~ (160 <= p < kend)) as Hin.
  { intros p. rewrite elem_of_usable_list. unfold page_usable.
    change (MPENTRY_PADDR / PGSIZE) with 7.
    rewrite !andb_true_iff, !negb_true_iff, andb_false_iff, !Z.eqb_neq, Z.leb_gt, Z.ltb_ge.
    lia. }
  split; [done|]. split; [|apply (ii_mem _ _ _ _ Hw)].
  intros p Hp Hl. apply (ii_used _ _ _ _ Hw); [done|].
  apply not_true_iff_false. intros E. apply Hl. by apply elem_of_usable_list.
Qed.

(** C17: page_init builds the free list.  Called with [npages] zeroed records
    (at most 256 MB), an empty free list and boot_alloc's next free address [nextfree], it returns
    with the allocator's invariant established for the list of exactly these
    pages, highest address first: every page except page 0, the pages from the
    IO hole (640 KB) up to the end of the memory boot_alloc has handed out, and
    the page of the AP entry code.  Every other page has one reference and no
    link, and memory is untouched. *)
Theorem page_init_free_list end_ s :
  0 <= npages s <= MAXPAGES -> pages_zeroed s -> page_free_list s = None ->
  KERNBASE <= nextfree s < 0xFFFFF000 -> nextfree s mod PGSIZE = 0 ->
  exists s', page_init end_ s = Ok tt s' /\
    let kend := (nextfree s - KERNBASE) / PGSIZE in
    pages_wf s' (usable_list kend (npages s)) /\
    (forall p, p ∈ usable_list kend (npages s) <->
       (0 <= p < npages s) /\ p <> 0 /\ p <> MPENTRY_PADDR / PGSIZE /\
       ~ (IOPHYSMEM / PGSIZE <= p < kend)) /\
    (forall p, 0 <= p < npages s -> p ∉ usable_list kend (npages s) ->
       pages s' !! p = Some (mkPageInfo None 1)) /\
    mem s' = mem s.
Proof. apply page_init_run. Qed.

(** [memset(pages, 0, sizeof(struct PageInfo) * npages)]. *)
Definition zero_pages (n : Z) : gmap Z PageInfo :=
  list_to_map ((fun i => (i, mkPageInfo None 0)) <$> seqZ 0 n).

Lemma zero_pages_zeroed n s :
  0 <= n -> pages_zeroed (set_pages (zero_pages n) (set_npages n s)).
Proof.
  intros Hn p. simpl. unfold zero_pages.
  assert (NoDup ((fun i => (i, mkPageInfo None 0)) <$> seqZ 0 n).*1) as Hnd.
  { rewrite <- list_fmap_compose. simpl. rewrite list_fmap_id. apply NoDup_seqZ. }
  destruct (decide (0 <= p < n)) as [Hp|Hp].
  - apply elem_of_list_to_map; [done|]. apply list_elem_of_fmap.
    exists p. split; [done|]. by apply elem_of_seqZ.
  - apply not_elem_of_list_to_map. rewrite <- list_fmap_compose. simpl.
    rewrite list_fmap_id, elem_of_seqZ. lia.
Qed.

(** A machine of [n] pages just before page_init. *)
Definition before_page_init (n : Z) : kstate :=
  set_nextfree 0xf0118000 (set_pages (zero_pages n) (set_npages n kstate0)).

Lemma page_init_free_list_witness :
  exists s', page_init 0xf0117abc (before_page_init 10) = Ok tt s' /\
    pages_wf s' [9; 8; 6; 5; 4; 3; 2; 1].
Proof.
  destruct (page_init_free_list 0xf0117abc (before_page_init 10)) as (s' & E & Hwf & _).
  - simpl. unfold MAXPAGES. lia.
  - exact (zero_pages_zeroed 10 (set_nextfree 0xf0118000 kstate0) ltac:(lia)).
  - reflexivity.
  - simpl. unfold KERNBASE. lia.
  - reflexivity.
  - exists s'. split; [exact E|].
    assert (usable_list ((nextfree (before_page_init 10) - KERNBASE) / PGSIZE)
      (npages (before_page_init 10)) = [9; 8; 6; 5; 4; 3; 2; 1]) as <- by (vm_compute; reflexivity).
    exact Hwf.
Defined.

(** A small state for examples: six pages; 5 and 4 are free, 3 is allocated and
    not yet referenced. *)
Definition small_pages : gmap Z PageInfo :=
  <[0 := mkPageInfo None 1]> (<[1 := mkPageInfo None 1]> (<[2 := mkPageInfo None 1]>
  (<[3 := mkPageInfo None 0]> (<[4 := mkPageInfo None 0]>
  (<[5 := mkPageInfo (Some 4) 0]> ∅))))).
Definition small_state : kstate :=
  set_page_free_list (Some 5) (set_pages small_pages (set_npages 6 kstate0)).

Lemma small_state_wf : pages_wf small_state [5; 4].
Proof.
  assert (forall p pi, small_pages !! p = Some pi ->
    (p = 5 /\ pi = mkPageInfo (Some 4) 0) \/ (0 <= p < 5 /\ pp_link pi = None)) as Hlook.
  { intros p pi. unfold small_pages.
    repeat (rewrite lookup_insert; case_decide; [intros; simplify_eq/=; by auto with lia|]).
    by rewrite lookup_empty. }
  split; simpl.
  - unfold MAXPAGES. lia.
  - intros p. split.
    + intros [pi Hp]. destruct (Hlook p pi Hp); lia.
    + intros Hp. assert (p = 0 \/ p = 1 \/ p = 2 \/ p = 3 \/ p = 4 \/ p = 5) as H by lia.
      repeat (destruct H as [->|H]; [by eexists|]). subst. by eexists.
  - reflexivity.
  - intros [|[|i]] p Hp; simplify_eq/=; reflexivity.
  - apply (bool_decide_unpack _). vm_compute. exact I.
  - intros p pi Hp Hl. destruct (Hlook p pi Hp) as [[-> _]|[_ ?]]; [|done]. set_solver.
Qed.

Lemma popped_mem p l s : mem (popped p l s) = mem s.
Proof. done. Qed.

Lemma page_alloc_refines_stack_witness :
  exists s', page_alloc ALLOC_ZERO small_state = Ok (Some 5) s' /\ pages_wf s' [4] /\
    load8 (mem s') 0x5123 = 0.
Proof.
  destruct (proj1 (page_alloc_refines_stack small_state [5; 4] ALLOC_ZERO 0 small_state_wf))
    as (s' & E & Hwf & _ & Hm).
  exists s'. split; [exact E|]. split; [exact Hwf|]. rewrite Hm. reflexivity.
Defined.

(** ** No page is handed out twice *)

(** Clients of the allocator: the pages they hold, and the calls that change
    them.  A client may count references to the pages it holds. *)
Inductive alloc_step : kstate * gset Z -> kstate * gset Z -> Prop :=
| step_alloc s o flags p s' :
    page_alloc flags s = Ok (Some p) s' -> alloc_step (s, o) (s', {[ p ]} ∪ o)
| step_alloc_fails s o flags s' :
    page_alloc flags s = Ok None s' -> alloc_step (s, o) (s', o)
| step_free s o p s' :
    p ∈ o -> page_free p s = Ok tt s' -> alloc_step (s, o) (s', o ∖ {[ p ]})
| step_ref s o p r :
    p ∈ o -> alloc_step (s, o) (with_ref p r s, o)
| step_mem s o m :
    alloc_step (s, o) (set_mem m s, o).

(** Free and held pages partition the pages that were free at first. *)
Definition alloc_inv (all : gset Z) (st : kstate * gset Z) : Prop :=
  exists l, pages_wf st.1 l /\ (list_to_set l ## st.2) /\ list_to_set l ∪ st.2 = all /\
    (forall p, p ∈ st.2 -> 0 <= p < npages st.1).

Lemma alloc_inv_step all st st' : alloc_inv all st -> alloc_step st st' -> alloc_inv all st'.
Proof.
  intros (l & Hwf & Hd & Hu & Hr) Hs. destruct Hs as [s o flags p s' E|s o flags s' E|s o p s' Hp E
    |s o p r Hp|s o m]; simpl in *.
  - destruct l as [|q l]; [rewrite page_alloc_nil in E by done; discriminate|].
    destruct (page_alloc_pops s (q :: l) flags Hwf) as (s1 & E1 & Hwf1 & Hpg & _).
    rewrite E1 in E. injection E as -> ->.
    pose proof (wf_nodup _ _ Hwf) as Hnd. apply list.NoDup_cons in Hnd as [Hql _].
    pose proof (page_alloc_cons flags s p l Hwf) as Ec. rewrite E1 in Ec.
    exists l. simpl in *. split; [done|]. split; [set_solver|]. split; [set_solver|].
    intros x Hx. assert (npages s' = npages s) as ->.
    { injection Ec as ->. by case_if. }
    apply elem_of_union in Hx as [Hx|Hx]; [|by apply Hr].
    apply elem_of_singleton in Hx. subst. eapply pages_wf_range; [done|].
    apply list_elem_of_here.
  - destruct l as [|q l].
    + rewrite page_alloc_nil in E by done. injection E as <-. exists [].
      split; [by eapply pages_wf_ext|done].
    + rewrite (page_alloc_cons flags s q l Hwf) in E. discriminate.
  - assert (p ∉ l) as Hl by set_solver.
    destruct (proj2 (wf_dom _ _ Hwf p) (Hr p Hp)) as [pi Hpi].
    assert (pp_ref pi = 0) as H0.
    { rewrite (page_free_run s l p pi Hwf Hpi) in E.
      destruct (pp_ref pi =? 0) eqn:Er; bcomp; [done|]. simpl in E.
      unfold panic in E. by destruct (panicstr s). }
    destruct (page_free_ok s l p pi Hwf Hpi Hl H0) as [E1 Hwf1].
    rewrite E1 in E. injection E as <-. exists (p :: l). split; [done|]. simpl.
    split; [set_solver|]. split.
    + rewrite <- Hu. apply leibniz_equiv. intros x.
      destruct (decide (x = p)); set_solver.
    + intros x Hx. apply Hr. set_solver.
  - exists l. split; [apply with_ref_wf; [done|set_solver]|done].
  - exists l. split; [by eapply pages_wf_ext|done].
Qed.

(** No page is handed out twice and none is lost.  From any state with
    free list [l0] and no page held, after any sequence of page_alloc and
    page_free calls by clients that free only pages they hold (and whatever they
    write to memory or count on their pages), the free list and the held pages
    are disjoint and together are exactly the pages of [l0]; so an allocation
    returns a page that nobody holds, and fails only when all are held. *)
Theorem alloc_exclusive s0 l0 s o :
  pages_wf s0 l0 -> rtc alloc_step (s0, ∅) (s, o) ->
  exists l, pages_wf s l /\ (list_to_set l ## o) /\ (list_to_set l ∪ o = (list_to_set l0 : gset Z)) /\
    (forall flags p s', page_alloc flags s = Ok (Some p) s' -> (p ∉ o) /\ p ∈ l0) /\
    (forall flags s', page_alloc flags s = Ok None s' -> o = list_to_set l0).
Proof.
  intros Hwf0 Hrtc.
  assert (alloc_inv (list_to_set l0) (s, o)) as (l & Hwf & Hd & Hu & _).
  { assert (alloc_inv (list_to_set l0) (s0, ∅)) as H0.
    { exists l0. split; [done|]. simpl. split; [set_solver|]. split; [set_solver|]. set_solver. }
    clear Hwf0. revert H0. induction Hrtc; eauto using alloc_inv_step. }
  simpl in *. exists l. split; [done|]. split; [done|]. split; [done|]. split.
  - intros flags p s' E. destruct l as [|q l].
    + rewrite page_alloc_nil in E by done. discriminate.
    + rewrite (page_alloc_cons flags s q l Hwf) in E. injection E as -> _.
      split; [set_solver|]. apply (elem_of_list_to_set (C := gset Z)). set_solver.
  - intros flags s' E. destruct l as [|q l]; [set_solver|].
    rewrite (page_alloc_cons flags s q l Hwf) in E. discriminate.
Qed.

Lemma alloc_exclusive_witness :
  exists s, page_alloc 0 small_state = Ok (Some 5) s /\
    exists l, pages_wf s l /\ (list_to_set l ∪ {[ 5 ]} = (list_to_set [5; 4] : gset Z)).
Proof.
  exists (popped 5 [4] small_state).
  pose proof (page_alloc_cons 0 small_state 5 [4] small_state_wf) as E. simpl in E.
  split; [exact E|].
  destruct (alloc_exclusive small_state [5; 4] (popped 5 [4] small_state) {[ 5 ]}
    small_state_wf) as (l & Hwf & _ & Hu & _).
  - apply rtc_once. rewrite <- (right_id_L ∅ (∪) {[ 5 ]}). by apply step_alloc with 0.
  - exists l. split; [exact Hwf|exact Hu].
Defined.

(** ** Freeing a page that is already free *)

(** page_free detects a double free except at the end of the list.  Freeing a
    page [p] that is on the free list [l] panics when some page follows it; when
    [p] is the last page its link is null, so the check passes, and the list
    becomes a cycle through all the pages of [l]: its head is [p], the links go
    through [l] in order and from [p] back to the head of [l], and no link on
    the list is null. *)
Theorem page_free_double_free s l p :
  pages_wf s l -> p ∈ l ->
  if bool_decide (list.last l = Some p)
  then exists s', page_free p s = Ok tt s' /\ page_free_list s' = Some p /\
         (forall i q, l !! i = Some q -> exists r, r ∈ l /\
            pages s' !! q = Some (mkPageInfo (Some r) 0) /\
            (if decide (q = p) then l !! O else l !! S i) = Some r)
  else exists msg s', page_free p s = Leave (Panicked msg) s'.
Proof.
  intros Hwf Hp. apply list_elem_of_lookup in Hp as [i Hi].
  pose proof (wf_chain _ _ Hwf i p Hi) as Hpi.
  rewrite (page_free_run s l p _ Hwf Hpi). simpl.
  assert (list.last l = Some p <-> l !! S i = None) as Hlast.
  { rewrite list.last_lookup. pose proof (lookup_lt_Some _ _ _ Hi) as Hlt.
    rewrite lookup_ge_None. split; [|intros; by replace (pred (length l)) with i by lia].
    intros E. pose proof (NoDup_lookup _ _ _ _ (wf_nodup _ _ Hwf) E Hi). lia. }
  destruct (bool_decide (list.last l = Some p)) eqn:Eb.
  - apply bool_decide_eq_true_1, Hlast in Eb. rewrite Eb. simpl.
    exists (pushed p l s). split; [done|]. split; [done|].
    intros j q Hj. destruct (decide (q = p)) as [->|Hne].
    + destruct l as [|h l]; [done|]. exists h. split; [apply list_elem_of_here|].
      split; [by simpl; rewrite lookup_insert_eq|done].
    + pose proof (lookup_lt_Some _ _ _ Hj) as Hlt.
      assert (j <> i) as Hji by congruence.
      assert (is_Some (l !! S j)) as [r Hr].
      { apply lookup_lt_is_Some_2. apply lookup_ge_None in Eb. pose proof (lookup_lt_Some _ _ _ Hi). lia. }
      exists r. split; [by eapply list_elem_of_lookup_2|]. split; [|done].
      simpl. rewrite lookup_insert_ne by done. by rewrite (wf_chain _ _ Hwf j q Hj), Hr.
  - apply bool_decide_eq_false_1 in Eb. destruct (l !! S i) eqn:E; [|by destruct Eb; apply Hlast].
    simpl. unfold panic. destruct (panicstr s); eauto.
Qed.

Lemma page_free_double_free_witness :
  exists s', page_free 4 small_state = Ok tt s' /\ page_free_list s' = Some 4.
Proof.
  pose proof (page_free_double_free small_state [5; 4] 4 small_state_wf
    ltac:(repeat constructor)) as H.
  destruct H as (s' & E & Hh & _). exists s'. split; [exact E|exact Hh].
Defined.
