(* ===== verification/PageTable.v ===== *)
(** * PageTable: the two-level page tables of kern/pmap.c

    pgdir_walk, boot_map_region, page_insert, page_lookup, page_remove,
    tlb_invalidate, mmio_map_region, user_mem_check and check_va2pa, and the
    translation the processor makes from the same tables.  [pgdir_wf s l d] is the
    invariant of a page directory at physical address [d]; [mapping m d va] is
    the page table entry that maps [va], if one does. *)

From S2P Require Import Prelude Layout Memory CString Printfmt Kernel PageAlloc.

(** ** The operations *)

Definition present (entry : Z) : bool := ctrue (Z.land entry PTE_P).

Definition pgdir_walk (pgdir va create : Z) : K (option Z) :=
  let pde_ptr := pgdir + 4 * PDX va in
  pde ← kload32 pde_ptr;
  ok ← (if negb (present pde) then
          if create =? 0 then mret false
          else
            pp ← page_alloc 1;
            match pp with
            | None => mret false
            | Some pp =>
                _ ← page_incref pp;
                _ ← kstore32 pde_ptr (Z.lor (Z.lor (Z.lor (page2pa pp) PTE_P) PTE_U) PTE_W);
                mret true
            end
        else mret true);
  if ok : bool then
    pde ← kload32 pde_ptr;
    kva ← KADDR (PTE_ADDR pde);
    mret (Some (kva + 4 * PTX va))
  else mret None.

Definition boot_map_region (pgdir va size pa perm : Z) : K unit :=
  let pgs := size / PGSIZE in
  let pgs := if negb (size mod PGSIZE =? 0) then pgs + 1 else pgs in
  kfor (Z.to_nat pgs) 0 (fun i =>
    let va := u32 (va + i * PGSIZE) in
    let pa := u32 (pa + i * PGSIZE) in
    pte ← pgdir_walk pgdir va 1;
    match pte with
    | None => panic "boot_map_region() out of memory"
    | Some pte => kstore32 pte (Z.lor (Z.lor pa PTE_P) perm)
    end).

(** The page and the address of its entry, or a null pointer.  The test
    [!( *pte) & PTE_P] holds exactly when the entry is 0. *)
Definition page_lookup (pgdir va : Z) : K (option (Z * Z)) :=
  pte ← pgdir_walk pgdir va 0;
  match pte with
  | None => mret None
  | Some pte =>
      v ← kload32 pte;
      if ctrue (Z.land (if v =? 0 then 1 else 0) PTE_P) then mret None
      else
        pp ← pa2page (PTE_ADDR v);
        mret (Some (pp, pte))
  end.

Definition invlpg (va : Z) : K unit := tell (Invlpg va).

Definition tlb_invalidate (pgdir va : Z) : K unit :=
  c ← curenv;
  match c with
  | None => invlpg va
  | Some e =>
      env ← get_env e;
      kwhen (env_pgdir env =? pgdir) (invlpg va)
  end.

Definition page_remove (pgdir va : Z) : K unit :=
  r ← page_lookup pgdir va;
  match r with
  | None => mret tt
  | Some (pp, pte_store) =>
      _ ← page_decref pp;
      _ ← kstore32 pte_store 0;
      tlb_invalidate pgdir va
  end.

Definition page_insert (pgdir pp va perm : Z) : K Z :=
  pte ← pgdir_walk pgdir va 1;
  match pte with
  | None => mret (- E_NO_MEM)
  | Some pte =>
      _ ← page_incref pp;
      v ← kload32 pte;
      _ ← kwhen (present v) (page_remove pgdir va);
      let pa := page2pa pp in
      _ ← kstore32 pte (Z.lor (Z.lor pa perm) PTE_P);
      pde ← kload32 (pgdir + 4 * PDX va);
      _ ← kstore32 (pgdir + 4 * PDX va) (Z.lor pde perm);
      mret 0
  end.

Definition mmio_map_region (pa size : Z) : K Z :=
  let size := ROUNDUP (pa + size) PGSIZE in
  let pa := ROUNDDOWN pa PGSIZE in
  let size := u32 (size - pa) in
  base ← get mmio_base;
  if u32 (base + size) >=? MMIOLIM then panic "not enough memory"
  else
    kp ← get kern_pgdir;
    _ ← boot_map_region kp base size pa (Z.lor (Z.lor PTE_PCD PTE_PWT) PTE_W);
    _ ← modify (set_mmio_base (u32 (base + size)));
    base ← get mmio_base;
    mret (u32 (base - size)).

(** The loop of user_mem_check from page [i], with [n] pages to go. *)
Fixpoint user_mem_check_loop (n : nat) (pgdir va perm i : Z) : K Z :=
  match n with
  | O => mret 0
  | S n' =>
      pte ← pgdir_walk pgdir i 0;
      bad ← (if i >=? ULIM then mret true
             else match pte with
                  | None => mret true
                  | Some p =>
                      v ← kload32 p;
                      mret (negb (present v) || negb (Z.land v perm =? perm))
                  end);
      if bad : bool then
        _ ← modify (set_user_mem_check_addr (if i <? va then va else i));
        mret (- E_FAULT)
      else user_mem_check_loop n' pgdir va perm (u32 (i + PGSIZE))
  end.

Definition user_mem_check (env va len perm : Z) : K Z :=
  let begin := ROUNDDOWN va PGSIZE in
  let end_ := ROUNDUP (va + len) PGSIZE in
  e ← get_env env;
  user_mem_check_loop (Z.to_nat ((end_ - begin) / PGSIZE)) (env_pgdir e) va perm begin.

Definition check_va2pa (pgdir va : Z) : K Z :=
  pde ← kload32 (pgdir + 4 * PDX va);
  if negb (present pde) then mret 0xFFFFFFFF
  else
    p ← KADDR (PTE_ADDR pde);
    v ← kload32 (p + 4 * PTX va);
    if negb (present v) then mret 0xFFFFFFFF else mret (PTE_ADDR v).

(** ** The processor's translation *)

(** The entry of the directory at [d] for [va], the table it points to, and the
    entry of that table. *)
Definition pde (m : memory) (d va : Z) : Z := load32 m (d + 4 * PDX va).
Definition pte_addr (m : memory) (d va : Z) : Z := PTE_ADDR (pde m d va) + 4 * PTX va.
Definition pte (m : memory) (d va : Z) : Z := load32 m (pte_addr m d va).

Definition mapping (m : memory) (d va : Z) : option Z :=
  if present (pde m d va) && present (pte m d va) then Some (pte m d va) else None.

(** The table entry for [va], 0 without a table. *)
Definition raw (m : memory) (d va : Z) : Z := if present (pde m d va) then pte m d va else 0.

Lemma mapping_raw m d va : mapping m d va = if present (raw m d va) then Some (raw m d va) else None.
Proof. unfold mapping, raw. by destruct (present (pde m d va)). Qed.

(** The entries the kernel writes are 0 or present. *)
Definition entry_ok (s : kstate) (d va : Z) : Prop := raw (mem s) d va <> 0 -> present (raw (mem s) d va) = true.

(** What an access of mode [user] and kind [write] finds (CR0_WP is set, so the
    kernel, too, writes only to writable pages). *)
Definition mmu (m : memory) (cr3 va : Z) (user write : bool) : option Z :=
  match mapping m (PTE_ADDR cr3) va with
  | None => None
  | Some e =>
      let flags := Z.land (pde m (PTE_ADDR cr3) va) e in
      if user && negb (ctrue (Z.land flags PTE_U)) then None
      else if write && negb (ctrue (Z.land flags PTE_W)) then None
      else Some (PTE_ADDR e + PGOFF va)
  end.

(** ** Entries *)

Definition slot (f i : Z) : Z := f + 4 * i.

Lemma slot_inj f g i j :
  f mod 4096 = 0 -> g mod 4096 = 0 -> 0 <= i < 1024 -> 0 <= j < 1024 ->
  slot f i = slot g j -> f = g /\ i = j.
Proof. unfold slot. intros. zlia. Qed.

Lemma load_slot_store m f g i j v :
  f mod 4096 = 0 -> g mod 4096 = 0 -> 0 <= i < 1024 -> 0 <= j < 1024 ->
  load32 (store32 m (slot f i) v) (slot g j) =
    if decide (f = g /\ i = j) then u32 v else load32 m (slot g j).
Proof.
  intros Hf Hg Hi Hj. case_decide as E.
  - destruct E as [-> ->]. apply load32_store32_eq.
  - apply load32_store32_aligned; unfold slot; [zlia|zlia|].
    intros He. apply E. by apply slot_inj.
Qed.

Lemma load_slot_zeroed m f g j :
  f mod 4096 = 0 -> g mod 4096 = 0 -> 0 <= j < 1024 ->
  load32 (memset m f 0 PGSIZE) (slot g j) =
    if decide (f = g) then 0 else load32 m (slot g j).
Proof.
  intros Hf Hg Hj. pose proof (memset_filled m f 0 PGSIZE ltac:(unfold PGSIZE; lia)) as Hm.
  unfold PGSIZE in *. unfold slot. case_decide as E.
  - subst. assert (forall k, 0 <= k < 4 -> load8 (memset m g 0 4096) (g + 4 * j + k) = 0) as H0.
    { intros k Hk. rewrite Hm, decide_True by lia. done. }
    assert (load32 (memset m g 0 4096) (g + 4 * j) = load32 (fill_bytes ∅ (g + 4 * j) 0 4)
      (g + 4 * j)) as ->.
    { apply load32_ext. intros x Hx. rewrite load8_fill_bytes, decide_True by lia.
      replace x with (g + 4 * j + (x - (g + 4 * j))) by lia. apply H0. lia. }
    apply load32_fill_zero; lia.
  - apply load32_ext. intros x Hx. rewrite Hm, decide_False; [done|]. zlia.
Qed.

(** ** The invariant of a page directory *)

(** The directory at physical address [d] lies in a page that is not free; so does
    every table it points to; and no table serves two entries or is the directory
    itself, except that the entry for UVPT points to the directory. *)
Record pgdir_wf (s : kstate) (l : list Z) (d : Z) : Prop := {
  dw_aligned : d mod 4096 = 0;
  dw_range : 0 <= d < npages s * 4096;
  dw_used : d / 4096 ∉ l;
  dw_table : forall i, 0 <= i < 1024 -> present (load32 (mem s) (slot d i)) = true ->
    PTE_ADDR (load32 (mem s) (slot d i)) / 4096 < npages s /\
    PTE_ADDR (load32 (mem s) (slot d i)) / 4096 ∉ l;
  dw_self : forall i, 0 <= i < 1024 -> i <> PDX UVPT ->
    present (load32 (mem s) (slot d i)) = true ->
    PTE_ADDR (load32 (mem s) (slot d i)) <> d;
  dw_distinct : forall i j, 0 <= i < 1024 -> 0 <= j < 1024 ->
    i <> PDX UVPT -> j <> PDX UVPT -> i <> j ->
    present (load32 (mem s) (slot d i)) = true -> present (load32 (mem s) (slot d j)) = true ->
    PTE_ADDR (load32 (mem s) (slot d i)) <> PTE_ADDR (load32 (mem s) (slot d j));
}.

(** Whether a page holds the directory or one of its tables. *)
Definition is_table (s : kstate) (d p : Z) : Prop :=
  p * 4096 = d \/
  exists i, 0 <= i < 1024 /\ present (load32 (mem s) (slot d i)) = true /\
    PTE_ADDR (load32 (mem s) (slot d i)) = p * 4096.

(** Only memory, the page records, the free list and the log may differ. *)
Definition same_else (s s' : kstate) : Prop :=
  s' = set_mem (mem s') (set_pages (pages s')
         (set_page_free_list (page_free_list s') (set_log (log s') s))).

#[export] Instance same_else_preorder : PreOrder same_else.
Proof.
  split.
  - intros []. reflexivity.
  - intros s1 s2 s3 H1 H2. unfold same_else in *. rewrite H2. rewrite H1. reflexivity.
Qed.

Lemma same_else_npages s s' : same_else s s' -> npages s' = npages s.
Proof. intros ->. done. Qed.
Lemma same_else_cpus s s' : same_else s s' -> cpus s' = cpus s.
Proof. intros ->. done. Qed.
Lemma same_else_cpunum s s' : same_else s s' -> cpunum s' = cpunum s.
Proof. intros ->. done. Qed.
Lemma same_else_envs s s' : same_else s s' -> envs s' = envs s.
Proof. intros ->. done. Qed.

Lemma u32_small_flags pa f : 0 <= pa < 0x100000000 -> 0 <= f < 0x100000000 ->
  u32 (Z.lor pa f) = Z.lor pa f.
Proof. intros. apply u32_small. apply (lor_range pa f 32); lia. Qed.

Lemma kload32_run s a : 0 <= a -> kload32 (KERNBASE + a) s = Ok (load32 (mem s) a) s.
Proof.
  intros Ha. unfold kload32. rewrite (proj2 (Z.ltb_ge _ _)) by lia.
  by replace (KERNBASE + a - KERNBASE) with a by lia.
Qed.

Lemma kstore32_run s a v :
  0 <= a -> kstore32 (KERNBASE + a) v s = Ok tt (set_mem (store32 (mem s) a v) s).
Proof.
  intros Ha. unfold kstore32. rewrite (proj2 (Z.ltb_ge _ _)) by lia.
  by replace (KERNBASE + a - KERNBASE) with a by lia.
Qed.

Lemma KADDR_run s pa :
  0 <= pa < npages s * 4096 -> npages s <= MAXPAGES -> KADDR pa s = Ok (KERNBASE + pa) s.
Proof.
  unfold MAXPAGES. intros Hp Hn. unfold KADDR. ksteps. rewrite PGNUM_div, u32_small by lia.
  case_if; [rewrite Z.geb_leb in Eb; bcomp; zlia|].
  unfold mret, K_ret. f_equal. unfold KERNBASE. rewrite u32_small; lia.
Qed.

(** ** pgdir_walk *)

(** The tail of the walk once the directory entry is present. *)
Lemma walk_tail s d va :
  0 <= d -> 0 <= npages s <= MAXPAGES ->
  PTE_ADDR (pde (mem s) d va) / 4096 < npages s ->
  (pd ← kload32 (KERNBASE + d + 4 * PDX va);
   kva ← KADDR (PTE_ADDR pd);
   mret (Some (kva + 4 * PTX va))) s = Ok (Some (KERNBASE + pte_addr (mem s) d va)) s.
Proof.
  intros Hd Hn Hp. pose proof (PDX_range va). pose proof (PTE_ADDR_range (pde (mem s) d va)).
  replace (KERNBASE + d + 4 * PDX va) with (KERNBASE + (d + 4 * PDX va)) by lia.
  kstep (kload32_run s (d + 4 * PDX va) ltac:(lia)). fold (pde (mem s) d va).
  pose proof (PTE_ADDR_aligned (pde (mem s) d va)).
  assert (0 <= PTE_ADDR (pde (mem s) d va) < npages s * 4096) as Hr by zlia.
  kstep (KADDR_run s (PTE_ADDR (pde (mem s) d va)) Hr ltac:(lia)).
  unfold pte_addr. by rewrite Z.add_assoc.
Qed.

Lemma pgdir_walk_present s l d va c :
  pages_wf s l -> pgdir_wf s l d -> present (pde (mem s) d va) = true ->
  pgdir_walk (KERNBASE + d) va c s = Ok (Some (KERNBASE + pte_addr (mem s) d va)) s.
Proof.
  intros Hw Hd Hp. pose proof (PDX_range va). pose proof (dw_range _ _ _ Hd).
  destruct (dw_table _ _ _ Hd (PDX va) ltac:(auto with jos) Hp) as [Ht _].
  unfold pgdir_walk.
  assert (kload32 (KERNBASE + d + 4 * PDX va) s = Ok (pde (mem s) d va) s) as E.
  { replace (KERNBASE + d + 4 * PDX va) with (KERNBASE + (d + 4 * PDX va)) by lia.
    apply kload32_run. lia. }
  kstep E. rewrite Hp. simpl negb. cbv iota. ksteps.
  apply walk_tail; [lia|apply (wf_npages _ _ Hw)|done].
Qed.

Lemma pgdir_walk_absent s l d va :
  pgdir_wf s l d -> present (pde (mem s) d va) = false ->
  pgdir_walk (KERNBASE + d) va 0 s = Ok None s.
Proof.
  intros Hd Hp. pose proof (PDX_range va). pose proof (dw_range _ _ _ Hd). unfold pgdir_walk.
  assert (kload32 (KERNBASE + d + 4 * PDX va) s = Ok (pde (mem s) d va) s) as E.
  { replace (KERNBASE + d + 4 * PDX va) with (KERNBASE + (d + 4 * PDX va)) by lia.
    apply kload32_run. lia. }
  kstep E. by rewrite Hp.
Qed.

(** The state after the walk has allocated page [p] for the missing table. *)
Definition table_state (p : Z) (l : list Z) (d va : Z) (s : kstate) : kstate :=
  set_mem (store32 (memset (mem s) (p * 4096) 0 PGSIZE) (slot d (PDX va)) (Z.lor (p * 4096) 7))
    (with_ref p 1 (popped p l s)).

Lemma pgdir_walk_create s p l d va :
  pages_wf s (p :: l) -> pgdir_wf s (p :: l) d -> present (pde (mem s) d va) = false ->
  pgdir_walk (KERNBASE + d) va 1 s =
    Ok (Some (KERNBASE + p * 4096 + 4 * PTX va)) (table_state p l d va s).
Proof.
  intros Hw Hd Hp. pose proof (PDX_range va). pose proof (dw_range _ _ _ Hd).
  pose proof (pages_wf_range _ _ p Hw ltac:(apply list_elem_of_here)) as Hr.
  pose proof (wf_npages _ _ Hw) as Hn. unfold MAXPAGES in Hn.
  unfold pgdir_walk.
  assert (forall t, kload32 (KERNBASE + d + 4 * PDX va) t = Ok (load32 (mem t) (slot d (PDX va))) t)
    as Eld.
  { intros t. replace (KERNBASE + d + 4 * PDX va) with (KERNBASE + (d + 4 * PDX va)) by lia.
    apply kload32_run. unfold slot. lia. }
  kstep (Eld s). change (load32 (mem s) (slot d (PDX va))) with (pde (mem s) d va). rewrite Hp.
  simpl negb. cbv iota. change (1 =? 0) with false. cbv iota. ksteps.
  kstep (page_alloc_cons 1 s p l Hw). change (ctrue (Z.land 1 ALLOC_ZERO)) with true. cbv iota.
  ksteps. set (s1 := set_mem _ _).
  assert (pages s1 !! p = Some (mkPageInfo None 0)) as Hp1
    by (unfold s1; simpl; by rewrite lookup_insert_eq).
  kstep (page_incref_run s1 p _ Hp1). simpl pp_ref. change (u16 (0 + 1)) with 1. ksteps.
  rewrite page2pa_mul by lia.
  assert (Z.lor (Z.lor (Z.lor (p * 4096) PTE_P) PTE_U) PTE_W = Z.lor (p * 4096) 7) as ->
    by (rewrite <- !Z.lor_assoc; done).
  replace (KERNBASE + d + 4 * PDX va) with (KERNBASE + slot d (PDX va)) by (unfold slot; lia).
  kstep (kstore32_run (with_ref p 1 s1) (slot d (PDX va)) (Z.lor (p * 4096) 7)
    ltac:(unfold slot; lia)). ksteps.
  replace (KERNBASE + slot d (PDX va)) with (KERNBASE + d + 4 * PDX va) by (unfold slot; lia).
  fold (table_state p l d va s).
  assert (pde (mem (table_state p l d va s)) d va = Z.lor (p * 4096) 7) as Epde.
  { unfold pde, table_state. simpl. fold (slot d (PDX va)).
    rewrite load32_store32_eq. apply u32_small_flags; lia. }
  assert (PTE_ADDR (Z.lor (p * 4096) 7) = p * 4096) as Epa by (apply PTE_ADDR_lor; zlia).
  pose proof (walk_tail (table_state p l d va s) d va ltac:(lia)) as Hw'.
  rewrite Epde, Epa in Hw'. unfold pte_addr in Hw'. rewrite Epde, Epa in Hw'.
  change (npages (table_state p l d va s)) with (npages s) in Hw'.
  etransitivity; [exact (Hw' ltac:(unfold MAXPAGES; lia) ltac:(zlia))|].
  by rewrite Z.add_assoc.
Qed.

Lemma pgdir_walk_nomem s d va :
  pages_wf s [] -> pgdir_wf s [] d -> present (pde (mem s) d va) = false ->
  pgdir_walk (KERNBASE + d) va 1 s =
    Ok None (set_log (Cprintf "page_alloc() failed, out of mempry!" [] :: log s) s).
Proof.
  intros Hw Hd Hp. pose proof (PDX_range va). pose proof (dw_range _ _ _ Hd). unfold pgdir_walk.
  assert (kload32 (KERNBASE + d + 4 * PDX va) s = Ok (pde (mem s) d va) s) as E.
  { replace (KERNBASE + d + 4 * PDX va) with (KERNBASE + (d + 4 * PDX va)) by lia.
    apply kload32_run. lia. }
  kstep E. rewrite Hp. simpl negb. cbv iota. change (1 =? 0) with false. cbv iota. ksteps.
  kstep (page_alloc_nil 1 s Hw). by ksteps.
Qed.

(** What a walk that may allocate a table leaves: the same mappings, the
    invariants for the rest of the free list, and all else unchanged outside the
    directory's entry for [va] and the page taken from the list. *)
Record walked (s : kstate) (l : list Z) (d va : Z) (s' : kstate) (l' : list Z) : Prop := {
  wk_same : same_else s s';
  wk_pages : pages_wf s' l';
  wk_dir : pgdir_wf s' l' d;
  wk_present : present (pde (mem s') d va) = true;
  wk_map : forall va', PDX va' <> PDX UVPT -> mapping (mem s') d va' = mapping (mem s) d va';
  wk_list : (l' = l /\ s' = s) \/ exists p, l = p :: l' /\ PTE_ADDR (pde (mem s') d va) = p * 4096;
  wk_refs : forall q, q ∈ l' \/ q ∉ l -> pages s' !! q = pages s !! q;
  wk_slots : forall i, 0 <= i < 1024 -> i <> PDX va ->
    load32 (mem s') (slot d i) = load32 (mem s) (slot d i);
  wk_mem : forall x, x / 4096 ∈ l' \/ x / 4096 ∉ l -> x / 4096 <> d / 4096 ->
    load8 (mem s') x = load8 (mem s) x;
  wk_flags : pde (mem s') d va = pde (mem s) d va \/ Z.land (pde (mem s') d va) 7 = 7;
  wk_keep : present (pde (mem s) d va) = true -> l' = l /\ s' = s;
  wk_entry : forall va', PDX va' <> PDX UVPT -> entry_ok s d va' -> entry_ok s' d va';
  wk_new : forall p, p ∈ l -> p ∉ l' -> ref_of s' p = 1;
}.

Lemma pde_slot m d va : pde m d va = load32 m (slot d (PDX va)).
Proof. done. Qed.
Lemma pte_slot m d va : pte m d va = load32 m (slot (PTE_ADDR (pde m d va)) (PTX va)).
Proof. done. Qed.

Lemma walked_present s l d va :
  pages_wf s l -> pgdir_wf s l d -> present (pde (mem s) d va) = true -> walked s l d va s l.
Proof. intros. split; try done; by left. Qed.

(** A directory entry after the table page [p] has been put in. *)
Lemma table_state_slot s p l d va i :
  pages_wf s (p :: l) -> pgdir_wf s (p :: l) d -> 0 <= i < 1024 ->
  load32 (mem (table_state p l d va s)) (slot d i) =
    if decide (i = PDX va) then Z.lor (p * 4096) 7 else load32 (mem s) (slot d i).
Proof.
  intros Hw Hd Hi. pose proof (dw_aligned _ _ _ Hd) as Ha. pose proof (dw_used _ _ _ Hd) as Hu.
  pose proof (pages_wf_range _ _ p Hw ltac:(apply list_elem_of_here)) as Hr.
  pose proof (wf_npages _ _ Hw) as Hn. unfold MAXPAGES in Hn.
  simpl. rewrite load_slot_store by (auto with jos).
  destruct (decide (i = PDX va)) as [->|Hne].
  - rewrite decide_True by done. apply u32_small_flags; lia.
  - rewrite decide_False by naive_solver.
    rewrite load_slot_zeroed by (done || zlia).
    rewrite decide_False; [done|]. intros <-. apply Hu.
    rewrite Z.div_mul by lia. apply list_elem_of_here.
Qed.

Lemma table_state_wf s p l d va :
  pages_wf s (p :: l) -> pgdir_wf s (p :: l) d -> present (pde (mem s) d va) = false ->
  pgdir_wf (table_state p l d va s) l d.
Proof.
  intros Hw Hd Hp. pose proof (dw_used _ _ _ Hd) as Hu. rewrite not_elem_of_cons in Hu.
  pose proof (pages_wf_range _ _ p Hw ltac:(apply list_elem_of_here)) as Hr.
  pose proof (wf_npages _ _ Hw) as Hn. unfold MAXPAGES in Hn.
  pose proof (wf_nodup _ _ Hw) as Hnd. apply list.NoDup_cons in Hnd as [Hpl _].
  pose proof (dw_aligned _ _ _ Hd) as Ha.
  assert (PTE_ADDR (Z.lor (p * 4096) 7) = p * 4096) as Epa by (apply PTE_ADDR_lor; zlia).
  assert (forall i, 0 <= i < 1024 -> present (load32 (mem s) (slot d i)) = true ->
    PTE_ADDR (load32 (mem s) (slot d i)) <> p * 4096) as Hold.
  { intros i Hi Hpr E. destruct (dw_table _ _ _ Hd i Hi Hpr) as [_ Ht].
    apply Ht. rewrite E, Z.div_mul by lia. apply list_elem_of_here. }
  split; try (apply Hd); try tauto.
  - intros i Hi. rewrite table_state_slot by done. case_decide as E.
    + intros _. rewrite Epa, Z.div_mul by lia. simpl. split; [lia|done].
    + intros Hpr. destruct (dw_table _ _ _ Hd i Hi Hpr) as [Ht1 Ht2].
      rewrite not_elem_of_cons in Ht2. simpl. tauto.
  - intros i Hi Hne. rewrite table_state_slot by done. case_decide as E.
    + intros _. rewrite Epa. intros <-. apply (proj1 Hu). by rewrite Z.div_mul by lia.
    + by apply (dw_self _ _ _ Hd).
  - intros i j Hi Hj Hiu Hju Hij. rewrite !table_state_slot by done.
    repeat case_decide; subst; try done.
    + intros _ Hpr. rewrite Epa. intros E. by apply (Hold j Hj Hpr).
    + intros Hpr _. rewrite Epa. by apply Hold.
    + by apply (dw_distinct _ _ _ Hd).
Qed.

Lemma table_state_raw s p l d va va' :
  pages_wf s (p :: l) -> pgdir_wf s (p :: l) d -> present (pde (mem s) d va) = false ->
  PDX va' <> PDX UVPT ->
  raw (mem (table_state p l d va s)) d va' = raw (mem s) d va'.
Proof.
  intros Hw Hd Hp Hv. pose proof (dw_used _ _ _ Hd) as Hu. rewrite not_elem_of_cons in Hu.
  pose proof (pages_wf_range _ _ p Hw ltac:(apply list_elem_of_here)) as Hr.
  pose proof (wf_npages _ _ Hw) as Hn. unfold MAXPAGES in Hn.
  pose proof (dw_aligned _ _ _ Hd) as Ha.
  assert (PTE_ADDR (Z.lor (p * 4096) 7) = p * 4096) as Epa by (apply PTE_ADDR_lor; zlia).
  assert (p * 4096 <> d) as Hpd by (intros <-; apply (proj1 Hu); by rewrite Z.div_mul by lia).
  unfold raw. rewrite !pte_slot, !pde_slot, table_state_slot by (auto with jos).
  destruct (decide (PDX va' = PDX va)) as [E|E].
  - rewrite pde_slot in Hp. rewrite E, Hp. assert (present (Z.lor (p * 4096) 7) = true) as ->.
    { unfold present. rewrite land_flags_lor by (lia || zlia || done). done. }
    rewrite Epa. simpl.
    rewrite load_slot_store by (zlia || auto with jos). rewrite decide_False by naive_solver.
    rewrite load_slot_zeroed by (zlia || auto with jos). by rewrite decide_True.
  - destruct (present (load32 (mem s) (slot d (PDX va')))) eqn:Epr; [|done]. simpl.
    pose proof (dw_self _ _ _ Hd (PDX va') ltac:(auto with jos) Hv Epr) as Hself.
    destruct (dw_table _ _ _ Hd (PDX va') ltac:(auto with jos) Epr) as [_ Hft].
    rewrite not_elem_of_cons in Hft.
    rewrite load_slot_store by (auto with jos). rewrite decide_False by naive_solver.
    rewrite load_slot_zeroed by (zlia || auto with jos). rewrite decide_False; [done|].
    intros Ef. apply (proj1 Hft). rewrite <- Ef. by rewrite Z.div_mul by lia.
Qed.

Lemma table_state_mapping s p l d va va' :
  pages_wf s (p :: l) -> pgdir_wf s (p :: l) d -> present (pde (mem s) d va) = false ->
  PDX va' <> PDX UVPT ->
  mapping (mem (table_state p l d va s)) d va' = mapping (mem s) d va'.
Proof. intros Hw Hd Hp Hv. by rewrite !mapping_raw, table_state_raw. Qed.

Lemma walked_create s p l d va :
  pages_wf s (p :: l) -> pgdir_wf s (p :: l) d -> present (pde (mem s) d va) = false ->
  walked s (p :: l) d va (table_state p l d va s) l.
Proof.
  intros Hw Hd Hp.
  pose proof (pages_wf_range _ _ p Hw ltac:(apply list_elem_of_here)) as Hr.
  pose proof (wf_npages _ _ Hw) as Hn. unfold MAXPAGES in Hn.
  pose proof (wf_nodup _ _ Hw) as Hnd. apply list.NoDup_cons in Hnd as [Hpl _].
  assert (PTE_ADDR (Z.lor (p * 4096) 7) = p * 4096) as Epa by (apply PTE_ADDR_lor; zlia).
  assert (pde (mem (table_state p l d va s)) d va = Z.lor (p * 4096) 7) as Epde.
  { rewrite pde_slot, table_state_slot by (auto with jos). by rewrite decide_True. }
  split.
  - unfold same_else. done.
  - eapply (pages_wf_ext (with_ref p 1 (popped p l s))); [|done..].
    apply with_ref_wf; [by apply popped_wf|done].
  - by apply table_state_wf.
  - rewrite Epde. unfold present. rewrite land_flags_lor by (lia || zlia || done). done.
  - intros. by apply table_state_mapping.
  - right. exists p. split; [done|]. by rewrite Epde.
  - intros q Hq. simpl. assert (p <> q).
    { intros ->. destruct Hq as [Hq|Hq]; [done|]. apply Hq, list_elem_of_here. }
    by rewrite lookup_alter_ne, lookup_insert_ne.
  - intros i Hi Hne. rewrite table_state_slot by done. by rewrite decide_False.
  - intros x Hx Hxd. simpl. rewrite load8_store32. pose proof (PDX_range va).
    pose proof (dw_aligned _ _ _ Hd). unfold slot.
    rewrite !decide_False by (intros ->; apply Hxd; zlia).
    rewrite memset_filled, decide_False; [done| |unfold PGSIZE; lia].
    intros Hb. assert (x / 4096 = p) as E by (unfold PGSIZE in Hb; zlia). rewrite E in Hx.
    destruct Hx as [Hx|Hx]; [done|]. apply Hx, list_elem_of_here.
  - right. rewrite Epde. rewrite land_flags_lor by (lia || zlia || done). done.
  - intros Hp'. congruence.
  - intros va' Hv'. unfold entry_ok. by rewrite table_state_raw.
  - intros q Hq Hql. apply elem_of_cons in Hq as [-> |Hq]; [|done]. unfold ref_of. simpl.
    by rewrite lookup_alter_eq, lookup_insert_eq.
Qed.

(** The walk that creates: it succeeds unless it needs a page and there is none. *)
Lemma pgdir_walk_spec s l d va :
  pages_wf s l -> pgdir_wf s l d -> present (pde (mem s) d va) = true \/ l <> [] ->
  exists s' l', pgdir_walk (KERNBASE + d) va 1 s =
      Ok (Some (KERNBASE + pte_addr (mem s') d va)) s' /\ walked s l d va s' l'.
Proof.
  intros Hw Hd H. destruct (present (pde (mem s) d va)) eqn:Hp.
  - exists s, l. split; [by eapply pgdir_walk_present|]. by apply walked_present.
  - destruct l as [|p l]; [by destruct H|]. exists (table_state p l d va s), l.
    split; [|by apply walked_create].
    rewrite (pgdir_walk_create s p l d va Hw Hd Hp). do 2 f_equal.
    pose proof (pages_wf_range _ _ p Hw ltac:(apply list_elem_of_here)) as Hr.
    pose proof (wf_npages _ _ Hw) as Hn. unfold MAXPAGES in Hn.
    unfold pte_addr. rewrite pde_slot, table_state_slot by (auto with jos).
    rewrite decide_True by done. rewrite PTE_ADDR_lor by zlia. lia.
Qed.

(** ** Writing entries *)

Lemma PTE_ADDR_or x f : 0 <= x < 0x100000000 -> 0 <= f < 4096 ->
  PTE_ADDR (Z.lor x f) = PTE_ADDR x.
Proof.
  intros Hx Hf.
  assert (forall y, 0 <= y < 0x100000000 -> PTE_ADDR y = Z.land y (Z.lnot (Z.ones 12))) as E.
  { intros y Hy. rewrite PTE_ADDR_div, u32_small by done. by rewrite land_high. }
  rewrite !E by (done || (apply (lor_range x f 32); lia)).
  rewrite Z.land_lor_distr_l, (land_high f), (Z.div_small f) by lia. apply Z.lor_0_r.
Qed.

Lemma present_or x f : present x = true -> present (Z.lor x f) = true.
Proof.
  unfold present. rewrite !ctrue_true, Z.land_lor_distr_l. intros H E.
  apply H. by apply Z.lor_eq_0_l in E.
Qed.

(** The invariant survives changes that keep the entries' frames and free no table. *)
Lemma pgdir_wf_mono s s' l l' d :
  pgdir_wf s l d -> npages s' = npages s ->
  (forall i, 0 <= i < 1024 ->
     present (load32 (mem s') (slot d i)) = present (load32 (mem s) (slot d i)) /\
     PTE_ADDR (load32 (mem s') (slot d i)) = PTE_ADDR (load32 (mem s) (slot d i))) ->
  (forall p, p ∈ l' -> p ∈ l \/ ~ is_table s d p) ->
  pgdir_wf s' l' d.
Proof.
  intros Hd En He Hl. pose proof (dw_aligned _ _ _ Hd) as Ha.
  split; rewrite ?En; try apply Hd.
  - intros Hin. destruct (Hl _ Hin) as [H|H]; [by apply (dw_used _ _ _ Hd)|].
    apply H. left. zlia.
  - intros i Hi. destruct (He i Hi) as [-> ->]. intros Hp.
    destruct (dw_table _ _ _ Hd i Hi Hp) as [H1 H2]. split; [done|].
    intros Hin. destruct (Hl _ Hin) as [H|H]; [done|]. apply H. right. exists i.
    split; [done|]. split; [done|]. pose proof (PTE_ADDR_aligned (load32 (mem s) (slot d i))). zlia.
  - intros i Hi Hu. destruct (He i Hi) as [-> ->]. by apply (dw_self _ _ _ Hd).
  - intros i j Hi Hj Hiu Hju Hij. destruct (He i Hi) as [-> ->], (He j Hj) as [-> ->].
    by apply (dw_distinct _ _ _ Hd).
Qed.

(** The table entry for [va] holds [v]. *)
Lemma pte_write_raw s l d va v :
  pgdir_wf s l d -> PDX va <> PDX UVPT -> present (pde (mem s) d va) = true ->
  0 <= v < 0x100000000 ->
  let s' := set_mem (store32 (mem s) (pte_addr (mem s) d va) v) s in
  pgdir_wf s' l d /\
  (forall i, 0 <= i < 1024 -> load32 (mem s') (slot d i) = load32 (mem s) (slot d i)) /\
  (forall va', PDX va' <> PDX UVPT -> raw (mem s') d va' =
     if decide (PGNUM va' = PGNUM va) then v else raw (mem s) d va').
Proof.
  intros Hd Hv Hp Hvr s'. pose proof (dw_aligned _ _ _ Hd) as Ha.
  pose proof (dw_self _ _ _ Hd (PDX va) ltac:(auto with jos) Hv Hp) as Hself.
  change (pte_addr (mem s) d va) with (slot (PTE_ADDR (pde (mem s) d va)) (PTX va)) in s'.
  assert (forall i, 0 <= i < 1024 -> load32 (mem s') (slot d i) = load32 (mem s) (slot d i)) as Hs.
  { intros i Hi. simpl. rewrite load_slot_store by (auto with jos).
    rewrite decide_False; [done|]. rewrite pde_slot. naive_solver. }
  split; [|split; [done|]].
  - eapply pgdir_wf_mono; [done|done| |by left]. intros i Hi. by rewrite Hs.
  - intros va' Hv'. unfold raw. rewrite !pte_slot, !pde_slot, !Hs by (auto with jos).
    simpl mem. rewrite load_slot_store by (auto with jos). rewrite pde_slot in Hp |- *.
    pose proof (same_page_indexes va' va) as Hsp.
    destruct (decide (PGNUM va' = PGNUM va)) as [Epg|Epg].
    + destruct (proj1 Hsp Epg) as [Ed Et]. rewrite Ed, Et, Hp, decide_True by done.
      by rewrite u32_small.
    + destruct (present (load32 (mem s) (slot d (PDX va')))) eqn:Ep; [|done]. simpl.
      rewrite decide_False; [done|]. intros [Ef Et]. apply Epg, Hsp. split; [|done].
      destruct (decide (PDX va' = PDX va)) as [|Ed]; [done|].
      by destruct (dw_distinct _ _ _ Hd (PDX va') (PDX va) ltac:(auto with jos)
        ltac:(auto with jos) Hv' Hv Ed Ep Hp).
Qed.

Lemma pte_write s l d va v :
  pgdir_wf s l d -> PDX va <> PDX UVPT -> present (pde (mem s) d va) = true ->
  0 <= v < 0x100000000 ->
  let s' := set_mem (store32 (mem s) (pte_addr (mem s) d va) v) s in
  pgdir_wf s' l d /\
  (forall i, 0 <= i < 1024 -> load32 (mem s') (slot d i) = load32 (mem s) (slot d i)) /\
  (forall va', PDX va' <> PDX UVPT -> mapping (mem s') d va' =
     if decide (PGNUM va' = PGNUM va) then (if present v then Some v else None)
     else mapping (mem s) d va').
Proof.
  intros Hd Hv Hp Hvr s'. destruct (pte_write_raw s l d va v Hd Hv Hp Hvr) as (H1 & H2 & H3).
  split; [done|]. split; [done|]. intros va' Hv'. rewrite !mapping_raw, H3 by done. by case_decide.
Qed.

Lemma pte_write_entry s l d va v va' :
  pgdir_wf s l d -> PDX va <> PDX UVPT -> present (pde (mem s) d va) = true ->
  0 <= v < 0x100000000 -> (v <> 0 -> present v = true) -> PDX va' <> PDX UVPT -> entry_ok s d va' ->
  entry_ok (set_mem (store32 (mem s) (pte_addr (mem s) d va) v) s) d va'.
Proof.
  intros Hd Hv Hp Hvr Hvp Hv' He. destruct (pte_write_raw s l d va v Hd Hv Hp Hvr) as (_ & _ & H).
  unfold entry_ok. rewrite H by done. by case_decide.
Qed.

(** Permission bits are added to the directory entry for [va]. *)
Lemma pde_or s l d va perm :
  pgdir_wf s l d -> PDX va <> PDX UVPT -> present (pde (mem s) d va) = true -> 0 <= perm < 4096 ->
  let s' := set_mem (store32 (mem s) (d + 4 * PDX va) (Z.lor (pde (mem s) d va) perm)) s in
  pgdir_wf s' l d /\ pde (mem s') d va = Z.lor (pde (mem s) d va) perm /\
  (forall i, 0 <= i < 1024 -> i <> PDX va -> load32 (mem s') (slot d i) = load32 (mem s) (slot d i)) /\
  (forall va', PDX va' <> PDX UVPT -> raw (mem s') d va' = raw (mem s) d va').
Proof.
  intros Hd Hv Hp Hperm s'. pose proof (dw_aligned _ _ _ Hd) as Ha.
  change (d + 4 * PDX va) with (slot d (PDX va)) in s'.
  pose proof (load32_range (mem s) (slot d (PDX va))) as Hr.
  assert (forall i, 0 <= i < 1024 -> load32 (mem s') (slot d i) =
    if decide (i = PDX va) then Z.lor (pde (mem s) d va) perm
    else load32 (mem s) (slot d i)) as Hs.
  { intros i Hi. simpl. rewrite load_slot_store by (auto with jos).
    destruct (decide (i = PDX va)) as [->|?].
    - rewrite decide_True by done. rewrite pde_slot. apply u32_small_flags; lia.
    - rewrite decide_False by naive_solver. done. }
  split; [|split; [|split]].
  - eapply pgdir_wf_mono; [done|done| |by left]. intros i Hi. rewrite Hs by done.
    case_decide; [|done]. subst i. rewrite pde_slot in *. split.
    + rewrite Hp. by apply present_or.
    + apply PTE_ADDR_or; lia.
  - rewrite (pde_slot (mem s')), Hs by (auto with jos). by rewrite decide_True.
  - intros i Hi Hne. by rewrite Hs, decide_False.
  - intros va' Hv'. unfold raw. rewrite !pte_slot, !pde_slot, !Hs by (auto with jos).
    destruct (decide (PDX va' = PDX va)) as [E|E].
    + rewrite E. rewrite pde_slot in *. rewrite PTE_ADDR_or, present_or, Hp by (done || lia).
      simpl mem. rewrite load_slot_store by (auto with jos).
      pose proof (dw_self _ _ _ Hd (PDX va) ltac:(auto with jos) Hv Hp).
      rewrite decide_False by naive_solver. done.
    + destruct (present (load32 (mem s) (slot d (PDX va')))) eqn:Ep; [|done]. simpl.
      pose proof (dw_self _ _ _ Hd (PDX va') ltac:(auto with jos) Hv' Ep).
      rewrite load_slot_store by (auto with jos). rewrite decide_False by naive_solver. done.
Qed.

(** ** page_lookup *)

Lemma pa2page_run s pa :
  0 <= pa < npages s * 4096 -> npages s <= MAXPAGES -> pa2page pa s = Ok (pa / 4096) s.
Proof.
  unfold MAXPAGES. intros Hp Hn. unfold pa2page. ksteps. rewrite PGNUM_div, u32_small by lia.
  case_if; [rewrite Z.geb_leb in Eb; bcomp; zlia|]. done.
Qed.

Lemma pte_addr_nonneg m d va : 0 <= pte_addr m d va.
Proof. unfold pte_addr. pose proof (PTX_range va). pose proof (PTE_ADDR_range (pde m d va)). lia. Qed.

(** page_lookup on every branch: the table is missing, the entry is 0, or the
    entry names a page. *)
Lemma page_lookup_run s l d va :
  pages_wf s l -> pgdir_wf s l d ->
  (present (pde (mem s) d va) = true -> pte (mem s) d va <> 0 ->
   PTE_ADDR (pte (mem s) d va) / 4096 < npages s) ->
  page_lookup (KERNBASE + d) va s =
    Ok (if present (pde (mem s) d va) && negb (pte (mem s) d va =? 0)
        then Some (PTE_ADDR (pte (mem s) d va) / 4096, KERNBASE + pte_addr (mem s) d va)
        else None) s.
Proof.
  intros Hw Hd Hr. unfold page_lookup. pose proof (wf_npages _ _ Hw) as Hn.
  destruct (present (pde (mem s) d va)) eqn:Hp; simpl.
  - kstep (pgdir_walk_present s l d va 0 Hw Hd Hp). pose proof (pte_addr_nonneg (mem s) d va).
    kstep (kload32_run s (pte_addr (mem s) d va) ltac:(lia)). fold (pte (mem s) d va).
    destruct (pte (mem s) d va =? 0) eqn:E; bcomp; [done|].
    change (ctrue (Z.land 0 PTE_P)) with false. cbv iota.
    pose proof (PTE_ADDR_range (pte (mem s) d va)).
    assert (0 <= PTE_ADDR (pte (mem s) d va) < npages s * 4096) as Hb
      by (specialize (Hr eq_refl E); zlia).
    kstep (pa2page_run s _ Hb ltac:(lia)). done.
  - by kstep (pgdir_walk_absent s l d va Hd Hp).
Qed.

(** A mapped address: the entry's page is a page of the machine. *)
Lemma page_lookup_mapped s l d va e :
  pages_wf s l -> pgdir_wf s l d -> mapping (mem s) d va = Some e ->
  PTE_ADDR e / 4096 < npages s ->
  page_lookup (KERNBASE + d) va s =
    Ok (Some (PTE_ADDR e / 4096, KERNBASE + pte_addr (mem s) d va)) s.
Proof.
  intros Hw Hd Hm Hr. unfold mapping in Hm.
  destruct (present (pde (mem s) d va)) eqn:Hp; [|done].
  destruct (present (pte (mem s) d va)) eqn:Hq; [|done]. simpl in Hm. simplify_eq.
  rewrite (page_lookup_run s l d va Hw Hd) by done. rewrite Hp.
  destruct (pte (mem s) d va =? 0) eqn:E; [|done]. bcomp. by rewrite E in Hq.
Qed.

(** ** tlb_invalidate *)

(** The executing CPU and the environment it runs exist. *)
Definition cpu_ok (s : kstate) : Prop :=
  exists c, cpus s !! cpunum s = Some c /\
    match cpu_env c with Some e => is_Some (envs s !! e) | None => True end.

Lemma cpu_ok_same s s' : same_else s s' -> cpu_ok s -> cpu_ok s'.
Proof. intros ->. done. Qed.

(** Whether [pgdir] may be cached by this CPU. *)
Definition tlb_current (s : kstate) (pgdir : Z) : bool :=
  match cpus s !! cpunum s with
  | Some c => match cpu_env c with
              | Some e => match envs s !! e with
                          | Some v => env_pgdir v =? pgdir
                          | None => false
                          end
              | None => true
              end
  | None => false
  end.

Definition invalidated (s : kstate) (pgdir va : Z) : kstate :=
  if tlb_current s pgdir then set_log (Invlpg va :: log s) s else s.

Lemma tlb_invalidate_run s pgdir va :
  cpu_ok s -> tlb_invalidate pgdir va s = Ok tt (invalidated s pgdir va).
Proof.
  intros (c & Hc & He). unfold tlb_invalidate, curenv, invalidated, tlb_current.
  assert (thiscpu s = Ok c s) as E by (unfold thiscpu; by rewrite Hc).
  rewrite bind_assoc. kstep E. rewrite Hc. ksteps.
  destruct (cpu_env c) as [e|]; [|done]. destruct He as [v Hv]. rewrite Hv.
  assert (get_env e s = Ok v s) as E' by (unfold get_env; by rewrite Hv).
  kstep E'. unfold kwhen. by destruct (env_pgdir v =? pgdir).
Qed.

Lemma invalidated_same s pgdir va :
  same_else s (invalidated s pgdir va) /\ mem (invalidated s pgdir va) = mem s /\
  pages (invalidated s pgdir va) = pages s /\
  page_free_list (invalidated s pgdir va) = page_free_list s.
Proof. unfold invalidated, same_else. by destruct (tlb_current s pgdir), s. Qed.

(** ** page_remove *)

Lemma decref_state_same p r l s :
  same_else s (decref_state p r l s) /\ mem (decref_state p r l s) = mem s.
Proof. unfold decref_state, same_else. by case_if; destruct s. Qed.

(** What page_remove leaves for a page [q] mapped at [va]. *)
Record removed (s : kstate) (l : list Z) (d va q : Z) (s' : kstate) (l' : list Z) : Prop := {
  rm_same : same_else s s';
  rm_pages : pages_wf s' l';
  rm_dir : pgdir_wf s' l' d;
  rm_list : l' = if ref_of s q =? 1 then q :: l else l;
  rm_map : forall va', PDX va' <> PDX UVPT -> mapping (mem s') d va' =
    if decide (PGNUM va' = PGNUM va) then None else mapping (mem s) d va';
  rm_ref : ref_of s' q = ref_of s q - 1;
  rm_refs : forall p, p <> q -> pages s' !! p = pages s !! p;
  rm_slots : forall i, 0 <= i < 1024 -> load32 (mem s') (slot d i) = load32 (mem s) (slot d i);
  rm_tlb : tlb_current s (KERNBASE + d) = true -> head (log s') = Some (Invlpg va);
  rm_mem : forall x, ~ is_table s d (x / 4096) -> load8 (mem s') x = load8 (mem s) x;
  rm_entry : forall va', PDX va' <> PDX UVPT -> entry_ok s d va' -> entry_ok s' d va';
}.

(** A store to the table entry for [va] touches only the table. *)
Lemma table_store_mem s d va v x :
  present (pde (mem s) d va) = true -> ~ is_table s d (x / 4096) ->
  load8 (store32 (mem s) (pte_addr (mem s) d va) v) x = load8 (mem s) x.
Proof.
  intros Hp Hx. rewrite load8_store32. pose proof (PTX_range va).
  pose proof (PTE_ADDR_aligned (pde (mem s) d va)) as Ha.
  assert (x / 4096 <> PTE_ADDR (pde (mem s) d va) / 4096) as Hne.
  { intros E. apply Hx. right. exists (PDX va). split; [auto with jos|]. rewrite <- pde_slot.
    split; [done|]. rewrite E. zlia. }
  unfold pte_addr in *. rewrite !decide_False by (intros ->; apply Hne; zlia). done.
Qed.

Lemma page_remove_mapped s l d va e :
  pages_wf s l -> pgdir_wf s l d -> cpu_ok s -> PDX va <> PDX UVPT ->
  mapping (mem s) d va = Some e ->
  PTE_ADDR e / 4096 < npages s -> PTE_ADDR e / 4096 ∉ l -> ~ is_table s d (PTE_ADDR e / 4096) ->
  1 <= ref_of s (PTE_ADDR e / 4096) < 65536 ->
  exists s' l', page_remove (KERNBASE + d) va s = Ok tt s' /\
    removed s l d va (PTE_ADDR e / 4096) s' l'.
Proof.
  intros Hw Hd Hc Hv Hm Hn Hl Ht Href. set (q := PTE_ADDR e / 4096) in *.
  assert (0 <= q) as Hq0 by (pose proof (PTE_ADDR_range e); unfold q; zlia).
  destruct (proj2 (wf_dom _ _ Hw q) ltac:(lia)) as [qi Hqi].
  assert (ref_of s q = pp_ref qi) as Er by (unfold ref_of; by rewrite Hqi).
  destruct (page_decref_run s l q qi Hw Hqi Hl) as [Edec Hwdec].
  set (s1 := decref_state q (pp_ref qi) l s) in *.
  destruct (decref_state_same q (pp_ref qi) l s) as [Hs1 Hm1]. fold s1 in Hs1, Hm1.
  assert (u16 (pp_ref qi - 1) = pp_ref qi - 1) as Eu by (apply u16_small; lia).
  set (l' := decref_list q (pp_ref qi) l) in *.
  assert (l' = if ref_of s q =? 1 then q :: l else l) as El.
  { unfold l', decref_list. rewrite Eu, Er.
    destruct (pp_ref qi =? 1) eqn:E1; bcomp; case_if; lia || done. }
  assert (pgdir_wf s1 l' d) as Hd1.
  { eapply pgdir_wf_mono; [done|by apply same_else_npages|by rewrite Hm1|].
    intros p Hp. rewrite El in Hp. destruct (ref_of s q =? 1); [|by left].
    apply elem_of_cons in Hp as [->|Hp]; [by right|by left]. }
  assert (present (pde (mem s) d va) = true) as Hpd.
  { unfold mapping in Hm. by destruct (present (pde (mem s) d va)). }
  destruct (pte_write s1 l' d va 0 Hd1 Hv ltac:(by rewrite Hm1) ltac:(lia)) as (Hd2 & Hs2 & Hm2).
  rewrite Hm1 in Hd2, Hs2, Hm2. set (s2 := set_mem _ s1) in *.
  exists (invalidated s2 (KERNBASE + d) va), l'.
  destruct (invalidated_same s2 (KERNBASE + d) va) as (Hi & Him & Hip & Hif).
  split.
  - unfold page_remove. kstep (page_lookup_mapped s l d va e Hw Hd Hm Hn). fold q.
    kstep Edec. rewrite <- Hm1.
    kstep (kstore32_run s1 (pte_addr (mem s1) d va) 0 ltac:(apply pte_addr_nonneg)).
    rewrite Hm1. apply tlb_invalidate_run.
    eapply cpu_ok_same; [|done]. by unfold s2, same_else in *; rewrite Hs1.
  - assert (same_else s s2) as Hss2 by (unfold s2, same_else in *; by rewrite Hs1).
    split.
    + by etrans.
    + eapply (pages_wf_ext s1); [done|by rewrite (same_else_npages _ _ Hi)|done..].
    + eapply pgdir_wf_mono; [done|by rewrite (same_else_npages _ _ Hi)|by rewrite Him|by left].
    + done.
    + intros va' Hv'. rewrite Him, Hm2 by done. done.
    + unfold ref_of at 1. rewrite Hip. unfold s2. simpl. unfold s1, decref_state.
      rewrite Eu, Er. case_if; simpl.
      * rewrite lookup_insert_eq. simpl. lia.
      * by rewrite lookup_alter_eq, Hqi.
    + intros p Hp. rewrite Hip. unfold s2. simpl. unfold s1, decref_state.
      case_if; simpl; rewrite ?lookup_insert_ne, lookup_alter_ne by done; done.
    + intros i Hi'. by rewrite Him, Hs2.
    + intros Htlb. unfold invalidated.
      assert (tlb_current s2 (KERNBASE + d) = tlb_current s (KERNBASE + d)) as ->
        by (rewrite Hss2; done).
      by rewrite Htlb.
    + intros x Hx. rewrite Him. unfold s2. simpl. by apply table_store_mem.
    + intros va' Hv' He. unfold entry_ok. rewrite Him. unfold s2. rewrite <- Hm1.
      apply (pte_write_entry s1 l' d va 0 va'); try done; [by rewrite Hm1|]. unfold entry_ok. by rewrite Hm1.
Qed.

(** ** page_insert *)

(** The caller's side of page_insert: [pp] is an allocated page whose count does
    not overflow, and a page already mapped at [va] is an allocated page with at
    least that reference, and no page table. *)
Record insertable (s : kstate) (l : list Z) (d pp va perm : Z) : Prop := {
  in_va : PDX va <> PDX UVPT;
  in_perm : 0 <= perm < 4096;
  in_pp : 0 <= pp < npages s;
  in_used : (pp ∉ l);
  in_ref : 0 <= ref_of s pp < 65535;
  in_old : forall e, mapping (mem s) d va = Some e ->
    PTE_ADDR e / 4096 < npages s /\ (PTE_ADDR e / 4096 ∉ l) /\
    ~ is_table s d (PTE_ADDR e / 4096) /\ 1 <= ref_of s (PTE_ADDR e / 4096) < 65535;
}.

(** The number of references the old mapping of [va] gives page [p]. *)
Definition maps_to (m : memory) (d va p : Z) : Z :=
  match mapping m d va with
  | Some e => if PTE_ADDR e / 4096 =? p then 1 else 0
  | None => 0
  end.

(** The free list after page [pp] took the place of what [va] mapped: the old page
    is free again with its last reference. *)
Definition freed (s : kstate) (d va pp : Z) (l : list Z) : list Z :=
  match mapping (mem s) d va with
  | Some e =>
      let q := PTE_ADDR e / 4096 in
      if ref_of s q + (if q =? pp then 1 else 0) =? 1 then q :: l else l
  | None => l
  end.

(** What a successful page_insert leaves. *)
Record inserted (s : kstate) (l : list Z) (d pp va perm : Z) (s' : kstate) (l' : list Z)
    : Prop := {
  is_same : same_else s s';
  is_pages : pages_wf s' l';
  is_dir : pgdir_wf s' l' d;
  is_map : forall va', PDX va' <> PDX UVPT -> mapping (mem s') d va' =
    if decide (PGNUM va' = PGNUM va) then Some (Z.lor (Z.lor (pp * 4096) perm) PTE_P)
    else mapping (mem s) d va';
  is_pde : Z.land (pde (mem s') d va) perm = perm;
  is_refs : forall p, p ∉ l ->
    ref_of s' p = ref_of s p + (if p =? pp then 1 else 0) - maps_to (mem s) d va p;
  is_mem : forall x, (x / 4096 ∉ l) -> ~ is_table s d (x / 4096) ->
    load8 (mem s') x = load8 (mem s) x;
  is_list : exists l1, l' = freed s d va pp l1 /\
    (if present (pde (mem s) d va) then l1 = l else exists p, l = p :: l1);
  is_slots : forall i, 0 <= i < 1024 -> i <> PDX va ->
    load32 (mem s') (slot d i) = load32 (mem s) (slot d i);
  is_pde_or : present (pde (mem s) d va) = true -> pde (mem s') d va = Z.lor (pde (mem s) d va) perm;
  is_present : present (pde (mem s') d va) = true;
  is_tables : forall p, p ∉ l -> is_table s' d p -> is_table s d p;
  is_new : present (pde (mem s) d va) = false -> exists p, p ∈ l /\ PTE_ADDR (pde (mem s') d va) = p * 4096;
  is_entry : forall va', PDX va' <> PDX UVPT -> entry_ok s d va' -> entry_ok s' d va';
  is_new_ref : forall p, present (pde (mem s) d va) = false -> p ∈ l ->
    PTE_ADDR (pde (mem s') d va) = p * 4096 -> ref_of s' p = 1;
}.

Lemma ref_of_with_ref s p q r :
  is_Some (pages s !! p) -> ref_of (with_ref p r s) q = if q =? p then r else ref_of s q.
Proof.
  intros [pi Hp]. unfold ref_of. simpl. destruct (q =? p) eqn:E; bcomp.
  - subst. by rewrite lookup_alter_eq, Hp.
  - by rewrite lookup_alter_ne.
Qed.

Lemma is_table_slots s s' d p :
  (forall i, 0 <= i < 1024 -> load32 (mem s') (slot d i) = load32 (mem s) (slot d i)) ->
  is_table s' d p -> is_table s d p.
Proof.
  intros Hs [H|(i & Hi & Hp & Ha)]; [by left|]. rewrite !Hs in * by done. right. eauto.
Qed.

(** A table of the directory after the walk was one before, or was free. *)
Lemma walked_is_table s l d va s' l' p :
  walked s l d va s' l' -> p ∉ l -> is_table s' d p -> is_table s d p.
Proof.
  intros Hwk Hp [H|(i & Hi & Hpr & Ha)]; [by left|]. right.
  destruct (decide (i = PDX va)) as [->|Hne].
  - destruct (wk_list _ _ _ _ _ _ Hwk) as [[-> ->]|(q & -> & Hq)].
    + eauto.
    + exfalso. apply Hp. rewrite <- pde_slot in Ha. rewrite Hq in Ha.
      assert (q = p) as -> by lia. apply list_elem_of_here.
  - rewrite (wk_slots _ _ _ _ _ _ Hwk) in * by done. eauto.
Qed.

Lemma walked_sub s l d va s' l' p : walked s l d va s' l' -> p ∈ l' -> p ∈ l.
Proof.
  intros Hwk Hp. destruct (wk_list _ _ _ _ _ _ Hwk) as [[-> _]|(q & -> & _)]; [done|].
  by apply list_elem_of_further.
Qed.

(** The reference taken and the old page removed, before the new entry is written. *)
Lemma insert_prepare s l d pp va perm s1 l1 :
  insertable s l d pp va perm -> cpu_ok s -> walked s l d va s1 l1 ->
  let s2 := with_ref pp (ref_of s pp + 1) s1 in
  page_incref pp s1 = Ok tt s2 /\
  exists s3 l3,
    kwhen (present (pte (mem s1) d va)) (page_remove (KERNBASE + d) va) s2 = Ok tt s3 /\
    same_else s s3 /\ pages_wf s3 l3 /\ pgdir_wf s3 l3 d /\
    (forall i, 0 <= i < 1024 -> load32 (mem s3) (slot d i) = load32 (mem s1) (slot d i)) /\
    (forall va', PDX va' <> PDX UVPT -> PGNUM va' <> PGNUM va ->
       mapping (mem s3) d va' = mapping (mem s) d va') /\
    (forall p, p ∉ l ->
       ref_of s3 p = ref_of s p + (if p =? pp then 1 else 0) - maps_to (mem s) d va p) /\
    (forall x, ~ is_table s1 d (x / 4096) -> load8 (mem s3) x = load8 (mem s1) x) /\
    l3 = freed s d va pp l1 /\
    (forall va', PDX va' <> PDX UVPT -> entry_ok s d va' -> entry_ok s3 d va') /\
    (forall p, p ∈ l -> ref_of s3 p = ref_of s1 p).
Proof.
  intros Hin Hc Hwk s2.
  pose proof (in_va _ _ _ _ _ _ Hin) as Hv. pose proof (in_pp _ _ _ _ _ _ Hin) as Hpp.
  pose proof (in_used _ _ _ _ _ _ Hin) as Hppl. pose proof (in_ref _ _ _ _ _ _ Hin) as Hr.
  pose proof (wk_pages _ _ _ _ _ _ Hwk) as Hw1. pose proof (wk_dir _ _ _ _ _ _ Hwk) as Hd1.
  pose proof (wk_same _ _ _ _ _ _ Hwk) as Hs1.
  assert (forall p, p ∉ l -> ref_of s1 p = ref_of s p) as Href1.
  { intros p Hp. unfold ref_of. by rewrite (wk_refs _ _ _ _ _ _ Hwk) by auto. }
  assert (pp ∉ l1) as Hppl1 by (intros ?; apply Hppl; by eapply walked_sub).
  assert (is_Some (pages s1 !! pp)) as [pi Hpi].
  { apply (wf_dom _ _ Hw1). by rewrite (same_else_npages _ _ Hs1). }
  assert (pp_ref pi = ref_of s pp) as Epi.
  { rewrite <- Href1 by done. unfold ref_of. by rewrite Hpi. }
  assert (page_incref pp s1 = Ok tt s2) as Einc.
  { rewrite (page_incref_run s1 pp pi Hpi), Epi. unfold s2. by rewrite u16_small by lia. }
  split; [done|].
  assert (pages_wf s2 l1) as Hw2 by (by apply with_ref_wf).
  assert (pgdir_wf s2 l1 d) as Hd2 by (eapply pgdir_wf_mono; [done|done|done|by left]).
  assert (same_else s s2) as Hs2 by (etrans; [done|]; unfold s2, same_else; by destruct s1).
  assert (forall p, p ∉ l -> ref_of s2 p = ref_of s p + if p =? pp then 1 else 0) as Href2.
  { intros p Hp. unfold s2. rewrite ref_of_with_ref by (rewrite Hpi; eauto).
    destruct (p =? pp) eqn:E; bcomp; [by subst|]. rewrite Href1 by done. lia. }
  assert (forall p, p ∈ l -> ref_of s2 p = ref_of s1 p) as Hrefl.
  { intros p Hp. unfold s2. rewrite ref_of_with_ref by (rewrite Hpi; eauto).
    rewrite (proj2 (Z.eqb_neq p pp)) by congruence. done. }
  assert (mapping (mem s) d va =
    if present (pte (mem s1) d va) then Some (pte (mem s1) d va) else None) as Hm.
  { rewrite <- (wk_map _ _ _ _ _ _ Hwk) by done. unfold mapping.
    by rewrite (wk_present _ _ _ _ _ _ Hwk). }
  destruct (present (pte (mem s1) d va)) eqn:Hp; simpl kwhen.
  - set (e := pte (mem s1) d va) in *.
    destruct (in_old _ _ _ _ _ _ Hin e Hm) as (Hen & Hel & Het & Her).
    destruct (page_remove_mapped s2 l1 d va e Hw2 Hd2) as (s3 & l3 & Erm & Hrm).
    + eapply cpu_ok_same; [|done]. done.
    + done.
    + simpl. by rewrite (wk_map _ _ _ _ _ _ Hwk).
    + by rewrite (same_else_npages _ _ Hs2).
    + intros ?. apply Hel. by eapply walked_sub.
    + intros Ht. apply Het. eapply walked_is_table; [done|done|]. exact Ht.
    + rewrite Href2 by done. case_if; lia.
    + exists s3, l3. split; [done|]. split; [etrans; [done|apply (rm_same _ _ _ _ _ _ _ Hrm)]|].
      split; [apply (rm_pages _ _ _ _ _ _ _ Hrm)|]. split; [apply (rm_dir _ _ _ _ _ _ _ Hrm)|].
      split; [intros i Hi; by rewrite (rm_slots _ _ _ _ _ _ _ Hrm)|].
      split; [|split; [|split; [apply (rm_mem _ _ _ _ _ _ _ Hrm)|]]].
      * intros va' Hv' Hne. rewrite (rm_map _ _ _ _ _ _ _ Hrm), decide_False by done.
        simpl. by apply (wk_map _ _ _ _ _ _ Hwk).
      * intros p Hpl. unfold maps_to. rewrite Hm.
        destruct (decide (p = PTE_ADDR e / 4096)) as [->|Hne].
        -- rewrite (rm_ref _ _ _ _ _ _ _ Hrm), Href2 by done. rewrite (proj2 (Z.eqb_eq _ _) eq_refl). lia.
        -- unfold ref_of at 1. rewrite (rm_refs _ _ _ _ _ _ _ Hrm) by done.
           change (match pages s2 !! p with Some pi => pp_ref pi | None => 0 end) with (ref_of s2 p).
           rewrite Href2 by done. rewrite (proj2 (Z.eqb_neq (PTE_ADDR e / 4096) p)) by done. lia.
      * split; [rewrite (rm_list _ _ _ _ _ _ _ Hrm), Href2 by done; unfold freed; by rewrite Hm|].
        split; [intros va' Hv' He; apply (rm_entry _ _ _ _ _ _ _ Hrm va' Hv'); by apply (wk_entry _ _ _ _ _ _ Hwk)|].
        intros p Hpl. rewrite <- Hrefl by done. unfold ref_of. by rewrite (rm_refs _ _ _ _ _ _ _ Hrm) by congruence.
  - exists s2, l1. split; [done|]. split; [done|]. split; [done|]. split; [done|].
    split; [done|]. split; [|split; [|split; [done|]]].
    + intros va' Hv' _. by apply (wk_map _ _ _ _ _ _ Hwk).
    + intros p Hpl. unfold maps_to. rewrite Hm, Href2 by done. lia.
    + split; [unfold freed; by rewrite Hm|].
      split; [intros va' Hv' He; by apply (wk_entry _ _ _ _ _ _ Hwk)|]. exact Hrefl.
Qed.


Lemma insert_flags pp perm :
  0 <= pp < 0x10000 -> 0 <= perm < 4096 ->
  0 <= Z.lor (Z.lor (pp * 4096) perm) PTE_P < 0x100000000 /\
  present (Z.lor (Z.lor (pp * 4096) perm) PTE_P) = true.
Proof.
  intros Hp Hperm. split.
  - apply (lor_range _ _ 32); [lia| |unfold PTE_P; lia]. apply (lor_range _ _ 32); lia.
  - unfold present. rewrite ctrue_true, Z.land_lor_distr_l. unfold PTE_P.
    intros E. by apply Z.lor_eq_0_iff in E as [_ E].
Qed.

Lemma is_table_pde_or s s' d va perm p :
  0 <= perm < 4096 -> present (pde (mem s) d va) = true ->
  pde (mem s') d va = Z.lor (pde (mem s) d va) perm ->
  (forall i, 0 <= i < 1024 -> i <> PDX va -> load32 (mem s') (slot d i) = load32 (mem s) (slot d i)) ->
  is_table s' d p -> is_table s d p.
Proof.
  intros Hperm Hp Hor Hs [Ht|(i & Hi & Hpi & Ha)]; [by left|]. right. exists i.
  destruct (decide (i = PDX va)) as [->|Hne]; [|by rewrite !Hs in * by done].
  rewrite <- !pde_slot in *. rewrite Hor, PTE_ADDR_or in Ha; [done|apply load32_range|done].
Qed.

(** The two stores at the end: the table entry, then the permission into the
    directory entry. *)
Definition insert_writes (d va v perm : Z) (s : kstate) : kstate :=
  let s1 := set_mem (store32 (mem s) (pte_addr (mem s) d va) v) s in
  set_mem (store32 (mem s1) (d + 4 * PDX va) (Z.lor (pde (mem s1) d va) perm)) s1.

Record insert_written (s : kstate) (l : list Z) (d va v perm : Z) (s' : kstate) : Prop := {
  iw_dir : pgdir_wf s' l d;
  iw_pde : pde (mem s') d va = Z.lor (pde (mem s) d va) perm;
  iw_slots : forall i, 0 <= i < 1024 -> i <> PDX va ->
    load32 (mem s') (slot d i) = load32 (mem s) (slot d i);
  iw_map : forall va', PDX va' <> PDX UVPT -> mapping (mem s') d va' =
    if decide (PGNUM va' = PGNUM va) then Some v else mapping (mem s) d va';
  iw_mem : forall x, ~ is_table s d (x / 4096) -> x / 4096 <> d / 4096 ->
    load8 (mem s') x = load8 (mem s) x;
  iw_tables : forall p, is_table s' d p -> is_table s d p;
  iw_entry : forall va', PDX va' <> PDX UVPT -> entry_ok s d va' -> entry_ok s' d va';
}.

Lemma insert_writes_ok s l d va v perm :
  pgdir_wf s l d -> PDX va <> PDX UVPT -> present (pde (mem s) d va) = true ->
  0 <= v < 0x100000000 -> present v = true -> 0 <= perm < 4096 ->
  insert_written s l d va v perm (insert_writes d va v perm s).
Proof.
  intros Hd Hv Hp Hvr Hvp Hperm.
  destruct (pte_write s l d va v Hd Hv Hp Hvr) as (Hd1 & Hs1 & Hm1).
  unfold insert_writes. set (s1 := set_mem _ s) in *.
  assert (pde (mem s1) d va = pde (mem s) d va) as Epde
    by (rewrite !pde_slot; apply Hs1; auto with jos).
  destruct (pde_or s1 l d va perm Hd1 Hv ltac:(by rewrite Epde) Hperm) as (Hd2 & Hpde2 & Hs2 & Hm2).
  set (s2 := set_mem _ s1) in *. split.
  - done.
  - by rewrite Hpde2, Epde.
  - intros i Hi Hne. by rewrite Hs2, Hs1.
  - intros va' Hv'. rewrite mapping_raw, Hm2, <- mapping_raw, Hm1 by done. by rewrite Hvp.
  - intros x Hx Hxd. unfold s2. simpl. rewrite load8_store32. pose proof (PDX_range va).
    pose proof (dw_aligned _ _ _ Hd). rewrite !decide_False by (intros ->; apply Hxd; zlia).
    by rewrite table_store_mem.
  - intros p Ht. apply (is_table_slots s s1); [done|].
    apply (is_table_pde_or s1 s2 d va perm); [done|by rewrite Epde|done|exact Hs2|exact Ht].
  - intros va' Hv' He. unfold entry_ok. rewrite Hm2 by done. by apply (pte_write_entry s l d va v va').
Qed.

(** The stores complete what the walk and the removal prepared. *)
Lemma insert_inserted s l d pp va perm s1 l1 s3 l3 :
  pgdir_wf s l d -> walked s l d va s1 l1 -> same_else s s3 -> pages_wf s3 l3 ->
  (forall i, 0 <= i < 1024 -> load32 (mem s3) (slot d i) = load32 (mem s1) (slot d i)) ->
  (forall va', PDX va' <> PDX UVPT -> PGNUM va' <> PGNUM va ->
     mapping (mem s3) d va' = mapping (mem s) d va') ->
  (forall p, p ∉ l ->
     ref_of s3 p = ref_of s p + (if p =? pp then 1 else 0) - maps_to (mem s) d va p) ->
  (forall x, ~ is_table s1 d (x / 4096) -> load8 (mem s3) x = load8 (mem s1) x) ->
  l3 = freed s d va pp l1 -> 0 <= perm < 4096 ->
  (forall va', PDX va' <> PDX UVPT -> entry_ok s d va' -> entry_ok s3 d va') ->
  (forall p, p ∈ l -> ref_of s3 p = ref_of s1 p) ->
  let v := Z.lor (Z.lor (pp * 4096) perm) PTE_P in
  insert_written s3 l3 d va v perm (insert_writes d va v perm s3) ->
  inserted s l d pp va perm (insert_writes d va v perm s3) l3.
Proof.
  intros Hd Hwk Hs3 Hw3 Hslot Hmap Href Hmem El3 Hperm Hent Hrl v Hiw.
  assert (pde (mem s3) d va = pde (mem s1) d va) as Epde
    by (rewrite !pde_slot; apply Hslot; auto with jos).
  assert (forall p, is_table s3 d p -> is_table s1 d p) as Htab
    by (intros p; by apply is_table_slots).
  split.
  - etrans; [done|]. unfold insert_writes, same_else. by destruct s3.
  - by eapply (pages_wf_ext s3).
  - apply (iw_dir _ _ _ _ _ _ _ Hiw).
  - intros va' Hv'. rewrite (iw_map _ _ _ _ _ _ _ Hiw) by done. case_decide; [done|]. by apply Hmap.
  - rewrite (iw_pde _ _ _ _ _ _ _ Hiw), Z.land_lor_distr_l, Z.land_diag. apply Z.bits_inj'.
    intros i Hi. rewrite Z.lor_spec, Z.land_spec. by destruct (Z.testbit _ i), (Z.testbit perm i).
  - done.
  - intros x Hxl Hx. assert (~ is_table s1 d (x / 4096)) as Hx1
      by (intros Ht; apply Hx; by eapply walked_is_table).
    assert (x / 4096 <> d / 4096) as Hxd.
    { intros E. apply Hx. left. pose proof (dw_aligned _ _ _ Hd). rewrite E. zlia. }
    rewrite (iw_mem _ _ _ _ _ _ _ Hiw) by auto.
    rewrite Hmem by done. apply (wk_mem _ _ _ _ _ _ Hwk); [by right|done].
  - exists l1. split; [done|]. destruct (present (pde (mem s) d va)) eqn:Ep.
    + exact (proj1 (wk_keep _ _ _ _ _ _ Hwk Ep)).
    + destruct (wk_list _ _ _ _ _ _ Hwk) as [[-> ->]|(p & -> & _)]; [|by exists p].
      pose proof (wk_present _ _ _ _ _ _ Hwk). congruence.
  - intros i Hi Hne. rewrite (iw_slots _ _ _ _ _ _ _ Hiw), Hslot by done.
    by apply (wk_slots _ _ _ _ _ _ Hwk).
  - intros Hp. rewrite (iw_pde _ _ _ _ _ _ _ Hiw), Epde.
    by destruct (wk_keep _ _ _ _ _ _ Hwk Hp) as [_ ->].
  - rewrite (iw_pde _ _ _ _ _ _ _ Hiw), Epde. apply present_or, (wk_present _ _ _ _ _ _ Hwk).
  - intros p Hp Ht. apply (walked_is_table s l d va s1 l1); [done|done|].
    by apply Htab, (iw_tables _ _ _ _ _ _ _ Hiw).
  - intros Hp. rewrite (iw_pde _ _ _ _ _ _ _ Hiw), PTE_ADDR_or, Epde by (done || apply load32_range).
    destruct (wk_list _ _ _ _ _ _ Hwk) as [[-> ->]|(p & -> & Ep)].
    + pose proof (wk_present _ _ _ _ _ _ Hwk). congruence.
    + exists p. split; [constructor|done].
  - intros va' Hv' He. apply (iw_entry _ _ _ _ _ _ _ Hiw va' Hv'). by apply Hent.
  - intros p Hp Hpl. change (ref_of (insert_writes d va v perm s3) p) with (ref_of s3 p).
    rewrite (iw_pde _ _ _ _ _ _ _ Hiw), PTE_ADDR_or, Epde by (done || apply load32_range).
    intros Ep. rewrite Hrl by done. apply (wk_new _ _ _ _ _ _ Hwk); [done|].
    destruct (wk_list _ _ _ _ _ _ Hwk) as [[-> ->]|(q & -> & Eq)].
    + pose proof (wk_present _ _ _ _ _ _ Hwk). congruence.
    + assert (p = q) as -> by lia. intros Hq.
      destruct (dw_table _ _ _ (wk_dir _ _ _ _ _ _ Hwk) (PDX va) ltac:(auto with jos) (wk_present _ _ _ _ _ _ Hwk)) as [_ Hn].
      rewrite <- pde_slot, Eq, Z.div_mul in Hn by lia. done.
Qed.

Lemma page_insert_ok s l d pp va perm :
  pages_wf s l -> pgdir_wf s l d -> cpu_ok s -> insertable s l d pp va perm ->
  present (pde (mem s) d va) = true \/ l <> [] ->
  exists s' l', page_insert (KERNBASE + d) pp va perm s = Ok 0 s' /\
    inserted s l d pp va perm s' l'.
Proof.
  intros Hw Hd Hc Hin Hl.
  pose proof (in_va _ _ _ _ _ _ Hin) as Hv. pose proof (in_pp _ _ _ _ _ _ Hin) as Hpp.
  pose proof (in_perm _ _ _ _ _ _ Hin) as Hperm.
  pose proof (wf_npages _ _ Hw) as Hn. unfold MAXPAGES in Hn.
  destruct (pgdir_walk_spec s l d va Hw Hd Hl) as (s1 & l1 & Ewalk & Hwk).
  destruct (insert_prepare s l d pp va perm s1 l1 Hin Hc Hwk) as
    (Einc & s3 & l3 & Erm & Hs3 & Hw3 & Hd3 & Hslot & Hmap & Href & Hmem & El3 & Hent & Hrl).
  destruct (insert_flags pp perm ltac:(lia) Hperm) as [Hvr Hvp].
  set (v := Z.lor (Z.lor (pp * 4096) perm) PTE_P) in *.
  assert (pde (mem s3) d va = pde (mem s1) d va) as Epde
    by (rewrite !pde_slot; apply Hslot; auto with jos).
  assert (present (pde (mem s3) d va) = true) as Hp3
    by (rewrite Epde; apply (wk_present _ _ _ _ _ _ Hwk)).
  pose proof (insert_writes_ok s3 l3 d va v perm Hd3 Hv Hp3 Hvr Hvp Hperm) as Hiw.
  exists (insert_writes d va v perm s3), l3. split.
  - unfold page_insert. kstep Ewalk. kstep Einc.
    kstep (kload32_run (with_ref pp (ref_of s pp + 1) s1) (pte_addr (mem s1) d va)
      ltac:(apply pte_addr_nonneg)).
    change (load32 (mem (with_ref pp (ref_of s pp + 1) s1)) (pte_addr (mem s1) d va))
      with (pte (mem s1) d va).
    kstep Erm. cbv zeta. rewrite page2pa_mul by lia. fold v.
    assert (pte_addr (mem s1) d va = pte_addr (mem s3) d va) as ->
      by (unfold pte_addr; by rewrite Epde).
    kstep (kstore32_run s3 (pte_addr (mem s3) d va) v ltac:(apply pte_addr_nonneg)).
    set (s4 := set_mem _ s3). pose proof (dw_range _ _ _ Hd). pose proof (PDX_range va).
    replace (KERNBASE + d + 4 * PDX va) with (KERNBASE + (d + 4 * PDX va)) by lia.
    kstep (kload32_run s4 (d + 4 * PDX va) ltac:(lia)). fold (pde (mem s4) d va).
    by kstep (kstore32_run s4 (d + 4 * PDX va) (Z.lor (pde (mem s4) d va) perm) ltac:(lia)).
  - by apply (insert_inserted s l d pp va perm s1 l1 s3 l3).
Qed.

(** C6: page_insert maps exactly one page.  For an allocated page [pp] and an
    address outside the UVPT window, with a page table present or a free page to
    make one from, page_insert returns 0; afterwards [va]'s page maps [pp] with
    [perm | PTE_P], every other page of the address space maps what it mapped
    before, the directory entry carries [perm], the count of [pp] has grown by
    one and that of the page formerly mapped at [va] has dropped by one (so
    re-inserting the same page keeps its count), page_lookup finds [pp], and the
    allocator and the page directory stay well formed.  When a table is needed
    and no page is free it returns -E_NO_MEM with memory and pages unchanged. *)
Theorem page_insert_maps s l d pp va perm :
  pages_wf s l -> pgdir_wf s l d -> cpu_ok s -> insertable s l d pp va perm ->
  if bool_decide (present (pde (mem s) d va) = true \/ l <> [])
  then exists s' l', page_insert (KERNBASE + d) pp va perm s = Ok 0 s' /\
         inserted s l d pp va perm s' l' /\
         (exists a, page_lookup (KERNBASE + d) va s' = Ok (Some (pp, a)) s')
  else exists s', page_insert (KERNBASE + d) pp va perm s = Ok (- E_NO_MEM) s' /\
         mem s' = mem s /\ pages s' = pages s /\ page_free_list s' = page_free_list s.
Proof.
  intros Hw Hd Hc Hin. pose proof (wf_npages _ _ Hw) as Hn. unfold MAXPAGES in Hn.
  pose proof (in_va _ _ _ _ _ _ Hin) as Hv. pose proof (in_pp _ _ _ _ _ _ Hin) as Hpp.
  pose proof (in_perm _ _ _ _ _ _ Hin) as Hperm.
  case_bool_decide as Hl.
  - destruct (page_insert_ok s l d pp va perm Hw Hd Hc Hin Hl) as (s' & l' & E & Hi).
    exists s', l'. split; [done|]. split; [done|].
    pose proof (is_map _ _ _ _ _ _ _ _ Hi va Hv) as Hm. rewrite decide_True in Hm by done.
    eexists. rewrite (page_lookup_mapped s' l' d va _ (is_pages _ _ _ _ _ _ _ _ Hi)
      (is_dir _ _ _ _ _ _ _ _ Hi) Hm).
    + assert (PTE_ADDR (Z.lor (Z.lor (pp * 4096) perm) PTE_P) = pp * 4096) as ->.
      { rewrite <- Z.lor_assoc. apply PTE_ADDR_lor; [lia|zlia|].
        apply (lor_range _ _ 12); unfold PTE_P; lia. }
      by rewrite Z.div_mul by lia.
    + assert (PTE_ADDR (Z.lor (Z.lor (pp * 4096) perm) PTE_P) = pp * 4096) as ->.
      { rewrite <- Z.lor_assoc. apply PTE_ADDR_lor; [lia|zlia|].
        apply (lor_range _ _ 12); unfold PTE_P; lia. }
      rewrite Z.div_mul, (same_else_npages _ _ (is_same _ _ _ _ _ _ _ _ Hi)) by lia. lia.
  - assert (present (pde (mem s) d va) = false /\ l = []) as [Hp ->].
    { split; [apply not_true_iff_false; tauto|]. destruct l; [done|]. destruct Hl. by right. }
    eexists. split.
    + unfold page_insert. by kstep (pgdir_walk_nomem s d va Hw Hd Hp).
    + done.
Qed.

(** ** page_remove *)

(** C18: page_remove unmaps exactly one page.  If no table covers [va], or its
    entry is 0, nothing changes.  If [va] is mapped to a page [q] that the
    allocator has handed out, then afterwards [va]'s page is unmapped and every
    other page of the address space maps what it did; the count of [q] has
    dropped by one, and [q] is on the free list exactly when it was the last
    reference; no other page record changes; and the stale TLB entry is flushed
    when the directory may be in use on this CPU. *)
Theorem page_remove_unmaps s l d va :
  pages_wf s l -> pgdir_wf s l d -> cpu_ok s -> PDX va <> PDX UVPT ->
  (present (pde (mem s) d va) = false \/ pte (mem s) d va = 0 ->
   page_remove (KERNBASE + d) va s = Ok tt s) /\
  (forall e, mapping (mem s) d va = Some e ->
   let q := PTE_ADDR e / 4096 in
   q < npages s -> q ∉ l -> ~ is_table s d q -> 1 <= ref_of s q < 65536 ->
   exists s' l', page_remove (KERNBASE + d) va s = Ok tt s' /\ removed s l d va q s' l').
Proof.
  intros Hw Hd Hc Hv. split.
  - intros H. unfold page_remove.
    assert (page_lookup (KERNBASE + d) va s = Ok None s) as E.
    { rewrite (page_lookup_run s l d va Hw Hd).
      - destruct H as [->| ->]; [done|]. by rewrite andb_false_r.
      - intros Hp Hnz. destruct H; congruence. }
    by kstep E.
  - intros e Hm q Hq Hl Ht Hr. by apply page_remove_mapped.
Qed.

(** page_lookup finds what a table entry names, present or not.  For a
    directory of the kernel, page_lookup returns no page exactly when the table
    for [va] is missing or the entry is 0; so for entries that are 0 or have
    PTE_P, the only ones the kernel writes, it agrees with the translation.  But
    [!( *pte) & PTE_P] does not test PTE_P: an entry that is not present and
    not 0 yields a page, though [va] is not mapped. *)
Theorem page_lookup_finds s l d va :
  pages_wf s l -> pgdir_wf s l d ->
  (present (pde (mem s) d va) = true -> pte (mem s) d va <> 0 ->
   PTE_ADDR (pte (mem s) d va) / 4096 < npages s) ->
  exists r, page_lookup (KERNBASE + d) va s = Ok r s /\
    (r = None <-> present (pde (mem s) d va) = false \/ pte (mem s) d va = 0) /\
    (pte (mem s) d va = 0 \/ present (pte (mem s) d va) = true ->
     fst <$> r = (fun e => PTE_ADDR e / 4096) <$> mapping (mem s) d va) /\
    (present (pde (mem s) d va) = true -> present (pte (mem s) d va) = false ->
     pte (mem s) d va <> 0 ->
     fst <$> r = Some (PTE_ADDR (pte (mem s) d va) / 4096) /\ mapping (mem s) d va = None).
Proof.
  intros Hw Hd Hr. eexists. split; [by apply (page_lookup_run s l)|].
  unfold mapping. destruct (present (pde (mem s) d va)); simpl.
  - destruct (pte (mem s) d va =? 0) eqn:E; bcomp; simpl.
    + rewrite E. split; [tauto|]. split; [done|done].
    + split; [naive_solver|]. split.
      * intros [H|H]; [done|]. by rewrite H.
      * intros _ Hp _. by rewrite Hp.
  - split; [tauto|]. done.
Qed.

(** ** boot_map_region *)

Record region_mapped (s : kstate) (l : list Z) (d va pa perm n : Z) (t : kstate) (l' : list Z)
    : Prop := {
  rg_same : same_else s t;
  rg_pages : pages_wf t l';
  rg_dir : pgdir_wf t l' d;
  rg_sub : forall p, p ∈ l' -> p ∈ l;
  rg_refs : forall q, q ∉ l -> pages t !! q = pages s !! q;
  rg_map : forall va', PDX va' <> PDX UVPT -> mapping (mem t) d va' =
    if decide (PGNUM va <= PGNUM va' < PGNUM va + n)
    then Some (Z.lor (Z.lor (pa + (PGNUM va' - PGNUM va) * 4096) PTE_P) perm)
    else mapping (mem s) d va';
  rg_flags : forall i, 0 <= i < 1024 ->
    load32 (mem t) (slot d i) = load32 (mem s) (slot d i) \/ Z.land (load32 (mem t) (slot d i)) 7 = 7;
}.

Lemma region_entry pa perm :
  0 <= pa -> pa mod 4096 = 0 -> pa + 4096 <= 0x100000000 -> 0 <= perm < 4096 ->
  0 <= Z.lor (Z.lor pa PTE_P) perm < 0x100000000 /\
  present (Z.lor (Z.lor pa PTE_P) perm) = true.
Proof.
  intros Hp Ha Hb Hperm. split.
  - apply (lor_range _ _ 32); [lia| |lia]. apply (lor_range _ _ 32); unfold PTE_P; lia.
  - unfold present. rewrite ctrue_true, !Z.land_lor_distr_l. unfold PTE_P.
    intros E. apply Z.lor_eq_0_iff in E as [E _]. by apply Z.lor_eq_0_iff in E as [_ E].
Qed.

(** One page of the region. *)
Lemma region_step s l d va pa perm i t l' :
  0 <= i -> va mod 4096 = 0 -> 0 <= va -> va + i * 4096 < 0x100000000 ->
  pa mod 4096 = 0 -> 0 <= pa -> pa + (i + 1) * 4096 <= 0x100000000 -> 0 <= perm < 4096 ->
  PDX (va + i * 4096) <> PDX UVPT ->
  region_mapped s l d va pa perm i t l' ->
  present (pde (mem t) d (va + i * 4096)) = true \/ l' <> [] ->
  exists a t1 t2 l'',
    pgdir_walk (KERNBASE + d) (u32 (va + i * 4096)) 1 t = Ok (Some a) t1 /\
    kstore32 a (Z.lor (Z.lor (u32 (pa + i * 4096)) PTE_P) perm) t1 = Ok tt t2 /\
    region_mapped s l d va pa perm (i + 1) t2 l'' /\
    present (pde (mem t2) d (va + i * 4096)) = true /\
    (Z.of_nat (length l') <= Z.of_nat (length l'') +
       if present (pde (mem t) d (va + i * 4096)) then 0 else 1).
Proof.
  intros Hi Hva Hva0 Hvb Hpa Hpa0 Hpb Hperm Hu Hrg Hl.
  rewrite !u32_small by lia. set (w := va + i * 4096) in *.
  destruct (pgdir_walk_spec t l' d w (rg_pages _ _ _ _ _ _ _ _ _ Hrg)
    (rg_dir _ _ _ _ _ _ _ _ _ Hrg) Hl) as (t1 & l1 & Ew & Hwk).
  destruct (region_entry (pa + i * 4096) perm ltac:(lia) ltac:(zlia) ltac:(lia) Hperm)
    as [Hv Hvp].
  set (v := Z.lor (Z.lor (pa + i * 4096) PTE_P) perm) in *.
  pose proof (wk_present _ _ _ _ _ _ Hwk) as Hp1.
  destruct (pte_write t1 l1 d w v (wk_dir _ _ _ _ _ _ Hwk) Hu Hp1 Hv) as (Hd2 & Hs2 & Hm2).
  set (t2 := set_mem _ t1) in *.
  exists (KERNBASE + pte_addr (mem t1) d w), t1, t2, l1.
  split; [done|]. split; [by rewrite kstore32_run by apply pte_addr_nonneg|].
  assert (PGNUM w = PGNUM va + i) as Epg.
  { rewrite !PGNUM_div, !u32_small by lia. unfold w. zlia. }
  split; [|split].
  - split.
    + etrans; [apply (rg_same _ _ _ _ _ _ _ _ _ Hrg)|].
      etrans; [apply (wk_same _ _ _ _ _ _ Hwk)|]. unfold same_else. by destruct t1.
    + eapply (pages_wf_ext t1); [apply (wk_pages _ _ _ _ _ _ Hwk)|done..].
    + done.
    + intros p Hp. apply (rg_sub _ _ _ _ _ _ _ _ _ Hrg). by eapply walked_sub.
    + intros q Hq. simpl. rewrite (wk_refs _ _ _ _ _ _ Hwk).
      * by apply (rg_refs _ _ _ _ _ _ _ _ _ Hrg).
      * right. intros ?. apply Hq. by apply (rg_sub _ _ _ _ _ _ _ _ _ Hrg).
    + intros va' Hv'. rewrite Hm2, (wk_map _ _ _ _ _ _ Hwk), Hvp by done.
      rewrite (rg_map _ _ _ _ _ _ _ _ _ Hrg) by done. rewrite Epg.
      destruct (decide (PGNUM va' = PGNUM va + i)) as [E|E].
      * rewrite decide_True by lia. unfold v. do 3 f_equal. lia.
      * destruct (decide (PGNUM va <= PGNUM va' < PGNUM va + i)).
        -- by rewrite decide_True by lia.
        -- by rewrite decide_False by lia.
    + intros j Hj. rewrite Hs2 by done.
      assert (load32 (mem t1) (slot d j) = load32 (mem t) (slot d j) \/
        Z.land (load32 (mem t1) (slot d j)) 7 = 7) as [-> | ->];
        [|by apply (rg_flags _ _ _ _ _ _ _ _ _ Hrg)|by right].
      destruct (decide (j = PDX w)) as [->|]; [apply (wk_flags _ _ _ _ _ _ Hwk)|].
      left. by apply (wk_slots _ _ _ _ _ _ Hwk).
  - rewrite pde_slot, Hs2 by (auto with jos). by rewrite <- pde_slot.
  - destruct (wk_list _ _ _ _ _ _ Hwk) as [[-> ->]|(p & -> & _)]; simpl.
    + case_if; lia.
    + destruct (present (pde (mem t) d w)) eqn:E; [|lia].
      rewrite (pgdir_walk_present t (p :: l1) d w 1 (rg_pages _ _ _ _ _ _ _ _ _ Hrg)
        (rg_dir _ _ _ _ _ _ _ _ _ Hrg) E) in Ew. injection Ew as _ <-.
      exfalso. pose proof (wf_head _ _ (wk_pages _ _ _ _ _ _ Hwk)) as H1.
      pose proof (wf_head _ _ (rg_pages _ _ _ _ _ _ _ _ _ Hrg)) as H2.
      rewrite H1 in H2. destruct l1 as [|q l1]; [done|]. simpl in H2.
      pose proof (wf_nodup _ _ (rg_pages _ _ _ _ _ _ _ _ _ Hrg)) as Hnd.
      apply list.NoDup_cons in Hnd as [Hnd _]. simplify_eq. apply Hnd, list_elem_of_here.
Qed.

(** The directory entries that the first [i] pages of the region touch. *)
Definition tables_spanned (va i : Z) : Z :=
  if i =? 0 then 0 else PDX (va + (i - 1) * 4096) - PDX va + 1.

Definition region_inv (s : kstate) (l : list Z) (d va pa perm i : Z) (t : kstate) : Prop :=
  exists l', region_mapped s l d va pa perm i t l' /\
    (0 < i -> present (pde (mem t) d (va + (i - 1) * 4096)) = true) /\
    Z.of_nat (length l) <= Z.of_nat (length l') + tables_spanned va i.

Lemma pde_same_PDX m d va va' : PDX va = PDX va' -> pde m d va = pde m d va'.
Proof. unfold pde. by intros ->. Qed.

Lemma region_inv_step s l d va pa perm n i t :
  0 <= i < n -> va mod 4096 = 0 -> 0 <= va -> va + n * 4096 <= 0x100000000 ->
  pa mod 4096 = 0 -> 0 <= pa -> pa + n * 4096 <= 0x100000000 -> 0 <= perm < 4096 ->
  PDX (va + i * 4096) <> PDX UVPT ->
  region_inv s l d va pa perm i t ->
  wp (pte ← pgdir_walk (KERNBASE + d) (u32 (va + i * PGSIZE)) 1;
      match pte with
      | None => panic "boot_map_region() out of memory"
      | Some pte => kstore32 pte (Z.lor (Z.lor (u32 (pa + i * PGSIZE)) PTE_P) perm)
      end)
     (fun _ t' => region_inv s l d va pa perm (i + 1) t')
     (fun e _ => e = Panicked "boot_map_region() out of memory" /\
        Z.of_nat (length l) < tables_spanned va n) t.
Proof.
  intros Hi Hva Hva0 Hvb Hpa Hpa0 Hpb Hperm Hu (l' & Hm & Hlast & Hlen). unfold PGSIZE.
  assert (PDX (va + i * 4096) = (va + i * 4096) / 4194304) as E1 by (rewrite PDX_div, u32_small; lia).
  assert (PDX va = va / 4194304) as E2 by (rewrite PDX_div, u32_small; lia).
  assert (0 < i -> PDX (va + (i - 1) * 4096) = (va + (i - 1) * 4096) / 4194304) as E3
    by (intros; rewrite PDX_div, u32_small; lia).
  assert (PDX (va + (n - 1) * 4096) = (va + (n - 1) * 4096) / 4194304) as E4
    by (rewrite PDX_div, u32_small; lia).
  destruct (decide (present (pde (mem t) d (va + i * 4096)) = true \/ l' <> [])) as [Hok|Hno].
  - destruct (region_step s l d va pa perm i t l' ltac:(lia) Hva Hva0 ltac:(lia) Hpa Hpa0
      ltac:(lia) Hperm Hu Hm Hok) as (a & t1 & t2 & l'' & Ew & Es & Hm2 & Hp2 & Hl2).
    unfold wp. kstep Ew. rewrite Es. exists l''. split; [done|]. split.
    + intros _. by replace (i + 1 - 1) with i by lia.
    + unfold tables_spanned in *. rewrite (proj2 (Z.eqb_neq (i + 1) 0)) by lia.
      replace (i + 1 - 1) with i by lia.
      destruct (i =? 0) eqn:E0; bcomp.
      * subst i. rewrite Z.add_0_r. destruct (present (pde (mem t) d (va + 0 * 4096))); lia.
      * destruct (decide (PDX (va + (i - 1) * 4096) = PDX (va + i * 4096))) as [Es'|Es'].
        -- rewrite <- (pde_same_PDX (mem t) d _ _ Es'), (Hlast ltac:(lia)) in Hl2. lia.
        -- rewrite E1, E2, (E3 ltac:(lia)) in *.
           destruct (present (pde (mem t) d (va + i * 4096))); zlia.
  - unfold wp. assert (present (pde (mem t) d (va + i * 4096)) = false /\ l' = []) as [Hp ->].
    { split; [apply not_true_iff_false; tauto|]. destruct l'; [done|]. destruct Hno. by right. }
    rewrite (u32_small (va + i * 4096)) by lia.
    kstep (pgdir_walk_nomem t d (va + i * 4096) (rg_pages _ _ _ _ _ _ _ _ _ Hm)
      (rg_dir _ _ _ _ _ _ _ _ _ Hm) Hp).
    assert (Z.of_nat (length l) < tables_spanned va n) as Hlt.
    { unfold tables_spanned in *. rewrite (proj2 (Z.eqb_neq n 0)) by lia. simpl in Hlen.
      destruct (i =? 0) eqn:E0; bcomp; [rewrite E2, E4 in *; zlia|].
      assert (PDX (va + (i - 1) * 4096) <> PDX (va + i * 4096)) as Hne.
      { intros E. rewrite <- (pde_same_PDX (mem t) d _ _ E), Hlast in Hp by lia. done. }
      rewrite E1, E2, E4, (E3 ltac:(lia)) in *. zlia. }
    unfold panic. by destruct (panicstr _).
Qed.

(** The region when the loop ends, with the number of pages taken for tables. *)
Lemma boot_map_region_inv s l d va size pa perm :
  let n := (size + PGSIZE - 1) / PGSIZE in
  pages_wf s l -> pgdir_wf s l d -> 0 <= size ->
  va mod PGSIZE = 0 -> 0 <= va -> va + n * PGSIZE <= 0x100000000 ->
  pa mod PGSIZE = 0 -> 0 <= pa -> pa + n * PGSIZE <= 0x100000000 -> 0 <= perm < PGSIZE ->
  (forall i, 0 <= i < n -> PDX (va + i * PGSIZE) <> PDX UVPT) ->
  wp (boot_map_region (KERNBASE + d) va size pa perm)
     (fun _ t => region_inv s l d va pa perm n t)
     (fun e _ => e = Panicked "boot_map_region() out of memory" /\
        Z.of_nat (length l) < tables_spanned va n) s.
Proof.
  intros n Hw Hd Hs Hva Hva0 Hvb Hpa Hpa0 Hpb Hperm Hu. unfold boot_map_region. cbv zeta.
  assert ((if negb (size mod PGSIZE =? 0) then size / PGSIZE + 1 else size / PGSIZE) = n) as ->.
  { unfold n, PGSIZE. destruct (size mod 4096 =? 0) eqn:E; bcomp; simpl; zlia. }
  assert (0 <= n) as Hn by (unfold n, PGSIZE; zlia).
  unfold PGSIZE in Hva, Hvb, Hpa, Hpb, Hperm, Hu.
  assert (region_inv s l d va pa perm 0 s) as H0.
  { exists l. split; [|split; [lia|unfold tables_spanned; simpl; lia]]. split; try done.
    - intros va' Hv'. rewrite decide_False by lia. done.
    - intros i Hi. by left. }
  eapply wp_mono; [apply (wp_kfor (region_inv s l d va pa perm) _ _ _ _ _ H0)| |].
  - intros j t Hj Hi. apply (region_inv_step s l d va pa perm n); try lia; [|done]. apply Hu. lia.
  - intros [] t Hi. replace (0 + Z.of_nat (Z.to_nat n)) with n in Hi by lia.
    done.
  - auto.
Qed.

(** boot_map_region maps exactly its region.  For page-aligned [va] and [pa]
    and a region of [n] pages (the size rounded up) that stays below 2^32 and
    away from the UVPT window, boot_map_region either returns with every page of
    the region mapped to the corresponding page from [pa] on with permissions
    [perm | PTE_P] and every other page mapped as before, no reference count of
    an allocated page changed, and the allocator and the directory well formed;
    or it panics for lack of memory, which does not happen when there are as
    many free pages as the region spans directory entries. *)
Theorem boot_map_region_maps s l d va size pa perm :
  let n := (size + PGSIZE - 1) / PGSIZE in
  pages_wf s l -> pgdir_wf s l d -> 0 <= size ->
  va mod PGSIZE = 0 -> 0 <= va -> va + n * PGSIZE <= 0x100000000 ->
  pa mod PGSIZE = 0 -> 0 <= pa -> pa + n * PGSIZE <= 0x100000000 -> 0 <= perm < PGSIZE ->
  (forall i, 0 <= i < n -> PDX (va + i * PGSIZE) <> PDX UVPT) ->
  wp (boot_map_region (KERNBASE + d) va size pa perm)
     (fun _ t => exists l', region_mapped s l d va pa perm n t l')
     (fun e _ => e = Panicked "boot_map_region() out of memory" /\
        Z.of_nat (length l) < tables_spanned va n) s.
Proof.
  intros n Hw Hd Hs Hva Hva0 Hvb Hpa Hpa0 Hpb Hperm Hu.
  eapply wp_mono; [by apply boot_map_region_inv|intros [] t (l' & Hm & _); eauto|auto].
Qed.

(** ** mmio_map_region *)

(** mmio_map_region reserves the next pages of the MMIO window.  With the
    window's next free address [base] page aligned, it returns [base] and moves
    the free address past the pages that contain [pa, pa + size), which are now
    mapped there uncached, write-through and writable, without PTE_U, and with
    every other mapping unchanged; it panics when the window is exhausted (or
    no page is left for a table).  The offset of [pa] in its page is not added to
    the result. *)
Theorem mmio_map_region_maps s l d pa size :
  let base := mmio_base s in
  let first := pa / PGSIZE * PGSIZE in
  let n := (pa + size + PGSIZE - 1) / PGSIZE - pa / PGSIZE in
  pages_wf s l -> kern_pgdir s = KERNBASE + d -> pgdir_wf s l d ->
  0 <= pa -> 0 <= size -> pa + size + PGSIZE <= 0x100000000 ->
  MMIOBASE <= base <= MMIOLIM -> base mod PGSIZE = 0 -> base + n * PGSIZE < 0x100000000 ->
  wp (mmio_map_region pa size)
     (fun r t => r = base /\ base + n * PGSIZE < MMIOLIM /\ mmio_base t = base + n * PGSIZE /\
        exists t0 l', t = set_mmio_base (base + n * PGSIZE) t0 /\
          region_mapped s l d base first (Z.lor (Z.lor PTE_PCD PTE_PWT) PTE_W) n t0 l')
     (fun e _ => (e = Panicked "not enough memory" /\ MMIOLIM <= base + n * PGSIZE) \/
        (e = Panicked "boot_map_region() out of memory" /\
         Z.of_nat (length l) < tables_spanned base n)) s.
Proof.
  intros base first n Hw Hk Hd Hpa Hsz Hb Hbase Hal Hnb. unfold PGSIZE in *.
  change MMIOBASE with 0xef800000 in *. change MMIOLIM with 0xefc00000 in *.
  unfold mmio_map_region. cbv zeta. unfold PGSIZE.
  assert (ROUNDUP (pa + size) 4096 = (pa + size + 4095) / 4096 * 4096) as ->.
  { pose proof (ROUNDUP_spec (pa + size) 4096 ltac:(lia)) as H.
    rewrite u32_small in H by lia. destruct (H ltac:(lia)) as [H1 H2]. zlia. }
  assert (ROUNDDOWN pa 4096 = first) as ->
    by (rewrite ROUNDDOWN_mul by lia; by rewrite u32_small by lia).
  assert (u32 ((pa + size + 4095) / 4096 * 4096 - first) = n * 4096) as ->.
  { unfold first, n. replace (pa + size + 4096 - 1) with (pa + size + 4095) by lia.
    rewrite u32_small by zlia. lia. }
  assert (0 <= n) as Hn by (unfold n; zlia).
  unfold wp. ksteps. fold base. rewrite u32_small by lia. rewrite Z.geb_leb.
  change MMIOLIM with 0xefc00000.
  destruct (0xefc00000 <=? base + n * 4096) eqn:E; bcomp.
  { unfold panic. cbv beta. destruct (panicstr s); simpl; left; (split; [reflexivity|lia]). }
  ksteps. rewrite Hk.
  pose proof (boot_map_region_maps s l d base (n * 4096) first
    (Z.lor (Z.lor PTE_PCD PTE_PWT) PTE_W)) as Hbm. cbv zeta in Hbm. unfold PGSIZE in Hbm.
  replace ((n * 4096 + 4096 - 1) / 4096) with n in Hbm by zlia.
  specialize (Hbm Hw Hd ltac:(lia) Hal ltac:(lia) ltac:(lia) ltac:(unfold first; zlia)
    ltac:(unfold first; zlia) ltac:(unfold first, n; zlia) ltac:(vm_compute; split; congruence)).
  assert (forall i, 0 <= i < n -> PDX (base + i * 4096) <> PDX UVPT) as Hu.
  { intros i Hi. rewrite !PDX_div, u32_small by lia. change (u32 UVPT) with 0xef400000.
    change (0xef400000 / 4194304) with 957. zlia. }
  specialize (Hbm Hu). unfold wp in Hbm.
  unfold mbind at 1, K_bind at 1.
  destruct (boot_map_region _ _ _ _ _ s) as [[] t|e t|]; [|by right|done].
  destruct Hbm as [l' Hm]. ksteps. unfold mret, K_ret. simpl.
  split; [rewrite u32_small; lia|]. split; [lia|]. split; [done|]. eauto.
Qed.

(** ** check_va2pa and the MMU *)

(** check_va2pa computes the processor's translation: for a directory of the
    kernel it returns the page address that an access through that directory
    would reach, and ~0 exactly when the access would fault. *)
Theorem check_va2pa_translates s l d va :
  pages_wf s l -> pgdir_wf s l d ->
  check_va2pa (KERNBASE + d) va s =
    Ok (match mmu (mem s) d va false false with
        | Some pa => pa - PGOFF va
        | None => 0xFFFFFFFF
        end) s.
Proof.
  intros Hw Hd. pose proof (dw_range _ _ _ Hd) as Hr. pose proof (wf_npages _ _ Hw) as Hn.
  pose proof (PDX_range va). unfold MAXPAGES in Hn.
  assert (PTE_ADDR d = d) as Ed.
  { rewrite PTE_ADDR_div, u32_small by lia. pose proof (dw_aligned _ _ _ Hd). zlia. }
  unfold check_va2pa, mmu. rewrite Ed.
  replace (KERNBASE + d + 4 * PDX va) with (KERNBASE + (d + 4 * PDX va)) by lia.
  kstep (kload32_run s (d + 4 * PDX va) ltac:(lia)). fold (pde (mem s) d va).
  unfold mapping. destruct (present (pde (mem s) d va)) eqn:Hp; simpl; [|done].
  destruct (dw_table _ _ _ Hd (PDX va) ltac:(auto with jos) Hp) as [Ht _].
  fold (pde (mem s) d va) in Ht. unfold slot in Ht. fold (pde (mem s) d va) in Ht.
  pose proof (PTE_ADDR_range (pde (mem s) d va)). pose proof (PTE_ADDR_aligned (pde (mem s) d va)).
  assert (0 <= PTE_ADDR (pde (mem s) d va) < npages s * 4096) as Hb by zlia.
  kstep (KADDR_run s _ Hb ltac:(unfold MAXPAGES; lia)). pose proof (PTX_range va).
  rewrite <- Z.add_assoc. fold (pte_addr (mem s) d va).
  kstep (kload32_run s (pte_addr (mem s) d va) (pte_addr_nonneg _ _ _)). fold (pte (mem s) d va).
  destruct (present (pte (mem s) d va)); simpl; [|done].
  unfold mret, K_ret. f_equal. lia.
Qed.

(** The self map, shown to user code. *)
Lemma uvpt_selfmap_run m d va :
  0 <= d < 0x10000000 -> d mod PGSIZE = 0 -> 0 <= va < 0x100000000 ->
  pde m d UVPT = Z.lor (Z.lor d PTE_U) PTE_P ->
  (present (pde m d va) = true -> ctrue (Z.land (pde m d va) PTE_U) = true ->
   mmu m d (uvpt (PGNUM va)) true false = Some (pte_addr m d va)) /\
  mmu m d (uvpd (PDX va)) true false = Some (slot d (PDX va)) /\
  mmu m d (uvpt (PGNUM va)) true true = None /\ mmu m d (uvpd (PDX va)) true true = None.
Proof.
  unfold PGSIZE. intros Hd Ha Hva Hself.
  pose proof (PGNUM_range va) as Hpn. pose proof (PDX_range va) as Hpd.
  change UVPT with 0xef400000 in *.
  assert (PTE_ADDR d = d) as Ed by (rewrite PTE_ADDR_div, u32_small by lia; zlia).
  assert (PTE_ADDR (pde m d 0xef400000) = d) as Eself.
  { rewrite Hself, <- Z.lor_assoc. apply PTE_ADDR_lor; [lia|zlia|]. vm_compute. split; congruence. }
  assert (Z.land (pde m d 0xef400000) 7 = 5) as Eflags.
  { rewrite Hself, <- Z.lor_assoc, land_flags_lor; [done|lia|zlia|lia]. }
  (* an address of the window: its directory entry is the self map, its table entry
     a directory entry *)
  assert (forall n, 0 <= n < 1048576 ->
    pde m d (0xef400000 + 4 * n) = pde m d 0xef400000 /\
    pte m d (0xef400000 + 4 * n) = load32 m (slot d (n / 1024)) /\
    PGOFF (0xef400000 + 4 * n) = 4 * (n mod 1024)) as Hwin.
  { intros n Hn.
    assert (pde m d (0xef400000 + 4 * n) = pde m d 0xef400000) as E.
    { apply pde_same_PDX. rewrite !PDX_div, !u32_small by lia. zlia. }
    split; [done|]. split.
    - rewrite pte_slot, E, Eself. f_equal. f_equal. rewrite PTX_div, u32_small by lia. zlia.
    - rewrite PGOFF_mod, u32_small by lia. zlia. }
  assert (forall x, Z.land (Z.land (pde m d 0xef400000) x) PTE_W = 0) as HnoW.
  { intros x. change PTE_W with (Z.land 7 2). rewrite (Z.land_comm _ x), Z.land_assoc,
      <- (Z.land_assoc x), Eflags, <- Z.land_assoc. apply Z.land_0_r. }
  assert (forall x, ctrue (Z.land x PTE_U) = true ->
    ctrue (Z.land (Z.land (pde m d 0xef400000) x) PTE_U) = true) as HU.
  { intros x. change PTE_U with (Z.land 7 4) at 2.
    rewrite (Z.land_comm _ x), Z.land_assoc, <- (Z.land_assoc x), Eflags, <- Z.land_assoc. done. }
  assert (present (pde m d 0xef400000) = true) as Hps.
  { unfold present. change PTE_P with (Z.land 7 1). by rewrite Z.land_assoc, Eflags. }
  assert (uvpd (PDX va) = 0xef400000 + 4 * (957 * 1024 + PDX va)) as Euvpd.
  { unfold uvpd. change (UVPT + Z.shiftr UVPT PGSHIFT * 4) with (0xef400000 + 4 * (957 * 1024)). lia. }
  assert (forall n w, 0 <= n < 1048576 -> w = 0xef400000 + 4 * n ->
    mmu m d w true true = None) as Hnw.
  { intros n w Hn ->. unfold mmu. rewrite Ed. destruct (mapping m d (0xef400000 + 4 * n)); [|done].
    destruct (Hwin n Hn) as (-> & _). rewrite HnoW. by case_if. }
  rewrite Euvpd. unfold uvpt. change UVPT with 0xef400000. split; [|split; [|split]].
  - intros Hp HpU. unfold mmu. rewrite Ed. unfold mapping.
    destruct (Hwin (PGNUM va) Hpn) as (-> & -> & ->). rewrite Hps.
    assert (PGNUM va / 1024 = PDX va) as -> by (rewrite PGNUM_div, PDX_div, u32_small by lia; zlia).
    fold (slot d (PDX va)). rewrite <- (pde_slot m d va), Hp. simpl andb. cbv iota.
    rewrite HU by done. simpl. unfold pte_addr. do 2 f_equal. rewrite PGNUM_div, PTX_div. lia.
  - unfold mmu. rewrite Ed. unfold mapping.
    destruct (Hwin (957 * 1024 + PDX va) ltac:(lia)) as (-> & -> & ->).
    replace ((957 * 1024 + PDX va) / 1024) with 957 by zlia.
    replace ((957 * 1024 + PDX va) mod 1024) with (PDX va) by zlia.
    change 957 with (PDX 0xef400000). rewrite <- (pde_slot m d 0xef400000), Hps. simpl andb. cbv iota.
    rewrite HU; [|unfold ctrue; change PTE_U with (Z.land 7 4); by rewrite Z.land_assoc, Eflags].
    simpl. by rewrite Eself.
  - by apply (Hnw (PGNUM va)).
  - by apply (Hnw (957 * 1024 + PDX va)); [lia|].
Qed.

(** The page tables are visible at uvpt and uvpd.  In a directory whose UVPT
    entry points to the directory itself with PTE_U | PTE_P, as mem_init and
    env_setup_vm install it, a user load of uvpt[PGNUM(va)] reads the table entry
    for [va] whenever the table is present and user accessible, a user load of
    uvpd[PDX(va)] reads the directory entry, and neither can be written. *)
Theorem uvpt_selfmap m d va :
  0 <= d < 0x10000000 -> d mod PGSIZE = 0 -> 0 <= va < 0x100000000 ->
  pde m d UVPT = Z.lor (Z.lor d PTE_U) PTE_P ->
  (present (pde m d va) = true -> ctrue (Z.land (pde m d va) PTE_U) = true ->
   mmu m d (uvpt (PGNUM va)) true false = Some (pte_addr m d va)) /\
  mmu m d (uvpd (PDX va)) true false = Some (slot d (PDX va)) /\
  mmu m d (uvpt (PGNUM va)) true true = None /\ mmu m d (uvpd (PDX va)) true true = None.
Proof. apply uvpt_selfmap_run. Qed.

(** ** user_mem_check *)

(** A page a user program may access with permissions [perm]. *)
Definition page_ok (m : memory) (d perm i : Z) : bool :=
  (i <? ULIM) &&
  match mapping m d i with
  | Some e => Z.land e perm =? perm
  | None => false
  end.

Lemma user_mem_check_loop_run s l d va perm n i :
  pages_wf s l -> pgdir_wf s l d -> 0 <= i -> i + Z.of_nat n * 4096 < 0x100000000 ->
  (forall k, 0 <= k < Z.of_nat n -> page_ok (mem s) d perm (i + k * 4096) = true) /\
    user_mem_check_loop n (KERNBASE + d) va perm i s = Ok 0 s \/
  exists k, 0 <= k < Z.of_nat n /\ page_ok (mem s) d perm (i + k * 4096) = false /\
    (forall j, 0 <= j < k -> page_ok (mem s) d perm (i + j * 4096) = true) /\
    user_mem_check_loop n (KERNBASE + d) va perm i s =
      Ok (- E_FAULT) (set_user_mem_check_addr (Z.max va (i + k * 4096)) s).
Proof.
  intros Hw Hd. revert i. induction n as [|n IH]; intros i Hi Hb.
  { left. split; [lia|done]. }
  assert (user_mem_check_loop (S n) (KERNBASE + d) va perm i s =
    if page_ok (mem s) d perm i
    then user_mem_check_loop n (KERNBASE + d) va perm (u32 (i + PGSIZE)) s
    else Ok (- E_FAULT) (set_user_mem_check_addr (Z.max va i) s)) as E.
  { simpl user_mem_check_loop. unfold page_ok, mapping. rewrite Z.geb_leb, Z.leb_antisym.
    assert (forall t, (if i <? va then va else i) = t -> Z.max va i = t) as Hmax
      by (intros t <-; case_if; lia).
    rewrite (Hmax _ eq_refl).
    destruct (present (pde (mem s) d i)) eqn:Hp.
    - kstep (pgdir_walk_present s l d i 0 Hw Hd Hp).
      destruct (i <? ULIM); simpl negb; cbv iota; simpl andb; cbv iota; [|by ksteps].
      ksteps. kstep (kload32_run s (pte_addr (mem s) d i) (pte_addr_nonneg _ _ _)).
      fold (pte (mem s) d i). ksteps.
      destruct (present (pte (mem s) d i)); simpl; [|done].
      by destruct (Z.land (pte (mem s) d i) perm =? perm).
    - kstep (pgdir_walk_absent s l d i Hd Hp). simpl.
      by destruct (i <? ULIM). }
  destruct (page_ok (mem s) d perm i) eqn:Hok.
  - unfold PGSIZE in E. rewrite u32_small in E by lia.
    destruct (IH (i + 4096) ltac:(lia) ltac:(lia)) as [[Hall Hrun]|(k & Hk & Hbad & Hall & Hrun)].
    + left. split; [|by rewrite E]. intros k Hk.
      destruct (decide (k = 0)) as [->|]; [by rewrite Z.add_0_r|].
      replace (i + k * 4096) with (i + 4096 + (k - 1) * 4096) by lia. apply Hall. lia.
    + right. exists (k + 1). replace (i + (k + 1) * 4096) with (i + 4096 + k * 4096) by lia.
      split; [lia|]. split; [done|]. split; [|by rewrite E].
      intros j Hj. destruct (decide (j = 0)) as [->|]; [by rewrite Z.add_0_r|].
      replace (i + j * 4096) with (i + 4096 + (j - 1) * 4096) by lia. apply Hall. lia.
  - right. exists 0. rewrite Z.add_0_r. split; [lia|]. split; [done|]. split; [lia|done].
Qed.

(** C19: user_mem_check is exact for ranges below 2^32.  For an environment with a
    page directory of the kernel and a range whose end, rounded up to a page, does
    not pass 2^32, it returns 0 exactly when every page that contains a byte of
    the range is below ULIM and mapped with the permissions asked for; otherwise
    it returns -E_FAULT and user_mem_check_addr is the first bad address: it is
    [va] or the start of a page, its page is bad and all pages before it are good.
    Nothing else changes. *)
Theorem user_mem_check_exact s l e env d va len perm :
  pages_wf s l -> envs s !! e = Some env -> env_pgdir env = KERNBASE + d -> pgdir_wf s l d ->
  0 <= va -> 0 <= len -> va + len + PGSIZE <= 0x100000000 ->
  let bad x := page_ok (mem s) d perm (x / PGSIZE * PGSIZE) = false in
  ((forall x, va / PGSIZE * PGSIZE <= x < va + len -> ~ bad x) /\
     user_mem_check e va len perm s = Ok 0 s) \/
  (exists a, va / PGSIZE * PGSIZE <= a /\ va <= a /\ bad a /\ a / PGSIZE * PGSIZE < va + len /\
     (forall x, va / PGSIZE * PGSIZE <= x < a -> x / PGSIZE <> a / PGSIZE -> ~ bad x) /\
     (a = va \/ a mod PGSIZE = 0) /\
     user_mem_check e va len perm s = Ok (- E_FAULT) (set_user_mem_check_addr a s)).
Proof.
  intros Hw He Hpg Hd Hva Hlen Hb bad. unfold PGSIZE in *.
  unfold user_mem_check. cbv zeta. unfold PGSIZE.
  assert (get_env e s = Ok env s) as Eg by (unfold get_env; by rewrite He).
  kstep Eg. rewrite Hpg. rewrite ROUNDDOWN_mul, u32_small by lia.
  assert (ROUNDUP (va + len) 4096 = (va + len + 4095) / 4096 * 4096) as ->.
  { pose proof (ROUNDUP_spec (va + len) 4096 ltac:(lia)) as H.
    rewrite u32_small in H by lia. destruct (H ltac:(lia)) as [H1 H2]. zlia. }
  set (b := va / 4096 * 4096). set (n := Z.to_nat _).
  assert (Z.of_nat n = (va + len + 4095) / 4096 - va / 4096) as En
    by (unfold n, b; zlia).
  assert (forall x, b <= x -> x / 4096 * 4096 = b + (x / 4096 - va / 4096) * 4096) as Hpage
    by (intros x Hx; unfold b; lia).
  destruct (user_mem_check_loop_run s l d va perm n b Hw Hd ltac:(unfold b; zlia)
    ltac:(unfold b; zlia)) as [[Hall Hrun]|(k & Hk & Hbad & Hall & Hrun)].
  - left. split; [|done]. intros x Hx. unfold bad. rewrite Hpage by lia.
    rewrite Hall; [done|]. unfold b in *. zlia.
  - right. exists (Z.max va (b + k * 4096)).
    assert (Z.max va (b + k * 4096) / 4096 * 4096 = b + k * 4096) as Ea by (unfold b; zlia).
    split; [lia|]. split; [lia|]. split; [unfold bad; by rewrite Ea|].
    split; [rewrite Ea; unfold b; zlia|]. split; [|split; [|done]].
    + intros x Hx Hne. unfold bad. rewrite Hpage by lia. rewrite Hall; [done|].
      unfold b in *. zlia.
    + destruct (Z.max_spec va (b + k * 4096)) as [[? ->]|[? ->]]; [right|by left].
      unfold b. zlia.
Qed.

(** A range that wraps around passes user_mem_check unchecked.  When
    [va + len] overflows 32 bits so that its rounded end is not above [va]'s page,
    the loop runs zero times and user_mem_check returns 0, whatever [va] is and
    whatever the page directory maps; so a user program that passes a kernel
    address with a large enough length is told that it may access it. *)
Theorem user_mem_check_wraps s e env va len perm :
  envs s !! e = Some env ->
  0 <= va < 0x100000000 -> 0 <= len < 0x100000000 ->
  0x100000000 <= va + len -> va + len - 0x100000000 <= va / PGSIZE * PGSIZE ->
  user_mem_check e va len perm s = Ok 0 s.
Proof.
  unfold PGSIZE. intros He Hva Hlen Hov Hw. unfold user_mem_check. cbv zeta. unfold PGSIZE.
  assert (get_env e s = Ok env s) as Eg by (unfold get_env; by rewrite He).
  kstep Eg. rewrite ROUNDDOWN_mul, u32_small by lia.
  assert (ROUNDUP (va + len) 4096 <= va / 4096 * 4096) as Hle.
  { rewrite ROUNDUP_mul by lia.
    assert (u32 (va + len) = va + len - 0x100000000) as -> by (apply u32_carry; lia).
    rewrite u32_small by zlia. zlia. }
  replace (Z.to_nat _) with O by zlia. done.
Qed.

(** ** Examples

    [demo_state]: page 0 is a page directory whose entry 2 points to the empty table
    in page 1; page 3 is allocated and not mapped; 5 and 4 are free.
    [mapped_state]: page 3 is mapped at 0x800000. *)

Definition demo_mem : memory := store32 ∅ 8 0x1007.
Definition demo_state : kstate := set_mem demo_mem small_state.
Definition mapped_state : kstate :=
  set_mem (store32 demo_mem 0x1000 0x3007)
    (set_pages (<[3 := mkPageInfo None 1]> small_pages) small_state).

Lemma load32_empty a : load32 ∅ a = 0.
Proof. done. Qed.

Lemma demo_slot i : 0 <= i < 1024 ->
  load32 demo_mem (slot 0 i) = if decide (i = 2) then 0x1007 else 0.
Proof.
  intros Hi. unfold demo_mem. change 8 with (slot 0 2).
  rewrite load_slot_store by (done || lia). case_decide as E1; case_decide as E2;
    reflexivity || apply load32_empty || (exfalso; lia).
Qed.

Lemma demo_pgdir_of s l :
  npages s = 6 -> 0 ∉ l -> 1 ∉ l ->
  (forall i, 0 <= i < 1024 -> load32 (mem s) (slot 0 i) = load32 demo_mem (slot 0 i)) ->
  pgdir_wf s l 0.
Proof.
  intros En H0 H1 Hm. split; rewrite ?En.
  - reflexivity.
  - lia.
  - exact H0.
  - intros i Hi. rewrite Hm, demo_slot by done. case_decide; [|discriminate].
    intros _. change (PTE_ADDR 0x1007 / 4096) with 1. split; [lia|exact H1].
  - intros i Hi _. rewrite Hm, demo_slot by done. case_decide; [|discriminate].
    intros _. vm_compute. congruence.
  - intros i j Hi Hj _ _ Hne. rewrite !Hm, !demo_slot by done.
    case_decide; [|discriminate]. case_decide; [lia|discriminate].
Qed.

Lemma demo_wf : pages_wf demo_state [5; 4].
Proof. eapply pages_wf_ext; [exact small_state_wf|reflexivity..]. Qed.

Lemma demo_pgdir : pgdir_wf demo_state [5; 4] 0.
Proof. apply demo_pgdir_of; [reflexivity|set_solver|set_solver|reflexivity]. Qed.

Lemma demo_cpu_ok : cpu_ok demo_state.
Proof. exists (mkCpuInfo 0 CPU_STARTED None 0 0). split; [reflexivity|exact I]. Qed.

Lemma demo_va : PDX 0x800000 <> PDX UVPT.
Proof. vm_compute. congruence. Qed.

Lemma demo_used : 3 ∉ [5; 4].
Proof. set_solver. Qed.

Lemma demo_unmapped : mapping (mem demo_state) 0 0x800000 = None.
Proof. vm_compute. reflexivity. Qed.

Lemma demo_insertable : insertable demo_state [5; 4] 0 3 0x800000 7.
Proof.
  split.
  - exact demo_va.
  - lia.
  - simpl. lia.
  - exact demo_used.
  - vm_compute. split; congruence.
  - intros e He. rewrite demo_unmapped in He. discriminate He.
Qed.

Lemma mapped_wf : pages_wf mapped_state [5; 4].
Proof.
  eapply (pages_wf_ext (with_ref 3 1 small_state)).
  - apply with_ref_wf; [exact small_state_wf|exact demo_used].
  - reflexivity.
  - simpl. apply map_eq. intros q. rewrite lookup_insert, lookup_alter.
    case_decide; [|reflexivity]. subst. reflexivity.
  - reflexivity.
Qed.

Lemma mapped_slot i : 0 <= i < 1024 ->
  load32 (mem mapped_state) (slot 0 i) = load32 demo_mem (slot 0 i).
Proof.
  intros Hi. simpl. change 0x1000 with (slot 0x1000 0).
  rewrite load_slot_store by (done || lia). rewrite decide_False by lia. done.
Qed.

Lemma mapped_pgdir : pgdir_wf mapped_state [5; 4] 0.
Proof. apply demo_pgdir_of; [reflexivity|set_solver|set_solver|exact mapped_slot]. Qed.

Lemma mapped_not_table : ~ is_table mapped_state 0 3.
Proof.
  intros [Ht|(i & Hi & Hp & Ha)]; [discriminate Ht|].
  rewrite mapped_slot, demo_slot in * by done. case_decide; [|discriminate Hp].
  discriminate Ha.
Qed.

Lemma page_insert_maps_witness :
  exists s', page_insert (KERNBASE + 0) 3 0x800000 7 demo_state = Ok 0 s' /\
    mapping (mem s') 0 0x800000 = Some 0x3007 /\ ref_of s' 3 = 1.
Proof.
  pose proof (page_insert_maps demo_state [5; 4] 0 3 0x800000 7 demo_wf demo_pgdir demo_cpu_ok
    demo_insertable) as H.
  assert (bool_decide (present (pde (mem demo_state) 0 0x800000) = true \/ [5; 4] <> []) = true)
    as E by (apply bool_decide_eq_true_2; right; discriminate).
  rewrite E in H. destruct H as (s' & l' & Er & Hi & _). exists s'. split; [exact Er|]. split.
  - rewrite (is_map _ _ _ _ _ _ _ _ Hi _ demo_va). vm_compute. reflexivity.
  - rewrite (is_refs _ _ _ _ _ _ _ _ Hi 3 demo_used). vm_compute. reflexivity.
Defined.

Lemma page_remove_unmaps_witness :
  exists s' l', page_remove (KERNBASE + 0) 0x800000 mapped_state = Ok tt s' /\
    removed mapped_state [5; 4] 0 0x800000 3 s' l' /\ l' = [3; 5; 4].
Proof.
  assert (cpu_ok mapped_state) as Hc.
  { exists (mkCpuInfo 0 CPU_STARTED None 0 0). split; [reflexivity|exact I]. }
  assert (mapping (mem mapped_state) 0 0x800000 = Some 0x3007) as Hm by (vm_compute; reflexivity).
  assert (ref_of mapped_state 3 = 1) as Hr by (vm_compute; reflexivity).
  destruct (proj2 (page_remove_unmaps mapped_state [5; 4] 0 0x800000 mapped_wf mapped_pgdir Hc
    demo_va) 0x3007 Hm) as (s' & l' & E & Hrm).
  - vm_compute. reflexivity.
  - exact demo_used.
  - exact mapped_not_table.
  - change (PTE_ADDR 0x3007 / 4096) with 3. rewrite Hr. lia.
  - exists s', l'. split; [exact E|]. split; [exact Hrm|].
    rewrite (rm_list _ _ _ _ _ _ _ Hrm). change (PTE_ADDR 0x3007 / 4096) with 3. rewrite Hr.
    reflexivity.
Defined.

Lemma page_lookup_finds_witness :
  exists r, page_lookup (KERNBASE + 0) 0x800000 mapped_state = Ok r mapped_state /\
    fst <$> r = Some 3.
Proof.
  destruct (page_lookup_finds mapped_state [5; 4] 0 0x800000 mapped_wf mapped_pgdir)
    as (r & E & _ & Hr & _).
  - intros _ _. vm_compute. reflexivity.
  - exists r. split; [exact E|]. rewrite Hr; [vm_compute; reflexivity|].
    right. vm_compute. reflexivity.
Defined.

Lemma boot_map_region_maps_witness :
  exists t l', boot_map_region (KERNBASE + 0) 0xa00000 5000 0x2000 PTE_U demo_state = Ok tt t /\
    region_mapped demo_state [5; 4] 0 0xa00000 0x2000 PTE_U 2 t l'.
Proof.
  pose proof (boot_map_region_maps demo_state [5; 4] 0 0xa00000 5000 0x2000 PTE_U demo_wf
    demo_pgdir ltac:(lia) ltac:(reflexivity) ltac:(lia) ltac:(vm_compute; congruence)
    ltac:(reflexivity) ltac:(lia) ltac:(vm_compute; congruence)
    ltac:(vm_compute; split; congruence)) as H.
  unfold wp in H. destruct (boot_map_region _ _ _ _ _ demo_state) as [[] t|e t|] eqn:E.
  - destruct H as (l' & Hm).
    + clear. intros i Hi. change ((5000 + PGSIZE - 1) / PGSIZE) with 2 in Hi.
      assert (i = 0 \/ i = 1) as [->| ->] by lia; vm_compute; congruence.
    + exists t, l'. split; [reflexivity|exact Hm].
  - exfalso. vm_compute in E. discriminate E.
  - exfalso. vm_compute in E. discriminate E.
Defined.

(** The MMIO window in the middle of a table that exists. *)
Definition mmio_state : kstate :=
  set_mem (store32 ∅ (4 * 958) 0x1007) (set_kern_pgdir KERNBASE small_state).

Lemma mmio_pgdir : pgdir_wf mmio_state [5; 4] 0.
Proof.
  assert (forall i, 0 <= i < 1024 -> load32 (mem mmio_state) (slot 0 i) =
    if decide (i = 958) then 0x1007 else 0) as Hs.
  { intros i Hi. simpl. change (store32 ∅ (4 * 958) 0x1007) with (store32 ∅ (slot 0 958) 0x1007).
    rewrite load_slot_store by (done || lia). case_decide as E1; case_decide as E2;
      reflexivity || apply load32_empty || (exfalso; lia). }
  split.
  - reflexivity.
  - simpl. lia.
  - change (0 / 4096) with 0. set_solver.
  - intros i Hi. rewrite Hs by done. case_decide; [|discriminate].
    intros _. change (PTE_ADDR 0x1007 / 4096) with 1. simpl. split; [lia|set_solver].
  - intros i Hi _. rewrite Hs by done. case_decide; [|discriminate].
    intros _. vm_compute. congruence.
  - intros i j Hi Hj _ _ Hne. rewrite !Hs by done.
    case_decide; [|discriminate]. case_decide; [lia|discriminate].
Qed.

Lemma mmio_map_region_maps_witness :
  exists t, mmio_map_region 0xfee00000 4096 mmio_state = Ok MMIOBASE t /\
    mmio_base t = MMIOBASE + 4096.
Proof.
  assert (pages_wf mmio_state [5; 4]) as Hw
    by (eapply pages_wf_ext; [exact small_state_wf|reflexivity..]).
  pose proof (mmio_map_region_maps mmio_state [5; 4] 0 0xfee00000 4096 Hw eq_refl mmio_pgdir
    ltac:(lia) ltac:(lia) ltac:(vm_compute; congruence)
    ltac:(vm_compute; split; congruence) eq_refl ltac:(vm_compute; reflexivity)) as H.
  unfold wp in H.
  destruct (mmio_map_region 0xfee00000 4096 mmio_state) as [r t|e t|] eqn:E;
    [|exfalso; vm_compute in E; discriminate E..].
  destruct H as (Hr & _ & Hb & _). exists t. split; [|exact Hb]. rewrite Hr. reflexivity.
Defined.

Lemma check_va2pa_translates_witness :
  check_va2pa (KERNBASE + 0) 0x800123 mapped_state = Ok 0x3000 mapped_state.
Proof.
  rewrite (check_va2pa_translates mapped_state [5; 4] 0 0x800123 mapped_wf mapped_pgdir).
  reflexivity.
Defined.

Lemma uvpt_selfmap_witness :
  let m := store32 (store32 ∅ (0x1000 + 4 * 957) (Z.lor (Z.lor 0x1000 PTE_U) PTE_P))
             (0x1000 + 4 * 2) 0x2007 in
  mmu m 0x1000 (uvpt (PGNUM 0x803000)) true false = Some (0x2000 + 4 * 3) /\
  mmu m 0x1000 (uvpt (PGNUM 0x803000)) true true = None.
Proof.
  intros m.
  destruct (uvpt_selfmap m 0x1000 0x803000 ltac:(lia) eq_refl ltac:(lia)) as (H1 & _ & H2 & _).
  - vm_compute. reflexivity.
  - split; [|exact H2]. rewrite H1; vm_compute; reflexivity.
Defined.

(** [mapped_state] with an environment whose directory is page 0. *)
Definition env_state : kstate :=
  set_envs {[ 0 := set_env_pgdir KERNBASE (set_env_id 0x1000 (set_env_status ENV_RUNNING env0)) ]}
    mapped_state.

Lemma env_state_wf : pages_wf env_state [5; 4] /\ pgdir_wf env_state [5; 4] 0.
Proof.
  split.
  - eapply pages_wf_ext; [exact mapped_wf|reflexivity..].
  - eapply pgdir_wf_mono; [exact mapped_pgdir|reflexivity|done|by left].
Qed.

Lemma user_mem_check_exact_witness :
  user_mem_check 0 0x800f00 16 (Z.lor PTE_U PTE_P) env_state = Ok 0 env_state.
Proof.
  destruct env_state_wf as [Hw Hd].
  destruct (user_mem_check_exact env_state [5; 4] 0 _ 0 0x800f00 16 (Z.lor PTE_U PTE_P) Hw
    ltac:(vm_compute; reflexivity) ltac:(vm_compute; reflexivity) Hd
    ltac:(lia) ltac:(lia) ltac:(vm_compute; congruence)) as [[_ H]|(a & H1 & _ & H2 & H3 & _)].
  - exact H.
  - exfalso. unfold PGSIZE in *. assert (a / 4096 = 0x800) as Ea by zlia. rewrite Ea in H2.
    clear - H2. vm_compute in H2. discriminate H2.
Defined.

Lemma user_mem_check_wraps_witness :
  user_mem_check 0 0xf0100000 0xfff00000 (Z.lor PTE_U PTE_P) env_state = Ok 0 env_state.
Proof.
  apply (user_mem_check_wraps env_state 0 _ 0xf0100000 0xfff00000 (Z.lor PTE_U PTE_P)
    ltac:(vm_compute; reflexivity)); vm_compute; (split; congruence) || congruence.
Defined.
