(* ===== verification/Env.v ===== *)
(** * Env: environments, kern/env.c

    Allocation and lookup of environments, their address spaces, loading an ELF
    image, and entry to user mode.  env_destroy, which calls the scheduler, is in
    [Sched].  [kernel_lock] is taken and released as kern/spinlock.c does for the
    CPU that executes; [Spinlock] treats the interleaving of several CPUs. *)

From S2P Require Import Prelude Layout Memory CString Printfmt Kernel PageAlloc PageTable.

(** ** The big kernel lock *)

Definition holding (lk : spinlock) (me : Z) : bool :=
  ctrue (locked lk) && bool_decide (lk_cpu lk = Some me).

(** spin_lock: with the lock taken by another CPU, [xchg] keeps returning 1. *)
Definition spin_lock : K unit :=
  lk ← get kernel_lock;
  me ← get cpunum;
  if holding lk me then panic "CPU %d cannot acquire %s: already holding"
  else if negb (locked lk =? 0) then leave Spinning
  else modify (set_kernel_lock (mkSpinlock 1 (Some me))).

Definition spin_unlock : K unit :=
  lk ← get kernel_lock;
  me ← get cpunum;
  if negb (holding lk me) then
    match lk_cpu lk with
    | Some c => _ ← cprintf "CPU %d cannot release %s: held by CPU %d" [me; c]; panic "spin_unlock"
    | None => undefined          (* lk->cpu->cpu_id with a null lk->cpu *)
    end
  else modify (set_kernel_lock (mkSpinlock 0 None)).

Definition lock_kernel : K unit := spin_lock.
Definition unlock_kernel : K unit := spin_unlock.

(** ** Names *)

Definition ENVGENSHIFT : Z := 12.

(** The result code and the pointer stored in [*env_store]. *)
Definition envid2env (envid : Z) (checkperm : bool) : K (Z * option Z) :=
  if envid =? 0 then
    c ← curenv; mret (0, c)
  else
    let e := ENVX envid in
    v ← get_env e;
    if bool_decide (env_status v = ENV_FREE) || negb (env_id v =? envid)
    then mret (- E_BAD_ENV, None)
    else
      c ← curenv;
      denied ← (if checkperm && negb (bool_decide (c = Some e)) then
                  cp ← curenv_ptr;
                  cv ← get_env cp;
                  mret (negb (env_parent_id v =? env_id cv))
                else mret false);
      if denied : bool then mret (- E_BAD_ENV, None) else mret (0, Some e).

Definition env_init_percpu : K unit := tell Lgdt.

Definition env_init : K unit :=
  _ ← modify (set_env_free_list None);
  _ ← kfor (Z.to_nat NENV) 0 (fun k =>
        let i := NENV - 1 - k in
        fl ← get env_free_list;
        _ ← upd_env i (fun v => set_env_link fl (set_env_id 0 v));
        modify (set_env_free_list (Some i)));
  env_init_percpu.

(** ** Allocation *)

Definition env_setup_vm (e : Z) : K Z :=
  p ← page_alloc ALLOC_ZERO;
  match p with
  | None => mret (- E_NO_MEM)
  | Some p =>
      _ ← page_incref p;
      kva ← page2kva p;
      _ ← upd_env e (set_env_pgdir kva);
      kp ← get kern_pgdir;
      _ ← kmemcpy kva kp PGSIZE;
      pa ← PADDR kva;
      _ ← kstore32 (kva + 4 * PDX UVPT) (Z.lor (Z.lor pa PTE_P) PTE_U);
      mret 0
  end.

(** The id of a new environment in slot [e] whose last id was [id]. *)
Definition env_generation (id : Z) : Z :=
  let generation := Z.land (s32 (id + Z.shiftl 1 ENVGENSHIFT)) (Z.lnot (NENV - 1)) in
  if generation <=? 0 then Z.shiftl 1 ENVGENSHIFT else generation.

(** The registers of a new environment. *)
Definition env_alloc_tf : Trapframe :=
  let tf := set_tf_ds (Z.lor GD_UD 3) tf0 in
  let tf := set_tf_es (Z.lor GD_UD 3) tf in
  let tf := set_tf_ss (Z.lor GD_UD 3) tf in
  let tf := set_tf_esp USTACKTOP tf in
  let tf := set_tf_cs (Z.lor GD_UT 3) tf in
  set_tf_eflags (Z.lor (tf_eflags tf) FL_IF) tf.

(** The record of the environment in slot [e] when it is handed out. *)
Definition env_alloc_init (e parent_id : Z) (v : Env) : Env :=
  let v := set_env_id (Z.lor (env_generation (env_id v)) e) v in
  let v := set_env_parent_id parent_id v in
  let v := set_env_type ENV_TYPE_USER v in
  let v := set_env_status ENV_RUNNABLE v in
  let v := set_env_runs 0 v in
  let v := set_env_tf env_alloc_tf v in
  let v := set_env_pgfault_upcall 0 v in
  set_env_ipc_recving false v.

(** The id that a log line starts with. *)
Definition curenv_id : K Z :=
  c ← curenv;
  match c with
  | Some e => v ← get_env e; mret (env_id v)
  | None => mret 0
  end.

Definition env_alloc (parent_id : Z) : K (Z * option Z) :=
  fl ← get env_free_list;
  match fl with
  | None => mret (- E_NO_FREE_ENV, None)
  | Some e =>
      r ← env_setup_vm e;
      if r <? 0 then mret (r, None)
      else
        _ ← upd_env e (env_alloc_init e parent_id);
        v ← get_env e;
        _ ← modify (set_env_free_list (env_link v));
        cid ← curenv_id;
        _ ← cprintf "[%08x] new env %08x" [cid; env_id v];
        mret (0, Some e)
  end.

(** ** Loading a program *)

Definition region_alloc (e va len : Z) : K unit :=
  let begin_va := ROUNDDOWN va PGSIZE in
  let end_va := ROUNDUP (va + len) PGSIZE in
  kfor (Z.to_nat ((end_va - begin_va) / PGSIZE)) 0 (fun i =>
    pp ← page_alloc 0;
    match pp with
    | None => panic "region_alloc() faild: pp == NULL"
    | Some pp =>
        v ← get_env e;
        r ← page_insert (env_pgdir v) pp (begin_va + i * PGSIZE) (Z.lor PTE_W PTE_U);
        if r =? - E_NO_MEM then panic "region_alloc() faild: page_inset() == -E_NO_MEM"
        else mret tt
    end).

Definition lcr3 (pa : Z) : K unit := modify (set_cr3 pa).

(** Accesses of the kernel through the current page directory. *)
Definition vload8 (va : Z) : K Z := fun s =>
  match mmu (mem s) (cr3 s) va false false with
  | Some pa => Ok (load8 (mem s) pa) s
  | None => Leave (KernelFault va) s
  end.
Definition vstore8 (va v : Z) : K unit := fun s =>
  match mmu (mem s) (cr3 s) va false true with
  | Some pa => Ok tt (set_mem (store8 (mem s) pa v) s)
  | None => Leave (KernelFault va) s
  end.
Definition vstore32 (va v : Z) : K unit :=
  _ ← vstore8 va v;
  _ ← vstore8 (u32 (va + 1)) (Z.shiftr v 8);
  _ ← vstore8 (u32 (va + 2)) (Z.shiftr v 16);
  vstore8 (u32 (va + 3)) (Z.shiftr v 24).
(** memset and memcpy on such addresses, byte by byte. *)
Definition vmemset (va c n : Z) : K unit :=
  kfor (Z.to_nat n) 0 (fun i => vstore8 (u32 (va + i)) c).
Definition vmemcpy (dst src n : Z) : K unit :=
  kfor (Z.to_nat n) 0 (fun i => b ← vload8 (u32 (src + i)); vstore8 (u32 (dst + i)) b).

Definition ELF_MAGIC : Z := 0x464C457F.
Definition ELF_PROG_LOAD : Z := 1.

(** struct Proghdr, as load_icode reads it. *)
Record Proghdr := mkProghdr {
  p_type : Z;
  p_offset : Z;
  p_va : Z;
  p_pa : Z;
  p_filesz : Z;
  p_memsz : Z;
}.
Definition sizeof_Proghdr : Z := 32.
Definition read_Proghdr (ph : Z) : K Proghdr :=
  t ← kload32 ph;
  o ← kload32 (ph + 4);
  v ← kload32 (ph + 8);
  a ← kload32 (ph + 12);
  f ← kload32 (ph + 16);
  m ← kload32 (ph + 20);
  mret (mkProghdr t o v a f m).

Definition load_segment (e binary : Z) (ph : Proghdr) : K unit :=
  kwhen (p_type ph =? ELF_PROG_LOAD)
    (_ ← region_alloc e (p_va ph) (p_memsz ph);
     _ ← vmemset (p_va ph) 0 (p_memsz ph);
     vmemcpy (p_va ph) (u32 (binary + p_offset ph)) (p_filesz ph)).

Definition load_icode (e binary : Z) : K unit :=
  magic ← kload32 binary;
  _ ← (if negb (magic =? ELF_MAGIC) then panic "Not ELF!" else mret tt);
  e_phoff ← kload32 (binary + 28);
  e_phnum ← (w ← kload32 (binary + 44); mret (u16 w));
  v ← get_env e;
  pa ← PADDR (env_pgdir v);
  _ ← lcr3 pa;
  _ ← kfor (Z.to_nat e_phnum) 0 (fun i =>
        ph ← read_Proghdr (u32 (binary + e_phoff) + i * sizeof_Proghdr);
        load_segment e binary ph);
  kp ← get kern_pgdir;
  kpa ← PADDR kp;
  _ ← lcr3 kpa;
  e_entry ← kload32 (binary + 24);
  _ ← upd_env e (fun v => set_env_tf (set_tf_eip e_entry (env_tf v)) v);
  region_alloc e (USTACKTOP - PGSIZE) PGSIZE.

Definition env_create (binary : Z) (type : EnvType) : K unit :=
  r ← env_alloc 0;
  match r with
  | (0, Some e) =>
      _ ← load_icode e binary;
      upd_env e (set_env_type type)
  | _ => panic "env_create() failed"
  end.

(** ** Freeing *)

(** The page table of directory entry [pdeno]: unmap its pages, then free it. *)
Definition env_free_table (pgdir pdeno : Z) : K unit :=
  v ← kload32 (pgdir + 4 * pdeno);
  kwhen (present v)
    (let pa := PTE_ADDR v in
     pt ← KADDR pa;
     _ ← kfor 1024 0 (fun pteno =>
           w ← kload32 (pt + 4 * pteno);
           kwhen (present w) (page_remove pgdir (PGADDR pdeno pteno 0)));
     _ ← kstore32 (pgdir + 4 * pdeno) 0;
     pp ← pa2page pa;
     page_decref pp).

Definition env_free (e : Z) : K unit :=
  c ← curenv;
  _ ← kwhen (bool_decide (c = Some e)) (kp ← get kern_pgdir; pa ← PADDR kp; lcr3 pa);
  cid ← curenv_id;
  v ← get_env e;
  _ ← cprintf "[%08x] free env %08x" [cid; env_id v];
  _ ← kfor (Z.to_nat (PDX UTOP)) 0 (env_free_table (env_pgdir v));
  pa ← PADDR (env_pgdir v);
  _ ← upd_env e (set_env_pgdir 0);
  pp ← pa2page pa;
  _ ← page_decref pp;
  fl ← get env_free_list;
  _ ← upd_env e (fun v => set_env_link fl (set_env_status ENV_FREE v));
  modify (set_env_free_list (Some e)).

(** ** Entering user mode *)

(** popal, popl, iret: every register is loaded from the frame. *)
Definition env_pop_tf (e : Z) : K unit :=
  cp ← curenv_ptr;
  me ← get cpunum;
  _ ← upd_env cp (set_env_cpunum me);
  v ← get_env e;
  leave (ToUser e (env_tf v)).

Definition env_run (e : Z) : K unit :=
  c ← curenv;
  _ ← (match c with
       | Some o =>
           v ← get_env o;
           kwhen (bool_decide (env_status v = ENV_RUNNING)) (upd_env o (set_env_status ENV_RUNNABLE))
       | None => mret tt
       end);
  _ ← set_curenv (Some e);
  _ ← upd_env e (fun v => set_env_runs (u32 (env_runs v + 1)) (set_env_status ENV_RUNNING v));
  v ← get_env e;
  pa ← PADDR (env_pgdir v);
  _ ← lcr3 pa;
  _ ← unlock_kernel;
  env_pop_tf e.

(** ** Access to the records *)

Lemma get_env_run s e v : envs s !! e = Some v -> get_env e s = Ok v s.
Proof. intros H. unfold get_env. by rewrite H. Qed.

Lemma upd_env_run s e v f :
  envs s !! e = Some v -> upd_env e f s = Ok tt (set_envs (<[e := f v]> (envs s)) s).
Proof. intros H. unfold upd_env. by kstep (get_env_run s e v H). Qed.

Lemma thiscpu_run s c : cpus s !! cpunum s = Some c -> thiscpu s = Ok c s.
Proof. intros H. unfold thiscpu. by rewrite H. Qed.

Lemma curenv_run s c : cpus s !! cpunum s = Some c -> curenv s = Ok (cpu_env c) s.
Proof. intros H. unfold curenv. by kstep (thiscpu_run s c H). Qed.

Lemma upd_cpu_run s c f :
  cpus s !! cpunum s = Some c ->
  upd_cpu f s = Ok tt (set_cpus (<[cpunum s := f c]> (cpus s)) s).
Proof. intros H. unfold upd_cpu. by kstep (thiscpu_run s c H). Qed.

(** The executing CPU's current environment. *)
Definition cur (s : kstate) : option Z := cpus s !! cpunum s ≫= cpu_env.

(** ** envid2env *)

(** The environment [e] is the caller or one of its children. *)
Definition may_control (s : kstate) (e : Z) (v : Env) : Prop :=
  cur s = Some e \/
  exists c cv, cur s = Some c /\ envs s !! c = Some cv /\ env_parent_id v = env_id cv.

(** C20: envid2env accepts exactly the live environments the caller may name.  For
    a non-zero id it yields the environment in slot ENVX(id) when that is not
    free, its id is exactly [envid] (so ids of earlier environments in the slot
    are refused) and, if [checkperm] is set, it is the current environment or a
    child of it; in every other case it yields a null pointer and -E_BAD_ENV.
    Id 0 is the current environment.  Nothing changes. *)
Theorem envid2env_exact s envid checkperm v :
  is_Some (cpus s !! cpunum s) ->
  (checkperm = true -> exists c, cur s = Some c /\ is_Some (envs s !! c)) ->
  envs s !! ENVX envid = Some v ->
  (envid = 0 -> envid2env envid checkperm s = Ok (0, cur s) s) /\
  (envid <> 0 -> env_status v <> ENV_FREE -> env_id v = envid ->
     (checkperm = true -> may_control s (ENVX envid) v) ->
     envid2env envid checkperm s = Ok (0, Some (ENVX envid)) s) /\
  (envid <> 0 -> env_status v = ENV_FREE \/ env_id v <> envid \/
       (checkperm = true /\ ~ may_control s (ENVX envid) v) ->
     envid2env envid checkperm s = Ok (- E_BAD_ENV, None) s).
Proof.
  intros [c Hc] Hperm Hv. assert (cur s = cpu_env c) as Ecur by (unfold cur; by rewrite Hc).
  assert (envid <> 0 -> envid2env envid checkperm s =
    if bool_decide (env_status v = ENV_FREE) || negb (env_id v =? envid)
    then Ok (- E_BAD_ENV, None) s
    else if checkperm && negb (bool_decide (cur s = Some (ENVX envid)))
    then match cur s ≫= fun c => envs s !! c with
         | Some cv => if env_parent_id v =? env_id cv then Ok (0, Some (ENVX envid)) s
                      else Ok (- E_BAD_ENV, None) s
         | None => Undef
         end
    else Ok (0, Some (ENVX envid)) s) as Hrun.
  { intros Hne. unfold envid2env. rewrite (proj2 (Z.eqb_neq _ _) Hne). cbv zeta.
    kstep (get_env_run s (ENVX envid) v Hv). destruct (_ || _); [done|].
    kstep (curenv_run s c Hc). rewrite <- Ecur.
    destruct checkperm; simpl andb; [|by ksteps].
    destruct (bool_decide (cur s = Some (ENVX envid))); simpl negb; cbv iota; [by ksteps|].
    destruct (Hperm eq_refl) as (cp & Hcp & [cv Hcv]). unfold curenv_ptr. ksteps.
    kstep (curenv_run s c Hc). rewrite <- Ecur, Hcp. ksteps. kstep (get_env_run s cp cv Hcv).
    ksteps. simpl. rewrite Hcv. by destruct (env_parent_id v =? env_id cv). }
  split; [|split].
  - intros ->. unfold envid2env. simpl. kstep (curenv_run s c Hc). by rewrite Ecur.
  - intros Hne Hst Hid Hmc. rewrite Hrun by done. clear Hrun. rewrite bool_decide_eq_false_2 by done.
    rewrite (proj2 (Z.eqb_eq _ _) Hid). simpl. destruct checkperm; [|done]. simpl.
    case_bool_decide as Ec; [done|]. simpl.
    destruct (Hmc eq_refl) as [H|(cp & cv & Hcp & Hcv & Hpid)]; [by destruct Ec|].
    rewrite Hcp. simpl. rewrite Hcv, Hpid. by rewrite (proj2 (Z.eqb_eq _ _) eq_refl).
  - intros Hne Hbad. rewrite Hrun by done. clear Hrun.
    case_bool_decide as Ef; [done|]. destruct (env_id v =? envid) eqn:Eid; [|done]. simpl.
    bcomp. destruct Hbad as [H|[H|[-> Hmc]]]; [done|done|]. simpl.
    case_bool_decide as Ec; [by destruct Hmc; left; apply Ec|]. simpl.
    destruct (Hperm eq_refl) as (cp & Hcp & [cv Hcv]). rewrite Hcp. simpl. rewrite Hcv.
    destruct (env_parent_id v =? env_id cv) eqn:Ep; [|done]. bcomp.
    destruct Hmc. right. exists cp, cv. done.
Qed.

(** ** Environment ids *)

(** The id of a new environment: positive, for its slot, and not the last one used
    there. *)
Lemma env_generation_spec id e :
  0 <= id < 0x80000000 -> 0 <= e < NENV ->
  let id' := Z.lor (env_generation id) e in
  0 < id' < 0x80000000 /\ ENVX id' = e /\ id' <> id.
Proof.
  change NENV with 1024. intros Hid He id'.
  assert (exists g, env_generation id = g * 1024 /\ 0 < g < 2097152 /\
    (g * 1024 <> id / 1024 * 1024)) as (g & Eg & Hg & Hne).
  { unfold env_generation. change (Z.shiftl 1 ENVGENSHIFT) with 4096.
    change (NENV - 1) with (Z.ones 10). rewrite land_high by lia. change (2 ^ 10) with 1024.
    assert (s32 (id + 4096) = if id + 4096 <? 0x80000000 then id + 4096
                              else id + 4096 - 0x100000000) as ->.
    { unfold s32. rewrite u32_small by lia. by case_if. }
    cbv zeta. destruct (id + 4096 <? 0x80000000) eqn:E1; bcomp; case_if.
    - zlia.
    - exists ((id + 4096) / 1024). split; [done|]. split; zlia.
    - exists 4. split; [done|]. split; zlia.
    - zlia. }
  unfold id'. rewrite Eg. rewrite (lor_low (g * 1024) e 10) by (lia || zlia).
  split; [lia|]. split; [|zlia].
  unfold ENVX. change (NENV - 1) with (Z.ones 10). rewrite land_low by lia.
  change (2 ^ 10) with 1024. zlia.
Qed.

(** ** env_alloc *)

(** The physical address of the kernel's page directory, a page not on the list. *)
Record kern_dir_ok (s : kstate) (l : list Z) (kd : Z) : Prop := {
  kd_ptr : kern_pgdir s = KERNBASE + kd;
  kd_aligned : kd mod 4096 = 0;
  kd_range : 0 <= kd < npages s * 4096;
  kd_used : (kd / 4096 ∉ l);
}.

(** Memory after page [p] has become a copy of the kernel's directory with the
    UVPT entry pointing to itself. *)
Record fresh_pgdir (s : kstate) (kd p : Z) (m' : memory) : Prop := {
  fp_slot : forall i, 0 <= i < 1024 -> load32 m' (slot (p * 4096) i) =
    if decide (i = PDX UVPT) then Z.lor (Z.lor (p * 4096) PTE_P) PTE_U
    else load32 (mem s) (slot kd i);
  fp_mem : forall x, x / 4096 <> p -> load8 m' x = load8 (mem s) x;
}.

Lemma copied_slot m m' d s0 i :
  copied m m' d s0 4096 -> 0 <= i < 1024 -> load32 m' (slot d i) = load32 m (slot s0 i).
Proof.
  intros Hc Hi. unfold slot. apply load32_bytes_eq. intros k Hk.
  rewrite Hc, decide_True by lia. f_equal. lia.
Qed.

Lemma page2kva_run s p :
  0 <= p < npages s -> npages s <= MAXPAGES -> page2kva p s = Ok (KERNBASE + p * 4096) s.
Proof. apply KADDR_page. Qed.

(** env_setup_vm with page [p] at the head of the free list. *)
Lemma env_setup_vm_run s p l kd e v :
  pages_wf s (p :: l) -> kern_dir_ok s (p :: l) kd -> envs s !! e = Some v ->
  exists m',
    let s' := set_mem m' (set_envs (<[e := set_env_pgdir (KERNBASE + p * 4096) v]> (envs s))
                            (with_ref p 1 (popped p l s))) in
    env_setup_vm e s = Ok 0 s' /\ fresh_pgdir s kd p m' /\ pages_wf s' l.
Proof.
  intros Hw Hk Hv. unfold env_setup_vm.
  pose proof (pages_wf_range _ _ p Hw ltac:(apply list_elem_of_here)) as Hp.
  pose proof (wf_npages _ _ Hw) as Hn. unfold MAXPAGES in Hn.
  pose proof (kd_range _ _ _ Hk) as Hkr. pose proof (kd_aligned _ _ _ Hk) as Hka.
  pose proof (wf_nodup _ _ Hw) as Hnd. apply list.NoDup_cons in Hnd as [Hpl _].
  assert (kd / 4096 <> p) as Hkp.
  { intros E. apply (kd_used _ _ _ Hk). rewrite E. apply list_elem_of_here. }
  kstep (page_alloc_cons ALLOC_ZERO s p l Hw).
  change (ctrue (Z.land ALLOC_ZERO ALLOC_ZERO)) with true. cbv iota. set (s1 := set_mem _ _).
  assert (pages s1 !! p = Some (mkPageInfo None 0)) as Hp1
    by (simpl; by rewrite lookup_insert_eq).
  kstep (page_incref_run s1 p _ Hp1). simpl pp_ref. change (u16 (0 + 1)) with 1.
  set (s2 := with_ref p 1 s1).
  kstep (page2kva_run s2 p Hp ltac:(simpl; unfold MAXPAGES; lia)).
  assert (envs s2 !! e = Some v) as Hv2 by done.
  kstep (upd_env_run s2 e v (set_env_pgdir (KERNBASE + p * 4096)) Hv2). set (s3 := set_envs _ s2).
  ksteps. change (kern_pgdir s3) with (kern_pgdir s). rewrite (kd_ptr _ _ _ Hk).
  set (m1 := memset (mem s) (p * 4096) 0 PGSIZE) in *.
  assert (kmemcpy (KERNBASE + p * 4096) (KERNBASE + kd) PGSIZE s3 =
    Ok tt (set_mem (memcpy m1 (p * 4096) kd PGSIZE) s3)) as E.
  { unfold kmemcpy. rewrite !(proj2 (Z.ltb_ge _ _)) by lia. simpl.
    do 3 f_equal; lia. }
  kstep E. clear E. set (s4 := set_mem _ s3).
  assert (PADDR (KERNBASE + p * 4096) s4 = Ok (p * 4096) s4) as E.
  { unfold PADDR. rewrite (proj2 (Z.ltb_ge _ _)) by lia. unfold mret, K_ret. f_equal. lia. }
  kstep E. clear E. rewrite <- Z.add_assoc. pose proof (PDX_range UVPT) as Hu.
  kstep (kstore32_run s4 (p * 4096 + 4 * PDX UVPT) (Z.lor (Z.lor (p * 4096) PTE_P) PTE_U) ltac:(lia)).
  fold (slot (p * 4096) (PDX UVPT)).
  exists (store32 (memcpy m1 (p * 4096) kd PGSIZE) (slot (p * 4096) (PDX UVPT))
    (Z.lor (Z.lor (p * 4096) PTE_P) PTE_U)).
  split; [done|].
  assert (copied m1 (memcpy m1 (p * 4096) kd PGSIZE) (p * 4096) kd 4096) as Hcp.
  { apply (memmove_copied m1 (p * 4096) kd PGSIZE); unfold PGSIZE; lia. }
  assert (filled (mem s) m1 (p * 4096) 0 4096) as Hfl
    by (apply (memset_filled (mem s) (p * 4096) 0 PGSIZE); unfold PGSIZE; lia).
  split; [split|].
  - intros i Hi. rewrite load_slot_store by (done || zlia).
    destruct (decide (i = PDX UVPT)) as [->|Hne].
    + rewrite decide_True by done. apply u32_small.
      apply (lor_range _ _ 32); [lia| |vm_compute; split; congruence].
      apply (lor_range _ _ 32); [lia|lia|vm_compute; split; congruence].
    + rewrite decide_False by naive_solver. rewrite (copied_slot m1 _ _ kd i Hcp Hi).
      unfold m1. rewrite load_slot_zeroed by (done || zlia). rewrite decide_False; [done|]. zlia.
  - intros x Hx. rewrite load8_store32. unfold slot. rewrite !decide_False by zlia.
    rewrite (Hcp x), decide_False by zlia. by rewrite (Hfl x), decide_False by zlia.
  - eapply (pages_wf_ext (with_ref p 1 (popped p l s))); [|done..].
    apply with_ref_wf; [by apply popped_wf|done].
Qed.

Lemma env_setup_vm_nomem s e :
  pages_wf s [] -> exists lg, env_setup_vm e s = Ok (- E_NO_MEM) (set_log lg s).
Proof.
  intros Hw. unfold env_setup_vm. kstep (page_alloc_nil ALLOC_ZERO s Hw). eauto.
Qed.

Lemma curenv_id_run s c :
  cpus s !! cpunum s = Some c ->
  match cpu_env c with Some e => is_Some (envs s !! e) | None => True end ->
  exists i, curenv_id s = Ok i s.
Proof.
  intros Hc He. unfold curenv_id. kstep (curenv_run s c Hc).
  destruct (cpu_env c) as [e|]; [|by eauto]. destruct He as [v Hv].
  kstep (get_env_run s e v Hv). eauto.
Qed.

(** The record handed out for slot [e] whose record was [v], with directory [pgdir]. *)
Record fresh_env (e parent_id pgdir : Z) (v v' : Env) : Prop := {
  fe_id : 0 < env_id v' < 0x80000000 /\ ENVX (env_id v') = e /\ env_id v' <> env_id v;
  fe_parent : env_parent_id v' = parent_id;
  fe_status : env_status v' = ENV_RUNNABLE;
  fe_runs : env_runs v' = 0;
  fe_pgdir : env_pgdir v' = pgdir;
  fe_tf : env_tf v' = env_alloc_tf;
  fe_user : Z.land (tf_cs (env_tf v')) 3 = 3 /\ Z.land (tf_ss (env_tf v')) 3 = 3 /\
            Z.land (tf_eflags (env_tf v')) FL_IF = FL_IF /\ tf_esp (env_tf v') = USTACKTOP;
  fe_upcall : env_pgfault_upcall v' = 0 /\ env_ipc_recving v' = false;
}.

(** The state that env_alloc leaves when it takes slot [e], with record [v], and page [p]. *)
Definition env_handed_out (s : kstate) (p : Z) (l : list Z) (e parent_id : Z) (v : Env) (m : memory) : kstate :=
  let v' := env_alloc_init e parent_id (set_env_pgdir (KERNBASE + p * 4096) v) in
  set_env_free_list (env_link v') (set_envs (<[e := v']> (envs s)) (set_mem m (with_ref p 1 (popped p l s)))).

Lemma env_alloc_run s p l kd e parent_id v :
  pages_wf s (p :: l) -> kern_dir_ok s (p :: l) kd -> cpu_ok s ->
  env_free_list s = Some e -> envs s !! e = Some v ->
  exists m lg, let s' := set_log lg (env_handed_out s p l e parent_id v m) in
    env_alloc parent_id s = Ok (0, Some e) s' /\ fresh_pgdir s kd p m /\ pages_wf s' l.
Proof.
  intros Hw Hk (c & Hc & Hce) Ef Hv. unfold env_alloc. ksteps. rewrite Ef.
  destruct (env_setup_vm_run s p l kd e v Hw Hk Hv) as (m' & E & Hfp & Hw').
  kstep E. clear E. change (0 <? 0) with false. cbv iota. set (s1 := set_mem m' _) in *.
  set (v1 := set_env_pgdir (KERNBASE + p * 4096) v) in *.
  assert (envs s1 !! e = Some v1) as Hv1 by (simpl; by rewrite lookup_insert_eq).
  kstep (upd_env_run s1 e v1 (env_alloc_init e parent_id) Hv1).
  set (v' := env_alloc_init e parent_id v1). set (s2 := set_envs _ s1).
  assert (envs s2 !! e = Some v') as Hv2 by (simpl; by rewrite lookup_insert_eq).
  kstep (get_env_run s2 e v' Hv2). ksteps. set (s3 := set_env_free_list _ s2).
  assert (match cpu_env c with Some e => is_Some (envs s3 !! e) | None => True end) as Hce3.
  { destruct (cpu_env c) as [o|]; [|done]. simpl. rewrite !lookup_insert_is_Some'. auto. }
  destruct (curenv_id_run s3 c Hc Hce3) as [cid Ecid]. kstep Ecid.
  unfold cprintf. ksteps. exists m'. eexists. split; [|split; [done|]].
  - unfold env_handed_out. fold v1 v'. rewrite <- (insert_insert_eq (envs s) e v' v1). reflexivity.
  - eapply pages_wf_ext; [exact Hw'|done..].
Qed.

(** C21: env_alloc hands out a fresh environment.  With no free environment it
    returns -E_NO_FREE_ENV, with no free page -E_NO_MEM, and changes no record
    and not the free list.  Otherwise it takes the first free slot [e]: the
    record gets an id that is positive, names the slot and differs from the
    slot's previous id (so envid2env now refuses the old one), the given parent,
    status ENV_RUNNABLE, and registers that run in user mode with interrupts
    enabled and nothing left of the earlier environment; its page directory is a
    new page that equals the kernel's directory except for the UVPT entry, which
    maps the directory itself read-only; no other byte of memory and no other
    record changes. *)
Theorem env_alloc_fresh s l kd parent_id :
  pages_wf s l -> kern_dir_ok s l kd -> cpu_ok s ->
  (forall e, env_free_list s = Some e -> 0 <= e < NENV /\
     exists v, envs s !! e = Some v /\ 0 <= env_id v < 0x80000000) ->
  match env_free_list s, l with
  | None, _ => env_alloc parent_id s = Ok (- E_NO_FREE_ENV, None) s
  | Some _, [] => exists s', env_alloc parent_id s = Ok (- E_NO_MEM, None) s' /\
      envs s' = envs s /\ env_free_list s' = env_free_list s
  | Some e, p :: l' => exists v v' s', envs s !! e = Some v /\
      env_alloc parent_id s = Ok (0, Some e) s' /\
      envs s' = <[e := v']> (envs s) /\ fresh_env e parent_id (KERNBASE + p * 4096) v v' /\
      env_free_list s' = env_link v /\ pages_wf s' l' /\ ref_of s' p = 1 /\
      fresh_pgdir s kd p (mem s') /\
      (forall q, q <> p -> pages s' !! q = pages s !! q) /\
      (env_id v <> 0 -> ENVX (env_id v) = e -> forall chk,
         envid2env (env_id v) chk s' = Ok (- E_BAD_ENV, None) s')
  end.
Proof.
  intros Hw Hk Hc Hfl. destruct (env_free_list s) as [e|] eqn:Ef.
  2: { unfold env_alloc. ksteps. by rewrite Ef. }
  destruct (Hfl e eq_refl) as (He & v & Hv & Hid).
  destruct l as [|p l].
  { unfold env_alloc. ksteps. rewrite Ef.
    destruct (env_setup_vm_nomem s e Hw) as (lg & E). kstep E. by exists (set_log lg s). }
  destruct (env_alloc_run s p l kd e parent_id v Hw Hk Hc Ef Hv) as (m & lg & E & Hfp & Hw').
  pose proof (env_generation_spec (env_id v) e Hid He) as Hgen. cbv zeta in Hgen.
  set (v' := env_alloc_init e parent_id (set_env_pgdir (KERNBASE + p * 4096) v)).
  exists v, v'. eexists. split; [done|]. split; [exact E|].
  split; [done|]. split; [by split|]. split; [done|]. split; [done|].
  split; [unfold ref_of; simpl; by rewrite lookup_alter_eq, lookup_insert_eq|].
  split; [done|]. split; [intros q Hq; simpl; by rewrite lookup_alter_ne, lookup_insert_ne|].
  intros Hnz Hx chk. set (s4 := set_log lg _) in *.
  assert (envs s4 !! e = Some v') as Hv4 by apply lookup_insert_eq.
  unfold envid2env. rewrite (proj2 (Z.eqb_neq _ _) Hnz). cbv zeta. rewrite Hx.
  kstep (get_env_run s4 e v' Hv4).
  rewrite (proj2 (Z.eqb_neq (env_id v') (env_id v))); [|apply Hgen].
  by rewrite orb_true_r.
Qed.

(** ** Examples

    [run_state]: environment 0, with id 0x1000, runs on the CPU.  [free_state]: the
    same slot is free and its last id was 0x1000. *)

Definition run_env : Env :=
  set_env_pgdir KERNBASE (set_env_id 0x1000 (set_env_status ENV_RUNNING env0)).
Definition run_state : kstate :=
  set_cpus {[ 0 := mkCpuInfo 0 CPU_STARTED (Some 0) 0 0 ]} env_state.

Definition free_env : Env := set_env_id 0x1000 env0.
Definition free_state : kstate :=
  set_kern_pgdir KERNBASE (set_env_free_list (Some 0) (set_envs {[ 0 := free_env ]} mapped_state)).

Lemma envid2env_exact_witness :
  envid2env 0x1000 true run_state = Ok (0, Some 0) run_state /\
  envid2env 0x2000 true run_state = Ok (- E_BAD_ENV, None) run_state /\
  envid2env 0 true run_state = Ok (0, Some 0) run_state.
Proof.
  assert (is_Some (cpus run_state !! cpunum run_state)) as Hc by (eexists; reflexivity).
  assert (true = true -> exists c, cur run_state = Some c /\ is_Some (envs run_state !! c)) as Hp
    by (intros _; exists 0; split; [reflexivity|eexists; reflexivity]).
  destruct (envid2env_exact run_state 0x1000 true run_env Hc Hp eq_refl) as (_ & H1 & _).
  destruct (envid2env_exact run_state 0x2000 true run_env Hc Hp eq_refl) as (_ & _ & H2).
  destruct (envid2env_exact run_state 0 true run_env Hc Hp eq_refl) as (H3 & _ & _).
  split; [|split].
  - apply H1; [discriminate|discriminate|reflexivity|]. intros _. left. reflexivity.
  - apply H2; [discriminate|]. right. left. discriminate.
  - apply H3. reflexivity.
Defined.

Lemma env_alloc_fresh_witness :
  exists v s', env_alloc 0x1000 free_state = Ok (0, Some 0) s' /\
    envs s' !! 0 = Some v /\ env_status v = ENV_RUNNABLE /\ env_pgdir v = KERNBASE + 5 * 4096.
Proof.
  pose proof (env_alloc_fresh free_state [5; 4] 0 0x1000) as H.
  destruct H as (v & v' & s' & _ & E & He & Hf & _).
  - eapply pages_wf_ext; [exact mapped_wf|reflexivity..].
  - split; [reflexivity|reflexivity|simpl; lia|change (0 / 4096) with 0; set_solver].
  - exists (mkCpuInfo 0 CPU_STARTED None 0 0). split; [reflexivity|exact I].
  - intros e He. change (Some 0 = Some e) in He. injection He as <-.
    split; [change NENV with 1024; lia|]. exists free_env. split; [reflexivity|].
    simpl. lia.
  - exists v', s'. split; [exact E|]. split; [rewrite He; apply lookup_insert_eq|].
    split; [exact (fe_status _ _ _ _ _ Hf)|exact (fe_pgdir _ _ _ _ _ Hf)].
Defined.
