(* ===== verification/EnvFree.v ===== *)
(** * EnvFree: what freeing an environment releases

    env_free (Env.v) walks the user half of the environment's page tables, unmaps
    every page, frees every table and then the directory.  The lemmas follow the
    loops; the theorem accounts for every reference. *)

From S2P Require Import Prelude Layout Memory Kernel PageAlloc PageTable Env.

(** ** Sums over an initial segment *)

Definition sum_to (f : Z -> Z) (n : Z) : Z := foldr Z.add 0 (f <$> seqZ 0 n).

Lemma foldr_add_app (l : list Z) a : foldr Z.add a l = foldr Z.add 0 l + a.
Proof. induction l as [|x l IH]; cbn; lia. Qed.

Lemma sum_to_0 f : sum_to f 0 = 0.
Proof. done. Qed.
Lemma sum_to_S f n : 0 <= n -> sum_to f (n + 1) = sum_to f n + f n.
Proof.
  intros Hn. unfold sum_to. rewrite (seqZ_app 0 n 1) by lia.
  assert (seqZ (0 + n) 1 = [n]) as -> by (unfold seqZ; cbn; f_equal; lia).
  rewrite fmap_app, foldr_app, (foldr_add_app (f <$> seqZ 0 n)). cbn. lia.
Qed.

Lemma sum_to_mono f n m : (forall i, 0 <= f i) -> 0 <= n <= m -> sum_to f n <= sum_to f m.
Proof.
  intros Hf Hn. replace m with (n + Z.of_nat (Z.to_nat (m - n))) by lia.
  induction (Z.to_nat (m - n)) as [|k IH]; [by rewrite Z.add_0_r|].
  replace (n + Z.of_nat (S k)) with (n + Z.of_nat k + 1) by lia.
  rewrite sum_to_S by lia. specialize (Hf (n + Z.of_nat k)). lia.
Qed.

Lemma sum_to_nonneg f n : (forall i, 0 <= f i) -> 0 <= n -> 0 <= sum_to f n.
Proof. intros Hf Hn. rewrite <- (sum_to_0 f). apply sum_to_mono; [done|lia]. Qed.

Lemma sum_to_zero f n : 0 <= n -> (forall i, 0 <= i < n -> f i = 0) -> sum_to f n = 0.
Proof.
  intros Hn. replace n with (Z.of_nat (Z.to_nat n)) by lia.
  induction (Z.to_nat n) as [|k IH]; intros H; [done|].
  replace (Z.of_nat (S k)) with (Z.of_nat k + 1) by lia.
  rewrite sum_to_S, IH, H; intros; try apply H; lia.
Qed.

Lemma sum_to_skip f n m :
  0 <= n <= m -> (forall i, n <= i < m -> f i = 0) -> sum_to f m = sum_to f n.
Proof.
  intros Hn. replace m with (n + Z.of_nat (Z.to_nat (m - n))) by lia.
  induction (Z.to_nat (m - n)) as [|k IH]; intros H; [by rewrite Z.add_0_r|].
  replace (n + Z.of_nat (S k)) with (n + Z.of_nat k + 1) in * by lia.
  rewrite sum_to_S, IH, H by (intros; try apply H; lia). lia.
Qed.

(** A sum with two summands that count. *)
Lemma sum_to_two f a b n :
  0 <= a -> a < b < n -> (forall i, 0 <= i < n -> i <> a -> i <> b -> f i = 0) -> sum_to f n = f a + f b.
Proof.
  intros Ha Hb H. rewrite (sum_to_skip f (b + 1) n) by (intros; try apply H; lia).
  rewrite sum_to_S, (sum_to_skip f (a + 1) b) by (intros; try apply H; lia).
  rewrite sum_to_S, sum_to_zero by (intros; try apply H; lia). lia.
Qed.

(** A loop whose body always returns. *)
Lemma kfor_run (I : Z -> kstate -> Prop) n i body s :
  I i s ->
  (forall j t, i <= j < i + Z.of_nat n -> I j t -> exists t', body j t = Ok tt t' /\ I (j + 1) t') ->
  exists t, kfor n i body s = Ok tt t /\ I (i + Z.of_nat n) t.
Proof.
  intros Hi Hb. pose proof (wp_kfor I no_exit body n i s Hi) as H. unfold wp in H.
  destruct (kfor n i body s) as [[] t| |]; [exists t; split; [done|]|exfalso..]; apply H;
    intros j t' Hj HI; destruct (Hb j t' Hj HI) as (t2 & -> & H2); done.
Qed.

(** ** The user half of an address space *)

(** The directory entries below UTOP, and the pages they can map. *)
Definition UTABLES : Z := 955.
Definition UPAGENUMS : Z := UTABLES * 1024.

Lemma UTABLES_UTOP : PDX UTOP = UTABLES.
Proof. by vm_compute. Qed.

(** The references to page [p] by the first [n] pages, and by the first [k] entries
    of the directory. *)
Definition page_refs (m : memory) (d p n : Z) : Z := sum_to (fun i => maps_to m d (i * 4096) p) n.
Definition table_ref (m : memory) (d p i : Z) : Z :=
  if present (load32 m (slot d i)) && (PTE_ADDR (load32 m (slot d i)) =? p * 4096) then 1 else 0.
Definition table_refs (m : memory) (d p k : Z) : Z := sum_to (table_ref m d p) k.

(** An address space that belongs to one environment: its mapped user pages are
    allocated, hold no table, and are counted; its tables and its directory have
    no other reference. *)
Record space_owned (s : kstate) (l : list Z) (d : Z) : Prop := {
  so_pages : pages_wf s l;
  so_dir : pgdir_wf s l d;
  so_mapped : forall va e, PDX va < UTABLES -> mapping (mem s) d va = Some e ->
    PTE_ADDR e / 4096 < npages s /\ (PTE_ADDR e / 4096 ∉ l) /\ ~ is_table s d (PTE_ADDR e / 4096);
  so_counted : forall p, page_refs (mem s) d p UPAGENUMS <= ref_of s p;
  so_refs : forall p, ref_of s p < 65536;
  so_tables : forall i, 0 <= i < UTABLES -> present (load32 (mem s) (slot d i)) = true ->
    ref_of s (PTE_ADDR (load32 (mem s) (slot d i)) / 4096) = 1;
  so_dir_ref : ref_of s (d / 4096) = 1;
  so_uvpt : PTE_ADDR (load32 (mem s) (slot d (PDX UVPT))) = d;
}.

Lemma mapping_same_page m d va va' : PGNUM va = PGNUM va' -> mapping m d va = mapping m d va'.
Proof.
  intros E. apply same_page_indexes in E as [E1 E2]. unfold mapping, pte, pte_addr, pde. by rewrite E1, E2.
Qed.

Section Release.
Context (s : kstate) (l : list Z) (d : Z).
Hypothesis Hown : space_owned s l d.
Hypothesis Hcpu : cpu_ok s.

(** State [t]: the pages numbered below [n] are unmapped and the tables below [k]
    are free; [l'] is the free list. *)
Record released (n k : Z) (t : kstate) (l' : list Z) : Prop := {
  rl_same : same_else s t;
  rl_pages : pages_wf t l';
  rl_dir : pgdir_wf t l' d;
  rl_map : forall va, PDX va <> PDX UVPT -> mapping (mem t) d va =
    if decide (PGNUM va < n) then None else mapping (mem s) d va;
  rl_slots : forall i, 0 <= i < 1024 -> load32 (mem t) (slot d i) =
    if decide (i < k /\ present (load32 (mem s) (slot d i)) = true) then 0
    else load32 (mem s) (slot d i);
  rl_ref : forall p, ref_of t p = ref_of s p - page_refs (mem s) d p n - table_refs (mem s) d p k;
  rl_list : forall p, p ∈ l' <-> p ∈ l \/ (ref_of t p = 0 /\ 0 < ref_of s p);
  rl_mem : forall x, ~ is_table s d (x / 4096) -> load8 (mem t) x = load8 (mem s) x;
}.

Lemma released_start : released 0 0 s l.
Proof using Hown.
  pose proof (so_pages _ _ _ Hown) as Hw.
  split; [reflexivity|done|apply Hown| | | | |done].
  - intros va Hv. pose proof (PGNUM_range va). by rewrite decide_False by lia.
  - intros i Hi. by rewrite decide_False by lia.
  - intros p. unfold page_refs, table_refs. rewrite !sum_to_0. lia.
  - intros p. split; [by left|]. intros [Hp|[H1 H2]]; [done|lia].
Qed.

Lemma maps_to_nonneg m va p : 0 <= maps_to m d va p.
Proof using. unfold maps_to. destruct (mapping m d va); [case_if|]; lia. Qed.
Lemma table_ref_nonneg m p i : 0 <= table_ref m d p i.
Proof using. unfold table_ref. case_if; lia. Qed.

(** A page that a user address maps is no table. *)
Lemma mapped_no_table va e k :
  PDX va < UTABLES -> mapping (mem s) d va = Some e -> 0 <= k <= UTABLES ->
  table_refs (mem s) d (PTE_ADDR e / 4096) k = 0.
Proof using Hown.
  intros Hva Hm Hk. destruct (so_mapped _ _ _ Hown va e Hva Hm) as (_ & _ & Ht).
  apply sum_to_zero; [lia|]. intros i Hi. unfold table_ref.
  destruct (present _) eqn:Ep; [|done]. cbn [andb]. case_if; [|done]. exfalso. apply Ht. right.
  exists i. unfold UTABLES in Hk. split; [lia|]. done.
Qed.

(** A table is mapped by no user address. *)
Lemma table_not_mapped i n :
  0 <= i < 1024 -> present (load32 (mem s) (slot d i)) = true -> 0 <= n <= UPAGENUMS ->
  page_refs (mem s) d (PTE_ADDR (load32 (mem s) (slot d i)) / 4096) n = 0.
Proof using Hown.
  intros Hi Hp Hn. apply sum_to_zero; [lia|]. intros j Hj. unfold maps_to.
  destruct (mapping (mem s) d (j * 4096)) as [e|] eqn:E; [|done]. case_if; [|done]. exfalso.
  unfold UPAGENUMS, UTABLES in Hn. assert (PDX (j * 4096) < UTABLES) as Hu.
  { rewrite PDX_div, u32_small by lia. unfold UTABLES. zlia. }
  destruct (so_mapped _ _ _ Hown _ _ Hu E) as (_ & _ & Ht). apply Ht. right. exists i.
  split; [done|split; [done|]]. rewrite Eb. pose proof (PTE_ADDR_aligned (load32 (mem s) (slot d i))). zlia.
Qed.

(** Page number [n] as an address. *)
Lemma page_number n : 0 <= n < UPAGENUMS -> PGNUM (n * 4096) = n /\ PDX (n * 4096) = n / 1024 /\
  PTX (n * 4096) = n mod 1024 /\ PDX (n * 4096) < UTABLES.
Proof using.
  unfold UPAGENUMS, UTABLES. intros Hn. rewrite PDX_div, PTX_div, PGNUM_page by lia.
  rewrite u32_small by lia. zlia.
Qed.

Lemma user_no_uvpt va : PDX va < UTABLES -> PDX va <> PDX UVPT.
Proof using. change (PDX UVPT) with 957. unfold UTABLES. lia. Qed.

Lemma page_refs_S p n : 0 <= n ->
  page_refs (mem s) d p (n + 1) = page_refs (mem s) d p n + maps_to (mem s) d (n * 4096) p.
Proof using. exact (sum_to_S (fun i => maps_to (mem s) d (i * 4096) p) n). Qed.

(** Nothing is mapped at page number [n]. *)
Lemma released_skip n k t l' :
  0 <= n < UPAGENUMS -> mapping (mem s) d (n * 4096) = None ->
  released n k t l' -> released (n + 1) k t l'.
Proof using.
  intros Hn Hnone [Hsame Hp Hd Hm Hs Hr Hl Hx]. destruct (page_number n Hn) as (En & _ & _ & Hu).
  split; try done.
  - intros va Hva. rewrite Hm by done. repeat case_decide; try done; [lia|].
    assert (PGNUM va = n) as E by lia. rewrite <- Hnone. apply mapping_same_page. congruence.
  - intros p. rewrite Hr, page_refs_S by lia. unfold maps_to. rewrite Hnone. lia.
Qed.

(** The conditions of page_remove for what is mapped at page number [n]. *)
Lemma released_mapped n k t l' e :
  0 <= n < UPAGENUMS -> 0 <= k <= UTABLES -> released n k t l' ->
  mapping (mem s) d (n * 4096) = Some e ->
  PTE_ADDR e / 4096 < npages t /\ (PTE_ADDR e / 4096 ∉ l') /\
  ~ is_table t d (PTE_ADDR e / 4096) /\ 1 <= ref_of t (PTE_ADDR e / 4096) < 65536.
Proof using Hown.
  intros Hn Hk R Hm. destruct (page_number n Hn) as (En & _ & _ & Hu).
  destruct (so_mapped _ _ _ Hown _ _ Hu Hm) as (Hq & Hl & Ht). set (q := PTE_ADDR e / 4096) in *.
  pose proof (rl_ref _ _ _ _ R q) as Hr. unfold q in Hr at 4.
  rewrite (mapped_no_table _ e k Hu Hm Hk) in Hr.
  pose proof (so_counted _ _ _ Hown q) as Hc. pose proof (so_refs _ _ _ Hown q) as Hb.
  pose proof (sum_to_mono (fun i => maps_to (mem s) d (i * 4096) q) (n + 1) UPAGENUMS
    ltac:(intros; apply maps_to_nonneg) ltac:(lia)) as Hle.
  pose proof (sum_to_nonneg (fun i => maps_to (mem s) d (i * 4096) q) n
    ltac:(intros; apply maps_to_nonneg) ltac:(lia)) as Hge.
  fold (page_refs (mem s) d q (n + 1)) (page_refs (mem s) d q UPAGENUMS) in Hle.
  fold (page_refs (mem s) d q n) in Hge. rewrite page_refs_S in Hle by lia.
  assert (maps_to (mem s) d (n * 4096) q = 1) as H1.
  { unfold maps_to. rewrite Hm. fold q. by rewrite Z.eqb_refl. }
  assert (1 <= ref_of t q < 65536) as Href by lia.
  split_and!; [|intros Hin|intros Hin|lia|lia].
  - by rewrite (same_else_npages _ _ (rl_same _ _ _ _ R)).
  - apply (rl_list _ _ _ _ R) in Hin as [Hin|[Hz _]]; [done|lia].
  - apply Ht. destruct Hin as [Hin|(i & Hi & Hp & Ha)]; [by left|]. right. exists i.
    rewrite (rl_slots _ _ _ _ R) in Hp, Ha by done. case_decide; [done|]. done.
Qed.

(** page_remove at page number [n]. *)
Lemma released_remove n k t l' e :
  0 <= n < UPAGENUMS -> 0 <= k <= UTABLES -> released n k t l' ->
  mapping (mem s) d (n * 4096) = Some e ->
  exists t' l'', page_remove (KERNBASE + d) (n * 4096) t = Ok tt t' /\ released (n + 1) k t' l''.
Proof using Hown Hcpu.
  intros Hn Hk R Hm. destruct (page_number n Hn) as (En & _ & _ & Hu).
  destruct (released_mapped n k t l' e Hn Hk R Hm) as (Hq & Hl & Ht & Hr).
  assert (mapping (mem t) d (n * 4096) = Some e) as Hm'.
  { rewrite (rl_map _ _ _ _ R) by (by apply user_no_uvpt). by rewrite decide_False by lia. }
  destruct (page_remove_mapped t l' d (n * 4096) e (rl_pages _ _ _ _ R) (rl_dir _ _ _ _ R)
    (cpu_ok_same _ _ (rl_same _ _ _ _ R) Hcpu) (user_no_uvpt _ Hu) Hm' Hq Hl Ht Hr)
    as (t' & l'' & E & M). set (q := PTE_ADDR e / 4096) in *.
  exists t', l''. split; [exact E|].
  assert (forall p, ref_of t' p = ref_of t p - maps_to (mem s) d (n * 4096) p) as Href.
  { intros p. unfold maps_to. rewrite Hm. fold q. destruct (Z.eqb_spec q p) as [<-|Hne].
    - by rewrite (rm_ref _ _ _ _ _ _ _ M).
    - unfold ref_of. rewrite (rm_refs _ _ _ _ _ _ _ M p) by done. lia. }
  split.
  - etrans; [apply (rl_same _ _ _ _ R)|apply (rm_same _ _ _ _ _ _ _ M)].
  - apply (rm_pages _ _ _ _ _ _ _ M).
  - apply (rm_dir _ _ _ _ _ _ _ M).
  - intros va Hva. rewrite (rm_map _ _ _ _ _ _ _ M), (rl_map _ _ _ _ R) by done. rewrite En.
    repeat case_decide; try done; lia.
  - intros i Hi. by rewrite (rm_slots _ _ _ _ _ _ _ M), (rl_slots _ _ _ _ R).
  - intros p. rewrite Href, (rl_ref _ _ _ _ R), page_refs_S by lia. lia.
  - intros p. rewrite (rm_list _ _ _ _ _ _ _ M), Href.
    assert (maps_to (mem s) d (n * 4096) p = if q =? p then 1 else 0) as ->
      by (unfold maps_to; by rewrite Hm).
    destruct (so_mapped _ _ _ Hown _ _ Hu Hm) as (_ & Hls & _). fold q in Hls.
    pose proof (so_counted _ _ _ Hown q) as Hcq. pose proof (rl_ref _ _ _ _ R q) as Hrq.
    assert (0 < ref_of s q) as Hpos.
    { unfold q in Hrq at 4. rewrite (mapped_no_table _ e k Hu Hm Hk) in Hrq. fold q in Hrq.
      pose proof (sum_to_nonneg (fun i => maps_to (mem s) d (i * 4096) q) n
        ltac:(intros; apply maps_to_nonneg) ltac:(lia)) as Hge.
      fold (page_refs (mem s) d q n) in Hge. lia. }
    destruct (Z.eqb_spec (ref_of t q) 1) as [E1|E1].
    + rewrite elem_of_cons, (rl_list _ _ _ _ R p). destruct (Z.eqb_spec q p) as [<-|Hne].
      * split; [intros _; right; lia|by left].
      * rewrite Z.sub_0_r. split; [intros [->|H]; done|by right].
    + rewrite (rl_list _ _ _ _ R p). destruct (Z.eqb_spec q p) as [<-|Hne]; [|by rewrite Z.sub_0_r].
      split; (intros [H|[H H']]; [by left|lia]).
  - intros x Hx. rewrite (rm_mem _ _ _ _ _ _ _ M).
    + by apply (rl_mem _ _ _ _ R).
    + intros [Hin|(i & Hi & Hp & Ha)]; apply Hx; [by left|]. right. exists i.
      rewrite (rl_slots _ _ _ _ R) in Hp, Ha by done. case_decide; done.
Qed.

(** One turn of the inner loop. *)
Lemma release_page n k t l' :
  0 <= k < UTABLES -> k * 1024 <= n < (k + 1) * 1024 ->
  present (load32 (mem s) (slot d k)) = true -> released n k t l' ->
  exists t' l'', (w ← kload32 (KERNBASE + PTE_ADDR (load32 (mem s) (slot d k)) + 4 * (n - k * 1024));
    kwhen (present w) (page_remove (KERNBASE + d) (PGADDR k (n - k * 1024) 0))) t = Ok tt t' /\
    released (n + 1) k t' l''.
Proof using Hown Hcpu.
  intros Hk Hn Hp R. assert (0 <= n < UPAGENUMS) as Hnu by (unfold UPAGENUMS, UTABLES in *; lia).
  destruct (page_number n Hnu) as (En & Ed & Ex & Hu).
  assert (n / 1024 = k /\ n mod 1024 = n - k * 1024) as [Ek Ej] by zlia. rewrite Ek in Ed. rewrite Ej in Ex.
  unfold UTABLES in Hk. pose proof (PTE_ADDR_range (load32 (mem s) (slot d k))) as Hr.
  rewrite <- Z.add_assoc.
  kstep (kload32_run t (PTE_ADDR (load32 (mem s) (slot d k)) + 4 * (n - k * 1024)) ltac:(lia)).
  rewrite PGADDR_add by lia. replace (k * 4194304 + (n - k * 1024) * 4096 + 0) with (n * 4096) by lia.
  assert (pde (mem t) d (n * 4096) = load32 (mem s) (slot d k)) as Epde.
  { rewrite pde_slot, Ed, (rl_slots _ _ _ _ R), decide_False by lia. done. }
  assert (load32 (mem t) (PTE_ADDR (load32 (mem s) (slot d k)) + 4 * (n - k * 1024))
    = pte (mem t) d (n * 4096)) as -> by (rewrite pte_slot, Epde, Ex; done).
  assert (mapping (mem s) d (n * 4096) =
    if present (pte (mem t) d (n * 4096)) then Some (pte (mem t) d (n * 4096)) else None) as Hm.
  { pose proof (rl_map _ _ _ _ R (n * 4096) (user_no_uvpt _ Hu)) as H.
    rewrite decide_False in H by lia. rewrite <- H. unfold mapping. by rewrite Epde, Hp. }
  destruct (present (pte (mem t) d (n * 4096))); cbn [kwhen].
  - apply (released_remove n k t l' (pte (mem t) d (n * 4096)) Hnu); [unfold UTABLES; lia|done|exact Hm].
  - exists t, l'. split; [done|]. by apply released_skip.
Qed.

(** ** One table *)

Lemma table_refs_S p k : 0 <= k ->
  table_refs (mem s) d p (k + 1) = table_refs (mem s) d p k + table_ref (mem s) d p k.
Proof using. apply sum_to_S. Qed.

(** A directory entry that is not present maps nothing. *)
Lemma released_absent k t l' :
  0 <= k < UTABLES -> present (load32 (mem s) (slot d k)) = false ->
  released (k * 1024) k t l' -> released ((k + 1) * 1024) (k + 1) t l'.
Proof using.
  intros Hk Hp R. assert (forall j, 0 <= j <= 1024 -> released (k * 1024 + j) k t l') as H.
  { intros j Hj. replace j with (Z.of_nat (Z.to_nat j)) in * by lia.
    induction (Z.to_nat j) as [|i IH]; [by rewrite Z.add_0_r|].
    replace (k * 1024 + Z.of_nat (S i)) with (k * 1024 + Z.of_nat i + 1) by lia.
    assert (0 <= k * 1024 + Z.of_nat i < UPAGENUMS) as Hn by (unfold UPAGENUMS, UTABLES in *; lia).
    destruct (page_number _ Hn) as (_ & Ed & _). apply released_skip; [done| |apply IH; lia].
    unfold mapping. rewrite pde_slot, Ed. replace ((k * 1024 + Z.of_nat i) / 1024) with k by zlia.
    by rewrite Hp. }
  specialize (H 1024 ltac:(lia)). replace ((k + 1) * 1024) with (k * 1024 + 1024) by lia.
  destruct H as [Hsame Hw Hd Hm Hs Hr Hl Hx]. split; try done.
  - intros i Hi. rewrite Hs by done. apply decide_ext.
    destruct (decide (i = k)) as [->|]; [rewrite Hp; intuition lia|intuition lia].
  - intros p. rewrite Hr, table_refs_S by lia. unfold table_ref. rewrite Hp. cbn. lia.
Qed.

(** The page of table [k] is referenced by entry [k] only. *)
Lemma table_refs_before k :
  0 <= k < UTABLES -> present (load32 (mem s) (slot d k)) = true ->
  table_refs (mem s) d (PTE_ADDR (load32 (mem s) (slot d k)) / 4096) k = 0.
Proof using Hown.
  intros Hk Hp. apply sum_to_zero; [lia|]. intros i Hi. unfold table_ref, UTABLES in *.
  destruct (present (load32 (mem s) (slot d i))) eqn:Ei; [|done]. cbn [andb]. case_if; [|done]. exfalso.
  change (PDX UVPT) with 957 in *. pose proof (PTE_ADDR_aligned (load32 (mem s) (slot d k))).
  apply (dw_distinct _ _ _ (so_dir _ _ _ Hown) i k); try done; try lia.
  - change (PDX UVPT) with 957. lia.
  - change (PDX UVPT) with 957. lia.
  - rewrite Eb. zlia.
Qed.

(** The directory after its entry [k] is cleared, with table [k] on the free list. *)
Lemma cleared_dir k t l' :
  0 <= k < UTABLES -> released ((k + 1) * 1024) k t l' ->
  present (load32 (mem s) (slot d k)) = true ->
  let t1 := set_mem (store32 (mem t) (slot d k) 0) t in
  let tp := PTE_ADDR (load32 (mem s) (slot d k)) / 4096 in
  (forall i, 0 <= i < 1024 -> load32 (mem t1) (slot d i) =
     if decide (i = k) then 0 else load32 (mem t) (slot d i)) /\
  pgdir_wf t1 (tp :: l') d /\ (tp ∉ l') /\ 0 <= tp < npages t.
Proof using Hown.
  intros Hk R Hp t1 tp. pose proof (rl_dir _ _ _ _ R) as Hd. pose proof (dw_aligned _ _ _ Hd) as Ha.
  assert (0 <= k < 1024 /\ k <> 957) as [Hk' Hku] by (unfold UTABLES in Hk; lia).
  assert (load32 (mem t) (slot d k) = load32 (mem s) (slot d k)) as Ek.
  { rewrite (rl_slots _ _ _ _ R), decide_False by lia. done. }
  pose proof (PTE_ADDR_aligned (load32 (mem s) (slot d k))) as Hta.
  pose proof (PTE_ADDR_range (load32 (mem s) (slot d k))) as Htr.
  assert (PTE_ADDR (load32 (mem s) (slot d k)) = tp * 4096) as Etp by (unfold tp; zlia).
  assert (forall i, 0 <= i < 1024 -> load32 (mem t1) (slot d i) =
    if decide (i = k) then 0 else load32 (mem t) (slot d i)) as Hl.
  { intros i Hi. unfold t1. cbn [mem set_mem]. rewrite load_slot_store by done.
    repeat case_decide; intuition congruence. }
  destruct (dw_table _ _ _ Hd k Hk' ltac:(by rewrite Ek)) as [Hn Hnl]. rewrite Ek in Hn, Hnl. fold tp in Hn, Hnl.
  split; [done|]. split; [|split; [done|lia]].
  assert (tp <> d / 4096) as Hne.
  { intros E. apply (dw_self _ _ _ Hd k Hk' Hku); [by rewrite Ek|]. rewrite Ek, Etp. zlia. }
  split; try (apply Hd).
  - rewrite not_elem_of_cons. split; [done|apply Hd].
  - intros i Hi. rewrite Hl by done. case_decide as Hik; [done|]. intros Hpi.
    destruct (dw_table _ _ _ Hd i Hi Hpi) as [H1 H2]. split; [exact H1|]. rewrite not_elem_of_cons.
    split; [|done]. intros E. pose proof (PTE_ADDR_aligned (load32 (mem t) (slot d i))) as Hai.
    destruct (decide (i = 957)) as [->|Hi9].
    + assert (PTE_ADDR (load32 (mem t) (slot d 957)) = d) as Ed.
      { rewrite (rl_slots _ _ _ _ R), decide_False by (unfold UTABLES in Hk; lia). apply (so_uvpt _ _ _ Hown). }
      apply Hne. rewrite <- E, Ed. done.
    + apply (dw_distinct _ _ _ Hd i k); try done; [by rewrite Ek|]. rewrite Ek, Etp, <- E. zlia.
  - intros i Hi Hiu. rewrite Hl by done. case_decide; [done|]. by apply (dw_self _ _ _ Hd).
  - intros i j Hi Hj Hiu Hju Hij. rewrite !Hl by done. repeat case_decide; try done.
    by apply (dw_distinct _ _ _ Hd).
Qed.

(** The mappings after entry [k] is cleared. *)
Lemma cleared_mapping k t l' va :
  0 <= k < UTABLES -> released ((k + 1) * 1024) k t l' ->
  (forall i, 0 <= i < 1024 -> load32 (store32 (mem t) (slot d k) 0) (slot d i) =
     if decide (i = k) then 0 else load32 (mem t) (slot d i)) ->
  PDX va <> PDX UVPT -> mapping (store32 (mem t) (slot d k) 0) d va = mapping (mem t) d va.
Proof using.
  intros Hk R Hl Hva. pose proof (rl_dir _ _ _ _ R) as Hd. pose proof (PDX_range va) as Hr.
  destruct (decide (PDX va = k)) as [E|Hne].
  - rewrite (rl_map _ _ _ _ R) by done. rewrite decide_True.
    + unfold mapping. rewrite pde_slot, Hl, decide_True by done. done.
    + rewrite PDX_div in E. rewrite PGNUM_div. zlia.
  - assert (pde (store32 (mem t) (slot d k) 0) d va = pde (mem t) d va) as Ep
      by (rewrite !pde_slot, Hl, decide_False by done; done).
    unfold mapping. rewrite Ep. destruct (present (pde (mem t) d va)) eqn:Ev; [|done].
    assert (pte (store32 (mem t) (slot d k) 0) d va = pte (mem t) d va) as ->; [|done].
    rewrite !pte_slot, Ep. rewrite load_slot_store; [|apply Hd|apply PTE_ADDR_aligned| |apply PTX_range].
    + rewrite decide_False; [done|]. intros [Hdd _]. rewrite pde_slot in *.
      by apply (dw_self _ _ _ Hd (PDX va)).
    + unfold UTABLES in Hk. lia.
Qed.

(** Dropping a reference of a page that is not free. *)
Lemma decref_ref t l' p pi q :
  pages t !! p = Some pi -> 1 <= pp_ref pi < 65536 ->
  ref_of (decref_state p (pp_ref pi) l' t) q = ref_of t q - (if p =? q then 1 else 0).
Proof using.
  intros Hp Hr. unfold decref_state. rewrite u16_small by lia. unfold ref_of.
  destruct (Z.eqb_spec p q) as [<-|Hne].
  - rewrite Hp. case_if; cbn [pages set_pages pushed with_ref].
    + unfold pushed, with_ref. cbn. rewrite lookup_insert_eq. cbn. lia.
    + unfold with_ref. cbn. rewrite lookup_alter_eq, Hp. done.
  - assert (pages (if pp_ref pi - 1 =? 0 then pushed p l' (with_ref p (pp_ref pi - 1) t)
      else with_ref p (pp_ref pi - 1) t) !! q = pages t !! q) as ->.
    { case_if; unfold pushed, with_ref; cbn; rewrite ?lookup_insert_ne, lookup_alter_ne by done; done. }
    lia.
Qed.

(** Clearing the entry and freeing the table. *)
Lemma release_cleared k t l' :
  0 <= k < UTABLES -> released ((k + 1) * 1024) k t l' ->
  present (load32 (mem s) (slot d k)) = true ->
  let pa := PTE_ADDR (load32 (mem s) (slot d k)) in
  exists t', (_ ← kstore32 (KERNBASE + d + 4 * k) 0; pp ← pa2page pa; page_decref pp) t = Ok tt t' /\
    released ((k + 1) * 1024) (k + 1) t' (pa / 4096 :: l').
Proof using Hown.
  intros Hk R Hp pa. destruct (cleared_dir k t l' Hk R Hp) as (Hl & Hd & Hnl & Hn). fold pa in Hd, Hnl, Hn.
  set (t1 := set_mem (store32 (mem t) (slot d k) 0) t) in *. set (tp := pa / 4096) in *.
  pose proof (dw_range _ _ _ Hd) as Hdr. pose proof (rl_pages _ _ _ _ R) as Hw.
  pose proof (PTE_ADDR_aligned (load32 (mem s) (slot d k))) as Hpa. fold pa in Hpa.
  rewrite <- Z.add_assoc. kstep (kstore32_run t (d + 4 * k) 0 ltac:(lia)).
  change (set_mem (store32 (mem t) (d + 4 * k) 0) t) with t1.
  kstep (pa2page_run t1 pa ltac:(cbn; unfold tp in Hn; zlia) ltac:(apply (wf_npages _ _ Hw))). fold tp.
  assert (ref_of s tp = 1) as Hs1 by by apply (so_tables _ _ _ Hown).
  assert (forall q, ref_of t q = ref_of s q - page_refs (mem s) d q ((k + 1) * 1024) - table_refs (mem s) d q k)
    as Hrt by apply (rl_ref _ _ _ _ R).
  assert (0 <= k < 1024) as Hk' by (unfold UTABLES in Hk; lia).
  assert (ref_of t tp = 1) as Ht1.
  { rewrite Hrt, Hs1. unfold tp, pa.
    rewrite table_refs_before, table_not_mapped by (done || unfold UPAGENUMS, UTABLES in *; lia). lia. }
  destruct (proj2 (wf_dom _ _ Hw tp) ltac:(lia)) as [pi Hpi].
  assert (pp_ref pi = 1) as Hpr by (unfold ref_of in Ht1; by rewrite Hpi in Ht1).
  assert (pages_wf t1 l') as Hw1 by by eapply (pages_wf_ext t).
  destruct (page_decref_run t1 l' tp pi Hw1 Hpi Hnl) as [E Hw2].
  destruct (decref_state_same tp (pp_ref pi) l' t1) as [Hsame Hmem].
  pose proof (fun q => decref_ref t1 l' tp pi q Hpi ltac:(lia)) as Href.
  assert (decref_list tp (pp_ref pi) l' = tp :: l') as El by (unfold decref_list; by rewrite Hpr).
  rewrite El in Hw2. set (t2 := decref_state tp (pp_ref pi) l' t1) in *. exists t2. split; [exact E|].
  assert (forall q, table_ref (mem s) d q k = if tp =? q then 1 else 0) as Htr.
  { intros q. unfold table_ref. rewrite Hp. cbn [andb]. fold pa. unfold tp.
    destruct (Z.eqb_spec pa (q * 4096)), (Z.eqb_spec (pa / 4096) q); try done; exfalso; zlia. }
  split.
  - etrans; [apply (rl_same _ _ _ _ R)|]. etrans; [|exact Hsame]. unfold t1, same_else. by destruct t.
  - done.
  - eapply pgdir_wf_mono; [exact Hd|by apply same_else_npages|by rewrite Hmem|by left].
  - intros va Hva. rewrite Hmem. unfold t1. cbn [mem set_mem].
    rewrite (cleared_mapping k t l') by done. by apply (rl_map _ _ _ _ R).
  - intros i Hi. rewrite Hmem, Hl, (rl_slots _ _ _ _ R) by done.
    destruct (decide (i = k)) as [->|Hne]; [by rewrite decide_True by (split; [lia|done])|].
    apply decide_ext. intuition lia.
  - intros q. rewrite Href, table_refs_S, Htr by lia. change (ref_of t1 q) with (ref_of t q). rewrite Hrt. lia.
  - intros q. rewrite elem_of_cons, (rl_list _ _ _ _ R q), Href. change (ref_of t1 q) with (ref_of t q).
    destruct (Z.eqb_spec tp q) as [<-|Hne].
    + split; [intros _; right; lia|by left].
    + rewrite Z.sub_0_r. split; [intros [->|H]; done|by right].
  - intros x Hx. rewrite Hmem. unfold t1. cbn [mem set_mem]. rewrite load8_store32.
    assert (x / 4096 <> d / 4096) as Hxd.
    { intros Ex. apply Hx. left. pose proof (dw_aligned _ _ _ Hd). zlia. }
    pose proof (dw_aligned _ _ _ Hd). unfold slot.
    rewrite !decide_False by (intros ->; apply Hxd; zlia). by apply (rl_mem _ _ _ _ R).
Qed.

(** One turn of the outer loop. *)
Lemma release_table k t l' :
  0 <= k < UTABLES -> released (k * 1024) k t l' ->
  exists t' l'', env_free_table (KERNBASE + d) k t = Ok tt t' /\
    released ((k + 1) * 1024) (k + 1) t' l''.
Proof using Hown Hcpu.
  intros Hk R. assert (0 <= k < 1024) as Hk' by (unfold UTABLES in Hk; lia).
  pose proof (rl_dir _ _ _ _ R) as Hd. pose proof (dw_range _ _ _ Hd). unfold env_free_table.
  rewrite <- Z.add_assoc. kstep (kload32_run t (d + 4 * k) ltac:(lia)). fold (slot d k).
  assert (load32 (mem t) (slot d k) = load32 (mem s) (slot d k)) as ->
    by (rewrite (rl_slots _ _ _ _ R), decide_False by lia; done).
  destruct (present (load32 (mem s) (slot d k))) eqn:Hp; cbn [kwhen].
  2: { exists t, l'. split; [done|]. by apply released_absent. }
  destruct (dw_table _ _ _ (so_dir _ _ _ Hown) k Hk' Hp) as [Hn _].
  pose proof (rl_pages _ _ _ _ R) as Hw. pose proof (wf_npages _ _ Hw) as Hnp.
  rewrite <- (same_else_npages _ _ (rl_same _ _ _ _ R)) in Hn.
  pose proof (PTE_ADDR_range (load32 (mem s) (slot d k))).
  kstep (KADDR_run t (PTE_ADDR (load32 (mem s) (slot d k))) ltac:(zlia) ltac:(lia)).
  match goal with |- context [kfor 1024 0 ?body] => set (b := body) end.
  destruct (kfor_run (fun i u => exists l2, released (k * 1024 + i) k u l2) 1024 0 b t)
    as (u & Eu & l2 & R2); [exists l'; by rewrite Z.add_0_r| |].
  { intros j u Hj (l2 & R2).
    destruct (release_page (k * 1024 + j) k u l2 Hk ltac:(lia) Hp R2) as (u' & l3 & Eu & R3).
    replace (k * 1024 + j - k * 1024) with j in Eu by lia. exists u'. split; [exact Eu|]. exists l3.
    by replace (k * 1024 + (j + 1)) with (k * 1024 + j + 1) by lia. }
  kstep Eu. replace (k * 1024 + (0 + Z.of_nat 1024)) with ((k + 1) * 1024) in R2 by lia.
  destruct (release_cleared k u l2 Hk R2 Hp) as (u' & E & R'). rewrite <- Z.add_assoc in E. eauto.
Qed.

(** All tables. *)
Lemma release_tables :
  exists t l', kfor (Z.to_nat (PDX UTOP)) 0 (env_free_table (KERNBASE + d)) s = Ok tt t /\
    released UPAGENUMS UTABLES t l'.
Proof using Hown Hcpu.
  change (Z.to_nat (PDX UTOP)) with (Z.to_nat 955).
  destruct (kfor_run (fun k u => exists l', released (k * 1024) k u l') (Z.to_nat 955) 0
    (env_free_table (KERNBASE + d)) s) as (t & E & l' & R); [exists l; apply released_start| |].
  - intros k t Hk (l' & R). destruct (release_table k t l') as (t' & l2 & E & R'); [unfold UTABLES; lia|done|].
    eauto.
  - exists t, l'. split; [exact E|]. exact R.
Qed.

(** The directory itself. *)
Lemma dir_refs : page_refs (mem s) d (d / 4096) UPAGENUMS = 0 /\ table_refs (mem s) d (d / 4096) UTABLES = 0.
Proof using Hown.
  pose proof (dw_aligned _ _ _ (so_dir _ _ _ Hown)) as Ha. split.
  - apply sum_to_zero; [done|]. intros j Hj. unfold maps_to.
    destruct (mapping (mem s) d (j * 4096)) as [e|] eqn:E; [|done]. case_if; [|done]. exfalso.
    destruct (page_number j Hj) as (_ & _ & _ & Hu).
    destruct (so_mapped _ _ _ Hown _ _ Hu E) as (_ & _ & Ht). apply Ht. left. rewrite Eb. zlia.
  - apply sum_to_zero; [done|]. intros i Hi. unfold table_ref, UTABLES in *.
    destruct (present _) eqn:Ep; [|done]. cbn [andb]. case_if; [|done]. exfalso.
    apply (dw_self _ _ _ (so_dir _ _ _ Hown) i); [lia|change (PDX UVPT) with 957; lia|done|].
    rewrite Eb. zlia.
Qed.
End Release.

(** Only memory, the page records and the free list matter. *)
Lemma space_owned_ext s s' l d :
  space_owned s l d -> npages s' = npages s -> mem s' = mem s -> pages s' = pages s ->
  page_free_list s' = page_free_list s -> space_owned s' l d.
Proof.
  intros [Hw Hd Hm Hc Hr Ht Hdr Hu] En Em Ep Ef.
  assert (forall p, ref_of s' p = ref_of s p) as Er by (intros p; unfold ref_of; by rewrite Ep).
  assert (forall p, is_table s' d p <-> is_table s d p) as Et by (intros p; unfold is_table; by rewrite Em).
  split; rewrite ?Em, ?Er; try done.
  - by eapply pages_wf_ext.
  - eapply pgdir_wf_mono; [exact Hd|done|by rewrite Em|by left].
  - intros va e Hv He. rewrite En, Et. by apply (Hm va e).
  - intros p. rewrite Er. apply Hc.
  - intros p. rewrite Er. apply Hr.
  - intros i Hi Hp. rewrite Er. by apply Ht.
Qed.

(** What env_free(e) leaves: an account of every page reference. *)
Record env_freed (s : kstate) (l : list Z) (d e : Z) (v : Env) (t : kstate) (l' : list Z) : Prop := {
  ef_envs : envs t = <[e := set_env_link (env_free_list s)
              (set_env_status ENV_FREE (set_env_pgdir 0 v))]> (envs s);
  ef_free_list : env_free_list t = Some e;
  ef_cpus : cpus t = cpus s;
  ef_cr3 : cr3 t = if decide (cur s = Some e) then kern_pgdir s - KERNBASE else cr3 s;
  ef_pages : pages_wf t l';
  ef_list : forall p, p ∈ l' <-> p ∈ l \/ (ref_of t p = 0 /\ 0 < ref_of s p);
  ef_refs : forall p, ref_of t p = ref_of s p
    - page_refs (mem s) d p UPAGENUMS - table_refs (mem s) d p UTABLES - (if d =? p * 4096 then 1 else 0);
  ef_mem : forall x, ~ is_table s d (x / 4096) -> load8 (mem t) x = load8 (mem s) x;
  ef_rest : kern_pgdir t = kern_pgdir s /\ npages t = npages s /\ cpunum t = cpunum s;
  (* the kernel's part of the space *)
  ef_kernel : forall va, UTABLES <= PDX va -> PDX va <> PDX UVPT ->
    pde (mem t) d va = pde (mem s) d va /\ mapping (mem t) d va = mapping (mem s) d va;
}.

(** The end of env_free: the directory and the record. *)
Lemma env_free_end s0 s l d e v t l' :
  space_owned s l d -> released s l d UPAGENUMS UTABLES t l' -> envs s !! e = Some v ->
  cpus s = cpus s0 -> cr3 s = (if decide (cur s0 = Some e) then kern_pgdir s0 - KERNBASE else cr3 s0) ->
  envs s = envs s0 -> env_free_list s = env_free_list s0 -> mem s = mem s0 -> pages s = pages s0 ->
  kern_pgdir s = kern_pgdir s0 /\ npages s = npages s0 /\ cpunum s = cpunum s0 ->
  exists t' l'',
    (pa ← PADDR (KERNBASE + d);
     _ ← upd_env e (set_env_pgdir 0);
     pp ← pa2page pa;
     _ ← page_decref pp;
     fl ← get env_free_list;
     _ ← upd_env e (fun v => set_env_link fl (set_env_status ENV_FREE v));
     modify (set_env_free_list (Some e))) t = Ok tt t' /\ env_freed s0 l d e v t' l''.
Proof.
  intros Hown R He Ec E3 Ee Ef Em Ep Er0. destruct (dir_refs s l d Hown) as [Hd1 Hd2].
  pose proof (rl_pages _ _ _ _ _ _ _ R) as Hw. pose proof (rl_dir _ _ _ _ _ _ _ R) as Hd.
  pose proof (dw_range _ _ _ Hd) as Hdr. pose proof (dw_aligned _ _ _ Hd) as Hda.
  set (dp := d / 4096) in *.
  assert (ref_of t dp = 1) as Hr1.
  { rewrite (rl_ref _ _ _ _ _ _ _ R), Hd1, Hd2. unfold dp. rewrite (so_dir_ref _ _ _ Hown). done. }
  unfold PADDR. rewrite (proj2 (Z.ltb_ge _ _)) by lia. replace (KERNBASE + d - KERNBASE) with d by lia.
  rewrite bind_ret.
  assert (envs t !! e = Some v) as Het by (rewrite (same_else_envs _ _ (rl_same _ _ _ _ _ _ _ R)); done).
  kstep (upd_env_run t e v (set_env_pgdir 0) Het). set (t1 := set_envs _ t).
  kstep (pa2page_run t1 d ltac:(exact Hdr) ltac:(apply (wf_npages _ _ Hw))). fold dp.
  destruct (proj2 (wf_dom _ _ Hw dp) ltac:(unfold dp; zlia)) as [pi Hpi].
  assert (pp_ref pi = 1) as Hpr by (unfold ref_of in Hr1; by rewrite Hpi in Hr1).
  assert (pages_wf t1 l') as Hw1 by by eapply (pages_wf_ext t).
  destruct (page_decref_run t1 l' dp pi Hw1 Hpi (dw_used _ _ _ Hd)) as [E Hw2].
  destruct (decref_state_same dp (pp_ref pi) l' t1) as [Hsame Hmem].
  pose proof (fun q => decref_ref t1 l' dp pi q Hpi ltac:(lia)) as Href.
  assert (decref_list dp (pp_ref pi) l' = dp :: l') as El by (unfold decref_list; by rewrite Hpr).
  rewrite El in Hw2. set (t2 := decref_state dp (pp_ref pi) l' t1) in *. kstep E. rewrite bind_get.
  assert (envs t2 = <[e := set_env_pgdir 0 v]> (envs t)) as Ee2 by (rewrite Hsame; done).
  kstep (upd_env_run t2 e (set_env_pgdir 0 v) (fun v => set_env_link (env_free_list t2) (set_env_status ENV_FREE v))
    ltac:(by rewrite Ee2, lookup_insert_eq)).
  eexists _, (dp :: l'). split; [reflexivity|]. pose proof (rl_same _ _ _ _ _ _ _ R) as Hst.
  assert (env_free_list t2 = env_free_list s0) as Efl by (rewrite Hsame; cbn; rewrite Hst; exact Ef).
  assert (forall p, (if dp =? p then 1 else 0) = (if d =? p * 4096 then 1 else 0)) as Hdp.
  { intros p. unfold dp. destruct (Z.eqb_spec (d / 4096) p), (Z.eqb_spec d (p * 4096)); try done; exfalso; zlia. }
  assert (forall p, ref_of s p = ref_of s0 p) as Ers by (intros p; unfold ref_of; by rewrite Ep).
  split.
  - cbn [envs set_env_free_list set_envs]. rewrite Ee2, Efl, insert_insert_eq.
    rewrite (same_else_envs _ _ Hst), Ee. done.
  - done.
  - cbn [cpus set_env_free_list set_envs]. rewrite (same_else_cpus _ _ Hsame). cbn. by rewrite (same_else_cpus _ _ Hst).
  - cbn [cr3 set_env_free_list set_envs]. rewrite Hsame. cbn. rewrite Hst. cbn. exact E3.
  - eapply (pages_wf_ext t2); done.
  - intros p. rewrite elem_of_cons, (rl_list _ _ _ _ _ _ _ R p).
    change (ref_of (set_env_free_list (Some e) _) p) with (ref_of t2 p).
    rewrite Href. change (ref_of t1 p) with (ref_of t p). rewrite <- Ers.
    destruct (Z.eqb_spec dp p) as [<-|Hne].
    + pose proof (so_dir_ref _ _ _ Hown) as Hs1. fold dp in Hs1. split; [intros _; right; lia|by left].
    + rewrite Z.sub_0_r. split; [intros [->|H]; done|by right].
  - intros p. change (ref_of (set_env_free_list (Some e) _) p) with (ref_of t2 p).
    rewrite Href. change (ref_of t1 p) with (ref_of t p). rewrite (rl_ref _ _ _ _ _ _ _ R), Hdp, Ers, Em. done.
  - intros x Hx. cbn [mem set_env_free_list set_envs]. rewrite Hmem. cbn. rewrite (rl_mem _ _ _ _ _ _ _ R); [by rewrite Em|].
    unfold is_table in *. by rewrite Em.
  - cbn [kern_pgdir npages cpunum set_env_free_list set_envs]. rewrite Hsame. cbn. rewrite Hst. exact Er0.
  - intros va Hx Hu. cbn [mem set_env_free_list set_envs]. rewrite Hmem. cbn. rewrite <- Em. pose proof (PDX_range va).
    rewrite !pde_slot, (rl_slots _ _ _ _ _ _ _ R), decide_False by lia. split; [done|].
    rewrite (rl_map _ _ _ _ _ _ _ R) by done. rewrite decide_False; [done|].
    rewrite PGNUM_div. rewrite PDX_div in Hx. unfold UPAGENUMS. zlia.
Qed.

Lemma env_free_run s l d e v :
  envs s !! e = Some v -> env_pgdir v = KERNBASE + d -> space_owned s l d -> cpu_ok s ->
  KERNBASE <= kern_pgdir s ->
  exists t l', env_free e s = Ok tt t /\ env_freed s l d e v t l'.
Proof.
  intros He Hpg Hown Hcpu Hk. destruct Hcpu as (c & Hc & Hce). unfold env_free.
  kstep (curenv_run s c Hc).
  assert (cur s = cpu_env c) as Ecur by (unfold cur; by rewrite Hc).
  set (s1 := set_cr3 (if decide (cur s = Some e) then kern_pgdir s - KERNBASE else cr3 s) s).
  assert (kwhen (bool_decide (cpu_env c = Some e)) (kp ← get kern_pgdir; pa ← PADDR kp; lcr3 pa) s = Ok tt s1) as E1.
  { unfold s1. rewrite Ecur. case_bool_decide as Hce'; [rewrite decide_True by done|rewrite decide_False by done].
    - cbn [kwhen]. rewrite bind_get. unfold PADDR. by rewrite (proj2 (Z.ltb_ge _ _)) by lia.
    - cbn [kwhen]. by destruct s. }
  kstep E1. destruct (curenv_id_run s1 c Hc Hce) as [cid Ecid]. kstep Ecid.
  kstep (get_env_run s1 e v He). unfold cprintf. rewrite bind_tell.
  set (s2 := set_log _ s1). rewrite Hpg.
  assert (space_owned s2 l d) as Hown2 by by apply (space_owned_ext s).
  destruct (release_tables s2 l d Hown2) as (t & l' & Et & R); [by exists c|]. kstep Et.
  by eapply env_free_end.
Qed.

(** C4: env_free gives back all that an environment holds, and nothing else.  Every
    reference that its user mappings, its page tables and its directory make to a
    page is dropped, once for each; the pages that lose their last reference, and
    only those, join the free list, which stays well formed; the slot becomes the
    first free one, with status ENV_FREE and no directory; memory outside the tables
    keeps its contents; and if the environment was running here the CPU is left on
    the kernel's own directory.  The call always returns. *)
Theorem env_free_releases s l d e v :
  envs s !! e = Some v -> env_pgdir v = KERNBASE + d -> space_owned s l d -> cpu_ok s ->
  KERNBASE <= kern_pgdir s ->
  exists t l', env_free e s = Ok tt t /\ env_freed s l d e v t l'.
Proof. exact (env_free_run s l d e v). Qed.

(** ** An environment with a page of its own and one that it shares *)

Definition held_mem : memory :=
  store32 (store32 (store32 (store32 ∅ (slot 0x1000 2) 0x2007) (slot 0x1000 957) 0x1005)
    (slot 0x2000 0) 0x3007) (slot 0x2000 1) 0x7.
Definition held_state : kstate :=
  set_kern_pgdir KERNBASE (set_mem held_mem
    (with_ref 0 2 (with_ref 1 1 (with_ref 2 1 (with_ref 3 1
      (set_envs {[ 5 := set_env_pgdir (KERNBASE + 0x1000) (set_env_status ENV_RUNNABLE env0) ]}
        small_state)))))).

Lemma held_slot1 i : 0 <= i < 1024 -> load32 held_mem (slot 0x1000 i) =
  if decide (i = 957) then 0x1005 else if decide (i = 2) then 0x2007 else 0.
Proof.
  intros Hi. unfold held_mem. rewrite !load_slot_store by (done || lia).
  repeat case_decide; intuition (lia || done).
Qed.
Lemma held_slot2 i : 0 <= i < 1024 -> load32 held_mem (slot 0x2000 i) =
  if decide (i = 1) then 0x7 else if decide (i = 0) then 0x3007 else 0.
Proof.
  intros Hi. unfold held_mem. rewrite !load_slot_store by (done || lia).
  repeat case_decide; intuition (lia || done).
Qed.

Lemma held_pte e va : mapping held_mem 0x1000 va = Some e -> PDX va < UTABLES ->
  (PGNUM va = 0x800 /\ e = 0x3007) \/ (PGNUM va = 0x801 /\ e = 0x7).
Proof.
  intros Hm Hu. pose proof (PDX_range va) as Hr. pose proof (PTX_range va) as Hx. unfold mapping in Hm.
  rewrite pde_slot, held_slot1 in Hm by done. unfold UTABLES in Hu. rewrite decide_False in Hm by lia.
  case_decide as E2; [|done].
  assert (pte held_mem 0x1000 va = load32 held_mem (slot 0x2000 (PTX va))) as Ep.
  { rewrite pte_slot, pde_slot, held_slot1 by done. by rewrite E2. }
  rewrite Ep, held_slot2 in Hm by done. rewrite PDX_div in E2. rewrite PGNUM_div. rewrite PTX_div in *.
  repeat case_decide; [right|left|done]; (split; [zlia|by injection Hm]).
Qed.

Lemma held_wf : pages_wf held_state [5; 4].
Proof.
  eapply (pages_wf_ext (with_ref 0 2 (with_ref 1 1 (with_ref 2 1 (with_ref 3 1 small_state)))));
    try reflexivity.
  do 4 (apply with_ref_wf; [|by apply (bool_decide_unpack _); vm_compute]). exact small_state_wf.
Qed.

Lemma held_dir : pgdir_wf held_state [5; 4] 0x1000.
Proof.
  split; cbn [mem held_state set_mem set_kern_pgdir]; change (npages held_state) with 6;
    change (PDX UVPT) with 957.
  - done.
  - lia.
  - by apply (bool_decide_unpack _); vm_compute.
  - intros i Hi. rewrite held_slot1 by done.
    repeat case_decide; intros Hp; try discriminate Hp;
      (split; [by vm_compute|by apply (bool_decide_unpack _); vm_compute]).
  - intros i Hi H9. rewrite held_slot1 by done. repeat case_decide; intros Hp; done.
  - intros i j Hi Hj Hi9 Hj9 Hij. rewrite !held_slot1 by done. repeat case_decide; intros Hp Hp'; try done. lia.
Qed.

Lemma held_page_refs p : page_refs held_mem 0x1000 p UPAGENUMS =
  (if 3 =? p then 1 else 0) + (if 0 =? p then 1 else 0).
Proof.
  unfold page_refs. rewrite (sum_to_two _ 0x800 0x801); [reflexivity|lia|unfold UPAGENUMS, UTABLES; lia|].
  intros i Hi H1 H2. destruct (page_number i Hi) as (En & _ & _ & Hu). unfold maps_to.
  destruct (mapping held_mem 0x1000 (i * 4096)) as [e|] eqn:E; [|done].
  destruct (held_pte e _ E Hu) as [[? _]|[? _]]; lia.
Qed.

Lemma held_ref p : ref_of held_state p =
  if decide (p = 0) then 2 else if decide (1 <= p <= 3) then 1 else 0.
Proof.
  destruct (decide (p = 0)) as [->|]; [done|]. case_decide.
  - assert (p = 1 \/ p = 2 \/ p = 3) as [->|[->| ->]] by lia; done.
  - destruct (decide (p = 4)) as [->|]; [done|]. destruct (decide (p = 5)) as [->|]; [done|].
    unfold ref_of. destruct (pages held_state !! p) as [pi|] eqn:E; [|done].
    assert (0 <= p < npages held_state) as Hr by (apply (wf_dom _ _ held_wf); by rewrite E).
    change (npages held_state) with 6 in Hr. lia.
Qed.

Lemma held_table p : is_table held_state 0x1000 p -> p = 1 \/ p = 2.
Proof.
  change (mem held_state) with held_mem. intros [H|(i & Hi & Hp & Ha)]; [lia|].
  change (mem held_state) with held_mem in *. rewrite held_slot1 in Hp, Ha by done.
  repeat case_decide; try done.
  - change (PTE_ADDR 0x1005) with 0x1000 in Ha. lia.
  - change (PTE_ADDR 0x2007) with 0x2000 in Ha. lia.
Qed.

Lemma held_owned : space_owned held_state [5; 4] 0x1000.
Proof.
  split; change (mem held_state) with held_mem.
  - exact held_wf.
  - exact held_dir.
  - intros va e Hu Hm. destruct (held_pte e va Hm Hu) as [[_ ->]|[_ ->]].
    + change (PTE_ADDR 0x3007 / 4096) with 3. split; [done|].
      split; [by apply (bool_decide_unpack _); vm_compute|]. intros H. apply held_table in H. lia.
    + change (PTE_ADDR 0x7 / 4096) with 0. split; [done|].
      split; [by apply (bool_decide_unpack _); vm_compute|]. intros H. apply held_table in H. lia.
  - intros p. rewrite held_page_refs, held_ref. repeat case_decide; repeat case_if; lia.
  - intros p. rewrite held_ref. repeat case_decide; lia.
  - intros i Hi Hp. unfold UTABLES in Hi. rewrite held_slot1 in * by lia.
    repeat case_decide; done || lia.
  - done.
  - done.
Qed.

Lemma env_free_releases_witness :
  exists t l', env_free 5 held_state = Ok tt t /\ pages_wf t l' /\
    ref_of t 0 = 1 /\ (0 ∉ l') /\ (1 ∈ l') /\ (2 ∈ l') /\ (3 ∈ l').
Proof.
  assert (cpu_ok held_state) as Hc by (exists (mkCpuInfo 0 CPU_STARTED None 0 0); done).
  destruct (env_free_releases held_state [5; 4] 0x1000 5
    (set_env_pgdir (KERNBASE + 0x1000) (set_env_status ENV_RUNNABLE env0)) ltac:(by vm_compute)
    ltac:(done) held_owned Hc ltac:(done)) as (t & l' & E & F).
  assert (forall p, 0 <= p <= 3 -> ref_of t p = if decide (p = 0) then 1 else 0) as Hr.
  { intros p Hp. rewrite (ef_refs _ _ _ _ _ _ _ F). change (mem held_state) with held_mem.
    rewrite held_page_refs, held_ref.
    assert (p = 0 \/ p = 1 \/ p = 2 \/ p = 3) as [->|[->|[->| ->]]] by lia; by vm_compute. }
  exists t, l'. split; [exact E|]. split; [apply (ef_pages _ _ _ _ _ _ _ F)|].
  rewrite !(ef_list _ _ _ _ _ _ _ F), !Hr, !held_ref by lia. clear E F Hr Hc.
  split_and!; [reflexivity| |right; by vm_compute..].
  intros [H|[H _]]; [|discriminate H]. revert H. by apply (bool_decide_unpack _); vm_compute.
Defined.
