(* ===== verification/MemInit.v ===== *)
(** * MemInit: mem_init of kern/pmap.c and the kernel's address space

    The boot-time sequence that detects memory, builds the kernel's page directory
    and switches to it, with the three self-checks it runs.  The theorem says what
    the address space is when all regions are mapped: every claim of the comments in
    mem_init and inc/memlayout.h about who may access what. *)

From S2P Require Import Prelude Layout Segments Memory CString Printfmt Kernel PageAlloc PageTable Env.

(** ** The self-checks *)

(** [assert(cond)] with the text of the condition. *)
Definition assert_ (b : bool) (text : string) : K unit :=
  kassert b ("assertion failed: " ++ text).

(** [check_va2pa(kern_pgdir, va) == pa]. *)
Definition assert_va2pa (va pa : Z) : K unit :=
  kp ← get kern_pgdir; r ← check_va2pa kp va; assert_ (r =? pa) "check_va2pa".
Definition assert_unmapped (va : Z) : K unit := assert_va2pa va 0xFFFFFFFF.

Section MemInit.
(** The contents of the CMOS, and addresses the linker chooses: the end of the
    kernel image, the boot stack and the array of CPU stacks. *)
Context (cmos : Z -> Z) (end_ bootstack percpu_kstacks : Z).

(** [percpu_kstacks[i]]. *)
Definition percpu_kstack (i : Z) : Z := percpu_kstacks + i * KSTKSIZE.

Definition check_kern_pgdir : K unit :=
  pgdir ← get kern_pgdir;
  np ← get npages;
  pk ← get pages_kva;
  _ ← kfor (Z.to_nat (ROUNDUP (np * sizeof_PageInfo) PGSIZE / PGSIZE)) 0 (fun i =>
        pa ← PADDR pk; assert_va2pa (u32 (UPAGES + i * PGSIZE)) (u32 (pa + i * PGSIZE)));
  ek ← get envs_kva;
  _ ← kfor (Z.to_nat (ROUNDUP (NENV * sizeof_Env) PGSIZE / PGSIZE)) 0 (fun i =>
        pa ← PADDR ek; assert_va2pa (u32 (UENVS + i * PGSIZE)) (u32 (pa + i * PGSIZE)));
  _ ← kfor (Z.to_nat (u32 (np * PGSIZE) / PGSIZE)) 0 (fun i =>
        assert_va2pa (u32 (KERNBASE + i * PGSIZE)) (u32 (i * PGSIZE)));
  _ ← kfor (Z.to_nat NCPU) 0 (fun n =>
        let base := u32 (KSTACKTOP - (KSTKSIZE + KSTKGAP) * (n + 1)) in
        _ ← kfor (Z.to_nat (KSTKSIZE / PGSIZE)) 0 (fun i =>
              pa ← PADDR (percpu_kstack n);
              assert_va2pa (u32 (base + KSTKGAP + i * PGSIZE)) (u32 (pa + i * PGSIZE)));
        kfor (Z.to_nat (KSTKGAP / PGSIZE)) 0 (fun i => assert_unmapped (u32 (base + i * PGSIZE))));
  _ ← kfor (Z.to_nat NPDENTRIES) 0 (fun i =>
        e ← kload32 (pgdir + 4 * i);
        if (i =? PDX UVPT) || (i =? PDX (KSTACKTOP - 1)) || (i =? PDX UPAGES) || (i =? PDX UENVS)
           || (i =? PDX MMIOBASE)
        then assert_ (ctrue (Z.land e PTE_P)) "pgdir[i] & PTE_P"
        else if i >=? PDX KERNBASE then
          _ ← assert_ (ctrue (Z.land e PTE_P)) "pgdir[i] & PTE_P";
          assert_ (ctrue (Z.land e PTE_W)) "pgdir[i] & PTE_W"
        else assert_ (e =? 0) "pgdir[i] == 0");
  cprintf "check_kern_pgdir() succeeded!" [].

(** [*pgdir_walk(kern_pgdir, va, 0)] as an address; a null pointer is dereferenced. *)
Definition walk_ptr (va : Z) : K Z :=
  kp ← get kern_pgdir;
  p ← pgdir_walk kp va 0;
  match p with Some a => mret a | None => undefined end.

Definition assert_insert (pp va perm : Z) (ok : bool) : K unit :=
  kp ← get kern_pgdir;
  r ← page_insert kp pp va perm;
  assert_ (if ok then r =? 0 else r <? 0) "page_insert".
Definition assert_ref (pp n : Z) : K unit :=
  p ← get_page pp; assert_ (pp_ref p =? n) "pp->pp_ref".
(** [assert((pp = page_alloc(0)) && pp == expected)]. *)
Definition assert_alloc (expected : Z) : K unit :=
  pp ← page_alloc 0; assert_ (bool_decide (pp = Some expected)) "(pp = page_alloc(0)) && pp == expected".

(** check_page up to the point where the pages taken are inserted and removed. *)
Definition check_page_insert (pp0 pp1 pp2 : Z) : K unit :=
  kp ← get kern_pgdir;
  _ ← must_not_alloc;
  r ← page_lookup kp 0;
  _ ← assert_ (bool_decide (r = None)) "page_lookup(kern_pgdir, (void *)0x0, &ptep) == NULL";
  _ ← assert_insert pp1 0 PTE_W false;
  _ ← page_free pp0;
  _ ← assert_insert pp1 0 PTE_W true;
  e ← kload32 kp;
  _ ← assert_ (PTE_ADDR e =? page2pa pp0) "PTE_ADDR(kern_pgdir[0]) == page2pa(pp0)";
  _ ← assert_va2pa 0 (page2pa pp1);
  _ ← assert_ref pp1 1;
  _ ← assert_ref pp0 1;
  _ ← assert_insert pp2 PGSIZE PTE_W true;
  _ ← assert_va2pa PGSIZE (page2pa pp2);
  _ ← assert_ref pp2 1;
  _ ← must_not_alloc;
  _ ← assert_insert pp2 PGSIZE PTE_W true;
  _ ← assert_va2pa PGSIZE (page2pa pp2);
  _ ← assert_ref pp2 1;
  _ ← must_not_alloc;
  e ← kload32 (kp + 4 * PDX PGSIZE);
  ptep ← KADDR (PTE_ADDR e);
  p ← pgdir_walk kp PGSIZE 0;
  _ ← assert_ (bool_decide (p = Some (ptep + 4 * PTX PGSIZE))) "pgdir_walk(kern_pgdir, (void *)PGSIZE, 0) == ptep + PTX(PGSIZE)";
  _ ← assert_insert pp2 PGSIZE (Z.lor PTE_W PTE_U) true;
  _ ← assert_va2pa PGSIZE (page2pa pp2);
  _ ← assert_ref pp2 1;
  a ← walk_ptr PGSIZE; v ← kload32 a;
  _ ← assert_ (ctrue (Z.land v PTE_U)) "*pgdir_walk(kern_pgdir, (void *)PGSIZE, 0) & PTE_U";
  e ← kload32 kp;
  _ ← assert_ (ctrue (Z.land e PTE_U)) "kern_pgdir[0] & PTE_U";
  _ ← assert_insert pp2 PGSIZE PTE_W true;
  a ← walk_ptr PGSIZE; v ← kload32 a;
  _ ← assert_ (ctrue (Z.land v PTE_W)) "*pgdir_walk(kern_pgdir, (void *)PGSIZE, 0) & PTE_W";
  a ← walk_ptr PGSIZE; v ← kload32 a;
  _ ← assert_ (negb (ctrue (Z.land v PTE_U))) "!(*pgdir_walk(kern_pgdir, (void *)PGSIZE, 0) & PTE_U)";
  _ ← assert_insert pp0 PTSIZE PTE_W false;
  _ ← assert_insert pp1 PGSIZE PTE_W true;
  a ← walk_ptr PGSIZE; v ← kload32 a;
  _ ← assert_ (negb (ctrue (Z.land v PTE_U))) "!(*pgdir_walk(kern_pgdir, (void *)PGSIZE, 0) & PTE_U)";
  _ ← assert_va2pa 0 (page2pa pp1);
  _ ← assert_va2pa PGSIZE (page2pa pp1);
  _ ← assert_ref pp1 2;
  _ ← assert_ref pp2 0;
  _ ← assert_alloc pp2;
  _ ← page_remove kp 0;
  _ ← assert_unmapped 0;
  _ ← assert_va2pa PGSIZE (page2pa pp1);
  _ ← assert_ref pp1 1;
  _ ← assert_ref pp2 0;
  _ ← assert_insert pp1 PGSIZE 0 true;
  p1 ← get_page pp1;
  _ ← assert_ (ctrue (pp_ref p1)) "pp1->pp_ref";
  _ ← assert_ (bool_decide (pp_link p1 = None)) "pp1->pp_link == NULL";
  _ ← page_remove kp PGSIZE;
  _ ← assert_unmapped 0;
  _ ← assert_unmapped PGSIZE;
  _ ← assert_ref pp1 0;
  _ ← assert_ref pp2 0;
  _ ← assert_alloc pp1;
  must_not_alloc.

(** ... from there to the point where the free list is given back ... *)
Definition check_page_walk (pp0 : Z) : K unit :=
  kp ← get kern_pgdir;
  e ← kload32 kp;
  _ ← assert_ (PTE_ADDR e =? page2pa pp0) "PTE_ADDR(kern_pgdir[0]) == page2pa(pp0)";
  _ ← kstore32 kp 0;
  _ ← assert_ref pp0 1;
  _ ← set_ref pp0 0;
  _ ← page_free pp0;
  let va := PGSIZE * NPDENTRIES + PGSIZE in
  ptep ← pgdir_walk kp va 1;
  e ← kload32 (kp + 4 * PDX va);
  ptep1 ← KADDR (PTE_ADDR e);
  _ ← assert_ (bool_decide (ptep = Some (ptep1 + 4 * PTX va))) "ptep == ptep1 + PTX(va)";
  _ ← kstore32 (kp + 4 * PDX va) 0;
  _ ← set_ref pp0 0;
  kva ← page2kva pp0;
  _ ← kmemset kva 0xFF PGSIZE;
  _ ← page_free pp0;
  _ ← pgdir_walk kp 0 1;
  ptep ← page2kva pp0;
  _ ← kfor (Z.to_nat NPTENTRIES) 0 (fun i =>
        v ← kload32 (ptep + 4 * i); assert_ (Z.land v PTE_P =? 0) "(ptep[i] & PTE_P) == 0");
  _ ← kstore32 kp 0;
  set_ref pp0 0.

(** ... and the test of mmio_map_region. *)
Definition check_page_mmio : K unit :=
  mm1 ← mmio_map_region 0 4097;
  mm2 ← mmio_map_region 0 4096;
  _ ← assert_ ((MMIOBASE <=? mm1) && (u32 (mm1 + 8192) <? MMIOLIM)) "mm1 >= MMIOBASE && mm1 + 8192 < MMIOLIM";
  _ ← assert_ ((MMIOBASE <=? mm2) && (u32 (mm2 + 8192) <? MMIOLIM)) "mm2 >= MMIOBASE && mm2 + 8192 < MMIOLIM";
  _ ← assert_ ((mm1 mod PGSIZE =? 0) && (mm2 mod PGSIZE =? 0)) "mm1 % PGSIZE == 0 && mm2 % PGSIZE == 0";
  _ ← assert_ (u32 (mm1 + 8192) <=? mm2) "mm1 + 8192 <= mm2";
  _ ← assert_va2pa mm1 0;
  _ ← assert_va2pa (u32 (mm1 + PGSIZE)) PGSIZE;
  _ ← assert_va2pa mm2 0;
  _ ← assert_unmapped (u32 (mm2 + PGSIZE));
  a ← walk_ptr mm1; v ← kload32 a;
  _ ← assert_ (ctrue (Z.land v (Z.lor (Z.lor PTE_W PTE_PWT) PTE_PCD))) "*pgdir_walk(kern_pgdir, (void *)mm1, 0) & (PTE_W | PTE_PWT | PTE_PCD)";
  a ← walk_ptr mm1; v ← kload32 a;
  _ ← assert_ (negb (ctrue (Z.land v PTE_U))) "!(*pgdir_walk(kern_pgdir, (void *)mm1, 0) & PTE_U)";
  a ← walk_ptr mm1; _ ← kstore32 a 0;
  a ← walk_ptr (u32 (mm1 + PGSIZE)); _ ← kstore32 a 0;
  a ← walk_ptr mm2; kstore32 a 0.

Definition check_page : K unit :=
  pp0 ← must_alloc 0;
  pp1 ← must_alloc 0;
  pp2 ← must_alloc 0;
  _ ← check_distinct pp0 pp1 pp2;
  fl ← get page_free_list;
  _ ← modify (set_page_free_list None);
  _ ← check_page_insert pp0 pp1 pp2;
  _ ← check_page_walk pp0;
  _ ← modify (set_page_free_list fl);
  _ ← page_free pp0;
  _ ← page_free pp1;
  _ ← page_free pp2;
  _ ← check_page_mmio;
  cprintf "check_page() succeeded!" [].

(** A word at a virtual address, through the page tables in force. *)
Definition vread32 (va : Z) : K Z := fun s =>
  match mmu (mem s) (cr3 s) va false false with
  | Some a => Ok (load32 (mem s) a) s
  | None => Leave (KernelFault va) s
  end.
Definition vwrite32 (va v : Z) : K unit := fun s =>
  match mmu (mem s) (cr3 s) va false true with
  | Some a => Ok tt (set_mem (store32 (mem s) a v) s)
  | None => Leave (KernelFault va) s
  end.

Definition check_page_installed_pgdir : K unit :=
  kp ← get kern_pgdir;
  pp0 ← must_alloc 0;
  pp1 ← must_alloc 0;
  pp2 ← must_alloc 0;
  _ ← page_free pp0;
  kva1 ← page2kva pp1;
  _ ← kmemset kva1 1 PGSIZE;
  kva2 ← page2kva pp2;
  _ ← kmemset kva2 2 PGSIZE;
  _ ← page_insert kp pp1 PGSIZE PTE_W;
  _ ← assert_ref pp1 1;
  v ← vread32 PGSIZE;
  _ ← assert_ (v =? 0x01010101) "*(uint32_t *)PGSIZE == 0x01010101U";
  _ ← page_insert kp pp2 PGSIZE PTE_W;
  v ← vread32 PGSIZE;
  _ ← assert_ (v =? 0x02020202) "*(uint32_t *)PGSIZE == 0x02020202U";
  _ ← assert_ref pp2 1;
  _ ← assert_ref pp1 0;
  _ ← vwrite32 PGSIZE 0x03030303;
  kva2 ← page2kva pp2;
  v ← kload32 kva2;
  _ ← assert_ (v =? 0x03030303) "*(uint32_t *)page2kva(pp2) == 0x03030303U";
  _ ← page_remove kp PGSIZE;
  _ ← assert_ref pp2 0;
  e ← kload32 kp;
  _ ← assert_ (PTE_ADDR e =? page2pa pp0) "PTE_ADDR(kern_pgdir[0]) == page2pa(pp0)";
  _ ← kstore32 kp 0;
  _ ← assert_ref pp0 1;
  _ ← set_ref pp0 0;
  _ ← page_free pp0;
  cprintf "check_page_installed_pgdir() succeeded!" [].

(** ** mem_init *)

Definition mem_init_mp : K unit :=
  kp ← get kern_pgdir;
  kfor (Z.to_nat NCPU) 0 (fun i =>
    pa ← PADDR (percpu_kstack i);
    boot_map_region kp (KSTACKTOP - KSTKSIZE - i * (KSTKSIZE + KSTKGAP)) KSTKSIZE pa PTE_W).

(** The calls of boot_map_region in mem_init, and mem_init_mp. *)
Definition map_kernel : K unit :=
  kp ← get kern_pgdir;
  pk ← get pages_kva;
  pa ← PADDR pk;
  _ ← boot_map_region kp UPAGES PTSIZE pa (Z.lor PTE_U PTE_P);
  ek ← get envs_kva;
  pa ← PADDR ek;
  _ ← boot_map_region kp UENVS PTSIZE pa (Z.lor PTE_U PTE_P);
  pa ← PADDR bootstack;
  _ ← boot_map_region kp (KSTACKTOP - KSTKSIZE) KSTKSIZE pa PTE_W;
  _ ← boot_map_region kp KERNBASE (0xffffffff - KERNBASE) 0 PTE_W;
  mem_init_mp.

(** The array of zeroed environments. *)
Definition zero_envs : gmap Z Env := list_to_map ((fun i => (i, env0)) <$> seqZ 0 NENV).

Definition mem_init : K unit :=
  _ ← i386_detect_memory cmos;
  kp ← boot_alloc end_ PGSIZE;
  _ ← modify (set_kern_pgdir kp);
  _ ← kmemset kp 0 PGSIZE;
  pa ← PADDR kp;
  _ ← kstore32 (kp + 4 * PDX UVPT) (Z.lor (Z.lor pa PTE_U) PTE_P);
  n ← get npages;
  pk ← boot_alloc end_ (u32 (sizeof_PageInfo * n));
  _ ← modify (set_pages_kva pk);
  _ ← kmemset pk 0 (u32 (sizeof_PageInfo * n));
  _ ← modify (set_pages (zero_pages n));
  ek ← boot_alloc end_ (NENV * sizeof_Env);
  _ ← modify (set_envs_kva ek);
  _ ← kmemset ek 0 (NENV * sizeof_Env);
  _ ← modify (set_envs zero_envs);
  _ ← page_init end_;
  _ ← check_page_free_list end_ true;
  _ ← check_page_alloc;
  _ ← check_page;
  _ ← map_kernel;
  _ ← check_kern_pgdir;
  pa ← PADDR kp;
  _ ← lcr3 pa;
  _ ← check_page_free_list end_ false;
  c ← get cr0;
  let c := Z.lor c (Z.lor (Z.lor (Z.lor (Z.lor (Z.lor CR0_PE CR0_PG) CR0_AM) CR0_WP) CR0_NE) CR0_MP) in
  let c := Z.land c (Z.lnot (Z.lor CR0_TS CR0_EM)) in
  _ ← modify (set_cr0 (u32 c));
  check_page_installed_pgdir.

End MemInit.

(** ** The address space *)

(** A region of [rg_n] pages from page number [rg_vp] on, mapped to physical pages
    from [rg_pa] on. *)
Record region := mkRegion {
  rn_va : Z;
  rn_n : Z;
  rn_pa : Z;
  rn_perm : Z;
}.

Definition in_region (r : region) (pg : Z) : bool :=
  (rn_va r / 4096 <=? pg) && (pg <? rn_va r / 4096 + rn_n r).
Definition region_pte (r : region) (pg : Z) : Z :=
  Z.lor (Z.lor (rn_pa r + (pg - rn_va r / 4096) * 4096) PTE_P) (rn_perm r).

(** What maps page number [pg] when the regions are mapped in order, the last one
    winning. *)
Fixpoint layered (old : option Z) (rs : list region) (pg : Z) : option Z :=
  match rs with
  | [] => old
  | r :: rs' => layered (if in_region r pg then Some (region_pte r pg) else old) rs' pg
  end.

Lemma layered_snoc old rs r pg :
  layered old (rs ++ [r]) pg = if in_region r pg then Some (region_pte r pg) else layered old rs pg.
Proof. revert old. induction rs as [|r' rs IH]; intros old; [done|]. apply IH. Qed.

(** What boot_map_region accepts, and the pages for tables it may take. *)
Record region_ok (r : region) : Prop := {
  ro_va : rn_va r mod 4096 = 0 /\ 0 <= rn_va r;
  ro_n : 0 < rn_n r /\ rn_va r + rn_n r * 4096 <= 0x100000000;
  ro_pa : rn_pa r mod 4096 = 0 /\ 0 <= rn_pa r /\ rn_pa r + rn_n r * 4096 <= 0x100000000;
  ro_perm : 0 <= rn_perm r < 4096;
  ro_uvpt : rn_va r + rn_n r * 4096 <= UVPT \/ UVPT + PTSIZE <= rn_va r;
}.
Definition region_tables (r : region) : Z := tables_spanned (rn_va r) (rn_n r).
Definition tables_needed (rs : list region) : Z := foldr (fun r k => region_tables r + k) 0 rs.

Lemma tables_needed_snoc rs r : tables_needed (rs ++ [r]) = tables_needed rs + region_tables r.
Proof. unfold tables_needed. induction rs as [|r' rs IH]; cbn; [lia|]. cbn in IH. lia. Qed.

Record mapped (s : kstate) (l : list Z) (d : Z) (rs : list region) (t : kstate) (l' : list Z) : Prop := {
  mp_same : same_else s t;
  mp_pages : pages_wf t l';
  mp_dir : pgdir_wf t l' d;
  mp_map : forall va, PDX va <> PDX UVPT ->
    mapping (mem t) d va = layered (mapping (mem s) d va) rs (PGNUM va);
  mp_flags : forall i, 0 <= i < 1024 ->
    load32 (mem t) (slot d i) = load32 (mem s) (slot d i) \/ Z.land (load32 (mem t) (slot d i)) 7 = 7;
  mp_list : Z.of_nat (length l) <= Z.of_nat (length l') + tables_needed rs;
}.

Lemma mapped_nil s l d : pages_wf s l -> pgdir_wf s l d -> mapped s l d [] s l.
Proof. intros. split; try done; [intros; by left|]. cbn. lia. Qed.

Lemma PDX_UVPT : PDX UVPT = 957.
Proof. rewrite PDX_div. reflexivity. Qed.

(** The pages of a region away from UVPT. *)
Lemma region_pages r i : region_ok r -> 0 <= i < rn_n r -> PDX (rn_va r + i * 4096) <> PDX UVPT.
Proof.
  intros [[Hv1 Hv2] [Hn1 Hn2] _ _ Hu] Hi. rewrite PDX_UVPT, PDX_div, u32_small by lia.
  change UVPT with 0xEF400000 in Hu. change PTSIZE with 0x400000 in Hu. zlia.
Qed.

(** One more region, with enough free pages. *)
Lemma map_region s l d rs t l' r size :
  mapped s l d rs t l' -> region_ok r -> 0 <= size -> (size + 4095) / 4096 = rn_n r ->
  tables_needed rs + region_tables r <= Z.of_nat (length l) ->
  exists t' l'', boot_map_region (KERNBASE + d) (rn_va r) size (rn_pa r) (rn_perm r) t = Ok tt t' /\
    mapped s l d (rs ++ [r]) t' l''.
Proof.
  intros [M1 M2 M3 M4 M5 M6] Hr Hs Hn Hlen. pose proof Hr as [[Hv1 Hv2] [Hn1 Hn2] (Hp1 & Hp2 & Hp3) Hq Hu].
  assert ((size + PGSIZE - 1) / PGSIZE = rn_n r) as En
    by (unfold PGSIZE; replace (size + 4096 - 1) with (size + 4095) by lia; done).
  pose proof (boot_map_region_inv t l' d (rn_va r) size (rn_pa r) (rn_perm r)) as H. cbv zeta in H.
  rewrite En in H. unfold PGSIZE in H. specialize (H M2 M3 Hs Hv1 Hv2 Hn2 Hp1 Hp2 Hp3 Hq).
  specialize (H ltac:(intros; by apply region_pages)). unfold wp in H.
  destruct (boot_map_region _ _ _ _ _ t) as [[] t'|e t'|]; [|destruct H as [_ H]; unfold region_tables in Hlen; lia|done].
  destruct H as (l'' & [G1 G2 G3 _ _ G6 G7] & _ & Hll). exists t', l''. split; [done|]. split; try done.
  - by etrans.
  - intros va Hva. rewrite G6, layered_snoc, <- M4 by done. unfold in_region, region_pte.
    replace (PGNUM (rn_va r)) with (rn_va r / 4096) by (rewrite PGNUM_div, u32_small by lia; done).
    destruct (Z.leb_spec (rn_va r / 4096) (PGNUM va)), (Z.ltb_spec (PGNUM va) (rn_va r / 4096 + rn_n r));
      cbn [andb]; try (by rewrite decide_False by lia). by rewrite decide_True by lia.
  - intros i Hi. destruct (G7 i Hi) as [-> |]; [by apply M5|by right].
  - rewrite tables_needed_snoc. unfold region_tables. lia.
Qed.

Lemma PADDR_kva pa t : 0 <= pa -> PADDR (KERNBASE + pa) t = Ok pa t.
Proof.
  intros H. unfold PADDR. rewrite (proj2 (Z.ltb_ge _ _)) by lia. unfold mret, K_ret. f_equal. lia.
Qed.

Section KernelSpace.
Context (bootstack percpu_kstacks : Z).
(** Physical addresses of the arrays and stacks. *)
Context (pages_pa envs_pa boot_pa stacks_pa : Z).

Definition fixed_regions : list region :=
  [mkRegion UPAGES 1024 pages_pa (Z.lor PTE_U PTE_P);
   mkRegion UENVS 1024 envs_pa (Z.lor PTE_U PTE_P);
   mkRegion (KSTACKTOP - KSTKSIZE) 8 boot_pa PTE_W;
   mkRegion KERNBASE 0x10000 0 PTE_W].
Definition stack_region (i : Z) : region :=
  mkRegion (KSTACKTOP - KSTKSIZE - i * (KSTKSIZE + KSTKGAP)) 8 (stacks_pa + i * KSTKSIZE) PTE_W.
Definition kernel_regions : list region := fixed_regions ++ (stack_region <$> seqZ 0 NCPU).

(** The stack that an address of [KSTACKTOP - PTSIZE, KSTACKTOP) is in: the CPU, and
    the distance from the lowest byte. *)
Definition stack_of (va : Z) : option (Z * Z) :=
  let x := KSTACKTOP - 1 - va in
  let i := x / (KSTKSIZE + KSTKGAP) in
  let off := x mod (KSTKSIZE + KSTKGAP) in
  if (i <? NCPU) && (off <? KSTKSIZE) then Some (i, KSTKSIZE - 1 - off) else None.

(** Who may access what: the specification of the kernel's address space. *)
Definition kernel_space (va : Z) (user write : bool) : option Z :=
  if KERNBASE <=? va then if user then None else Some (va - KERNBASE)
  else if (UPAGES <=? va) && (va <? UPAGES + PTSIZE) then
    if write then None else Some (pages_pa + (va - UPAGES))
  else if (UENVS <=? va) && (va <? UENVS + PTSIZE) then
    if write then None else Some (envs_pa + (va - UENVS))
  else match stack_of va with
       | Some (i, off) => if user then None else Some (stacks_pa + i * KSTKSIZE + off)
       | None => None
       end.

(** The physical addresses are page-aligned and 4 MB or more below 2^32. *)
Definition good_pa (pa : Z) : Prop := pa mod 4096 = 0 /\ 0 <= pa /\ pa + 0x400000 <= 0x100000000.
Context (Hpages : good_pa pages_pa) (Henvs : good_pa envs_pa) (Hboot : good_pa boot_pa)
        (Hstacks : good_pa stacks_pa).

Lemma kernel_regions_ok r : r ∈ kernel_regions -> region_ok r.
Proof using Hpages Henvs Hboot Hstacks.
  unfold kernel_regions. rewrite elem_of_app, list_elem_of_fmap.
  destruct Hpages as (A1 & A2 & A3), Henvs as (B1 & B2 & B3), Hboot as (C1 & C2 & C3), Hstacks as (D1 & D2 & D3).
  assert (forall a n p f, a mod 4096 = 0 -> 0 <= a -> 0 < n <= 0x10000 -> a + n * 4096 <= 0x100000000 ->
    p mod 4096 = 0 -> 0 <= p -> p + n * 4096 <= 0x100000000 -> 0 <= f < 4096 ->
    a + n * 4096 <= UVPT \/ UVPT + PTSIZE <= a -> region_ok (mkRegion a n p f)) as H
    by (intros; split; cbn; auto with lia).
  intros [Hr|(i & -> & Hi)].
  - unfold fixed_regions in Hr.
    repeat (apply elem_of_cons in Hr as [->|Hr]; [apply H;
      first [assumption | lia | by vm_compute | left; by vm_compute | right; by vm_compute]|]).
    by apply not_elem_of_nil in Hr.
  - apply elem_of_seqZ in Hi. change NCPU with 8 in Hi. apply H;
      change KSTACKTOP with 0xF0000000; change KSTKSIZE with 0x8000; change KSTKGAP with 0x8000;
      change UVPT with 0xEF400000; change PTSIZE with 0x400000; first [lia | zlia | by vm_compute].
Qed.

(** 75 pages are enough for the tables: 64 for the top 256 MB, one for each other
    region. *)
Lemma stack_region_tables i : 0 <= i < 8 -> region_tables (stack_region i) = 1.
Proof using.
  intros Hi. unfold region_tables, tables_spanned, stack_region. cbn [rn_va rn_n Z.eqb Pos.eqb].
  change KSTACKTOP with 0xF0000000. change KSTKSIZE with 0x8000. change KSTKGAP with 0x8000.
  rewrite !PDX_div, !u32_small by lia. zlia.
Qed.

Lemma tables_prefix i :
  0 <= i <= 8 -> tables_needed (fixed_regions ++ (stack_region <$> seqZ 0 i)) = 67 + i.
Proof using.
  intros Hi. assert (tables_needed fixed_regions = 67) as E by (vm_compute; reflexivity).
  assert (i ∈ seqZ 0 9) as Hin by (apply elem_of_seqZ; lia). cbn in Hin.
  repeat (apply elem_of_cons in Hin as [->|Hin]; [vm_compute; reflexivity|]).
  by apply not_elem_of_nil in Hin.
Qed.

(** *** The regions, page by page *)

Lemma layered_app old rs1 rs2 pg : layered old (rs1 ++ rs2) pg = layered (layered old rs1 pg) rs2 pg.
Proof using. revert old. induction rs1 as [|r rs1 IH]; intros old; [done|]. apply IH. Qed.

(** The page of stack [x / 16] at distance [x] below KSTACKTOP. *)
Definition stack_page (old : option Z) (n x : Z) : option Z :=
  if (0 <=? x) && (x / 16 <? n) && (x mod 16 <? 8)
  then Some (Z.lor (Z.lor (stacks_pa + x / 16 * 0x8000 + (7 - x mod 16) * 4096) PTE_P) PTE_W) else old.

Lemma layered_stacks old n pg :
  layered old (stack_region <$> seqZ 0 (Z.of_nat n)) pg = stack_page old (Z.of_nat n) (0xEFFFF - pg).
Proof using.
  induction n as [|n IH].
  - unfold stack_page. change (seqZ 0 (Z.of_nat 0)) with (@nil Z). cbn [fmap list_fmap layered].
    destruct (Z.leb_spec 0 (0xEFFFF - pg)); [|done]. by rewrite (proj2 (Z.ltb_ge _ _)) by zlia.
  - replace (Z.of_nat (S n)) with (Z.of_nat n + 1) by lia.
    rewrite seqZ_app, fmap_app by lia. set (i := 0 + Z.of_nat n).
    replace (seqZ i 1) with [i] by (rewrite seqZ_cons, seqZ_nil by lia; done).
    cbn [fmap list_fmap]. rewrite layered_snoc, IH. set (x := 0xEFFFF - pg).
    assert (in_region (stack_region i) pg = (x / 16 =? i) && (x mod 16 <? 8)) as ->.
    { unfold in_region, stack_region. cbn [rn_va rn_n].
      change KSTACKTOP with 0xF0000000. change KSTKSIZE with 0x8000. change KSTKGAP with 0x8000.
      replace ((0xF0000000 - 0x8000 - i * (0x8000 + 0x8000)) / 4096) with (0xEFFF8 - i * 16) by zlia.
      apply eq_true_iff_eq. rewrite !andb_true_iff, Z.leb_le, !Z.ltb_lt, Z.eqb_eq. unfold x.
      split; intros; zlia. }
    unfold stack_page, region_pte, stack_region. cbn [rn_va rn_pa rn_perm].
    change KSTACKTOP with 0xF0000000. change KSTKSIZE with 0x8000. change KSTKGAP with 0x8000.
    destruct (Z.eqb_spec (x / 16) i), (Z.ltb_spec (x mod 16) 8); cbn [andb].
    + rewrite (proj2 (Z.leb_le 0 x)), (proj2 (Z.ltb_lt _ _)) by zlia. cbn [andb]. do 3 f_equal. unfold x in *. zlia.
    + by rewrite !andb_false_r.
    + rewrite !andb_true_r. destruct (Z.leb_spec 0 x); [cbn [andb]|done].
      destruct (Z.ltb_spec (x / 16) (Z.of_nat n)).
      * by rewrite (proj2 (Z.ltb_lt _ _)) by lia.
      * by rewrite (proj2 (Z.ltb_ge _ _)) by lia.
    + by rewrite !andb_false_r.
Qed.

(** The entry for page number [pg], read off the list. *)
Definition space_pte (pg : Z) : option Z :=
  if 0xF0000 <=? pg then Some (Z.lor (Z.lor ((pg - 0xF0000) * 4096) PTE_P) PTE_W)
  else if (UPAGES / 4096 <=? pg) && (pg <? UPAGES / 4096 + 1024)
  then Some (Z.lor (Z.lor (pages_pa + (pg - UPAGES / 4096) * 4096) PTE_P) (Z.lor PTE_U PTE_P))
  else if (UENVS / 4096 <=? pg) && (pg <? UENVS / 4096 + 1024)
  then Some (Z.lor (Z.lor (envs_pa + (pg - UENVS / 4096) * 4096) PTE_P) (Z.lor PTE_U PTE_P))
  else stack_page None 8 (0xEFFFF - pg).

Lemma layered_space pg : 0 <= pg < 0x100000 -> layered None kernel_regions pg = space_pte pg.
Proof using.
  intros Hpg. unfold kernel_regions. rewrite layered_app.
  change NCPU with (Z.of_nat 8). rewrite layered_stacks. change (Z.of_nat 8) with 8.
  unfold fixed_regions. cbn [layered]. unfold in_region, region_pte. cbn [rn_va rn_n rn_pa rn_perm].
  change (UPAGES / 4096) with 0xEF000. change (UENVS / 4096) with 0xEEC00.
  change ((KSTACKTOP - KSTKSIZE) / 4096) with 0xEFFF8. change (KERNBASE / 4096) with 0xF0000.
  unfold space_pte, stack_page.
  change (UPAGES / 4096) with 0xEF000. change (UENVS / 4096) with 0xEEC00.
  destruct (Z.leb_spec 0xF0000 pg).
  { rewrite (proj2 (Z.ltb_lt pg _)) by lia. cbn [andb].
    by rewrite (proj2 (Z.leb_gt 0 (0xEFFFF - pg))) by lia. }
  cbn [andb]. rewrite (proj2 (Z.leb_le 0 (0xEFFFF - pg))) by lia. cbn [andb].
  destruct (Z.leb_spec 0xEFFF8 pg).
  { rewrite (proj2 (Z.ltb_lt ((0xEFFFF - pg) / 16) 8)), (proj2 (Z.ltb_lt ((0xEFFFF - pg) mod 16) 8)) by zlia.
    cbn [andb]. rewrite (proj2 (Z.ltb_ge pg (0xEF000 + 1024))), (proj2 (Z.ltb_ge pg (0xEEC00 + 1024))) by lia.
    by rewrite !andb_false_r. }
  cbn [andb]. destruct (Z.leb_spec 0xEF000 pg).
  { rewrite (proj2 (Z.ltb_ge pg (0xEEC00 + 1024))), andb_false_r by lia. cbn [andb].
    destruct (Z.ltb_spec pg (0xEF000 + 1024)); [|done].
    by rewrite (proj2 (Z.ltb_ge ((0xEFFFF - pg) / 16) 8)) by zlia. }
  cbn [andb]. destruct ((0xEEC00 <=? pg) && (pg <? 0xEEC00 + 1024)) eqn:E; [|done].
  bcomp. by rewrite (proj2 (Z.ltb_ge ((0xEFFFF - pg) / 16) 8)) by zlia.
Qed.

(** *** Mapping them *)

Context (s : kstate) (l : list Z) (d : Z).
Context (Hkp : kern_pgdir s = KERNBASE + d) (Hpk : pages_kva s = KERNBASE + pages_pa)
        (Hek : envs_kva s = KERNBASE + envs_pa) (Hbs : bootstack = KERNBASE + boot_pa)
        (Hps : percpu_kstacks = KERNBASE + stacks_pa).
Context (Hw : pages_wf s l) (Hd : pgdir_wf s l d) (Hmem : 75 <= Z.of_nat (length l)).

(** mem_init_mp maps the stacks one after the other. *)
Lemma mem_init_mp_run t l0 :
  mapped s l d fixed_regions t l0 ->
  exists t' l', mem_init_mp percpu_kstacks t = Ok tt t' /\ mapped s l d kernel_regions t' l'.
Proof using Hstacks Hpages Henvs Hboot Hkp Hps Hmem.
  intros Hm. unfold mem_init_mp. rewrite bind_get.
  assert (kern_pgdir t = KERNBASE + d) as -> by (rewrite (mp_same _ _ _ _ _ _ Hm); done).
  set (I := fun (i : Z) u => exists l', mapped s l d (fixed_regions ++ (stack_region <$> seqZ 0 i)) u l').
  assert (wp (kfor (Z.to_nat NCPU) 0 (fun i => pa ← PADDR (percpu_kstack percpu_kstacks i);
    boot_map_region (KERNBASE + d) (KSTACKTOP - KSTKSIZE - i * (KSTKSIZE + KSTKGAP)) KSTKSIZE pa PTE_W))
    (fun _ u => I (0 + Z.of_nat (Z.to_nat NCPU)) u) no_exit t) as H.
  { apply wp_kfor; [exists l0; change (seqZ 0 0) with (@nil Z); by rewrite app_nil_r|].
    intros i u Hi (l1 & Hm1). change (Z.of_nat (Z.to_nat NCPU)) with 8 in Hi.
    destruct Hstacks as (S1 & S2 & S3). unfold wp, percpu_kstack. cbn beta.
    rewrite Hps, <- Z.add_assoc. kstep (PADDR_kva (stacks_pa + i * KSTKSIZE) u ltac:(unfold KSTKSIZE, PGSIZE; lia)).
    destruct (map_region s l d _ u l1 (stack_region i) KSTKSIZE Hm1) as (u' & l2 & E & Hm2).
    - apply kernel_regions_ok. unfold kernel_regions. apply elem_of_app. right.
      apply list_elem_of_fmap. exists i. split; [done|]. apply elem_of_seqZ. unfold NCPU. lia.
    - by vm_compute.
    - reflexivity.
    - rewrite tables_prefix, stack_region_tables by lia. lia.
    - cbn [rn_va rn_n rn_pa rn_perm stack_region] in E. rewrite E. cbn.
      exists l2. rewrite seqZ_app by lia. rewrite fmap_app, app_assoc.
      replace (seqZ (0 + i) 1) with [i]; [done|].
      rewrite (seqZ_cons (0 + i) 1), seqZ_nil by lia. done. }
  unfold wp in H. destruct (kfor _ _ _ t) as [[] t'|e t'|]; [|done..].
  destruct H as [l' H]. by exists t', l'.
Qed.

(** All regions get mapped. *)
Lemma map_kernel_run :
  exists t l', map_kernel bootstack percpu_kstacks s = Ok tt t /\ mapped s l d kernel_regions t l'.
Proof using Hstacks Hpages Henvs Hboot Hkp Hpk Hek Hbs Hps Hmem Hw Hd.
  assert (forall r, r ∈ fixed_regions -> region_ok r) as Hok
    by (intros r Hr; apply kernel_regions_ok; unfold kernel_regions; apply elem_of_app; by left).
  unfold map_kernel. rewrite !bind_get, Hkp, Hpk. kstep (PADDR_kva pages_pa s ltac:(apply Hpages)).
  destruct (map_region s l d [] s l (mkRegion UPAGES 1024 pages_pa (Z.lor PTE_U PTE_P)) PTSIZE
    (mapped_nil s l d Hw Hd)) as (t1 & l1 & E1 & M1);
    [apply Hok; set_solver|by vm_compute|reflexivity|etrans; [|exact Hmem]; by vm_compute|].
  cbn [rn_va rn_n rn_pa rn_perm] in E1. kstep E1. rewrite bind_get.
  assert (envs_kva t1 = KERNBASE + envs_pa) as -> by (rewrite (mp_same _ _ _ _ _ _ M1); done).
  kstep (PADDR_kva envs_pa t1 ltac:(apply Henvs)).
  destruct (map_region s l d _ t1 l1 (mkRegion UENVS 1024 envs_pa (Z.lor PTE_U PTE_P)) PTSIZE M1)
    as (t2 & l2 & E2 & M2);
    [apply Hok; set_solver|by vm_compute|reflexivity|etrans; [|exact Hmem]; by vm_compute|].
  cbn [rn_va rn_n rn_pa rn_perm] in E2. kstep E2.
  rewrite Hbs. kstep (PADDR_kva boot_pa t2 ltac:(apply Hboot)).
  destruct (map_region s l d _ t2 l2 (mkRegion (KSTACKTOP - KSTKSIZE) 8 boot_pa PTE_W) KSTKSIZE M2)
    as (t3 & l3 & E3 & M3);
    [apply Hok; set_solver|by vm_compute|reflexivity|etrans; [|exact Hmem]; by vm_compute|].
  cbn [rn_va rn_n rn_pa rn_perm] in E3. kstep E3.
  destruct (map_region s l d _ t3 l3 (mkRegion KERNBASE 0x10000 0 PTE_W) (0xffffffff - KERNBASE) M3)
    as (t4 & l4 & E4 & M4);
    [apply Hok; set_solver|by vm_compute|reflexivity|etrans; [|exact Hmem]; by vm_compute|].
  cbn [rn_va rn_n rn_pa rn_perm] in E4. kstep E4.
  by apply (mem_init_mp_run t4 l4).
Qed.

End KernelSpace.

(** ** The translation *)

(** An entry that boot_map_region wrote, below a directory entry with all rights. *)
Lemma mmu_region m d va pa perm user write :
  PTE_ADDR d = d -> mapping m d va = Some (Z.lor (Z.lor pa PTE_P) perm) ->
  Z.land (pde m d va) 7 = 7 -> pa mod 4096 = 0 -> 0 <= pa < 0x100000000 ->
  perm = Z.lor PTE_U PTE_P \/ perm = PTE_W ->
  mmu m d va user write =
    if user && (perm =? PTE_W) then None
    else if write && negb (perm =? PTE_W) then None else Some (pa + PGOFF va).
Proof.
  intros Ed Em Ef Hpa Hr Hperm. unfold mmu. rewrite Ed, Em. cbv iota beta zeta.
  assert (forall f, f = PTE_U \/ f = PTE_W ->
    Z.land (Z.land (pde m d va) (Z.lor (Z.lor pa PTE_P) perm)) f = Z.land perm f) as Hf.
  { intros f Hf. assert (Z.land (pde m d va) f = f) as Ep.
    { replace f with (Z.land 7 f) by (destruct Hf; subst; reflexivity). by rewrite Z.land_assoc, Ef. }
    rewrite <- Z.land_assoc, (Z.land_comm _ f), Z.land_assoc, Ep, Z.land_comm, !Z.land_lor_distr_l.
    assert (Z.land pa f = 0) as ->.
    { rewrite <- (Z.mod_small f (2 ^ 12)) by (destruct Hf; subst; by vm_compute).
      rewrite <- Z.land_ones, (Z.land_comm f), Z.land_assoc, Z.land_ones by lia.
      change (2 ^ 12) with 4096. by rewrite Hpa. }
    replace (Z.land PTE_P f) with 0 by (destruct Hf; subst; reflexivity). done. }
  rewrite !Hf by auto.
  assert (PTE_ADDR (Z.lor (Z.lor pa PTE_P) perm) = pa) as ->.
  { rewrite <- Z.lor_assoc. apply PTE_ADDR_lor; [lia|done|]. destruct Hperm as [-> | ->]; by vm_compute. }
  destruct Hperm as [-> | ->], user, write; reflexivity.
Qed.

Lemma mmu_unmapped m d va user write :
  PTE_ADDR d = d -> mapping m d va = None -> mmu m d va user write = None.
Proof. intros Ed Em. unfold mmu. by rewrite Ed, Em. Qed.

(** From the entries to accesses. *)
Lemma mapped_space pages_pa envs_pa stacks_pa m d va user write :
  good_pa pages_pa -> good_pa envs_pa -> good_pa stacks_pa ->
  (forall va, PDX va <> PDX UVPT -> mapping m d va = space_pte pages_pa envs_pa stacks_pa (PGNUM va)) ->
  (forall i, 0 <= i < 1024 -> i <> PDX UVPT -> present (load32 m (slot d i)) = true ->
     Z.land (load32 m (slot d i)) 7 = 7) ->
  0 <= d < 0x100000000 -> d mod 4096 = 0 -> 0 <= va < 0x100000000 -> PDX va <> PDX UVPT ->
  mmu m d va user write = kernel_space pages_pa envs_pa stacks_pa va user write.
Proof.
  intros (P1 & P2 & P3) (E1 & E2 & E3) (S1 & S2 & S3) Hmap Hflags Hd Hda Hva Hu.
  assert (PTE_ADDR d = d) as Ed by (rewrite PTE_ADDR_div, u32_small; zlia).
  assert (PGNUM va = va / 4096) as Epg by (rewrite PGNUM_div, u32_small; done).
  assert (PGOFF va = va mod 4096) as Eoff by (rewrite PGOFF_mod, u32_small; done).
  specialize (Hmap va Hu). rewrite Epg in Hmap. set (pg := va / 4096) in *.
  assert (forall pa perm, space_pte pages_pa envs_pa stacks_pa pg = Some (Z.lor (Z.lor pa PTE_P) perm) ->
    pa mod 4096 = 0 -> 0 <= pa < 0x100000000 -> perm = Z.lor PTE_U PTE_P \/ perm = PTE_W ->
    mmu m d va user write = if user && (perm =? PTE_W) then None
      else if write && negb (perm =? PTE_W) then None else Some (pa + va mod 4096)) as Hsome.
  { intros pa perm Hs Ha Hr Hp. rewrite Hs in Hmap. rewrite <- Eoff. apply mmu_region; try done.
    apply Hflags; [auto with jos|done|]. unfold mapping in Hmap. rewrite <- pde_slot.
    by destruct (present (pde m d va)). }
  assert (space_pte pages_pa envs_pa stacks_pa pg = None -> mmu m d va user write = None) as Hnone
    by (intros Hn; apply mmu_unmapped; [done|congruence]).
  unfold space_pte, stack_page in Hsome, Hnone. unfold kernel_space, stack_of.
  change (UPAGES / 4096) with 0xEF000 in *. change (UENVS / 4096) with 0xEEC00 in *.
  change KERNBASE with 0xF0000000. change UPAGES with 0xEF000000. change UENVS with 0xEEC00000.
  change PTSIZE with 0x400000. change KSTACKTOP with 0xF0000000. change (KSTKSIZE + KSTKGAP) with 0x10000.
  change KSTKSIZE with 0x8000. change NCPU with 8.
  destruct (Z.leb_spec 0xF0000 pg).
  { rewrite (proj2 (Z.leb_le 0xF0000000 va)) by zlia.
    rewrite (Hsome _ _ eq_refl) by (auto; zlia). rewrite Z.eqb_refl, andb_true_r, andb_false_r.
    destruct user; [done|]. f_equal. zlia. }
  rewrite (proj2 (Z.leb_gt 0xF0000000 va)) by zlia.
  replace ((0xEF000000 <=? va) && (va <? 0xEF000000 + 0x400000)) with ((0xEF000 <=? pg) && (pg <? 0xEF000 + 1024))
    by (apply eq_true_iff_eq; rewrite !andb_true_iff, !Z.leb_le, !Z.ltb_lt; zlia).
  destruct ((0xEF000 <=? pg) && (pg <? 0xEF000 + 1024)) eqn:Ep.
  { bcomp. rewrite (Hsome _ _ eq_refl) by (auto; zlia). change (_ =? PTE_W) with false.
    rewrite andb_false_r, andb_true_r. destruct write; [done|]. f_equal. zlia. }
  replace ((0xEEC00000 <=? va) && (va <? 0xEEC00000 + 0x400000)) with ((0xEEC00 <=? pg) && (pg <? 0xEEC00 + 1024))
    by (apply eq_true_iff_eq; rewrite !andb_true_iff, !Z.leb_le, !Z.ltb_lt; zlia).
  destruct ((0xEEC00 <=? pg) && (pg <? 0xEEC00 + 1024)) eqn:Ee.
  { bcomp. rewrite (Hsome _ _ eq_refl) by (auto; zlia). change (_ =? PTE_W) with false.
    rewrite andb_false_r, andb_true_r. destruct write; [done|]. f_equal. zlia. }
  clear Ep Ee. rewrite (proj2 (Z.leb_le 0 (0xEFFFF - pg))) in Hsome, Hnone by lia. cbn [andb] in Hsome, Hnone.
  set (x := 0xEFFFF - pg) in *. set (y := 0xF0000000 - 1 - va).
  replace (y / 0x10000) with (x / 16) by (unfold x, y; zlia).
  replace (y mod 0x10000 <? 0x8000) with (x mod 16 <? 8)
    by (apply eq_true_iff_eq; rewrite !Z.ltb_lt; unfold x, y; zlia).
  destruct ((x / 16 <? 8) && (x mod 16 <? 8)) eqn:Ex; [|by apply Hnone].
  bcomp. rewrite (Hsome _ _ eq_refl) by (auto; zlia). rewrite Z.eqb_refl, andb_true_r, andb_false_r.
  destruct user; [done|]. f_equal. unfold x, y. zlia.
Qed.

(** C9: The address space that mem_init builds.  From a directory in which nothing is
    mapped but itself at UVPT, with at least 75 free pages and the arrays and stacks
    in page-aligned physical memory, the calls of boot_map_region in mem_init and
    mem_init_mp all succeed, and afterwards, at every address outside the UVPT
    window: the kernel, and no user, reads and writes physical memory [va - KERNBASE]
    at each address from KERNBASE on; everybody reads and nobody writes the arrays
    [pages] at UPAGES and [envs] at UENVS; the kernel reads and writes the stack of
    each CPU, the 32 KB below its stack top; and nothing else is mapped, so a stack
    that overflows runs into an unmapped gap before it reaches the next CPU's. *)
Theorem map_kernel_space bootstack percpu_kstacks pages_pa envs_pa boot_pa stacks_pa s l d :
  good_pa pages_pa -> good_pa envs_pa -> good_pa boot_pa -> good_pa stacks_pa ->
  kern_pgdir s = KERNBASE + d -> pages_kva s = KERNBASE + pages_pa -> envs_kva s = KERNBASE + envs_pa ->
  bootstack = KERNBASE + boot_pa -> percpu_kstacks = KERNBASE + stacks_pa ->
  pages_wf s l -> pgdir_wf s l d -> 75 <= Z.of_nat (length l) ->
  (forall va, PDX va <> PDX UVPT -> mapping (mem s) d va = None) ->
  (forall i, 0 <= i < 1024 -> i <> PDX UVPT -> present (load32 (mem s) (slot d i)) = true ->
     Z.land (load32 (mem s) (slot d i)) 7 = 7) ->
  exists t l', map_kernel bootstack percpu_kstacks s = Ok tt t /\ pages_wf t l' /\ pgdir_wf t l' d /\
    same_else s t /\
    forall va user write, 0 <= va < 0x100000000 -> PDX va <> PDX UVPT ->
      mmu (mem t) d va user write = kernel_space pages_pa envs_pa stacks_pa va user write.
Proof.
  intros Hpages Henvs Hboot Hstacks Hkp Hpk Hek Hbs Hps Hw Hd Hmem Hnone Hfull.
  destruct (map_kernel_run bootstack percpu_kstacks pages_pa envs_pa boot_pa stacks_pa
    Hpages Henvs Hboot Hstacks s l d Hkp Hpk Hek Hbs Hps Hw Hd Hmem) as (t & l' & E & M).
  exists t, l'. split; [done|]. split; [apply M|]. split; [apply M|]. split; [apply M|].
  intros va user write Hva Hu. eapply mapped_space; try done.
  - intros va' Hv'. rewrite (mp_map _ _ _ _ _ _ M va' Hv'), Hnone by done.
    rewrite PGNUM_div. apply layered_space. pose proof (u32_range va'). zlia.
  - intros i Hi Hne Hp. destruct (mp_flags _ _ _ _ _ _ M i Hi) as [E7|E7]; [|done].
    rewrite E7 in Hp |- *. by apply Hfull.
  - pose proof (dw_range _ _ _ Hd). pose proof (wf_npages _ _ Hw) as Hn. unfold MAXPAGES in Hn. lia.
  - apply Hd.
Qed.

(** ** Example: a machine of 512 pages just after page_init *)

Definition dir_pa : Z := 0x117000.
Definition dir_mem : memory := store32 ∅ (slot dir_pa (PDX UVPT)) (dir_pa + 5).
Definition with_arrays (s : kstate) : kstate :=
  set_mem dir_mem (set_kern_pgdir (KERNBASE + dir_pa)
    (set_pages_kva (KERNBASE + 0xa0000) (set_envs_kva (KERNBASE + 0xa1000) s))).

Lemma dir_mem_slot i :
  0 <= i < 1024 -> load32 dir_mem (slot dir_pa i) = if i =? 957 then dir_pa + 5 else 0.
Proof.
  intros Hi. unfold dir_mem. rewrite PDX_UVPT. destruct (Z.eqb_spec i 957) as [->|].
  - by rewrite load32_store32_eq.
  - rewrite load32_store32_ne; [reflexivity|]. unfold slot. lia.
Qed.

Lemma with_arrays_dir s l :
  pages_wf s l -> 512 <= npages s -> 0x117 ∉ l -> pgdir_wf (with_arrays s) l dir_pa.
Proof.
  intros Hw Hn Hl. change (npages s) with (npages (with_arrays s)) in Hn.
  assert (forall i, 0 <= i < 1024 -> load32 (mem (with_arrays s)) (slot dir_pa i) =
    if i =? 957 then dir_pa + 5 else 0) as Hs by exact dir_mem_slot.
  split; try rewrite PDX_UVPT.
  - reflexivity.
  - unfold dir_pa. lia.
  - exact Hl.
  - intros i Hi. rewrite Hs by done. destruct (i =? 957); [|done]. intros _.
    replace (PTE_ADDR (dir_pa + 5) / 4096) with 0x117 by (vm_compute; reflexivity). split; [lia|done].
  - intros i Hi Hne. rewrite Hs by done. by rewrite (proj2 (Z.eqb_neq i 957)).
  - intros i j Hi Hj Hne _ _. rewrite !Hs by done. by rewrite (proj2 (Z.eqb_neq i 957)).
Qed.

Lemma with_arrays_none s va : PDX va <> PDX UVPT -> mapping (mem (with_arrays s)) dir_pa va = None.
Proof.
  rewrite PDX_UVPT. intros Hv. unfold mapping. rewrite pde_slot.
  change (mem (with_arrays s)) with dir_mem. rewrite dir_mem_slot by auto with jos.
  by rewrite (proj2 (Z.eqb_neq _ _)) by done.
Qed.

Lemma map_kernel_space_witness :
  exists s t, map_kernel 0xf00c0000 0xf00d0000 s = Ok tt t /\
    mmu (mem t) dir_pa 0xF0000123 false true = Some 0x123 /\
    mmu (mem t) dir_pa 0xF0000123 true false = None /\
    mmu (mem t) dir_pa 0xEFFF7000 false false = None.
Proof.
  destruct (page_init_run 0xf0117abc (before_page_init 512)) as (s0 & _ & Hw & _ & _).
  - simpl. unfold MAXPAGES. lia.
  - exact (zero_pages_zeroed 512 (set_nextfree 0xf0118000 kstate0) ltac:(lia)).
  - reflexivity.
  - simpl. unfold KERNBASE. lia.
  - reflexivity.
  - change ((nextfree (before_page_init 512) - KERNBASE) / PGSIZE) with 280 in Hw.
    change (npages (before_page_init 512)) with 512 in Hw.
    assert (512 <= npages s0) as Hn.
    { assert (0 <= 511 < npages s0); [|lia]. apply (pages_wf_range _ _ 511 Hw).
      apply elem_of_usable_list. split; [reflexivity|lia]. }
    assert (0x117 ∉ usable_list 280 512) as Hl.
    { intros Hin. apply elem_of_usable_list in Hin as [Hin _]. by vm_compute in Hin. }
    assert (forall pa, (pa mod 4096 =? 0) && (0 <=? pa) && (pa <? 0x1000000) = true -> good_pa pa) as Hg.
    { intros pa Hp. rewrite !andb_true_iff, Z.eqb_eq, Z.leb_le, Z.ltb_lt in Hp.
      destruct Hp as [[? ?] ?]. split; [done|]. lia. }
    assert (75 <= Z.of_nat (length (usable_list 280 512))) as Hlen by (by vm_compute).
    destruct (map_kernel_space 0xf00c0000 0xf00d0000 0xa0000 0xa1000 0xc0000 0xd0000 (with_arrays s0)
      (usable_list 280 512) dir_pa (Hg 0xa0000 eq_refl) (Hg 0xa1000 eq_refl)
      (Hg 0xc0000 eq_refl) (Hg 0xd0000 eq_refl)
      eq_refl eq_refl eq_refl eq_refl eq_refl
      ltac:(eapply (pages_wf_ext s0); [exact Hw|reflexivity..])
      (with_arrays_dir s0 _ Hw Hn Hl) Hlen (with_arrays_none s0)) as (t & l' & E & _ & _ & _ & H).
    { intros i Hi Hne Hp. exfalso. change (mem (with_arrays s0)) with dir_mem in Hp.
      rewrite dir_mem_slot in Hp by done. rewrite PDX_UVPT in Hne.
      by rewrite (proj2 (Z.eqb_neq i 957) Hne) in Hp. }
    exists (with_arrays s0), t. split; [exact E|].
    split; [|split]; (etrans; [apply H; [lia|rewrite PDX_UVPT, PDX_div; by vm_compute]|reflexivity]).
Defined.
