(* ===== verification/Kdebug.v ===== *)
(** * Kdebug: source positions of instruction addresses, kern/kdebug.c

    The binary search over the stabs table and debuginfo_eip.  The table and its
    strings are read through the page tables in force; an access to an address that
    is not mapped is a page fault of the kernel.  The theorems: the search ends for
    every table, and what it finds. *)

From S2P Require Import Prelude Layout Memory CString Printfmt Kernel PageAlloc PageTable Env.

(** ** inc/stab.h *)

Definition N_FUN : Z := 0x24.
Definition N_SLINE : Z := 0x44.
Definition N_SO : Z := 0x64.
Definition N_SOL : Z := 0x84.
Definition N_PSYM : Z := 0xa0.

Definition sizeof_Stab : Z := 12.

(** ** Reading through the page tables *)

Inductive rd (A : Type) :=
| Rd (a : A)
| Flt (va : Z)      (* a page fault in the kernel *)
| Dry.              (* the model's fuel ran out *)
Arguments Rd {A} a.
Arguments Flt {A} va.
Arguments Dry {A}.
#[export] Instance rd_ret : MRet rd := fun A a => Rd a.
#[export] Instance rd_bind : MBind rd := fun A B f x =>
  match x with Rd a => f a | Flt va => Flt va | Dry => Dry end.

Definition lift {A} (x : rd A) : K A := fun s =>
  match x with Rd a => Ok a s | Flt va => Leave (KernelFault va) s | Dry => Leave NoFuel s end.

Definition vload8 (s : kstate) (va : Z) : rd Z :=
  match mmu (mem s) (cr3 s) va false false with
  | Some a => Rd (load8 (mem s) a)
  | None => Flt va
  end.
Definition vload16 (s : kstate) (va : Z) : rd Z :=
  a ← vload8 s va; b ← vload8 s (u32 (va + 1)); mret (a + 0x100 * b).
Definition vload32 (s : kstate) (va : Z) : rd Z :=
  a ← vload16 s va; b ← vload16 s (u32 (va + 2)); mret (a + 0x10000 * b).

(** The fields of [stabs[i]]. *)
Definition stab_strx (s : kstate) (stabs i : Z) : rd Z := vload32 s (u32 (stabs + i * sizeof_Stab)).
Definition stab_type (s : kstate) (stabs i : Z) : rd Z := vload8 s (u32 (stabs + i * sizeof_Stab + 4)).
Definition stab_desc (s : kstate) (stabs i : Z) : rd Z := vload16 s (u32 (stabs + i * sizeof_Stab + 6)).
Definition stab_value (s : kstate) (stabs i : Z) : rd Z := vload32 s (u32 (stabs + i * sizeof_Stab + 8)).

(** ** The search

    [ty] and [val] read n_type and n_value of an entry. *)

Section Search.
Context (ty val : Z -> rd Z) (type : Z).

(** Step back from [m], at most [n] times, to an entry of the type. *)
Fixpoint scan_back (n : nat) (m : Z) : rd Z :=
  match n with
  | O => mret m
  | S n' => t ← ty m; if t =? type then mret m else scan_back n' (m - 1)
  end.

(** The variables of the loop. *)
Record search := mkSearch {
  s_l : Z;
  s_r : Z;
  any_matches : bool;
  region_left : Z;
  region_right : Z;
  s_addr : Z;
}.

(** One turn, with [l <= r]. *)
Definition search_turn (st : search) : rd search :=
  let l := s_l st in
  let true_m := Z.quot (s32 (l + s_r st)) 2 in
  m ← scan_back (Z.to_nat (true_m - l + 1)) true_m;
  if m <? l then
    mret (mkSearch (true_m + 1) (s_r st) (any_matches st) (region_left st) (region_right st) (s_addr st))
  else
    v ← val m;
    if v <? s_addr st then
      mret (mkSearch (true_m + 1) (s_r st) true m (region_right st) (s_addr st))
    else if v >? s_addr st then
      mret (mkSearch l (m - 1) true (region_left st) (m - 1) (s_addr st))
    else
      mret (mkSearch m (s_r st) true m (region_right st) (u32 (s_addr st + 1))).

Fixpoint search_loop (fuel : nat) (st : search) : rd search :=
  match fuel with
  | O => Dry
  | S fuel' => if s_l st <=? s_r st then st' ← search_turn st; search_loop fuel' st' else mret st
  end.

(** The new region. *)
Definition stab_binsearch (left right addr : Z) : rd (Z * Z) :=
  st ← search_loop (Z.to_nat (2 * Z.max 0 (right - left + 1) + 2)) (mkSearch left right false left right addr);
  if negb (any_matches st) then mret (region_left st, region_left st - 1)
  else
    l ← scan_back (Z.to_nat (region_right st - region_left st)) (region_right st);
    mret (l, region_right st).

End Search.

(** ** debuginfo_eip *)

(** A string of the C program: a literal, or a pointer to bytes in memory. *)
Inductive cstr :=
| Lit (x : string)
| Ptr (va : Z).

Record Eipdebuginfo := mkEipdebuginfo {
  eip_file : cstr;
  eip_line : Z;
  eip_fn_name : cstr;
  eip_fn_namelen : Z;
  eip_fn_addr : Z;
  eip_fn_narg : Z;
}.
Definition eta_Eipdebuginfo (i : Eipdebuginfo) : Eipdebuginfo :=
  mkEipdebuginfo (eip_file i) (eip_line i) (eip_fn_name i) (eip_fn_namelen i) (eip_fn_addr i)
    (eip_fn_narg i).
Definition set_eip_file : cstr -> Eipdebuginfo -> Eipdebuginfo := ltac:(mk_setter eta_Eipdebuginfo eip_file).
Definition set_eip_line : Z -> Eipdebuginfo -> Eipdebuginfo := ltac:(mk_setter eta_Eipdebuginfo eip_line).
Definition set_eip_fn_name : cstr -> Eipdebuginfo -> Eipdebuginfo := ltac:(mk_setter eta_Eipdebuginfo eip_fn_name).
Definition set_eip_fn_namelen : Z -> Eipdebuginfo -> Eipdebuginfo := ltac:(mk_setter eta_Eipdebuginfo eip_fn_namelen).
Definition set_eip_fn_addr : Z -> Eipdebuginfo -> Eipdebuginfo := ltac:(mk_setter eta_Eipdebuginfo eip_fn_addr).
Definition set_eip_fn_narg : Z -> Eipdebuginfo -> Eipdebuginfo := ltac:(mk_setter eta_Eipdebuginfo eip_fn_narg).

Definition info0 (addr : Z) : Eipdebuginfo :=
  mkEipdebuginfo (Lit "<unknown>") 0 (Lit "<unknown>") 9 addr 0.

(** struct UserStabData, four pointers. *)
Record UserStabData := mkUserStabData {
  usd_stabs : Z;
  usd_stab_end : Z;
  usd_stabstr : Z;
  usd_stabstr_end : Z;
}.
Definition sizeof_UserStabData : Z := 16.

Definition read_usd (va : Z) : K UserStabData := fun s =>
  lift (a ← vload32 s va; b ← vload32 s (va + 4); c ← vload32 s (va + 8); d ← vload32 s (va + 12);
        mret (mkUserStabData a b c d)) s.

(** [stab_end - stabs], a difference of pointers to 12-byte structures. *)
Definition stab_count (d : UserStabData) : K Z :=
  let n := s32 (usd_stab_end d - usd_stabs d) in
  if n mod sizeof_Stab =? 0 then mret (n / sizeof_Stab) else undefined.

(** The checks of a user's tables; [None] is a return of -1. *)
Definition user_stabs : K (option UserStabData) :=
  c ← curenv_ptr;
  r ← user_mem_check c USTABDATA sizeof_UserStabData (Z.lor PTE_U PTE_P);
  if negb (r =? 0) then mret None
  else
    usd ← read_usd USTABDATA;
    n ← stab_count usd;
    r ← user_mem_check c (usd_stabs usd) (u32 (n * sizeof_Stab)) (Z.lor PTE_U PTE_P);
    if negb (r =? 0) then mret None
    else
      r ← user_mem_check c (usd_stabstr usd) (u32 (usd_stabstr_end usd - usd_stabstr usd)) (Z.lor PTE_U PTE_P);
      if negb (r =? 0) then mret None else mret (Some usd).

(** strfind in memory: the distance from [va] to the first [c] or to the end. *)
Fixpoint strfind_v (s : kstate) (fuel : nat) (va c n : Z) : rd Z :=
  match fuel with
  | O => Dry
  | S fuel' =>
      b ← vload8 s va;
      if (b =? 0) || (b =? c) then mret n else strfind_v s fuel' (u32 (va + 1)) c (n + 1)
  end.

(** Back to the nearest entry that names a file. *)
Fixpoint file_back (s : kstate) (stabs lfile : Z) (n : nat) (lline : Z) : rd Z :=
  match n with
  | O => mret lline
  | S n' =>
      t ← stab_type s stabs lline;
      if t =? N_SOL then mret lline
      else
        v ← (if t =? N_SO then stab_value s stabs lline else mret 0);
        if (t =? N_SO) && ctrue v then mret lline else file_back s stabs lfile n' (lline - 1)
  end.

(** The number of N_PSYM entries from [lline] on, before [rfun]. *)
Fixpoint count_args (s : kstate) (stabs : Z) (n : nat) (lline : Z) : rd Z :=
  match n with
  | O => mret 0
  | S n' =>
      t ← stab_type s stabs lline;
      if t =? N_PSYM then k ← count_args s stabs n' (lline + 1); mret (k + 1) else mret 0
  end.

Section Debuginfo.
(** The kernel's own tables, which the linker places. *)
Context (kernel_stabs : UserStabData).

(** What follows the choice of the tables, from the search for the file on. *)
Definition debuginfo_search (d : UserStabData) (count addr : Z) (info : Eipdebuginfo) (s : kstate) :
    rd (Z * Eipdebuginfo) :=
  let stabs := usd_stabs d in
  let strsize := u32 (usd_stabstr_end d - usd_stabstr d) in
  let find := stab_binsearch (stab_type s stabs) (stab_value s stabs) in
  '(lfile, rfile) ← find N_SO 0 (count - 1) addr;
  if lfile =? 0 then mret (-1, info)
  else
    '(lfun, rfun) ← find N_FUN lfile rfile addr;
    '(info, addr, lline, rline) ←
      (if lfun <=? rfun then
         x ← stab_strx s stabs lfun;
         v ← stab_value s stabs lfun;
         let info := if x <? strsize then set_eip_fn_name (Ptr (u32 (usd_stabstr d + x))) info else info in
         mret (set_eip_fn_addr v info, u32 (addr - v), lfun, rfun)
       else mret (set_eip_fn_addr addr info, addr, lfile, rfile));
    len ← (match eip_fn_name info with
           | Lit x => mret (Z.of_nat (String.length x))
           | Ptr va => strfind_v s (Z.to_nat (u32 (usd_stabstr_end d - va))) va 58 0
           end);
    let info := set_eip_fn_namelen len info in
    let whole := (lline =? lfile) && (rline =? rfile) in
    '(olline, orline) ← find N_SOL lline rline
      (u32 ((if whole then 0 else addr) + eip_fn_addr info));
    '(lline, rline) ← (if olline >? orline then find N_SLINE lline rline addr else mret (lline, rline));
    if (olline >? orline) && (lline >? rline) then mret (-1, info)
    else
      line ← stab_desc s stabs lline;
      let info := set_eip_line line info in
      lline ← file_back s stabs lfile (Z.to_nat (lline - lfile + 1)) lline;
      info ← (if lline >=? lfile then
                x ← stab_strx s stabs lline;
                mret (if x <? strsize then set_eip_file (Ptr (u32 (usd_stabstr d + x))) info else info)
              else mret info);
      n ← (if lfun <? rfun then count_args s stabs (Z.to_nat (rfun - lfun - 1)) (lfun + 1) else mret 0);
      mret (0, set_eip_fn_narg (eip_fn_narg info + n) info).

Definition debuginfo_eip (addr : Z) : K (Z * Eipdebuginfo) :=
  let info := info0 addr in
  tables ← (if addr >=? ULIM then mret (Some kernel_stabs) else user_stabs);
  match tables with
  | None => mret (-1, info)
  | Some d =>
      last ← (if usd_stabstr_end d <=? usd_stabstr d then mret None
              else (fun s => lift (b ← vload8 s (u32 (usd_stabstr_end d - 1)); mret (Some b)) s) : K (option Z));
      match last with
      | Some 0 =>
          n ← stab_count d;
          (fun s => lift (debuginfo_search d n addr info s) s) : K (Z * Eipdebuginfo)
      | _ => mret (-1, info)
      end
  end.

End Debuginfo.

(** ** The search ends, and what it finds *)

Section SearchSpec.
Context (ty val : Z -> rd Z) (type : Z) (tyf valf : Z -> Z) (L R : Z).
(** The entries of the region can be read; indexes do not overflow an [int]. *)
Context (Hty : forall i, L <= i <= R -> ty i = Rd (tyf i)).
Context (Hval : forall i, L <= i <= R -> val i = Rd (valf i)).
Context (HL : 0 <= L) (HR : R < 0x40000000).

Definition matching (i : Z) : Prop := L <= i <= R /\ tyf i = type.

Lemma scan_back_spec n m :
  L <= m + 1 - Z.of_nat n \/ n = O -> m <= R ->
  exists k, scan_back ty type n m = Rd k /\ m - Z.of_nat n <= k <= m /\
    (forall i, k < i <= m -> tyf i <> type) /\
    (m - Z.of_nat n < k -> tyf k = type).
Proof using Hty.
  revert m. induction n as [|n IH]; intros m Hm HmR.
  - exists m. split; [done|]. split; [lia|]. split; intros; lia.
  - cbn [scan_back]. rewrite Hty by lia. unfold mbind at 1, rd_bind at 1.
    destruct (tyf m =? type) eqn:E; bcomp.
    + exists m. split; [done|]. split; [lia|]. split; [intros; lia|done].
    + destruct (IH (m - 1)) as (k & -> & Hk & Hn & Hf); [lia..|].
      exists k. split; [done|]. split; [lia|]. split; [|intros; apply Hf; lia].
      intros i Hi. destruct (Z.eq_dec i m) as [->|]; [done|]. apply Hn. lia.
Qed.

(** The length of what is left, and whether the entry at [l] is about to be hit
    exactly (which moves only [addr]). *)
Definition exact_now (st : search) : bool :=
  (s_l st <=? s_r st) && (tyf (s_l st) =? type) && (valf (s_l st) =? s_addr st).
Definition remaining (st : search) : Z :=
  2 * (s_r st - s_l st + 1) + (if exact_now st then 1 else 0).

(** The cases of one turn: no entry, an entry below, above and at the address. *)
Lemma search_turn_cases st :
  L <= s_l st -> s_l st <= s_r st -> s_r st <= R ->
  exists t m, s_l st <= t <= s_r st /\ s_l st - 1 <= m <= t /\
    (forall i, m < i <= t -> tyf i <> type) /\
    ((m < s_l st /\ search_turn ty val type st =
        Rd (mkSearch (t + 1) (s_r st) (any_matches st) (region_left st) (region_right st) (s_addr st))) \/
     (s_l st <= m /\ tyf m = type /\ valf m < s_addr st /\ search_turn ty val type st =
        Rd (mkSearch (t + 1) (s_r st) true m (region_right st) (s_addr st))) \/
     (s_l st <= m /\ tyf m = type /\ s_addr st < valf m /\ search_turn ty val type st =
        Rd (mkSearch (s_l st) (m - 1) true (region_left st) (m - 1) (s_addr st))) \/
     (s_l st <= m /\ tyf m = type /\ s_addr st = valf m /\ search_turn ty val type st =
        Rd (mkSearch m (s_r st) true m (region_right st) (u32 (s_addr st + 1))))).
Proof using Hty Hval HL HR.
  intros Hl Hlr Hr. set (t := Z.quot (s32 (s_l st + s_r st)) 2).
  assert (s_l st <= t <= s_r st) as Ht.
  { unfold t. rewrite s32_small by lia. rewrite Z.quot_div_nonneg by lia. zlia. }
  destruct (scan_back_spec (Z.to_nat (t - s_l st + 1)) t) as (m & E & Hm & Hn & Hf); [lia..|].
  exists t, m. split; [done|]. split; [lia|]. split; [done|].
  unfold search_turn. fold t. rewrite E. unfold mbind, rd_bind.
  destruct (m <? s_l st) eqn:Eml; bcomp; [by left|right].
  specialize (Hf ltac:(lia)). rewrite Hval by lia.
  destruct (valf m <? s_addr st) eqn:E1; bcomp; [by left|right].
  rewrite Z.gtb_ltb. destruct (s_addr st <? valf m) eqn:E2; bcomp; [by left|right].
  split; [done|]. split; [done|]. split; [lia|done].
Qed.

Record bounded (st : search) : Prop := {
  bd_l : L <= s_l st;
  bd_r : s_r st <= R;
  bd_left : L <= region_left st;
  bd_right : region_right st <= R;
  bd_addr : 0 <= s_addr st < 0x100000000;
}.

Lemma search_turn_progress st :
  bounded st -> s_l st <= s_r st ->
  exists st', search_turn ty val type st = Rd st' /\ remaining st' < remaining st /\ bounded st'.
Proof using Hty Hval HL HR.
  intros [Hl Hr Hleft Hright Ha] Hlr.
  destruct (search_turn_cases st Hl Hlr Hr) as (t & m & Ht & Hm & _ & [(H&->)|[(H&H1&H2&->)|[(H&H1&H2&->)|(H&H1&H2&->)]]]);
    eexists; (split; [reflexivity|]); unfold remaining; cbn [s_l s_r s_addr];
    (split; [|split; cbn [s_l s_r s_addr region_left region_right]; (lia || apply u32_range)]).
  1-3: repeat match goal with |- context [exact_now ?x] => destruct (exact_now x) end; lia.
  destruct (Z.eq_dec m (s_l st)) as [->|Hne];
    [|repeat match goal with |- context [exact_now ?x] => destruct (exact_now x) end; lia].
  replace (exact_now st) with true.
  2: { symmetry. unfold exact_now. rewrite !andb_true_iff, !Z.eqb_eq, Z.leb_le. done. }
  replace (exact_now _) with false; [lia|].
  symmetry. unfold exact_now. cbn [s_l s_r s_addr]. rewrite !andb_false_iff, !Z.eqb_neq. right.
  rewrite <- H2. unfold u32. zlia.
Qed.

Lemma search_loop_ends fuel st :
  bounded st -> (Z.to_nat (remaining st) < fuel)%nat ->
  exists st', search_loop ty val type fuel st = Rd st' /\ bounded st'.
Proof using Hty Hval HL HR.
  revert st. induction fuel as [|fuel IH]; intros st Hb Hf; [lia|].
  cbn [search_loop]. destruct (s_l st <=? s_r st) eqn:E; bcomp; [|eauto].
  destruct (search_turn_progress st Hb E) as (st' & -> & Hd & Hb').
  apply IH; [done|]. unfold remaining in *.
  destruct (exact_now st); destruct (exact_now st'); lia.
Qed.

(** What the loop keeps, for a table sorted by address.  Every exact hit makes the
    search go on with the next address, so [s_addr] runs through adjacent entries
    from [a0] on; [reached] is the last of these, or [a0].  The entries before [l]
    are at or below it, the last of them no further than [left]; those after [r] are
    above [a0] and not below it, starting just there. *)
Context (a0 : Z) (Ha0 : 0 <= a0 < 0xffffffff).
Context (Hsorted : forall i j, matching i -> matching j -> i <= j -> valf i <= valf j).
Context (Hmax : forall i, matching i -> valf i < 0xffffffff).

Definition reached (st : search) : Z := Z.max a0 (s_addr st - 1).

Record search_inv (st : search) : Prop := {
  si_right : region_right st = s_r st;
  si_addr : a0 <= s_addr st;
  si_run : forall x, a0 <= x < s_addr st -> exists i, matching i /\ valf i = x;
  si_below : forall i, matching i -> i < s_l st -> valf i <= reached st /\ i <= region_left st;
  si_above : forall i, matching i -> s_r st < i -> a0 < valf i /\ reached st <= valf i;
  si_rest : a0 < s_addr st -> forall i, matching i -> s_l st <= i -> reached st <= valf i;
  si_left : region_left st = L \/ (matching (region_left st) /\ valf (region_left st) <= reached st);
  si_in : region_left st = L \/ region_left st <= s_r st;
  si_hit : a0 < s_addr st -> matching (region_left st) /\ valf (region_left st) = reached st;
  si_edge : s_r st = R \/ matching (s_r st + 1);
  si_none : any_matches st = false -> s_r st = R /\ forall i, i < s_l st -> ~ matching i;
  si_some : any_matches st = true -> exists i, matching i;
}.

(** A turn that finds nothing. *)
Lemma turn_none st t :
  search_inv st -> (forall i, matching i -> i < t + 1 -> i < s_l st) -> s_l st <= t ->
  search_inv (mkSearch (t + 1) (s_r st) (any_matches st) (region_left st) (region_right st) (s_addr st)).
Proof using Type.
  intros [I1 I2 I3 I4 I5 I6 I7 I7' I8 I9 I10 I11] Hno Ht. split; cbn; try done.
  - intros i Hi Hlt. apply I4; [done|by apply Hno].
  - intros Ha i Hi Hle. apply I6; [done..|lia].
  - intros Hf. destruct (I10 Hf) as [-> Hn]. split; [done|]. intros i Hlt Hi. by apply (Hn i (Hno i Hi Hlt)).
Qed.

(** An entry below the address. *)
Lemma turn_below st t m :
  search_inv st -> matching m -> (forall i, matching i -> i < t + 1 -> i <= m) ->
  s_l st <= m <= t -> t <= s_r st -> valf m < s_addr st ->
  search_inv (mkSearch (t + 1) (s_r st) true m (region_right st) (s_addr st)).
Proof using Hsorted.
  intros [I1 I2 I3 I4 I5 I6 I7 I7' I8 I9 I10 I11] Hm Hupto Ht Htr Hv.
  assert (valf m <= reached st) as Hlow by (unfold reached; lia).
  split; cbn; try done; [| |by right|right; lia| |by exists m].
  - intros i Hi Hlt. specialize (Hupto i Hi Hlt). specialize (Hsorted i m Hi Hm Hupto).
    unfold reached in *. cbn. lia.
  - intros Ha i Hi Hle. apply I6; [done..|lia].
  - intros Ha. split; [done|]. specialize (I6 Ha m Hm ltac:(lia)). unfold reached in *. cbn. lia.
Qed.

(** An entry above it. *)
Lemma turn_above st m :
  search_inv st -> matching m -> s_addr st < valf m ->
  search_inv (mkSearch (s_l st) (m - 1) true (region_left st) (m - 1) (s_addr st)).
Proof using Hsorted.
  intros [I1 I2 I3 I4 I5 I6 I7 I7' I8 I9 I10 I11] Hm Hv.
  split; cbn; try done; [| |right; by replace (m - 1 + 1) with m by lia|by exists m].
  - intros i Hi Hlt. assert (valf m <= valf i) by (apply Hsorted; [done..|lia]).
    unfold reached. cbn. lia.
  - destruct I7 as [El|[Hml Hvl]]; [by left|right].
    destruct (Z.le_gt_cases m (region_left st)) as [Hle|]; [|lia].
    specialize (Hsorted m _ Hm Hml Hle). unfold reached in Hvl. lia.
Qed.

(** An entry that starts at it. *)
Lemma turn_exact st m :
  search_inv st -> matching m -> s_l st <= m <= s_r st -> s_addr st = valf m ->
  search_inv (mkSearch m (s_r st) true m (region_right st) (u32 (s_addr st + 1))).
Proof using Hsorted Hmax Ha0.
  intros [I1 I2 I3 I4 I5 I6 I7 I7' I8 I9 I10 I11] Hm Hr Hv. pose proof (Hmax m Hm) as Hlt.
  assert (u32 (s_addr st + 1) = valf m + 1) as -> by (rewrite Hv; apply u32_small; lia).
  assert (reached (mkSearch m (s_r st) true m (region_right st) (valf m + 1)) = valf m) as Er
    by (unfold reached; cbn; lia).
  split; rewrite ?Er; cbn; try done; [lia| | | | |right; split; [done|lia]|right; lia|by exists m].
  - intros x Hx. destruct (Z.eq_dec x (valf m)) as [->|]; [by exists m|]. apply I3. lia.
  - intros i Hi Hl. split; [apply Hsorted; [done..|lia]|lia].
  - intros i Hi Hl. assert (valf m <= valf i) by (apply Hsorted; [done..|lia]).
    destruct (I5 i Hi Hl). lia.
  - intros _ i Hi Hl. apply Hsorted; [done..|lia].
Qed.

Lemma search_inv_turn st st' :
  bounded st -> search_inv st -> s_l st <= s_r st -> search_turn ty val type st = Rd st' ->
  search_inv st'.
Proof using Hty Hval HL HR Ha0 Hsorted Hmax.
  intros [Hl Hr Hleft Hright Ha] Hi Hlr.
  destruct (search_turn_cases st Hl Hlr Hr) as (t & m & Ht & Hm & Hno & Hc).
  assert (forall i, matching i -> i < t + 1 -> i <= m) as Hupto.
  { intros i [_ Hti] Hlt. destruct (Z.le_gt_cases i m); [done|]. destruct (Hno i); [lia|done]. }
  destruct Hc as [(H&->)|[(H&H1&H2&->)|[(H&H1&H2&->)|(H&H1&H2&->)]]]; intros [= <-].
  - apply turn_none; [done| |lia]. intros i Hmi Hlt. specialize (Hupto i Hmi Hlt). lia.
  - apply turn_below; [done|split; [lia|done]|done|lia|lia|done].
  - apply turn_above; [done|split; [lia|done]|done].
  - apply turn_exact; [done|split; [lia|done]|lia|done].
Qed.

Lemma search_loop_inv fuel st st' :
  bounded st -> search_inv st -> search_loop ty val type fuel st = Rd st' ->
  search_inv st' /\ s_r st' < s_l st'.
Proof using Hty Hval HL HR Ha0 Hsorted Hmax.
  revert st. induction fuel as [|fuel IH]; intros st Hb Hi; [done|].
  cbn [search_loop]. destruct (s_l st <=? s_r st) eqn:E; bcomp; [|unfold mret, rd_ret; intros [= <-]; by split; [|lia]].
  destruct (search_turn_progress st Hb E) as (st1 & E1 & _ & Hb1). rewrite E1.
  apply IH; [done|]. by apply (search_inv_turn st).
Qed.

Lemma search_init :
  bounded (mkSearch L R false L R a0) /\ search_inv (mkSearch L R false L R a0).
Proof using HL HR Ha0.
  split; split; cbn; try (lia || done || by left); try (intros i [Hi _]; lia).
  intros _. split; [done|]. intros i Hi [Hm _]. lia.
Qed.

(** The last step: back from [right] to the left end. *)
Lemma search_final st :
  bounded st -> search_inv st -> s_r st < s_l st -> any_matches st = true ->
  scan_back ty type (Z.to_nat (region_right st - region_left st)) (region_right st) =
    Rd (Z.min (region_left st) (region_right st)).
Proof using Hty.
  intros [Hl Hr Hleft Hright _] Hinv Hlr Hany. pose proof (si_right _ Hinv) as I1. pose proof (si_below _ Hinv) as I3.
  destruct (scan_back_spec (Z.to_nat (region_right st - region_left st)) (region_right st))
    as (k & -> & Hk & Hn & Hf); [lia..|]. f_equal.
  destruct (Z.le_gt_cases (region_right st) (region_left st)); [lia|].
  destruct (Z.eq_dec k (region_left st)) as [->|Hne]; [lia|].
  assert (matching k) as Hm by (split; [lia|apply Hf; lia]).
  destruct (Z.lt_ge_cases k (s_l st)) as [Hlt|Hge]; [destruct (I3 k Hm Hlt); lia|lia].
Qed.

(** The result, in terms of the final variables. *)
Lemma stab_binsearch_run :
  exists st, bounded st /\ search_inv st /\ s_r st < s_l st /\
    stab_binsearch ty val type L R a0 =
      Rd (if any_matches st then (Z.min (region_left st) (region_right st), region_right st) else (L, L - 1)).
Proof using Hty Hval HL HR Ha0 Hsorted Hmax.
  destruct search_init as [Hb0 Hi0].
  destruct (search_loop_ends (Z.to_nat (2 * Z.max 0 (R - L + 1) + 2)) _ Hb0) as (st & E & Hb).
  { unfold remaining, exact_now. cbn [s_l s_r s_addr]. destruct (L <=? R) eqn:El; bcomp; cbn [andb]; [|lia].
    destruct (_ && _); lia. }
  destruct (search_loop_inv _ _ _ Hb0 Hi0 E) as [Hi Hlr].
  exists st. split; [done|]. split; [done|]. split; [done|].
  unfold stab_binsearch. rewrite E. unfold mbind, rd_bind.
  destruct (any_matches st) eqn:Ea; cbn [negb].
  - by rewrite search_final.
  - destruct (si_left _ Hi) as [->|[Hm _]]; [done|].
    destruct (si_none _ Hi Ea) as [Er Hn]. destruct (Hn (region_left st)); [|done].
    destruct Hm as [Hm _]. lia.
Qed.

End SearchSpec.

(** The search of the stabs table ends, for every table, sorted or not: on any
    region within the range of an [int] whose entries can be read, stab_binsearch
    returns a result after at most twice as many turns as the region has entries,
    and two, and reads no entry outside the region. *)
Theorem stab_binsearch_terminates ty val type tyf valf left right addr :
  (forall i, left <= i <= right -> ty i = Rd (tyf i)) ->
  (forall i, left <= i <= right -> val i = Rd (valf i)) ->
  0 <= left -> right < 0x40000000 -> 0 <= addr < 0x100000000 ->
  exists region, stab_binsearch ty val type left right addr = Rd region.
Proof.
  intros Hty Hval HL HR Ha. set (st0 := mkSearch left right false left right addr).
  assert (bounded left right st0) as Hb0 by (split; simpl; lia).
  destruct (search_loop_ends ty val type tyf valf left right Hty Hval HL HR
    (Z.to_nat (2 * Z.max 0 (right - left + 1) + 2)) st0 Hb0) as (st & E & Hb).
  { unfold remaining, exact_now, st0. cbn [s_l s_r s_addr].
    destruct (left <=? right) eqn:El; bcomp; cbn [andb]; [|lia]. destruct (_ && _); lia. }
  unfold stab_binsearch. fold st0. rewrite E. unfold mbind, rd_bind.
  pose proof (bd_left _ _ _ Hb). pose proof (bd_right _ _ _ Hb).
  destruct (any_matches st); cbn [negb]; [|by eexists].
  destruct (scan_back_spec ty type tyf left right Hty
    (Z.to_nat (region_right st - region_left st)) (region_right st)) as (k & -> & Hk & _); [lia..|].
  by eexists.
Qed.

(** C31: The search finds the entry that contains an address, or one after it.  In a
    table whose entries of the type are sorted by address (below 0xffffffff), without
    any entry of the type the result is empty.  If one of them is at or below the
    address, the left end of the result is an entry of the type, the last one up to
    the right end, and the right end is just before another one, or the end of the
    region.  There is an address [b] such that this entry is at or below [b] and all
    entries after the right end are above [addr] and at or above [b]; [b] is [addr]
    itself unless the entries of the type start at every address from [addr] to [b],
    and then the entry found is one at [b].  So if no entry starts one byte after one
    that starts at [addr], the entry is the last one at or below [addr], and the next
    one is above.  Otherwise the search may pass over an exact match: of two entries
    at 16 and 17, a search for 16 gives the second.  When all of them start above the
    address the result is not empty, as the code's comment has it: it ends just
    before the first of them, and starts at the beginning of the region, or before
    it when that is the first of them. *)
Theorem stab_binsearch_finds ty val type tyf valf left right addr :
  (forall i, left <= i <= right -> ty i = Rd (tyf i)) ->
  (forall i, left <= i <= right -> val i = Rd (valf i)) ->
  0 <= left -> right < 0x40000000 -> 0 <= addr < 0xffffffff ->
  let is_match := matching type tyf left right in
  (forall i j, is_match i -> is_match j -> i <= j -> valf i <= valf j) ->
  (forall i, is_match i -> valf i < 0xffffffff) ->
  exists l r b, stab_binsearch ty val type left right addr = Rd (l, r) /\
    addr <= b /\ (b = addr \/ forall x, addr <= x <= b -> exists i, is_match i /\ valf i = x) /\
    ((forall i j, is_match i -> is_match j -> valf i = addr -> valf j <> addr + 1) -> b = addr) /\
    ((forall i, ~ is_match i) -> l = left /\ r = left - 1) /\
    (forall k, is_match k -> valf k <= addr ->
       is_match l /\ valf l <= b /\ (b <> addr -> valf l = b) /\ l <= r <= right /\
       (forall i, is_match i -> i <= r -> i <= l) /\
       (forall i, is_match i -> r < i -> addr < valf i /\ b <= valf i) /\
       (r = right \/ is_match (r + 1))) /\
    (forall k, is_match k -> (forall i, is_match i -> addr < valf i /\ k <= i) ->
       l = Z.min left (k - 1) /\ r = k - 1) /\
    stab_binsearch (fun _ => Rd N_FUN) (fun i => Rd (16 + i)) N_FUN 0 1 16 = Rd (1, 1).
Proof.
  intros Hty Hval HL HR Ha is_match Hs Hmx.
  destruct (stab_binsearch_run ty val type tyf valf left right Hty Hval HL HR addr Ha Hs Hmx)
    as (st & Hb & Hi & Hlr & E).
  pose proof (bd_right _ _ _ Hb) as Hright. set (b := reached addr st).
  destruct Hi as [I1 I2 I3 I4 I5 I6 I7 I7' I8 I9 I10 I11]. fold b in I4, I5, I6, I7, I8.
  assert (addr <= b /\ (b = addr \/ forall x, addr <= x <= b -> exists i, is_match i /\ valf i = x)) as [Hb1 Hb2].
  { unfold b, reached. split; [lia|]. destruct (Z.le_gt_cases (s_addr st - 1) addr); [left; lia|right].
    intros x Hx. apply I3. lia. }
  assert ((forall i j, is_match i -> is_match j -> valf i = addr -> valf j <> addr + 1) -> b = addr) as Hb3.
  { intros Hg. destruct (Z.eq_dec b addr) as [|Hne]; [done|]. destruct Hb2 as [|Hb2]; [done|].
    destruct (Hb2 addr ltac:(lia)) as (i & Hi & Hvi), (Hb2 (addr + 1) ltac:(lia)) as (j & Hj & Hvj).
    by destruct (Hg i j Hi Hj Hvi). }
  exists (if any_matches st then Z.min (region_left st) (region_right st) else left),
    (if any_matches st then region_right st else left - 1), b.
  split; [rewrite E; by destruct (any_matches st)|]. do 3 (split; [done|]).
  destruct (any_matches st).
  - split; [intros Hn; by destruct (I11 eq_refl) as [i Hi]; destruct (Hn i)|].
    assert (forall i, is_match i -> i <= s_r st -> valf i <= b /\ i <= region_left st) as Hlow
      by (intros i Hi Hle; apply I4; [done|lia]).
    split; [|split; [|reflexivity]].
    + intros k Hk Hv.
      assert (k <= s_r st) as Hkr by (destruct (Z.le_gt_cases k (s_r st)); [done|destruct (I5 k Hk); lia]).
      destruct (Hlow k Hk Hkr) as [_ Hkl].
      assert (is_match (region_left st)) as Hml.
      { destruct I7 as [El|[Hm _]]; [|done]. assert (k = region_left st) as <-; [|done].
        destruct Hk as [Hk _]. lia. }
      assert (region_left st <= s_r st) as Hlr2 by (destruct I7' as [El|]; [destruct Hk as [Hk _]; lia|done]).
      rewrite Z.min_l by lia. split; [done|]. split; [by apply Hlow|]. split.
      { intros Hne. apply I8. unfold b, reached in Hne. lia. }
      split; [lia|]. split; [intros i Hi Hle; apply Hlow; [done|lia]|].
      split; [|by rewrite I1]. intros i Hi Hlt. apply I5; [done|lia].
    + intros k Hk Hall. assert (addr = b) as <-.
      { destruct Hb2 as [|Hb2]; [done|]. destruct (Hb2 addr ltac:(lia)) as (i & Hi & Hvi). destruct (Hall i Hi). lia. }
      assert (region_left st = left) as El.
      { destruct I7 as [El|[Hm Hlv]]; [done|]. destruct (Hall _ Hm). lia. }
      assert (s_r st < k) as Hkr.
      { destruct (Z.le_gt_cases k (s_r st)); [|lia]. destruct (Hlow k Hk), (Hall k Hk); lia. }
      assert (s_r st = k - 1); [|lia].
      destruct I9 as [Er|Hm]; [destruct Hk as [Hk _]; lia|]. destruct (Hall _ Hm). lia.
  - destruct (I10 eq_refl) as [Er Hn].
    assert (forall k, ~ is_match k) as Hno by (intros k Hk; apply (Hn k); [destruct Hk; lia|done]).
    split; [done|]. split; [|split; [|reflexivity]]; intros k Hk; by destruct (Hno k).
Qed.

(** ** Examples *)

(** The table of the comment in kern/kdebug.c, searched for 0xf0100184. *)
Definition doc_type (i : Z) : Z :=
  if bool_decide (i ∈ [0; 13; 117; 118; 555; 556; 657]) then N_SO else 0.
Definition doc_value (i : Z) : Z :=
  if i <? 13 then 0xf0100000 else if i <? 117 then 0xf0100040 else if i <? 118 then 0xf0100176
  else if i <? 555 then 0xf0100178 else if i <? 556 then 0xf0100652 else if i <? 657 then 0xf0100654
  else 0xf0100849.

Lemma stab_binsearch_terminates_witness :
  exists region, stab_binsearch (fun i => Rd (doc_type i)) (fun i => Rd (doc_value i)) N_SO 0 657
    0xf0100184 = Rd region.
Proof. apply (stab_binsearch_terminates _ _ _ doc_type doc_value); intros; try lia; reflexivity. Defined.

(** Two entries, at 16 and 32. *)
Definition two_value (i : Z) : Z := 16 * i + 16.

Lemma stab_binsearch_finds_witness :
  stab_binsearch (fun _ => Rd N_FUN) (fun i => Rd (two_value i)) N_FUN 0 1 20 = Rd (0, 0).
Proof.
  destruct (stab_binsearch_finds (fun _ => Rd N_FUN) (fun i => Rd (two_value i)) N_FUN (fun _ => N_FUN)
    two_value 0 1 20 ltac:(reflexivity) ltac:(reflexivity) ltac:(lia) ltac:(lia) ltac:(lia)
    ltac:(intros; unfold two_value; lia) ltac:(intros i [Hi _]; unfold two_value; lia))
    as (l & r & b & E & _ & _ & Hb & _ & H & _).
  rewrite Hb in H by (intros i j _ _; unfold two_value; lia).
  destruct (H 0) as ([Hl _] & Hv & _ & Hlr & Hlow & _); [by split; [lia|]|by unfold two_value|].
  unfold two_value in Hv. rewrite E. destruct (Z.le_gt_cases 1 r) as [H1|H1].
  - specialize (Hlow 1 ltac:(split; [lia|reflexivity]) H1). lia.
  - do 2 f_equal; lia.
Defined.

(** The result of the comment's example. *)
Example doc_example :
  stab_binsearch (fun i => Rd (doc_type i)) (fun i => Rd (doc_value i)) N_SO 0 657 0xf0100184 = Rd (118, 554).
Proof. vm_compute. reflexivity. Qed.

(** Why an entry one byte after an exact hit is excluded: after the hit the search
    goes on with the next address, hits that entry, and returns it. *)
Lemma search_adjacent :
  stab_binsearch (fun _ => Rd N_FUN) (fun i => Rd (16 + i)) N_FUN 0 1 16 = Rd (1, 1).
Proof. vm_compute. reflexivity. Qed.

(** An address before the first entry: the result is not empty, and names an index
    that does not exist. *)
Lemma search_before_first :
  stab_binsearch (fun _ => Rd N_FUN) (fun i => Rd (two_value i)) N_FUN 0 1 8 = Rd (-1, -1).
Proof. vm_compute. reflexivity. Qed.
