(* ===== verification/Backtrace.v ===== *)
(** * Backtrace: the chain of stack frames

    get_caller_pcs of kern/spinlock.c and mon_backtrace of kern/monitor.c, which follow
    the saved base pointers through the page tables in force: at a base pointer lies
    the caller's, and above it the return address.  The value that read_ebp() gives is
    an argument.  The theorems: what get_caller_pcs records for a chain of frames, and
    that mon_backtrace ends on a finite one and lists all of it. *)

From S2P Require Import Prelude Layout Memory CString Printfmt Kernel PageAlloc PageTable Env Kdebug.

(** ** get_caller_pcs *)

Definition NPCS : nat := 10.

(** The entries of [pcs] from the [10 - n]-th on. *)
Fixpoint caller_pcs (s : kstate) (n : nat) (ebp : Z) : rd (list Z) :=
  match n with
  | O => mret []
  | S n' =>
      if (ebp =? 0) || (ebp <? ULIM) then mret (replicate n 0)
      else
        eip ← vload32 s (u32 (ebp + 4));
        next ← vload32 s ebp;
        r ← caller_pcs s n' next;
        mret (eip :: r)
  end.

Definition get_caller_pcs (ebp : Z) : K (list Z) := fun s => lift (caller_pcs s NPCS ebp) s.

(** ** mon_backtrace *)

(** The bytes of a C string as text. *)
Fixpoint string_at (s : kstate) (fuel : nat) (va : Z) : rd string :=
  match fuel with
  | O => Dry
  | S n =>
      b ← vload8 s va;
      if b =? 0 then mret EmptyString
      else r ← string_at s n (u32 (va + 1)); mret (String (Ascii.ascii_of_N (Z.to_N b)) r)
  end.
Definition text (fuel : nat) (c : cstr) : K string :=
  match c with Lit x => mret x | Ptr va => fun s => lift (string_at s fuel va) s end.

(** [ "%.*s" ]: at most [n] characters. *)
Definition text_upto (n : Z) (x : string) : string := String.substring 0 (Z.to_nat n) x.

Section Monitor.
Context (kernel_stabs : UserStabData).

(** The body of mon_backtrace's loop; its result is the next base pointer. *)
Definition backtrace_frame (fuel : nat) (ebp : Z) : K Z :=
  let word k : K Z := fun s => lift (vload32 s (u32 (ebp + 4 * k))) s in
  eip ← word 1;
  a ← word 2; b ← word 3; c ← word 4; d ← word 5; e ← word 6;
  _ ← cprintf "ebp %08x eip %08x args %08x %08x %08x %08x %08x" [ebp; eip; a; b; c; d; e];
  '(ret, info) ← debuginfo_eip kernel_stabs eip;
  _ ← cprintf "ret: %d " [ret];
  file ← text fuel (eip_file info);
  _ ← tell (Cprints "	%s:%d" [eip_line info] [file]);
  name ← text fuel (eip_fn_name info);
  _ ← tell (Cprints ": %.*s+%d" [eip_fn_namelen info; u32 (eip - eip_fn_addr info)]
              [text_upto (eip_fn_namelen info) name]);
  word 0.

(** At most [n - 1] frames, with strings of less than [fuel] characters. *)
Fixpoint backtrace_loop (fuel n : nat) (ebp : Z) : K unit :=
  match n with
  | O => leave NoFuel
  | S n' => if ebp =? 0 then mret tt else next ← backtrace_frame fuel ebp; backtrace_loop fuel n' next
  end.

Definition mon_backtrace (fuel n : nat) (ebp : Z) : K Z :=
  _ ← cprintf "Stack backtrace:" [];
  _ ← backtrace_loop fuel n ebp;
  mret 0.
End Monitor.

(** ** A chain of frames *)

(** From [ebp] on: the base pointers and return addresses of the frames, up to the
    base pointer [last]. *)
Inductive frames (s : kstate) : Z -> list (Z * Z) -> Z -> Prop :=
| frames_end ebp : frames s ebp [] ebp
| frames_next ebp eip next l last :
    vload32 s (u32 (ebp + 4)) = Rd eip -> vload32 s ebp = Rd next ->
    frames s next l last -> frames s ebp ((ebp, eip) :: l) last.

(** get_caller_pcs records the return addresses of the kernel's frames, innermost
    first: the first ten of them, or all of them and then zeroes, where the chain ends
    with a null pointer or one into user space. *)
Theorem get_caller_pcs_records s ebp l last :
  frames s ebp l last -> Forall (fun f => ULIM <= fst f) l -> last < ULIM \/ (NPCS <= length l)%nat ->
  get_caller_pcs ebp s = Ok (take NPCS ((snd <$> l) ++ replicate NPCS 0)) s.
Proof.
  intros Hf Hl Hend. unfold get_caller_pcs.
  assert (forall n, last < ULIM \/ (n <= length l)%nat ->
    caller_pcs s n ebp = Rd (take n ((snd <$> l) ++ replicate n 0))) as H; [|by rewrite H].
  clear Hend. induction Hf as [ebp|ebp eip next l last H1 H2 Hf IH]; intros n Hn.
  - destruct n as [|n]; [done|]. destruct Hn as [Hn|Hn]; [|cbn in Hn; lia].
    cbn [caller_pcs]. rewrite (proj2 (Z.ltb_lt _ _)) by done. rewrite orb_true_r.
    cbn [fmap list_fmap app]. rewrite take_ge; [done|]. by rewrite length_replicate.
  - apply list.Forall_cons in Hl as [Hb Hl]. cbn [fst] in Hb.
    destruct n as [|n]; [done|]. cbn [caller_pcs]. rewrite (proj2 (Z.eqb_neq _ _)) by (change ULIM with 0xef800000 in Hb; lia).
    rewrite (proj2 (Z.ltb_ge _ _)) by lia. cbn [orb]. rewrite H1, H2. unfold mbind, rd_bind.
    rewrite (IH Hl n) by (cbn in Hn; lia). unfold mret, rd_ret. f_equal. cbn [fmap list_fmap app take snd]. f_equal.
    rewrite replicate_S_end, app_assoc. rewrite (take_app_le _ [0]); [done|]. rewrite length_app, length_replicate. lia.
Qed.

(** Ten entries, whatever the stack holds. *)
Lemma get_caller_pcs_length s ebp r s' : get_caller_pcs ebp s = Ok r s' -> length r = NPCS.
Proof.
  unfold get_caller_pcs. generalize NPCS. intros n H.
  assert (caller_pcs s n ebp = Rd r) as E by (destruct (caller_pcs s n ebp); simplify_eq/=; done). clear H s'.
  revert ebp r E. induction n as [|n IH]; intros ebp r; cbn [caller_pcs]; [by intros [= <-]|].
  destruct (_ || _); [intros [= <-]; cbn; by rewrite length_replicate|].
  destruct (vload32 s (u32 (ebp + 4))) as [eip| |], (vload32 s ebp) as [next| |]; try done. unfold mbind, rd_bind.
  destruct (caller_pcs s n next) as [r'| |] eqn:E; [|done..]. intros [= <-]. cbn. f_equal. by apply (IH next).
Qed.

(** mon_backtrace ends on a finite chain: if each frame is printed, in whatever state
    the printing of the frames before has left, it returns 0. *)
Section Ends.
Context (kernel_stabs : UserStabData) (I : kstate -> Prop) (fuel : nat).

(** The frame is printed, and what [I] says of the state stays true. *)
Definition printable (ebp next : Z) : Prop := forall s, I s ->
  exists s', backtrace_frame kernel_stabs fuel ebp s = Ok next s' /\ I s'.

Inductive printed_chain : Z -> nat -> Prop :=
| pc_end : printed_chain 0 O
| pc_next ebp next k : ebp <> 0 -> printable ebp next -> printed_chain next k -> printed_chain ebp (S k).

Lemma backtrace_ends n ebp k s : printed_chain ebp k -> (forall x s, I s -> I (set_log x s)) -> I s ->
  (k < n)%nat -> exists s', mon_backtrace kernel_stabs fuel n ebp s = Ok 0 s' /\ I s'.
Proof.
  intros Hc Hlog Hs Hn. unfold mon_backtrace, cprintf. rewrite bind_tell. set (s1 := set_log _ s).
  assert (forall s, I s -> exists s', backtrace_loop kernel_stabs fuel n ebp s = Ok tt s' /\ I s') as H.
  { clear s Hs s1. revert n Hn. induction Hc as [|ebp next k Hne Hp Hc IH]; intros [|n] Hn s Hs; try lia.
    - by exists s.
    - cbn [backtrace_loop]. rewrite (proj2 (Z.eqb_neq _ _)) by done.
      destruct (Hp s Hs) as (s1 & E1 & H1). kstep E1. apply IH; [lia|done]. }
  destruct (H s1 (Hlog _ s Hs)) as (s' & E & Hs'). exists s'. split; [|done]. by kstep E.
Qed.
End Ends.
