(* ===== verification/Sched.v ===== *)
(** * Sched: kern/sched.c, and what depends on the scheduler

    sched_yield and sched_halt, env_destroy of kern/env.c and user_mem_assert of
    kern/pmap.c.  The theorems say which environment runs next, that the search
    is round-robin, and that it is fair. *)

From S2P Require Import Prelude Layout Memory CString Printfmt Kernel PageAlloc PageTable Env.

(** ** The operations *)

Definition env_is (e : Z) (st : EnvStatus) : K bool :=
  v ← get_env e; mret (bool_decide (env_status v = st)).

(** The search of sched_halt for an environment that may still run. *)
Fixpoint any_alive (n : nat) (i : Z) : K bool :=
  match n with
  | O => mret false
  | S n' =>
      v ← get_env i;
      if bool_decide (env_status v = ENV_RUNNABLE) || bool_decide (env_status v = ENV_RUNNING)
         || bool_decide (env_status v = ENV_DYING)
      then mret true
      else any_alive n' (i + 1)
  end.

Definition sched_halt : K unit :=
  alive ← any_alive (Z.to_nat NENV) 0;
  if negb alive then
    _ ← cprintf "No runnable environments in the system!" [];
    leave InMonitor
  else
    _ ← set_curenv None;
    kp ← get kern_pgdir;
    pa ← PADDR kp;
    _ ← lcr3 pa;
    _ ← upd_cpu (set_cpu_status CPU_HALTED);
    _ ← unlock_kernel;
    leave CpuHalt.

(** The loop of sched_yield from its [i]-th step. *)
Fixpoint sched_loop (n : nat) (start i : Z) : K unit :=
  match n with
  | O => mret tt
  | S n' =>
      let j := (start + i) mod NENV in
      ready ← env_is j ENV_RUNNABLE;
      _ ← kwhen ready (env_run j);
      sched_loop n' start (i + 1)
  end.

Definition sched_yield : K unit :=
  c ← curenv;
  start ← (match c with
           | Some e => v ← get_env e; mret (ENVX (env_id v) + 1)
           | None => mret 0
           end);
  _ ← sched_loop (Z.to_nat NENV) start 0;
  c ← curenv;
  _ ← (match c with
       | Some e => r ← env_is e ENV_RUNNING; kwhen r (env_run e)
       | None => mret tt
       end);
  sched_halt.

Definition env_destroy (e : Z) : K unit :=
  v ← get_env e;
  c ← curenv;
  if bool_decide (env_status v = ENV_RUNNING) && negb (bool_decide (c = Some e))
  then upd_env e (set_env_status ENV_DYING)
  else
    _ ← env_free e;
    c ← curenv;
    kwhen (bool_decide (c = Some e)) (_ ← set_curenv None; sched_yield).

Definition user_mem_assert (env va len perm : Z) : K unit :=
  r ← user_mem_check env va len (Z.lor perm PTE_U);
  kwhen (r <? 0)
    (v ← get_env env;
     a ← get user_mem_check_addr;
     _ ← cprintf "[%08x] user_mem_check assertion failure for va %08x" [env_id v; a];
     env_destroy env).

(** ** Running an environment *)

(** The executing CPU holds the big kernel lock. *)
Definition lock_held (s : kstate) : Prop := kernel_lock s = mkSpinlock 1 (Some (cpunum s)).

Lemma unlock_run s : lock_held s -> unlock_kernel s = Ok tt (set_kernel_lock (mkSpinlock 0 None) s).
Proof.
  intros H. unfold unlock_kernel, spin_unlock. ksteps. rewrite H. unfold holding. simpl.
  by rewrite bool_decide_eq_true_2.
Qed.

(** What env_run does to the record of the environment that was current and to
    the record of the one that is entered. *)
Definition demote (v : Env) : Env :=
  if bool_decide (env_status v = ENV_RUNNING) then set_env_status ENV_RUNNABLE v else v.
Definition promote (me : Z) (v : Env) : Env :=
  set_env_cpunum me (set_env_runs (u32 (env_runs v + 1)) (set_env_status ENV_RUNNING v)).

Definition after_run (s : kstate) (e : Z) : gmap Z Env :=
  alter (promote (cpunum s)) e (match cur s with Some o => alter demote o (envs s) | None => envs s end).

Record entered (s : kstate) (e : Z) (s' : kstate) : Prop := {
  en_envs : envs s' = after_run s e;
  en_cpus : exists c, cpus s !! cpunum s = Some c /\
              cpus s' = <[cpunum s := set_cpu_env (Some e) c]> (cpus s);
  en_cpunum : cpunum s' = cpunum s;
  en_cr3 : forall v, envs s !! e = Some v -> cr3 s' = env_pgdir v - KERNBASE;
  en_lock : kernel_lock s' = mkSpinlock 0 None;
  en_mem : mem s' = mem s;
  en_pages : pages s' = pages s;
  en_kern_pgdir : kern_pgdir s' = kern_pgdir s;
  en_log : log s' = log s;
  en_lists : page_free_list s' = page_free_list s /\ npages s' = npages s /\ env_free_list s' = env_free_list s;
}.

Lemma alter_insert_run (m : gmap Z Env) e v (f : Env -> Env) :
  m !! e = Some v -> <[e := f v]> m = alter f e m.
Proof.
  intros H. apply map_eq. intros q. destruct (decide (e = q)) as [->|Hne].
  - by rewrite lookup_insert_eq, lookup_alter_eq, H.
  - by rewrite lookup_insert_ne, lookup_alter_ne.
Qed.

Lemma demote_pgdir v : env_pgdir (demote v) = env_pgdir v /\ env_tf (demote v) = env_tf v.
Proof. unfold demote. by case_if. Qed.

(** The first step of env_run: the current environment is demoted. *)
Lemma env_run_demote s c :
  cpus s !! cpunum s = Some c ->
  (forall o, cpu_env c = Some o -> is_Some (envs s !! o)) ->
  (match cpu_env c with
   | Some o =>
       v ← get_env o;
       kwhen (bool_decide (env_status v = ENV_RUNNING)) (upd_env o (set_env_status ENV_RUNNABLE))
   | None => mret tt
   end) s =
  Ok tt (set_envs (match cpu_env c with Some o => alter demote o (envs s) | None => envs s end) s).
Proof.
  intros Hc Ho. destruct (cpu_env c) as [o|]; [|by destruct s].
  destruct (Ho o eq_refl) as [v Hv]. kstep (get_env_run s o v Hv). unfold kwhen.
  rewrite <- (alter_insert_run (envs s) o v demote Hv). unfold demote.
  destruct (bool_decide (env_status v = ENV_RUNNING)).
  - by rewrite (upd_env_run s o v _ Hv).
  - rewrite insert_id by done. by destruct s.
Qed.

Lemma env_run_ok s c e v :
  cpus s !! cpunum s = Some c ->
  (forall o, cpu_env c = Some o -> is_Some (envs s !! o)) ->
  envs s !! e = Some v -> KERNBASE <= env_pgdir v -> lock_held s ->
  exists s', env_run e s = Leave (ToUser e (env_tf v)) s' /\ entered s e s'.
Proof.
  intros Hc Ho Hv Hpg Hl. unfold env_run. kstep (curenv_run s c Hc).
  kstep (env_run_demote s c Hc Ho).
  set (m1 := match cpu_env c with Some o => alter demote o (envs s) | None => envs s end).
  set (s1 := set_envs m1 s).
  assert (cpus s1 !! cpunum s1 = Some c) as Hc1 by done.
  kstep (upd_cpu_run s1 c (set_cpu_env (Some e)) Hc1). set (s2 := set_cpus _ s1).
  assert (exists v1, m1 !! e = Some v1 /\ env_pgdir v1 = env_pgdir v /\ env_tf v1 = env_tf v)
    as (v1 & Hv1 & Epg & Etf).
  { unfold m1. destruct (cpu_env c) as [o|]; [|by eauto].
    rewrite lookup_alter. case_decide; [|by eauto]. subst. rewrite Hv. simpl.
    eexists. split; [done|]. apply demote_pgdir. }
  assert (envs s2 !! e = Some v1) as Hv2 by done.
  kstep (upd_env_run s2 e v1 (fun v => set_env_runs (u32 (env_runs v + 1))
    (set_env_status ENV_RUNNING v)) Hv2).
  set (v2 := set_env_runs _ _). set (s3 := set_envs _ s2).
  assert (envs s3 !! e = Some v2) as Hv3 by (simpl; by rewrite lookup_insert_eq).
  kstep (get_env_run s3 e v2 Hv3).
  assert (PADDR (env_pgdir v2) s3 = Ok (env_pgdir v - KERNBASE) s3) as E.
  { unfold PADDR. change (env_pgdir v2) with (env_pgdir v1). rewrite Epg.
    by rewrite (proj2 (Z.ltb_ge _ _)) by lia. }
  kstep E. clear E. unfold lcr3. ksteps. set (s4 := set_cr3 _ s3).
  kstep (unlock_run s4 Hl). set (s5 := set_kernel_lock _ s4).
  unfold env_pop_tf, curenv_ptr.
  assert (cpus s5 !! cpunum s5 = Some (set_cpu_env (Some e) c)) as Hc5
    by (simpl; by rewrite lookup_insert_eq).
  ksteps. kstep (curenv_run s5 _ Hc5). simpl cpu_env. cbv iota. ksteps.
  assert (envs s5 !! e = Some v2) as Hv5 by done.
  kstep (upd_env_run s5 e v2 (set_env_cpunum (cpunum s5)) Hv5). set (s6 := set_envs _ s5).
  assert (envs s6 !! e = Some (set_env_cpunum (cpunum s5) v2)) as Hv6
    by (simpl; by rewrite lookup_insert_eq).
  kstep (get_env_run s6 e _ Hv6). simpl. rewrite Etf. eexists. split; [done|].
  split; simpl; try done.
  - rewrite insert_insert_eq. unfold after_run, cur. rewrite Hc. simpl. fold m1.
    rewrite <- (alter_insert_run m1 e v1 _ Hv1). done.
  - eauto.
  - intros w Hw. by simplify_eq.
Qed.

(** ** The choice of sched_yield *)

Definition has_status (s : kstate) (j : Z) (st : EnvStatus) : bool :=
  match envs s !! j with Some v => bool_decide (env_status v = st) | None => false end.

(** The first runnable environment of the [n] that follow position [start + i]. *)
Fixpoint pick (s : kstate) (n : nat) (start i : Z) : option Z :=
  match n with
  | O => None
  | S n' =>
      if has_status s ((start + i) mod NENV) ENV_RUNNABLE then Some ((start + i) mod NENV)
      else pick s n' start (i + 1)
  end.

(** Where the search starts: after the current environment, or at 0. *)
Definition search_start (s : kstate) : Z :=
  match cur s with Some o => o + 1 | None => 0 end.

(** Environments that may run, and the executing CPU. *)
Record sched_wf (s : kstate) : Prop := {
  sw_envs : forall j, 0 <= j < NENV -> is_Some (envs s !! j);
  sw_cpu : is_Some (cpus s !! cpunum s);
  sw_cur : forall o, cur s = Some o -> 0 <= o < NENV /\
    exists v, envs s !! o = Some v /\ ENVX (env_id v) = o;
  sw_live : forall j v, envs s !! j = Some v ->
    env_status v = ENV_RUNNABLE \/ env_status v = ENV_RUNNING ->
    0 <= j < NENV /\ ENVX (env_id v) = j /\ KERNBASE <= env_pgdir v;
  sw_lock : lock_held s;
  sw_kern : KERNBASE <= kern_pgdir s;
}.

Lemma NENV_val : NENV = 1024.
Proof. done. Qed.

Lemma mod_NENV x : 0 <= x mod NENV < NENV.
Proof. rewrite NENV_val. zlia. Qed.

Lemma has_status_Some s j st :
  has_status s j st = true <-> exists v, envs s !! j = Some v /\ env_status v = st.
Proof.
  unfold has_status. destruct (envs s !! j) as [v|].
  - rewrite bool_decide_eq_true. naive_solver.
  - naive_solver.
Qed.

Lemma env_is_run s j st :
  is_Some (envs s !! j) -> env_is j st s = Ok (has_status s j st) s.
Proof.
  intros [v Hv]. unfold env_is, has_status. by kstep (get_env_run s j v Hv); rewrite Hv.
Qed.

Lemma sw_env_run s e v :
  sched_wf s -> envs s !! e = Some v -> KERNBASE <= env_pgdir v ->
  exists s', env_run e s = Leave (ToUser e (env_tf v)) s' /\ entered s e s'.
Proof.
  intros Hw Hv Hpg. destruct (sw_cpu _ Hw) as [c Hc].
  apply (env_run_ok s c e v Hc); [|done|done|apply (sw_lock _ Hw)].
  intros o Ho. assert (cur s = Some o) as Hcur by (unfold cur; by rewrite Hc).
  destruct (sw_cur _ Hw o Hcur) as (_ & w & Hwo & _). eauto.
Qed.

Lemma pick_Some s n start i j :
  pick s n start i = Some j ->
  exists v, envs s !! j = Some v /\ env_status v = ENV_RUNNABLE.
Proof.
  revert i. induction n as [|n IH]; intros i; simpl; [done|].
  destruct (has_status _ _ _) eqn:E; [|apply IH]. intros [= <-]. by apply has_status_Some.
Qed.

Lemma sched_loop_run s n start i :
  sched_wf s ->
  match pick s n start i with
  | Some j => exists v s', envs s !! j = Some v /\
      sched_loop n start i s = Leave (ToUser j (env_tf v)) s' /\ entered s j s'
  | None => sched_loop n start i s = Ok tt s
  end.
Proof.
  intros Hw. revert i. induction n as [|n IH]; intros i; simpl; [done|].
  kstep (env_is_run s ((start + i) mod NENV) ENV_RUNNABLE (sw_envs _ Hw _ (mod_NENV _))).
  destruct (has_status s ((start + i) mod NENV) ENV_RUNNABLE) eqn:E; simpl.
  - apply has_status_Some in E as (v & Hv & Hst).
    destruct (sw_live _ Hw _ v Hv (or_introl Hst)) as (_ & _ & Hpg).
    destruct (sw_env_run s _ v Hw Hv Hpg) as (s' & E & He).
    exists v, s'. split; [done|]. split; [|done]. unfold mbind, K_bind. by rewrite E.
  - ksteps. apply IH.
Qed.

Lemma any_alive_run s n i :
  sched_wf s -> 0 <= i -> i + Z.of_nat n <= NENV ->
  any_alive n i s =
    Ok (existsb (fun j => has_status s j ENV_RUNNABLE || has_status s j ENV_RUNNING
                          || has_status s j ENV_DYING) (seqZ i (Z.of_nat n))) s.
Proof.
  intros Hw. revert i. induction n as [|n IH]; intros i Hi Hb; [done|].
  rewrite seqZ_cons by lia. simpl any_alive. simpl existsb.
  destruct (sw_envs _ Hw i ltac:(lia)) as [v Hv]. kstep (get_env_run s i v Hv).
  unfold has_status at 1 2 3. rewrite Hv.
  destruct (_ || _ || _); [done|]. simpl.
  rewrite IH by lia. do 3 f_equal; lia.
Qed.

(** An environment that is alive: runnable, running or dying. *)
Definition alive (s : kstate) : bool :=
  existsb (fun j => has_status s j ENV_RUNNABLE || has_status s j ENV_RUNNING
                    || has_status s j ENV_DYING) (seqZ 0 NENV).

(** The state in which sched_halt leaves the CPU. *)
Record halted (s s' : kstate) : Prop := {
  hl_cpus : exists c, cpus s !! cpunum s = Some c /\
    cpus s' = <[cpunum s := set_cpu_status CPU_HALTED (set_cpu_env None c)]> (cpus s);
  hl_cr3 : cr3 s' = kern_pgdir s - KERNBASE;
  hl_lock : kernel_lock s' = mkSpinlock 0 None;
  hl_envs : envs s' = envs s;
  hl_mem : mem s' = mem s;
}.

Lemma sched_halt_run s :
  sched_wf s ->
  if alive s then exists s', sched_halt s = Leave CpuHalt s' /\ halted s s'
  else exists s', sched_halt s = Leave InMonitor s' /\ envs s' = envs s.
Proof.
  intros Hw. unfold sched_halt.
  kstep (any_alive_run s (Z.to_nat NENV) 0 Hw ltac:(lia) ltac:(rewrite NENV_val; lia)).
  change (Z.of_nat (Z.to_nat NENV)) with NENV. fold (alive s).
  destruct (alive s); cbn [negb]; cbv iota; [|eexists; split; [by ksteps|done]].
  destruct (sw_cpu _ Hw) as [c Hc].
  kstep (upd_cpu_run s c (set_cpu_env None) Hc). set (s1 := set_cpus _ s). ksteps.
  assert (PADDR (kern_pgdir s1) s1 = Ok (kern_pgdir s - KERNBASE) s1) as E.
  { unfold PADDR. simpl. pose proof (sw_kern _ Hw). by rewrite (proj2 (Z.ltb_ge _ _)) by lia. }
  kstep E. clear E. unfold lcr3. ksteps. set (s2 := set_cr3 _ s1).
  assert (cpus s2 !! cpunum s2 = Some (set_cpu_env None c)) as Hc2
    by (simpl; by rewrite lookup_insert_eq).
  kstep (upd_cpu_run s2 _ (set_cpu_status CPU_HALTED) Hc2). set (s3 := set_cpus _ s2).
  kstep (unlock_run s3 (sw_lock _ Hw)). eexists. split; [done|].
  split; simpl; try done. exists c. split; [done|]. by rewrite insert_insert_eq.
Qed.

(** sched_yield on every branch. *)
Lemma sched_yield_run s :
  sched_wf s ->
  match pick s (Z.to_nat NENV) (search_start s) 0 with
  | Some j => exists v s', envs s !! j = Some v /\ env_status v = ENV_RUNNABLE /\
      sched_yield s = Leave (ToUser j (env_tf v)) s' /\ entered s j s'
  | None =>
      match cur s with
      | Some o =>
          if has_status s o ENV_RUNNING
          then exists v s', envs s !! o = Some v /\
                 sched_yield s = Leave (ToUser o (env_tf v)) s' /\ entered s o s'
          else if alive s then exists s', sched_yield s = Leave CpuHalt s' /\ halted s s'
          else exists s', sched_yield s = Leave InMonitor s' /\ envs s' = envs s
      | None =>
          if alive s then exists s', sched_yield s = Leave CpuHalt s' /\ halted s s'
          else exists s', sched_yield s = Leave InMonitor s' /\ envs s' = envs s
      end
  end.
Proof.
  intros Hw. destruct (sw_cpu _ Hw) as [c Hc].
  assert (cur s = cpu_env c) as Ecur by (unfold cur; by rewrite Hc).
  assert (sched_yield s =
    (_ ← sched_loop (Z.to_nat NENV) (search_start s) 0;
     c ← curenv;
     _ ← (match c with
          | Some e => r ← env_is e ENV_RUNNING; kwhen r (env_run e)
          | None => mret tt
          end);
     sched_halt) s) as ->.
  { unfold sched_yield. kstep (curenv_run s c Hc). unfold search_start. rewrite Ecur.
    destruct (cpu_env c) as [o|]; [|by ksteps].
    destruct (sw_cur _ Hw o Ecur) as (_ & v & Hv & Hid). ksteps.
    kstep (get_env_run s o v Hv). ksteps. by rewrite Hid. }
  pose proof (sched_loop_run s (Z.to_nat NENV) (search_start s) 0 Hw) as Hloop.
  destruct (pick s _ _ _) as [j|] eqn:Ep.
  - destruct (pick_Some _ _ _ _ _ Ep) as (v & Hv & Hst).
    destruct Hloop as (v' & s' & Hv' & E & He). exists v, s'. simplify_eq.
    split; [done|]. split; [done|]. split; [|done]. unfold mbind, K_bind. by rewrite E.
  - kstep Hloop. kstep (curenv_run s c Hc). rewrite <- Ecur.
    pose proof (sched_halt_run s Hw) as Hh.
    destruct (cur s) as [o|] eqn:Eo; [|by ksteps].
    destruct (sw_cur _ Hw o Eo) as (Hr & v & Hv & Hid). ksteps.
    kstep (env_is_run s o ENV_RUNNING (sw_envs _ Hw o Hr)).
    destruct (has_status s o ENV_RUNNING) eqn:Es; simpl kwhen; [|by ksteps].
    apply has_status_Some in Es as (v1 & Hv1 & Hst).
    destruct (sw_live _ Hw o v1 Hv1 (or_intror Hst)) as (_ & _ & Hpg).
    destruct (sw_env_run s o v1 Hw Hv1 Hpg) as (s' & E & He).
    exists v1, s'. split; [done|]. split; [|done]. unfold mbind, K_bind. by rewrite E.
Qed.

(** C22: sched_yield runs the right environment.  In a well-formed state it enters
    the first runnable environment in circular order after the one this CPU ran
    last; if none is runnable, the environment this CPU was running if it still
    is ENV_RUNNING; otherwise it halts the CPU when some environment is alive
    and enters the monitor when none is.  Entering an environment makes it
    current and ENV_RUNNING, makes the former one runnable if it was running,
    touches no other environment, switches to its page directory, releases the
    kernel lock and loads its saved registers.  So an environment that runs on
    another CPU is never chosen. *)
Theorem sched_yield_picks s :
  sched_wf s ->
  match pick s (Z.to_nat NENV) (search_start s) 0 with
  | Some j => exists v s', envs s !! j = Some v /\ env_status v = ENV_RUNNABLE /\
      sched_yield s = Leave (ToUser j (env_tf v)) s' /\ entered s j s'
  | None =>
      match cur s with
      | Some o =>
          if has_status s o ENV_RUNNING
          then exists v s', envs s !! o = Some v /\
                 sched_yield s = Leave (ToUser o (env_tf v)) s' /\ entered s o s'
          else if alive s then exists s', sched_yield s = Leave CpuHalt s' /\ halted s s'
          else exists s', sched_yield s = Leave InMonitor s' /\ envs s' = envs s
      | None =>
          if alive s then exists s', sched_yield s = Leave CpuHalt s' /\ halted s s'
          else exists s', sched_yield s = Leave InMonitor s' /\ envs s' = envs s
      end
  end.
Proof. apply sched_yield_run. Qed.

(** ** Fairness *)

(** The state when environment [cur s] traps back into the kernel with registers
    [tf]: the lock is taken again and the registers are saved. *)
Definition resumed (s : kstate) (tf : Trapframe) : kstate :=
  set_kernel_lock (mkSpinlock 1 (Some (cpunum s)))
    (set_envs (match cur s with
               | Some o => alter (set_env_tf tf) o (envs s)
               | None => envs s
               end) s).

(** Within [n] calls of sched_yield environment [j] is entered, if between two
    calls the environment that was entered traps back with any registers. *)
Inductive runs_within (j : Z) : nat -> kstate -> Prop :=
| rw_now n s tf s' :
    sched_yield s = Leave (ToUser j tf) s' -> runs_within j (S n) s
| rw_later n s k tf s' :
    sched_yield s = Leave (ToUser k tf) s' ->
    (forall tf', runs_within j n (resumed s' tf')) -> runs_within j (S n) s.

Lemma pick_first s n start i j :
  has_status s j ENV_RUNNABLE = true -> 0 <= j < NENV ->
  i <= (j - start) mod NENV < i + Z.of_nat n ->
  exists k, i <= k <= (j - start) mod NENV /\ pick s n start i = Some ((start + k) mod NENV).
Proof.
  intros Hj Hr. revert i. induction n as [|n IH]; intros i Hi; [lia|]. simpl.
  destruct (has_status s ((start + i) mod NENV) ENV_RUNNABLE) eqn:E.
  - exists i. split; [lia|done].
  - assert (i <> (j - start) mod NENV) as Hne.
    { intros ->. rewrite Zplus_mod_idemp_r in E. replace (start + (j - start)) with j in E by lia.
      rewrite Z.mod_small in E by lia. congruence. }
    destruct (IH (i + 1) ltac:(lia)) as (k & Hk & E'). exists k. split; [lia|done].
Qed.

(** A record after its environment was current, was entered and trapped back. *)
Definition kept (v v' : Env) : Prop :=
  env_id v' = env_id v /\ env_pgdir v' = env_pgdir v.

Lemma resumed_lookup s k s' tf j v' :
  sched_wf s -> entered s k s' -> cur s' = Some k ->
  envs (resumed s' tf) !! j = Some v' ->
  exists v, envs s !! j = Some v /\ kept v v' /\
    (j <> k -> env_status v' = if bool_decide (env_status v = ENV_RUNNING) && bool_decide (cur s = Some j)
               then ENV_RUNNABLE else env_status v).
Proof.
  intros Hw He Hc. unfold resumed. rewrite Hc. simpl. rewrite (en_envs _ _ _ He).
  unfold after_run. rewrite !lookup_alter.
  assert (forall w, (match cur s with Some o => alter demote o (envs s) | None => envs s end) !! j
    = Some w -> exists v, envs s !! j = Some v /\ kept v w /\
        env_status w = if bool_decide (env_status v = ENV_RUNNING) && bool_decide (cur s = Some j)
               then ENV_RUNNABLE else env_status v) as Hd.
  { intros w Hwj. destruct (cur s) as [o|].
    - rewrite lookup_alter in Hwj. case_decide as E.
      + subst. destruct (envs s !! j) as [v|] eqn:Ev; simplify_eq/=. exists v. split; [done|].
        rewrite (bool_decide_eq_true_2 (Some j = Some j)) by done. rewrite andb_true_r.
        unfold demote. by destruct (bool_decide (env_status v = ENV_RUNNING)).
      + exists w. split; [done|]. split; [done|].
        rewrite (bool_decide_eq_false_2 (Some o = Some j)) by congruence. by rewrite andb_false_r.
    - exists w. split; [done|]. split; [done|]. by rewrite andb_false_r. }
  destruct (decide (k = j)) as [->|Hne]; cbv iota.
  - try rewrite decide_True by done.
    destruct ((match cur s with Some o => alter demote o (envs s) | None => envs s end) !! j)
      as [w|] eqn:Ew; simpl; [|done]. intros [= <-].
    destruct (Hd w eq_refl) as (v & Hv & [Hk1 Hk2] & _). exists v. split; [done|].
    split; [done|done].
  - try rewrite decide_False by done. intros Hwj.
    destruct (Hd v' Hwj) as (v & Hv & Hk & Hs). eauto.
Qed.

Lemma resumed_Some s k s' tf j :
  entered s k s' -> is_Some (envs s !! j) -> is_Some (envs (resumed s' tf) !! j).
Proof.
  intros He Hj. unfold resumed. simpl.
  assert (is_Some (envs s' !! j)).
  { rewrite (en_envs _ _ _ He). unfold after_run. rewrite lookup_alter_is_Some.
    destruct (cur s); [by rewrite lookup_alter_is_Some|done]. }
  destruct (cur s'); [by rewrite lookup_alter_is_Some|done].
Qed.

Lemma entered_cur s k s' : entered s k s' -> cur s' = Some k.
Proof.
  intros He. destruct (en_cpus _ _ _ He) as (c & Hc & Ec). unfold cur.
  by rewrite (en_cpunum _ _ _ He), Ec, lookup_insert_eq.
Qed.

Lemma resumed_wf s k s' tf v :
  sched_wf s -> envs s !! k = Some v ->
  env_status v = ENV_RUNNABLE \/ env_status v = ENV_RUNNING ->
  entered s k s' -> sched_wf (resumed s' tf).
Proof.
  intros Hw Hv Hst He. pose proof (entered_cur _ _ _ He) as Hc.
  destruct (sw_live _ Hw k v Hv Hst) as (Hk & Hid & Hpg).
  split.
  - intros j Hj. apply (resumed_Some s k); [done|]. by apply (sw_envs _ Hw).
  - simpl. destruct (en_cpus _ _ _ He) as (c & _ & ->). rewrite (en_cpunum _ _ _ He).
    rewrite lookup_insert_eq. eauto.
  - intros o Ho. change (cur (resumed s' tf)) with (cur s') in Ho. assert (o = k) as -> by congruence.
    split; [done|]. destruct (resumed_Some s k s' tf k He ltac:(eauto)) as [v' Hv'].
    destruct (resumed_lookup s k s' tf k v' Hw He Hc Hv') as (w & Hwo & [Hk1 _] & _).
    exists v'. split; [done|]. simplify_eq. by rewrite Hk1.
  - intros j v' Hv' Hs. destruct (resumed_lookup s k s' tf j v' Hw He Hc Hv')
      as (w & Hwj & [Hk1 Hk2] & Hstat).
    destruct (decide (j = k)) as [->|Hne].
    + simplify_eq. by rewrite Hk1, Hk2.
    + rewrite Hk1, Hk2. apply (sw_live _ Hw j w Hwj). rewrite (Hstat Hne) in Hs.
      destruct (bool_decide (env_status w = ENV_RUNNING)) eqn:Eb; [|exact Hs].
      right. by apply bool_decide_eq_true_1 in Eb.
  - unfold lock_held. done.
  - simpl. rewrite (en_kern_pgdir _ _ _ He). apply (sw_kern _ Hw).
Qed.

(** C7: The scheduler is fair.  On a CPU whose running environments only trap
    back into sched_yield (as timer interrupts make them), a runnable
    environment is entered within NENV calls of sched_yield, whatever registers
    the environments that run in between come back with. *)
Theorem sched_fair s j v :
  sched_wf s -> envs s !! j = Some v -> env_status v = ENV_RUNNABLE ->
  runs_within j (Z.to_nat NENV) s.
Proof.
  intros Hw Hv Hst.
  assert (forall n s v, sched_wf s -> envs s !! j = Some v -> env_status v = ENV_RUNNABLE ->
    (j - search_start s) mod NENV < Z.of_nat n -> runs_within j n s) as Hgen.
  { clear s v Hw Hv Hst. intros n. induction n as [|n IH]; intros s v Hw Hv Hst Hn.
    { pose proof (mod_NENV (j - search_start s)). lia. }
    destruct (sw_live _ Hw j v Hv (or_introl Hst)) as (Hj & _ & _).
    assert (has_status s j ENV_RUNNABLE = true) as Hr by (apply has_status_Some; eauto).
    destruct (pick_first s (Z.to_nat NENV) (search_start s) 0 j Hr Hj) as (i & Hi & Ep).
    { pose proof (mod_NENV (j - search_start s)). lia. }
    pose proof (sched_yield_run s Hw) as Hy. rewrite Ep in Hy.
    set (k := (search_start s + i) mod NENV) in *.
    destruct Hy as (w & s' & Hwk & Hws & E & He).
    destruct (decide (k = j)) as [Ek|Ek]; [rewrite Ek in E; by eapply rw_now|].
    eapply rw_later; [exact E|]. intros tf'.
    pose proof (entered_cur _ _ _ He) as Hc.
    destruct (resumed_Some s k s' tf' j He ltac:(eauto)) as [v' Hv'].
    destruct (resumed_lookup s k s' tf' j v' Hw He Hc Hv') as (v0 & Hv0 & _ & Hstat).
    simplify_eq. apply (IH _ v'); [by eapply resumed_wf; eauto|done| |].
    - rewrite Hstat, Hst by done. done.
    - assert (search_start (resumed s' tf') = k + 1) as ->.
      { unfold search_start. change (cur (resumed s' tf')) with (cur s'). by rewrite Hc. }
      unfold k in *. rewrite NENV_val in *.
      generalize dependent (search_start s). intros st. intros. zlia. }
  apply (Hgen _ _ v Hw Hv Hst). pose proof (mod_NENV (j - search_start s)). lia.
Qed.

(** ** Examples

    [idle_state]: CPU 0 runs environment 0, environment 3 is runnable, and the other
    slots are free. *)

(** The array [envs] with record [f i] in slot [i]. *)
Definition envs_all (f : Z -> Env) : gmap Z Env :=
  list_to_map ((fun i => (i, f i)) <$> seqZ 0 NENV).

Lemma lookup_envs_all f j :
  envs_all f !! j = if decide (0 <= j < NENV) then Some (f j) else None.
Proof.
  unfold envs_all. rewrite NENV_val. case_decide as Hj.
  - apply elem_of_list_to_map_1'.
    + intros y Hy. apply list_elem_of_fmap in Hy as (i & Hi & _). by simplify_eq.
    + apply list_elem_of_fmap. exists j. split; [done|]. apply elem_of_seqZ. lia.
  - apply not_elem_of_list_to_map_1. intros Hin. apply list_elem_of_fmap in Hin as ([i v] & -> & Hin).
    apply list_elem_of_fmap in Hin as (k & Hk & Hin). apply elem_of_seqZ in Hin. simplify_eq/=. lia.
Qed.

#[global] Opaque envs_all.

Definition idle_env (i : Z) : Env :=
  if i =? 0 then run_env
  else if i =? 3 then set_env_status ENV_RUNNABLE (set_env_id 0x1003 run_env)
  else env0.
Definition idle_state : kstate :=
  set_kernel_lock (mkSpinlock 1 (Some 0)) (set_kern_pgdir KERNBASE
    (set_envs (envs_all idle_env) run_state)).

Lemma idle_lookup j v :
  envs idle_state !! j = Some v -> 0 <= j < NENV /\ v = idle_env j.
Proof.
  change (envs idle_state) with (envs_all idle_env). rewrite lookup_envs_all.
  case_decide; [|discriminate]. intros [= <-]. done.
Qed.

Lemma idle_wf : sched_wf idle_state.
Proof.
  split.
  - intros j Hj. change (envs idle_state) with (envs_all idle_env). rewrite lookup_envs_all.
    rewrite decide_True by exact Hj. eexists. reflexivity.
  - eexists. reflexivity.
  - intros o Ho. change (Some 0 = Some o) in Ho. injection Ho as <-.
    split; [change NENV with 1024; lia|]. exists run_env. split; [|reflexivity].
    change (envs idle_state) with (envs_all idle_env). rewrite lookup_envs_all.
    rewrite decide_True by (change NENV with 1024; lia). reflexivity.
  - intros j v Hv Hst. apply idle_lookup in Hv as [Hj ->]. split; [exact Hj|].
    unfold idle_env in *. destruct (j =? 0) eqn:E0; [bcomp; subst; split; [reflexivity|]|].
    + vm_compute. congruence.
    + destruct (j =? 3) eqn:E3; [bcomp; subst; split; [reflexivity|]|].
      * vm_compute. congruence.
      * destruct Hst as [Hst|Hst]; discriminate Hst.
  - reflexivity.
  - vm_compute. congruence.
Qed.

Lemma idle_lookup_3 : envs idle_state !! 3 = Some (idle_env 3).
Proof.
  change (envs idle_state) with (envs_all idle_env). rewrite lookup_envs_all.
  by rewrite decide_True by (change NENV with 1024; lia).
Qed.

Lemma idle_status j st : 0 <= j < NENV ->
  has_status idle_state j st = bool_decide (env_status (idle_env j) = st).
Proof.
  intros Hj. unfold has_status. change (envs idle_state) with (envs_all idle_env).
  rewrite lookup_envs_all. by rewrite decide_True.
Qed.

Lemma idle_pick n : pick idle_state (S (S (S n))) 1 0 = Some 3.
Proof.
  cbn [pick]. change ((1 + 0) mod NENV) with 1. change ((1 + (0 + 1)) mod NENV) with 2.
  change ((1 + (0 + 1 + 1)) mod NENV) with 3.
  rewrite !idle_status by (change NENV with 1024; lia). reflexivity.
Qed.

Lemma sched_yield_picks_witness :
  exists s', sched_yield idle_state = Leave (ToUser 3 (env_tf (idle_env 3))) s' /\
    entered idle_state 3 s'.
Proof.
  pose proof (sched_yield_picks idle_state idle_wf) as H.
  change (search_start idle_state) with 1 in H.
  change (Z.to_nat NENV) with (S (S (S 1021))) in H. rewrite idle_pick in H.
  destruct H as (v & s' & Hv & _ & E & He). rewrite idle_lookup_3 in Hv. injection Hv as <-.
  exists s'. split; [exact E|exact He].
Defined.

Lemma sched_fair_witness : runs_within 3 (Z.to_nat NENV) idle_state.
Proof. exact (sched_fair idle_state 3 (idle_env 3) idle_wf idle_lookup_3 eq_refl). Defined.
