(* ===== verification/Syscall.v ===== *)
(** * Syscall: the system calls, kern/syscall.c

    Every system call handler of the kernel and the dispatcher.  An argument that
    is a pointer is a 32-bit address; a negative result is the error code as the
    int it is in C. *)

From S2P Require Import Prelude Layout Memory CString Printfmt Kernel PageAlloc PageTable Env Sched.

(** ** inc/syscall.h *)

Definition SYS_cputs : Z := 0.
Definition SYS_cgetc : Z := 1.
Definition SYS_getenvid : Z := 2.
Definition SYS_env_destroy : Z := 3.
Definition SYS_page_alloc : Z := 4.
Definition SYS_page_map : Z := 5.
Definition SYS_page_unmap : Z := 6.
Definition SYS_exofork : Z := 7.
Definition SYS_env_set_status : Z := 8.
Definition SYS_env_set_pgfault_upcall : Z := 9.
Definition SYS_yield : Z := 10.
Definition SYS_ipc_try_send : Z := 11.
Definition SYS_ipc_recv : Z := 12.
Definition NSYSCALLS : Z := 13.

Section Syscall.
(** A bound on the length of a string printed with a negative precision. *)
Context (fuel : nat).

(** ** Console *)

(** The characters that the string conversion of [cprintf("%.*s", len, s)] prints:
    up to a NUL, and at most [precision] of them if that is not negative. *)
Fixpoint user_string (n : nat) (va precision : Z) : K (list Z) :=
  match n with
  | O => leave NoFuel
  | S n' =>
      ch ← vload8 va;
      if ch =? 0 then mret []
      else if (precision <? 0) || (precision - 1 >=? 0) then
        r ← user_string n' (u32 (va + 1)) (if precision <? 0 then precision else precision - 1);
        mret (ch :: r)
      else mret []
  end.

(** [if ((p = va_arg(...)) == NULL) p = "(null)"], lib/printfmt.c. *)
Definition null_string (precision : Z) : list Z :=
  let p := bytes_of "(null)" in if precision <? 0 then p else take (Z.to_nat precision) p.

Definition sys_cputs (s len : Z) : K unit :=
  c ← curenv_ptr;
  v ← get_env c;
  _ ← kwhen (ctrue (Z.land (tf_cs (env_tf v)) 3)) (user_mem_assert c s len 0);
  bs ← (if s =? 0 then mret (null_string (s32 len))
        else user_string (if s32 len <? 0 then fuel else S (Z.to_nat len)) s (s32 len));
  tell (Cputs s len bs).

Definition cons_getc : K Z :=
  i ← get input;
  match i with
  | [] => mret 0
  | c :: r => _ ← modify (set_input r); mret c
  end.

Definition sys_cgetc : K Z := cons_getc.

(** ** Environments *)

Definition sys_getenvid : K Z := c ← curenv_ptr; v ← get_env c; mret (env_id v).

(** [envid2env(envid, &e, 1)] with [if (ret) return ret]. *)
Definition with_env (envid : Z) (checkperm : bool) (f : Z -> K Z) : K Z :=
  r ← envid2env envid checkperm;
  match r with
  | (ret, e) =>
      if negb (ret =? 0) then mret ret
      else match e with Some e => f e | None => undefined end
  end.

Definition sys_env_destroy (envid : Z) : K Z :=
  with_env envid true (fun e =>
    c ← curenv_ptr;
    cv ← get_env c;
    v ← get_env e;
    _ ← (if e =? c then cprintf "[%08x] exiting gracefully" [env_id cv]
         else cprintf "[%08x] destroying %08x" [env_id cv; env_id v]);
    _ ← env_destroy e;
    mret 0).

Definition sys_yield : K unit := sched_yield.

Definition sys_exofork : K Z :=
  c ← curenv_ptr;
  cv ← get_env c;
  r ← env_alloc (env_id cv);
  match r with
  | (0, Some e) =>
      cv ← get_env c;
      _ ← upd_env e (fun v =>
            let v := set_env_tf (env_tf cv) v in
            let v := set_env_status ENV_NOT_RUNNABLE v in
            let tf := env_tf v in
            set_env_tf (set_tf_regs (set_reg_eax 0 (tf_regs tf)) tf) v);
      v ← get_env e;
      mret (env_id v)
  | (ret, _) => mret ret
  end.

Definition sys_env_set_status (envid status : Z) : K Z :=
  match env_status_of status with
  | Some st =>
      if bool_decide (st = ENV_NOT_RUNNABLE) || bool_decide (st = ENV_RUNNABLE)
      then with_env envid true (fun e => _ ← upd_env e (set_env_status st); mret 0)
      else mret (- E_INVAL)
  | None => mret (- E_INVAL)
  end.

Definition sys_env_set_pgfault_upcall (envid func : Z) : K Z :=
  r ← envid2env envid true;
  match r with
  | (0, Some e) => _ ← upd_env e (set_env_pgfault_upcall func); mret 0
  | (0, None) => undefined
  | _ => mret (- E_BAD_ENV)
  end.

(** ** Memory *)

(** [va >= UTOP || ROUNDDOWN(va, PGSIZE) != va]. *)
Definition bad_user_page (va : Z) : bool := (va >=? UTOP) || negb (ROUNDDOWN va PGSIZE =? va).
(** [(perm & (PTE_U | PTE_P)) != (PTE_U | PTE_P)]. *)
Definition bad_perm (perm : Z) : bool :=
  let flag := Z.lor PTE_U PTE_P in negb (Z.land perm flag =? flag).

Definition sys_page_alloc (envid va perm : Z) : K Z :=
  with_env envid true (fun e =>
    if bad_user_page va then mret (- E_INVAL)
    else if bad_perm perm then mret (- E_INVAL)
    else
      pg ← page_alloc 1;
      match pg with
      | None => mret (- E_NO_MEM)
      | Some pg =>
          v ← get_env e;
          ret ← page_insert (env_pgdir v) pg va perm;
          if negb (ret =? 0) then _ ← page_free pg; mret ret
          else mret 0
      end).

Definition sys_page_map (srcenvid srcva dstenvid dstva perm : Z) : K Z :=
  with_env srcenvid true (fun se =>
  with_env dstenvid true (fun de =>
    if (srcva >=? UTOP) || (dstva >=? UTOP) || negb (ROUNDDOWN srcva PGSIZE =? srcva)
       || negb (ROUNDDOWN dstva PGSIZE =? dstva)
    then mret (- E_INVAL)
    else
      sv ← get_env se;
      r ← page_lookup (env_pgdir sv) srcva;
      match r with
      | None => mret (- E_INVAL)
      | Some (pg, pte) =>
          if bad_perm perm then mret (- E_INVAL)
          else
            w ← kload32 pte;
            if (Z.land w PTE_W =? 0) && ctrue (Z.land perm PTE_W) then mret (- E_INVAL)
            else
              dv ← get_env de;
              page_insert (env_pgdir dv) pg dstva perm
      end)).

Definition sys_page_unmap (envid va : Z) : K Z :=
  with_env envid true (fun e =>
    if bad_user_page va then mret (- E_INVAL)
    else
      v ← get_env e;
      _ ← page_remove (env_pgdir v) va;
      mret 0).

(** ** Messages *)

(** The page that goes with a message: the result to return, or 0.  [*pte] is read
    although page_lookup leaves [pte] unset when it finds nothing. *)
Definition ipc_send_page (rcv srcva perm : Z) : K Z :=
  c ← curenv_ptr;
  cv ← get_env c;
  r ← page_lookup (env_pgdir cv) srcva;
  if negb (srcva =? ROUNDDOWN srcva PGSIZE) then mret (- E_INVAL)
  else
    match r with
    | None => undefined
    | Some (pg, pte) =>
        w ← kload32 pte;
        if negb (Z.land (Z.land w perm) 7 =? Z.land perm 7) then mret (- E_INVAL)
        else if ctrue (Z.land perm PTE_W) && negb (ctrue (Z.land w PTE_W)) then mret (- E_INVAL)
        else
          rv ← get_env rcv;
          if env_ipc_dstva rv <? UTOP then
            ret ← page_insert (env_pgdir rv) pg (env_ipc_dstva rv) perm;
            if negb (ret =? 0) then mret ret
            else _ ← upd_env rcv (set_env_ipc_perm perm); mret 0
          else mret 0
    end.

(** The receiver's record once the message is delivered. *)
Definition ipc_deliver (from value : Z) (v : Env) : Env :=
  let v := set_env_ipc_recving false v in
  let v := set_env_ipc_from from v in
  let v := set_env_ipc_value value v in
  let v := set_env_status ENV_RUNNABLE v in
  let tf := env_tf v in
  set_env_tf (set_tf_regs (set_reg_eax 0 (tf_regs tf)) tf) v.

Definition sys_ipc_try_send (envid value srcva perm : Z) : K Z :=
  with_env envid false (fun rcv =>
    rv ← get_env rcv;
    if negb (env_ipc_recving rv) then mret (- E_IPC_NOT_RECV)
    else
      ret ← (if srcva <? UTOP then ipc_send_page rcv srcva perm else mret 0);
      if negb (ret =? 0) then mret ret
      else
        c ← curenv_ptr;
        cv ← get_env c;
        _ ← upd_env rcv (ipc_deliver (env_id cv) value);
        mret 0).

Definition sys_ipc_recv (dstva : Z) : K Z :=
  if (dstva <? UTOP) && negb (dstva =? ROUNDDOWN dstva PGSIZE) then mret (- E_INVAL)
  else
    c ← curenv_ptr;
    _ ← upd_env c (fun v =>
          set_env_ipc_dstva dstva (set_env_status ENV_NOT_RUNNABLE (set_env_ipc_recving true v)));
    _ ← sys_yield;
    mret 0.

(** ** The dispatcher *)

Definition syscall (syscallno a1 a2 a3 a4 a5 : Z) : K Z :=
  if syscallno =? SYS_cgetc then _ ← sys_cgetc; mret 0
  else if syscallno =? SYS_cputs then _ ← sys_cputs a1 a2; mret 0
  else if syscallno =? SYS_getenvid then _ ← sys_getenvid; mret 0
  else if syscallno =? SYS_env_destroy then _ ← sys_env_destroy (s32 a1); mret 0
  else if syscallno =? SYS_yield then _ ← sys_yield; mret 0
  else if syscallno =? NSYSCALLS then mret 0
  else mret (- E_INVAL).
End Syscall.

(** ** Arguments *)

Lemma user_va_PDX va : 0 <= va < UTOP -> PDX va <> PDX UVPT.
Proof.
  intros H. change UTOP with 0xeec00000 in H. change (PDX UVPT) with 957.
  rewrite PDX_div, u32_small by lia. zlia.
Qed.

(** A pointer is page-aligned exactly when ROUNDDOWN leaves it alone. *)
Lemma aligned_test va :
  0 <= va < 0x100000000 -> (va =? ROUNDDOWN va PGSIZE) = (va mod PGSIZE =? 0).
Proof.
  intros H. pose proof (ROUNDDOWN_mul va PGSIZE ltac:(unfold PGSIZE; lia)) as E.
  rewrite u32_small in E by lia. rewrite E. unfold PGSIZE.
  destruct (va mod 4096 =? 0) eqn:E1; bcomp; [apply Z.eqb_eq|apply Z.eqb_neq]; zlia.
Qed.

Lemma bad_user_page_spec va :
  0 <= va < 0x100000000 ->
  bad_user_page va = (UTOP <=? va) || negb (va mod PGSIZE =? 0).
Proof.
  intros H. unfold bad_user_page. by rewrite Z.geb_leb, Z.eqb_sym, aligned_test.
Qed.

Lemma with_env_ok s envid chk e f :
  envid2env envid chk s = Ok (0, Some e) s -> with_env envid chk f s = f e s.
Proof. intros E. unfold with_env. by kstep E. Qed.

Lemma with_env_err s envid chk r e f :
  envid2env envid chk s = Ok (r, e) s -> r <> 0 -> with_env envid chk f s = Ok r s.
Proof.
  intros E Hr. unfold with_env. kstep E. by rewrite (proj2 (Z.eqb_neq _ _) Hr).
Qed.

(** ** A fresh page *)

(** The state after [page_alloc(ALLOC_ZERO)] took page [p]. *)
Definition fresh_page (p : Z) (l : list Z) (s : kstate) : kstate :=
  set_mem (memset (mem s) (p * 4096) 0 PGSIZE) (popped p l s).

Lemma fresh_page_load8 p l s x :
  load8 (mem (fresh_page p l s)) x = if decide (x / 4096 = p) then 0 else load8 (mem s) x.
Proof.
  simpl. rewrite memset_filled by (unfold PGSIZE; lia). unfold PGSIZE.
  destruct (decide (x / 4096 = p)) as [E|E]; [rewrite decide_True by zlia|rewrite decide_False by zlia];
    done.
Qed.

(** A page that is not on the free list reads the same after the allocation. *)
Lemma fresh_page_slot p l s f i :
  f mod 4096 = 0 -> 0 <= i < 1024 -> f / 4096 <> p ->
  load32 (mem (fresh_page p l s)) (slot f i) = load32 (mem s) (slot f i).
Proof.
  intros Hf Hi Hne. apply load32_ext. intros x Hx. unfold slot in Hx.
  rewrite fresh_page_load8, decide_False by zlia. done.
Qed.

Record fresh_ok (s : kstate) (l : list Z) (d p : Z) (s1 : kstate) : Prop := {
  fr_same : same_else s s1;
  fr_pages : pages_wf s1 l;
  fr_dir : pgdir_wf s1 l d;
  fr_slots : forall i, 0 <= i < 1024 -> load32 (mem s1) (slot d i) = load32 (mem s) (slot d i);
  fr_map : forall va, mapping (mem s1) d va = mapping (mem s) d va;
  fr_range : 0 <= p < npages s /\ (p ∉ l) /\ ~ is_table s1 d p;
  fr_page : pages s1 !! p = Some (mkPageInfo None 0);
  fr_others : forall q, q <> p -> pages s1 !! q = pages s !! q;
}.

Lemma fresh_page_ok s p l d :
  pages_wf s (p :: l) -> pgdir_wf s (p :: l) d -> fresh_ok s l d p (fresh_page p l s).
Proof.
  intros Hw Hd. pose proof (dw_aligned _ _ _ Hd) as Ha.
  pose proof (pages_wf_range _ _ p Hw ltac:(apply list_elem_of_here)) as Hr.
  pose proof (wf_nodup _ _ Hw) as Hnd. apply list.NoDup_cons in Hnd as [Hpl _].
  pose proof (dw_used _ _ _ Hd) as Hu. rewrite not_elem_of_cons in Hu.
  assert (forall i, 0 <= i < 1024 -> load32 (mem (fresh_page p l s)) (slot d i) =
    load32 (mem s) (slot d i)) as Hs by (intros i Hi; apply fresh_page_slot; tauto).
  assert (forall i, 0 <= i < 1024 -> present (load32 (mem s) (slot d i)) = true ->
    PTE_ADDR (load32 (mem s) (slot d i)) / 4096 <> p) as Ht.
  { intros i Hi Hp. pose proof (proj2 (dw_table _ _ _ Hd i Hi Hp)) as Hin.
    rewrite not_elem_of_cons in Hin. tauto. }
  split.
  - done.
  - eapply pages_wf_ext; [by apply popped_wf|done..].
  - eapply pgdir_wf_mono; [done|done| |].
    + intros i Hi. by rewrite Hs.
    + intros q Hq. left. by apply list_elem_of_further.
  - done.
  - intros va. unfold mapping. rewrite !pte_slot, !pde_slot, Hs by (auto with jos).
    destruct (present (load32 (mem s) (slot d (PDX va)))) eqn:Ep; [|done]. cbn [andb].
    rewrite fresh_page_slot; [done|apply PTE_ADDR_aligned|apply PTX_range|by apply Ht; [apply PDX_range|]].
  - split; [lia|]. split; [done|]. intros [E|(i & Hi & Hp & E)].
    + apply (proj1 Hu). rewrite <- E. zlia.
    + rewrite Hs in * by done. apply (Ht i Hi Hp). rewrite E. zlia.
  - simpl. by rewrite lookup_insert_eq.
  - intros q Hq. simpl. by rewrite lookup_insert_ne.
Qed.

(** What the caller of a mapping call may find at [va]: nothing, or an allocated
    page with at least that reference, which is no page table. *)
Definition old_ok (s : kstate) (l : list Z) (d va : Z) : Prop :=
  forall e, mapping (mem s) d va = Some e ->
    PTE_ADDR e / 4096 < npages s /\ (PTE_ADDR e / 4096 ∉ l) /\
    ~ is_table s d (PTE_ADDR e / 4096) /\ 1 <= ref_of s (PTE_ADDR e / 4096) < 65535.

Lemma fresh_insertable s p l d va perm :
  pages_wf s (p :: l) -> pgdir_wf s (p :: l) d -> PDX va <> PDX UVPT -> 0 <= perm < 4096 ->
  old_ok s (p :: l) d va -> insertable (fresh_page p l s) l d p va perm.
Proof.
  intros Hw Hd Hv Hperm Ho. pose proof (fresh_page_ok s p l d Hw Hd) as Hf.
  destruct (fr_range _ _ _ _ _ Hf) as (Hr & Hpl & _). split; try done.
  - unfold ref_of. rewrite (fr_page _ _ _ _ _ Hf). simpl. lia.
  - intros e He. rewrite (fr_map _ _ _ _ _ Hf) in He. destruct (Ho e He) as (H1 & H2 & H3 & H4).
    rewrite not_elem_of_cons in H2. split; [done|]. split; [tauto|]. split.
    + intros Ht. apply H3. by apply (is_table_slots s _ d _ (fr_slots _ _ _ _ _ Hf)).
    + unfold ref_of in *. by rewrite (fr_others _ _ _ _ _ Hf) by tauto.
Qed.

Lemma page_insert_nomem s d pp va perm :
  pages_wf s [] -> pgdir_wf s [] d -> present (pde (mem s) d va) = false ->
  page_insert (KERNBASE + d) pp va perm s =
    Ok (- E_NO_MEM) (set_log (Cprintf "page_alloc() failed, out of mempry!" [] :: log s) s).
Proof. intros Hw Hd Hp. unfold page_insert. by kstep (pgdir_walk_nomem s d va Hw Hd Hp). Qed.

(** ** sys_page_alloc *)

(** The user's page [va] maps page [p] with [perm] in the directory at [d], and all
    other user pages map what they mapped. *)
Definition maps_only (s s' : kstate) (d va p perm : Z) : Prop :=
  forall va', PDX va' <> PDX UVPT -> mapping (mem s') d va' =
    if decide (PGNUM va' = PGNUM va) then Some (Z.lor (Z.lor (p * 4096) perm) PTE_P)
    else mapping (mem s) d va'.

(** The call on good arguments with the pages it needs: a fresh page, inserted. *)
Lemma sys_page_alloc_ok s p l1 d e v envid va perm :
  pages_wf s (p :: l1) -> pgdir_wf s (p :: l1) d -> cpu_ok s ->
  envs s !! e = Some v -> env_pgdir v = KERNBASE + d ->
  envid2env envid true s = Ok (0, Some e) s ->
  0 <= va < UTOP -> bad_user_page va = false -> bad_perm perm = false -> 0 <= perm < 4096 ->
  old_ok s (p :: l1) d va -> present (pde (mem s) d va) = true \/ l1 <> [] ->
  exists s' l', sys_page_alloc envid va perm s = Ok 0 s' /\
    inserted (fresh_page p l1 s) l1 d p va perm s' l'.
Proof.
  intros Hw Hd Hc Hv Hpg E Hva Hbad Hbp Hperm Hold Hcase. unfold sys_page_alloc.
  rewrite (with_env_ok _ _ _ _ _ E), Hbad, Hbp. kstep (page_alloc_cons 1 s p l1 Hw).
  change (ctrue (Z.land 1 ALLOC_ZERO)) with true. cbv iota. fold (fresh_page p l1 s).
  pose proof (fresh_page_ok s p l1 d Hw Hd) as Hf.
  kstep (get_env_run (fresh_page p l1 s) e v Hv). rewrite Hpg.
  destruct (page_insert_ok (fresh_page p l1 s) l1 d p va perm (fr_pages _ _ _ _ _ Hf)
    (fr_dir _ _ _ _ _ Hf) Hc) as (s' & l' & Ei & Hi).
  - apply fresh_insertable; auto using user_va_PDX.
  - by rewrite !pde_slot, (fr_slots _ _ _ _ _ Hf), <- pde_slot by auto with jos.
  - kstep Ei. by eauto.
Qed.

(** The fresh page has one reference afterwards. *)
Lemma fresh_inserted_ref s p l1 d va perm s' l' :
  pages_wf s (p :: l1) -> pgdir_wf s (p :: l1) d -> old_ok s (p :: l1) d va ->
  inserted (fresh_page p l1 s) l1 d p va perm s' l' -> ref_of s' p = 1.
Proof.
  intros Hw Hd Hold Hi. pose proof (fresh_page_ok s p l1 d Hw Hd) as Hf.
  destruct (fr_range _ _ _ _ _ Hf) as (_ & Hpl & _).
  rewrite (is_refs _ _ _ _ _ _ _ _ Hi) by done. unfold ref_of, maps_to.
  rewrite (fr_page _ _ _ _ _ Hf), (fr_map _ _ _ _ _ Hf), Z.eqb_refl. simpl.
  destruct (mapping (mem s) d va) as [w|] eqn:Em; [|done].
  destruct (Hold w Em) as (_ & Hw2 & _). rewrite not_elem_of_cons in Hw2.
  by rewrite (proj2 (Z.eqb_neq _ _)) by tauto.
Qed.

(** The call on good arguments without a page for the table: the page it took is
    free again. *)
Lemma sys_page_alloc_nomem s p l1 d e v envid va perm :
  pages_wf s (p :: l1) -> pgdir_wf s (p :: l1) d ->
  envs s !! e = Some v -> env_pgdir v = KERNBASE + d ->
  envid2env envid true s = Ok (0, Some e) s ->
  bad_user_page va = false -> bad_perm perm = false ->
  ~ (present (pde (mem s) d va) = true \/ l1 <> []) ->
  exists s', sys_page_alloc envid va perm s = Ok (- E_NO_MEM) s' /\
    pages_wf s' [p] /\ pgdir_wf s' [p] d /\ envs s' = envs s /\
    (forall va', mapping (mem s') d va' = mapping (mem s) d va') /\
    same_else s s' /\ mem s' = mem (fresh_page p l1 s) /\ (forall q, ref_of s' q = ref_of s q).
Proof.
  intros Hw Hd Hv Hpg E Hbad Hbp Hcase. unfold sys_page_alloc.
  rewrite (with_env_ok _ _ _ _ _ E), Hbad, Hbp. kstep (page_alloc_cons 1 s p l1 Hw).
  change (ctrue (Z.land 1 ALLOC_ZERO)) with true. cbv iota. fold (fresh_page p l1 s).
  pose proof (fresh_page_ok s p l1 d Hw Hd) as Hf. set (s1 := fresh_page p l1 s) in *.
  kstep (get_env_run s1 e v Hv). rewrite Hpg.
  assert (present (pde (mem s) d va) = false /\ l1 = []) as [Hp ->].
  { split; [apply not_true_iff_false; tauto|]. destruct l1; [done|]. destruct Hcase. by right. }
  assert (pde (mem s1) d va = pde (mem s) d va) as Epde
    by (rewrite !pde_slot; apply (fr_slots _ _ _ _ _ Hf); auto with jos).
  kstep (page_insert_nomem s1 d p va perm (fr_pages _ _ _ _ _ Hf) (fr_dir _ _ _ _ _ Hf)
    ltac:(by rewrite Epde)).
  change (negb (- E_NO_MEM =? 0)) with true. cbv iota. set (s2 := set_log _ s1).
  assert (pages_wf s2 []) as Hw2 by (eapply pages_wf_ext; [apply (fr_pages _ _ _ _ _ Hf)|done..]).
  destruct (page_free_ok s2 [] p _ Hw2 (fr_page _ _ _ _ _ Hf) ltac:(set_solver) eq_refl)
    as [Efree Hw3].
  kstep Efree. eexists. split; [done|]. split; [done|].
  split; [eapply pgdir_wf_mono; [exact Hd|done|intros i Hi; by rewrite <- (fr_slots _ _ _ _ _ Hf)|by left]|].
  split; [done|]. split; [apply (fr_map _ _ _ _ _ Hf)|]. split; [done|]. split; [done|].
  intros q. unfold ref_of, pushed, s2, s1, fresh_page. simpl. destruct (decide (q = p)) as [->|Hne].
  - rewrite !lookup_insert_eq, (wf_chain _ _ Hw O p eq_refl). done.
  - by rewrite !lookup_insert_ne.
Qed.

(** C23: sys_page_alloc gives the named environment a zeroed page.  An id that
    envid2env refuses gives that error; an address at or above UTOP or not
    page-aligned, or a permission without PTE_U or PTE_P, gives -E_INVAL; none of
    these changes anything.  That is all the code tests: its comment promises
    -E_INVAL also for a permission with a bit outside PTE_SYSCALL, but every
    permission within the twelve flag bits that has PTE_U and PTE_P is accepted and
    stored as it is.  For such a permission, with a free page [p] and a page table for
    [va] or a second free page, the call returns 0, [va] maps [p] with the given
    permission, [p] reads as zeros and has one reference, all other user pages
    map what they mapped, and no byte outside free pages and the page tables
    changes.  Without a page it returns -E_NO_MEM; without a page for the table
    it returns -E_NO_MEM and the page it took is free again. *)
Theorem sys_page_alloc_maps s l d e v envid va perm :
  pages_wf s l -> pgdir_wf s l d -> cpu_ok s ->
  envs s !! e = Some v -> env_pgdir v = KERNBASE + d ->
  0 <= va < 0x100000000 -> 0 <= perm < 4096 -> (va < UTOP -> old_ok s l d va) ->
  (forall r x, envid2env envid true s = Ok (r, x) s -> r <> 0 ->
     sys_page_alloc envid va perm s = Ok r s) /\
  (envid2env envid true s = Ok (0, Some e) s ->
   if (UTOP <=? va) || negb (va mod PGSIZE =? 0) || bad_perm perm
   then sys_page_alloc envid va perm s = Ok (- E_INVAL) s
   else match l with
   | [] => exists s', sys_page_alloc envid va perm s = Ok (- E_NO_MEM) s' /\
        pages_wf s' [] /\ mem s' = mem s /\ envs s' = envs s
   | p :: l1 =>
      if bool_decide (present (pde (mem s) d va) = true \/ l1 <> [])
      then exists s' l', sys_page_alloc envid va perm s = Ok 0 s' /\
        pages_wf s' l' /\ pgdir_wf s' l' d /\ envs s' = envs s /\
        maps_only s s' d va p perm /\ ref_of s' p = 1 /\
        (forall x, x / 4096 = p -> load8 (mem s') x = 0) /\
        (forall x, (x / 4096 ∉ l) -> ~ is_table s d (x / 4096) ->
           load8 (mem s') x = load8 (mem s) x)
      else exists s', sys_page_alloc envid va perm s = Ok (- E_NO_MEM) s' /\
        pages_wf s' [p] /\ pgdir_wf s' [p] d /\ envs s' = envs s /\
        (forall va', mapping (mem s') d va' = mapping (mem s) d va')
   end).
Proof.
  intros Hw Hd Hc Hv Hpg Hva Hperm Hold.
  split; [intros r x E Hr; by eapply with_env_err|]. intros E.
  pose proof (bad_user_page_spec va Hva) as Ebad. rewrite <- Ebad.
  destruct (bad_user_page va) eqn:Eva;
    [unfold sys_page_alloc; by rewrite (with_env_ok _ _ _ _ _ E), Eva|].
  destruct (bad_perm perm) eqn:Ebp;
    [unfold sys_page_alloc; by rewrite (with_env_ok _ _ _ _ _ E), Eva, Ebp|].
  cbn [orb]. symmetry in Ebad. apply orb_false_iff in Ebad as [Hu _]. bcomp.
  destruct l as [|p l1].
  { unfold sys_page_alloc. rewrite (with_env_ok _ _ _ _ _ E), Eva, Ebp.
    kstep (page_alloc_nil 1 s Hw). eexists. split; [done|]. split; [|done].
    by eapply pages_wf_ext. }
  case_bool_decide as Hcase.
  2: { destruct (sys_page_alloc_nomem s p l1 d e v envid va perm) as (s' & H1 & H2 & H3 & H4 & H5 & _); try done. by exists s'. }
  destruct (sys_page_alloc_ok s p l1 d e v envid va perm) as (s' & l' & Er & Hi);
    try done; [lia|by apply Hold; lia|].
  pose proof (fresh_page_ok s p l1 d Hw Hd) as Hf.
  destruct (fr_range _ _ _ _ _ Hf) as (Hr & Hpl & Hpt).
  exists s', l'. split; [done|]. split; [apply (is_pages _ _ _ _ _ _ _ _ Hi)|].
  split; [apply (is_dir _ _ _ _ _ _ _ _ Hi)|].
  split; [apply (same_else_envs _ _ (is_same _ _ _ _ _ _ _ _ Hi))|].
  split; [|split; [|split]].
  - intros va' Hv'. rewrite (is_map _ _ _ _ _ _ _ _ Hi) by done.
    by rewrite (fr_map _ _ _ _ _ Hf).
  - by apply (fresh_inserted_ref s p l1 d va perm s' l'); auto with lia.
  - intros x Hx. rewrite (is_mem _ _ _ _ _ _ _ _ Hi); [|by rewrite Hx|].
    + by rewrite fresh_page_load8, decide_True.
    + by rewrite Hx.
  - intros x Hx Ht. rewrite not_elem_of_cons in Hx. destruct Hx as [Hx1 Hx2].
    rewrite (is_mem _ _ _ _ _ _ _ _ Hi); [|done|].
    + by rewrite fresh_page_load8, decide_False.
    + intros Ht'. apply Ht. by apply (is_table_slots s _ d _ (fr_slots _ _ _ _ _ Hf)).
Qed.

(** ** sys_page_map *)

(** page_lookup for such an entry. *)
Lemma page_lookup_user s l d va :
  pages_wf s l -> pgdir_wf s l d -> entry_ok s d va ->
  (forall e, mapping (mem s) d va = Some e -> PTE_ADDR e / 4096 < npages s) ->
  page_lookup (KERNBASE + d) va s =
    Ok ((fun e => (PTE_ADDR e / 4096, KERNBASE + pte_addr (mem s) d va)) <$> mapping (mem s) d va) s.
Proof.
  intros Hw Hd He Hr. unfold entry_ok, raw in He. unfold mapping in *. rewrite (page_lookup_run s l d va Hw Hd).
  - destruct (present (pde (mem s) d va)) eqn:Ep; [|done]. simpl.
    destruct (pte (mem s) d va =? 0) eqn:E0; bcomp; simpl; [by rewrite E0|].
    by rewrite He.
  - intros Hp Hnz. apply Hr. rewrite Hp in *. by rewrite He.
Qed.

Lemma mapping_pte m d va e : mapping m d va = Some e -> pte m d va = e.
Proof. unfold mapping. by destruct (_ && _); intros; simplify_eq. Qed.

(** [w] may be shared with permission [perm]: PTE_U and PTE_P are asked for, and
    PTE_W only if [w] has it. *)
Definition may_share (w perm : Z) : bool :=
  negb (bad_perm perm) && negb ((Z.land w PTE_W =? 0) && ctrue (Z.land perm PTE_W)).

(** The call on a page that may be shared, with a page for the table: an
    insertion of the source's page. *)
Lemma sys_page_map_ok s l sd dd se de sv dv srcid srcva dstid dstva perm w :
  pages_wf s l -> pgdir_wf s l sd -> pgdir_wf s l dd -> cpu_ok s ->
  envs s !! se = Some sv -> env_pgdir sv = KERNBASE + sd ->
  envs s !! de = Some dv -> env_pgdir dv = KERNBASE + dd ->
  envid2env srcid true s = Ok (0, Some se) s -> envid2env dstid true s = Ok (0, Some de) s ->
  0 <= srcva < UTOP -> 0 <= dstva < UTOP -> 0 <= perm < 4096 ->
  bad_user_page srcva = false -> bad_user_page dstva = false ->
  entry_ok s sd srcva -> old_ok s l sd srcva -> old_ok s l dd dstva ->
  mapping (mem s) sd srcva = Some w -> may_share w perm = true ->
  present (pde (mem s) dd dstva) = true \/ l <> [] ->
  exists s' l', sys_page_map srcid srcva dstid dstva perm s = Ok 0 s' /\
    inserted s l dd (PTE_ADDR w / 4096) dstva perm s' l'.
Proof.
  intros Hw Hsd Hdd Hc Hsv Hsp Hdv Hdp E1 E2 Hsva Hdva Hperm Es Ed Hent Hsrc Hdst Em Hsh Hcase.
  unfold sys_page_map. rewrite (with_env_ok _ _ _ _ _ E1), (with_env_ok _ _ _ _ _ E2).
  unfold bad_user_page in Es, Ed. apply orb_false_iff in Es as [-> ->], Ed as [-> ->].
  cbn [orb]. kstep (get_env_run s se sv Hsv). rewrite Hsp.
  kstep (page_lookup_user s l sd srcva Hw Hsd Hent (fun e He => proj1 (Hsrc e He))).
  rewrite Em. cbn [fmap option_fmap option_map]. cbv iota zeta.
  destruct (Hsrc w Em) as (Hq1 & Hq2 & _ & Hq4). unfold may_share in Hsh.
  apply andb_true_iff in Hsh as [Hp1 Hp2]. apply negb_true_iff in Hp1, Hp2. rewrite Hp1.
  kstep (kload32_run s (pte_addr (mem s) sd srcva) ltac:(apply pte_addr_nonneg)).
  fold (pte (mem s) sd srcva). rewrite (mapping_pte _ _ _ _ Em), Hp2.
  kstep (get_env_run s de dv Hdv). rewrite Hdp.
  assert (0 <= PTE_ADDR w / 4096) by (pose proof (PTE_ADDR_range w); zlia).
  apply page_insert_ok; try done.
  split; try done; [apply user_va_PDX; lia|lia].
Qed.

(** C24: sys_page_map shares a page and never turns a read-only page into a writable
    one.  The environments are checked in the order source, destination; then an
    address at or above UTOP or not page-aligned, a source address that is not
    mapped, a permission without PTE_U or PTE_P, or PTE_W for a page the source
    maps read-only gives -E_INVAL; none of these changes anything.  As in
    sys_page_alloc a bit outside PTE_SYSCALL is no error, although the comment says
    that it is: any other permission within the twelve flag bits is accepted.  Then, if
    the destination has a table for [dstva] or a page is free, the call returns 0,
    [dstva] maps the source's page with the given permission in the destination,
    its other user pages map what they did, the page has one more reference (and
    one fewer if it was mapped there already), and no byte outside free pages and
    the destination's tables changes; else it returns -E_NO_MEM and memory is
    unchanged. *)
Theorem sys_page_map_shares s l sd dd se de sv dv srcid srcva dstid dstva perm :
  pages_wf s l -> pgdir_wf s l sd -> pgdir_wf s l dd -> cpu_ok s ->
  envs s !! se = Some sv -> env_pgdir sv = KERNBASE + sd ->
  envs s !! de = Some dv -> env_pgdir dv = KERNBASE + dd ->
  0 <= srcva < 0x100000000 -> 0 <= dstva < 0x100000000 -> 0 <= perm < 4096 ->
  entry_ok s sd srcva -> old_ok s l sd srcva -> (dstva < UTOP -> old_ok s l dd dstva) ->
  let call := sys_page_map srcid srcva dstid dstva perm in
  (forall r x, envid2env srcid true s = Ok (r, x) s -> r <> 0 -> call s = Ok r s) /\
  (forall r x, envid2env srcid true s = Ok (0, Some se) s ->
     envid2env dstid true s = Ok (r, x) s -> r <> 0 -> call s = Ok r s) /\
  (envid2env srcid true s = Ok (0, Some se) s -> envid2env dstid true s = Ok (0, Some de) s ->
   if ((UTOP <=? srcva) || negb (srcva mod PGSIZE =? 0))
      || ((UTOP <=? dstva) || negb (dstva mod PGSIZE =? 0))
   then call s = Ok (- E_INVAL) s
   else match mapping (mem s) sd srcva with
   | None => call s = Ok (- E_INVAL) s
   | Some w =>
      let q := PTE_ADDR w / 4096 in
      if negb (may_share w perm) then call s = Ok (- E_INVAL) s
      else if bool_decide (present (pde (mem s) dd dstva) = true \/ l <> [])
      then exists s' l', call s = Ok 0 s' /\
        pages_wf s' l' /\ pgdir_wf s' l' dd /\ envs s' = envs s /\
        maps_only s s' dd dstva q perm /\
        ref_of s' q = ref_of s q + 1 - maps_to (mem s) dd dstva q /\
        (forall x, (x / 4096 ∉ l) -> ~ is_table s dd (x / 4096) ->
           load8 (mem s') x = load8 (mem s) x)
      else exists s', call s = Ok (- E_NO_MEM) s' /\ mem s' = mem s /\ pages s' = pages s /\
        envs s' = envs s
   end).
Proof.
  intros Hw Hsd Hdd Hc Hsv Hsp Hdv Hdp Hsva Hdva Hperm Hent Hsrc Hdst call.
  unfold call, sys_page_map.
  split; [intros r x E Hr; by eapply with_env_err|].
  split; [intros r x E1 E2 Hr; rewrite (with_env_ok _ _ _ _ _ E1); by eapply with_env_err|].
  intros E1 E2. rewrite (with_env_ok _ _ _ _ _ E1), (with_env_ok _ _ _ _ _ E2). clear E1 E2.
  pose proof (bad_user_page_spec srcva Hsva) as Es. pose proof (bad_user_page_spec dstva Hdva) as Ed.
  unfold bad_user_page in Es, Ed. rewrite <- Es, <- Ed.
  replace ((srcva >=? UTOP) || (dstva >=? UTOP) || negb (ROUNDDOWN srcva PGSIZE =? srcva)
       || negb (ROUNDDOWN dstva PGSIZE =? dstva))
    with ((srcva >=? UTOP) || negb (ROUNDDOWN srcva PGSIZE =? srcva)
       || ((dstva >=? UTOP) || negb (ROUNDDOWN dstva PGSIZE =? dstva)))
    by (destruct (srcva >=? UTOP), (dstva >=? UTOP), (ROUNDDOWN srcva PGSIZE =? srcva); done).
  destruct (_ || _ || _) eqn:Eva; [done|]. apply orb_false_iff in Eva as [_ Eva].
  assert (dstva < UTOP) as Hu
    by (apply orb_false_iff in Eva as [Eva _]; rewrite Z.geb_leb in Eva; bcomp; lia).
  kstep (get_env_run s se sv Hsv). rewrite Hsp.
  kstep (page_lookup_user s l sd srcva Hw Hsd Hent (fun e He => proj1 (Hsrc e He))).
  destruct (mapping (mem s) sd srcva) as [w|] eqn:Em; [|done].
  cbn [fmap option_fmap option_map]. cbv iota zeta.
  destruct (Hsrc w Em) as (Hq1 & Hq2 & Hq3 & Hq4). set (q := PTE_ADDR w / 4096) in *.
  unfold may_share. destruct (bad_perm perm); [done|]. cbn [negb andb].
  kstep (kload32_run s (pte_addr (mem s) sd srcva) ltac:(apply pte_addr_nonneg)).
  fold (pte (mem s) sd srcva). rewrite (mapping_pte _ _ _ _ Em).
  destruct ((Z.land w PTE_W =? 0) && ctrue (Z.land perm PTE_W)); [done|]. cbn [negb].
  kstep (get_env_run s de dv Hdv). rewrite Hdp.
  assert (0 <= q) as Hq0 by (pose proof (PTE_ADDR_range w); unfold q; zlia).
  case_bool_decide as Hcase.
  - destruct (page_insert_ok s l dd q dstva perm Hw Hdd Hc) as (s' & l' & E & Hi); [|done|].
    + split; try done; [apply user_va_PDX; lia|lia|by apply Hdst].
    + exists s', l'. split; [done|]. split; [apply (is_pages _ _ _ _ _ _ _ _ Hi)|].
      split; [apply (is_dir _ _ _ _ _ _ _ _ Hi)|].
      split; [apply (same_else_envs _ _ (is_same _ _ _ _ _ _ _ _ Hi))|].
      split; [exact (is_map _ _ _ _ _ _ _ _ Hi)|]. split; [|apply (is_mem _ _ _ _ _ _ _ _ Hi)].
      rewrite (is_refs _ _ _ _ _ _ _ _ Hi) by done. by rewrite Z.eqb_refl.
  - assert (present (pde (mem s) dd dstva) = false /\ l = []) as [Hp ->].
    { split; [apply not_true_iff_false; tauto|]. destruct l; [done|]. destruct Hcase. by right. }
    rewrite (page_insert_nomem s dd q dstva perm Hw Hdd Hp). eauto.
Qed.

(** ** Messages *)

Lemma curenv_ptr_run s c : cur s = Some c -> curenv_ptr s = Ok c s.
Proof.
  unfold cur. intros H. destruct (cpus s !! cpunum s) as [i|] eqn:Ei; [|done]. simpl in H.
  unfold curenv_ptr. kstep (curenv_run s i Ei). by rewrite H.
Qed.

(** The test [*pte & perm & 7] covers PTE_W. *)
Lemma ipc_write_checked w perm :
  Z.land (Z.land w perm) 7 = Z.land perm 7 ->
  ctrue (Z.land perm PTE_W) && negb (ctrue (Z.land w PTE_W)) = false.
Proof.
  intros E. apply andb_false_iff. destruct (ctrue (Z.land perm PTE_W)) eqn:Ep; [right|by left].
  apply negb_false_iff. rewrite ctrue_true in *. intros H. apply Ep. clear Ep.
  apply Z.bits_inj'. intros i Hi. rewrite Z.land_spec, Z.bits_0.
  change PTE_W with (2 ^ 1) in *. rewrite Z.pow2_bits_eqb by lia.
  destruct (1 =? i) eqn:Ei; [|by rewrite andb_false_r]. bcomp. subst i. rewrite andb_true_r.
  assert (Z.testbit (Z.land (Z.land w perm) 7) 1 = Z.testbit (Z.land perm 7) 1) as Eb by by rewrite E.
  assert (Z.testbit (Z.land w (2 ^ 1)) 1 = false) as Hw by by rewrite H, Z.bits_0.
  rewrite !Z.land_spec in *. rewrite Z.pow2_bits_eqb, Z.eqb_refl, andb_true_r in Hw by lia.
  change (Z.testbit 7 1) with true in Eb. rewrite Hw, !andb_true_r in Eb. done.
Qed.

(** The delivery at the end of sys_ipc_try_send. *)
Lemma ipc_deliver_run s c cv r rv value :
  cur s = Some c -> envs s !! c = Some cv -> envs s !! r = Some rv ->
  (c ← curenv_ptr; cv ← get_env c; _ ← upd_env r (ipc_deliver (env_id cv) value);
   (mret 0 : K Z)) s =
  Ok 0 (set_envs (<[r := ipc_deliver (env_id cv) value rv]> (envs s)) s).
Proof.
  intros Hc Hcv Hrv. kstep (curenv_ptr_run s c Hc). kstep (get_env_run s c cv Hcv).
  by kstep (upd_env_run s r rv (ipc_deliver (env_id cv) value) Hrv).
Qed.

Lemma ipc_send_lookup s l c cv sd rcv srcva perm :
  pages_wf s l -> pgdir_wf s l sd -> cur s = Some c -> envs s !! c = Some cv ->
  env_pgdir cv = KERNBASE + sd -> 0 <= srcva < 0x100000000 ->
  entry_ok s sd srcva -> old_ok s l sd srcva ->
  ipc_send_page rcv srcva perm s =
  if negb (srcva mod PGSIZE =? 0) then Ok (- E_INVAL) s
  else match mapping (mem s) sd srcva with
  | None => Undef
  | Some w =>
      if negb (Z.land (Z.land w perm) 7 =? Z.land perm 7) then Ok (- E_INVAL) s
      else (rv ← get_env rcv;
            if env_ipc_dstva rv <? UTOP then
              ret ← page_insert (env_pgdir rv) (PTE_ADDR w / 4096) (env_ipc_dstva rv) perm;
              if negb (ret =? 0) then mret ret
              else _ ← upd_env rcv (set_env_ipc_perm perm); mret 0
            else mret 0) s
  end.
Proof.
  intros Hw Hsd Hc Hcv Hp Hva Hent Hold. unfold ipc_send_page.
  kstep (curenv_ptr_run s c Hc). kstep (get_env_run s c cv Hcv). rewrite Hp.
  kstep (page_lookup_user s l sd srcva Hw Hsd Hent (fun e He => proj1 (Hold e He))).
  rewrite aligned_test by done.
  destruct (srcva mod PGSIZE =? 0); cbn [negb]; [|done].
  destruct (mapping (mem s) sd srcva) as [w|] eqn:Em; [|done].
  cbn [fmap option_fmap option_map]. cbv iota.
  kstep (kload32_run s (pte_addr (mem s) sd srcva) ltac:(apply pte_addr_nonneg)).
  fold (pte (mem s) sd srcva). rewrite (mapping_pte _ _ _ _ Em).
  destruct (Z.land (Z.land w perm) 7 =? Z.land perm 7) eqn:E7; cbn [negb]; [|done]. bcomp.
  by rewrite ipc_write_checked.
Qed.

(** The receiver's record after a message without and with a page. *)
Definition sent (s : kstate) (r : Z) (v : Env) : kstate := set_envs (<[r := v]> (envs s)) s.

(** The message and the page are delivered together. *)
Lemma ipc_send_mapped s l c cv r rv sd rd envid value srcva perm w :
  pages_wf s l -> pgdir_wf s l sd -> pgdir_wf s l rd -> cpu_ok s ->
  cur s = Some c -> envs s !! c = Some cv -> env_pgdir cv = KERNBASE + sd ->
  envs s !! r = Some rv -> env_pgdir rv = KERNBASE + rd ->
  0 <= srcva < UTOP -> 0 <= perm < 4096 -> 0 <= env_ipc_dstva rv < UTOP ->
  entry_ok s sd srcva -> old_ok s l sd srcva -> old_ok s l rd (env_ipc_dstva rv) ->
  envid2env envid false s = Ok (0, Some r) s -> env_ipc_recving rv = true ->
  srcva mod PGSIZE = 0 -> mapping (mem s) sd srcva = Some w ->
  Z.land (Z.land w perm) 7 = Z.land perm 7 ->
  present (pde (mem s) rd (env_ipc_dstva rv)) = true \/ l <> [] ->
  exists s1 l', sys_ipc_try_send envid value srcva perm s =
      Ok 0 (sent s1 r (ipc_deliver (env_id cv) value (set_env_ipc_perm perm rv))) /\
    inserted s l rd (PTE_ADDR w / 4096) (env_ipc_dstva rv) perm s1 l'.
Proof.
  intros Hw Hsd Hrd Hcpu Hc Hcv Hsp Hrv Hrp Hsva Hperm Hdva Hent Hsrc Hdst Eid Erecv Ea Em E7 Hcase.
  unfold sys_ipc_try_send. rewrite (with_env_ok _ _ _ _ _ Eid). clear Eid.
  kstep (get_env_run s r rv Hrv). rewrite Erecv. cbn [negb]. rewrite (proj2 (Z.ltb_lt srcva UTOP)) by lia.
  pose proof (ipc_send_lookup s l c cv sd r srcva perm Hw Hsd Hc Hcv Hsp ltac:(change UTOP with 0xeec00000 in *; lia) Hent Hsrc) as E.
  rewrite Ea, Em, E7, !Z.eqb_refl in E. cbn [negb] in E. rewrite (bind_ok _ _ _ _ _ (get_env_run s r rv Hrv)) in E.
  rewrite (proj2 (Z.ltb_lt (env_ipc_dstva rv) UTOP)), Hrp in E by lia. destruct (Hsrc w Em) as (Hq1 & Hq2 & _ & Hq4).
  assert (0 <= PTE_ADDR w / 4096) by (pose proof (PTE_ADDR_range w); zlia).
  destruct (page_insert_ok s l rd (PTE_ADDR w / 4096) (env_ipc_dstva rv) perm Hw Hrd Hcpu)
    as (s1 & l' & Ei & Hi); [|done|].
  { split; try done; [by apply user_va_PDX|lia]. }
  exists s1, l'. split; [|done].
  rewrite (bind_ok _ _ _ _ _ Ei) in E. cbn [Z.eqb negb] in E.
  pose proof (is_same _ _ _ _ _ _ _ _ Hi) as Hs1. pose proof (same_else_envs _ _ Hs1) as Ee.
  assert (envs s1 !! r = Some rv) as Hrv1 by by rewrite Ee.
  rewrite (bind_ok _ _ _ _ _ (upd_env_run s1 r rv (set_env_ipc_perm perm) Hrv1)) in E.
  kstep E. set (v1 := set_env_ipc_perm perm rv). set (s2 := set_envs _ s1).
  assert (exists cv2, envs s2 !! c = Some cv2 /\ env_id cv2 = env_id cv) as (cv2 & Hcv2 & Eid).
  { simpl. rewrite Ee, lookup_insert. case_decide; [|by eauto]. subst. simplify_eq. by eauto. }
  assert (envs s2 !! r = Some v1) as Hrv2 by (simpl; by rewrite lookup_insert_eq).
  assert (cur s2 = Some c) as Hc2.
  { unfold cur. simpl. by rewrite (same_else_cpus _ _ Hs1), (same_else_cpunum _ _ Hs1). }
  cbn [Z.eqb negb]. rewrite (ipc_deliver_run s2 c cv2 r v1 value Hc2 Hcv2 Hrv2), Eid. unfold sent.
  f_equal. assert (<[r := ipc_deliver (env_id cv) value v1]> (envs s2) = <[r := ipc_deliver (env_id cv) value v1]> (envs s1))
    as -> by apply insert_insert_eq. done.
Qed.

(** C25: What sys_ipc_try_send does on every branch, to an environment that exists:
    it delivers a message, and a page if one is offered and wanted.  To an environment that is not receiving it returns -E_IPC_NOT_RECV.  With
    [srcva] at or above UTOP it returns 0, and the only change is the receiver's
    record: no longer receiving, sender and value stored, runnable, and 0 as the
    result of its own call.  With [srcva] below UTOP, an unaligned address or a
    permission whose low three bits the sender's page does not have gives
    -E_INVAL without a change; otherwise, if the receiver asked for no page the
    message alone is delivered; if it did, the page is mapped at its address with
    the given permission and recorded, or, for lack of a page for the table, the
    call returns -E_NO_MEM and no record changes.  Three things are not as the
    code's comment has them.  If nothing is mapped at [srcva] the code reads through
    an uninitialised pointer, which is undefined, in place of -E_INVAL.  Of the
    permission only the low three bits are tested, and only against the page's: one
    without PTE_U or PTE_P, or with bits outside PTE_SYSCALL, is accepted, where the
    comment promises -E_INVAL.  And a delivery without a page leaves the receiver's
    env_ipc_perm as it was, where the comment says 0. *)
Theorem sys_ipc_try_send_delivers s l c cv r rv sd rd envid value srcva perm :
  pages_wf s l -> pgdir_wf s l sd -> pgdir_wf s l rd -> cpu_ok s ->
  cur s = Some c -> envs s !! c = Some cv -> env_pgdir cv = KERNBASE + sd ->
  envs s !! r = Some rv -> env_pgdir rv = KERNBASE + rd ->
  0 <= srcva < 0x100000000 -> 0 <= perm < 4096 -> 0 <= env_ipc_dstva rv ->
  entry_ok s sd srcva -> old_ok s l sd srcva ->
  (env_ipc_dstva rv < UTOP -> old_ok s l rd (env_ipc_dstva rv)) ->
  envid2env envid false s = Ok (0, Some r) s ->
  let call := sys_ipc_try_send envid value srcva perm in
  let delivered v := ipc_deliver (env_id cv) value v in
  if negb (env_ipc_recving rv) then call s = Ok (- E_IPC_NOT_RECV) s
  else if UTOP <=? srcva then call s = Ok 0 (sent s r (delivered rv))
  else if negb (srcva mod PGSIZE =? 0) then call s = Ok (- E_INVAL) s
  else match mapping (mem s) sd srcva with
  | None => call s = Undef
  | Some w =>
      if negb (Z.land (Z.land w perm) 7 =? Z.land perm 7) then call s = Ok (- E_INVAL) s
      else if UTOP <=? env_ipc_dstva rv then call s = Ok 0 (sent s r (delivered rv))
      else if bool_decide (present (pde (mem s) rd (env_ipc_dstva rv)) = true \/ l <> [])
      then exists s' l', call s = Ok 0 s' /\ pages_wf s' l' /\ pgdir_wf s' l' rd /\
        maps_only s s' rd (env_ipc_dstva rv) (PTE_ADDR w / 4096) perm /\
        envs s' = <[r := delivered (set_env_ipc_perm perm rv)]> (envs s)
      else exists s', call s = Ok (- E_NO_MEM) s' /\ mem s' = mem s /\ envs s' = envs s
  end.
Proof.
  intros Hw Hsd Hrd Hcpu Hc Hcv Hsp Hrv Hrp Hsva Hperm Hdva Hent Hsrc Hdst Eid call delivered.
  assert (call s = (if negb (env_ipc_recving rv) then mret (- E_IPC_NOT_RECV)
    else ret ← (if srcva <? UTOP then ipc_send_page r srcva perm else mret 0);
      if negb (ret =? 0) then mret ret
      else c ← curenv_ptr; cv ← get_env c; _ ← upd_env r (ipc_deliver (env_id cv) value); mret 0) s) as Ecall.
  { unfold call, sys_ipc_try_send. rewrite (with_env_ok _ _ _ _ _ Eid). by kstep (get_env_run s r rv Hrv). }
  destruct (env_ipc_recving rv) eqn:Erecv; cbn [negb] in *; [|done].
  destruct (UTOP <=? srcva) eqn:Eu; bcomp.
  { rewrite Ecall, (proj2 (Z.ltb_ge _ _)) by lia. ksteps. by apply (ipc_deliver_run s c cv r rv value). }
  rewrite (proj2 (Z.ltb_lt _ _)) in Ecall by lia.
  pose proof (ipc_send_lookup s l c cv sd r srcva perm Hw Hsd Hc Hcv Hsp Hsva Hent Hsrc) as E.
  destruct (srcva mod PGSIZE =? 0) eqn:Ea; cbn [negb] in *; [|rewrite Ecall; by kstep E].
  destruct (mapping (mem s) sd srcva) as [w|] eqn:Em; [|rewrite Ecall; unfold mbind, K_bind; by rewrite E].
  destruct (Z.land (Z.land w perm) 7 =? Z.land perm 7) eqn:E7; cbn [negb] in *; [|rewrite Ecall; by kstep E].
  rewrite (bind_ok _ _ _ _ _ (get_env_run s r rv Hrv)) in E. bcomp.
  destruct (UTOP <=? env_ipc_dstva rv) eqn:Ed; bcomp.
  { rewrite Ecall. rewrite (proj2 (Z.ltb_ge _ _)) in E by lia. kstep E.
    by apply (ipc_deliver_run s c cv r rv value). }
  rewrite (proj2 (Z.ltb_lt _ _)), Hrp in E by lia.
  case_bool_decide as Hcase.
  - destruct (ipc_send_mapped s l c cv r rv sd rd envid value srcva perm w) as (s1 & l' & E1 & Hi);
      try done; [lia|by apply Hdst|].
    pose proof (same_else_envs _ _ (is_same _ _ _ _ _ _ _ _ Hi)) as Ee.
    exists (sent s1 r (ipc_deliver (env_id cv) value (set_env_ipc_perm perm rv))), l'. split; [exact E1|].
    split; [|split; [|split]].
    + eapply pages_wf_ext; [apply (is_pages _ _ _ _ _ _ _ _ Hi)|done..].
    + eapply pgdir_wf_mono; [apply (is_dir _ _ _ _ _ _ _ _ Hi)|done|done|by left].
    + exact (is_map _ _ _ _ _ _ _ _ Hi).
    + simpl. by rewrite Ee.
  - assert (present (pde (mem s) rd (env_ipc_dstva rv)) = false /\ l = []) as [Hp ->].
    { split; [apply not_true_iff_false; tauto|]. destruct l; [done|]. destruct Hcase. by right. }
    rewrite (bind_ok _ _ _ _ _ (page_insert_nomem s rd _ _ perm Hw Hrd Hp)) in E.
    change (negb (- E_NO_MEM =? 0)) with true in E. cbv iota in E. rewrite Ecall. kstep E. by eauto.
Qed.

(** A change of a record that keeps its id and directory and does not make it
    runnable. *)
Lemma sched_wf_upd s e v w :
  sched_wf s -> envs s !! e = Some v -> env_id w = env_id v ->
  env_status w = ENV_NOT_RUNNABLE -> sched_wf (set_envs (<[e := w]> (envs s)) s).
Proof.
  intros Hw Hv Hid Hst. split; simpl; try apply Hw.
  - intros j Hj. rewrite lookup_insert_is_Some'. right. by apply (sw_envs _ Hw).
  - intros o Ho. destruct (sw_cur _ Hw o Ho) as (Hr & u & Hu & Hx). split; [done|].
    destruct (decide (e = o)) as [->|Hne].
    + exists w. rewrite lookup_insert_eq. split; [done|]. simplify_eq. by rewrite Hid.
    + exists u. by rewrite lookup_insert_ne.
  - intros j u Hu Hs. destruct (decide (e = j)) as [->|Hne].
    + rewrite lookup_insert_eq in Hu. simplify_eq. rewrite Hst in Hs. by destruct Hs.
    + rewrite lookup_insert_ne in Hu by done. by apply (sw_live _ Hw).
Qed.

(** When the current environment is not runnable, sched_yield leaves for another
    environment, halts or enters the monitor, and keeps its record. *)
Lemma sched_yield_away s c w :
  sched_wf s -> cur s = Some c -> envs s !! c = Some w -> env_status w = ENV_NOT_RUNNABLE ->
  exists ex s', sched_yield s = Leave ex s' /\ envs s' !! c = Some w /\
    (forall tf, ex <> ToUser c tf).
Proof.
  intros Hw Hc Hv Hst. pose proof (sched_yield_run s Hw) as Hy. rewrite Hc in Hy.
  assert (has_status s c ENV_RUNNING = false) as Er.
  { unfold has_status. rewrite Hv, Hst. done. }
  rewrite Er in Hy. destruct (pick s _ _ _) as [j|].
  - destruct Hy as (v & s' & Hj & Hs & E & He). exists (ToUser j (env_tf v)), s'.
    assert (j <> c) by congruence. split; [done|]. split; [|congruence].
    rewrite (en_envs _ _ _ He). unfold after_run. rewrite lookup_alter_ne, Hc by done.
    rewrite lookup_alter_eq, Hv. simpl. unfold demote. by rewrite Hst.
  - destruct (alive s).
    + destruct Hy as (s' & E & Hh). exists CpuHalt, s'. by rewrite (hl_envs _ _ Hh).
    + destruct Hy as (s' & E & He). exists InMonitor, s'. by rewrite He.
Qed.

(** sys_ipc_recv blocks the caller.  An unaligned address below UTOP gives
    -E_INVAL.  Otherwise the call does not return: the caller's record says that
    it waits for a message, with the address for a page, and is not runnable, and
    the CPU goes to another environment, halts, or enters the monitor, but does
    not go back to the caller. *)
Theorem sys_ipc_recv_blocks s c v dstva :
  sched_wf s -> cur s = Some c -> envs s !! c = Some v -> 0 <= dstva < 0x100000000 ->
  if (dstva <? UTOP) && negb (dstva mod PGSIZE =? 0)
  then sys_ipc_recv dstva s = Ok (- E_INVAL) s
  else exists ex s', sys_ipc_recv dstva s = Leave ex s' /\
    envs s' !! c = Some (set_env_ipc_dstva dstva
                           (set_env_status ENV_NOT_RUNNABLE (set_env_ipc_recving true v))) /\
    (forall tf, ex <> ToUser c tf).
Proof.
  intros Hw Hc Hv Hd. unfold sys_ipc_recv.
  rewrite aligned_test by done.
  destruct (_ && _); [done|]. kstep (curenv_ptr_run s c Hc).
  set (w := set_env_ipc_dstva _ _).
  kstep (upd_env_run s c v (fun v => set_env_ipc_dstva dstva
    (set_env_status ENV_NOT_RUNNABLE (set_env_ipc_recving true v))) Hv). fold w.
  set (s1 := set_envs (<[c := w]> (envs s)) s).
  destruct (sched_yield_away s1 c w) as (ex & s' & E & He & Hne).
  - by apply (sched_wf_upd s c v).
  - done.
  - simpl. by rewrite lookup_insert_eq.
  - done.
  - exists ex, s'. split; [|done]. unfold sys_yield, mbind, K_bind. by rewrite E.
Qed.

(** C26: The dispatcher drops results and routes five calls.  It consumes the
    character that sys_cgetc reads and returns 0 in its place, returns 0 instead
    of the caller's id for sys_getenvid, returns 0 for an environment that
    sys_env_destroy refuses, and answers -E_INVAL, without calling the handler,
    to the eight calls of lab 4 that have handlers: page_alloc, page_map,
    page_unmap, exofork, env_set_status, env_set_pgfault_upcall, ipc_try_send and
    ipc_recv. *)
Theorem syscall_drops fuel s c v a1 a2 a3 a4 a5 :
  cur s = Some c -> envs s !! c = Some v ->
  syscall fuel SYS_getenvid a1 a2 a3 a4 a5 s = Ok 0 s /\
  (forall ch r, input s = ch :: r ->
     syscall fuel SYS_cgetc a1 a2 a3 a4 a5 s = Ok 0 (set_input r s)) /\
  (forall x, envid2env (s32 a1) true s = Ok (- E_BAD_ENV, x) s ->
     syscall fuel SYS_env_destroy a1 a2 a3 a4 a5 s = Ok 0 s) /\
  (forall n, n ∈ [SYS_page_alloc; SYS_page_map; SYS_page_unmap; SYS_exofork; SYS_env_set_status;
                  SYS_env_set_pgfault_upcall; SYS_ipc_try_send; SYS_ipc_recv] ->
     syscall fuel n a1 a2 a3 a4 a5 s = Ok (- E_INVAL) s).
Proof.
  intros Hc Hv. split; [|split; [|split]].
  - unfold syscall. simpl. unfold sys_getenvid. ksteps. kstep (curenv_ptr_run s c Hc).
    ksteps. by kstep (get_env_run s c v Hv).
  - intros ch r Hi. unfold syscall, sys_cgetc, cons_getc. simpl. ksteps. rewrite Hi. by ksteps.
  - intros x E. unfold syscall. simpl.
    assert (sys_env_destroy (s32 a1) s = Ok (- E_BAD_ENV) s) as E'
      by (by apply (with_env_err s (s32 a1) true (- E_BAD_ENV) x)).
    by kstep E'.
  - intros n Hn. rewrite !elem_of_cons, elem_of_nil in Hn.
    repeat (destruct Hn as [->|Hn]; [reflexivity|]). done.
Qed.

(** ** Examples *)

Lemma run_state_wf : pages_wf run_state [5; 4] /\ pgdir_wf run_state [5; 4] 0 /\ cpu_ok run_state.
Proof.
  split; [|split].
  - eapply pages_wf_ext; [exact (proj1 env_state_wf)|reflexivity..].
  - eapply pgdir_wf_mono; [exact (proj2 env_state_wf)|reflexivity|done|by left].
  - exists (mkCpuInfo 0 CPU_STARTED (Some 0) 0 0). split; [reflexivity|].
    eexists. reflexivity.
Qed.

Lemma run_old va : mapping (mem run_state) 0 va = None -> old_ok run_state [5; 4] 0 va.
Proof. intros E e He. rewrite E in He. discriminate He. Qed.

Lemma run_src : old_ok run_state [5; 4] 0 0x800000.
Proof.
  intros e He. assert (mapping (mem run_state) 0 0x800000 = Some 0x3007) as E
    by (vm_compute; reflexivity).
  rewrite E in He. injection He as <-. change (PTE_ADDR 0x3007 / 4096) with 3.
  split; [reflexivity|]. split; [exact demo_used|]. split.
  - intros Ht. apply mapped_not_table. exact Ht.
  - vm_compute. split; congruence.
Qed.

Lemma sys_page_alloc_maps_witness :
  exists s' l', sys_page_alloc 0x1000 0x801000 7 run_state = Ok 0 s' /\ pages_wf s' l' /\
    mapping (mem s') 0 0x801000 = Some 0x5007 /\ load8 (mem s') 0x5abc = 0.
Proof.
  destruct run_state_wf as (Hw & Hd & Hc).
  destruct (sys_page_alloc_maps run_state [5; 4] 0 0 run_env 0x1000 0x801000 7 Hw Hd Hc eq_refl
    eq_refl ltac:(lia) ltac:(lia)
    ltac:(intros _; apply run_old; vm_compute; reflexivity)) as [_ H].
  assert (bool_decide (present (pde (mem run_state) 0 0x801000) = true \/ [4] <> []) = true) as E
    by (apply bool_decide_eq_true_2; right; discriminate).
  specialize (H eq_refl).
  change ((UTOP <=? 0x801000) || negb (0x801000 mod PGSIZE =? 0) || bad_perm 7) with false in H.
  cbv iota in H. rewrite E in H. destruct H as (s' & l' & Er & Hw' & _ & _ & Hm & _ & Hz & _).
  exists s', l'. split; [exact Er|]. split; [exact Hw'|]. split.
  - rewrite (Hm 0x801000 ltac:(vm_compute; congruence)). reflexivity.
  - apply Hz. reflexivity.
Defined.

Lemma sys_page_map_shares_witness :
  exists s', sys_page_map 0x1000 0x800000 0 0x801000 5 run_state = Ok 0 s' /\
    mapping (mem s') 0 0x801000 = Some 0x3005 /\ ref_of s' 3 = 2.
Proof.
  destruct run_state_wf as (Hw & Hd & Hc).
  destruct (sys_page_map_shares run_state [5; 4] 0 0 0 0 run_env run_env 0x1000 0x800000 0 0x801000
    5 Hw Hd Hd Hc eq_refl eq_refl eq_refl eq_refl ltac:(lia) ltac:(lia) ltac:(lia)
    ltac:(intros _; vm_compute; reflexivity) run_src
    ltac:(intros _; apply run_old; vm_compute; reflexivity)) as (_ & _ & H).
  specialize (H eq_refl eq_refl).
  change (((UTOP <=? 0x800000) || negb (0x800000 mod PGSIZE =? 0))
    || ((UTOP <=? 0x801000) || negb (0x801000 mod PGSIZE =? 0))) with false in H.
  assert (mapping (mem run_state) 0 0x800000 = Some 0x3007) as E by (vm_compute; reflexivity).
  rewrite E in H. cbv iota zeta in H. change (may_share 0x3007 5) with true in H.
  change (PTE_ADDR 0x3007 / 4096) with 3 in H. cbn [negb] in H.
  assert (bool_decide (present (pde (mem run_state) 0 0x801000) = true \/ [5; 4] <> []) = true) as E'
    by (apply bool_decide_eq_true_2; right; discriminate).
  rewrite E' in H. destruct H as (s' & l' & Er & _ & _ & _ & Hm & Href & _).
  exists s'. split; [exact Er|]. split.
  - rewrite (Hm 0x801000 ltac:(vm_compute; congruence)). reflexivity.
  - rewrite Href. vm_compute. reflexivity.
Defined.

(** Environment 0 sends to environment 1, which waits for a page at 0x801000. *)
Definition recv_env : Env :=
  set_env_ipc_recving true (set_env_ipc_dstva 0x801000 (set_env_id 0x1001
    (set_env_status ENV_NOT_RUNNABLE run_env))).
Definition recv_state : kstate := set_envs {[ 0 := run_env; 1 := recv_env ]} run_state.

Lemma sys_ipc_try_send_delivers_witness :
  exists s', sys_ipc_try_send 0x1001 42 0x800000 7 recv_state = Ok 0 s' /\
    envs s' !! 1 = Some (ipc_deliver 0x1000 42 (set_env_ipc_perm 7 recv_env)) /\
    mapping (mem s') 0 0x801000 = Some 0x3007.
Proof.
  destruct run_state_wf as (Hw & Hd & _).
  assert (pages_wf recv_state [5; 4]) as Hw' by (eapply pages_wf_ext; [exact Hw|reflexivity..]).
  assert (pgdir_wf recv_state [5; 4] 0) as Hd'
    by (eapply pgdir_wf_mono; [exact Hd|reflexivity|done|by left]).
  assert (cpu_ok recv_state) as Hc'
    by (exists (mkCpuInfo 0 CPU_STARTED (Some 0) 0 0); split; [reflexivity|eexists; reflexivity]).
  pose proof (sys_ipc_try_send_delivers recv_state [5; 4] 0 run_env 1 recv_env 0 0 0x1001 42 0x800000 7
    Hw' Hd' Hd' Hc' eq_refl eq_refl eq_refl eq_refl eq_refl ltac:(lia) ltac:(lia)
    ltac:(vm_compute; congruence) ltac:(intros _; vm_compute; reflexivity) run_src
    ltac:(intros _; apply run_old; vm_compute; reflexivity) eq_refl) as H.
  cbv zeta in H. change (negb (env_ipc_recving recv_env)) with false in H.
  change (UTOP <=? 0x800000) with false in H. change (0x800000 mod PGSIZE =? 0) with true in H.
  cbn [negb] in H.
  assert (mapping (mem recv_state) 0 0x800000 = Some 0x3007) as E by (vm_compute; reflexivity).
  rewrite E in H. change (Z.land (Z.land 0x3007 7) 7 =? Z.land 7 7) with true in H.
  change (UTOP <=? env_ipc_dstva recv_env) with false in H. cbn [negb] in H. cbv iota in H.
  assert (bool_decide (present (pde (mem recv_state) 0 (env_ipc_dstva recv_env)) = true
    \/ [5; 4] <> []) = true) as E' by (apply bool_decide_eq_true_2; right; discriminate).
  rewrite E' in H. destruct H as (s' & l' & Er & _ & _ & Hm & He).
  exists s'. split; [exact Er|]. split.
  - rewrite He. apply lookup_insert_eq.
  - rewrite (Hm 0x801000 ltac:(vm_compute; congruence)). reflexivity.
Defined.

Lemma sys_ipc_recv_blocks_witness :
  exists ex s', sys_ipc_recv 0x801000 idle_state = Leave ex s' /\ (forall tf, ex <> ToUser 0 tf).
Proof.
  assert (envs idle_state !! 0 = Some run_env) as Hv.
  { change (envs idle_state) with (envs_all idle_env). rewrite lookup_envs_all.
    rewrite decide_True by (change NENV with 1024; lia). reflexivity. }
  destruct (sys_ipc_recv_blocks idle_state 0 run_env 0x801000 idle_wf eq_refl Hv ltac:(lia))
    as (ex & s' & E & _ & Hne).
  exists ex, s'. split; [exact E|exact Hne].
Defined.

Lemma syscall_drops_witness :
  syscall 0 SYS_getenvid 0 0 0 0 0 run_state = Ok 0 run_state /\
  syscall 0 SYS_page_alloc 0 0x801000 7 0 0 run_state = Ok (- E_INVAL) run_state.
Proof.
  split.
  - apply (syscall_drops 0 run_state 0 run_env 0 0 0 0 0); reflexivity.
  - apply (syscall_drops 0 run_state 0 run_env 0 0x801000 7 0 0); [reflexivity..|constructor].
Defined.

(** sys_page_alloc and page_insert do not confine the permission to its twelve
    bits.  The caller owns page 3, which it maps writable at 0x800000; the table of
    that region is page 1.  Asked for permission 0x3007 at 0x801000, the call
    returns 0 and the bits above the flags go into the directory entry, which now
    names page 3: the caller's own data page has become the page table of the
    region, writable by the caller. *)
Theorem sys_page_alloc_table_escape :
  mmu (mem run_state) 0 0x800000 true true = Some (3 * PGSIZE) /\
  PTE_ADDR (pde (mem run_state) 0 0x801000) = 1 * PGSIZE /\
  match sys_page_alloc 0x1000 0x801000 0x3007 run_state with
  | Ok r s' => r = 0 /\ PTE_ADDR (pde (mem s') 0 0x801000) = 3 * PGSIZE /\
                Z.land (pde (mem s') 0 0x801000) 7 = 7
  | _ => False
  end.
Proof. split; [vm_compute; reflexivity|]. split; [reflexivity|]. vm_compute. auto. Qed.
