(* ===== verification/Keeps.v ===== *)
(** * Keeps: what an operation that returns leaves as it was

    [returns_in R m]: whenever [m] returns, the states before and after are related
    by [R]; for a preorder this composes along the steps of [m].  The relation used
    is [kept e]: the running environment, the CPU and the holder of the kernel lock
    are the same, and so is every record but that of [e].  The system calls are
    walked through with it. *)

From S2P Require Import Prelude Layout Memory CString Printfmt Kernel PageAlloc PageTable Env Sched Syscall.

Definition returns_in {A} (R : kstate -> kstate -> Prop) (m : K A) : Prop :=
  forall s a s', m s = Ok a s' -> R s s'.

(** [m] never returns to its caller. *)
Definition no_return {A} (m : K A) : Prop := forall s a s', m s <> Ok a s'.

(** A run that returned, and its first step. *)
Lemma bind_returned {A B} (m : K A) (f : A -> K B) s b s' :
  (m ≫= f) s = Ok b s' -> exists a s1, m s = Ok a s1 /\ f a s1 = Ok b s'.
Proof. unfold mbind, K_bind. destruct (m s) as [a s1| |]; intros H; [eauto|done..]. Qed.

Lemma no_return_bind_r {A B} (m : K A) (f : A -> K B) : (forall a, no_return (f a)) -> no_return (m ≫= f).
Proof. intros H s b s' E. apply bind_returned in E as (a & s1 & _ & E). by apply H in E. Qed.
Lemma no_return_bind_l {A B} (m : K A) (f : A -> K B) : no_return m -> no_return (m ≫= f).
Proof. intros H s b s' E. apply bind_returned in E as (a & s1 & E & _). by apply H in E. Qed.
Lemma no_return_leave {A} ex : no_return (leave ex : K A).
Proof. done. Qed.
Lemma no_return_panic {A} msg : no_return (panic msg : K A).
Proof. intros s a s'. unfold panic. by destruct (panicstr s). Qed.

(** sched_yield does not come back. *)
Lemma env_run_no_return e : no_return (env_run e).
Proof. unfold env_run, env_pop_tf. repeat (apply no_return_bind_r; intros ?). apply no_return_leave. Qed.
Lemma sched_halt_no_return : no_return sched_halt.
Proof.
  unfold sched_halt. apply no_return_bind_r. intros b.
  destruct (negb b); repeat (apply no_return_bind_r; intros ?); apply no_return_leave.
Qed.
Lemma sched_yield_no_return : no_return sched_yield.
Proof. unfold sched_yield. do 5 (apply no_return_bind_r; intros ?). apply sched_halt_no_return. Qed.

(** ** Steps *)

Section Returns.
Context (R : kstate -> kstate -> Prop) `{!PreOrder R}.

Lemma returns_bind {A B} (m : K A) (f : A -> K B) :
  returns_in R m -> (forall a, returns_in R (f a)) -> returns_in R (m ≫= f).
Proof.
  intros Hm Hf s b s' E. apply bind_returned in E as (a & s1 & E1 & E2).
  etrans; [by apply (Hm s a)|by apply (Hf a s1 b)].
Qed.
Lemma returns_ret {A} (a : A) : returns_in R (mret a).
Proof. intros s b s' [= _ <-]. done. Qed.
Lemma returns_get {A} (f : kstate -> A) : returns_in R (get f).
Proof. intros s b s' [= _ <-]. done. Qed.
Lemma returns_never {A} (m : K A) : no_return m -> returns_in R m.
Proof. intros H s a s' E. by apply H in E. Qed.
Lemma returns_undefined {A} : returns_in R (undefined : K A).
Proof. done. Qed.
Lemma returns_leave {A} ex : returns_in R (leave ex : K A).
Proof. done. Qed.
Lemma returns_panic {A} msg : returns_in R (panic msg : K A).
Proof. apply returns_never, no_return_panic. Qed.
Lemma returns_kwhen b m : returns_in R m -> returns_in R (kwhen b m).
Proof. intros H. destruct b; [done|apply returns_ret]. Qed.
Lemma returns_kfor n i body : (forall j, returns_in R (body j)) -> returns_in R (kfor n i body).
Proof.
  intros H. revert i. induction n as [|n IH]; intros i; [apply returns_ret|].
  apply returns_bind; [apply H|]. intros _. apply IH.
Qed.
Lemma returns_modify f : (forall s, R s (f s)) -> returns_in R (modify f).
Proof. intros H s a s' [= _ <-]. apply H. Qed.
(** An operation that only looks. *)
Lemma returns_pure {A} (m : K A) : (forall s a s', m s = Ok a s' -> s' = s) -> returns_in R m.
Proof. intros H s a s' E. apply H in E. by subst. Qed.
End Returns.

Create HintDb returns.

(** Break an operation into its steps. *)
Ltac returns_step :=
  match goal with
  | |- returns_in _ (_ ≫= _) => apply returns_bind; [apply _| |intros]
  | |- returns_in _ (kwhen _ _) => apply returns_kwhen; [apply _|]
  | |- returns_in _ (kfor _ _ _) => apply returns_kfor; [apply _|intros]
  | |- returns_in _ (mret _) => apply returns_ret; apply _
  | |- returns_in _ (get _) => apply returns_get; apply _
  | |- returns_in _ undefined => apply returns_undefined
  | |- returns_in _ (leave _) => apply returns_leave
  | |- returns_in _ (panic _) => apply returns_panic; apply _
  | |- returns_in _ (if ?b then _ else _) => destruct b
  | |- returns_in _ (match ?x with _ => _ end) => destruct x
  | |- returns_in _ (let '_ := ?x in _) => destruct x
  | |- returns_in _ _ => solve [eauto with returns]
  | |- returns_in _ _ => progress cbv zeta
  end.
Ltac returns_tac := repeat returns_step.

(** ** What is kept *)

Record kept (e : Z) (s s' : kstate) : Prop := {
  kp_cur : cur s' = cur s;
  kp_cpunum : cpunum s' = cpunum s;
  kp_lock : kernel_lock s' = kernel_lock s;
  kp_envs : forall j, j <> e -> envs s' !! j = envs s !! j;
}.

#[export] Instance kept_preorder e : PreOrder (kept e).
Proof.
  split; [by intros s|]. intros s1 s2 s3 [H1 H2 H3 H4] [G1 G2 G3 G4].
  split; [congruence..|]. intros j Hj. by rewrite G4, H4.
Qed.

Lemma kept_modify e f :
  (forall s, cpus (f s) = cpus s /\ cpunum (f s) = cpunum s /\ kernel_lock (f s) = kernel_lock s /\
     envs (f s) = envs s) -> returns_in (kept e) (modify f).
Proof.
  intros H. apply returns_modify. intros s. destruct (H s) as (H1 & H2 & H3 & H4).
  split; [unfold cur; by rewrite H1, H2|done|done|]. intros j _. by rewrite H4.
Qed.

(** A look at the state, and a store to memory. *)
Lemma kept_guard {A} e (b : kstate -> bool) (f : kstate -> A) :
  returns_in (kept e) (fun s => if b s then Undef else Ok (f s) s).
Proof. apply returns_pure; [apply _|]. intros s a s'. destruct (b s); [done|]. by intros [= _ <-]. Qed.
Lemma kept_store e (b : bool) (g : kstate -> memory) :
  returns_in (kept e) (fun s => if b then Undef else Ok tt (set_mem (g s) s)).
Proof. intros s a s'. destruct b; [done|]. by intros [= _ <-]. Qed.

#[local] Ltac keeps_modify := apply kept_modify; by intros s.

Lemma kept_get_page e p : returns_in (kept e) (get_page p).
Proof. apply returns_pure; [apply _|]. intros s a s'. unfold get_page. destruct (_ !! _); by intros [= _ <-]. Qed.
Lemma kept_get_env e i : returns_in (kept e) (get_env i).
Proof. apply returns_pure; [apply _|]. intros s a s'. unfold get_env. destruct (_ !! _); by intros [= _ <-]. Qed.
Lemma kept_thiscpu e : returns_in (kept e) thiscpu.
Proof. apply returns_pure; [apply _|]. intros s a s'. unfold thiscpu. destruct (_ !! _); by intros [= _ <-]. Qed.
Lemma kept_kload32 e a : returns_in (kept e) (kload32 a).
Proof. apply (kept_guard e (fun _ => a <? KERNBASE)). Qed.
Lemma kept_kstore32 e a v : returns_in (kept e) (kstore32 a v).
Proof. apply (kept_store e (a <? KERNBASE) (fun s => store32 (mem s) (a - KERNBASE) v)). Qed.
Lemma kept_kmemset e a c n : returns_in (kept e) (kmemset a c n).
Proof. apply (kept_store e (a <? KERNBASE) (fun s => memset (mem s) (a - KERNBASE) c n)). Qed.
Lemma kept_tell e ev : returns_in (kept e) (tell ev).
Proof. keeps_modify. Qed.
Lemma kept_put_page e p v : returns_in (kept e) (put_page p v).
Proof. keeps_modify. Qed.
Lemma kept_free_list e l : returns_in (kept e) (modify (set_page_free_list l)).
Proof. keeps_modify. Qed.
Lemma kept_env_free_list e l : returns_in (kept e) (modify (set_env_free_list l)).
Proof. keeps_modify. Qed.
Lemma kept_check_addr e a : returns_in (kept e) (modify (set_user_mem_check_addr a)).
Proof. keeps_modify. Qed.
Lemma kept_input e l : returns_in (kept e) (modify (set_input l)).
Proof. keeps_modify. Qed.
Lemma kept_set_cr3 e a : returns_in (kept e) (modify (set_cr3 a)).
Proof. keeps_modify. Qed.
#[export] Hint Resolve kept_get_page kept_get_env kept_thiscpu kept_kload32 kept_kstore32 kept_kmemset
  kept_tell kept_put_page kept_free_list kept_env_free_list kept_check_addr kept_input kept_set_cr3 : returns.

(** The record of [e] itself. *)
Lemma kept_upd_env e f : returns_in (kept e) (upd_env e f).
Proof.
  unfold upd_env. apply returns_bind; [apply _|apply kept_get_env|]. intros v. apply returns_modify.
  intros s. split; [done..|]. intros j Hj. cbn. by rewrite lookup_insert_ne.
Qed.
#[export] Hint Resolve kept_upd_env : returns.

(** ** The kernel's operations *)

(** Unfold an operation and walk through its steps. *)
#[local] Ltac keeps x := unfold x; returns_tac.

Lemma kept_vload8 e va : returns_in (kept e) (vload8 va).
Proof. apply returns_pure; [apply _|]. intros s a s'. unfold vload8. destruct (mmu _ _ _ _ _); by intros [= _ <-]. Qed.
Lemma kept_lcr3 e pa : returns_in (kept e) (lcr3 pa).
Proof. apply kept_set_cr3. Qed.
Lemma kept_cprintf e f a : returns_in (kept e) (cprintf f a).
Proof. apply kept_tell. Qed.
#[export] Hint Resolve kept_vload8 kept_lcr3 kept_cprintf : returns.
Lemma kept_curenv e : returns_in (kept e) curenv.
Proof. keeps curenv. Qed.
#[export] Hint Resolve kept_curenv : returns.
Lemma kept_curenv_ptr e : returns_in (kept e) curenv_ptr.
Proof. keeps curenv_ptr. Qed.
Lemma kept_curenv_id e : returns_in (kept e) curenv_id.
Proof. keeps curenv_id. Qed.
Lemma kept_PADDR e a : returns_in (kept e) (PADDR a).
Proof. keeps PADDR. Qed.
Lemma kept_KADDR e a : returns_in (kept e) (KADDR a).
Proof. keeps KADDR. Qed.
Lemma kept_pa2page e a : returns_in (kept e) (pa2page a).
Proof. keeps pa2page. Qed.
Lemma kept_set_link e p l : returns_in (kept e) (set_link p l).
Proof. keeps set_link. Qed.
Lemma kept_set_ref e p r : returns_in (kept e) (set_ref p r).
Proof. keeps set_ref. Qed.
#[export] Hint Resolve kept_curenv_ptr kept_curenv_id kept_PADDR kept_KADDR kept_pa2page kept_set_link
  kept_set_ref : returns.
Lemma kept_page_free e p : returns_in (kept e) (page_free p).
Proof. keeps page_free. Qed.
#[export] Hint Resolve kept_page_free : returns.
Lemma kept_page_decref e p : returns_in (kept e) (page_decref p).
Proof. keeps page_decref. Qed.
Lemma kept_page_incref e p : returns_in (kept e) (page_incref p).
Proof. keeps page_incref. Qed.
Lemma kept_page_alloc e f : returns_in (kept e) (page_alloc f).
Proof. unfold page_alloc, page2kva. returns_tac. Qed.
#[export] Hint Resolve kept_page_decref kept_page_incref kept_page_alloc : returns.
Lemma kept_pgdir_walk e d va c : returns_in (kept e) (pgdir_walk d va c).
Proof. keeps pgdir_walk. Qed.
Lemma kept_tlb_invalidate e d va : returns_in (kept e) (tlb_invalidate d va).
Proof. unfold tlb_invalidate, invlpg. returns_tac. Qed.
#[export] Hint Resolve kept_pgdir_walk kept_tlb_invalidate : returns.
Lemma kept_page_lookup e d va : returns_in (kept e) (page_lookup d va).
Proof. keeps page_lookup. Qed.
#[export] Hint Resolve kept_page_lookup : returns.
Lemma kept_page_remove e d va : returns_in (kept e) (page_remove d va).
Proof. keeps page_remove. Qed.
#[export] Hint Resolve kept_page_remove : returns.
Lemma kept_env_free_table e d i : returns_in (kept e) (env_free_table d i).
Proof. keeps env_free_table. Qed.
#[export] Hint Resolve kept_env_free_table : returns.
Lemma kept_env_free e : returns_in (kept e) (env_free e).
Proof. keeps env_free. Qed.
Lemma kept_envid2env e id chk : returns_in (kept e) (envid2env id chk).
Proof. keeps envid2env. Qed.
#[export] Hint Resolve kept_env_free kept_envid2env : returns.
Lemma kept_user_mem_check_loop e n d va perm i : returns_in (kept e) (user_mem_check_loop n d va perm i).
Proof. revert i. induction n as [|n IH]; intros i; simpl; returns_tac. Qed.
#[export] Hint Resolve kept_user_mem_check_loop : returns.
Lemma kept_user_mem_check e i va len perm : returns_in (kept e) (user_mem_check i va len perm).
Proof. keeps user_mem_check. Qed.
Lemma kept_user_string e n va p : returns_in (kept e) (user_string n va p).
Proof. revert va p. induction n as [|n IH]; intros va p; simpl; returns_tac. Qed.
#[export] Hint Resolve kept_user_mem_check kept_user_string : returns.

(** env_destroy returns only when it was not the caller's own environment that it
    freed. *)
Lemma env_destroy_returned s e u s' c :
  cur s = Some c -> env_destroy e s = Ok u s' -> e <> c /\ kept e s s'.
Proof.
  intros Hc E. assert (kept e s s') as Hk.
  { revert E. assert (returns_in (kept e) (env_destroy e)) as H; [|by apply H].
    unfold env_destroy. apply returns_bind; [apply _|apply kept_get_env|]. intros v.
    apply returns_bind; [apply _|apply kept_curenv|]. intros c'. destruct (_ && _); [apply kept_upd_env|].
    apply returns_bind; [apply _|apply kept_env_free|]. intros _.
    apply returns_bind; [apply _|apply kept_curenv|]. intros c2. apply returns_kwhen; [apply _|].
    apply returns_never, no_return_bind_r. intros _. apply sched_yield_no_return. }
  split; [|done]. intros ->.
  assert (forall t, cur t = Some c -> curenv t = Ok (Some c) t) as Hcur.
  { intros t Ht. unfold curenv, thiscpu, mbind, K_bind. unfold cur in Ht.
    destruct (cpus t !! cpunum t) as [i|]; [|done]. simpl in Ht. by rewrite Ht. }
  unfold env_destroy in E. apply bind_returned in E as (v & s1 & E1 & E).
  pose proof (kept_get_env c c s v s1 E1) as K1. assert (cur s1 = Some c) as H1 by (by rewrite (kp_cur _ _ _ K1)).
  rewrite (bind_ok _ _ _ _ _ (Hcur s1 H1)) in E.
  rewrite (bool_decide_eq_true_2 (Some c = Some c)), andb_false_r in E by done.
  apply bind_returned in E as (u1 & s2 & E2 & E).
  pose proof (kept_env_free c s1 u1 s2 E2) as K2. assert (cur s2 = Some c) as H2 by (by rewrite (kp_cur _ _ _ K2)).
  rewrite (bind_ok _ _ _ _ _ (Hcur s2 H2)) in E. rewrite bool_decide_eq_true_2 in E by done. cbn [kwhen] in E.
  apply bind_returned in E as (u2 & s3 & _ & E). by apply sched_yield_no_return in E.
Qed.

Lemma curenv_ptr_returned s c e s' : cur s = Some c -> curenv_ptr s = Ok e s' -> e = c /\ s' = s.
Proof. intros Hc E. rewrite (curenv_ptr_run s c Hc) in E. by injection E. Qed.

(** A check that fails does not come back to its environment. *)
Lemma user_mem_assert_returned s c va len perm u s' e :
  cur s = Some c -> user_mem_assert c va len perm s = Ok u s' -> kept e s s'.
Proof.
  intros Hc E. unfold user_mem_assert in E. apply bind_returned in E as (r & s1 & E1 & E).
  pose proof (kept_user_mem_check e c va len _ s r s1 E1) as K1. destruct (r <? 0); cbn [kwhen] in E.
  - apply bind_returned in E as (v & s2 & E2 & E). pose proof (kept_get_env e c s1 v s2 E2) as K2.
    apply bind_returned in E as (a & s3 & E3 & E). injection E3 as <- <-.
    apply bind_returned in E as (u1 & s4 & E4 & E). pose proof (kept_cprintf e _ _ _ _ _ E4) as K4.
    assert (cur s4 = Some c) as H4
      by (by rewrite (kp_cur _ _ _ K4), (kp_cur _ _ _ K2), (kp_cur _ _ _ K1)).
    by destruct (env_destroy_returned s4 c u s' c H4 E).
  - injection E as _ <-. done.
Qed.

Lemma sys_cputs_returned fuel s c va len u s' e :
  cur s = Some c -> sys_cputs fuel va len s = Ok u s' -> kept e s s'.
Proof.
  intros Hc E. unfold sys_cputs in E. apply bind_returned in E as (c1 & s1 & E1 & E).
  apply (curenv_ptr_returned s c) in E1 as [-> ->]; [|done].
  apply bind_returned in E as (v & s2 & E2 & E). pose proof (kept_get_env e c s v s2 E2) as K2.
  assert (cur s2 = Some c) as H2 by (by rewrite (kp_cur _ _ _ K2)).
  apply bind_returned in E as (u3 & s3 & E3 & E).
  assert (kept e s2 s3) as K3.
  { destruct (ctrue _); [by apply (user_mem_assert_returned s2 c va len 0 u3)|]. by injection E3 as _ <-. }
  etrans; [exact K2|]. etrans; [exact K3|]. revert E.
  match goal with |- ?m s3 = _ -> _ => assert (returns_in (kept e) m) as H end; [returns_tac|].
  apply H.
Qed.

Lemma sys_env_destroy_returned s c id r s' :
  cur s = Some c -> sys_env_destroy id s = Ok r s' -> exists e, e <> c /\ kept e s s'.
Proof.
  intros Hc E. unfold sys_env_destroy, with_env in E.
  apply bind_returned in E as ([ret e] & s1 & E1 & E).
  destruct (negb (ret =? 0)).
  { injection E as _ <-. exists (c + 1). split; [lia|]. exact (kept_envid2env _ _ _ _ _ _ E1). }
  destruct e as [e|]; [|done]. pose proof (kept_envid2env e _ _ _ _ _ E1) as K1.
  apply bind_returned in E as (c1 & s2 & E2 & E). pose proof (kept_curenv_ptr e _ _ _ E2) as K2.
  apply bind_returned in E as (cv & s3 & E3 & E). pose proof (kept_get_env e _ _ _ _ E3) as K3.
  apply bind_returned in E as (v & s4 & E4 & E). pose proof (kept_get_env e _ _ _ _ E4) as K4.
  apply bind_returned in E as (u5 & s5 & E5 & E).
  assert (kept e s4 s5) as K5 by (destruct (e =? c1); exact (kept_cprintf e _ _ _ _ _ E5)).
  assert (kept e s s5) as K by (etrans; [exact K1|]; etrans; [exact K2|]; etrans; [exact K3|]; by etrans).
  apply bind_returned in E as (u6 & s6 & E6 & E). injection E as _ <-.
  destruct (env_destroy_returned s5 e u6 s6 c) as [Hne K6]; [by rewrite (kp_cur _ _ _ K)|done|].
  exists e. split; [done|]. by etrans.
Qed.

(** A system call that returns leaves the caller's record as it was, and all but one
    of the others; its result is 0, or -E_INVAL where the dispatcher has no case. *)
Lemma syscall_returned fuel n a1 a2 a3 a4 a5 s r s' c :
  cur s = Some c -> syscall fuel n a1 a2 a3 a4 a5 s = Ok r s' ->
  (exists e, e <> c /\ kept e s s') /\
  r = if bool_decide (n ∈ [SYS_cgetc; SYS_cputs; SYS_getenvid; SYS_env_destroy; SYS_yield; NSYSCALLS])
      then 0 else - E_INVAL.
Proof.
  intros Hc E. unfold syscall in E.
  destruct (Z.eqb_spec n SYS_cgetc) as [->|N1].
  { apply bind_returned in E as (x & s1 & E1 & E). injection E as <- <-. split; [|done].
    exists (c + 1). split; [lia|]. revert E1. unfold sys_cgetc, cons_getc.
    match goal with |- ?m s = _ -> _ => assert (returns_in (kept (c + 1)) m) as H end; [returns_tac|]. apply H. }
  destruct (Z.eqb_spec n SYS_cputs) as [->|N2].
  { apply bind_returned in E as (x & s1 & E1 & E). injection E as <- <-. split; [|done].
    exists (c + 1). split; [lia|]. by apply (sys_cputs_returned fuel s c a1 a2 x). }
  destruct (Z.eqb_spec n SYS_getenvid) as [->|N3].
  { apply bind_returned in E as (x & s1 & E1 & E). injection E as <- <-. split; [|done].
    exists (c + 1). split; [lia|]. revert E1. unfold sys_getenvid.
    match goal with |- ?m s = _ -> _ => assert (returns_in (kept (c + 1)) m) as H end; [returns_tac|]. apply H. }
  destruct (Z.eqb_spec n SYS_env_destroy) as [->|N4].
  { apply bind_returned in E as (x & s1 & E1 & E). injection E as <- <-. split; [|done].
    by apply (sys_env_destroy_returned s c (s32 a1) x). }
  destruct (Z.eqb_spec n SYS_yield) as [->|N5].
  { apply bind_returned in E as (x & s1 & E1 & E). by apply sched_yield_no_return in E1. }
  assert (exists e, e <> c /\ kept e s s) as Hk by (exists (c + 1); split; [lia|done]).
  destruct (Z.eqb_spec n NSYSCALLS) as [->|N6]; injection E as <- <-; (split; [done|]); [done|].
  rewrite bool_decide_eq_false_2; [done|]. rewrite !elem_of_cons, elem_of_nil. tauto.
Qed.

(** The calls that always return. *)
Lemma syscall_returns fuel n a1 a2 a3 a4 a5 s c v :
  cur s = Some c -> envs s !! c = Some v -> n <> SYS_cputs -> n <> SYS_env_destroy -> n <> SYS_yield ->
  exists r s', syscall fuel n a1 a2 a3 a4 a5 s = Ok r s'.
Proof.
  intros Hc Hv N2 N4 N5. unfold syscall.
  rewrite (proj2 (Z.eqb_neq n SYS_cputs)), (proj2 (Z.eqb_neq n SYS_env_destroy)),
    (proj2 (Z.eqb_neq n SYS_yield)) by done.
  destruct (n =? SYS_cgetc).
  - unfold sys_cgetc, cons_getc. ksteps. destruct (input s); ksteps; by eexists _, _.
  - destruct (n =? SYS_getenvid); [|destruct (n =? NSYSCALLS); by eexists _, _].
    unfold sys_getenvid. ksteps. kstep (curenv_ptr_run s c Hc). ksteps. kstep (get_env_run s c v Hv).
    by eexists _, _.
Qed.
