(* ===== verification/Trap.v ===== *)
(** * Trap: kern/trap.c and the return from a page fault upcall, lib/pfentry.S

    Installing the IDT and the per-CPU task state, printing a trap frame, the
    dispatch of a trap, the delivery of user page faults on the exception stack,
    and the user-mode code that returns from such a fault.  The theorems cover
    what becomes of the registers: a timer interrupt switches environments without
    losing any, a system call changes only its result register, and a page fault
    upcall that returns restores them all; and no path returns to user mode with
    the kernel locked. *)

From S2P Require Import Prelude Layout Segments Memory CString Printfmt Kernel PageAlloc PageTable Env Sched Syscall Keeps.

(** ** Printing *)

Definition excnames : list string :=
  ["Divide error"; "Debug"; "Non-Maskable Interrupt"; "Breakpoint"; "Overflow";
   "BOUND Range Exceeded"; "Invalid Opcode"; "Device Not Available"; "Double Fault";
   "Coprocessor Segment Overrun"; "Invalid TSS"; "Segment Not Present"; "Stack Fault";
   "General Protection"; "Page Fault"; "(unknown trap)"; "x87 FPU Floating-Point Error";
   "Alignment Check"; "Machine-Check"; "SIMD Floating-Point Exception"]%string.

(** [trapno < ARRAY_SIZE(excnames)] compares as unsigned. *)
Definition trapname (trapno : Z) : string :=
  match (if u32 trapno <? 20 then excnames !! Z.to_nat (u32 trapno) else None) with
  | Some name => name
  | None =>
      if trapno =? T_SYSCALL then "System call"%string
      else if (IRQ_OFFSET <=? trapno) && (trapno <? IRQ_OFFSET + 16)
      then "Hardware Interrupt"%string
      else "(unknown trap)"%string
  end.

Definition print_regs (regs : PushRegs) : K unit :=
  _ ← cprintf "  edi  0x%08x" [reg_edi regs];
  _ ← cprintf "  esi  0x%08x" [reg_esi regs];
  _ ← cprintf "  ebp  0x%08x" [reg_ebp regs];
  _ ← cprintf "  oesp 0x%08x" [reg_oesp regs];
  _ ← cprintf "  ebx  0x%08x" [reg_ebx regs];
  _ ← cprintf "  edx  0x%08x" [reg_edx regs];
  _ ← cprintf "  ecx  0x%08x" [reg_ecx regs];
  cprintf "  eax  0x%08x" [reg_eax regs].

(** A [struct Trapframe *]: a frame on the kernel stack, or [&envs[e].env_tf].  No
    code reads a stack frame after [trap] has written to it, so the model drops
    such a write. *)
Inductive tfptr :=
| TfStack (addr : Z) (tf : Trapframe)
| TfEnv (e : Z).

Definition read_tf (p : tfptr) : K Trapframe :=
  match p with
  | TfStack _ tf => mret tf
  | TfEnv e => v ← get_env e; mret (env_tf v)
  end.
Definition write_tf (p : tfptr) (f : Trapframe -> Trapframe) : K unit :=
  match p with
  | TfStack _ _ => mret tt
  | TfEnv e => upd_env e (fun v => set_env_tf (f (env_tf v)) v)
  end.
Definition tf_addr (p : tfptr) : K Z :=
  match p with
  | TfStack addr _ => mret addr
  | TfEnv e => a ← get envs_kva; mret (u32 (a + e * sizeof_Env))
  end.

(** [last]: whether [tf == last_tf]. *)
Definition print_trapframe (last : bool) (p : tfptr) : K unit :=
  tf ← read_tf p;
  addr ← tf_addr p;
  me ← get cpunum;
  _ ← cprintf "TRAP frame at %p from CPU %d" [addr; me];
  _ ← print_regs (tf_regs tf);
  _ ← cprintf "  es   0x----%04x" [tf_es tf];
  _ ← cprintf "  ds   0x----%04x" [tf_ds tf];
  _ ← tell (Cprints "  trap 0x%08x %s" [tf_trapno tf] [trapname (s32 (tf_trapno tf))]);
  _ ← kwhen (last && (tf_trapno tf =? T_PGFLT))
        (a ← get cr2; cprintf "  cr2  0x%08x" [a]);
  _ ← cprintf "  err  0x%08x" [tf_err tf];
  _ ← kwhen (tf_trapno tf =? T_PGFLT)
        (tell (Cprints " [%s, %s, %s]" []
           [(if ctrue (Z.land (tf_err tf) 4) then "user"%string else "kernel"%string);
            (if ctrue (Z.land (tf_err tf) 2) then "write"%string else "read"%string);
            (if ctrue (Z.land (tf_err tf) 1) then "protection"%string
             else "not-present"%string)]));
  _ ← cprintf "  eip  0x%08x" [tf_eip tf];
  _ ← cprintf "  cs   0x----%04x" [tf_cs tf];
  _ ← cprintf "  flag 0x%08x" [tf_eflags tf];
  kwhen (ctrue (Z.land (tf_cs tf) 3))
    (_ ← cprintf "  esp  0x%08x" [tf_esp tf];
     cprintf "  ss   0x----%04x" [tf_ss tf]).

(** The monitor reads commands until one returns a negative number; none does
    ([Monitor]), so it never returns. *)
Definition monitor (p : tfptr) : K unit :=
  _ ← cprintf "Welcome to the JOS kernel monitor!" [];
  _ ← cprintf "Type 'help' for a list of commands." [];
  _ ← print_trapframe true p;
  leave InMonitor.

(** ** Page faults *)

(** struct UTrapframe; [tf_regs] and the rest as they were at the fault. *)
Record UTrapframe := mkUTrapframe {
  utf_fault_va : Z;
  utf_err : Z;
  utf_regs : PushRegs;
  utf_eip : Z;
  utf_eflags : Z;
  utf_esp : Z;
}.
Definition sizeof_UTrapframe : Z := 52.

Definition reg_words (r : PushRegs) : list Z :=
  [reg_edi r; reg_esi r; reg_ebp r; reg_oesp r; reg_ebx r; reg_edx r; reg_ecx r; reg_eax r].
(** The words of the structure, lowest address first. *)
Definition utf_words (u : UTrapframe) : list Z :=
  [utf_fault_va u; utf_err u] ++ reg_words (utf_regs u) ++ [utf_eip u; utf_eflags u; utf_esp u].

(** Assignment to consecutive words. *)
Fixpoint store_words (va : Z) (ws : list Z) : K unit :=
  match ws with
  | [] => mret tt
  | w :: ws' => _ ← vstore32 va w; store_words (u32 (va + 4)) ws'
  end.

(** Where the handler's stack starts: below the fault's stack pointer if that is
    on the exception stack. *)
Definition fault_stacktop (esp : Z) : Z :=
  if (UXSTACKTOP - PGSIZE <? esp) && (esp <? UXSTACKTOP) then esp else UXSTACKTOP.

Definition page_fault_handler (p : tfptr) : K unit :=
  fault_va ← get cr2;
  tf ← read_tf p;
  _ ← (if Z.land (tf_cs tf) 3 =? 0
       then panic "page_fault_handler():page fault in kernel mode!" else mret tt);
  c ← curenv_ptr;
  v ← get_env c;
  _ ← kwhen (ctrue (env_pgfault_upcall v))
        (let size := sizeof_UTrapframe + 4 in
         let utr := u32 (fault_stacktop (tf_esp tf) - size) in
         _ ← user_mem_assert c utr size (Z.lor PTE_U PTE_W);
         _ ← store_words utr (utf_words (mkUTrapframe fault_va (tf_err tf) (tf_regs tf)
               (tf_eip tf) (tf_eflags tf) (tf_esp tf)));
         _ ← upd_env c (fun v => set_env_tf (set_tf_esp utr
               (set_tf_eip (env_pgfault_upcall v) (env_tf v))) v);
         env_run c);
  _ ← cprintf "[%08x] user fault va %08x ip %08x" [env_id v; fault_va; tf_eip tf];
  _ ← print_trapframe true p;
  env_destroy c.

(** ** Dispatch *)

Section Trap.
(** The bound of [sys_cputs]. *)
Context (fuel : nat).

Definition lapic_eoi : K unit := tell Lapic_eoi.

Definition trap_dispatch (p : tfptr) : K unit :=
  tf ← read_tf p;
  if tf_trapno tf =? T_PGFLT then page_fault_handler p
  else if tf_trapno tf =? T_BRKPT then monitor p
  else if tf_trapno tf =? T_SYSCALL then
    let r := tf_regs tf in
    ret ← syscall fuel (reg_eax r) (reg_edx r) (reg_ecx r) (reg_ebx r) (reg_edi r) (reg_esi r);
    write_tf p (fun tf => set_tf_regs (set_reg_eax (u32 ret) (tf_regs tf)) tf)
  else if tf_trapno tf =? IRQ_OFFSET + IRQ_SPURIOUS then
    _ ← cprintf "Spurious interrupt on irq 7" [];
    print_trapframe true p
  else if tf_trapno tf =? IRQ_OFFSET + IRQ_TIMER then
    _ ← lapic_eoi;
    sched_yield
  else
    _ ← print_trapframe true p;
    if tf_cs tf =? GD_KT then panic "unhandled trap in kernel"
    else
      c ← curenv_ptr;
      env_destroy c.

(** The saved frame of a trap from user mode; a dying environment is freed. *)
Definition save_frame (tf : Trapframe) : K tfptr :=
  c ← curenv;
  _ ← kassert (bool_decide (c <> None)) "assertion failed: curenv";
  _ ← lock_kernel;
  c ← curenv_ptr;
  v ← get_env c;
  _ ← kwhen (bool_decide (env_status v = ENV_DYING))
        (_ ← env_free c;
         _ ← set_curenv None;
         sched_yield);
  c ← curenv_ptr;
  _ ← upd_env c (set_env_tf tf);
  mret (TfEnv c).

(** [tf] is the frame that the entry code pushed at [addr], and [eflags] the flags
    register. *)
Definition trap (eflags addr : Z) (tf : Trapframe) : K unit :=
  ps ← get panicstr;
  _ ← (if bool_decide (ps <> None) then leave CpuHalt else mret tt);
  cpu ← thiscpu;
  _ ← upd_cpu (set_cpu_status CPU_STARTED);
  _ ← kwhen (bool_decide (cpu_status cpu = CPU_HALTED)) lock_kernel;
  _ ← kassert (Z.land eflags FL_IF =? 0) "assertion failed: !(read_eflags() & FL_IF)";
  _ ← cprintf "Incoming TRAP frame at %p" [addr];
  p ← (if Z.land (tf_cs tf) 3 =? 3 then save_frame tf else mret (TfStack addr tf));
  _ ← trap_dispatch p;
  c ← curenv;
  match c with
  | Some e =>
      v ← get_env e;
      if bool_decide (env_status v = ENV_RUNNING) then env_run e else sched_yield
  | None => sched_yield
  end.
End Trap.

(** ** Initialisation *)

Section TrapInit.
(** The entry points th0, ..., th47, th_syscall, and the address of a CPU's
    [cpu_ts]. *)
Context (th : Z -> Z) (ts_addr : Z -> Z).

Definition sizeof_Taskstate : Z := 104.

Definition ltr (sel : Z) : K unit := tell (Ltr sel).

Definition trap_init_percpu : K unit :=
  c ← thiscpu;
  let cid := cpu_id c in
  _ ← upd_cpu (set_ts_esp0 (u32 (KSTACKTOP - cid * (KSTKSIZE + KSTKGAP))));
  _ ← upd_cpu (set_ts_ss0 GD_KD);
  let i := Z.to_nat (Z.shiftr GD_TSS0 3 + cid) in
  let d := SEG16 STS_T32A (ts_addr cid) sizeof_Taskstate 0 in
  _ ← modify (fun s => set_gdt (<[i := d]> (gdt s)) s);
  _ ← modify (fun s => set_gdt (alter (set_sd_s 0) i (gdt s)) s);
  _ ← ltr (GD_TSS0 + 8 * cid);
  tell Lidt.

Definition trap_init : K unit :=
  _ ← modify (fun s => set_idt (set_gates th (idt s)) s);
  trap_init_percpu.
End TrapInit.

(** ** lib/pfentry.S *)

(** Accesses of user code. *)
Definition uload32 (m : memory) (d va : Z) : option Z :=
  a ← mmu m d va true false;
  a1 ← mmu m d (u32 (va + 1)) true false;
  a2 ← mmu m d (u32 (va + 2)) true false;
  a3 ← mmu m d (u32 (va + 3)) true false;
  Some (load8 m a + 0x100 * load8 m a1 + 0x10000 * load8 m a2 + 0x1000000 * load8 m a3).
Definition ustore32 (m : memory) (d va v : Z) : option memory :=
  a ← mmu m d va true true;
  a1 ← mmu m d (u32 (va + 1)) true true;
  a2 ← mmu m d (u32 (va + 2)) true true;
  a3 ← mmu m d (u32 (va + 3)) true true;
  Some (store8 (store8 (store8 (store8 m a v) a1 (v / 0x100)) a2 (v / 0x10000)) a3 (v / 0x1000000)).

(** The registers that user code runs with. *)
Record uregs := mkUregs {
  u_regs : PushRegs;
  u_eip : Z;
  u_eflags : Z;
  u_esp : Z;
}.

(** popal: the saved esp is skipped. *)
Definition popal (m : memory) (d esp oesp : Z) : option PushRegs :=
  edi ← uload32 m d esp;
  esi ← uload32 m d (u32 (esp + 4));
  ebp ← uload32 m d (u32 (esp + 8));
  ebx ← uload32 m d (u32 (esp + 16));
  edx ← uload32 m d (u32 (esp + 20));
  ecx ← uload32 m d (u32 (esp + 24));
  eax ← uload32 m d (u32 (esp + 28));
  Some (mkPushRegs edi esi ebp oesp ebx edx ecx eax).

(** _pgfault_upcall once the C handler has returned and its argument is popped:
    [esp] points to the UTrapframe. *)
Definition pgfault_return (m : memory) (d esp oesp : Z) : option (memory * uregs) :=
  let esp := u32 (esp + 8) in
  eax ← uload32 m d (u32 (esp + 40));
  ecx ← uload32 m d (u32 (esp + 32));
  m ← ustore32 m d (u32 (eax - 4)) ecx;
  regs ← popal m d esp oesp;
  let esp := u32 (esp + 32) in
  let esp := u32 (esp + 4) in
  eflags ← uload32 m d esp;
  let esp := u32 (esp + 4) in
  esp ← uload32 m d esp;
  let esp := u32 (esp - 4) in
  eip ← uload32 m d esp;
  Some (m, mkUregs regs eip eflags (u32 (esp + 4))).

(** ** No path enters user mode with the kernel locked *)

(** What holds when control leaves the kernel for environment [e]: the kernel is
    not locked, [e] is the CPU's current environment and running, its directory is
    loaded, and the registers are the ones saved for it. *)
Definition good_exit (ex : exit) (s : kstate) : Prop :=
  match ex with
  | ToUser e tf =>
      kernel_lock s = mkSpinlock 0 None /\ cur s = Some e /\
      exists v, envs s !! e = Some v /\ env_status v = ENV_RUNNING /\ env_tf v = tf /\
        KERNBASE <= env_pgdir v /\ cr3 s = env_pgdir v - KERNBASE
  | _ => True
  end.

Lemma good_leave {A} ex : (forall e tf, ex <> ToUser e tf) -> exits good_exit (leave ex : K A).
Proof. intros H s. unfold leave. by destruct ex; simpl; try done; destruct (H e tf). Qed.
Lemma good_panic {A} msg : exits good_exit (panic msg : K A).
Proof. intros s. unfold panic. by destruct (panicstr s). Qed.
Lemma good_kassert b msg : exits good_exit (kassert b msg).
Proof. unfold kassert. destruct b; [apply exits_ret|apply good_panic]. Qed.
Lemma good_leave_InMonitor {A} : exits good_exit (leave InMonitor : K A).
Proof. done. Qed.
Lemma good_leave_CpuHalt {A} : exits good_exit (leave CpuHalt : K A).
Proof. done. Qed.
Lemma good_leave_Spinning {A} : exits good_exit (leave Spinning : K A).
Proof. done. Qed.
Lemma good_leave_NoFuel {A} : exits good_exit (leave NoFuel : K A).
Proof. done. Qed.
#[local] Hint Resolve good_panic good_kassert good_leave_InMonitor good_leave_CpuHalt
  good_leave_Spinning good_leave_NoFuel : exits.

Lemma good_get_page p : exits good_exit (get_page p).
Proof. intros s. unfold get_page. by destruct (_ !! _). Qed.
Lemma good_get_env e : exits good_exit (get_env e).
Proof. intros s. unfold get_env. by destruct (_ !! _). Qed.
Lemma good_thiscpu : exits good_exit thiscpu.
Proof. intros s. unfold thiscpu. by destruct (_ !! _). Qed.
Lemma good_kload32 a : exits good_exit (kload32 a).
Proof. intros s. unfold kload32. by case_if. Qed.
Lemma good_kstore32 a v : exits good_exit (kstore32 a v).
Proof. intros s. unfold kstore32. by case_if. Qed.
Lemma good_kmemset a c n : exits good_exit (kmemset a c n).
Proof. intros s. unfold kmemset. by case_if. Qed.
Lemma good_vload8 a : exits good_exit (vload8 a).
Proof. intros s. unfold vload8. by destruct (mmu _ _ _ _ _). Qed.
Lemma good_vstore8 a v : exits good_exit (vstore8 a v).
Proof. intros s. unfold vstore8. by destruct (mmu _ _ _ _ _). Qed.
Lemma good_kmemcpy a b n : exits good_exit (kmemcpy a b n).
Proof. intros s. unfold kmemcpy. by case_if. Qed.
#[local] Hint Resolve good_get_page good_get_env good_thiscpu good_kload32 good_kstore32
  good_kmemset good_vload8 good_vstore8 good_kmemcpy : exits.

(** Unfold an operation and break it into its steps. *)
Tactic Notation "good" reference(f) := unfold f; exits_tac.

Lemma good_tell ev : exits good_exit (tell ev).
Proof. good tell. Qed.
Lemma good_cprintf f a : exits good_exit (cprintf f a).
Proof. apply good_tell. Qed.
Lemma good_put_page p v : exits good_exit (put_page p v).
Proof. good put_page. Qed.
Lemma good_put_env p v : exits good_exit (put_env p v).
Proof. good put_env. Qed.
#[local] Hint Resolve good_tell good_cprintf good_put_page good_put_env : exits.
Lemma good_set_link p l : exits good_exit (set_link p l).
Proof. good set_link. Qed.
Lemma good_set_ref p r : exits good_exit (set_ref p r).
Proof. good set_ref. Qed.
Lemma good_upd_env e f : exits good_exit (upd_env e f).
Proof. good upd_env. Qed.
Lemma good_upd_cpu f : exits good_exit (upd_cpu f).
Proof. good upd_cpu. Qed.
Lemma good_curenv : exits good_exit curenv.
Proof. good curenv. Qed.
#[local] Hint Resolve good_set_link good_set_ref good_upd_env good_upd_cpu good_curenv : exits.
Lemma good_set_curenv e : exits good_exit (set_curenv e).
Proof. good set_curenv. Qed.
Lemma good_curenv_ptr : exits good_exit curenv_ptr.
Proof. good curenv_ptr. Qed.
Lemma good_PADDR a : exits good_exit (PADDR a).
Proof. good PADDR. Qed.
Lemma good_KADDR a : exits good_exit (KADDR a).
Proof. good KADDR. Qed.
Lemma good_pa2page a : exits good_exit (pa2page a).
Proof. good pa2page. Qed.
Lemma good_lcr3 a : exits good_exit (lcr3 a).
Proof. good lcr3. Qed.
#[local] Hint Resolve good_set_curenv good_curenv_ptr good_PADDR good_KADDR good_pa2page
  good_lcr3 : exits.

Lemma good_page2kva p : exits good_exit (page2kva p).
Proof. good page2kva. Qed.
Lemma good_page_incref p : exits good_exit (page_incref p).
Proof. good page_incref. Qed.
#[local] Hint Resolve good_page2kva good_page_incref : exits.
Lemma good_page_alloc f : exits good_exit (page_alloc f).
Proof. good page_alloc. Qed.
Lemma good_page_free p : exits good_exit (page_free p).
Proof. good page_free. Qed.
#[local] Hint Resolve good_page_alloc good_page_free : exits.
Lemma good_page_decref p : exits good_exit (page_decref p).
Proof. good page_decref. Qed.
Lemma good_pgdir_walk d va c : exits good_exit (pgdir_walk d va c).
Proof. good pgdir_walk. Qed.
Lemma good_tlb_invalidate d va : exits good_exit (tlb_invalidate d va).
Proof. unfold tlb_invalidate, invlpg. exits_tac. Qed.
#[local] Hint Resolve good_page_decref good_pgdir_walk good_tlb_invalidate : exits.
Lemma good_page_lookup d va : exits good_exit (page_lookup d va).
Proof. good page_lookup. Qed.
#[local] Hint Resolve good_page_lookup : exits.
Lemma good_page_remove d va : exits good_exit (page_remove d va).
Proof. good page_remove. Qed.
#[local] Hint Resolve good_page_remove : exits.
Lemma good_page_insert d pp va perm : exits good_exit (page_insert d pp va perm).
Proof. good page_insert. Qed.
#[local] Hint Resolve good_page_insert : exits.

Lemma good_user_mem_check_loop n d va perm i : exits good_exit (user_mem_check_loop n d va perm i).
Proof. revert i. induction n as [|n IH]; intros i; simpl; exits_tac. Qed.
#[local] Hint Resolve good_user_mem_check_loop : exits.
Lemma good_user_mem_check e va len perm : exits good_exit (user_mem_check e va len perm).
Proof. good user_mem_check. Qed.
#[local] Hint Resolve good_user_mem_check : exits.

Lemma good_envid2env id chk : exits good_exit (envid2env id chk).
Proof. good envid2env. Qed.
Lemma good_curenv_id : exits good_exit curenv_id.
Proof. good curenv_id. Qed.
Lemma good_env_setup_vm e : exits good_exit (env_setup_vm e).
Proof. good env_setup_vm. Qed.
#[local] Hint Resolve good_envid2env good_curenv_id good_env_setup_vm : exits.
Lemma good_env_alloc p : exits good_exit (env_alloc p).
Proof. good env_alloc. Qed.
Lemma good_env_free_table d i : exits good_exit (env_free_table d i).
Proof. good env_free_table. Qed.
#[local] Hint Resolve good_env_alloc good_env_free_table : exits.
Lemma good_env_free e : exits good_exit (env_free e).
Proof. good env_free. Qed.
#[local] Hint Resolve good_env_free : exits.
Lemma good_lock_kernel : exits good_exit lock_kernel.
Proof. unfold lock_kernel, spin_lock. exits_tac. Qed.
Lemma good_unlock_kernel : exits good_exit unlock_kernel.
Proof. unfold unlock_kernel, spin_unlock. exits_tac. Qed.
#[local] Hint Resolve good_lock_kernel good_unlock_kernel : exits.

(** A step of a run that leaves. *)
Lemma bind_leave {A B} (m : K A) (f : A -> K B) s ex s' :
  (m ≫= f) s = Leave ex s' ->
  m s = Leave ex s' \/ exists a s1, m s = Ok a s1 /\ f a s1 = Leave ex s'.
Proof.
  unfold mbind, K_bind. destruct (m s) as [a s1|e s1|] eqn:E; intros H; [right; eauto|left|done].
  by injection H as -> ->.
Qed.

(** Entry to user mode: the last steps of env_run. *)
Lemma good_env_run e : exits good_exit (env_run e).
Proof.
  unfold env_run. apply exits_bind; [apply good_curenv|]. intros c.
  apply exits_bind; [exits_tac|]. intros _ s.
  unfold set_curenv, upd_cpu. destruct (cpus s !! cpunum s) as [i|] eqn:Hi;
    [|unfold mbind, K_bind, thiscpu; by rewrite Hi].
  rewrite bind_assoc. kstep (thiscpu_run s i Hi). ksteps. set (s1 := set_cpus _ s).
  destruct (envs s1 !! e) as [v|] eqn:Hv;
    [|unfold upd_env, get_env, mbind, K_bind; simpl in Hv |- *; by rewrite Hv].
  kstep (upd_env_run s1 e v (fun v => set_env_runs (u32 (env_runs v + 1))
    (set_env_status ENV_RUNNING v)) Hv).
  set (v1 := set_env_runs _ _). set (s2 := set_envs _ s1).
  assert (envs s2 !! e = Some v1) as Hv2 by (simpl; by rewrite lookup_insert_eq).
  kstep (get_env_run s2 e v1 Hv2). unfold PADDR.
  destruct (env_pgdir v1 <? KERNBASE) eqn:Epg.
  { unfold panic, mbind, K_bind. by destruct (panicstr s2). }
  bcomp. unfold lcr3. ksteps. set (s3 := set_cr3 _ s2).
  unfold unlock_kernel, spin_unlock. ksteps.
  destruct (holding (kernel_lock s3) (cpunum s3)); cbn [negb]; cbv iota;
    [|destruct (lk_cpu (kernel_lock s3)); [|done]; unfold cprintf; ksteps;
      unfold panic, mbind, K_bind; match goal with |- context [panicstr ?t] => by destruct (panicstr t) end].
  ksteps. set (s4 := set_kernel_lock _ s3).
  assert (cpus s4 !! cpunum s4 = Some (set_cpu_env (Some e) i)) as Hc4
    by (simpl; by rewrite lookup_insert_eq).
  assert (cur s4 = Some e) as Hcur by (unfold cur; by rewrite Hc4).
  unfold env_pop_tf. kstep (curenv_ptr_run s4 e Hcur). ksteps.
  assert (envs s4 !! e = Some v1) as Hv4 by exact Hv2.
  kstep (upd_env_run s4 e v1 (set_env_cpunum (cpunum s4)) Hv4). set (s5 := set_envs _ s4).
  assert (envs s5 !! e = Some (set_env_cpunum (cpunum s4) v1)) as Hv5
    by (simpl; by rewrite lookup_insert_eq).
  kstep (get_env_run s5 e _ Hv5). split; [done|]. split; [exact Hcur|].
  eexists. split; [exact Hv5|]. done.
Qed.
#[local] Hint Resolve good_env_run : exits.

Lemma good_env_is e st : exits good_exit (env_is e st).
Proof. good env_is. Qed.
#[local] Hint Resolve good_env_is : exits.
Lemma good_any_alive n i : exits good_exit (any_alive n i).
Proof. revert i. induction n as [|n IH]; intros i; simpl; exits_tac. Qed.
Lemma good_sched_loop n start i : exits good_exit (sched_loop n start i).
Proof. revert i. induction n as [|n IH]; intros i; simpl; exits_tac. Qed.
#[local] Hint Resolve good_any_alive good_sched_loop : exits.
Lemma good_sched_halt : exits good_exit sched_halt.
Proof. good sched_halt. Qed.
#[local] Hint Resolve good_sched_halt : exits.
Lemma good_sched_yield : exits good_exit sched_yield.
Proof. good sched_yield. Qed.
#[local] Hint Resolve good_sched_yield : exits.
Lemma good_env_destroy e : exits good_exit (env_destroy e).
Proof. good env_destroy. Qed.
#[local] Hint Resolve good_env_destroy : exits.
Lemma good_user_mem_assert e va len perm : exits good_exit (user_mem_assert e va len perm).
Proof. good user_mem_assert. Qed.
#[local] Hint Resolve good_user_mem_assert : exits.

Lemma good_user_string n va p : exits good_exit (user_string n va p).
Proof. revert va p. induction n as [|n IH]; intros va p; simpl; exits_tac. Qed.
#[local] Hint Resolve good_user_string : exits.
Lemma good_syscall fuel n a1 a2 a3 a4 a5 : exits good_exit (syscall fuel n a1 a2 a3 a4 a5).
Proof.
  unfold syscall, sys_cgetc, cons_getc, sys_cputs, sys_getenvid, sys_env_destroy, with_env,
    sys_yield. exits_tac.
Qed.
#[local] Hint Resolve good_syscall : exits.

Lemma good_read_tf p : exits good_exit (read_tf p).
Proof. good read_tf. Qed.
Lemma good_write_tf p f : exits good_exit (write_tf p f).
Proof. good write_tf. Qed.
Lemma good_tf_addr p : exits good_exit (tf_addr p).
Proof. good tf_addr. Qed.
#[local] Hint Resolve good_read_tf good_write_tf good_tf_addr : exits.
Lemma good_print_trapframe l p : exits good_exit (print_trapframe l p).
Proof. unfold print_trapframe, print_regs. exits_tac. Qed.
#[local] Hint Resolve good_print_trapframe : exits.
Lemma good_monitor p : exits good_exit (monitor p).
Proof. good monitor. Qed.
Lemma good_store_words va ws : exits good_exit (store_words va ws).
Proof. revert va. induction ws as [|w ws IH]; intros va; simpl; unfold vstore32; exits_tac. Qed.
#[local] Hint Resolve good_monitor good_store_words : exits.
Lemma good_page_fault_handler p : exits good_exit (page_fault_handler p).
Proof. good page_fault_handler. Qed.
#[local] Hint Resolve good_page_fault_handler : exits.

(** C10: Every path from a trap into user mode is a clean one.  Whatever trap
    arrives in whatever state, if trap() ends by entering an environment, then the
    kernel lock has been released, that environment is the CPU's current one and
    ENV_RUNNING, its page directory is loaded, and the registers it gets are the
    ones saved in its own record. *)
Theorem trap_exits_clean fuel eflags addr tf s e tf' s' :
  trap fuel eflags addr tf s = Leave (ToUser e tf') s' ->
  kernel_lock s' = mkSpinlock 0 None /\ cur s' = Some e /\
  exists v, envs s' !! e = Some v /\ env_status v = ENV_RUNNING /\ env_tf v = tf' /\
    KERNBASE <= env_pgdir v /\ cr3 s' = env_pgdir v - KERNBASE.
Proof.
  intros E. assert (exits good_exit (trap fuel eflags addr tf)) as H.
  { unfold trap, save_frame, trap_dispatch, lapic_eoi. exits_tac. }
  specialize (H s). by rewrite E in H.
Qed.

(** ** Entry from user mode *)

(** The state in which trap() dispatches a trap of environment [c] with frame [tf]. *)
Definition in_kernel (s : kstate) (c : Z) (tf : Trapframe) (addr : Z) : kstate :=
  set_envs (alter (set_env_tf tf) c (envs s))
    (set_kernel_lock (mkSpinlock 1 (Some (cpunum s)))
      (set_log (Cprintf "Incoming TRAP frame at %p" [addr] :: log s)
        (set_cpus (alter (set_cpu_status CPU_STARTED) (cpunum s) (cpus s)) s))).

(** A trap of the running environment [c] with record [v]: the CPU is not halted, no
    CPU holds the lock, and the entry code has interrupts off. *)
Record user_trap (s : kstate) (c : Z) (v : Env) (eflags : Z) (tf : Trapframe) : Prop := {
  ut_panic : panicstr s = None;
  ut_cpu : exists i, cpus s !! cpunum s = Some i /\ cpu_status i = CPU_STARTED;
  ut_cur : cur s = Some c;
  ut_env : envs s !! c = Some v;
  ut_status : env_status v = ENV_RUNNING;
  ut_lock : kernel_lock s = mkSpinlock 0 None;
  ut_eflags : Z.land eflags FL_IF = 0;
  ut_user : Z.land (tf_cs tf) 3 = 3;
}.

(** What trap() does after the dispatch. *)
Definition trap_tail : K unit :=
  c ← curenv;
  match c with
  | Some e =>
      v ← get_env e;
      if bool_decide (env_status v = ENV_RUNNING) then env_run e else sched_yield
  | None => sched_yield
  end.

Lemma alter_insert_cpu (m : gmap Z CpuInfo) e i f :
  m !! e = Some i -> <[e := f i]> m = alter f e m.
Proof.
  intros H. apply map_eq. intros q. destruct (decide (e = q)) as [->|Hne].
  - by rewrite lookup_insert_eq, lookup_alter_eq, H.
  - by rewrite lookup_insert_ne, lookup_alter_ne.
Qed.

Lemma save_frame_run s i c v tf :
  cpus s !! cpunum s = Some i -> cpu_env i = Some c -> envs s !! c = Some v ->
  env_status v = ENV_RUNNING -> kernel_lock s = mkSpinlock 0 None ->
  save_frame tf s = Ok (TfEnv c) (set_envs (alter (set_env_tf tf) c (envs s))
    (set_kernel_lock (mkSpinlock 1 (Some (cpunum s))) s)).
Proof.
  intros Hi Hci Hv Hrun Hl. assert (cur s = Some c) as Hcur by (unfold cur; by rewrite Hi).
  unfold save_frame. kstep (curenv_run s i Hi). rewrite Hci.
  rewrite bool_decide_eq_true_2 by done. unfold kassert. ksteps.
  assert (lock_kernel s = Ok tt (set_kernel_lock (mkSpinlock 1 (Some (cpunum s))) s)) as E.
  { unfold lock_kernel, spin_lock. ksteps. by rewrite Hl. }
  kstep E. clear E. set (s2 := set_kernel_lock _ s).
  assert (cur s2 = Some c) as Hcur2 by exact Hcur.
  kstep (curenv_ptr_run s2 c Hcur2). assert (envs s2 !! c = Some v) as Hv2 by exact Hv.
  kstep (get_env_run s2 c v Hv2). rewrite Hrun.
  rewrite (bool_decide_eq_false_2 (ENV_RUNNING = ENV_DYING)) by done. unfold kwhen. ksteps.
  kstep (curenv_ptr_run s2 c Hcur2). kstep (upd_env_run s2 c v (set_env_tf tf) Hv2).
  by rewrite <- (alter_insert_run (envs s) c v _ Hv).
Qed.

Lemma trap_entry fuel eflags addr tf s c v :
  user_trap s c v eflags tf ->
  trap fuel eflags addr tf s =
    (_ ← trap_dispatch fuel (TfEnv c); trap_tail) (in_kernel s c tf addr).
Proof.
  intros [Hps (i & Hi & Hst) Hcur Hv Hrun Hl Hef Hus]. unfold trap. ksteps. rewrite Hps.
  rewrite bool_decide_eq_false_2 by (intros H; by apply H). ksteps.
  kstep (thiscpu_run s i Hi). kstep (upd_cpu_run s i (set_cpu_status CPU_STARTED) Hi).
  rewrite Hst, (bool_decide_eq_false_2 (CPU_STARTED = CPU_HALTED)) by done.
  unfold kwhen at 1. ksteps. rewrite Hef, Z.eqb_refl. unfold kassert at 1. ksteps.
  unfold cprintf at 1. ksteps. rewrite Hus, Z.eqb_refl.
  rewrite (alter_insert_cpu (cpus s) (cpunum s) i _ Hi).
  set (s1 := set_log _ _).
  assert (cpus s1 !! cpunum s1 = Some (set_cpu_status CPU_STARTED i)) as Hi1
    by (simpl; by rewrite lookup_alter_eq, Hi).
  assert (cpu_env i = Some c) as Hci by (unfold cur in Hcur; by rewrite Hi in Hcur).
  by kstep (save_frame_run s1 _ c v tf Hi1 Hci Hv Hrun Hl).
Qed.

(** The record of the trapped environment, and the others. *)
Lemma in_kernel_self s c v tf addr :
  envs s !! c = Some v -> envs (in_kernel s c tf addr) !! c = Some (set_env_tf tf v).
Proof. intros H. simpl. by rewrite lookup_alter_eq, H. Qed.
Lemma in_kernel_other s c tf addr j :
  j <> c -> envs (in_kernel s c tf addr) !! j = envs s !! j.
Proof. intros H. simpl. by rewrite lookup_alter_ne. Qed.

Lemma in_kernel_cur s c tf addr : cur (in_kernel s c tf addr) = cur s.
Proof. unfold cur. simpl. rewrite lookup_alter_eq. by destruct (cpus s !! cpunum s). Qed.

Lemma in_kernel_status s c tf addr j st :
  has_status (in_kernel s c tf addr) j st = has_status s j st.
Proof.
  unfold has_status. destruct (decide (j = c)) as [->|Hne].
  - simpl. rewrite lookup_alter_eq. by destruct (envs s !! c).
  - by rewrite in_kernel_other.
Qed.

Lemma pick_ext s s' n start i :
  (forall j, has_status s' j ENV_RUNNABLE = has_status s j ENV_RUNNABLE) ->
  pick s' n start i = pick s n start i.
Proof.
  intros H. revert i. induction n as [|n IH]; intros i; simpl; [done|]. by rewrite H, IH.
Qed.

(** [s] with the lock taken. *)
Definition locked_state (s : kstate) : kstate :=
  set_kernel_lock (mkSpinlock 1 (Some (cpunum s))) s.

Lemma in_kernel_wf s c tf addr l :
  sched_wf (locked_state s) -> sched_wf (set_log l (in_kernel s c tf addr)).
Proof.
  intros Hw.
  assert (forall j w, envs (in_kernel s c tf addr) !! j = Some w -> exists v, envs s !! j = Some v /\
    env_id w = env_id v /\ env_pgdir w = env_pgdir v /\ env_status w = env_status v) as Hl.
  { intros j w Hj. destruct (decide (j = c)) as [->|Hne].
    - simpl in Hj. rewrite lookup_alter_eq in Hj. destruct (envs s !! c); simplify_eq/=. eauto.
    - rewrite in_kernel_other in Hj by done. eauto. }
  split.
  - intros j Hj. simpl. rewrite lookup_alter_is_Some. apply (sw_envs _ Hw j Hj).
  - simpl. rewrite lookup_alter_is_Some. apply (sw_cpu _ Hw).
  - intros o Ho. change (cur (in_kernel s c tf addr) = Some o) in Ho. rewrite in_kernel_cur in Ho.
    destruct (sw_cur _ Hw o Ho) as (Hr & v & Hv & Hid). simpl in Hv. split; [done|].
    destruct (decide (o = c)) as [->|Hne].
    + exists (set_env_tf tf v). split; [by apply in_kernel_self|done].
    + exists v. split; [|done]. etrans; [by apply in_kernel_other|done].
  - intros j w Hj Hs. destruct (Hl j w Hj) as (v & Hv & -> & -> & Est). rewrite Est in Hs.
    by apply (sw_live _ Hw j v).
  - done.
  - apply (sw_kern _ Hw).
Qed.

Lemma dispatch_timer fuel p tf s :
  read_tf p s = Ok tf s -> tf_trapno tf = IRQ_OFFSET + IRQ_TIMER ->
  trap_dispatch fuel p s = sched_yield (set_log (Lapic_eoi :: log s) s).
Proof. intros E Ht. unfold trap_dispatch. kstep E. by rewrite Ht. Qed.

Lemma leave_bind {A B} (m : K A) (f : A -> K B) s ex s' :
  m s = Leave ex s' -> (m ≫= f) s = Leave ex s'.
Proof. intros E. unfold mbind, K_bind. by rewrite E. Qed.

(** The record of [c] after its trap ended with environment [k] entered. *)
Lemma after_run_trapped s c v tf k :
  cur s = Some c -> envs s !! c = Some (set_env_tf tf v) -> env_status v = ENV_RUNNING ->
  exists v', after_run s k !! c = Some v' /\ env_tf v' = tf /\
    env_status v' = if decide (k = c) then ENV_RUNNING else ENV_RUNNABLE.
Proof.
  intros Hc Hv Hst. unfold after_run. rewrite Hc.
  assert (demote (set_env_tf tf v) = set_env_status ENV_RUNNABLE (set_env_tf tf v)) as Ed
    by (unfold demote; cbn [env_status set_env_tf]; by rewrite Hst).
  destruct (decide (k = c)) as [->|Hne].
  - rewrite lookup_alter_eq, lookup_alter_eq, Hv. simpl. rewrite Ed. eauto.
  - rewrite lookup_alter_ne, lookup_alter_eq, Hv by done. simpl. rewrite Ed. eauto.
Qed.

Lemma trap_timer_run fuel eflags addr tf s c v :
  user_trap s c v eflags tf -> sched_wf (locked_state s) ->
  tf_trapno tf = IRQ_OFFSET + IRQ_TIMER ->
  let k := default c (pick s (Z.to_nat NENV) (c + 1) 0) in
  exists w s', envs s !! k = Some w /\
    trap fuel eflags addr tf s = Leave (ToUser k (if decide (k = c) then tf else env_tf w)) s' /\
    (exists v', envs s' !! c = Some v' /\ env_tf v' = tf /\
       env_status v' = if decide (k = c) then ENV_RUNNING else ENV_RUNNABLE) /\
    cur s' = Some k /\ kernel_lock s' = mkSpinlock 0 None /\ Lapic_eoi ∈ log s'.
Proof.
  intros Hu Hw Ht k. pose proof (ut_cur _ _ _ _ _ Hu) as Hc. pose proof (ut_env _ _ _ _ _ Hu) as Hv.
  pose proof (ut_status _ _ _ _ _ Hu) as Hst.
  rewrite (trap_entry fuel eflags addr tf s c v Hu). set (s0 := in_kernel s c tf addr).
  assert (read_tf (TfEnv c) s0 = Ok tf s0) as Er.
  { unfold read_tf. by kstep (get_env_run s0 c _ (in_kernel_self s c v tf addr Hv)). }
  pose proof (dispatch_timer fuel (TfEnv c) tf s0 Er Ht) as Ed.
  set (s1 := set_log (Lapic_eoi :: log s0) s0) in *.
  pose proof (in_kernel_wf s c tf addr (Lapic_eoi :: log s0) Hw) as Hw1. fold s0 s1 in Hw1.
  assert (cur s1 = Some c) as Hc1.
  { change (cur s1) with (cur s0). unfold s0. by rewrite in_kernel_cur. }
  pose proof (sched_yield_run s1 Hw1) as Hy. unfold search_start in Hy. rewrite Hc1 in Hy.
  rewrite (pick_ext s s1 (Z.to_nat NENV) (c + 1) 0 (fun j => in_kernel_status s c tf addr j _)) in Hy.
  assert (envs s1 !! c = Some (set_env_tf tf v)) as Hv1 by by apply in_kernel_self.
  assert (exists u s', envs s1 !! k = Some u /\
    sched_yield s1 = Leave (ToUser k (env_tf u)) s' /\ entered s1 k s') as (u & s' & Hk & Ey & He).
  { unfold k. destruct (pick s (Z.to_nat NENV) (c + 1) 0) as [j|]; simpl.
    - destruct Hy as (u & s' & Hj & _ & Ey & He). eauto.
    - assert (has_status s1 c ENV_RUNNING = true) as Hr.
      { apply has_status_Some. exists (set_env_tf tf v). done. }
      rewrite Hr in Hy. destruct Hy as (u & s' & Hj & Ey & He). eauto. }
  assert (exists w, envs s !! k = Some w /\ env_tf u = if decide (k = c) then tf else env_tf w)
    as (w & Hkw & Eu).
  { destruct (decide (k = c)) as [Ek|Hne].
    - rewrite Ek in *. exists v. split; [done|]. rewrite Hv1 in Hk. by injection Hk as <-.
    - exists u. split; [|done]. rewrite <- Hk. symmetry. by apply in_kernel_other. }
  exists w, s'. split; [done|]. split.
  { rewrite <- Eu. apply leave_bind. by rewrite Ed. }
  split; [rewrite (en_envs _ _ _ He); by apply (after_run_trapped s1 c v tf k)|].
  split; [by apply (entered_cur s1)|]. split; [apply (en_lock _ _ _ He)|].
  rewrite (en_log _ _ _ He). apply list_elem_of_here.
Qed.

(** C28: A timer interrupt switches environments without losing a register.  When the
    running environment [c] is interrupted, the interrupt is acknowledged and the
    next runnable environment [k] in round-robin order is entered with the
    registers saved for it, or [c] itself, with exactly the interrupted registers,
    if there is none; the record of [c] holds the interrupted registers, and [c]
    is runnable again (running if it continues); the kernel is unlocked. *)
Theorem trap_timer_switches fuel eflags addr tf s c v :
  user_trap s c v eflags tf -> sched_wf (locked_state s) ->
  tf_trapno tf = IRQ_OFFSET + IRQ_TIMER ->
  let k := default c (pick s (Z.to_nat NENV) (c + 1) 0) in
  exists w s', envs s !! k = Some w /\
    trap fuel eflags addr tf s = Leave (ToUser k (if decide (k = c) then tf else env_tf w)) s' /\
    (exists v', envs s' !! c = Some v' /\ env_tf v' = tf /\
       env_status v' = if decide (k = c) then ENV_RUNNING else ENV_RUNNABLE) /\
    cur s' = Some k /\ kernel_lock s' = mkSpinlock 0 None /\ Lapic_eoi ∈ log s'.
Proof. apply trap_timer_run. Qed.

(** The frame with the result of a system call. *)
Definition with_result (r : Z) (tf : Trapframe) : Trapframe :=
  set_tf_regs (set_reg_eax (u32 r) (tf_regs tf)) tf.

(** The caller is entered again once the call has returned. *)
Lemma syscall_tail fuel addr tf s c v r s2 :
  envs s !! c = Some v -> cur s = Some c -> env_status v = ENV_RUNNING ->
  tf_trapno tf = T_SYSCALL -> KERNBASE <= env_pgdir v ->
  let regs := tf_regs tf in
  let s0 := in_kernel s c tf addr in
  syscall fuel (reg_eax regs) (reg_edx regs) (reg_ecx regs) (reg_ebx regs) (reg_edi regs)
    (reg_esi regs) s0 = Ok r s2 ->
  (exists e, e <> c /\ kept e s0 s2) ->
  exists s' v', (_ ← trap_dispatch fuel (TfEnv c); trap_tail) s0 = Leave (ToUser c (with_result r tf)) s' /\
    kernel_lock s' = mkSpinlock 0 None /\ cur s' = Some c /\ mem s' = mem s2 /\
    (envs s' !! c = Some v' /\ env_tf v' = with_result r tf /\ env_status v' = ENV_RUNNING /\
       env_id v' = env_id v /\ env_pgdir v' = env_pgdir v) /\
    (forall j, j <> c -> envs s' !! j = envs s2 !! j).
Proof.
  intros Hv Hcur Hst Ht Hpg regs s0 Esys (e & Hne & [K1 K2 K3 K4]).
  assert (envs s0 !! c = Some (set_env_tf tf v)) as Hv0 by (by apply in_kernel_self).
  assert (envs s2 !! c = Some (set_env_tf tf v)) as Hv2 by (rewrite K4 by done; exact Hv0).
  assert (cur s2 = Some c) as Hc by (rewrite K1; unfold s0; by rewrite in_kernel_cur).
  assert (lock_held s2) as Hl by (unfold lock_held; by rewrite K3, K2).
  assert (read_tf (TfEnv c) s0 = Ok tf s0) as Er by (unfold read_tf; by kstep (get_env_run s0 c _ Hv0)).
  set (v3 := set_env_tf (with_result r tf) v). set (s3 := set_envs (<[c := v3]> (envs s2)) s2).
  assert (trap_dispatch fuel (TfEnv c) s0 = Ok tt s3) as Ed.
  { unfold trap_dispatch. kstep Er. rewrite Ht. cbn [T_SYSCALL T_PGFLT T_BRKPT Z.eqb Pos.eqb].
    kstep Esys. unfold write_tf. by rewrite (upd_env_run s2 c _ _ Hv2). }
  kstep Ed. destruct (cpus s2 !! cpunum s2) as [i|] eqn:Hi; [|unfold cur in Hc; by rewrite Hi in Hc].
  assert (cpu_env i = Some c) as Hci by (unfold cur in Hc; by rewrite Hi in Hc).
  assert (envs s3 !! c = Some v3) as Hv3 by (simpl; by rewrite lookup_insert_eq).
  assert (cpus s3 !! cpunum s3 = Some i) as Hi3 by exact Hi.
  unfold trap_tail. kstep (curenv_run s3 i Hi3). rewrite Hci. kstep (get_env_run s3 c v3 Hv3).
  change (env_status v3) with (env_status v). rewrite Hst, bool_decide_eq_true_2 by done.
  destruct (env_run_ok s3 i c v3 Hi3) as (s' & E & He); [|done|done|done|].
  { intros o Ho. rewrite Hci in Ho. injection Ho as <-. eauto. }
  assert (cur s3 = Some c) as Hc3 by exact Hc.
  assert (envs s' = after_run s3 c) as Ee by apply He. unfold after_run in Ee. rewrite Hc3 in Ee.
  exists s'. eexists. split; [exact E|]. split; [apply He|]. split; [by apply (entered_cur s3)|].
  split; [apply (en_mem _ _ _ He)|]. split.
  - rewrite Ee, !lookup_alter_eq, Hv3. split; [reflexivity|]. unfold demote, v3.
    cbn [env_status set_env_tf]. rewrite Hst. done.
  - intros j Hj. rewrite Ee, !lookup_alter_ne by done. simpl. by rewrite lookup_insert_ne.
Qed.

(** C29: A system call gives its caller back the registers of the trap, but for the
    result.  The call always returns unless it is sys_cputs (whose caller may be
    destroyed), sys_env_destroy or sys_yield.  If it returns, the result is 0, or
    -E_INVAL for a number without a case, and trap() enters the caller with exactly
    the frame that the trap pushed, except that eax is the result; the caller's
    record holds that frame too, with its id and its page directory as before; the
    lock is free; and no other record and no byte of memory has changed since the
    call returned.  If the call leaves the kernel in another way, trap() does the
    same. *)
Theorem trap_syscall_returns fuel eflags addr tf s c v :
  user_trap s c v eflags tf -> tf_trapno tf = T_SYSCALL -> KERNBASE <= env_pgdir v ->
  let regs := tf_regs tf in
  let call := syscall fuel (reg_eax regs) (reg_edx regs) (reg_ecx regs) (reg_ebx regs)
    (reg_edi regs) (reg_esi regs) (in_kernel s c tf addr) in
  ((reg_eax regs ∉ [SYS_cputs; SYS_env_destroy; SYS_yield]) -> exists r s2, call = Ok r s2) /\
  match call with
  | Ok r s2 =>
      r = (if bool_decide (reg_eax regs ∈ [SYS_cgetc; SYS_cputs; SYS_getenvid; SYS_env_destroy;
             SYS_yield; NSYSCALLS]) then 0 else - E_INVAL) /\
      exists s' v', trap fuel eflags addr tf s = Leave (ToUser c (with_result r tf)) s' /\
        kernel_lock s' = mkSpinlock 0 None /\ cur s' = Some c /\ mem s' = mem s2 /\
        (envs s' !! c = Some v' /\ env_tf v' = with_result r tf /\ env_status v' = ENV_RUNNING /\
           env_id v' = env_id v /\ env_pgdir v' = env_pgdir v) /\
        (forall j, j <> c -> envs s' !! j = envs s2 !! j)
  | Leave ex s2 => trap fuel eflags addr tf s = Leave ex s2
  | Undef => trap fuel eflags addr tf s = Undef
  end.
Proof.
  intros Hu Ht Hpg regs call. pose proof (ut_env _ _ _ _ _ Hu) as Hv. pose proof (ut_cur _ _ _ _ _ Hu) as Hcur.
  assert (cur (in_kernel s c tf addr) = Some c) as Hc0 by (by rewrite in_kernel_cur).
  assert (envs (in_kernel s c tf addr) !! c = Some (set_env_tf tf v)) as Hv0 by (by apply in_kernel_self).
  split.
  - intros Hn. rewrite !not_elem_of_cons in Hn. destruct Hn as (N1 & N2 & N3 & _).
    by apply (syscall_returns fuel _ _ _ _ _ _ _ c _ Hc0 Hv0).
  - rewrite (trap_entry fuel eflags addr tf s c v Hu).
    assert (forall r, call = r -> (_ ← trap_dispatch fuel (TfEnv c); trap_tail) (in_kernel s c tf addr) =
      match r with Leave ex s2 => Leave ex s2 | Undef => Undef
        | Ok _ _ => (_ ← trap_dispatch fuel (TfEnv c); trap_tail) (in_kernel s c tf addr) end) as Hr.
    { intros r E. destruct r as [r s2|ex s2|]; [done|..]; unfold trap_dispatch; rewrite bind_assoc;
        rewrite (bind_ok (read_tf (TfEnv c)) _ _ tf (in_kernel s c tf addr))
          by (unfold read_tf; by kstep (get_env_run _ c _ Hv0));
        rewrite Ht; cbn [T_SYSCALL T_PGFLT T_BRKPT Z.eqb Pos.eqb]; fold regs;
        unfold mbind, K_bind; fold call; by rewrite E. }
    destruct call as [r s2|ex s2|] eqn:E; [|exact (Hr _ eq_refl)..].
    destruct (syscall_returned fuel _ _ _ _ _ _ _ r s2 c Hc0 E) as [Hk Hr0].
    split; [exact Hr0|].
    exact (syscall_tail fuel addr tf s c v r s2 Hv Hcur (ut_status _ _ _ _ _ Hu) Ht Hpg E Hk).
Qed.

(** ** Examples

    [user_state]: environment 0 of [idle_state] runs in user mode. *)

Definition user_state : kstate := set_kernel_lock (mkSpinlock 0 None) idle_state.
Definition timer_tf : Trapframe :=
  mkTrapframe (mkPushRegs 1 2 3 4 5 6 7 8) 0x23 0 0x23 0 32 0 0x800020 0x1b 0 0x202 0xeebfdf00 0x23 0.
Definition getenvid_tf : Trapframe :=
  mkTrapframe (mkPushRegs 1 2 3 4 5 6 7 SYS_getenvid) 0x23 0 0x23 0 48 0 0x800022 0x1b 0 0x202
    0xeebfdf00 0x23 0.

Lemma idle_lookup_0 : envs idle_state !! 0 = Some run_env.
Proof.
  change (envs idle_state) with (envs_all idle_env). rewrite lookup_envs_all.
  by rewrite decide_True by (change NENV with 1024; lia).
Qed.

Lemma user_state_trap tf : Z.land (tf_cs tf) 3 = 3 -> user_trap user_state 0 run_env 2 tf.
Proof.
  intros H. split; try reflexivity; [|exact H].
  eexists. split; reflexivity.
Qed.

Lemma user_state_wf : sched_wf (locked_state user_state).
Proof. exact idle_wf. Qed.

Lemma user_state_pick : pick user_state (Z.to_nat NENV) (0 + 1) 0 = Some 3.
Proof.
  change (0 + 1) with 1. rewrite (pick_ext idle_state user_state) by (intros; reflexivity).
  change (Z.to_nat NENV) with (S (S (S 1021))). apply idle_pick.
Qed.

Lemma trap_timer_switches_witness :
  exists s', trap 0 2 0xf0000000 timer_tf user_state = Leave (ToUser 3 (env_tf (idle_env 3))) s' /\
    exists v', envs s' !! 0 = Some v' /\ env_tf v' = timer_tf /\ env_status v' = ENV_RUNNABLE.
Proof.
  pose proof (trap_timer_switches 0 2 0xf0000000 timer_tf user_state 0 run_env
    (user_state_trap timer_tf eq_refl) user_state_wf eq_refl) as H.
  rewrite user_state_pick in H. cbv zeta in H. simpl default in H.
  destruct H as (w & s' & Hw & E & (v' & Hv & Ht & Hs) & _).
  assert (w = idle_env 3) as -> by (change (envs user_state) with (envs idle_state) in Hw;
    rewrite idle_lookup_3 in Hw; by injection Hw as <-).
  exists s'. split; [exact E|]. exists v'. split; [exact Hv|]. split; [exact Ht|exact Hs].
Defined.

Lemma trap_exits_clean_witness :
  exists s', trap 0 2 0xf0000000 timer_tf user_state = Leave (ToUser 3 (env_tf (idle_env 3))) s' /\
    kernel_lock s' = mkSpinlock 0 None.
Proof.
  pose proof (trap_timer_run 0 2 0xf0000000 timer_tf user_state 0 run_env
    (user_state_trap timer_tf eq_refl) user_state_wf eq_refl) as H.
  rewrite user_state_pick in H. cbv zeta in H. simpl default in H.
  destruct H as (w & s' & Hw & E & _).
  assert (w = idle_env 3) as -> by (change (envs user_state) with (envs idle_state) in Hw;
    rewrite idle_lookup_3 in Hw; by injection Hw as <-).
  exists s'. split; [exact E|].
  exact (proj1 (trap_exits_clean 0 2 0xf0000000 timer_tf user_state 3 _ s' E)).
Defined.

Lemma trap_syscall_returns_witness :
  exists s', trap 0 2 0xf0000000 getenvid_tf user_state = Leave (ToUser 0 (with_result 0 getenvid_tf)) s' /\
    cur s' = Some 0.
Proof.
  assert (KERNBASE <= env_pgdir run_env) as Hpg by (vm_compute; congruence).
  pose proof (trap_syscall_returns 0 2 0xf0000000 getenvid_tf user_state 0 run_env
    (user_state_trap getenvid_tf eq_refl) eq_refl Hpg) as H.
  lazy beta zeta in H. destruct H as [H1 H2].
  revert H1 H2. generalize (trap 0 2 0xf0000000 getenvid_tf user_state) as t.
  generalize (syscall 0 (reg_eax (tf_regs getenvid_tf)) (reg_edx (tf_regs getenvid_tf)) (reg_ecx (tf_regs getenvid_tf))
    (reg_ebx (tf_regs getenvid_tf)) (reg_edi (tf_regs getenvid_tf)) (reg_esi (tf_regs getenvid_tf))
    (in_kernel user_state 0 getenvid_tf 0xf0000000)) as call.
  intros call t H1 H2. destruct H1 as (r & s2 & E).
  { cbn. rewrite !not_elem_of_cons. repeat split; try discriminate. intros H. inversion H. }
  rewrite E in H2. destruct H2 as (-> & s' & v' & Et & _ & Hc & _). exists s'. split; [exact Et|exact Hc].
Defined.
