(* ===== verification/Spinlock.v ===== *)
(** * Spinlock: kern/spinlock.c with several CPUs

    spin_lock and spin_unlock at the grain of their accesses to the lock: each read,
    write or xchg of a field is one step, and the steps of the CPUs interleave in any
    order.  The theorems: at most one CPU is inside at any time and none ever hits
    the panics of the debugging code; and the operations of [Env], which take the
    lock in one step, are what a CPU does when it runs alone.  The call stack [pcs]
    that the debugging code records is not kept. *)

From S2P Require Import Prelude Layout Segments Memory CString Printfmt Kernel PageAlloc PageTable Env.

(** ** Where a CPU is *)

Inductive pc :=
| Outside           (* about to call spin_lock *)
| LockHolding       (* in spin_lock's holding(): locked was read as non-zero *)
| LockXchg          (* about to execute the xchg of spin_lock *)
| LockSetCpu        (* it has the lock; about to store lk->cpu *)
| Inside            (* between the calls; about to call spin_unlock *)
| UnlockHolding     (* in spin_unlock's holding(): locked was read as non-zero *)
| UnlockClearCpu    (* about to clear lk->cpu *)
| UnlockXchg        (* about to execute the xchg of spin_unlock *)
| Paniced.
#[export] Instance pc_eq_dec : EqDecision pc.
Proof. solve_decision. Defined.

(** One access of CPU [me]. *)
Definition lock_step (me : Z) (lk : spinlock) (p : pc) : spinlock * pc :=
  match p with
  | Outside => (lk, if locked lk =? 0 then LockXchg else LockHolding)
  | LockHolding => (lk, if bool_decide (lk_cpu lk = Some me) then Paniced else LockXchg)
  | LockXchg => (mkSpinlock 1 (lk_cpu lk), if locked lk =? 0 then LockSetCpu else LockXchg)
  | LockSetCpu => (mkSpinlock (locked lk) (Some me), Inside)
  | Inside => (lk, if locked lk =? 0 then Paniced else UnlockHolding)
  | UnlockHolding => (lk, if bool_decide (lk_cpu lk = Some me) then UnlockClearCpu else Paniced)
  | UnlockClearCpu => (mkSpinlock (locked lk) None, UnlockXchg)
  | UnlockXchg => (mkSpinlock 0 (lk_cpu lk), Outside)
  | Paniced => (lk, Paniced)
  end.

(** __spin_initlock. *)
Definition spin_initlock : spinlock := mkSpinlock 0 None.

(** The lock and the position of every CPU. *)
Definition machine : Type := spinlock * gmap Z pc.

Inductive machine_step : machine -> machine -> Prop :=
| cpu_step lk cpus me p :
    cpus !! me = Some p ->
    machine_step (lk, cpus) ((lock_step me lk p).1, <[me := (lock_step me lk p).2]> cpus).

(** All CPUs outside, the lock initialised. *)
Definition machine_init (st : machine) : Prop :=
  st.1 = spin_initlock /\ forall me p, st.2 !! me = Some p -> p = Outside.

(** ** Mutual exclusion *)

(** Between the two xchg instructions. *)
Definition owns (p : pc) : bool :=
  match p with
  | LockSetCpu | Inside | UnlockHolding | UnlockClearCpu | UnlockXchg => true
  | _ => false
  end.
(** Where lk->cpu names the owner. *)
Definition named (p : pc) : bool :=
  match p with Inside | UnlockHolding | UnlockClearCpu => true | _ => false end.

(** The lock word when [h] owns the lock. *)
Definition lock_word (h : option Z) : Z := match h with Some _ => 1 | None => 0 end.

(** [h] is the only CPU that owns the lock. *)
Record lock_inv (st : machine) (h : option Z) : Prop := {
  li_owner : forall me p, st.2 !! me = Some p -> owns p = true <-> h = Some me;
  li_locked : locked st.1 = lock_word h;
  li_cpu : forall i, lk_cpu st.1 = Some i <-> exists p, st.2 !! i = Some p /\ named p = true;
  li_alive : forall me, st.2 !! me <> Some Paniced;
  li_exists : forall me, h = Some me -> is_Some (st.2 !! me);
}.

Lemma lock_inv_init st : machine_init st -> lock_inv st None.
Proof.
  intros [Hl Ho]. split.
  - intros me p Hp. rewrite (Ho me p Hp). done.
  - by rewrite Hl.
  - intros i. rewrite Hl. simpl. split; [done|]. intros (p & Hp & Hn).
    by rewrite (Ho i p Hp) in Hn.
  - intros me Hp. by apply Ho in Hp.
  - done.
Qed.

(** The owner after CPU [me] stepped from [p]. *)
Definition next_owner (lk : spinlock) (me : Z) (p : pc) (h : option Z) : option Z :=
  match p with
  | LockXchg => if locked lk =? 0 then Some me else h
  | UnlockXchg => None
  | _ => h
  end.

Lemma named_owns p : named p = true -> owns p = true.
Proof. by destruct p. Qed.

(** A step of [me], seen from its own position. *)
Lemma lock_step_own lk cpus me p h :
  lock_inv (lk, cpus) h -> cpus !! me = Some p ->
  let q := (lock_step me lk p).2 in
  let lk' := (lock_step me lk p).1 in
  let h' := next_owner lk me p h in
  (owns q = true <-> h' = Some me) /\ q <> Paniced /\
  locked lk' = lock_word h' /\
  (lk_cpu lk' = if named q then Some me else if named p then None else lk_cpu lk) /\
  (h' = h \/ (h = None /\ h' = Some me) \/ (h = Some me /\ h' = None)).
Proof.
  intros Hi Hp. pose proof (li_owner _ _ Hi me p Hp) as Ho. pose proof (li_locked _ _ Hi) as Hl.
  pose proof (li_cpu _ _ Hi me) as Hc. pose proof (li_alive _ _ Hi me) as Ha. simpl in *.
  assert (lk_cpu lk = Some me <-> named p = true) as Hn.
  { rewrite Hc. split; [intros (p' & Hp' & H)|intros H]; [simplify_eq; done|eauto]. }
  destruct p; simpl in *;
    try (assert (h = Some me) as -> by (apply Ho; done); rewrite Hl in *);
    try (assert (h <> Some me) as Hne by (intros E; by apply Ho in E)).
  - destruct h; rewrite Hl; simpl; repeat split; naive_solver.
  - rewrite bool_decide_eq_false_2 by (rewrite Hn; done). repeat split; naive_solver.
  - destruct h; rewrite Hl; simpl; repeat split; naive_solver.
  - repeat split; naive_solver.
  - repeat split; naive_solver.
  - rewrite bool_decide_eq_true_2 by (by apply Hn). repeat split; naive_solver.
  - repeat split; naive_solver.
  - repeat split; naive_solver.
  - done.
Qed.

Lemma lock_inv_step st st' h :
  lock_inv st h -> machine_step st st' -> exists h', lock_inv st' h'.
Proof.
  intros Hi Hs. destruct Hs as [lk cpus me p Hp].
  destruct (lock_step_own lk cpus me p h Hi Hp) as (Hown & Hnp & Hl & Hc & Hh).
  set (q := (lock_step me lk p).2) in *. set (lk' := (lock_step me lk p).1) in *.
  exists (next_owner lk me p h). set (h' := next_owner lk me p h) in *. split; simpl.
  - intros j r Hj. apply lookup_insert_Some in Hj as [[<- <-]|[Hne Hj]]; [done|].
    rewrite (li_owner _ _ Hi j r Hj).
    destruct Hh as [->|[[-> ->]|[-> ->]]]; [done|split; congruence..].
  - done.
  - intros i. rewrite Hc. destruct (decide (me = i)) as [<-|Hne].
    + rewrite lookup_insert_eq. destruct (named q) eqn:Eq.
      * split; [by eauto|done].
      * split.
        -- intros H. exfalso. destruct (named p) eqn:Ep; [done|].
           apply (li_cpu _ _ Hi) in H as (p' & Hp' & Hn'). simpl in Hp'. congruence.
        -- intros (r & Hr & Hnr). congruence.
    + rewrite lookup_insert_ne by done.
      assert (named q = true \/ named p = true ->
        ~ exists r, cpus !! i = Some r /\ named r = true) as Hother.
      { intros Hqp (r & Hr & Hnr). apply named_owns in Hnr.
        apply (li_owner _ _ Hi i r Hr) in Hnr. simpl in Hnr. subst h.
        destruct Hqp as [Hq|Hq]; apply named_owns in Hq.
        - apply Hown in Hq. destruct Hh as [E|[[E _]|[E _]]]; congruence.
        - apply (li_owner _ _ Hi me p Hp) in Hq. congruence. }
      destruct (named q) eqn:Eq; [|destruct (named p) eqn:Ep].
      * split; [intros [= E]; by destruct Hne|]. intros H. destruct (Hother ltac:(by left) H).
      * split; [done|]. intros H. destruct (Hother ltac:(by right) H).
      * apply (li_cpu _ _ Hi i).
  - intros j Hj. apply lookup_insert_Some in Hj as [[_ E]|[_ Hj]]; [done|by apply (li_alive _ _ Hi j)].
  - intros j Hj. rewrite lookup_insert_is_Some'.
    destruct Hh as [E|[[_ E]|[_ E]]]; [|left; congruence|congruence].
    right. apply (li_exists _ _ Hi). congruence.
Qed.

(** C8: The spin lock gives mutual exclusion.  From an initialised lock with every
    CPU outside, after any interleaving of the memory accesses of any number of
    CPUs that lock and unlock, no two CPUs are between their xchg instructions, no
    CPU has hit a panic of the debugging code, the lock word is 1 exactly when a CPU
    owns the lock, and lk->cpu names a CPU only if that CPU owns it. *)
Theorem spin_mutual_exclusion st0 st :
  machine_init st0 -> rtc machine_step st0 st ->
  (forall i j p q, st.2 !! i = Some p -> st.2 !! j = Some q -> owns p = true -> owns q = true -> i = j) /\
  (forall i, st.2 !! i <> Some Paniced) /\
  (locked st.1 = 0 \/ locked st.1 = 1) /\
  (locked st.1 = 1 <-> exists i p, st.2 !! i = Some p /\ owns p = true) /\
  (forall i, lk_cpu st.1 = Some i -> exists p, st.2 !! i = Some p /\ owns p = true).
Proof.
  intros H0 Hr.
  assert (exists h, lock_inv st h) as [h Hi].
  { assert (exists h, lock_inv st0 h) as Hi by (eexists; by apply lock_inv_init).
    clear H0. induction Hr as [st|st1 st2 st3 Hs Hr IH]; [done|]. apply IH.
    destruct Hi as [h Hi]. by eapply lock_inv_step. }
  split; [|split; [|split; [|split]]].
  - intros i j p q Hp Hq Op Oq. apply (li_owner _ _ Hi i p Hp) in Op.
    apply (li_owner _ _ Hi j q Hq) in Oq. congruence.
  - apply (li_alive _ _ Hi).
  - rewrite (li_locked _ _ Hi). destruct h; auto.
  - rewrite (li_locked _ _ Hi). destruct h as [i|].
    + split; [|done]. intros _. destruct (li_exists _ _ Hi i eq_refl) as [p Hp].
      exists i, p. split; [done|]. by apply (li_owner _ _ Hi i p Hp).
    + split; [done|]. intros (i & p & Hp & Ho). by apply (li_owner _ _ Hi i p Hp) in Ho.
  - intros i Hc. apply (li_cpu _ _ Hi) in Hc as (p & Hp & Hn).
    exists p. split; [done|by apply named_owns].
Qed.

(** ** A CPU alone *)

Fixpoint solo (n : nat) (me : Z) (st : spinlock * pc) : spinlock * pc :=
  match n with
  | O => st
  | S n' => solo n' me (lock_step me st.1 st.2)
  end.

Definition waiting (p : pc) : bool :=
  match p with Outside | LockHolding | LockXchg => true | _ => false end.

(** With the lock taken by another CPU, spin_lock stays in its loop. *)
Lemma solo_waits n me lk p :
  locked lk <> 0 -> lk_cpu lk <> Some me -> waiting p = true ->
  waiting (solo n me (lk, p)).2 = true.
Proof.
  revert lk p. induction n as [|n IH]; intros lk p Hl Hc Hp; [done|]. simpl.
  destruct p; try done; simpl.
  - rewrite (proj2 (Z.eqb_neq _ _) Hl). by apply IH.
  - rewrite bool_decide_eq_false_2 by done. by apply IH.
  - rewrite (proj2 (Z.eqb_neq _ _) Hl). by apply IH.
Qed.

(** The lock operations of the kernel model are the real ones run alone.  What
    spin_lock does in one step, the accesses of this CPU do in three: the same lock
    results and the CPU is inside; when the operation panics the accesses reach the
    panic, and when it spins no number of accesses gets the CPU inside.  What
    spin_unlock does, the accesses do in four; where they reach the panic it panics too,
    or, with lk->cpu null, reads through that null pointer for its message. *)
Theorem spin_ops_solo s :
  let me := cpunum s in
  match spin_lock s with
  | Ok _ s' => solo 3 me (kernel_lock s, Outside) = (kernel_lock s', Inside)
  | Leave (Panicked _) _ => (solo 2 me (kernel_lock s, Outside)).2 = Paniced
  | Leave Spinning _ => forall n, waiting (solo n me (kernel_lock s, Outside)).2 = true
  | _ => False
  end /\
  match spin_unlock s with
  | Ok _ s' => solo 4 me (kernel_lock s, Inside) = (kernel_lock s', Outside)
  | Leave (Panicked _) _ => (solo 2 me (kernel_lock s, Inside)).2 = Paniced
  | Undef => (solo 2 me (kernel_lock s, Inside)).2 = Paniced /\ lk_cpu (kernel_lock s) = None
  | _ => False
  end.
Proof.
  intros me. unfold spin_lock, spin_unlock, holding, cprintf. ksteps. fold me.
  destruct (kernel_lock s) as [lw lc] eqn:El. cbn [locked lk_cpu]. unfold ctrue.
  destruct (lw =? 0) eqn:E0; cbn [negb andb].
  - split; [simpl; rewrite E0; simpl; by rewrite E0|].
    destruct lc; [|by simpl; rewrite E0]. ksteps.
    unfold panic. destruct (panicstr _); simpl; by rewrite E0.
  - destruct (bool_decide (lc = Some me)) eqn:Ec; cbn [negb].
    + split; [|simpl; rewrite E0; simpl; by rewrite Ec].
      unfold panic. destruct (panicstr _); simpl; rewrite E0; simpl; by rewrite Ec.
    + split.
      * intros n. apply solo_waits; [by apply Z.eqb_neq|by apply bool_decide_eq_false_1 in Ec|done].
      * destruct lc; [|by simpl; rewrite E0]. ksteps.
        unfold panic. destruct (panicstr _); simpl; rewrite E0; simpl; by rewrite Ec.
Qed.

(** ** Example: CPU 0 holds the lock and CPU 1 spins. *)

Definition two_cpus : machine := (spin_initlock, {[ 0 := Outside; 1 := Outside ]}).

Lemma spin_mutual_exclusion_witness :
  exists st, rtc machine_step two_cpus st /\ st.2 !! 0 = Some LockSetCpu /\
    st.2 !! 1 = Some LockXchg /\ locked st.1 = 1.
Proof.
  assert (machine_init two_cpus) as H0.
  { split; [reflexivity|]. intros me p Hp. simpl in Hp.
    apply lookup_insert_Some in Hp as [[_ E]|[_ Hp]]; [by symmetry|].
    by apply lookup_singleton_Some in Hp as [_ E]. }
  set (st := (mkSpinlock 1 None, <[0 := LockSetCpu]> (<[1 := LockXchg]>
    (<[0 := LockXchg]> (two_cpus.2)))) : machine).
  assert (rtc machine_step two_cpus st) as Hr.
  { eapply rtc_l; [apply (cpu_step spin_initlock _ 0 Outside); reflexivity|].
    eapply rtc_l; [apply (cpu_step _ _ 1 Outside); reflexivity|].
    eapply rtc_l; [apply (cpu_step _ _ 0 LockXchg); reflexivity|]. apply rtc_refl. }
  exists st. split; [exact Hr|]. split; [reflexivity|]. split; [reflexivity|].
  destruct (spin_mutual_exclusion two_cpus st H0 Hr) as (_ & _ & _ & H & _).
  apply H. exists 0, LockSetCpu. split; reflexivity.
Defined.
