(* ===== verification/Upcall.v ===== *)
(** * Upcall: user page faults from the kernel's frame to the return of the handler

    page_fault_handler (in [Trap]) stores a UTrapframe on the user exception stack and
    enters the upcall; lib/pfentry.S returns from it.  The theorem puts the two
    together: whatever the handler did in between, as long as it left the frame
    alone, the faulting code goes on with the registers it had. *)

From S2P Require Import Prelude Layout Segments Memory CString Printfmt Kernel PageAlloc PageTable Env Sched Syscall Trap.

(** ** Accesses within a page *)

Lemma mod_same_page va k :
  0 <= va -> 0 <= k -> va mod 4096 + k < 4096 -> va + k < 0x100000000 ->
  PGNUM (va + k) = PGNUM va /\ PGOFF (va + k) = va mod 4096 + k.
Proof. intros. rewrite !PGNUM_div, PGOFF_mod, !u32_small by lia. zlia. Qed.

(** The address of a page translates wherever another address of the page does. *)
Lemma mmu_same_page m d va k u w f :
  0 <= va -> 0 <= k -> va mod 4096 + k < 4096 -> va + k < 0x100000000 ->
  mmu m d va u w = Some (f + va mod 4096) ->
  mmu m d (va + k) u w = Some (f + va mod 4096 + k).
Proof.
  intros Ha Hk Hp Hb. destruct (mod_same_page va k Ha Hk Hp Hb) as [Hn Ho].
  destruct (proj1 (same_page_indexes (va + k) va) Hn) as [Ed Et].
  unfold mmu, mapping, pde, pte, pte_addr, pde. rewrite Ed, Et, Ho.
  rewrite (PGOFF_mod va), u32_small by lia.
  repeat case_match; intros; simplify_eq; f_equal; lia.
Qed.

(** A page that can be written can be read. *)
Lemma mmu_write_read m d va u a : mmu m d va u true = Some a -> mmu m d va u false = Some a.
Proof.
  unfold mmu. destruct (mapping _ _ _); [|done].
  destruct (u && _); [done|]. cbn [andb]. by destruct (negb _).
Qed.
(** What a user may do, the kernel may do. *)
Lemma mmu_user_kernel m d va w a : mmu m d va true w = Some a -> mmu m d va false w = Some a.
Proof.
  unfold mmu. destruct (mapping _ _ _); [|done]. cbn [andb]. by destruct (negb _).
Qed.

(** ** Memory that differs in one page only *)

Definition same_outside (f : Z) (m m' : memory) : Prop :=
  forall x, x / 4096 <> f / 4096 -> load8 m' x = load8 m x.

(** The page at [f] holds neither the directory at [d] nor the table for [va]. *)
Definition no_table (m : memory) (d va f : Z) : Prop :=
  f / 4096 <> d / 4096 /\ f / 4096 <> PTE_ADDR (pde m d va) / 4096.

Lemma load_slot_outside f m m' t i :
  same_outside f m m' -> t mod 4096 = 0 -> 0 <= i < 1024 -> f / 4096 <> t / 4096 ->
  load32 m' (slot t i) = load32 m (slot t i).
Proof.
  intros Hs Ht Hi Hne. apply load32_ext. intros x Hx. apply Hs. unfold slot in Hx. zlia.
Qed.

Lemma mmu_outside f m m' d va u w :
  same_outside f m m' -> d mod 4096 = 0 -> 0 <= d < 0x100000000 -> no_table m d va f ->
  mmu m' d va u w = mmu m d va u w /\ no_table m' d va f /\ pde m' d va = pde m d va.
Proof.
  intros Hs Hd Hr [Hn1 Hn2].
  assert (pde m' d va = pde m d va) as Ep
    by (rewrite !pde_slot; apply (load_slot_outside f); auto with jos).
  assert (pte m' d va = pte m d va) as Et.
  { rewrite !pte_slot, Ep. apply (load_slot_outside f); auto with jos. }
  assert (PTE_ADDR d = d) as Ed by (rewrite PTE_ADDR_div, u32_small by lia; zlia).
  split; [|split; [|done]].
  - unfold mmu, mapping. by rewrite Ed, Ep, Et.
  - split; [done|by rewrite Ep].
Qed.

(** ** Consecutive words *)

Fixpoint put_words (m : memory) (a : Z) (ws : list Z) : memory :=
  match ws with
  | [] => m
  | w :: ws' => put_words (store32 m a w) (a + 4) ws'
  end.

Lemma put_words_load8 m a ws x :
  x < a \/ a + 4 * Z.of_nat (length ws) <= x -> load8 (put_words m a ws) x = load8 m x.
Proof.
  revert m a. induction ws as [|w ws IH]; intros m a Hx; [done|]. simpl in *.
  rewrite IH, load8_store32 by lia. by rewrite !decide_False by lia.
Qed.

Lemma put_words_load32 m a ws i w :
  ws !! i = Some w -> load32 (put_words m a ws) (a + 4 * Z.of_nat i) = u32 w.
Proof.
  revert m a i. induction ws as [|w0 ws IH]; intros m a i Hi; [done|]. simpl.
  destruct i as [|i]; simplify_eq/=.
  - rewrite Z.add_0_r. rewrite <- (load32_store32_eq m a w). apply load32_ext.
    intros x Hx. apply put_words_load8. lia.
  - rewrite <- (IH (store32 m a w0) (a + 4) i Hi). f_equal. lia.
Qed.

(** A store of the kernel through the current directory. *)
Lemma vstore8_run s va v a :
  mmu (mem s) (cr3 s) va false true = Some a ->
  vstore8 va v s = Ok tt (set_mem (store8 (mem s) a v) s).
Proof. intros E. unfold vstore8. by rewrite E. Qed.

Lemma store8_outside f m a v : a / 4096 = f / 4096 -> same_outside f m (store8 m a v).
Proof. intros Ha x Hx. apply load8_store8_ne. intros ->. by apply Hx. Qed.

Lemma same_outside_trans f m1 m2 m3 :
  same_outside f m1 m2 -> same_outside f m2 m3 -> same_outside f m1 m3.
Proof. intros H1 H2 x Hx. by rewrite H2, H1. Qed.

Section Page.
(** A page of the current directory [d] that maps the frame [f], a page of data, to
    the page of [va]. *)
Context (d va f : Z).
Hypothesis Hd : d mod 4096 = 0 /\ 0 <= d < 0x100000000.
Hypothesis Hf : f mod 4096 = 0.
Hypothesis Hva : 0 <= va.

(** The invariant of a sequence of stores to the page. *)
Definition page_at (m : memory) : Prop :=
  no_table m d va f /\ mmu m d va false true = Some (f + va mod 4096).

Lemma page_at_outside m m' : same_outside f m m' -> page_at m -> page_at m'.
Proof.
  intros Hs [Hn Hm]. destruct (mmu_outside f m m' d va false true Hs (proj1 Hd) (proj2 Hd) Hn)
    as (E & Hn' & _). split; [done|]. by rewrite E.
Qed.

Lemma vstore8_page s k v :
  cr3 s = d -> page_at (mem s) -> 0 <= k -> va mod 4096 + k < 4096 -> va + k < 0x100000000 ->
  vstore8 (u32 (va + k)) v s = Ok tt (set_mem (store8 (mem s) (f + va mod 4096 + k) v) s) /\
  page_at (store8 (mem s) (f + va mod 4096 + k) v) /\
  same_outside f (mem s) (store8 (mem s) (f + va mod 4096 + k) v).
Proof.
  intros Hc Hp Hk Hb Hb'. rewrite u32_small by lia.
  assert (same_outside f (mem s) (store8 (mem s) (f + va mod 4096 + k) v)) as Hs
    by (apply store8_outside; zlia).
  split; [|split; [by eapply page_at_outside|done]].
  apply vstore8_run. rewrite Hc. apply mmu_same_page; try done. apply Hp.
Qed.

Lemma vstore32_page s k v :
  cr3 s = d -> page_at (mem s) -> 0 <= k -> va mod 4096 + k + 4 <= 4096 ->
  va + k + 4 <= 0x100000000 ->
  vstore32 (u32 (va + k)) v s = Ok tt (set_mem (store32 (mem s) (f + va mod 4096 + k) v) s) /\
  page_at (store32 (mem s) (f + va mod 4096 + k) v).
Proof.
  intros Hc Hp Hk Hb Hb'. unfold vstore32. rewrite store32_bytes.
  destruct (vstore8_page s k v Hc Hp Hk ltac:(lia) ltac:(lia)) as (E0 & Hp0 & _).
  kstep E0. set (s1 := set_mem _ s).
  assert (forall j, u32 (u32 (va + k) + j) = u32 (va + (k + j))) as Eu.
  { intros j. unfold u32. rewrite Zplus_mod_idemp_l. f_equal. lia. }
  rewrite !Eu, !Z.shiftr_div_pow2 by lia.
  assert (forall j, f + va mod 4096 + (k + j) = f + va mod 4096 + k + j) as Ea by (intros; lia).
  destruct (vstore8_page s1 (k + 1) (v / 2 ^ 8) Hc Hp0 ltac:(lia) ltac:(lia) ltac:(lia))
    as (E1 & Hp1 & _).
  rewrite Ea in E1, Hp1. kstep E1. set (s2 := set_mem _ s1).
  destruct (vstore8_page s2 (k + 2) (v / 2 ^ 16) Hc Hp1 ltac:(lia) ltac:(lia) ltac:(lia))
    as (E2 & Hp2 & _).
  rewrite Ea in E2, Hp2. kstep E2. set (s3 := set_mem _ s2).
  destruct (vstore8_page s3 (k + 3) (v / 2 ^ 24) Hc Hp2 ltac:(lia) ltac:(lia) ltac:(lia))
    as (E3 & Hp3 & _).
  rewrite Ea in E3, Hp3. split; [exact E3|exact Hp3].
Qed.

Lemma store_words_page s k ws :
  cr3 s = d -> page_at (mem s) -> 0 <= k ->
  va mod 4096 + k + 4 * Z.of_nat (length ws) <= 4096 ->
  va + k + 4 * Z.of_nat (length ws) <= 0x100000000 ->
  store_words (u32 (va + k)) ws s =
    Ok tt (set_mem (put_words (mem s) (f + va mod 4096 + k) ws) s).
Proof.
  revert s k. induction ws as [|w ws IH]; intros s k Hc Hp Hk Hb Hb'; simpl in *; [by destruct s|].
  destruct (vstore32_page s k w Hc Hp Hk ltac:(lia) ltac:(lia)) as [E Hp1]. kstep E.
  assert (u32 (u32 (va + k) + 4) = u32 (va + (k + 4))) as ->.
  { unfold u32. rewrite Zplus_mod_idemp_l. f_equal. lia. }
  rewrite IH by (done || lia). simpl. by rewrite Z.add_assoc.
Qed.
End Page.

(** ** Accesses of user code *)

Lemma uload32_page m d va f k :
  0 <= va -> 0 <= k -> va mod 4096 + k + 4 <= 4096 -> va + k + 4 <= 0x100000000 ->
  mmu m d va true false = Some (f + va mod 4096) ->
  uload32 m d (u32 (va + k)) = Some (load32 m (f + va mod 4096 + k)).
Proof.
  intros Ha Hk Hp Hb Hm. unfold uload32. rewrite (u32_small (va + k)) by lia.
  rewrite (mmu_same_page m d va k true false f) by (done || lia). simpl.
  assert (forall j, 0 <= j < 4 -> mmu m d (u32 (va + k + j)) true false =
    Some (f + va mod 4096 + k + j)) as Hj.
  { intros j Hj. rewrite u32_small by lia. rewrite <- !Z.add_assoc.
    rewrite (mmu_same_page m d va (k + j) true false f) by (done || lia). f_equal. lia. }
  rewrite !Hj by lia. simpl. by rewrite load32_bytes.
Qed.

Lemma ustore32_page m d va g v :
  0 <= va -> va mod 4096 + 4 <= 4096 -> va + 4 <= 0x100000000 ->
  mmu m d va true true = Some (g + va mod 4096) ->
  ustore32 m d va v = Some (store32 m (g + va mod 4096) v).
Proof.
  intros Ha Hp Hb Hm. unfold ustore32. rewrite Hm. simpl.
  assert (forall j, 0 <= j < 4 -> mmu m d (u32 (va + j)) true true =
    Some (g + va mod 4096 + j)) as Hj.
  { intros j Hj. rewrite u32_small by lia. by apply mmu_same_page; try lia. }
  rewrite !Hj by lia. simpl. by rewrite store32_bytes.
Qed.

(** ** The return from the handler *)

(** The memory [m] in which the frame [u] lies intact at [utr], in frame [f], and the
    word below the stack pointer at the fault can be written, in frame [g], a page
    of data, without touching the frame [u]. *)
Record resumable (m : memory) (d utr f : Z) (u : UTrapframe) (g : Z) : Prop := {
  rs_utr : 0 <= utr /\ utr mod 4096 + 52 <= 4096 /\ utr + 52 <= 0x100000000;
  rs_frame : mmu m d utr true false = Some (f + utr mod 4096);
  rs_words : forall i w, utf_words u !! i = Some w ->
    load32 m (f + utr mod 4096 + 4 * Z.of_nat i) = w;
  rs_aligned : f mod 4096 = 0 /\ g mod 4096 = 0;
  rs_word : u32 (utf_esp u - 4) mod 4096 + 4 <= 4096;
  rs_stack : mmu m d (u32 (utf_esp u - 4)) true true = Some (g + u32 (utf_esp u - 4) mod 4096);
  rs_data : no_table m d utr g /\ no_table m d (u32 (utf_esp u - 4)) g;
  rs_disjoint : let a := g + u32 (utf_esp u - 4) mod 4096 in
    a + 4 <= f + utr mod 4096 \/ f + utr mod 4096 + 52 <= a;
}.

(** The registers of the fault; popal leaves esp alone. *)
Definition fault_regs (u : UTrapframe) (oesp : Z) : uregs :=
  let r := utf_regs u in
  mkUregs (mkPushRegs (reg_edi r) (reg_esi r) (reg_ebp r) oesp (reg_ebx r) (reg_edx r) (reg_ecx r)
             (reg_eax r)) (utf_eip u) (utf_eflags u) (utf_esp u).

(** A word of the frame, by its offset. *)
Lemma frame_word m d utr f u g i w :
  resumable m d utr f u g -> utf_words u !! i = Some w ->
  uload32 m d (u32 (utr + 4 * Z.of_nat i)) = Some w.
Proof.
  intros Hr Hi. destruct (rs_utr _ _ _ _ _ _ Hr) as (H1 & H2 & H3).
  assert (i < 13)%nat by (apply lookup_lt_Some in Hi; exact Hi).
  rewrite (uload32_page m d utr f) by (lia || apply (rs_frame _ _ _ _ _ _ Hr)).
  f_equal. by apply (rs_words _ _ _ _ _ _ Hr).
Qed.

(** The memory once the return address is on the stack of the fault. *)
Definition with_return (m : memory) (u : UTrapframe) (g : Z) : memory :=
  store32 m (g + u32 (utf_esp u - 4) mod 4096) (utf_eip u).

Lemma with_return_resumable m d utr f u g :
  d mod 4096 = 0 /\ 0 <= d < 0x100000000 ->
  resumable m d utr f u g -> resumable (with_return m u g) d utr f u g.
Proof.
  intros Hd Hr. pose proof (rs_aligned _ _ _ _ _ _ Hr) as [Hf Hg].
  pose proof (rs_word _ _ _ _ _ _ Hr) as Hw.
  destruct (rs_data _ _ _ _ _ _ Hr) as [Hn1 Hn2].
  pose proof (rs_disjoint _ _ _ _ _ _ Hr) as Hdj. cbv zeta in Hdj.
  set (a := u32 (utf_esp u - 4)) in *.
  assert (same_outside g m (with_return m u g)) as Hs.
  { intros x Hx. unfold with_return. fold a. rewrite load8_store32.
    rewrite !decide_False by (intros ->; apply Hx; zlia). done. }
  destruct (mmu_outside g m _ d utr true false Hs (proj1 Hd) (proj2 Hd) Hn1) as (E1 & Hn1' & _).
  destruct (mmu_outside g m _ d a true true Hs (proj1 Hd) (proj2 Hd) Hn2) as (E2 & Hn2' & _).
  split; try apply Hr; fold a.
  - rewrite E1. apply (rs_frame _ _ _ _ _ _ Hr).
  - intros i w Hi. rewrite <- (rs_words _ _ _ _ _ _ Hr i w Hi). unfold with_return. fold a.
    assert (i < 13)%nat by (apply lookup_lt_Some in Hi; exact Hi).
    apply load32_store32_ne. lia.
  - rewrite E2. apply (rs_stack _ _ _ _ _ _ Hr).
  - done.
Qed.

Lemma pgfault_return_resumes m d utr f u g oesp :
  d mod 4096 = 0 /\ 0 <= d < 0x100000000 ->
  (forall i w, utf_words u !! i = Some w -> 0 <= w < 0x100000000) ->
  resumable m d utr f u g ->
  pgfault_return m d utr oesp = Some (with_return m u g, fault_regs u oesp).
Proof.
  intros Hd Hwr Hr.
  assert (forall i w, utf_words u !! i = Some w -> forall k, k = 4 * Z.of_nat i ->
    uload32 m d (u32 (utr + k)) = Some w) as Hm
    by (intros i w Hi k ->; by apply (frame_word m d utr f u g)).
  pose proof (with_return_resumable m d utr f u g Hd Hr) as Hr'.
  assert (forall i w, utf_words u !! i = Some w -> forall k, k = 4 * Z.of_nat i ->
    uload32 (with_return m u g) d (u32 (utr + k)) = Some w) as Hm'
    by (intros i w Hi k ->; by apply (frame_word _ d utr f u g)).
  pose proof (rs_word _ _ _ _ _ _ Hr) as Hw. pose proof (rs_stack _ _ _ _ _ _ Hr) as Hst.
  assert (forall x y, u32 (u32 x + y) = u32 (x + y)) as Eu
    by (intros x y; unfold u32; by rewrite Zplus_mod_idemp_l).
  pose proof (Hwr 12%nat _ eq_refl) as Hesp. pose proof (Hwr 10%nat _ eq_refl) as Heip.
  pose proof (u32_range (utf_esp u - 4)) as Hua.
  unfold pgfault_return, popal. cbv zeta. repeat (rewrite !Eu, <- ?Z.add_assoc).
  change (8 + 40) with 48. change (8 + 32) with 40. change (8 + (32 + 4)) with 44.
  change (8 + (32 + (4 + 4))) with 48. change (8 + 4) with 12. change (8 + 8) with 16.
  change (8 + 16) with 24. change (8 + 20) with 28. change (8 + 24) with 32.
  change (8 + 28) with 36.
  rewrite (Hm 12%nat (utf_esp u) eq_refl 48 eq_refl). simpl.
  rewrite (Hm 10%nat (utf_eip u) eq_refl 40 eq_refl). simpl.
  rewrite (ustore32_page m d (u32 (utf_esp u - 4)) g) by (lia || exact Hst || zlia). simpl.
  fold (with_return m u g).
  rewrite (Hm' 2%nat (reg_edi (utf_regs u)) eq_refl 8 eq_refl). simpl.
  rewrite (Hm' 3%nat (reg_esi (utf_regs u)) eq_refl 12 eq_refl). simpl.
  rewrite (Hm' 4%nat (reg_ebp (utf_regs u)) eq_refl 16 eq_refl). simpl.
  rewrite (Hm' 6%nat (reg_ebx (utf_regs u)) eq_refl 24 eq_refl). simpl.
  rewrite (Hm' 7%nat (reg_edx (utf_regs u)) eq_refl 28 eq_refl). simpl.
  rewrite (Hm' 8%nat (reg_ecx (utf_regs u)) eq_refl 32 eq_refl). simpl.
  rewrite (Hm' 9%nat (reg_eax (utf_regs u)) eq_refl 36 eq_refl). simpl.
  rewrite (Hm' 11%nat (utf_eflags u) eq_refl 44 eq_refl). simpl.
  rewrite (Hm' 12%nat (utf_esp u) eq_refl 48 eq_refl). simpl.
  pose proof (rs_stack _ _ _ _ _ _ Hr') as Hst'. fold (with_return m u g) in Hst'.
  pose proof (uload32_page (with_return m u g) d (u32 (utf_esp u - 4)) g 0) as El.
  rewrite !Z.add_0_r, u32_idem in El. rewrite El by (lia || zlia || by apply mmu_write_read). simpl.
  assert (load32 (with_return m u g) (g + u32 (utf_esp u - 4) mod 4096) = utf_eip u) as ->
    by (unfold with_return; by rewrite load32_store32_eq, u32_small by lia).
  unfold fault_regs. do 3 f_equal. rewrite Eu, u32_small; lia.
Qed.

(** ** The kernel's side *)

Definition upcall_frame (s : kstate) (tf : Trapframe) : UTrapframe :=
  mkUTrapframe (cr2 s) (tf_err tf) (tf_regs tf) (tf_eip tf) (tf_eflags tf) (tf_esp tf).

(** A fault of the running environment [c] for which the exception stack has room:
    the frame and the scratch word above it lie in one page of data that the user
    may write. *)
Record upcall_ok (s : kstate) (l : list Z) (d c : Z) (v : Env) (utr f : Z) : Prop := {
  uc_pages : pages_wf s l;
  uc_dir : pgdir_wf s l d;
  uc_cur : cur s = Some c;
  uc_env : envs s !! c = Some v;
  uc_pgdir : env_pgdir v = KERNBASE + d;
  uc_cr3 : cr3 s = d;
  uc_lock : lock_held s;
  uc_user : Z.land (tf_cs (env_tf v)) 3 <> 0;
  uc_upcall : env_pgfault_upcall v <> 0;
  uc_utr : utr = fault_stacktop (tf_esp (env_tf v)) - 56;
  uc_room : utr mod 4096 + 56 <= 4096;
  uc_aligned : f mod 4096 = 0;
  uc_frame : mmu (mem s) d utr true true = Some (f + utr mod 4096);
  uc_data : no_table (mem s) d utr f;
}.

Lemma fault_stacktop_range esp : UXSTACKTOP - PGSIZE < fault_stacktop esp <= UXSTACKTOP.
Proof.
  unfold fault_stacktop, PGSIZE. destruct (_ && _) eqn:E; [|lia].
  apply andb_true_iff in E. bcomp. lia.
Qed.

Lemma utr_range s l d c v utr f : upcall_ok s l d c v utr f -> 0xeebfdfc8 < utr <= 0xeebfffc8.
Proof.
  intros H. rewrite (uc_utr _ _ _ _ _ _ _ H).
  pose proof (fault_stacktop_range (tf_esp (env_tf v))) as Hr. unfold PGSIZE in Hr.
  change UXSTACKTOP with 0xeec00000 in Hr. lia.
Qed.

(** A page that user code may write passes the kernel's check. *)
Lemma page_ok_mmu m d va a :
  0 <= d < 0x100000000 -> d mod 4096 = 0 -> 0 <= va < ULIM ->
  mmu m d va true true = Some a ->
  page_ok m d (Z.lor (Z.lor PTE_U PTE_W) PTE_U) (va / 4096 * 4096) = true.
Proof.
  intros Hd Ha Hv Hm. change ULIM with 0xef800000 in Hv. unfold page_ok.
  change ULIM with 0xef800000. rewrite (proj2 (Z.ltb_lt _ _)) by zlia. cbn [andb].
  assert (PGNUM (va / 4096 * 4096) = PGNUM va) as En by (rewrite !PGNUM_div, !u32_small by zlia; zlia).
  destruct (proj1 (same_page_indexes _ _) En) as [Ed Et].
  assert (mapping m d (va / 4096 * 4096) = mapping m d va) as ->.
  { unfold mapping, pte, pte_addr, pde. by rewrite Ed, Et. }
  assert (PTE_ADDR d = d) as Epd by (rewrite PTE_ADDR_div, u32_small by lia; zlia).
  unfold mmu in Hm. rewrite Epd in Hm. destruct (mapping m d va) as [e|]; [|done].
  set (pd := pde m d va) in *. cbn [andb] in Hm.
  destruct (ctrue (Z.land (Z.land pd e) PTE_U)) eqn:Eu; cbn [negb] in Hm; [|done].
  destruct (ctrue (Z.land (Z.land pd e) PTE_W)) eqn:Ew; cbn [negb] in Hm; [|done].
  rewrite ctrue_true in Eu, Ew. apply Z.eqb_eq. change (Z.lor (Z.lor PTE_U PTE_W) PTE_U) with 6.
  assert (forall b, 0 <= b -> Z.land (Z.land pd e) (2 ^ b) <> 0 -> Z.testbit e b = true) as Hb.
  { intros b Hb H. destruct (Z.testbit e b) eqn:E; [done|]. destruct H.
    apply Z.bits_inj'. intros i Hi. rewrite !Z.land_spec, Z.bits_0, Z.pow2_bits_eqb by lia.
    destruct (b =? i) eqn:Eb; [|by rewrite andb_false_r]. bcomp. subst. by rewrite E, andb_false_r. }
  pose proof (Hb 2 ltac:(lia) Eu) as H2. pose proof (Hb 1 ltac:(lia) Ew) as H1.
  apply Z.bits_inj'. intros i Hi. rewrite Z.land_spec. change 6 with (Z.lor (2 ^ 1) (2 ^ 2)).
  rewrite Z.lor_spec, !Z.pow2_bits_eqb by lia.
  destruct (1 =? i) eqn:E1; bcomp; [subst; by rewrite H1|].
  destruct (2 =? i) eqn:E2; bcomp; [subst; by rewrite H2|]. by rewrite andb_false_r.
Qed.

Lemma user_mem_upcall s l d c v utr f :
  upcall_ok s l d c v utr f ->
  user_mem_assert c utr 56 (Z.lor PTE_U PTE_W) s = Ok tt s.
Proof.
  intros H. pose proof (utr_range _ _ _ _ _ _ _ H) as Hr. pose proof (uc_room _ _ _ _ _ _ _ H) as Hroom.
  pose proof (dw_range _ _ _ (uc_dir _ _ _ _ _ _ _ H)) as Hd.
  pose proof (wf_npages _ _ (uc_pages _ _ _ _ _ _ _ H)) as Hn. unfold MAXPAGES in Hn.
  unfold user_mem_assert.
  assert (user_mem_check c utr 56 (Z.lor (Z.lor PTE_U PTE_W) PTE_U) s = Ok 0 s) as E.
  { unfold user_mem_check. kstep (get_env_run s c v (uc_env _ _ _ _ _ _ _ H)).
    rewrite (uc_pgdir _ _ _ _ _ _ _ H). unfold PGSIZE. rewrite ROUNDDOWN_mul, u32_small by lia.
    assert (ROUNDUP (utr + 56) 4096 = utr / 4096 * 4096 + 4096) as ->.
    { pose proof (ROUNDUP_spec (utr + 56) 4096 ltac:(lia)) as Hu.
      rewrite u32_small in Hu by lia. destruct (Hu ltac:(lia)) as [H1 H2]. zlia. }
    replace ((utr / 4096 * 4096 + 4096 - utr / 4096 * 4096) / 4096) with 1 by zlia.
    destruct (user_mem_check_loop_run s l d utr (Z.lor (Z.lor PTE_U PTE_W) PTE_U) 1
      (utr / 4096 * 4096) (uc_pages _ _ _ _ _ _ _ H) (uc_dir _ _ _ _ _ _ _ H) ltac:(zlia)
      ltac:(zlia)) as [[_ Hok]|(k & Hk & Hbad & _)]; [exact Hok|].
    exfalso. assert (k = 0) as -> by lia. rewrite Z.add_0_r in Hbad.
    rewrite (page_ok_mmu (mem s) d utr (f + utr mod 4096)) in Hbad; [done|lia| | |].
    - apply (dw_aligned _ _ _ (uc_dir _ _ _ _ _ _ _ H)).
    - change ULIM with 0xef800000. lia.
    - apply (uc_frame _ _ _ _ _ _ _ H). }
  by kstep E.
Qed.

Lemma page_fault_pushes s l d c v utr f :
  upcall_ok s l d c v utr f ->
  exists s', page_fault_handler (TfEnv c) s =
      Leave (ToUser c (set_tf_esp utr (set_tf_eip (env_pgfault_upcall v) (env_tf v)))) s' /\
    mem s' = put_words (mem s) (f + utr mod 4096) (utf_words (upcall_frame s (env_tf v))) /\
    kernel_lock s' = mkSpinlock 0 None /\ cur s' = Some c.
Proof.
  intros H. pose proof (utr_range _ _ _ _ _ _ _ H) as Hr. pose proof (uc_room _ _ _ _ _ _ _ H) as Hroom.
  pose proof (uc_env _ _ _ _ _ _ _ H) as Hv. pose proof (uc_cur _ _ _ _ _ _ _ H) as Hc.
  pose proof (uc_dir _ _ _ _ _ _ _ H) as Hdir. pose proof (dw_range _ _ _ Hdir) as Hd.
  pose proof (wf_npages _ _ (uc_pages _ _ _ _ _ _ _ H)) as Hn. unfold MAXPAGES in Hn.
  unfold page_fault_handler. ksteps.
  assert (read_tf (TfEnv c) s = Ok (env_tf v) s) as Er by (unfold read_tf; by kstep (get_env_run s c v Hv)).
  kstep Er. rewrite (proj2 (Z.eqb_neq _ _) (uc_user _ _ _ _ _ _ _ H)). ksteps.
  kstep (curenv_ptr_run s c Hc). kstep (get_env_run s c v Hv).
  rewrite (proj2 (ctrue_true _) (uc_upcall _ _ _ _ _ _ _ H)). unfold kwhen at 1. cbv zeta. ksteps.
  change (sizeof_UTrapframe + 4) with 56. rewrite <- (uc_utr _ _ _ _ _ _ _ H), u32_small by lia.
  kstep (user_mem_upcall s l d c v utr f H). fold (upcall_frame s (env_tf v)).
  assert (page_at d utr f (mem s)) as Hpage.
  { split; [apply (uc_data _ _ _ _ _ _ _ H)|]. apply mmu_user_kernel, (uc_frame _ _ _ _ _ _ _ H). }
  assert (0 <= d < 0x100000000) as Hd32 by lia.
  pose proof (store_words_page d utr f (conj (dw_aligned _ _ _ Hdir) Hd32)
    (uc_aligned _ _ _ _ _ _ _ H) ltac:(lia) s 0 (utf_words (upcall_frame s (env_tf v)))
    (uc_cr3 _ _ _ _ _ _ _ H) Hpage ltac:(lia)) as Es.
  rewrite !Z.add_0_r, (u32_small utr) in Es by lia. change (4 * Z.of_nat (length _)) with 52 in Es.
  ksteps. kstep (Es ltac:(lia) ltac:(lia)). ksteps. set (s1 := set_mem _ s).
  assert (envs s1 !! c = Some v) as Hv1 by exact Hv.
  kstep (upd_env_run s1 c v (fun v => set_env_tf (set_tf_esp utr
    (set_tf_eip (env_pgfault_upcall v) (env_tf v))) v) Hv1).
  set (v1 := set_env_tf _ v). set (s2 := set_envs _ s1).
  destruct (cpus s !! cpunum s) as [i|] eqn:Hi; [|unfold cur in Hc; by rewrite Hi in Hc].
  assert (cpu_env i = Some c) as Hci by (unfold cur in Hc; by rewrite Hi in Hc).
  assert (cpus s2 !! cpunum s2 = Some i) as Hi2 by exact Hi.
  assert (envs s2 !! c = Some v1) as Hv2 by (simpl; by rewrite lookup_insert_eq).
  destruct (env_run_ok s2 i c v1 Hi2) as (s' & E & He); [|done| |apply (uc_lock _ _ _ _ _ _ _ H)|].
  { intros o Ho. rewrite Hci in Ho. injection Ho as <-. eauto. }
  { change (env_pgdir v1) with (env_pgdir v). rewrite (uc_pgdir _ _ _ _ _ _ _ H). lia. }
  exists s'. split; [by apply leave_bind|]. split; [by rewrite (en_mem _ _ _ He)|].
  split; [apply (en_lock _ _ _ He)|by apply (entered_cur s2)].
Qed.

(** C11: A user page fault is delivered on the exception stack and the return from the
    handler restores every register.  When the environment has an upcall and the
    frame fits a writable page of the exception stack (at its top, or below the
    stack pointer of the fault, a word apart, if the fault came from the handler
    itself), the kernel stores there the fault address, error code, registers,
    eip, eflags and esp, changes no other byte, and enters the environment at the
    upcall with the stack pointer at that frame.  In any later memory in which the
    frame is intact and the word below the old stack pointer can be written, the
    code at the end of the upcall ends with exactly the registers, eip, eflags and
    esp of the fault. *)
Theorem page_fault_upcall_resumes s l d c v utr f :
  upcall_ok s l d c v utr f ->
  (forall i w, utf_words (upcall_frame s (env_tf v)) !! i = Some w -> 0 <= w < 0x100000000) ->
  let u := upcall_frame s (env_tf v) in
  exists s', page_fault_handler (TfEnv c) s =
      Leave (ToUser c (set_tf_esp utr (set_tf_eip (env_pgfault_upcall v) (env_tf v)))) s' /\
    (forall i w, utf_words u !! i = Some w ->
       load32 (mem s') (f + utr mod 4096 + 4 * Z.of_nat i) = w) /\
    (forall x, ~ (f + utr mod 4096 <= x < f + utr mod 4096 + 52) ->
       load8 (mem s') x = load8 (mem s) x) /\
    (forall m g oesp, resumable m d utr f u g ->
       pgfault_return m d utr oesp = Some (with_return m u g, fault_regs u oesp)).
Proof.
  intros H Hwr u. destruct (page_fault_pushes s l d c v utr f H) as (s' & E & Em & _).
  pose proof (uc_dir _ _ _ _ _ _ _ H) as Hdir. pose proof (dw_range _ _ _ Hdir) as Hd.
  pose proof (wf_npages _ _ (uc_pages _ _ _ _ _ _ _ H)) as Hn. unfold MAXPAGES in Hn.
  exists s'. split; [exact E|]. split; [|split].
  - intros i w Hi. rewrite Em, (put_words_load32 _ _ _ i w Hi), u32_small; [done|by eapply Hwr].
  - intros x Hx. rewrite Em. apply put_words_load8. change (4 * Z.of_nat (length _)) with 52. lia.
  - intros m g oesp Hres. apply (pgfault_return_resumes m d utr f u g oesp); [|done|done].
    split; [apply (dw_aligned _ _ _ Hdir)|lia].
Qed.

(** ** Example

    Environment 0 faults at 0xdeadbeef with its stack in frame 2; frame 3 is the
    exception stack. *)

Definition up_mem : memory :=
  store32 (store32 (store32 ∅ (4 * 954) 0x1007) (0x1000 + 4 * 1023) 0x3007) (0x1000 + 4 * 1021) 0x2007.
Definition up_env : Env := set_env_tf timer_tf (set_env_pgfault_upcall 0x800100 run_env).
Definition up_state : kstate :=
  set_cr2 0xdeadbeef (set_mem up_mem (set_envs {[ 0 := up_env ]}
    (set_kernel_lock (mkSpinlock 1 (Some 0)) run_state))).

Lemma up_slot i : 0 <= i < 1024 ->
  load32 up_mem (slot 0 i) = if decide (i = 954) then 0x1007 else 0.
Proof.
  intros Hi. unfold up_mem. change (4 * 954) with (slot 0 954).
  change (0x1000 + 4 * 1023) with (slot 0x1000 1023).
  change (0x1000 + 4 * 1021) with (slot 0x1000 1021).
  rewrite !load_slot_store by (done || lia).
  rewrite !(decide_False (P := _ /\ _)) by lia. case_decide as E1; case_decide as E2;
    reflexivity || apply load32_empty || (exfalso; lia).
Qed.

Lemma up_pgdir : pgdir_wf up_state [5; 4] 0.
Proof.
  assert (forall i, 0 <= i < 1024 -> load32 (mem up_state) (slot 0 i) =
    if decide (i = 954) then 0x1007 else 0) as Hs by exact up_slot.
  split.
  - reflexivity.
  - simpl. lia.
  - change (0 / 4096) with 0. rewrite !not_elem_of_cons. auto using not_elem_of_nil.
  - intros i Hi. rewrite Hs by done. case_decide; [|discriminate].
    intros _. change (PTE_ADDR 0x1007 / 4096) with 1. split; [reflexivity|].
    rewrite !not_elem_of_cons. auto using not_elem_of_nil.
  - intros i Hi _. rewrite Hs by done. case_decide; [|discriminate].
    intros _. vm_compute. congruence.
  - intros i j Hi Hj _ _ Hne. rewrite !Hs by done.
    case_decide; [|discriminate]. case_decide; [lia|discriminate].
Qed.

Lemma up_ok : upcall_ok up_state [5; 4] 0 0 up_env 0xeebfffc8 0x3000.
Proof.
  split; try reflexivity.
  - eapply pages_wf_ext; [exact (proj1 run_state_wf)|reflexivity..].
  - exact up_pgdir.
  - discriminate.
  - discriminate.
  - split; vm_compute; congruence.
Qed.

Definition up_words : list Z := utf_words (upcall_frame up_state timer_tf).

Lemma page_fault_upcall_resumes_witness :
  exists s', page_fault_handler (TfEnv 0) up_state =
      Leave (ToUser 0 (set_tf_esp 0xeebfffc8 (set_tf_eip 0x800100 timer_tf))) s' /\
    load32 (mem s') 0x3fc8 = 0xdeadbeef /\
    (exists m, pgfault_return (put_words up_mem 0x3fc8 up_words) 0 0xeebfffc8 0 =
      Some (m, mkUregs (mkPushRegs 1 2 3 0 5 6 7 8) 0x800020 0x202 0xeebfdf00)).
Proof.
  assert (forall i w, utf_words (upcall_frame up_state (env_tf up_env)) !! i = Some w ->
    0 <= w < 0x100000000) as Hr.
  { intros i w Hi. do 13 (destruct i as [|i]; [injection Hi as <-; vm_compute; split; congruence|]).
    discriminate Hi. }
  destruct (page_fault_upcall_resumes up_state [5; 4] 0 0 up_env 0xeebfffc8 0x3000 up_ok Hr)
    as (s' & E & Hw & _ & Hres).
  exists s'. split; [exact E|]. split; [exact (Hw O 0xdeadbeef eq_refl)|].
  eexists. apply (Hres _ 0x2000 0). split.
  - vm_compute. split; [congruence|]. split; congruence.
  - vm_compute. reflexivity.
  - intros i w Hi. do 13 (destruct i as [|i]; [injection Hi as <-; vm_compute; reflexivity|]).
    discriminate Hi.
  - split; reflexivity.
  - vm_compute. congruence.
  - vm_compute. reflexivity.
  - vm_compute. split; split; congruence.
  - cbv zeta. left. vm_compute. congruence.
Defined.
