(* ===== verification/Ulib.v ===== *)
(** * Ulib: the user library, lib/*.c

    The functions of the user library run in user mode: they reach memory through
    the page tables with user permission, and the kernel through one gate, the
    instruction [int $T_SYSCALL].  The gate is the interface between the two, the
    class [SystemCalls].  [kernel_gate] is the kernel's dispatcher.  [gate] is the
    same dispatcher with its switch as a parameter: [kernel_gate_switch] shows that
    the repository's is [gate kernel_switch], which refuses every call of lab 4 and
    drops the results of the others, and the theorems about fork and its fault
    handler say what that does, and which cases the switch lacks for them to work.

    The globals of the library are words of user memory, at addresses that the
    linker chooses. *)

From S2P Require Import Prelude Layout Segments Memory CString Printfmt Kernel PageAlloc PageTable Env Sched Syscall Trap Upcall.

(** ** The gate *)

(** [int30 num a1 a2 a3 a4 a5]: eax = [num], edx = [a1], ecx = [a2], ebx = [a3],
    edi = [a4], esi = [a5]; the result is eax as an int when the caller goes on. *)
Class SystemCalls := int30 : Z -> Z -> Z -> Z -> Z -> Z -> K Z.

(** The kernel's dispatcher; [Trap.trap_syscall_returns] says how a trap carries its
    arguments and its result. *)
Definition kernel_gate (fuel : nat) : SystemCalls := syscall fuel.

(** The handler of a call, with the arguments that the dispatcher passes on. *)
Definition handler (fuel : nat) (n a1 a2 a3 a4 a5 : Z) : K Z :=
  if n =? SYS_cputs then _ ← sys_cputs fuel a1 a2; mret 0
  else if n =? SYS_cgetc then sys_cgetc
  else if n =? SYS_getenvid then sys_getenvid
  else if n =? SYS_env_destroy then sys_env_destroy (s32 a1)
  else if n =? SYS_page_alloc then sys_page_alloc (s32 a1) a2 a3
  else if n =? SYS_page_map then sys_page_map (s32 a1) a2 (s32 a3) a4 a5
  else if n =? SYS_page_unmap then sys_page_unmap (s32 a1) a2
  else if n =? SYS_exofork then sys_exofork
  else if n =? SYS_env_set_status then sys_env_set_status (s32 a1) a2
  else if n =? SYS_env_set_pgfault_upcall then sys_env_set_pgfault_upcall (s32 a1) a2
  else if n =? SYS_yield then _ ← sys_yield; mret 0
  else if n =? SYS_ipc_try_send then sys_ipc_try_send (s32 a1) a2 a3 a4
  else if n =? SYS_ipc_recv then sys_ipc_recv a1
  else mret 0.

(** What a switch over the call numbers does with a call: return what its handler
    returns, drop that and return 0, or take the default case. *)
Inductive reply := Served | Dropped | Refused.

Definition gate (switch : Z -> reply) (fuel : nat) : SystemCalls :=
  fun n a1 a2 a3 a4 a5 =>
    match switch n with
    | Served => handler fuel n a1 a2 a3 a4 a5
    | Dropped => _ ← handler fuel n a1 a2 a3 a4 a5; mret 0
    | Refused => mret (- E_INVAL)
    end.

(** The switch of kern/syscall.c. *)
Definition kernel_switch (n : Z) : reply :=
  if (n =? SYS_cgetc) || (n =? SYS_cputs) || (n =? SYS_getenvid) || (n =? SYS_env_destroy)
     || (n =? SYS_yield) || (n =? NSYSCALLS)
  then Dropped else Refused.

Lemma kernel_gate_switch fuel n a1 a2 a3 a4 a5 s :
  int30 (SystemCalls := kernel_gate fuel) n a1 a2 a3 a4 a5 s =
  int30 (SystemCalls := gate kernel_switch fuel) n a1 a2 a3 a4 a5 s.
Proof.
  unfold int30, kernel_gate, gate, kernel_switch, Syscall.syscall.
  destruct (Z.eqb_spec n SYS_cgetc) as [->|]; [reflexivity|].
  destruct (Z.eqb_spec n SYS_cputs) as [->|].
  { cbn [orb]. unfold handler. cbn [Z.eqb SYS_cputs]. by rewrite bind_assoc. }
  destruct (Z.eqb_spec n SYS_getenvid) as [->|]; [reflexivity|].
  destruct (Z.eqb_spec n SYS_env_destroy) as [->|]; [reflexivity|].
  destruct (Z.eqb_spec n SYS_yield) as [->|].
  { unfold handler. cbn [orb Z.eqb Pos.eqb SYS_yield SYS_cputs SYS_cgetc SYS_getenvid SYS_env_destroy
      SYS_page_alloc SYS_page_map SYS_page_unmap SYS_exofork SYS_env_set_status SYS_env_set_pgfault_upcall].
    by rewrite bind_assoc. }
  destruct (Z.eqb_spec n NSYSCALLS) as [->|]; reflexivity.
Qed.

(** The calls of the fault handler of fork, and those of fork. *)
Definition pgfault_calls : list Z := [SYS_page_map; SYS_page_alloc; SYS_page_unmap].
Definition fork_calls : list Z :=
  pgfault_calls ++ [SYS_exofork; SYS_env_set_pgfault_upcall; SYS_env_set_status].

(** Membership in a literal list. *)
Ltac in_list := repeat first [apply list_elem_of_here | apply list_elem_of_further].

(** A gate through which a call reaches its handler, and its result the caller. *)
Class Reaches (C : SystemCalls) (fuel : nat) (n : Z) : Prop :=
  reaches : forall a1 a2 a3 a4 a5, int30 n a1 a2 a3 a4 a5 = handler fuel n a1 a2 a3 a4 a5.

Lemma gate_reaches switch fuel n : switch n = Served -> Reaches (gate switch fuel) fuel n.
Proof. intros H a1 a2 a3 a4 a5. unfold int30, gate. by rewrite H. Qed.

Section Reaches.
Context {C : SystemCalls} {fuel : nat}.

Lemma call_page_alloc `{!Reaches C fuel SYS_page_alloc} a1 a2 a3 a4 a5 :
  int30 SYS_page_alloc a1 a2 a3 a4 a5 = sys_page_alloc (s32 a1) a2 a3.
Proof. exact (reaches a1 a2 a3 a4 a5). Qed.
Lemma call_page_map `{!Reaches C fuel SYS_page_map} a1 a2 a3 a4 a5 :
  int30 SYS_page_map a1 a2 a3 a4 a5 = sys_page_map (s32 a1) a2 (s32 a3) a4 a5.
Proof. exact (reaches a1 a2 a3 a4 a5). Qed.
Lemma call_page_unmap `{!Reaches C fuel SYS_page_unmap} a1 a2 a3 a4 a5 :
  int30 SYS_page_unmap a1 a2 a3 a4 a5 = sys_page_unmap (s32 a1) a2.
Proof. exact (reaches a1 a2 a3 a4 a5). Qed.
Lemma call_env_set_status `{!Reaches C fuel SYS_env_set_status} a1 a2 a3 a4 a5 :
  int30 SYS_env_set_status a1 a2 a3 a4 a5 = sys_env_set_status (s32 a1) a2.
Proof. exact (reaches a1 a2 a3 a4 a5). Qed.
Lemma call_env_set_pgfault_upcall `{!Reaches C fuel SYS_env_set_pgfault_upcall} a1 a2 a3 a4 a5 :
  int30 SYS_env_set_pgfault_upcall a1 a2 a3 a4 a5 = sys_env_set_pgfault_upcall (s32 a1) a2.
Proof. exact (reaches a1 a2 a3 a4 a5). Qed.
End Reaches.

(** ** User memory *)

Definition uread32 (va : Z) : K Z := fun s =>
  match uload32 (mem s) (cr3 s) va with
  | Some v => Ok v s
  | None => Leave (UserFault va) s
  end.
Definition uwrite32 (va v : Z) : K unit := fun s =>
  match ustore32 (mem s) (cr3 s) va v with
  | Some m => Ok tt (set_mem m s)
  | None => Leave (UserFault va) s
  end.
Definition uread8 (va : Z) : K Z := fun s =>
  match mmu (mem s) (cr3 s) va true false with
  | Some a => Ok (load8 (mem s) a) s
  | None => Leave (UserFault va) s
  end.
Definition uwrite8 (va v : Z) : K unit := fun s =>
  match mmu (mem s) (cr3 s) va true true with
  | Some a => Ok tt (set_mem (store8 (mem s) a v) s)
  | None => Leave (UserFault va) s
  end.

(** The string instructions of memmove (lib/string.c) on user memory. *)
Fixpoint urep_movsl (dir d s : Z) (n : nat) : K unit :=
  match n with
  | O => mret tt
  | S n' => w ← uread32 s; _ ← uwrite32 d w; urep_movsl dir (u32 (d + 4 * dir)) (u32 (s + 4 * dir)) n'
  end.
Fixpoint urep_movsb (dir d s : Z) (n : nat) : K unit :=
  match n with
  | O => mret tt
  | S n' => b ← uread8 s; _ ← uwrite8 d b; urep_movsb dir (u32 (d + dir)) (u32 (s + dir)) n'
  end.
Definition umemmove (dst src n : Z) : K unit :=
  if (src <? dst) && (u32 (src + n) >? dst) then
    let s := u32 (src + n) in
    let d := u32 (dst + n) in
    if int_aligned4 s && int_aligned4 d && (n mod 4 =? 0)
    then urep_movsl (-1) (u32 (d - 4)) (u32 (s - 4)) (Z.to_nat (n / 4))
    else urep_movsb (-1) (u32 (d - 1)) (u32 (s - 1)) (Z.to_nat n)
  else
    if int_aligned4 src && int_aligned4 dst && (n mod 4 =? 0)
    then urep_movsl 1 dst src (Z.to_nat (n / 4))
    else urep_movsb 1 dst src (Z.to_nat n).

(** ** lib/printf.c

    [out] is what sys_cputs was given, call by call. *)

Record printbuf := mkPrintbuf {
  pb_idx : Z;
  pb_cnt : Z;
  pb_buf : list Z;             (* char buf[256] *)
  pb_out : list (list Z);
}.
Definition PRINTBUF : Z := 256.
Definition pb_cputs (b : printbuf) : list (list Z) :=
  pb_out b ++ [take (Z.to_nat (pb_idx b)) (pb_buf b)].

Definition putch (ch : Z) (b : printbuf) : printbuf :=
  let b := mkPrintbuf (pb_idx b + 1) (pb_cnt b) (<[Z.to_nat (pb_idx b) := u8 ch]> (pb_buf b)) (pb_out b) in
  let b := if pb_idx b =? 256 - 1
           then mkPrintbuf 0 (pb_cnt b) (pb_buf b) (pb_cputs b) else b in
  mkPrintbuf (pb_idx b) (pb_cnt b + 1) (pb_buf b) (pb_out b).

(** The result and the calls of sys_cputs; [buf0] is what the stack held. *)
Definition vcprintf (buf0 : list Z) (getb : Z -> Z) (fuel : nat) (fmt : list Z) (ap : va_list)
    : fmt_result (Z * list (list Z)) :=
  match vprintfmt putch (fun _ => getb) fuel fmt ap (mkPrintbuf 0 0 buf0 []) with
  | Done b => Done (pb_cnt b, pb_cputs b)
  | NoArg => NoArg
  | Printfmt.NoFuel => Printfmt.NoFuel
  end.
Definition cprintf : list Z -> (Z -> Z) -> nat -> list Z -> va_list -> fmt_result (Z * list (list Z)) :=
  vcprintf.

(** ** The library *)

Definition env_type_num (t : EnvType) : Z := match t with ENV_TYPE_USER => 0 end.

Section Lib.
Context {C : SystemCalls}.
(** The addresses of [thisenv], [_pgfault_handler] and [binaryname], of the functions
    [pgfault] and [_pgfault_upcall], and of a byte on the stack. *)
Context (thisenv _pgfault_handler binaryname pgfault_fn _pgfault_upcall stack_byte : Z).

(** *** lib/panic.c and lib/syscall.c *)

(** The message goes out through cprintf; then int3, forever. *)
Definition _panic {A} (msg : string) : K A :=
  _ ← int30 SYS_getenvid 0 0 0 0 0;
  leave (UserPanic msg).

Definition syscall (num : Z) (check : bool) (a1 a2 a3 a4 a5 : Z) : K Z :=
  ret ← int30 num a1 a2 a3 a4 a5;
  if check && (ret >? 0) then _panic "syscall %d returned %d (> 0)" else mret ret.

Definition sys_cputs (s len : Z) : K unit := _ ← syscall SYS_cputs false s len 0 0 0; mret tt.
Definition sys_cgetc : K Z := syscall SYS_cgetc false 0 0 0 0 0.
Definition sys_env_destroy (envid : Z) : K Z := syscall SYS_env_destroy true (u32 envid) 0 0 0 0.
Definition sys_getenvid : K Z := syscall SYS_getenvid false 0 0 0 0 0.
Definition sys_yield : K unit := _ ← syscall SYS_yield false 0 0 0 0 0; mret tt.
Definition sys_page_alloc (envid va perm : Z) : K Z :=
  syscall SYS_page_alloc true (u32 envid) va (u32 perm) 0 0.
Definition sys_page_map (srcenv srcva dstenv dstva perm : Z) : K Z :=
  syscall SYS_page_map true (u32 srcenv) srcva (u32 dstenv) dstva (u32 perm).
Definition sys_page_unmap (envid va : Z) : K Z := syscall SYS_page_unmap true (u32 envid) va 0 0 0.
Definition sys_env_set_status (envid status : Z) : K Z :=
  syscall SYS_env_set_status true (u32 envid) (u32 status) 0 0 0.
Definition sys_env_set_pgfault_upcall (envid upcall : Z) : K Z :=
  syscall SYS_env_set_pgfault_upcall true (u32 envid) upcall 0 0 0.
Definition sys_ipc_try_send (envid value srcva perm : Z) : K Z :=
  syscall SYS_ipc_try_send false (u32 envid) value srcva (u32 perm) 0.
Definition sys_ipc_recv (dstva : Z) : K Z := syscall SYS_ipc_recv true dstva 0 0 0 0.
(** inc/lib.h: only eax is set; the handler reads no argument. *)
Definition sys_exofork : K Z := int30 SYS_exofork 0 0 0 0 0.

(** *** lib/exit.c, lib/console.c *)

Definition exit : K unit := _ ← sys_env_destroy 0; mret tt.

Definition cputchar (ch : Z) : K unit := _ ← uwrite8 stack_byte ch; sys_cputs stack_byte 1.

(** One unit of fuel per character that was not there yet. *)
Fixpoint getchar (fuel : nat) : K Z :=
  match fuel with
  | O => leave NoFuel
  | S fuel' => r ← sys_cgetc; if r =? 0 then _ ← sys_yield; getchar fuel' else mret r
  end.

(** *** The environment records at UENVS *)

Definition env_ptr (i : Z) : Z := UENVS + sizeof_Env * i.
(** [thisenv->...]. *)
Definition thisenv_rec : K Env :=
  p ← uread32 thisenv;
  if (UENVS <=? p) && (p <? env_ptr NENV) && ((p - UENVS) mod sizeof_Env =? 0)
  then get_env ((p - UENVS) / sizeof_Env)
  else undefined.

(** *** lib/libmain.c *)

Definition libmain (umain : Z -> Z -> K unit) (argc argv : Z) : K unit :=
  envid ← sys_getenvid;
  _ ← uwrite32 thisenv (env_ptr (ENVX envid));
  _ ← kwhen (s32 argc >? 0) (p ← uread32 argv; uwrite32 binaryname p);
  _ ← umain argc argv;
  exit.

(** *** lib/ipc.c *)

Definition ipc_recv (from_env_store pg perm_store : Z) : K Z :=
  let pg := if pg =? 0 then 0xffffffff else pg in
  r ← sys_ipc_recv pg;
  if r <? 0 then
    _ ← kwhen (negb (from_env_store =? 0)) (uwrite32 from_env_store 0);
    _ ← kwhen (negb (perm_store =? 0)) (uwrite32 perm_store 0);
    mret r
  else
    _ ← kwhen (negb (from_env_store =? 0)) (v ← thisenv_rec; uwrite32 from_env_store (env_ipc_from v));
    _ ← kwhen (negb (perm_store =? 0)) (v ← thisenv_rec; uwrite32 perm_store (env_ipc_perm v));
    v ← thisenv_rec;
    mret (s32 (env_ipc_value v)).

Fixpoint ipc_send (fuel : nat) (to_env val pg perm : Z) : K unit :=
  let pg' := if pg =? 0 then 0xffffffff else pg in
  match fuel with
  | O => leave NoFuel
  | S fuel' =>
      r ← sys_ipc_try_send to_env val pg' perm;
      if r =? 0 then mret tt
      else if r =? - E_IPC_NOT_RECV then _ ← sys_yield; ipc_send fuel' to_env val pg perm
      else _panic "ipc_send():%e"
  end.

Fixpoint find_env (n : nat) (i type : Z) : K Z :=
  match n with
  | O => mret 0
  | S n' =>
      v ← get_env i;
      if env_type_num (env_type v) =? type then mret (env_id v) else find_env n' (i + 1) type
  end.
Definition ipc_find_env (type : Z) : K Z := find_env (Z.to_nat NENV) 0 type.

(** *** lib/pgfault.c *)

Definition set_pgfault_handler (handler : Z) : K unit :=
  h ← uread32 _pgfault_handler;
  _ ← kwhen (h =? 0)
        (eid ← sys_getenvid;
         r ← sys_page_alloc eid (UXSTACKTOP - PGSIZE) (Z.lor (Z.lor PTE_U PTE_P) PTE_W);
         if r <? 0 then _panic "set_pgfault_handler: %e"
         else
           r ← sys_env_set_pgfault_upcall eid _pgfault_upcall;
           if r <? 0 then _panic "set_pgfault_handler: %e" else mret tt);
  uwrite32 _pgfault_handler handler.

(** *** lib/fork.c *)

Definition PTE_COW : Z := 0x800.
Definition PTE_SHARE : Z := 0x400.

Definition pgfault (utf : UTrapframe) : K unit :=
  let addr := utf_fault_va utf in
  let err := utf_err utf in
  cow ← (if ctrue (Z.land err FEC_WR) then
           e ← uread32 (uvpt (PGNUM addr)); mret (ctrue (Z.land e PTE_COW))
         else mret false);
  if negb cow then _panic "pgfault():not cow"
  else
    let addr := ROUNDDOWN addr PGSIZE in
    r ← sys_page_map 0 addr 0 PFTEMP (Z.lor PTE_U PTE_P);
    if r <? 0 then _panic "sys_page_map: %e"
    else
      r ← sys_page_alloc 0 addr (Z.lor (Z.lor PTE_P PTE_U) PTE_W);
      if r <? 0 then _panic "sys_page_alloc: %e"
      else
        _ ← umemmove addr PFTEMP PGSIZE;
        r ← sys_page_unmap 0 PFTEMP;
        if r <? 0 then _panic "sys_page_unmap: %e" else mret tt.

Definition duppage (envid pn : Z) : K Z :=
  let addr := u32 (pn * PGSIZE) in
  e ← uread32 (uvpt pn);
  if ctrue (Z.land e PTE_SHARE) then
    _ ← sys_page_map 0 addr envid addr PTE_SYSCALL; mret 0
  else
    cow ← (if ctrue (Z.land e PTE_W) then mret true
           else e ← uread32 (uvpt pn); mret (ctrue (Z.land e PTE_COW)));
    if cow : bool then
      let perm := Z.lor (Z.lor PTE_COW PTE_U) PTE_P in
      r ← sys_page_map 0 addr envid addr perm;
      if r <? 0 then _panic "sys_page_map：%e"
      else
        r ← sys_page_map 0 addr 0 addr perm;
        if r <? 0 then _panic "sys_page_map：%e" else mret 0
    else
      _ ← sys_page_map 0 addr envid addr (Z.lor PTE_U PTE_P); mret 0.

(** [uvpd[PDX(addr)] & PTE_P && uvpt[PGNUM(addr)] & PTE_P && ... & PTE_U]. *)
Definition fork_copies (addr : Z) : K bool :=
  d ← uread32 (uvpd (PDX addr));
  if negb (ctrue (Z.land d PTE_P)) then mret false
  else
    e ← uread32 (uvpt (PGNUM addr));
    if negb (ctrue (Z.land e PTE_P)) then mret false
    else
      e ← uread32 (uvpt (PGNUM addr));
      mret (ctrue (Z.land e PTE_U)).

Definition fork : K Z :=
  _ ← set_pgfault_handler pgfault_fn;
  envid ← sys_exofork;
  if envid =? 0 then
    id ← sys_getenvid;
    _ ← uwrite32 thisenv (env_ptr (ENVX id));
    mret 0
  else if envid <? 0 then _panic "sys_exofork: %e"
  else
    _ ← kfor (Z.to_nat (USTACKTOP / PGSIZE)) 0 (fun i =>
          let addr := i * PGSIZE in
          b ← fork_copies addr;
          kwhen b (_ ← duppage envid (PGNUM addr); mret tt));
    r ← sys_page_alloc envid (UXSTACKTOP - PGSIZE) (Z.lor (Z.lor PTE_P PTE_W) PTE_U);
    if r <? 0 then _panic "sys_page_alloc: %e"
    else
      _ ← sys_env_set_pgfault_upcall envid _pgfault_upcall;
      r ← sys_env_set_status envid 2;
      if r <? 0 then _panic "sys_env_set_status: %e" else mret envid.

Definition sfork : K Z := _panic "sfork not implemented".
End Lib.

(** ** cprintf *)

(** What has been put: full chunks are out, the rest is in the buffer. *)
Record printbuf_ok (l : list Z) (b : printbuf) : Prop := {
  pk_idx : 0 <= pb_idx b < PRINTBUF - 1;
  pk_buf : length (pb_buf b) = Z.to_nat PRINTBUF;
  pk_cnt : pb_cnt b = Z.of_nat (length l);
  pk_full : Forall (fun c => length c = 255%nat) (pb_out b);
  pk_all : concat (pb_out b) ++ take (Z.to_nat (pb_idx b)) (pb_buf b) = u8 <$> l;
}.

Lemma putch_ok l b c : printbuf_ok l b -> printbuf_ok (l ++ [c]) (putch c b).
Proof.
  intros [Hi Hb Hc Hf Ha]. unfold PRINTBUF in *. destruct b as [i n buf out]. cbn in *.
  assert (take (Z.to_nat (i + 1)) (<[Z.to_nat i:=u8 c]> buf) = take (Z.to_nat i) buf ++ [u8 c]) as Et.
  { rewrite Z2Nat.inj_add, Nat.add_1_r by lia. erewrite take_S_r.
    - rewrite take_insert_ge by lia. done.
    - apply list_lookup_insert_eq. lia. }
  unfold putch, pb_cputs. cbn [pb_idx pb_cnt pb_buf pb_out].
  destruct (Z.eqb_spec (i + 1) (256 - 1)) as [E|E]; split; cbn [pb_idx pb_cnt pb_buf pb_out];
    unfold PRINTBUF; try lia.
  - by rewrite length_insert.
  - rewrite length_app. cbn. lia.
  - apply Forall_app. split; [done|]. constructor; [|done].
    rewrite Et, length_app, length_take. cbn. lia.
  - rewrite concat_app, fmap_app, <- Ha, Et. cbn. by rewrite !app_nil_r, <- !app_assoc.
  - by rewrite length_insert.
  - rewrite length_app. cbn. lia.
  - done.
  - by rewrite Et, fmap_app, <- Ha, <- app_assoc.
Qed.

(** The user's cprintf prints what it formats, in as few system calls as its
    buffer allows.  When the formatting ends, the calls of sys_cputs carry, one
    after the other, exactly the bytes of the formatted characters; every call but
    the last carries 255 of them and the last one fewer, so that output of less
    than 255 characters is one call; and the result is the number of characters. *)
Theorem cprintf_chunks buf0 getb fuel fmt ap n calls :
  length buf0 = Z.to_nat PRINTBUF ->
  cprintf buf0 getb fuel fmt ap = Done (n, calls) ->
  exists l full last, vprintfmt collect (fun _ => getb) fuel fmt ap [] = Done l /\
    calls = full ++ [last] /\ concat calls = (u8 <$> l) /\
    Forall (fun c => length c = 255%nat) full /\ (length last < 255)%nat /\
    n = Z.of_nat (length l).
Proof.
  intros Hlen. unfold cprintf, vcprintf.
  pose proof (vprintfmt_sim putch (fun _ => getb) collect (fun _ => getb)
    (fun b l => printbuf_ok l b)) as Hsim.
  specialize (Hsim (fun c b l H => putch_ok l b c H) (fun _ _ _ _ => eq_refl) fuel fmt ap
    (mkPrintbuf 0 0 buf0 []) []).
  destruct (vprintfmt putch _ _ _ _ _) as [b| |]; [|by intros..]. intros [= <- <-].
  destruct (vprintfmt collect _ _ _ _ _) as [l| |]; [|exfalso; apply Hsim; by split..].
  destruct Hsim as [Hi Hb Hc Hf Ha]; [by split|]. unfold PRINTBUF in *.
  exists l, (pb_out b), (take (Z.to_nat (pb_idx b)) (pb_buf b)). unfold pb_cputs.
  split; [done|]. split; [done|]. split; [by rewrite concat_app, <- Ha; cbn; rewrite app_nil_r|].
  split; [done|]. split; [rewrite length_take; lia|done].
Qed.

(** ** The library on the repository's dispatcher *)

Lemma kernel_getenvid fuel s c v :
  cur s = Some c -> envs s !! c = Some v ->
  int30 (SystemCalls := kernel_gate fuel) SYS_getenvid 0 0 0 0 0 s = Ok 0 s.
Proof.
  intros Hc Hv. unfold int30, kernel_gate, Syscall.syscall. cbn [SYS_getenvid SYS_cgetc SYS_cputs Z.eqb Pos.eqb].
  unfold Syscall.sys_getenvid. ksteps. kstep (curenv_ptr_run s c Hc). ksteps.
  by kstep (get_env_run s c v Hv).
Qed.

(** Whatever the switch, sys_getenvid comes back and changes nothing. *)
Lemma gate_panic {A} switch fuel s c v msg :
  cur s = Some c -> envs s !! c = Some v ->
  _panic (C := gate switch fuel) (A := A) msg s = Leave (UserPanic msg) s.
Proof.
  intros Hc Hv. assert (handler fuel SYS_getenvid 0 0 0 0 0 s = Ok (env_id v) s) as E.
  { change (Syscall.sys_getenvid s = Ok (env_id v) s). unfold Syscall.sys_getenvid.
    kstep (curenv_ptr_run s c Hc). by kstep (get_env_run s c v Hv). }
  unfold _panic, int30, gate. destruct (switch SYS_getenvid).
  - by kstep E.
  - rewrite bind_assoc. by kstep E.
  - by ksteps.
Qed.

Lemma kernel_panic {A} fuel s c v msg :
  cur s = Some c -> envs s !! c = Some v ->
  _panic (C := kernel_gate fuel) (A := A) msg s = Leave (UserPanic msg) s.
Proof. intros Hc Hv. unfold _panic. by kstep (kernel_getenvid fuel s c v Hc Hv). Qed.

(** A call of lab 4: refused without a look at its arguments. *)
Lemma kernel_refuses fuel n check a1 a2 a3 a4 a5 s :
  n ∈ [SYS_page_alloc; SYS_page_map; SYS_page_unmap; SYS_exofork; SYS_env_set_status;
       SYS_env_set_pgfault_upcall; SYS_ipc_try_send; SYS_ipc_recv] ->
  syscall (C := kernel_gate fuel) n check a1 a2 a3 a4 a5 s = Ok (- E_INVAL) s.
Proof.
  intros Hn. unfold syscall.
  assert (int30 (SystemCalls := kernel_gate fuel) n a1 a2 a3 a4 a5 s = Ok (- E_INVAL) s) as E.
  { rewrite !elem_of_cons, elem_of_nil in Hn. repeat (destruct Hn as [->|Hn]; [reflexivity|]). done. }
  kstep E. by rewrite andb_false_r.
Qed.

(** fork panics before it makes a child. *)
Lemma fork_on_kernel fuel thisenv handler pf upcall s c v :
  cur s = Some c -> envs s !! c = Some v -> uload32 (mem s) (cr3 s) handler = Some 0 ->
  fork (C := kernel_gate fuel) thisenv handler pf upcall s = Leave (UserPanic "set_pgfault_handler: %e") s.
Proof.
  intros Hc Hv Hh.
  assert (syscall (C := kernel_gate fuel) SYS_getenvid false 0 0 0 0 0 s = Ok 0 s) as Eg
    by (unfold syscall; by kstep (kernel_getenvid fuel s c v Hc Hv)).
  unfold fork, set_pgfault_handler. rewrite !bind_assoc.
  assert (uread32 handler s = Ok 0 s) as Eh by (unfold uread32; by rewrite Hh).
  kstep Eh. cbn [Z.eqb kwhen]. rewrite !bind_assoc. kstep Eg. rewrite !bind_assoc.
  assert (forall a b c, sys_page_alloc (C := kernel_gate fuel) a b c s = Ok (- E_INVAL) s) as Ea
    by (intros; apply kernel_refuses; in_list).
  kstep (Ea 0 (UXSTACKTOP - PGSIZE) (Z.lor (Z.lor PTE_U PTE_P) PTE_W)).
  change (- E_INVAL <? 0) with true. cbv iota. unfold mbind, K_bind.
  by rewrite (kernel_panic fuel s c v _ Hc Hv).
Qed.

(** On the repository's dispatcher the library of lab 4 cannot work.  For a program
    that has not set a page fault handler, fork panics in set_pgfault_handler before
    it makes a child; ipc_send panics; ipc_recv returns -E_INVAL after it stored 0
    through the pointers it was given; and libmain, since sys_getenvid yields 0 for
    every caller, points [thisenv] to the first record of [envs] whoever runs, and
    runs the program.  None of these changes anything in the kernel. *)
Theorem library_on_kernel fuel thisenv handler name pf upcall s c v :
  cur s = Some c -> envs s !! c = Some v -> uload32 (mem s) (cr3 s) handler = Some 0 ->
  fork (C := kernel_gate fuel) thisenv handler pf upcall s = Leave (UserPanic "set_pgfault_handler: %e") s /\
  (forall n to_env val pg perm,
     ipc_send (C := kernel_gate fuel) (S n) to_env val pg perm s = Leave (UserPanic "ipc_send():%e") s) /\
  (forall pg, ipc_recv (C := kernel_gate fuel) thisenv 0 pg 0 s = Ok (- E_INVAL) s) /\
  (forall from pg perm, from <> 0 -> perm <> 0 ->
     ipc_recv (C := kernel_gate fuel) thisenv from pg perm s =
       (_ ← uwrite32 from 0; _ ← uwrite32 perm 0; mret (- E_INVAL)) s) /\
  (forall umain argv, libmain (C := kernel_gate fuel) thisenv name umain 0 argv s =
     (_ ← uwrite32 thisenv UENVS; _ ← umain 0 argv; exit (C := kernel_gate fuel)) s).
Proof.
  intros Hc Hv Hh.
  assert (syscall (C := kernel_gate fuel) SYS_getenvid false 0 0 0 0 0 s = Ok 0 s) as Eg
    by (unfold syscall; by kstep (kernel_getenvid fuel s c v Hc Hv)).
  assert (forall n check a1 a2 a3 a4 a5, n ∈ [SYS_page_alloc; SYS_page_map; SYS_page_unmap; SYS_exofork;
    SYS_env_set_status; SYS_env_set_pgfault_upcall; SYS_ipc_try_send; SYS_ipc_recv] ->
    syscall (C := kernel_gate fuel) n check a1 a2 a3 a4 a5 s = Ok (- E_INVAL) s) as Er
    by (intros; by apply kernel_refuses).
  assert (forall pg, sys_ipc_recv (C := kernel_gate fuel) pg s = Ok (- E_INVAL) s) as Erecv
    by (intros pg; apply Er; in_list).
  split; [|split; [|split; [|split]]].
  - by apply (fork_on_kernel fuel thisenv handler pf upcall s c v).
  - intros n to_env val pg perm. cbn [ipc_send]. set (pg' := if pg =? 0 then _ else _).
    assert (sys_ipc_try_send (C := kernel_gate fuel) to_env val pg' perm s = Ok (- E_INVAL) s) as Es
      by (apply Er; in_list).
    kstep Es. by apply (kernel_panic fuel s c v).
  - intros pg. unfold ipc_recv. by kstep (Erecv (if pg =? 0 then 0xffffffff else pg)).
  - intros from pg perm Hf Hp. unfold ipc_recv. kstep (Erecv (if pg =? 0 then 0xffffffff else pg)).
    change (- E_INVAL <? 0) with true. cbv iota.
    by rewrite (proj2 (Z.eqb_neq from 0) Hf), (proj2 (Z.eqb_neq perm 0) Hp).
  - intros umain argv. unfold libmain. by kstep Eg.
Qed.

Lemma library_on_kernel_witness :
  fork (C := kernel_gate 0) 0x801000 0x800004 0x800020 0x800100 run_state =
    Leave (UserPanic "set_pgfault_handler: %e") run_state.
Proof.
  apply (library_on_kernel 0 0x801000 0x800004 0 0x800020 0x800100 run_state 0 run_env);
    [reflexivity|reflexivity|vm_compute; reflexivity].
Defined.

Lemma cprintf_chunks_witness :
  exists l, cprintf (replicate 256 7) (fun _ => 0) 20 (bytes_of "n=%d") [Word 42] = Done (4, [l]) /\
    l = bytes_of "n=42".
Proof.
  assert (cprintf (replicate 256 7) (fun _ => 0) 20 (bytes_of "n=%d") [Word 42] =
    Done (4, [bytes_of "n=42"])) as E by (vm_compute; reflexivity).
  destruct (cprintf_chunks (replicate 256 7) (fun _ => 0) 20 (bytes_of "n=%d") [Word 42] 4
    [bytes_of "n=42"] eq_refl E) as (l & full & last & Hl & Hc & Ha & _).
  exists (bytes_of "n=42"). split; [exact E|reflexivity].
Defined.
