(* ===== verification/Cow.v ===== *)
(** * Cow: copy-on-write, the page fault handler of lib/fork.c

    The user library's pgfault.  On the repository's dispatcher it panics; with the
    missing cases in the dispatcher's switch ([Ulib.gate]), a write to a
    copy-on-write page ends with a private copy. *)

From S2P Require Import Prelude Layout Segments Memory CString Printfmt Kernel PageAlloc PageTable Env Sched Syscall Trap Upcall Ulib.

(** ** Changes of data pages *)

Lemma is_table_of_pde s d va :
  present (pde (mem s) d va) = true -> is_table s d (PTE_ADDR (pde (mem s) d va) / 4096).
Proof.
  intros Hp. right. exists (PDX va). rewrite <- pde_slot. split; [auto with jos|].
  split; [done|]. pose proof (PTE_ADDR_aligned (pde (mem s) d va)). zlia.
Qed.

(** A page of data holds no table. *)
Lemma data_no_table s d va p :
  ~ is_table s d p -> d mod 4096 = 0 -> present (pde (mem s) d va) = true ->
  no_table (mem s) d va (p * 4096).
Proof.
  intros Ht Hd Hp. unfold no_table. rewrite Z.div_mul by lia. split; intros ->; apply Ht.
  - left. zlia.
  - by apply is_table_of_pde.
Qed.

(** Translations do not change with the bytes of a page of data. *)
Lemma data_translate s d p m :
  ~ is_table s d p -> d mod 4096 = 0 -> same_outside (p * 4096) (mem s) m ->
  (forall i, 0 <= i < 1024 -> load32 m (slot d i) = load32 (mem s) (slot d i)) /\
  forall va, mapping m d va = mapping (mem s) d va.
Proof.
  intros Ht Hd Hs.
  assert (forall i, 0 <= i < 1024 -> load32 m (slot d i) = load32 (mem s) (slot d i)) as Hsl.
  { intros i Hi. apply (load_slot_outside (p * 4096)); try done. rewrite Z.div_mul by lia.
    intros ->. apply Ht. left. zlia. }
  split; [done|]. intros va. unfold mapping. rewrite !pte_slot, !pde_slot, Hsl by auto with jos.
  rewrite <- !pde_slot. destruct (present (pde (mem s) d va)) eqn:Ep; [|done]. cbn [andb].
  destruct (data_no_table s d va p Ht Hd Ep) as [_ Hn].
  rewrite (load_slot_outside (p * 4096) (mem s) m); auto with jos.
Qed.

Lemma data_pgdir_wf s l d p m :
  pgdir_wf s l d -> ~ is_table s d p -> same_outside (p * 4096) (mem s) m ->
  pgdir_wf (set_mem m s) l d.
Proof.
  intros Hd Ht Hs. destruct (data_translate s d p m Ht (dw_aligned _ _ _ Hd) Hs) as [Hsl _].
  eapply pgdir_wf_mono; [done|done| |by left]. intros i Hi. simpl. by rewrite Hsl.
Qed.

(** ** memmove of a page *)

Section Copy.
(** The page of [vd] maps frame [p] writable, that of [vs] frame [q]. *)
Context (d vd vs p q : Z).
Hypothesis Hd : d mod 4096 = 0 /\ 0 <= d < 0x100000000.
Hypothesis Hv : vd mod 4096 = 0 /\ vs mod 4096 = 0 /\ 0 <= vd < 0xfffff000 /\ 0 <= vs < 0xfffff000.
Hypothesis Hpq : p <> q.

Record copies (m : memory) : Prop := {
  cp_dst : mmu m d vd true true = Some (p * 4096);
  cp_src : mmu m d vs true false = Some (q * 4096);
  cp_data : no_table m d vd (p * 4096) /\ no_table m d vs (p * 4096);
}.

Lemma copies_outside m m' : same_outside (p * 4096) m m' -> copies m -> copies m'.
Proof using Hd.
  intros Hs [Hm1 Hm2 [Hn1 Hn2]].
  destruct (mmu_outside (p * 4096) m m' d vd true true Hs (proj1 Hd) (proj2 Hd) Hn1) as (E1 & Hn1' & _).
  destruct (mmu_outside (p * 4096) m m' d vs true false Hs (proj1 Hd) (proj2 Hd) Hn2) as (E2 & Hn2' & _).
  split; [by rewrite E1|by rewrite E2|done].
Qed.

Lemma copy_word s k :
  cr3 s = d -> copies (mem s) -> 0 <= k -> k + 4 <= 4096 ->
  uread32 (u32 (vs + k)) s = Ok (load32 (mem s) (q * 4096 + k)) s /\
  forall w, uwrite32 (u32 (vd + k)) w s = Ok tt (set_mem (store32 (mem s) (p * 4096 + k) w) s).
Proof using Hv.
  intros Hc [Hm1 Hm2 _] Hk Hk'. destruct Hv as (Hvd & Hvs & Hrd & Hrs).
  unfold uread32, uwrite32. rewrite Hc. split.
  - rewrite (uload32_page _ _ vs (q * 4096)) by (rewrite ?Hvs, ?Z.add_0_r; done || lia).
    by rewrite Hvs, Z.add_0_r.
  - intros w. rewrite u32_small by lia.
    assert ((vd + k) mod 4096 = k) as Ek by zlia.
    rewrite (ustore32_page _ _ (vd + k) (p * 4096)); [by rewrite Ek|lia|lia|lia|].
    rewrite Ek. pose proof (mmu_same_page (mem s) d vd k true true (p * 4096)) as H.
    rewrite Hvd, Z.add_0_r in H. apply H; done || lia.
Qed.

Lemma urep_movsl_page n s k :
  cr3 s = d -> copies (mem s) -> 0 <= k -> k + 4 * Z.of_nat n <= 4096 ->
  exists m, urep_movsl 1 (u32 (vd + k)) (u32 (vs + k)) n s = Ok tt (set_mem m s) /\
    forall x, load8 m x =
      if decide (p * 4096 + k <= x < p * 4096 + k + 4 * Z.of_nat n)
      then load8 (mem s) (q * 4096 + (x - p * 4096)) else load8 (mem s) x.
Proof using Hd Hv Hpq.
  revert s k. induction n as [|n IH]; intros s k Hc Hcp Hk Hb.
  { exists (mem s). split; [by destruct s|]. intros x. by rewrite decide_False by lia. }
  destruct (copy_word s k Hc Hcp Hk ltac:(lia)) as [Er Ew]. cbn [urep_movsl].
  kstep Er. kstep (Ew (load32 (mem s) (q * 4096 + k))).
  set (m1 := store32 (mem s) (p * 4096 + k) _). set (s1 := set_mem m1 s).
  assert (forall y, load8 m1 y = if decide (p * 4096 + k <= y < p * 4096 + k + 4)
    then load8 (mem s) (q * 4096 + k + (y - (p * 4096 + k))) else load8 (mem s) y) as Hm1
    by (intros y; apply load8_copy32).
  assert (copies m1) as Hcp1.
  { eapply copies_outside; [|done]. intros x Hx. rewrite Hm1, decide_False; [done|].
    intros Hxb. apply Hx. zlia. }
  assert (forall v, u32 (u32 (v + k) + 4 * 1) = u32 (v + (k + 4))) as Eu.
  { intros v. unfold u32. rewrite Zplus_mod_idemp_l. f_equal. lia. }
  rewrite !Eu. destruct (IH s1 (k + 4) Hc Hcp1 ltac:(lia) ltac:(lia)) as (m & E & Hm).
  exists m. split; [exact E|]. intros x. rewrite Hm. simpl. rewrite !Hm1.
  repeat case_decide; try lia; try done; f_equal; lia.
Qed.

Lemma umemmove_page s :
  cr3 s = d -> copies (mem s) -> PGNUM vd <> PGNUM vs ->
  exists m, umemmove vd vs PGSIZE s = Ok tt (set_mem m s) /\
    same_outside (p * 4096) (mem s) m /\
    forall k, 0 <= k < 4096 -> load8 m (p * 4096 + k) = load8 (mem s) (q * 4096 + k).
Proof using Hd Hv Hpq.
  intros Hc Hcp Hne. pose proof Hv as (Hvd & Hvs & Hrd & Hrs).
  rewrite !PGNUM_div, !u32_small in Hne by lia.
  unfold umemmove, PGSIZE. rewrite (u32_small (vs + 4096)) by lia.
  assert ((vs <? vd) && (vs + 4096 >? vd) = false) as ->.
  { apply andb_false_iff. destruct (Z.ltb_spec vs vd); [right|by left].
    rewrite Z.gtb_ltb. apply Z.ltb_ge. zlia. }
  assert (forall v, v mod 4096 = 0 -> 0 <= v < 0xfffff000 -> int_aligned4 v = true) as Hal.
  { intros v Hv1 Hv2. unfold int_aligned4. apply Z.eqb_eq. unfold s32.
    destruct (Z.ltb_spec (u32 v) 0x80000000); rewrite u32_small by lia; zlia. }
  rewrite !Hal by done. cbn [andb]. change (4096 mod 4 =? 0) with true.
  change (Z.to_nat (4096 / 4)) with 1024%nat. cbv iota.
  destruct (urep_movsl_page 1024 s 0 Hc Hcp ltac:(lia) ltac:(lia)) as (m & E & Hm).
  rewrite !Z.add_0_r, !u32_small in E by lia. exists m. split; [exact E|]. split.
  - intros x Hx. rewrite Hm, decide_False; [done|]. intros Hb. apply Hx. zlia.
  - intros k Hk. rewrite Hm, decide_True by lia. f_equal. lia.
Qed.
End Copy.

(** ** The environment that runs *)

(** Environment [c] runs in user mode with the directory at [d]; [l] is the list of
    free pages. *)
Record runs (s : kstate) (l : list Z) (c : Z) (v : Env) (d : Z) : Prop := {
  rn_pages : pages_wf s l;
  rn_dir : pgdir_wf s l d;
  rn_cur : cur s = Some c;
  rn_env : envs s !! c = Some v;
  rn_pgdir : env_pgdir v = KERNBASE + d;
  rn_cr3 : cr3 s = d;
}.

Lemma runs_cpu s l c v d : runs s l c v d -> cpu_ok s.
Proof.
  intros Hr. pose proof (rn_cur _ _ _ _ _ Hr) as Hc. unfold cur in Hc.
  destruct (cpus s !! cpunum s) as [i|] eqn:Ei; [|done]. exists i. split; [done|].
  simpl in Hc. rewrite Hc. exists v. apply (rn_env _ _ _ _ _ Hr).
Qed.

Lemma runs_range s l c v d : runs s l c v d -> d mod 4096 = 0 /\ 0 <= d < 0x10000000.
Proof.
  intros Hr. pose proof (dw_aligned _ _ _ (rn_dir _ _ _ _ _ Hr)).
  pose proof (dw_range _ _ _ (rn_dir _ _ _ _ _ Hr)).
  pose proof (wf_npages _ _ (rn_pages _ _ _ _ _ Hr)) as Hn. unfold MAXPAGES in Hn. lia.
Qed.

(** What calls that only map pages leave. *)
Lemma runs_same s l c v d s' l' :
  runs s l c v d -> same_else s s' -> pages_wf s' l' -> pgdir_wf s' l' d -> runs s' l' c v d.
Proof. intros [] Hs Hw Hd. split; try done; by rewrite Hs. Qed.

Lemma envid2env_self s c : cur s = Some c -> envid2env 0 true s = Ok (0, Some c) s.
Proof.
  unfold cur. intros H. destruct (cpus s !! cpunum s) as [i|] eqn:Ei; [|done]. simpl in H.
  unfold envid2env. cbn [Z.eqb]. kstep (curenv_run s i Ei). by rewrite H.
Qed.

(** A page that the environment maps: not free, no table of its own, and the count
    does not overflow when one more reference is taken. *)
Definition owned (s : kstate) (l : list Z) (d w : Z) : Prop :=
  let q := PTE_ADDR w / 4096 in
  q < npages s /\ (q ∉ l) /\ ~ is_table s d q /\ 1 <= ref_of s q < 65535.

Lemma owned_old s l d va w : mapping (mem s) d va = Some w -> owned s l d w -> old_ok s l d va.
Proof. intros Hm Ho e He. rewrite Hm in He. by injection He as <-. Qed.
Lemma unmapped_old s l d va : mapping (mem s) d va = None -> old_ok s l d va.
Proof. intros Hm e He. congruence. Qed.
Lemma mapped_entry s d va w : mapping (mem s) d va = Some w -> entry_ok s d va.
Proof. rewrite mapping_raw. unfold entry_ok. by destruct (present (raw (mem s) d va)). Qed.

(** A directory entry keeps its flags through an insertion. *)
Lemma inserted_flags s l d pp va perm s' l' va' f :
  inserted s l d pp va perm s' l' -> PDX va' <> PDX UVPT -> f <> 0 ->
  present (pde (mem s) d va') = true -> Z.land (pde (mem s) d va') f = f ->
  present (pde (mem s') d va') = true /\ Z.land (pde (mem s') d va') f = f.
Proof.
  intros Hi Hv Hf Hp Hfl. destruct (decide (PDX va' = PDX va)) as [E|E].
  - rewrite !(pde_same_PDX _ _ va' va) in * by done.
    rewrite (is_pde_or _ _ _ _ _ _ _ _ Hi Hp). split; [by apply present_or|].
    rewrite Z.land_lor_distr_l, Hfl. apply Z.bits_inj'. intros i Hib.
    rewrite Z.lor_spec, Z.land_spec. by destruct (Z.testbit f i), (Z.testbit perm i).
  - rewrite !pde_slot in *. rewrite (is_slots _ _ _ _ _ _ _ _ Hi) by auto with jos. done.
Qed.

(** *** The page [va] of user code *)

Lemma mmu_of_mapping m d va w user write :
  d mod 4096 = 0 -> 0 <= d < 0x100000000 -> mapping m d va = Some w ->
  (user = true -> Z.land (pde m d va) PTE_U = PTE_U /\ Z.land w PTE_U = PTE_U) ->
  (write = true -> Z.land (pde m d va) PTE_W = PTE_W /\ Z.land w PTE_W = PTE_W) ->
  mmu m d va user write = Some (PTE_ADDR w + PGOFF va).
Proof.
  intros Ha Hr Hm Hu Hw. assert (PTE_ADDR d = d) as Ed by (rewrite PTE_ADDR_div, u32_small by lia; zlia).
  unfold mmu. rewrite Ed, Hm.
  assert (forall f, f <> 0 -> Z.land (pde m d va) f = f -> Z.land w f = f ->
    ctrue (Z.land (Z.land (pde m d va) w) f) = true) as Hf.
  { intros f Hf H1 H2. rewrite ctrue_true, <- Z.land_assoc, H2, H1. done. }
  destruct user; [destruct (Hu eq_refl); rewrite (Hf PTE_U) by done|];
    (destruct write; [destruct (Hw eq_refl); rewrite (Hf PTE_W) by done|]); done.
Qed.

Lemma user_page_ok va : 0 <= va < UTOP -> va mod 4096 = 0 -> bad_user_page va = false.
Proof.
  intros Hv Ha. change UTOP with 0xeec00000 in *. rewrite bad_user_page_spec by lia.
  unfold PGSIZE. rewrite Ha. apply orb_false_iff. split; [|done].
  apply Z.leb_gt. change UTOP with 0xeec00000. lia.
Qed.

(** ** The system calls on the caller's own pages

    Through a gate that they pass. *)

Section Calls.
Context {C : SystemCalls} {fuel : nat} `{!Reaches C fuel SYS_page_map, !Reaches C fuel SYS_page_alloc,
  !Reaches C fuel SYS_page_unmap}.

(** A call that returns at once with a result that is not positive. *)
Lemma call_ok num check a1 a2 a3 a4 a5 m s r s' :
  int30 num a1 a2 a3 a4 a5 = m -> m s = Ok r s' -> r <= 0 ->
  Ulib.syscall num check a1 a2 a3 a4 a5 s = Ok r s'.
Proof using All.
  intros Eb E Hr. unfold Ulib.syscall. rewrite Eb. kstep E.
  rewrite Z.gtb_ltb, (proj2 (Z.ltb_ge 0 r) Hr). by rewrite andb_false_r.
Qed.

Lemma page_map_self s l c v d srcva dstva perm w :
  runs s l c v d -> 0 <= srcva < UTOP -> srcva mod 4096 = 0 -> 0 <= dstva < UTOP ->
  dstva mod 4096 = 0 -> 0 <= perm < 4096 -> mapping (mem s) d srcva = Some w ->
  owned s l d w -> old_ok s l d dstva -> may_share w perm = true ->
  present (pde (mem s) d dstva) = true \/ l <> [] ->
  exists s' l', Ulib.sys_page_map 0 srcva 0 dstva perm s = Ok 0 s' /\
    inserted s l d (PTE_ADDR w / 4096) dstva perm s' l' /\ runs s' l' c v d.
Proof using All.
  intros Hr Hs1 Hs2 Hd1 Hd2 Hp Hm Ho Hold Hsh Hl.
  pose proof (envid2env_self s c (rn_cur _ _ _ _ _ Hr)) as Eid.
  destruct (sys_page_map_ok s l d d c c v v 0 srcva 0 dstva perm w) as (s' & l' & E & Hi);
    try apply Hr; try done; eauto using runs_cpu, user_page_ok, mapped_entry, owned_old.
  exists s', l'. split; [|split; [done|]].
  - unfold Ulib.sys_page_map. eapply call_ok; [apply call_page_map| |done].
    change (s32 (u32 0)) with 0. by rewrite (u32_small perm) by lia.
  - apply (runs_same s l); [done|apply Hi..].
Qed.

Lemma page_alloc_self s p l1 c v d va perm :
  runs s (p :: l1) c v d -> 0 <= va < UTOP -> va mod 4096 = 0 -> 0 <= perm < 4096 ->
  bad_perm perm = false -> old_ok s (p :: l1) d va ->
  present (pde (mem s) d va) = true \/ l1 <> [] ->
  exists s' l', Ulib.sys_page_alloc 0 va perm s = Ok 0 s' /\
    inserted (fresh_page p l1 s) l1 d p va perm s' l' /\ runs s' l' c v d.
Proof using All.
  intros Hr Hv1 Hv2 Hp Hbp Hold Hl.
  destruct (sys_page_alloc_ok s p l1 d c v 0 va perm) as (s' & l' & E & Hi);
    try apply Hr; try done; eauto using runs_cpu, user_page_ok, envid2env_self, rn_cur.
  exists s', l'. split; [|split; [done|]].
  - unfold Ulib.sys_page_alloc. eapply call_ok; [apply call_page_alloc| |done].
    change (s32 (u32 0)) with 0. by rewrite (u32_small perm) by lia.
  - apply (runs_same s (p :: l1)); [done| |apply Hi..].
    etrans; [|apply Hi]. done.
Qed.

Lemma page_unmap_self s l c v d va w :
  runs s l c v d -> 0 <= va < UTOP -> va mod 4096 = 0 -> mapping (mem s) d va = Some w ->
  owned s l d w ->
  exists s' l', Ulib.sys_page_unmap 0 va s = Ok 0 s' /\
    removed s l d va (PTE_ADDR w / 4096) s' l' /\ runs s' l' c v d.
Proof using All.
  intros Hr Hv1 Hv2 Hm (Ho1 & Ho2 & Ho3 & Ho4).
  destruct (page_remove_mapped s l d va w) as (s' & l' & E & Hrm);
    eauto using rn_pages, rn_dir, runs_cpu, user_va_PDX with lia.
  exists s', l'. split; [|split; [done|]].
  - unfold Ulib.sys_page_unmap. eapply call_ok; [apply call_page_unmap| |done].
    change (s32 (u32 0)) with 0. unfold Syscall.sys_page_unmap.
    rewrite (with_env_ok _ _ _ _ _ (envid2env_self s c (rn_cur _ _ _ _ _ Hr))).
    rewrite user_page_ok by done. kstep (get_env_run s c v (rn_env _ _ _ _ _ Hr)).
    rewrite (rn_pgdir _ _ _ _ _ Hr). by kstep E.
  - apply (runs_same s l); [done|apply Hrm..].
Qed.
End Calls.

(** ** The entry of a page, as user code sees it *)

Lemma uvpt_read_pte s l c v d va :
  runs s l c v d -> pde (mem s) d UVPT = Z.lor (Z.lor d PTE_U) PTE_P -> 0 <= va < 0x100000000 ->
  present (pde (mem s) d va) = true -> Z.land (pde (mem s) d va) PTE_U = PTE_U ->
  uread32 (uvpt (PGNUM va)) s = Ok (pte (mem s) d va) s.
Proof.
  intros Hr Hself Hva Hp Hu. destruct (runs_range _ _ _ _ _ Hr) as [Ha Hd].
  destruct (uvpt_selfmap_run (mem s) d va Hd Ha Hva Hself) as [Hmmu _].
  specialize (Hmmu Hp ltac:(by rewrite Hu)).
  assert (PGNUM va = va / 4096) as En by (rewrite PGNUM_div, u32_small by lia; done).
  assert (uvpt (PGNUM va) mod 4096 = 4 * PTX va) as Eo.
  { rewrite En, PTX_div, u32_small by lia. unfold uvpt. change UVPT with 0xef400000. zlia. }
  assert (0 <= uvpt (PGNUM va) /\ uvpt (PGNUM va) + 4 <= 0x100000000) as Hb
    by (rewrite En; unfold uvpt; change UVPT with 0xef400000; zlia).
  unfold pte_addr in Hmmu. rewrite <- Eo in Hmmu.
  unfold uread32. rewrite (rn_cr3 _ _ _ _ _ Hr). pose proof (PTX_range va).
  pose proof (uload32_page (mem s) d (uvpt (PGNUM va)) _ 0 ltac:(lia) ltac:(lia) ltac:(lia)
    ltac:(lia) Hmmu) as E.
  rewrite !Z.add_0_r, u32_small in E by lia. by rewrite E, Eo.
Qed.

Lemma uvpt_read s l c v d va w :
  runs s l c v d -> pde (mem s) d UVPT = Z.lor (Z.lor d PTE_U) PTE_P -> 0 <= va < 0x100000000 ->
  mapping (mem s) d va = Some w -> Z.land (pde (mem s) d va) PTE_U = PTE_U ->
  uread32 (uvpt (PGNUM va)) s = Ok w s.
Proof.
  intros Hr Hself Hva Hm Hu. rewrite <- (mapping_pte _ _ _ _ Hm). apply (uvpt_read_pte s l c v); try done.
  unfold mapping in Hm. by destruct (present (pde (mem s) d va)).
Qed.

(** The entry of a table. *)
Lemma uvpd_read s l c v d va :
  runs s l c v d -> pde (mem s) d UVPT = Z.lor (Z.lor d PTE_U) PTE_P -> 0 <= va < 0x100000000 ->
  uread32 (uvpd (PDX va)) s = Ok (pde (mem s) d va) s.
Proof.
  intros Hr Hself Hva. destruct (runs_range _ _ _ _ _ Hr) as [Ha Hd].
  destruct (uvpt_selfmap_run (mem s) d va Hd Ha Hva Hself) as (_ & Hmmu & _).
  pose proof (PDX_range va).
  assert (uvpd (PDX va) = 0xef7bd000 + 4 * PDX va) as Ev by (unfold uvpd; change (UVPT + Z.shiftr UVPT PGSHIFT * 4) with 0xef7bd000; lia).
  assert (uvpd (PDX va) mod 4096 = 4 * PDX va) as Eo by (rewrite Ev; zlia).
  unfold slot in Hmmu. rewrite <- Eo in Hmmu.
  unfold uread32. rewrite (rn_cr3 _ _ _ _ _ Hr).
  pose proof (uload32_page (mem s) d (uvpd (PDX va)) _ 0 ltac:(lia) ltac:(lia) ltac:(lia)
    ltac:(lia) Hmmu) as E.
  rewrite !Z.add_0_r, u32_small in E by lia. by rewrite E, Eo.
Qed.

(** ** A write to a copy-on-write page *)

Definition USERRO : Z := Z.lor PTE_U PTE_P.
Definition USERRW : Z := Z.lor (Z.lor PTE_P PTE_U) PTE_W.

(** The page of [va] maps the frame of [w], one of the environment's own, for user
    code; PFTEMP is free, and there are pages for a copy and for a table. *)
Record cow_page (s : kstate) (l : list Z) (d va w : Z) : Prop := {
  cw_self : pde (mem s) d UVPT = Z.lor (Z.lor d PTE_U) PTE_P;
  cw_va : 0 <= va < UTOP;
  cw_temp : PGNUM va <> PGNUM PFTEMP;
  cw_map : mapping (mem s) d va = Some w;
  cw_user : Z.land (pde (mem s) d va) PTE_U = PTE_U;
  cw_owned : owned s l d w;
  cw_ref : ref_of s (PTE_ADDR w / 4096) < 65534;
  cw_free : mapping (mem s) d PFTEMP = None;
  cw_pages : if present (pde (mem s) d PFTEMP) then l <> [] else (2 <= length l)%nat;
}.

Section Fault.
Context (s : kstate) (l : list Z) (c : Z) (v : Env) (d a w : Z).
Hypothesis Hr : runs s l c v d.
Hypothesis Ha : a mod 4096 = 0.
Hypothesis Hcw : cow_page s l d a w.
Local Abbreviation q := (PTE_ADDR w / 4096).

Lemma PFTEMP_ok : 0 <= PFTEMP < UTOP /\ PFTEMP mod 4096 = 0 /\ PDX PFTEMP <> PDX UVPT.
Proof using. vm_compute. repeat split; congruence. Qed.

Lemma cow_a : 0 <= a < UTOP /\ PDX a <> PDX UVPT.
Proof using All. pose proof (cw_va _ _ _ _ _ Hcw). split; [done|by apply user_va_PDX]. Qed.

(** After the frame has been mapped at PFTEMP too. *)
Context (s1 : kstate) (l1 : list Z).
Hypothesis Hi1 : inserted s l d q PFTEMP USERRO s1 l1.
Hypothesis Hr1 : runs s1 l1 c v d.

Lemma cow_list1 : exists p l2, l1 = p :: l2 /\ p ∈ l /\ (forall x, x ∈ l1 -> x ∈ l).
Proof using All.
  destruct (is_list _ _ _ _ _ _ _ _ Hi1) as (lw & El & Hlw). unfold freed in El.
  rewrite (cw_free _ _ _ _ _ Hcw) in El. subst lw. pose proof (cw_pages _ _ _ _ _ Hcw) as Hp.
  destruct (present (pde (mem s) d PFTEMP)).
  - subst l1. destruct l as [|p l2]; [done|]. exists p, l2. split; [done|]. split; [constructor|done].
  - destruct Hlw as [x Ex]. rewrite Ex in *. destruct l1 as [|p l2]; [cbn in Hp; lia|].
    exists p, l2. split; [done|]. split; [|intros y Hy; by constructor].
    constructor. constructor.
Qed.

Lemma cow_map1 : mapping (mem s1) d a = Some w /\
  mapping (mem s1) d PFTEMP = Some (Z.lor (Z.lor (q * 4096) USERRO) PTE_P) /\
  forall va, PDX va <> PDX UVPT -> PGNUM va <> PGNUM PFTEMP ->
    mapping (mem s1) d va = mapping (mem s) d va.
Proof using All.
  pose proof (is_map _ _ _ _ _ _ _ _ Hi1) as Hm.
  split; [|split; [|intros va Hv Hne; by rewrite Hm, decide_False]].
  - rewrite Hm, decide_False; [apply (cw_map _ _ _ _ _ Hcw)|apply (cw_temp _ _ _ _ _ Hcw)|apply cow_a].
  - rewrite Hm, decide_True; [done|done|apply PFTEMP_ok].
Qed.

Lemma cow_ref1 : ref_of s1 q = ref_of s q + 1.
Proof using All.
  destruct (cw_owned _ _ _ _ _ Hcw) as (_ & Hq & _).
  rewrite (is_refs _ _ _ _ _ _ _ _ Hi1) by done. unfold maps_to.
  rewrite (cw_free _ _ _ _ _ Hcw), Z.eqb_refl. lia.
Qed.

Lemma cow_owned1 : owned s1 l1 d w.
Proof using All.
  destruct (cw_owned _ _ _ _ _ Hcw) as (Hq1 & Hq2 & Hq3 & Hq4).
  pose proof (cw_ref _ _ _ _ _ Hcw) as Hq5. destruct cow_list1 as (p & l2 & El & _ & Hsub).
  split; [by rewrite (same_else_npages _ _ (is_same _ _ _ _ _ _ _ _ Hi1))|].
  split; [auto|]. split; [|rewrite cow_ref1; lia].
  intros Ht. by apply Hq3, (is_tables _ _ _ _ _ _ _ _ Hi1).
Qed.

Lemma cow_present : present (pde (mem s) d a) = true.
Proof using All.
  pose proof (cw_map _ _ _ _ _ Hcw) as Hm. unfold mapping in Hm.
  by destruct (present (pde (mem s) d a)).
Qed.

Lemma cow_pde1 : present (pde (mem s1) d a) = true /\ present (pde (mem s1) d PFTEMP) = true /\
  Z.land (pde (mem s1) d PFTEMP) USERRO = USERRO.
Proof using All.
  split; [|split; [apply (is_present _ _ _ _ _ _ _ _ Hi1)|apply (is_pde _ _ _ _ _ _ _ _ Hi1)]].
  apply (inserted_flags _ _ _ _ _ _ _ _ a PTE_U Hi1);
    [apply cow_a|done|apply cow_present|apply (cw_user _ _ _ _ _ Hcw)].
Qed.

(** After the fresh page [p] has taken the frame's place at [a]. *)
Context (p : Z) (l2 : list Z) (s2 : kstate) (l2' : list Z).
Hypothesis El1 : l1 = p :: l2.
Hypothesis Hi2 : inserted (fresh_page p l2 s1) l2 d p a USERRW s2 l2'.

Lemma cow_fresh : fresh_ok s1 l2 d p (fresh_page p l2 s1) /\ q <> p /\ (q ∉ l2) /\ (p ∉ l2).
Proof using All.
  pose proof (rn_pages _ _ _ _ _ Hr1) as Hw. pose proof (rn_dir _ _ _ _ _ Hr1) as Hd.
  rewrite El1 in Hw, Hd. destruct cow_owned1 as (_ & Hq & _). rewrite El1, not_elem_of_cons in Hq.
  pose proof (fresh_page_ok s1 p l2 d Hw Hd) as Hf. split; [done|].
  destruct (fr_range _ _ _ _ _ Hf) as (_ & Hp & _). tauto.
Qed.

Lemma cow_list2 : l2' = l2.
Proof using All.
  destruct cow_fresh as (Hf & Hqp & Hq & Hp).
  destruct (is_list _ _ _ _ _ _ _ _ Hi2) as (lw & El & Hlw).
  assert (pde (mem (fresh_page p l2 s1)) d a = pde (mem s1) d a) as Ep
    by (rewrite !pde_slot; apply (fr_slots _ _ _ _ _ Hf); auto with jos).
  rewrite Ep, (proj1 cow_pde1) in Hlw. subst lw. rewrite El. unfold freed.
  rewrite (fr_map _ _ _ _ _ Hf), (proj1 cow_map1).
  assert (ref_of (fresh_page p l2 s1) q = ref_of s q + 1) as Eref
    by (rewrite <- cow_ref1; unfold ref_of; by rewrite (fr_others _ _ _ _ _ Hf)).
  destruct (cw_owned _ _ _ _ _ Hcw) as (_ & _ & _ & Hq4). rewrite Eref.
  rewrite (proj2 (Z.eqb_neq q p) Hqp). rewrite (proj2 (Z.eqb_neq _ 1)) by lia. done.
Qed.

Lemma cow_map2 : mapping (mem s2) d a = Some (Z.lor (Z.lor (p * 4096) USERRW) PTE_P) /\
  mapping (mem s2) d PFTEMP = Some (Z.lor (Z.lor (q * 4096) USERRO) PTE_P) /\
  forall va, PDX va <> PDX UVPT -> PGNUM va <> PGNUM PFTEMP -> PGNUM va <> PGNUM a ->
    mapping (mem s2) d va = mapping (mem s) d va.
Proof using All.
  destruct cow_fresh as (Hf & _). pose proof (is_map _ _ _ _ _ _ _ _ Hi2) as Hm.
  destruct cow_map1 as (_ & Ht & Ho). pose proof (cw_temp _ _ _ _ _ Hcw) as Hne.
  split; [|split].
  - rewrite Hm, decide_True; [done|done|apply cow_a].
  - rewrite Hm, decide_False, (fr_map _ _ _ _ _ Hf); [done|by intros ?; apply Hne|apply PFTEMP_ok].
  - intros va Hv Hn1 Hn2. rewrite Hm, decide_False, (fr_map _ _ _ _ _ Hf) by done. by apply Ho.
Qed.

Lemma cow_tables2 : ~ is_table s2 d p /\ ~ is_table s2 d q.
Proof using All.
  destruct cow_fresh as (Hf & Hqp & Hq & Hp). destruct (fr_range _ _ _ _ _ Hf) as (_ & _ & Hpt).
  destruct cow_owned1 as (_ & _ & Hqt & _).
  split; intros Ht; apply (is_tables _ _ _ _ _ _ _ _ Hi2) in Ht; try done;
    by apply (is_table_slots s1 _ d _ (fr_slots _ _ _ _ _ Hf)) in Ht.
Qed.

Lemma cow_pde2 : Z.land (pde (mem s2) d a) USERRW = USERRW /\
  Z.land (pde (mem s2) d PFTEMP) USERRO = USERRO /\
  present (pde (mem s2) d a) = true /\ present (pde (mem s2) d PFTEMP) = true.
Proof using All.
  destruct cow_fresh as (Hf & _). destruct cow_pde1 as (_ & Hp & Hfl).
  assert (pde (mem (fresh_page p l2 s1)) d PFTEMP = pde (mem s1) d PFTEMP) as Ep
    by (rewrite !pde_slot; apply (fr_slots _ _ _ _ _ Hf); auto with jos).
  destruct (inserted_flags _ _ _ _ _ _ _ _ PFTEMP USERRO Hi2) as [Hp2 Hf2];
    [apply PFTEMP_ok|done|by rewrite Ep|by rewrite Ep|].
  split; [apply (is_pde _ _ _ _ _ _ _ _ Hi2)|]. split; [done|].
  split; [apply (is_present _ _ _ _ _ _ _ _ Hi2)|done].
Qed.

(** The bytes of the shared frame. *)
Lemma cow_mem2 k : 0 <= k < 4096 -> load8 (mem s2) (q * 4096 + k) = load8 (mem s) (q * 4096 + k).
Proof using All.
  intros Hk. assert ((q * 4096 + k) / 4096 = q) as Eq by zlia.
  destruct cow_fresh as (Hf & Hqp & Hq & _). destruct (cw_owned _ _ _ _ _ Hcw) as (_ & Hql & Hqt & _).
  destruct cow_owned1 as (_ & _ & Hqt1 & _).
  rewrite (is_mem _ _ _ _ _ _ _ _ Hi2), fresh_page_load8, Eq, decide_False by
    (rewrite ?Eq; try done; intros Ht; by apply Hqt1, (is_table_slots s1 _ d _ (fr_slots _ _ _ _ _ Hf))).
  apply (is_mem _ _ _ _ _ _ _ _ Hi1); by rewrite Eq.
Qed.

Lemma cow_refs2 : ref_of s2 p = 1 /\ ref_of s2 q = ref_of s q.
Proof using All.
  destruct cow_fresh as (Hf & Hqp & Hq & Hp). pose proof (proj1 cow_map1) as Hm.
  rewrite !(is_refs _ _ _ _ _ _ _ _ Hi2) by done. unfold maps_to.
  rewrite (fr_map _ _ _ _ _ Hf), Hm, Z.eqb_refl, (proj2 (Z.eqb_neq q p) Hqp), (proj2 (Z.eqb_eq q q) eq_refl).
  assert (ref_of (fresh_page p l2 s1) q = ref_of s1 q) as ->
    by (unfold ref_of; by rewrite (fr_others _ _ _ _ _ Hf)).
  rewrite cow_ref1. unfold ref_of at 1. rewrite (fr_page _ _ _ _ _ Hf). cbn. lia.
Qed.
End Fault.

(** An entry that page_insert writes. *)
Lemma entry_fields pp perm f :
  0 <= pp < 0x10000 -> 0 <= perm < 4096 -> Z.land perm f = f ->
  PTE_ADDR (Z.lor (Z.lor (pp * 4096) perm) PTE_P) = pp * 4096 /\
  Z.land (Z.lor (Z.lor (pp * 4096) perm) PTE_P) f = f.
Proof.
  intros Hp Hperm Hf. split.
  - rewrite <- Z.lor_assoc. apply PTE_ADDR_lor; [lia|zlia|].
    apply (lor_range _ _ 12); unfold PTE_P; lia.
  - rewrite !Z.land_lor_distr_l, Hf. apply Z.bits_inj'. intros i Hi.
    rewrite !Z.lor_spec, !Z.land_spec.
    destruct (Z.testbit f i), (Z.testbit PTE_P i), (Z.testbit (pp * 4096) i); done.
Qed.

(** What the handler leaves: [va] maps a fresh frame, a copy of the old one, and
    the old one has lost the reference. *)
Record private_copy (s : kstate) (l : list Z) (d va w : Z) (s' : kstate) (l' : list Z) (p : Z)
    : Prop := {
  pc_fresh : p ∈ l /\ (p ∉ l');
  pc_map : mapping (mem s') d va = Some (Z.lor (Z.lor (p * 4096) USERRW) PTE_P);
  pc_write : mmu (mem s') d va true true = Some (p * 4096 + va mod 4096);
  pc_others : forall va', PDX va' <> PDX UVPT -> PGNUM va' <> PGNUM va ->
    mapping (mem s') d va' = mapping (mem s) d va';
  pc_copy : forall k, 0 <= k < 4096 ->
    load8 (mem s') (p * 4096 + k) = load8 (mem s) (PTE_ADDR w / 4096 * 4096 + k);
  pc_old : forall k, 0 <= k < 4096 ->
    load8 (mem s') (PTE_ADDR w / 4096 * 4096 + k) = load8 (mem s) (PTE_ADDR w / 4096 * 4096 + k);
  pc_refs : ref_of s' p = 1 /\ ref_of s' (PTE_ADDR w / 4096) = ref_of s (PTE_ADDR w / 4096) - 1;
}.

Lemma same_page_translate m d va va' :
  PGNUM va = PGNUM va' -> mapping m d va = mapping m d va' /\ pde m d va = pde m d va'.
Proof.
  intros E. destruct (proj1 (same_page_indexes va va') E) as [Ed Et].
  unfold mapping, pte, pte_addr, pde. by rewrite Ed, Et.
Qed.

(** The bits of an entry with all of [USERRW]. *)
Lemma userrw_bits x f : Z.land x USERRW = USERRW -> Z.land USERRW f = f -> Z.land x f = f.
Proof. intros Hx Hf. rewrite <- Hf at 1. by rewrite Z.land_assoc, Hx. Qed.

Section Finish.
Context {C : SystemCalls} {fuel : nat} `{!Reaches C fuel SYS_page_map, !Reaches C fuel SYS_page_alloc,
  !Reaches C fuel SYS_page_unmap}.
Context (s : kstate) (l : list Z) (c : Z) (v : Env) (d a w : Z).
Hypothesis Hr : runs s l c v d.
Hypothesis Ha : a mod 4096 = 0.
Hypothesis Hcw : cow_page s l d a w.
Context (s1 : kstate) (l1 : list Z).
Hypothesis Hi1 : inserted s l d (PTE_ADDR w / 4096) PFTEMP USERRO s1 l1.
Hypothesis Hr1 : runs s1 l1 c v d.
Context (p : Z) (l2 : list Z) (s2 : kstate).
Hypothesis El1 : l1 = p :: l2.
Hypothesis Hi2 : inserted (fresh_page p l2 s1) l2 d p a USERRW s2 l2.
Hypothesis Hr2 : runs s2 l2 c v d.
Local Abbreviation q := (PTE_ADDR w / 4096).

Lemma cow_ranges : 0 <= p < 0x10000 /\ 0 <= q < 0x10000 /\ 0 <= a < 0xfffff000.
Proof using All.
  pose proof (wf_npages _ _ (rn_pages _ _ _ _ _ Hr)) as Hn. unfold MAXPAGES in Hn.
  destruct (cw_owned _ _ _ _ _ Hcw) as (Hq & _). pose proof (PTE_ADDR_range w).
  destruct (cow_list1 s l c v d a w Hr Ha Hcw s1 l1 Hi1 Hr1) as (p' & l' & E & Hp & _).
  rewrite El1 in E. injection E as <- <-.
  pose proof (pages_wf_range _ _ p (rn_pages _ _ _ _ _ Hr) Hp).
  pose proof (cw_va _ _ _ _ _ Hcw) as Hva. change UTOP with 0xeec00000 in Hva. zlia.
Qed.

Lemma cow_copies : copies d a PFTEMP p q (mem s2).
Proof using All.
  destruct (runs_range _ _ _ _ _ Hr) as [Hda Hd]. destruct cow_ranges as (Hp & Hq & Hab).
  destruct (cow_map2 s l c v d a w Hr Ha Hcw s1 l1 Hi1 Hr1 p l2 s2 l2 El1 Hi2) as (Hma & Hmt & _).
  destruct (cow_pde2 s l c v d a w Hr Ha Hcw s1 l1 Hi1 Hr1 p l2 s2 l2 El1 Hi2) as (Hfa & Hft & Hpa & Hpt).
  destruct (cow_tables2 s l c v d a w Hr Ha Hcw s1 l1 Hi1 Hr1 p l2 s2 l2 El1 Hi2) as [Htp _].
  assert (forall x, Z.land x USERRO = USERRO -> Z.land x PTE_U = PTE_U) as Hsub'
    by (intros x Hx; change PTE_U with (Z.land USERRO PTE_U) at 1; rewrite Z.land_assoc, Hx; done).
  split.
  - rewrite (mmu_of_mapping _ _ _ _ true true Hda ltac:(lia) Hma).
    + rewrite (proj1 (entry_fields p USERRW PTE_P Hp ltac:(split; reflexivity || discriminate) eq_refl)).
      rewrite PGOFF_mod, u32_small, Ha by lia. f_equal. lia.
    + split; [by apply (userrw_bits _ _ Hfa)|]. by apply entry_fields.
    + split; [by apply (userrw_bits _ _ Hfa)|]. by apply entry_fields.
  - rewrite (mmu_of_mapping _ _ _ _ true false Hda ltac:(lia) Hmt).
    + rewrite (proj1 (entry_fields q USERRO PTE_P Hq ltac:(split; reflexivity || discriminate) eq_refl)).
      change (PGOFF PFTEMP) with 0. f_equal. lia.
    + split; [by apply Hsub'|]. by apply entry_fields.
    + done.
  - split; by apply data_no_table.
Qed.

(** The copy and the unmapping of PFTEMP. *)
Record copied (s3 : kstate) (l3 : list Z) : Prop := {
  co_runs : runs s3 l3 c v d;
  co_fresh : p ∉ l3;
  co_map : forall va, PDX va <> PDX UVPT -> PGNUM va <> PGNUM PFTEMP ->
    mapping (mem s3) d va = mapping (mem s2) d va;
  co_temp : mapping (mem s3) d PFTEMP = None;
  co_slots : forall i, 0 <= i < 1024 -> load32 (mem s3) (slot d i) = load32 (mem s2) (slot d i);
  co_copy : forall k, 0 <= k < 4096 ->
    load8 (mem s3) (p * 4096 + k) = load8 (mem s2) (q * 4096 + k);
  co_old : forall k, 0 <= k < 4096 ->
    load8 (mem s3) (q * 4096 + k) = load8 (mem s2) (q * 4096 + k);
  co_refs : ref_of s3 p = ref_of s2 p /\ ref_of s3 q = ref_of s2 q - 1;
}.

Lemma cow_copy_unmap :
  exists s3 l3,
    (_ ← umemmove a PFTEMP PGSIZE; Ulib.sys_page_unmap 0 PFTEMP) s2 = Ok 0 s3 /\ copied s3 l3.
Proof using All.
  destruct (runs_range _ _ _ _ _ Hr) as [Hda Hd]. destruct cow_ranges as (Hp & Hq & Hab).
  destruct (cow_fresh s l c v d a w Hr Ha Hcw s1 l1 Hi1 Hr1 p l2 s2 l2 El1 Hi2) as (Hf & Hqp & Hq2 & Hp2).
  destruct (cow_tables2 s l c v d a w Hr Ha Hcw s1 l1 Hi1 Hr1 p l2 s2 l2 El1 Hi2) as [Htp Htq].
  destruct (cow_map2 s l c v d a w Hr Ha Hcw s1 l1 Hi1 Hr1 p l2 s2 l2 El1 Hi2) as (_ & Hmt & _).
  destruct (cow_refs2 s l c v d a w Hr Ha Hcw s1 l1 Hi1 Hr1 p l2 s2 l2 El1 Hi2) as [_ Hrq].
  destruct (cw_owned _ _ _ _ _ Hcw) as (Hqn & _ & _ & Hq4).
  destruct PFTEMP_ok as (Ht1 & Ht2 & Ht3).
  destruct (umemmove_page d a PFTEMP p q ltac:(lia) ltac:(change PFTEMP with 0x7ff000; split; [done|split; [done|lia]])
    ltac:(done) s2 (rn_cr3 _ _ _ _ _ Hr2) cow_copies (cw_temp _ _ _ _ _ Hcw)) as (m & Em & Ho & Hcp).
  destruct (data_translate s2 d p m Htp Hda Ho) as [Hsl Hmp].
  set (s2' := set_mem m s2).
  assert (runs s2' l2 c v d) as Hr2'.
  { apply (runs_same s2 l2); [done|by destruct s2|by eapply pages_wf_ext; [apply Hr2|done..]|].
    apply (data_pgdir_wf s2 l2 d p m); [apply Hr2|done|done]. }
  assert (forall x, is_table s2' d x -> is_table s2 d x) as Htab
    by (intros x; apply is_table_slots; exact Hsl).
  set (e := Z.lor (Z.lor (q * 4096) USERRO) PTE_P) in *.
  assert (PTE_ADDR e / 4096 = q) as Eq.
  { unfold e. rewrite (proj1 (entry_fields q USERRO PTE_P Hq ltac:(split; reflexivity || discriminate)
      eq_refl)). by rewrite Z.div_mul by lia. }
  destruct (page_unmap_self s2' l2 c v d PFTEMP e Hr2' Ht1 Ht2) as (s3 & l3 & E3 & Hrm & Hr3).
  { simpl. by rewrite Hmp. }
  { unfold owned. cbv zeta. rewrite Eq.
    change (ref_of s2' q) with (ref_of s2 q). rewrite Hrq.
    split; [change (npages s2') with (npages s2);
      rewrite (same_else_npages _ _ (is_same _ _ _ _ _ _ _ _ Hi2));
      change (npages (fresh_page p l2 s1)) with (npages s1);
      by rewrite (same_else_npages _ _ (is_same _ _ _ _ _ _ _ _ Hi1))|].
    split; [done|]. split; [|lia]. intros Ht. by apply Htq, Htab. }
  rewrite Eq in Hrm. exists s3, l3. split; [by kstep Em|].
  assert (forall x y k, ~ is_table s2 d x -> 0 <= k < 4096 -> load8 (mem s2') (x * 4096 + k) = y ->
    load8 (mem s3) (x * 4096 + k) = y) as Hmem.
  { intros x y k Hx Hk <-. apply (rm_mem _ _ _ _ _ _ _ Hrm).
    replace ((x * 4096 + k) / 4096) with x by zlia. intros Ht. by apply Hx, Htab. }
  split; [done|..].
  - rewrite (rm_list _ _ _ _ _ _ _ Hrm). case_if; [|done]. rewrite not_elem_of_cons. by split.
  - intros va Hv Hne. rewrite (rm_map _ _ _ _ _ _ _ Hrm), decide_False by done. apply Hmp.
  - by rewrite (rm_map _ _ _ _ _ _ _ Hrm), decide_True.
  - intros i Hi. rewrite (rm_slots _ _ _ _ _ _ _ Hrm) by done. by apply Hsl.
  - intros k Hk. apply Hmem; [done|done|]. by apply Hcp.
  - intros k Hk. apply Hmem; [done|done|]. apply Ho. rewrite Z.div_mul by lia. zlia.
  - split; [unfold ref_of; by rewrite (rm_refs _ _ _ _ _ _ _ Hrm)|].
    by rewrite (rm_ref _ _ _ _ _ _ _ Hrm).
Qed.

Lemma copied_private s3 l3 : copied s3 l3 -> private_copy s l d a w s3 l3 p.
Proof using All.
  intros Hco. destruct (runs_range _ _ _ _ _ Hr) as [Hda Hd]. destruct cow_ranges as (Hp & _ & Hab).
  destruct (cow_list1 s l c v d a w Hr Ha Hcw s1 l1 Hi1 Hr1) as (p' & l' & El & Hpl & _).
  assert (p' = p) as -> by congruence.
  destruct (cow_map2 s l c v d a w Hr Ha Hcw s1 l1 Hi1 Hr1 p l2 s2 l2 El1 Hi2) as (Hma & _ & Hmo).
  destruct (cow_refs2 s l c v d a w Hr Ha Hcw s1 l1 Hi1 Hr1 p l2 s2 l2 El1 Hi2) as [Hr2p Hr2q].
  destruct (cow_pde2 s l c v d a w Hr Ha Hcw s1 l1 Hi1 Hr1 p l2 s2 l2 El1 Hi2) as (Hfa & _).
  pose proof (cow_mem2 s l c v d a w Hr Ha Hcw s1 l1 Hi1 Hr1 p l2 s2 l2 El1 Hi2) as Hmem.
  assert (mapping (mem s3) d a = Some (Z.lor (Z.lor (p * 4096) USERRW) PTE_P)) as Hma3
    by (rewrite (co_map _ _ Hco); [done|apply user_va_PDX, Hcw|apply Hcw]).
  assert (pde (mem s3) d a = pde (mem s2) d a) as Epde
    by (rewrite !pde_slot; apply (co_slots _ _ Hco); auto with jos).
  split.
  - split; [done|apply (co_fresh _ _ Hco)].
  - done.
  - rewrite (mmu_of_mapping _ _ _ _ true true Hda ltac:(lia) Hma3).
    + rewrite (proj1 (entry_fields p USERRW PTE_P Hp ltac:(split; reflexivity || discriminate) eq_refl)).
      by rewrite PGOFF_mod, u32_small by lia.
    + rewrite Epde. split; [by apply (userrw_bits _ _ Hfa)|]. by apply entry_fields.
    + rewrite Epde. split; [by apply (userrw_bits _ _ Hfa)|]. by apply entry_fields.
  - intros va' Hv' Hne. destruct (decide (PGNUM va' = PGNUM PFTEMP)) as [Et|Et].
    + rewrite !(proj1 (same_page_translate _ _ va' PFTEMP Et)), (co_temp _ _ Hco). symmetry. apply Hcw.
    + by rewrite (co_map _ _ Hco), Hmo by done.
  - intros k Hk. rewrite (co_copy _ _ Hco) by done. by apply Hmem.
  - intros k Hk. rewrite (co_old _ _ Hco) by done. by apply Hmem.
  - destruct (co_refs _ _ Hco) as [-> ->]. by rewrite Hr2p, Hr2q.
Qed.
End Finish.

Lemma ROUNDDOWN_page va :
  0 <= va < UTOP -> ROUNDDOWN va PGSIZE mod 4096 = 0 /\ PGNUM (ROUNDDOWN va PGSIZE) = PGNUM va /\
  0 <= ROUNDDOWN va PGSIZE < UTOP.
Proof.
  change UTOP with 0xeec00000. intros H.
  rewrite ROUNDDOWN_mul by (unfold PGSIZE; lia). rewrite (u32_small va) by lia. unfold PGSIZE.
  rewrite !PGNUM_div, !u32_small by zlia. zlia.
Qed.

(** The calls of the handler once it has seen the entry. *)
Lemma pgfault_calls_run {C : SystemCalls} {fuel : nat} `{!Reaches C fuel SYS_page_map, !Reaches C fuel SYS_page_alloc,
    !Reaches C fuel SYS_page_unmap} s l c v d a w :
  runs s l c v d -> a mod 4096 = 0 -> cow_page s l d a w ->
  exists s1 s2 s3 l3 p,
    Ulib.sys_page_map 0 a 0 PFTEMP USERRO s = Ok 0 s1 /\
    Ulib.sys_page_alloc 0 a USERRW s1 = Ok 0 s2 /\
    (_ ← umemmove a PFTEMP PGSIZE; Ulib.sys_page_unmap 0 PFTEMP) s2 = Ok 0 s3 /\
    runs s3 l3 c v d /\ private_copy s l d a w s3 l3 p.
Proof.
  intros Hr Ha Hcw. destruct PFTEMP_ok as (Ht1 & Ht2 & Ht3).
  destruct (page_map_self s l c v d a PFTEMP USERRO w Hr (cw_va _ _ _ _ _ Hcw) Ha Ht1 Ht2)
    as (s1 & l1 & E1 & Hi1 & Hr1); [split; [discriminate|reflexivity]|apply Hcw|apply Hcw| | | |].
  { apply unmapped_old, Hcw. }
  { unfold may_share. rewrite andb_false_r. done. }
  { pose proof (cw_pages _ _ _ _ _ Hcw) as Hp. destruct (present _); [by left|right].
    destruct l; [cbn in Hp; lia|done]. }
  destruct (cow_list1 s l c v d a w Hr Ha Hcw s1 l1 Hi1 Hr1) as (p & l2 & El1 & Hpl & Hsub).
  pose proof (cow_owned1 s l c v d a w Hr Ha Hcw s1 l1 Hi1 Hr1) as Ho1.
  destruct (cow_map1 s l c v d a w Hr Ha Hcw s1 l1 Hi1 Hr1) as (Hm1 & _).
  destruct (cow_pde1 s l c v d a w Hr Ha Hcw s1 l1 Hi1 Hr1) as (Hp1 & _).
  assert (runs s1 (p :: l2) c v d) as Hr1' by (by rewrite <- El1).
  destruct (page_alloc_self s1 p l2 c v d a USERRW Hr1' (cw_va _ _ _ _ _ Hcw) Ha)
    as (s2 & l2' & E2 & Hi2 & Hr2); [split; [discriminate|reflexivity]|done| |by left|].
  { rewrite <- El1. by apply (owned_old _ _ _ _ w). }
  pose proof (cow_list2 s l c v d a w Hr Ha Hcw s1 l1 Hi1 Hr1 p l2 s2 l2' El1 Hi2) as El2.
  rewrite El2 in Hi2, Hr2. clear l2' El2.
  destruct (cow_copy_unmap s l c v d a w Hr Ha Hcw s1 l1 Hi1 Hr1 p l2 s2 El1 Hi2 Hr2)
    as (s3 & l3 & E3 & Hco).
  exists s1, s2, s3, l3, p. split; [done|]. split; [done|]. split; [done|]. split; [apply Hco|].
  by eapply copied_private.
Qed.

Lemma cow_page_rounddown s l d va w :
  cow_page s l d va w -> cow_page s l d (ROUNDDOWN va PGSIZE) w.
Proof.
  intros Hc. destruct (ROUNDDOWN_page va (cw_va _ _ _ _ _ Hc)) as (Ha & Hn & Hb).
  destruct (same_page_translate (mem s) d _ _ Hn) as [Em Ep].
  split; rewrite ?Hn, ?Em, ?Ep; try apply Hc. done.
Qed.

Lemma private_copy_rounddown s l d va w s' l' p :
  0 <= va < UTOP -> d mod 4096 = 0 -> 0 <= d < 0x100000000 -> 0 <= p < 0x10000 ->
  private_copy s l d (ROUNDDOWN va PGSIZE) w s' l' p -> private_copy s l d va w s' l' p.
Proof.
  intros Hva Hda Hd Hp [H1 H2 H3 H4 H5 H6 H7]. destruct (ROUNDDOWN_page va Hva) as (Ha & Hn & Hb).
  destruct (same_page_translate (mem s') d _ _ Hn) as [Em Ep].
  split; try done; [by rewrite <- Em| |intros va' Hv Hne; apply H4; [done|by rewrite Hn]].
  change UTOP with 0xeec00000 in *. unfold mmu in *.
  assert (PTE_ADDR d = d) as Ed by (rewrite PTE_ADDR_div, u32_small by lia; zlia).
  rewrite Ed, <- Em, <- Ep in *. rewrite H2 in *. repeat case_match; simplify_eq. f_equal.
  rewrite (proj1 (entry_fields p USERRW PTE_P Hp ltac:(split; reflexivity || discriminate) eq_refl)).
  by rewrite PGOFF_mod, u32_small by lia.
Qed.

(** What the handler does once it has looked at the fault. *)
Lemma pgfault_head {C : SystemCalls} s l c v d w utf :
  let va := utf_fault_va utf in
  let a := ROUNDDOWN va PGSIZE in
  runs s l c v d -> cow_page s l d va w ->
  pgfault utf s =
    (if ctrue (Z.land (utf_err utf) FEC_WR) && ctrue (Z.land w PTE_COW) then
       r ← Ulib.sys_page_map 0 a 0 PFTEMP USERRO;
       if r <? 0 then Ulib._panic "sys_page_map: %e"
       else
         r ← Ulib.sys_page_alloc 0 a USERRW;
         if r <? 0 then Ulib._panic "sys_page_alloc: %e"
         else
           _ ← umemmove a PFTEMP PGSIZE;
           r ← Ulib.sys_page_unmap 0 PFTEMP;
           if r <? 0 then Ulib._panic "sys_page_unmap: %e" else mret tt
     else Ulib._panic "pgfault():not cow") s.
Proof.
  intros va a Hr Hcw. pose proof (cw_va _ _ _ _ _ Hcw) as Hva.
  assert (0 <= va < 0x100000000) as Hva' by (change UTOP with 0xeec00000 in Hva; lia).
  pose proof (uvpt_read s l c v d va w Hr (cw_self _ _ _ _ _ Hcw) Hva' (cw_map _ _ _ _ _ Hcw)
    (cw_user _ _ _ _ _ Hcw)) as Eu.
  unfold pgfault. fold va. destruct (ctrue (Z.land (utf_err utf) FEC_WR)); cbn [andb]; [|by ksteps].
  ksteps. kstep Eu. ksteps. by destruct (ctrue (Z.land w PTE_COW)).
Qed.

(** Through a gate that the three calls pass. *)
Lemma pgfault_copies {C : SystemCalls} {fuel : nat} `{!Reaches C fuel SYS_page_map, !Reaches C fuel SYS_page_alloc,
    !Reaches C fuel SYS_page_unmap} s l c v d w utf :
  let va := utf_fault_va utf in
  runs s l c v d -> cow_page s l d va w ->
  ctrue (Z.land (utf_err utf) FEC_WR) && ctrue (Z.land w PTE_COW) = true ->
  exists s' l' p, pgfault utf s = Ok tt s' /\ runs s' l' c v d /\ private_copy s l d va w s' l' p.
Proof.
  intros va Hr Hcw Hw. destruct (runs_range _ _ _ _ _ Hr) as [Hda Hd].
  pose proof (cw_va _ _ _ _ _ Hcw) as Hva.
  rewrite (pgfault_head s l c v d w utf Hr Hcw), Hw. fold va.
  destruct (ROUNDDOWN_page va Hva) as (Ha & Hn & Hb).
  destruct (pgfault_calls_run s l c v d _ w Hr Ha (cow_page_rounddown _ _ _ _ _ Hcw))
    as (s1 & s2 & s3 & l3 & p & E1 & E2 & E3 & Hr3 & Hpc).
  kstep E1. cbn [Z.ltb Z.compare]. kstep E2. cbn [Z.ltb Z.compare].
  exists s3, l3, p. split; [|split; [done|]].
  - unfold mbind, K_bind in *. destruct (umemmove _ _ _ s2) as [[] s2'| |]; [|discriminate E3..].
    rewrite E3. done.
  - apply private_copy_rounddown; try done; [lia|].
    pose proof (wf_npages _ _ (rn_pages _ _ _ _ _ Hr)) as Hnp. unfold MAXPAGES in Hnp.
    pose proof (pages_wf_range _ _ p (rn_pages _ _ _ _ _ Hr) (proj1 (pc_fresh _ _ _ _ _ _ _ _ Hpc))).
    lia.
Qed.


(** ** Example

    Environment 0, with its directory in page 0 and a table in page 1, has page 3
    copy-on-write at 0x800000. *)

Definition cow_mem : memory :=
  store8 (store32 (store32 (store32 ∅ (slot 0 2) 0x1007) (slot 0 957) 5) (slot 0x1000 0) 0x3805)
    0x3005 42.
Definition cow_state : kstate := set_mem cow_mem run_state.
Definition cow_utf : UTrapframe := mkUTrapframe 0x800123 7 (mkPushRegs 0 0 0 0 0 0 0 0) 0 0 0.

Lemma cow_slot i : 0 <= i < 1024 ->
  load32 cow_mem (slot 0 i) = if decide (i = 2) then 0x1007 else if decide (i = 957) then 5 else 0.
Proof.
  intros Hi. unfold cow_mem.
  rewrite (load32_ext (store32 (store32 (store32 ∅ (slot 0 2) 0x1007) (slot 0 957) 5) (slot 0x1000 0) 0x3805))
    by (intros x Hx; unfold slot in Hx; apply load8_store8_ne; lia).
  rewrite !load_slot_store by (done || lia).
  repeat case_decide; try (exfalso; lia); reflexivity || apply load32_empty.
Qed.

Lemma cow_pgdir : pgdir_wf cow_state [5; 4] 0.
Proof.
  assert (forall i, 0 <= i < 1024 -> load32 (mem cow_state) (slot 0 i) =
    if decide (i = 2) then 0x1007 else if decide (i = 957) then 5 else 0) as Hs by exact cow_slot.
  assert (forall x, x = 0 \/ x = 1 -> x ∉ [5; 4]) as Hn
    by (intros x Hx; rewrite !not_elem_of_cons; split; [lia|split; [lia|apply not_elem_of_nil]]).
  change UVPT with 0xef400000. split.
  - reflexivity.
  - simpl. lia.
  - change (0 / 4096) with 0. apply Hn. by left.
  - intros i Hi. rewrite Hs by done. repeat case_decide; try discriminate; intros _.
    + change (PTE_ADDR 0x1007 / 4096) with 1. split; [reflexivity|]. apply Hn. by right.
    + change (PTE_ADDR 5 / 4096) with 0. split; [reflexivity|]. apply Hn. by left.
  - change (PDX UVPT) with 957. intros i Hi Hv. rewrite Hs by done. repeat case_decide; try lia;
      [|discriminate]. intros _. vm_compute. congruence.
  - change (PDX UVPT) with 957. intros i j Hi Hj Hiu Hju Hne. rewrite !Hs by done.
    repeat case_decide; try lia; discriminate.
Qed.

Lemma cow_demo : runs cow_state [5; 4] 0 run_env 0 /\ cow_page cow_state [5; 4] 0 0x800123 0x3805.
Proof.
  split; split; try reflexivity.
  - eapply pages_wf_ext; [exact (proj1 run_state_wf)|reflexivity..].
  - exact cow_pgdir.
  - change UTOP with 0xeec00000. lia.
  - vm_compute. congruence.
  - unfold owned. change (PTE_ADDR 0x3805 / 4096) with 3. split; [reflexivity|].
    split; [exact demo_used|]. split; [|vm_compute; split; congruence].
    intros [Ht|(i & Hi & Hp & Hx)]; [discriminate Ht|]. change (mem cow_state) with cow_mem in *.
    rewrite cow_slot in Hp, Hx by done.
    destruct (decide (i = 2)); [discriminate Hx|]. destruct (decide (i = 957)); discriminate.
  - change (present (pde (mem cow_state) 0 PFTEMP)) with false. cbn. lia.
Qed.

