(* ===== verification/Fork.v ===== *)
(** * Fork: duppage and fork, lib/fork.c

    fork runs in the parent and builds the child's address space through system
    calls, page by page.  The definitions are in Ulib.v; here they run on a
    dispatcher whose switch has the cases they need ([Ulib.gate]), which the
    repository's lacks. *)

From S2P Require Import Prelude Layout Segments Memory CString Printfmt Kernel PageAlloc PageTable Env MemInit Sched Syscall Trap Upcall Ulib Cow.

(** ** Two address spaces

    The pages of the directory at [d] that are its own: the directory and the tables
    below UTOP.  The tables above are the kernel's and serve every directory. *)
Definition user_table (s : kstate) (d p : Z) : Prop :=
  p * 4096 = d \/
  exists i, 0 <= i < 955 /\ present (load32 (mem s) (slot d i)) = true /\
    PTE_ADDR (load32 (mem s) (slot d i)) = p * 4096.

Record spaces (s : kstate) (l : list Z) (d e : Z) : Prop := {
  sp_d : pgdir_wf s l d;
  sp_e : pgdir_wf s l e;
  sp_d_own : forall p, user_table s d p -> ~ is_table s e p;
  sp_e_own : forall p, user_table s e p -> ~ is_table s d p;
  sp_kernel : forall i, 955 <= i < 1024 -> i <> 957 ->
    load32 (mem s) (slot d i) = load32 (mem s) (slot e i);
}.

Lemma spaces_sym s l d e : spaces s l d e -> spaces s l e d.
Proof. intros [H1 H2 H3 H4 H5]. split; try done. intros i Hi Hn. symmetry. by apply H5. Qed.

Lemma user_is_table s d p : user_table s d p -> is_table s d p.
Proof. intros [H|(i & Hi & H)]; [by left|]. right. exists i. split; [lia|done]. Qed.

Lemma table_not_free s l d p : pgdir_wf s l d -> is_table s d p -> p ∉ l.
Proof.
  intros Hd [H|(i & Hi & Hp & Ha)].
  - replace p with (d / 4096); [apply (dw_used _ _ _ Hd)|]. rewrite <- H. by rewrite Z.div_mul.
  - destruct (dw_table _ _ _ Hd i Hi Hp) as [_ Hn]. rewrite Ha, Z.div_mul in Hn by lia. done.
Qed.

Lemma same_slot m m' f i :
  f mod 4096 = 0 -> 0 <= i < 1024 -> (forall x, x / 4096 = f / 4096 -> load8 m' x = load8 m x) ->
  load32 m' (slot f i) = load32 m (slot f i).
Proof. intros Hf Hi H. apply load32_ext. intros x Hx. apply H. unfold slot in Hx. zlia. Qed.

Lemma mapping_pde m d e va : pde m d va = pde m e va -> mapping m d va = mapping m e va.
Proof. intros H. unfold mapping, pte, pte_addr. by rewrite H. Qed.

Lemma user_PDX va : 0 <= va < UTOP -> 0 <= PDX va < 955.
Proof. change UTOP with 0xeec00000. intros H. rewrite PDX_div, u32_small by lia. zlia. Qed.

Lemma PDX_eq_PGNUM va va' : PGNUM va = PGNUM va' -> PDX va = PDX va'.
Proof. intros E. apply same_page_indexes in E. tauto. Qed.

(** *** An insertion into one of them, seen from the other *)

Section Other.
Context (s : kstate) (l : list Z) (d e pp va perm : Z) (s' : kstate) (l' : list Z).
Hypothesis Hsp : spaces s l d e.
Hypothesis Hva : 0 <= va < UTOP.
Hypothesis Hperm : 0 <= perm < 4096.
Hypothesis Hin : inserted s l e pp va perm s' l'.
Hypothesis Hsub : forall x, x ∈ l' -> x ∈ l.

Lemma other_page p : p ∉ l -> ~ is_table s e p -> forall x, x / 4096 = p -> load8 (mem s') x = load8 (mem s) x.
Proof using All. intros H1 H2 x <-. by apply (is_mem _ _ _ _ _ _ _ _ Hin). Qed.

Lemma other_slots i : 0 <= i < 1024 -> load32 (mem s') (slot d i) = load32 (mem s) (slot d i).
Proof using All.
  intros Hi. pose proof (sp_d _ _ _ _ Hsp) as Hd. pose proof (dw_aligned _ _ _ Hd) as Ha.
  apply same_slot; [done|done|]. apply other_page; [apply (dw_used _ _ _ Hd)|].
  apply (sp_d_own _ _ _ _ Hsp). left. zlia.
Qed.

Lemma other_mapping va' : PDX va' <> PDX UVPT -> mapping (mem s') d va' = mapping (mem s) d va'.
Proof using All.
  intros Hv. pose proof (sp_d _ _ _ _ Hsp) as Hd. pose proof (PDX_range va') as Hr.
  assert (pde (mem s') d va' = pde (mem s) d va') as Ep by (rewrite !pde_slot; by apply other_slots).
  destruct (Z.lt_ge_cases (PDX va') 955) as [Hlt|Hge].
  - unfold mapping. rewrite !pte_slot, Ep. destruct (present (pde (mem s) d va')) eqn:Hp; [|done].
    rewrite (same_slot (mem s) (mem s')); [done|apply PTE_ADDR_aligned|auto with jos|].
    assert (user_table s d (PTE_ADDR (pde (mem s) d va') / 4096)) as Hu.
    { right. exists (PDX va'). rewrite <- pde_slot. split; [lia|]. split; [done|].
      pose proof (PTE_ADDR_aligned (pde (mem s) d va')). zlia. }
    apply other_page; [by apply (table_not_free s l d), user_is_table|by apply (sp_d_own _ _ _ _ Hsp)].
  - pose proof (user_PDX va Hva). rewrite PDX_UVPT in Hv.
    assert (pde (mem s) d va' = pde (mem s) e va') as E1 by (rewrite !pde_slot; apply (sp_kernel _ _ _ _ Hsp); lia).
    assert (pde (mem s') e va' = pde (mem s) e va') as E2
      by (rewrite !pde_slot; apply (is_slots _ _ _ _ _ _ _ _ Hin); lia).
    rewrite (mapping_pde (mem s') d e), (mapping_pde (mem s) d e), (is_map _ _ _ _ _ _ _ _ Hin), decide_False; try congruence.
    + intros E. apply PDX_eq_PGNUM in E. lia.
    + by rewrite PDX_UVPT.
Qed.

Lemma other_tables p : is_table s' d p <-> is_table s d p.
Proof using All.
  split; apply is_table_slots; intros i Hi; [|symmetry]; by apply other_slots.
Qed.

Lemma other_user p : user_table s' d p -> user_table s d p.
Proof using All.
  intros [H|(i & Hi & Hp & Ha)]; [by left|]. right. exists i. rewrite other_slots in Hp, Ha by lia. done.
Qed.

Lemma inserted_user p : user_table s' e p -> user_table s e p \/ p ∈ l.
Proof using All.
  intros [H|(i & Hi & Hp & Ha)]; [left; by left|].
  destruct (decide (i = PDX va)) as [->|Hne].
  - rewrite <- pde_slot in *. destruct (present (pde (mem s) e va)) eqn:Hpr.
    + left. right. exists (PDX va). rewrite <- pde_slot. split; [done|]. split; [done|]. rewrite <- Ha.
      rewrite (is_pde_or _ _ _ _ _ _ _ _ Hin Hpr). symmetry. apply PTE_ADDR_or; [apply load32_range|done].
    + destruct (is_new _ _ _ _ _ _ _ _ Hin Hpr) as (x & Hx & Ex). right.
      by replace p with x by lia.
  - rewrite (is_slots _ _ _ _ _ _ _ _ Hin) in Hp, Ha by lia. left. right. by exists i.
Qed.

Lemma inserted_spaces : spaces s' l' d e.
Proof using All.
  split.
  - eapply pgdir_wf_mono; [apply (sp_d _ _ _ _ Hsp)| | |].
    + apply same_else_npages, Hin.
    + intros i Hi. by rewrite other_slots.
    + intros x Hx. left. auto.
  - apply Hin.
  - intros p Hu Ht. apply other_user in Hu. apply (sp_d_own _ _ _ _ Hsp p Hu).
    apply (is_tables _ _ _ _ _ _ _ _ Hin); [|done].
    by apply (table_not_free s l d), user_is_table; [apply Hsp|].
  - intros p Hu Ht. apply other_tables in Ht. destruct (inserted_user p Hu) as [H|H].
    + by apply (sp_e_own _ _ _ _ Hsp p H).
    + by apply (table_not_free s l d p (sp_d _ _ _ _ Hsp) Ht).
  - intros i Hi Hn. pose proof (user_PDX va Hva). rewrite other_slots by lia.
    rewrite (is_slots _ _ _ _ _ _ _ _ Hin) by lia. by apply (sp_kernel _ _ _ _ Hsp).
Qed.
End Other.

(** ** The child *)

(** Environment [ce] is a child of environment [c], with the directory at [e]. *)
Record child_of (s : kstate) (v : Env) (ce : Z) (ve : Env) (e : Z) : Prop := {
  ch_id : 0 < env_id ve < 0x80000000;
  ch_slot : ENVX (env_id ve) = ce;
  ch_env : envs s !! ce = Some ve;
  ch_used : env_status ve <> ENV_FREE;
  ch_parent : env_parent_id ve = env_id v;
  ch_pgdir : env_pgdir ve = KERNBASE + e;
}.

Lemma child_same s s' v ce ve e : child_of s v ce ve e -> same_else s s' -> child_of s' v ce ve e.
Proof. intros [] Hs. split; try done. by rewrite Hs. Qed.

Lemma envid2env_child s l c v d ce ve e :
  runs s l c v d -> child_of s v ce ve e -> envid2env (env_id ve) true s = Ok (0, Some ce) s.
Proof.
  intros Hr Hc. pose proof (ch_id _ _ _ _ _ Hc). unfold envid2env.
  rewrite (proj2 (Z.eqb_neq _ _)) by lia. cbv zeta. rewrite (ch_slot _ _ _ _ _ Hc).
  kstep (get_env_run s ce ve (ch_env _ _ _ _ _ Hc)). rewrite Z.eqb_refl.
  rewrite bool_decide_eq_false_2 by apply Hc. cbn [orb negb].
  assert (curenv s = Ok (Some c) s) as Ec.
  { pose proof (rn_cur _ _ _ _ _ Hr) as Hcur. unfold cur in Hcur.
    destruct (cpus s !! cpunum s) as [i|] eqn:Ei; [|done]. simpl in Hcur.
    by rewrite (curenv_run s i Ei), Hcur. }
  kstep Ec. cbn [andb]. case_bool_decide; cbn [negb]; [done|].
  rewrite bind_assoc. kstep (curenv_ptr_run s c (rn_cur _ _ _ _ _ Hr)). rewrite bind_assoc.
  kstep (get_env_run s c v (rn_env _ _ _ _ _ Hr)). by rewrite (ch_parent _ _ _ _ _ Hc), Z.eqb_refl.
Qed.

Lemma s32_id x : 0 <= x < 0x80000000 -> s32 (u32 x) = x.
Proof. intros H. rewrite u32_small by lia. by rewrite s32_small by lia. Qed.

(** *** A page of the parent, seen from duppage *)

(** The permission that the child's mapping gets, and the parent's mapping after. *)
Definition is_share (w : Z) : bool := ctrue (Z.land w PTE_SHARE).
Definition is_cow (w : Z) : bool := ctrue (Z.land w PTE_W) || ctrue (Z.land w PTE_COW).
Definition COWPERM : Z := Z.lor (Z.lor PTE_COW PTE_U) PTE_P.
Definition dup_perm (w : Z) : Z :=
  if is_share w then PTE_SYSCALL else if is_cow w then COWPERM else USERRO.
Definition child_entry (w : Z) : Z := Z.lor (Z.lor (PTE_ADDR w / 4096 * 4096) (dup_perm w)) PTE_P.
Definition own_entry (w : Z) : Z := if negb (is_share w) && is_cow w then child_entry w else w.

(** [va] maps [w] for user code of the parent; the child has nothing there yet. *)
Record dup_page (s : kstate) (l : list Z) (d e va w : Z) : Prop := {
  dp_self : pde (mem s) d UVPT = Z.lor (Z.lor d PTE_U) PTE_P;
  dp_va : 0 <= va < UTOP /\ va mod 4096 = 0;
  dp_map : mapping (mem s) d va = Some w;
  dp_user : Z.land (pde (mem s) d va) PTE_U = PTE_U;
  dp_owned : owned s l d w;
  dp_ref : ref_of s (PTE_ADDR w / 4096) < 65534;
  dp_free : mapping (mem s) e va = None;
  dp_pages : present (pde (mem s) e va) = true \/ l <> [];
  dp_share : is_share w = true -> Z.land w PTE_W <> 0;
}.

(** What duppage leaves, with [o] as the parent's entry. *)
Record duplicated (s : kstate) (l : list Z) (d e va w o : Z) (s' : kstate) (l' : list Z) : Prop := {
  dd_same : same_else s s';
  dd_pages : pages_wf s' l';
  dd_spaces : spaces s' l' d e;
  dd_child : forall va', PDX va' <> PDX UVPT -> mapping (mem s') e va' =
    if decide (PGNUM va' = PGNUM va) then Some (child_entry w) else mapping (mem s) e va';
  dd_own : forall va', PDX va' <> PDX UVPT -> mapping (mem s') d va' =
    if decide (PGNUM va' = PGNUM va) then Some o else mapping (mem s) d va';
  dd_refs : forall p, p ∉ l -> ref_of s' p = ref_of s p + (if p =? PTE_ADDR w / 4096 then 1 else 0);
  dd_mem : forall x, x / 4096 ∉ l -> ~ is_table s d (x / 4096) -> ~ is_table s e (x / 4096) ->
    load8 (mem s') x = load8 (mem s) x;
  dd_list : if present (pde (mem s) e va) then l' = l else exists p, l = p :: l';
  dd_e_slots : forall i, 0 <= i < 1024 -> i <> PDX va ->
    load32 (mem s') (slot e i) = load32 (mem s) (slot e i);
  dd_e_present : present (pde (mem s') e va) = true;
  dd_e_user : Z.land (pde (mem s') e va) PTE_U = PTE_U;
  dd_d_slots : forall i, 0 <= i < 1024 -> i <> PDX va ->
    load32 (mem s') (slot d i) = load32 (mem s) (slot d i);
  dd_d_pde : exists f, 0 <= f < 4096 /\ pde (mem s') d va = Z.lor (pde (mem s) d va) f;
  dd_tables : forall p, p ∉ l -> (is_table s' d p -> is_table s d p) /\ (is_table s' e p -> is_table s e p);
}.

Lemma COWPERM_range : 0 <= COWPERM < 4096.
Proof. vm_compute. split; congruence. Qed.

Lemma dup_perm_range w : 0 <= dup_perm w < 4096 /\ bad_perm (dup_perm w) = false /\ Z.land (dup_perm w) PTE_U = PTE_U.
Proof. unfold dup_perm. destruct (is_share w), (is_cow w); vm_compute; repeat split; congruence. Qed.

Lemma dup_may_share w : (is_share w = true -> Z.land w PTE_W <> 0) -> may_share w (dup_perm w) = true.
Proof.
  intros H. unfold may_share. destruct (dup_perm_range w) as (_ & -> & _). cbn [negb andb].
  apply negb_true_iff, andb_false_iff. unfold dup_perm. destruct (is_share w); [left|right; by destruct (is_cow w)].
  apply Z.eqb_neq. by apply H.
Qed.

Section Dup.
Context {C : SystemCalls} {fuel : nat} `{!Reaches C fuel SYS_page_map, !Reaches C fuel SYS_page_alloc,
  !Reaches C fuel SYS_page_unmap}.
Context (c : Z) (v : Env) (ce : Z) (ve : Env) (d e : Z).

Lemma page_map_child s l va perm w :
  runs s l c v d -> child_of s v ce ve e -> pgdir_wf s l e -> 0 <= va < UTOP -> va mod 4096 = 0 ->
  0 <= perm < 4096 -> mapping (mem s) d va = Some w -> owned s l d w ->
  mapping (mem s) e va = None -> may_share w perm = true ->
  present (pde (mem s) e va) = true \/ l <> [] ->
  exists s' l', Ulib.sys_page_map 0 va (env_id ve) va perm s = Ok 0 s' /\
    inserted s l e (PTE_ADDR w / 4096) va perm s' l'.
Proof using All.
  intros Hr Hc He Hv Ha Hp Hm Ho Hn Hsh Hl.
  pose proof (envid2env_self s c (rn_cur _ _ _ _ _ Hr)) as E0.
  pose proof (envid2env_child s l c v d ce ve e Hr Hc) as E1.
  destruct (sys_page_map_ok s l d e c ce v ve 0 va (env_id ve) va perm w) as (s' & l' & E & Hi);
    try apply Hr; try apply Hc; try done; eauto using runs_cpu, user_page_ok, mapped_entry, owned_old, unmapped_old.
  exists s', l'. split; [|done].
  unfold Ulib.sys_page_map. eapply call_ok; [apply call_page_map| |done].
  pose proof (ch_id _ _ _ _ _ Hc). change (s32 (u32 0)) with 0.
  by rewrite s32_id, (u32_small perm) by lia.
Qed.
End Dup.

(** *** The mapping in the child *)

Lemma dup_list s l d e va w perm s1 l1 :
  dup_page s l d e va w -> inserted s l e (PTE_ADDR w / 4096) va perm s1 l1 ->
  (if present (pde (mem s) e va) then l1 = l else exists p, l = p :: l1) /\ forall x, x ∈ l1 -> x ∈ l.
Proof.
  intros Hp Hi. destruct (is_list _ _ _ _ _ _ _ _ Hi) as (lw & El & Hl). unfold freed in El.
  rewrite (dp_free _ _ _ _ _ _ Hp) in El. subst lw.
  destruct (present (pde (mem s) e va)); [by subst|]. destruct Hl as [p ->].
  split; [by exists p|]. intros x Hx. by constructor.
Qed.

Lemma land_sub x a b : Z.land x a = a -> Z.land a b = b -> Z.land x b = b.
Proof. intros Hx Hb. rewrite <- Hb at 1. by rewrite Z.land_assoc, Hx. Qed.

Lemma inserted_duplicated s l d e va w s1 l1 :
  spaces s l d e -> dup_page s l d e va w ->
  inserted s l e (PTE_ADDR w / 4096) va (dup_perm w) s1 l1 -> duplicated s l d e va w w s1 l1.
Proof.
  intros Hsp Hp Hi. destruct (dup_list _ _ _ _ _ _ _ _ _ Hp Hi) as [Hl Hsub].
  destruct (dp_va _ _ _ _ _ _ Hp) as [Hv Ha]. destruct (dup_perm_range w) as (Hperm & _ & Hpu).
  assert (forall i, 0 <= i < 1024 -> load32 (mem s1) (slot d i) = load32 (mem s) (slot d i)) as Hsl
    by (intros i; by apply (other_slots s l d e (PTE_ADDR w / 4096) va (dup_perm w) s1 l1)).
  split.
  - apply Hi.
  - apply Hi.
  - by apply (inserted_spaces s l d e (PTE_ADDR w / 4096) va (dup_perm w) s1 l1 Hsp Hv Hperm Hi Hsub).
  - intros va' Hv'. by apply (is_map _ _ _ _ _ _ _ _ Hi).
  - intros va' Hv'. rewrite (other_mapping s l d e (PTE_ADDR w / 4096) va (dup_perm w) s1 l1) by done.
    case_decide as E; [|done]. by rewrite (proj1 (same_page_translate _ _ _ _ E)), (dp_map _ _ _ _ _ _ Hp).
  - intros p Hpl. rewrite (is_refs _ _ _ _ _ _ _ _ Hi) by done. unfold maps_to.
    rewrite (dp_free _ _ _ _ _ _ Hp). lia.
  - intros x H1 _ H2. by apply (is_mem _ _ _ _ _ _ _ _ Hi).
  - done.
  - apply Hi.
  - apply Hi.
  - by apply (land_sub _ (dup_perm w)); [apply Hi|].
  - intros i Hi' _. by apply Hsl.
  - exists 0. split; [lia|]. rewrite Z.lor_0_r, !pde_slot. apply Hsl. auto with jos.
  - intros p Hpl. split; [by apply is_table_slots|by apply Hi].
Qed.

(** *** The mapping in the parent *)

Section Remap.
Context (s : kstate) (l : list Z) (d e va w : Z) (s1 : kstate) (l1 : list Z).
Hypothesis Hp : dup_page s l d e va w.
Hypothesis H1 : duplicated s l d e va w w s1 l1.

Lemma remap_sub x : x ∈ l1 -> x ∈ l.
Proof using Type*.
  pose proof (dd_list _ _ _ _ _ _ _ _ _ H1) as Hl. destruct (present _); [by subst|].
  destruct Hl as [p ->]. by constructor.
Qed.

Lemma remap_own1 : mapping (mem s1) d va = Some w.
Proof using Type*.
  rewrite (dd_own _ _ _ _ _ _ _ _ _ H1), decide_True; [done|done|].
  apply user_va_PDX, (dp_va _ _ _ _ _ _ Hp).
Qed.

Lemma remap_ref1 : ref_of s1 (PTE_ADDR w / 4096) = ref_of s (PTE_ADDR w / 4096) + 1.
Proof using Type*.
  destruct (dp_owned _ _ _ _ _ _ Hp) as (_ & Hq & _).
  by rewrite (dd_refs _ _ _ _ _ _ _ _ _ H1), Z.eqb_refl.
Qed.

Lemma remap_owned1 : owned s1 l1 d w.
Proof using Type*.
  destruct (dp_owned _ _ _ _ _ _ Hp) as (Hq1 & Hq2 & Hq3 & Hq4). pose proof (dp_ref _ _ _ _ _ _ Hp).
  split; [by rewrite (same_else_npages _ _ (dd_same _ _ _ _ _ _ _ _ _ H1))|].
  split; [intros Hx; by apply Hq2, remap_sub|]. split; [|rewrite remap_ref1; lia].
  intros Ht. by apply Hq3, (dd_tables _ _ _ _ _ _ _ _ _ H1).
Qed.

Lemma remap_present1 : present (pde (mem s1) d va) = true.
Proof using Type*. pose proof remap_own1 as E. unfold mapping in E. by destruct (present (pde (mem s1) d va)). Qed.

Context (s2 : kstate) (l2 : list Z).
Hypothesis Hi : inserted s1 l1 d (PTE_ADDR w / 4096) va COWPERM s2 l2.
Hypothesis Hw : dup_perm w = COWPERM.

Lemma remap_list : l2 = l1.
Proof using Type*.
  destruct (is_list _ _ _ _ _ _ _ _ Hi) as (lw & El & Hl). rewrite remap_present1 in Hl. subst lw.
  rewrite El. unfold freed. rewrite remap_own1. cbv zeta. rewrite Z.eqb_refl, remap_ref1.
  destruct (dp_owned _ _ _ _ _ _ Hp) as (_ & _ & _ & Hq4). by rewrite (proj2 (Z.eqb_neq _ 1)) by lia.
Qed.

Lemma remap_duplicated : duplicated s l d e va w (child_entry w) s2 l2.
Proof using Type*.
  pose proof remap_list as El. destruct (dp_va _ _ _ _ _ _ Hp) as [Hv Ha].
  pose proof (spaces_sym _ _ _ _ (dd_spaces _ _ _ _ _ _ _ _ _ H1)) as Hsp1.
  pose proof COWPERM_range as Hperm.
  assert (forall x, x ∈ l2 -> x ∈ l1) as Hsub by (by rewrite El).
  assert (forall i, 0 <= i < 1024 -> load32 (mem s2) (slot e i) = load32 (mem s1) (slot e i)) as Hsl
    by (intros i; by apply (other_slots s1 l1 e d (PTE_ADDR w / 4096) va COWPERM s2 l2)).
  assert (pde (mem s2) e va = pde (mem s1) e va) as Epe by (rewrite !pde_slot; apply Hsl; auto with jos).
  split.
  - etrans; [apply H1|apply Hi].
  - apply Hi.
  - by apply spaces_sym, (inserted_spaces s1 l1 e d (PTE_ADDR w / 4096) va COWPERM s2 l2 Hsp1 Hv Hperm Hi Hsub).
  - intros va' Hv'. rewrite (other_mapping s1 l1 e d (PTE_ADDR w / 4096) va COWPERM s2 l2) by done.
    by apply (dd_child _ _ _ _ _ _ _ _ _ H1).
  - intros va' Hv'. rewrite (is_map _ _ _ _ _ _ _ _ Hi) by done.
    case_decide as E; [by unfold child_entry; rewrite Hw|].
    by rewrite (dd_own _ _ _ _ _ _ _ _ _ H1), decide_False.
  - intros p Hpl. rewrite (is_refs _ _ _ _ _ _ _ _ Hi) by (intros Hx; by apply Hpl, remap_sub).
    rewrite (dd_refs _ _ _ _ _ _ _ _ _ H1) by done. unfold maps_to. rewrite remap_own1.
    rewrite (Z.eqb_sym (PTE_ADDR w / 4096)). lia.
  - intros x Hx Hd He. rewrite (is_mem _ _ _ _ _ _ _ _ Hi).
    + by apply (dd_mem _ _ _ _ _ _ _ _ _ H1).
    + intros Hx1. by apply Hx, remap_sub.
    + intros Ht. by apply Hd, (dd_tables _ _ _ _ _ _ _ _ _ H1).
  - rewrite El. apply H1.
  - intros i Hi' Hne. rewrite Hsl by done. by apply (dd_e_slots _ _ _ _ _ _ _ _ _ H1).
  - rewrite Epe. apply H1.
  - rewrite Epe. apply H1.
  - intros i Hi' Hne. rewrite (is_slots _ _ _ _ _ _ _ _ Hi) by done.
    by apply (dd_d_slots _ _ _ _ _ _ _ _ _ H1).
  - destruct (dd_d_pde _ _ _ _ _ _ _ _ _ H1) as (f & Hf & Ef). exists (Z.lor f COWPERM). split.
    + apply (lor_range _ _ 12); lia.
    + by rewrite (is_pde_or _ _ _ _ _ _ _ _ Hi remap_present1), Ef, Z.lor_assoc.
  - intros p Hpl. assert (p ∉ l1) as Hp1 by (intros Hx; by apply Hpl, remap_sub).
    destruct (dd_tables _ _ _ _ _ _ _ _ _ H1 p Hpl) as [Hd He]. split.
    + intros Ht. by apply Hd, (is_tables _ _ _ _ _ _ _ _ Hi).
    + intros Ht. apply He. revert Ht. by apply is_table_slots.
Qed.
End Remap.

(** ** duppage *)

Section Duppage.
Context {C : SystemCalls} {fuel : nat} `{!Reaches C fuel SYS_page_map, !Reaches C fuel SYS_page_alloc,
  !Reaches C fuel SYS_page_unmap}.
Context (c : Z) (v : Env) (ce : Z) (ve : Env) (d e : Z).

Lemma duplicated_runs s l va w o s' l' :
  runs s l c v d -> duplicated s l d e va w o s' l' -> runs s' l' c v d.
Proof using Type. intros Hr Hd. apply (runs_same s l); [done|apply Hd|apply Hd|apply Hd]. Qed.

(** The first call, which every case makes. *)
Lemma dup_first s l va w :
  runs s l c v d -> child_of s v ce ve e -> spaces s l d e -> dup_page s l d e va w ->
  exists s' l', Ulib.sys_page_map 0 va (env_id ve) va (dup_perm w) s = Ok 0 s' /\
    duplicated s l d e va w w s' l'.
Proof using All.
  intros Hr Hc Hsp Hp. destruct (dp_va _ _ _ _ _ _ Hp) as [Hv Ha].
  destruct (page_map_child c v ce ve d e s l va (dup_perm w) w) as (s1 & l1 & E & Hi);
    try done; try apply Hp; [apply Hsp|apply dup_perm_range|apply dup_may_share, Hp|].
  exists s1, l1. split; [done|]. by apply inserted_duplicated.
Qed.

(** The second, on a page that was writable or copy-on-write. *)
Lemma dup_second s l va w s1 l1 :
  runs s l c v d -> spaces s l d e -> dup_page s l d e va w -> dup_perm w = COWPERM ->
  duplicated s l d e va w w s1 l1 ->
  exists s' l', Ulib.sys_page_map 0 va 0 va COWPERM s1 = Ok 0 s' /\
    duplicated s l d e va w (child_entry w) s' l'.
Proof using All.
  intros Hr Hsp Hp Hw H1. destruct (dp_va _ _ _ _ _ _ Hp) as [Hv Ha].
  pose proof (remap_owned1 s l d e va w s1 l1 Hp H1) as Ho1.
  destruct (page_map_self s1 l1 c v d va va COWPERM w) as (s2 & l2 & E & Hi & _); try done.
  - by apply (duplicated_runs s l va w w).
  - by apply (remap_own1 s l d e va w s1 l1).
  - by apply (owned_old _ _ _ _ w); [apply (remap_own1 s l d e va w s1 l1)|].
  - rewrite <- Hw. apply dup_may_share, Hp.
  - left. by apply (remap_present1 s l d e va w s1 l1).
  - exists s2, l2. split; [done|]. by apply (remap_duplicated s l d e va w s1 l1 Hp H1 s2 l2).
Qed.

Lemma duppage_run s l va w :
  runs s l c v d -> child_of s v ce ve e -> spaces s l d e -> dup_page s l d e va w ->
  exists s' l', duppage (env_id ve) (PGNUM va) s = Ok 0 s' /\
    duplicated s l d e va w (own_entry w) s' l'.
Proof using All.
  intros Hr Hc Hsp Hp. destruct (dp_va _ _ _ _ _ _ Hp) as [Hv Ha].
  assert (0 <= va < 0x100000000) as Hv' by (change UTOP with 0xeec00000 in Hv; lia).
  assert (u32 (PGNUM va * PGSIZE) = va) as Eva.
  { rewrite PGNUM_div, (u32_small va) by lia. unfold PGSIZE. rewrite u32_small; zlia. }
  pose proof (uvpt_read s l c v d va w Hr (dp_self _ _ _ _ _ _ Hp) Hv' (dp_map _ _ _ _ _ _ Hp)
    (dp_user _ _ _ _ _ _ Hp)) as Eu.
  destruct (dup_first s l va w Hr Hc Hsp Hp) as (s1 & l1 & E1 & H1).
  unfold duppage. rewrite Eva. kstep Eu.
  unfold own_entry, is_share, is_cow, dup_perm in *. unfold is_share, is_cow in E1.
  destruct (ctrue (Z.land w PTE_SHARE)) eqn:Es; cbn [negb andb].
  { exists s1, l1. by kstep E1. }
  erewrite bind_ok with (a := ctrue (Z.land w PTE_W) || ctrue (Z.land w PTE_COW)) (s' := s)
    by (destruct (ctrue (Z.land w PTE_W)); [done|by kstep Eu]).
  destruct (ctrue (Z.land w PTE_W) || ctrue (Z.land w PTE_COW)) eqn:Ew.
  - assert (dup_perm w = COWPERM) as Hw by (unfold dup_perm, is_share, is_cow; by rewrite Es, Ew).
    destruct (dup_second s l va w s1 l1 Hr Hsp Hp Hw H1) as (s2 & l2 & E2 & H2).
    exists s2, l2. kstep E1. cbn [Z.ltb Z.compare]. by kstep E2.
  - exists s1, l1. by kstep E1.
Qed.
End Duppage.

(** ** The loop of fork *)

(** The entry of [va] when user code can read the page, which is when fork copies it. *)
Definition user_page (m : memory) (d va : Z) : option Z :=
  match mapping m d va with
  | Some w => if ctrue (Z.land w PTE_U) then Some w else None
  | None => None
  end.

Definition FORK_PAGES : Z := USTACKTOP / PGSIZE.

(** The number of pages below page [n] that map frame [q]. *)
Fixpoint frame_copies (m : memory) (d q : Z) (n : nat) : Z :=
  match n with
  | O => 0
  | S k => frame_copies m d q k +
      match user_page m d (Z.of_nat k * 4096) with
      | Some w => if q =? PTE_ADDR w / 4096 then 1 else 0
      | None => 0
      end
  end.

Lemma frame_copies_range m d q n : 0 <= frame_copies m d q n.
Proof. induction n as [|n IH]; cbn [frame_copies]; [lia|]. repeat case_match; lia. Qed.

Lemma frame_copies_mono m d q n k : (n <= k)%nat -> frame_copies m d q n <= frame_copies m d q k.
Proof.
  induction 1 as [|k Hk IH]; [done|]. cbn [frame_copies]. repeat case_match; lia.
Qed.

Lemma fork_copies_run t l c v d va :
  runs t l c v d -> pde (mem t) d UVPT = Z.lor (Z.lor d PTE_U) PTE_P -> 0 <= va < 0x100000000 ->
  (present (pde (mem t) d va) = true -> Z.land (pde (mem t) d va) PTE_U = PTE_U) ->
  fork_copies va t = Ok (bool_decide (is_Some (user_page (mem t) d va))) t.
Proof.
  intros Hr Hself Hva Hu. unfold fork_copies. kstep (uvpd_read t l c v d va Hr Hself Hva).
  fold (present (pde (mem t) d va)). unfold user_page, mapping.
  destruct (present (pde (mem t) d va)) eqn:Hp; cbn [negb andb]; [|reflexivity].
  pose proof (uvpt_read_pte t l c v d va Hr Hself Hva Hp (Hu eq_refl)) as E.
  kstep E. fold (present (pte (mem t) d va)).
  destruct (present (pte (mem t) d va)); cbn [negb]; [|reflexivity].
  kstep E. unfold mret, K_ret. f_equal.
  by destruct (ctrue _).
Qed.

(** Environment [c], with the directory at [d], can copy itself into its child, whose
    address space is empty. *)
Record forkable (s : kstate) (l : list Z) (c : Z) (v : Env) (d ce : Z) (ve : Env) (e : Z) : Prop := {
  fk_runs : runs s l c v d;
  fk_child : child_of s v ce ve e;
  fk_spaces : spaces s l d e;
  fk_self : pde (mem s) d UVPT = Z.lor (Z.lor d PTE_U) PTE_P;
  fk_user : forall j, 0 <= j < 955 -> present (load32 (mem s) (slot d j)) = true ->
    Z.land (load32 (mem s) (slot d j)) PTE_U = PTE_U;
  fk_page : forall va w, 0 <= va < USTACKTOP -> user_page (mem s) d va = Some w ->
    owned s l d w /\ ~ is_table s e (PTE_ADDR w / 4096) /\ (is_share w = true -> Z.land w PTE_W <> 0) /\
    ref_of s (PTE_ADDR w / 4096) + frame_copies (mem s) d (PTE_ADDR w / 4096) (Z.to_nat FORK_PAGES) < 65535;
  fk_empty : forall j, 0 <= j < 955 -> present (load32 (mem s) (slot e j)) = false;
  fk_pages : 956 < Z.of_nat (length l);
}.

(** What page [va] of the parent maps once it has been copied. *)
Definition shared_entry (m : memory) (d va : Z) : option Z :=
  match user_page m d va with Some w => Some (own_entry w) | None => mapping m d va end.

Definition entry_b (m : memory) (e i : Z) : Z := if present (load32 m (slot e i)) then 1 else 0.

(** The pages below [i] have been copied. *)
Record fork_inv (s : kstate) (l : list Z) (d e i : Z) (t : kstate) (lt : list Z) : Prop := {
  fi_same : same_else s t;
  fi_pages : pages_wf t lt;
  fi_spaces : spaces t lt d e;
  fi_sub : forall x, x ∈ lt -> x ∈ l;
  fi_child : forall va, PDX va <> PDX UVPT -> mapping (mem t) e va =
    if PGNUM va <? i then child_entry <$> user_page (mem s) d va else mapping (mem s) e va;
  fi_own : forall va, PDX va <> PDX UVPT -> mapping (mem t) d va =
    if PGNUM va <? i then shared_entry (mem s) d va else mapping (mem s) d va;
  fi_refs : forall p, p ∉ l -> ref_of t p = ref_of s p + frame_copies (mem s) d p (Z.to_nat i);
  fi_mem : forall x, x / 4096 ∉ l -> ~ is_table s d (x / 4096) -> ~ is_table s e (x / 4096) ->
    load8 (mem t) x = load8 (mem s) x;
  fi_slots : forall j, 0 <= j < 1024 -> load32 (mem t) (slot d j) = load32 (mem s) (slot d j) \/
    (j < 955 /\ present (load32 (mem s) (slot d j)) = true /\
     exists f, 0 <= f < 4096 /\ load32 (mem t) (slot d j) = Z.lor (load32 (mem s) (slot d j)) f);
  fi_tables : forall p, p ∉ l -> (is_table t d p -> is_table s d p) /\ (is_table t e p -> is_table s e p);
  fi_absent : forall j, 0 <= j < 955 -> i <= j * 1024 -> present (load32 (mem t) (slot e j)) = false;
  fi_user : forall j, 0 <= j < 955 -> present (load32 (mem t) (slot e j)) = true ->
    Z.land (load32 (mem t) (slot e j)) PTE_U = PTE_U;
  fi_list : Z.of_nat (length l) <= Z.of_nat (length lt) + i / 1024 + entry_b (mem t) e (i / 1024);
}.

Lemma user_page_same m d va va' : PGNUM va = PGNUM va' -> user_page m d va = user_page m d va'.
Proof. intros E. unfold user_page. by rewrite (proj1 (same_page_translate m d va va' E)). Qed.

Lemma page_at i : 0 <= i < 0x100000 -> PGNUM (i * 4096) = i /\ PDX (i * 4096) = i / 1024.
Proof. intros H. rewrite PGNUM_div, PDX_div, u32_small by lia. split; zlia. Qed.

Lemma entry_b_range m e i : 0 <= entry_b m e i <= 1.
Proof. unfold entry_b. case_match; lia. Qed.

(** The last directory entry that the loop has reached. *)
Lemma entry_b_next m e i :
  i / 1024 + entry_b m e (i / 1024) <= (i + 1) / 1024 + entry_b m e ((i + 1) / 1024).
Proof.
  pose proof (entry_b_range m e (i / 1024)). pose proof (entry_b_range m e ((i + 1) / 1024)).
  assert ((i + 1) / 1024 = i / 1024 \/ (i + 1) / 1024 = i / 1024 + 1) as [E|E] by (clear; zlia).
  - rewrite E. lia.
  - lia.
Qed.

Section ForkLoop.
Context (s : kstate) (l : list Z) (c : Z) (v : Env) (d ce : Z) (ve : Env) (e : Z).
Hypothesis Hf : forkable s l c v d ce ve e.

Lemma child_empty va : 0 <= PDX va < 955 -> mapping (mem s) e va = None.
Proof using All.
  intros H. unfold mapping. rewrite (pde_slot (mem s) e va). by rewrite (fk_empty _ _ _ _ _ _ _ _ Hf).
Qed.

Lemma fork_start : fork_inv s l d e 0 s l.
Proof using All.
  assert (forall va, (PGNUM va <? 0) = false) as H0.
  { intros va. apply Z.ltb_ge. pose proof (PGNUM_range va). lia. }
  split; try done; try apply Hf.
  - intros va _. by rewrite H0.
  - intros va _. by rewrite H0.
  - intros p _. change (frame_copies _ _ _ _) with 0. lia.
  - intros j _. by left.
  - intros j Hj _. by apply (fk_empty _ _ _ _ _ _ _ _ Hf).
  - intros j Hj Hp. by rewrite (fk_empty _ _ _ _ _ _ _ _ Hf) in Hp.
  - pose proof (entry_b_range (mem s) e (0 / 1024)). change (0 / 1024) with 0 in *. lia.
Qed.

Context (i : Z) (t : kstate) (lt : list Z).
Hypothesis Hi : 0 <= i < FORK_PAGES.
Hypothesis Ht : fork_inv s l d e i t lt.

Lemma fork_va : 0 <= i * 4096 < USTACKTOP /\ i < 0x100000 /\ PGNUM (i * 4096) = i /\ PDX (i * 4096) = i / 1024 /\ 0 <= i / 1024 < 955.
Proof using Hi.
  change FORK_PAGES with 0xeebfe in Hi. change USTACKTOP with 0xeebfe000.
  destruct (page_at i ltac:(lia)) as [E1 E2]. rewrite E1, E2. clear E1 E2. repeat split; zlia.
Qed.

Lemma below_next n : (n <? i + 1) = (n <? i) || (n =? i).
Proof using Type. apply eq_true_iff_eq. rewrite orb_true_iff, !Z.ltb_lt, Z.eqb_eq. lia. Qed.

Lemma copies_next p : frame_copies (mem s) d p (Z.to_nat (i + 1)) =
  frame_copies (mem s) d p (Z.to_nat i) +
  match user_page (mem s) d (i * 4096) with Some w => if p =? PTE_ADDR w / 4096 then 1 else 0 | None => 0 end.
Proof using Hi.
  replace (Z.to_nat (i + 1)) with (S (Z.to_nat i)) by lia. cbn [frame_copies].
  by replace (Z.of_nat (Z.to_nat i)) with i by lia.
Qed.

Lemma fork_skip : user_page (mem s) d (i * 4096) = None -> fork_inv s l d e (i + 1) t lt.
Proof using All.
  intros Hn. destruct fork_va as (Hva & Hib & Ep & Ex & Hx).
  assert (forall va, PGNUM va = i -> user_page (mem s) d va = None) as Hnone.
  { intros va Ev. rewrite <- Hn. apply user_page_same. by rewrite Ep. }
  destruct Ht as [H1 H2 H3 H4 H5 H6 H7 H8 H9 H10 H11 H12 H13]. split; try done.
  - intros va Hv. rewrite H5, below_next by done. destruct (PGNUM va <? i) eqn:El; [done|]. cbn [orb].
    destruct (Z.eqb_spec (PGNUM va) i) as [E|E]; [|done]. rewrite (Hnone va E). apply child_empty.
    assert (PDX va = PDX (i * 4096)) as -> by (apply PDX_eq_PGNUM; by rewrite Ep). by rewrite Ex.
  - intros va Hv. rewrite H6, below_next by done. destruct (PGNUM va <? i) eqn:El; [done|]. cbn [orb].
    destruct (Z.eqb_spec (PGNUM va) i) as [E|E]; [|done]. unfold shared_entry. by rewrite (Hnone va E).
  - intros p Hp. rewrite copies_next, Hn, H7 by done. lia.
  - intros j Hj Hle. apply H11; [done|lia].
  - pose proof (entry_b_next (mem t) e i). lia.
Qed.

(** The page is mapped as it was, and duppage can run. *)
Lemma fork_ready w : user_page (mem s) d (i * 4096) = Some w -> dup_page t lt d e (i * 4096) w.
Proof using All.
  intros Hw. destruct fork_va as (Hva & Hib & Ep & Ex & Hx).
  destruct (fk_page _ _ _ _ _ _ _ _ Hf _ _ Hva Hw) as ((Q1 & Q2 & Q3 & Q4) & _ & Hsh & Hrf).
  assert (0 <= i * 4096 < UTOP) as Hut by (change USTACKTOP with 0xeebfe000 in Hva; change UTOP with 0xeec00000; lia).
  pose proof (user_va_PDX _ Hut) as Hux.
  assert (mapping (mem s) d (i * 4096) = Some w) as Hm.
  { unfold user_page in Hw. destruct (mapping (mem s) d (i * 4096)) as [x|]; [|done]. by destruct (ctrue _). }
  assert (PTE_ADDR w / 4096 ∉ lt) as Hql by (intros Hq; by apply Q2, (fi_sub _ _ _ _ _ _ _ Ht)).
  pose proof (frame_copies_range (mem s) d (PTE_ADDR w / 4096) (Z.to_nat i)) as Hc0.
  assert (frame_copies (mem s) d (PTE_ADDR w / 4096) (Z.to_nat (i + 1)) <=
    frame_copies (mem s) d (PTE_ADDR w / 4096) (Z.to_nat FORK_PAGES)) as Hc1 by (apply frame_copies_mono; lia).
  rewrite copies_next, Hw, Z.eqb_refl in Hc1.
  pose proof (fi_refs _ _ _ _ _ _ _ Ht _ Q2) as Href.
  split.
  - pose proof (fk_self _ _ _ _ _ _ _ _ Hf) as Hself. rewrite pde_slot, PDX_UVPT in Hself |- *.
    destruct (fi_slots _ _ _ _ _ _ _ Ht 957 ltac:(lia)) as [E|(Hb & _)]; [by rewrite E|lia].
  - split; [done|]. clear. zlia.
  - rewrite (fi_own _ _ _ _ _ _ _ Ht) by done. by rewrite Ep, Z.ltb_irrefl.
  - assert (Z.land (pde (mem s) d (i * 4096)) PTE_U = PTE_U) as Hu.
    { rewrite pde_slot, Ex. apply (fk_user _ _ _ _ _ _ _ _ Hf); [done|]. rewrite <- Ex, <- pde_slot.
      unfold mapping in Hm. by destruct (present (pde (mem s) d (i * 4096))). }
    rewrite pde_slot, Ex in Hu |- *.
    destruct (fi_slots _ _ _ _ _ _ _ Ht (i / 1024) ltac:(lia)) as [E|(_ & _ & f & _ & E)]; rewrite E; [done|].
    rewrite Z.land_lor_distr_l, Hu. apply Z.bits_inj'. intros k Hk. rewrite Z.lor_spec, Z.land_spec.
    by destruct (Z.testbit f k), (Z.testbit PTE_U k).
  - split; [by rewrite (same_else_npages _ _ (fi_same _ _ _ _ _ _ _ Ht))|]. split; [done|].
    split; [intros Hx'; by apply Q3, (fi_tables _ _ _ _ _ _ _ Ht)|lia].
  - lia.
  - rewrite (fi_child _ _ _ _ _ _ _ Ht) by done. rewrite Ep, Z.ltb_irrefl. apply child_empty. by rewrite Ex.
  - right. intros ->. pose proof (fi_list _ _ _ _ _ _ _ Ht) as Hl. cbn [length] in Hl.
    pose proof (entry_b_range (mem t) e (i / 1024)). pose proof (fk_pages _ _ _ _ _ _ _ _ Hf). lia.
  - done.
Qed.

(** A page that duppage has copied. *)
Context (w : Z) (t' : kstate) (lt' : list Z).
Hypothesis Hw : user_page (mem s) d (i * 4096) = Some w.
Hypothesis Hdd : duplicated t lt d e (i * 4096) w (own_entry w) t' lt'.

Lemma copy_sub x : x ∈ lt' -> x ∈ lt.
Proof using All.
  pose proof (dd_list _ _ _ _ _ _ _ _ _ Hdd) as Hl. destruct (present _); [by rewrite Hl|].
  destruct Hl as [p ->]. intros H. by constructor.
Qed.

Lemma copy_not_free p : p ∉ l -> p ∉ lt.
Proof using All. intros Hp Hx. by apply Hp, (fi_sub _ _ _ _ _ _ _ Ht). Qed.

Lemma copy_slots j : 0 <= j < 1024 -> load32 (mem t') (slot d j) = load32 (mem s) (slot d j) \/
    (j < 955 /\ present (load32 (mem s) (slot d j)) = true /\
     exists f, 0 <= f < 4096 /\ load32 (mem t') (slot d j) = Z.lor (load32 (mem s) (slot d j)) f).
Proof using All.
  intros Hj. destruct fork_va as (Hva & Hib & Ep & Ex & Hx).
  destruct (decide (j = i / 1024)) as [E|E].
  2: { rewrite (dd_d_slots _ _ _ _ _ _ _ _ _ Hdd) by (done || by rewrite Ex). by apply (fi_slots _ _ _ _ _ _ _ Ht). }
  right. subst j. destruct (dd_d_pde _ _ _ _ _ _ _ _ _ Hdd) as (f & Hfr & Ef). rewrite !pde_slot, Ex in Ef.
  split; [lia|]. split.
  - unfold user_page, mapping in Hw. rewrite (pde_slot (mem s) d (i * 4096)), Ex in Hw.
    by destruct (present (load32 (mem s) (slot d (i / 1024)))).
  - rewrite Ef. destruct (fi_slots _ _ _ _ _ _ _ Ht (i / 1024) ltac:(lia)) as [E|(_ & _ & g & Hg & E)]; rewrite E.
    + by exists f.
    + exists (Z.lor g f). split; [by apply (lor_range _ _ 12); lia|]. by rewrite Z.lor_assoc.
Qed.

Lemma copy_list : Z.of_nat (length l) <=
  Z.of_nat (length lt') + (i + 1) / 1024 + entry_b (mem t') e ((i + 1) / 1024).
Proof using All.
  destruct fork_va as (Hva & Hib & Ep & Ex & Hx).
  pose proof (fi_list _ _ _ _ _ _ _ Ht) as Hl. pose proof (entry_b_next (mem t') e i) as Hn.
  pose proof (dd_list _ _ _ _ _ _ _ _ _ Hdd) as Hd. pose proof (dd_e_present _ _ _ _ _ _ _ _ _ Hdd) as Hp.
  rewrite pde_slot, Ex in Hp, Hd.
  assert (entry_b (mem t') e (i / 1024) = 1) as E1 by (unfold entry_b; by rewrite Hp).
  unfold entry_b at 1 in Hl. destruct (present (load32 (mem t) (slot e (i / 1024)))).
  - rewrite Hd. lia.
  - destruct Hd as [p Hd]. rewrite Hd in Hl. cbn [length] in Hl. lia.
Qed.

Lemma fork_copy : fork_inv s l d e (i + 1) t' lt'.
Proof using All.
  destruct fork_va as (Hva & Hib & Ep & Ex & Hx).
  assert (forall va, PGNUM va = i -> user_page (mem s) d va = Some w) as Hsome.
  { intros va Ev. rewrite <- Hw. apply user_page_same. by rewrite Ep. }
  split.
  - etrans; [apply Ht|apply Hdd].
  - apply Hdd.
  - apply Hdd.
  - intros x Hx'. by apply (fi_sub _ _ _ _ _ _ _ Ht), copy_sub.
  - intros va Hv. rewrite (dd_child _ _ _ _ _ _ _ _ _ Hdd), Ep, below_next by done.
    rewrite (fi_child _ _ _ _ _ _ _ Ht) by done. case_decide as E.
    + by rewrite E, Z.eqb_refl, orb_true_r, (Hsome va E).
    + by rewrite (proj2 (Z.eqb_neq _ _)), orb_false_r by done.
  - intros va Hv. rewrite (dd_own _ _ _ _ _ _ _ _ _ Hdd), Ep, below_next by done.
    rewrite (fi_own _ _ _ _ _ _ _ Ht) by done. case_decide as E.
    + unfold shared_entry. by rewrite E, Z.eqb_refl, orb_true_r, (Hsome va E).
    + by rewrite (proj2 (Z.eqb_neq _ _)), orb_false_r by done.
  - intros p Hp. rewrite (dd_refs _ _ _ _ _ _ _ _ _ Hdd) by (by apply copy_not_free).
    rewrite (fi_refs _ _ _ _ _ _ _ Ht) by done. rewrite copies_next, Hw. lia.
  - intros x Hxl Hxd Hxe. destruct (fi_tables _ _ _ _ _ _ _ Ht (x / 4096) Hxl) as [Td Te].
    rewrite (dd_mem _ _ _ _ _ _ _ _ _ Hdd) by (by (apply copy_not_free) || tauto).
    by apply (fi_mem _ _ _ _ _ _ _ Ht).
  - apply copy_slots.
  - intros p Hp. destruct (fi_tables _ _ _ _ _ _ _ Ht p Hp) as [Td Te].
    destruct (dd_tables _ _ _ _ _ _ _ _ _ Hdd p (copy_not_free p Hp)) as [Td' Te']. tauto.
  - intros j Hj Hle. rewrite (dd_e_slots _ _ _ _ _ _ _ _ _ Hdd) by (lia || (rewrite Ex; clear - Hle; zlia)).
    apply (fi_absent _ _ _ _ _ _ _ Ht); [done|lia].
  - intros j Hj Hp. destruct (decide (j = i / 1024)) as [->|E].
    + pose proof (dd_e_user _ _ _ _ _ _ _ _ _ Hdd) as Hu. by rewrite pde_slot, Ex in Hu.
    + rewrite (dd_e_slots _ _ _ _ _ _ _ _ _ Hdd) in Hp |- * by (lia || by rewrite Ex).
      by apply (fi_user _ _ _ _ _ _ _ Ht).
  - apply copy_list.
Qed.
End ForkLoop.

(** ** The calls of fork *)

(** The loop over the pages. *)
Definition fork_pages {C : SystemCalls} (envid : Z) : K unit :=
  kfor (Z.to_nat FORK_PAGES) 0 (fun i =>
    let addr := i * PGSIZE in
    b ← fork_copies addr;
    kwhen b (_ ← duppage envid (PGNUM addr); mret tt)).

Section ForkCalls.
Context {C : SystemCalls} {fuel : nat} `{!Reaches C fuel SYS_page_map, !Reaches C fuel SYS_page_alloc,
  !Reaches C fuel SYS_page_unmap}.
Context (s : kstate) (l : list Z) (c : Z) (v : Env) (d ce : Z) (ve : Env) (e : Z).
Hypothesis Hf : forkable s l c v d ce ve e.

Lemma fork_runs i t lt : fork_inv s l d e i t lt -> runs t lt c v d.
Proof using Hf. intros Ht. apply (runs_same s l); [apply Hf|apply Ht|apply Ht|]. apply (fi_spaces _ _ _ _ _ _ _ Ht). Qed.

Lemma fork_step i t lt :
  0 <= i < FORK_PAGES -> fork_inv s l d e i t lt ->
  exists t' lt', (b ← fork_copies (i * PGSIZE);
    kwhen b (_ ← duppage (env_id ve) (PGNUM (i * PGSIZE)); mret tt)) t = Ok tt t' /\
    fork_inv s l d e (i + 1) t' lt'.
Proof using All.
  intros Hi Ht. pose proof (fork_runs i t lt Ht) as Hr. unfold PGSIZE.
  destruct (fork_va i Hi) as (Hva & Hib & Ep & Ex & Hx).
  assert (0 <= i * 4096 < UTOP) as Hut by (change USTACKTOP with 0xeebfe000 in Hva; change UTOP with 0xeec00000; lia).
  pose proof (user_va_PDX _ Hut) as Hux.
  assert (mapping (mem t) d (i * 4096) = mapping (mem s) d (i * 4096)) as Hm.
  { rewrite (fi_own _ _ _ _ _ _ _ Ht) by done. by rewrite Ep, Z.ltb_irrefl. }
  assert (user_page (mem t) d (i * 4096) = user_page (mem s) d (i * 4096)) as Hup by (unfold user_page; by rewrite Hm).
  assert (pde (mem t) d UVPT = Z.lor (Z.lor d PTE_U) PTE_P) as Hself.
  { pose proof (fk_self _ _ _ _ _ _ _ _ Hf) as H. rewrite pde_slot, PDX_UVPT in H |- *.
    destruct (fi_slots _ _ _ _ _ _ _ Ht 957 ltac:(lia)) as [E|(Hb & _)]; [by rewrite E|lia]. }
  assert (present (pde (mem t) d (i * 4096)) = true -> Z.land (pde (mem t) d (i * 4096)) PTE_U = PTE_U) as Hu.
  { rewrite pde_slot, Ex. pose proof (fk_user _ _ _ _ _ _ _ _ Hf (i / 1024) Hx) as Hus.
    destruct (fi_slots _ _ _ _ _ _ _ Ht (i / 1024) ltac:(lia)) as [E|(_ & Hp & f & _ & E)]; rewrite E; [done|].
    intros _. rewrite Z.land_lor_distr_l, (Hus Hp). apply Z.bits_inj'. intros k Hk. rewrite Z.lor_spec, Z.land_spec.
    by destruct (Z.testbit f k), (Z.testbit PTE_U k). }
  kstep (fork_copies_run t lt c v d (i * 4096) Hr Hself ltac:(change USTACKTOP with 0xeebfe000 in Hva; lia) Hu).
  rewrite Hup. destruct (user_page (mem s) d (i * 4096)) as [w|] eqn:Hw.
  - rewrite bool_decide_eq_true_2 by eauto. cbn [kwhen].
    pose proof (fork_ready s l c v d ce ve e Hf i t lt Hi Ht w Hw) as Hp.
    destruct (duppage_run c v ce ve d e t lt (i * 4096) w Hr) as (t' & lt' & E & Hd); try done.
    { apply (child_same s); [apply Hf|apply Ht]. }
    { apply Ht. }
    exists t', lt'. kstep E. split; [done|]. by apply (fork_copy s l c v d ce ve e Hf i t lt Hi Ht w).
  - exists t, lt. split; [reflexivity|]. by apply (fork_skip s l c v d ce ve e Hf i t lt Hi Ht).
Qed.

Lemma fork_pages_run : exists t lt, fork_pages (env_id ve) s = Ok tt t /\ fork_inv s l d e FORK_PAGES t lt.
Proof using All.
  assert (wp (fork_pages (env_id ve)) (fun _ t => exists lt, fork_inv s l d e (0 + Z.of_nat (Z.to_nat FORK_PAGES)) t lt)
    no_exit s) as H.
  { apply (wp_kfor (fun j t => exists lt, fork_inv s l d e j t lt)).
    - exists l. by apply (fork_start s l c v d ce ve e).
    - intros j t Hj (lt & Ht). destruct (fork_step j t lt) as (t' & lt' & E & Ht'); [|done|].
      + assert (0 <= FORK_PAGES) by by vm_compute. lia.
      + unfold wp. rewrite E. by exists lt'. }
  unfold wp in H. destruct (fork_pages (env_id ve) s) as [[] t|x t|]; [|done..]. destruct H as [lt H].
  exists t, lt. split; [done|]. rewrite Z2Nat.id in H by by vm_compute. done.
Qed.
End ForkCalls.

(** ** The child's exception stack *)

Lemma fresh_spaces s l d e p : pages_wf s (p :: l) -> spaces s (p :: l) d e -> spaces (fresh_page p l s) l d e.
Proof.
  intros Hw [H1 H2 H3 H4 H5]. pose proof (fresh_page_ok s p l d Hw H1) as Fd.
  pose proof (fresh_page_ok s p l e Hw H2) as Fe.
  assert (forall f q, (forall i, 0 <= i < 1024 -> load32 (mem (fresh_page p l s)) (slot f i) = load32 (mem s) (slot f i)) ->
    (is_table (fresh_page p l s) f q -> is_table s f q) /\
    (user_table (fresh_page p l s) f q -> user_table s f q)) as Ht.
  { intros f q Hs. split; [by apply is_table_slots|]. intros [H|(i & Hi & Hp & Ha)]; [by left|].
    right. exists i. rewrite Hs in Hp, Ha by lia. done. }
  split.
  - apply Fd.
  - apply Fe.
  - intros q Hu Hq. apply (Ht d) in Hu; [|apply Fd]. apply (Ht e) in Hq; [|apply Fe]. by apply (H3 q).
  - intros q Hu Hq. apply (Ht e) in Hu; [|apply Fe]. apply (Ht d) in Hq; [|apply Fd]. by apply (H4 q).
  - intros i Hi Hn. rewrite (fr_slots _ _ _ _ _ Fd), (fr_slots _ _ _ _ _ Fe) by lia. by apply H5.
Qed.

Definition XSTACK : Z := UXSTACKTOP - PGSIZE.

(** The two address spaces at the end. *)
Record forked_mem (s : kstate) (l : list Z) (d e : Z) (t : kstate) (lt : list Z) : Prop := {
  fm_same : same_else s t;
  fm_pages : pages_wf t lt;
  fm_spaces : spaces t lt d e;
  fm_child : forall va, 0 <= va < USTACKTOP -> mapping (mem t) e va = child_entry <$> user_page (mem s) d va;
  fm_own : forall va, 0 <= va < USTACKTOP -> mapping (mem t) d va = shared_entry (mem s) d va;
  fm_guard : forall va, USTACKTOP <= va < XSTACK -> mapping (mem t) e va = None;
  fm_xstack : exists p, (p ∈ l) /\ (p ∉ lt) /\ ref_of t p = 1 /\
    mapping (mem t) e XSTACK = Some (Z.lor (Z.lor (p * 4096) USERRW) PTE_P) /\
    forall k, 0 <= k < 4096 -> load8 (mem t) (p * 4096 + k) = 0;
  fm_refs : forall q, q ∉ l -> ref_of t q = ref_of s q + frame_copies (mem s) d q (Z.to_nat FORK_PAGES);
  fm_mem : forall x, x / 4096 ∉ l -> ~ is_table s d (x / 4096) -> ~ is_table s e (x / 4096) ->
    load8 (mem t) x = load8 (mem s) x;
  fm_slots : forall j, 0 <= j < 955 -> present (load32 (mem s) (slot d j)) = true ->
    exists f, load32 (mem t) (slot d j) = Z.lor (load32 (mem s) (slot d j)) f;
  fm_user : forall j, 0 <= j < 955 -> present (load32 (mem t) (slot e j)) = true ->
    Z.land (load32 (mem t) (slot e j)) PTE_U = PTE_U;
}.

Section Xstack.
Context {C : SystemCalls} {fuel : nat} `{!Reaches C fuel SYS_page_map, !Reaches C fuel SYS_page_alloc,
  !Reaches C fuel SYS_page_unmap}.
Context (s : kstate) (l : list Z) (c : Z) (v : Env) (d ce : Z) (ve : Env) (e : Z).
Hypothesis Hf : forkable s l c v d ce ve e.
Context (t : kstate) (lt : list Z).
Hypothesis Ht : fork_inv s l d e FORK_PAGES t lt.

Lemma above_stack va : USTACKTOP <= va < UTOP -> mapping (mem t) e va = None /\ PDX va = 954.
Proof using Hf Ht.
  intros Hv. change USTACKTOP with 0xeebfe000 in Hv. change UTOP with 0xeec00000 in Hv.
  assert (PDX va = 954) as Ex by (rewrite PDX_div, u32_small by lia; clear - Hv; zlia). split; [|done].
  assert (PDX va <> PDX UVPT) as Hu by (rewrite Ex, PDX_UVPT; lia).
  rewrite (fi_child _ _ _ _ _ _ _ Ht) by done.
  assert (FORK_PAGES <= PGNUM va) as Hn by (rewrite PGNUM_div, u32_small by lia; change FORK_PAGES with 0xeebfe; clear - Hv; zlia).
  rewrite (proj2 (Z.ltb_ge _ _)) by done. apply (child_empty s l c v d ce ve e Hf). rewrite Ex. lia.
Qed.

Lemma xstack_pages : exists p p' l2, lt = p :: p' :: l2.
Proof using Hf Ht.
  pose proof (fi_list _ _ _ _ _ _ _ Ht) as Hl. pose proof (fk_pages _ _ _ _ _ _ _ _ Hf).
  pose proof (entry_b_range (mem t) e (FORK_PAGES / 1024)). change (FORK_PAGES / 1024) with 954 in *.
  destruct lt as [|p [|p' l2]]; cbn [length] in Hl; [lia|lia|]. by exists p, p', l2.
Qed.

Lemma xstack_va : 0 <= XSTACK < UTOP /\ XSTACK mod 4096 = 0 /\ USTACKTOP <= XSTACK < UTOP /\ PGNUM XSTACK = 0xeebff.
Proof using Type. vm_compute. repeat split; congruence. Qed.

Lemma page_alloc_xstack :
  exists p l1 t2 l2, lt = p :: l1 /\ Ulib.sys_page_alloc (env_id ve) XSTACK USERRW t = Ok 0 t2 /\
    inserted (fresh_page p l1 t) l1 e p XSTACK USERRW t2 l2.
Proof using All.
  destruct xstack_pages as (p & p' & l2 & El). destruct xstack_va as (Hv & Ha & Hs & _).
  pose proof (fork_runs s l c v d ce ve e Hf _ _ _ Ht) as Hr.
  assert (child_of t v ce ve e) as Hc by (apply (child_same s); [apply Hf|apply Ht]).
  pose proof (envid2env_child t lt c v d ce ve e Hr Hc) as Eid.
  assert (pages_wf t (p :: p' :: l2)) as Hw by (rewrite <- El; apply Ht).
  assert (pgdir_wf t (p :: p' :: l2) e) as He by (rewrite <- El; apply (fi_spaces _ _ _ _ _ _ _ Ht)).
  destruct (sys_page_alloc_ok t p (p' :: l2) e ce ve (env_id ve) XSTACK USERRW Hw He (runs_cpu _ _ _ _ _ Hr)
    (ch_env _ _ _ _ _ Hc) (ch_pgdir _ _ _ _ _ Hc) Eid Hv (user_page_ok _ Hv Ha)) as (t2 & l3 & E & Hi).
  - reflexivity.
  - split; [discriminate|reflexivity].
  - apply unmapped_old, (above_stack XSTACK Hs).
  - by right.
  - exists p, (p' :: l2), t2, l3. split; [done|]. split; [|done].
    unfold Ulib.sys_page_alloc. eapply call_ok; [apply call_page_alloc| |done].
    pose proof (ch_id _ _ _ _ _ Hc). rewrite s32_id by lia. exact E.
Qed.

Context (p : Z) (l1 : list Z) (t2 : kstate) (l2 : list Z).
Hypothesis El : lt = p :: l1.
Hypothesis Hi2 : inserted (fresh_page p l1 t) l1 e p XSTACK USERRW t2 l2.

Lemma xstack_wf : pages_wf t (p :: l1) /\ spaces t (p :: l1) d e /\ p ∈ l /\ (p ∉ l1) /\ (forall x, x ∈ l1 -> x ∈ l).
Proof using Hf Ht El.
  rewrite <- El. split; [apply Ht|]. split; [apply Ht|].
  pose proof (fi_sub _ _ _ _ _ _ _ Ht) as Hs. rewrite El in Hs. split; [apply Hs; constructor|].
  pose proof (wf_nodup _ _ (fi_pages _ _ _ _ _ _ _ Ht)) as Hn. rewrite El in Hn.
  apply list.NoDup_cons in Hn as [Hn _]. split; [done|]. intros x Hx. apply Hs. by constructor.
Qed.

Lemma xstack_fresh f : f = d \/ f = e -> fresh_ok t l1 f p (fresh_page p l1 t).
Proof using Hf Ht El.
  destruct xstack_wf as (Hw & Hsp & _). intros [-> | ->]; apply fresh_page_ok; done || apply Hsp.
Qed.

Lemma xstack_sub x : x ∈ l2 -> x ∈ l1.
Proof using Hf Ht El Hi2.
  destruct xstack_va as (_ & _ & Hs & _). destruct (is_list _ _ _ _ _ _ _ _ Hi2) as (lw & E & Hl).
  unfold freed in E. rewrite (fr_map _ _ _ _ _ (xstack_fresh e (or_intror eq_refl))) in E.
  rewrite (proj1 (above_stack XSTACK Hs)) in E. subst lw.
  destruct (present _); [by rewrite Hl|]. destruct Hl as [y Hl]. rewrite Hl. intros H. by constructor.
Qed.

Lemma xstack_range : 0 <= USERRW < 4096.
Proof using Type. vm_compute. split; congruence. Qed.

Lemma xstack_spaces : spaces t2 l2 d e.
Proof using Hf Ht El Hi2.
  destruct xstack_wf as (Hw & Hsp & _). destruct xstack_va as (Hv & _).
  apply (inserted_spaces (fresh_page p l1 t) l1 d e p XSTACK USERRW t2 l2);
    [by apply fresh_spaces|done|apply xstack_range|done|apply xstack_sub].
Qed.

Lemma xstack_own va : PDX va <> PDX UVPT -> mapping (mem t2) d va = mapping (mem t) d va.
Proof using Hf Ht El Hi2.
  intros Hu. destruct xstack_wf as (Hw & Hsp & _). destruct xstack_va as (Hv & _).
  rewrite (other_mapping (fresh_page p l1 t) l1 d e p XSTACK USERRW t2 l2);
    [|by apply fresh_spaces|done|apply xstack_range|done|apply xstack_sub|done].
  apply (fr_map _ _ _ _ _ (xstack_fresh d (or_introl eq_refl))).
Qed.

Lemma xstack_slots j : 0 <= j < 1024 -> load32 (mem t2) (slot d j) = load32 (mem t) (slot d j).
Proof using Hf Ht El Hi2.
  intros Hj. destruct xstack_wf as (Hw & Hsp & _). destruct xstack_va as (Hv & _).
  rewrite (other_slots (fresh_page p l1 t) l1 d e p XSTACK USERRW t2 l2);
    [|by apply fresh_spaces|done|apply xstack_range|done|apply xstack_sub|done].
  by apply (fr_slots _ _ _ _ _ (xstack_fresh d (or_introl eq_refl))).
Qed.

Lemma xstack_child va : PDX va <> PDX UVPT -> mapping (mem t2) e va =
  if decide (PGNUM va = 0xeebff) then Some (Z.lor (Z.lor (p * 4096) USERRW) PTE_P) else mapping (mem t) e va.
Proof using Hf Ht El Hi2.
  intros Hu. destruct xstack_va as (_ & _ & _ & Hn). rewrite (is_map _ _ _ _ _ _ _ _ Hi2) by done.
  rewrite Hn. by rewrite (fr_map _ _ _ _ _ (xstack_fresh e (or_intror eq_refl))).
Qed.

Lemma xstack_refs q : q ∉ l -> ref_of t2 q = ref_of t q.
Proof using Hf Ht El Hi2.
  intros Hq. destruct xstack_wf as (_ & _ & Hp & _ & Hsub). destruct xstack_va as (_ & _ & Hs & _).
  assert (q <> p) as Hne by congruence.
  rewrite (is_refs _ _ _ _ _ _ _ _ Hi2) by (intros Hx; by apply Hq, Hsub). unfold maps_to.
  rewrite (fr_map _ _ _ _ _ (xstack_fresh e (or_intror eq_refl))), (proj1 (above_stack XSTACK Hs)).
  rewrite (proj2 (Z.eqb_neq _ _)) by done. unfold ref_of.
  rewrite (fr_others _ _ _ _ _ (xstack_fresh e (or_intror eq_refl))) by done. lia.
Qed.

Lemma xstack_mem x : x / 4096 ∉ l -> ~ is_table t e (x / 4096) -> load8 (mem t2) x = load8 (mem t) x.
Proof using Hf Ht El Hi2.
  intros Hx He. destruct xstack_wf as (_ & _ & Hp & _ & Hsub).
  rewrite (is_mem _ _ _ _ _ _ _ _ Hi2), fresh_page_load8, decide_False; [done|congruence| |].
  - intros Hl. by apply Hx, Hsub.
  - intros H. apply He. revert H. apply is_table_slots. apply (fr_slots _ _ _ _ _ (xstack_fresh e (or_intror eq_refl))).
Qed.

Lemma xstack_page : (p ∈ l) /\ (p ∉ l2) /\ ref_of t2 p = 1 /\
    mapping (mem t2) e XSTACK = Some (Z.lor (Z.lor (p * 4096) USERRW) PTE_P) /\
    forall k, 0 <= k < 4096 -> load8 (mem t2) (p * 4096 + k) = 0.
Proof using Hf Ht El Hi2.
  destruct xstack_wf as (Hw & Hsp & Hp & Hpl & Hsub). destruct xstack_va as (Hv & _ & Hs & Hn).
  destruct (fr_range _ _ _ _ _ (xstack_fresh e (or_intror eq_refl))) as (_ & _ & Hpt).
  split; [done|]. split; [intros H; by apply Hpl, xstack_sub|]. split; [|split].
  - apply (fresh_inserted_ref t p l1 e XSTACK USERRW t2 l2); [done|apply Hsp| |done].
    apply unmapped_old, (above_stack XSTACK Hs).
  - rewrite xstack_child by (apply user_va_PDX; done). by rewrite decide_True.
  - intros k Hk. assert ((p * 4096 + k) / 4096 = p) as E by (clear - Hk; zlia).
    rewrite (is_mem _ _ _ _ _ _ _ _ Hi2), fresh_page_load8, E by (by rewrite ?E). by rewrite decide_True.
Qed.

Lemma xstack_user j : 0 <= j < 955 -> present (load32 (mem t2) (slot e j)) = true ->
  Z.land (load32 (mem t2) (slot e j)) PTE_U = PTE_U.
Proof using Hf Ht El Hi2.
  destruct xstack_va as (Hv & _ & Hs & _). destruct (above_stack XSTACK Hs) as [_ Ex].
  intros Hj Hp. destruct (decide (j = 954)) as [->|Hne].
  - rewrite <- Ex, <- pde_slot. apply (land_sub _ USERRW); [apply Hi2|reflexivity].
  - rewrite (is_slots _ _ _ _ _ _ _ _ Hi2) in Hp |- * by (rewrite ?Ex; lia).
    rewrite (fr_slots _ _ _ _ _ (xstack_fresh e (or_intror eq_refl))) in Hp |- * by lia.
    by apply (fi_user _ _ _ _ _ _ _ Ht).
Qed.

Lemma xstack_forked : forked_mem s l d e t2 l2.
Proof using Hf Ht El Hi2.
  assert (forall va, 0 <= va < USTACKTOP -> PDX va <> PDX UVPT /\ PGNUM va < FORK_PAGES) as Hva.
  { intros va Hv. change USTACKTOP with 0xeebfe000 in Hv. split.
    - apply user_va_PDX. change UTOP with 0xeec00000. lia.
    - change FORK_PAGES with 0xeebfe. rewrite PGNUM_div, u32_small by lia. clear - Hv. zlia. }
  split.
  - etrans; [apply Ht|]. etrans; [apply (fr_same _ _ _ _ _ (xstack_fresh e (or_intror eq_refl)))|apply Hi2].
  - apply Hi2.
  - apply xstack_spaces.
  - intros va Hv. destruct (Hva va Hv) as [Hu Hn]. rewrite xstack_child, decide_False by
      (done || (change FORK_PAGES with 0xeebfe in Hn; lia)).
    by rewrite (fi_child _ _ _ _ _ _ _ Ht), (proj2 (Z.ltb_lt _ _)).
  - intros va Hv. destruct (Hva va Hv) as [Hu Hn].
    by rewrite xstack_own, (fi_own _ _ _ _ _ _ _ Ht), (proj2 (Z.ltb_lt _ _)).
  - intros va Hv. change USTACKTOP with 0xeebfe000 in Hv. change XSTACK with 0xeebff000 in Hv.
    assert (USTACKTOP <= va < UTOP) as Hv' by (change USTACKTOP with 0xeebfe000; change UTOP with 0xeec00000; lia).
    destruct (above_stack va Hv') as [Hm Ex].
    rewrite xstack_child, decide_False; [done| |rewrite Ex, PDX_UVPT; lia].
    rewrite PGNUM_div, u32_small by lia. clear - Hv. zlia.
  - exists p. apply xstack_page.
  - intros q Hq. by rewrite xstack_refs, (fi_refs _ _ _ _ _ _ _ Ht).
  - intros x Hx Hd He. destruct (fi_tables _ _ _ _ _ _ _ Ht (x / 4096) Hx) as [_ Te].
    rewrite xstack_mem by tauto. by apply (fi_mem _ _ _ _ _ _ _ Ht).
  - intros j Hj Hp. rewrite xstack_slots by lia.
    destruct (fi_slots _ _ _ _ _ _ _ Ht j ltac:(lia)) as [E|(_ & _ & f & _ & E)]; rewrite E; [|by exists f].
    exists 0. by rewrite Z.lor_0_r.
  - apply xstack_user.
Qed.
End Xstack.

(** ** fork *)

Definition put_child (ce : Z) (ve : Env) (t : kstate) : kstate := set_envs (<[ce := ve]> (envs t)) t.

Lemma put_child_runs t lt c v d ce ve : runs t lt c v d -> ce <> c -> runs (put_child ce ve t) lt c v d.
Proof.
  intros [H1 H2 H3 H4 H5 H6] Hne. split; try done.
  - by eapply pages_wf_ext.
  - eapply pgdir_wf_mono; [done|done|done|by left].
  - cbn. by rewrite lookup_insert_ne.
Qed.

Lemma put_child_of t v ce ve e ve' :
  child_of t v ce ve e -> env_id ve' = env_id ve -> env_status ve' <> ENV_FREE ->
  env_parent_id ve' = env_parent_id ve -> env_pgdir ve' = env_pgdir ve ->
  child_of (put_child ce ve' t) v ce ve' e.
Proof.
  intros [H1 H2 H3 H4 H5 H6] E1 E2 E3 E4. split; rewrite ?E1, ?E3, ?E4; try done.
  cbn. apply lookup_insert_eq.
Qed.

Section ForkRun.
Context {C : SystemCalls} {fuel : nat} `{!Reaches C fuel SYS_page_map, !Reaches C fuel SYS_page_alloc,
  !Reaches C fuel SYS_page_unmap, !Reaches C fuel SYS_env_set_pgfault_upcall,
  !Reaches C fuel SYS_env_set_status}.
Context (t : kstate) (lt : list Z) (c : Z) (v : Env) (d ce : Z) (ve : Env) (e : Z).
Hypothesis Hr : runs t lt c v d.
Hypothesis Hc : child_of t v ce ve e.

Lemma set_upcall_child upcall :
  Ulib.sys_env_set_pgfault_upcall (env_id ve) upcall t =
    Ok 0 (put_child ce (set_env_pgfault_upcall upcall ve) t).
Proof using All.
  unfold Ulib.sys_env_set_pgfault_upcall.
  eapply call_ok; [apply call_env_set_pgfault_upcall| |done]. pose proof (ch_id _ _ _ _ _ Hc).
  rewrite s32_id by lia. unfold Syscall.sys_env_set_pgfault_upcall.
  kstep (envid2env_child t lt c v d ce ve e Hr Hc).
  by kstep (upd_env_run t ce ve (set_env_pgfault_upcall upcall) (ch_env _ _ _ _ _ Hc)).
Qed.

Lemma set_runnable_child :
  Ulib.sys_env_set_status (env_id ve) 2 t = Ok 0 (put_child ce (set_env_status ENV_RUNNABLE ve) t).
Proof using All.
  unfold Ulib.sys_env_set_status.
  eapply call_ok; [apply call_env_set_status| |done]. pose proof (ch_id _ _ _ _ _ Hc).
  rewrite s32_id by lia. unfold Syscall.sys_env_set_status. change (env_status_of (u32 2)) with (Some ENV_RUNNABLE). cbv iota.
  change (bool_decide (ENV_RUNNABLE = ENV_NOT_RUNNABLE) || bool_decide (ENV_RUNNABLE = ENV_RUNNABLE)) with true. cbv iota.
  rewrite (with_env_ok _ _ _ _ _ (envid2env_child t lt c v d ce ve e Hr Hc)).
  by kstep (upd_env_run t ce ve (set_env_status ENV_RUNNABLE) (ch_env _ _ _ _ _ Hc)).
Qed.
End ForkRun.

Definition child_ready (upcall : Z) (ve : Env) : Env :=
  set_env_status ENV_RUNNABLE (set_env_pgfault_upcall upcall ve).

Section ForkAll.
Context {C : SystemCalls} {fuel : nat} `{!Reaches C fuel SYS_page_map, !Reaches C fuel SYS_page_alloc,
  !Reaches C fuel SYS_page_unmap, !Reaches C fuel SYS_env_set_pgfault_upcall,
  !Reaches C fuel SYS_env_set_status}.
Context (thisenv handler pgfault_fn upcall : Z).

(** Once sys_exofork has returned to the parent. *)
Lemma fork_run s0 s1 s l c v d ce ve e :
  set_pgfault_handler handler upcall pgfault_fn s0 = Ok tt s1 ->
  Ulib.sys_exofork s1 = Ok (env_id ve) s ->
  forkable s l c v d ce ve e -> ce <> c ->
  exists t lt, fork thisenv handler pgfault_fn upcall s0 = Ok (env_id ve) (put_child ce (child_ready upcall ve) t) /\
    runs (put_child ce (child_ready upcall ve) t) lt c v d /\ forked_mem s l d e t lt.
Proof using All.
  intros E0 E1 Hf Hne. pose proof (ch_id _ _ _ _ _ (fk_child _ _ _ _ _ _ _ _ Hf)) as Hid.
  destruct (fork_pages_run s l c v d ce ve e Hf) as (t & lt & E2 & Ht).
  destruct (page_alloc_xstack s l c v d ce ve e Hf t lt Ht) as (p & l1 & t2 & l2 & El & E3 & Hi2).
  pose proof (xstack_forked s l c v d ce ve e Hf t lt Ht p l1 t2 l2 El Hi2) as Hm.
  assert (runs t2 l2 c v d) as Hr2
    by (apply (runs_same s l); [apply Hf|apply Hm|apply Hm|apply (fm_spaces _ _ _ _ _ _ Hm)]).
  assert (child_of t2 v ce ve e) as Hc2 by (apply (child_same s); [apply Hf|apply Hm]).
  pose proof (set_upcall_child t2 l2 c v d ce ve e Hr2 Hc2 upcall) as E4.
  set (ve1 := set_env_pgfault_upcall upcall ve) in *. set (t3 := put_child ce ve1 t2) in *.
  assert (child_of t3 v ce ve1 e) as Hc3 by (apply (put_child_of t2 v ce ve); done || apply Hc2).
  assert (runs t3 l2 c v d) as Hr3 by (by apply put_child_runs).
  pose proof (set_runnable_child t3 l2 c v d ce ve1 e Hr3 Hc3) as E5. change (env_id ve1) with (env_id ve) in E5.
  assert (put_child ce (set_env_status ENV_RUNNABLE ve1) t3 = put_child ce (child_ready upcall ve) t2) as Et.
  { unfold put_child, t3, put_child, child_ready. fold ve1. cbn [envs set_envs].
    rewrite insert_insert_eq. by destruct t2. }
  exists t2, l2. split; [|split; [by apply put_child_runs|done]].
  unfold fork. kstep E0. kstep E1. rewrite (proj2 (Z.eqb_neq _ _)), (proj2 (Z.ltb_ge _ _)) by lia.
  change (kfor (Z.to_nat (USTACKTOP / PGSIZE)) 0 _) with (fork_pages (env_id ve)).
  kstep E2. kstep E3. cbn [Z.ltb Z.compare]. kstep E4. kstep E5. cbn [Z.ltb Z.compare].
  by rewrite Et.
Qed.
End ForkAll.

(** ** What the two see

    An access of user code, with the entry that it finds. *)
Lemma mmu_user m d va a write :
  d mod 4096 = 0 -> 0 <= d < 0x100000000 -> mmu m d va true write = Some a ->
  exists w, user_page m d va = Some w /\ a = PTE_ADDR w + PGOFF va /\ present (pde m d va) = true /\
    (write = true -> Z.land w PTE_W <> 0).
Proof.
  intros Ha Hd Hm. unfold mmu in Hm.
  assert (PTE_ADDR d = d) as Ed by (rewrite PTE_ADDR_div, u32_small by lia; zlia). rewrite Ed in Hm.
  unfold user_page. destruct (mapping m d va) as [w|] eqn:Em; [|done].
  assert (forall f, ctrue (Z.land (Z.land (pde m d va) w) f) = true -> Z.land w f <> 0) as Hf.
  { intros f H E. rewrite <- Z.land_assoc, E, Z.land_0_r in H. done. }
  cbn [andb] in Hm. destruct (ctrue (Z.land (Z.land (pde m d va) w) PTE_U)) eqn:Eu; [|done].
  exists w. cbn [negb] in Hm. rewrite (proj2 (ctrue_true _) (Hf _ Eu)).
  destruct (write && negb (ctrue (Z.land (Z.land (pde m d va) w) PTE_W))) eqn:Ew; [done|].
  split; [done|]. split; [by injection Hm|]. split.
  - unfold mapping in Em. by destruct (present (pde m d va)).
  - intros ->. cbn [andb] in Ew. apply negb_false_iff in Ew. by apply Hf.
Qed.

Lemma child_entry_fields w :
  PTE_ADDR (child_entry w) = PTE_ADDR w /\ Z.land (child_entry w) PTE_U = PTE_U /\
  (is_share w = false -> Z.land (child_entry w) PTE_W = 0).
Proof.
  destruct (dup_perm_range w) as (Hp & _ & Hu). pose proof (PTE_ADDR_range w). pose proof (PTE_ADDR_aligned w).
  assert (PTE_ADDR w / 4096 * 4096 = PTE_ADDR w) as E by zlia. unfold child_entry. rewrite E.
  assert (0 <= Z.lor (dup_perm w) PTE_P < 4096) as Hr by (apply (lor_range _ _ 12); unfold PTE_P; lia).
  rewrite <- !Z.lor_assoc. split; [|split].
  - apply PTE_ADDR_lor; [lia|done|done].
  - rewrite land_flags_lor by (done || lia). rewrite Z.land_lor_distr_l, Hu. reflexivity.
  - intros Hs. rewrite land_flags_lor by (done || lia). unfold dup_perm. rewrite Hs. by destruct (is_cow w).
Qed.

Lemma land_user w : Z.land w PTE_U <> 0 -> Z.land w PTE_U = PTE_U.
Proof.
  intros Hu. assert (Z.testbit w 2 = true) as Hb.
  { destruct (Z.testbit w 2) eqn:E; [done|]. destruct Hu. apply Z.bits_inj'. intros j Hj.
    rewrite Z.land_spec, Z.bits_0. destruct (Z.eq_dec j 2) as [->|Hne]; [by rewrite E|].
    change PTE_U with (2 ^ 2). by rewrite Z.pow2_bits_false, andb_false_r by lia. }
  apply Z.bits_inj'. intros i Hi. rewrite Z.land_spec. change PTE_U with (2 ^ 2).
  destruct (Z.eq_dec i 2) as [->|Hne]; [by rewrite Hb|].
  by rewrite Z.pow2_bits_false, andb_false_r by lia.
Qed.

Lemma own_entry_fields w :
  Z.land w PTE_U <> 0 ->
  PTE_ADDR (own_entry w) = PTE_ADDR w /\ Z.land (own_entry w) PTE_U = PTE_U /\
  (is_share w = false -> Z.land (own_entry w) PTE_W = 0).
Proof.
  intros Hu. destruct (child_entry_fields w) as (H1 & H2 & H3). unfold own_entry.
  destruct (negb (is_share w) && is_cow w) eqn:E; [done|]. split; [done|]. split.
  - by apply land_user.
  - intros Hs. rewrite Hs in E. cbn [negb andb] in E. unfold is_cow in E.
    apply orb_false_iff in E as [E _]. by apply ctrue_false.
Qed.

Section Sees.
Context (s : kstate) (l : list Z) (c : Z) (v : Env) (d ce : Z) (ve : Env) (e : Z).
Hypothesis Hf : forkable s l c v d ce ve e.
Context (t : kstate) (lt : list Z).
Hypothesis Ht : forked_mem s l d e t lt.

Lemma fork_dirs : (d mod 4096 = 0 /\ 0 <= d < 0x100000000) /\ (e mod 4096 = 0 /\ 0 <= e < 0x100000000).
Proof using All.
  pose proof (wf_npages _ _ (rn_pages _ _ _ _ _ (fk_runs _ _ _ _ _ _ _ _ Hf))) as Hn. unfold MAXPAGES in Hn.
  pose proof (fk_spaces _ _ _ _ _ _ _ _ Hf) as [Hd He _ _ _].
  pose proof (dw_range _ _ _ Hd). pose proof (dw_range _ _ _ He).
  split; (split; [by eapply dw_aligned|lia]).
Qed.

Lemma sees_PDX va : 0 <= va < USTACKTOP -> 0 <= PDX va < 955.
Proof using Type. intros H. apply user_PDX. change USTACKTOP with 0xeebfe000 in H. change UTOP with 0xeec00000. lia. Qed.

Lemma user_bit va w : user_page (mem s) d va = Some w -> mapping (mem s) d va = Some w /\ Z.land w PTE_U <> 0.
Proof using Type.
  unfold user_page. destruct (mapping (mem s) d va) as [x|]; [|done].
  destruct (ctrue (Z.land x PTE_U)) eqn:E; [|done]. intros [= ->]. by apply ctrue_true in E.
Qed.

(** Both read what the parent read before. *)
Lemma fork_reads va w :
  0 <= va < USTACKTOP -> user_page (mem s) d va = Some w ->
  mmu (mem t) e va true false = Some (PTE_ADDR w + PGOFF va) /\
  mmu (mem t) d va true false = Some (PTE_ADDR w + PGOFF va) /\
  load8 (mem t) (PTE_ADDR w + PGOFF va) = load8 (mem s) (PTE_ADDR w + PGOFF va).
Proof using All.
  intros Hva Hw. destruct fork_dirs as [[Hd1 Hd2] [He1 He2]]. pose proof (sees_PDX va Hva) as Hx.
  destruct (user_bit va w Hw) as [Hm Hu].
  destruct (child_entry_fields w) as (C1 & C2 & _). destruct (own_entry_fields w Hu) as (O1 & O2 & _).
  assert (mapping (mem t) e va = Some (child_entry w)) as Em by (rewrite (fm_child _ _ _ _ _ _ Ht), Hw by done; done).
  assert (mapping (mem t) d va = Some (own_entry w)) as Dm
    by (rewrite (fm_own _ _ _ _ _ _ Ht) by done; unfold shared_entry; by rewrite Hw).
  assert (present (load32 (mem s) (slot d (PDX va))) = true) as Hp.
  { rewrite <- pde_slot. unfold mapping in Hm. by destruct (present (pde (mem s) d va)). }
  split; [|split].
  - rewrite (mmu_of_mapping _ _ _ (child_entry w)), C1; try done. intros _. split; [|done].
    rewrite pde_slot. apply (fm_user _ _ _ _ _ _ Ht); [done|]. rewrite <- pde_slot.
    unfold mapping in Em. by destruct (present (pde (mem t) e va)).
  - rewrite (mmu_of_mapping _ _ _ (own_entry w)), O1; try done. intros _. split; [|done].
    rewrite pde_slot. destruct (fm_slots _ _ _ _ _ _ Ht (PDX va) Hx Hp) as [f ->].
    rewrite Z.land_lor_distr_l, (fk_user _ _ _ _ _ _ _ _ Hf) by done.
    apply Z.bits_inj'. intros k Hk. rewrite Z.lor_spec, Z.land_spec.
    by destruct (Z.testbit f k), (Z.testbit PTE_U k).
  - destruct (fk_page _ _ _ _ _ _ _ _ Hf va w Hva Hw) as ((_ & Q2 & Q3 & _) & Q5 & _).
    assert ((PTE_ADDR w + PGOFF va) / 4096 = PTE_ADDR w / 4096) as E.
    { pose proof (PTE_ADDR_aligned w). rewrite PGOFF_mod. clear - H. zlia. }
    apply (fm_mem _ _ _ _ _ _ Ht); by rewrite E.
Qed.

(** Neither writes a page that is not shared, and the child has no others. *)
Lemma fork_writes va a f :
  0 <= va < USTACKTOP -> f = d \/ f = e -> mmu (mem t) f va true true = Some a ->
  exists w, user_page (mem s) d va = Some w /\ is_share w = true.
Proof using All.
  intros Hva Hfe Hm. destruct fork_dirs as [[Hd1 Hd2] [He1 He2]].
  assert (f mod 4096 = 0 /\ 0 <= f < 0x100000000) as [Hf1 Hf2] by (by destruct Hfe as [-> | ->]).
  destruct (mmu_user _ _ _ _ _ Hf1 Hf2 Hm) as (x & Hx & _ & _ & HW).
  specialize (HW eq_refl). unfold user_page in Hx. destruct Hfe as [-> | ->].
  - rewrite (fm_own _ _ _ _ _ _ Ht) in Hx by done. unfold shared_entry in Hx.
    destruct (user_page (mem s) d va) as [w|] eqn:Hw.
    + exists w. split; [done|]. destruct (user_bit va w Hw) as [_ Hu].
      destruct (own_entry_fields w Hu) as (_ & O2 & O3). rewrite O2 in Hx. injection Hx as <-.
      destruct (is_share w); [done|]. by destruct HW; apply O3.
    + unfold user_page in Hw. destruct (mapping (mem s) d va) as [y|]; [|done]. by destruct (ctrue _).
  - rewrite (fm_child _ _ _ _ _ _ Ht) in Hx by done.
    destruct (user_page (mem s) d va) as [w|] eqn:Hw; [|done]. cbn in Hx.
    exists w. split; [done|]. destruct (child_entry_fields w) as (_ & C2 & C3). rewrite C2 in Hx. injection Hx as <-.
    destruct (is_share w); [done|]. by destruct HW; apply C3.
Qed.

Lemma fork_child_only va a :
  0 <= va < USTACKTOP -> mmu (mem t) e va true false = Some a -> mmu (mem s) d va true false = Some a.
Proof using All.
  intros Hva Hm. destruct fork_dirs as [[Hd1 Hd2] [He1 He2]]. pose proof (sees_PDX va Hva) as Hx.
  destruct (mmu_user _ _ _ _ _ He1 He2 Hm) as (x & Hx' & -> & _ & _). unfold user_page in Hx'.
  rewrite (fm_child _ _ _ _ _ _ Ht) in Hx' by done.
  destruct (user_page (mem s) d va) as [w|] eqn:Hw; [|done]. cbn in Hx'.
  destruct (child_entry_fields w) as (C1 & C2 & _). rewrite C2 in Hx'. injection Hx' as <-. rewrite C1.
  destruct (user_bit va w Hw) as [Hmp Hu]. rewrite (mmu_of_mapping _ _ _ w); try done.
  intros _. split.
  - rewrite pde_slot. apply (fk_user _ _ _ _ _ _ _ _ Hf); [done|]. rewrite <- pde_slot.
    unfold mapping in Hmp. by destruct (present (pde (mem s) d va)).
  - by apply land_user.
Qed.
End Sees.

Lemma put_child_spaces t lt d e ce ve : spaces t lt d e -> spaces (put_child ce ve t) lt d e.
Proof.
  intros [H1 H2 H3 H4 H5].
  split; [eapply pgdir_wf_mono; [exact H1|done|done|by left]|eapply pgdir_wf_mono; [exact H2|done|done|by left]|done..].
Qed.


(** ** Example

    Environment 0 has its directory in page 0, with a table in page 1, and page 3
    writable at 0x800000; the kernel's directory, in page 2, is empty; pages 8 to
    1007 are free. *)

(** Checks of the invariants by evaluation. *)
#[local] Instance PageInfo_eq_dec : EqDecision PageInfo.
Proof. solve_decision. Defined.

Definition pages_check (s : kstate) (l : list Z) : bool :=
  forallb_below (Z.to_nat (npages s)) (fun p => bool_decide (is_Some (pages s !! p))) &&
  forallb (fun '(p, pi) => (0 <=? p) && (p <? npages s) &&
    (bool_decide (p ∈ l) || bool_decide (pp_link pi = None))) (map_to_list (pages s)) &&
  bool_decide (page_free_list s = l !! O) && bool_decide (NoDup l) &&
  forallb (fun i => match l !! i with
    | Some p => bool_decide (pages s !! p = Some (mkPageInfo (l !! S i) 0))
    | None => true end) (seq 0 (length l)).

Lemma pages_check_ok s l : 0 <= npages s <= MAXPAGES -> pages_check s l = true -> pages_wf s l.
Proof.
  intros Hn H. unfold pages_check in H. rewrite !andb_true_iff in H. destruct H as ((((H1 & H2) & H3) & H4) & H5).
  apply bool_decide_eq_true in H3, H4. rewrite forallb_forall in H2, H5.
  assert (forall p pi, pages s !! p = Some pi -> 0 <= p < npages s /\ (p ∉ l -> pp_link pi = None)) as Hp.
  { intros p pi Hp. specialize (H2 (p, pi)). cbv beta iota in H2.
    rewrite !andb_true_iff, orb_true_iff, Z.leb_le, Z.ltb_lt, !bool_decide_eq_true in H2.
    destruct H2 as [Hr Hl]; [by apply list_elem_of_In, elem_of_map_to_list|]. split; [lia|tauto]. }
  split; try done.
  - intros p. split; [intros [pi Hpi]; by apply (Hp p pi)|]. intros Hr.
    pose proof (forallb_below_spec _ _ H1 p ltac:(lia)) as H. by apply bool_decide_eq_true in H.
  - intros i p Hi. specialize (H5 i). rewrite Hi in H5. eapply bool_decide_eq_true_1, H5.
    apply in_seq. apply lookup_lt_Some in Hi. lia.
  - intros p pi Hpi Hl. by apply (Hp p pi).
Qed.

(** A directory with one table below UTOP, at entry [i] and in page [q], and itself. *)
Definition one_table (s : kstate) (d i q : Z) : bool :=
  forallb_below 1024 (fun j => load32 (mem s) (slot d j) =?
    (if j =? i then q * 4096 + 7 else if j =? 957 then d + 5 else 0)).

Lemma one_table_slot s d i q j :
  one_table s d i q = true -> 0 <= j < 1024 ->
  load32 (mem s) (slot d j) = if j =? i then q * 4096 + 7 else if j =? 957 then d + 5 else 0.
Proof. intros H Hj. apply Z.eqb_eq, (forallb_below_spec 1024 _ H). lia. Qed.

Lemma one_table_entry x f : 0 <= x < 0x10000 -> 0 <= f < 4096 -> PTE_ADDR (x * 4096 + f) = x * 4096.
Proof. intros Hx Hf. rewrite PTE_ADDR_div, u32_small by lia. zlia. Qed.

Lemma one_table_is s d i q p :
  one_table s d i q = true -> d mod 4096 = 0 -> 0 <= d < 0x10000000 -> 0 <= q < 0x10000 ->
  is_table s d p -> p = d / 4096 \/ (p = q /\ 0 <= i).
Proof.
  intros H Hda Hd Hq [Ht|(j & Hj & Hp & Ha)]; [left; zlia|].
  rewrite (one_table_slot _ _ _ _ _ H Hj) in Hp, Ha.
  destruct (Z.eqb_spec j i) as [->|Hne]; [right|left].
  - rewrite one_table_entry in Ha by lia. lia.
  - destruct (j =? 957); [|done]. replace (d + 5) with (d / 4096 * 4096 + 5) in Ha by zlia.
    rewrite one_table_entry in Ha by zlia. lia.
Qed.

Lemma one_table_wf s l d i q :
  one_table s d i q = true -> d mod 4096 = 0 -> 0 <= d < npages s * 4096 -> npages s <= 0x10000 ->
  d / 4096 ∉ l -> 0 <= q < npages s -> q ∉ l -> q * 4096 <> d -> i <> 957 -> pgdir_wf s l d.
Proof.
  intros H Hda Hd Hn Hdl Hq Hql Hqd Hi.
  assert (forall j, 0 <= j < 1024 -> present (load32 (mem s) (slot d j)) = true ->
    (j = i /\ PTE_ADDR (load32 (mem s) (slot d j)) = q * 4096) \/
    (j = 957 /\ PTE_ADDR (load32 (mem s) (slot d j)) = d)) as He.
  { intros j Hj Hp. rewrite (one_table_slot _ _ _ _ _ H Hj) in Hp |- *.
    destruct (Z.eqb_spec j i) as [->|Hne]; [left; by rewrite one_table_entry by lia|right].
    destruct (Z.eqb_spec j 957) as [->|]; [|done]. split; [done|].
    replace (d + 5) with (d / 4096 * 4096 + 5) by zlia. rewrite one_table_entry; zlia. }
  split; try done.
  - intros j Hj Hp. destruct (He j Hj Hp) as [[_ ->]|[_ ->]]; [|split; [zlia|done]].
    rewrite Z.div_mul by lia. split; [lia|done].
  - intros j Hj Hu Hp. rewrite PDX_UVPT in Hu. destruct (He j Hj Hp) as [[_ ->]|[-> _]]; done.
  - intros j k Hj Hk Hju Hku Hne Hp Hpk. rewrite PDX_UVPT in Hju, Hku.
    destruct (He j Hj Hp) as [[-> _]|[-> _]]; [|done]. destruct (He k Hk Hpk) as [[-> _]|[-> _]]; done.
Qed.

Definition fk_free : list Z := seqZ 8 1000.
Definition fk_start : kstate :=
  set_pages (list_to_map ((fun p => (p, mkPageInfo (if (8 <=? p) && (p <? 1007) then Some (p + 1) else None)
      (if p <? 8 then 1 else 0))) <$> seqZ 0 1008))
    (set_page_free_list (Some 8) (set_npages 1008 (set_kern_pgdir (KERNBASE + 0x2000)
      (set_envs {[ 0 := run_env; 1 := env0 ]} (set_env_free_list (Some 1)
        (set_cpus {[ 0 := mkCpuInfo 0 CPU_STARTED (Some 0) 0 0 ]}
          (set_mem (store32 (store32 (store32 (store32 ∅ (slot 0 2) 0x1007) (slot 0 957) 5)
            (slot 0x1000 0) 0x3007) 0x3004 0x800100) kstate0))))))).

(** A switch with a case for every call. *)
Definition fk_gate : SystemCalls := gate (fun _ => Served) 0.

(** After set_pgfault_handler, which finds a handler, and after sys_exofork. *)
Definition state_of {A} (o : outcome A) : kstate := match o with Ok _ s => s | _ => kstate0 end.
Definition fk_set : kstate := state_of (set_pgfault_handler (C := fk_gate) 0x800004 0x800200 0x800300 fk_start).
Definition fk_state : kstate := state_of (Ulib.sys_exofork (C := fk_gate) fk_set).

Lemma fk_calls :
  set_pgfault_handler (C := fk_gate) 0x800004 0x800200 0x800300 fk_start = Ok tt fk_set /\
  Ulib.sys_exofork (C := fk_gate) fk_set = Ok 0x1001 fk_state.
Proof.
  split.
  - assert (match set_pgfault_handler (C := fk_gate) 0x800004 0x800200 0x800300 fk_start with
      Ok _ _ => true | _ => false end = true) as H by (vm_compute; reflexivity).
    unfold fk_set. by destruct (set_pgfault_handler _ _ _ _) as [[] s| |].
  - assert (match Ulib.sys_exofork (C := fk_gate) fk_set with Ok r _ => r =? 0x1001 | _ => false end = true) as H
      by (vm_compute; reflexivity).
    unfold fk_state. destruct (Ulib.sys_exofork _) as [r s| |]; [|done..].
    apply Z.eqb_eq in H. by subst.
Qed.

Lemma fk_pages_ok : pages_wf fk_state (seqZ 9 999).
Proof. apply pages_check_ok; [vm_compute; split; congruence|vm_compute; reflexivity]. Qed.

Lemma fk_tables : one_table fk_state 0 2 1 = true /\ one_table fk_state 0x8000 (-1) 0 = true.
Proof. split; vm_compute; reflexivity. Qed.


(** A parent with one user page, frame 3, at 0x800000. *)
Section OnePage.
Context (s : kstate).
Hypothesis Hdir : one_table s 0 2 1 = true.
Hypothesis Htab : forall j, 0 <= j < 1024 -> load32 (mem s) (slot 0x1000 j) = if j =? 0 then 0x3007 else 0.

Lemma one_user_page va : 0 <= va < USTACKTOP ->
  user_page (mem s) 0 va = if PGNUM va =? 0x800 then Some 0x3007 else None.
Proof using All.
  intros Hva. change USTACKTOP with 0xeebfe000 in Hva.
  assert (PGNUM va = va / 4096 /\ PDX va = va / 4194304 /\ PTX va = va / 4096 mod 1024) as (E1 & E2 & E3)
    by (rewrite PGNUM_div, PDX_div, PTX_div, !u32_small by lia; done).
  assert (0 <= PDX va < 955) as Hx by (rewrite E2; clear - Hva; zlia).
  unfold user_page, mapping. rewrite !pde_slot, (one_table_slot _ _ _ _ _ Hdir) by lia.
  destruct (Z.eqb_spec (PDX va) 2) as [E|E].
  - assert (pde (mem s) 0 va = 0x1007) as Ep
      by (rewrite pde_slot, E, (one_table_slot _ _ _ _ _ Hdir) by lia; done).
    change (present (1 * 4096 + 7)) with true. cbn [andb]. rewrite pte_slot, Ep. change (PTE_ADDR 0x1007) with 0x1000.
    rewrite Htab by (rewrite E3; clear; zlia).
    destruct (Z.eqb_spec (PTX va) 0) as [E0|E0].
    + rewrite (proj2 (Z.eqb_eq (PGNUM va) _)); [reflexivity|]. rewrite E1. rewrite E2 in E. rewrite E3 in E0. clear - E E0. zlia.
    + rewrite (proj2 (Z.eqb_neq (PGNUM va) _)); [reflexivity|]. rewrite E1. rewrite E3 in E0. intros E'. rewrite E' in E0. done.
  - rewrite (proj2 (Z.eqb_neq (PDX va) 957)) by lia.
    rewrite (proj2 (Z.eqb_neq (PGNUM va) _)); [reflexivity|]. rewrite E1. rewrite E2 in E. clear - E. zlia.
Qed.

(** It is mapped once. *)
Lemma one_frame_copies n : (n <= Z.to_nat FORK_PAGES)%nat ->
  frame_copies (mem s) 0 3 n <= if Z.of_nat n <=? 0x800 then 0 else 1.
Proof using All.
  change FORK_PAGES with 0xeebfe. induction n as [|n IH]; intros Hn; [done|]. cbn [frame_copies].
  specialize (IH ltac:(lia)). rewrite one_user_page by (change USTACKTOP with 0xeebfe000; lia).
  rewrite (proj1 (page_at (Z.of_nat n) ltac:(lia))).
  destruct (Z.eqb_spec (Z.of_nat n) 0x800) as [E|E].
  - change (PTE_ADDR 0x3007 / 4096) with 3. rewrite Z.eqb_refl.
    rewrite (proj2 (Z.leb_le (Z.of_nat n) _)) in IH by lia. rewrite (proj2 (Z.leb_gt (Z.of_nat (S n)) _)) by lia. lia.
  - destruct (Z.leb_spec (Z.of_nat n) 0x800), (Z.leb_spec (Z.of_nat (S n)) 0x800); lia.
Qed.

Hypothesis Hchild : one_table s 0x8000 (-1) 0 = true.
Hypothesis Hn : npages s = 1008.

Lemma one_is_table p : (is_table s 0 p -> p = 0 \/ p = 1) /\ (is_table s 0x8000 p -> p = 8).
Proof using All.
  split; intros H.
  - destruct (one_table_is _ _ _ _ _ Hdir ltac:(done) ltac:(lia) ltac:(lia) H) as [-> |[-> _]]; [by left|by right].
  - destruct (one_table_is _ _ _ _ _ Hchild ltac:(done) ltac:(lia) ltac:(lia) H) as [-> |[_ ?]]; [done|lia].
Qed.

Lemma one_spaces : spaces s (seqZ 9 999) 0 0x8000.
Proof using All.
  assert (forall x, x < 9 -> x ∉ seqZ 9 999) as Hx by (intros x H; rewrite elem_of_seqZ; lia).
  split.
  - apply (one_table_wf _ _ _ _ _ Hdir); rewrite ?Hn; try apply Hx; change (0 / 4096) with 0; lia || done.
  - apply (one_table_wf _ _ _ _ _ Hchild); rewrite ?Hn; try apply Hx; change (0x8000 / 4096) with 8; lia || done.
  - intros p Hu Ht. apply user_is_table, one_is_table in Hu. apply one_is_table in Ht. lia.
  - intros p Hu Ht. apply user_is_table, one_is_table in Hu. apply one_is_table in Ht. lia.
  - intros i Hi Hne. rewrite (one_table_slot _ _ _ _ _ Hdir), (one_table_slot _ _ _ _ _ Hchild) by lia.
    rewrite !(proj2 (Z.eqb_neq _ _)) by lia. done.
Qed.

Lemma one_forkable ve :
  runs s (seqZ 9 999) 0 run_env 0 -> child_of s run_env 1 ve 0x8000 -> ref_of s 3 = 1 ->
  forkable s (seqZ 9 999) 0 run_env 0 1 ve 0x8000.
Proof using All.
  intros Hr Hc H3. split; try done.
  - apply one_spaces.
  - rewrite pde_slot, PDX_UVPT, (one_table_slot _ _ _ _ _ Hdir) by lia. done.
  - intros j Hj. rewrite (one_table_slot _ _ _ _ _ Hdir) by lia.
    destruct (Z.eqb_spec j 2); [done|]. by rewrite (proj2 (Z.eqb_neq _ _)) by lia.
  - intros va w Hva Hw. rewrite one_user_page in Hw by done.
    destruct (PGNUM va =? 0x800); [|done]. injection Hw as <-. unfold owned. cbv zeta. change (PTE_ADDR 0x3007 / 4096) with 3.
    rewrite Hn, H3. pose proof (one_frame_copies (Z.to_nat FORK_PAGES) ltac:(lia)) as Hfc.
    rewrite Z2Nat.id in Hfc by (change FORK_PAGES with 0xeebfe; lia). change (FORK_PAGES <=? 0x800) with false in Hfc.
    cbv iota in Hfc.
    split; [|split; [|split; [by vm_compute|lia]]].
    + split; [lia|]. split; [rewrite elem_of_seqZ; lia|]. split; [|lia].
      intros Ht. apply one_is_table in Ht. lia.
    + intros Ht. apply one_is_table in Ht. lia.
  - intros j Hj. rewrite (one_table_slot _ _ _ _ _ Hchild) by lia.
    by rewrite !(proj2 (Z.eqb_neq _ _)) by lia.
Qed.
End OnePage.

Lemma fk_page_table j : 0 <= j < 1024 -> load32 (mem fk_state) (slot 0x1000 j) = if j =? 0 then 0x3007 else 0.
Proof.
  intros Hj. assert (forallb_below 1024 (fun j => load32 (mem fk_state) (slot 0x1000 j) =? (if j =? 0 then 0x3007 else 0)) = true)
    as H by (vm_compute; reflexivity).
  apply Z.eqb_eq, (forallb_below_spec 1024 _ H). clear H. lia.
Qed.

Lemma fk_calls_env : exists ve, envs fk_state !! 1 = Some ve /\ env_id ve = 0x1001 /\ env_status ve = ENV_NOT_RUNNABLE /\
  env_parent_id ve = 0x1000 /\ env_pgdir ve = KERNBASE + 0x8000.
Proof.
  assert (match envs fk_state !! 1 with
    | Some ve => (env_id ve =? 0x1001) && bool_decide (env_status ve = ENV_NOT_RUNNABLE) &&
        (env_parent_id ve =? 0x1000) && (env_pgdir ve =? KERNBASE + 0x8000)
    | None => false end = true) as H by (vm_compute; reflexivity).
  destruct (envs fk_state !! 1) as [ve|]; [|done]. exists ve.
  rewrite !andb_true_iff, !Z.eqb_eq, bool_decide_eq_true in H. tauto.
Qed.

Lemma fk_size : npages fk_state = 1008.
Proof. vm_compute. reflexivity. Qed.
Lemma fk_ref : ref_of fk_state 3 = 1.
Proof. vm_compute. reflexivity. Qed.

Lemma fk_runs_ok : runs fk_state (seqZ 9 999) 0 run_env 0.
Proof.
  split.
  - apply fk_pages_ok.
  - exact (sp_d _ _ _ _ (one_spaces fk_state (proj1 fk_tables) fk_page_table (proj2 fk_tables) fk_size)).
  - vm_compute. reflexivity.
  - vm_compute. reflexivity.
  - reflexivity.
  - vm_compute. reflexivity.
Qed.

