(* ===== verification/Load.v ===== *)
(** * Load: the first programs, load_icode and env_create in kern/env.c

    The definitions are in Env.v.  load_icode builds the address space of a new
    environment from an ELF image: region_alloc maps fresh pages, and memset and
    memcpy fill them through the environment's own page tables.  What user code will
    read is abstracted to [content], the byte at each address, and each step of the
    loader is specified by how it changes [content]. *)

From S2P Require Import Prelude Layout Segments Memory CString Printfmt Kernel PageAlloc PageTable Env MemInit Sched Syscall Trap Upcall Ulib Cow Fork.

(** ** The contents of an address space *)

(** The byte at a mapped address of the directory at [d]. *)
Definition content (m : memory) (d va : Z) : option Z :=
  (fun w => load8 m (PTE_ADDR w + PGOFF va)) <$> mapping m d va.

(** The entry that region_alloc writes for page [p]. *)
Definition loaded_entry (p : Z) : Z := Z.lor (Z.lor (p * 4096) (Z.lor PTE_W PTE_U)) PTE_P.

Lemma loaded_entry_addr p : 0 <= p < 0x10000 -> PTE_ADDR (loaded_entry p) = p * 4096.
Proof.
  intros Hp. unfold loaded_entry. rewrite <- Z.lor_assoc.
  change (Z.lor (Z.lor PTE_W PTE_U) PTE_P) with 7. apply PTE_ADDR_lor; [lia|zlia|lia].
Qed.

Lemma loaded_entry_flags p : Z.land (loaded_entry p) 6 = 6.
Proof.
  unfold loaded_entry. rewrite <- Z.lor_assoc. change (Z.lor (Z.lor PTE_W PTE_U) PTE_P) with 7.
  rewrite Z.land_lor_distr_l. change (Z.land 7 6) with 6. apply Z.bits_inj'. intros k Hk.
  rewrite Z.lor_spec, Z.land_spec. by destruct (Z.testbit (p * 4096) k), (Z.testbit 6 k).
Qed.

(** Bytes outside the tables do not matter to the entries. *)
Lemma same_raw s d m va : d mod 4096 = 0 -> (forall p x, is_table s d p -> x / 4096 = p -> load8 m x = load8 (mem s) x) ->
  raw m d va = raw (mem s) d va.
Proof.
  intros Ha H. unfold raw.
  assert (pde m d va = pde (mem s) d va) as Ep.
  { rewrite !pde_slot. apply same_slot; [done|auto with jos|]. intros x Hx. apply (H (d / 4096)); [|done]. left. zlia. }
  rewrite Ep. destruct (present (pde (mem s) d va)) eqn:Hp; [|done]. rewrite !pte_slot, Ep.
  apply same_slot; [apply PTE_ADDR_aligned|auto with jos|].
  intros x Hx. apply (H (PTE_ADDR (pde (mem s) d va) / 4096)); [by apply is_table_of_pde|done].
Qed.

(** The account of the references while the space at [d] is built: those of other
    pages are unchanged, a table has one, and every entry is 0 or present. *)
Record accounted (s0 : kstate) (l0 : list Z) (d : Z) (s : kstate) : Prop := {
  ac_refs : forall p, p ∉ l0 -> ref_of s p = ref_of s0 p;
  ac_nonneg : forall p, p ∈ l0 -> 0 <= ref_of s p;
  ac_tables : forall i, 0 <= i < 955 -> present (load32 (mem s) (slot d i)) = true ->
    ref_of s (PTE_ADDR (load32 (mem s) (slot d i)) / 4096) = 1;
  ac_entry : forall va, 0 <= va < UTOP -> entry_ok s d va;
}.

(** The address space at [d] while it is filled from the pages [l0], which were free
    in state [s0]: its tables and its pages come from [l0], each page is mapped once
    and referenced once, user code may write it, and no page outside [l0] but the
    tables has changed. *)
Record building (s0 : kstate) (l0 : list Z) (d : Z) (s : kstate) (l : list Z) : Prop := {
  bd_pages : pages_wf s l;
  bd_dir : pgdir_wf s l d;
  bd_sub : forall p, p ∈ l -> p ∈ l0;
  bd_tables : forall i, 0 <= i < 955 -> present (load32 (mem s) (slot d i)) = true ->
    PTE_ADDR (load32 (mem s) (slot d i)) / 4096 ∈ l0 /\ Z.land (load32 (mem s) (slot d i)) 6 = 6;
  bd_kernel : forall i, 955 <= i < 1024 -> load32 (mem s) (slot d i) = load32 (mem s0) (slot d i);
  bd_kmap : forall va, 955 <= PDX va -> PDX va <> PDX UVPT -> mapping (mem s) d va = mapping (mem s0) d va;
  bd_mem : forall x, x / 4096 ∉ l0 -> ~ is_table s0 d (x / 4096) -> load8 (mem s) x = load8 (mem s0) x;
  bd_page : forall va w, 0 <= va < UTOP -> mapping (mem s) d va = Some w ->
    exists p, w = loaded_entry p /\ 0 <= p < 0x10000 /\ p ∈ l0 /\ (p ∉ l) /\ ~ is_table s d p /\
      ref_of s p = 1;
  bd_inj : forall va va' w, 0 <= va < UTOP -> 0 <= va' < UTOP ->
    mapping (mem s) d va = Some w -> mapping (mem s) d va' = Some w -> PGNUM va = PGNUM va';
  bd_account : accounted s0 l0 d s;
}.

Lemma building_range s0 l0 d s l : building s0 l0 d s l -> d mod 4096 = 0 /\ 0 <= d < 0x10000000.
Proof.
  intros Hb. pose proof (dw_aligned _ _ _ (bd_dir _ _ _ _ _ Hb)).
  pose proof (dw_range _ _ _ (bd_dir _ _ _ _ _ Hb)).
  pose proof (wf_npages _ _ (bd_pages _ _ _ _ _ Hb)) as Hn. unfold MAXPAGES in Hn. lia.
Qed.

Lemma content_some m d va : is_Some (content m d va) <-> is_Some (mapping m d va).
Proof. unfold content. by rewrite fmap_is_Some. Qed.

Lemma content_none m d va : content m d va = None <-> mapping m d va = None.
Proof. unfold content. by rewrite fmap_None. Qed.

Lemma mapping_present m d va w : mapping m d va = Some w -> present (pde m d va) = true.
Proof. unfold mapping. by destruct (present (pde m d va)). Qed.

Lemma land_6 x : Z.land x 6 = 6 -> Z.land x PTE_U = PTE_U /\ Z.land x PTE_W = PTE_W.
Proof. intros H. split; apply (land_sub _ 6); done. Qed.

(** User code reads and writes what is mapped. *)
Lemma building_mmu s0 l0 d s l va w user write :
  building s0 l0 d s l -> 0 <= va < UTOP -> mapping (mem s) d va = Some w ->
  mmu (mem s) d va user write = Some (PTE_ADDR w + PGOFF va).
Proof.
  intros Hb Hva Hm. destruct (building_range _ _ _ _ _ Hb) as [Ha Hr].
  destruct (bd_page _ _ _ _ _ Hb va w Hva Hm) as (p & Ew & _).
  pose proof (mapping_present _ _ _ _ Hm) as Hp. rewrite pde_slot in Hp.
  destruct (bd_tables _ _ _ _ _ Hb (PDX va) (user_PDX va Hva) Hp) as [_ Hf]. rewrite <- pde_slot in Hf.
  destruct (land_6 _ Hf) as [F1 F2]. destruct (land_6 (loaded_entry p) (loaded_entry_flags p)) as [F3 F4].
  rewrite <- Ew in F3, F4. apply mmu_of_mapping; try done. lia.
Qed.

(** The invariant speaks of memory and pages only. *)
Lemma building_ext s0 l0 d s s' l :
  building s0 l0 d s l -> mem s' = mem s -> pages s' = pages s ->
  page_free_list s' = page_free_list s -> npages s' = npages s -> building s0 l0 d s' l.
Proof.
  intros [H1 H2 H3 H4 H5 H9 H6 H7 H8 [A1 A2 A3 A4]] Em Ep Ef En.
  assert (forall p, is_table s' d p <-> is_table s d p) as Ht by (intros p; unfold is_table; by rewrite Em).
  split; rewrite ?Em; try done.
  - by apply (pages_wf_ext s).
  - apply (pgdir_wf_mono s s' l l); try done; [|by left]. intros i Hi. by rewrite Em.
  - intros va w Hva Hw. destruct (H7 va w Hva Hw) as (p & K1 & K2 & K3 & K4 & K5 & K6).
    exists p. rewrite Ht. unfold ref_of. by rewrite Ep.
  - assert (forall p, ref_of s' p = ref_of s p) as Er by (intros p; unfold ref_of; by rewrite Ep).
    split; rewrite ?Em; intros; unfold entry_ok; rewrite ?Er, ?Em; auto. by apply A4.
Qed.

(** The tables are those at the start or come from [l0]. *)
Lemma building_is_table s0 l0 d s l p :
  building s0 l0 d s l -> is_table s d p -> is_table s0 d p \/ p ∈ l0.
Proof.
  intros Hb [Ht|(i & Hi & Hp & Ha)]; [left; by left|]. destruct (Z.lt_ge_cases i 955) as [Hlt|Hge].
  - destruct (bd_tables _ _ _ _ _ Hb i ltac:(lia) Hp) as [Hin _]. right.
    by rewrite Ha, Z.div_mul in Hin by lia.
  - left. right. exists i. rewrite <- (bd_kernel _ _ _ _ _ Hb) by lia. done.
Qed.

(** ** The image, seen through the new page tables *)

(** [n] bytes at the kernel address [va], outside the free pages and the tables. *)
Definition kernel_bytes (s : kstate) (l : list Z) (d va n : Z) : Prop :=
  KERNBASE <= va /\ va + n < 0x100000000 /\
  forall x, va <= x < va + n ->
    mmu (mem s) d x false false = Some (x - KERNBASE) /\
    ((x - KERNBASE) / 4096 ∉ l) /\ ~ is_table s d ((x - KERNBASE) / 4096).

Lemma kernel_PDX va : KERNBASE <= va < 0x100000000 -> 960 <= PDX va < 1024.
Proof. intros H. change KERNBASE with 0xf0000000 in H. rewrite PDX_div, u32_small by lia. zlia. Qed.

(** The kernel's part of the address space does not change. *)
Lemma building_kernel s0 l0 d s l va :
  building s0 l0 d s l -> KERNBASE <= va < 0x100000000 ->
  mmu (mem s) d va false false = mmu (mem s0) d va false false.
Proof.
  intros Hb Hva. pose proof (kernel_PDX va Hva) as Hx. destruct (building_range _ _ _ _ _ Hb) as [Ha Hr].
  assert (PTE_ADDR d = d) as Ed by (rewrite PTE_ADDR_div, u32_small by lia; zlia).
  unfold mmu. rewrite Ed, (bd_kmap _ _ _ _ _ Hb) by (rewrite ?PDX_UVPT; lia).
  by rewrite !pde_slot, (bd_kernel _ _ _ _ _ Hb) by lia.
Qed.

Lemma image_load8 s0 l0 d s l va n x :
  building s0 l0 d s l -> cr3 s = d -> kernel_bytes s0 l0 d va n -> va <= x < va + n ->
  vload8 x s = Ok (load8 (mem s0) (x - KERNBASE)) s.
Proof.
  intros Hb Hc (H1 & H2 & H3) Hx. destruct (H3 x Hx) as (Hm & Hl & Hn).
  unfold vload8. rewrite Hc, (building_kernel s0 l0 d s l), Hm by (done || lia).
  by rewrite (bd_mem _ _ _ _ _ Hb).
Qed.

(** ** region_alloc *)

(** Turn [i] of its loop, at the page of [va]. *)
Definition region_page (e va : Z) : K unit :=
  pp ← page_alloc 0;
  match pp with
  | None => panic "region_alloc() faild: pp == NULL"
  | Some pp =>
      v ← get_env e;
      r ← page_insert (env_pgdir v) pp va (Z.lor PTE_W PTE_U);
      if r =? - E_NO_MEM then panic "region_alloc() faild: page_inset() == -E_NO_MEM"
      else mret tt
  end.

Section RegionPage.
Context (s0 : kstate) (l0 : list Z) (d : Z) (s : kstate) (p : Z) (l1 : list Z) (va : Z).
Hypothesis Hb : building s0 l0 d s (p :: l1).
Hypothesis Hva : 0 <= va < UTOP.
Hypothesis Hn : mapping (mem s) d va = None.
Hypothesis Hl : present (pde (mem s) d va) = true \/ l1 <> [].
Hypothesis Hc : cpu_ok s.

Let s1 := popped p l1 s.
Let perm := Z.lor PTE_W PTE_U.

Lemma rp_list : (p ∈ l0) /\ (p ∉ l1) /\ 0 <= p < npages s /\ npages s <= 0x10000 /\ (forall x, x ∈ l1 -> x ∈ l0).
Proof using Type*.
  pose proof (bd_pages _ _ _ _ _ Hb) as Hw. pose proof (wf_nodup _ _ Hw) as Hnd.
  apply list.NoDup_cons in Hnd as [Hp _]. pose proof (wf_npages _ _ Hw) as Hm. unfold MAXPAGES in Hm.
  pose proof (pages_wf_range _ _ p Hw ltac:(constructor)).
  split; [apply (bd_sub _ _ _ _ _ Hb); constructor|]. split; [done|]. split; [lia|]. split; [lia|].
  intros x Hx. apply (bd_sub _ _ _ _ _ Hb). by constructor.
Qed.

Lemma rp_not_table : ~ is_table s d p.
Proof using Type*. intros Ht. apply (table_not_free s (p :: l1) d p (bd_dir _ _ _ _ _ Hb) Ht). constructor. Qed.

Lemma rp_ref q : ref_of s1 q = if q =? p then 0 else ref_of s q.
Proof using Type*.
  unfold s1, ref_of, popped. cbn [pages set_pages]. rewrite lookup_insert.
  destruct (Z.eqb_spec q p) as [->|]; [by rewrite decide_True|by rewrite decide_False].
Qed.

Lemma rp_dir : pgdir_wf s1 l1 d.
Proof using Type*.
  apply (pgdir_wf_mono s s1 (p :: l1) l1); [apply Hb|done|done|]. intros x Hx. left. by constructor.
Qed.

Lemma rp_insert : exists t l2, page_insert (KERNBASE + d) p va perm s1 = Ok 0 t /\ inserted s1 l1 d p va perm t l2.
Proof using All.
  destruct rp_list as (_ & Hp & Hr & Hm & _).
  apply page_insert_ok.
  - by apply popped_wf, Hb.
  - apply rp_dir.
  - done.
  - split.
    + by apply user_va_PDX.
    + vm_compute. split; congruence.
    + done.
    + done.
    + rewrite rp_ref, Z.eqb_refl. lia.
    + intros e He. change (mem s1) with (mem s) in He. congruence.
  - done.
Qed.

Context (t : kstate) (l2 : list Z).
Hypothesis Hi : inserted s1 l1 d p va perm t l2.

Lemma rp_mapping x : 0 <= x < UTOP -> mapping (mem t) d x =
  if decide (PGNUM x = PGNUM va) then Some (loaded_entry p) else mapping (mem s) d x.
Proof using Type*. intros Hx. apply (is_map _ _ _ _ _ _ _ _ Hi). by apply user_va_PDX. Qed.

Lemma rp_free_list : (if present (pde (mem s) d va) then l2 = l1 else exists q, l1 = q :: l2) /\
  forall x, x ∈ l2 -> x ∈ l1.
Proof using Type*.
  destruct (is_list _ _ _ _ _ _ _ _ Hi) as (lw & El & Hl'). unfold freed in El.
  change (mem s1) with (mem s) in El, Hl'. rewrite Hn in El. subst lw.
  destruct (present (pde (mem s) d va)); [by subst|]. destruct Hl' as [q ->].
  split; [by exists q|]. intros x Hx. by constructor.
Qed.

Lemma rp_refs q : (q ∉ l1) -> ref_of t q = if q =? p then 1 else ref_of s q.
Proof using Type*.
  intros Hq. rewrite (is_refs _ _ _ _ _ _ _ _ Hi) by done. rewrite rp_ref. unfold maps_to.
  change (mem s1) with (mem s). rewrite Hn. destruct (q =? p); lia.
Qed.

Lemma rp_mem x : (x / 4096 ∉ l1) -> ~ is_table s d (x / 4096) -> load8 (mem t) x = load8 (mem s) x.
Proof using Type*. intros H1 H2. by apply (is_mem _ _ _ _ _ _ _ _ Hi). Qed.

(** A page that was mapped keeps its bytes. *)
Lemma rp_content x : 0 <= x < UTOP -> PGNUM x <> PGNUM va -> content (mem t) d x = content (mem s) d x.
Proof using Type*.
  intros Hx Hne. unfold content. rewrite rp_mapping, decide_False by done.
  destruct (mapping (mem s) d x) as [w|] eqn:Ew; [|done]. cbn [fmap option_fmap option_map]. f_equal.
  destruct (bd_page _ _ _ _ _ Hb x w Hx Ew) as (q & -> & Hq & _ & Hql & Hqt & _).
  rewrite loaded_entry_addr by done. pose proof (PGOFF_mod x) as Eo.
  assert ((q * 4096 + PGOFF x) / 4096 = q) as E by (rewrite Eo; clear; zlia).
  apply rp_mem; rewrite E; [|done]. intros H. apply Hql. by constructor.
Qed.

Lemma rp_tables i : 0 <= i < 955 -> present (load32 (mem t) (slot d i)) = true ->
  PTE_ADDR (load32 (mem t) (slot d i)) / 4096 ∈ l0 /\ Z.land (load32 (mem t) (slot d i)) 6 = 6.
Proof using Type*.
  intros Hir Hp. destruct rp_list as (_ & _ & _ & _ & Hsub).
  destruct (decide (i = PDX va)) as [->|Hne].
  2: { rewrite (is_slots _ _ _ _ _ _ _ _ Hi) in Hp |- * by lia. by apply (bd_tables _ _ _ _ _ Hb). }
  rewrite <- pde_slot in *. split; [|apply (is_pde _ _ _ _ _ _ _ _ Hi)].
  destruct (present (pde (mem s1) d va)) eqn:Hp1.
  - rewrite (is_pde_or _ _ _ _ _ _ _ _ Hi Hp1), PTE_ADDR_or;
      [|apply load32_range|vm_compute; split; congruence].
    change (mem s1) with (mem s) in *. rewrite pde_slot in *. by apply (bd_tables _ _ _ _ _ Hb).
  - destruct (is_new _ _ _ _ _ _ _ _ Hi Hp1) as (q & Hq & ->). rewrite Z.div_mul by lia. by apply Hsub.
Qed.

Lemma rp_is_table q : (q ∉ l1) -> is_table t d q -> is_table s d q.
Proof using Type*. apply (is_tables _ _ _ _ _ _ _ _ Hi). Qed.

(** A page taken from the list for a table. *)
Lemma rp_new_table q : q ∈ l1 -> (q ∉ l2) -> ref_of t q = 1.
Proof using Type*.
  intros H1 H2. destruct rp_free_list as [Hl2 _]. change (mem s) with (mem s1) in Hl2.
  destruct (present (pde (mem s1) d va)) eqn:Hp1; [congruence|]. destruct Hl2 as [q0 E].
  destruct (is_new _ _ _ _ _ _ _ _ Hi Hp1) as (q1 & Hq1 & E1).
  assert (forall x, x ∈ l1 -> (x ∉ l2) -> x = q0) as Hx by (intros x; rewrite E, elem_of_cons; tauto).
  assert (q1 = q) as <-; [|by apply (is_new_ref _ _ _ _ _ _ _ _ Hi)].
  rewrite (Hx q H1 H2). apply Hx; [done|]. intros H3.
  destruct (dw_table _ _ _ (is_dir _ _ _ _ _ _ _ _ Hi) (PDX va) ltac:(auto with jos)
    (is_present _ _ _ _ _ _ _ _ Hi)) as [_ H4]. rewrite <- pde_slot, E1, Z.div_mul in H4 by lia. done.
Qed.

Lemma rp_account : accounted s0 l0 d t.
Proof using Type*.
  destruct rp_list as (Hp & Hpl & Hr & Hm & Hsub). destruct (bd_account _ _ _ _ _ Hb) as [A1 A2 A3 A4].
  split.
  - intros q Hq. assert (q <> p /\ (q ∉ l1)) as [H1 H2] by (split; [by intros ->|by intros H; apply Hq, Hsub]).
    rewrite rp_refs by done. rewrite (proj2 (Z.eqb_neq _ _)) by done. by apply A1.
  - intros q Hq. destruct (decide (q ∈ l1)) as [H1|H1].
    + destruct (decide (q ∈ l2)) as [H2|H2]; [|rewrite rp_new_table by done; lia].
      apply list_elem_of_lookup in H2 as [i H2]. unfold ref_of.
      by rewrite (wf_chain _ _ (is_pages _ _ _ _ _ _ _ _ Hi) i q H2).
    + rewrite rp_refs by done. case_if; [lia|]. by apply A2.
  - intros i Hir Hpr. destruct (present (pde (mem s1) d va)) eqn:Hp1; [|destruct (decide (i = PDX va)) as [->|Hne]].
    2: { rewrite <- pde_slot. destruct (is_new _ _ _ _ _ _ _ _ Hi Hp1) as (q & Hq & E). rewrite E, Z.div_mul by lia.
      by apply (is_new_ref _ _ _ _ _ _ _ _ Hi). }
    all: assert (present (load32 (mem s) (slot d i)) = true /\ PTE_ADDR (load32 (mem t) (slot d i)) = PTE_ADDR (load32 (mem s) (slot d i))) as [Hps ->].
    2,4: assert (is_table s d (PTE_ADDR (load32 (mem s) (slot d i)) / 4096)) as Ht
      by (right; exists i; split; [lia|]; split; [done|]; pose proof (PTE_ADDR_aligned (load32 (mem s) (slot d i))); zlia);
      pose proof (table_not_free s (p :: l1) d _ (bd_dir _ _ _ _ _ Hb) Ht) as Hf; apply not_elem_of_cons in Hf as [Hf1 Hf2];
      rewrite rp_refs, (proj2 (Z.eqb_neq _ _)) by done; by apply A3.
    + destruct (decide (i = PDX va)) as [->|Hne].
      * rewrite <- !pde_slot in *. split; [exact Hp1|]. rewrite (is_pde_or _ _ _ _ _ _ _ _ Hi Hp1).
        apply PTE_ADDR_or; [apply load32_range|vm_compute; split; congruence].
      * rewrite (is_slots _ _ _ _ _ _ _ _ Hi) in Hpr |- * by lia. done.
    + rewrite (is_slots _ _ _ _ _ _ _ _ Hi) in Hpr |- * by lia. done.
  - intros x Hx. apply (is_entry _ _ _ _ _ _ _ _ Hi); [by apply user_va_PDX|]. by apply A4.
Qed.

Lemma rp_building : building s0 l0 d t l2.
Proof using All.
  destruct rp_list as (Hp & Hpl & Hr & Hm & Hsub). destruct rp_free_list as [_ Hs2].
  assert (forall x w, 0 <= x < UTOP -> mapping (mem s) d x = Some w ->
    exists q, w = loaded_entry q /\ 0 <= q < 0x10000 /\ q <> p) as Hold.
  { intros x w Hx Hw. destruct (bd_page _ _ _ _ _ Hb x w Hx Hw) as (q & Eq & Hq & _ & Hql & _).
    exists q. split; [done|]. split; [done|]. intros ->. apply Hql. constructor. }
  split.
  - apply Hi.
  - apply Hi.
  - intros x Hx. by apply Hsub, Hs2.
  - apply rp_tables.
  - intros i Hx. pose proof (user_PDX va Hva).
    rewrite (is_slots _ _ _ _ _ _ _ _ Hi) by lia. by apply (bd_kernel _ _ _ _ _ Hb).
  - intros x Hx Hu. pose proof (user_PDX va Hva). rewrite (is_map _ _ _ _ _ _ _ _ Hi) by done.
    rewrite decide_False; [by apply (bd_kmap _ _ _ _ _ Hb)|]. intros E. apply PDX_eq_PGNUM in E. lia.
  - intros x Hx1 Hx2. rewrite rp_mem; [by apply (bd_mem _ _ _ _ _ Hb)|by auto|].
    intros Ht. by destruct (building_is_table s0 l0 d s _ _ Hb Ht).
  - intros x w Hx. rewrite rp_mapping by done. case_decide as E.
    + intros [= <-]. exists p. split; [done|]. split; [lia|]. split; [done|]. split; [by auto|].
      split; [intros Ht; by apply rp_not_table, rp_is_table|]. by rewrite rp_refs, Z.eqb_refl.
    + intros Hw. destruct (bd_page _ _ _ _ _ Hb x w Hx Hw) as (q & Eq & Hq & Hq0 & Hql & Hqt & Hqr).
      assert (q <> p /\ q ∉ l1) as [Hqp Hq1] by (split; [intros ->; apply Hql; constructor|intros H; apply Hql; by constructor]).
      exists q. split; [done|]. split; [done|]. split; [done|]. split; [by auto|].
      split; [intros Ht; by apply Hqt, rp_is_table|]. rewrite rp_refs by done. by rewrite (proj2 (Z.eqb_neq _ _)).
  - intros x x' w Hx Hx'. rewrite !rp_mapping by done.
    assert (forall y, 0 <= y < UTOP -> mapping (mem s) d y = Some (loaded_entry p) -> False) as Hnew.
    { intros y Hy Hm'. destruct (Hold y _ Hy Hm') as (q & Eq & Hq & Hqp). apply Hqp.
      apply (f_equal PTE_ADDR) in Eq. rewrite !loaded_entry_addr in Eq by lia. lia. }
    repeat case_decide; try congruence.
    + intros [= <-] Hw. by destruct (Hnew x').
    + intros Hw [= <-]. by destruct (Hnew x).
    + by apply (bd_inj _ _ _ _ _ Hb).
  - by apply rp_account.
Qed.
End RegionPage.

(** One page, which then holds something at every address. *)
Lemma region_page_run s0 l0 d s p l1 e v va :
  building s0 l0 d s (p :: l1) -> cpu_ok s -> envs s !! e = Some v -> env_pgdir v = KERNBASE + d ->
  0 <= va < UTOP -> content (mem s) d va = None -> present (pde (mem s) d va) = true \/ l1 <> [] ->
  exists t l2, region_page e va s = Ok tt t /\ same_else s t /\ building s0 l0 d t l2 /\
    (forall x, 0 <= x < UTOP -> if decide (PGNUM x = PGNUM va) then is_Some (content (mem t) d x)
      else content (mem t) d x = content (mem s) d x) /\
    present (pde (mem t) d va) = true /\
    (if present (pde (mem s) d va) then l2 = l1 else exists q, l1 = q :: l2).
Proof.
  intros Hb Hc Hv Hd Hva Hn Hl. apply content_none in Hn.
  destruct (rp_insert s0 l0 d s p l1 va Hb Hva Hn Hl Hc) as (t & l2 & E & Hi).
  exists t, l2. split; [|split; [|split; [|split; [|split]]]].
  - unfold region_page. kstep (page_alloc_cons 0 s p l1 (bd_pages _ _ _ _ _ Hb)).
    change (ctrue (Z.land 0 ALLOC_ZERO)) with false. cbv iota.
    kstep (get_env_run (popped p l1 s) e v Hv). rewrite Hd. kstep E. done.
  - etrans; [|apply Hi]. unfold same_else. by destruct s.
  - by apply (rp_building s0 l0 d s p l1 va Hb Hva Hn Hl Hc).
  - intros x Hx. case_decide as Ex.
    + apply content_some. rewrite (rp_mapping s0 l0 d s p l1 va Hb Hva Hn Hl Hc t l2 Hi) by done. rewrite decide_True by done. eauto.
    + by apply (rp_content s0 l0 d s p l1 va Hb Hva Hn Hl Hc t l2 Hi).
  - apply Hi.
  - by apply (rp_free_list s0 l0 d s p l1 va Hb Hva Hn Hl Hc t l2 Hi).
Qed.

(** The region of [len] bytes at [va], in whole pages. *)
Definition region_first (va : Z) : Z := va / 4096 * 4096.
Definition region_last (va len : Z) : Z := (va + len + 4095) / 4096 * 4096.
Definition region_count (va len : Z) : Z := (region_last va len - region_first va) / 4096.
Definition in_region (va len x : Z) : Prop := region_first va <= x < region_last va len.
#[export] Instance in_region_dec va len x : Decision (in_region va len x).
Proof. unfold in_region. apply _. Defined.

(** The free pages it may need, for its pages and their tables. *)
Definition region_need (va len : Z) : Z :=
  region_count va len + tables_spanned (region_first va) (region_count va len).

Lemma region_bounds va len : 0 <= va -> 0 <= len -> va + len <= UTOP ->
  ROUNDDOWN va PGSIZE = region_first va /\ ROUNDUP (va + len) PGSIZE = region_last va len /\
  0 <= region_first va <= va /\ va + len <= region_last va len <= UTOP /\ region_first va <= region_last va len.
Proof.
  intros Hva Hlen Hb. change UTOP with 0xeec00000 in *. unfold region_first, region_last.
  rewrite ROUNDDOWN_mul, ROUNDUP_mul by (unfold PGSIZE; lia). unfold PGSIZE.
  rewrite !u32_small by (rewrite ?u32_small; lia). split; [done|]. split; [do 2 f_equal; lia|]. zlia.
Qed.

Section RegionAlloc.
Context (s0 : kstate) (l0 : list Z) (d : Z) (s : kstate) (l : list Z) (e : Z) (v : Env) (va len : Z).
Hypothesis Hb : building s0 l0 d s l.
Hypothesis Hc : cpu_ok s.
Hypothesis Hv : envs s !! e = Some v.
Hypothesis Hd : env_pgdir v = KERNBASE + d.
Hypothesis Hva : 0 <= va /\ 0 <= len /\ va + len <= UTOP.
Hypothesis Hn : forall x, in_region va len x -> content (mem s) d x = None.
Hypothesis Hl : region_need va len <= Z.of_nat (length l).

Let b := region_first va.

(** After [i] turns. *)
Record region_inv (i : Z) (t : kstate) (lt : list Z) : Prop := {
  ri_same : same_else s t;
  ri_building : building s0 l0 d t lt;
  ri_content : forall x, 0 <= x < UTOP -> if decide (b <= x < b + i * 4096) then is_Some (content (mem t) d x)
    else content (mem t) d x = content (mem s) d x;
  ri_last : 0 < i -> present (pde (mem t) d (b + (i - 1) * 4096)) = true;
  ri_list : Z.of_nat (length l) <= Z.of_nat (length lt) + i + tables_spanned b i;
}.

Lemma region_span : 0 <= b /\ b mod 4096 = 0 /\ b + region_count va len * 4096 = region_last va len /\
  region_last va len <= UTOP /\ 0 <= region_count va len.
Proof using Hva.
  clear Hl. destruct Hva as (H1 & H2 & H3). destruct (region_bounds va len H1 H2 H3) as (_ & _ & H4 & H5 & H6).
  unfold region_count, b. unfold region_first, region_last in *. zlia.
Qed.

Lemma tables_next i : 0 <= i < region_count va len ->
  tables_spanned b i <= tables_spanned b (i + 1) <= tables_spanned b (region_count va len) /\
  (0 < i -> PDX (b + (i - 1) * 4096) = PDX (b + i * 4096) \/ tables_spanned b (i + 1) = tables_spanned b i + 1) /\
  (i = 0 -> tables_spanned b (i + 1) = 1).
Proof using Hva.
  clear Hl. intros Hi. destruct region_span as (Hb0 & Hbm & Hbl & Hbu & Hcn). change UTOP with 0xeec00000 in Hbu.
  assert (forall j, 0 <= j < region_count va len -> PDX (b + j * 4096) = (b + j * 4096) / 4194304) as E
    by (intros j Hj; rewrite PDX_div, u32_small by lia; done).
  assert (PDX b = b / 4194304) as E0 by (rewrite PDX_div, u32_small by lia; done).
  unfold tables_spanned. rewrite (proj2 (Z.eqb_neq (i + 1) 0)), (proj2 (Z.eqb_neq (region_count va len) 0)) by lia.
  replace (i + 1 - 1) with i by lia. rewrite E0, (E i), (E (region_count va len - 1)) by lia.
  destruct (Z.eqb_spec i 0) as [->|Hne].
  - split; [split; [zlia|]|split; [lia|zlia]]. clear - Hi Hb0. zlia.
  - rewrite (E (i - 1)) by lia. split; [clear - Hi Hb0 Hne; zlia|]. split; [|lia]. intros _. clear - Hi Hb0 Hne Hbm. zlia.
Qed.

Lemma region_turn i t lt : 0 <= i < region_count va len -> region_inv i t lt ->
  exists t' lt', region_page e (b + i * 4096) t = Ok tt t' /\ region_inv (i + 1) t' lt'.
Proof using All.
  intros Hi Ht. destruct region_span as (Hb0 & Hbm & Hbl & Hbu & Hcn).
  destruct (tables_next i Hi) as (Hts & Htn & Ht0).
  pose proof (ri_list _ _ _ Ht) as Hlen. unfold region_need in Hl. fold b in Hl.
  change UTOP with 0xeec00000 in Hbu.
  assert (0 <= b + i * 4096 < UTOP) as Hr by (change UTOP with 0xeec00000; lia).
  assert (PGNUM (b + i * 4096) = b / 4096 + i) as Epg
    by (rewrite PGNUM_div, u32_small by (change UTOP with 0xeec00000 in Hr; lia); clear; zlia).
  assert (forall x, 0 <= x < UTOP -> PGNUM x = PGNUM (b + i * 4096) <-> b + i * 4096 <= x < b + (i + 1) * 4096) as Hpg.
  { intros x Hx. change UTOP with 0xeec00000 in Hx. rewrite Epg, PGNUM_div, u32_small by lia. clear - Hbm. zlia. }
  assert (content (mem t) d (b + i * 4096) = None) as Hnone.
  { pose proof (ri_content _ _ _ Ht _ Hr) as H. rewrite decide_False in H by lia. rewrite H. apply Hn.
    unfold in_region. fold b. lia. }
  assert (present (pde (mem t) d (b + i * 4096)) = true \/ tables_spanned b (i + 1) = tables_spanned b i + 1) as Htab.
  { destruct (decide (i = 0)) as [->|]; [right; rewrite (Ht0 eq_refl); done|].
    destruct (Htn ltac:(lia)) as [E|E]; [left|by right].
    rewrite <- (pde_same_PDX _ _ _ _ E). apply (ri_last _ _ _ Ht). lia. }
  destruct lt as [|p l1]; [cbn [length] in Hlen; lia|]. cbn [length] in Hlen.
  destruct (region_page_run s0 l0 d t p l1 e v (b + i * 4096)) as (t' & l2 & E & Hs & Hb' & Hct & Hp & Hl2); try done.
  - apply Ht.
  - apply (cpu_ok_same s); [apply Ht|done].
  - by rewrite (same_else_envs _ _ (ri_same _ _ _ Ht)).
  - destruct Htab as [H|H]; [by left|right]. intros ->. cbn [length] in Hlen. lia.
  - exists t', l2. split; [done|]. split.
    + etrans; [apply Ht|done].
    + done.
    + intros x Hx. specialize (Hct x Hx). pose proof (ri_content _ _ _ Ht x Hx) as Hx'. specialize (Hpg x Hx).
      destruct (decide (PGNUM x = PGNUM (b + i * 4096))) as [Ex|Ex].
      * rewrite decide_True by (clear - Hpg Ex Hi; lia). done.
      * case_decide as Ed; (destruct (decide (b <= x < b + (i + 1) * 4096)); [|try (clear - Hpg Ex Ed Hi n; lia)]).
        -- by rewrite Hct.
        -- exfalso. apply Ex, Hpg. lia.
        -- by rewrite Hct.
    + intros _. by replace (i + 1 - 1) with i by lia.
    + destruct (present (pde (mem t) d (b + i * 4096))).
      * rewrite Hl2. lia.
      * destruct Htab as [?|Htab]; [done|]. destruct Hl2 as [q El2]. rewrite El2 in Hlen. cbn [length] in Hlen. lia.
Qed.

Lemma region_alloc_run : exists t lt, region_alloc e va len s = Ok tt t /\ same_else s t /\ building s0 l0 d t lt /\
  (forall x, 0 <= x < UTOP -> if decide (in_region va len x) then is_Some (content (mem t) d x)
    else content (mem t) d x = content (mem s) d x) /\
  Z.of_nat (length l) <= Z.of_nat (length lt) + region_need va len.
Proof using All.
  destruct region_span as (Hb0 & Hbm & Hbl & Hbu & Hcn).
  destruct (region_bounds va len ltac:(lia) ltac:(lia) ltac:(lia)) as (E1 & E2 & _).
  assert (wp (region_alloc e va len) (fun _ t => exists lt, region_inv (0 + Z.of_nat (Z.to_nat (region_count va len))) t lt)
    no_exit s) as H.
  { unfold region_alloc. cbv zeta. rewrite E1, E2. fold b.
    change ((region_last va len - b) / PGSIZE) with (region_count va len).
    apply (wp_kfor (fun j t => exists lt, region_inv j t lt)).
    - exists l. split; try done.
      + intros x Hx. by rewrite decide_False by lia.
      + change (tables_spanned b 0) with 0. lia.
    - intros j t Hj (lt & Ht). destruct (region_turn j t lt) as (t' & lt' & E & Ht'); [lia|done|].
      unfold wp. fold (region_page e (b + j * PGSIZE)). unfold PGSIZE. rewrite E. by exists lt'. }
  unfold wp in H. destruct (region_alloc e va len s) as [[] t|x t|]; [|done..]. destruct H as [lt H].
  rewrite Z2Nat.id in H by done. rewrite Z.add_0_l in H. exists t, lt. split; [done|]. split; [apply H|]. split; [apply H|].
  split.
  - intros x Hx. pose proof (ri_content _ _ _ H x Hx) as Hx'. rewrite Hbl in Hx'. exact Hx'.
  - pose proof (ri_list _ _ _ H). unfold region_need. fold b. lia.
Qed.
End RegionAlloc.

(** ** Stores through the page tables *)

Lemma PGNUM_PGOFF_inj x y : 0 <= x < UTOP -> 0 <= y < UTOP -> PGNUM x = PGNUM y -> PGOFF x = PGOFF y -> x = y.
Proof.
  intros Hx Hy. change UTOP with 0xeec00000 in *. rewrite !PGNUM_div, !PGOFF_mod, !u32_small by lia. zlia.
Qed.

(** A byte of user memory. *)
Lemma store_content_run s0 l0 d s l va c :
  building s0 l0 d s l -> cr3 s = d -> 0 <= va < UTOP -> is_Some (content (mem s) d va) ->
  exists t, vstore8 va c s = Ok tt t /\ same_else s t /\ building s0 l0 d t l /\
    forall x, 0 <= x < UTOP -> content (mem t) d x = if decide (x = va) then Some (u8 c) else content (mem s) d x.
Proof.
  intros Hb Hc Hva Hs. apply content_some in Hs as [w Hw].
  destruct (building_range _ _ _ _ _ Hb) as [Ha Hr].
  destruct (bd_page _ _ _ _ _ Hb va w Hva Hw) as (p & Ep & Hp & Hp0 & Hpl & Hpt & Hpr).
  pose proof (loaded_entry_addr p Hp) as Ea. rewrite <- Ep in Ea. pose proof (PGOFF_mod va) as Eo.
  set (a := p * 4096 + PGOFF va). set (t := set_mem (store8 (mem s) a c) s).
  assert (a / 4096 = p) as Eap by (unfold a; rewrite Eo; clear; zlia).
  assert (same_outside (p * 4096) (mem s) (mem t)) as Ho.
  { intros x Hx. rewrite Z.div_mul in Hx by lia. cbn [t mem set_mem]. rewrite load8_store8_ne; [done|].
    intros <-. by apply Hx. }
  destruct (data_translate s d p (mem t) Hpt Ha Ho) as [Hsl Hmap].
  assert (forall q, is_table t d q <-> is_table s d q) as Ht.
  { intros q. split; apply is_table_slots; intros i Hi; [|symmetry]; by apply Hsl. }
  exists t. split; [|split; [|split]].
  - unfold vstore8. rewrite Hc, (building_mmu s0 l0 d s l va w) by done. by rewrite Ea.
  - unfold same_else, t. by destruct s.
  - destruct Hb as [H1 H2 H3 H4 H5 H9 H6 H7 H8 [A1 A2 A3 A4]]. split.
    + by apply (pages_wf_ext s).
    + by apply (data_pgdir_wf s l d p).
    + done.
    + intros i Hi. rewrite Hsl by lia. by apply H4.
    + intros i Hi. rewrite Hsl by lia. by apply H5.
    + intros x Hx Hu. rewrite Hmap. by apply H9.
    + intros x Hx1 Hx2. rewrite Ho; [by apply H6|]. rewrite Z.div_mul by lia. intros E. apply Hx1. by rewrite E.
    + intros x y Hx. rewrite Hmap. intros Hy. destruct (H7 x y Hx Hy) as (q & K). exists q. by rewrite Ht.
    + intros x x' y Hx Hx'. rewrite !Hmap. by apply H8.
    + split; [done|done| |].
      * intros i Hi. rewrite Hsl by lia. by apply A3.
      * intros x Hx. unfold entry_ok. rewrite (same_raw s d (mem t)); [by apply A4|done|].
        intros q y Hq <-. apply Ho. rewrite Z.div_mul by lia. by intros <-.
  - intros x Hx. unfold content. rewrite Hmap. case_decide as E.
    + subst x. rewrite Hw. cbn [fmap option_fmap option_map t mem set_mem]. rewrite Ea. fold a. by rewrite load8_store8_eq.
    + destruct (mapping (mem s) d x) as [y|] eqn:Ey; [|done]. cbn [fmap option_fmap option_map]. f_equal.
      destruct (bd_page _ _ _ _ _ Hb x y Hx Ey) as (q & -> & Hq & _). rewrite loaded_entry_addr by done.
      pose proof (PGOFF_mod x) as Eox. cbn [t mem set_mem]. apply load8_store8_ne. unfold a. intros Eq. apply E.
      assert (q = p /\ PGOFF x = PGOFF va) as [-> Ex] by (rewrite Eo, Eox in *; clear - Eq; zlia).
      apply PGNUM_PGOFF_inj; try done. rewrite <- Ep in Ey. by apply (bd_inj _ _ _ _ _ Hb x va w).
Qed.

(** [n] bytes from [va] on, as a loop. *)
Section StoreLoop.
Context (s0 : kstate) (l0 : list Z) (d : Z) (s : kstate) (l : list Z) (va n : Z) (f : Z -> Z).
Hypothesis Hb : building s0 l0 d s l.
Hypothesis Hc : cr3 s = d.
Hypothesis Hva : 0 <= va /\ 0 <= n /\ va + n <= UTOP.
Hypothesis Hs : forall x, va <= x < va + n -> is_Some (content (mem s) d x).

(** Turn [i] stores the byte [f i], which it may compute from the state. *)
Context (body : Z -> K unit).
Hypothesis Hbody : forall i t, 0 <= i < n -> building s0 l0 d t l -> cr3 t = d -> body i t = vstore8 (u32 (va + i)) (f i) t.

Lemma store_loop : exists t, kfor (Z.to_nat n) 0 body s = Ok tt t /\ same_else s t /\ building s0 l0 d t l /\
  forall x, 0 <= x < UTOP -> content (mem t) d x =
    if decide (va <= x < va + n) then Some (u8 (f (x - va))) else content (mem s) d x.
Proof using All.
  set (I := fun i t => same_else s t /\ building s0 l0 d t l /\ forall x, 0 <= x < UTOP ->
    content (mem t) d x = if decide (va <= x < va + i) then Some (u8 (f (x - va))) else content (mem s) d x).
  assert (wp (kfor (Z.to_nat n) 0 body) (fun _ t => I (0 + Z.of_nat (Z.to_nat n)) t) no_exit s) as H.
  { apply wp_kfor.
    - split; [done|]. split; [done|]. intros x Hx. by rewrite decide_False by lia.
    - intros i t Hi (H1 & H2 & H3).
      assert (cr3 t = d) as Hct by (by rewrite H1).
      assert (0 <= va + i < UTOP) as Hr by lia.
      assert (u32 (va + i) = va + i) as Eu by (apply u32_small; change UTOP with 0xeec00000 in Hr; lia).
      unfold wp. rewrite Hbody, Eu by (done || lia).
      destruct (store_content_run s0 l0 d t l (va + i) (f i) H2 Hct Hr) as (t' & E & Hs' & Hb' & Hx').
      { rewrite H3, decide_False by (done || lia). apply Hs. lia. }
      rewrite E. split; [by etrans|]. split; [done|]. intros x Hx. rewrite Hx', H3 by done.
      repeat case_decide; try done; try lia. subst x. do 3 f_equal. lia. }
  unfold wp in H. destruct (kfor _ 0 body s) as [[] t|x t|]; [|done..].
  rewrite Z2Nat.id, Z.add_0_l in H by lia. exists t. destruct H as (H1 & H2 & H3). done.
Qed.
End StoreLoop.

Lemma vmemset_run s0 l0 d s l va c n :
  building s0 l0 d s l -> cr3 s = d -> 0 <= va /\ 0 <= n /\ va + n <= UTOP ->
  (forall x, va <= x < va + n -> is_Some (content (mem s) d x)) ->
  exists t, vmemset va c n s = Ok tt t /\ same_else s t /\ building s0 l0 d t l /\
    forall x, 0 <= x < UTOP -> content (mem t) d x =
      if decide (va <= x < va + n) then Some (u8 c) else content (mem s) d x.
Proof. intros Hb Hc Hva Hs. by apply (store_loop s0 l0 d s l va n (fun _ => c)). Qed.

Lemma vmemcpy_run s0 l0 d s l va src n :
  building s0 l0 d s l -> cr3 s = d -> 0 <= va /\ 0 <= n /\ va + n <= UTOP ->
  (forall x, va <= x < va + n -> is_Some (content (mem s) d x)) -> kernel_bytes s0 l0 d src n ->
  exists t, vmemcpy va src n s = Ok tt t /\ same_else s t /\ building s0 l0 d t l /\
    forall x, 0 <= x < UTOP -> content (mem t) d x =
      if decide (va <= x < va + n) then Some (load8 (mem s0) (src - KERNBASE + (x - va))) else content (mem s) d x.
Proof.
  intros Hb Hc Hva Hs Hk. pose proof Hk as (Hk1 & Hk2 & _). change KERNBASE with 0xf0000000 in Hk1.
  destruct (store_loop s0 l0 d s l va n (fun i => load8 (mem s0) (src + i - KERNBASE)) Hb Hc Hva Hs
    (fun i => b ← vload8 (u32 (src + i)); vstore8 (u32 (va + i)) b)) as (t & E & H1 & H2 & H3).
  - intros i t Hi Hbt Hct. rewrite (u32_small (src + i)) by lia.
    by kstep (image_load8 s0 l0 d t l src n (src + i) Hbt Hct Hk ltac:(lia)).
  - exists t. split; [done|]. split; [done|]. split; [done|]. intros x Hx. rewrite H3 by done.
    case_decide; [|done]. f_equal. rewrite (u8_small _ (load8_range _ _)). f_equal. lia.
Qed.

(** ** Segments *)

(** A program header, with the kernel address [ph]. *)
Definition proghdr_at (m : memory) (ph : Z) : Proghdr :=
  let a := ph - KERNBASE in
  mkProghdr (load32 m a) (load32 m (a + 4)) (load32 m (a + 8)) (load32 m (a + 12))
    (load32 m (a + 16)) (load32 m (a + 20)).

(** Address [x] lies in a page that is loaded for [ph]. *)
Definition seg_in (ph : Proghdr) (x : Z) : Prop :=
  p_type ph = ELF_PROG_LOAD /\ in_region (p_va ph) (p_memsz ph) x.
#[export] Instance seg_in_dec ph x : Decision (seg_in ph x).
Proof. unfold seg_in. apply _. Defined.

Definition seg_need (ph : Proghdr) : Z :=
  if p_type ph =? ELF_PROG_LOAD then region_need (p_va ph) (p_memsz ph) else 0.

(** A header that the loader can follow: the file part is in the image of [size]
    bytes and fits the memory, which lies below the stack. *)
Definition seg_ok (size : Z) (ph : Proghdr) : Prop :=
  p_type ph = ELF_PROG_LOAD ->
  0 <= p_va ph /\ 0 <= p_offset ph /\ 0 <= p_filesz ph <= p_memsz ph /\
  p_va ph + p_memsz ph <= USTACKTOP - PGSIZE /\ p_offset ph + p_filesz ph <= size.

(** What the segment leaves at [x], given the image at [binary]. *)
Definition seg_byte (m : memory) (binary : Z) (ph : Proghdr) (x : Z) : Z :=
  if x <? p_va ph + p_filesz ph then load8 m (binary - KERNBASE + p_offset ph + (x - p_va ph)) else 0.
Definition seg_loaded (m : memory) (binary : Z) (ph : Proghdr) (x : Z) (c : option Z) : Prop :=
  is_Some c /\ (p_va ph <= x < p_va ph + p_memsz ph -> c = Some (seg_byte m binary ph x)).

Lemma kernel_bytes_sub s l d va n off k :
  kernel_bytes s l d va n -> 0 <= off -> off + k <= n -> kernel_bytes s l d (va + off) k.
Proof. intros (H1 & H2 & H3) Ho Hk. split; [lia|]. split; [lia|]. intros x Hx. apply H3. lia. Qed.

Lemma stack_below : USTACKTOP - PGSIZE = 0xeebfd000 /\ UTOP = 0xeec00000 /\ USTACKTOP = 0xeebfe000.
Proof. done. Qed.

Section Segment.
Context (s0 : kstate) (l0 : list Z) (d : Z) (t : kstate) (lt : list Z) (e : Z) (v : Env) (binary size : Z) (ph : Proghdr).
Hypothesis Hb : building s0 l0 d t lt.
Hypothesis Hcr : cr3 t = d.
Hypothesis Hc : cpu_ok t.
Hypothesis Hv : envs t !! e = Some v.
Hypothesis Hd : env_pgdir v = KERNBASE + d.
Hypothesis Himg : kernel_bytes s0 l0 d binary size.
Hypothesis Hok : seg_ok size ph.
Hypothesis Hn : forall x, seg_in ph x -> content (mem t) d x = None.
Hypothesis Hl : seg_need ph <= Z.of_nat (length lt).

Lemma load_segment_run : exists t' lt', load_segment e binary ph t = Ok tt t' /\ same_else t t' /\
  building s0 l0 d t' lt' /\
  (forall x, 0 <= x < UTOP -> if decide (seg_in ph x) then seg_loaded (mem s0) binary ph x (content (mem t') d x)
    else content (mem t') d x = content (mem t) d x) /\
  Z.of_nat (length lt) <= Z.of_nat (length lt') + seg_need ph.
Proof using All.
  unfold load_segment, seg_need, seg_in in *. destruct (Z.eqb_spec (p_type ph) ELF_PROG_LOAD) as [Et|Et]; cbn [kwhen].
  2: { exists t, lt. split; [done|]. split; [done|]. split; [done|]. split; [|lia].
       intros x Hx. by rewrite decide_False by tauto. }
  destruct (Hok Et) as (H1 & H2 & H3 & H4 & H5). destruct stack_below as (E1 & E2 & E3). rewrite E1 in H4.
  destruct (region_bounds (p_va ph) (p_memsz ph) ltac:(lia) ltac:(lia) ltac:(lia)) as (_ & _ & B1 & B2 & _).
  assert (forall x, p_va ph <= x < p_va ph + p_memsz ph -> in_region (p_va ph) (p_memsz ph) x) as Hin
    by (intros x Hx; unfold in_region; lia).
  destruct (region_alloc_run s0 l0 d t lt e v (p_va ph) (p_memsz ph) Hb Hc Hv Hd ltac:(lia) ltac:(auto) Hl)
    as (t1 & l1 & R1 & S1 & B & C1 & L1).
  assert (cr3 t1 = d) as Hc1 by (by rewrite S1).
  assert (forall x, p_va ph <= x < p_va ph + p_memsz ph -> is_Some (content (mem t1) d x)) as M1.
  { intros x Hx. specialize (C1 x ltac:(lia)). by rewrite decide_True in C1 by auto. }
  destruct (vmemset_run s0 l0 d t1 l1 (p_va ph) 0 (p_memsz ph) B Hc1 ltac:(lia) M1) as (t2 & R2 & S2 & B' & C2).
  assert (cr3 t2 = d) as Hc2 by (by rewrite S2).
  assert (forall x, p_va ph <= x < p_va ph + p_filesz ph -> is_Some (content (mem t2) d x)) as M2.
  { intros x Hx. rewrite C2 by lia. case_decide; [eauto|lia]. }
  pose proof (kernel_bytes_sub _ _ _ _ _ (p_offset ph) (p_filesz ph) Himg H2 H5) as Hk.
  assert (u32 (binary + p_offset ph) = binary + p_offset ph) as Eu.
  { destruct Hk as (K1 & K2 & _). change KERNBASE with 0xf0000000 in K1. apply u32_small. lia. }
  destruct (vmemcpy_run s0 l0 d t2 l1 (p_va ph) (binary + p_offset ph) (p_filesz ph) B' Hc2 ltac:(lia) M2 Hk)
    as (t3 & R3 & S3 & B'' & C3).
  exists t3, l1. split; [|split; [|split; [done|split; [|lia]]]].
  - kstep R1. kstep R2. by rewrite Eu, R3.
  - etrans; [done|]. by etrans.
  - intros x Hx. specialize (C1 x Hx). rewrite C3, C2 by done. unfold seg_loaded, seg_byte.
    destruct (decide (in_region (p_va ph) (p_memsz ph) x)) as [Ei|Ei].
    + rewrite decide_True by done. destruct (Z.ltb_spec x (p_va ph + p_filesz ph)) as [El|El].
      * destruct (decide (p_va ph <= x)) as [Eg|Eg].
        -- rewrite decide_True by lia. split; [eauto|]. intros _. do 2 f_equal. lia.
        -- rewrite !decide_False by lia. split; [done|lia].
      * rewrite decide_False by lia. case_decide; [|split; [done|lia]]. split; [eauto|]. done.
    + rewrite decide_False by tauto. rewrite !decide_False; [done|..]; intros Hx'; apply Ei, Hin; lia.
Qed.
End Segment.

(** ** load_icode *)

(** The header of the image at [binary]. *)
Definition e_phoff (m : memory) (binary : Z) : Z := load32 m (binary - KERNBASE + 28).
Definition e_phnum (m : memory) (binary : Z) : Z := u16 (load32 m (binary - KERNBASE + 44)).
Definition e_entry (m : memory) (binary : Z) : Z := load32 m (binary - KERNBASE + 24).
Definition segment (m : memory) (binary i : Z) : Proghdr :=
  proghdr_at m (binary + e_phoff m binary + i * sizeof_Proghdr).

Definition segments_need (m : memory) (binary : Z) (n : nat) : Z :=
  foldr (fun i z => seg_need (segment m binary (Z.of_nat i)) + z) 0 (seq 0 n).

(** An ELF image of [size] bytes whose segments the loader can place: no two touch
    the same page, as load_icode's comment assumes. *)
Record image_ok (m : memory) (binary size : Z) : Prop := {
  im_magic : load32 m (binary - KERNBASE) = ELF_MAGIC;
  im_header : 48 <= size;
  im_table : e_phoff m binary + e_phnum m binary * sizeof_Proghdr <= size;
  im_segs : forall i, 0 <= i < e_phnum m binary -> seg_ok size (segment m binary i);
  im_disjoint : forall i j x, 0 <= i < j -> j < e_phnum m binary ->
    seg_in (segment m binary i) x -> ~ seg_in (segment m binary j) x;
}.

(** What the loader starts from: environment [e] with a directory at [d] that maps
    nothing below UTOP, and the image in kernel memory. *)
Record loadable (s : kstate) (l : list Z) (e : Z) (v : Env) (d kd binary size : Z) : Prop := {
  lo_pages : pages_wf s l;
  lo_dir : pgdir_wf s l d;
  lo_cpu : cpu_ok s;
  lo_env : envs s !! e = Some v;
  lo_pgdir : env_pgdir v = KERNBASE + d;
  lo_kern : kern_pgdir s = KERNBASE + kd /\ 0 <= kd;
  lo_empty : forall i, 0 <= i < 955 -> load32 (mem s) (slot d i) = 0;
  lo_bytes : kernel_bytes s l d binary size;
  lo_image : image_ok (mem s) binary size;
  lo_need : segments_need (mem s) binary (Z.to_nat (e_phnum (mem s) binary)) + 2 <= Z.of_nat (length l);
}.

Lemma segments_need_next m binary n :
  segments_need m binary (S n) = segments_need m binary n + seg_need (segment m binary (Z.of_nat n)).
Proof.
  unfold segments_need. rewrite seq_S, foldr_app. cbn [foldr Nat.add].
  generalize (seq 0 n). intros ns. induction ns as [|j ns IH]; cbn [foldr]; [lia|]. rewrite IH. lia.
Qed.

Lemma seg_need_nonneg size ph : seg_ok size ph -> 0 <= seg_need ph.
Proof.
  intros Hok. unfold seg_need. destruct (Z.eqb_spec (p_type ph) ELF_PROG_LOAD) as [E|E]; [|done].
  destruct (Hok E) as (H1 & H2 & H3 & H4 & H5). destruct stack_below as (E1 & E2 & E3). rewrite E1 in H4.
  destruct (region_span (p_va ph) (p_memsz ph) ltac:(lia)) as (B1 & B2 & B3 & B4 & B5).
  unfold region_need, tables_spanned. destruct (Z.eqb_spec (region_count (p_va ph) (p_memsz ph)) 0); [lia|].
  rewrite !PDX_div, !u32_small by (change UTOP with 0xeec00000 in *; lia). zlia.
Qed.

Lemma segments_need_mono m binary size n k :
  (forall i, 0 <= i < Z.of_nat k -> seg_ok size (segment m binary i)) -> (n <= k)%nat ->
  0 <= segments_need m binary n <= segments_need m binary k.
Proof.
  intros Hs Hn. assert (forall j, (j <= k)%nat -> 0 <= segments_need m binary j) as H0.
  { induction j as [|j IH]; intros Hj; [done|]. rewrite segments_need_next.
    pose proof (seg_need_nonneg size _ (Hs (Z.of_nat j) ltac:(lia))). specialize (IH ltac:(lia)). lia. }
  split; [by apply H0|]. induction Hn as [|k Hk IH]; [lia|]. rewrite segments_need_next.
  pose proof (seg_need_nonneg size _ (Hs (Z.of_nat k) ltac:(lia))).
  specialize (IH ltac:(intros i Hi; apply Hs; lia) ltac:(intros j Hj; apply H0; lia)). lia.
Qed.

Section LoadIcode.
Context (s : kstate) (l : list Z) (e : Z) (v : Env) (d kd binary size : Z).
Hypothesis Hlo : loadable s l e v d kd binary size.

Let n := e_phnum (mem s) binary.
Let seg := segment (mem s) binary.

Lemma n_range : 0 <= n < 0x10000.
Proof using Type. apply u16_range. Qed.

(** Words of the image. *)
Lemma image_load32 t lt k : building s l d t lt -> 0 <= k -> k + 4 <= size ->
  kload32 (binary + k) t = Ok (load32 (mem s) (binary - KERNBASE + k)) t.
Proof using Hlo.
  intros Hb Hk Hs. destruct (lo_bytes _ _ _ _ _ _ _ _ Hlo) as (H1 & H2 & H3).
  replace (binary + k) with (KERNBASE + (binary - KERNBASE + k)) by lia. rewrite kload32_run by lia.
  rewrite (load32_ext (mem s)); [done|]. intros x Hx. destruct (H3 (x + KERNBASE) ltac:(lia)) as (_ & Hl & Ht).
  replace (x + KERNBASE - KERNBASE) with x in Hl, Ht by lia. by apply (bd_mem _ _ _ _ _ Hb).
Qed.

Lemma phoff_range : 0 <= e_phoff (mem s) binary /\ e_phoff (mem s) binary + n * 32 <= size /\
  u32 (binary + e_phoff (mem s) binary) = binary + e_phoff (mem s) binary.
Proof using Hlo.
  pose proof (im_table _ _ _ (lo_image _ _ _ _ _ _ _ _ Hlo)) as Ht. unfold sizeof_Proghdr in Ht.
  pose proof (load32_range (mem s) (binary - KERNBASE + 28)) as Hr. fold (e_phoff (mem s) binary) in Hr.
  destruct (lo_bytes _ _ _ _ _ _ _ _ Hlo) as (H1 & H2 & _). change KERNBASE with 0xf0000000 in H1.
  pose proof n_range. fold n in Ht. split; [lia|]. split; [lia|]. apply u32_small. lia.
Qed.

Lemma read_Proghdr_run t lt i : building s l d t lt -> 0 <= i < n ->
  read_Proghdr (u32 (binary + e_phoff (mem s) binary) + i * sizeof_Proghdr) t = Ok (seg i) t.
Proof using Hlo.
  intros Hb Hi. destruct phoff_range as (H1 & H2 & ->). unfold sizeof_Proghdr.
  assert (forall k, 0 <= k <= 20 -> kload32 (binary + e_phoff (mem s) binary + i * 32 + k) t =
    Ok (load32 (mem s) (binary + e_phoff (mem s) binary + i * 32 - KERNBASE + k)) t) as H.
  { intros k Hk. replace (binary + e_phoff (mem s) binary + i * 32 + k) with (binary + (e_phoff (mem s) binary + i * 32 + k)) by lia.
    rewrite (image_load32 t lt) by (done || lia). do 2 f_equal. lia. }
  unfold read_Proghdr. pose proof (H 0 ltac:(lia)) as H0. rewrite !Z.add_0_r in H0. kstep H0.
  kstep (H 4 ltac:(lia)). kstep (H 8 ltac:(lia)). kstep (H 12 ltac:(lia)). kstep (H 16 ltac:(lia)). by kstep (H 20 ltac:(lia)).
Qed.

(** Before segment [i]. *)
Record load_inv (i : Z) (t : kstate) (lt : list Z) : Prop := {
  li_same : same_else (set_cr3 d s) t;
  li_building : building s l d t lt;
  li_content : forall x, 0 <= x < UTOP ->
    (forall j, 0 <= j < i -> seg_in (seg j) x -> seg_loaded (mem s) binary (seg j) x (content (mem t) d x)) /\
    ((forall j, 0 <= j < i -> ~ seg_in (seg j) x) -> content (mem t) d x = None);
  li_list : Z.of_nat (length l) <= Z.of_nat (length lt) + segments_need (mem s) binary (Z.to_nat i);
}.

Lemma empty_mapping x : 0 <= x < UTOP -> mapping (mem s) d x = None.
Proof using Hlo.
  intros Hx. unfold mapping. rewrite (pde_slot (mem s) d x).
  by rewrite (lo_empty _ _ _ _ _ _ _ _ Hlo) by (by apply user_PDX).
Qed.

Lemma building_start : building s l d s l.
Proof using Hlo.
  split; try apply Hlo; try done.
  - intros i Hi. by rewrite (lo_empty _ _ _ _ _ _ _ _ Hlo).
  - intros x w Hx. by rewrite empty_mapping.
  - intros x x' w Hx _. by rewrite empty_mapping.
  - split; [done| | |].
    + intros p Hp. apply list_elem_of_lookup in Hp as [i Hi]. unfold ref_of.
      by rewrite (wf_chain _ _ (lo_pages _ _ _ _ _ _ _ _ Hlo) i p Hi).
    + intros i Hi. by rewrite (lo_empty _ _ _ _ _ _ _ _ Hlo).
    + intros x Hx. unfold entry_ok, raw. by rewrite pde_slot, (lo_empty _ _ _ _ _ _ _ _ Hlo) by by apply user_PDX.
Qed.

Lemma load_start : load_inv 0 (set_cr3 d s) l.
Proof using Hlo.
  split.
  - done.
  - by apply (building_ext s l d s); [apply building_start|..].
  - intros x Hx. split; [lia|]. intros _. apply content_none. by apply empty_mapping.
  - change (segments_need (mem s) binary (Z.to_nat 0)) with 0. lia.
Qed.

Lemma load_step i t lt : 0 <= i < n -> load_inv i t lt ->
  exists t' lt', load_segment e binary (seg i) t = Ok tt t' /\ load_inv (i + 1) t' lt'.
Proof using Hlo.
  intros Hi Ht. pose proof (lo_image _ _ _ _ _ _ _ _ Hlo) as Him.
  pose proof (li_list _ _ _ Ht) as Hlen. pose proof (lo_need _ _ _ _ _ _ _ _ Hlo) as Hneed. fold n in Hneed.
  pose proof (im_segs _ _ _ Him) as Hsegs. fold n in Hsegs. fold seg in Hsegs.
  assert (seg_need (seg i) + segments_need (mem s) binary (Z.to_nat i) =
    segments_need (mem s) binary (Z.to_nat (i + 1))) as Hnext.
  { replace (Z.to_nat (i + 1)) with (S (Z.to_nat i)) by lia. rewrite segments_need_next.
    rewrite Z2Nat.id by lia. unfold seg. lia. }
  pose proof (segments_need_mono (mem s) binary size (Z.to_nat (i + 1)) (Z.to_nat n)
    ltac:(intros j Hj; apply Hsegs; lia) ltac:(lia)) as Hmono.
  pose proof (li_same _ _ _ Ht) as Hs.
  destruct (load_segment_run s l d t lt e v binary size (seg i)) as (t' & lt' & E & S & B & C & L).
  - apply Ht.
  - by rewrite Hs.
  - apply (cpu_ok_same _ _ Hs). apply Hlo.
  - rewrite (same_else_envs _ _ Hs). apply Hlo.
  - apply Hlo.
  - apply Hlo.
  - by apply Hsegs.
  - intros x Hx. assert (0 <= x < UTOP) as Hr.
    { destruct Hx as [Et Hx]. destruct (Hsegs i Hi Et) as (H1 & H2 & H3 & H4 & _). destruct stack_below as (E1 & E2 & E3).
      rewrite E1 in H4. destruct (region_bounds (p_va (seg i)) (p_memsz (seg i)) ltac:(lia) ltac:(lia) ltac:(lia)).
      unfold in_region in Hx. lia. }
    apply (li_content _ _ _ Ht x Hr). intros j Hj Hjx. by apply (im_disjoint _ _ _ Him j i x Hj (proj2 Hi)).
  - lia.
  - exists t', lt'. split; [done|]. split.
    + by etrans.
    + done.
    + intros x Hx. destruct (li_content _ _ _ Ht x Hx) as [K1 K2]. specialize (C x Hx). split.
      * intros j Hj Hjx. destruct (decide (j = i)) as [->|Hne].
        -- by rewrite decide_True in C.
        -- rewrite decide_False in C; [rewrite C; apply K1; [lia|done]|].
           by apply (im_disjoint _ _ _ Him j i x ltac:(lia) (proj2 Hi)).
      * intros Hno. rewrite decide_False in C by (apply Hno; lia). rewrite C. apply K2. intros j Hj. apply Hno. lia.
    + lia.
Qed.

(** The loop over the segments. *)
Lemma segments_run : exists t lt,
  kfor (Z.to_nat n) 0 (fun i =>
    ph ← read_Proghdr (u32 (binary + e_phoff (mem s) binary) + i * sizeof_Proghdr);
    load_segment e binary ph) (set_cr3 d s) = Ok tt t /\ load_inv n t lt.
Proof using Hlo.
  match goal with |- exists t lt, ?m _ = _ /\ _ =>
    assert (wp m (fun _ t => exists lt, load_inv (0 + Z.of_nat (Z.to_nat n)) t lt) no_exit (set_cr3 d s)) as H end.
  { apply (wp_kfor (fun j t => exists lt, load_inv j t lt)).
    - exists l. apply load_start.
    - intros j t Hj (lt & Ht). pose proof n_range.
      destruct (load_step j t lt ltac:(lia) Ht) as (t' & lt' & E & Ht').
      unfold wp. kstep (read_Proghdr_run t lt j (li_building _ _ _ Ht) ltac:(lia)). rewrite E. by exists lt'. }
  pose proof n_range. unfold wp in H. rewrite Z2Nat.id, Z.add_0_l in H by lia.
  destruct (kfor _ 0 _ _) as [[] t|x t|]; [|done..]. destruct H as [lt H]. by exists t, lt.
Qed.

(** The finished address space. *)
Record loaded (t : kstate) (lt : list Z) : Prop := {
  ld_building : building s l d t lt;
  ld_segment : forall i x, 0 <= i < n -> seg_in (seg i) x -> seg_loaded (mem s) binary (seg i) x (content (mem t) d x);
  ld_stack : forall x, USTACKTOP - PGSIZE <= x < USTACKTOP -> is_Some (content (mem t) d x);
  ld_only : forall x, 0 <= x < UTOP -> (forall i, 0 <= i < n -> ~ seg_in (seg i) x) ->
    ~ USTACKTOP - PGSIZE <= x < USTACKTOP -> content (mem t) d x = None;
}.

Lemma seg_in_below i x : 0 <= i < n -> seg_in (seg i) x -> 0 <= x < USTACKTOP - PGSIZE.
Proof using Hlo.
  intros Hi [Et Hx]. pose proof (im_segs _ _ _ (lo_image _ _ _ _ _ _ _ _ Hlo) i Hi Et) as (H1 & H2 & H3 & H4 & _).
  fold seg in H1, H2, H3, H4. destruct stack_below as (E1 & E2 & E3). rewrite E1 in *.
  unfold in_region, region_first, region_last in Hx. clear - Hx H1 H2 H3 H4. zlia.
Qed.

Definition entered (v : Env) : Env := set_env_tf (set_tf_eip (e_entry (mem s) binary) (env_tf v)) v.

Lemma stack_region x : in_region (USTACKTOP - PGSIZE) PGSIZE x <-> USTACKTOP - PGSIZE <= x < USTACKTOP.
Proof using Type. unfold in_region. by change (region_last (USTACKTOP - PGSIZE) PGSIZE) with USTACKTOP. Qed.

Lemma load_icode_run : exists t lt, load_icode e binary s = Ok tt t /\ loaded t lt /\
  same_else (set_cr3 kd (set_envs (<[e := entered v]> (envs s)) s)) t.
Proof using Hlo.
  destruct segments_run as (t1 & l1 & R1 & I1). pose proof building_start as B0.
  pose proof (lo_image _ _ _ _ _ _ _ _ Hlo) as Him. pose proof (im_header _ _ _ Him) as Hh.
  destruct (lo_kern _ _ _ _ _ _ _ _ Hlo) as [Hk Hk0]. pose proof (li_same _ _ _ I1) as S1.
  destruct (building_range _ _ _ _ _ B0) as [_ Hdr].
  set (t2 := set_cr3 kd t1). set (t3 := set_envs (<[e := entered v]> (envs t2)) t2).
  assert (envs t2 !! e = Some v) as Hv2 by (cbn [t2 envs set_cr3]; rewrite S1; apply Hlo).
  assert (building s l d t3 l1) as B3 by (by apply (building_ext s l d t1); [apply I1|..]).
  assert (same_else (set_cr3 kd (set_envs (<[e := entered v]> (envs s)) s)) t3) as S3
    by (unfold t3, t2; cbn [envs set_cr3]; rewrite S1; reflexivity).
  assert (cpu_ok t3) as Hc3.
  { apply (cpu_ok_same _ _ S3). destruct (lo_cpu _ _ _ _ _ _ _ _ Hlo) as (c & Hc & He). exists c. split; [done|].
    destruct (cpu_env c) as [o|]; [|done]. cbn [envs set_cr3 set_envs]. apply lookup_insert_is_Some'. by right. }
  assert (forall x, 0 <= x < UTOP -> (forall i, 0 <= i < n -> ~ seg_in (seg i) x) -> content (mem t1) d x = None) as Hno
    by (intros x Hx; apply (li_content _ _ _ I1 x Hx)).
  assert (forall x i, 0 <= i < n -> USTACKTOP - PGSIZE <= x -> ~ seg_in (seg i) x) as Hst
    by (intros x i Hi Hx Hs; pose proof (seg_in_below i x Hi Hs); lia).
  destruct (region_alloc_run s l d t3 l1 e (entered v) (USTACKTOP - PGSIZE) PGSIZE) as (t4 & l4 & R4 & S4 & B4 & C4 & _).
  - done.
  - done.
  - apply lookup_insert_eq.
  - apply Hlo.
  - vm_compute. repeat split; congruence.
  - intros x Hx. apply (proj1 (stack_region x)) in Hx. apply Hno; [destruct stack_below as (E1 & E2 & E3); lia|].
    intros i Hi. apply Hst; [done|lia].
  - change (region_need (USTACKTOP - PGSIZE) PGSIZE) with 2.
    pose proof (li_list _ _ _ I1). pose proof (lo_need _ _ _ _ _ _ _ _ Hlo) as Hn. fold n in Hn. lia.
  - exists t4, l4. split; [|split].
    + unfold load_icode. pose proof (image_load32 s l 0 B0 ltac:(lia) ltac:(lia)) as E0. rewrite !Z.add_0_r in E0.
      kstep E0. rewrite (im_magic _ _ _ Him). cbn [Z.eqb ELF_MAGIC Pos.eqb negb]. rewrite bind_ret.
      kstep (image_load32 s l 28 B0 ltac:(lia) ltac:(lia)). fold (e_phoff (mem s) binary).
      rewrite bind_assoc. kstep (image_load32 s l 44 B0 ltac:(lia) ltac:(lia)). rewrite bind_ret.
      fold (e_phnum (mem s) binary). fold n. kstep (get_env_run s e v (lo_env _ _ _ _ _ _ _ _ Hlo)).
      rewrite (lo_pgdir _ _ _ _ _ _ _ _ Hlo). kstep (PADDR_kva d s ltac:(lia)). unfold lcr3. rewrite !bind_modify.
      kstep R1. rewrite bind_get. replace (kern_pgdir t1) with (KERNBASE + kd) by (by rewrite S1).
      kstep (PADDR_kva kd t1 Hk0). rewrite bind_modify. fold t2.
      assert (building s l d t2 l1) as B2 by (by apply (building_ext s l d t1); [apply I1|..]).
      kstep (image_load32 t2 l1 24 B2 ltac:(lia) ltac:(lia)). fold (e_entry (mem s) binary).
      by kstep (upd_env_run t2 e v (fun v => set_env_tf (set_tf_eip (e_entry (mem s) binary) (env_tf v)) v) Hv2).
    + split.
      * done.
      * intros i x Hi Hx. pose proof (seg_in_below i x Hi Hx). destruct stack_below as (E1 & E2 & E3). 
        specialize (C4 x ltac:(lia)). rewrite decide_False in C4 by (rewrite stack_region; lia). rewrite C4.
        by apply (li_content _ _ _ I1 x ltac:(lia)).
      * intros x Hx. destruct stack_below as (E1 & E2 & E3). specialize (C4 x ltac:(lia)).
        rewrite decide_True in C4; [done|]. by apply stack_region.
      * intros x Hx Hi Hs. specialize (C4 x Hx). rewrite decide_False in C4 by (by rewrite stack_region).
        rewrite C4. by apply Hno.
    + by etrans.
Qed.
End LoadIcode.

(** ** env_create *)

(** The image does not change with memory outside it. *)
Lemma image_same m m' binary size :
  (forall x, binary - KERNBASE <= x < binary - KERNBASE + size -> load8 m' x = load8 m x) ->
  48 <= size -> e_phoff m binary + e_phnum m binary * sizeof_Proghdr <= size ->
  e_phoff m' binary = e_phoff m binary /\ e_phnum m' binary = e_phnum m binary /\
  e_entry m' binary = e_entry m binary /\
  load32 m' (binary - KERNBASE) = load32 m (binary - KERNBASE) /\
  forall i, 0 <= i < e_phnum m binary -> segment m' binary i = segment m binary i.
Proof.
  intros Hx Hh Ht. unfold sizeof_Proghdr in Ht.
  assert (forall k, 0 <= k -> k + 4 <= size -> load32 m' (binary - KERNBASE + k) = load32 m (binary - KERNBASE + k)) as H
    by (intros k Hk1 Hk2; apply load32_ext; intros y Hy; apply Hx; lia).
  unfold e_phoff, e_phnum, e_entry. rewrite !H by lia. split; [done|]. split; [done|]. split; [done|].
  split; [specialize (H 0 ltac:(lia) ltac:(lia)); by rewrite !Z.add_0_r in H|].
  intros i Hi. unfold segment, e_phoff, proghdr_at, sizeof_Proghdr. rewrite H by lia.
  pose proof (load32_range m (binary - KERNBASE + 28)) as Hr. fold (e_phoff m binary) in *.
  fold (e_phnum m binary) in Hi.
  assert (forall k, 0 <= k <= 20 -> load32 m' (binary + e_phoff m binary + i * 32 - KERNBASE + k) =
    load32 m (binary + e_phoff m binary + i * 32 - KERNBASE + k)) as Hs.
  { intros k Hk. replace (binary + e_phoff m binary + i * 32 - KERNBASE + k)
      with (binary - KERNBASE + (e_phoff m binary + i * 32 + k)) by lia. apply H; lia. }
  cbv zeta. pose proof (Hs 0 ltac:(lia)) as H0. rewrite !Z.add_0_r in H0. by rewrite H0, !Hs by lia.
Qed.

Lemma image_ok_same m m' binary size :
  (forall x, binary - KERNBASE <= x < binary - KERNBASE + size -> load8 m' x = load8 m x) ->
  image_ok m binary size -> image_ok m' binary size.
Proof.
  intros Hx [H1 H2 H3 H4 H5]. destruct (image_same m m' binary size Hx H2 H3) as (E1 & E2 & E3 & E4 & E5).
  split; rewrite ?E1, ?E2, ?E4; try done.
  - intros i Hi. rewrite E5 by done. by apply H4.
  - intros i j x Hi Hj. rewrite !E5 by lia. by apply H5.
Qed.

Lemma segments_need_same m m' binary n :
  (forall i, 0 <= i < Z.of_nat n -> segment m' binary i = segment m binary i) ->
  segments_need m' binary n = segments_need m binary n.
Proof.
  induction n as [|n IH]; intros H; [done|]. rewrite !segments_need_next, IH, H by (lia || (intros i Hi; apply H; lia)). done.
Qed.

(** The kernel before env_create: slot [e] and page [p] come next, the kernel's
    directory at [kd] maps nothing below UTOP, and the image lies in its memory. *)
Record creatable (s : kstate) (p : Z) (l : list Z) (e : Z) (v : Env) (kd binary size : Z) : Prop := {
  cr_pages : pages_wf s (p :: l);
  cr_cpu : cpu_ok s;
  cr_free : env_free_list s = Some e /\ 0 <= e < NENV;
  cr_env : envs s !! e = Some v /\ 0 <= env_id v < 0x80000000;
  cr_kern : kern_pgdir s = KERNBASE + kd;
  cr_dir : pgdir_wf s (p :: l) kd;
  cr_empty : forall i, 0 <= i < 955 -> load32 (mem s) (slot kd i) = 0;
  cr_bytes : kernel_bytes s (p :: l) kd binary size;
  cr_image : image_ok (mem s) binary size;
  cr_need : segments_need (mem s) binary (Z.to_nat (e_phnum (mem s) binary)) + 2 <= Z.of_nat (length l);
}.

Section Create.
Context (s : kstate) (p : Z) (l : list Z) (e : Z) (v : Env) (kd binary size : Z).
Hypothesis Hcr : creatable s p l e v kd binary size.

Let d := p * 4096.
Let v1 := env_alloc_init e 0 (set_env_pgdir (KERNBASE + d) v).

Context (m : memory) (lg : list event).
Hypothesis Hfp : fresh_pgdir s kd p m.
Hypothesis Hw1 : pages_wf (set_log lg (env_handed_out s p l e 0 v m)) l.

Let s1 := set_log lg (env_handed_out s p l e 0 v m).

Lemma ca_page : (p ∉ l) /\ 0 <= p < npages s /\ npages s <= 0x10000 /\ kd mod 4096 = 0 /\ 0 <= kd < 0x10000000 /\ kd <> d.
Proof using Hcr.
  pose proof (cr_pages _ _ _ _ _ _ _ _ Hcr) as Hw. pose proof (wf_nodup _ _ Hw) as Hnd.
  apply list.NoDup_cons in Hnd as [Hp _]. pose proof (wf_npages _ _ Hw) as Hm. unfold MAXPAGES in Hm.
  pose proof (pages_wf_range _ _ p Hw ltac:(constructor)). pose proof (cr_dir _ _ _ _ _ _ _ _ Hcr) as Hd.
  pose proof (dw_aligned _ _ _ Hd). pose proof (dw_range _ _ _ Hd).
  repeat split; try lia; try done. intros E. apply (dw_used _ _ _ Hd). rewrite E. unfold d.
  rewrite Z.div_mul by lia. constructor.
Qed.

Lemma ca_slot i : 0 <= i < 1024 -> load32 m (slot d i) =
  if decide (i = 957) then Z.lor (Z.lor d PTE_P) PTE_U else load32 (mem s) (slot kd i).
Proof using Hfp. apply (fp_slot _ _ _ _ Hfp). Qed.

Lemma ca_self : PTE_ADDR (Z.lor (Z.lor d PTE_P) PTE_U) = d.
Proof using Hcr.
  destruct ca_page as (_ & H1 & H2 & _). rewrite <- Z.lor_assoc. change (Z.lor PTE_P PTE_U) with 5.
  unfold d. apply PTE_ADDR_lor; [lia|zlia|lia].
Qed.

(** A table of the new directory is itself, or one of the kernel's. *)
Lemma ca_table i : 0 <= i < 1024 -> present (load32 m (slot d i)) = true ->
  (i = 957 /\ PTE_ADDR (load32 m (slot d i)) = d) \/
  (i <> 957 /\ load32 m (slot d i) = load32 (mem s) (slot kd i) /\ present (load32 (mem s) (slot kd i)) = true).
Proof using Hcr Hfp.
  intros Hi. rewrite ca_slot by done. case_decide as E; intros Hp; [left; by rewrite ca_self|by right].
Qed.

Lemma ca_is_table q : is_table s1 d q -> q = p \/ is_table s kd q.
Proof using Hcr Hfp.
  intros [H|(i & Hi & Hp & Ha)]; [left; unfold d in H; lia|]. cbn [s1 mem set_log] in Hp, Ha.
  change (mem (env_handed_out s p l e 0 v m)) with m in Hp, Ha.
  destruct (ca_table i Hi Hp) as [[_ E]|(_ & E & Hp')].
  - left. rewrite E in Ha. unfold d in Ha. lia.
  - right. right. exists i. rewrite <- E. done.
Qed.

Lemma ca_dir : pgdir_wf s1 l d.
Proof using Hcr Hfp.
  destruct ca_page as (Hpl & Hp & Hn & Hka & Hk & Hkd). pose proof (cr_dir _ _ _ _ _ _ _ _ Hcr) as Hd.
  change (mem s1) with m. assert (d / 4096 = p) as Ed by (unfold d; by rewrite Z.div_mul).
  split; change (mem s1) with m; change (npages s1) with (npages s).
  - unfold d. apply Z.mod_mul. lia.
  - unfold d. lia.
  - by rewrite Ed.
  - intros i Hi Hpr. destruct (ca_table i Hi Hpr) as [[_ ->]|(_ & -> & Hp')]; [rewrite Ed; split; [lia|done]|].
    destruct (dw_table _ _ _ Hd i Hi Hp') as [H1 H2]. split; [done|]. intros H. apply H2. by constructor.
  - intros i Hi Hu Hpr. rewrite PDX_UVPT in Hu. destruct (ca_table i Hi Hpr) as [[? _]|(_ & -> & Hp')]; [done|].
    destruct (dw_table _ _ _ Hd i Hi Hp') as [_ H2]. intros E. apply H2. rewrite E, Ed. constructor.
  - intros i j Hi Hj Hiu Hju Hne Hpi Hpj. pose proof PDX_UVPT as Eu. rewrite Eu in Hiu, Hju.
    destruct (ca_table i Hi Hpi) as [[? _]|(_ & -> & Hi')]; [done|].
    destruct (ca_table j Hj Hpj) as [[? _]|(_ & -> & Hj')]; [done|].
    apply (dw_distinct _ _ _ Hd); rewrite ?Eu; done.
Qed.

(** The kernel's mappings are those of its own directory. *)
Lemma ca_kernel x : KERNBASE <= x < 0x100000000 -> mmu m d x false false = mmu (mem s) kd x false false.
Proof using Hcr Hfp.
  intros Hx. pose proof (kernel_PDX x Hx) as Hr. destruct ca_page as (Hpl & Hp & Hn & Hka & Hk & Hkd).
  assert (pde m d x = pde (mem s) kd x) as Ep by (rewrite !pde_slot, ca_slot, decide_False by lia; done).
  assert (forall f, f mod 4096 = 0 -> 0 <= f < 0x10000000 -> PTE_ADDR f = f) as Ea
    by (intros f H1 H2; rewrite PTE_ADDR_div, u32_small by lia; clear - H1; zlia).
  assert (d mod 4096 = 0 /\ 0 <= d < 0x10000000) as [Hd1 Hd2] by (unfold d; split; [apply Z.mod_mul; lia|lia]).
  assert (mapping m d x = mapping (mem s) kd x) as Em.
  { unfold mapping. rewrite !pte_slot, Ep. destruct (present (pde (mem s) kd x)) eqn:Hpr; [|done].
    rewrite (same_slot (mem s) m); [done|apply PTE_ADDR_aligned|auto with jos|].
    intros y Hy. apply (fp_mem _ _ _ _ Hfp). rewrite Hy. intros E. rewrite pde_slot in E, Hpr.
    destruct (dw_table _ _ _ (cr_dir _ _ _ _ _ _ _ _ Hcr) (PDX x) ltac:(lia) Hpr) as [_ H2].
    apply H2. rewrite E. constructor. }
  unfold mmu. by rewrite !Ea, Em, Ep.
Qed.

Lemma ca_bytes : kernel_bytes s1 l d binary size.
Proof using Hcr Hfp.
  destruct (cr_bytes _ _ _ _ _ _ _ _ Hcr) as (H1 & H2 & H3). split; [done|]. split; [done|].
  intros x Hx. destruct (H3 x Hx) as (K1 & K2 & K3). split; [|split].
  - change (mem s1) with m. by rewrite ca_kernel by lia.
  - intros H. apply K2. by constructor.
  - intros H. apply ca_is_table in H as [E|H]; [|done]. apply K2. rewrite E. constructor.
Qed.

Lemma ca_image x : binary - KERNBASE <= x < binary - KERNBASE + size -> load8 m x = load8 (mem s) x.
Proof using Hcr Hfp.
  intros Hx. apply (fp_mem _ _ _ _ Hfp). intros E.
  destruct (cr_bytes _ _ _ _ _ _ _ _ Hcr) as (_ & _ & H3). destruct (H3 (x + KERNBASE) ltac:(lia)) as (_ & K2 & _).
  apply K2. replace (x + KERNBASE - KERNBASE) with x by lia. rewrite E. constructor.
Qed.

Lemma ca_loadable : loadable s1 l e v1 d kd binary size.
Proof using Hcr Hfp Hw1.
  pose proof (cr_image _ _ _ _ _ _ _ _ Hcr) as Him. destruct ca_page as (Hpl & Hp & Hn & Hka & Hk & Hkd).
  destruct (image_same (mem s) m binary size ca_image (im_header _ _ _ Him) (im_table _ _ _ Him)) as (E1 & E2 & E3 & E4 & E5).
  split.
  - done.
  - apply ca_dir.
  - destruct (cr_cpu _ _ _ _ _ _ _ _ Hcr) as (c & Hc & He). exists c. split; [done|].
    destruct (cpu_env c) as [o|]; [|done]. change (is_Some (<[e := v1]> (envs s) !! o)).
    apply lookup_insert_is_Some'. by right.
  - apply lookup_insert_eq.
  - done.
  - split; [apply Hcr|lia].
  - intros i Hi. change (mem s1) with m. rewrite ca_slot, decide_False by lia. by apply (cr_empty _ _ _ _ _ _ _ _ Hcr).
  - apply ca_bytes.
  - change (mem s1) with m. apply (image_ok_same (mem s)); [apply ca_image|done].
  - change (mem s1) with m. rewrite E2. rewrite (segments_need_same (mem s) m); [apply Hcr|].
    intros i Hi. apply E5. pose proof (u16_range (load32 (mem s) (binary - KERNBASE + 44))) as Hr.
    fold (e_phnum (mem s) binary) in Hr. lia.
Qed.
End Create.

(** What the finished address space means for user code. *)
Section Created.
Context (s : kstate) (p : Z) (l : list Z) (e : Z) (v : Env) (kd binary size : Z).
Hypothesis Hcr : creatable s p l e v kd binary size.
Context (m : memory) (lg : list event).
Hypothesis Hfp : fresh_pgdir s kd p m.
Let d := p * 4096.
Let s1 := set_log lg (env_handed_out s p l e 0 v m).
Context (t : kstate) (lt : list Z).
Hypothesis Hld : loaded s1 l d binary t lt.

Lemma created_same : e_phnum m binary = e_phnum (mem s) binary /\ e_entry m binary = e_entry (mem s) binary /\
  forall i, 0 <= i < e_phnum (mem s) binary -> segment m binary i = segment (mem s) binary i.
Proof using Hcr Hfp.
  pose proof (cr_image _ _ _ _ _ _ _ _ Hcr) as Him.
  destruct (image_same (mem s) m binary size (ca_image s p l e v kd binary size Hcr m Hfp)
    (im_header _ _ _ Him) (im_table _ _ _ Him)) as (E1 & E2 & E3 & E4 & E5). done.
Qed.

Lemma content_mmu x c : 0 <= x < UTOP -> content (mem t) d x = Some c ->
  exists a, mmu (mem t) d x true true = Some a /\ load8 (mem t) a = c.
Proof using Hld.
  intros Hx Hc. unfold content in Hc. destruct (mapping (mem t) d x) as [w|] eqn:Ew; [|done].
  injection Hc as <-. exists (PTE_ADDR w + PGOFF x). split; [|done].
  by apply (building_mmu s1 l d t lt x w true true (ld_building _ _ _ _ _ _ Hld)).
Qed.

Lemma created_segment i k : 0 <= i < e_phnum (mem s) binary ->
  let ph := segment (mem s) binary i in p_type ph = ELF_PROG_LOAD -> 0 <= k < p_memsz ph ->
  exists a, mmu (mem t) d (p_va ph + k) true true = Some a /\
    load8 (mem t) a = if k <? p_filesz ph then load8 (mem s) (binary - KERNBASE + p_offset ph + k) else 0.
Proof using Hcr Hfp Hld.
  intros Hi ph Et Hk. destruct created_same as (E1 & _ & E3).
  destruct (im_segs _ _ _ (cr_image _ _ _ _ _ _ _ _ Hcr) i Hi Et) as (H1 & H2 & H3 & H4 & H5). fold ph in H1, H2, H3, H4, H5.
  destruct stack_below as (U1 & U2 & U3). rewrite U1 in H4.
  destruct (region_bounds (p_va ph) (p_memsz ph) ltac:(lia) ltac:(lia) ltac:(lia)) as (_ & _ & B1 & B2 & _).
  destruct (ld_segment _ _ _ _ _ _ Hld i (p_va ph + k)) as [_ Hc].
  - change (mem s1) with m. by rewrite E1.
  - change (mem s1) with m. rewrite E3 by done. split; [done|]. fold ph. unfold in_region. lia.
  - change (mem s1) with m in Hc. rewrite E3 in Hc by done. fold ph in Hc. specialize (Hc ltac:(lia)).
    destruct (content_mmu (p_va ph + k) _ ltac:(lia) Hc) as (a & Ha & Hl). exists a. split; [done|]. rewrite Hl. unfold seg_byte.
    destruct (Z.ltb_spec k (p_filesz ph)) as [El|El].
    + rewrite (proj2 (Z.ltb_lt _ _)) by lia. replace (p_va ph + k - p_va ph) with k by lia.
      apply (ca_image s p l e v kd binary size Hcr m Hfp). lia.
    + by rewrite (proj2 (Z.ltb_ge _ _)) by lia.
Qed.

Lemma created_stack x : USTACKTOP - PGSIZE <= x < USTACKTOP -> is_Some (mmu (mem t) d x true true).
Proof using Hld.
  intros Hx. destruct (ld_stack _ _ _ _ _ _ Hld x Hx) as [c Hc]. destruct stack_below as (U1 & U2 & U3).
  destruct (content_mmu x c ltac:(lia) Hc) as (a & -> & _). eauto.
Qed.

Lemma created_only x w : 0 <= x < UTOP -> mapping (mem t) d x = Some w ->
  ((exists i, 0 <= i < e_phnum (mem s) binary /\ seg_in (segment (mem s) binary i) x) \/
   USTACKTOP - PGSIZE <= x < USTACKTOP) /\
  PTE_ADDR w / 4096 ∈ l /\ ref_of t (PTE_ADDR w / 4096) = 1 /\
  forall y, 0 <= y < UTOP -> mapping (mem t) d y = Some w -> PGNUM y = PGNUM x.
Proof using Hcr Hfp Hld.
  intros Hx Hw. destruct created_same as (E1 & _ & E3). pose proof (ld_building _ _ _ _ _ _ Hld) as Hb. split.
  - destruct (decide (USTACKTOP - PGSIZE <= x < USTACKTOP)) as [Hs|Hs]; [by right|left].
    destruct (decide (Exists (fun i => seg_in (segment (mem s) binary i) x) (seqZ 0 (e_phnum (mem s) binary)))) as [H|H].
    + apply list.Exists_exists in H as (i & Hi & H). apply elem_of_seqZ in Hi. exists i. split; [lia|done].
    + assert (content (mem t) d x = None) as Hno.
      { apply (ld_only _ _ _ _ _ _ Hld x Hx); [|done]. change (mem s1) with m. rewrite E1. intros i Hi. rewrite E3 by done.
        intros Hs'. apply H, list.Exists_exists. exists i. split; [apply elem_of_seqZ; lia|done]. }
      apply content_none in Hno. congruence.
  - destruct (bd_page _ _ _ _ _ Hb x w Hx Hw) as (q & -> & Hq & Hql & _ & _ & Hr).
    rewrite loaded_entry_addr, Z.div_mul by lia. split; [done|]. split; [done|].
    intros y Hy Hwy. by apply (bd_inj _ _ _ _ _ Hb y x (loaded_entry q)).
Qed.

Lemma created_rest x : x / 4096 ∉ p :: l -> ~ is_table s kd (x / 4096) -> load8 (mem t) x = load8 (mem s) x.
Proof using Hcr Hfp Hld.
  intros Hl Ht. apply not_elem_of_cons in Hl as [Hp Hl].
  rewrite (bd_mem _ _ _ _ _ (ld_building _ _ _ _ _ _ Hld)); [by apply (fp_mem _ _ _ _ Hfp)|done|].
  intros H. apply (ca_is_table s p l e v kd binary size Hcr m lg Hfp) in H as [E|H]; done.
Qed.
End Created.

Lemma same_else_set_envs c x y s t :
  same_else (set_cr3 c (set_envs x s)) t -> same_else (set_cr3 c (set_envs y s)) (set_envs y t).
Proof. unfold same_else. intros E. rewrite E. reflexivity. Qed.

Lemma env_create_run s p l e v kd binary size type :
  creatable s p l e v kd binary size ->
  exists t lt v' m lg, env_create binary type s = Ok tt t /\ fresh_pgdir s kd p m /\ cr3 t = kd /\
    envs t = <[e := v']> (envs s) /\
    (env_status v' = ENV_RUNNABLE /\ env_type v' = type /\ env_pgdir v' = KERNBASE + p * 4096 /\
     tf_eip (env_tf v') = e_entry (mem s) binary /\ tf_esp (env_tf v') = USTACKTOP /\ Z.land (tf_cs (env_tf v')) 3 = 3) /\
    loaded (set_log lg (env_handed_out s p l e 0 v m)) l (p * 4096) binary t lt /\
    env_ipc_dstva v' = env_ipc_dstva v /\ pages_wf (set_log lg (env_handed_out s p l e 0 v m)) l /\
    same_else (set_cr3 kd (set_envs (<[e := v']> (envs s)) (set_log lg (env_handed_out s p l e 0 v m)))) t.
Proof.
  intros Hcr. destruct (cr_free _ _ _ _ _ _ _ _ Hcr) as [Hfl He]. destruct (cr_env _ _ _ _ _ _ _ _ Hcr) as [Hv Hid].
  pose proof (cr_dir _ _ _ _ _ _ _ _ Hcr) as Hd.
  assert (kern_dir_ok s (p :: l) kd) as Hk by (split; [apply Hcr|apply Hd|apply Hd|apply (dw_used _ _ _ Hd)]).
  destruct (env_alloc_run s p l kd e 0 v (cr_pages _ _ _ _ _ _ _ _ Hcr) Hk (cr_cpu _ _ _ _ _ _ _ _ Hcr) Hfl Hv)
    as (m & lg & Ea & Hfp & Hw1).
  set (v1 := env_alloc_init e 0 (set_env_pgdir (KERNBASE + p * 4096) v)) in *.
  set (s1 := set_log lg (env_handed_out s p l e 0 v m)) in *.
  pose proof (ca_loadable s p l e v kd binary size Hcr m lg Hfp Hw1) as Hlo.
  destruct (load_icode_run _ _ _ _ _ _ _ _ Hlo) as (t1 & lt & El & Hld & Hs).
  set (v2 := entered s1 binary v1).
  assert (envs t1 = <[e := v2]> (envs s)) as Et.
  { rewrite (same_else_envs _ _ Hs). cbn [envs set_cr3 set_envs]. apply insert_insert_eq. }
  assert (envs t1 !! e = Some v2) as Hv2 by (rewrite Et; apply lookup_insert_eq).
  destruct (created_same s p l e v kd binary size Hcr m Hfp) as (_ & Ee & _).
  exists (set_envs (<[e := set_env_type type v2]> (envs t1)) t1), lt, (set_env_type type v2), m, lg.
  split; [|split; [done|split; [|split; [|split; [|split; [|split; [reflexivity|split; [done|]]]]]]]].
  - unfold env_create. kstep Ea. kstep El. by apply upd_env_run.
  - change (cr3 (set_envs _ t1)) with (cr3 t1). by rewrite Hs.
  - cbn [envs set_envs]. rewrite Et. apply insert_insert_eq.
  - split; [done|]. split; [done|]. split; [done|]. split; [|split; reflexivity].
    exact Ee.
  - destruct Hld as [H1 H2 H3 H4]. split; try done. by apply (building_ext s1 l (p * 4096) t1).
  - replace (<[e := set_env_type type v2]> (envs s)) with (<[e := set_env_type type v2]> (envs t1)) by (rewrite Et; apply insert_insert_eq).
    by apply (same_else_set_envs kd (<[e := entered s1 binary v1]> (envs s1))).
Qed.

(** C3: env_create turns an ELF image into an environment that is ready to run.  From
    a kernel with a free environment [e], a page [p] for its directory and free pages
    for the segments, their tables and the stack, and a well-formed image in memory
    that the kernel maps, env_create returns with [e] runnable: its record has the
    given type, a user-mode frame that starts at the image's entry point with the
    stack at USTACKTOP, and no other record has changed.  In its address space, user
    code can write every byte of every loadable segment and finds there the file's
    bytes and then zeroes, and has one page of stack; no other address below UTOP is
    mapped but the rest of those pages.  Every mapped page is a page that was free, now
    with one reference and mapped nowhere else in the space; the kernel is back on its own
    directory; the allocator and the new directory are well formed; and no byte
    outside the formerly free pages and the kernel's tables has changed. *)
Theorem env_create_loads s p l e v kd binary size type :
  creatable s p l e v kd binary size ->
  let d := p * 4096 in
  exists t lt v', env_create binary type s = Ok tt t /\
    pages_wf t lt /\ pgdir_wf t lt d /\ cr3 t = kd /\ envs t = <[e := v']> (envs s) /\
    (env_status v' = ENV_RUNNABLE /\ env_type v' = type /\ env_pgdir v' = KERNBASE + d /\
     tf_eip (env_tf v') = e_entry (mem s) binary /\ tf_esp (env_tf v') = USTACKTOP /\
     Z.land (tf_cs (env_tf v')) 3 = 3) /\
    (forall i k, 0 <= i < e_phnum (mem s) binary ->
      let ph := segment (mem s) binary i in p_type ph = ELF_PROG_LOAD -> 0 <= k < p_memsz ph ->
      exists a, mmu (mem t) d (p_va ph + k) true true = Some a /\
        load8 (mem t) a = if k <? p_filesz ph then load8 (mem s) (binary - KERNBASE + p_offset ph + k) else 0) /\
    (forall x, USTACKTOP - PGSIZE <= x < USTACKTOP -> is_Some (mmu (mem t) d x true true)) /\
    (forall x w, 0 <= x < UTOP -> mapping (mem t) d x = Some w ->
      ((exists i, 0 <= i < e_phnum (mem s) binary /\ seg_in (segment (mem s) binary i) x) \/
       USTACKTOP - PGSIZE <= x < USTACKTOP) /\
      PTE_ADDR w / 4096 ∈ l /\ ref_of t (PTE_ADDR w / 4096) = 1 /\
      forall y, 0 <= y < UTOP -> mapping (mem t) d y = Some w -> PGNUM y = PGNUM x) /\
    (forall x, x / 4096 ∉ p :: l -> ~ is_table s kd (x / 4096) -> load8 (mem t) x = load8 (mem s) x).
Proof.
  intros Hcr d. destruct (env_create_run s p l e v kd binary size type Hcr) as (t & lt & v' & m & lg & E & Hfp & Hc3 & He & Hv' & Hld & _).
  pose proof (ld_building _ _ _ _ _ _ Hld) as Hb.
  exists t, lt, v'. split; [done|]. split; [apply Hb|]. split; [apply Hb|]. split; [done|]. split; [done|]. split; [done|].
  split; [intros i k Hi ph Ht Hk; by apply (created_segment s p l e v kd binary size Hcr m lg Hfp t lt Hld)|].
  split; [intros x Hx; eapply created_stack; done|].
  split; [apply (created_only s p l e v kd binary size Hcr m lg Hfp t lt Hld)|].
  apply (created_rest s p l e v kd binary size Hcr m lg Hfp t lt Hld).
Qed.

(** ** Example

    The kernel's directory, in page 0, has one table, in page 1, that maps the image
    in page 2 at KERNBASE + 0x2000; pages 3 to 23 are free.  The image is a program of
    one segment: four bytes at 0x800020, with four more of zeroes. *)

Definition ld_image : Z := KERNBASE + 0x2000.
Definition ld_words : list (Z * Z) :=
  [(slot 0 960, 0x1007); (slot 0 957, 5); (slot 0x1000 2, 0x2003);
   (0x2000, ELF_MAGIC); (0x2018, 0x800020); (0x201c, 52); (0x202c, 1);
   (0x2034, ELF_PROG_LOAD); (0x2038, 84); (0x203c, 0x800020); (0x2044, 4); (0x2048, 8); (0x2054, 0x44332211)].
Definition ld_state : kstate :=
  set_pages (list_to_map ((fun p => (p, mkPageInfo (if (3 <=? p) && (p <? 23) then Some (p + 1) else None)
      (if p <? 3 then 1 else 0))) <$> seqZ 0 24))
    (set_page_free_list (Some 3) (set_npages 24 (set_kern_pgdir KERNBASE
      (set_envs {[ 0 := free_env ]} (set_env_free_list (Some 0)
        (set_cpus {[ 0 := mkCpuInfo 0 CPU_STARTED None 0 0 ]}
          (set_mem (foldr (fun w m => store32 m (fst w) (snd w)) ∅ ld_words) kstate0))))))).

Definition ld_ph : Proghdr := mkProghdr ELF_PROG_LOAD 84 0x800020 0 4 8.

Lemma ld_dir : one_table ld_state 0 960 1 = true.
Proof. vm_compute. reflexivity. Qed.

Lemma ld_phnum : e_phnum (mem ld_state) ld_image = 1.
Proof. vm_compute. reflexivity. Qed.
Lemma ld_segment0 : segment (mem ld_state) ld_image 0 = ld_ph.
Proof. vm_compute. reflexivity. Qed.

Lemma ld_seg i : 0 <= i < e_phnum (mem ld_state) ld_image -> i = 0 /\ segment (mem ld_state) ld_image i = ld_ph.
Proof. rewrite ld_phnum. intros Hi. assert (i = 0) as -> by lia. split; [reflexivity|exact ld_segment0]. Qed.

Lemma ld_bytes : kernel_bytes ld_state (seqZ 3 21) 0 ld_image 88.
Proof.
  split; [discriminate|]. split; [reflexivity|]. intros x Hx.
  assert (forallb_below 88 (fun k => bool_decide (mmu (mem ld_state) 0 (ld_image + k) false false = Some (0x2000 + k))) = true)
    as H by (vm_compute; reflexivity).
  pose proof (forallb_below_spec _ _ H (x - ld_image) ltac:(lia)) as Hk. apply bool_decide_eq_true in Hk. clear H.
  change ld_image with (KERNBASE + 0x2000) in *.
  replace (KERNBASE + 0x2000 + (x - (KERNBASE + 0x2000))) with x in Hk by lia.
  replace (0x2000 + (x - (KERNBASE + 0x2000))) with (x - KERNBASE) in Hk by lia.
  assert ((x - KERNBASE) / 4096 = 2) as E by zlia. rewrite E. split; [exact Hk|]. split; [rewrite elem_of_seqZ; lia|].
  intros Ht. destruct (one_table_is _ _ _ _ _ ld_dir eq_refl ltac:(lia) ltac:(lia) Ht) as [H|[H _]]; discriminate H.
Qed.

Lemma ld_image_ok : image_ok (mem ld_state) ld_image 88.
Proof.
  split.
  - vm_compute. reflexivity.
  - lia.
  - vm_compute. discriminate.
  - intros i Hi. destruct (ld_seg i Hi) as [_ ->]. intros _. vm_compute. repeat split; discriminate.
  - intros i j x Hi Hj. rewrite ld_phnum in Hj. lia.
Qed.

Lemma ld_pages : pages_wf ld_state (seqZ 3 21).
Proof. apply pages_check_ok; [vm_compute; split; discriminate|vm_compute; reflexivity]. Qed.

Lemma ld_creatable : creatable ld_state 3 (seqZ 4 20) 0 free_env 0 ld_image 88.
Proof.
  assert (3 :: seqZ 4 20 = seqZ 3 21) as El by reflexivity.
  split; rewrite ?El.
  - exact ld_pages.
  - exists (mkCpuInfo 0 CPU_STARTED None 0 0). split; [reflexivity|exact I].
  - split; [reflexivity|]. vm_compute. split; [discriminate|reflexivity].
  - split; [reflexivity|]. vm_compute. split; [discriminate|reflexivity].
  - reflexivity.
  - apply (one_table_wf _ _ _ _ _ ld_dir); try reflexivity; try (vm_compute; split; discriminate || reflexivity);
      try discriminate; rewrite elem_of_seqZ; change (0 / 4096) with 0; lia.
  - intros i Hi. rewrite (one_table_slot _ _ _ _ _ ld_dir) by lia. rewrite !(proj2 (Z.eqb_neq _ _)) by lia. reflexivity.
  - exact ld_bytes.
  - exact ld_image_ok.
  - vm_compute. discriminate.
Qed.

Lemma env_create_loads_witness :
  exists t v' a, env_create ld_image ENV_TYPE_USER ld_state = Ok tt t /\ envs t !! 0 = Some v' /\
    tf_eip (env_tf v') = 0x800020 /\ mmu (mem t) 0x3000 0x800021 true true = Some a /\ load8 (mem t) a = 0x22.
Proof.
  destruct (env_create_loads ld_state 3 (seqZ 4 20) 0 free_env 0 ld_image 88 ENV_TYPE_USER ld_creatable)
    as (t & lt & v' & E & _ & _ & _ & He & (_ & _ & _ & Hip & _) & Hs & _).
  assert (0 <= 0 < e_phnum (mem ld_state) ld_image) as H0 by (rewrite ld_phnum; lia).
  specialize (Hs 0 1 H0). rewrite ld_segment0 in Hs.
  destruct (Hs eq_refl ltac:(change (p_memsz ld_ph) with 8; lia)) as (a & Ha & Hl).
  exists t, v', a. split; [exact E|]. split; [rewrite He; apply lookup_insert_eq|]. split.
  - rewrite Hip. vm_compute. reflexivity.
  - split; [exact Ha|]. rewrite Hl. vm_compute. reflexivity.
Defined.
