(* ===== verification/Isolation.v ===== *)
(** * Isolation: the address spaces of all environments together

    An invariant of the whole kernel memory, over every environment at once: who owns
    which page table, which pages are mapped where, and that the reference counts
    cover all mappings.  Here it is shown that page_insert, page_remove and changes of
    the records keep it, and with them the system calls sys_page_alloc, sys_page_map,
    sys_page_unmap, sys_ipc_try_send, sys_env_set_status and
    sys_env_set_pgfault_upcall, which always return.  [Spaces] adds the operations
    that create and end a space, [Reachable] the system as a whole. *)

From S2P Require Import Prelude Layout Segments Memory CString Printfmt Kernel PageAlloc PageTable Env EnvFree MemInit Sched Syscall Trap Upcall Ulib Cow Fork Load.

(** ** The invariant *)

(** Environment [e] exists, with its directory at physical address [d]. *)
Definition live (s : kstate) (e d : Z) : Prop :=
  exists v, envs s !! e = Some v /\ env_status v <> ENV_FREE /\ env_pgdir v = KERNBASE + d.

Definition kdir (s : kstate) : Z := kern_pgdir s - KERNBASE.

(** The directory of an environment or of the kernel. *)
Definition a_dir (s : kstate) (d : Z) : Prop := d = kdir s \/ exists e, live s e d.

(** The user mappings of page [p] in environment [e], and in all of them. *)
Definition mappings_in (s : kstate) (p e : Z) : Z :=
  match envs s !! e with
  | Some v => if bool_decide (env_status v = ENV_FREE) then 0
              else page_refs (mem s) (env_pgdir v - KERNBASE) p UPAGENUMS
  | None => 0
  end.
Definition mappings (s : kstate) (p : Z) : Z := sum_to (mappings_in s p) NENV.

(** [le] lists the free environments in order. *)
Record env_chain (s : kstate) (le : list Z) : Prop := {
  ec_head : env_free_list s = le !! O;
  ec_link : forall i e, le !! i = Some e ->
    exists v, envs s !! e = Some v /\ env_status v = ENV_FREE /\ env_link v = le !! S i;
  ec_nodup : NoDup le;
}.

Record kmem (s : kstate) (l le : list Z) : Prop := {
  km_pages : pages_wf s l;
  km_cpu : is_Some (cpus s !! cpunum s);
  km_cur : forall c, cur s = Some c -> exists d, live s c d;
  km_envs : forall e, is_Some (envs s !! e) <-> 0 <= e < NENV;
  km_env : forall e v, envs s !! e = Some v ->
    0 <= env_ipc_dstva v /\ (env_status v <> ENV_FREE -> exists d, env_pgdir v = KERNBASE + d);
  km_chain : env_chain s le;
  (* directories *)
  km_dir : forall d, a_dir s d -> pgdir_wf s l d;
  km_self : forall e d, live s e d -> load32 (mem s) (slot d 957) = Z.lor (Z.lor d PTE_P) PTE_U;
  km_kslots : forall e d i, live s e d -> 955 <= i < 1024 -> i <> 957 ->
    load32 (mem s) (slot d i) = load32 (mem s) (slot (kdir s) i);
  km_kempty : forall i, 0 <= i < 955 -> load32 (mem s) (slot (kdir s) i) = 0;
  km_one : forall e e' d, live s e d -> live s e' d -> e = e';
  km_notk : forall e d, live s e d -> d <> kdir s;
  km_sep : forall d d' p, a_dir s d -> a_dir s d' -> d <> d' -> user_table s d p -> ~ is_table s d' p;
  km_tabref : forall e d p, live s e d -> user_table s d p -> ref_of s p = 1;
  (* mappings *)
  km_entry : forall e d va, live s e d -> 0 <= va < UTOP -> entry_ok s d va;
  km_map : forall e d va w, live s e d -> 0 <= va < UTOP -> mapping (mem s) d va = Some w ->
    PTE_ADDR w / 4096 < npages s /\ forall d', a_dir s d' -> ~ is_table s d' (PTE_ADDR w / 4096);
  km_count : forall p, mappings s p <= ref_of s p;
  km_guard : forall va, UTOP <= va < 0x100000000 -> PDX va <> 957 ->
    mmu (mem s) (kdir s) va true true = None;
}.

(** ** Counting *)

Lemma sum_to_le f g n : 0 <= n -> (forall i, 0 <= i < n -> f i <= g i) -> sum_to f n <= sum_to g n.
Proof.
  intros Hn. replace n with (Z.of_nat (Z.to_nat n)) by lia. induction (Z.to_nat n) as [|k IH]; intros H; [done|].
  replace (Z.of_nat (S k)) with (Z.of_nat k + 1) by lia. rewrite !sum_to_S by lia.
  specialize (IH ltac:(intros i Hi; apply H; lia)). specialize (H (Z.of_nat k) ltac:(lia)). lia.
Qed.

Lemma sum_to_ext f g n : 0 <= n -> (forall i, 0 <= i < n -> f i = g i) -> sum_to f n = sum_to g n.
Proof. intros Hn H. apply Z.le_antisymm; apply sum_to_le; try done; intros i Hi; rewrite H by done; lia. Qed.

(** Two sums that differ in one summand. *)
Lemma sum_to_change f g n j : 0 <= j < n -> (forall i, 0 <= i < n -> i <> j -> f i = g i) ->
  sum_to f n - f j = sum_to g n - g j.
Proof.
  intros Hj H. assert (0 <= n) as Hn by lia. revert Hj H. replace n with (Z.of_nat (Z.to_nat n)) by lia.
  induction (Z.to_nat n) as [|k IH]; intros Hj H; [lia|].
  replace (Z.of_nat (S k)) with (Z.of_nat k + 1) in * by lia. rewrite !sum_to_S by lia.
  destruct (decide (j = Z.of_nat k)) as [->|Hne].
  - rewrite (sum_to_ext f g (Z.of_nat k)) by (lia || (intros i Hi; apply H; lia)). lia.
  - rewrite (H (Z.of_nat k)) by lia. specialize (IH ltac:(lia) ltac:(intros i Hi Hi'; apply H; lia)). lia.
Qed.

Lemma sum_to_single f n j : 0 <= j < n -> (forall i, 0 <= i < n -> i <> j -> f i = 0) -> sum_to f n = f j.
Proof.
  intros Hj H. pose proof (sum_to_change f (fun _ => 0) n j Hj H) as Hc.
  rewrite (sum_to_zero (fun _ => 0)) in Hc by (lia || done). lia.
Qed.

Lemma sum_to_elem f n j : 0 <= j < n -> (forall i, 0 <= i < n -> 0 <= f i) -> f j <= sum_to f n.
Proof.
  intros Hj H. set (g := fun i => if decide (i = j) then 0 else f i).
  assert (sum_to f n - f j = sum_to g n - g j) as E.
  { apply sum_to_change; [done|]. intros i Hi Hne. unfold g. by rewrite decide_False. }
  assert (g j = 0) as E0 by (unfold g; by rewrite decide_True).
  assert (sum_to (fun _ => 0) n <= sum_to g n) as H0.
  { apply sum_to_le; [lia|]. intros i Hi. unfold g. case_decide; [done|]. by apply H. }
  rewrite sum_to_zero in H0 by (lia || done). lia.
Qed.

Lemma maps_to_range m d va p : 0 <= maps_to m d va p <= 1.
Proof. unfold maps_to. destruct (mapping m d va); [case_if|]; lia. Qed.

Lemma page_refs_nonneg m d p n : 0 <= n -> 0 <= page_refs m d p n.
Proof.
  intros Hn. rewrite <- (sum_to_zero (fun _ => 0) n) by (lia || done). apply sum_to_le; [done|].
  intros i Hi. apply maps_to_range.
Qed.

Lemma mappings_in_nonneg s p e : 0 <= mappings_in s p e.
Proof.
  unfold mappings_in. destruct (envs s !! e); [|done]. case_bool_decide; [done|]. by apply page_refs_nonneg.
Qed.

Lemma NENV_pos : 0 <= NENV.
Proof. done. Qed.

Lemma mappings_nonneg s p : 0 <= mappings s p.
Proof.
  unfold mappings. rewrite <- (sum_to_zero (fun _ => 0) NENV) by done. apply sum_to_le; [done|].
  intros i Hi. apply mappings_in_nonneg.
Qed.

Lemma live_in s e d p : live s e d -> mappings_in s p e = page_refs (mem s) d p UPAGENUMS.
Proof.
  intros (v & Hv & Hs & Hd). unfold mappings_in. rewrite Hv, bool_decide_eq_false_2 by done.
  by replace (env_pgdir v - KERNBASE) with d by lia.
Qed.

(** The mapping of [va] is counted. *)
Lemma maps_to_page m d va va' p : PGNUM va = PGNUM va' -> maps_to m d va p = maps_to m d va' p.
Proof. intros E. unfold maps_to. by rewrite (mapping_same_page m d va va'). Qed.

Lemma user_pgnum va : 0 <= va < UTOP -> 0 <= PGNUM va < UPAGENUMS.
Proof.
  intros Hv. change UTOP with 0xeec00000 in Hv. change UPAGENUMS with 977920.
  rewrite PGNUM_div, u32_small by lia. zlia.
Qed.

Lemma pgnum_user i : 0 <= i < UPAGENUMS -> 0 <= i * 4096 < UTOP /\ PGNUM (i * 4096) = i.
Proof.
  intros Hi. change UPAGENUMS with 977920 in Hi. change UTOP with 0xeec00000.
  rewrite PGNUM_div, u32_small by lia. split; [lia|zlia].
Qed.

Lemma maps_to_counted m d va p : 0 <= va < UTOP -> maps_to m d va p <= page_refs m d p UPAGENUMS.
Proof.
  intros Hv. pose proof (user_pgnum va Hv) as Hn. destruct (pgnum_user _ Hn) as [_ E].
  rewrite (maps_to_page m d va (PGNUM va * 4096)) by (by rewrite E).
  apply (sum_to_elem (fun i => maps_to m d (i * 4096) p)); [done|]. intros i Hi. apply maps_to_range.
Qed.

Section Facts.
Context (s : kstate) (l le : list Z).
Hypothesis Hk : kmem s l le.

Lemma km_cpu_ok : cpu_ok s.
Proof using Hk.
  destruct (km_cpu _ _ _ Hk) as [c Hc]. exists c. split; [done|]. destruct (cpu_env c) as [e|] eqn:Ee; [|done].
  destruct (km_cur _ _ _ Hk e) as (d & v & Hv & _); [|eauto]. unfold cur. by rewrite Hc.
Qed.

Lemma live_dir e d : live s e d -> a_dir s d.
Proof using Type. intros H. right. by exists e. Qed.

Lemma live_env e d : live s e d -> 0 <= e < NENV.
Proof using Hk. intros (v & Hv & _). apply (km_envs _ _ _ Hk). eauto. Qed.

(** A mapped page is counted, so it has a reference and is not free. *)
Lemma mapped_ref e d va w : live s e d -> 0 <= va < UTOP -> mapping (mem s) d va = Some w ->
  1 <= ref_of s (PTE_ADDR w / 4096) /\ PTE_ADDR w / 4096 ∉ l.
Proof using Hk.
  intros Hl Hv Hm. set (q := PTE_ADDR w / 4096).
  assert (maps_to (mem s) d va q = 1) as E1 by (unfold maps_to; rewrite Hm; by rewrite Z.eqb_refl).
  pose proof (maps_to_counted (mem s) d va q Hv) as H1. rewrite <- (live_in s e d q Hl) in H1.
  pose proof (sum_to_elem (mappings_in s q) NENV e (live_env e d Hl) ltac:(intros i _; apply mappings_in_nonneg)) as H2.
  fold (mappings s q) in H2. pose proof (km_count _ _ _ Hk q) as H3. split; [lia|].
  intros Hq. apply list_elem_of_lookup in Hq as [i Hi].
  pose proof (wf_chain _ _ (km_pages _ _ _ Hk) i q Hi) as Hp. unfold ref_of in H3. rewrite Hp in H3. cbn [pp_ref] in H3. lia.
Qed.

Lemma live_old e d va : (forall p, ref_of s p < 65535) -> live s e d -> 0 <= va < UTOP -> old_ok s l d va.
Proof using Hk.
  intros Hs Hl Hv w Hw. destruct (km_map _ _ _ Hk e d va w Hl Hv Hw) as [H1 H2].
  destruct (mapped_ref e d va w Hl Hv Hw) as [H3 H4]. split; [done|]. split; [done|].
  split; [by apply H2, (live_dir e)|]. split; [done|]. apply Hs.
Qed.

(** Tables are not free. *)
Lemma table_used d p : a_dir s d -> is_table s d p -> p ∉ l.
Proof using Hk. intros Hd Ht. by apply (table_not_free s l d p (km_dir _ _ _ Hk d Hd)). Qed.

Lemma free_ref p : p ∈ l -> ref_of s p = 0.
Proof using Hk.
  intros Hp. apply list_elem_of_lookup in Hp as [i Hi].
  pose proof (wf_chain _ _ (km_pages _ _ _ Hk) i p Hi) as E. unfold ref_of. by rewrite E.
Qed.

Lemma ref_nonneg p : 0 <= ref_of s p.
Proof using Hk. pose proof (km_count _ _ _ Hk p). pose proof (mappings_nonneg s p). lia. Qed.

Lemma page_refs_le e d p : live s e d -> 0 <= page_refs (mem s) d p UPAGENUMS <= mappings s p.
Proof using Hk.
  intros Hl. split; [by apply page_refs_nonneg|]. rewrite <- (live_in s e d p Hl).
  apply sum_to_elem; [by apply (live_env e d)|]. intros i _. apply mappings_in_nonneg.
Qed.

Lemma kdir_eq : kern_pgdir s = KERNBASE + kdir s /\ 0 <= kdir s.
Proof using Hk.
  split; [unfold kdir; lia|]. pose proof (dw_range _ _ _ (km_dir _ _ _ Hk (kdir s) ltac:(by left))). lia.
Qed.
End Facts.

(** ** Changes outside the tables *)

Section Quiet.
Context (s : kstate) (l le : list Z).
Hypothesis Hk : kmem s l le.
Context (m : memory).
Hypothesis Hm : forall d x, a_dir s d -> is_table s d (x / 4096) -> load8 m x = load8 (mem s) x.

Lemma quiet_slot d i : a_dir s d -> 0 <= i < 1024 -> load32 m (slot d i) = load32 (mem s) (slot d i).
Proof using All.
  intros Hd Hi. pose proof (dw_aligned _ _ _ (km_dir _ _ _ Hk d Hd)) as Ha.
  apply same_slot; [done|done|]. intros x Hx. apply (Hm d); [done|]. left. rewrite Hx. zlia.
Qed.

Lemma quiet_pde d va : a_dir s d -> pde m d va = pde (mem s) d va.
Proof using All. intros Hd. rewrite !pde_slot. apply quiet_slot; auto with jos. Qed.

Lemma quiet_raw d va : a_dir s d -> raw m d va = raw (mem s) d va.
Proof using All.
  intros Hd. unfold raw. rewrite quiet_pde by done. destruct (present (pde (mem s) d va)) eqn:Hp; [|done].
  rewrite !pte_slot, quiet_pde by done. apply same_slot; [apply PTE_ADDR_aligned|auto with jos|].
  intros x Hx. apply (Hm d); [done|]. rewrite Hx. by apply is_table_of_pde.
Qed.

Lemma quiet_mapping d va : a_dir s d -> mapping m d va = mapping (mem s) d va.
Proof using All. intros Hd. by rewrite !mapping_raw, quiet_raw. Qed.

Lemma dir_addr d : a_dir s d -> PTE_ADDR d = d.
Proof using Hk.
  intros Hd. pose proof (km_dir _ _ _ Hk d Hd) as Hw. pose proof (dw_aligned _ _ _ Hw).
  pose proof (dw_range _ _ _ Hw). pose proof (wf_npages _ _ (km_pages _ _ _ Hk)) as Hn. unfold MAXPAGES in Hn.
  rewrite PTE_ADDR_div, u32_small by lia. zlia.
Qed.

Lemma quiet_mmu d va u w : a_dir s d -> mmu m d va u w = mmu (mem s) d va u w.
Proof using All. intros Hd. unfold mmu. by rewrite dir_addr, quiet_mapping, quiet_pde. Qed.

Lemma quiet_page_refs d p : a_dir s d -> page_refs m d p UPAGENUMS = page_refs (mem s) d p UPAGENUMS.
Proof using All.
  intros Hd. unfold page_refs. apply sum_to_ext; [done|]. intros i Hi. unfold maps_to. by rewrite quiet_mapping.
Qed.

Context (s' : kstate) (l' : list Z).
Hypothesis Em : mem s' = m.
Hypothesis Eenv : envs s' = envs s.
Hypothesis Efl : env_free_list s' = env_free_list s.
Hypothesis Ekp : kern_pgdir s' = kern_pgdir s.
Hypothesis Ecpu : cpus s' = cpus s /\ cpunum s' = cpunum s.
Hypothesis Enp : npages s' = npages s.
Hypothesis Hw : pages_wf s' l'.
Hypothesis Hsub : forall p, p ∈ l' -> p ∈ l.
Hypothesis Href : forall p, p ∉ l -> ref_of s' p = ref_of s p.
Hypothesis Hnew : forall p, p ∈ l -> 0 <= ref_of s' p.

Lemma quiet_live e d : live s' e d <-> live s e d.
Proof using Eenv. unfold live. by rewrite Eenv. Qed.
Lemma quiet_dir d : a_dir s' d <-> a_dir s d.
Proof using Eenv Ekp. unfold a_dir, kdir, live. by rewrite Eenv, Ekp. Qed.

Lemma quiet_table d p : a_dir s d -> (is_table s' d p <-> is_table s d p) /\ (user_table s' d p <-> user_table s d p).
Proof using All.
  intros Hd. assert (forall i, 0 <= i < 1024 -> load32 (mem s') (slot d i) = load32 (mem s) (slot d i)) as Hs
    by (intros i Hi; rewrite Em; by apply quiet_slot).
  split; [split; apply is_table_slots; intros i Hi; [|symmetry]; by apply Hs|].
  split; intros [H|(i & Hi & H)]; (by left) || (right; exists i; rewrite Hs in * by lia; done).
Qed.

Lemma kmem_quiet : kmem s' l' le.
Proof using All.
  assert (kdir s' = kdir s) as Ekd by (unfold kdir; by rewrite Ekp).
  assert (a_dir s (kdir s)) as Hkd by by left.
  split; rewrite ?Ekd; try setoid_rewrite quiet_live; try setoid_rewrite quiet_dir.
  - done.
  - destruct Ecpu as [-> ->]. apply (km_cpu _ _ _ Hk).
  - unfold cur. destruct Ecpu as [-> ->]. apply (km_cur _ _ _ Hk).
  - rewrite Eenv. apply (km_envs _ _ _ Hk).
  - rewrite Eenv. apply (km_env _ _ _ Hk).
  - destruct (km_chain _ _ _ Hk). split; rewrite ?Efl, ?Eenv; done.
  - intros d Hd. apply (pgdir_wf_mono s s' l l'); [by apply (km_dir _ _ _ Hk)|done| |auto].
    intros i Hi. by rewrite Em, quiet_slot.
  - intros e d Hd. rewrite Em, quiet_slot by (by apply (live_dir s e) || lia). by apply (km_self _ _ _ Hk e).
  - intros e d i Hd Hi Hn. rewrite Em, !quiet_slot by (done || lia || by apply (live_dir s e)).
    by apply (km_kslots _ _ _ Hk e).
  - intros i Hi. rewrite Em, quiet_slot by (done || lia). by apply (km_kempty _ _ _ Hk).
  - apply (km_one _ _ _ Hk).
  - apply (km_notk _ _ _ Hk).
  - intros d d' p Hd Hd' Hne Hu Ht. apply (quiet_table d p Hd) in Hu. apply (quiet_table d' p Hd') in Ht.
    by apply (km_sep _ _ _ Hk d d' p).
  - intros e d p Hd Hu. pose proof (live_dir s e d Hd) as Hd'. apply (quiet_table d p Hd') in Hu.
    rewrite Href by by apply (table_used s l le Hk d), user_is_table. by apply (km_tabref _ _ _ Hk e d).
  - intros e d va Hd Hv. unfold entry_ok. rewrite Em, quiet_raw by by apply (live_dir s e). by apply (km_entry _ _ _ Hk e).
  - intros e d va w Hd Hv. rewrite Em, quiet_mapping by by apply (live_dir s e). intros Hw'.
    destruct (km_map _ _ _ Hk e d va w Hd Hv Hw') as [H1 H2]. split; [by rewrite Enp|].
    intros d' Hd' Ht. apply (quiet_table d' _ Hd') in Ht. by apply (H2 d').
  - intros p. transitivity (mappings s p).
    2: { pose proof (km_count _ _ _ Hk p). destruct (decide (p ∈ l)) as [Hp|Hp]; [|by rewrite Href].
      pose proof (free_ref s l le Hk p Hp). pose proof (Hnew p Hp). lia. }
    apply Z.eq_le_incl. unfold mappings. apply sum_to_ext; [done|]. intros i Hi. unfold mappings_in. rewrite Eenv, Em.
    destruct (envs s !! i) as [v|] eqn:Ev; [|done]. case_bool_decide as Es; [done|]. apply quiet_page_refs.
    destruct (km_env _ _ _ Hk i v Ev) as [_ Hd]. destruct (Hd Es) as [d Ed]. apply (live_dir s i). exists v.
    split; [done|]. split; [done|]. lia.
  - intros va Hv Hu. rewrite Em, quiet_mmu by done. by apply (km_guard _ _ _ Hk).
Qed.
End Quiet.

(** The common case: only free pages change. *)
Lemma kmem_free_pages s l le s' l' :
  kmem s l le -> same_else s s' -> pages_wf s' l' -> (forall p, p ∈ l' -> p ∈ l) ->
  (forall x, x / 4096 ∉ l -> load8 (mem s') x = load8 (mem s) x) -> (forall p, ref_of s' p = ref_of s p) ->
  kmem s' l' le.
Proof.
  intros Hk Hs Hw Hsub Hm Hr. apply (kmem_quiet s l le Hk (mem s')); try done; try (by rewrite Hs).
  - intros d x Hd Ht. apply Hm. by apply (table_used s l le Hk d).
  - intros p _. rewrite Hr. by apply (ref_nonneg s l le).
Qed.

(** A byte of a mapped page. *)
Lemma kmem_store s l le e d va a w c :
  kmem s l le -> live s e d -> 0 <= va < UTOP -> mapping (mem s) d va = Some w -> a / 4096 = PTE_ADDR w / 4096 ->
  kmem (set_mem (store8 (mem s) a c) s) l le.
Proof.
  intros Hk Hl Hv Hw Ea. apply (kmem_quiet s l le Hk (store8 (mem s) a c)); try done.
  - intros d' x Hd' Ht. apply load8_store8_ne. intros <-. rewrite Ea in Ht.
    by destruct (km_map _ _ _ Hk e d va w Hl Hv Hw) as [_ H]; apply (H d').
  - apply (pages_wf_ext s); [apply Hk|done..].
  - intros p _. by apply (ref_nonneg s l le).
Qed.

(** ** A change of one address space *)

(** What an operation on the directory [d] may do: it maps page [pp], or unmaps; it
    takes tables from the free list and gives back pages that [d] mapped. *)
Record dir_step (s : kstate) (l : list Z) (d pp : Z) (s' : kstate) (l' : list Z) : Prop := {
  ds_same : same_else s s';
  ds_pages : pages_wf s' l';
  ds_dir : pgdir_wf s' l' d;
  ds_mem : forall x, x / 4096 ∉ l -> ~ is_table s d (x / 4096) -> load8 (mem s') x = load8 (mem s) x;
  ds_kslots : forall i, 955 <= i < 1024 -> load32 (mem s') (slot d i) = load32 (mem s) (slot d i);
  ds_user : forall p, user_table s' d p -> user_table s d p \/ (p ∈ l /\ ref_of s' p = 1);
  ds_list : forall p, p ∈ l' -> p ∈ l \/
    exists va w, 0 <= va < UTOP /\ mapping (mem s) d va = Some w /\ p = PTE_ADDR w / 4096;
  ds_entry : forall va, 0 <= va < UTOP -> entry_ok s d va -> entry_ok s' d va;
  ds_kmap : forall va, 955 <= PDX va -> PDX va <> PDX UVPT -> mapping (mem s') d va = mapping (mem s) d va;
  ds_umap : forall va w, 0 <= va < UTOP -> mapping (mem s') d va = Some w ->
    mapping (mem s) d va = Some w \/ PTE_ADDR w / 4096 = pp \/
    (PTE_ADDR w / 4096 ∈ l /\ PTE_ADDR w / 4096 < npages s /\ ~ is_table s' d (PTE_ADDR w / 4096));
  ds_refs : forall p, p ∉ l -> ref_of s' p - ref_of s p =
    page_refs (mem s') d p UPAGENUMS - page_refs (mem s) d p UPAGENUMS;
  ds_refs_free : forall p, p ∈ l -> page_refs (mem s') d p UPAGENUMS <= ref_of s' p;
}.

Section DirStep.
Context (s : kstate) (l le : list Z) (e d pp : Z) (s' : kstate) (l' : list Z).
Hypothesis Hk : kmem s l le.
Hypothesis Hl : live s e d.
Hypothesis Hpp : pp < npages s /\ (pp ∉ l) /\ forall d', a_dir s d' -> ~ is_table s d' pp.
Hypothesis Hds : dir_step s l d pp s' l'.

Lemma st_live e' d' : live s' e' d' <-> live s e' d'.
Proof using Hds. unfold live. by rewrite (same_else_envs _ _ (ds_same _ _ _ _ _ _ Hds)). Qed.
Lemma st_kdir : kdir s' = kdir s.
Proof using Hds. unfold kdir. by rewrite (ds_same _ _ _ _ _ _ Hds). Qed.
Lemma st_a_dir d' : a_dir s' d' <-> a_dir s d'.
Proof using Hds. unfold a_dir. rewrite st_kdir. by setoid_rewrite st_live. Qed.

Lemma own_a_dir : a_dir s d.
Proof using Hl. by apply (live_dir s e). Qed.

Lemma dir_own_table f : a_dir s f -> user_table s f (f / 4096).
Proof using Hk. intros Hf. left. pose proof (dw_aligned _ _ _ (km_dir _ _ _ Hk f Hf)). zlia. Qed.

(** The bytes of another space's own tables. *)
Lemma other_bytes f p x : a_dir s f -> f <> d -> user_table s f p -> x / 4096 = p -> load8 (mem s') x = load8 (mem s) x.
Proof using Hk Hl Hds.
  intros Hf Hne Hu <-. apply (ds_mem _ _ _ _ _ _ Hds).
  - by apply (table_used s l le Hk f), user_is_table.
  - by apply (km_sep _ _ _ Hk f d _ Hf own_a_dir Hne).
Qed.

Lemma ot_slot f i : a_dir s f -> f <> d -> 0 <= i < 1024 -> load32 (mem s') (slot f i) = load32 (mem s) (slot f i).
Proof using Hk Hl Hds.
  intros Hf Hne Hi. apply same_slot; [apply (km_dir _ _ _ Hk f Hf)|done|].
  intros x Hx. by apply (other_bytes f (f / 4096)); [..|apply dir_own_table|].
Qed.

Lemma ot_raw f va : a_dir s f -> f <> d -> PDX va < 955 -> raw (mem s') f va = raw (mem s) f va.
Proof using Hk Hl Hds.
  intros Hf Hne Hv. pose proof (PDX_range va). unfold raw.
  assert (pde (mem s') f va = pde (mem s) f va) as Ep by (rewrite !pde_slot; apply ot_slot; done).
  rewrite Ep. destruct (present (pde (mem s) f va)) eqn:Hp; [|done]. rewrite !pte_slot, Ep.
  apply same_slot; [apply PTE_ADDR_aligned|auto with jos|]. intros x Hx.
  apply (other_bytes f (PTE_ADDR (pde (mem s) f va) / 4096)); try done. right. exists (PDX va).
  rewrite <- pde_slot. split; [lia|]. split; [done|]. pose proof (PTE_ADDR_aligned (pde (mem s) f va)). zlia.
Qed.

Lemma ot_mapping f va : a_dir s f -> f <> d -> 0 <= va < UTOP -> mapping (mem s') f va = mapping (mem s) f va.
Proof using Hk Hl Hds. intros Hf Hne Hv. rewrite !mapping_raw, ot_raw; [done..|]. by apply user_PDX. Qed.

Lemma ot_page_refs f p : a_dir s f -> f <> d -> page_refs (mem s') f p UPAGENUMS = page_refs (mem s) f p UPAGENUMS.
Proof using Hk Hl Hds.
  intros Hf Hne. apply sum_to_ext; [done|]. intros i Hi. destruct (pgnum_user i Hi) as [Hv _].
  unfold maps_to. by rewrite ot_mapping.
Qed.

(** Tables. *)
Lemma st_own_table p : is_table s' d p -> is_table s d p \/ p ∈ l.
Proof using Hk Hl Hds.
  intros [H|(i & Hi & Hp & Ha)]; [left; by left|]. destruct (Z.lt_ge_cases i 955) as [Hlt|Hge].
  - destruct (ds_user _ _ _ _ _ _ Hds p) as [H|[H _]]; [right; exists i; split; [lia|done]|left; by apply user_is_table|by right].
  - left. right. exists i. rewrite (ds_kslots _ _ _ _ _ _ Hds) in Hp, Ha by lia. done.
Qed.

Lemma st_other_table f p : a_dir s f -> f <> d -> (is_table s' f p <-> is_table s f p) /\ (user_table s' f p -> user_table s f p).
Proof using Hk Hl Hds.
  intros Hf Hne. split; [split; apply is_table_slots; intros i Hi; [|symmetry]; by apply ot_slot|].
  intros [H|(i & Hi & H)]; [by left|]. right. exists i. rewrite ot_slot in H by (done || lia). done.
Qed.

Lemma st_table f p : a_dir s f -> is_table s' f p -> is_table s f p \/ p ∈ l.
Proof using Hk Hl Hds.
  intros Hf. destruct (decide (f = d)) as [->|Hne]; [apply st_own_table|]. intros H. left.
  by apply (st_other_table f p Hf Hne).
Qed.

(** Mapped pages. *)
Lemma st_mapped e1 d1 va w : live s e1 d1 -> 0 <= va < UTOP -> mapping (mem s') d1 va = Some w ->
  PTE_ADDR w / 4096 < npages s /\ forall f, a_dir s f ->
    ~ is_table s f (PTE_ADDR w / 4096) /\ ~ is_table s' f (PTE_ADDR w / 4096).
Proof using All.
  intros H1 Hv Hw. set (q := PTE_ADDR w / 4096).
  assert (mapping (mem s) d1 va = Some w \/ q = pp \/ (q ∈ l /\ q < npages s /\ ~ is_table s' d q)) as Hc.
  { destruct (decide (d1 = d)) as [->|Hne]; [by apply (ds_umap _ _ _ _ _ _ Hds)|].
    left. by rewrite <- (ot_mapping d1 va (live_dir s e1 d1 H1) Hne Hv). }
  assert (q < npages s -> q ∉ l -> (forall f, a_dir s f -> ~ is_table s f q) ->
    q < npages s /\ forall f, a_dir s f -> ~ is_table s f q /\ ~ is_table s' f q) as Hold.
  { intros K1 K2 K3. split; [done|]. intros f Hf. split; [by apply K3|]. intros Ht.
    destruct (st_table f q Hf Ht) as [H|H]; [by apply (K3 f)|done]. }
  destruct Hc as [Ho|[E|(K1 & K2 & K3)]].
  - destruct (km_map _ _ _ Hk e1 d1 va w H1 Hv Ho) as [K1 K2].
    destruct (mapped_ref s l le Hk e1 d1 va w H1 Hv Ho) as [_ K3]. by apply Hold.
  - destruct Hpp as (K1 & K2 & K3). rewrite <- E in *. by apply Hold.
  - split; [done|]. intros f Hf.
    assert (~ is_table s f q) as Hn by (intros Ht; by apply (table_used s l le Hk f q Hf)).
    split; [done|]. destruct (decide (f = d)) as [->|Hne]; [done|]. intros Ht. by apply Hn, (st_other_table f q Hf Hne).
Qed.

Lemma st_no_refs e1 d1 f p : live s e1 d1 -> a_dir s f -> is_table s f p ->
  page_refs (mem s') d1 p UPAGENUMS = 0 /\ page_refs (mem s) d1 p UPAGENUMS = 0.
Proof using All.
  intros H1 Hf Ht. split; (apply sum_to_zero; [done|]); intros i Hi; destruct (pgnum_user i Hi) as [Hv _]; unfold maps_to.
  - destruct (mapping (mem s') d1 (i * 4096)) as [w|] eqn:Hw; [|done].
    destruct (Z.eqb_spec (PTE_ADDR w / 4096) p) as [E|]; [|done]. exfalso.
    destruct (st_mapped e1 d1 (i * 4096) w H1 Hv Hw) as [_ K]. rewrite E in K. by destruct (K f Hf).
  - destruct (mapping (mem s) d1 (i * 4096)) as [w|] eqn:Hw; [|done].
    destruct (Z.eqb_spec (PTE_ADDR w / 4096) p) as [E|]; [|done]. exfalso.
    destruct (km_map _ _ _ Hk e1 d1 _ w H1 Hv Hw) as [_ K]. rewrite E in K. by apply (K f).
Qed.

Lemma st_table_ref f p : a_dir s f -> is_table s f p -> ref_of s' p = ref_of s p.
Proof using All.
  intros Hf Ht. pose proof (table_used s l le Hk f p Hf Ht) as Hp.
  pose proof (ds_refs _ _ _ _ _ _ Hds p Hp) as Hr.
  destruct (st_no_refs e d f p Hl Hf Ht) as [E1 E2]. lia.
Qed.

Lemma st_count p : mappings s' p <= ref_of s' p.
Proof using All.
  assert (forall i, mappings_in s' p i = match envs s !! i with
    | Some v => if bool_decide (env_status v = ENV_FREE) then 0
        else page_refs (mem s') (env_pgdir v - KERNBASE) p UPAGENUMS | None => 0 end) as Em.
  { intros i. unfold mappings_in. by rewrite (same_else_envs _ _ (ds_same _ _ _ _ _ _ Hds)). }
  pose proof (sum_to_change (mappings_in s' p) (mappings_in s p) NENV e (live_env s l le Hk e d Hl)) as Hc.
  fold (mappings s' p) (mappings s p) in Hc.
  rewrite (live_in s e d p Hl) in Hc. rewrite (live_in s' e d p) in Hc by by apply st_live.
  pose proof (km_count _ _ _ Hk p).
  assert (forall i, 0 <= i < NENV -> i <> e -> mappings_in s' p i = mappings_in s p i) as Hi.
  { intros i Hi Hne. rewrite Em. unfold mappings_in. destruct (envs s !! i) as [v|] eqn:Ev; [|done].
    case_bool_decide as Es; [done|]. destruct (km_env _ _ _ Hk i v Ev) as [_ Hd]. destruct (Hd Es) as [f Ef].
    replace (env_pgdir v - KERNBASE) with f by lia. assert (live s i f) as Hf by by exists v.
    apply ot_page_refs; [by apply (live_dir s i)|]. intros ->. apply Hne. by apply (km_one _ _ _ Hk i e d). }
  specialize (Hc Hi). destruct (decide (p ∈ l)) as [Hp|Hp].
  - pose proof (ds_refs_free _ _ _ _ _ _ Hds p Hp). pose proof (free_ref s l le Hk p Hp).
    pose proof (page_refs_le s l le Hk e d p Hl). lia.
  - pose proof (ds_refs _ _ _ _ _ _ Hds p Hp). lia.
Qed.

Lemma st_guard va : UTOP <= va < 0x100000000 -> PDX va <> 957 -> mmu (mem s') (kdir s) va true true = None.
Proof using All.
  intros Hv Hu. assert (a_dir s (kdir s)) as Hkd by by left.
  assert (kdir s <> d) as Hne by (intros E; by apply (km_notk _ _ _ Hk e d)).
  assert (955 <= PDX va) as Hx.
  { change UTOP with 0xeec00000 in Hv. rewrite PDX_div, u32_small by lia. zlia. }
  assert (pde (mem s') (kdir s) va = pde (mem s) (kdir s) va) as Ep by (rewrite !pde_slot; apply ot_slot; auto with jos).
  assert (pde (mem s) (kdir s) va = pde (mem s) d va) as Ed.
  { rewrite !pde_slot. symmetry. pose proof (PDX_range va). apply (km_kslots _ _ _ Hk e); [done|lia|done]. }
  assert (pde (mem s') d va = pde (mem s) d va) as Ed'.
  { rewrite !pde_slot. pose proof (PDX_range va). apply (ds_kslots _ _ _ _ _ _ Hds). lia. }
  assert (mapping (mem s') (kdir s) va = mapping (mem s) (kdir s) va) as Em.
  { rewrite (mapping_pde (mem s') (kdir s) d) by congruence. rewrite (ds_kmap _ _ _ _ _ _ Hds) by (done || by rewrite PDX_UVPT).
    by apply mapping_pde. }
  pose proof (km_guard _ _ _ Hk va Hv Hu) as Hg. unfold mmu in *. rewrite (dir_addr s l le Hk (kdir s) Hkd) in *.
  by rewrite Em, Ep.
Qed.

Lemma kmem_dir_step : kmem s' l' le.
Proof using All.
  pose proof (ds_same _ _ _ _ _ _ Hds) as Hs.
  split; rewrite ?st_kdir; try setoid_rewrite st_live; try setoid_rewrite st_a_dir.
  - apply Hds.
  - rewrite Hs. apply (km_cpu _ _ _ Hk).
  - unfold cur. rewrite (same_else_cpus _ _ Hs), (same_else_cpunum _ _ Hs). apply (km_cur _ _ _ Hk).
  - rewrite (same_else_envs _ _ Hs). apply (km_envs _ _ _ Hk).
  - rewrite (same_else_envs _ _ Hs). apply (km_env _ _ _ Hk).
  - destruct (km_chain _ _ _ Hk). split; rewrite ?(same_else_envs _ _ Hs); try done. by rewrite Hs.
  - intros f Hf. destruct (decide (f = d)) as [->|Hne]; [apply Hds|].
    apply (pgdir_wf_mono s s' l l'); [by apply (km_dir _ _ _ Hk)|by apply same_else_npages| |].
    + intros i Hi. by rewrite ot_slot.
    + intros p Hp. destruct (ds_list _ _ _ _ _ _ Hds p Hp) as [H|(va & w & Hv & Hw & ->)]; [by left|right].
      by apply (km_map _ _ _ Hk e d va w).
  - intros e1 d1 H1. destruct (decide (d1 = d)) as [->|Hne].
    + rewrite (ds_kslots _ _ _ _ _ _ Hds) by lia. by apply (km_self _ _ _ Hk e).
    + rewrite ot_slot by (done || lia || by apply (live_dir s e1)). by apply (km_self _ _ _ Hk e1).
  - intros e1 d1 i H1 Hi Hu.
    rewrite (ot_slot (kdir s)) by (lia || (by left) || (intros E; by apply (km_notk _ _ _ Hk e d))).
    destruct (decide (d1 = d)) as [->|Hne].
    + rewrite (ds_kslots _ _ _ _ _ _ Hds) by lia. by apply (km_kslots _ _ _ Hk e).
    + rewrite ot_slot by (done || lia || by apply (live_dir s e1)). by apply (km_kslots _ _ _ Hk e1).
  - intros i Hi. rewrite (ot_slot (kdir s)) by (lia || (by left) || (intros E; by apply (km_notk _ _ _ Hk e d))).
    by apply (km_kempty _ _ _ Hk).
  - apply (km_one _ _ _ Hk).
  - apply (km_notk _ _ _ Hk).
  - intros f g p Hf Hg Hne Hu Ht. pose proof (st_table g p Hg Ht) as Ht'.
    assert (user_table s f p \/ p ∈ l) as Hu'.
    { destruct (decide (f = d)) as [->|Hfd].
      - destruct (ds_user _ _ _ _ _ _ Hds p Hu) as [H|[H _]]; [by left|by right].
      - left. by apply (st_other_table f p Hf Hfd). }
    destruct Hu' as [Hu'|Hu'].
    + pose proof (table_used s l le Hk f p Hf (user_is_table _ _ _ Hu')) as Hpl.
      destruct Ht' as [Ht'|Ht']; [|done]. by apply (km_sep _ _ _ Hk f g p).
    + destruct Ht' as [Ht'|_]; [by apply (table_used s l le Hk g p Hg Ht')|].
      (* [p] was free and is now a table of both *)
      destruct (decide (f = d)) as [->|Hfd].
      * apply (st_other_table g p Hg ltac:(congruence)) in Ht. by apply (table_used s l le Hk g p Hg Ht).
      * apply (st_other_table f p Hf Hfd) in Hu. by apply (table_used s l le Hk f p Hf (user_is_table _ _ _ Hu)).
  - intros e1 d1 p H1 Hu. pose proof (live_dir s e1 d1 H1) as Hd1. destruct (decide (d1 = d)) as [->|Hne].
    + destruct (ds_user _ _ _ _ _ _ Hds p Hu) as [H|[_ H]]; [|done].
      rewrite (st_table_ref d p own_a_dir (user_is_table _ _ _ H)). by apply (km_tabref _ _ _ Hk e d).
    + apply (st_other_table d1 p Hd1 Hne) in Hu.
      rewrite (st_table_ref d1 p Hd1 (user_is_table _ _ _ Hu)). by apply (km_tabref _ _ _ Hk e1 d1).
  - intros e1 d1 va H1 Hv. destruct (decide (d1 = d)) as [->|Hne].
    + apply (ds_entry _ _ _ _ _ _ Hds va Hv). by apply (km_entry _ _ _ Hk e).
    + unfold entry_ok. rewrite (ot_raw d1 va (live_dir s e1 d1 H1) Hne) by by apply user_PDX.
      by apply (km_entry _ _ _ Hk e1).
  - intros e1 d1 va w H1 Hv Hw. destruct (st_mapped e1 d1 va w H1 Hv Hw) as [K1 K2].
    split; [by rewrite (same_else_npages _ _ Hs)|]. intros f Hf. by apply K2.
  - apply st_count.
  - apply st_guard.
Qed.
End DirStep.

(** *** page_insert and page_remove are such changes *)

(** The references of a page change with the mapping of [va] alone. *)
Lemma page_refs_change m m' d va p :
  0 <= va < UTOP ->
  (forall x, 0 <= x < UTOP -> PGNUM x <> PGNUM va -> mapping m' d x = mapping m d x) ->
  page_refs m' d p UPAGENUMS - page_refs m d p UPAGENUMS = maps_to m' d va p - maps_to m d va p.
Proof.
  intros Hv H. pose proof (user_pgnum va Hv) as Hn. destruct (pgnum_user _ Hn) as [Hv' E].
  pose proof (sum_to_change (fun i => maps_to m' d (i * 4096) p) (fun i => maps_to m d (i * 4096) p)
    UPAGENUMS (PGNUM va) Hn) as Hc. cbv beta in Hc.
  rewrite !(maps_to_page _ d va (PGNUM va * 4096)) by by rewrite E. unfold page_refs.
  assert (forall i, 0 <= i < UPAGENUMS -> i <> PGNUM va -> maps_to m' d (i * 4096) p = maps_to m d (i * 4096) p) as Hi.
  { intros i Hi Hne. destruct (pgnum_user i Hi) as [Hx Ex]. unfold maps_to. rewrite H; [done|done|]. by rewrite Ex. }
  specialize (Hc Hi). lia.
Qed.

Lemma inserted_entry p perm : 0 <= p < 0x10000 -> 0 <= perm < 4096 ->
  PTE_ADDR (Z.lor (Z.lor (p * 4096) perm) PTE_P) / 4096 = p.
Proof.
  intros Hp Hf. rewrite <- Z.lor_assoc. rewrite PTE_ADDR_lor; [by rewrite Z.div_mul|lia|zlia|].
  apply (lor_range _ _ 12); unfold PTE_P; lia.
Qed.

Section Inserted.
Context (s : kstate) (l le : list Z) (e d pp va perm : Z) (s' : kstate) (l' : list Z).
Hypothesis Hk : kmem s l le.
Hypothesis Hl : live s e d.
Hypothesis Hva : 0 <= va < UTOP.
Hypothesis Hperm : 0 <= perm < 4096.
Hypothesis Hpp : 0 <= pp < npages s.
Hypothesis Hfree : pp ∉ l.
Hypothesis Hi : inserted s l d pp va perm s' l'.

Lemma in_range : 0 <= pp < 0x10000.
Proof using Hk Hpp. pose proof (wf_npages _ _ (km_pages _ _ _ Hk)) as Hn. unfold MAXPAGES in Hn. lia. Qed.

Lemma in_list : exists l1, (l' = l1 \/ exists w, mapping (mem s) d va = Some w /\ l' = PTE_ADDR w / 4096 :: l1) /\
  (if present (pde (mem s) d va) then l1 = l else exists p, l = p :: l1).
Proof using Hi.
  destruct (is_list _ _ _ _ _ _ _ _ Hi) as (l1 & E & H). exists l1. split; [|done]. rewrite E. unfold freed.
  destruct (mapping (mem s) d va) as [w|]; [|by left]. cbv zeta. case_if; [right; by exists w|by left].
Qed.

Lemma in_new_table p : p ∈ l -> p ∉ l' -> ref_of s' p = 1.
Proof using Hi.
  intros Hp Hn. destruct in_list as (l1 & El' & El).
  assert (p ∉ l1) as Hp1.
  { intros H. apply Hn. destruct El' as [->|(w & _ & ->)]; [done|by constructor]. }
  destruct (present (pde (mem s) d va)) eqn:Ep; [by subst|]. destruct El as [p0 El]. rewrite El in Hp.
  apply elem_of_cons in Hp as [->|Hp]; [|done].
  destruct (is_new _ _ _ _ _ _ _ _ Hi Ep) as (p1 & H1 & E1). rewrite El in H1.
  apply elem_of_cons in H1 as [->|H1].
  - apply (is_new_ref _ _ _ _ _ _ _ _ Hi); [done|rewrite El; constructor|done].
  - exfalso. destruct (dw_table _ _ _ (is_dir _ _ _ _ _ _ _ _ Hi) (PDX va) ltac:(auto with jos)
      (is_present _ _ _ _ _ _ _ _ Hi)) as [_ Hx].
    rewrite <- pde_slot, E1, Z.div_mul in Hx by lia. apply Hx.
    destruct El' as [->|(w & _ & ->)]; [done|by constructor].
Qed.

Lemma inserted_step : dir_step s l d pp s' l'.
Proof using All.
  pose proof (user_PDX va Hva) as Hx. pose proof in_range as Hr. split.
  - apply Hi.
  - apply Hi.
  - apply Hi.
  - apply (is_mem _ _ _ _ _ _ _ _ Hi).
  - intros i Hi'. apply (is_slots _ _ _ _ _ _ _ _ Hi); lia.
  - intros p [H|(i & Hi' & Hp & Ha)]; [left; by left|]. destruct (decide (i = PDX va)) as [->|Hne].
    2: { rewrite (is_slots _ _ _ _ _ _ _ _ Hi) in Hp, Ha by lia. left. right. by exists i. }
    rewrite <- pde_slot in *. destruct (present (pde (mem s) d va)) eqn:Ep.
    + left. right. exists (PDX va). rewrite <- pde_slot. split; [done|]. split; [done|]. rewrite <- Ha.
      rewrite (is_pde_or _ _ _ _ _ _ _ _ Hi Ep). symmetry. apply PTE_ADDR_or; [apply load32_range|done].
    + right. destruct (is_new _ _ _ _ _ _ _ _ Hi Ep) as (q & Hq & Eq). assert (p = q) as -> by lia.
      split; [done|]. by apply (is_new_ref _ _ _ _ _ _ _ _ Hi).
  - intros p Hp. destruct in_list as (l1 & El' & El).
    assert (forall x, x ∈ l1 -> x ∈ l) as Hsub.
    { destruct (present (pde (mem s) d va)); [by subst|]. destruct El as [q ->]. intros x H. by constructor. }
    destruct El' as [->|(w & Hw & ->)]; [left; auto|]. apply elem_of_cons in Hp as [->|Hp]; [right; by exists va, w|left; auto].
  - intros x Hx' He. apply (is_entry _ _ _ _ _ _ _ _ Hi); [by apply user_va_PDX|done].
  - intros x Hx1 Hx2. rewrite (is_map _ _ _ _ _ _ _ _ Hi), decide_False; [done| |done].
    intros E. apply PDX_eq_PGNUM in E. lia.
  - intros x w Hx'. rewrite (is_map _ _ _ _ _ _ _ _ Hi) by by apply user_va_PDX. case_decide; [|by left].
    intros [= <-]. right. left. by apply inserted_entry.
  - intros p Hp. rewrite (is_refs _ _ _ _ _ _ _ _ Hi) by done.
    rewrite (page_refs_change (mem s) (mem s') d va p Hva).
    + assert (maps_to (mem s') d va p = if p =? pp then 1 else 0) as ->; [|lia].
      unfold maps_to. rewrite (is_map _ _ _ _ _ _ _ _ Hi), decide_True by (done || by apply user_va_PDX).
      rewrite inserted_entry by done. by rewrite Z.eqb_sym.
    + intros x Hx' Hne. rewrite (is_map _ _ _ _ _ _ _ _ Hi) by by apply user_va_PDX. by rewrite decide_False.
  - intros p Hp. assert (page_refs (mem s') d p UPAGENUMS = 0) as ->.
    { apply sum_to_zero; [done|]. intros i Hi'. destruct (pgnum_user i Hi') as [Hv _]. unfold maps_to.
      rewrite (is_map _ _ _ _ _ _ _ _ Hi) by by apply user_va_PDX. case_decide.
      - rewrite inserted_entry by done. destruct (Z.eqb_spec pp p) as [<-|]; done.
      - destruct (mapping (mem s) d (i * 4096)) as [w|] eqn:Ew; [|done].
        destruct (Z.eqb_spec (PTE_ADDR w / 4096) p) as [<-|]; [|done].
        by destruct (mapped_ref s l le Hk e d _ w Hl Hv Ew). }
    destruct (decide (p ∈ l')) as [Hp'|Hp']; [|rewrite in_new_table by done; lia].
    apply list_elem_of_lookup in Hp' as [i Hi']. unfold ref_of.
    by rewrite (wf_chain _ _ (is_pages _ _ _ _ _ _ _ _ Hi) i p Hi').
Qed.

Lemma kmem_inserted : (forall d', a_dir s d' -> ~ is_table s d' pp) -> kmem s' l' le.
Proof using All.
  intros H2. apply (kmem_dir_step s l le e d pp s' l' Hk Hl); [|apply inserted_step].
  split; [lia|done].
Qed.
End Inserted.

Lemma kmem_removed s l le e d va w s' l' :
  kmem s l le -> live s e d -> 0 <= va < UTOP -> mapping (mem s) d va = Some w ->
  removed s l d va (PTE_ADDR w / 4096) s' l' -> kmem s' l' le.
Proof.
  intros Hk Hl Hva Hw Hr. pose proof (user_PDX va Hva) as Hx. set (q := PTE_ADDR w / 4096) in *.
  destruct (km_map _ _ _ Hk e d va w Hl Hva Hw) as [M1 M2]. destruct (mapped_ref s l le Hk e d va w Hl Hva Hw) as [M3 M4].
  apply (kmem_dir_step s l le e d q s' l' Hk Hl); [done|]. split.
  - apply Hr.
  - apply Hr.
  - apply Hr.
  - intros x _. apply (rm_mem _ _ _ _ _ _ _ Hr).
  - intros i Hi. apply (rm_slots _ _ _ _ _ _ _ Hr). lia.
  - intros p [H|(i & Hi & H)]; left; [by left|right]. exists i. rewrite (rm_slots _ _ _ _ _ _ _ Hr) in H by lia. done.
  - intros p. rewrite (rm_list _ _ _ _ _ _ _ Hr). case_if; [|by left]. intros Hp.
    apply elem_of_cons in Hp as [->|Hp]; [right; by exists va, w|by left].
  - intros x Hx' He. apply (rm_entry _ _ _ _ _ _ _ Hr); [by apply user_va_PDX|done].
  - intros x Hx1 Hx2. rewrite (rm_map _ _ _ _ _ _ _ Hr), decide_False; [done| |done].
    intros E. apply PDX_eq_PGNUM in E. lia.
  - intros x w' Hx'. rewrite (rm_map _ _ _ _ _ _ _ Hr) by by apply user_va_PDX. case_decide; [done|by left].
  - intros p Hp. rewrite (page_refs_change (mem s) (mem s') d va p Hva).
    + unfold maps_to. rewrite Hw, (rm_map _ _ _ _ _ _ _ Hr), decide_True by (done || by apply user_va_PDX). fold q.
      destruct (Z.eqb_spec q p) as [<-|Hne]; [rewrite (rm_ref _ _ _ _ _ _ _ Hr); lia|].
      unfold ref_of. rewrite (rm_refs _ _ _ _ _ _ _ Hr) by congruence. lia.
    + intros x Hx' Hne. rewrite (rm_map _ _ _ _ _ _ _ Hr) by by apply user_va_PDX. by rewrite decide_False.
  - intros p Hp. unfold ref_of. rewrite (rm_refs _ _ _ _ _ _ _ Hr) by (intros ->; done).
    fold (ref_of s p). rewrite (free_ref s l le Hk p Hp). apply Z.eq_le_incl, sum_to_zero; [done|].
    intros i Hi. destruct (pgnum_user i Hi) as [Hv _]. unfold maps_to.
    rewrite (rm_map _ _ _ _ _ _ _ Hr) by by apply user_va_PDX. case_decide; [done|].
    destruct (mapping (mem s) d (i * 4096)) as [w'|] eqn:Ew; [|done].
    destruct (Z.eqb_spec (PTE_ADDR w' / 4096) p) as [<-|]; [|done]. by destruct (mapped_ref s l le Hk e d _ w' Hl Hv Ew).
Qed.

(** ** Changes of the records *)

(** Scheduling, status changes and messages: the same environments with the same
    directories. *)
Record same_spaces (s s' : kstate) : Prop := {
  sp_mem : mem s' = mem s;
  sp_pages : pages s' = pages s /\ page_free_list s' = page_free_list s /\ npages s' = npages s;
  sp_kern : kern_pgdir s' = kern_pgdir s;
  sp_list : env_free_list s' = env_free_list s;
  sp_records : forall e, match envs s !! e, envs s' !! e with
    | Some v, Some v' => (env_status v' = ENV_FREE <-> env_status v = ENV_FREE) /\ env_pgdir v' = env_pgdir v /\
        (env_status v = ENV_FREE -> env_link v' = env_link v) /\ 0 <= env_ipc_dstva v'
    | None, None => True
    | _, _ => False
    end;
  sp_cpu : is_Some (cpus s' !! cpunum s');
  sp_cur : forall c, cur s' = Some c -> exists d, live s c d;
}.

Section Records.
Context (s : kstate) (l le : list Z) (s' : kstate).
Hypothesis Hk : kmem s l le.
Hypothesis Hs : same_spaces s s'.

Lemma rec_live e d : live s' e d <-> live s e d.
Proof using Hs.
  pose proof (sp_records _ _ Hs e) as H. unfold live.
  split; intros (v & Hv & Hf & Hd); rewrite Hv in H.
  - destruct (envs s !! e) as [v0|]; [|done]. destruct H as (H1 & H2 & _). exists v0.
    split; [done|]. split; [intros E; by apply Hf, H1|congruence].
  - destruct (envs s' !! e) as [v0|]; [|done]. destruct H as (H1 & H2 & _). exists v0.
    split; [done|]. split; [intros E; by apply Hf, H1|congruence].
Qed.

Lemma rec_kdir : kdir s' = kdir s.
Proof using Hs. unfold kdir. by rewrite (sp_kern _ _ Hs). Qed.
Lemma rec_dir d : a_dir s' d <-> a_dir s d.
Proof using Hs. unfold a_dir. rewrite rec_kdir. by setoid_rewrite rec_live. Qed.
Lemma rec_table d p : (is_table s' d p <-> is_table s d p) /\ (user_table s' d p <-> user_table s d p).
Proof using Hs. unfold is_table, user_table. by rewrite (sp_mem _ _ Hs). Qed.
Lemma rec_ref p : ref_of s' p = ref_of s p.
Proof using Hs. unfold ref_of. destruct (sp_pages _ _ Hs) as [E _]. by rewrite E. Qed.

Lemma rec_mappings p : mappings s' p = mappings s p.
Proof using Hs.
  unfold mappings. apply sum_to_ext; [done|]. intros i Hi. unfold mappings_in. pose proof (sp_records _ _ Hs i) as H.
  destruct (envs s !! i) as [v|], (envs s' !! i) as [v'|]; try done. destruct H as (H1 & H2 & _).
  rewrite (sp_mem _ _ Hs), H2. destruct (decide (env_status v = ENV_FREE)) as [E|E].
  - rewrite !bool_decide_eq_true_2 by tauto. done.
  - rewrite !bool_decide_eq_false_2 by tauto. done.
Qed.

Lemma kmem_records : kmem s' l le.
Proof using All.
  destruct (sp_pages _ _ Hs) as (E1 & E2 & E3). pose proof (sp_mem _ _ Hs) as Em.
  split; rewrite ?rec_kdir, ?Em; try setoid_rewrite rec_live; try setoid_rewrite rec_dir.
  - apply (pages_wf_ext s); [apply Hk|done..].
  - apply Hs.
  - apply (sp_cur _ _ Hs).
  - intros e. rewrite <- (km_envs _ _ _ Hk e). pose proof (sp_records _ _ Hs e) as H.
    destruct (envs s !! e), (envs s' !! e); try done; split; intros _; eauto.
  - intros e v' Hv. pose proof (sp_records _ _ Hs e) as H. rewrite Hv in H.
    destruct (envs s !! e) as [v|] eqn:Ev; [|done]. destruct H as (H1 & H2 & _ & H4). split; [done|].
    rewrite H2. intros Hf. apply (km_env _ _ _ Hk e v Ev). tauto.
  - destruct (km_chain _ _ _ Hk) as [C1 C2 C3]. split; [by rewrite (sp_list _ _ Hs)| |done].
    intros i e He. destruct (C2 i e He) as (v & Hv & Hf & Hn). pose proof (sp_records _ _ Hs e) as H. rewrite Hv in H.
    destruct (envs s' !! e) as [v'|]; [|done]. destruct H as (H1 & H2 & H3 & _). exists v'.
    split; [done|]. split; [tauto|]. rewrite H3 by done. done.
  - intros d Hd. apply (pgdir_wf_mono s s' l l); [by apply (km_dir _ _ _ Hk)|done| |by left]. by rewrite Em.
  - apply (km_self _ _ _ Hk).
  - apply (km_kslots _ _ _ Hk).
  - apply (km_kempty _ _ _ Hk).
  - apply (km_one _ _ _ Hk).
  - apply (km_notk _ _ _ Hk).
  - intros d d' p. rewrite (proj1 (rec_table d' p)), (proj2 (rec_table d p)). apply (km_sep _ _ _ Hk).
  - intros e d p. rewrite rec_ref, (proj2 (rec_table d p)). apply (km_tabref _ _ _ Hk).
  - intros e d va Hd Hv. unfold entry_ok. rewrite Em. by apply (km_entry _ _ _ Hk e d va).
  - intros e d va w Hd Hv Hw. destruct (km_map _ _ _ Hk e d va w Hd Hv Hw) as [K1 K2].
    split; [by rewrite E3|]. intros d' Hd' Ht. apply rec_table in Ht. by apply (K2 d').
  - intros p. rewrite rec_mappings, rec_ref. apply (km_count _ _ _ Hk).
  - apply (km_guard _ _ _ Hk).
Qed.
End Records.

(** One record. *)
Lemma kmem_upd_env s l le e v w :
  kmem s l le -> envs s !! e = Some v -> env_status v <> ENV_FREE -> env_status w <> ENV_FREE ->
  env_pgdir w = env_pgdir v -> 0 <= env_ipc_dstva w -> kmem (set_envs (<[e := w]> (envs s)) s) l le.
Proof.
  intros Hk Hv Hf Hf' Hp Hd. apply (kmem_records s); [done|]. split; try done.
  - intros i. cbn [envs set_envs]. rewrite lookup_insert. case_decide as E.
    + subst i. rewrite Hv. tauto.
    + destruct (envs s !! i) as [u|] eqn:Eu; [|done]. split; [done|]. split; [done|]. split; [done|].
      apply (km_env _ _ _ Hk i u Eu).
  - apply (km_cpu _ _ _ Hk).
  - intros c. apply (km_cur _ _ _ Hk).
Qed.

(** ** The system calls return and keep the invariant *)

(** No count is about to overflow its 16 bits. *)
Definition small_refs (s : kstate) : Prop := forall p, ref_of s p < 65535.

Lemma ENVX_range envid : 0 <= ENVX envid < NENV.
Proof.
  unfold ENVX. change (NENV - 1) with (Z.ones 10). rewrite Z.land_ones by lia. change NENV with 1024.
  apply Z.mod_pos_bound. done.
Qed.

Section Calls.
Context (s : kstate) (l le : list Z) (c : Z).
Hypothesis Hk : kmem s l le.
Hypothesis Hcur : cur s = Some c.

Lemma cur_run : curenv s = Ok (Some c) s /\ curenv_ptr s = Ok c s /\ exists cv, envs s !! c = Some cv.
Proof using All.
  destruct (km_cpu _ _ _ Hk) as [i Hi]. pose proof Hcur as Hc. unfold cur in Hc. rewrite Hi in Hc. simpl in Hc.
  split; [by rewrite (curenv_run s i Hi), Hc|]. split; [by apply curenv_ptr_run|].
  destruct (km_cur _ _ _ Hk c Hcur) as (d & v & Hv & _). eauto.
Qed.

Lemma envid2env_total envid chk : exists r x, envid2env envid chk s = Ok (r, x) s /\
  (r = 0 -> exists e d, x = Some e /\ live s e d).
Proof using All.
  destruct cur_run as (Ec & Ecp & cv & Hcv). unfold envid2env.
  destruct (envid =? 0).
  { kstep Ec. exists 0, (Some c). split; [done|]. intros _. destruct (km_cur _ _ _ Hk c Hcur) as [d Hd]. by exists c, d. }
  cbv zeta. destruct (proj2 (km_envs _ _ _ Hk (ENVX envid)) (ENVX_range envid)) as [v Hv].
  kstep (get_env_run s _ v Hv). destruct (bool_decide (env_status v = ENV_FREE) || negb (env_id v =? envid)) eqn:Eb.
  { eexists _, _. split; [reflexivity|]. done. }
  apply orb_false_iff in Eb as [Ef _]. apply bool_decide_eq_false in Ef.
  destruct (proj2 (km_env _ _ _ Hk _ v Hv) Ef) as [d Hd].
  assert (live s (ENVX envid) d) as Hl by (by exists v).
  kstep Ec. destruct (chk && negb (bool_decide (Some c = Some (ENVX envid)))).
  - rewrite bind_assoc. kstep Ecp. rewrite bind_assoc. kstep (get_env_run s c cv Hcv). rewrite bind_ret.
    destruct (negb (env_parent_id v =? env_id cv)).
    + eexists _, _. split; [reflexivity|]. done.
    + eexists _, _. split; [reflexivity|]. intros _. by exists (ENVX envid), d.
  - rewrite bind_ret. eexists _, _. split; [reflexivity|]. intros _. by exists (ENVX envid), d.
Qed.

Definition returns (m : K Z) : Prop := exists r s' l', m s = Ok r s' /\ kmem s' l' le.

Lemma returns_same r m : m s = Ok r s -> returns m.
Proof using Hk. intros E. by exists r, s, l. Qed.

(** A call whose first step is envid2env. *)
Lemma with_env_returns envid chk f :
  (forall e d v, live s e d -> envs s !! e = Some v -> env_pgdir v = KERNBASE + d ->
     envid2env envid chk s = Ok (0, Some e) s -> returns (with_env envid chk f)) ->
  returns (with_env envid chk f).
Proof using All.
  intros H. destruct (envid2env_total envid chk) as (r & x & E & Hx). destruct (decide (r = 0)) as [->|Hr].
  - destruct (Hx eq_refl) as (e & d & -> & Hl). pose proof Hl as (v & Hv & _ & Hd). by apply (H e d v).
  - apply (returns_same r). by apply (with_env_err s envid chk r x f).
Qed.

Lemma kmem_log e : kmem (set_log (e :: log s) s) l le.
Proof using Hk.
  apply (kmem_free_pages s l le); try done. apply (pages_wf_ext s); [apply Hk|done..].
Qed.

Hypothesis Hsm : small_refs s.

Lemma fresh_kmem p l1 : l = p :: l1 -> kmem (fresh_page p l1 s) l1 le.
Proof using Hk.
  intros El. pose proof (km_pages _ _ _ Hk) as Hw. rewrite El in Hw. destruct (kdir_eq s l le Hk) as [_ _].
  pose proof (km_dir _ _ _ Hk (kdir s) ltac:(by left)) as Hd. rewrite El in Hd.
  pose proof (fresh_page_ok s p l1 (kdir s) Hw Hd) as Hf. apply (kmem_free_pages s l le); [done|apply Hf|apply Hf| | |].
  - intros q Hq. rewrite El. by constructor.
  - intros x Hx. rewrite fresh_page_load8, decide_False; [done|]. intros E. apply Hx. rewrite El, E. constructor.
  - intros q. unfold ref_of. destruct (decide (q = p)) as [->|Hne].
    + rewrite (fr_page _ _ _ _ _ Hf), (wf_chain _ _ Hw O p eq_refl). done.
    + by rewrite (fr_others _ _ _ _ _ Hf).
Qed.

Lemma page_alloc_returns envid va perm :
  0 <= va -> 0 <= perm < 4096 -> returns (Syscall.sys_page_alloc envid va perm).
Proof using All.
  intros Hva0 Hperm. apply with_env_returns. intros e d v Hl Hv Hd E.
  fold (Syscall.sys_page_alloc envid va perm).
  destruct (bad_user_page va) eqn:Eb.
  { apply (returns_same (- E_INVAL)). unfold Syscall.sys_page_alloc. by rewrite (with_env_ok _ _ _ _ _ E), Eb. }
  destruct (bad_perm perm) eqn:Ep.
  { apply (returns_same (- E_INVAL)). unfold Syscall.sys_page_alloc. by rewrite (with_env_ok _ _ _ _ _ E), Eb, Ep. }
  assert (0 <= va < UTOP) as Hva.
  { unfold bad_user_page in Eb. apply orb_false_iff in Eb as [Eb _]. rewrite Z.geb_leb in Eb. bcomp. lia. }
  pose proof (km_pages _ _ _ Hk) as Hw. pose proof (km_dir _ _ _ Hk d (live_dir s e d Hl)) as Hdw.
  pose proof (live_old s l le Hk e d va Hsm Hl Hva) as Hold. pose proof (km_cpu_ok s l le Hk) as Hcpu.
  assert (l = [] \/ exists p l1, l = p :: l1) as [El|(p & l1 & El)] by (clear; destruct l; eauto).
  { exists (- E_NO_MEM). eexists _, l. split; [|apply kmem_log]. rewrite El in Hw.
    unfold Syscall.sys_page_alloc. rewrite (with_env_ok _ _ _ _ _ E), Eb, Ep. by kstep (page_alloc_nil 1 s Hw). }
  destruct (decide (present (pde (mem s) d va) = true \/ l1 <> [])) as [Hcase|Hcase].
  - rewrite El in Hw, Hdw, Hold.
    destruct (sys_page_alloc_ok s p l1 d e v envid va perm Hw Hdw Hcpu Hv Hd E Hva Eb Ep Hperm Hold Hcase) as (s' & l' & Ec & Hi).
    exists 0, s', l'. split; [done|]. pose proof (fresh_page_ok s p l1 d Hw Hdw) as Hf.
    destruct (fr_range _ _ _ _ _ Hf) as (R1 & R2 & _). pose proof (fresh_kmem p l1 El) as Hkf.
    apply (kmem_inserted (fresh_page p l1 s) l1 le e d p va perm s' l' Hkf Hl Hva Hperm R1 R2 Hi).
    intros d' Hd' Ht. assert (pgdir_wf s (p :: l1) d') as Hdw' by (rewrite <- El; by apply (km_dir _ _ _ Hk)).
    pose proof (fresh_page_ok s p l1 d' Hw Hdw') as Hf'. by apply (fr_range _ _ _ _ _ Hf').
  - rewrite El in Hw, Hdw.
    destruct (sys_page_alloc_nomem s p l1 d e v envid va perm Hw Hdw Hv Hd E Eb Ep Hcase) as (s' & Ec & W & _ & _ & _ & S & M & R).
    exists (- E_NO_MEM), s', [p]. split; [done|]. apply (kmem_free_pages s l le); try done.
    + intros q Hq. apply list_elem_of_singleton in Hq as ->. rewrite El. constructor.
    + intros x Hx. rewrite M, fresh_page_load8, decide_False; [done|]. intros Ex. apply Hx. rewrite El, Ex. constructor.
Qed.

Lemma page_unmap_returns envid va : 0 <= va -> returns (Syscall.sys_page_unmap envid va).
Proof using All.
  intros Hva0. apply with_env_returns. intros e d v Hl Hv Hd E. fold (Syscall.sys_page_unmap envid va).
  destruct (bad_user_page va) eqn:Eb.
  { apply (returns_same (- E_INVAL)). unfold Syscall.sys_page_unmap. by rewrite (with_env_ok _ _ _ _ _ E), Eb. }
  assert (0 <= va < UTOP) as Hva.
  { unfold bad_user_page in Eb. apply orb_false_iff in Eb as [Eb _]. rewrite Z.geb_leb in Eb. bcomp. lia. }
  pose proof (km_pages _ _ _ Hk) as Hw. pose proof (km_dir _ _ _ Hk d (live_dir s e d Hl)) as Hdw.
  pose proof (live_old s l le Hk e d va Hsm Hl Hva) as Hold. pose proof (km_cpu_ok s l le Hk) as Hcpu.
  destruct (mapping (mem s) d va) as [w|] eqn:Ew.
  - destruct (Hold w Ew) as (O1 & O2 & O3 & O4).
    destruct (page_remove_mapped s l d va w Hw Hdw Hcpu (user_va_PDX va Hva) Ew O1 O2 O3 ltac:(lia)) as (s' & l' & Er & Hr).
    exists 0, s', l'. split; [|by apply (kmem_removed s l le e d va w)].
    unfold Syscall.sys_page_unmap. rewrite (with_env_ok _ _ _ _ _ E), Eb. kstep (get_env_run s e v Hv). rewrite Hd. by kstep Er.
  - apply (returns_same 0). unfold Syscall.sys_page_unmap. rewrite (with_env_ok _ _ _ _ _ E), Eb.
    kstep (get_env_run s e v Hv). rewrite Hd. unfold page_remove.
    pose proof (page_lookup_user s l d va Hw Hdw (km_entry _ _ _ Hk e d va Hl Hva) ltac:(congruence)) as El.
    rewrite Ew in El. rewrite bind_assoc. by kstep El.
Qed.

Lemma page_map_returns srcid srcva dstid dstva perm :
  0 <= srcva -> 0 <= dstva -> 0 <= perm < 4096 -> returns (Syscall.sys_page_map srcid srcva dstid dstva perm).
Proof using All.
  intros Hs0 Hd0 Hperm. apply with_env_returns. intros se sd sv Hsl Hsv Hsp E1.
  fold (Syscall.sys_page_map srcid srcva dstid dstva perm).
  destruct (envid2env_total dstid true) as (r & x & E2 & Hx). destruct (decide (r = 0)) as [->|Hr].
  2: { apply (returns_same r). unfold Syscall.sys_page_map. rewrite (with_env_ok _ _ _ _ _ E1). by apply (with_env_err _ _ _ _ x). }
  destruct (Hx eq_refl) as (de & dd & -> & Hdl). pose proof Hdl as (dv & Hdv & _ & Hdp).
  destruct (bad_user_page srcva || bad_user_page dstva) eqn:Eb.
  { apply (returns_same (- E_INVAL)). unfold Syscall.sys_page_map. rewrite (with_env_ok _ _ _ _ _ E1), (with_env_ok _ _ _ _ _ E2).
    unfold bad_user_page in Eb. replace ((srcva >=? UTOP) || (dstva >=? UTOP) || negb (ROUNDDOWN srcva PGSIZE =? srcva)
       || negb (ROUNDDOWN dstva PGSIZE =? dstva)) with true; [done|]. rewrite <- Eb.
    destruct (srcva >=? UTOP), (dstva >=? UTOP), (ROUNDDOWN srcva PGSIZE =? srcva), (ROUNDDOWN dstva PGSIZE =? dstva); done. }
  apply orb_false_iff in Eb as [Ebs Ebd].
  assert (forall y, 0 <= y -> bad_user_page y = false -> 0 <= y < UTOP) as Hy.
  { intros y Hy0 Hb. unfold bad_user_page in Hb. apply orb_false_iff in Hb as [Hb _]. rewrite Z.geb_leb in Hb. bcomp. lia. }
  pose proof (Hy srcva Hs0 Ebs) as Hsva. pose proof (Hy dstva Hd0 Ebd) as Hdva.
  pose proof (km_pages _ _ _ Hk) as Hw. pose proof (km_dir _ _ _ Hk sd (live_dir s se sd Hsl)) as Hsw.
  pose proof (km_dir _ _ _ Hk dd (live_dir s de dd Hdl)) as Hdw.
  pose proof (live_old s l le Hk se sd srcva Hsm Hsl Hsva) as Hsold.
  pose proof (live_old s l le Hk de dd dstva Hsm Hdl Hdva) as Hdold.
  pose proof (km_entry _ _ _ Hk se sd srcva Hsl Hsva) as Hent.
  assert (forall m, (sv ← get_env se; r ← page_lookup (env_pgdir sv) srcva;
      match r with None => mret (- E_INVAL) | Some (pg, pte) => m pg pte end) s =
    match mapping (mem s) sd srcva with None => Ok (- E_INVAL) s
    | Some w => m (PTE_ADDR w / 4096) (KERNBASE + pte_addr (mem s) sd srcva) s end) as Hlook.
  { intros m. kstep (get_env_run s se sv Hsv). rewrite Hsp.
    kstep (page_lookup_user s l sd srcva Hw Hsw Hent (fun y Hy' => proj1 (Hsold y Hy'))).
    by destruct (mapping (mem s) sd srcva). }
  assert (Syscall.sys_page_map srcid srcva dstid dstva perm s =
    match mapping (mem s) sd srcva with None => Ok (- E_INVAL) s
    | Some w => if may_share w perm then page_insert (KERNBASE + dd) (PTE_ADDR w / 4096) dstva perm s else Ok (- E_INVAL) s end) as Ecall.
  { unfold Syscall.sys_page_map. rewrite (with_env_ok _ _ _ _ _ E1), (with_env_ok _ _ _ _ _ E2).
    unfold bad_user_page in Ebs, Ebd. apply orb_false_iff in Ebs as [-> ->], Ebd as [-> ->]. cbn [orb]. rewrite Hlook.
    destruct (mapping (mem s) sd srcva) as [w|] eqn:Ew; [|done]. unfold may_share. destruct (bad_perm perm); [done|]. cbn [negb andb].
    kstep (kload32_run s (pte_addr (mem s) sd srcva) ltac:(apply pte_addr_nonneg)). fold (pte (mem s) sd srcva).
    rewrite (mapping_pte _ _ _ _ Ew). destruct ((Z.land w PTE_W =? 0) && ctrue (Z.land perm PTE_W)); cbn [negb]; [done|].
    kstep (get_env_run s de dv Hdv). by rewrite Hdp. }
  destruct (mapping (mem s) sd srcva) as [w|] eqn:Ew; [|by apply (returns_same (- E_INVAL))].
  destruct (may_share w perm) eqn:Esh; [|by apply (returns_same (- E_INVAL))].
  destruct (Hsold w Ew) as (O1 & O2 & O3 & O4). destruct (km_map _ _ _ Hk se sd srcva w Hsl Hsva Ew) as [_ O5].
  assert (0 <= PTE_ADDR w / 4096) as O0 by (pose proof (PTE_ADDR_range w); zlia).
  destruct (decide (present (pde (mem s) dd dstva) = true \/ l <> [])) as [Hcase|Hcase].
  - destruct (page_insert_ok s l dd (PTE_ADDR w / 4096) dstva perm Hw Hdw (km_cpu_ok s l le Hk)) as (s' & l' & Ei & Hi); [|done|].
    { split; try done; [by apply user_va_PDX|lia]. }
    exists 0, s', l'. split; [by rewrite Ecall|].
    by apply (kmem_inserted s l le de dd (PTE_ADDR w / 4096) dstva perm s' l').
  - assert (present (pde (mem s) dd dstva) = false /\ l = []) as [Hp El].
    { split; [apply not_true_iff_false; tauto|]. destruct l; [done|]. destruct Hcase. by right. }
    rewrite El in Hw, Hdw. eexists _, _, l. split; [rewrite Ecall; by apply page_insert_nomem|]. apply kmem_log.
Qed.

Lemma upd_returns e d v w :
  live s e d -> envs s !! e = Some v -> env_status w <> ENV_FREE -> env_pgdir w = env_pgdir v ->
  0 <= env_ipc_dstva w -> kmem (set_envs (<[e := w]> (envs s)) s) l le.
Proof using Hk.
  intros (v0 & Hv0 & Hf & _) Hv. assert (v0 = v) as -> by congruence. intros. by apply (kmem_upd_env s l le e v w).
Qed.

Lemma env_set_status_returns envid status : returns (Syscall.sys_env_set_status envid status).
Proof using All.
  unfold Syscall.sys_env_set_status. destruct (env_status_of status) as [st|]; [|by apply (returns_same (- E_INVAL))].
  destruct (_ || _) eqn:Est; [|by apply (returns_same (- E_INVAL))].
  apply with_env_returns. intros e d v Hl Hv Hd E. eexists 0, _, l. split.
  - rewrite (with_env_ok _ _ _ _ _ E). by kstep (upd_env_run s e v (set_env_status st) Hv).
  - apply (upd_returns e d v); [done|done| |done|apply (km_env _ _ _ Hk e v Hv)].
    intros E'. cbn in E'. subst st. done.
Qed.

Lemma set_pgfault_upcall_returns envid func : returns (Syscall.sys_env_set_pgfault_upcall envid func).
Proof using All.
  destruct (envid2env_total envid true) as (r & x & E & Hx). unfold returns, Syscall.sys_env_set_pgfault_upcall.
  destruct (decide (r = 0)) as [->|Hr].
  - destruct (Hx eq_refl) as (e & d & -> & Hl). pose proof Hl as (v & Hv & Hf & Hd). eexists 0, _, l. split.
    + kstep E. by kstep (upd_env_run s e v (set_env_pgfault_upcall func) Hv).
    + by apply (upd_returns e d v); [..|apply (km_env _ _ _ Hk e v Hv)].
  - exists (- E_BAD_ENV), s, l. split; [|done]. kstep E. destruct r; done.
Qed.

Lemma ipc_send_returns envid value srcva perm :
  0 <= srcva < 0x100000000 -> 0 <= perm < 4096 ->
  (srcva < UTOP -> srcva mod PGSIZE = 0 -> exists d w, live s c d /\ mapping (mem s) d srcva = Some w) ->
  returns (Syscall.sys_ipc_try_send envid value srcva perm).
Proof using All.
  intros Hsva Hperm Hmap. apply with_env_returns. intros r rd rv Hrl Hrv Hrp Eid.
  fold (Syscall.sys_ipc_try_send envid value srcva perm). destruct (km_cur _ _ _ Hk c Hcur) as [sd Hsl].
  pose proof Hsl as (cv & Hcv & _ & Hsp). pose proof (proj1 (km_env _ _ _ Hk r rv Hrv)) as Hdva.
  assert (forall v', env_status v' = env_status (ipc_deliver 0 0 rv) -> env_pgdir v' = env_pgdir rv ->
    env_ipc_dstva v' = env_ipc_dstva rv -> kmem (set_envs (<[r := v']> (envs s)) s) l le) as Hupd.
  { intros v' H1 H2 H3. by apply (upd_returns r rd rv); [..|rewrite H1|done|lia]. }
  assert (returns (Syscall.sys_ipc_try_send envid value srcva perm)) as H; [|exact H].
  assert (Syscall.sys_ipc_try_send envid value srcva perm s = (if negb (env_ipc_recving rv) then mret (- E_IPC_NOT_RECV)
    else ret ← (if srcva <? UTOP then ipc_send_page r srcva perm else mret 0);
      if negb (ret =? 0) then mret ret
      else c ← curenv_ptr; cv ← get_env c; _ ← upd_env r (ipc_deliver (env_id cv) value); mret 0) s) as Ecall.
  { unfold Syscall.sys_ipc_try_send. rewrite (with_env_ok _ _ _ _ _ Eid). by kstep (get_env_run s r rv Hrv). }
  destruct (env_ipc_recving rv) eqn:Erecv; cbn [negb] in Ecall; [|by apply (returns_same (- E_IPC_NOT_RECV))].
  set (tail := fun ret : Z => if negb (ret =? 0) then mret ret
      else c ← curenv_ptr; cv ← get_env c; _ ← upd_env r (ipc_deliver (env_id cv) value); (mret 0 : K Z)) in Ecall.
  assert (exists r0 s' l', tail 0 s = Ok r0 s' /\ kmem s' l' le) as Hdel.
  { eexists 0, _, l. split; [by apply (ipc_deliver_run s c cv r rv value)|by apply Hupd]. }
  unfold returns in *. rewrite Ecall. destruct (Z.ltb_spec srcva UTOP) as [Eu|Eu]; [|exact Hdel].
  pose proof (live_old s l le Hk c sd srcva Hsm Hsl ltac:(lia)) as Hsrc.
  pose proof (km_dir _ _ _ Hk sd (live_dir s c sd Hsl)) as Hsd. pose proof (km_pages _ _ _ Hk) as Hw.
  pose proof (km_entry _ _ _ Hk c sd srcva Hsl ltac:(lia)) as Hent.
  pose proof (ipc_send_lookup s l c cv sd r srcva perm Hw Hsd Hcur Hcv Hsp Hsva Hent Hsrc) as E.
  assert (forall q, ipc_send_page r srcva perm s = Ok (- E_INVAL) q -> q = s -> exists r0 s' l',
    (ret ← ipc_send_page r srcva perm; tail ret) s = Ok r0 s' /\ kmem s' l' le) as Hinv.
  { intros q Eq ->. exists (- E_INVAL), s, l. split; [by kstep Eq|done]. }
  destruct (srcva mod PGSIZE =? 0) eqn:Ea; cbn [negb] in E; [|by apply (Hinv s)]. bcomp.
  destruct (Hmap Eu Ea) as (sd' & w & Hsl' & Em). assert (sd' = sd) as ->.
  { destruct Hsl' as (v1 & H1 & _ & H2). assert (v1 = cv) as -> by congruence. lia. }
  rewrite Em in E. destruct (Z.land (Z.land w perm) 7 =? Z.land perm 7) eqn:E7; cbn [negb] in E; [|by apply (Hinv s)]. bcomp.
  rewrite (bind_ok _ _ _ _ _ (get_env_run s r rv Hrv)) in E.
  destruct (Z.ltb_spec (env_ipc_dstva rv) UTOP) as [Ed|Ed].
  2: { destruct Hdel as (r0 & s' & l' & E0 & K). exists r0, s', l'. split; [by kstep E|done]. }
  pose proof (live_old s l le Hk r rd (env_ipc_dstva rv) Hsm Hrl ltac:(lia)) as Hdst.
  pose proof (km_dir _ _ _ Hk rd (live_dir s r rd Hrl)) as Hrd.
  destruct (decide (present (pde (mem s) rd (env_ipc_dstva rv)) = true \/ l <> [])) as [Hcase|Hcase].
  - destruct (ipc_send_mapped s l c cv r rv sd rd envid value srcva perm w Hw Hsd Hrd (km_cpu_ok s l le Hk) Hcur Hcv Hsp
      Hrv Hrp ltac:(lia) Hperm ltac:(lia) Hent Hsrc Hdst Eid Erecv Ea Em E7 Hcase) as (s1 & l' & E1 & Hi).
    rewrite Ecall in E1. destruct (Z.ltb_spec srcva UTOP) as [_|Hge]; [|lia].
    eexists 0, _, l'. split; [exact E1|]. destruct (Hsrc w Em) as (O1 & O2 & O3 & O4).
    destruct (km_map _ _ _ Hk c sd srcva w Hsl ltac:(lia) Em) as [_ O5].
    assert (kmem s1 l' le) as K1.
    { apply (kmem_inserted s l le r rd (PTE_ADDR w / 4096) (env_ipc_dstva rv) perm s1 l'); try done.
      split; [pose proof (PTE_ADDR_range w); zlia|done]. }
    pose proof (same_else_envs _ _ (is_same _ _ _ _ _ _ _ _ Hi)) as Ee. destruct Hrl as (v0 & Hv0 & Hf & _).
    assert (envs s1 !! r = Some rv) as Hrv1 by congruence. assert (v0 = rv) as -> by congruence.
    by apply (kmem_upd_env s1 l' le r rv).
  - assert (present (pde (mem s) rd (env_ipc_dstva rv)) = false /\ l = []) as [Hp El].
    { split; [apply not_true_iff_false; tauto|]. destruct (decide (l = [])); tauto. }
    rewrite El in Hw, Hrd. rewrite Hrp in E.
    rewrite (bind_ok _ _ _ _ _ (page_insert_nomem s rd _ _ perm Hw Hrd Hp)) in E.
    change (negb (- E_NO_MEM =? 0)) with true in E. cbv iota in E. eexists _, _, l. split; [by kstep E|]. apply kmem_log.
Qed.
End Calls.
