(* ===== verification/Spaces.v ===== *)
(** * Spaces: the beginning and the end of an address space

    sys_exofork, env_free, env_destroy, and the entry of an environment by env_run
    keep the invariant of [Isolation]; and what the invariant says of the addresses
    that user code can write. *)

From S2P Require Import Prelude Layout Segments Memory CString Printfmt Kernel PageAlloc PageTable Env EnvFree MemInit Sched Syscall Trap Upcall Ulib Cow Fork Load Isolation.

(** ** A new address space *)

Section NewEnv.
Context (s : kstate) (l : list Z) (e : Z) (le : list Z) (v v' : Env) (p : Z).
Let d := p * 4096.
Hypothesis Hk : kmem s l (e :: le).
Hypothesis Hv : envs s !! e = Some v.
Hypothesis Hv' : env_pgdir v' = KERNBASE + d /\ env_status v' <> ENV_FREE /\ 0 <= env_ipc_dstva v'.
Hypothesis Hp : 0 <= p < npages s /\ (p ∉ l) /\ ref_of s p = 1.
Hypothesis Hnt : forall f, a_dir s f -> ~ is_table s f p.
Hypothesis Hnm : forall e1 d1 va w, live s e1 d1 -> 0 <= va < UTOP -> mapping (mem s) d1 va = Some w -> PTE_ADDR w / 4096 <> p.
Hypothesis Hsl : forall i, 0 <= i < 1024 -> load32 (mem s) (slot d i) =
  if decide (i = 957) then Z.lor (Z.lor d PTE_P) PTE_U else load32 (mem s) (slot (kdir s) i).

Let s' := set_env_free_list (env_link v) (set_envs (<[e := v']> (envs s)) s).

Lemma ne_free : env_status v = ENV_FREE /\ env_link v = le !! O.
Proof using Hk Hv.
  destruct (ec_link _ _ (km_chain _ _ _ Hk) O e eq_refl) as (u & Hu & Hf & Hn).
  assert (u = v) as -> by congruence. done.
Qed.

Lemma ne_self : PTE_ADDR (Z.lor (Z.lor d PTE_P) PTE_U) = d.
Proof using Hk Hp.
  pose proof (wf_npages _ _ (km_pages _ _ _ Hk)) as Hn. unfold MAXPAGES in Hn.
  rewrite <- Z.lor_assoc. change (Z.lor PTE_P PTE_U) with 5. unfold d. apply PTE_ADDR_lor; [lia|zlia|lia].
Qed.

Lemma ne_page : d / 4096 = p /\ d mod 4096 = 0.
Proof using Type. unfold d. split; [by apply Z.div_mul|by apply Z.mod_mul]. Qed.

Lemma ne_dirs f : a_dir s f -> f <> d.
Proof using Hnt. intros Hf ->. apply (Hnt d Hf). by left. Qed.

(** An entry of the new directory: the directory itself, or the kernel's. *)
Lemma ne_entry i : 0 <= i < 1024 -> present (load32 (mem s) (slot d i)) = true ->
  (i = 957 /\ PTE_ADDR (load32 (mem s) (slot d i)) = d) \/
  (955 <= i /\ i <> 957 /\ load32 (mem s) (slot d i) = load32 (mem s) (slot (kdir s) i)).
Proof using Hk Hp Hsl.
  intros Hi. rewrite Hsl by done. case_decide as E; intros Hpr; [left; by rewrite ne_self|right].
  split; [|done]. destruct (Z.lt_ge_cases i 955) as [Hlt|]; [|done]. by rewrite (km_kempty _ _ _ Hk i) in Hpr by lia.
Qed.

Lemma ne_user_table q : user_table s d q -> q = p.
Proof using Hk Hp Hsl.
  intros [H|(i & Hi & Hpr & Ha)]; [unfold d in H; lia|].
  destruct (ne_entry i ltac:(lia) Hpr) as [[-> _]|[? _]]; lia.
Qed.

Lemma ne_table q : is_table s d q -> q = p \/ exists i, 955 <= i < 1024 /\ i <> 957 /\
  present (load32 (mem s) (slot (kdir s) i)) = true /\ PTE_ADDR (load32 (mem s) (slot (kdir s) i)) = q * 4096.
Proof using Hk Hp Hsl.
  intros [H|(i & Hi & Hpr & Ha)]; [left; unfold d in H; lia|].
  destruct (ne_entry i Hi Hpr) as [[_ E]|(H1 & H2 & E)]; [left; rewrite E in Ha; unfold d in Ha; lia|].
  right. exists i. rewrite E in *. split; [lia|done].
Qed.

Lemma kd_dir : a_dir s (kdir s).
Proof using Type. by left. Qed.

Lemma ne_table_kernel q : is_table s d q -> q = p \/ is_table s (kdir s) q.
Proof using Hk Hp Hsl.
  intros H. destruct (ne_table q H) as [->|(i & Hi & _ & H')]; [by left|right]. right. exists i. split; [lia|done].
Qed.

Lemma ne_dir : pgdir_wf s l d.
Proof using Hk Hp Hnt Hsl.
  destruct ne_page as [Ed Ea]. destruct Hp as (Hr & Hpl & _). pose proof (km_dir _ _ _ Hk _ kd_dir) as Hd.
  assert (forall i, 955 <= i < 1024 -> present (load32 (mem s) (slot (kdir s) i)) = true ->
    PTE_ADDR (load32 (mem s) (slot (kdir s) i)) <> d) as Hne.
  { intros i Hi Hpr E. apply (Hnt _ kd_dir). right. exists i. split; [lia|done]. }
  split.
  - done.
  - unfold d. lia.
  - by rewrite Ed.
  - intros i Hi Hpr. destruct (ne_entry i Hi Hpr) as [[_ ->]|(H1 & H2 & E)]; [rewrite Ed; split; [lia|done]|].
    rewrite E in *. by apply (dw_table _ _ _ Hd).
  - intros i Hi Hu Hpr. rewrite PDX_UVPT in Hu. destruct (ne_entry i Hi Hpr) as [[? _]|(H1 & H2 & E)]; [done|].
    rewrite E in *. apply Hne; [lia|done].
  - intros i j Hi Hj Hiu Hju Hij Hpi Hpj. pose proof PDX_UVPT as Eu. rewrite Eu in Hiu, Hju.
    destruct (ne_entry i Hi Hpi) as [[? _]|(_ & _ & Ei)]; [done|]. destruct (ne_entry j Hj Hpj) as [[? _]|(_ & _ & Ej)]; [done|].
    rewrite Ei, Ej in *. apply (dw_distinct _ _ _ Hd); rewrite ?Eu; done.
Qed.

Lemma ne_absent va : 0 <= va < UTOP -> raw (mem s) d va = 0 /\ mapping (mem s) d va = None.
Proof using Hk Hsl.
  intros Hva. pose proof (user_PDX va Hva) as Hx.
  assert (pde (mem s) d va = 0) as E.
  { rewrite pde_slot, Hsl, decide_False by lia. apply (km_kempty _ _ _ Hk). lia. }
  assert (raw (mem s) d va = 0) as Er by (unfold raw; by rewrite E). split; [done|]. by rewrite mapping_raw, Er.
Qed.

Lemma ne_live e1 d1 : live s' e1 d1 <-> (e1 = e /\ d1 = d) \/ live s e1 d1.
Proof using Hk Hv Hv'.
  destruct ne_free as [Hf _]. destruct Hv' as (V1 & V2 & _). unfold live. change (envs s') with (<[e := v']> (envs s)).
  rewrite lookup_insert. case_decide as E.
  - subst e1. split.
    + intros (u & [= <-] & _ & Hd). left. split; [done|lia].
    + intros [[_ ->]|(u & Hu & Hs & _)]; [by exists v'|]. exfalso. apply Hs. congruence.
  - split; [by right|]. intros [[-> _]|H]; done.
Qed.

Lemma ne_a_dir f : a_dir s' f <-> f = d \/ a_dir s f.
Proof using Hk Hv Hv'.
  unfold a_dir. change (kdir s') with (kdir s). setoid_rewrite ne_live. split.
  - intros [->|(e1 & [[_ ->]|H])]; [right; by left|by left|right; right; by exists e1].
  - intros [->|[->|(e1 & H)]]; [right; exists e; by left|by left|right; exists e1; by right].
Qed.

Lemma ne_mappings q : mappings s' q = mappings s q.
Proof using Hk Hv Hv' Hsl.
  destruct ne_free as [Hf _]. destruct Hv' as (V1 & V2 & _).
  apply sum_to_ext; [done|]. intros i Hi. unfold mappings_in. change (envs s') with (<[e := v']> (envs s)).
  rewrite lookup_insert. case_decide as E; [|done]. subst i. rewrite Hv, bool_decide_eq_false_2, bool_decide_eq_true_2 by done.
  change (mem s') with (mem s). rewrite V1. replace (KERNBASE + d - KERNBASE) with d by lia.
  apply sum_to_zero; [done|]. intros j Hj. destruct (pgnum_user j Hj) as [Hx _]. unfold maps_to.
  by rewrite (proj2 (ne_absent _ Hx)).
Qed.

(** The new directory's own page is the only table that it adds. *)
Lemma ne_sep f q : a_dir s f -> user_table s f q -> ~ is_table s d q.
Proof using Hk Hp Hnt Hsl.
  intros Hf Hu Ht. pose proof (user_is_table _ _ _ Hu) as Hu'.
  destruct (ne_table q Ht) as [->|(i & Hi & Hi' & Hpr & Ha)]; [by apply (Hnt f)|].
  destruct (decide (f = kdir s)) as [->|Hne].
  - destruct Hu as [E|(j & Hj & Hpj & _)]; [|by rewrite (km_kempty _ _ _ Hk) in Hpj by done].
    apply (dw_self _ _ _ (km_dir _ _ _ Hk _ kd_dir) i); rewrite ?PDX_UVPT; [lia|done|done|lia].
  - apply (km_sep _ _ _ Hk f (kdir s) q Hf kd_dir Hne Hu). right. exists i. split; [lia|done].
Qed.

Lemma kmem_new_env : kmem s' l le.
Proof using All.
  destruct ne_free as [Hf Hn]. destruct Hv' as (V1 & V2 & V3). destruct Hp as (Hpr & Hpl & Hpref).
  split; change (mem s') with (mem s); change (kdir s') with (kdir s); change (npages s') with (npages s);
    try setoid_rewrite ne_live; try setoid_rewrite ne_a_dir.
  - apply (pages_wf_ext s); [apply Hk|done..].
  - apply (km_cpu _ _ _ Hk).
  - intros c Hc. destruct (km_cur _ _ _ Hk c Hc) as [f Hl]. exists f. by right.
  - intros i. rewrite <- (km_envs _ _ _ Hk i). change (envs s') with (<[e := v']> (envs s)).
    rewrite lookup_insert_is_Some. split; [|by destruct (decide (e = i)) as [->|]; [by left|right]].
    intros [<-|[_ H]]; [by exists v|done].
  - intros i u. change (envs s') with (<[e := v']> (envs s)). rewrite lookup_insert. case_decide as E.
    + intros [= <-]. split; [done|]. intros _. by exists d.
    + apply (km_env _ _ _ Hk).
  - destruct (km_chain _ _ _ Hk) as [C1 C2 C3]. apply list.NoDup_cons in C3 as [C3 C4]. split; [done| |done].
    intros i x Hx. destruct (C2 (S i) x Hx) as (u & Hu & Hu'). exists u. split; [|done].
    change (envs s') with (<[e := v']> (envs s)). rewrite lookup_insert_ne; [done|]. intros <-. apply C3.
    by apply list_elem_of_lookup_2 in Hx.
  - intros f [->|H]; [|by apply (km_dir _ _ _ Hk f) in H as [W1 W2 W3 W4 W5 W6]; split].
    by destruct ne_dir as [W1 W2 W3 W4 W5 W6]; split.
  - intros e1 d1 [[_ ->]|H]; [|by apply (km_self _ _ _ Hk e1)]. by rewrite Hsl, decide_True by lia.
  - intros e1 d1 i [[_ ->]|H] Hi Hne; [|by apply (km_kslots _ _ _ Hk e1)]. by rewrite Hsl, decide_False by lia.
  - apply (km_kempty _ _ _ Hk).
  - intros e1 e2 f [[-> ->]|H1] [[-> E]|H2]; try done; [| |by apply (km_one _ _ _ Hk e1 e2 f)].
    + by destruct (ne_dirs d); [apply (live_dir s e2)|].
    + subst f. by destruct (ne_dirs d); [apply (live_dir s e1)|].
  - intros e1 f [[-> ->]|H]; [|by apply (km_notk _ _ _ Hk e1)]. intros E. by apply (ne_dirs (kdir s)); [apply kd_dir|].
  - intros f g q [->|H1] [->|H2] Hne Hu Ht; [done| | |by apply (km_sep _ _ _ Hk f g q)].
    + apply ne_user_table in Hu as ->. by apply (Hnt g).
    + by apply (ne_sep f q).
  - intros e1 f q [[-> ->]|H] Hu; [|by apply (km_tabref _ _ _ Hk e1 f)]. by apply ne_user_table in Hu as ->.
  - intros e1 f va [[-> ->]|H] Hva; [|by apply (km_entry _ _ _ Hk e1)]. intros Hr. by destruct (ne_absent va Hva).
  - intros e1 f va w [[-> ->]|H] Hva Hw; [by destruct (ne_absent va Hva) as [_ E]; rewrite E in Hw|].
    destruct (km_map _ _ _ Hk e1 f va w H Hva Hw) as [K1 K2]. split; [done|]. intros g [->|Hg] Ht; [|by apply (K2 g)].
    destruct (ne_table_kernel _ Ht) as [E|Ht']; [by apply (Hnm e1 f va w)|by apply (K2 _ kd_dir)].
  - intros q. rewrite ne_mappings. apply (km_count _ _ _ Hk).
  - apply (km_guard _ _ _ Hk).
Qed.
End NewEnv.

(** *** sys_exofork *)

Lemma kmem_set_log s l le lg : kmem s l le -> kmem (set_log lg s) l le.
Proof. intros Hk. apply (kmem_free_pages s l le); try done. apply (pages_wf_ext s); [apply Hk|done..]. Qed.

Section Exofork.
Context (s : kstate) (l le : list Z) (c : Z).
Hypothesis Hk : kmem s l le.
Hypothesis Hcur : cur s = Some c.

Lemma kdir_ok : kern_dir_ok s l (kdir s).
Proof using Hk.
  destruct (kdir_eq s l le Hk) as [E _]. pose proof (km_dir _ _ _ Hk _ (kd_dir s)) as Hd.
  split; [done|apply Hd|apply Hd|apply Hd].
Qed.

(** The page and the record that env_alloc hands out. *)
Lemma kmem_handed_out p l1 e parent v m lg :
  l = p :: l1 -> env_free_list s = Some e -> envs s !! e = Some v -> fresh_pgdir s (kdir s) p m ->
  pages_wf (set_log lg (env_handed_out s p l1 e parent v m)) l1 ->
  exists le1, le = e :: le1 /\ kmem (set_log lg (env_handed_out s p l1 e parent v m)) l1 le1.
Proof using Hk.
  intros El Ef Hv Hfp Hw1. pose proof (ec_head _ _ (km_chain _ _ _ Hk)) as Hh. rewrite Ef in Hh.
  assert (exists le1, le = e :: le1) as [le1 Ele] by (clear - Hh; destruct le; naive_solver).
  exists le1. split; [done|]. pose proof Hk as Hk0. rewrite Ele in Hk0.
  set (sa := set_mem m (with_ref p 1 (popped p l1 s))).
  pose proof (km_pages _ _ _ Hk) as Hw. rewrite El in Hw.
  pose proof (pages_wf_range _ _ p Hw ltac:(constructor)) as Hpr.
  pose proof (wf_nodup _ _ Hw) as Hnd. apply list.NoDup_cons in Hnd as [Hpl _].
  assert (p ∈ l) as Hp by (rewrite El; constructor).
  assert (forall f x, a_dir s f -> is_table s f (x / 4096) -> load8 m x = load8 (mem s) x) as Hm.
  { intros f x Hf Ht. apply (fp_mem _ _ _ _ Hfp). intros E. apply (table_used s l le Hk f (x / 4096) Hf Ht). by rewrite E. }
  assert (forall q, ref_of sa q = if decide (q = p) then 1 else ref_of s q) as Hr.
  { intros q. unfold ref_of. cbn. case_decide as E; [subst; by rewrite lookup_alter_eq, lookup_insert_eq|].
    by rewrite lookup_alter_ne, lookup_insert_ne. }
  assert (kmem sa l1 (e :: le1)) as Ka.
  { rewrite <- Ele. apply (kmem_quiet s l le Hk m Hm sa l1); try done.
    - eapply pages_wf_ext; [exact Hw1|done..].
    - intros q Hq. rewrite El. by constructor.
    - intros q Hq. rewrite Hr, decide_False; [done|]. by intros ->.
    - intros q Hq. rewrite Hr. case_decide; [lia|]. by rewrite (free_ref s l le Hk). }
  assert (kmem (set_env_free_list (env_link v)
    (set_envs (<[e := env_alloc_init e parent (set_env_pgdir (KERNBASE + p * 4096) v)]> (envs sa)) sa)) l1 le1) as Kb.
  { apply (kmem_new_env sa l1 e le1 v _ p Ka Hv).
    - split; [done|]. split; [done|]. apply (km_env _ _ _ Hk e v Hv).
    - split; [exact Hpr|]. split; [done|]. by rewrite Hr, decide_True.
    - intros f Hf Ht. apply (table_used s l le Hk f p Hf); [|done]. revert Ht. apply is_table_slots.
      intros i Hi. by apply (quiet_slot s l le Hk m Hm).
    - intros e1 d1 va w Hl Hva Hw' E. change (mem sa) with m in Hw'.
      rewrite (quiet_mapping s l le Hk m Hm) in Hw' by by apply (live_dir s e1).
      destruct (mapped_ref s l le Hk e1 d1 va w Hl Hva Hw') as [_ Hn]. by rewrite E in Hn.
    - intros i Hi. change (mem sa) with m. change (kdir sa) with (kdir s).
      rewrite (quiet_slot s l le Hk m Hm (kdir s)) by (done || apply kd_dir). by apply (fp_slot _ _ _ _ Hfp). }
  exact (kmem_set_log _ l1 le1 lg Kb).
Qed.

Lemma exofork_returns : exists r s' l' le', Syscall.sys_exofork s = Ok r s' /\ kmem s' l' le'.
Proof using All.
  destruct (cur_run s l le c Hk Hcur) as (_ & Ec & cv & Hcv). unfold Syscall.sys_exofork. kstep Ec.
  kstep (get_env_run s c cv Hcv). pose proof (ec_head _ _ (km_chain _ _ _ Hk)) as Hh.
  destruct (env_free_list s) as [e|] eqn:Ef.
  2: { exists (- E_NO_FREE_ENV), s, l, le. split; [|done]. unfold env_alloc. ksteps. by rewrite Ef. }
  destruct (ec_link _ _ (km_chain _ _ _ Hk) O e ltac:(done)) as (v & Hv & Hf & _).
  assert (l = [] \/ exists p l1, l = p :: l1) as [El|(p & l1 & El)] by (clear; destruct l; eauto).
  { pose proof (km_pages _ _ _ Hk) as Hw. rewrite El in Hw. destruct (env_setup_vm_nomem s e Hw) as [lg E].
    exists (- E_NO_MEM), (set_log lg s), l, le. split.
    - unfold env_alloc. ksteps. rewrite Ef, bind_assoc. by kstep E.
    - by apply kmem_set_log. }
  pose proof (km_pages _ _ _ Hk) as Hw. pose proof kdir_ok as Hkd. rewrite El in Hw, Hkd.
  destruct (env_alloc_run s p l1 (kdir s) e (env_id cv) v Hw Hkd (km_cpu_ok s l le Hk) Ef Hv) as (m & lg & E & Hfp & Hw1).
  destruct (kmem_handed_out p l1 e (env_id cv) v m lg El Ef Hv Hfp Hw1) as (le1 & Ele & K1).
  set (s1 := set_log lg (env_handed_out s p l1 e (env_id cv) v m)) in *. kstep E.
  destruct (km_cur _ _ _ Hk c Hcur) as (f & u & Hu & Hs & _). assert (u = cv) as -> by congruence.
  assert (c <> e) as Hne by (intros ->; apply Hs; congruence).
  set (v1 := env_alloc_init e (env_id cv) (set_env_pgdir (KERNBASE + p * 4096) v)).
  assert (envs s1 = <[e := v1]> (envs s)) as Ee by reflexivity.
  assert (envs s1 !! c = Some cv) as Hcv1 by (rewrite Ee; by rewrite lookup_insert_ne).
  assert (envs s1 !! e = Some v1) as Hv1 by (rewrite Ee; apply lookup_insert_eq).
  kstep (get_env_run s1 c cv Hcv1).
  match goal with |- context [upd_env e ?f] => kstep (upd_env_run s1 e v1 f Hv1); set (v2 := f v1) end.
  set (s2 := set_envs (<[e := v2]> (envs s1)) s1).
  kstep (get_env_run s2 e v2 ltac:(apply lookup_insert_eq)). exists (env_id v2), s2, l1, le1. split; [reflexivity|].
  assert (env_status v1 <> ENV_FREE) as F1 by discriminate.
  assert (env_status v2 <> ENV_FREE) as F2 by discriminate.
  assert (env_pgdir v2 = env_pgdir v1) as F3 by (transitivity (KERNBASE + p * 4096); reflexivity).
  assert (0 <= env_ipc_dstva v2) as F4 by exact (proj1 (km_env _ _ _ Hk e v Hv)).
  exact (kmem_upd_env s1 l1 le1 e v1 v2 K1 Hv1 F1 F2 F3 F4).
Qed.
End Exofork.

(** ** The end of an address space *)

(** A live environment's space is its own, as env_free needs it. *)
Lemma kmem_owned s l le e d : kmem s l le -> small_refs s -> live s e d -> space_owned s l d.
Proof.
  intros Hk Hsm Hl. pose proof (live_dir s e d Hl) as Hd.
  assert (forall va, PDX va < UTABLES -> 0 <= PGNUM va < UPAGENUMS) as Hpg.
  { intros va Hx. pose proof (PDX_range va). rewrite PDX_div in *. rewrite PGNUM_div. unfold UPAGENUMS, UTABLES in *. zlia. }
  split.
  - apply Hk.
  - by apply (km_dir _ _ _ Hk).
  - intros va w Hx Hw. destruct (pgnum_user (PGNUM va) (Hpg va Hx)) as [Hva E].
    rewrite (mapping_same_page _ _ va (PGNUM va * 4096)) in Hw by by rewrite E.
    destruct (km_map _ _ _ Hk e d _ w Hl Hva Hw) as [K1 K2]. destruct (mapped_ref s l le Hk e d _ w Hl Hva Hw) as [_ K3].
    split; [done|]. split; [done|]. by apply K2.
  - intros p. rewrite <- (km_count _ _ _ Hk p), <- (live_in s e d p Hl).
    apply sum_to_elem; [by apply (live_env s l le Hk e d)|]. intros i _. apply mappings_in_nonneg.
  - intros p. pose proof (Hsm p). lia.
  - intros i Hi Hp. apply (km_tabref _ _ _ Hk e d); [done|]. right. exists i. split; [exact Hi|]. split; [done|].
    pose proof (PTE_ADDR_aligned (load32 (mem s) (slot d i))). zlia.
  - apply (km_tabref _ _ _ Hk e d); [done|]. by apply (dir_own_table s l le Hk).
  - rewrite PDX_UVPT, (km_self _ _ _ Hk e d Hl). pose proof (km_dir _ _ _ Hk d Hd) as Hw.
    pose proof (wf_npages _ _ (km_pages _ _ _ Hk)) as Hn. unfold MAXPAGES in Hn.
    pose proof (dw_range _ _ _ Hw). pose proof (dw_aligned _ _ _ Hw) as Ha.
    rewrite <- Z.lor_assoc. change (Z.lor PTE_P PTE_U) with 5. apply PTE_ADDR_lor; [lia|done|lia].
Qed.

Section Freed.
Context (s : kstate) (l le : list Z) (e d : Z) (v : Env) (t : kstate) (l' : list Z) (u : kstate).
Hypothesis Hk : kmem s l le.
Hypothesis Hown : space_owned s l d.
Hypothesis Hl : live s e d.
Hypothesis Hv : envs s !! e = Some v.
Hypothesis Hf : env_freed s l d e v t l'.
Hypothesis Hm : mem u = mem t.
Hypothesis Hrec : envs u = envs t /\ env_free_list u = env_free_list t.
Hypothesis Hpg : pages u = pages t /\ page_free_list u = page_free_list t /\ npages u = npages t /\ kern_pgdir u = kern_pgdir t.
Hypothesis Hcpu : is_Some (cpus u !! cpunum u).
Hypothesis Hcur : forall c, cur u = Some c -> c <> e /\ exists f, live s c f.

Let v' := set_env_link (env_free_list s) (set_env_status ENV_FREE (set_env_pgdir 0 v)).

Lemma fd_envs : envs u = <[e := v']> (envs s).
Proof using Hf Hrec. destruct Hrec as [-> _]. apply Hf. Qed.

Lemma fd_live i f : live u i f <-> live s i f /\ i <> e.
Proof using Hf Hrec.
  unfold live. rewrite fd_envs, lookup_insert. case_decide as E; [|by split; [|intros [? _]]].
  subst i. split; [|by intros [_ ?]]. intros (w & [= <-] & H & _). by destruct H.
Qed.

Lemma fd_kdir : kdir u = kdir s.
Proof using Hf Hpg. destruct Hpg as (_ & _ & _ & E). unfold kdir. rewrite E. by destruct (ef_rest _ _ _ _ _ _ _ Hf) as [-> _]. Qed.

Lemma fd_dir f : a_dir u f -> a_dir s f /\ f <> d.
Proof using Hf Hrec Hpg Hk Hl.
  intros [->|[i Hi]].
  - rewrite fd_kdir. split; [apply kd_dir|]. intros E. by apply (km_notk _ _ _ Hk e d).
  - apply fd_live in Hi as [Hi Hne]. split; [by apply (live_dir s i)|]. intros ->. apply Hne. by apply (km_one _ _ _ Hk i e d).
Qed.

Lemma fd_bytes f x : a_dir u f -> user_table s f (x / 4096) -> load8 (mem u) x = load8 (mem s) x.
Proof using Hf Hrec Hpg Hk Hl Hm.
  intros Hd Hu. destruct (fd_dir f Hd) as [Hd' Hne]. rewrite Hm. apply (ef_mem _ _ _ _ _ _ _ Hf).
  by apply (km_sep _ _ _ Hk f d _ Hd' (live_dir s e d Hl) Hne).
Qed.

Lemma fd_slot f i : a_dir u f -> 0 <= i < 1024 -> load32 (mem u) (slot f i) = load32 (mem s) (slot f i).
Proof using Hf Hrec Hpg Hk Hl Hm.
  intros Hd Hi. destruct (fd_dir f Hd) as [Hd' Hne]. apply same_slot; [apply (km_dir _ _ _ Hk f Hd')|done|].
  intros x Hx. apply (fd_bytes f); [done|]. rewrite Hx. by apply (dir_own_table s l le Hk).
Qed.

Lemma fd_table f p : a_dir u f -> (is_table u f p <-> is_table s f p) /\ (user_table u f p <-> user_table s f p).
Proof using Hf Hrec Hpg Hk Hl Hm.
  intros Hd. split; [split; apply is_table_slots; intros i Hi; [|symmetry]; by apply fd_slot|].
  split; intros [H|(i & Hi & H)]; (by left) || (right; exists i; rewrite fd_slot in * by (done || lia); done).
Qed.

Lemma fd_raw f va : a_dir u f -> 0 <= va < UTOP -> raw (mem u) f va = raw (mem s) f va.
Proof using Hf Hrec Hpg Hk Hl Hm.
  intros Hd Hva. pose proof (user_PDX va Hva) as Hx. unfold raw.
  assert (pde (mem u) f va = pde (mem s) f va) as Ep by (rewrite !pde_slot; apply fd_slot; auto with jos).
  rewrite Ep. destruct (present (pde (mem s) f va)) eqn:Hp; [|done]. rewrite !pte_slot, Ep.
  apply same_slot; [apply PTE_ADDR_aligned|auto with jos|]. intros x E. apply (fd_bytes f); [done|].
  rewrite E. right. exists (PDX va). rewrite <- pde_slot. split; [lia|]. split; [done|].
  pose proof (PTE_ADDR_aligned (pde (mem s) f va)). zlia.
Qed.

Lemma fd_mapping f va : a_dir u f -> 0 <= va < UTOP -> mapping (mem u) f va = mapping (mem s) f va.
Proof using Hf Hrec Hpg Hk Hl Hm. intros Hd Hva. by rewrite !mapping_raw, fd_raw. Qed.

(** A page that no user table of [d] is: only its mappings go. *)
Lemma fd_ref_other p : ~ user_table s d p -> ref_of u p = ref_of s p - page_refs (mem s) d p UPAGENUMS.
Proof using Hf Hpg.
  intros Hu. destruct Hpg as (E & _). unfold ref_of at 1. rewrite E. fold (ref_of t p). rewrite (ef_refs _ _ _ _ _ _ _ Hf).
  assert (table_refs (mem s) d p UTABLES = 0) as ->.
  { apply sum_to_zero; [done|]. intros i Hi. unfold table_ref. destruct (present _) eqn:Hp; [|done]. cbn [andb].
    destruct (Z.eqb_spec (PTE_ADDR (load32 (mem s) (slot d i))) (p * 4096)) as [Ea|]; [|done].
    destruct Hu. right. exists i. split; [exact Hi|done]. }
  destruct (Z.eqb_spec d (p * 4096)) as [Ed|]; [|lia]. destruct Hu. by left.
Qed.

(** No user page is a table. *)
Lemma table_unmapped f p : a_dir s f -> is_table s f p -> mappings s p = 0.
Proof using Hk.
  intros Hd Ht. apply sum_to_zero; [done|]. intros i Hi. unfold mappings_in.
  destruct (envs s !! i) as [w|] eqn:Ew; [|done]. case_bool_decide as Es; [done|].
  destruct (proj2 (km_env _ _ _ Hk i w Ew) Es) as [g Eg]. apply sum_to_zero; [done|]. intros j Hj.
  destruct (pgnum_user j Hj) as [Hva _]. unfold maps_to. replace (env_pgdir w - KERNBASE) with g by lia.
  destruct (mapping (mem s) g (j * 4096)) as [x|] eqn:Ex; [|done].
  destruct (Z.eqb_spec (PTE_ADDR x / 4096) p) as [E|]; [|done].
  destruct (km_map _ _ _ Hk i g (j * 4096) x) as [_ K]; [by exists w|done|done|]. rewrite E in K. by destruct (K f Hd).
Qed.

Lemma fd_ref_table f p : a_dir u f -> is_table s f p -> ~ user_table s d p -> ref_of u p = ref_of s p.
Proof using Hf Hrec Hpg Hk Hl.
  intros Hd Ht Hu. destruct (fd_dir f Hd) as [Hd' _]. rewrite fd_ref_other by done.
  pose proof (table_unmapped f p Hd' Ht). pose proof (page_refs_le s l le Hk e d p Hl). lia.
Qed.

Lemma fd_not_user f p : a_dir u f -> is_table s f p -> ~ user_table s d p.
Proof using Hf Hrec Hpg Hk Hl.
  intros Hd Ht Hu. destruct (fd_dir f Hd) as [Hd' Hne].
  by apply (km_sep _ _ _ Hk d f p (live_dir s e d Hl) Hd' (not_eq_sym Hne) Hu).
Qed.

(** The pages of the freed space are held once. *)
Lemma table_refs_one p : user_table s d p ->
  table_refs (mem s) d p UTABLES + (if d =? p * 4096 then 1 else 0) <= 1.
Proof using Hown.
  pose proof (so_dir _ _ _ Hown) as Hd. destruct (dir_refs s l d Hown) as [_ H0].
  intros [E|(i & Hi & Hp & Ha)].
  - rewrite E, Z.eqb_refl. assert (d / 4096 = p) as Ep by (rewrite <- E; by apply Z.div_mul). rewrite Ep in H0. lia.
  - assert (0 <= i < 1024 /\ i <> PDX UVPT) as [Hi1 Hi2] by (change (PDX UVPT) with 957; lia).
    assert ((d =? p * 4096) = false) as ->.
    { apply Z.eqb_neq. intros E. apply (dw_self _ _ _ Hd i Hi1 Hi2 Hp). congruence. }
    pose proof (sum_to_change (table_ref (mem s) d p) (fun _ => 0) UTABLES i Hi) as Hc.
    assert (forall j, 0 <= j < UTABLES -> j <> i -> table_ref (mem s) d p j = 0) as Hz.
    { intros j Hj Hne. unfold table_ref, UTABLES in *. destruct (present (load32 (mem s) (slot d j))) eqn:Hpj; [|done]. cbn [andb].
      destruct (Z.eqb_spec (PTE_ADDR (load32 (mem s) (slot d j))) (p * 4096)) as [Ej|]; [|done]. exfalso.
      apply (dw_distinct _ _ _ Hd i j); try done; try congruence; change (PDX UVPT) with 957; lia. }
    specialize (Hc Hz). rewrite (sum_to_zero (fun _ => 0)) in Hc by done. unfold table_refs.
    assert (table_ref (mem s) d p i <= 1) by (unfold table_ref; case_if; lia). lia.
Qed.

Lemma fd_mappings p : mappings u p = mappings s p - page_refs (mem s) d p UPAGENUMS.
Proof using Hf Hrec Hpg Hk Hl Hm Hv.
  pose proof (sum_to_change (mappings_in u p) (mappings_in s p) NENV e (live_env s l le Hk e d Hl)) as Hc.
  fold (mappings u p) (mappings s p) in Hc.
  assert (forall i, 0 <= i < NENV -> i <> e -> mappings_in u p i = mappings_in s p i) as Hi.
  { intros i Hi Hne. unfold mappings_in. rewrite fd_envs, lookup_insert_ne by done.
    destruct (envs s !! i) as [w|] eqn:Ew; [|done]. case_bool_decide as Es; [done|].
    destruct (proj2 (km_env _ _ _ Hk i w Ew) Es) as [g Eg]. replace (env_pgdir w - KERNBASE) with g by lia.
    assert (a_dir u g) as Hg.
    { right. exists i. apply fd_live. split; [|done]. exists w. done. }
    apply sum_to_ext; [done|]. intros j Hj. destruct (pgnum_user j Hj) as [Hva _]. unfold maps_to. by rewrite fd_mapping. }
  specialize (Hc Hi). rewrite (live_in s e d p Hl) in Hc.
  assert (mappings_in u p e = 0) as E0; [|lia].
  unfold mappings_in. rewrite fd_envs, lookup_insert_eq. by rewrite bool_decide_eq_true_2.
Qed.

Lemma fd_guard va : UTOP <= va < 0x100000000 -> PDX va <> 957 -> mmu (mem u) (kdir s) va true true = None.
Proof using Hf Hrec Hpg Hk Hl Hm.
  intros Hva Hx. pose proof (kd_dir s) as Hkd. rewrite <- (km_guard _ _ _ Hk va Hva Hx).
  assert (a_dir u (kdir s)) as Hkd' by (left; by rewrite fd_kdir).
  assert (955 <= PDX va) as Hge.
  { change UTOP with 0xeec00000 in Hva. rewrite PDX_div, u32_small by lia. zlia. }
  pose proof (PDX_range va) as Hr. destruct (ef_kernel _ _ _ _ _ _ _ Hf va Hge ltac:(by rewrite PDX_UVPT)) as [Ep Em].
  rewrite <- Hm in Ep, Em.
  assert (pde (mem u) (kdir s) va = pde (mem s) (kdir s) va) as Ek by (rewrite !pde_slot; by apply fd_slot).
  assert (pde (mem s) (kdir s) va = pde (mem s) d va) as Ed.
  { rewrite !pde_slot. symmetry. apply (km_kslots _ _ _ Hk e); [done|lia|done]. }
  assert (mapping (mem u) (kdir s) va = mapping (mem s) (kdir s) va) as Emk.
  { rewrite (mapping_pde (mem u) (kdir s) d) by congruence. rewrite Em. by apply mapping_pde. }
  unfold mmu. rewrite (dir_addr s l le Hk (kdir s) Hkd), Emk, Ek. done.
Qed.

Lemma kmem_freed : kmem u l' (e :: le).
Proof using All.
  assert (a_dir u (kdir s)) as Hkd' by (left; by rewrite fd_kdir).
  destruct (ef_rest _ _ _ _ _ _ _ Hf) as (_ & En & _). destruct Hpg as (P1 & P2 & P3 & P4).
  pose proof Hl as (v0 & Hv0 & Hs0 & _). assert (v0 = v) as -> by congruence.
  assert (forall f, a_dir u f -> pgdir_wf u l' f) as Hdir.
  { intros f Hd. destruct (fd_dir f Hd) as [Hd' Hne]. apply (pgdir_wf_mono s u l l'); [by apply (km_dir _ _ _ Hk)|congruence| |].
    - intros i Hi. by rewrite fd_slot.
    - intros p Hp. apply (ef_list _ _ _ _ _ _ _ Hf) in Hp as [Hp|[H1 H2]]; [by left|right]. intros Ht.
      pose proof (fd_ref_table f p Hd Ht (fd_not_user f p Hd Ht)) as E. unfold ref_of at 1 in E. rewrite P1 in E.
      fold (ref_of t p) in E. lia. }
  split; rewrite ?fd_kdir.
  - apply (pages_wf_ext t); [apply Hf|done..].
  - done.
  - intros c Hc. destruct (Hcur c Hc) as (Hne & f & Hlc). exists f. by apply fd_live.
  - intros i. rewrite <- (km_envs _ _ _ Hk i), fd_envs, lookup_insert_is_Some.
    split; [|by destruct (decide (e = i)) as [->|]; [by left|right]]. intros [<-|[_ H]]; [by exists v|done].
  - intros i w. rewrite fd_envs, lookup_insert. case_decide as E; [|apply (km_env _ _ _ Hk)].
    intros [= <-]. split; [exact (proj1 (km_env _ _ _ Hk e v Hv))|]. intros H. by destruct H.
  - destruct (km_chain _ _ _ Hk) as [C1 C2 C3]. destruct Hrec as [R1 R2].
    assert ((e ∉ le)) as Hel.
    { intros H. apply list_elem_of_lookup in H as [i Hi]. destruct (C2 i e Hi) as (w & Hw & Hws & _). congruence. }
    split; [rewrite R2; apply Hf| |by constructor]. intros [|i] x; cbn [lookup list_lookup].
    + intros [= <-]. exists v'. rewrite fd_envs, lookup_insert_eq. split; [done|]. split; [done|]. exact C1.
    + intros Hx. destruct (C2 i x Hx) as (w & Hw & Hw'). exists w. split; [|done].
      rewrite fd_envs, lookup_insert_ne; [done|]. intros <-. apply Hel. by apply list_elem_of_lookup_2 in Hx.
  - done.
  - intros i f Hi. pose proof (live_dir u i f Hi) as Hd. rewrite fd_slot by (done || lia).
    apply fd_live in Hi as [Hi _]. by apply (km_self _ _ _ Hk i).
  - intros i f j Hi Hj Hne. pose proof (live_dir u i f Hi) as Hd. rewrite !fd_slot by (done || lia).
    apply fd_live in Hi as [Hi _]. by apply (km_kslots _ _ _ Hk i).
  - intros i Hi. rewrite fd_slot by (done || lia). by apply (km_kempty _ _ _ Hk).
  - intros i j f Hi Hj. apply fd_live in Hi as [Hi _], Hj as [Hj _]. by apply (km_one _ _ _ Hk i j f).
  - intros i f Hi. apply fd_live in Hi as [Hi _]. by apply (km_notk _ _ _ Hk i f).
  - intros f g p Hd Hg Hne Hu Ht. apply (fd_table f p Hd) in Hu. apply (fd_table g p Hg) in Ht.
    apply fd_dir in Hd as [Hd _], Hg as [Hg _]. by apply (km_sep _ _ _ Hk f g p).
  - intros i f p Hi Hu. pose proof (live_dir u i f Hi) as Hd. apply (fd_table f p Hd) in Hu.
    pose proof (user_is_table _ _ _ Hu) as Ht. rewrite (fd_ref_table f p Hd Ht (fd_not_user f p Hd Ht)).
    apply fd_live in Hi as [Hi _]. by apply (km_tabref _ _ _ Hk i f).
  - intros i f va Hi Hva. unfold entry_ok. rewrite fd_raw by (done || by apply (live_dir u i)).
    apply fd_live in Hi as [Hi _]. by apply (km_entry _ _ _ Hk i).
  - intros i f va w Hi Hva. rewrite fd_mapping by (done || by apply (live_dir u i)). intros Hw.
    apply fd_live in Hi as [Hi _]. destruct (km_map _ _ _ Hk i f va w Hi Hva Hw) as [K1 K2].
    split; [congruence|]. intros g Hg Ht. apply (fd_table g _ Hg) in Ht. apply fd_dir in Hg as [Hg _]. by apply (K2 g).
  - intros p. rewrite fd_mappings. pose proof (km_count _ _ _ Hk p) as Hc. pose proof (page_refs_le s l le Hk e d p Hl) as Hr.
    assert (user_table s d p \/ ~ user_table s d p) as [Hu|Hu].
    { destruct (decide (d = p * 4096)) as [->|Hne]; [left; by left|].
      destruct (decide (Exists (fun i => present (load32 (mem s) (slot d i)) = true /\
        PTE_ADDR (load32 (mem s) (slot d i)) = p * 4096) (seqZ 0 955))) as [H|H].
      - apply list.Exists_exists in H as (i & Hi & H). apply elem_of_seqZ in Hi. left. right. exists i. split; [lia|done].
      - right. intros [E|(i & Hi & E)]; [by apply Hne|]. apply H, list.Exists_exists. exists i. split; [apply elem_of_seqZ; lia|done]. }
    2: { rewrite fd_ref_other by done. lia. }
    pose proof (table_unmapped d p (live_dir s e d Hl) (user_is_table _ _ _ Hu)) as H0.
    pose proof (km_tabref _ _ _ Hk e d p Hl Hu) as H1. pose proof (table_refs_one p Hu) as H2.
    unfold ref_of. rewrite P1. fold (ref_of t p). rewrite (ef_refs _ _ _ _ _ _ _ Hf). lia.
  - intros va. apply fd_guard.
Qed.
End Freed.

(** ** What user code reaches *)

Section Reach.
Context (s : kstate) (l le : list Z).
Hypothesis Hk : kmem s l le.

(** Nothing at or above UTOP is writable in any address space. *)
Lemma write_below e d va a : live s e d -> 0 <= va < 0x100000000 -> mmu (mem s) d va true true = Some a -> va < UTOP.
Proof using Hk.
  intros Hl Hva Ha. destruct (Z.lt_ge_cases va UTOP) as [|Hge]; [done|]. exfalso.
  assert (955 <= PDX va) as Hx.
  { change UTOP with 0xeec00000 in Hge. rewrite PDX_div, u32_small by lia. zlia. }
  pose proof (PDX_range va) as Hr. pose proof (live_dir s e d Hl) as Hd. pose proof (dir_addr s l le Hk d Hd) as Ed.
  unfold mmu in Ha. rewrite Ed in Ha.
  destruct (decide (PDX va = 957)) as [E|Hne].
  - assert (pde (mem s) d va = Z.lor (Z.lor d PTE_P) PTE_U) as Ep by (rewrite pde_slot, E; by apply (km_self _ _ _ Hk e)).
    destruct (mapping (mem s) d va) as [w|]; [|done]. cbv zeta in Ha. rewrite Ep in Ha.
    assert (Z.land (Z.land (Z.lor (Z.lor d PTE_P) PTE_U) w) PTE_W = 0) as E0.
    { pose proof (dw_aligned _ _ _ (km_dir _ _ _ Hk d Hd)) as Hal. apply Z.bits_inj'. intros i Hi.
      rewrite !Z.land_spec, !Z.lor_spec, Z.bits_0. change PTE_W with (2 ^ 1). rewrite Z.pow2_bits_eqb by lia.
      destruct (Z.eqb_spec 1 i) as [<-|]; [|by rewrite andb_false_r].
      assert (Z.testbit d 1 = false) as ->.
      { replace d with (d / 4096 * 2 ^ 12) by (change (2 ^ 12) with 4096; zlia). apply Z.mul_pow2_bits_low. lia. }
      done. }
    rewrite E0 in Ha. cbn [ctrue Z.eqb negb andb] in Ha. by destruct (negb _).
  - assert (pde (mem s) d va = pde (mem s) (kdir s) va) as Ep.
    { rewrite !pde_slot. apply (km_kslots _ _ _ Hk e); [done|lia|done]. }
    pose proof (km_guard _ _ _ Hk va ltac:(lia) Hne) as Hg. unfold mmu in Hg.
    rewrite (dir_addr s l le Hk (kdir s) (kd_dir s)) in Hg.
    rewrite (mapping_pde (mem s) d (kdir s)), Ep in Ha by done. by rewrite Hg in Ha.
Qed.

Lemma mmu_page m d va a u w : mmu m d va u w = Some a ->
  exists x, mapping m (PTE_ADDR d) va = Some x /\ a / 4096 = PTE_ADDR x / 4096.
Proof using Type.
  unfold mmu. destruct (mapping m (PTE_ADDR d) va) as [x|]; [|done]. cbv zeta. repeat case_if; try done.
  intros [= <-]. exists x. split; [done|]. pose proof (PTE_ADDR_aligned x). pose proof (PGOFF_range va). zlia.
Qed.

(** A page that user code writes was handed out and holds no table. *)
Lemma write_page e d va a : live s e d -> 0 <= va < 0x100000000 -> mmu (mem s) d va true true = Some a ->
  va < UTOP /\ (a / 4096 ∉ l) /\ 1 <= ref_of s (a / 4096) /\ forall f, a_dir s f -> ~ is_table s f (a / 4096).
Proof using Hk.
  intros Hl Hva Ha. pose proof (write_below e d va a Hl Hva Ha) as Hu. split; [done|].
  destruct (mmu_page _ _ _ _ _ _ Ha) as (x & Hx & ->). rewrite (dir_addr s l le Hk d (live_dir s e d Hl)) in Hx.
  destruct (km_map _ _ _ Hk e d va x Hl ltac:(lia) Hx) as [K1 K2].
  by destruct (mapped_ref s l le Hk e d va x Hl ltac:(lia) Hx) as [K3 K4].
Qed.

Lemma kmem_user_store e d va a x : live s e d -> 0 <= va < 0x100000000 -> mmu (mem s) d va true true = Some a ->
  kmem (set_mem (store8 (mem s) a x) s) l le.
Proof using Hk.
  intros Hl Hva Ha. pose proof (write_below e d va a Hl Hva Ha) as Hu.
  destruct (mmu_page _ _ _ _ _ _ Ha) as (y & Hy & Ey). rewrite (dir_addr s l le Hk d (live_dir s e d Hl)) in Hy.
  by apply (kmem_store s l le e d va a y x Hk Hl ltac:(lia) Hy Ey).
Qed.
End Reach.

(** ** Entering an environment *)

(** A record that stands for the same space. *)
Definition same_record (v v' : Env) : Prop :=
  (env_status v' = ENV_FREE <-> env_status v = ENV_FREE) /\ env_pgdir v' = env_pgdir v /\
  env_link v' = env_link v /\ env_ipc_dstva v' = env_ipc_dstva v.

Definition same_records (m m' : gmap Z Env) : Prop := forall i,
  match m !! i, m' !! i with Some v, Some v' => same_record v v' | None, None => True | _, _ => False end.

Lemma same_records_alter m m' f k : same_records m m' -> (forall v v', m !! k = Some v -> same_record v v' -> same_record v (f v')) ->
  same_records m (alter f k m').
Proof.
  intros H Hf i. pose proof (H i) as Hi. rewrite lookup_alter. case_decide as E; [|done]. subst i.
  destruct (m !! k) as [v|] eqn:Ev, (m' !! k) as [v'|]; try done. by apply (Hf v).
Qed.

Lemma demote_same v v' : same_record v v' -> same_record v (demote v').
Proof.
  intros (H1 & H2 & H3 & H4). unfold demote. case_bool_decide as E; [|done]. split; [|done]. cbn. rewrite <- H1.
  split; [done|]. intros E'. congruence.
Qed.

Lemma run_records s e tf v : envs s !! e = Some v -> env_status v <> ENV_FREE ->
  same_records (envs s) (alter (set_env_tf tf) e (after_run s e)).
Proof.
  intros Hv Hs. apply same_records_alter; [|by intros u u' _ H].
  unfold after_run. apply same_records_alter.
  - assert (same_records (envs s) (envs s)) as H0 by (intros i; by destruct (envs s !! i)).
    destruct (cur s) as [o|]; [|done]. apply same_records_alter; [done|]. intros u u' _. apply demote_same.
  - intros u u' Hu (H1 & H2 & H3 & H4). split; [|done]. cbn. split; [done|]. congruence.
Qed.

Lemma kmem_resumed s l le e v s1 tf :
  kmem s l le -> envs s !! e = Some v -> env_status v <> ENV_FREE -> Sched.entered s e s1 -> kmem (Sched.resumed s1 tf) l le.
Proof.
  intros Hk Hv Hs He. pose proof (Sched.entered_cur _ _ _ He) as Hc.
  assert (envs (Sched.resumed s1 tf) = alter (set_env_tf tf) e (after_run s e)) as Ee.
  { unfold Sched.resumed. rewrite Hc. cbn [envs set_kernel_lock set_envs]. by rewrite (en_envs _ _ _ He). }
  destruct (en_lists _ _ _ He) as (L1 & L2 & L3). destruct (proj2 (km_env _ _ _ Hk e v Hv) Hs) as [d Hd].
  apply (kmem_records s l le (Sched.resumed s1 tf) Hk). split.
  - exact (en_mem _ _ _ He).
  - split; [exact (en_pages _ _ _ He)|]. done.
  - exact (en_kern_pgdir _ _ _ He).
  - exact L3.
  - intros i. rewrite Ee. pose proof (run_records s e tf v Hv Hs i) as H.
    destruct (envs s !! i) as [w|] eqn:Ew, (alter (set_env_tf tf) e (after_run s e) !! i) as [w'|]; try done. destruct H as (H1 & H2 & H3 & H4).
    split; [done|]. split; [done|]. split; [done|]. rewrite H4. apply (km_env _ _ _ Hk i w Ew).
  - change (is_Some (cpus s1 !! cpunum s1)). destruct (en_cpus _ _ _ He) as (c & _ & ->).
    rewrite (en_cpunum _ _ _ He), lookup_insert_eq. eauto.
  - intros c Hc'. change (cur (Sched.resumed s1 tf)) with (cur s1) in Hc'. assert (c = e) as -> by congruence.
    exists d, v. done.
Qed.

(** ** Destroying an environment *)

Section Destroy.
Context (s : kstate) (l le : list Z) (c : Z).
Hypothesis Hk : kmem s l le.
Hypothesis Hcur : cur s = Some c.
Hypothesis Hsm : small_refs s.

Lemma free_run e d v : live s e d -> envs s !! e = Some v ->
  exists t l', env_free e s = Ok tt t /\ env_freed s l d e v t l'.
Proof using Hk Hsm.
  intros Hl Hv. destruct (kdir_eq s l le Hk) as [Ek Ek'].
  apply env_free_run; [done| |by apply (kmem_owned s l le e d)|by apply (km_cpu_ok s l le)|lia].
  destruct Hl as (w & Hw & _ & Hd). congruence.
Qed.

Lemma destroy_other e d : live s e d -> e <> c ->
  exists t l' le', env_destroy e s = Ok tt t /\ kmem t l' le'.
Proof using All.
  intros Hl Hne. pose proof Hl as (v & Hv & Hs & Hd). destruct (cur_run s l le c Hk Hcur) as (Ec & _ & _).
  unfold env_destroy. kstep (get_env_run s e v Hv). kstep Ec.
  destruct (bool_decide (env_status v = ENV_RUNNING) && negb (bool_decide (Some c = Some e))).
  { eexists _, l, le. split; [by apply (upd_env_run s e v (set_env_status ENV_DYING))|].
    by apply (kmem_upd_env s l le e v); [..|apply (km_env _ _ _ Hk e v Hv)]. }
  destruct (free_run e d v Hl Hv) as (t & l' & Et & Hf). kstep Et.
  destruct (ef_rest _ _ _ _ _ _ _ Hf) as (E1 & E2 & E3). pose proof (ef_cpus _ _ _ _ _ _ _ Hf) as E4.
  destruct (km_cpu _ _ _ Hk) as [i Hi]. pose proof Hcur as Hc. unfold cur in Hc. rewrite Hi in Hc. cbn in Hc.
  assert (cpus t !! cpunum t = Some i) as Hi' by (rewrite E3, E4; exact Hi).
  exists t, l', (e :: le). split; [kstep (curenv_run t i Hi'); rewrite Hc, bool_decide_eq_false_2 by congruence; done|].
  apply (kmem_freed s l le e d v t l' t Hk (kmem_owned s l le e d Hk Hsm Hl) Hl Hv Hf); try done.
  intros o Ho. unfold cur in Ho. rewrite Hi' in Ho. cbn in Ho. assert (o = c) as -> by congruence.
  split; [done|]. by apply (km_cur _ _ _ Hk).
Qed.

(** The current environment: what env_destroy does before it yields. *)
Lemma destroy_self : exists t l' le', (_ ← env_free c; set_curenv None) s = Ok tt t /\ kmem t l' le' /\ cur t = None.
Proof using All.
  destruct (km_cur _ _ _ Hk c Hcur) as [d Hl]. pose proof Hl as (v & Hv & _).
  destruct (free_run c d v Hl Hv) as (t & l' & Et & Hf).
  destruct (ef_rest _ _ _ _ _ _ _ Hf) as (E1 & E2 & E3). pose proof (ef_cpus _ _ _ _ _ _ _ Hf) as E4.
  destruct (km_cpu _ _ _ Hk) as [i Hi]. assert (cpus t !! cpunum t = Some i) as Hi' by (rewrite E3, E4; exact Hi).
  set (u := set_cpus (<[cpunum t := set_cpu_env None i]> (cpus t)) t).
  assert (cpus u !! cpunum u = Some (set_cpu_env None i)) as Hu by apply lookup_insert_eq.
  assert (cur u = None) as Hcu by (unfold cur; by rewrite Hu).
  exists u, l', (c :: le). split; [kstep Et; exact (upd_cpu_run t i (set_cpu_env None) Hi')|]. split; [|done].
  apply (kmem_freed s l le c d v t l' u Hk (kmem_owned s l le c d Hk Hsm Hl) Hl Hv Hf); try done.
  intros o Ho. by rewrite Hcu in Ho.
Qed.
End Destroy.

Lemma env_destroy_returns s l le c envid :
  kmem s l le -> cur s = Some c -> small_refs s ->
  (forall e, envid2env envid true s = Ok (0, Some e) s -> e <> c) ->
  exists r s' l' le', Syscall.sys_env_destroy envid s = Ok r s' /\ kmem s' l' le'.
Proof.
  intros Hk Hcur Hsm Hne. destruct (envid2env_total s l le c Hk Hcur envid true) as (r & x & E & Hx).
  destruct (decide (r = 0)) as [->|Hr].
  2: { exists r, s, l, le. split; [|done]. by apply (with_env_err _ _ _ _ x). }
  destruct (Hx eq_refl) as (e & d & -> & Hl). specialize (Hne e E). pose proof Hl as (v & Hv & _).
  destruct (cur_run s l le c Hk Hcur) as (_ & Ec & cv & Hcv).
  unfold Syscall.sys_env_destroy. rewrite (with_env_ok _ _ _ _ _ E). kstep Ec. kstep (get_env_run s c cv Hcv).
  kstep (get_env_run s e v Hv). rewrite (proj2 (Z.eqb_neq e c)) by done. cbv iota. unfold Kernel.cprintf. rewrite bind_tell.
  set (s1 := set_log _ s).
  assert (exists t l' le', env_destroy e s1 = Ok tt t /\ kmem t l' le') as (t & l' & le' & Et & Kt).
  2: { exists 0, t, l', le'. split; [by kstep Et|done]. }
  by apply (destroy_other s1 l le c (kmem_set_log s l le _ Hk) Hcur Hsm e d).
Qed.
