(* ===== verification/Reachable.v ===== *)
(** * Reachable: the states that the system reaches

    env_create and env_init establish and keep the invariant of [Isolation]; the steps
    of the whole system, kernel and user code, are a relation, and in every state
    they reach the address spaces are isolated from each other and from the kernel. *)

From S2P Require Import Prelude Layout Segments Memory CString Printfmt Kernel PageAlloc PageTable Env EnvFree MemInit Sched Syscall Trap Upcall Ulib Cow Fork Load Isolation Spaces.

(** ** Environments that the kernel creates *)

(** The space that load_icode builds. *)
Lemma building_step s l le e d t lt :
  kmem s l le -> live s e d -> (forall va, 0 <= va < UTOP -> mapping (mem s) d va = None) ->
  building s l d t lt -> same_else s t -> dir_step s l d (-1) t lt.
Proof.
  intros Hk Hl H0 Hb Hs. destruct (bd_account _ _ _ _ _ Hb) as [A1 A2 A3 A4].
  assert (forall p, page_refs (mem s) d p UPAGENUMS = 0) as Hs0.
  { intros p. apply sum_to_zero; [done|]. intros i Hi. destruct (pgnum_user i Hi) as [Hva _]. unfold maps_to. by rewrite H0. }
  assert (forall va w, 0 <= va < UTOP -> mapping (mem t) d va = Some w -> PTE_ADDR w / 4096 ∈ l /\
    ~ is_table t d (PTE_ADDR w / 4096) /\ ref_of t (PTE_ADDR w / 4096) = 1) as Hpg.
  { intros va w Hva Hw. destruct (bd_page _ _ _ _ _ Hb va w Hva Hw) as (q & -> & Hq & K1 & _ & K2 & K3).
    by rewrite loaded_entry_addr, Z.div_mul by lia. }
  split.
  - done.
  - apply Hb.
  - apply Hb.
  - apply (bd_mem _ _ _ _ _ Hb).
  - apply (bd_kernel _ _ _ _ _ Hb).
  - intros p [E|(i & Hi & Hp & Ha)]; [left; by left|right].
    destruct (bd_tables _ _ _ _ _ Hb i Hi Hp) as [Hin _]. pose proof (A3 i Hi Hp) as Hr.
    rewrite Ha, Z.div_mul in Hin, Hr by lia. done.
  - intros p Hp. left. by apply (bd_sub _ _ _ _ _ Hb).
  - intros va Hva _. by apply A4.
  - apply (bd_kmap _ _ _ _ _ Hb).
  - intros va w Hva Hw. right. right. destruct (Hpg va w Hva Hw) as (K1 & K2 & _). split; [done|]. split; [|done].
    by apply (pages_wf_range _ _ _ (km_pages _ _ _ Hk)).
  - intros p Hp. rewrite A1, Hs0 by done. assert (page_refs (mem t) d p UPAGENUMS = 0) as ->; [|lia].
    apply sum_to_zero; [done|]. intros i Hi. destruct (pgnum_user i Hi) as [Hva _]. unfold maps_to.
    destruct (mapping (mem t) d (i * 4096)) as [w|] eqn:Ew; [|done].
    destruct (Z.eqb_spec (PTE_ADDR w / 4096) p) as [<-|]; [|done]. by destruct (Hpg _ _ Hva Ew).
  - intros p Hp. destruct (decide (Exists (fun i => maps_to (mem t) d (i * 4096) p = 1) (seqZ 0 UPAGENUMS))) as [H|H].
    + apply list.Exists_exists in H as (j & Hj & Hm). apply elem_of_seqZ in Hj.
      assert (forall i, 0 <= i < UPAGENUMS -> maps_to (mem t) d (i * 4096) p = 1 -> exists w,
        mapping (mem t) d (i * 4096) = Some w /\ PTE_ADDR w / 4096 = p) as Hw.
      { intros i Hi. unfold maps_to. destruct (mapping (mem t) d (i * 4096)) as [w|]; [|done].
        destruct (Z.eqb_spec (PTE_ADDR w / 4096) p); [|done]. intros _. by exists w. }
      destruct (Hw j ltac:(lia) Hm) as (w & Ew & Ep). destruct (pgnum_user j ltac:(lia)) as [Hva Ej].
      destruct (Hpg _ _ Hva Ew) as (_ & _ & Hr). rewrite Ep in Hr. rewrite Hr. unfold page_refs.
      rewrite (sum_to_single _ UPAGENUMS j); [rewrite Hm; lia|lia|]. intros i Hi Hne.
      pose proof (maps_to_range (mem t) d (i * 4096) p). destruct (decide (maps_to (mem t) d (i * 4096) p = 1)) as [E1|]; [|lia].
      exfalso. destruct (Hw i Hi E1) as (w' & Ew' & Ep'). destruct (pgnum_user i Hi) as [Hva' Ei].
      destruct (bd_page _ _ _ _ _ Hb _ _ Hva Ew) as (q & Eq & Hq & _), (bd_page _ _ _ _ _ Hb _ _ Hva' Ew') as (q' & Eq' & Hq' & _).
      rewrite Eq, loaded_entry_addr, Z.div_mul in Ep by lia. rewrite Eq', loaded_entry_addr, Z.div_mul in Ep' by lia.
      apply Hne. rewrite <- Ei, <- Ej. apply (bd_inj _ _ _ _ _ Hb _ _ w); congruence.
    + unfold page_refs. rewrite sum_to_zero; [by apply A2|done|]. intros i Hi.
      pose proof (maps_to_range (mem t) d (i * 4096) p). destruct (decide (maps_to (mem t) d (i * 4096) p = 1)) as [E1|]; [|lia].
      destruct H. apply list.Exists_exists. exists i. split; [apply elem_of_seqZ; lia|done].
Qed.

Lemma kmem_built s l le e d t lt :
  kmem s l le -> live s e d -> (forall va, 0 <= va < UTOP -> mapping (mem s) d va = None) ->
  building s l d t lt -> same_else s t -> kmem t lt le.
Proof.
  intros Hk Hl H0 Hb Hs. apply (kmem_dir_step s l le e d (-1) t lt Hk Hl); [|by apply (building_step s l le e)].
  pose proof (wf_npages _ _ (km_pages _ _ _ Hk)) as Hn. split; [lia|]. split.
  - intros Hin. apply (pages_wf_range _ _ _ (km_pages _ _ _ Hk)) in Hin. lia.
  - intros f Hf [E|(i & _ & _ & E)].
    + pose proof (dw_range _ _ _ (km_dir _ _ _ Hk f Hf)). lia.
    + pose proof (PTE_ADDR_range (load32 (mem s) (slot f i))). lia.
Qed.

(** The executing CPU and its current environment do not matter otherwise. *)
Lemma kmem_cpus s l le s' : kmem s l le -> mem s' = mem s -> pages s' = pages s -> page_free_list s' = page_free_list s ->
  npages s' = npages s -> kern_pgdir s' = kern_pgdir s -> env_free_list s' = env_free_list s -> envs s' = envs s ->
  is_Some (cpus s' !! cpunum s') -> (forall c, cur s' = Some c -> exists d, live s c d) -> kmem s' l le.
Proof.
  intros Hk E1 E2 E3 E4 E5 E6 E7 Hc Hcur. apply (kmem_records s); [done|]. split; try done.
  intros e. rewrite E7. destruct (envs s !! e) as [v|] eqn:Ev; [|done]. split; [done|]. split; [done|]. split; [done|].
  apply (km_env _ _ _ Hk e v Ev).
Qed.

Lemma building_base s s' l d t lt :
  building s l d t lt -> mem s' = mem s -> pages s' = pages s -> building s' l d t lt.
Proof.
  intros [B1 B2 B3 B4 B5 B6 B7 B8 B9 [A1 A2 A3 A4]] Em Ep. split; rewrite ?Em; try done.
  - unfold is_table. by rewrite Em.
  - split; try done. intros p Hp. rewrite A1 by done. unfold ref_of. by rewrite Ep.
Qed.

Lemma kmem_cr3 s l le c : kmem s l le -> kmem (set_cr3 c s) l le.
Proof. intros Hk. apply (kmem_cpus s); try done; [apply (km_cpu _ _ _ Hk)|apply (km_cur _ _ _ Hk)]. Qed.

Lemma kmem_env_create s p l le e v binary size type :
  kmem s (p :: l) le -> creatable s p l e v (kdir s) binary size ->
  exists t l' le', env_create binary type s = Ok tt t /\ kmem t l' le'.
Proof.
  intros Hk Hcr.
  destruct (env_create_run s p l e v (kdir s) binary size type Hcr) as (t & lt & v' & m & lg & E & Hfp & _ & Ee & Hv' & Hld & Ed & Hw & Hs).
  destruct (cr_free _ _ _ _ _ _ _ _ Hcr) as [Hfl He]. destruct (cr_env _ _ _ _ _ _ _ _ Hcr) as [Hv Hid].
  destruct (kmem_handed_out s (p :: l) le Hk p l e 0 v m lg eq_refl Hfl Hv Hfp Hw) as (le1 & Ele & K1).
  set (s1 := set_log lg (env_handed_out s p l e 0 v m)) in *.
  set (v1 := env_alloc_init e 0 (set_env_pgdir (KERNBASE + p * 4096) v)).
  assert (envs s1 = <[e := v1]> (envs s)) as Es1 by reflexivity.
  assert (envs s1 !! e = Some v1) as Hv1 by (rewrite Es1; apply lookup_insert_eq).
  destruct Hv' as (S1 & _ & S2 & _). exists t, lt, le1. split; [done|].
  set (s2 := set_cr3 (kdir s) (set_envs (<[e := v']> (envs s)) s1)) in *.
  assert (kmem s2 l le1) as K2.
  { assert (kmem (set_envs (<[e := v']> (envs s1)) s1) l le1) as K.
    { apply (kmem_upd_env s1 l le1 e v1 v' K1 Hv1); [discriminate|congruence|exact S2|].
      rewrite Ed. apply (km_env _ _ _ Hk e v Hv). }
    rewrite Es1, insert_insert_eq in K. exact (kmem_cr3 _ l le1 (kdir s) K). }
  assert (live s2 e (p * 4096)) as Hl2.
  { exists v'. split; [apply lookup_insert_eq|]. split; [congruence|done]. }
  apply (kmem_built s2 l le1 e (p * 4096) t lt K2 Hl2).
  - intros va Hva. change (mem s2) with m. unfold mapping. rewrite pde_slot, (fp_slot _ _ _ _ Hfp) by auto with jos.
    pose proof (user_PDX va Hva). rewrite decide_False by (rewrite PDX_UVPT; lia). by rewrite (km_kempty _ _ _ Hk).
  - exact (building_base s1 s2 l (p * 4096) t lt (ld_building _ _ _ _ _ _ Hld) eq_refl eq_refl).
  - exact Hs.
Qed.

(** ** The state in which the first environment is created *)

(** The chain of links determines the free list. *)
Lemma pages_wf_unique s l1 l2 : pages_wf s l1 -> pages_wf s l2 -> l1 = l2.
Proof.
  intros H1 H2. apply list_eq. intros i. induction i as [|i IH]; [by rewrite <- (wf_head _ _ H1), <- (wf_head _ _ H2)|].
  destruct (l1 !! i) as [p|] eqn:E1.
  - pose proof (wf_chain _ _ H1 i p E1) as C1. pose proof (wf_chain _ _ H2 i p (eq_sym IH)) as C2. congruence.
  - apply lookup_ge_None in E1. symmetry in IH. apply lookup_ge_None in IH. by rewrite !lookup_ge_None_2 by lia.
Qed.

(** What mem_init leaves: an allocator, a kernel directory without user mappings in
    which user code can write nothing, and a zeroed array of environments. *)
Record kernel_ready (s : kstate) (l : list Z) : Prop := {
  kr_pages : pages_wf s l;
  kr_refs : forall p, 0 <= ref_of s p;
  kr_cpu : exists i, cpus s !! cpunum s = Some i /\ cpu_env i = None;
  kr_dir : pgdir_wf s l (kdir s);
  kr_empty : forall i, 0 <= i < 955 -> load32 (mem s) (slot (kdir s) i) = 0;
  kr_guard : forall va, UTOP <= va < 0x100000000 -> PDX va <> 957 -> mmu (mem s) (kdir s) va true true = None;
  kr_envs : forall e, envs s !! e = if decide (0 <= e < NENV) then Some env0 else None;
}.

Definition listed (e : Z) : Env := set_env_link (if e + 1 <? NENV then Some (e + 1) else None) env0.

(** The state after [k] turns of env_init's loop. *)
Definition env_init_at (s : kstate) (k : Z) (t : kstate) : Prop := exists m,
  t = set_env_free_list (if k =? 0 then None else Some (NENV - k)) (set_envs m s) /\
  forall e, m !! e = if decide (0 <= e < NENV) then Some (if NENV - k <=? e then listed e else env0) else None.

Lemma env_init_run s :
  (forall e, envs s !! e = if decide (0 <= e < NENV) then Some env0 else None) ->
  exists m, env_init s = Ok tt (set_log (Lgdt :: log s) (set_env_free_list (Some 0) (set_envs m s))) /\
    forall e, m !! e = if decide (0 <= e < NENV) then Some (listed e) else None.
Proof.
  intros H. unfold env_init. rewrite bind_modify. set (s0 := set_env_free_list None s).
  match goal with |- context [kfor _ 0 ?b] => set (body := b) end.
  destruct (kfor_run (env_init_at s) (Z.to_nat NENV) 0 body s0) as (t & E & m & Et & Hm).
  - exists (envs s). split; [by destruct s|]. intros e. rewrite H. case_decide as Hd; [|done].
    by rewrite (proj2 (Z.leb_gt _ _)) by lia.
  - intros k t Hk (m & -> & Hm). change (Z.of_nat (Z.to_nat NENV)) with NENV in Hk. unfold body.
    rewrite bind_get. set (t := set_env_free_list _ _).
    assert (envs t !! (NENV - 1 - k) = Some env0) as He.
    { change (envs t) with m. rewrite Hm, decide_True by lia. by rewrite (proj2 (Z.leb_gt _ _)) by lia. }
    kstep (upd_env_run t (NENV - 1 - k) env0 (fun v => set_env_link (env_free_list t) (set_env_id 0 v)) He).
    eexists. split; [reflexivity|].
    exists (<[NENV - 1 - k := set_env_link (env_free_list t) (set_env_id 0 env0)]> m). split.
    + rewrite (proj2 (Z.eqb_neq _ _)) by lia. replace (NENV - (k + 1)) with (NENV - 1 - k) by lia. reflexivity.
    + intros e. rewrite lookup_insert. case_decide as Ee.
      * subst e. rewrite decide_True by lia. rewrite (proj2 (Z.leb_le _ _)) by lia. f_equal. unfold listed.
        change (env_free_list t) with (if k =? 0 then None else Some (NENV - k)).
        replace (NENV - 1 - k + 1) with (NENV - k) by lia.
        destruct (Z.eqb_spec k 0), (Z.ltb_spec (NENV - k) NENV); try lia; reflexivity.
      * rewrite Hm. case_decide; [|done]. f_equal.
        destruct (Z.leb_spec (NENV - k) e), (Z.leb_spec (NENV - (k + 1)) e); try lia; done.
  - change (0 + Z.of_nat (Z.to_nat NENV)) with NENV in *. exists m. split.
    + unfold body in E. rewrite (bind_ok _ _ _ _ _ E), Et. reflexivity.
    + intros e. rewrite Hm. case_decide; [|done]. by rewrite (proj2 (Z.leb_le _ _)) by lia.
Qed.

Lemma listed_no_live s e d :
  (forall i, envs s !! i = if decide (0 <= i < NENV) then Some (listed i) else None) -> ~ live s e d.
Proof. intros H (v & Hv & Hs & _). rewrite H in Hv. case_decide; [|done]. injection Hv as <-. by apply Hs. Qed.

Lemma kmem_listed s l :
  pages_wf s l -> (forall p, 0 <= ref_of s p) -> (exists i, cpus s !! cpunum s = Some i /\ cpu_env i = None) ->
  pgdir_wf s l (kdir s) -> (forall i, 0 <= i < 955 -> load32 (mem s) (slot (kdir s) i) = 0) ->
  (forall va, UTOP <= va < 0x100000000 -> PDX va <> 957 -> mmu (mem s) (kdir s) va true true = None) ->
  (forall e, envs s !! e = if decide (0 <= e < NENV) then Some (listed e) else None) ->
  env_free_list s = Some 0 -> kmem s l (seqZ 0 NENV).
Proof.
  intros Hw Hr (i & Hi & Hie) Hd He Hg Henv Hfl. pose proof (fun e d => listed_no_live s e d Henv) as Hno.
  assert (forall d, a_dir s d -> d = kdir s) as Hdir by (intros d [->|[e H]]; [done|by apply Hno in H]).
  split; try done; try (intros * H; by apply Hno in H).
  - intros c Hc. unfold cur in Hc. rewrite Hi in Hc. cbn in Hc. congruence.
  - intros e. rewrite Henv. case_decide as E; split; done || (intros _; eauto) || (intros [x Hx]; done).
  - intros e v. rewrite Henv. case_decide; [|done]. intros [= <-]. split; [done|]. intros H'. by destruct H'.
  - split; [by rewrite Hfl| |apply NoDup_seqZ]. intros j e Hj. apply lookup_seqZ in Hj as [-> Hj].
    exists (listed (0 + Z.of_nat j)). rewrite Henv, decide_True by lia. split; [done|]. split; [done|].
    unfold listed. cbn [env_link set_env_link]. destruct (Z.ltb_spec (0 + Z.of_nat j + 1) NENV).
    + symmetry. apply lookup_seqZ. lia.
    + symmetry. apply lookup_ge_None. rewrite length_seqZ. lia.
  - intros d H. by rewrite (Hdir d H).
  - intros d d' p H H' Hne. by rewrite (Hdir d H), (Hdir d' H') in Hne.
  - intros p. assert (mappings s p = 0) as ->; [|done]. apply sum_to_zero; [done|]. intros e _. unfold mappings_in.
    rewrite Henv. case_decide; [|done]. by rewrite bool_decide_eq_true_2.
Qed.

Lemma env_init_kmem s l : kernel_ready s l -> exists t, env_init s = Ok tt t /\ kmem t l (seqZ 0 NENV).
Proof.
  intros [H1 H2 H3 H4 H5 H6 H7]. destruct (env_init_run s H7) as (m & E & Hm).
  eexists. split; [exact E|]. apply kmem_set_log. apply kmem_listed; try done.
  - by apply (pages_wf_ext s).
  - by destruct H4 as [D1 D2 D3 D4 D5 D6]; split.
Qed.

(** ** The steps of the whole system *)

(** The handlers that change memory or the spaces. *)
Inductive ucall :=
| U_page_alloc (envid va perm : Z)
| U_page_map (srcenvid srcva dstenvid dstva perm : Z)
| U_page_unmap (envid va : Z)
| U_exofork
| U_env_set_status (envid status : Z)
| U_env_set_pgfault_upcall (envid func : Z)
| U_ipc_try_send (envid value srcva perm : Z)
| U_env_destroy (envid : Z).

Definition handler (u : ucall) : K Z :=
  match u with
  | U_page_alloc e va perm => Syscall.sys_page_alloc e va perm
  | U_page_map se sva de dva perm => Syscall.sys_page_map se sva de dva perm
  | U_page_unmap e va => Syscall.sys_page_unmap e va
  | U_exofork => Syscall.sys_exofork
  | U_env_set_status e st => Syscall.sys_env_set_status e st
  | U_env_set_pgfault_upcall e f => Syscall.sys_env_set_pgfault_upcall e f
  | U_ipc_try_send e v sva perm => Syscall.sys_ipc_try_send e v sva perm
  | U_env_destroy e => Syscall.sys_env_destroy e
  end.

Definition va32 (va : Z) : Prop := 0 <= va < 0x100000000.

(** The calls that the theorem is about: addresses of 32 bits; permissions within the
    12 flag bits; a page to send where sys_ipc_try_send would otherwise read through
    an uninitialised pointer; and an environment to destroy that is not the caller,
    whose own destruction is the step [ms_exit].  The handlers test neither the
    permission nor the page to send: a permission of more bits reaches the page table
    (Syscall.sys_page_alloc_table_escape) and isolation is lost. *)
Definition good_call (s : kstate) (c : Z) (u : ucall) : Prop :=
  match u with
  | U_page_alloc _ va perm => va32 va /\ 0 <= perm < 4096
  | U_page_map _ sva _ dva perm => va32 sva /\ va32 dva /\ 0 <= perm < 4096
  | U_page_unmap _ va => va32 va
  | U_exofork | U_env_set_status _ _ | U_env_set_pgfault_upcall _ _ => True
  | U_ipc_try_send _ _ sva perm => va32 sva /\ 0 <= perm < 4096 /\
      (sva < UTOP -> sva mod PGSIZE = 0 -> exists d w, live s c d /\ mapping (mem s) d sva = Some w)
  | U_env_destroy envid => forall e, envid2env envid true s = Ok (0, Some e) s -> e <> c
  end.

(** The steps.  Three of their conditions are assumptions that the code does not
    enforce: [good_call]; [small_refs], counts below 65535 before a call (pp_ref has
    sixteen bits and page_insert increments it without a test); and, of a CPU that
    enters the kernel, that its current environment still exists (a second
    env_destroy or a sys_env_set_status from another CPU can free it while it runs). *)
Inductive mem_step (s : kstate) : kstate -> Prop :=
| ms_call c u r t :                       (* a system call that returns *)
    cur s = Some c -> small_refs s -> good_call s c u -> handler u s = Ok r t -> mem_step s t
| ms_store c d va a x :                   (* a store of user code *)
    cur s = Some c -> live s c d -> va32 va -> mmu (mem s) d va true true = Some a ->
    mem_step s (set_mem (store8 (mem s) a x) s)
| ms_exit c t :                           (* env_destroy of the caller, before it yields *)
    cur s = Some c -> small_refs s -> (_ ← env_free c; set_curenv None) s = Ok tt t -> mem_step s t
| ms_recv c dstva t :                     (* sys_ipc_recv, before it yields *)
    cur s = Some c -> va32 dstva ->
    upd_env c (fun v => set_env_ipc_dstva dstva
      (set_env_status ENV_NOT_RUNNABLE (set_env_ipc_recving true v))) s = Ok tt t -> mem_step s t
| ms_run e d ex t tf :                    (* sched_yield enters an environment, which traps back *)
    live s e d -> lock_held s -> env_run e s = Leave ex t -> mem_step s (Sched.resumed t tf)
| ms_idle t :                             (* sched_halt *)
    set_curenv None s = Ok tt t -> mem_step s t
| ms_cpu k i :                            (* another CPU enters the kernel *)
    cpus s !! k = Some i -> (forall e, cpu_env i = Some e -> exists d, live s e d) ->
    mem_step s (Kernel.set_cpunum k s)
| ms_create p l e v binary size type t :  (* the kernel creates an environment *)
    creatable s p l e v (kdir s) binary size -> env_create binary type s = Ok tt t -> mem_step s t.

Lemma kmem_call s l le c u : kmem s l le -> cur s = Some c -> small_refs s -> good_call s c u ->
  exists r t l' le', handler u s = Ok r t /\ kmem t l' le'.
Proof.
  intros Hk Hc Hsm Hg. assert (forall m, returns s le m -> exists r t l' le', m s = Ok r t /\ kmem t l' le') as Hr.
  { intros m (r & t & l' & E & K). by exists r, t, l', le. }
  destruct u; cbn [handler good_call] in *; unfold va32 in *.
  - apply Hr. apply (page_alloc_returns s l le c); try done; lia.
  - apply Hr. apply (page_map_returns s l le c); try done; lia.
  - apply Hr. apply (page_unmap_returns s l le c); try done; lia.
  - by apply (exofork_returns s l le c).
  - apply Hr. by apply (env_set_status_returns s l le c).
  - apply Hr. by apply (set_pgfault_upcall_returns s l le c).
  - apply Hr. destruct Hg as (G1 & G2 & G3). by apply (ipc_send_returns s l le c).
  - by apply (env_destroy_returns s l le c).
Qed.

Lemma set_curenv_run s o : is_Some (cpus s !! cpunum s) ->
  exists i, set_curenv o s = Ok tt (set_cpus (<[cpunum s := set_cpu_env o i]> (cpus s)) s).
Proof. intros [i Hi]. exists i. by apply upd_cpu_run. Qed.

Lemma kmem_step s t l le : kmem s l le -> mem_step s t -> exists l' le', kmem t l' le'.
Proof.
  intros Hk [c u r t' Hc Hsm Hg E|c d va a x Hc Hl Hva Ha|c t' Hc Hsm E|c dstva t' Hc Hd E|e d ex t' tf Hl Hlk E|t' E|k i Hi He|p l0 e v binary size type t' Hcr E].
  - destruct (kmem_call s l le c u Hk Hc Hsm Hg) as (r' & t1 & l' & le' & E' & K). rewrite E in E'. injection E' as -> ->. eauto.
  - exists l, le. by apply (kmem_user_store s l le Hk c d va).
  - destruct (destroy_self s l le c Hk Hc Hsm) as (t1 & l' & le' & E' & K & _). rewrite E in E'. injection E' as ->. eauto.
  - destruct (km_cur _ _ _ Hk c Hc) as (d & v & Hv & Hf & _). rewrite (upd_env_run s c v _ Hv) in E. injection E as <-.
    exists l, le. apply (kmem_upd_env s l le c v); [done|done|done|discriminate|done|]. unfold va32 in Hd. cbn. lia.
  - destruct Hl as (v & Hv & Hf & Hd). destruct (km_cpu_ok s l le Hk) as (i & Hi & Hie).
    assert (KERNBASE <= env_pgdir v) as Hp.
    { pose proof (dw_range _ _ _ (km_dir _ _ _ Hk d ltac:(right; exists e, v; done))). lia. }
    destruct (env_run_ok s i e v Hi ltac:(intros o Ho; by rewrite Ho in Hie) Hv Hp Hlk) as (t1 & E' & Hen).
    rewrite E in E'. injection E' as -> ->. exists l, le. by apply (kmem_resumed s l le e v).
  - pose proof (km_cpu _ _ _ Hk) as Hcpu. destruct (set_curenv_run s None Hcpu) as [i Ei]. rewrite E in Ei. injection Ei as ->.
    exists l, le. apply (kmem_cpus s); try done.
    + exists (set_cpu_env None i). apply lookup_insert_eq.
    + intros c Hc. unfold cur in Hc. cbn [cpus cpunum set_cpus] in Hc. by rewrite lookup_insert_eq in Hc.
  - exists l, le. apply (kmem_cpus s); try done.
    intros c Hc. apply He. unfold cur in Hc. change (cpus (Kernel.set_cpunum k s) !! cpunum (Kernel.set_cpunum k s)) with (cpus s !! k) in Hc.
      by rewrite Hi in Hc.
  - pose proof (pages_wf_unique _ _ _ (km_pages _ _ _ Hk) (cr_pages _ _ _ _ _ _ _ _ Hcr)) as ->.
    destruct (kmem_env_create s p l0 le e v binary size type Hk Hcr) as (t1 & l' & le' & E' & K).
    rewrite E in E'. injection E' as ->. eauto.
Qed.

Lemma kmem_steps s t l le : kmem s l le -> rtc mem_step s t -> exists l' le', kmem t l' le'.
Proof.
  intros Hk H. revert l le Hk. induction H as [s|s s1 t H1 _ IH]; intros l le Hk; [eauto|].
  destruct (kmem_step s s1 l le Hk H1) as (l' & le' & K). by apply (IH l' le').
Qed.

(** C1: Isolation of the address spaces, under the conditions of [mem_step].  Start
    env_init on the memory that mem_init leaves, then let the kernel create
    environments, let them make memory system calls, send messages, fork, exit and be
    destroyed, let user code store anywhere, and switch environments and CPUs, in any
    order.  Four things that the code itself does not prevent are excluded, and with
    any of the first three isolation can be lost: a permission of more than the
    twelve flag bits in a call (Syscall.sys_page_alloc_table_escape shows how); a page
    mapped 65535 times, whose 16-bit count the next mapping wraps; a CPU that enters
    the kernel with an environment that another CPU has freed while it ran (a second
    env_destroy does that, or one after a sys_env_set_status); and a message that offers an unmapped page, for which
    sys_ipc_try_send reads an uninitialised pointer.  In every state [t] this reaches:
    an address that user code of any environment can write is below UTOP and lies in
    a page that is allocated, is counted, and is not a page table or directory of any
    environment or of the kernel; the user mappings of every page, over all
    environments together, are at most its reference count, so that no page on the
    free list is mapped; no environment has a table below UTOP that another uses; and
    a further well-formed call returns to its caller: it does not panic, fault or
    loop. *)
Theorem spaces_isolated s l :
  kernel_ready s l ->
  exists s0, env_init s = Ok tt s0 /\ forall t, rtc mem_step s0 t -> exists l', pages_wf t l' /\
    (forall e d va a, live t e d -> va32 va -> mmu (mem t) d va true true = Some a ->
       va < UTOP /\ (a / 4096 ∉ l') /\ 1 <= ref_of t (a / 4096) /\
       forall f, a_dir t f -> ~ is_table t f (a / 4096)) /\
    (forall p, 0 <= mappings t p <= ref_of t p) /\
    (forall d d' p, a_dir t d -> a_dir t d' -> d <> d' -> user_table t d p -> ~ is_table t d' p) /\
    (forall c u, cur t = Some c -> small_refs t -> good_call t c u -> exists r t', handler u t = Ok r t').
Proof.
  intros Hs. destruct (env_init_kmem s l Hs) as (s0 & E & K0). exists s0. split; [done|]. intros t Hst.
  destruct (kmem_steps s0 t l _ K0 Hst) as (l' & le' & K). exists l'.
  split; [apply K|]. split; [|split; [|split]].
  - intros e d va a. apply (write_page t l' le' K).
  - intros p. split; [apply mappings_nonneg|apply (km_count _ _ _ K)].
  - apply (km_sep _ _ _ K).
  - intros c u Hc Hsm Hg. destruct (kmem_call t l' le' c u K Hc Hsm Hg) as (r & t' & _ & _ & E' & _). eauto.
Qed.

(** ** An example: the first environment *)

Definition boot_state : kstate := set_env_free_list None (set_envs (envs_all (fun _ => env0)) ld_state).

Lemma same_else_kern s t : same_else s t -> kern_pgdir t = kern_pgdir s.
Proof. intros E. by rewrite E. Qed.

Lemma boot_mmu va : UTOP <= va < 0x100000000 -> PDX va <> 957 -> mmu (mem ld_state) 0 va true true = None.
Proof.
  intros Hva Hx. pose proof (PDX_range va). pose proof (PTX_range va). unfold mmu. change (PTE_ADDR 0) with 0.
  unfold mapping. rewrite pte_slot, pde_slot, (one_table_slot _ _ _ _ _ ld_dir) by done.
  rewrite (proj2 (Z.eqb_neq (PDX va) 957)) by done.
  destruct (Z.eqb_spec (PDX va) 960); [|done].
  assert (forallb_below 1024 (fun j => Z.land (load32 (mem ld_state) (slot 0x1000 j)) PTE_U =? 0) = true) as Hall
    by (vm_compute; reflexivity).
  pose proof (forallb_below_spec _ _ Hall (PTX va) ltac:(lia)) as Hu. apply Z.eqb_eq in Hu. clear Hall.
  change (PTE_ADDR (1 * 4096 + 7)) with 0x1000. set (x := load32 (mem ld_state) (slot 0x1000 (PTX va))) in *. clearbody x.
  destruct (_ && _); [|done]. cbv zeta. by rewrite <- Z.land_assoc, Hu, Z.land_0_r.
Qed.

(** Neither property of the memory depends on the records. *)
Lemma ready_records s l m : pages_wf s l -> (forall p, 0 <= ref_of s p) ->
  (exists i, cpus s !! cpunum s = Some i /\ cpu_env i = None) ->
  pgdir_wf s l (kdir s) -> (forall i, 0 <= i < 955 -> load32 (mem s) (slot (kdir s) i) = 0) ->
  (forall va, UTOP <= va < 0x100000000 -> PDX va <> 957 -> mmu (mem s) (kdir s) va true true = None) ->
  (forall e, m !! e = if decide (0 <= e < NENV) then Some env0 else None) ->
  kernel_ready (set_env_free_list None (set_envs m s)) l.
Proof.
  intros Hw Hr Hc [D1 D2 D3 D4 D5 D6] He Hg Henv. split; try done. by apply (pages_wf_ext s).
Qed.

Lemma creatable_records s p l e e' v v' kd binary size lg m n x y :
  let s' := set_log lg (set_env_free_list x (set_envs m (set_env_free_list y (set_envs n s)))) in
  creatable s p l e v kd binary size -> (forall i, cpus s !! cpunum s = Some i -> cpu_env i = None) ->
  x = Some e' -> 0 <= e' < NENV -> m !! e' = Some v' -> 0 <= env_id v' < 0x80000000 -> creatable s' p l e' v' kd binary size.
Proof.
  intros s' [C1 (i & Hi & _) C3 C4 C5 [D1 D2 D3 D4 D5 D6] C7 (B1 & B2 & B3) C9 C10] Hc Hf He Hv Hid.
  split; try done; [by apply (pages_wf_ext s)|exists i; split; [done|by rewrite (Hc i Hi)]].
Qed.

Lemma created_image s p l m n x y lg e v kd binary size ph :
  let s' := set_log lg (set_env_free_list x (set_envs m (set_env_free_list y (set_envs n s)))) in
  e_phnum (mem s) binary = 1 -> segment (mem s) binary 0 = ph -> kdir s = kd ->
  creatable s' p l e v kd binary size ->
  e_phnum (mem s') binary = 1 /\ segment (mem s') binary 0 = ph /\ kdir s' = kd.
Proof. intros s' H1 H2 H3 _. split; [exact H1|]. split; [exact H2|exact H3]. Qed.

Lemma boot_ref p : 0 <= ref_of ld_state p.
Proof.
  destruct (decide (0 <= p < 24)) as [Hp|Hp].
  - assert (forallb_below 24 (fun p => 0 <=? ref_of ld_state p) = true) as H by (vm_compute; reflexivity).
    pose proof (forallb_below_spec _ _ H p ltac:(lia)) as Hr. by apply Z.leb_le in Hr.
  - unfold ref_of. destruct (pages ld_state !! p) as [pi|] eqn:E; [|lia]. exfalso. apply Hp.
    pose proof (proj1 (wf_dom _ _ ld_pages p) ltac:(by rewrite E)) as H. exact H.
Qed.

Lemma boot_ready : kernel_ready boot_state (seqZ 3 21).
Proof.
  pose proof (cr_dir _ _ _ _ _ _ _ _ ld_creatable) as Hd. change (3 :: seqZ 4 20) with (seqZ 3 21) in Hd.
  apply (ready_records ld_state (seqZ 3 21)).
  - exact ld_pages.
  - exact boot_ref.
  - exists (mkCpuInfo 0 CPU_STARTED None 0 0). split; reflexivity.
  - exact Hd.
  - exact (cr_empty _ _ _ _ _ _ _ _ ld_creatable).
  - exact boot_mmu.
  - intros e. apply (lookup_envs_all (fun _ => env0)).
Qed.

(** env_init, the creation of an environment, and a byte that its code may write. *)
Lemma spaces_isolated_witness :
  exists s0 t a, env_init boot_state = Ok tt s0 /\ env_create ld_image ENV_TYPE_USER s0 = Ok tt t /\
    mmu (mem t) 0x3000 0x800021 true true = Some a /\ 1 <= ref_of t (a / 4096) /\ ~ is_table t 0 (a / 4096).
Proof.
  destruct (spaces_isolated boot_state (seqZ 3 21) boot_ready) as (s0 & E0 & Hall).
  destruct (env_init_run boot_state (kr_envs _ _ boot_ready)) as (m & E & Hm). rewrite E in E0.
  injection E0 as <-. unfold boot_state in Hall, E |- *. set (s0 := set_log _ _) in *.
  assert (creatable s0 3 (seqZ 4 20) 0 (listed 0) 0 ld_image 88) as Hcr.
  { apply (creatable_records ld_state _ _ 0 0 free_env _ _ _ _ _ _ _ _ _ ld_creatable).
    - by intros i [= <-].
    - reflexivity.
    - split; [discriminate|reflexivity].
    - exact (Hm 0).
    - split; [discriminate|reflexivity]. }
  destruct (env_create_run s0 3 (seqZ 4 20) 0 (listed 0) 0 ld_image 88 ENV_TYPE_USER Hcr)
    as (t & lt & v' & m' & lg & Et & Hfp & _ & Ee & (S1 & _ & S2 & _) & Hld & _ & _ & Hs).
  destruct (created_image ld_state _ _ _ _ _ _ _ _ _ 0 _ _ ld_ph ld_phnum ld_segment0 eq_refl Hcr) as (Hn & Hsg & Hkd).
  cbv zeta in Hn, Hsg, Hkd. fold s0 in Hn, Hsg, Hkd.
  destruct (created_segment s0 3 (seqZ 4 20) 0 (listed 0) 0 ld_image 88 Hcr m' lg Hfp t lt Hld 0 1) as (a & Ha & _);
    [lia|by rewrite Hsg|rewrite Hsg; change (p_memsz ld_ph) with 8; lia|]. rewrite Hsg in Ha.
  assert (mem_step s0 t) as Hst by (apply (ms_create s0 3 (seqZ 4 20) 0 (listed 0) ld_image 88 ENV_TYPE_USER t); [by rewrite Hkd|done]).
  destruct (Hall t (rtc_once _ _ Hst)) as (l' & _ & Hwr & _).
  assert (live t 0 0x3000) as Hl.
  { exists v'. rewrite Ee, lookup_insert_eq. split; [reflexivity|]. split; [by rewrite S1|exact S2]. }
  destruct (Hwr 0 0x3000 0x800021 a Hl ltac:(unfold va32; lia) Ha) as (_ & _ & W1 & W2).
  exists s0, t, a. split; [exact E|]. split; [exact Et|]. split; [exact Ha|]. split; [exact W1|].
  apply W2. left. unfold kdir. rewrite (same_else_kern _ _ Hs). exact (eq_sym Hkd).
Defined.
