(* ===== verification/Boot.v ===== *)
(** * Boot: the boot loader, boot/main.c

    readsect drives the IDE disk through its ports, readseg reads a range of the
    kernel image, bootmain loads the ELF segments and enters the kernel.  The disk
    is the class [Ide]; the memory is physical memory. *)

From S2P Require Import Prelude Memory.

(** The ports of the machine, as functions on a hardware state. *)
Class Ports (hw : Type) := {
  inb : Z -> hw -> Z * hw;
  outb : Z -> Z -> hw -> hw;
  outw : Z -> Z -> hw -> hw;
  inl : Z -> hw -> Z * hw;
}.

Definition SECTSIZE : Z := 512.
Definition ELFHDR : Z := 0x10000.
Definition ELF_MAGIC : Z := 0x464C457F.

(** struct Elf and struct Proghdr at an address. *)
Definition e_magic (m : memory) (a : Z) : Z := load32 m a.
Definition e_entry (m : memory) (a : Z) : Z := load32 m (a + 24).
Definition e_phoff (m : memory) (a : Z) : Z := load32 m (a + 28).
Definition e_phnum (m : memory) (a : Z) : Z := load16 m (a + 44).
Definition p_offset (m : memory) (a : Z) : Z := load32 m (a + 4).
Definition p_pa (m : memory) (a : Z) : Z := load32 m (a + 12).
Definition p_filesz (m : memory) (a : Z) : Z := load32 m (a + 16).
Definition p_memsz (m : memory) (a : Z) : Z := load32 m (a + 20).
Definition sizeof_Proghdr : Z := 32.

Section Loader.
Context {hw : Type} `{Ports hw}.

(** [while ((inb(0x1F7) & 0xC0) != 0x40)]. *)
Fixpoint waitdisk (fuel : nat) (d : hw) : option hw :=
  match fuel with
  | O => None
  | S fuel' =>
      let '(v, d) := inb 0x1F7 d in
      if negb (Z.land v 0xC0 =? 0x40) then waitdisk fuel' d else Some d
  end.

(** [rep insl]: [cnt] longs from [port] to memory. *)
Fixpoint insl (cnt : nat) (port addr : Z) (d : hw) (m : memory) : hw * memory :=
  match cnt with
  | O => (d, m)
  | S cnt' =>
      let '(v, d) := inl port d in
      insl cnt' port (u32 (addr + 4)) d (store32 m addr v)
  end.

Definition readsect (fuel : nat) (dst offset : Z) (d : hw) (m : memory) : option (hw * memory) :=
  d ← waitdisk fuel d;
  let d := outb 0x1F2 1 d in
  let d := outb 0x1F3 (u8 offset) d in
  let d := outb 0x1F4 (u8 (Z.shiftr offset 8)) d in
  let d := outb 0x1F5 (u8 (Z.shiftr offset 16)) d in
  let d := outb 0x1F6 (u8 (Z.lor (Z.shiftr offset 24) 0xE0)) d in
  let d := outb 0x1F7 0x20 d in
  d ← waitdisk fuel d;
  Some (insl (Z.to_nat (SECTSIZE / 4)) 0x1F0 dst d m).

(** [turns] bounds the loop. *)
Fixpoint readseg_loop (turns fuel : nat) (pa end_pa offset : Z) (d : hw) (m : memory) :
    option (hw * memory) :=
  match turns with
  | O => None
  | S turns' =>
      if pa <? end_pa then
        '(d, m) ← readsect fuel pa offset d m;
        readseg_loop turns' fuel (u32 (pa + SECTSIZE)) end_pa (u32 (offset + 1)) d m
      else Some (d, m)
  end.
Definition readseg (fuel : nat) (pa count offset : Z) (d : hw) (m : memory) : option (hw * memory) :=
  let end_pa := u32 (pa + count) in
  let pa := Z.land pa (Z.lnot (SECTSIZE - 1)) in
  let offset := u32 (offset / SECTSIZE + 1) in
  readseg_loop fuel fuel pa end_pa offset d m.

(** The loop that clears the rest of a segment. *)
Fixpoint clear_loop (fuel : nat) (ph i : Z) (m : memory) : option memory :=
  match fuel with
  | O => None
  | S fuel' =>
      if u32 i <? u32 (p_memsz m ph - p_filesz m ph)
      then clear_loop fuel' ph (i + 1) (store8 m (u32 (p_pa m ph + p_filesz m ph + i)) 0)
      else Some m
  end.

Fixpoint load_segments (segs fuel : nat) (ph eph : Z) (d : hw) (m : memory) : option (hw * memory) :=
  match segs with
  | O => None
  | S segs' =>
      if ph <? eph then
        '(d, m) ← readseg fuel (p_pa m ph) (p_memsz m ph) (p_offset m ph) d m;
        m ← clear_loop fuel ph 0 m;
        load_segments segs' fuel (u32 (ph + sizeof_Proghdr)) eph d m
      else Some (d, m)
  end.

(** The call of the kernel's entry point, or the endless loop at [bad]. *)
Inductive booted :=
| Entered (entry : Z)
| Bad.

Definition bootmain (fuel : nat) (d : hw) (m : memory) : option (booted * hw * memory) :=
  '(d, m) ← readseg fuel ELFHDR (SECTSIZE * 8) 0 d m;
  if negb (e_magic m ELFHDR =? ELF_MAGIC) then
    Some (Bad, outw 0x8A00 0x8E00 (outw 0x8A00 0x8A00 d), m)
  else
    let ph := u32 (ELFHDR + e_phoff m ELFHDR) in
    let eph := u32 (ph + sizeof_Proghdr * e_phnum m ELFHDR) in
    '(d, m) ← load_segments fuel fuel ph eph d m;
    Some (Entered (e_entry m ELFHDR), d, m).
End Loader.

(** ** The disk

    An IDE disk as its documentation has it.  The status at 0x1F7 shows DRDY without
    BSY exactly when the disk is ready, which it is after at most [patience] reads
    and then until the next command.  Only a ready disk takes what is written to the
    task file registers, 0x1F2 to 0x1F6, takes a command, and hands out data.
    Command 0x20 at 0x1F7 makes the sector that the registers name available at the
    data port, a long at a time; they name it by its number only if 0x1F6 asks for
    LBA mode, with its bit 6 (and has bits 5 and 7 set and bit 4, the second drive,
    clear).  Nothing is said of a disk that is used otherwise. *)

(** The [n] longs from address [a] on, little endian, and the longs of sector [n]. *)
Definition word_at (bytes : Z -> Z) (a : Z) : Z :=
  u8 (bytes a) + 0x100 * u8 (bytes (a + 1)) + 0x10000 * u8 (bytes (a + 2)) + 0x1000000 * u8 (bytes (a + 3)).
Fixpoint words_at (bytes : Z -> Z) (a : Z) (n : nat) : list Z :=
  match n with O => [] | S n' => word_at bytes a :: words_at bytes (a + 4) n' end.
Definition sector_words (bytes : Z -> Z) (n : Z) : list Z := words_at bytes (n * SECTSIZE) 128.

Class Ide (hw : Type) `{Ports hw} (bytes : Z -> Z) (patience : nat) := {
  reg : hw -> Z -> Z;                (* the registers 0x1F2 to 0x1F6 *)
  data : hw -> list Z;               (* what the data port will give *)
  busy : hw -> nat;                  (* the polls until it is ready *)
  ide_patience : forall d, (busy d < patience)%nat;
  ide_status : forall d v d', inb 0x1F7 d = (v, d') ->
    reg d' = reg d /\ data d' = data d /\ (busy d = O <-> Z.land v 0xC0 = 0x40) /\
    busy d' = pred (busy d);
  ide_register : forall d p v, 0x1F2 <= p <= 0x1F6 -> busy d = O ->
    busy (outb p v d) = O /\
    forall q, 0x1F2 <= q <= 0x1F6 -> reg (outb p v d) q = if q =? p then v else reg d q;
  ide_read : forall d, busy d = O -> reg d 0x1F2 = 1 -> Z.land (reg d 0x1F6) 0xF0 = 0xE0 ->
    data (outb 0x1F7 0x20 d) = sector_words bytes
      (reg d 0x1F3 + 0x100 * reg d 0x1F4 + 0x10000 * reg d 0x1F5
       + 0x1000000 * Z.land (reg d 0x1F6) 0xF);
  ide_data : forall d w r, busy d = O -> data d = w :: r ->
    exists d', inl 0x1F0 d = (w, d') /\ data d' = r /\ busy d' = O;
}.

(** ** Reading *)

(** [m'] is [m] with [n] bytes of the disk, from byte [a] on, at [dst]. *)
Definition loaded (bytes : Z -> Z) (a dst n : Z) (m m' : memory) : Prop :=
  forall x, load8 m' x = if decide (dst <= x < dst + n) then u8 (bytes (a + (x - dst))) else load8 m x.

Lemma store_word_at m dst bytes a : loaded bytes a dst 4 m (store32 m dst (word_at bytes a)).
Proof.
  intros x. rewrite load8_store32. unfold word_at.
  pose proof (u8_range (bytes a)). pose proof (u8_range (bytes (a + 1))).
  pose proof (u8_range (bytes (a + 2))). pose proof (u8_range (bytes (a + 3))).
  repeat case_decide; subst; try lia.
  - rewrite Z.sub_diag, Z.add_0_r. unfold u8 at 1. zlia.
  - replace (a + (dst + 1 - dst)) with (a + 1) by lia. unfold u8 at 1. zlia.
  - replace (a + (dst + 2 - dst)) with (a + 2) by lia. unfold u8 at 1. zlia.
  - replace (a + (dst + 3 - dst)) with (a + 3) by lia. unfold u8 at 1. zlia.
Qed.

Lemma loaded_trans bytes a dst n k m1 m2 m3 :
  0 <= n -> 0 <= k -> loaded bytes a dst n m1 m2 -> loaded bytes (a + n) (dst + n) k m2 m3 ->
  loaded bytes a dst (n + k) m1 m3.
Proof.
  intros Hn Hk H1 H2 x. rewrite H2, H1. repeat case_decide; try lia; try done. do 2 f_equal. lia.
Qed.

Lemma loaded_zero bytes a dst m : loaded bytes a dst 0 m m.
Proof. intros x. by rewrite decide_False by lia. Qed.

Section Reading.
Context {hw : Type} `{Ports hw} {bytes : Z -> Z} {patience : nat} {D : Ide hw bytes patience}.

Lemma waitdisk_run fuel d :
  (patience <= fuel)%nat ->
  exists d', waitdisk fuel d = Some d' /\ reg d' = reg d /\ data d' = data d /\ busy d' = O.
Proof using All.
  intros Hf. assert (busy d < fuel)%nat as Hb by (pose proof (ide_patience d); lia). clear Hf.
  revert d Hb. induction fuel as [|fuel IH]; intros d Hb; [lia|]. cbn [waitdisk].
  destruct (inb 0x1F7 d) as [v d1] eqn:E. destruct (ide_status d v d1 E) as (Hr & Hdt & Hrdy & Hbusy).
  destruct (Z.eqb_spec (Z.land v 0xC0) 0x40) as [Ev|Ev]; cbn [negb].
  - exists d1. rewrite Hbusy, (proj2 Hrdy Ev). by split_and!.
  - assert (busy d <> O) as E0 by (intros E0; by apply Ev, Hrdy).
    destruct (IH d1) as (d2 & E2 & Hr2 & Hd2 & Hb2); [lia|].
    exists d2. rewrite Hr2, Hd2. by split_and!.
Qed.

Lemma insl_run n a dst d m r :
  busy d = O -> data d = words_at bytes a n ++ r -> 0 <= dst -> dst + 4 * Z.of_nat n <= 0x100000000 ->
  exists d' m', insl n 0x1F0 dst d m = (d', m') /\ loaded bytes a dst (4 * Z.of_nat n) m m'.
Proof using All.
  revert a dst d m. induction n as [|n IH]; intros a dst d m Hrdy Hd Hr Hb; cbn [insl].
  { exists d, m. split; [done|]. apply loaded_zero. }
  cbn [words_at app] in Hd. destruct (ide_data d _ _ Hrdy Hd) as (d1 & -> & Hd1 & Hb1).
  set (m1 := store32 m dst (word_at bytes a)).
  destruct n as [|n]; [exists d1, m1; split; [done|apply store_word_at]|].
  rewrite (u32_small (dst + 4)) by lia.
  destruct (IH (a + 4) (dst + 4) d1 m1 Hb1 Hd1 ltac:(lia) ltac:(lia)) as (d2 & m2 & E & Hl).
  exists d2, m2. split; [exact E|].
  replace (4 * Z.of_nat (S (S n))) with (4 + 4 * Z.of_nat (S n)) by lia.
  apply (loaded_trans _ _ _ _ _ m m1 m2); [lia|lia|apply store_word_at|done].
Qed.

(** The sector number goes through the registers and comes out again. *)
Lemma lba_registers n :
  0 <= n < 0x10000000 ->
  u8 n + 0x100 * u8 (Z.shiftr n 8) + 0x10000 * u8 (Z.shiftr n 16)
  + 0x1000000 * Z.land (u8 (Z.lor (Z.shiftr n 24) 0xE0)) 0xF = n.
Proof using.
  intros Hn. assert (Z.land (u8 (Z.lor (Z.shiftr n 24) 0xE0)) 0xF = n / 2 ^ 24) as ->.
  { rewrite Z.shiftr_div_pow2 by lia. unfold u8. change 256 with (2 ^ 8). rewrite <- Z.land_ones by lia.
    assert (0 <= n / 2 ^ 24 < 2 ^ 4) as Hr by (change (2 ^ 24) with 16777216; zlia).
    rewrite <- Z.land_assoc. change (Z.land (Z.ones 8) 15) with (Z.ones 4).
    rewrite Z.land_lor_distr_l. change (Z.land 0xE0 (Z.ones 4)) with 0.
    rewrite Z.lor_0_r, Z.land_ones by lia. by apply Z.mod_small. }
  rewrite !Z.shiftr_div_pow2 by lia. unfold u8.
  change (2 ^ 8) with 256. change (2 ^ 16) with 65536. change (2 ^ 24) with 16777216. zlia.
Qed.

(** The byte for 0x1F6 asks for LBA mode on the first drive. *)
Lemma lba_mode n : 0 <= n < 0x10000000 -> Z.land (u8 (Z.lor (Z.shiftr n 24) 0xE0)) 0xF0 = 0xE0.
Proof using.
  intros Hn. rewrite Z.shiftr_div_pow2 by lia. change (2 ^ 24) with 16777216.
  assert (0 <= n / 16777216 < 16) as Hr by zlia.
  assert (forallb_below 16 (fun k => Z.land (u8 (Z.lor k 0xE0)) 0xF0 =? 0xE0) = true) as Hk by reflexivity.
  apply Z.eqb_eq, (forallb_below_spec 16 _ Hk). lia.
Qed.

(** Writing the registers of a ready disk. *)
Lemma write_registers d v2 v3 v4 v5 v6 :
  busy d = O ->
  let d' := outb 0x1F6 v6 (outb 0x1F5 v5 (outb 0x1F4 v4 (outb 0x1F3 v3 (outb 0x1F2 v2 d)))) in
  busy d' = O /\ reg d' 0x1F2 = v2 /\ reg d' 0x1F3 = v3 /\ reg d' 0x1F4 = v4 /\ reg d' 0x1F5 = v5 /\
  reg d' 0x1F6 = v6.
Proof using All.
  intros H0. destruct (ide_register d 0x1F2 v2 ltac:(lia) H0) as [H1 R1].
  destruct (ide_register _ 0x1F3 v3 ltac:(lia) H1) as [H2 R2].
  destruct (ide_register _ 0x1F4 v4 ltac:(lia) H2) as [H3 R3].
  destruct (ide_register _ 0x1F5 v5 ltac:(lia) H3) as [H4 R4].
  destruct (ide_register _ 0x1F6 v6 ltac:(lia) H4) as [H5 R5].
  split; [exact H5|]. rewrite !R5, ?R4, ?R3, ?R2, ?R1 by lia. done.
Qed.

Lemma readsect_run fuel dst n d m :
  (patience <= fuel)%nat -> 0 <= n < 0x10000000 -> 0 <= dst -> dst + SECTSIZE <= 0x100000000 ->
  exists d' m', readsect fuel dst n d m = Some (d', m') /\
    loaded bytes (n * SECTSIZE) dst SECTSIZE m m'.
Proof using All.
  intros Hf Hn Hd Hb. unfold readsect. destruct (waitdisk_run fuel d Hf) as (d0 & -> & _ & _ & H0).
  cbn [mbind option_bind].
  destruct (write_registers d0 1 (u8 n) (u8 (Z.shiftr n 8)) (u8 (Z.shiftr n 16))
    (u8 (Z.lor (Z.shiftr n 24) 0xE0)) H0) as (H5 & R2 & R3 & R4 & R5 & R6).
  set (d5 := outb 0x1F6 _ _) in *.
  assert (Z.land (reg d5 0x1F6) 0xF0 = 0xE0) as Hlba by (rewrite R6; by apply lba_mode).
  pose proof (ide_read d5 H5 R2 Hlba) as Hdata. rewrite R3, R4, R5, R6, lba_registers in Hdata by done.
  destruct (waitdisk_run fuel (outb 0x1F7 0x20 d5) Hf) as (d6 & -> & _ & Hd6 & H6).
  cbn [mbind option_bind]. change (Z.to_nat (SECTSIZE / 4)) with 128%nat.
  destruct (insl_run 128 (n * SECTSIZE) dst d6 m []) as (d7 & m7 & E & Hl).
  - done.
  - by rewrite app_nil_r, Hd6, Hdata.
  - done.
  - unfold SECTSIZE in Hb. lia.
  - exists d7, m7. split; [by rewrite E|exact Hl].
Qed.

(** The sectors from [n] on, up to one that reaches [end_pa]. *)
Lemma readseg_loop_run turns fuel pa k n d m end_pa :
  (patience <= fuel)%nat -> 0 <= pa -> 0 <= n -> n + Z.of_nat k < 0x10000000 ->
  pa + SECTSIZE * Z.of_nat k < 0x100000000 -> (k < turns)%nat ->
  (k <> O -> pa + SECTSIZE * (Z.of_nat k - 1) < end_pa) -> end_pa <= pa + SECTSIZE * Z.of_nat k ->
  exists d' m', readseg_loop turns fuel pa end_pa n d m = Some (d', m') /\
    loaded bytes (n * SECTSIZE) pa (SECTSIZE * Z.of_nat k) m m'.
Proof using All.
  unfold SECTSIZE. intros Hf. revert pa n turns d m.
  induction k as [|k IH]; intros pa n turns d m Hpa Hn Hn' Hb Ht Hlo Hhi;
    (destruct turns as [|turns]; [lia|]); cbn [readseg_loop].
  - rewrite (proj2 (Z.ltb_ge _ _)) by lia. exists d, m. split; [done|].
    rewrite Z.mul_0_r. apply loaded_zero.
  - rewrite (proj2 (Z.ltb_lt _ _)) by lia.
    destruct (readsect_run fuel pa n d m Hf ltac:(lia) Hpa ltac:(unfold SECTSIZE; lia))
      as (d1 & m1 & -> & Hl1). cbn [mbind option_bind]. unfold SECTSIZE in *.
    rewrite (u32_small (pa + 512)), (u32_small (n + 1)) by lia.
    destruct (IH (pa + 512) (n + 1) turns d1 m1) as (d2 & m2 & E & Hl2); try lia.
    exists d2, m2. split; [exact E|].
    replace (512 * Z.of_nat (S k)) with (512 + 512 * Z.of_nat k) by lia.
    apply (loaded_trans _ _ _ _ _ m m1 m2); [lia|lia|done|].
    by replace (n * 512 + 512) with ((n + 1) * 512) by lia.
Qed.

Definition sector_floor (pa : Z) : Z := pa - pa mod SECTSIZE.
Definition sector_ceil (pa : Z) : Z := (pa + SECTSIZE - 1) / SECTSIZE * SECTSIZE.

Lemma readseg_run fuel pa count offset d m :
  (patience <= fuel)%nat -> 0 <= pa -> 0 <= count -> 0 <= offset < 0x100000000 ->
  pa + count + SECTSIZE <= 0x100000000 -> count / SECTSIZE + 2 < Z.of_nat fuel ->
  exists d' m', readseg fuel pa count offset d m = Some (d', m') /\
    loaded bytes ((offset / SECTSIZE + 1) * SECTSIZE) (sector_floor pa)
      (sector_ceil (pa + count) - sector_floor pa) m m'.
Proof using All.
  unfold sector_floor, sector_ceil, SECTSIZE. intros Hf Hpa Hc Ho Hb Hfu. unfold readseg.
  assert (Z.land pa (Z.lnot (SECTSIZE - 1)) = pa - pa mod 512) as ->.
  { change (SECTSIZE - 1) with (Z.ones 9). rewrite <- Z.ldiff_land, Z.ldiff_ones_r by lia.
    rewrite Z.shiftl_mul_pow2, Z.shiftr_div_pow2 by lia. change (2 ^ 9) with 512. zlia. }
  rewrite (u32_small (pa + count)) by lia. unfold SECTSIZE.
  rewrite (u32_small (offset / 512 + 1)) by zlia.
  set (lo := pa - pa mod 512). set (hi := (pa + count + 512 - 1) / 512 * 512).
  assert (lo <= hi /\ (hi - lo) mod 512 = 0) as [Hle Hmod] by (unfold lo, hi; zlia).
  destruct (readseg_loop_run fuel fuel lo (Z.to_nat ((hi - lo) / 512)) (offset / 512 + 1) d m (pa + count))
    as (d' & m' & E & Hl); unfold SECTSIZE; try (unfold lo, hi; zlia).
  exists d', m'. split; [exact E|]. unfold SECTSIZE in Hl.
  by replace (512 * Z.of_nat (Z.to_nat ((hi - lo) / 512))) with (hi - lo) in Hl by zlia.
Qed.
End Reading.

(** ** The kernel image

    [hdr] shows the first page of the image, the ELF header and the program
    headers, at ELFHDR. *)

Section Image.
Context (hdr : memory).

Definition header (m : memory) : Prop :=
  forall x, ELFHDR <= x < ELFHDR + 4096 -> load8 m x = load8 hdr x.

(** The segment of the program header at [ph]: file and memory range agree modulo
    the sector size, the file part is not the larger one, and the sectors it takes
    in memory leave the header and the top of the address space alone. *)
Record segment_ok (ph : Z) : Prop := {
  so_ph : ELFHDR <= ph /\ ph + sizeof_Proghdr <= ELFHDR + 4096;
  so_align : p_offset hdr ph mod SECTSIZE = p_pa hdr ph mod SECTSIZE;
  so_size : p_filesz hdr ph <= p_memsz hdr ph;
  so_top : p_pa hdr ph + p_memsz hdr ph + SECTSIZE <= 0x100000000;
  so_hdr : sector_ceil (p_pa hdr ph + p_memsz hdr ph) <= ELFHDR \/
           ELFHDR + 4096 <= sector_floor (p_pa hdr ph);
}.

(** The segment is in memory. *)
Definition segment_in (bytes : Z -> Z) (m : memory) (ph : Z) : Prop :=
  (forall k, 0 <= k < p_filesz hdr ph ->
     load8 m (p_pa hdr ph + k) = u8 (bytes (SECTSIZE + p_offset hdr ph + k))) /\
  (forall k, p_filesz hdr ph <= k < p_memsz hdr ph -> load8 m (p_pa hdr ph + k) = 0).

Lemma header_fields m ph :
  header m -> ELFHDR <= ph /\ ph + sizeof_Proghdr <= ELFHDR + 4096 ->
  p_offset m ph = p_offset hdr ph /\ p_pa m ph = p_pa hdr ph /\
  p_filesz m ph = p_filesz hdr ph /\ p_memsz m ph = p_memsz hdr ph.
Proof using.
  unfold sizeof_Proghdr. intros Hh Hp. unfold p_offset, p_pa, p_filesz, p_memsz.
  repeat split; apply load32_ext; intros x Hx; apply Hh; lia.
Qed.

Lemma clear_loop_run fuel n ph i m :
  segment_ok ph -> header m -> 0 <= i ->
  p_filesz hdr ph + i + Z.of_nat n = p_memsz hdr ph -> (n < fuel)%nat ->
  exists m', clear_loop fuel ph i m = Some m' /\
    forall x, load8 m' x =
      if decide (p_pa hdr ph + p_filesz hdr ph + i <= x < p_pa hdr ph + p_memsz hdr ph) then 0
      else load8 m x.
Proof using.
  intros Hok. pose proof (so_top _ Hok) as Ht. pose proof (so_hdr _ Hok) as Hd.
  unfold sector_ceil, sector_floor, SECTSIZE in *.
  pose proof (load32_range hdr (ph + 12)) as R1. fold (p_pa hdr ph) in R1.
  pose proof (load32_range hdr (ph + 16)) as R2. fold (p_filesz hdr ph) in R2.
  revert fuel i m. induction n as [|n IH]; intros fuel i m Hh Hi Hn Hf;
    (destruct fuel as [|fuel]; [lia|]); cbn [clear_loop];
    destruct (header_fields m ph Hh (so_ph _ Hok)) as (_ & -> & -> & ->).
  - rewrite !u32_small, (proj2 (Z.ltb_ge _ _)) by lia. exists m. split; [done|].
    intros x. by rewrite decide_False by lia.
  - rewrite (u32_small i), (u32_small (_ - _)), (proj2 (Z.ltb_lt _ _)), u32_small by lia.
    set (a := p_pa hdr ph + p_filesz hdr ph + i).
    destruct (IH fuel (i + 1) (store8 m a 0)) as (m' & E & Hm); try lia.
    { intros x Hx. rewrite load8_store8_ne by (unfold a, ELFHDR in *; zlia). by apply Hh. }
    exists m'. split; [exact E|]. intros x. rewrite Hm, load8_store8. unfold a.
    repeat case_decide; try lia; done.
Qed.
End Image.

(** ** The segments *)

Section Segments.
Context {hw : Type} `{Ports hw} {bytes : Z -> Z} {patience : nat} {D : Ide hw bytes patience}.
Context (hdr : memory).

(** Byte [x] is in a sector of the segment of [ph]. *)
Definition in_sectors (ph x : Z) : Prop :=
  sector_floor (p_pa hdr ph) <= x < sector_ceil (p_pa hdr ph + p_memsz hdr ph).

Lemma in_sectors_memsz ph k :
  0 <= k < p_memsz hdr ph -> in_sectors ph (p_pa hdr ph + k).
Proof. unfold in_sectors, sector_floor, sector_ceil, SECTSIZE. intros. zlia. Qed.

Lemma segment_run fuel ph d m :
  (patience <= fuel)%nat -> segment_ok hdr ph -> header hdr m ->
  p_memsz hdr ph + 2 < Z.of_nat fuel ->
  exists d' m1 m',
    readseg fuel (p_pa m ph) (p_memsz m ph) (p_offset m ph) d m = Some (d', m1) /\
    clear_loop fuel ph 0 m1 = Some m' /\
    segment_in hdr bytes m' ph /\ header hdr m' /\
    forall x, ~ in_sectors ph x -> load8 m' x = load8 m x.
Proof using D.
  intros Hf Hok Hh Hfu. destruct (header_fields hdr m ph Hh (so_ph _ _ Hok)) as (-> & -> & _ & ->).
  pose proof (load32_range hdr (ph + 12)) as R1. fold (p_pa hdr ph) in R1.
  pose proof (load32_range hdr (ph + 16)) as R2. fold (p_filesz hdr ph) in R2.
  pose proof (load32_range hdr (ph + 4)) as R3. fold (p_offset hdr ph) in R3.
  pose proof (so_top _ _ Hok) as Ht. pose proof (so_hdr _ _ Hok) as Hd.
  pose proof (so_size _ _ Hok) as Hs. pose proof (so_align _ _ Hok) as Ha.
  destruct (readseg_run fuel (p_pa hdr ph) (p_memsz hdr ph) (p_offset hdr ph) d m)
    as (d' & m1 & E1 & Hl); try (unfold SECTSIZE in *; zlia).
  assert (forall x, ~ in_sectors ph x -> load8 m1 x = load8 m x) as Hout1.
  { intros x Hx. rewrite Hl, decide_False; [done|]. unfold in_sectors in Hx. lia. }
  assert (header hdr m1) as Hh1.
  { intros x Hx. rewrite Hout1; [by apply Hh|]. unfold in_sectors. lia. }
  destruct (clear_loop_run hdr fuel (Z.to_nat (p_memsz hdr ph - p_filesz hdr ph)) ph 0 m1)
    as (m' & E2 & Hc); try done; try lia.
  rewrite Z.add_0_r in Hc. exists d', m1, m'. do 2 (split; [done|]).
  assert (forall x, ~ in_sectors ph x -> load8 m' x = load8 m x) as Hout.
  { intros x Hx. rewrite Hc, decide_False; [by apply Hout1|].
    unfold in_sectors, sector_floor, sector_ceil, SECTSIZE in Hx. zlia. }
  split; [split|split; [|done]].
  - intros k Hk. rewrite Hc, decide_False by lia. rewrite Hl, decide_True.
    + do 2 f_equal. unfold sector_floor, SECTSIZE in *. zlia.
    + pose proof (in_sectors_memsz ph k ltac:(lia)) as Hi. unfold in_sectors in Hi. lia.
  - intros k Hk. by rewrite Hc, decide_True by lia.
  - intros x Hx. rewrite Hout; [by apply Hh|]. unfold in_sectors. lia.
Qed.

(** The sectors of the segment of [ph'] hold no byte of the segment of [ph]. *)
Definition clear_of (ph ph' : Z) : Prop :=
  forall k, 0 <= k < p_memsz hdr ph -> ~ in_sectors ph' (p_pa hdr ph + k).

Lemma segment_in_frame ph m m' :
  p_filesz hdr ph <= p_memsz hdr ph ->
  (forall k, 0 <= k < p_memsz hdr ph -> load8 m' (p_pa hdr ph + k) = load8 m (p_pa hdr ph + k)) ->
  segment_in hdr bytes m ph -> segment_in hdr bytes m' ph.
Proof using.
  pose proof (load32_range hdr (ph + 16)) as R2. fold (p_filesz hdr ph) in R2.
  intros Hs Hk [H1 H2]. split; intros k Hr; rewrite Hk by lia; auto.
Qed.

Lemma load_segments_run fuel n segs ph d m :
  (patience <= fuel)%nat -> (n < segs)%nat -> header hdr m ->
  (forall i, 0 <= i < Z.of_nat n -> segment_ok hdr (ph + sizeof_Proghdr * i) /\
     p_memsz hdr (ph + sizeof_Proghdr * i) + 2 < Z.of_nat fuel) ->
  (forall i j, 0 <= i < j -> j < Z.of_nat n ->
     clear_of (ph + sizeof_Proghdr * i) (ph + sizeof_Proghdr * j)) ->
  exists d' m', load_segments segs fuel ph (ph + sizeof_Proghdr * Z.of_nat n) d m = Some (d', m') /\
    (forall i, 0 <= i < Z.of_nat n -> segment_in hdr bytes m' (ph + sizeof_Proghdr * i)) /\
    header hdr m' /\
    forall x, (forall i, 0 <= i < Z.of_nat n -> ~ in_sectors (ph + sizeof_Proghdr * i) x) ->
      load8 m' x = load8 m x.
Proof using D.
  intros Hf. revert segs ph d m. induction n as [|n IH]; intros segs ph d m Hs Hh Hok Hsep;
    (destruct segs as [|segs]; [lia|]); cbn [load_segments].
  { rewrite (proj2 (Z.ltb_ge _ _)) by lia. exists d, m. split; [done|split; [lia|by split]]. }
  rewrite (proj2 (Z.ltb_lt _ _)) by (unfold sizeof_Proghdr; lia).
  destruct (Hok 0) as [Hok0 Hfu0]; [lia|]. rewrite Z.mul_0_r, Z.add_0_r in Hok0, Hfu0.
  destruct (segment_run fuel ph d m Hf Hok0 Hh Hfu0) as (d1 & m1 & m2 & -> & E2 & Hin & Hh2 & Hout).
  cbn [mbind option_bind]. rewrite E2. cbn [mbind option_bind].
  assert (u32 (ph + sizeof_Proghdr) = ph + sizeof_Proghdr) as ->.
  { pose proof (so_ph _ _ Hok0) as Hp. unfold ELFHDR, sizeof_Proghdr in *. by apply u32_small; lia. }
  assert (forall i, ph + sizeof_Proghdr + sizeof_Proghdr * i = ph + sizeof_Proghdr * (i + 1)) as Hph
    by (intros; lia).
  destruct (IH segs (ph + sizeof_Proghdr) d1 m2) as (d' & m' & E & Hins & Hh' & Hout');
    [lia|done|intros i Hi; rewrite Hph; apply Hok; lia
    |intros i j Hi Hj; rewrite !Hph; apply Hsep; lia|].
  exists d', m'. replace (ph + sizeof_Proghdr * Z.of_nat (S n))
    with (ph + sizeof_Proghdr + sizeof_Proghdr * Z.of_nat n) by lia.
  split; [done|split; [|split; [done|]]].
  - intros i Hi. destruct (decide (i = 0)) as [->|Hi0].
    + rewrite Z.mul_0_r, Z.add_0_r. apply (segment_in_frame ph m2); [apply (so_size _ _ Hok0)| |done].
      intros k Hk. apply Hout'. intros j Hj. rewrite Hph.
      specialize (Hsep 0 (j + 1) ltac:(lia) ltac:(lia)). rewrite Z.mul_0_r, Z.add_0_r in Hsep. auto.
    + replace (ph + sizeof_Proghdr * i) with (ph + sizeof_Proghdr + sizeof_Proghdr * (i - 1)) by lia.
      apply Hins. lia.
  - intros x Hx. rewrite Hout'; [apply Hout|].
    + specialize (Hx 0 ltac:(lia)). by rewrite Z.mul_0_r, Z.add_0_r in Hx.
    + intros i Hi. rewrite Hph. apply Hx. lia.
Qed.

(** The disk holds [hdr] as the first page of the image. *)
Definition image_header : Prop :=
  forall x, ELFHDR <= x < ELFHDR + 4096 -> load8 hdr x = u8 (bytes (SECTSIZE + (x - ELFHDR))).

Lemma read_header_run fuel d m :
  (patience <= fuel)%nat -> (11 <= fuel)%nat -> image_header ->
  exists d' m', readseg fuel ELFHDR (SECTSIZE * 8) 0 d m = Some (d', m') /\ header hdr m' /\
    forall x, ~ (ELFHDR <= x < ELFHDR + 4096) -> load8 m' x = load8 m x.
Proof using D.
  intros Hf Hfu Hi. destruct (readseg_run fuel ELFHDR (SECTSIZE * 8) 0 d m) as (d' & m' & E & Hl);
    try (unfold ELFHDR, SECTSIZE; zlia).
  exists d', m'. split; [exact E|].
  change ((0 / SECTSIZE + 1) * SECTSIZE) with SECTSIZE in Hl. change (sector_floor ELFHDR) with ELFHDR in Hl.
  change (sector_ceil (ELFHDR + SECTSIZE * 8) - ELFHDR) with 4096 in Hl.
  split; intros x Hx; rewrite Hl; [|by rewrite decide_False].
  rewrite decide_True by done. by rewrite Hi.
Qed.

Lemma header_elf m :
  header hdr m -> e_magic m ELFHDR = e_magic hdr ELFHDR /\ e_entry m ELFHDR = e_entry hdr ELFHDR /\
  e_phoff m ELFHDR = e_phoff hdr ELFHDR /\ e_phnum m ELFHDR = e_phnum hdr ELFHDR.
Proof using.
  intros Hh. unfold e_magic, e_entry, e_phoff, e_phnum, load16.
  split_and!; [apply load32_ext; intros x Hx; apply Hh; lia..|].
  by rewrite !Hh by lia.
Qed.
End Segments.

(** C37: bootmain reads the header page from sector 1 on.  If its magic number is
    wrong it tells the debugger so through port 0x8A00 and stops.  Otherwise, for
    segments that fit the memory and whose sectors keep off one another and off the
    header page, it enters the kernel at e_entry with every segment at its load
    address: the bytes of the file, then zeros up to p_memsz; memory outside the
    header page and the segments' sectors is as it was.  The disk is one that answers
    only when it is ready, in LBA mode, and may be busy after every command for any
    bounded time. *)
Theorem bootmain_loads {hw : Type} `{Ports hw} (bytes : Z -> Z) (patience : nat)
    `{!Ide hw bytes patience} hdr fuel d m :
  (patience <= fuel)%nat -> (11 <= fuel)%nat -> image_header (bytes := bytes) hdr ->
  let n := e_phnum hdr ELFHDR in
  let ph := fun i => ELFHDR + e_phoff hdr ELFHDR + sizeof_Proghdr * i in
  (e_magic hdr ELFHDR <> ELF_MAGIC -> exists d' m',
     bootmain fuel d m = Some (Bad, outw 0x8A00 0x8E00 (outw 0x8A00 0x8A00 d'), m')) /\
  (e_magic hdr ELFHDR = ELF_MAGIC ->
   e_phoff hdr ELFHDR + sizeof_Proghdr * n <= 4096 -> n < Z.of_nat fuel ->
   (forall i, 0 <= i < n -> segment_ok hdr (ph i) /\ p_memsz hdr (ph i) + 2 < Z.of_nat fuel) ->
   (forall i j, 0 <= i < j -> j < n -> clear_of hdr (ph i) (ph j)) ->
   exists d' m', bootmain fuel d m = Some (Entered (e_entry hdr ELFHDR), d', m') /\
     (forall i, 0 <= i < n -> segment_in hdr bytes m' (ph i)) /\
     forall x, ~ (ELFHDR <= x < ELFHDR + 4096) ->
       (forall i, 0 <= i < n -> ~ in_sectors hdr (ph i) x) -> load8 m' x = load8 m x).
Proof.
  intros Hf Hfu Hi n ph.
  destruct (read_header_run hdr fuel d m Hf Hfu Hi) as (d1 & m1 & E1 & Hh & Hout).
  destruct (header_elf hdr m1 Hh) as (Hmag & _ & Hoff & Hnum).
  unfold bootmain. rewrite E1. cbn [mbind option_bind]. rewrite Hmag. split.
  { intros Hm. rewrite (proj2 (Z.eqb_neq _ _)) by done. cbn [negb]. eauto. }
  intros Hm Hfit Hn Hok Hsep. rewrite (proj2 (Z.eqb_eq _ _)) by done. cbn [negb].
  assert (0 <= n /\ 0 <= e_phoff hdr ELFHDR) as [Hn0 Hp0].
  { unfold n, e_phnum, load16, e_phoff. pose proof (load8_range hdr (ELFHDR + 44)).
    pose proof (load8_range hdr (ELFHDR + 44 + 1)). pose proof (load32_range hdr (ELFHDR + 28)). lia. }
  rewrite Hoff, Hnum. fold n.
  assert (ELFHDR + 4096 < 0x100000000) as Hlt by done. unfold sizeof_Proghdr in Hfit.
  assert (0 <= ELFHDR) as Hge by done.
  rewrite (u32_small (ELFHDR + _)), u32_small by (unfold sizeof_Proghdr; rewrite ?u32_small; lia).
  destruct (load_segments_run (bytes := bytes) hdr fuel (Z.to_nat n) fuel
    (ELFHDR + e_phoff hdr ELFHDR) d1 m1) as (d' & m' & E & Hin & Hh' & Hfr); try lia; try done.
  - intros i Hi'. apply Hok. lia.
  - intros i j Hij Hj. apply Hsep; lia.
  - rewrite Z2Nat.id in E, Hin, Hfr by done. rewrite E. cbn [mbind option_bind].
    destruct (header_elf hdr m' Hh') as (_ & -> & _). exists d', m'. split; [done|split; [done|]].
    intros x Hx Hx'. rewrite Hfr by done. by apply Hout.
Qed.

(** ** A disk that is busy for a while after each command

    While it is busy it takes no register and no command, and gives out -1; it
    reads no sector but in LBA mode. *)

Record demo_disk := mkDisk { dk_reg : Z -> Z; dk_data : list Z; dk_busy : bool }.

Section Demo.
Context (bytes : Z -> Z).

#[export] Instance demo_ports : Ports demo_disk := {
  inb p d := (if dk_busy d then 0x80 else 0x40, mkDisk (dk_reg d) (dk_data d) false);
  outb p v d :=
    if dk_busy d then d
    else if p =? 0x1F7 then
      mkDisk (dk_reg d)
        (if Z.land (dk_reg d 0x1F6) 0xF0 =? 0xE0 then sector_words bytes
          (dk_reg d 0x1F3 + 0x100 * dk_reg d 0x1F4 + 0x10000 * dk_reg d 0x1F5
           + 0x1000000 * Z.land (dk_reg d 0x1F6) 0xF) else []) true
    else mkDisk (fun q => if q =? p then v else dk_reg d q) (dk_data d) false;
  outw p v d := d;
  inl p d := if dk_busy d then (-1, d)
             else (hd 0 (dk_data d), mkDisk (dk_reg d) (tl (dk_data d)) false);
}.

Lemma dk_ready d : (if dk_busy d then 1%nat else 0%nat) = 0%nat -> dk_busy d = false.
Proof. by destruct (dk_busy d). Qed.

#[export, program] Instance demo_ide : Ide demo_disk bytes 2 := {
  reg := dk_reg; data := dk_data; busy d := if dk_busy d then 1%nat else 0%nat;
}.
Next Obligation. intros d. cbn. destruct (dk_busy d); lia. Defined.
Next Obligation. intros d v d' [= <- <-]. cbn. destruct (dk_busy d); split_and!; done. Defined.
Next Obligation.
  intros d p v Hp Hb. cbn. rewrite (dk_ready d Hb), (proj2 (Z.eqb_neq p 0x1F7)) by lia. done.
Defined.
Next Obligation. intros d Hb _ Hl. cbn in *. by rewrite (dk_ready d Hb), (proj2 (Z.eqb_eq _ _) Hl). Defined.
Next Obligation. intros d w r Hb E. cbn in *. rewrite (dk_ready d Hb), E. eauto. Defined.
End Demo.

(** An image with two segments, the second with a part to clear. *)
Definition demo_header : memory :=
  let seg ph off pa fsz msz m :=
    store32 (store32 (store32 (store32 m (ph + 4) off) (ph + 12) pa) (ph + 16) fsz) (ph + 20) msz in
  seg (ELFHDR + 84) 0x1200 0x100400 5 0x300
    (seg (ELFHDR + 52) 0x1000 0x100000 0x200 0x200
      (store16 (store32 (store32 (store32 ∅ ELFHDR ELF_MAGIC) (ELFHDR + 24) 0x10000C)
        (ELFHDR + 28) 52) (ELFHDR + 44) 2)).
Definition demo_bytes (a : Z) : Z :=
  if decide (a < SECTSIZE + 4096) then load8 demo_header (ELFHDR + (a - SECTSIZE)) else a.

Lemma demo_segments i :
  0 <= i < 2 ->
  segment_ok demo_header (ELFHDR + 52 + sizeof_Proghdr * i) /\
  p_memsz demo_header (ELFHDR + 52 + sizeof_Proghdr * i) + 2 < Z.of_nat 1000.
Proof.
  intros Hi. assert (i = 0 \/ i = 1) as [->| ->] by lia.
  - split; [split|]; [by vm_compute..| |by vm_compute]. right. by vm_compute.
  - split; [split|]; [by vm_compute..| |by vm_compute]. right. by vm_compute.
Qed.

Lemma demo_clear i j :
  0 <= i < j -> j < 2 ->
  clear_of demo_header (ELFHDR + 52 + sizeof_Proghdr * i) (ELFHDR + 52 + sizeof_Proghdr * j).
Proof.
  intros Hi Hj. assert (i = 0 /\ j = 1) as [-> ->] by lia.
  intros k. unfold in_sectors.
  change (p_memsz demo_header (ELFHDR + 52 + sizeof_Proghdr * 0)) with 0x200.
  change (p_pa demo_header (ELFHDR + 52 + sizeof_Proghdr * 0)) with 0x100000.
  change (sector_floor (p_pa demo_header (ELFHDR + 52 + sizeof_Proghdr * 1))) with 0x100400. lia.
Qed.

Lemma bootmain_loads_witness :
  exists d' m',
    bootmain (H := demo_ports demo_bytes) 1000 (mkDisk (fun _ => 0) [] false) ∅
      = Some (Entered 0x10000C, d', m') /\
    segment_in demo_header demo_bytes m' (ELFHDR + 84).
Proof.
  destruct (bootmain_loads (H := demo_ports demo_bytes) demo_bytes 2 demo_header 1000
    (mkDisk (fun _ => 0) [] false) ∅) as [_ Hgood]; [lia|lia| |].
  - intros x Hx. unfold demo_bytes. rewrite decide_True by (unfold SECTSIZE, ELFHDR in *; lia).
    rewrite (u8_small (load8 _ _)) by apply load8_range. f_equal. lia.
  - destruct Hgood as (d' & m' & E & Hin & _).
    + by vm_compute.
    + by vm_compute.
    + by vm_compute.
    + apply demo_segments.
    + apply demo_clear.
    + exists d', m'. split; [exact E|]. apply (Hin 1). split; vm_compute; [discriminate|reflexivity].
Defined.
