(* ===== verification/MpConfig.v ===== *)
(** * MpConfig: the multiprocessor configuration, kern/mpconfig.c

    The BIOS describes the processors in tables in low memory; mp_init finds them,
    checks them and fills in cpus, ncpu, bootcpu, ismp and lapicaddr. *)

From S2P Require Import Prelude Layout Memory Kernel.

(** ** The tables

    The packed structs, as the offsets of their fields. *)

Definition sizeof_mp : Z := 16.
Definition mp_physaddr (mp : Z) : Z := mp + 4.
Definition mp_type (mp : Z) : Z := mp + 11.
Definition mp_imcrp (mp : Z) : Z := mp + 12.

Definition conf_length (conf : Z) : Z := conf + 4.
Definition conf_version (conf : Z) : Z := conf + 6.
Definition conf_entry (conf : Z) : Z := conf + 34.
Definition conf_lapicaddr (conf : Z) : Z := conf + 36.
Definition conf_xlength (conf : Z) : Z := conf + 40.
Definition conf_xchecksum (conf : Z) : Z := conf + 42.
Definition conf_entries (conf : Z) : Z := conf + 44.

Definition sizeof_mpproc : Z := 20.
Definition proc_apicid (p : Z) : Z := p + 1.
Definition proc_flags (p : Z) : Z := p + 3.

Definition MPPROC_BOOT : Z := 0x02.
Definition MPPROC : Z := 0x00.
Definition MPBUS : Z := 0x01.
Definition MPIOAPIC : Z := 0x02.
Definition MPIOINTR : Z := 0x03.
Definition MPLINTR : Z := 0x04.

(** ** Checksums and signatures *)

Fixpoint sum_loop (m : memory) (a : Z) (n : nat) (acc : Z) : Z :=
  match n with
  | O => acc
  | S n' => sum_loop m (a + 1) n' (acc + load8 m a)
  end.
Definition sum (addr len : Z) : K Z := fun s =>
  if addr <? KERNBASE then Undef
  else Ok (u8 (sum_loop (mem s) (addr - KERNBASE) (Z.to_nat len) 0)) s.

(** [memcmp(va, sig, 4) == 0] for the characters of a string literal. *)
Definition signature_is (va : Z) (sig : list Z) : K bool := fun s =>
  if va <? KERNBASE then Undef
  else Ok (bool_decide (load_bytes (mem s) (va - KERNBASE) 4 = sig)) s.
Definition MP_SIGNATURE : list Z := [0x5F; 0x4D; 0x50; 0x5F].
Definition CONF_SIGNATURE : list Z := [0x50; 0x43; 0x4D; 0x50].

(** ** The search *)

Fixpoint mpsearch_loop (fuel : nat) (mp end_ : Z) : K (option Z) :=
  match fuel with
  | O => leave NoFuel
  | S fuel' =>
      if mp <? end_ then
        sig ← signature_is mp MP_SIGNATURE;
        found ← (if sig : bool then c ← sum mp sizeof_mp; mret (c =? 0) else mret false);
        if found : bool then mret (Some mp) else mpsearch_loop fuel' (u32 (mp + sizeof_mp)) end_
      else mret None
  end.
Definition mpsearch1 (a len : Z) : K (option Z) :=
  mp ← KADDR a;
  end_ ← KADDR (u32 (a + len));
  mpsearch_loop (S (Z.to_nat len)) mp end_.

Definition mpsearch : K (option Z) :=
  bda ← KADDR (Z.shiftl 0x40 4);
  p ← kload16 (bda + 0x0E);
  r ← (if ctrue p then mpsearch1 (u32 (Z.shiftl p 4)) 1024
       else p ← kload16 (bda + 0x13); mpsearch1 (u32 (p * 1024 - 1024)) 1024);
  match r with
  | Some mp => mret (Some mp)
  | None => mpsearch1 0xF0000 0x10000
  end.

(** The MP structure and the configuration table. *)
Definition mpconfig : K (option (Z * Z)) :=
  r ← mpsearch;
  match r with
  | None => mret None
  | Some mp =>
      pa ← kload32 (mp_physaddr mp);
      type ← kload8 (mp_type mp);
      if (pa =? 0) || negb (type =? 0) then
        _ ← cprintf "SMP: Default configurations not implemented" []; mret None
      else
      conf ← KADDR pa;
      sig ← signature_is conf CONF_SIGNATURE;
      if negb sig then
        _ ← cprintf "SMP: Incorrect MP configuration table signature" []; mret None
      else
      length ← kload16 (conf_length conf);
      c ← sum conf length;
      if negb (c =? 0) then
        _ ← cprintf "SMP: Bad MP configuration checksum" []; mret None
      else
      version ← kload8 (conf_version conf);
      if negb (version =? 1) && negb (version =? 4) then
        _ ← cprintf "SMP: Unsupported MP version %d" [version]; mret None
      else
      xlength ← kload16 (conf_xlength conf);
      xsum ← sum (u32 (conf + length)) xlength;
      xchecksum ← kload8 (conf_xchecksum conf);
      if ctrue (Z.land (xsum + xchecksum) 0xff) then
        _ ← cprintf "SMP: Bad MP configuration extended checksum" []; mret None
      else mret (Some (mp, conf))
  end.

(** ** The processors *)

(** The case of a processor entry. *)
Definition mp_processor (p : Z) : K unit :=
  flags ← kload8 (proc_flags p);
  n ← get ncpu;
  _ ← kwhen (ctrue (Z.land flags MPPROC_BOOT)) (modify (set_bootcpu n));
  if n <? NCPU then
    _ ← upd_cpus n (set_cpu_id (u8 n));
    modify (set_ncpu (n + 1))
  else
    apicid ← kload8 (proc_apicid p);
    cprintf "SMP: too many CPUs, CPU %d disabled" [apicid].

(** [n] entries are left; an unknown type ends the loop. *)
Fixpoint mp_entries (n : nat) (p : Z) : K unit :=
  match n with
  | O => mret tt
  | S n' =>
      type ← kload8 p;
      if type =? MPPROC then
        _ ← mp_processor p;
        mp_entries n' (u32 (p + sizeof_mpproc))
      else if (type =? MPBUS) || (type =? MPIOAPIC) || (type =? MPIOINTR) || (type =? MPLINTR) then
        mp_entries n' (u32 (p + 8))
      else
        _ ← cprintf "mpinit: unknown config type %x" [type];
        modify (set_ismp 0)
  end.

(** [bootcpu->cpu_id]. *)
Definition bootcpu_id : K Z := fun s =>
  match cpus s !! bootcpu s with Some c => Ok (cpu_id c) s | None => Undef end.

Section Init.
(** What [inb(0x23)] reads. *)
Context (imcr : Z).

Definition mp_init : K unit :=
  _ ← modify (set_bootcpu 0);
  r ← mpconfig;
  match r with
  | None => mret tt
  | Some (mp, conf) =>
      _ ← modify (set_ismp 1);
      la ← kload32 (conf_lapicaddr conf);
      _ ← modify (set_lapicaddr la);
      entry ← kload16 (conf_entry conf);
      _ ← mp_entries (Z.to_nat entry) (conf_entries conf);
      boot ← get bootcpu;
      _ ← upd_cpus boot (set_cpu_status CPU_STARTED);
      smp ← get ismp;
      if negb (ctrue smp) then
        _ ← modify (set_ncpu 1);
        _ ← modify (set_lapicaddr 0);
        cprintf "SMP: configuration not found, SMP disabled" []
      else
        n ← get ncpu;
        id ← bootcpu_id;
        _ ← cprintf "SMP: CPU %d found %d CPU(s)" [id; n];
        imcrp ← kload8 (mp_imcrp mp);
        kwhen (ctrue imcrp)
          (_ ← cprintf "SMP: Setting IMCR to switch from PIC mode to symmetric I/O mode" [];
           _ ← tell (Outb 0x22 0x70);
           tell (Outb 0x23 (Z.lor imcr 1)))
  end.
End Init.

(** ** What the tables say *)

(** The bytes of a block, added up. *)
Definition byte_sum (m : memory) (a : Z) (n : Z) : Z := foldr Z.add 0 (load_bytes m a (Z.to_nat n)).

Lemma load_bytes_S m a n : load_bytes m a (S n) = load8 m a :: load_bytes m (a + 1) n.
Proof.
  unfold load_bytes. rewrite seqZ_cons by lia. rewrite fmap_cons, Z.add_0_r. f_equal.
  replace (Z.pred (Z.of_nat (S n))) with (Z.of_nat n) by lia.
  change (Z.succ 0) with (1 + 0). rewrite <- fmap_add_seqZ, <- list_fmap_compose.
  apply list_fmap_ext. intros i x _. cbn. f_equal. lia.
Qed.

Lemma sum_loop_bytes m a n acc :
  sum_loop m a n acc = acc + byte_sum m a (Z.of_nat n).
Proof.
  unfold byte_sum. rewrite Nat2Z.id. revert a acc. induction n as [|n IH]; intros a acc.
  { change (load_bytes m a 0) with (@nil Z). cbn. lia. }
  cbn [sum_loop]. rewrite IH, load_bytes_S. cbn [foldr]. lia.
Qed.

Lemma sum_run s pa n :
  0 <= pa -> 0 <= n -> sum (KERNBASE + pa) n s = Ok (u8 (byte_sum (mem s) pa n)) s.
Proof.
  intros Hp Hn. unfold sum. rewrite (proj2 (Z.ltb_ge _ _)) by lia.
  rewrite sum_loop_bytes, Z2Nat.id, Z.add_0_l by done. by replace (KERNBASE + pa - KERNBASE) with pa by lia.
Qed.

Lemma signature_run s pa sig :
  0 <= pa -> signature_is (KERNBASE + pa) sig s = Ok (bool_decide (load_bytes (mem s) pa 4 = sig)) s.
Proof.
  intros Hp. unfold signature_is. rewrite (proj2 (Z.ltb_ge _ _)) by lia.
  by replace (KERNBASE + pa - KERNBASE) with pa by lia.
Qed.

(** A floating pointer structure at a physical address: signature and checksum. *)
Definition is_mp (m : memory) (pa : Z) : Prop :=
  load_bytes m pa 4 = MP_SIGNATURE /\ u8 (byte_sum m pa sizeof_mp) = 0.

(** [r] is the first of the sixteen-byte steps from [a] on, below [a + len], that
    holds one. *)
Definition first_mp (m : memory) (a len : Z) (r : option Z) : Prop :=
  match r with
  | Some pa => exists k, 0 <= k /\ pa = a + sizeof_mp * k /\ pa < a + len /\ is_mp m pa /\
      forall j, 0 <= j < k -> ~ is_mp m (a + sizeof_mp * j)
  | None => forall k, 0 <= k -> a + sizeof_mp * k < a + len -> ~ is_mp m (a + sizeof_mp * k)
  end.

Lemma first_mp_here m a len : 0 < len -> is_mp m a -> first_mp m a len (Some a).
Proof. intros Hl Hm. exists 0. split_and!; [lia|lia|lia|done|lia]. Qed.

Lemma first_mp_step m a len r :
  ~ is_mp m a -> first_mp m (a + sizeof_mp) (len - sizeof_mp) r -> first_mp m a len r.
Proof.
  intros Hn. assert (forall j, a + sizeof_mp * j = a + sizeof_mp + sizeof_mp * (j - 1)) as Hs
    by (intros; unfold sizeof_mp; lia).
  destruct r as [pa|]; cbn.
  - intros (k & Hk & -> & Hlt & Hmp & Hj). exists (k + 1).
    split_and!; [lia|unfold sizeof_mp; lia|lia|done|]. intros j Hj'.
    destruct (decide (j = 0)) as [->|]; [by rewrite Z.mul_0_r, Z.add_0_r|].
    rewrite Hs. apply Hj. lia.
  - intros Hk k Hk0 Hlt.
    destruct (decide (k = 0)) as [->|]; [by rewrite Z.mul_0_r, Z.add_0_r|].
    rewrite Hs in *. apply Hk; lia.
Qed.

(** The test of one candidate. *)
Lemma is_mp_run {B} s a (k : bool -> K B) :
  0 <= a -> exists b : bool, (b = true <-> is_mp (mem s) a) /\
    (sig ← signature_is (KERNBASE + a) MP_SIGNATURE;
     found ← (if sig : bool then c ← sum (KERNBASE + a) sizeof_mp; mret (c =? 0) else mret false);
     k found) s = k b s.
Proof.
  intros Ha. rewrite (bind_ok _ _ _ _ _ (signature_run _ _ _ Ha)).
  destruct (bool_decide_reflect (load_bytes (mem s) a 4 = MP_SIGNATURE)) as [Es|Es].
  - rewrite bind_assoc, (bind_ok _ _ _ _ _ (sum_run _ _ sizeof_mp Ha ltac:(done))).
    eexists. split; [|by rewrite bind_ret]. unfold is_mp. rewrite Z.eqb_eq. tauto.
  - exists false. split; [|by rewrite bind_ret]. unfold is_mp. split; [done|tauto].
Qed.

Lemma mpsearch_loop_run fuel a len s :
  (0 < fuel)%nat -> 0 <= a -> a + len + sizeof_mp <= 0x10000000 ->
  len <= sizeof_mp * (Z.of_nat fuel - 1) ->
  exists r, mpsearch_loop fuel (KERNBASE + a) (KERNBASE + (a + len)) s = Ok (Z.add KERNBASE <$> r) s /\
    first_mp (mem s) a len r.
Proof.
  revert a len. induction fuel as [|fuel IH]; intros a len Hf0 Ha Hb Hf; [lia|].
  cbn [mpsearch_loop]. destruct (Z.ltb_spec (KERNBASE + a) (KERNBASE + (a + len))) as [Hlt|Hge].
  - destruct (is_mp_run s a (fun found => if found : bool then mret (Some (KERNBASE + a))
      else mpsearch_loop fuel (u32 (KERNBASE + a + sizeof_mp)) (KERNBASE + (a + len))) Ha)
      as (b & Hb' & ->).
    destruct b.
    + exists (Some a). split; [done|]. apply first_mp_here; [lia|]. by apply Hb'.
    + change KERNBASE with 0xF0000000 in *. unfold sizeof_mp in *. rewrite u32_small by lia.
      destruct (IH (a + 16) (len - 16)) as (r & E & Hr); [lia..|].
      exists r. replace (a + 16 + (len - 16)) with (a + len) in E by lia.
      replace (0xF0000000 + (a + 16)) with (0xF0000000 + a + 16) in E by lia.
      split; [exact E|]. apply first_mp_step; [|done]. intros Hm. apply Hb' in Hm. done.
  - exists None. split; [done|]. cbn. intros k Hk Hlt. unfold sizeof_mp in *. lia.
Qed.

(** The end of physical memory, as far as KERNBASE maps it. *)
Definition in_memory (s : kstate) (pa : Z) : Prop :=
  0 <= pa /\ pa + sizeof_mp <= 0x10000000 /\ PGNUM pa < npages s.

Lemma KADDR_in_memory s pa : in_memory s pa -> KADDR pa s = Ok (KERNBASE + pa) s.
Proof.
  intros (H0 & H1 & H2). unfold KADDR. rewrite bind_get, Z.geb_leb, (proj2 (Z.leb_gt _ _)) by done.
  change KERNBASE with 0xF0000000. unfold sizeof_mp in H1. by rewrite u32_small, Z.add_comm by lia.
Qed.

Lemma mpsearch1_run s a len :
  in_memory s a -> in_memory s (a + len) -> 0 <= len ->
  exists r, mpsearch1 a len s = Ok (Z.add KERNBASE <$> r) s /\ first_mp (mem s) a len r.
Proof.
  intros Ha He Hl. unfold mpsearch1. rewrite (bind_ok _ _ _ _ _ (KADDR_in_memory _ _ Ha)).
  destruct He as (E0 & E1 & E2). unfold sizeof_mp in E1.
  rewrite u32_small by lia. rewrite (bind_ok _ _ _ _ _ (KADDR_in_memory s (a + len) (conj E0 (conj E1 E2)))).
  apply mpsearch_loop_run; [lia|apply Ha|done|unfold sizeof_mp; lia].
Qed.

(** ** Reading the tables *)

Lemma kload8_at s va x : va = KERNBASE + x -> 0 <= x -> kload8 va s = Ok (load8 (mem s) x) s.
Proof.
  intros -> Hx. unfold kload8. rewrite (proj2 (Z.ltb_ge _ _)) by lia.
  by replace (KERNBASE + x - KERNBASE) with x by lia.
Qed.
Lemma kload16_at s va x : va = KERNBASE + x -> 0 <= x -> kload16 va s = Ok (load16 (mem s) x) s.
Proof.
  intros -> Hx. unfold kload16. rewrite (proj2 (Z.ltb_ge _ _)) by lia.
  by replace (KERNBASE + x - KERNBASE) with x by lia.
Qed.
Lemma kload32_at s va x : va = KERNBASE + x -> 0 <= x -> kload32 va s = Ok (load32 (mem s) x) s.
Proof.
  intros -> Hx. unfold kload32. rewrite (proj2 (Z.ltb_ge _ _)) by lia.
  by replace (KERNBASE + x - KERNBASE) with x by lia.
Qed.

Lemma load16_range m a : 0 <= load16 m a < 0x10000.
Proof. unfold load16. pose proof (load8_range m a). pose proof (load8_range m (a + 1)). lia. Qed.

(** The first place that is searched: the EBDA, or the end of base memory. *)
Definition bios_region (m : memory) : Z :=
  if load16 m 0x40E =? 0 then load16 m 0x413 * 1024 - 1024 else load16 m 0x40E * 16.

(** What the search comes to: the first structure there, else the first one in ROM. *)
Definition mp_found (m : memory) (r : option Z) : Prop :=
  (r <> None /\ first_mp m (bios_region m) 1024 r) \/
  (first_mp m (bios_region m) 1024 None /\ first_mp m 0xF0000 0x10000 r).

(** More than 1 MB of memory, and the first place inside. *)
Record searchable (s : kstate) : Prop := {
  sb_low : 0x100 < npages s;
  sb_region : in_memory s (bios_region (mem s));
  sb_region_end : in_memory s (bios_region (mem s) + 1024);
}.

Lemma mpsearch_run s :
  searchable s ->
  exists r, mpsearch s = Ok (Z.add KERNBASE <$> r) s /\ mp_found (mem s) r.
Proof.
  intros [Hlow Hreg Hend]. pose proof (load16_range (mem s) 0x40E) as R1.
  pose proof (load16_range (mem s) 0x413) as R2.
  assert (in_memory s (Z.shiftl 0x40 4) /\ in_memory s 0xF0000 /\ in_memory s (0xF0000 + 0x10000))
    as (H1 & H2 & H3).
  { unfold in_memory, sizeof_mp. change (Z.shiftl 0x40 4) with 0x400.
    change (PGNUM 0x400) with 0. change (PGNUM 0xF0000) with 0xF0. change (PGNUM (0xF0000 + 0x10000)) with 0x100. lia. }
  unfold mpsearch. rewrite (bind_ok _ _ _ _ _ (KADDR_in_memory _ _ H1)).
  rewrite (bind_ok _ _ _ _ _ (kload16_at _ _ 0x40E eq_refl ltac:(done))).
  destruct (mpsearch1_run s _ 1024 Hreg Hend ltac:(done)) as (r1 & E1 & F1).
  destruct (mpsearch1_run s _ 0x10000 H2 H3 ltac:(done)) as (r2 & E2 & F2).
  assert ((if ctrue (load16 (mem s) 0x40E)
           then mpsearch1 (u32 (Z.shiftl (load16 (mem s) 0x40E) 4)) 1024
           else p ← kload16 (KERNBASE + Z.shiftl 0x40 4 + 0x13); mpsearch1 (u32 (p * 1024 - 1024)) 1024) s
          = Ok (Z.add KERNBASE <$> r1) s) as E.
  { unfold bios_region, ctrue in *. destruct (load16 (mem s) 0x40E =? 0); cbn [negb].
    - rewrite (bind_ok _ _ _ _ _ (kload16_at _ _ 0x413 eq_refl ltac:(done))).
      destruct Hreg as [Hreg _]. by rewrite u32_small by lia.
    - rewrite Z.shiftl_mul_pow2 by lia. change (2 ^ 4) with 16. by rewrite u32_small by lia. }
  rewrite (bind_ok _ _ _ _ _ E). destruct r1 as [mp|]; cbn [fmap option_fmap option_map].
  - exists (Some mp). split; [done|]. left. done.
  - exists r2. split; [exact E2|]. right. done.
Qed.

Lemma mp_found_nonneg s m mp : in_memory s (bios_region m) -> mp_found m (Some mp) -> 0 <= mp.
Proof.
  intros [Hr _] [[_ H]|[_ H]]; destruct H as (k & Hk & -> & _); unfold sizeof_mp; lia.
Qed.

(** The configuration table that the structure at [mp] names is one that the
    kernel understands. *)
Record valid_conf (m : memory) (mp : Z) : Prop := {
  vc_named : load32 m (mp_physaddr mp) <> 0 /\ load8 m (mp_type mp) = 0;
  vc_signature : load_bytes m (load32 m (mp_physaddr mp)) 4 = CONF_SIGNATURE;
  vc_checksum : let pa := load32 m (mp_physaddr mp) in
    u8 (byte_sum m pa (load16 m (conf_length pa))) = 0;
  vc_version : let v := load8 m (conf_version (load32 m (mp_physaddr mp))) in v = 1 \/ v = 4;
  vc_extended : let pa := load32 m (mp_physaddr mp) in
    u8 (byte_sum m (pa + load16 m (conf_length pa)) (load16 m (conf_xlength pa))
        + load8 m (conf_xchecksum pa)) = 0;
}.

Lemma ctrue_land_ff x c : ctrue (Z.land (u8 x + c) 0xff) = negb (u8 (x + c) =? 0).
Proof.
  unfold ctrue. change 0xff with (Z.ones 8). rewrite Z.land_ones by lia.
  do 2 f_equal. unfold u8. change (2 ^ 8) with 256. zlia.
Qed.

(** Step over a load of the field at physical address [x]. *)
Ltac read_at x :=
  erewrite bind_ok;
  [|first [apply (kload8_at _ _ x) | apply (kload16_at _ _ x) | apply (kload32_at _ _ x)];
    unfold mp_physaddr, mp_type, mp_imcrp, conf_length, conf_version, conf_entry, conf_lapicaddr,
      conf_xlength, conf_xchecksum, conf_entries, proc_apicid, proc_flags; lia].

(** The part of mpconfig after the search. *)
Lemma mpconfig_checked s mp :
  mpsearch s = Ok (Some (KERNBASE + mp)) s -> 0 <= mp ->
  in_memory s (load32 (mem s) (mp_physaddr mp)) ->
  load32 (mem s) (mp_physaddr mp) + 0x10000 <= 0x10000000 ->
  exists l, (valid_conf (mem s) mp /\
     mpconfig s = Ok (Some (KERNBASE + mp, KERNBASE + load32 (mem s) (mp_physaddr mp))) (set_log l s)) \/
    (~ valid_conf (mem s) mp /\ mpconfig s = Ok None (set_log l s)).
Proof.
  intros Es Hmp Hpa Hend. unfold mpconfig. rewrite (bind_ok _ _ _ _ _ Es).
  read_at (mp_physaddr mp).
  read_at (mp_type mp).
  set (pa := load32 (mem s) (mp_physaddr mp)) in *. assert (0 <= pa) as Hpa0 by apply Hpa.
  destruct ((pa =? 0) || negb (load8 (mem s) (mp_type mp) =? 0)) eqn:E1.
  { eexists. right. split; [|reflexivity]. intros [[H1 H2] _ _ _ _]. fold pa in H1.
    apply orb_prop in E1 as [E1|E1]; bcomp; lia. }
  rewrite (bind_ok _ _ _ _ _ (KADDR_in_memory _ _ Hpa)).
  rewrite (bind_ok _ _ _ _ _ (signature_run _ _ _ Hpa0)).
  destruct (bool_decide_reflect (load_bytes (mem s) pa 4 = CONF_SIGNATURE)) as [E2|E2]; cbn [negb].
  2: { eexists. right. split; [|reflexivity]. by intros [_ H _ _ _]. }
  read_at (conf_length pa).
  set (len := load16 (mem s) (conf_length pa)).
  pose proof (load16_range (mem s) (conf_length pa)) as Hlen. fold len in Hlen.
  rewrite (bind_ok _ _ _ _ _ (sum_run _ _ len Hpa0 ltac:(lia))).
  destruct (u8 (byte_sum (mem s) pa len) =? 0) eqn:E3; cbn [negb].
  2: { eexists. right. split; [|reflexivity]. intros [_ _ H _ _]. bcomp. by apply E3. }
  read_at (conf_version pa).
  set (v := load8 (mem s) (conf_version pa)).
  destruct (negb (v =? 1) && negb (v =? 4)) eqn:E4.
  { eexists. right. split; [|reflexivity]. intros [_ _ _ H _]. cbn in H. fold pa v in H.
    bcomp. lia. }
  read_at (conf_xlength pa).
  set (xlen := load16 (mem s) (conf_xlength pa)).
  pose proof (load16_range (mem s) (conf_xlength pa)) as Hxlen. fold xlen in Hxlen.
  assert (u32 (KERNBASE + pa + len) = KERNBASE + (pa + len)) as ->
    by (change KERNBASE with 0xF0000000; rewrite u32_small by lia; lia).
  rewrite (bind_ok _ _ _ _ _ (sum_run s (pa + len) xlen ltac:(lia) ltac:(lia))).
  read_at (conf_xchecksum pa).
  rewrite ctrue_land_ff.
  destruct (u8 (byte_sum (mem s) (pa + len) xlen + load8 (mem s) (conf_xchecksum pa)) =? 0) eqn:E5;
    cbn [negb]; bcomp.
  - exists (log s). left. split; [|by destruct s].
    split; fold pa; try done.
    apply andb_false_iff in E4 as [E4|E4]; bcomp; auto.
  - eexists. right. split; [|reflexivity]. by intros [_ _ _ _ Hx].
Qed.

(** ** The processor entries *)

(** The flags of the processor entries among the [n] entries from [p] on, up to
    the first entry of an unknown type, and whether there is none of that kind. *)
Fixpoint processors (m : memory) (n : nat) (p : Z) : list Z * bool :=
  match n with
  | O => ([], true)
  | S n' =>
      let type := load8 m p in
      if type =? 0 then
        let '(fs, known) := processors m n' (p + sizeof_mpproc) in
        (load8 m (proc_flags p) :: fs, known)
      else if type <=? 4 then processors m n' (p + 8)
      else ([], false)
  end.

Definition is_boot (flags : Z) : bool := Z.testbit flags 1.

(** bootcpu after the processors [fs], the next one being number [n]. *)
Fixpoint boot_after (b n : Z) (fs : list Z) : Z :=
  match fs with
  | [] => b
  | f :: fs' => boot_after (if is_boot f then n else b) (Z.min NCPU (n + 1)) fs'
  end.

(** The arrays and counters after the entries: what mp_entries does to the state. *)
Record registered (s s' : kstate) (fs : list Z) (known : bool) : Prop := {
  rg_frame : exists l, s' = set_log l (set_ismp (ismp s') (set_cpus (cpus s')
               (set_ncpu (ncpu s') (set_bootcpu (bootcpu s') s))));
  rg_ismp : ismp s' = if known then ismp s else 0;
  rg_ncpu : ncpu s' = Z.min NCPU (ncpu s + Z.of_nat (length fs));
  rg_bootcpu : bootcpu s' = boot_after (bootcpu s) (ncpu s) fs;
  rg_cpus : forall i, cpus s' !! i =
    if decide (ncpu s <= i < ncpu s') then set_cpu_id i <$> (cpus s !! i) else cpus s !! i;
}.

Lemma land_boot flags : ctrue (Z.land flags MPPROC_BOOT) = is_boot flags.
Proof.
  unfold ctrue, is_boot. change MPPROC_BOOT with (2 ^ 1).
  destruct (Z.testbit flags 1) eqn:E.
  - apply negb_true_iff, Z.eqb_neq. intros H. apply (f_equal (fun x => Z.testbit x 1)) in H.
    rewrite Z.land_spec, E, Z.pow2_bits_true, Z.testbit_0_l in H by lia. done.
  - apply negb_false_iff, Z.eqb_eq. apply Z.bits_inj_0. intros k.
    rewrite Z.land_spec. destruct (decide (k = 1)) as [->|Hk]; [by rewrite E|].
    destruct (decide (0 <= k)) as [Hk0|]; [|by rewrite Z.testbit_neg_r by lia].
    rewrite Z.pow2_bits_false by lia. apply andb_false_r.
Qed.

(** One processor. *)
Lemma mp_processor_run s p pa :
  p = KERNBASE + pa -> 0 <= pa -> 0 <= ncpu s <= NCPU ->
  (forall i, 0 <= i < NCPU -> is_Some (cpus s !! i)) ->
  exists s', mp_processor p s = Ok tt s' /\ registered s s' [load8 (mem s) (proc_flags pa)] true.
Proof.
  intros -> Hpa Hn Hcpus. unfold mp_processor. read_at (proc_flags pa). rewrite bind_get, land_boot.
  set (f := load8 (mem s) (proc_flags pa)).
  set (s1 := if is_boot f then set_bootcpu (ncpu s) s else s).
  rewrite (bind_ok _ _ s tt s1) by (unfold s1; by destruct (is_boot f)).
  assert (ncpu s1 = ncpu s /\ cpus s1 = cpus s /\ ismp s1 = ismp s /\
    bootcpu s1 = (if is_boot f then ncpu s else bootcpu s))
    as (N1 & C1 & I1 & B1) by (unfold s1; by destruct (is_boot f)).
  destruct (Z.ltb_spec (ncpu s) NCPU) as [Hlt|Hge].
  - destruct (Hcpus (ncpu s) ltac:(lia)) as [c Hc].
    unfold upd_cpus at 1. unfold mbind at 1, K_bind at 1. rewrite C1, Hc. eexists. split; [reflexivity|].
    assert (u8 (ncpu s) = ncpu s) as Hu by (apply u8_small; unfold NCPU in *; lia).
    split; [exists (log s); unfold s1; by destruct (is_boot f), s|..];
      cbn; rewrite ?I1, ?B1, ?C1, ?Hu; try done.
    + lia.
    + intros i. destruct (decide (i = ncpu s)) as [->|Hi].
      * by rewrite lookup_insert_eq, decide_True, Hc by lia.
      * rewrite lookup_insert_ne by done. by rewrite decide_False by lia.
  - read_at (proc_apicid pa). eexists. split; [reflexivity|].
    split; [eexists (_ :: log s); unfold s1; by destruct (is_boot f), s|..];
      cbn; rewrite ?I1, ?B1, ?C1, ?N1; try done.
    + lia.
    + intros i. by rewrite decide_False by lia.
Qed.

Lemma registered_refl s : 0 <= ncpu s <= NCPU -> registered s s [] true.
Proof.
  intros Hn. split; cbn; try done.
  - exists (log s). by destruct s.
  - lia.
  - intros i. by rewrite decide_False by lia.
Qed.

Lemma registered_unknown s ev :
  0 <= ncpu s <= NCPU -> registered s (set_ismp 0 (set_log (ev :: log s) s)) [] false.
Proof.
  intros Hn. split; cbn; try done.
  - exists (ev :: log s). by destruct s.
  - lia.
  - intros i. by rewrite decide_False by lia.
Qed.

Lemma registered_cons s s1 s2 f fs known :
  0 <= ncpu s <= NCPU -> registered s s1 [f] true -> registered s1 s2 fs known ->
  registered s s2 (f :: fs) known.
Proof.
  intros Hn [[l1 F1] I1 N1 B1 C1] [[l2 F2] I2 N2 B2 C2]. cbn in I1, N1, B1. split.
  - exists l2. rewrite F2, F1. by destruct s.
  - by rewrite I2, I1.
  - rewrite N2, N1. cbn [length]. lia.
  - rewrite B2, B1, N1. done.
  - intros i. rewrite C2, C1.
    repeat case_decide; try done; lia.
Qed.

Lemma registered_cpus s s' fs known :
  registered s s' fs known -> (forall i, 0 <= i < NCPU -> is_Some (cpus s !! i)) ->
  forall i, 0 <= i < NCPU -> is_Some (cpus s' !! i).
Proof.
  intros [_ _ _ _ C] H i Hi. rewrite C. destruct (H i Hi) as [c ->]. case_decide; eauto.
Qed.

Lemma registered_mem s s' fs known :
  registered s s' fs known -> mem s' = mem s /\ npages s' = npages s.
Proof. intros [[l F] _ _ _ _]. by rewrite F. Qed.

Lemma registered_bound s s' fs known :
  registered s s' fs known -> 0 <= ncpu s <= NCPU -> 0 <= ncpu s' <= NCPU.
Proof. intros [_ _ N _ _] H. rewrite N. lia. Qed.

Lemma mp_entries_run n s pa :
  0 <= pa -> pa + sizeof_mpproc * Z.of_nat n < 0x10000000 -> 0 <= ncpu s <= NCPU ->
  (forall i, 0 <= i < NCPU -> is_Some (cpus s !! i)) ->
  exists s', mp_entries n (KERNBASE + pa) s = Ok tt s' /\
    registered s s' (processors (mem s) n pa).1 (processors (mem s) n pa).2.
Proof.
  unfold sizeof_mpproc.
  revert s pa. induction n as [|n IH]; intros s pa Hpa Hb Hn Hc; cbn [mp_entries processors].
  { exists s. split; [done|]. by apply registered_refl. }
  read_at pa. pose proof (load8_range (mem s) pa) as Ht. unfold MPPROC.
  set (t := load8 (mem s) pa) in *. destruct (Z.eqb_spec t 0) as [_|Ht0].
  - destruct (mp_processor_run s (KERNBASE + pa) pa eq_refl Hpa Hn Hc) as (s1 & E1 & R1).
    rewrite (bind_ok _ _ _ _ _ E1). destruct (registered_mem _ _ _ _ R1) as [M1 _].
    replace (u32 (KERNBASE + pa + sizeof_mpproc)) with (KERNBASE + (pa + 20)) by
      (change KERNBASE with 0xF0000000; unfold sizeof_mpproc; rewrite u32_small by lia; lia).
    destruct (IH s1 (pa + 20)) as (s' & E & R);
      [lia|lia|by eapply registered_bound|by eapply registered_cpus|].
    exists s'. split; [exact E|]. rewrite M1 in R. unfold sizeof_mpproc.
    destruct (processors (mem s) n (pa + 20)) as [fs known]. by eapply registered_cons.
  - assert ((t =? MPBUS) || (t =? MPIOAPIC) || (t =? MPIOINTR) || (t =? MPLINTR) = (t <=? 4)) as ->.
    { unfold MPBUS, MPIOAPIC, MPIOINTR, MPLINTR. apply eq_true_iff_eq.
      rewrite !orb_true_iff, !Z.eqb_eq, Z.leb_le. lia. }
    destruct (t <=? 4); [|eexists; split; [reflexivity|by apply registered_unknown]].
    replace (u32 (KERNBASE + pa + 8)) with (KERNBASE + (pa + 8)) by
      (change KERNBASE with 0xF0000000; rewrite u32_small by lia; lia).
    apply IH; [lia|lia|done|done].
Qed.

(** Number [b] is the only processor that is flagged as the boot processor. *)
Definition boot_processor (fs : list Z) (b : nat) : Prop :=
  (b < length fs)%nat /\ forall i f, fs !! i = Some f -> is_boot f = bool_decide (i = b).

Lemma boot_after_none b n fs : (forall i f, fs !! i = Some f -> is_boot f = false) -> boot_after b n fs = b.
Proof.
  revert n. induction fs as [|f fs IH]; intros n H; [done|]. cbn [boot_after].
  rewrite (H 0%nat f eq_refl). apply IH. intros i g Hg. by apply (H (S i)).
Qed.

Lemma boot_after_at b0 n fs b :
  0 <= n <= NCPU -> boot_processor fs b -> boot_after b0 n fs = Z.min NCPU (n + Z.of_nat b).
Proof.
  revert b0 n b. induction fs as [|f fs IH]; intros b0 n b Hn [Hl Hu]; [cbn in Hl; lia|].
  cbn [boot_after]. rewrite (Hu 0%nat f eq_refl). destruct b as [|b].
  - rewrite bool_decide_true, boot_after_none by done || (intros i g Hg; by rewrite (Hu (S i) g Hg)). lia.
  - rewrite (IH _ _ b); [lia|lia|]. split; [cbn in Hl; lia|].
    intros i g Hg. rewrite (Hu (S i) g Hg). apply bool_decide_ext. lia.
Qed.

(** ** The whole of mp_init *)

(** The configuration table that the structure at [mp] names, and its entries. *)
Definition conf_of (m : memory) (mp : Z) : Z := load32 m (mp_physaddr mp).
Definition processors_of (m : memory) (mp : Z) : list Z * bool :=
  let conf := conf_of m mp in
  processors m (Z.to_nat (load16 m (conf_entry conf))) (conf_entries conf).

(** The table and as many entries as it can have are in memory that is mapped. *)
Definition conf_in_memory (s : kstate) (mp : Z) : Prop :=
  in_memory s (conf_of (mem s) mp) /\ conf_of (mem s) mp + 0x150000 <= 0x10000000.

(** What is known of the processors afterwards. *)
Record smp_known (s s' : kstate) (mp : Z) (fs : list Z) (b : nat) : Prop := {
  sk_ismp : ismp s' = 1;
  sk_ncpu : ncpu s' = Z.min NCPU (Z.of_nat (length fs));
  sk_bootcpu : bootcpu s' = Z.of_nat b;
  sk_lapicaddr : lapicaddr s' = load32 (mem s) (conf_lapicaddr (conf_of (mem s) mp));
  sk_ids : forall i c, 0 <= i < ncpu s' -> cpus s' !! i = Some c -> cpu_id c = i;
  sk_status : forall i, cpu_status <$> cpus s' !! i =
    if decide (i = Z.of_nat b) then Some CPU_STARTED else cpu_status <$> cpus s !! i;
}.

Lemma registered_ids s s' fs known i c :
  registered s s' fs known -> ncpu s = 0 -> 0 <= i < ncpu s' -> cpus s' !! i = Some c -> cpu_id c = i.
Proof.
  intros [_ _ _ _ C] Hn Hi. rewrite C, decide_True by lia. destruct (cpus s !! i); [|done].
  by intros [= <-].
Qed.

Lemma registered_status s s' fs known i :
  registered s s' fs known -> cpu_status <$> cpus s' !! i = cpu_status <$> cpus s !! i.
Proof. intros [_ _ _ _ C]. rewrite C. case_decide; [|done]. by destruct (cpus s !! i). Qed.

(** mp_init once mpconfig has accepted a table: the part from the entries on. *)
Lemma mp_init_entries imcr s mp l fs known b :
  mpconfig (set_bootcpu 0 s) =
    Ok (Some (KERNBASE + mp, KERNBASE + conf_of (mem s) mp)) (set_log l (set_bootcpu 0 s)) ->
  0 <= mp -> conf_in_memory s mp -> ncpu s = 0 ->
  (forall i, 0 <= i < NCPU -> is_Some (cpus s !! i)) ->
  processors_of (mem s) mp = (fs, known) -> boot_processor fs b ->
  exists s3, registered (set_lapicaddr (load32 (mem s) (conf_lapicaddr (conf_of (mem s) mp)))
                 (set_ismp 1 (set_log l (set_bootcpu 0 s)))) s3 fs known /\
    bootcpu s3 = Z.min NCPU (Z.of_nat b) /\
    mp_init imcr s =
      (_ ← upd_cpus (bootcpu s3) (set_cpu_status CPU_STARTED);
       smp ← get ismp;
       if negb (ctrue smp) then
         _ ← modify (set_ncpu 1);
         _ ← modify (set_lapicaddr 0);
         cprintf "SMP: configuration not found, SMP disabled" []
       else
         n ← get ncpu;
         id ← bootcpu_id;
         _ ← cprintf "SMP: CPU %d found %d CPU(s)" [id; n];
         imcrp ← kload8 (mp_imcrp (KERNBASE + mp));
         kwhen (ctrue imcrp)
           (_ ← cprintf "SMP: Setting IMCR to switch from PIC mode to symmetric I/O mode" [];
            _ ← tell (Outb 0x22 0x70);
            tell (Outb 0x23 (Z.lor imcr 1)))) s3.
Proof.
  intros Em Hmp [Hin Hend] Hn Hc Hp Hb. set (conf := conf_of (mem s) mp) in *.
  assert (0 <= conf) as Hc0 by apply Hin. unfold mp_init. rewrite bind_modify.
  rewrite (bind_ok _ _ _ _ _ Em), bind_modify.
  read_at (conf_lapicaddr conf). rewrite bind_modify. read_at (conf_entry conf). cbn [mem].
  set (s2 := set_lapicaddr _ _). pose proof (load16_range (mem s) (conf_entry conf)) as He.
  destruct (mp_entries_run (Z.to_nat (load16 (mem s) (conf_entry conf))) s2 (conf_entries conf))
    as (s3 & E3 & R3); [unfold conf_entries; lia|unfold conf_entries, sizeof_mpproc; lia| |exact Hc|].
  { change (ncpu s2) with (ncpu s). rewrite Hn. done. }
  change (processors (mem s2)) with (processors (mem s)) in R3. unfold processors_of in Hp.
  fold conf in Hp. rewrite Hp in R3. cbn [fst snd] in R3.
  change (mp_entries _ (conf_entries (KERNBASE + conf))) with
    (mp_entries (Z.to_nat (load16 (mem s) (conf_entry conf))) (KERNBASE + conf + 44)).
  replace (KERNBASE + conf + 44) with (KERNBASE + conf_entries conf) by (unfold conf_entries; lia).
  exists s3. split_and!; [done| |].
  - rewrite (rg_bootcpu _ _ _ _ R3), (boot_after_at _ _ _ b); [| |done];
      change (ncpu s2) with (ncpu s); rewrite Hn; done.
  - exact (bind_ok _ _ _ _ _ E3).
Qed.

(** The last part of mp_init, by what the entries were. *)
Lemma mp_init_outcome imcr s mp l fs known b :
  mpconfig (set_bootcpu 0 s) =
    Ok (Some (KERNBASE + mp, KERNBASE + conf_of (mem s) mp)) (set_log l (set_bootcpu 0 s)) ->
  0 <= mp -> conf_in_memory s mp -> ncpu s = 0 ->
  (forall i, 0 <= i < NCPU -> is_Some (cpus s !! i)) -> cpus s !! NCPU = None ->
  processors_of (mem s) mp = (fs, known) -> boot_processor fs b ->
  if bool_decide (Z.of_nat b < NCPU) then
    exists s', mp_init imcr s = Ok tt s' /\ mem s' = mem s /\
      if known then smp_known s s' mp fs b else ismp s' = 0 /\ ncpu s' = 1 /\ lapicaddr s' = 0
  else mp_init imcr s = Undef.
Proof.
  intros Em Hmp Hin Hn Hc Hend Hp Hb.
  destruct (mp_init_entries imcr s mp l fs known b Em Hmp Hin Hn Hc Hp Hb) as (s3 & R3 & B3 & ->).
  set (s2 := set_lapicaddr _ _) in R3.
  destruct (registered_mem _ _ _ _ R3) as [M3 _]. change (mem s2) with (mem s) in M3.
  pose proof (rg_ismp _ _ _ _ R3) as I3. change (ismp s2) with 1 in I3.
  pose proof (rg_ncpu _ _ _ _ R3) as N3. change (ncpu s2) with (ncpu s) in N3. rewrite Hn in N3.
  assert (lapicaddr s3 = load32 (mem s) (conf_lapicaddr (conf_of (mem s) mp))) as L3
    by (destruct (rg_frame _ _ _ _ R3) as [l3 ->]; done).
  case_bool_decide as Hlt.
  - rewrite Z.min_r in B3 by lia.
    destruct (registered_cpus _ _ _ _ R3 Hc (bootcpu s3) ltac:(lia)) as [c Ec].
    erewrite (bind_ok (upd_cpus _ _)); [|unfold upd_cpus; by rewrite Ec].
    assert (forall i, cpu_status <$> <[bootcpu s3:=set_cpu_status CPU_STARTED c]> (cpus s3) !! i =
      if decide (i = Z.of_nat b) then Some CPU_STARTED else cpu_status <$> cpus s !! i) as Hst.
    { intros i. rewrite B3. case_decide as Hi; [by rewrite Hi, lookup_insert_eq|].
      rewrite lookup_insert_ne by done. apply (registered_status _ _ _ _ _ R3). }
    assert (forall i c', 0 <= i < ncpu s3 ->
      <[bootcpu s3:=set_cpu_status CPU_STARTED c]> (cpus s3) !! i = Some c' -> cpu_id c' = i) as Hid.
    { intros i c' Hi. destruct (decide (i = bootcpu s3)) as [->|Hne].
      - rewrite lookup_insert_eq. intros [= <-]. exact (registered_ids _ _ _ _ _ _ R3 Hn Hi Ec).
      - rewrite lookup_insert_ne by done. exact (registered_ids _ _ _ _ _ _ R3 Hn Hi). }
    set (s4 := set_cpus _ s3). rewrite bind_get. change (ismp s4) with (ismp s3).
    destruct known; rewrite I3; cbn [ctrue Z.eqb negb].
    2: { eexists. split; [reflexivity|]. done. }
    rewrite bind_get. erewrite (bind_ok bootcpu_id).
    2: { unfold bootcpu_id. change (bootcpu s4) with (bootcpu s3).
      change (cpus s4) with (<[bootcpu s3:=set_cpu_status CPU_STARTED c]> (cpus s3)).
      rewrite lookup_insert_eq. reflexivity. }
    erewrite (bind_ok (cprintf _ _)); [|reflexivity]. read_at (mp_imcrp mp).
    destruct (ctrue _); (eexists; split; [reflexivity|]; split; [exact M3|]);
      (split; [exact I3|exact N3|exact B3|exact L3|exact Hid|exact Hst]).
  - rewrite Z.min_l in B3 by lia. unfold mbind, K_bind, upd_cpus. rewrite B3, (rg_cpus _ _ _ _ R3).
    rewrite decide_False by lia. change (cpus s2) with (cpus s). by rewrite Hend.
Qed.

(** C38: mp_init believes the first MP structure of the EBDA (without an EBDA, of the
    last KB of base memory), else of the ROM from 0xF0000 to 0xFFFFF (the comment on
    mpsearch says from 0xE0000; the code does not look there).  If there is none, or if signature,
    checksums or version of the table it names are wrong, the machine stays as it is
    with CPU 0 the boot processor.  Otherwise every processor entry gets the next
    free slot of cpus, up to NCPU, with its index as cpu_id (kern/cpu.h calls that
    field the local APIC id, but the table's apicid is not used); bootcpu is the
    processor that is flagged, which is marked as started; an entry of an unknown
    type switches back to one CPU.  When the flagged processor is not among the
    first NCPU, [bootcpu] points behind the array and the store of its status is
    out of bounds. *)
Theorem mp_init_registers imcr s :
  searchable s -> (forall mp, mp_found (mem s) (Some mp) -> conf_in_memory s mp) ->
  ncpu s = 0 -> (forall i, 0 <= i < NCPU -> is_Some (cpus s !! i)) -> cpus s !! NCPU = None ->
  exists r, mp_found (mem s) r /\
    match r with
    | None => mp_init imcr s = Ok tt (set_bootcpu 0 s)
    | Some mp =>
        (~ valid_conf (mem s) mp -> exists l, mp_init imcr s = Ok tt (set_log l (set_bootcpu 0 s))) /\
        (valid_conf (mem s) mp -> forall b, boot_processor (processors_of (mem s) mp).1 b ->
           if bool_decide (Z.of_nat b < NCPU) then
             exists s', mp_init imcr s = Ok tt s' /\ mem s' = mem s /\
               if (processors_of (mem s) mp).2 then smp_known s s' mp (processors_of (mem s) mp).1 b
               else ismp s' = 0 /\ ncpu s' = 1 /\ lapicaddr s' = 0
           else mp_init imcr s = Undef)
    end.
Proof.
  intros [Hlow Hreg Hend] Hconf Hn Hc Hcn. set (s0 := set_bootcpu 0 s).
  destruct (mpsearch_run s0) as (r & Es & Hr); [by split|]. exists r. split; [exact Hr|].
  destruct r as [mp|]; cbn [fmap option_fmap option_map] in Es.
  - pose proof (Hconf mp Hr) as [Hin He]. pose proof (mp_found_nonneg _ _ _ Hreg Hr) as Hmp.
    destruct (mpconfig_checked s0 mp Es Hmp) as (l & [[Hv E]|[Hv E]]);
      [exact Hin|change (mem s0) with (mem s); unfold conf_of in He; lia| |].
    + split; [done|]. intros _ b Hb. destruct (processors_of (mem s) mp) as [fs known] eqn:Ep.
      by apply (mp_init_outcome imcr s mp l fs known b).
    + split; [|done]. intros _. exists l. unfold mp_init. rewrite bind_modify.
      by rewrite (bind_ok _ _ _ _ _ E).
  - unfold mp_init, mpconfig. rewrite bind_modify.
    rewrite bind_assoc, (bind_ok _ _ _ _ _ Es). by rewrite bind_ret.
Qed.

(** ** A machine with two processors, the second of which boots *)

Definition demo_mp : Z := 0x9FC00.
Definition demo_conf : Z := 0x9FD00.
Definition demo_memory : memory :=
  store_bytes (store_bytes (store16 ∅ 0x40E 0x9FC0)
    demo_mp (MP_SIGNATURE ++ [0x00; 0xFD; 0x09; 0x00; 1; 4; 0x1A; 0; 0x80; 0; 0; 0]))
    demo_conf (CONF_SIGNATURE ++ [92; 0; 4; 0x85] ++ repeat 0 26 ++ [3; 0; 0; 0; 0xE0; 0xFE; 0; 0; 0; 0]
      ++ [0; 0; 0x14; 1] ++ repeat 0 16 ++ [0; 1; 0x14; 3] ++ repeat 0 16 ++ [1; 0; 0x50; 0x43; 0x49; 0; 0; 0]).
Definition demo_state : kstate :=
  set_cpus (list_to_map ((fun i => (i, mkCpuInfo 0 CPU_UNUSED None 0 0)) <$> seqZ 0 NCPU))
    (set_npages 0x1000 (set_mem demo_memory kstate0)).

Lemma demo_is_mp : is_mp demo_memory demo_mp.
Proof. split; by vm_compute. Qed.

Lemma demo_found r : mp_found demo_memory r -> r = Some demo_mp.
Proof.
  pose proof demo_is_mp as Hd. assert (bios_region demo_memory = demo_mp) as Hr by by vm_compute.
  intros [[Hne H]|[H _]]; rewrite Hr in H; clear Hr.
  - destruct r as [mp|]; [|done]. destruct H as (k & Hk & -> & _ & _ & Hj).
    destruct (decide (k = 0)) as [->|Hk0]; [by rewrite Z.mul_0_r, Z.add_0_r|].
    destruct (Hj 0 ltac:(lia)). by rewrite Z.mul_0_r, Z.add_0_r.
  - destruct (H 0); [done|done|]. by rewrite Z.mul_0_r, Z.add_0_r.
Qed.

Lemma demo_valid : valid_conf demo_memory demo_mp.
Proof. split; [by vm_compute..|right; by vm_compute|by vm_compute]. Qed.

Lemma demo_cpus i : 0 <= i < NCPU -> is_Some (cpus demo_state !! i).
Proof.
  unfold NCPU. intros Hi. assert (In i (seqZ 0 8)) as Hin by (apply list_elem_of_In, elem_of_seqZ; lia).
  cbn in Hin. repeat (destruct Hin as [<-|Hin]; [eexists; by vm_compute|]). done.
Qed.

Lemma mp_init_registers_witness :
  exists s', mp_init 0 demo_state = Ok tt s' /\ smp_known demo_state s' demo_mp [1; 3] 1.
Proof.
  destruct (mp_init_registers 0 demo_state) as (r & Hf & Hr).
  - split; [by vm_compute|repeat split; by vm_compute|repeat split; by vm_compute].
  - intros mp Hmp. apply demo_found in Hmp as [= ->]. repeat split; by vm_compute.
  - by vm_compute.
  - apply demo_cpus.
  - by vm_compute.
  - apply demo_found in Hf as ->. destruct Hr as [_ Hr].
    specialize (Hr demo_valid 1%nat).
    change (processors_of (mem demo_state) demo_mp) with (processors_of demo_memory demo_mp) in Hr.
    assert (processors_of demo_memory demo_mp = ([1; 3], true)) as Hp by by vm_compute.
    rewrite Hp in Hr. destruct Hr as (s' & E & _ & Hs).
    + split; [cbn; lia|]. intros [|[|i]] f [= <-]; done.
    + exists s'. split; [exact E|exact Hs].
Defined.
