(* ===== verification/Lapic.v ===== *)
(** * Lapic: the local interrupt controller, kern/lapic.c

    lapic_init sets the controller of the executing CPU up, lapic_startap starts
    another CPU, lapic_ipi interrupts the others.  The registers are the device's:
    what a read gives is a function of the accesses so far, the class [LocalApic].
    lapic_eoi is in Trap.v. *)

From S2P Require Import Prelude Layout Memory Segments Kernel PageTable.

(** The registers, as indices of 32-bit words. *)
Definition ID : Z := 0x0020 / 4.
Definition VER : Z := 0x0030 / 4.
Definition TPR : Z := 0x0080 / 4.
Definition EOI : Z := 0x00B0 / 4.
Definition SVR : Z := 0x00F0 / 4.
Definition ENABLE : Z := 0x00000100.
Definition ESR : Z := 0x0280 / 4.
Definition ICRLO : Z := 0x0300 / 4.
Definition INIT : Z := 0x00000500.
Definition STARTUP : Z := 0x00000600.
Definition DELIVS : Z := 0x00001000.
Definition ASSERT : Z := 0x00004000.
Definition LEVEL : Z := 0x00008000.
Definition BCAST : Z := 0x00080000.
Definition OTHERS : Z := 0x000C0000.
Definition FIXED : Z := 0x00000000.
Definition ICRHI : Z := 0x0310 / 4.
Definition TIMER : Z := 0x0320 / 4.
Definition X1 : Z := 0x0000000B.
Definition PERIODIC : Z := 0x00020000.
Definition PCINT : Z := 0x0340 / 4.
Definition LINT0 : Z := 0x0350 / 4.
Definition LINT1 : Z := 0x0360 / 4.
Definition ERROR : Z := 0x0370 / 4.
Definition MASKED : Z := 0x00010000.
Definition TICR : Z := 0x0380 / 4.
Definition TDCR : Z := 0x03E0 / 4.
Definition IO_RTC : Z := 0x70.

(** kern/kclock.c; outb takes a byte. *)
Definition mc146818_write (reg datum : Z) : K unit :=
  _ ← tell (Outb IO_RTC (u8 reg));
  tell (Outb (IO_RTC + 1) (u8 datum)).

(** The device: the value that a read of register [index] gives after the accesses
    [log], most recent first.  The delivery of an interrupt ends, so reads of ICRLO
    show DELIVS no more than [patience] times in a row. *)
Class LocalApic := {
  lapic_reg : Z -> list event -> Z;
  patience : nat;
  lapic_delivers : forall log, exists n, (n < patience)%nat /\
    Z.land (lapic_reg ICRLO (repeat (Lapicr ICRLO) n ++ log)) DELIVS = 0;
}.

Section Lapic.
Context `{LocalApic}.

(** [lapic[index]], read. *)
Definition lapicr (index : Z) : K Z := fun s =>
  if lapic s =? 0 then Undef
  else Ok (lapic_reg index (log s)) (set_log (Lapicr index :: log s) s).

Definition lapicw (index value : Z) : K unit :=
  l ← get lapic;
  _ ← (if l =? 0 then undefined else tell (Lapicw index value));
  _ ← lapicr ID;
  mret tt.

(** [while (lapic[ICRLO] & DELIVS)]. *)
Fixpoint wait_delivery (fuel : nat) : K unit :=
  match fuel with
  | O => leave NoFuel
  | S fuel' =>
      v ← lapicr ICRLO;
      if ctrue (Z.land v DELIVS) then wait_delivery fuel' else mret tt
  end.

Definition lapic_init : K unit :=
  la ← get lapicaddr;
  if la =? 0 then mret tt
  else
  va ← mmio_map_region la 4096;
  _ ← modify (set_lapic va);
  _ ← lapicw SVR (Z.lor ENABLE (IRQ_OFFSET + IRQ_SPURIOUS));
  _ ← lapicw TDCR X1;
  _ ← lapicw TIMER (Z.lor PERIODIC (IRQ_OFFSET + IRQ_TIMER));
  _ ← lapicw TICR 10000000;
  cpu ← get cpunum;
  boot ← get bootcpu;
  _ ← kwhen (negb (cpu =? boot)) (lapicw LINT0 MASKED);
  _ ← lapicw LINT1 MASKED;
  v ← lapicr VER;
  _ ← kwhen (Z.land (Z.shiftr v 16) 0xFF >=? 4) (lapicw PCINT MASKED);
  _ ← lapicw ERROR (IRQ_OFFSET + IRQ_ERROR);
  _ ← lapicw ESR 0;
  _ ← lapicw ESR 0;
  _ ← lapicw EOI 0;
  _ ← lapicw ICRHI 0;
  _ ← lapicw ICRLO (Z.lor (Z.lor BCAST INIT) LEVEL);
  _ ← wait_delivery patience;
  lapicw TPR 0.

Definition cpunum : K Z :=
  l ← get lapic;
  if ctrue l then v ← lapicr ID; mret (Z.shiftr v 24) else mret 0.

Definition microdelay (us : Z) : K unit := mret tt.

Definition lapic_startap (apicid addr : Z) : K unit :=
  _ ← tell (Outb IO_RTC 0xF);
  _ ← tell (Outb (IO_RTC + 1) 0x0A);
  wrv ← KADDR (Z.lor (Z.shiftl 0x40 4) 0x67);
  _ ← kstore16 wrv 0;
  _ ← kstore16 (wrv + 2) (u16 (Z.shiftr addr 4));
  _ ← lapicw ICRHI (u32 (Z.shiftl apicid 24));
  _ ← lapicw ICRLO (Z.lor (Z.lor INIT LEVEL) ASSERT);
  _ ← microdelay 200;
  _ ← lapicw ICRLO (Z.lor INIT LEVEL);
  _ ← microdelay 100;
  kfor 2 0 (fun _ =>
    _ ← lapicw ICRHI (u32 (Z.shiftl apicid 24));
    _ ← lapicw ICRLO (Z.lor STARTUP (Z.shiftr addr 12));
    microdelay 200).

Definition lapic_ipi (vector : Z) : K unit :=
  _ ← lapicw ICRLO (Z.lor (Z.lor OTHERS FIXED) vector);
  wait_delivery patience.
End Lapic.

(** ** What the other CPUs see

    A write to ICRLO sends the interrupt command, to the APIC named by the last
    value of ICRHI; its destination shorthand is in bits 18 and 19, the delivery
    mode in bits 8 to 10, the vector in the low byte. *)

Inductive ipi :=
| Init_ipi (dest : Z)
| Deassert_ipi (dest : Z)
| Startup_ipi (dest vector : Z)
| Fixed_others (vector : Z).

Definition decode_ipi (hi lo : Z) : option ipi :=
  let dest := Z.shiftr hi 24 in
  let mode := Z.land (Z.shiftr lo 8) 7 in
  if Z.land (Z.shiftr lo 18) 3 =? 0 then
    if mode =? 5 then
      if Z.testbit lo 14 then Some (Init_ipi dest) else Some (Deassert_ipi dest)
    else if mode =? 6 then Some (Startup_ipi dest (Z.land lo 0xFF))
    else None
  else if Z.land (Z.shiftr lo 18) 3 =? 3 then
    if mode =? 0 then Some (Fixed_others (Z.land lo 0xFF)) else None
  else None.

(** The commands sent by accesses in the order of time, from destination [hi] on. *)
Fixpoint ipis (hi : Z) (evs : list event) : list ipi :=
  match evs with
  | [] => []
  | Lapicw i v :: evs' =>
      if i =? ICRHI then ipis v evs'
      else if i =? ICRLO then
        match decode_ipi hi v with Some c => c :: ipis hi evs' | None => ipis hi evs' end
      else ipis hi evs'
  | _ :: evs' => ipis hi evs'
  end.

(** ** Register writes *)

Section Accesses.
Context `{LocalApic}.

(** A write, then the read that waits for it. *)
Definition wrote (index v : Z) (log : list event) : list event := Lapicr ID :: Lapicw index v :: log.

Lemma bind_ret_r {A} (m : K A) s : (m ≫= (fun a => mret a)) s = m s.
Proof. unfold mbind, K_bind. by destruct (m s). Qed.

Lemma lapicw_run {B} index v s (k : unit -> K B) :
  lapic s <> 0 -> (lapicw index v ≫= k) s = k tt (set_log (wrote index v (log s)) s).
Proof.
  intros Hl. assert (lapicw index v s = Ok tt (set_log (wrote index v (log s)) s)) as E.
  { unfold lapicw. rewrite bind_get, (proj2 (Z.eqb_neq _ _)), bind_tell by done.
    unfold lapicr, mbind, K_bind. cbn [lapic set_log]. by rewrite (proj2 (Z.eqb_neq _ _)). }
  exact (bind_ok _ _ _ _ _ E).
Qed.

Lemma repeat_shift {A} (x : A) n l : repeat x n ++ x :: l = repeat x (S n) ++ l.
Proof. induction n as [|n IH]; [done|]. cbn in *. by rewrite IH. Qed.

Lemma wait_delivery_run fuel s :
  lapic s <> 0 ->
  (exists n, (n < fuel)%nat /\
     Z.land (lapic_reg ICRLO (repeat (Lapicr ICRLO) n ++ log s)) DELIVS = 0) ->
  exists n, (n <= fuel)%nat /\ wait_delivery fuel s = Ok tt (set_log (repeat (Lapicr ICRLO) n ++ log s) s).
Proof.
  intros Hl (n & Hn & Hd). revert s n Hl Hn Hd. induction fuel as [|fuel IH]; intros s n Hl Hn Hd; [lia|].
  cbn [wait_delivery]. erewrite bind_ok; [|unfold lapicr; rewrite (proj2 (Z.eqb_neq _ _)) by done; reflexivity].
  destruct (ctrue (Z.land (lapic_reg ICRLO (log s)) DELIVS)) eqn:E.
  - destruct n as [|n]; [cbn in Hd; rewrite Hd in E; done|].
    destruct (IH (set_log (Lapicr ICRLO :: log s) s) n) as (m & Hm & Em); [done|lia| |].
    + cbn [log set_log]. by rewrite repeat_shift.
    + exists (S m). split; [lia|]. rewrite Em. cbn [log set_log]. by rewrite repeat_shift.
  - exists 1%nat. split; [lia|done].
Qed.

Lemma decode_startup hi v :
  0 <= v < 256 -> decode_ipi hi (Z.lor STARTUP v) = Some (Startup_ipi (Z.shiftr hi 24) v).
Proof.
  intros Hv. assert (Z.lor STARTUP v = STARTUP + v) as -> by (apply (lor_low _ _ 8); [lia|done|exact Hv]).
  unfold decode_ipi, STARTUP. rewrite !Z.shiftr_div_pow2 by lia.
  replace ((1536 + v) / 2 ^ 18) with 0 by (change (2 ^ 18) with 262144; zlia).
  replace ((1536 + v) / 2 ^ 8) with 6 by (change (2 ^ 8) with 256; zlia). cbn -[Z.div Z.pow].
  change 255 with (Z.ones 8). rewrite Z.land_ones by lia. change (2 ^ 8) with 256.
  by replace ((1536 + v) mod 256) with v by zlia.
Qed.

(** The register writes of a log, in the order of time. *)
Definition writes (l : list event) : list (Z * Z) :=
  omap (fun e => match e with Lapicw i v => Some (i, v) | _ => None end) (rev l).

Lemma writes_app l1 l2 : writes (l1 ++ l2) = writes l2 ++ writes l1.
Proof. unfold writes. by rewrite rev_app_distr, omap_app. Qed.
Lemma writes_wrote i v l : writes (wrote i v l) = writes l ++ [(i, v)].
Proof. unfold wrote. change (Lapicr ID :: Lapicw i v :: l) with ([Lapicr ID; Lapicw i v] ++ l). apply writes_app. Qed.
Lemma writes_read i l : writes (Lapicr i :: l) = writes l.
Proof. change (Lapicr i :: l) with ([Lapicr i] ++ l). rewrite writes_app. apply app_nil_r. Qed.
Lemma writes_polls i n l : writes (repeat (Lapicr i) n ++ l) = writes l.
Proof. induction n as [|n IH]; [done|]. cbn [repeat app]. by rewrite writes_read. Qed.

(** What lapic_startap writes, and lapic_init, on the boot processor or another. *)
Definition startap_writes (apicid page : Z) : list (Z * Z) :=
  [(ICRHI, apicid * 0x1000000); (ICRLO, Z.lor (Z.lor INIT LEVEL) ASSERT); (ICRLO, Z.lor INIT LEVEL);
   (ICRHI, apicid * 0x1000000); (ICRLO, Z.lor STARTUP page);
   (ICRHI, apicid * 0x1000000); (ICRLO, Z.lor STARTUP page)].
Definition init_writes (boot : bool) (ver : Z) : list (Z * Z) :=
  [(SVR, 0x127); (TDCR, 0xB); (TIMER, 0x20020); (TICR, 10000000)] ++
  (if boot then [] else [(LINT0, MASKED)]) ++ [(LINT1, MASKED)] ++
  (if Z.land (Z.shiftr ver 16) 0xFF >=? 4 then [(PCINT, MASKED)] else []) ++
  [(ERROR, 51); (ESR, 0); (ESR, 0); (EOI, 0); (ICRHI, 0); (ICRLO, 0x88500); (TPR, 0)].

(** Starting a processor: the warm reset vector in the BIOS data area and the CMOS
    shutdown code name the entry code, and the processor with APIC id [apicid] is
    sent INIT, its end, and twice STARTUP with the page of the entry code. *)
Theorem lapic_startap_starts apicid addr s :
  lapic s <> 0 -> 0 < npages s -> 0 <= apicid < 256 ->
  0 <= addr < 0x100000 -> addr mod PGSIZE = 0 ->
  exists evs,
    lapic_startap apicid addr s =
      Ok tt (set_log (rev evs ++ log s)
        (set_mem (store16 (store16 (mem s) 0x467 0) 0x469 (addr / 16)) s)) /\
    take 2 evs = [Outb IO_RTC 0xF; Outb (IO_RTC + 1) 0x0A] /\
    ipis 0 evs = [Init_ipi apicid; Deassert_ipi apicid;
                  Startup_ipi apicid (addr / PGSIZE); Startup_ipi apicid (addr / PGSIZE)] /\
    writes (rev evs) = startap_writes apicid (addr / PGSIZE).
Proof.
  intros Hl Hn Ha Hr Hal. unfold PGSIZE in *.
  assert (u32 (Z.shiftl apicid 24) = apicid * 16777216) as Hhi.
  { rewrite Z.shiftl_mul_pow2 by lia. change (2 ^ 24) with 16777216. apply u32_small. lia. }
  assert (Z.shiftr addr 12 = addr / 4096 /\ Z.shiftr addr 4 = addr / 16) as [Hpg H16]
    by (rewrite !Z.shiftr_div_pow2 by lia; done).
  assert (0 <= addr / 4096 < 256) as Hv by zlia.
  unfold lapic_startap. rewrite !bind_tell. erewrite bind_ok.
  2: { unfold KADDR. rewrite bind_get. cbn [npages set_log].
    change (PGNUM (Z.lor (Z.shiftl 0x40 4) 0x67)) with 0.
    rewrite Z.geb_leb, (proj2 (Z.leb_gt _ _)) by done. reflexivity. }
  erewrite bind_ok by reflexivity. erewrite bind_ok by reflexivity.
  unfold microdelay. cbn [kfor].
  repeat first [rewrite bind_ret | rewrite lapicw_run by done | rewrite bind_assoc].
  rewrite Hhi, Hpg, H16, (u16_small (addr / 16)) by zlia.
  exists ([Outb IO_RTC 0xF; Outb (IO_RTC + 1) 0x0A] ++
    concat ((fun '(i, v) => [Lapicw i v; Lapicr ID]) <$>
      [(ICRHI, apicid * 16777216); (ICRLO, Z.lor (Z.lor INIT LEVEL) ASSERT); (ICRLO, Z.lor INIT LEVEL);
       (ICRHI, apicid * 16777216); (ICRLO, Z.lor STARTUP (addr / 4096));
       (ICRHI, apicid * 16777216); (ICRLO, Z.lor STARTUP (addr / 4096))])).
  split_and!; [done|done| |reflexivity].
  cbn [app fmap list_fmap concat ipis]. rewrite decode_startup by done.
  change (decode_ipi (apicid * 16777216) (Z.lor (Z.lor INIT LEVEL) ASSERT))
    with (Some (Init_ipi (Z.shiftr (apicid * 16777216) 24))).
  change (decode_ipi (apicid * 16777216) (Z.lor INIT LEVEL))
    with (Some (Deassert_ipi (Z.shiftr (apicid * 16777216) 24))).
  cbn -[Z.mul Z.shiftr Z.div]. rewrite Z.shiftr_div_pow2 by lia. change (2 ^ 24) with 16777216.
  by rewrite Z.div_mul by lia.
Qed.

Lemma lapicw_when (b : bool) i v l s :
  lapic s <> 0 -> exists l', kwhen b (lapicw i v) (set_log l s) = Ok tt (set_log l' s) /\
    writes l' = writes l ++ (if b then [(i, v)] else []).
Proof.
  intros Hl. destruct b; cbn [kwhen].
  - exists (wrote i v l). split; [|apply writes_wrote].
    by rewrite <- (bind_ret_r (lapicw i v)), lapicw_run.
  - exists l. split; [done|by rewrite app_nil_r].
Qed.

(** Without a local APIC lapic_init does nothing.  Otherwise it maps the registers
    and then returns, whatever the device shows, having written exactly these: the
    spurious vector, the timer, the masks of LINT0 (not on the boot processor), LINT1
    and, where it exists, the performance counter, the error vector, and the INIT
    level de-assert, whose delivery it waits for. *)
Theorem lapic_init_programs s ver :
  (forall l, lapic_reg VER l = ver) ->
  (lapicaddr s = 0 -> lapic_init s = Ok tt s) /\
  (lapicaddr s <> 0 -> forall va t, mmio_map_region (lapicaddr s) 4096 s = Ok va t -> va <> 0 ->
   exists l, lapic_init s = Ok tt (set_log l (set_lapic va t)) /\
     writes l = writes (log t) ++ init_writes (Kernel.cpunum t =? bootcpu t) ver).
Proof.
  intros Hv. unfold lapic_init. split; intros Hla; rewrite bind_get.
  { by rewrite (proj2 (Z.eqb_eq _ _)). }
  intros va t E Hva. rewrite (proj2 (Z.eqb_neq _ _)) by done.
  rewrite (bind_ok _ _ _ _ _ E), bind_modify. rewrite !lapicw_run by done. rewrite !bind_get.
  destruct (lapicw_when (negb (Kernel.cpunum t =? bootcpu t)) LINT0 MASKED
    (wrote TICR 10000000 (wrote TIMER 0x20020 (wrote TDCR 0xB (wrote SVR 0x127 (log t)))))
    (set_lapic va t) Hva) as (l1 & E1 & W1).
  erewrite bind_ok by exact E1. rewrite lapicw_run by done.
  erewrite bind_ok; [|unfold lapicr; rewrite (proj2 (Z.eqb_neq _ _)) by done; reflexivity].
  rewrite Hv. destruct (lapicw_when (Z.land (Z.shiftr ver 16) 0xFF >=? 4) PCINT MASKED
    (Lapicr VER :: wrote LINT1 MASKED l1) (set_lapic va t) Hva) as (l2 & E2 & W2).
  erewrite bind_ok by exact E2. rewrite !lapicw_run by done.
  set (l3 := wrote ICRLO _ _).
  destruct (wait_delivery_run patience (set_log l3 (set_lapic va t)) Hva (lapic_delivers l3))
    as (n & _ & En).
  erewrite bind_ok by exact En. rewrite <- (bind_ret_r (lapicw TPR 0)), lapicw_run by done.
  eexists. split; [reflexivity|].
  cbn [log set_log]. rewrite writes_wrote, writes_polls. unfold l3. cbn [log set_log].
  rewrite !writes_wrote, W2, writes_read, writes_wrote, W1, !writes_wrote, <- !app_assoc. unfold init_writes.
  by destruct (Kernel.cpunum t =? bootcpu t).
Qed.
End Accesses.
