(* ===== verification/Smp.v ===== *)
(** * Smp: starting the other processors, kern/init.c

    i386_init takes the big kernel lock and boot_aps starts the other processors one
    at a time; each runs mpentry.S and mp_main and enters the scheduler.  The boot
    processor and the others run at once: a state of the protocol says where every
    processor is, and its steps are those of the accesses that the processors share:
    the lock, mpentry_kstack and cpu_status.  A poll of the lock or of cpu_status that
    fails is a step too, one that changes nothing.  The protocol follows every
    processor up to the first time that it leaves sched_yield: for user mode or for
    the halt of sched_halt, both without the lock, or for the monitor, with the lock
    held; which of these it is, the steps leave open.  The traps that come later
    are not in it. *)

From S2P Require Import Prelude Layout Kernel.

(** ** The state *)

(** How sched_yield ends (kern/sched.c): env_run enters an environment; sched_halt
    marks the CPU as halted, releases the lock and halts; or, for want of any
    environment, calls the monitor, which does not return. *)
Inductive sched_exit := EntersUser | Halts | EntersMonitor.

(** The boot processor: before lock_kernel; in boot_aps, at the test of the loop for
    [c]; about to start [c]; waiting for its status; in env_create and sched_yield;
    in user mode; halted; in the monitor. *)
Inductive bsp_pc :=
| BspLock
| BspLoop (c : Z)
| BspStart (c : Z)
| BspWait (c : Z)
| BspSched
| BspUser
| BspIdle
| BspMonitor.

(** Another processor: waiting for the STARTUP interrupt; in mpentry.S, before it
    loads %esp; in mp_main; before lock_kernel; in sched_yield; in user mode; halted
    by sched_halt; in the monitor. *)
Inductive ap_pc :=
| ApHalted
| ApEntry
| ApMain
| ApLock
| ApSched
| ApUser
| ApIdle
| ApMonitor.
#[export] Instance bsp_pc_eq_dec : EqDecision bsp_pc.
Proof. solve_decision. Defined.
#[export] Instance ap_pc_eq_dec : EqDecision ap_pc.
Proof. solve_decision. Defined.

Record smp := mkSmp {
  bsp : bsp_pc;
  ap : gmap Z ap_pc;              (* the processors that the machine has *)
  ap_stack : gmap Z Z;            (* %esp, as loaded by mpentry.S *)
  status : gmap Z CpuStatus;      (* cpus[i].cpu_status *)
  mpentry_kstack : Z;
  big_lock : option Z;            (* the holder of kernel_lock *)
}.
Definition eta_smp (s : smp) : smp :=
  mkSmp (bsp s) (ap s) (ap_stack s) (status s) (mpentry_kstack s) (big_lock s).
Definition set_bsp : bsp_pc -> smp -> smp := ltac:(mk_setter eta_smp bsp).
Definition set_ap : gmap Z ap_pc -> smp -> smp := ltac:(mk_setter eta_smp ap).
Definition set_ap_stack : gmap Z Z -> smp -> smp := ltac:(mk_setter eta_smp ap_stack).
Definition set_status : gmap Z CpuStatus -> smp -> smp := ltac:(mk_setter eta_smp status).
Definition set_mpentry_kstack : Z -> smp -> smp := ltac:(mk_setter eta_smp mpentry_kstack).
Definition set_big_lock : option Z -> smp -> smp := ltac:(mk_setter eta_smp big_lock).
Definition put_ap (i : Z) (p : ap_pc) (s : smp) : smp := set_ap (<[i := p]> (ap s)) s.

(** The boot processor has released the lock; a processor that has it. *)
Definition gone (p : bsp_pc) : Prop := p = BspUser \/ p = BspIdle.
Definition inside (p : ap_pc) : Prop := p = ApSched \/ p = ApMonitor.

(** The conditions [ap_ok] of all processors, when [E] says where the boot processor was. *)
Ltac ap_cases E :=
  intros i p ? ? ?; destruct p; cbn; rewrite E; cbn; unfold gone; intuition (lia || congruence).

Section Protocol.
(** The number of processors, the one that boots, and percpu_kstacks. *)
Context (ncpu me percpu_kstacks : Z).

(** [percpu_kstacks[c] + KSTKSIZE]. *)
Definition stack_top (c : Z) : Z := percpu_kstacks + c * KSTKSIZE + KSTKSIZE.

(** The STARTUP interrupt wakes a processor that is halted, and is ignored by one
    that runs: lapic_startap sends it twice. *)
Definition startup (c : Z) (s : smp) : smp :=
  match ap s !! c with
  | Some ApHalted => put_ap c ApEntry s
  | _ => s
  end.

(** The end of sched_yield: the boot processor's, and processor [i]'s. *)
Definition bsp_leave (o : sched_exit) (s : smp) : smp :=
  match o with
  | EntersUser => set_bsp BspUser (set_big_lock None s)
  | Halts => set_bsp BspIdle (set_big_lock None (set_status (<[me := CPU_HALTED]> (status s)) s))
  | EntersMonitor => set_bsp BspMonitor s
  end.
Definition ap_leave (i : Z) (o : sched_exit) (s : smp) : smp :=
  match o with
  | EntersUser => put_ap i ApUser (set_big_lock None s)
  | Halts => put_ap i ApIdle (set_big_lock None (set_status (<[i := CPU_HALTED]> (status s)) s))
  | EntersMonitor => put_ap i ApMonitor s
  end.

(** The next step of the boot processor; [s] itself while it spins, and once it has
    left.  [o] is how sched_yield ends, if this is the step that ends it. *)
Definition bsp_step (o : sched_exit) (s : smp) : smp :=
  match bsp s with
  | BspLock =>
      if bool_decide (big_lock s = None) then set_bsp (BspLoop 0) (set_big_lock (Some me) s)
      else s
  | BspLoop c =>
      if c <? ncpu then
        if c =? me then set_bsp (BspLoop (c + 1)) s
        else set_bsp (BspStart c) (set_mpentry_kstack (stack_top c) s)
      else set_bsp BspSched s
  | BspStart c => set_bsp (BspWait c) (startup c (startup c s))
  | BspWait c =>
      if bool_decide (status s !! c = Some CPU_STARTED) then set_bsp (BspLoop (c + 1)) s
      else s
  | BspSched => bsp_leave o s
  | BspUser | BspIdle | BspMonitor => s
  end.

(** The next step of processor [i]. *)
Definition ap_step (i : Z) (o : sched_exit) (s : smp) : smp :=
  match ap s !! i with
  | Some ApEntry => put_ap i ApMain (set_ap_stack (<[i := mpentry_kstack s]> (ap_stack s)) s)
  | Some ApMain => put_ap i ApLock (set_status (<[i := CPU_STARTED]> (status s)) s)
  | Some ApLock =>
      if bool_decide (big_lock s = None) then put_ap i ApSched (set_big_lock (Some i) s)
      else s
  | Some ApSched => ap_leave i o s
  | _ => s
  end.

(** A step of one processor, [None] for the boot processor, and a number of steps. *)
Definition cpu_step (c : option Z) (o : sched_exit) (s : smp) : smp :=
  match c with None => bsp_step o s | Some i => ap_step i o s end.

Inductive smp_step (s : smp) : smp -> Prop :=
| cpu_runs c o : smp_step s (cpu_step c o s).

Inductive smp_steps (s : smp) : nat -> smp -> Prop :=
| smp_refl : smp_steps s O s
| smp_more n s' s'' : smp_steps s n s' -> smp_step s' s'' -> smp_steps s (S n) s''.

(** Before i386_init takes the lock: the others are halted, none has started. *)
Definition smp_initial (s : smp) : Prop :=
  bsp s = BspLock /\ big_lock s = None /\
  (forall i, ap s !! i = if bool_decide (0 <= i < ncpu /\ i <> me) then Some ApHalted else None) /\
  (forall i, i <> me -> status s !! i <> Some CPU_STARTED).

(** ** The invariant *)

(** How far the boot processor has come: the processors below it have started. *)
Definition bsp_at (p : bsp_pc) : Z :=
  match p with
  | BspLock => 0
  | BspLoop c | BspStart c | BspWait c => c
  | BspSched | BspUser | BspIdle | BspMonitor => ncpu
  end.

(** What holds of processor [i], in state [s], at [p]. *)
Definition ap_ok (s : smp) (i : Z) (p : ap_pc) : Prop :=
  match p with
  | ApHalted => bsp_at (bsp s) <= i /\ bsp s <> BspWait i /\ status s !! i <> Some CPU_STARTED
  | ApEntry => bsp s = BspWait i /\ status s !! i <> Some CPU_STARTED
  | ApMain => bsp s = BspWait i /\ status s !! i <> Some CPU_STARTED /\
      ap_stack s !! i = Some (stack_top i)
  | ApLock => (i < bsp_at (bsp s) \/ bsp s = BspWait i) /\ status s !! i = Some CPU_STARTED /\
      ap_stack s !! i = Some (stack_top i)
  | ApSched | ApUser | ApMonitor => gone (bsp s) /\ status s !! i = Some CPU_STARTED /\
      ap_stack s !! i = Some (stack_top i)
  | ApIdle => gone (bsp s) /\ status s !! i = Some CPU_HALTED /\ ap_stack s !! i = Some (stack_top i)
  end.

(** The holder of the lock is the one processor that is inside. *)
Definition lock_ok (s : smp) : Prop :=
  match bsp s with
  | BspLock => big_lock s = None
  | BspUser | BspIdle => forall i, (exists p, ap s !! i = Some p /\ inside p) <-> big_lock s = Some i
  | _ => big_lock s = Some me
  end.

Record smp_inv (s : smp) : Prop := {
  si_ap : forall i p, ap s !! i = Some p -> 0 <= i < ncpu /\ i <> me /\ ap_ok s i p;
  si_all : forall i, 0 <= i < ncpu -> i <> me -> is_Some (ap s !! i);
  si_kstack : forall c, bsp s = BspStart c \/ bsp s = BspWait c ->
    mpentry_kstack s = stack_top c /\ 0 <= c < ncpu /\ c <> me;
  si_bsp : forall c, bsp s = BspLoop c -> 0 <= c <= ncpu;
  si_lock : lock_ok s;
}.

Lemma smp_inv_initial s : 0 <= ncpu -> smp_initial s -> smp_inv s.
Proof using.
  intros Hn (Hb & Hl & Ha & Hs). split; rewrite ?Hb.
  - intros i p. rewrite Ha. case_bool_decide as Hi; [|done]. intros [= <-].
    split; [lia|split; [lia|]]. cbn. rewrite Hb. split_and!; [cbn; lia|done|apply Hs; lia].
  - intros i Hi Hne. rewrite Ha, bool_decide_true by done. eauto.
  - intros c [H|H]; done.
  - done.
  - unfold lock_ok. by rewrite Hb.
Qed.

(** The conditions on the other processors survive a step of the boot processor
    that leaves them and their arrays alone. *)
Lemma smp_inv_bsp s s' :
  smp_inv s -> ap s' = ap s -> ap_stack s' = ap_stack s ->
  (forall i p, 0 <= i < ncpu -> i <> me -> ap s !! i = Some p -> ap_ok s i p -> ap_ok s' i p) ->
  (forall c, bsp s' = BspStart c \/ bsp s' = BspWait c ->
    mpentry_kstack s' = stack_top c /\ 0 <= c < ncpu /\ c <> me) ->
  (forall c, bsp s' = BspLoop c -> 0 <= c <= ncpu) -> lock_ok s' -> smp_inv s'.
Proof using.
  intros [Ha Hall _ _ _] Eap Est Hok Hk Hb Hl. split; try done; rewrite Eap; [|done].
  intros i p Hp. destruct (Ha i p Hp) as (H1 & H2 & H3). auto.
Qed.

Lemma startup_halted s c :
  ap s !! c = Some ApHalted -> startup c (startup c s) = put_ap c ApEntry s.
Proof using.
  intros E. unfold startup at 2. rewrite E. unfold startup, put_ap. cbn. by rewrite lookup_insert_eq.
Qed.

(** When the boot processor gets to [c], [c] is halted. *)
Lemma start_halted s c : smp_inv s -> bsp s = BspStart c -> ap s !! c = Some ApHalted.
Proof using.
  intros I Eb. destruct (si_kstack _ I c) as (_ & Hc & Hne); [by left|].
  destruct (si_all _ I c Hc Hne) as [p Ep]. destruct (si_ap _ I c p Ep) as (_ & _ & Hok).
  destruct p; [done|exfalso..]; cbn in Hok; rewrite Eb in Hok; cbn in Hok; unfold gone in Hok;
    intuition (lia || congruence).
Qed.

(** Before the boot processor has left sched_yield nobody else is inside. *)
Lemma none_inside s i p : smp_inv s -> ap s !! i = Some p -> inside p -> gone (bsp s).
Proof using.
  intros I Ep Hp. destruct (si_ap _ I i p Ep) as (_ & _ & Hok). by destruct Hp as [-> | ->], Hok.
Qed.

Lemma smp_inv_bsp_leave o s : smp_inv s -> bsp s = BspSched -> smp_inv (bsp_leave o s).
Proof using.
  intros I Eb. pose proof (si_lock _ I) as L. unfold lock_ok in L. rewrite Eb in L.
  assert (forall i p, ap s !! i = Some p -> ~ inside p) as Hno.
  { intros i p Ep Hp. destruct (none_inside s i p I Ep Hp); congruence. }
  assert (forall p' l st, (p' = BspMonitor /\ l = Some me \/ gone p' /\ l = None) ->
    (forall i, i <> me -> st !! i = status s !! i) ->
    smp_inv (set_bsp p' (set_big_lock l (set_status st s)))) as H.
  { intros p' l st Hl Hst. apply (smp_inv_bsp s); try done; cbn.
    - intros i p Hi Hne Ep Hok. pose proof (Hno i p Ep) as Hin. unfold inside in Hin.
      assert (bsp_at p' = ncpu) as Eat by (destruct Hl as [[-> _]|[[-> | ->] _]]; done).
      destruct p; cbn in Hok |- *; rewrite ?Eb, ?Eat, ?Hst in *; cbn in *; unfold gone in Hok;
        intuition (lia || congruence).
    - intros c [E|E]; subst; destruct Hl as [[? _]|[[?|?] _]]; done.
    - intros c ->. destruct Hl as [[? _]|[[?|?] _]]; done.
    - unfold lock_ok. cbn. destruct Hl as [[-> ->]|[[-> | ->] ->]]; [done|..]; intros i;
        (split; [|done]); intros (p & Ep & Hp); by destruct (Hno i p Ep). }
  destruct o; cbn.
  - specialize (H BspUser None (status s) ltac:(right; split; [by left|done]) ltac:(done)). by destruct s.
  - apply (H BspIdle None (<[me := CPU_HALTED]> (status s))); [right; split; [by right|done]|].
    intros i Hi. by apply lookup_insert_ne.
  - specialize (H BspMonitor (big_lock s) (status s) ltac:(by left) ltac:(done)). by destruct s.
Qed.

Lemma smp_inv_bsp_step o s : 0 <= ncpu -> smp_inv s -> smp_inv (bsp_step o s).
Proof using.
  intros Hn I. pose proof (si_lock _ I) as L. unfold bsp_step, lock_ok in *.
  destruct (bsp s) as [|c|c|c| | | |] eqn:Eb; try done.
  - rewrite L. cbn. apply (smp_inv_bsp s); try done.
    + ap_cases Eb.
    + intros c [H|H]; done.
    + intros c [= <-]. lia.
  - pose proof (si_bsp _ I c Eb) as Hc. destruct (Z.ltb_spec c ncpu) as [Hlt|Hge].
    + destruct (Z.eqb_spec c me) as [->|Hne].
      * apply (smp_inv_bsp s); try done.
        -- ap_cases Eb.
        -- intros c [H|H]; done.
        -- intros c [= <-]. lia.
      * apply (smp_inv_bsp s); try done.
        -- ap_cases Eb.
        -- intros c' [[= <-]|H]; [split; [done|lia]|done].
    + apply (smp_inv_bsp s); try done.
      * ap_cases Eb.
      * intros c' [H|H]; done.
  - pose proof (start_halted s c I Eb) as Eh. rewrite (startup_halted s c Eh).
    destruct (si_ap _ I c _ Eh) as (Hc & Hme & Hok). cbn in Hok.
    split; cbn.
    + intros i p. destruct (decide (i = c)) as [->|Hi].
      * rewrite lookup_insert_eq. intros [= <-]. split; [lia|split; [lia|]]. cbn. intuition.
      * rewrite lookup_insert_ne by done. intros Hp. destruct (si_ap _ I i p Hp) as (H1 & H2 & H3).
        split; [lia|split; [lia|]]. destruct p; cbn in *; rewrite Eb in H3; cbn in H3; unfold gone in *;
          intuition (lia || congruence).
    + intros i Hi Hne. destruct (decide (i = c)) as [->|]; [rewrite lookup_insert_eq; eauto|].
      rewrite lookup_insert_ne by done. by apply (si_all _ I).
    + intros c' [H|[= <-]]; [done|]. apply (si_kstack _ I c). by left.
    + done.
    + exact L.
  - case_bool_decide as Hst; [|done].
    destruct (si_kstack _ I c) as (_ & Hc & Hme); [by right|].
    apply (smp_inv_bsp s); try done.
    + intros i p Hi Hne Hp. destruct p; cbn; rewrite Eb; cbn; unfold gone.
      all: destruct (decide (i = c)) as [->|]; intuition (lia || congruence).
    + intros c' [H|H]; done.
    + intros c' [= <-]. lia.
  - by apply smp_inv_bsp_leave.
Qed.

(** A step of processor [i] that touches only its own entries and the lock. *)
Lemma smp_inv_ap s s' i p p' :
  smp_inv s -> ap s !! i = Some p -> ap s' = <[i := p']> (ap s) ->
  bsp s' = bsp s -> mpentry_kstack s' = mpentry_kstack s ->
  (forall j, j <> i -> ap_stack s' !! j = ap_stack s !! j /\ status s' !! j = status s !! j) ->
  ap_ok s' i p' -> lock_ok s' -> smp_inv s'.
Proof using.
  intros I Ep Ea Eb Ek Eo Hok Hl. destruct (si_ap _ I i p Ep) as (Hi & Hne & _). split.
  - intros j q. rewrite Ea. destruct (decide (j = i)) as [->|Hj].
    + rewrite lookup_insert_eq. by intros [= <-].
    + rewrite lookup_insert_ne by done. intros Hq. destruct (si_ap _ I j q Hq) as (H1 & H2 & H3).
      split; [done|split; [done|]]. destruct (Eo j Hj) as [E1 E2].
      destruct q; cbn in *; by rewrite ?Eb, ?E1, ?E2.
  - intros j Hj Hjn. rewrite Ea. destruct (decide (j = i)) as [->|]; [rewrite lookup_insert_eq; eauto|].
    rewrite lookup_insert_ne by done. by apply (si_all _ I).
  - rewrite Eb, Ek. apply (si_kstack _ I).
  - rewrite Eb. apply (si_bsp _ I).
  - done.
Qed.

(** Outside the scheduler a processor does not matter for the lock. *)
Lemma lock_ok_outside s s' i p p' :
  lock_ok s -> ap s !! i = Some p -> ap s' = <[i := p']> (ap s) -> bsp s' = bsp s ->
  big_lock s' = big_lock s -> (inside p <-> inside p') -> lock_ok s'.
Proof using.
  unfold lock_ok. intros L Ep Ea Eb El Hp. rewrite Eb, El.
  assert (forall j, (exists q, ap s' !! j = Some q /\ inside q) <-> (exists q, ap s !! j = Some q /\ inside q)) as H.
  { intros j. rewrite Ea. destruct (decide (j = i)) as [->|]; [|by rewrite lookup_insert_ne].
    rewrite lookup_insert_eq, Ep. split; intros (q & [= <-] & Hq); eexists; (split; [done|]); by apply Hp. }
  destruct (bsp s); try done; intros j; by rewrite H.
Qed.

(** A processor that waits for the lock sees it free only in the end. *)
Lemma lock_free s i : smp_inv s -> ap s !! i = Some ApLock -> big_lock s = None -> gone (bsp s).
Proof using.
  intros I Ep El. pose proof (si_lock _ I) as L. destruct (si_ap _ I i _ Ep) as (Hi & _ & Hok).
  unfold lock_ok in L. unfold gone. cbn in Hok. destruct (bsp s); cbn in Hok; try congruence; auto.
  destruct Hok as [[H|H] _]; [lia|done].
Qed.

(** Once the boot processor has released the lock, its holder is who is inside. *)
Lemma lock_ok_gone s :
  gone (bsp s) -> (lock_ok s <-> forall i, (exists p, ap s !! i = Some p /\ inside p) <-> big_lock s = Some i).
Proof using. unfold lock_ok. by intros [-> | ->]. Qed.

(** A processor that releases the lock was the only one inside. *)
Lemma lock_released s s' i p p' :
  smp_inv s -> ap s !! i = Some p -> inside p -> ap s' = <[i := p']> (ap s) -> bsp s' = bsp s ->
  ~ inside p' -> big_lock s' = None -> lock_ok s'.
Proof using.
  intros I Ep Hp Ea Eb Hp' El. pose proof (none_inside s i p I Ep Hp) as Hg.
  pose proof (proj1 (lock_ok_gone s Hg) (si_lock _ I)) as L.
  assert (big_lock s = Some i) as Ei by (apply L; eauto).
  apply lock_ok_gone; [by rewrite Eb|]. intros j. rewrite El, Ea. split; [|done].
  intros (q & Eq & Hq). destruct (decide (j = i)) as [->|Hj].
  - rewrite lookup_insert_eq in Eq. injection Eq as <-. done.
  - rewrite lookup_insert_ne in Eq by done. assert (big_lock s = Some j) by (apply L; eauto). congruence.
Qed.

Lemma smp_inv_ap_leave i o s : smp_inv s -> ap s !! i = Some ApSched -> smp_inv (ap_leave i o s).
Proof using.
  intros I Ep. destruct (si_ap _ I i _ Ep) as (Hi & Hne & Hg & Hs & Hst).
  assert (inside ApSched) as Hin by by left.
  assert (~ inside ApUser /\ ~ inside ApIdle) as [Hu Hd] by (unfold inside; intuition congruence).
  destruct o; eapply (smp_inv_ap s _ i); try done.
  - by apply (lock_released s _ i ApSched ApUser).
  - intros j Hj. split; [done|by apply lookup_insert_ne].
  - cbn. rewrite lookup_insert_eq. done.
  - by apply (lock_released s _ i ApSched ApIdle).
  - apply (lock_ok_outside s _ i ApSched ApMonitor); try done; [apply I|]. split; intros _; [by right|by left].
Qed.

Lemma smp_inv_ap_step i o s : smp_inv s -> smp_inv (ap_step i o s).
Proof using.
  intros I. unfold ap_step. pose proof (si_lock _ I) as L.
  destruct (ap s !! i) as [p|] eqn:Ep; [|done].
  destruct (si_ap _ I i p Ep) as (Hi & Hne & Hok). destruct p; cbn in Hok; try done.
  - destruct Hok as [Eb Hs]. destruct (si_kstack _ I i) as (Hk & _); [by right|].
    eapply (smp_inv_ap s _ i); try done.
    + intros j Hj. split; [by apply lookup_insert_ne|done].
    + cbn. rewrite lookup_insert_eq, Hk. done.
    + eapply (lock_ok_outside s); try done. unfold inside. intuition congruence.
  - destruct Hok as (Eb & Hs & Hst). eapply (smp_inv_ap s _ i); try done.
    + intros j Hj. split; [done|by apply lookup_insert_ne].
    + cbn. rewrite lookup_insert_eq. auto.
    + eapply (lock_ok_outside s); try done. unfold inside. intuition congruence.
  - case_bool_decide as El; [|done]. pose proof (lock_free s i I Ep El) as Eb.
    eapply (smp_inv_ap s _ i); try done.
    + cbn. intuition.
    + apply lock_ok_gone; [done|]. rewrite lock_ok_gone in L by done. intros j. cbn.
      destruct (decide (j = i)) as [->|Hj].
      * rewrite lookup_insert_eq. split; [done|]. intros _. eexists. split; [done|by left].
      * rewrite lookup_insert_ne by done. rewrite L, El. split; congruence.
  - by apply smp_inv_ap_leave.
Qed.

Lemma smp_inv_step c o s : 0 <= ncpu -> smp_inv s -> smp_inv (cpu_step c o s).
Proof using. intros Hn I. destruct c; [by apply smp_inv_ap_step|by apply smp_inv_bsp_step]. Qed.

Lemma smp_inv_steps s0 n s : 0 <= ncpu -> smp_initial s0 -> smp_steps s0 n s -> smp_inv s.
Proof using.
  intros Hn H0. induction 1 as [|n s s1 _ IH [c o]]; [by apply smp_inv_initial|by apply smp_inv_step].
Qed.

#[export] Instance smp_eq_dec : EqDecision smp.
Proof. solve_decision. Defined.

(** ** Progress *)

(** What is left to do, at most: for the boot processor, and for the others. *)
Definition bsp_left (p : bsp_pc) : Z :=
  match p with
  | BspLock => 3 * ncpu + 3
  | BspLoop c => 3 * (ncpu - c) + 2
  | BspStart c => 3 * (ncpu - c) + 1
  | BspWait c => 3 * (ncpu - c)
  | BspSched => 1
  | BspUser | BspIdle | BspMonitor => 0
  end.
Definition ap_left (p : option ap_pc) : Z :=
  match p with
  | Some ApHalted => 5
  | Some ApEntry => 4
  | Some ApMain => 3
  | Some ApLock => 2
  | Some ApSched => 1
  | _ => 0
  end.
Definition total (f : Z -> Z) : Z := foldr Z.add 0 (f <$> seqZ 0 ncpu).
Definition steps_left (s : smp) : Z := bsp_left (bsp s) + total (fun i => ap_left (ap s !! i)).

Lemma sum_change (l : list Z) (f g : Z -> Z) i :
  NoDup l -> i ∈ l -> (forall j, j <> i -> f j = g j) ->
  foldr Z.add 0 (f <$> l) - foldr Z.add 0 (g <$> l) = f i - g i.
Proof using.
  intros Hd. revert i. induction Hd as [|x l Hx _ IH]; intros i Hi Hfg; [by apply elem_of_nil in Hi|].
  rewrite !fmap_cons. cbn [foldr]. destruct (decide (i = x)) as [->|Hne].
  - assert (f <$> l = g <$> l) as ->; [|lia].
    apply list_fmap_ext. intros k y Hy. apply Hfg. intros ->. apply Hx. by eapply list_elem_of_lookup_2.
  - apply elem_of_cons in Hi as [?|Hi]; [done|]. rewrite (Hfg x) by done. specialize (IH i Hi Hfg). lia.
Qed.

Lemma total_change (f g : Z -> Z) i :
  0 <= i < ncpu -> (forall j, j <> i -> f j = g j) -> total f - total g = f i - g i.
Proof using.
  intros Hi. apply sum_change; [apply NoDup_seqZ|]. apply elem_of_seqZ. lia.
Qed.

(** Moving processor [i] from [p] to [p']. *)
Lemma total_put s s' i p p' :
  0 <= i < ncpu -> ap s !! i = Some p -> ap s' = <[i := p']> (ap s) ->
  total (fun j => ap_left (ap s' !! j)) =
  total (fun j => ap_left (ap s !! j)) + ap_left (Some p') - ap_left (Some p).
Proof using.
  intros Hi Ep ->. pose proof (total_change (fun j => ap_left (<[i:=p']> (ap s) !! j))
    (fun j => ap_left (ap s !! j)) i Hi) as H. cbn beta in H.
  rewrite lookup_insert_eq, Ep in H. specialize (H ltac:(intros; by rewrite lookup_insert_ne)). lia.
Qed.

(** A step changes nothing, or less is left to do. *)
Lemma step_left c o s :
  smp_inv s -> cpu_step c o s = s \/ steps_left (cpu_step c o s) < steps_left s.
Proof using.
  intros I. unfold steps_left. destruct c as [i|]; cbn [cpu_step].
  - unfold ap_step. destruct (ap s !! i) as [p|] eqn:Ep; [|by left].
    destruct (si_ap _ I i p Ep) as (Hi & _).
    destruct p; try (by left); try (case_bool_decide; [|by left]); right;
      [| | |destruct o]; cbn [bsp ap_leave];
      (erewrite (total_put s _ i); [|done|exact Ep|reflexivity]); cbn; lia.
  - unfold bsp_step. destruct (bsp s) as [|c|c|c| | | |] eqn:Eb; cbn [bsp_left]; try (by left).
    + case_bool_decide; [|by left]. right. cbn. lia.
    + right. destruct (Z.ltb_spec c ncpu); [destruct (c =? me)|]; cbn; try lia.
      pose proof (si_bsp _ I c Eb). lia.
    + right. pose proof (start_halted s c I Eb) as Eh. rewrite (startup_halted s c Eh).
      destruct (si_ap _ I c _ Eh) as (Hc & _).
      cbn [bsp]. erewrite (total_put s _ c); [|done|exact Eh|reflexivity]. cbn. lia.
    + case_bool_decide; [|by left]. right. cbn. lia.
    + right. destruct o; cbn; lia.
Qed.

Lemma steps_left_nonneg s : 0 <= ncpu -> smp_inv s -> 0 <= steps_left s.
Proof using.
  intros Hn I. unfold steps_left.
  assert (forall l, 0 <= foldr Z.add 0 ((fun i => ap_left (ap s !! i)) <$> l)) as H.
  { induction l as [|i l IH]; [done|]. rewrite fmap_cons. cbn [foldr].
    assert (0 <= ap_left (ap s !! i)) by (by destruct (ap s !! i) as [[]|]). lia. }
  specialize (H (seqZ 0 ncpu)). unfold total.
  assert (0 <= bsp_left (bsp s)); [|lia].
  destruct (bsp s) as [|c|c|c| | | |] eqn:Eb; cbn; try lia.
  - pose proof (si_bsp _ I c Eb). lia.
  - destruct (si_kstack _ I c) as (_ & ? & _); [by left|]. lia.
  - destruct (si_kstack _ I c) as (_ & ? & _); [by right|]. lia.
Qed.

Lemma steps_left_initial s : 0 <= ncpu -> smp_initial s -> steps_left s <= 8 * ncpu + 3.
Proof using.
  intros Hn (Hb & _ & Ha & _). unfold steps_left. rewrite Hb. cbn [bsp_left].
  assert (forall l, foldr Z.add 0 ((fun i => ap_left (ap s !! i)) <$> l) <= 5 * Z.of_nat (length l)) as H.
  { induction l as [|i l IH]; [done|]. rewrite fmap_cons. cbn [foldr length]. rewrite Ha.
    destruct (bool_decide _); cbn [ap_left]; lia. }
  specialize (H (seqZ 0 ncpu)). rewrite length_seqZ in H. unfold total. lia.
Qed.

(** The boot processor is through boot_aps. *)
Definition booted (s : smp) : Prop := bsp s = BspSched \/ gone (bsp s) \/ bsp s = BspMonitor.

#[export] Instance booted_dec s : Decision (booted s).
Proof using. unfold booted, gone. apply _. Defined.

Lemma booted_step c o s : booted s -> booted (cpu_step c o s).
Proof using.
  unfold booted, gone. intros Hb. destruct c as [i|]; cbn [cpu_step].
  - assert (bsp (ap_step i o s) = bsp s) as ->; [|done].
    unfold ap_step. destruct (ap s !! i) as [[]|]; try done; [by case_bool_decide|by destruct o].
  - unfold bsp_step. destruct Hb as [E|[[E|E]|E]]; rewrite ?E; auto. destruct o; cbn; auto.
Qed.

(** The processor that is to move next on the way there. *)
Definition mover (s : smp) : option Z :=
  match bsp s with
  | BspWait c => if bool_decide (status s !! c = Some CPU_STARTED) then None else Some c
  | _ => None
  end.

Lemma mover_cpu s : smp_inv s ->
  mover s = None \/ exists i, mover s = Some i /\ 0 <= i < ncpu /\ i <> me.
Proof using.
  intros I. unfold mover. destruct (bsp s) as [|c|c|c| | | |] eqn:Eb; auto. case_bool_decide; [by left|right].
  destruct (si_kstack _ I c) as (_ & Hc & Hne); [by right|]. eauto.
Qed.

Lemma mover_moves o s : smp_inv s -> ~ booted s -> cpu_step (mover s) o s <> s.
Proof using.
  intros I Hnb E. pose proof (si_lock _ I) as L. unfold lock_ok in L. unfold mover, booted, gone in *.
  destruct (bsp s) as [|c|c|c| | | |] eqn:Eb; try (by destruct Hnb; auto).
  - cbn in E. unfold bsp_step in E. rewrite Eb, L in E. cbn in E. apply (f_equal bsp) in E. by rewrite Eb in E.
  - cbn in E. unfold bsp_step in E. rewrite Eb in E. apply (f_equal bsp) in E. rewrite Eb in E.
    destruct (c <? ncpu); [|done]. destruct (c =? me); [|done]. cbn in E. injection E. lia.
  - cbn in E. unfold bsp_step in E. rewrite Eb in E. apply (f_equal bsp) in E. by rewrite Eb in E.
  - case_bool_decide as Hst.
    + cbn in E. unfold bsp_step in E. rewrite Eb, bool_decide_true in E by done.
      apply (f_equal bsp) in E. by rewrite Eb in E.
    + destruct (si_kstack _ I c) as (_ & Hc & Hne); [by right|].
      destruct (si_all _ I c Hc Hne) as [p Ep]. destruct (si_ap _ I c p Ep) as (_ & _ & Hok).
      cbn in E. unfold ap_step in E. rewrite Ep in E. apply (f_equal (fun s => ap s !! c)) in E.
      destruct p; cbn in Hok; rewrite Eb in Hok; unfold gone in Hok; try (intuition congruence).
      all: cbn in E; rewrite lookup_insert_eq, Ep in E; done.
Qed.

(** ** Schedules

    A schedule says which processor takes the next step, and how sched_yield ends if
    it is the step that ends it; [fair]: every processor is scheduled again and
    again. *)

Definition schedule : Type := nat -> option Z * sched_exit.
Definition fair (w : schedule) : Prop :=
  forall c, (c = None \/ exists i, c = Some i /\ 0 <= i < ncpu /\ i <> me) ->
  forall n, exists k, (n <= k)%nat /\ (w k).1 = c.

Fixpoint exec (w : schedule) (n : nat) (s : smp) : smp :=
  match n with
  | O => s
  | S n' => let s := exec w n' s in cpu_step (w n').1 (w n').2 s
  end.

(** The steps, of the first [n], that were not failed polls (or idle). *)
Fixpoint moves (w : schedule) (n : nat) (s : smp) : nat :=
  match n with
  | O => O
  | S n' => moves w n' s + if decide (exec w (S n') s = exec w n' s) then 0 else 1
  end.

Section Fair.
Context (Hn : 0 <= ncpu) (w : schedule) (s0 : smp) (H0 : smp_initial s0).

Lemma exec_inv n : smp_inv (exec w n s0).
Proof using Hn H0.
  induction n as [|n IH]; [by apply smp_inv_initial|]. by apply smp_inv_step.
Qed.

Lemma exec_left n k : steps_left (exec w (n + k) s0) <= steps_left (exec w n s0).
Proof using Hn H0.
  induction k as [|k IH]; [by rewrite Nat.add_0_r|]. rewrite Nat.add_succ_r. cbn [exec].
  destruct (step_left (w (n + k)%nat).1 (w (n + k)%nat).2 _ (exec_inv (n + k))) as [->|]; [done|lia].
Qed.

(** While nothing gets less, nothing changes. *)
Lemma exec_same n k :
  steps_left (exec w (n + k) s0) = steps_left (exec w n s0) -> exec w (n + k) s0 = exec w n s0.
Proof using Hn H0.
  induction k as [|k IH]; [by rewrite Nat.add_0_r|]. rewrite Nat.add_succ_r. cbn [exec]. intros E.
  pose proof (exec_left n k) as Hk.
  destruct (step_left (w (n + k)%nat).1 (w (n + k)%nat).2 _ (exec_inv (n + k))) as [Es|]; [|lia].
  rewrite Es in E |- *. by apply IH.
Qed.

(** Under a fair schedule something gets less until boot_aps is done. *)
Lemma fair_progress n :
  fair w -> ~ booted (exec w n s0) -> exists k, steps_left (exec w (n + k) s0) < steps_left (exec w n s0).
Proof using Hn H0.
  intros Hf Hnb. destruct (Hf _ (mover_cpu _ (exec_inv n)) n) as (m & Hm & Ec).
  exists (S (m - n)). rewrite Nat.add_succ_r. pose proof (exec_left n (S (m - n))) as Hle.
  rewrite Nat.add_succ_r in Hle. destruct (Z.eq_dec (steps_left (exec w (S (n + (m - n))) s0)) (steps_left (exec w n s0)))
    as [E|]; [exfalso|lia].
  pose proof (exec_left n (m - n)) as H1. cbn [exec] in E.
  destruct (step_left (w (n + (m - n))%nat).1 (w (n + (m - n))%nat).2 _ (exec_inv (n + (m - n)))) as [Es|]; [|lia].
  rewrite Es in E. apply exec_same in E. rewrite E in Es. replace (n + (m - n))%nat with m in Es by lia.
  rewrite Ec in Es. by apply (mover_moves (w m).2) in Es; [|apply exec_inv|].
Qed.

Lemma fair_booted : fair w -> exists n, booted (exec w n s0).
Proof using Hn H0.
  intros Hf. assert (forall d n, steps_left (exec w n s0) <= Z.of_nat d -> exists m, booted (exec w m s0)) as H.
  { induction d as [|d IH]; intros n Hd; (destruct (decide (booted (exec w n s0))) as [|Hnb]; [by exists n|]);
      destruct (fair_progress n Hf Hnb) as [k Hk]; pose proof (steps_left_nonneg _ Hn (exec_inv (n + k))); [lia|].
    apply (IH (n + k)%nat). lia. }
  apply (H (Z.to_nat (steps_left s0)) O). pose proof (steps_left_nonneg _ Hn (exec_inv O)). cbn [exec] in *. lia.
Qed.

Lemma exec_booted n k : booted (exec w n s0) -> booted (exec w (n + k) s0).
Proof using.
  intros Hb. induction k as [|k IH]; [by rewrite Nat.add_0_r|]. rewrite Nat.add_succ_r. by apply booted_step.
Qed.

Lemma moves_left n : steps_left (exec w n s0) + Z.of_nat (moves w n s0) <= 8 * ncpu + 3.
Proof using Hn H0.
  induction n as [|n IH]; cbn [exec moves].
  - pose proof (steps_left_initial s0 Hn H0). lia.
  - destruct (step_left (w n).1 (w n).2 _ (exec_inv n)) as [E|]; [rewrite decide_True by done; rewrite E; lia|].
    case_decide; lia.
Qed.

(** In the monitor the boot processor keeps the lock, and the others wait for it. *)
Lemma exec_monitor n k : bsp (exec w n s0) = BspMonitor -> bsp (exec w (n + k) s0) = BspMonitor.
Proof using.
  intros E. induction k as [|k IH]; [by rewrite Nat.add_0_r|]. rewrite Nat.add_succ_r. cbn [exec].
  set (s := exec w (n + k) s0) in *. destruct (w (n + k)%nat) as [[i|] o]; cbn [cpu_step fst snd].
  - rewrite <- IH. unfold ap_step. destruct (ap s !! i) as [[]|]; try done; [by case_bool_decide|by destruct o].
  - unfold bsp_step. by rewrite IH.
Qed.
End Fair.

(** What a processor has done once boot_aps is through. *)
Lemma booted_started s i :
  smp_inv s -> booted s -> 0 <= i < ncpu -> i <> me ->
  exists p, ap s !! i = Some p /\ p <> ApHalted /\ p <> ApEntry /\ p <> ApMain /\
    status s !! i = Some (if decide (p = ApIdle) then CPU_HALTED else CPU_STARTED) /\
    (bsp s = BspMonitor -> p = ApLock).
Proof using.
  intros I Hb Hi Hne. destruct (si_all _ I i Hi Hne) as [p Ep].
  destruct (si_ap _ I i p Ep) as (_ & _ & Hok). exists p. split; [done|].
  unfold booted, gone in Hb. destruct p; cbn in Hok; unfold gone in Hok;
    destruct Hb as [Hb|[[Hb|Hb]|Hb]]; rewrite Hb in Hok; cbn in Hok;
    first [exfalso; intuition (lia || congruence) | cbn; intuition congruence].
Qed.

(** C12: However the steps of the processors interleave while i386_init and boot_aps
    start them, failed polls of the lock and of cpu_status among them, and however
    sched_yield ends for each, every processor that runs C code runs on its own
    kernel stack (the one variable mpentry_kstack is not changed before it was read);
    the kernel lock is held by the boot processor until it leaves sched_yield for
    user mode or the halt (and for good if it enters the monitor), and after that by
    the processor in the scheduler or in the monitor, which is never more than one;
    and no processor enters the scheduler before all have started. *)
Theorem smp_startup_safe s0 n s :
  0 <= ncpu -> smp_initial s0 -> smp_steps s0 n s ->
  (forall i p, ap s !! i = Some p -> p <> ApHalted -> p <> ApEntry ->
     ap_stack s !! i = Some (percpu_kstacks + (i + 1) * KSTKSIZE)) /\
  (bsp s <> BspLock -> bsp s <> BspUser -> bsp s <> BspIdle -> big_lock s = Some me) /\
  (forall i p, ap s !! i = Some p -> inside p -> gone (bsp s) /\ big_lock s = Some i) /\
  (forall i j p q, ap s !! i = Some p -> ap s !! j = Some q -> inside p -> inside q -> i = j) /\
  (forall i, booted s -> 0 <= i < ncpu -> i <> me ->
     exists p, ap s !! i = Some p /\
       status s !! i = Some (if decide (p = ApIdle) then CPU_HALTED else CPU_STARTED)).
Proof using.
  intros Hn H0 Hs. pose proof (smp_inv_steps s0 n s Hn H0 Hs) as I. pose proof (si_lock _ I) as L.
  assert (forall i p, ap s !! i = Some p -> inside p -> gone (bsp s) /\ big_lock s = Some i) as Hsched.
  { intros i p Ep Hp. pose proof (none_inside s i p I Ep Hp) as Hg. split; [done|].
    rewrite lock_ok_gone in L by done. apply L. eauto. }
  split_and!.
  - intros i p Ep H1 H2. destruct (si_ap _ I i p Ep) as (_ & _ & Hok).
    assert (ap_stack s !! i = Some (stack_top i)) as -> by (destruct p; cbn in Hok; intuition congruence).
    f_equal. unfold stack_top. lia.
  - intros H1 H2 H3. unfold lock_ok in L. by destruct (bsp s).
  - done.
  - intros i j p q Hi Hj Hp Hq. destruct (Hsched i p Hi Hp), (Hsched j q Hj Hq). congruence.
  - intros i Hb Hi Hne. destruct (booted_started s i I Hb Hi Hne) as (p & Ep & _ & _ & _ & Est & _). eauto.
Qed.

(** C40: boot_aps ends.  Under every fair schedule, in which failed polls are steps
    like any other and each sched_yield may end in any of its ways, there is a point
    after which the boot processor is through boot_aps and every other processor
    has loaded its stack, has reported itself as started and has got to lock_kernel;
    all the steps but the failed polls are at most 8 * ncpu + 3.  If the boot
    processor's sched_yield then enters the monitor, all the others spin for the
    lock forever. *)
Theorem smp_startup_ends w s0 :
  0 <= ncpu -> smp_initial s0 -> fair w ->
  (exists n, forall m, (n <= m)%nat ->
     booted (exec w m s0) /\
     forall i, 0 <= i < ncpu -> i <> me -> exists p, ap (exec w m s0) !! i = Some p /\
       p <> ApHalted /\ p <> ApEntry /\ p <> ApMain /\
       status (exec w m s0) !! i = Some (if decide (p = ApIdle) then CPU_HALTED else CPU_STARTED)) /\
  (forall m, Z.of_nat (moves w m s0) <= 8 * ncpu + 3) /\
  (forall n m, bsp (exec w n s0) = BspMonitor -> (n <= m)%nat ->
     big_lock (exec w m s0) = Some me /\
     forall i, 0 <= i < ncpu -> i <> me -> ap (exec w m s0) !! i = Some ApLock).
Proof using.
  intros Hn H0 Hf. split; [|split].
  - destruct (fair_booted Hn w s0 H0 Hf) as [n Hb]. exists n. intros m Hm.
    replace m with (n + (m - n))%nat by lia. pose proof (exec_booted w s0 n (m - n) Hb) as Hb'.
    split; [done|]. intros i Hi Hne.
    destruct (booted_started _ i (exec_inv Hn w s0 H0 (n + (m - n))) Hb' Hi Hne) as (p & Ep & H1 & H2 & H3 & H4 & _).
    exists p. split_and!; done.
  - intros m. pose proof (moves_left Hn w s0 H0 m). pose proof (steps_left_nonneg _ Hn (exec_inv Hn w s0 H0 m)). lia.
  - intros n m Eb Hm. replace m with (n + (m - n))%nat by lia.
    pose proof (exec_monitor w s0 n (m - n) Eb) as Eb'. pose proof (exec_inv Hn w s0 H0 (n + (m - n))) as I.
    pose proof (si_lock _ I) as L. unfold lock_ok in L. rewrite Eb' in L. split; [done|].
    intros i Hi Hne. destruct (booted_started _ i I) as (p & Ep & _ & _ & _ & _ & Hp); [by right; right|done|done|].
    by rewrite Ep, (Hp Eb').
Qed.
End Protocol.

(** ** Three processors, of which number 1 boots *)

(** The steps of a list of processors; [None] is the boot processor.  All enter user
    mode. *)
Definition run_list (ncpu me percpu_kstacks : Z) (l : list (option Z)) (s : smp) : smp :=
  fold_left (fun s c => cpu_step ncpu me percpu_kstacks c EntersUser s) l s.

Lemma run_list_steps ncpu me kst l s : exists n, smp_steps ncpu me kst s n (run_list ncpu me kst l s).
Proof.
  induction l as [|c l [n IH]] using rev_ind; [exists O; apply smp_refl|].
  exists (S n). unfold run_list. rewrite fold_left_app. eapply smp_more; [exact IH|]. apply cpu_runs.
Qed.

Definition demo_smp : smp :=
  mkSmp BspLock {[0 := ApHalted; 2 := ApHalted]} ∅ {[1 := CPU_STARTED]} 0 None.
(** Processor 0 polls the lock once in vain, and the boot processor the status. *)
Definition demo_list : list (option Z) :=
  [None; None; None; None; Some 0; Some 0; Some 0; None; None; None; None; Some 2; Some 2; None; None; None;
   Some 2; Some 2; Some 0].
Definition demo_kstacks : Z := 0xf0200000.

Lemma demo_smp_initial : smp_initial 3 1 demo_smp.
Proof.
  split_and!; [done|done| |].
  - intros i. unfold demo_smp. cbn [ap].
    destruct (decide (i = 0)) as [->|H0]; [done|]. destruct (decide (i = 2)) as [->|H2]; [done|].
    rewrite lookup_insert_ne, lookup_singleton_ne, bool_decide_false; [done|lia|done..].
  - intros i Hi. unfold demo_smp. cbn [status]. by rewrite lookup_singleton_ne.
Qed.

Lemma smp_startup_safe_witness :
  let s := run_list 3 1 demo_kstacks demo_list demo_smp in
  ap s !! 0 = Some ApSched /\ big_lock s = Some 0 /\
    ap_stack s !! 0 = Some (demo_kstacks + KSTKSIZE) /\
    ap_stack s !! 2 = Some (demo_kstacks + 3 * KSTKSIZE).
Proof.
  cbv zeta. destruct (run_list_steps 3 1 demo_kstacks demo_list demo_smp) as [n Hs].
  assert (ap (run_list 3 1 demo_kstacks demo_list demo_smp) !! 0 = Some ApSched) as H0 by by vm_compute.
  assert (ap (run_list 3 1 demo_kstacks demo_list demo_smp) !! 2 = Some ApUser) as H2 by by vm_compute.
  destruct (smp_startup_safe 3 1 demo_kstacks demo_smp n _ ltac:(done) demo_smp_initial Hs)
    as (Hst & _ & Hl & _ & _).
  split; [exact H0|]. split; [exact (proj2 (Hl 0 _ H0 (or_introl eq_refl)))|].
  split; [by apply (Hst 0 _ H0)|by apply (Hst 2 _ H2)].
Defined.

(** The processors in turn, of which each enters the monitor if it gets there. *)
Definition round_robin : schedule := fun n =>
  (match (n mod 3)%nat with O => None | 1%nat => Some 0 | _ => Some 2 end, EntersMonitor).

Lemma round_robin_fair : fair 3 1 round_robin.
Proof.
  assert (forall n r, (r < 3)%nat -> exists k, (n <= k)%nat /\ (k mod 3 = r)%nat) as H.
  { intros n r Hr. exists (3 * n + r)%nat. split; [lia|].
    rewrite Nat.Div0.add_mod, (Nat.mul_comm 3 n), Nat.Div0.mod_mul, Nat.add_0_l, Nat.Div0.mod_mod. by apply Nat.mod_small. }
  intros c Hc n. destruct Hc as [->|(i & -> & Hi & Hne)].
  - destruct (H n 0%nat ltac:(lia)) as (k & Hk & Er). exists k. unfold round_robin. by rewrite Er.
  - assert (i = 0 \/ i = 2) as [-> | ->] by lia.
    + destruct (H n 1%nat ltac:(lia)) as (k & Hk & Er). exists k. unfold round_robin. by rewrite Er.
    + destruct (H n 2%nat ltac:(lia)) as (k & Hk & Er). exists k. unfold round_robin. by rewrite Er.
Qed.

Lemma smp_startup_ends_witness :
  exists n, booted (exec 3 1 demo_kstacks round_robin n demo_smp) /\
    ap (exec 3 1 demo_kstacks round_robin (60 + n) demo_smp) !! 2 = Some ApLock.
Proof.
  destruct (smp_startup_ends 3 1 demo_kstacks round_robin demo_smp ltac:(done) demo_smp_initial
    round_robin_fair) as ((n & Hn) & _ & Hm).
  exists n. split; [apply (Hn n); lia|].
  apply (Hm 60%nat (60 + n)%nat); [vm_compute; reflexivity|lia|lia|lia].
Defined.
