(* ===== verification/Init.v ===== *)
(** * Init: the kernel's entry, kern/init.c

    i386_init runs on the boot processor, boot_aps starts the others, each of which
    runs mp_main.  While boot_aps waits for a processor, that one executes the first
    part of mp_main; Smp.v shows that nothing else runs meanwhile, so the two are
    composed in sequence here. *)

From S2P Require Import Prelude Layout Segments Memory CString Kernel PageAlloc PageTable Env Sched Trap MemInit MpConfig Lapic Console.

Section Init.
(** The CMOS; addresses the linker chooses; what port 0x23 reads; the entry code of
    the traps; the task state segments; the code of mpentry.S; the program. *)
Context (cmos : Z -> Z) (end_ bootstack percpu_kstacks imcr : Z) (th ts_addr : Z -> Z).
Context (mpentry_start mpentry_end program : Z).
Context `{LocalApic}.

(** ** Warnings *)

(** _warn: the message without the monitor. *)
Definition _warn (file : string) (line : Z) (fmt : string) (args : list Z) : K unit :=
  _ ← tell (Cprints "kernel warning at %s:%d: " [line] [file]);
  Kernel.cprintf fmt args.

(** ** The other processors *)

(** mp_main up to the point where it tells boot_aps that it is up. *)
Definition mp_main_setup : K unit :=
  kp ← get kern_pgdir;
  pa ← PADDR kp;
  _ ← lcr3 pa;
  me ← get Kernel.cpunum;
  _ ← Kernel.cprintf "SMP: CPU %d starting" [me];
  _ ← lapic_init;
  _ ← env_init_percpu;
  _ ← trap_init_percpu ts_addr;
  upd_cpu (set_cpu_status CPU_STARTED).

Definition mp_main : K unit :=
  _ ← mp_main_setup;
  _ ← lock_kernel;
  sched_yield.

(** [m] executed by processor [c], which has registers of its own; the caller's
    are as before when it is back. *)
Definition on_cpu (c : Z) (m : K unit) : K unit := fun s =>
  match m (Kernel.set_cpunum c s) with
  | Ok _ t => Ok tt (set_cr3 (cr3 s) (set_cr2 (cr2 s) (set_cr0 (cr0 s) (Kernel.set_cpunum (Kernel.cpunum s) t))))
  | Leave e t => Leave e t
  | Undef => Undef
  end.

Definition kmemmove (dst src n : Z) : K unit := fun s =>
  if (dst <? KERNBASE) || (src <? KERNBASE) then Undef
  else Ok tt (set_mem (memmove (mem s) (dst - KERNBASE) (src - KERNBASE) n) s).

Definition get_cpu (c : Z) : K CpuInfo := fun s =>
  match cpus s !! c with Some v => Ok v s | None => Undef end.

(** One turn of the loop of boot_aps. *)
Definition boot_ap (code c : Z) : K unit :=
  me ← get Kernel.cpunum;
  if c =? me then mret tt
  else
    v ← get_cpu c;
    _ ← modify (set_mpentry_kstack (percpu_kstack percpu_kstacks c + KSTKSIZE));
    pa ← PADDR code;
    _ ← lapic_startap (cpu_id v) pa;
    _ ← on_cpu c mp_main_setup;
    v ← get_cpu c;
    if bool_decide (cpu_status v = CPU_STARTED) then mret tt else leave Spinning.

Definition boot_aps : K unit :=
  code ← KADDR MPENTRY_PADDR;
  _ ← kmemmove code mpentry_start (mpentry_end - mpentry_start);
  n ← get ncpu;
  kfor (Z.to_nat n) 0 (boot_ap code).

(** ** The boot processor *)

Section Bsp.
(** The console's devices. *)
Context {hw : Type} (inb : Z -> hw -> Z * hw) (outb : Z -> Z -> hw -> hw).
Context (vread : Z -> hw -> Z) (vwrite : Z -> Z -> hw -> hw).

(** With the console's drivers as an argument; [ENV_CREATE] names the program that
    is linked in. *)
Definition i386_init (fuel : nat) (con : drv hw * ring) : K (drv hw * ring) :=
  match cons_init inb outb vread vwrite fuel con with
  | None => leave NoFuel
  | Some con =>
      _ ← Kernel.cprintf "6828 decimal is %o octal!" [6828];
      _ ← mem_init cmos end_ bootstack percpu_kstacks;
      _ ← env_init;
      _ ← trap_init th ts_addr;
      _ ← mp_init imcr;
      _ ← lapic_init;
      let con := (pic_init inb outb vread vwrite con.1, con.2) in
      _ ← lock_kernel;
      _ ← boot_aps;
      _ ← env_create program ENV_TYPE_USER;
      _ ← sched_yield;
      mret con
  end.
End Bsp.
End Init.

(** ** What boot_aps leaves *)

(** The descriptor of the task state of CPU [i], loaded by ltr, and its record. *)
Definition tss_desc (ts_addr : Z -> Z) (i : Z) : Segdesc :=
  set_sd_s 0 (SEG16 STS_T32A (ts_addr i) sizeof_Taskstate 0).
Definition cpu_up (v : CpuInfo) : CpuInfo :=
  set_cpu_status CPU_STARTED
    (set_ts_ss0 GD_KD (set_ts_esp0 (u32 (KSTACKTOP - cpu_id v * (KSTKSIZE + KSTKGAP))) v)).

(** Page directory [d] of the kernel has a table at [T] for the window of MMIO, whose
    next free page is [base]; the controller is at [la].  The tables are not in the
    pages of the BIOS data and of the entry code. *)
Record mmio_ready (d T la base : Z) (t : kstate) : Prop := {
  mr_npages : 8 <= npages t <= MAXPAGES;
  mr_kern : kern_pgdir t = KERNBASE + d;
  mr_la : lapicaddr t = la;
  mr_base : mmio_base t = base;
  mr_pde : present (load32 (mem t) (slot d 958)) = true;
  mr_table : PTE_ADDR (load32 (mem t) (slot d 958)) = T;
}.
Record mmio_place (d T la : Z) : Prop := {
  mp_d : 0 <= d /\ d mod 4096 = 0 /\ d <> 0 /\ d <> MPENTRY_PADDR;
  mp_T : T mod 4096 = 0 /\ T <> 0 /\ T <> MPENTRY_PADDR /\ T <> d;
  mp_la : 0 < la /\ la mod 4096 = 0 /\ la + 0x2000 <= 0x100000000;
}.
Definition mmio_entry (la : Z) : Z := Z.lor (Z.lor la PTE_P) (Z.lor (Z.lor PTE_PCD PTE_PWT) PTE_W).
(** The index in the table of the page at [base]. *)
Definition mmio_index (base : Z) : Z := (base - MMIOBASE) / 4096.

Section Aps.
Context (d T la : Z) (Hpl : mmio_place d T la).

(** One page of the window, its table being there. *)
Definition mmio_mapped (base : Z) (t : kstate) : kstate :=
  set_mmio_base (base + 4096)
    (set_mem (store32 (mem t) (slot T (mmio_index base)) (mmio_entry la)) t).

Lemma mmio_one base t :
  mmio_ready d T la base t -> T < npages t * 4096 ->
  MMIOBASE <= base -> base mod 4096 = 0 -> base + 4096 < MMIOLIM ->
  mmio_map_region la 4096 t = Ok base (mmio_mapped base t).
Proof using Hpl.
  intros [Hn Hk _ Hb Hp HT] HTn Hb1 Hb2 Hb3. destruct Hpl as [Pd PT Pl].
  change MMIOBASE with 0xef800000 in *. change MMIOLIM with 0xefc00000 in *.
  assert (PDX base = 958) as EX by (rewrite PDX_div, u32_small by lia; zlia).
  assert (PTX base = mmio_index base) as EY.
  { rewrite PTX_div, u32_small by lia. unfold mmio_index. change MMIOBASE with 0xef800000. zlia. }
  unfold mmio_map_region. cbv zeta. unfold PGSIZE.
  assert (ROUNDUP (la + 4096) 4096 = la + 4096) as ->.
  { pose proof (ROUNDUP_spec (la + 4096) 4096 ltac:(lia)) as H.
    rewrite u32_small in H by lia. destruct (H ltac:(lia)) as [H1 H2]. zlia. }
  assert (ROUNDDOWN la 4096 = la) as -> by (rewrite ROUNDDOWN_mul, u32_small by lia; zlia).
  replace (la + 4096 - la) with 4096 by lia. rewrite (u32_small 4096) by lia.
  rewrite bind_get, Hb, u32_small, Z.geb_leb by lia. change MMIOLIM with 0xefc00000.
  rewrite (proj2 (Z.leb_gt _ _)) by lia. rewrite bind_get, Hk.
  assert (boot_map_region (KERNBASE + d) base 4096 la (Z.lor (Z.lor PTE_PCD PTE_PWT) PTE_W) t =
    Ok tt (set_mem (store32 (mem t) (slot T (mmio_index base)) (mmio_entry la)) t)) as E.
  { unfold boot_map_region. change (Z.to_nat _) with 1%nat. cbn [kfor].
    assert (u32 (base + 0 * PGSIZE) = base) as -> by (rewrite u32_small; lia).
    assert (u32 (la + 0 * PGSIZE) = la) as -> by (rewrite u32_small; lia).
    assert (pgdir_walk (KERNBASE + d) base 1 t = Ok (Some (KERNBASE + slot T (mmio_index base))) t) as Ew.
    { unfold pgdir_walk. cbv zeta. rewrite EX, EY.
      replace (KERNBASE + d + 4 * 958) with (KERNBASE + slot d 958) by (unfold slot; lia).
      kstep (kload32_run t (slot d 958) ltac:(unfold slot; lia)). rewrite Hp. cbn [negb].
      rewrite bind_ret. kstep (kload32_run t (slot d 958) ltac:(unfold slot; lia)). rewrite HT.
      pose proof (PTE_ADDR_range (load32 (mem t) (slot d 958))) as Hr. rewrite HT in Hr.
      kstep (KADDR_run t T ltac:(lia) ltac:(lia)). unfold mret, K_ret, slot. do 2 f_equal. lia. }
    rewrite bind_assoc. kstep Ew. cbn beta iota.
    pose proof (PTE_ADDR_range (load32 (mem t) (slot d 958))) as Hr. rewrite HT in Hr.
    erewrite bind_ok; [reflexivity|]. rewrite kstore32_run; [reflexivity|].
    unfold slot, mmio_index. change MMIOBASE with 0xef800000. zlia. }
  kstep E. rewrite bind_modify, bind_get. cbn [mmio_base set_mmio_base set_mem].
  unfold mmio_mapped, mret, K_ret.
  by replace (u32 (base + 4096 - 4096)) with base by (rewrite u32_small; lia).
Qed.

Lemma slot_dir_page : 0x1000 <= slot d 958 /\ (slot d 958 + 4 <= MPENTRY_PADDR \/ MPENTRY_PADDR + 4096 <= slot d 958).
Proof using Hpl. destruct (mp_d _ _ _ Hpl) as (? & ? & ? & ?). change MPENTRY_PADDR with 0x7000 in *. unfold slot. zlia. Qed.

(** *** One processor *)

Context (ts_addr : Z -> Z).
Context `{HL : LocalApic}.

Lemma trap_init_percpu_run s v :
  cpus s !! Kernel.cpunum s = Some v -> 0 <= cpu_id v < 8 -> length (gdt s) = length gdt0 ->
  trap_init_percpu ts_addr s =
    Ok tt (set_log (Lidt :: Ltr (GD_TSS0 + 8 * cpu_id v) :: log s)
      (set_gdt (<[Z.to_nat (5 + cpu_id v) := tss_desc ts_addr (cpu_id v)]> (gdt s))
        (set_cpus (<[Kernel.cpunum s := set_ts_ss0 GD_KD
           (set_ts_esp0 (u32 (KSTACKTOP - cpu_id v * (KSTKSIZE + KSTKGAP))) v)]> (cpus s)) s))).
Proof using Type.
  intros Hv Hc Hg. unfold trap_init_percpu. kstep (thiscpu_run s v Hv). cbv zeta.
  kstep (upd_cpu_run s v (set_ts_esp0 (u32 (KSTACKTOP - cpu_id v * (KSTKSIZE + KSTKGAP)))) Hv).
  erewrite bind_ok; [|apply upd_cpu_run; cbn [cpus Kernel.cpunum set_cpus]; apply lookup_insert_eq].
  rewrite !bind_modify. unfold ltr. rewrite bind_tell. cbn [cpus Kernel.cpunum set_cpus gdt set_gdt log set_log].
  change (Z.shiftr GD_TSS0 3) with 5. rewrite insert_insert_eq, !list_insert_alter, list_alter_alter_eq.
  reflexivity.
Qed.

(** Events that are not writes of the controller's registers. *)
Definition is_lapicw (e : event) : bool := match e with Lapicw _ _ => true | _ => false end.
Lemma writes_other e l : is_lapicw e = false -> writes (e :: l) = writes l.
Proof using Type.
  intros He. change (e :: l) with ([e] ++ l). rewrite writes_app. by destruct e; rewrite ?app_nil_r.
Qed.

(** What [mp_main_setup] leaves, but for the log. *)
Definition ap_done (i : Z) (v : CpuInfo) (base : Z) (t : kstate) : kstate :=
  set_lapic base
    (set_gdt (<[Z.to_nat (5 + i) := tss_desc ts_addr i]> (gdt t))
      (set_cpus (<[i := cpu_up v]> (cpus t)) (mmio_mapped base t))).

Context (ver : Z) (Hver : forall l, lapic_reg VER l = ver).

Lemma mp_main_setup_run i v base t :
  mmio_ready d T la base t -> T < npages t * 4096 ->
  MMIOBASE <= base -> base mod 4096 = 0 -> base + 4096 < MMIOLIM ->
  cpus t !! i = Some v -> cpu_id v = i -> 0 <= i < 8 -> length (gdt t) = length gdt0 ->
  exists l, on_cpu i (mp_main_setup ts_addr) t = Ok tt (set_log l (ap_done i v base t)) /\
    writes l = writes (log t) ++ init_writes (i =? bootcpu t) ver.
Proof using Hpl Hver.
  intros Hr HT Hb1 Hb2 Hb3 Hv Hi Hi8 Hg.
  set (t1 := set_log (Cprintf "SMP: CPU %d starting" [i] :: log t) (set_cr3 d (Kernel.set_cpunum i t))).
  assert (mmio_ready d T la base t1) as Hr1 by (by destruct Hr).
  assert (mmio_map_region la 4096 t1 = Ok base (mmio_mapped base t1)) as Em by (by apply mmio_one).
  destruct (proj2 (lapic_init_programs t1 ver Hver)) with (va := base) (t := mmio_mapped base t1) as (l & El & Wl).
  { rewrite (mr_la _ _ _ _ _ Hr1). pose proof (mp_la _ _ _ Hpl). lia. }
  { rewrite (mr_la _ _ _ _ _ Hr1). exact Em. }
  { change MMIOBASE with 0xef800000 in Hb1. lia. }
  assert (exists l', mp_main_setup ts_addr (Kernel.set_cpunum i t) =
    Ok tt (set_log l' (ap_done i v base t1)) /\ writes l' = writes l) as (l' & E & W).
  { unfold mp_main_setup. rewrite bind_get. change (kern_pgdir (Kernel.set_cpunum i t)) with (kern_pgdir t).
    rewrite (mr_kern _ _ _ _ _ Hr). kstep (PADDR_kva d (Kernel.set_cpunum i t) ltac:(pose proof (mp_d _ _ _ Hpl); lia)).
    unfold lcr3. rewrite bind_modify, bind_get. unfold Kernel.cprintf. rewrite bind_tell.
    change (set_log _ (set_cr3 d (Kernel.set_cpunum i t))) with t1. kstep El.
    unfold env_init_percpu. rewrite bind_tell.
    set (t2 := set_log _ (set_log l _)).
    assert (cpus t2 !! Kernel.cpunum t2 = Some v) as Hv2 by exact Hv.
    kstep (trap_init_percpu_run t2 v Hv2 ltac:(lia) Hg).
    eexists. split.
    { erewrite upd_cpu_run by apply lookup_insert_eq. rewrite Hi. cbn [Kernel.cpunum set_log set_gdt set_cpus]. cbn [cpus set_log set_gdt set_cpus].
      rewrite insert_insert_eq. unfold ap_done, cpu_up. rewrite Hi. reflexivity. }
    change (writes (Lidt :: Ltr (GD_TSS0 + 8 * i) :: Lgdt :: l) = writes l).
    by rewrite !writes_other. }
  exists l'. split; [unfold on_cpu; rewrite E; by destruct t|].
  rewrite W, Wl. change (log (mmio_mapped base t1)) with (Cprintf "SMP: CPU %d starting" [i] :: log t).
  by rewrite writes_other.
Qed.

Context (percpu_kstacks : Z).

(** The stack for mpentry.S and the warm reset vector. *)
Definition reset_vector (i : Z) (t : kstate) : kstate :=
  set_mem (store16 (store16 (mem t) 0x467 0) 0x469 (MPENTRY_PADDR / 16))
    (set_mpentry_kstack (percpu_kstack percpu_kstacks i + KSTKSIZE) t).

Lemma load8_reset i t a : 0x1000 <= a -> load8 (mem (reset_vector i t)) a = load8 (mem t) a.
Proof using Type. intros Ha. cbn [reset_vector mem set_mem]. unfold store16. by rewrite !load8_store8_ne by lia. Qed.

Lemma load32_reset i t a : 0x1000 <= a -> load32 (mem (reset_vector i t)) a = load32 (mem t) a.
Proof using Type. intros Ha. apply load32_ext. intros x Hx. apply load8_reset. lia. Qed.

Lemma ready_mem base t t' :
  mmio_ready d T la base t -> npages t' = npages t -> kern_pgdir t' = kern_pgdir t ->
  lapicaddr t' = lapicaddr t -> load32 (mem t') (slot d 958) = load32 (mem t) (slot d 958) ->
  mmio_ready d T la (mmio_base t') t'.
Proof using Type. intros [H1 H2 H3 H4 H5 H6] E1 E2 E3 E4. by split; rewrite ?E1, ?E2, ?E3, ?E4. Qed.

Lemma ready_reset i base t : mmio_ready d T la base t -> mmio_ready d T la base (reset_vector i t).
Proof using Hpl.
  intros H. rewrite <- (mr_base _ _ _ _ _ H). change (mmio_base t) with (mmio_base (reset_vector i t)).
  eapply ready_mem; [exact H|done..|]. apply load32_reset, slot_dir_page.
Qed.

(** What the controllers are told in the turn of processor [i]. *)
Definition turn_writes (boot i : Z) : list (Z * Z) :=
  startap_writes i (MPENTRY_PADDR / PGSIZE) ++ init_writes (i =? boot) ver.

Lemma boot_ap_run i v base t :
  i <> Kernel.cpunum t -> lapic t <> 0 ->
  mmio_ready d T la base t -> T < npages t * 4096 ->
  MMIOBASE <= base -> base mod 4096 = 0 -> base + 4096 < MMIOLIM ->
  cpus t !! i = Some v -> cpu_id v = i -> 0 <= i < 8 -> length (gdt t) = length gdt0 ->
  exists l, boot_ap percpu_kstacks ts_addr (KERNBASE + MPENTRY_PADDR) i t =
    Ok tt (set_log l (ap_done i v base (reset_vector i t))) /\
    writes l = writes (log t) ++ turn_writes (bootcpu t) i.
Proof using Hpl Hver.
  intros Hne Hl Hr HT Hb1 Hb2 Hb3 Hv Hi Hi8 Hg. unfold boot_ap. rewrite bind_get.
  rewrite (proj2 (Z.eqb_neq _ _)) by done.
  assert (get_cpu i t = Ok v t) as Eg by (unfold get_cpu; by rewrite Hv). kstep Eg.
  rewrite bind_modify. set (t0 := set_mpentry_kstack _ t).
  kstep (PADDR_kva MPENTRY_PADDR t0 ltac:(vm_compute; discriminate)). rewrite Hi.
  destruct (lapic_startap_starts i MPENTRY_PADDR t0 Hl) as (evs & Es & _ & _ & Ws);
    [pose proof (mr_npages _ _ _ _ _ Hr) as Hn; change (npages t0) with (npages t); lia|lia|vm_compute; split; congruence|reflexivity|].
  kstep Es. set (t1 := set_log _ _). change (set_mem _ _) with (reset_vector i t) in t1.
  destruct (mp_main_setup_run i v base t1) as (l & El & Wl); try done.
  { pose proof (ready_reset i base t Hr) as [? ? ? ? ? ?]. by split. }
  kstep El. assert (get_cpu i (set_log l (ap_done i v base t1)) = Ok (cpu_up v) (set_log l (ap_done i v base t1))) as Eg2.
  { unfold get_cpu. cbn [cpus set_log ap_done set_lapic set_gdt set_cpus]. by rewrite lookup_insert_eq. }
  kstep Eg2. exists l. split; [reflexivity|]. rewrite Wl. change (log t1) with (rev evs ++ log t).
  unfold turn_writes. by rewrite writes_app, Ws, <- app_assoc.
Qed.

(** *** All of them *)

(** The processors below [j] other than [me]. *)
Definition others (me j : Z) : Z := if me <? j then j - 1 else j.

(** Whether [boot_aps] has started processor [i] before its turn for [j]. *)
Definition started (me j i : Z) : bool := (0 <=? i) && (i <? j) && negb (i =? me).

(** What the controllers are told in the turns before [j]. *)
Definition all_writes (me boot j : Z) : list (Z * Z) :=
  concat (turn_writes boot <$> filter (fun i => i <> me) (seqZ 0 j)).

Lemma all_writes_next me boot j :
  0 <= j -> all_writes me boot (j + 1) =
    all_writes me boot j ++ (if j =? me then [] else turn_writes boot j).
Proof using Type.
  intros Hj. unfold all_writes. rewrite seqZ_app, list.filter_app, fmap_app, concat_app by lia. f_equal.
  rewrite Z.add_0_l, seqZ_cons, seqZ_nil by lia.
  destruct (Z.eqb_spec j me) as [->|Hne].
  - by rewrite filter_cons_False by (intros E; by apply E).
  - rewrite filter_cons_True by done. cbn. by rewrite app_nil_r.
Qed.

Record aps_inv (s : kstate) (j : Z) (t : kstate) : Prop := {
  ai_ready : mmio_ready d T la (mmio_base s + 4096 * others (Kernel.cpunum s) j) t;
  ai_lapic : lapic t <> 0;
  ai_cpunum : Kernel.cpunum t = Kernel.cpunum s;
  ai_cr3 : cr3 t = cr3 s;
  ai_npages : npages t = npages s;
  ai_gdt_length : length (gdt t) = length (gdt s);
  ai_cpus : forall i, cpus t !! i =
    if started (Kernel.cpunum s) j i then cpu_up <$> (cpus s !! i) else cpus s !! i;
  ai_gdt : forall i, 0 <= i -> gdt t !! Z.to_nat (5 + i) =
    if started (Kernel.cpunum s) j i then Some (tss_desc ts_addr i) else gdt s !! Z.to_nat (5 + i);
  ai_map : forall k, 0 <= k < others (Kernel.cpunum s) j ->
    load32 (mem t) (slot T (mmio_index (mmio_base s) + k)) = mmio_entry la;
  ai_bootcpu : bootcpu t = bootcpu s;
  ai_writes : writes (log t) = writes (log s) ++
    all_writes (Kernel.cpunum s) (bootcpu s) j;
  ai_code : forall a, MPENTRY_PADDR <= a < MPENTRY_PADDR + 4096 -> load8 (mem t) a = load8 (mem s) a;
}.

Lemma aps_inv_start s : mmio_ready d T la (mmio_base s) s -> lapic s <> 0 -> 0 <= Kernel.cpunum s -> aps_inv s 0 s.
Proof using Type.
  intros Hr Hl Hme. assert (others (Kernel.cpunum s) 0 = 0) as E0
    by (unfold others; by rewrite (proj2 (Z.ltb_ge _ _)) by lia).
  assert (forall i, started (Kernel.cpunum s) 0 i = false) as Es.
  { intros i. unfold started. destruct (Z.leb_spec 0 i), (Z.ltb_spec i 0); (done || lia). }
  split; try done; rewrite ?E0.
  - by rewrite Z.mul_0_r, Z.add_0_r.
  - intros i. by rewrite Es.
  - intros i _. by rewrite Es.
  - lia.
  - unfold all_writes. change (seqZ 0 0) with (@nil Z). cbn. by rewrite app_nil_r.
Qed.

(** The turn of the processor that runs boot_aps. *)
Lemma aps_inv_me s j t : Kernel.cpunum s = j -> 0 <= j -> aps_inv s j t -> aps_inv s (j + 1) t.
Proof using Type.
  intros <- Hj [H1 H2 H3 H4 H5 H6 H7 H8 H9 H11 H12 H10].
  assert (others (Kernel.cpunum s) (Kernel.cpunum s + 1) = others (Kernel.cpunum s) (Kernel.cpunum s)) as Eo.
  { unfold others. rewrite Z.ltb_irrefl, (proj2 (Z.ltb_lt _ _)); lia. }
  assert (forall i, started (Kernel.cpunum s) (Kernel.cpunum s + 1) i =
    started (Kernel.cpunum s) (Kernel.cpunum s) i) as Es.
  { intros i. unfold started. destruct (Z.eqb_spec i (Kernel.cpunum s)); [by rewrite !andb_false_r|].
    do 2 f_equal. apply eq_true_iff_eq. rewrite !Z.ltb_lt. lia. }
  split; rewrite ?Eo; try done; [intros i; rewrite Es; eauto..|].
  by rewrite H12, all_writes_next, Z.eqb_refl, app_nil_r by lia.
Qed.

Lemma load8_ap_done i v base t a :
  0 <= T < 0x100000000 -> MPENTRY_PADDR <= a < MPENTRY_PADDR + 4096 ->
  MMIOBASE <= base < MMIOLIM -> load8 (mem (ap_done i v base (reset_vector i t))) a = load8 (mem t) a.
Proof using Hpl.
  intros HT Ha Hb. destruct (mp_T _ _ _ Hpl) as (HTa & _ & HT7 & _). cbn [ap_done set_lapic set_gdt set_cpus mmio_mapped set_mmio_base set_mem mem].
  change MPENTRY_PADDR with 0x7000 in *. change MMIOBASE with 0xef800000 in *. change MMIOLIM with 0xefc00000 in *.
  rewrite load8_store32, !decide_False; [apply load8_reset; lia|..];
    unfold slot, mmio_index; change MMIOBASE with 0xef800000; clear Hver HL ts_addr; zlia.
Qed.

Lemma others_next me j : j <> me -> others me (j + 1) = others me j + 1.
Proof using Type. intros H. unfold others. destruct (Z.ltb_spec me j), (Z.ltb_spec me (j + 1)); lia. Qed.

Lemma started_next me j i :
  j <> me -> 0 <= j -> started me (j + 1) i = if i =? j then true else started me j i.
Proof using Type.
  intros H Hj. unfold started. destruct (Z.eqb_spec i j) as [->|Hne].
  - rewrite (proj2 (Z.leb_le _ _)), (proj2 (Z.ltb_lt _ _)), (proj2 (Z.eqb_neq _ _)) by lia. done.
  - do 2 f_equal. apply eq_true_iff_eq. rewrite !Z.ltb_lt. lia.
Qed.

Lemma started_self me j : started me j j = false.
Proof using Type. unfold started. by rewrite Z.ltb_irrefl, andb_false_r. Qed.

(** The entries that the tables have. *)
Lemma load32_ap_done i v base t g k :
  0 <= k < 1024 -> g mod 4096 = 0 -> 0x1000 <= g -> MMIOBASE <= base < MMIOLIM ->
  load32 (mem (ap_done i v base (reset_vector i t))) (slot g k) =
    if decide (T = g /\ mmio_index base = k) then mmio_entry la else load32 (mem t) (slot g k).
Proof using Hpl.
  intros Hk Hg Hg1 Hb. destruct (mp_T _ _ _ Hpl) as (HTa & _).
  cbn [ap_done set_lapic set_gdt set_cpus mmio_mapped set_mmio_base set_mem mem].
  change (store16 (store16 (mem t) 0x467 0) 0x469 (MPENTRY_PADDR / 16)) with (mem (reset_vector i t)).
  assert (0 <= mmio_index base < 1024) as Hi.
  { unfold mmio_index. change MMIOBASE with 0xef800000 in *. change MMIOLIM with 0xefc00000 in Hb.
    clear Hver HL ts_addr. zlia. }
  rewrite load_slot_store by done. rewrite load32_reset by (unfold slot; lia).
  case_decide; [|done]. apply u32_small. unfold mmio_entry. destruct (mp_la _ _ _ Hpl) as (L1 & L2 & L3).
  clear Hver HL ts_addr. apply (lor_range _ _ 32); [lia| |by vm_compute].
  apply (lor_range _ _ 32); [lia|lia|by vm_compute].
Qed.

Lemma mem_set_log l t : mem (set_log l t) = mem t.
Proof using Type. done. Qed.

Lemma mmio_index_bound base : MMIOBASE <= base < MMIOLIM -> mmio_index base < 1024.
Proof using Type.
  intros Hb. clear - Hb. unfold mmio_index. change MMIOBASE with 0xef800000 in *. change MMIOLIM with 0xefc00000 in *. zlia.
Qed.

Lemma aps_inv_next s j v t l :
  let base := mmio_base s + 4096 * others (Kernel.cpunum s) j in
  aps_inv s j t -> j <> Kernel.cpunum s -> 0 <= j < 8 -> length (gdt s) = length gdt0 -> 
  0 <= T < 0x100000000 -> MMIOBASE <= mmio_base s -> mmio_base s mod 4096 = 0 ->
  0 <= Kernel.cpunum s -> base + 4096 < MMIOLIM -> cpus s !! j = Some v ->
  writes l = writes (log t) ++ turn_writes (bootcpu t) j ->
  aps_inv s (j + 1) (set_log l (ap_done j v base (reset_vector j t))).
Proof using Hpl.
  intros base [H1 H2 H3 H4 H5 H6 H7 H8 H9 H11 H12 H10] Hj Hj8 Hg HT Hb Hba Hme Hbl Hv Hw.
  assert (0 <= others (Kernel.cpunum s) j) as Ho by (unfold others; case_if; bcomp; lia).
  assert (MMIOBASE <= base < MMIOLIM) as Hbr by (unfold base; lia).
  pose proof slot_dir_page as [Hsd _].
  assert (forall k, 0 <= k -> mmio_index (mmio_base s + 4096 * k) = mmio_index (mmio_base s) + k) as Hix.
  { intros k Hk. clear - Hk. unfold mmio_index. change MMIOBASE with 0xef800000 in *. zlia. }
  assert (0 <= mmio_index (mmio_base s)) as Hi0
    by (clear - Hb; unfold mmio_index; change MMIOBASE with 0xef800000 in *; zlia).
  destruct (mp_d _ _ _ Hpl) as (D1 & D2 & D3 & _). destruct (mp_T _ _ _ Hpl) as (T1 & T2 & _ & T4).
  split; rewrite ?others_next by done.
  - replace (mmio_base s + 4096 * (others (Kernel.cpunum s) j + 1)) with (base + 4096) by (unfold base; lia).
    change (base + 4096) with (mmio_base (set_log l (ap_done j v base (reset_vector j t)))).
    eapply ready_mem; [exact H1|done..|]. rewrite mem_set_log.
    rewrite load32_ap_done by (done || (clear - D1 D2 D3; zlia)). by rewrite decide_False by (intros [E _]; congruence).
  - change MMIOBASE with 0xef800000 in *. cbn. lia.
  - done.
  - done.
  - done.
  - cbn. by rewrite length_insert.
  - intros i. cbn [cpus set_log ap_done set_lapic set_gdt set_cpus]. rewrite started_next by lia.
    destruct (Z.eqb_spec i j) as [->|Hij]; [by rewrite lookup_insert_eq, Hv|].
    rewrite lookup_insert_ne by done. apply H7.
  - intros i Hi. cbn [gdt set_log ap_done set_lapic set_gdt set_cpus]. rewrite started_next by lia.
    destruct (Z.eqb_spec i j) as [->|Hij].
    + rewrite list_lookup_insert_eq; [done|]. cbn. rewrite H6, Hg. change (length gdt0) with 13%nat. lia.
    + rewrite list_lookup_insert_ne by lia. by apply H8.
  - intros k Hk. rewrite mem_set_log.
    pose proof (mmio_index_bound base Hbr) as Hi1. unfold base in Hi1. rewrite Hix in Hi1 by lia.
    rewrite load32_ap_done by (done || (clear - T1 T2 HT Hk Hi0 Hi1; zlia)).
    unfold base. rewrite Hix by lia. case_decide as E; [done|]. apply H9. lia.
  - done.
  - change (log (set_log l ?u)) with l. rewrite all_writes_next, (proj2 (Z.eqb_neq _ _)) by lia.
    by rewrite Hw, H11, H12, <- app_assoc.
  - intros a Ha. rewrite mem_set_log. rewrite load8_ap_done by done. by apply H10.
Qed.

(** The number of processors is the one that mp_init found. *)
Lemma boot_aps_loop s n :
  mmio_ready d T la (mmio_base s) s -> T < npages s * 4096 -> lapic s <> 0 ->
  MMIOBASE <= mmio_base s -> mmio_base s mod 4096 = 0 ->
  mmio_base s + 4096 * (n - 1) < MMIOLIM -> 0 <= Kernel.cpunum s < n -> n <= 8 ->
  (forall i, 0 <= i < n -> exists v, cpus s !! i = Some v /\ cpu_id v = i) ->
  length (gdt s) = length gdt0 ->
  exists t, kfor (Z.to_nat n) 0 (boot_ap percpu_kstacks ts_addr (KERNBASE + MPENTRY_PADDR)) s = Ok tt t /\ aps_inv s n t.
Proof using Hpl Hver.
  intros Hr HT Hl Hb Hba Hbl Hme Hn Hcpus Hg.
  assert (0 <= T < 0x100000000) as HTr.
  { rewrite <- (mr_table _ _ _ _ _ Hr). pose proof (PTE_ADDR_range (load32 (mem s) (slot d 958))). lia. }
  assert (wp (kfor (Z.to_nat n) 0 (boot_ap percpu_kstacks ts_addr (KERNBASE + MPENTRY_PADDR)))
    (fun _ t => aps_inv s (0 + Z.of_nat (Z.to_nat n)) t) no_exit s) as H.
  { apply (wp_kfor (fun j t => aps_inv s j t)); [apply aps_inv_start; (done || lia)|].
    intros j t Hj Hi. unfold wp. destruct (decide (Kernel.cpunum s = j)) as [E|E].
    { unfold boot_ap. rewrite bind_get, (ai_cpunum _ _ _ Hi), E, Z.eqb_refl. cbn. apply aps_inv_me; (done || lia). }
    destruct (Hcpus j ltac:(lia)) as (v & Hv & Hid).
    assert (mmio_base s + 4096 * others (Kernel.cpunum s) j + 4096 < MMIOLIM) as Hbj.
    { unfold others. destruct (Z.ltb_spec (Kernel.cpunum s) j); lia. }
    assert (0 <= others (Kernel.cpunum s) j) as Ho by (unfold others; case_if; bcomp; lia).
    destruct (boot_ap_run j v (mmio_base s + 4096 * others (Kernel.cpunum s) j) t) as (l & El & Wl);
      [rewrite (ai_cpunum _ _ _ Hi); lia|apply Hi|apply Hi|rewrite (ai_npages _ _ _ Hi); done|lia| |done|
       |done|lia|by rewrite (ai_gdt_length _ _ _ Hi)|].
    { rewrite <- Z.add_mod_idemp_l, Hba by done. rewrite Z.add_0_l, Z.mul_comm. by rewrite Z.mod_mul. }
    { rewrite (ai_cpus _ _ _ Hi), started_self. done. }
    rewrite El. apply aps_inv_next; (done || lia). }
  unfold wp in H. destruct (kfor _ _ _ s) as [[] t|e t|]; [|done..]. exists t. split; [done|].
  by replace (0 + Z.of_nat (Z.to_nat n)) with n in H by lia.
Qed.
End Aps.

Lemma mmio_entry_present la : present (mmio_entry la) = true.
Proof.
  unfold present, mmio_entry. rewrite ctrue_true, !Z.land_lor_distr_l. unfold PTE_P. intros E.
  apply Z.lor_eq_0_iff in E as [E _]. by apply Z.lor_eq_0_iff in E as [_ E].
Qed.

(** C39: boot_aps starts every processor that mp_init found.  It ends, with the code of
    mpentry.S copied to the page whose number the STARTUP interrupt carries; each
    other processor has set its status, its task state with a kernel stack of its
    own and the descriptor of that; the record of the boot processor and the other
    descriptors are as they were; each processor has mapped the local APIC at the
    next page of the window; and the boot processor is in its own address space.  The
    controllers were told, one processor after the other: by the boot processor INIT
    and twice STARTUP with the processor's id and that page, then by the processor
    its own initialisation. *)
Theorem boot_aps_starts `{LocalApic} d T la percpu_kstacks ts_addr ver src size s :
  mmio_place d T la -> (forall l, lapic_reg VER l = ver) ->
  mmio_ready d T la (mmio_base s) s -> T < npages s * 4096 -> lapic s <> 0 ->
  MMIOBASE <= mmio_base s -> mmio_base s mod 4096 = 0 ->
  mmio_base s + 4096 * (ncpu s - 1) < MMIOLIM -> 0 <= Kernel.cpunum s < ncpu s -> ncpu s <= 8 ->
  (forall i, 0 <= i < ncpu s -> exists v, cpus s !! i = Some v /\ cpu_id v = i) ->
  length (gdt s) = length gdt0 ->
  0 <= size <= 4096 -> 0 <= src < 0x10000000 ->
  exists t, boot_aps percpu_kstacks ts_addr (KERNBASE + src) (KERNBASE + src + size) s = Ok tt t /\
    (forall k, 0 <= k < size -> load8 (mem t) (MPENTRY_PADDR + k) = load8 (mem s) (src + k)) /\
    (forall i, 0 <= i < ncpu s -> i <> Kernel.cpunum s ->
      cpus t !! i = cpu_up <$> (cpus s !! i) /\
      gdt t !! Z.to_nat (5 + i) = Some (tss_desc ts_addr i)) /\
    cpus t !! Kernel.cpunum s = cpus s !! Kernel.cpunum s /\
    gdt t !! Z.to_nat (5 + Kernel.cpunum s) = gdt s !! Z.to_nat (5 + Kernel.cpunum s) /\
    (forall k, 0 <= k < ncpu s - 1 ->
      mapping (mem t) d (mmio_base s + 4096 * k) = Some (mmio_entry la)) /\
    mmio_base t = mmio_base s + 4096 * (ncpu s - 1) /\
    writes (log t) = writes (log s) ++ all_writes ver (Kernel.cpunum s) (bootcpu s) (ncpu s) /\
    cr3 t = cr3 s /\ Kernel.cpunum t = Kernel.cpunum s.
Proof.
  intros Hpl Hver Hr HT Hl Hb Hba Hbl Hme Hn Hcpus Hg Hsz Hsrc.
  pose proof (mr_npages _ _ _ _ _ Hr) as Hnp. unfold boot_aps.
  kstep (KADDR_run s MPENTRY_PADDR ltac:(change MPENTRY_PADDR with 0x7000; lia) ltac:(lia)).
  replace (KERNBASE + src + size - (KERNBASE + src)) with size by lia.
  set (s1 := set_mem (memmove (mem s) MPENTRY_PADDR src size) s).
  assert (kmemmove (KERNBASE + MPENTRY_PADDR) (KERNBASE + src) size s = Ok tt s1) as Em.
  { unfold kmemmove. rewrite !(proj2 (Z.ltb_ge _ _)) by (change MPENTRY_PADDR with 0x7000; lia).
    cbn [orb]. rewrite !Z.add_simpl_l. done. }
  kstep Em. rewrite bind_get. change (ncpu s1) with (ncpu s).
  assert (copied (mem s) (mem s1) MPENTRY_PADDR src size) as Hc
    by (apply memmove_copied; change MPENTRY_PADDR with 0x7000; lia).
  assert (load32 (mem s1) (slot d 958) = load32 (mem s) (slot d 958)) as E958.
  { apply load32_ext. intros x Hx. rewrite Hc, decide_False; [done|].
    destruct (slot_dir_page d T la Hpl) as [_ [Hs|Hs]]; lia. }
  assert (mmio_ready d T la (mmio_base s1) s1) as Hr1 by (by apply (ready_mem d T la (mmio_base s) s)).
  destruct (boot_aps_loop d T la Hpl ts_addr ver Hver percpu_kstacks s1 (ncpu s)) as (t & Et & I); try done.
  exists t. destruct I as [I1 I2 I3 I4 I5 I6 I7 I8 I9 I11 I12 I10].
  change (Kernel.cpunum s1) with (Kernel.cpunum s) in *. change (mmio_base s1) with (mmio_base s) in *.
  assert (others (Kernel.cpunum s) (ncpu s) = ncpu s - 1) as Eo
    by (unfold others; by rewrite (proj2 (Z.ltb_lt _ _)) by lia). rewrite Eo in *.
  split_and!; [exact Et| | | | | | |done|done|done].
  - intros k Hk. rewrite I10 by lia. rewrite Hc, decide_True by lia. f_equal. lia.
  - intros i Hi Hne. rewrite I7, I8 by lia. unfold started.
    by rewrite (proj2 (Z.leb_le _ _)), (proj2 (Z.ltb_lt _ _)), (proj2 (Z.eqb_neq _ _)) by lia.
  - rewrite I7. unfold started. by rewrite Z.eqb_refl, !andb_false_r.
  - rewrite I8 by lia. unfold started. by rewrite Z.eqb_refl, !andb_false_r.
  - intros k Hk. pose proof (I9 k Hk) as Ek.
    change MMIOBASE with 0xef800000 in *. change MMIOLIM with 0xefc00000 in *.
    assert (PDX (mmio_base s + 4096 * k) = 958) as EX by (clear - Hb Hba Hbl Hk; rewrite PDX_div, u32_small by lia; zlia).
    assert (PTX (mmio_base s + 4096 * k) = mmio_index (mmio_base s) + k) as EY.
    { clear - Hb Hba Hbl Hk. rewrite PTX_div, u32_small by lia. unfold mmio_index.
      change MMIOBASE with 0xef800000 in *. zlia. }
    unfold mapping, pte, pte_addr, pde. rewrite EX, EY.
    change (d + 4 * 958) with (slot d 958). rewrite (mr_pde _ _ _ _ _ I1), (mr_table _ _ _ _ _ I1).
    change (T + 4 * ?x) with (slot T x). by rewrite Ek, mmio_entry_present.
  - by rewrite (mr_base _ _ _ _ _ I1).
Qed.

(** ** A machine with three processors *)

(** A controller whose interrupts are delivered at once. *)
#[local] Instance quiet_apic : LocalApic :=
  {| lapic_reg := fun _ _ => 0; patience := 1;
     lapic_delivers := fun _ => ex_intro _ O (conj (le_n 1) eq_refl) |}.

(** The second runs boot_aps. *)
Definition three_cpus : kstate :=
  set_cpus (list_to_map ((fun i => (i, mkCpuInfo i (if i =? 1 then CPU_STARTED else CPU_UNUSED) None 0 0)) <$> [0; 1; 2]))
    (set_ncpu 3 (Kernel.set_cpunum 1 (set_bootcpu 1 (set_lapicaddr 0xfee00000 (set_lapic MMIOBASE
      (set_mmio_base (MMIOBASE + 4096) (set_npages 64 (set_kern_pgdir (KERNBASE + 0x1000)
        (set_mem (store8 (store32 ∅ (slot 0x1000 958) 0x2003) 0x8000 0xfa) kstate0))))))))).

Lemma boot_aps_starts_witness :
  exists t, boot_aps (KERNBASE + 0x20000) (fun i => 0xf0100000 + 104 * i) (KERNBASE + 0x8000) (KERNBASE + 0x8000 + 100) three_cpus = Ok tt t /\
    load8 (mem t) MPENTRY_PADDR = 0xfa /\
    cpu_status <$> (cpus t !! 2) = Some CPU_STARTED /\ ts_esp0 <$> (cpus t !! 2) = Some (KSTACKTOP - 2 * 0x10000) /\
    mapping (mem t) 0x1000 (MMIOBASE + 0x2000) = Some (mmio_entry 0xfee00000) /\ cr3 t = cr3 three_cpus.
Proof.
  destruct (boot_aps_starts 0x1000 0x2000 0xfee00000 (KERNBASE + 0x20000) (fun i => 0xf0100000 + 104 * i) 0 0x8000 100 three_cpus)
    as (t & E & Hc & Hi & _ & _ & Hm & _ & _ & H3 & _).
  - split; vm_compute; intuition discriminate.
  - done.
  - split; vm_compute; intuition discriminate.
  - by vm_compute.
  - by vm_compute.
  - by vm_compute.
  - by vm_compute.
  - by vm_compute.
  - vm_compute. intuition discriminate.
  - by vm_compute.
  - intros i Hi. change (ncpu three_cpus) with 3 in Hi.
    assert (i = 0 \/ i = 1 \/ i = 2) as [-> |[-> | ->]] by lia; eexists; split; reflexivity.
  - reflexivity.
  - lia.
  - lia.
  - exists t. destruct (Hi 2) as [E2 _]; [change (0 <= 2 < 3); lia|change (2 <> 1); lia|].
    clear Hi.
    split_and!; [exact E| | | | |exact H3].
    + specialize (Hc 0 ltac:(lia)). rewrite Z.add_0_r in Hc. rewrite Hc. vm_compute. reflexivity.
    + rewrite E2. vm_compute. reflexivity.
    + rewrite E2. vm_compute. reflexivity.
    + exact (Hm 1 ltac:(change (ncpu three_cpus) with 3; lia)).
Defined.
